(* ===== verification/_CoqProject ===== *)
-Q . S2P
Prelude.v
Riscv.v
Mem.v
CString.v
KState.v
Sample.v
Spinlock.v
Memstats.v
Sched.v
Virtio.v
DiskSpec.v
Bio.v
BioSpec.v
Blocks.v
Log.v
LogSpec.v
Txn.v
DiskSample.v
StorageSpec.v
PhysMem.v
Kalloc.v
Swap.v
AllocSpec.v
Vm.v
PageTable.v
Walk.v
VmMap.v
VmAlloc.v
VmFree.v
VmCow.v
VmCopy.v
VmSample.v
VmSpec.v
Fs.v
FsSpec.v
Inode.v
InodeSpec.v
Dinode.v
FileIO.v
FileWrite.v
InodeLock.v
PathSpec.v
Printf.v
Console.v
Pipe.v
PipeSpec.v
File.v
FileSpec.v
ConsoleSpec.v
FileProps.v
Dir.v
DirProps.v
Proc.v
Exec.v
Syscall.v
Trap.v
TrapSpec.v
ProcSpec.v
Discipline.v
Boot.v
BootSpec.v
Asm.v
AsmSpec.v
Grep.v
GrepSpec.v
Umalloc.v
UmallocSpec.v
Ulib.v
Sh.v
ShSpec.v
ShRun.v
ShRunSpec.v
UserProg.v
UserWorld.v
UserProgSpec.v
Stress.v
Usertests.v
Mkfs.v
MkfsSpec.v
MkfsProps.v
