(* ===== verification/Prelude.v ===== *)
(** * xv6-riscv with copy-on-write fork, lazy allocation and page swapping

    A verification of the operating system under src/: the kernel with its
    assembly routines (src/kernel), the image builder mkfs (src/mkfs), and the
    user library and programs (src/user).  The code is translated function by
    function into executable Rocq definitions that keep its names, and the
    theorems are about those definitions.

    ** The program

    A process runs in user space until a trap; trampoline code enters
    [usertrap] (trap.c), which runs a system call (syscall.c, sysproc.c,
    sysfile.c), a page-fault handler or a device interrupt.  Memory: kalloc.c
    hands out reference-counted pages, vm.c builds Sv39 page tables from them,
    [uvmcopy] shares a parent's pages with the child copy-on-write, [cowfault]
    copies on the first store, [vmfault] allocates on first use, swap.c moves
    pages to disk blocks, memstats.c counts it all.  Storage: fs.c (inodes,
    directories, paths) on log.c (a write-ahead log with group commit) on
    bio.c (a cache of disk blocks) on virtio_disk.c (the driver); mkfs.c
    writes the first image.  Files: file.c, pipe.c, console.c and uart.c.
    proc.c has the process table, fork, exit, wait, sleep and wakeup;
    spinlock.c and sleeplock.c the locks.  User programs reach the kernel
    through system calls only.

    ** How the model reads

    - [Prelude]: machine integers as [Z] with their wrap-arounds ([u8] to
      [u64], [s8] to [s32]); the monad [M S A] of stateful code, whose outcome
      is [Ok] with a value and a state, [Panic] with the message of the call
      of panic(), [Undef] for undefined behaviour (an access out of bounds)
      or [Hang] when the fuel of a loop ran out; loops [iter], [for_each],
      [for_find].  [bind_ok] and its companions run a program step by step.
    - [KState]: the C globals as one record [kstate].  A pointer into a global
      array is the index of the element; physical memory is a function from
      addresses to bytes ([Mem]), and page tables, free-list links and
      trap frames are stored in it at the addresses the code uses.
    - One CPU runs the kernel; [k_held] is the set of spinlocks it holds.
      Blocking code ([sleep], [sched], [yield]) calls [others], a field of the
      class [Env]: what the rest of the system does until the process runs
      again.  [mmio_read] and [mmio_write] of [Env] are the device registers,
      and [patience] bounds how often a loop that waits for a device or
      another process looks before the outcome is [Hang].
    - Assembly ([Asm]): a routine is a list of instructions over the registers
      of a hart and memory, which it reaches through the page table in satp.
    - User programs ([Ulib]): interaction trees whose events [sysE] are the
      system calls and, in the tests, single accesses to memory.  Handlers
      interpret the events: [UserWorld] in a world of files, [ShRunSpec] with
      descriptor tables and forks explored on both sides.
    - What is not under src/ is a parameter: the addresses of linker symbols
      ([Layout], [Symbols]), the disk device ([Disk]), the UART ([Uart]),
      the digit table of the user printf ([Digits]), what [sbrk] grants to
      [malloc], what the host's open and read give to mkfs.

    ** Files

    - [Riscv], [Mem], [CString], [KState]: constants and macros of riscv.h,
      memlayout.h, param.h and fs.h; byte memory; string.c; the state.
    - [Spinlock]: spinlock.c on several CPUs, every interleaving.
    - [Memstats]: memstats.c.  [Sched]: sleep, wakeup, sched, kill (proc.c) and
      sleeplock.c.
    - [Virtio], [DiskSpec]: virtio_disk.c.  [Bio], [BioSpec], [Blocks]: bio.c,
      its cache of buffers, and blocks as their users see them.  [Log],
      [LogSpec], [Txn]: log.c, crashes, and transactions.  [StorageSpec]: the
      contracts of the three together, with [DiskSample] as their instance.
    - [PhysMem], [Kalloc], [AllocSpec]: kalloc.c.  [Swap]: swap.c.
    - [Vm], [PageTable], [Walk], [VmMap], [VmAlloc], [VmFree], [VmCow],
      [VmCopy], [VmSpec] (instance [VmSample]): vm.c and the copying functions
      of proc.c.
    - [Fs]: fs.c.  [FsSpec]: its block allocation.  [Inode] and [Dinode]: files
      in memory and on disk.  [InodeSpec], [FileIO], [FileWrite], [InodeLock]:
      bmap, readi, writei, iupdate, ilock and the mounting of a disk.  [Dir],
      [DirProps], [PathSpec]: directories and paths.
    - [File], [FileSpec], [FileProps]: file.c and files of user memory.
      [Pipe], [PipeSpec]: pipe.c.  [Console], [ConsoleSpec]: console.c and
      uart.c.  [Printf]: both printf.c.
    - [Proc], [ProcSpec], [Exec], [Syscall], [Trap], [TrapSpec]: proc.c,
      exec.c, the system calls, trap.c and plic.c.  [Discipline]: locks and
      kernel invariant through all of them.
    - [Boot], [BootSpec]: start.c, main.c and the initialisers.  [Asm],
      [AsmSpec]: swtch.S, trampoline.S, kernelvec.S and entry.S.
    - [Ulib], [Umalloc], [UmallocSpec]: ulib.c, user.h and umalloc.c.
    - [Grep], [GrepSpec]: grep's matcher.  [Sh], [ShSpec], [ShRun],
      [ShRunSpec]: the shell.  [UserProg], [UserWorld], [UserProgSpec]: the
      utilities.  [Stress]: forktest, stressfs, logstress, forphan, dorphan,
      grind and benchmark.  [Usertests]: usertests.c.
    - [Mkfs], [MkfsSpec], [MkfsProps]: mkfs.c.
    - [Sample]: concrete machines for the instances.

    ** What the theorems show

    - Storage: an operation between [begin_op] and [end_op] is atomic under a
      crash at any point ([crash_safe]), recovery refines an abstract recovery
      function and may itself be interrupted ([recovery_correct]), a disk
      request completes ([virtio_disk_rw_correct]), and a full log cannot
      commit ([full_log_panics]).
    - Files: [filewrite] puts the bytes of the process in the file, through as
      many transactions as it needs, and a crash leaves a prefix of them
      ([filewrite_correct], [filewrite_crash]); [fileread] gives them back
      ([fileread_correct], [write_read_roundtrip]); names entered in a
      directory are found ([dirlink_correct], [dirlookup_correct]), inodes are
      cached once ([iget_correct]).
    - Images: mkfs writes a file system with the contents of its arguments
      ([mkfs_correct]) on which the invariants of the file theorems hold when
      the kernel mounts it ([mkfs_mounts]); [fsinit] recovers first
      ([fsinit_correct]).
    - Memory: the allocator refines a reference-counting specification;
      [uvmcopy], [cowfault], [uvmunmap], [uvmfree], [uvmalloc], [vmfault],
      [mappages], [copyout], [copyin] and [copyinstr] do what they say on every
      branch, out of memory included; fork isolates, and fork and exit give
      every page back.  [uvmunmap] also gives the swap blocks of the pages
      that are swapped out back; the theorems about whole address spaces
      ([kwait_correct], [fork_exit]) are for processes with none.
    - Processes: [kfork] makes a copy of its caller ([kfork_correct]), and
      [kwait] gives back all that an exited child had ([kwait_correct]).  A
      context switch keeps the registers ([swtch_roundtrip]), interrupts are
      invisible to the kernel ([kernelvec_transparent]), and a store to a
      copy-on-write page is invisible to the process that makes it, from the
      trampoline through [usertrap] and back ([cow_transparent]).
    - Every function of the kernel releases the locks it takes and keeps the
      invariant [kernel_ok], from [usertrap] on ([usertrap_discipline]).
    - Locks: mutual exclusion and the interrupt discipline in every
      interleaving, and the abstraction the rest of the model uses.
    - Character devices and pipes: the console refines a line editor, up to
      the bytes that a [fileread] puts into the memory of a process, and pipes
      are first in first out.
    - User code: the shell runs every line of its grammar with the programs,
      redirections and pipes it asks for ([shell_line_correct]), wc counts
      and grep prints the matching lines however the input arrives, malloc and
      free keep a sorted, coalesced, disjoint heap, and usertests, which runs
      its tests in children on any kernel, reports what they did, provided
      that each of them exits ([usertests_correct]).
    - Errors: what panics and when ([main_panics], [full_log_panics],
      [wild_address_panics]).

    ** Fuel, bounds and assumptions

    A fuel argument is always instantiated in the definition that stands for
    the C function, with a bound on the rounds the code can take (the length
    of the string or buffer, the number of array elements, 512 entries per
    table), and the theorems state that the result is [Ok], so the fuel is
    enough; [malloc] and [free] take theirs from the caller, and their
    theorems give the bound in terms of the length of the free list.  The
    interpreters of user programs take fuel for the steps of a program:
    [runs] says that some amount is enough and that more changes nothing.
    Waiting loops have [patience] rounds, and the theorems about them assume
    an environment that answers within it.  What the theorems assume of the
    environment are the classes [Disk] and [Uart], and [Rely] in [Discipline]:
    whatever runs while a process sleeps comes back with the same locks held, in
    the same process and with the kernel invariant intact.  Signed overflow is
    undefined: [allocpid] has no result when nextpid is INT_MAX.  The reference
    counts of files and inodes, also of type int, are not bounded.

    ** Not modelled

    - The execution of user instructions, the TLB ([sfence_vma] has no effect
      in the model) and traps of the hardware other than where [Asm] starts.
    - The endless loops around [scheduler_round] and after [start], and
      preemption inside the kernel between the accesses of one CPU, except in
      [Spinlock]; the other components run between two blocking calls as one
      step, which the locks they hold justify.
    - The stubs that usys.pl generates (the events of [sysE] stand for them),
      user.ld and kernel.ld, the Makefile and test-xv6.py: build files.
    - The flags panicking and panicked, and the lock of the kernel's printf: a
      panic ends a run.  In usertests the test [mem] calls [malloc] and [free]
      as any program would be called. *)

From stdpp Require Export base numbers list strings option sets.
From Stdlib Require Export ZArith Lia.

#[export] Set Default Goal Selector "!".
#[export] Set Warnings "-clear-no-such-hyp".

Declare Scope xv6_scope.
Delimit Scope xv6_scope with xv6.
#[global] Open Scope Z_scope.
#[global] Open Scope xv6_scope.

(** ** Machine integers

    A C integer of a fixed width is a [Z]; the conversions of the language
    are the explicit wrap-arounds below. *)

Definition u8 (x : Z) : Z := x mod 0x100.
Definition u16 (x : Z) : Z := x mod 0x10000.
Definition u32 (x : Z) : Z := x mod 0x100000000.
Definition u64 (x : Z) : Z := x mod 0x10000000000000000.
Definition s8 (x : Z) : Z := (x + 0x80) mod 0x100 - 0x80.
Definition s16 (x : Z) : Z := (x + 0x8000) mod 0x10000 - 0x8000.
Definition s32 (x : Z) : Z := (x + 0x80000000) mod 0x100000000 - 0x80000000.
Definition INT_MAX : Z := 0x7fffffff.

(** A C condition [x & m]. *)
Definition has (x m : Z) : bool := negb (Z.land x m =? 0).

Ltac zlia := Z.div_mod_to_equations; lia.
Ltac znia := Z.div_mod_to_equations; nia.

Lemma u64_small x : 0 <= x < 0x10000000000000000 -> u64 x = x.
Proof. intros. by apply Z.mod_small. Qed.

Lemma u64_range x : 0 <= u64 x < 0x10000000000000000.
Proof. by apply Z.mod_pos_bound. Qed.

Lemma u32_small x : 0 <= x < 0x100000000 -> u32 x = x.
Proof. intros. by apply Z.mod_small. Qed.

Lemma u32_range x : 0 <= u32 x < 0x100000000.
Proof. by apply Z.mod_pos_bound. Qed.

Lemma u8_small x : 0 <= x < 0x100 -> u8 x = x.
Proof. intros. by apply Z.mod_small. Qed.

Lemma u8_range x : 0 <= u8 x < 0x100.
Proof. by apply Z.mod_pos_bound. Qed.

Lemma s32_small x : -0x80000000 <= x < 0x80000000 -> s32 x = x.
Proof. intros. unfold s32. rewrite Z.mod_small; lia. Qed.

Lemma s32_range x : -0x80000000 <= s32 x < 0x80000000.
Proof.
  unfold s32. pose proof (Z.mod_pos_bound (x + 0x80000000) 0x100000000). lia.
Qed.

Lemma u64_add_l x y : u64 (u64 x + y) = u64 (x + y).
Proof. unfold u64. by rewrite Zplus_mod_idemp_l. Qed.

Lemma u64_add_r x y : u64 (x + u64 y) = u64 (x + y).
Proof. unfold u64. by rewrite Zplus_mod_idemp_r. Qed.

Lemma u32_add_l x y : u32 (u32 x + y) = u32 (x + y).
Proof. unfold u32. by rewrite Zplus_mod_idemp_l. Qed.

Create HintDb xv6 discriminated.
Create Rewrite HintDb xv6_wrap.
Create Rewrite HintDb xv6_arr.
#[export] Hint Rewrite u64_add_l u64_add_r u32_add_l : xv6_wrap.

(** Membership in lists built from cons and append, without looking at the
    rest of the context. *)
Ltac ielem :=
  repeat match goal with
  | H : _ ∈ [] |- _ => by apply not_elem_of_nil in H
  | H : _ ∈ _ :: _ |- _ => apply elem_of_cons in H as [->|H]
  | H : _ ∈ _ ++ _ |- _ => apply elem_of_app in H as [H|H]
  | H : _ ∉ _ :: _ |- _ => apply not_elem_of_cons in H as [? H]
  | H : _ ∉ _ ++ _ |- _ => apply not_elem_of_app in H as [? H]
  | |- _ ∉ _ => intros ?
  | |- _ ∈ _ :: _ => apply elem_of_cons
  | |- _ ∈ _ ++ _ => apply elem_of_app
  | |- (_ ∈ _ :: _) \/ _ => rewrite elem_of_cons
  | |- _ \/ (_ ∈ _ :: _) => rewrite elem_of_cons
  | |- (_ ∈ _ ++ _) \/ _ => rewrite elem_of_app
  | |- _ \/ (_ ∈ _ ++ _) => rewrite elem_of_app
  end; try tauto; try congruence; auto.

(** ** Bits *)

Lemma has_pow2 x k : 0 <= k -> has x (2 ^ k) = Z.testbit x k.
Proof.
  intros Hk. unfold has. destruct (Z.testbit x k) eqn:Hb.
  - destruct (Z.land x (2 ^ k) =? 0) eqn:He; [|done].
    apply Z.eqb_eq in He. apply (f_equal (fun z => Z.testbit z k)) in He.
    rewrite Z.land_spec, Hb, Z.pow2_bits_true, Z.bits_0 in He; done.
  - replace (Z.land x (2 ^ k)) with 0; [done|].
    apply Z.bits_inj'; intros n Hn. rewrite Z.bits_0, Z.land_spec.
    destruct (decide (n = k)) as [->|Hne]; [by rewrite Hb|].
    rewrite Z.pow2_bits_false by lia. by rewrite andb_false_r.
Qed.

Lemma u8_testbit x k : 0 <= k < 8 -> Z.testbit (u8 x) k = Z.testbit x k.
Proof. intros. unfold u8. change 0x100 with (2 ^ 8). apply Z.mod_pow2_bits_low. lia. Qed.

Lemma block_pos_inj i j : i / 8 = j / 8 -> i mod 8 = j mod 8 -> i = j.
Proof. zlia. Qed.

Lemma testbit_small x n k : 0 <= x < 2 ^ n -> n <= k -> Z.testbit x k = false.
Proof.
  intros Hx Hk. destruct (decide (x = 0)) as [->|]; [apply Z.bits_0|].
  apply Z.bits_above_log2; [lia|]. apply Z.log2_lt_pow2; [lia|].
  pose proof (Z.pow_le_mono_r 2 n k). lia.
Qed.

Lemma shiftr_small x n : 0 <= x < 2 ^ n -> Z.shiftr x n = 0.
Proof.
  intros Hx. destruct (decide (0 <= n)).
  - rewrite Z.shiftr_div_pow2 by done. by apply Z.div_small.
  - rewrite Z.pow_neg_r in Hx; lia.
Qed.

Lemma shiftl_range x n k : 0 <= n -> 0 <= k -> 0 <= x < 2 ^ k ->
  0 <= Z.shiftl x n < 2 ^ (k + n).
Proof.
  intros Hn Hk Hx. rewrite Z.shiftl_mul_pow2, Z.pow_add_r by lia.
  pose proof (Z.pow_pos_nonneg 2 n). nia.
Qed.

Lemma lor_range x y n : 0 <= n -> 0 <= x < 2 ^ n -> 0 <= y < 2 ^ n ->
  0 <= Z.lor x y < 2 ^ n.
Proof.
  intros Hn Hx Hy. split; [apply Z.lor_nonneg; lia|].
  destruct (decide (Z.lor x y = 0)) as [->|Hne]; [lia|].
  assert (0 <= Z.lor x y) by (apply Z.lor_nonneg; lia).
  apply Z.log2_lt_pow2; [lia|]. rewrite Z.log2_lor by lia.
  destruct (decide (x = 0)), (decide (y = 0)); subst;
    rewrite ?Z.lor_0_l, ?Z.lor_0_r in Hne; try lia.
  - apply Z.max_lub_lt; [|apply Z.log2_lt_pow2; lia].
    pose proof (Z.log2_nonneg y). pose proof (Z.log2_lt_pow2 y n). simpl. lia.
  - apply Z.max_lub_lt; [apply Z.log2_lt_pow2; lia|].
    pose proof (Z.log2_nonneg x). pose proof (Z.log2_lt_pow2 x n). simpl. lia.
  - apply Z.max_lub_lt; apply Z.log2_lt_pow2; lia.
Qed.

(** ** Arrays as functions *)

Definition fupd {A} (f : Z -> A) (i : Z) (v : A) : Z -> A :=
  fun j => if j =? i then v else f j.

Lemma fupd_eq {A} (f : Z -> A) i v : fupd f i v i = v.
Proof. unfold fupd. by rewrite Z.eqb_refl. Qed.

Lemma fupd_ne {A} (f : Z -> A) i j v : j <> i -> fupd f i v j = f j.
Proof. intros H. unfold fupd. by rewrite (proj2 (Z.eqb_neq j i) H). Qed.

Lemma fupd_cases {A} (f : Z -> A) i v j : fupd f i v j = if decide (j = i) then v else f j.
Proof. case_decide as D; [rewrite D; apply fupd_eq|by apply fupd_ne]. Qed.

#[export] Hint Rewrite @fupd_eq : xv6_arr.

(** ** Outcomes

    What a run of kernel code ends in: a value and a state, a call of
    [panic], an access that the C language leaves undefined, or no return at
    all (a spin on a lock the CPU cannot get, or fuel that ran out). *)

Inductive outcome (S A : Type) : Type :=
| Ok (a : A) (s : S)
| Panic (msg : string)
| Undef (what : string)
| Hang.
Arguments Ok {S A}. Arguments Panic {S A}. Arguments Undef {S A}. Arguments Hang {S A}.

Section monad.
Context {S : Type}.

Definition M (A : Type) : Type := S -> outcome S A.

Definition ret {A} (a : A) : M A := fun s => Ok a s.
Definition bind {A B} (m : M A) (f : A -> M B) : M B := fun s =>
  match m s with
  | Ok a s' => f a s'
  | Panic e => Panic e
  | Undef e => Undef e
  | Hang => Hang
  end.
Definition get : M S := fun s => Ok s s.
Definition gets {A} (f : S -> A) : M A := fun s => Ok (f s) s.
Definition modify (f : S -> S) : M unit := fun s => Ok tt (f s).
Definition panic {A} (msg : string) : M A := fun _ => Panic msg.
Definition undef {A} (what : string) : M A := fun _ => Undef what.
Definition hang {A} : M A := fun _ => Hang.

(** Total correctness: the run returns, and its result satisfies [Q]. *)
Definition wp {A} (m : M A) (Q : A -> S -> Prop) (s : S) : Prop :=
  match m s with Ok a s' => Q a s' | _ => False end.

(** The same with a choice: [wpx true] is [wp]; [wpx false] only speaks
    about runs that return. *)
Definition wpx {A} (tot : bool) (m : M A) (Q : A -> S -> Prop) (s : S) : Prop :=
  match m s with Ok a s' => Q a s' | _ => tot = false end.

Lemma wpx_Ok {A} tot (m : M A) Q s a s' : m s = Ok a s' -> Q a s' -> wpx tot m Q s.
Proof. unfold wpx. by intros ->. Qed.

Lemma wpx_bind {A B} tot (m : M A) (f : A -> M B) Q s :
  wpx tot m (fun a s' => wpx tot (f a) Q s') s -> wpx tot (bind m f) Q s.
Proof. unfold wpx, bind. by destruct (m s). Qed.

Lemma wpx_bind_ok {A B} tot (m : M A) (f : A -> M B) Q s a s' :
  m s = Ok a s' -> wpx tot (f a) Q s' -> wpx tot (bind m f) Q s.
Proof. unfold wpx, bind. by intros ->. Qed.

Lemma wpx_ret {A} tot (a : A) (Q : A -> S -> Prop) s : Q a s -> wpx tot (ret a) Q s.
Proof. done. Qed.

Lemma wpx_mono {A} tot (m : M A) (Q Q' : A -> S -> Prop) s :
  wpx tot m Q s -> (forall a s', Q a s' -> Q' a s') -> wpx tot m Q' s.
Proof. unfold wpx. destruct (m s); auto. Qed.

Lemma wpx_total {A} (m : M A) Q s : wpx true m Q s -> exists a s', m s = Ok a s' /\ Q a s'.
Proof. unfold wpx. destruct (m s); eauto; done. Qed.

Lemma wpx_total_unit {B} (m : M unit) (P : S -> B -> Prop) s :
  wpx true m (fun _ s' => exists x, P s' x) s -> exists s' x, m s = Ok tt s' /\ P s' x.
Proof. unfold wpx. destruct (m s) as [[] s'| | |]; naive_solver. Qed.

Lemma wpx_run {A} (m : M A) s a s' : wpx true m (fun b t => b = a /\ t = s') s -> m s = Ok a s'.
Proof. unfold wpx. destruct (m s); [by intros [-> ->]|done..]. Qed.

Lemma wpx_partial {A} tot (m : M A) Q s a s' : wpx tot m Q s -> m s = Ok a s' -> Q a s'.
Proof. unfold wpx. intros H E. by rewrite E in H. Qed.

Lemma wpx_intro {A} tot (m : M A) (Q : A -> S -> Prop) s :
  (tot = true -> wpx true m Q s) -> (forall a s', m s = Ok a s' -> Q a s') -> wpx tot m Q s.
Proof. intros H1 H2. destruct tot; [by apply H1|]. unfold wpx. destruct (m s); auto. Qed.

Lemma wp_Ok {A} (m : M A) Q s a s' : m s = Ok a s' -> Q a s' -> wp m Q s.
Proof. unfold wp. by intros ->. Qed.

Lemma wp_inv {A} (m : M A) Q s : wp m Q s -> exists a s', m s = Ok a s' /\ Q a s'.
Proof. unfold wp. destruct (m s); eauto; done. Qed.

Lemma wp_bind {A B} (m : M A) (f : A -> M B) Q s :
  wp m (fun a s' => wp (f a) Q s') s -> wp (bind m f) Q s.
Proof. unfold wp, bind. by destruct (m s). Qed.

Lemma wp_mono {A} (m : M A) (Q Q' : A -> S -> Prop) s :
  wp m Q s -> (forall a s', Q a s' -> Q' a s') -> wp m Q' s.
Proof. unfold wp. destruct (m s); auto. Qed.

Lemma bind_ok {A B} (m : M A) (f : A -> M B) s a s' :
  m s = Ok a s' -> bind m f s = f a s'.
Proof. unfold bind. by intros ->. Qed.

Lemma bind_panic {A B} (m : M A) (f : A -> M B) s e :
  m s = Panic e -> bind m f s = Panic e.
Proof. unfold bind. by intros ->. Qed.

Lemma bind_undef {A B} (m : M A) (f : A -> M B) s e :
  m s = Undef e -> bind m f s = Undef e.
Proof. unfold bind. by intros ->. Qed.

Lemma bind_ret {A B} (a : A) (f : A -> M B) : bind (ret a) f = f a.
Proof. done. Qed.

Lemma bind_assoc {A B C} (m : M A) (f : A -> M B) (g : B -> M C) s :
  bind (bind m f) g s = bind m (fun a => bind (f a) g) s.
Proof. unfold bind. by destruct (m s). Qed.

Lemma bind_inv {A B} (m : M A) (f : A -> M B) s b s' :
  bind m f s = Ok b s' -> exists a s1, m s = Ok a s1 /\ f a s1 = Ok b s'.
Proof. unfold bind. destruct (m s); naive_solver. Qed.
End monad.
Arguments M : clear implicits.

Notation "x <- c ;; k" := (bind c (fun x => k))
  (at level 100, c at next level, right associativity) : xv6_scope.
Notation "c ;; k" := (bind c (fun _ => k))
  (at level 100, right associativity) : xv6_scope.
Notation "'when' b 'then' c" := (if b then c else ret tt)
  (at level 60, b at level 200, c at level 60) : xv6_scope.

(** One step of symbolic execution with an equation for the first command. *)
Ltac step_with H := first [ rewrite (bind_ok _ _ _ _ _ H)
                          | rewrite (bind_panic _ _ _ _ H)
                          | rewrite (bind_undef _ _ _ _ H) ].

(** ** Loops

    [iter] runs a loop body until it stops with [inr]; it hangs when the fuel
    runs out.  [for_each] and [for_find] are the [for] loops over the elements
    of an array, without and with an early exit. *)

Section loops.
Context {S : Type}.

Fixpoint iter {A B} (fuel : nat) (f : A -> M S (A + B)) (a : A) : M S B :=
  match fuel with
  | O => hang
  | Datatypes.S fuel => r <- f a ;;
              match r with inl a' => iter fuel f a' | inr b => ret b end
  end.

Fixpoint for_each {A} (l : list A) (f : A -> M S unit) : M S unit :=
  match l with
  | [] => ret tt
  | x :: l => f x ;; for_each l f
  end.

Fixpoint for_find {A B} (l : list A) (f : A -> M S (option B)) : M S (option B) :=
  match l with
  | [] => ret None
  | x :: l => r <- f x ;; match r with Some b => ret (Some b) | None => for_find l f end
  end.

Lemma iter_next {A B} n (f : A -> M S (A + B)) a a' s s' :
  f a s = Ok (inl a') s' -> iter (Datatypes.S n) f a s = iter n f a' s'.
Proof. intros E. cbn [iter]. by rewrite (bind_ok _ _ _ _ _ E). Qed.

Lemma iter_done {A B} n (f : A -> M S (A + B)) a b s s' :
  f a s = Ok (inr b) s' -> iter (Datatypes.S n) f a s = Ok b s'.
Proof. intros E. cbn [iter]. by rewrite (bind_ok _ _ _ _ _ E). Qed.

(** A loop with an invariant and a decreasing measure returns. *)
Lemma wp_iter {A B} (I : A -> S -> Prop) (mu : A -> nat) (f : A -> M S (A + B)) (Q : B -> S -> Prop) :
  (forall a s, I a s ->
     wp (f a) (fun r s' => match r with
                           | inl a' => I a' s' /\ (mu a' < mu a)%nat
                           | inr b => Q b s'
                           end) s) ->
  forall fuel a s, I a s -> (mu a < fuel)%nat -> wp (iter fuel f a) Q s.
Proof.
  intros Hf fuel. induction fuel as [|fuel IH]; intros a s HI Hmu; [lia|].
  cbn [iter]. apply wp_bind. eapply wp_mono; [by apply Hf|].
  intros [a'|b] s'; [|done]. intros [HI' Hlt]. apply IH; [done|lia].
Qed.

Lemma wpx_iter {A B} tot (I : A -> S -> Prop) (mu : A -> nat) (f : A -> M S (A + B))
    (Q : B -> S -> Prop) :
  (forall a s, I a s ->
     wpx tot (f a) (fun r s' => match r with
                           | inl a' => I a' s' /\ (mu a' < mu a)%nat
                           | inr b => Q b s'
                           end) s) ->
  forall fuel a s, I a s -> (mu a < fuel)%nat -> wpx tot (iter fuel f a) Q s.
Proof.
  intros Hf fuel. induction fuel as [|fuel IH]; intros a s HI Hmu; [lia|].
  cbn [iter]. apply wpx_bind. eapply wpx_mono; [by apply Hf|].
  intros [a'|b] s'; [|done]. intros [HI' Hlt]. apply IH; [done|lia].
Qed.

(** A body that never stops early goes through the whole list. *)
Lemma wp_for_each {A} (I : list A -> S -> Prop) (f : A -> M S unit) :
  (forall x l s, I (x :: l) s -> wp (f x) (fun _ s' => I l s') s) ->
  forall l s, I l s -> wp (for_each l f) (fun _ s' => I [] s') s.
Proof.
  intros Hf l. induction l as [|x l IH]; intros s HI; [done|].
  cbn [for_each]. apply wp_bind. eapply wp_mono; [by apply Hf|]. auto.
Qed.

(** A [for] loop over an initial segment of the integers. *)
Lemma for_each_seqZ (I : Z -> S -> Prop) (f : Z -> M S unit) n : 0 <= n ->
  (forall k s, 0 <= k < n -> I k s -> exists s', f k s = Ok tt s' /\ I (k + 1) s') ->
  forall s, I 0 s -> exists s', for_each (seqZ 0 n) f s = Ok tt s' /\ I n s'.
Proof.
  intros Hn Hf. assert (forall (j : nat) k s, k + Z.of_nat j = n -> 0 <= k -> I k s ->
    exists s', for_each (seqZ k (Z.of_nat j)) f s = Ok tt s' /\ I n s') as H.
  { induction j as [|j IH]; intros k s Hk Hk0 HI.
    - exists s. replace n with k by lia. done.
    - rewrite seqZ_cons by lia. destruct (Hf k s ltac:(lia) HI) as (s1 & E & HI1). cbn [for_each].
      rewrite (bind_ok _ _ _ _ _ E).
      replace (Z.pred (Z.of_nat (Datatypes.S j))) with (Z.of_nat j) by lia.
      replace (Z.succ k) with (k + 1) by lia. apply IH; [lia|lia|done]. }
  intros s HI. pose proof (H (Z.to_nat n) 0 s) as H1. rewrite Z2Nat.id in H1 by lia.
  apply H1; [lia|lia|done].
Qed.

Lemma for_find_none {A B} (f : A -> M S (option B)) s l :
  (forall x, x ∈ l -> f x s = Ok None s) -> for_find l f s = Ok None s.
Proof.
  induction l as [|x l IH]; intros H; [done|]. cbn [for_find].
  step_with (H x ltac:(set_solver)). apply IH. set_solver.
Qed.

Lemma for_find_app {A B} (f : A -> M S (option B)) s l1 l2 :
  (forall x, x ∈ l1 -> f x s = Ok None s) -> for_find (l1 ++ l2) f s = for_find l2 f s.
Proof.
  induction l1 as [|x l1 IH]; intros H; [done|]. cbn [for_find app].
  step_with (H x ltac:(set_solver)). apply IH. set_solver.
Qed.
End loops.

(** ** Sums over lists *)

Fixpoint sumZ {A} (f : A -> Z) (l : list A) : Z :=
  match l with [] => 0 | x :: l => f x + sumZ f l end.

Lemma sumZ_ext {A} (f g : A -> Z) l : (forall x, x ∈ l -> f x = g x) -> sumZ f l = sumZ g l.
Proof.
  induction l as [|x l IH]; intros H; [done|]. cbn. rewrite H, IH by set_solver. done.
Qed.

(** Changing the summand at one place changes the sum by the difference. *)
Lemma sumZ_upd {A} `{EqDecision A} (f g : A -> Z) l y :
  NoDup l -> y ∈ l -> (forall x, x ∈ l -> x <> y -> g x = f x) ->
  sumZ g l = sumZ f l + (g y - f y).
Proof.
  intros Hn. induction Hn as [|x l Hx Hn IH]; intros Hy Hfg; [by apply not_elem_of_nil in Hy|].
  cbn. apply elem_of_cons in Hy as [->|Hy].
  - rewrite (sumZ_ext g f); [lia|]. intros x' Hx'. apply Hfg; [by right|]. by intros ->.
  - rewrite (Hfg x), IH; [lia|done| |left|by intros ->]. intros. apply Hfg; [by right|done].
Qed.

Lemma sumZ_const {A} (f : A -> Z) l c : (forall x, x ∈ l -> f x = c) ->
  sumZ f l = c * Z.of_nat (length l).
Proof.
  induction l as [|x l IH]; intros H; cbn; [lia|]. rewrite H, IH by set_solver. lia.
Qed.

Lemma seqZ_shift m n : seqZ m n = map (Z.add m) (seqZ 0 n).
Proof.
  pose proof (fmap_add_seqZ m 0 n) as E. rewrite Z.add_0_r in E. rewrite <- E. clear E.
  by induction (seqZ 0 n) as [|x l IH]; cbn; [|f_equal].
Qed.

(** Splits an initial segment of the integers at [i]. *)
Lemma seqZ_split n i : 0 <= i < n -> seqZ 0 n = seqZ 0 i ++ i :: seqZ (i + 1) (n - i - 1).
Proof.
  intros Hi. replace n with (i + (n - i)) at 1 by lia. rewrite seqZ_app by lia. f_equal.
  rewrite seqZ_cons, Z.add_0_l by lia. f_equal; lia.
Qed.

(** ** Runs that return

    Partial-correctness reasoning: facts about every run that returns. *)

Section returns.
Context {S : Type}.

(** The command does not change the state. *)
Definition reads_only {A} (m : M S A) : Prop := forall s a s', m s = Ok a s' -> s' = s.

Lemma reads_ret {A} (a : A) : reads_only (ret a).
Proof. by intros s a' s' [= _ <-]. Qed.

Lemma reads_gets {A} (f : S -> A) : reads_only (gets f).
Proof. by intros s a' s' [= _ <-]. Qed.

Lemma reads_panic {A} e : reads_only (@panic S A e).
Proof. done. Qed.

Lemma reads_bind {A B} (m : M S A) (f : A -> M S B) :
  reads_only m -> (forall a, reads_only (f a)) -> reads_only (bind m f).
Proof.
  intros Hm Hf s b s' Hb. apply bind_inv in Hb as (a & s1 & Ha & Hb).
  apply Hm in Ha as ->. by eapply Hf.
Qed.

Lemma reads_if {A} (b : bool) (m1 m2 : M S A) :
  reads_only m1 -> reads_only m2 -> reads_only (if b then m1 else m2).
Proof. by destruct b. Qed.

(** Loops: the invariant holds at every exit. *)
Lemma iter_inv {A B} (I : A -> S -> Prop) (Q : B -> S -> Prop) (f : A -> M S (A + B)) :
  (forall a s r s', I a s -> f a s = Ok r s' ->
     match r with inl a' => I a' s' | inr b => Q b s' end) ->
  forall fuel a s b s', I a s -> iter fuel f a s = Ok b s' -> Q b s'.
Proof.
  intros Hf fuel. induction fuel as [|fuel IH]; intros a s b s' HI Hr; [done|].
  cbn [iter] in Hr. apply bind_inv in Hr as ([a'|b'] & s1 & H1 & H2);
    specialize (Hf _ _ _ _ HI H1); cbn in Hf.
  - eapply IH; [exact Hf|exact H2].
  - by injection H2 as <- <-.
Qed.

Lemma for_find_inv {A B} (I : S -> Prop) (Q : B -> S -> Prop) (f : A -> M S (option B)) l s r s' :
  (forall x s r s', x ∈ l -> I s -> f x s = Ok r s' ->
     match r with None => I s' | Some b => Q b s' end) ->
  I s -> for_find l f s = Ok r s' ->
  match r with None => I s' | Some b => Q b s' end.
Proof.
  revert s. induction l as [|x l IH]; intros s Hf HI Hr; [by injection Hr as <- <-|].
  cbn [for_find] in Hr. apply bind_inv in Hr as ([b|] & s1 & H1 & H2).
  - apply (Hf x) in H1; [|left|done]. by injection H2 as <- <-.
  - apply (Hf x) in H1; [|left|done]. eapply IH; [|done|done].
    intros y s2 r2 s3 Hy. apply Hf. by right.
Qed.
End returns.

#[export] Hint Resolve reads_ret reads_gets reads_panic : xv6.

(** * Circular buffers with free-running counters

    The console and the pipes keep bytes in an array of [N] elements, at the
    values of 32-bit counters modulo [N].  [cring N f a q]: from counter [a]
    on, the array [f] holds the bytes [q]. *)

Definition cring (N : Z) (f : Z -> Z) (a : Z) (q : list Z) : Prop :=
  forall k c, q !! k = Some c -> f ((a + Z.of_nat k) mod N) = c.

Section Ring.
Context (N : Z) (HN : 0 < N) (Hdiv : 0x100000000 mod N = 0).

(** Counters may be taken modulo 2^32: [N] divides it. *)
Lemma u32_mod a : u32 a mod N = a mod N.
Proof. unfold u32. apply Z.mod_mod_divide, Z.mod_divide; [lia|done]. Qed.

Lemma u32_add_mod a k : (u32 a + k) mod N = (a + k) mod N.
Proof. rewrite Z.add_mod, u32_mod, <- Z.add_mod by lia. done. Qed.

Lemma cring_u32 f a q : cring N f (u32 a) q <-> cring N f a q.
Proof. unfold cring. setoid_rewrite u32_add_mod. done. Qed.

Lemma cring_app f a q1 q2 : cring N f a (q1 ++ q2) <-> cring N f a q1 /\ cring N f (a + Z.of_nat (length q1)) q2.
Proof.
  split.
  - intros H. split; intros k c Hk.
    + apply H. by apply lookup_app_l_Some.
    + rewrite <- (H (length q1 + k)%nat c); [do 2 f_equal; lia|]. rewrite lookup_app_r by lia.
      by replace (length q1 + k - length q1)%nat with k by lia.
  - intros [H1 H2] k c [Hk|[Hl Hk]]%lookup_app_Some; [by apply H1|]. rewrite <- (H2 _ _ Hk). do 2 f_equal. lia.
Qed.

Lemma cring_one f a c : cring N f a [c] <-> f (a mod N) = c.
Proof.
  split.
  - intros H. specialize (H 0%nat c eq_refl). by rewrite Z.add_0_r in H.
  - intros H k x Hk. apply list_lookup_singleton_Some in Hk as [-> <-]. by rewrite Z.add_0_r.
Qed.

Lemma cring_cons f a c q : cring N f a (c :: q) <-> f (a mod N) = c /\ cring N f (a + 1) q.
Proof. rewrite (cring_app f a [c] q), cring_one. done. Qed.

(** Different counters less than [N] apart use different elements. *)
Lemma ring_slots a j k : 0 <= j < N -> 0 <= k < N -> (a + j) mod N = (a + k) mod N -> j = k.
Proof.
  intros Hj Hk E. assert ((j - k) mod N = 0) as Hz.
  { replace (j - k) with ((a + j) - (a + k)) by lia. rewrite Zminus_mod, E, Z.sub_diag. done. }
  apply Z.mod_divide in Hz as [z Hz]; [|lia]. destruct (Z.eq_dec z 0) as [->|]; [lia|].
  destruct (Z.lt_total z 0) as [?|[?|?]]; nia.
Qed.

(** Storing behind the last byte. *)
Lemma cring_put f a q c : cring N f a q -> Z.of_nat (length q) < N ->
  cring N (fupd f ((a + Z.of_nat (length q)) mod N) c) a (q ++ [c]).
Proof.
  intros H Hl. apply cring_app. split; [|apply cring_one, fupd_eq].
  intros k x Hk. pose proof (lookup_lt_Some _ _ _ Hk). rewrite fupd_ne; [by apply H|].
  intros E. apply ring_slots in E; lia.
Qed.

(** The distance of two counters. *)
Lemma u32_dist a k : 0 <= k < 0x100000000 -> u32 (u32 (a + k) - a) = k.
Proof. intros Hk. unfold u32. rewrite Zminus_mod_idemp_l. replace (a + k - a) with k by lia. by apply Z.mod_small. Qed.

Lemma u32_back a b k : 0 <= b < 0x100000000 -> u32 (b - a) = k -> b = u32 (a + k).
Proof. intros Hb <-. unfold u32 in *. rewrite Zplus_mod_idemp_r. replace (a + (b - a)) with b by lia. by rewrite Z.mod_small. Qed.

End Ring.
