(* ===== verification/Riscv.v ===== *)
(** * Constants and macros of riscv.h, memlayout.h, param.h and fs.h

    The Sv39 page-table entry layout, the split of a virtual address and the
    physical memory map, with the facts about them the components share.
    The addresses the linker script fixes at link time ([etext],
    [trampoline], [end]) are the fields of the class [Layout]. *)

From S2P Require Import Prelude.

(** ** riscv.h *)

Definition PGSIZE : Z := 4096.
Definition PGSHIFT : Z := 12.

Definition PGROUNDUP (sz : Z) : Z := Z.land (u64 (sz + PGSIZE - 1)) (Z.lnot (PGSIZE - 1)).
Definition PGROUNDDOWN (a : Z) : Z := Z.land a (Z.lnot (PGSIZE - 1)).

Definition PTE_V : Z := Z.shiftl 1 0.
Definition PTE_R : Z := Z.shiftl 1 1.
Definition PTE_W : Z := Z.shiftl 1 2.
Definition PTE_X : Z := Z.shiftl 1 3.
Definition PTE_U : Z := Z.shiftl 1 4.
Definition PTE_COW : Z := Z.shiftl 1 8.
Definition PTE_SWAPPED : Z := Z.shiftl 1 9.

Definition PA2PTE (pa : Z) : Z := Z.shiftl (Z.shiftr pa 12) 10.
Definition PTE2PA (pte : Z) : Z := u64 (Z.shiftl (Z.shiftr pte 10) 12).
Definition PTE_FLAGS (pte : Z) : Z := Z.land pte 0x3FF.

Definition PXMASK : Z := 0x1FF.
Definition PXSHIFT (level : Z) : Z := PGSHIFT + 9 * level.
Definition PX (level va : Z) : Z := Z.land (Z.shiftr va (PXSHIFT level)) PXMASK.

Definition MAXVA : Z := Z.shiftl 1 (9 + 9 + 9 + 12 - 1).

(** ** memlayout.h *)

Definition UART0 : Z := 0x10000000.
Definition VIRTIO0 : Z := 0x10001000.
Definition PLIC : Z := 0x0c000000.
Definition KERNBASE : Z := 0x80000000.
Definition PHYSTOP : Z := KERNBASE + 128 * 1024 * 1024.
Definition TRAMPOLINE : Z := MAXVA - PGSIZE.
Definition KSTACK (p : Z) : Z := TRAMPOLINE - (p + 1) * 2 * PGSIZE.
Definition TRAPFRAME : Z := TRAMPOLINE - PGSIZE.

(** ** param.h and fs.h *)

Definition NPROC : Z := 64.
Definition NCPU : Z := 8.
Definition NOFILE : Z := 16.
Definition ROOTDEV : Z := 1.
Definition MAXOPBLOCKS : Z := 10.
Definition LOGBLOCKS : Z := MAXOPBLOCKS * 3.
Definition NBUF : Z := MAXOPBLOCKS * 3.
Definition FSSIZE : Z := 2000.
Definition BSIZE : Z := 1024.

(** ** Addresses chosen by the linker (kernel.ld) *)

Class Layout : Type := {
  kend : Z;          (* [end], first address after the kernel image *)
  etext : Z;         (* end of the kernel's code *)
  trampoline : Z     (* the trampoline page, the last page of the code *)
}.

(** What kernel.ld guarantees: the image starts at [KERNBASE], the trampoline
    is one page-aligned page that ends the text, and the image fits in RAM. *)
Record layout_ok (L : Layout) : Prop := {
  lo_tramp : KERNBASE <= trampoline;
  lo_tramp_al : trampoline mod PGSIZE = 0;
  lo_etext : etext = trampoline + PGSIZE;
  lo_end : etext <= kend;
  lo_top : kend <= PHYSTOP
}.

(** A page of RAM: aligned and inside [KERNBASE, PHYSTOP). *)
Definition is_page (pa : Z) : Prop :=
  pa mod PGSIZE = 0 /\ KERNBASE <= pa /\ pa + PGSIZE <= PHYSTOP.

(** A page the allocator hands out: it lies after the kernel image. *)
Definition heap_page {L : Layout} (pa : Z) : Prop := is_page pa /\ kend <= pa.

(** The bytes of the page at [p]. *)
Definition in_page (p x : Z) : Prop := p <= x < p + PGSIZE.

#[export] Instance is_page_dec pa : Decision (is_page pa).
Proof. unfold is_page. apply _. Defined.
#[export] Instance in_page_dec p x : Decision (in_page p x).
Proof. unfold in_page. apply _. Defined.

Create HintDb xv6_const.
#[export] Hint Unfold PGSIZE KERNBASE PHYSTOP MAXVA TRAMPOLINE TRAPFRAME : xv6_const.

(** [lia] with the numeric constants of the headers unfolded. *)
Ltac clia := unfold heap_page, is_page, in_page, TRAPFRAME, TRAMPOLINE, PHYSTOP, KERNBASE, PGSIZE,
    NPROC, BSIZE, FSSIZE in *;
  change MAXVA with 0x4000000000 in *; lia.

(** ** Page rounding *)

Lemma land_lnot_4095 a : Z.land a (Z.lnot 4095) = 4096 * (a / 4096).
Proof.
  change 4095 with (Z.ones 12). rewrite <- Z.ldiff_land, Z.ldiff_ones_r by lia.
  rewrite Z.shiftl_mul_pow2, Z.shiftr_div_pow2 by lia. change (2 ^ 12) with 4096. lia.
Qed.

Lemma PGROUNDDOWN_eq a : PGROUNDDOWN a = 4096 * (a / 4096).
Proof. apply land_lnot_4095. Qed.

Lemma PGROUNDUP_eq sz : 0 <= sz < 0x10000000000000000 - 4095 ->
  PGROUNDUP sz = 4096 * ((sz + 4095) / 4096).
Proof.
  intros H. unfold PGROUNDUP, PGSIZE. rewrite u64_small by lia.
  replace (sz + 4096 - 1) with (sz + 4095) by lia. apply land_lnot_4095.
Qed.

Lemma PGROUNDDOWN_aligned a : PGROUNDDOWN a mod PGSIZE = 0.
Proof. rewrite PGROUNDDOWN_eq. unfold PGSIZE. zlia. Qed.

Lemma PGROUNDDOWN_id a : a mod PGSIZE = 0 -> PGROUNDDOWN a = a.
Proof. rewrite PGROUNDDOWN_eq. unfold PGSIZE. zlia. Qed.

Lemma PGROUNDDOWN_le a : PGROUNDDOWN a <= a < PGROUNDDOWN a + PGSIZE.
Proof. rewrite PGROUNDDOWN_eq. unfold PGSIZE. zlia. Qed.

Lemma PGROUNDUP_aligned sz : 0 <= sz < 0x10000000000000000 - 4095 ->
  PGROUNDUP sz mod PGSIZE = 0.
Proof. intros. rewrite PGROUNDUP_eq by done. unfold PGSIZE. zlia. Qed.

Lemma PGROUNDUP_bounds sz : 0 <= sz < 0x10000000000000000 - 4095 ->
  sz <= PGROUNDUP sz < sz + PGSIZE.
Proof. intros. rewrite PGROUNDUP_eq by done. unfold PGSIZE. zlia. Qed.

(** Distinct pages do not overlap. *)
Lemma in_page_inj p q x :
  p mod PGSIZE = 0 -> q mod PGSIZE = 0 -> in_page p x -> in_page q x -> p = q.
Proof. unfold in_page, PGSIZE. zlia. Qed.

(** ** Page-table entries *)

Lemma has_V pte : has pte PTE_V = Z.testbit pte 0.
Proof. apply (has_pow2 _ 0). lia. Qed.
Lemma has_R pte : has pte PTE_R = Z.testbit pte 1.
Proof. apply (has_pow2 _ 1). lia. Qed.
Lemma has_W pte : has pte PTE_W = Z.testbit pte 2.
Proof. apply (has_pow2 _ 2). lia. Qed.
Lemma has_X pte : has pte PTE_X = Z.testbit pte 3.
Proof. apply (has_pow2 _ 3). lia. Qed.
Lemma has_U pte : has pte PTE_U = Z.testbit pte 4.
Proof. apply (has_pow2 _ 4). lia. Qed.
Lemma has_COW pte : has pte PTE_COW = Z.testbit pte 8.
Proof. apply (has_pow2 _ 8). lia. Qed.
Lemma has_SWAPPED pte : has pte PTE_SWAPPED = Z.testbit pte 9.
Proof. apply (has_pow2 _ 9). lia. Qed.

Create Rewrite HintDb pte.
#[export] Hint Rewrite has_V has_R has_W has_X has_U has_COW has_SWAPPED : pte.
#[export] Hint Rewrite Z.lor_spec Z.land_spec : pte.
#[export] Hint Rewrite Z.lnot_spec Z.shiftl_spec Z.shiftr_spec using lia : pte.

(** Decides a flag of an entry built from other entries and constant flags. *)
Ltac pte_bits :=
  autorewrite with pte;
  repeat match goal with
  | |- context [Z.testbit ?x ?k] =>
      is_ground x; let b := eval vm_compute in (Z.testbit x k) in change (Z.testbit x k) with b
  end;
  rewrite ?andb_true_r, ?andb_false_r, ?orb_false_r, ?orb_true_r, ?andb_true_l, ?orb_false_l.

Lemma shiftr_flags f : 0 <= f < 1024 -> Z.shiftr f 10 = 0.
Proof. intros. apply shiftr_small. lia. Qed.

Lemma PA2PTE_shiftr pa : Z.shiftr (PA2PTE pa) 10 = Z.shiftr pa 12.
Proof. unfold PA2PTE. rewrite Z.shiftr_shiftl_l by lia. by rewrite Z.shiftl_0_r. Qed.

Lemma PA2PTE_low pa k : 0 <= k < 10 -> Z.testbit (PA2PTE pa) k = false.
Proof. intros. unfold PA2PTE. rewrite Z.shiftl_spec_low by lia. done. Qed.

(** An entry built from an aligned physical address and ten flag bits gives
    the address back. *)
Lemma PTE2PA_PA2PTE pa f :
  pa mod PGSIZE = 0 -> 0 <= pa < 0x100000000000000 -> 0 <= f < 1024 ->
  PTE2PA (Z.lor (PA2PTE pa) f) = pa.
Proof.
  intros Hal Hpa Hf. unfold PTE2PA.
  rewrite Z.shiftr_lor, PA2PTE_shiftr, (shiftr_flags f), Z.lor_0_r by done.
  rewrite Z.shiftl_mul_pow2, Z.shiftr_div_pow2 by lia.
  change (2 ^ 12) with 4096. unfold PGSIZE in *. rewrite u64_small; zlia.
Qed.

(** ... and the flags. *)
Lemma PTE_FLAGS_PA2PTE pa f : 0 <= f < 1024 -> PTE_FLAGS (Z.lor (PA2PTE pa) f) = f.
Proof.
  intros Hf. unfold PTE_FLAGS. apply Z.bits_inj'; intros k Hk.
  change 0x3FF with (Z.ones 10). rewrite Z.land_spec, Z.lor_spec.
  destruct (decide (k < 10)).
  - rewrite PA2PTE_low, Z.ones_spec_low by lia. by rewrite andb_true_r.
  - rewrite Z.ones_spec_high, andb_false_r by lia.
    symmetry. apply (testbit_small _ 10); lia.
Qed.

Lemma PTE2PA_aligned pte : PTE2PA pte mod PGSIZE = 0.
Proof.
  unfold PTE2PA, u64, PGSIZE. rewrite Z.shiftl_mul_pow2 by lia.
  change (2 ^ 12) with 4096. zlia.
Qed.

Lemma PTE2PA_range pte : 0 <= PTE2PA pte < 0x10000000000000000.
Proof. apply u64_range. Qed.

(** The address of an entry does not depend on its flag bits. *)
Lemma PTE2PA_ext x y : Z.shiftr x 10 = Z.shiftr y 10 -> PTE2PA x = PTE2PA y.
Proof. unfold PTE2PA. by intros ->. Qed.

Lemma PTE_FLAGS_range pte : 0 <= PTE_FLAGS pte < 1024.
Proof.
  unfold PTE_FLAGS. change 0x3FF with (Z.ones 10). rewrite Z.land_ones by lia.
  apply Z.mod_pos_bound. lia.
Qed.

Lemma PTE_FLAGS_bit pte k : 0 <= k < 10 -> Z.testbit (PTE_FLAGS pte) k = Z.testbit pte k.
Proof.
  intros. unfold PTE_FLAGS. change 0x3FF with (Z.ones 10).
  rewrite Z.land_spec, Z.ones_spec_low by lia. by rewrite andb_true_r.
Qed.

(** ** Splitting virtual addresses *)

Lemma PX_eq level va : 0 <= level -> PX level va = va / 2 ^ (12 + 9 * level) mod 512.
Proof.
  intros. unfold PX, PXSHIFT, PXMASK, PGSHIFT. change 0x1FF with (Z.ones 9).
  rewrite Z.land_ones by lia. rewrite Z.shiftr_div_pow2 by lia. done.
Qed.

Lemma PX_range level va : 0 <= level -> 0 <= PX level va < 512.
Proof. intros. rewrite PX_eq by done. by apply Z.mod_pos_bound. Qed.

(** The three indices determine the page of a virtual address. *)
Lemma PX_page va : 0 <= va < MAXVA ->
  va / PGSIZE = PX 2 va * 262144 + PX 1 va * 512 + PX 0 va.
Proof.
  intros H. change MAXVA with 0x4000000000 in H.
  rewrite !PX_eq by lia. unfold PGSIZE.
  change (2 ^ (12 + 9 * 2)) with 1073741824. change (2 ^ (12 + 9 * 1)) with 2097152.
  change (2 ^ (12 + 9 * 0)) with 4096. zlia.
Qed.

Lemma PX_inj va va' : 0 <= va < MAXVA -> 0 <= va' < MAXVA ->
  PX 2 va = PX 2 va' -> PX 1 va = PX 1 va' -> PX 0 va = PX 0 va' ->
  va / PGSIZE = va' / PGSIZE.
Proof. intros. rewrite !PX_page by done. congruence. Qed.

Lemma PX_ext level va va' : 0 <= level -> va / PGSIZE = va' / PGSIZE -> PX level va = PX level va'.
Proof.
  intros Hl H. rewrite !PX_eq by done. rewrite !Z.pow_add_r by lia. change (2 ^ 12) with PGSIZE.
  rewrite <- !Z.div_div by (try apply Z.pow_pos_nonneg; unfold PGSIZE; lia).
  by rewrite H.
Qed.
