(* ===== verification/Mem.v ===== *)
(** * Byte-addressed memory

    Physical memory as a function from addresses to bytes, little-endian
    loads and stores of [n] bytes, and the bulk operations (fill, copy, write
    a byte string) that the loops of kernel/string.c compute; [CString]
    proves that they do. *)

From S2P Require Import Prelude Riscv.

Definition mem : Type := Z -> Z.

Definition load8 (m : mem) (a : Z) : Z := u8 (m a).
Definition store8 (m : mem) (a v : Z) : mem := fupd m a (u8 v).

Fixpoint loadn (n : nat) (m : mem) (a : Z) : Z :=
  match n with
  | O => 0
  | S n => load8 m a + 256 * loadn n m (a + 1)
  end.

Definition in_range (a n x : Z) : bool := (a <=? x) && (x <? a + n).

Definition storen (n : nat) (m : mem) (a v : Z) : mem := fun x =>
  if in_range a (Z.of_nat n) x then u8 (v / 256 ^ (x - a)) else m x.

Definition load64 := loadn 8.
Definition store64 := storen 8.
Definition load32 := loadn 4.
Definition store32 := storen 4.

Definition mem_fill (m : mem) (d c n : Z) : mem := fun x =>
  if in_range d n x then u8 c else m x.

Definition mem_copy (m : mem) (d s n : Z) : mem := fun x =>
  if in_range d n x then m (s + (x - d)) else m x.

Definition mem_write (m : mem) (d : Z) (bs : list Z) : mem := fun x =>
  if in_range d (Z.of_nat (length bs)) x then nth (Z.to_nat (x - d)) bs 0 else m x.

Definition mem_read (m : mem) (s n : Z) : list Z :=
  map (fun i => load8 m (s + i)) (seqZ 0 n).

(** The memories agree outside the [n] bytes at [a]. *)
Definition same_outside (a n : Z) (m m' : mem) : Prop :=
  forall x, ~ (a <= x < a + n) -> m' x = m x.

(** The memories agree on the [n] bytes at [a]. *)
Definition agree_on (a n : Z) (m m' : mem) : Prop :=
  forall x, a <= x < a + n -> m' x = m x.

(** Case analysis on the range tests of the goal. *)
Ltac range_cases :=
  repeat match goal with
  | |- context [in_range ?a ?n ?x] =>
      let E := fresh "Hrg" in
      destruct (in_range a n x) eqn:E; unfold in_range in E; try lia
  end.

Lemma in_range_true a n x : a <= x < a + n -> in_range a n x = true.
Proof. unfold in_range. lia. Qed.
Lemma in_range_false a n x : ~ (a <= x < a + n) -> in_range a n x = false.
Proof. unfold in_range. lia. Qed.

Lemma loadn_range n m a : 0 <= loadn n m a < 256 ^ Z.of_nat n.
Proof.
  revert a. induction n as [|n IH]; intros a; [simpl; lia|].
  cbn [loadn]. specialize (IH (a + 1)). pose proof (u8_range (m a)) as Hb.
  fold (load8 m a) in Hb. rewrite Nat2Z.inj_succ, Z.pow_succ_r by lia. lia.
Qed.

Lemma load64_range m a : 0 <= load64 m a < 0x10000000000000000.
Proof. apply (loadn_range 8). Qed.

Lemma load32_range m a : 0 <= load32 m a < 0x100000000.
Proof. apply (loadn_range 4). Qed.

Lemma loadn_ext n m m' a :
  agree_on a (Z.of_nat n) m m' -> loadn n m' a = loadn n m a.
Proof.
  revert a. induction n as [|n IH]; intros a H; [done|].
  cbn [loadn]. unfold load8. rewrite (H a) by lia. rewrite (IH (a + 1)); [done|].
  intros x Hx. apply H. lia.
Qed.

(** Reading back [k] bytes at offset [i] of a stored value. *)
Lemma loadn_storen_at k n m a v i :
  (i + k <= n)%nat ->
  loadn k (storen n m a v) (a + Z.of_nat i) = (v / 256 ^ Z.of_nat i) mod 256 ^ Z.of_nat k.
Proof.
  revert i. induction k as [|k IH]; intros i Hk.
  - simpl. by rewrite Z.mod_1_r.
  - cbn [loadn].
    replace (a + Z.of_nat i + 1) with (a + Z.of_nat (S i)) by lia.
    rewrite IH by lia. unfold load8, storen.
    rewrite in_range_true by lia. replace (a + Z.of_nat i - a) with (Z.of_nat i) by lia.
    rewrite !Nat2Z.inj_succ, !Z.pow_succ_r by lia.
    assert (0 < 256 ^ Z.of_nat i) by (apply Z.pow_pos_nonneg; lia).
    assert (0 < 256 ^ Z.of_nat k) by (apply Z.pow_pos_nonneg; lia).
    rewrite (Z.mul_comm 256 (256 ^ Z.of_nat i)), <- Z.div_div by lia.
    rewrite Z.rem_mul_r by lia. unfold u8. rewrite Z.mod_mod by lia. done.
Qed.

Lemma loadn_storen n m a v : loadn n (storen n m a v) a = v mod 256 ^ Z.of_nat n.
Proof.
  pose proof (loadn_storen_at n n m a v 0) as H. simpl in H.
  rewrite Z.add_0_r, Z.div_1_r in H. apply H. lia.
Qed.

Lemma load64_store64 m a v : load64 (store64 m a v) a = u64 v.
Proof. apply (loadn_storen 8). Qed.

Lemma load32_store32 m a v : load32 (store32 m a v) a = u32 v.
Proof. apply (loadn_storen 4). Qed.

Lemma storen_outside n m a v : same_outside a (Z.of_nat n) m (storen n m a v).
Proof. intros x Hx. unfold storen. by rewrite in_range_false. Qed.

Lemma store64_outside m a v : same_outside a 8 m (store64 m a v).
Proof. apply (storen_outside 8). Qed.

Lemma mem_fill_outside m d c n : same_outside d n m (mem_fill m d c n).
Proof. intros x Hx. unfold mem_fill. by rewrite in_range_false. Qed.

Lemma mem_copy_outside m d s n : same_outside d n m (mem_copy m d s n).
Proof. intros x Hx. unfold mem_copy. by rewrite in_range_false. Qed.

Lemma mem_write_outside m d bs : same_outside d (Z.of_nat (length bs)) m (mem_write m d bs).
Proof. intros x Hx. unfold mem_write. by rewrite in_range_false. Qed.

Lemma same_outside_refl a n m : same_outside a n m m.
Proof. done. Qed.

Lemma same_outside_trans a n m1 m2 m3 :
  same_outside a n m1 m2 -> same_outside a n m2 m3 -> same_outside a n m1 m3.
Proof. intros H1 H2 x Hx. by rewrite (H2 x Hx), (H1 x Hx). Qed.

Lemma same_outside_weaken a n a' n' m m' :
  same_outside a n m m' -> (forall x, a <= x < a + n -> a' <= x < a' + n') ->
  same_outside a' n' m m'.
Proof. intros H Hi x Hx. apply H. intros Hr. by apply Hx, Hi. Qed.

(** A load is not affected by a change elsewhere. *)
Lemma loadn_outside n a m m' d k :
  same_outside d k m m' -> (forall x, a <= x < a + Z.of_nat n -> ~ (d <= x < d + k)) ->
  loadn n m' a = loadn n m a.
Proof. intros H Hd. apply loadn_ext. intros x Hx. apply H, Hd, Hx. Qed.

Lemma load64_outside a m m' d k :
  same_outside d k m m' -> (forall x, a <= x < a + 8 -> ~ (d <= x < d + k)) ->
  load64 m' a = load64 m a.
Proof. apply (loadn_outside 8). Qed.

Lemma load64_store64_ne m a b v : a + 8 <= b \/ b + 8 <= a -> load64 (store64 m a v) b = load64 m b.
Proof. intros. eapply load64_outside; [apply store64_outside|]. lia. Qed.

Lemma loadn_fill0 n m d k a :
  d <= a -> a + Z.of_nat n <= d + k -> loadn n (mem_fill m d 0 k) a = 0.
Proof.
  revert a. induction n as [|n IH]; intros a H1 H2; [done|].
  cbn [loadn]. rewrite IH by lia. unfold load8, mem_fill. by rewrite in_range_true by lia.
Qed.

Lemma load64_fill0 m d k a : d <= a -> a + 8 <= d + k -> load64 (mem_fill m d 0 k) a = 0.
Proof. apply (loadn_fill0 8). Qed.

Lemma length_mem_read m s n : length (mem_read m s n) = Z.to_nat n.
Proof. unfold mem_read. by rewrite length_map, length_seqZ. Qed.

Lemma mem_read_lookup m s n i : 0 <= i < n -> mem_read m s n !! Z.to_nat i = Some (load8 m (s + i)).
Proof.
  intros Hi. unfold mem_read. rewrite list_lookup_fmap.
  rewrite lookup_seqZ_lt by lia. simpl. do 3 f_equal. lia.
Qed.

(** Reading what was written gives the bytes back. *)
Lemma mem_read_write m d bs : Forall (fun b => 0 <= b < 256) bs ->
  mem_read (mem_write m d bs) d (Z.of_nat (length bs)) = bs.
Proof.
  intros Hb. apply list_eq_same_length with (n := length bs); [done| |].
  - by rewrite length_mem_read, Nat2Z.id.
  - intros i x y Hi. rewrite <- (Nat2Z.id i) at 1. rewrite mem_read_lookup by lia.
    unfold load8, mem_write. rewrite in_range_true by lia.
    replace (d + Z.of_nat i - d) with (Z.of_nat i) by lia. rewrite Nat2Z.id.
    intros [= <-] Hy. rewrite (nth_lookup_Some _ _ 0 _ Hy).
    apply u8_small. by apply (proj1 (Forall_lookup _ _) Hb i).
Qed.

Lemma mem_read_ext m m' s n : agree_on s n m m' -> mem_read m' s n = mem_read m s n.
Proof.
  intros H. unfold mem_read. apply map_ext_in. intros i Hi.
  apply list_elem_of_In, elem_of_seqZ in Hi. unfold load8. rewrite (H (s + i)); [done|lia].
Qed.
