(* ===== verification/CString.v ===== *)
(** * kernel/string.c

    The byte loops of the kernel's string library, translated one iteration
    at a time over [mem], and the bulk operations they compute.  A loop
    returns [None] only when its fuel runs out; each correctness theorem
    shows that the fuel its entry point passes is enough. *)

From S2P Require Import Prelude Riscv Mem.

(** ** Definitions *)

(** [for(i = 0; i < n; i++) cdst[i] = c;]  [i] is an [int], [n] a [uint]. *)
Fixpoint memset_loop (fuel : nat) (m : mem) (cdst c i n : Z) : option mem :=
  match fuel with
  | O => None
  | S fuel =>
      if u32 i <? n
      then memset_loop fuel (store8 m (cdst + i) c) cdst c (s32 (i + 1)) n
      else Some m
  end.

Definition memset (m : mem) (dst c n : Z) : option mem :=
  memset_loop (S (Z.to_nat n)) m dst c 0 n.

(** [while(n-- > 0){ if( *s1 != *s2) return *s1 - *s2; s1++, s2++; }] *)
Fixpoint memcmp_loop (fuel : nat) (m : mem) (s1 s2 n : Z) : option Z :=
  match fuel with
  | O => None
  | S fuel =>
      if n >? 0 then
        if negb (load8 m s1 =? load8 m s2)
        then Some (load8 m s1 - load8 m s2)
        else memcmp_loop fuel m (s1 + 1) (s2 + 1) (n - 1)
      else Some 0
  end.

Definition memcmp (m : mem) (v1 v2 n : Z) : option Z :=
  memcmp_loop (S (Z.to_nat n)) m v1 v2 n.

(** [while(n-- > 0) *--d = *--s;] *)
Fixpoint memmove_down (fuel : nat) (m : mem) (d s n : Z) : option mem :=
  match fuel with
  | O => None
  | S fuel =>
      if n >? 0
      then memmove_down fuel (store8 m (d - 1) (load8 m (s - 1))) (d - 1) (s - 1) (n - 1)
      else Some m
  end.

(** [while(n-- > 0) *d++ = *s++;] *)
Fixpoint memmove_up (fuel : nat) (m : mem) (d s n : Z) : option mem :=
  match fuel with
  | O => None
  | S fuel =>
      if n >? 0
      then memmove_up fuel (store8 m d (load8 m s)) (d + 1) (s + 1) (n - 1)
      else Some m
  end.

Definition memmove (m : mem) (dst src n : Z) : option mem :=
  if n =? 0 then Some m
  else if (src <? dst) && (src + n >? dst)
  then memmove_down (S (Z.to_nat n)) m (dst + n) (src + n) n
  else memmove_up (S (Z.to_nat n)) m dst src n.

Definition memcpy (m : mem) (dst src n : Z) : option mem := memmove m dst src n.

(** [while(n > 0 && *p && *p == *q) n--, p++, q++;] and the return value. *)
Fixpoint strncmp_loop (fuel : nat) (m : mem) (p q n : Z) : option Z :=
  match fuel with
  | O => None
  | S fuel =>
      if (n >? 0) && negb (load8 m p =? 0) && (load8 m p =? load8 m q)
      then strncmp_loop fuel m (p + 1) (q + 1) (n - 1)
      else if n =? 0 then Some 0
      else Some (load8 m p - load8 m q)
  end.

Definition strncmp (m : mem) (p q n : Z) : option Z :=
  strncmp_loop (S (Z.to_nat n)) m p q n.

(** [while(n-- > 0) *s++ = 0;] *)
Fixpoint strncpy_pad (fuel : nat) (m : mem) (s n : Z) : option mem :=
  match fuel with
  | O => None
  | S fuel =>
      if n >? 0 then strncpy_pad fuel (store8 m s 0) (s + 1) (n - 1) else Some m
  end.

(** [while(n-- > 0 && ( *s++ = *t++) != 0);] followed by the padding loop,
    which starts with the [n] this loop leaves behind. *)
Fixpoint strncpy_loop (fuel : nat) (m : mem) (s t n : Z) : option mem :=
  match fuel with
  | O => None
  | S fuel =>
      if n >? 0 then
        let c := load8 m t in
        let m := store8 m s c in
        if negb (c =? 0) then strncpy_loop fuel m (s + 1) (t + 1) (n - 1)
        else strncpy_pad (S (Z.to_nat (n - 1))) m (s + 1) (n - 1)
      else strncpy_pad 1 m s (n - 1)
  end.

Definition strncpy (m : mem) (s t n : Z) : option mem :=
  strncpy_loop (S (Z.to_nat n)) m s t n.

(** [while(--n > 0 && ( *s++ = *t++) != 0); *s = 0;] *)
Fixpoint safestrcpy_loop (fuel : nat) (m : mem) (s t n : Z) : option mem :=
  match fuel with
  | O => None
  | S fuel =>
      if n - 1 >? 0 then
        let c := load8 m t in
        let m := store8 m s c in
        if negb (c =? 0) then safestrcpy_loop fuel m (s + 1) (t + 1) (n - 1)
        else Some (store8 m (s + 1) 0)
      else Some (store8 m s 0)
  end.

Definition safestrcpy (m : mem) (s t n : Z) : option mem :=
  if n <=? 0 then Some m else safestrcpy_loop (Z.to_nat n) m s t n.

(** [for(n = 0; s[n]; n++);]  The source has no bound; [fuel] is ours. *)
Fixpoint strlen_loop (fuel : nat) (m : mem) (s n : Z) : option Z :=
  match fuel with
  | O => None
  | S fuel => if load8 m (s + n) =? 0 then Some n else strlen_loop fuel m s (s32 (n + 1))
  end.

Definition strlen (fuel : nat) (m : mem) (s : Z) : option Z := strlen_loop fuel m s 0.

(** The C string at [a], cut after [n] characters. *)
Fixpoint cstr (n : nat) (m : mem) (a : Z) : list Z :=
  match n with
  | O => []
  | S n => if load8 m a =? 0 then [] else load8 m a :: cstr n m (a + 1)
  end.

(** ** Properties *)

Lemma load8_store8 m a v : load8 (store8 m a v) a = u8 v.
Proof. unfold load8, store8. rewrite fupd_eq. apply u8_small, u8_range. Qed.

Lemma load8_store8_ne m a b v : b <> a -> load8 (store8 m a v) b = load8 m b.
Proof. intros. unfold load8, store8. by rewrite fupd_ne. Qed.

Lemma load8_range m a : 0 <= load8 m a < 256.
Proof. apply u8_range. Qed.

Lemma u8_load8 m a : u8 (load8 m a) = load8 m a.
Proof. apply u8_small, load8_range. Qed.

Lemma memset_loop_correct fuel m cdst c i n :
  0 <= i <= n -> n < 0x80000000 -> (Z.to_nat (n - i) < fuel)%nat ->
  exists m', memset_loop fuel m cdst c i n = Some m' /\
    forall x, m' x = mem_fill m (cdst + i) c (n - i) x.
Proof.
  revert m i. induction fuel as [|fuel IH]; intros m i Hi Hn Hf; [lia|].
  cbn [memset_loop]. rewrite u32_small by lia. destruct (Z.ltb_spec i n).
  - rewrite s32_small by lia.
    destruct (IH (store8 m (cdst + i) c) (i + 1)) as (m' & -> & Hm'); [lia..|].
    exists m'. split; [done|]. intros x. rewrite Hm'. unfold mem_fill, store8, fupd.
    range_cases; destruct (Z.eqb_spec x (cdst + i)); try done; lia.
  - exists m. split; [done|]. intros x. unfold mem_fill. range_cases; done.
Qed.

(** [memset] fills the [n] bytes at [dst] with [(char)c] and changes no other. *)
Lemma memset_fill m dst c n : 0 <= n < 0x80000000 ->
  exists m', memset m dst c n = Some m' /\ forall x, m' x = mem_fill m dst c n x.
Proof.
  intros Hn. destruct (memset_loop_correct (S (Z.to_nat n)) m dst c 0 n) as (m' & H & Hm');
    [lia..|].
  exists m'. split; [done|]. intros x. by rewrite Hm', Z.add_0_r, Z.sub_0_r.
Qed.

(** Loads see a copied byte whatever the memory function holds above 8 bits. *)
Definition bytes_eq (m m' : mem) : Prop := forall x, load8 m x = load8 m' x.

Lemma load8_copy m d s n x :
  load8 (mem_copy m d s n) x = if in_range d n x then load8 m (s + (x - d)) else load8 m x.
Proof. unfold load8, mem_copy. by destruct (in_range d n x). Qed.

Lemma memmove_up_correct fuel m d s n :
  0 <= n -> (Z.to_nat n < fuel)%nat -> (d <= s \/ s + n <= d) ->
  exists m', memmove_up fuel m d s n = Some m' /\ bytes_eq m' (mem_copy m d s n).
Proof.
  revert m d s n. induction fuel as [|fuel IH]; intros m d s n Hn Hf Hov; [lia|].
  cbn [memmove_up]. rewrite Z.gtb_ltb. destruct (Z.ltb_spec 0 n).
  - destruct (IH (store8 m d (load8 m s)) (d + 1) (s + 1) (n - 1)) as (m' & -> & Hm'); [lia..|].
    exists m'. split; [done|]. intros x. rewrite Hm', !load8_copy. range_cases.
    + rewrite load8_store8_ne by lia. f_equal. lia.
    + assert (x = d) as -> by lia. rewrite load8_store8, u8_load8. f_equal. lia.
    + by rewrite load8_store8_ne by lia.
  - exists m. split; [done|]. intros x. unfold load8, mem_copy. range_cases; done.
Qed.

Lemma memmove_down_correct fuel m d s n :
  0 <= n -> (Z.to_nat n < fuel)%nat -> s <= d ->
  exists m', memmove_down fuel m (d + n) (s + n) n = Some m' /\ bytes_eq m' (mem_copy m d s n).
Proof.
  revert m n. induction fuel as [|fuel IH]; intros m n Hn Hf Hov; [lia|].
  cbn [memmove_down]. rewrite Z.gtb_ltb. destruct (Z.ltb_spec 0 n).
  - replace (d + n - 1) with (d + (n - 1)) by lia. replace (s + n - 1) with (s + (n - 1)) by lia.
    destruct (IH (store8 m (d + (n - 1)) (load8 m (s + (n - 1)))) (n - 1))
      as (m' & -> & Hm'); [lia..|].
    exists m'. split; [done|]. intros x. rewrite Hm', !load8_copy. range_cases.
    + by rewrite load8_store8_ne by lia.
    + assert (x = d + (n - 1)) as -> by lia. rewrite load8_store8, u8_load8. f_equal. lia.
    + by rewrite load8_store8_ne by lia.
  - exists m. split; [done|]. intros x. unfold load8, mem_copy. range_cases; done.
Qed.

(** [memmove] copies the bytes the source held before the call, whether or
    not the two areas overlap. *)
Lemma memmove_copy m dst src n : 0 <= n ->
  exists m', memmove m dst src n = Some m' /\ bytes_eq m' (mem_copy m dst src n).
Proof.
  intros Hn. unfold memmove. destruct (Z.eqb_spec n 0) as [->|Hn0].
  { exists m. split; [done|]. intros x. unfold load8, mem_copy. range_cases; done. }
  rewrite Z.gtb_ltb.
  destruct (Z.ltb_spec src dst); destruct (Z.ltb_spec dst (src + n)); cbn [andb].
  - apply memmove_down_correct; lia.
  - apply memmove_up_correct; lia.
  - apply memmove_up_correct; lia.
  - apply memmove_up_correct; lia.
Qed.

(** ** C strings *)

Lemma cstr_ext n m m' a : (forall x, a <= x < a + Z.of_nat n -> load8 m' x = load8 m x) ->
  cstr n m' a = cstr n m a.
Proof.
  revert a. induction n as [|n IH]; intros a H; [done|].
  cbn [cstr]. rewrite (H a) by lia. rewrite (IH (a + 1)); [done|]. intros x Hx. apply H. lia.
Qed.

Lemma cstr_unfold n m a : 0 < n ->
  cstr (Z.to_nat n) m a =
  if load8 m a =? 0 then [] else load8 m a :: cstr (Z.to_nat (n - 1)) m (a + 1).
Proof. intros. by replace (Z.to_nat n) with (S (Z.to_nat (n - 1))) by lia. Qed.

Lemma cstr_length n m a : (length (cstr n m a) <= n)%nat.
Proof.
  revert a. induction n as [|n IH]; intros a; cbn [cstr]; [done|].
  destruct (_ =? 0); simpl; [lia|]. specialize (IH (a + 1)). lia.
Qed.

Lemma memcmp_loop_correct fuel m s1 s2 n :
  0 <= n -> (Z.to_nat n < fuel)%nat ->
  exists r, memcmp_loop fuel m s1 s2 n = Some r /\
    (r = 0 <-> forall i, 0 <= i < n -> load8 m (s1 + i) = load8 m (s2 + i)).
Proof.
  revert s1 s2 n. induction fuel as [|fuel IH]; intros s1 s2 n Hn Hf; [lia|].
  cbn [memcmp_loop]. rewrite Z.gtb_ltb. destruct (Z.ltb_spec 0 n).
  - destruct (Z.eqb_spec (load8 m s1) (load8 m s2)) as [E|E]; cbn [negb].
    + destruct (IH (s1 + 1) (s2 + 1) (n - 1)) as (r & -> & Hr); [lia..|].
      exists r. split; [done|]. rewrite Hr. split; intros Hall i Hi.
      * destruct (decide (i = 0)) as [->|]; [by rewrite !Z.add_0_r|].
        specialize (Hall (i - 1) ltac:(lia)).
        by replace (s1 + 1 + (i - 1)) with (s1 + i) in Hall by lia;
          replace (s2 + 1 + (i - 1)) with (s2 + i) in Hall by lia.
      * replace (s1 + 1 + i) with (s1 + (i + 1)) by lia.
        replace (s2 + 1 + i) with (s2 + (i + 1)) by lia. apply Hall. lia.
    + eexists. split; [done|]. split; [lia|]. intros Hall. specialize (Hall 0 ltac:(lia)).
      rewrite !Z.add_0_r in Hall. lia.
  - exists 0. split; [done|]. split; [|done]. intros _ i Hi. lia.
Qed.

(** [memcmp] returns, and answers zero exactly on equal byte ranges. *)
Lemma memcmp_spec m v1 v2 n : 0 <= n ->
  exists r, memcmp m v1 v2 n = Some r /\
    (r = 0 <-> forall i, 0 <= i < n -> load8 m (v1 + i) = load8 m (v2 + i)).
Proof. intros. apply memcmp_loop_correct; lia. Qed.

Lemma strncmp_loop_correct fuel m p q n :
  0 <= n -> (Z.to_nat n < fuel)%nat ->
  exists r, strncmp_loop fuel m p q n = Some r /\
    (r = 0 <-> cstr (Z.to_nat n) m p = cstr (Z.to_nat n) m q).
Proof.
  revert p q n. induction fuel as [|fuel IH]; intros p q n Hn Hf; [lia|].
  cbn [strncmp_loop]. rewrite Z.gtb_ltb. destruct (Z.ltb_spec 0 n) as [Hp|Hp]; cbn [andb].
  2:{ assert (n = 0) as -> by lia. exists 0. split; done. }
  replace (Z.to_nat n) with (S (Z.to_nat (n - 1))) by lia. cbn [cstr].
  destruct (Z.eqb_spec (load8 m p) 0) as [E0|E0]; cbn [negb andb].
  - rewrite (proj2 (Z.eqb_neq n 0)) by lia. eexists. split; [done|].
    destruct (Z.eqb_spec (load8 m q) 0); split; (lia || done).
  - destruct (Z.eqb_spec (load8 m p) (load8 m q)) as [E|E].
    + destruct (IH (p + 1) (q + 1) (n - 1)) as (r & -> & Hr); [lia..|].
      exists r. split; [done|]. rewrite <- E, (proj2 (Z.eqb_neq _ _) E0), Hr.
      split; [by intros ->|]. by intros [= ->].
    + rewrite (proj2 (Z.eqb_neq n 0)) by lia. eexists. split; [done|].
      destruct (Z.eqb_spec (load8 m q) 0); split; try lia; [done|]. by intros [= ? _].
Qed.

(** [strncmp] answers zero exactly when the two strings agree up to [n]
    characters or their end. *)
Lemma strncmp_spec m p q n : 0 <= n ->
  exists r, strncmp m p q n = Some r /\
    (r = 0 <-> cstr (Z.to_nat n) m p = cstr (Z.to_nat n) m q).
Proof. intros. apply strncmp_loop_correct; lia. Qed.

Lemma strncpy_pad_correct fuel m s n :
  (Z.to_nat n < fuel)%nat ->
  exists m', strncpy_pad fuel m s n = Some m' /\ forall x, m' x = mem_fill m s 0 n x.
Proof.
  revert m s n. induction fuel as [|fuel IH]; intros m s n Hf; [lia|].
  cbn [strncpy_pad]. rewrite Z.gtb_ltb. destruct (Z.ltb_spec 0 n).
  - destruct (IH (store8 m s 0) (s + 1) (n - 1)) as (m' & -> & Hm'); [lia|].
    exists m'. split; [done|]. intros x. rewrite Hm'. unfold mem_fill, store8, fupd.
    range_cases; destruct (Z.eqb_spec x s); try done; lia.
  - exists m. split; [done|]. intros x. unfold mem_fill. range_cases; done.
Qed.

(** What [strncpy] leaves at offset [i]: the character, or padding. *)
Definition strncpy_byte (m : mem) (t n i : Z) : Z := nth (Z.to_nat i) (cstr (Z.to_nat n) m t) 0.

Lemma strncpy_loop_correct fuel m s t n :
  0 <= n -> (Z.to_nat n < fuel)%nat -> (s + n <= t \/ t + n <= s) ->
  exists m', strncpy_loop fuel m s t n = Some m' /\ same_outside s n m m' /\
    forall i, 0 <= i < n -> m' (s + i) = strncpy_byte m t n i.
Proof.
  revert m s t n. induction fuel as [|fuel IH]; intros m s t n Hn Hf Hd; [lia|].
  cbn [strncpy_loop]. rewrite Z.gtb_ltb. destruct (Z.ltb_spec 0 n) as [Hp|Hp].
  2:{ destruct (strncpy_pad_correct 1 m s (n - 1)) as (m' & -> & Hm'); [lia|].
      exists m'. split; [done|]. split; [|lia]. intros x Hx. rewrite Hm'. unfold mem_fill. range_cases; done. }
  unfold strncpy_byte. replace (Z.to_nat n) with (S (Z.to_nat (n - 1))) by lia. cbn [cstr].
  destruct (Z.eqb_spec (load8 m t) 0) as [E0|E0]; cbn [negb].
  - rewrite E0. destruct (strncpy_pad_correct (S (Z.to_nat (n - 1))) (store8 m s 0) (s + 1) (n - 1))
      as (m' & -> & Hm'); [lia|].
    exists m'. split; [done|]. split.
    + intros x Hx. rewrite Hm'. unfold mem_fill, store8. range_cases. by rewrite fupd_ne by lia.
    + intros i Hi. rewrite Hm'. unfold mem_fill, store8, fupd.
      rewrite nth_overflow by (simpl; lia). range_cases; [done|].
      by destruct (Z.eqb_spec (s + i) s); [|lia].
  - destruct (IH (store8 m s (load8 m t)) (s + 1) (t + 1) (n - 1)) as (m' & -> & Ho & Hb); [lia..|].
    exists m'. split; [done|]. split.
    + intros x Hx. rewrite Ho by lia. unfold store8. by rewrite fupd_ne by lia.
    + intros i Hi. destruct (decide (i = 0)) as [->|Hi0].
      * rewrite Z.add_0_r, Ho by lia. unfold store8. by rewrite fupd_eq, u8_load8.
      * replace (s + i) with (s + 1 + (i - 1)) by lia. rewrite Hb by lia. unfold strncpy_byte.
        replace (Z.to_nat i) with (S (Z.to_nat (i - 1))) by lia. cbn [nth].
        rewrite (cstr_ext _ m); [done|]. intros x Hx. apply load8_store8_ne. lia.
Qed.

(** [strncpy] into a disjoint area writes exactly [n] bytes: the source
    string cut at [n] characters, then zero padding. *)
Lemma strncpy_spec m s t n : 0 <= n -> (s + n <= t \/ t + n <= s) ->
  exists m', strncpy m s t n = Some m' /\ same_outside s n m m' /\
    forall i, 0 <= i < n -> m' (s + i) = strncpy_byte m t n i.
Proof. intros. apply strncpy_loop_correct; lia. Qed.

Lemma safestrcpy_loop_correct fuel m s t n :
  0 < n -> (Z.to_nat n <= fuel)%nat -> (s + n <= t \/ t + n <= s) ->
  exists m', safestrcpy_loop fuel m s t n = Some m' /\ same_outside s n m m' /\
    cstr (Z.to_nat n) m' s = cstr (Z.to_nat (n - 1)) m t.
Proof.
  revert m s t n. induction fuel as [|fuel IH]; intros m s t n Hn Hf Hd; [lia|].
  cbn [safestrcpy_loop]. rewrite Z.gtb_ltb. destruct (Z.ltb_spec 0 (n - 1)) as [Hp|Hp].
  2:{ assert (n = 1) as -> by lia. eexists. split; [done|]. split.
      - intros x Hx. unfold store8. by rewrite fupd_ne by lia.
      - simpl. by rewrite load8_store8. }
  rewrite (cstr_unfold (n - 1) m t) by lia.
  destruct (Z.eqb_spec (load8 m t) 0) as [E0|E0]; cbn [negb].
  - eexists. split; [done|]. split.
    + intros x Hx. unfold store8. by rewrite !fupd_ne by lia.
    + by rewrite cstr_unfold, load8_store8_ne, load8_store8, u8_load8, E0 by lia.
  - destruct (IH (store8 m s (load8 m t)) (s + 1) (t + 1) (n - 1)) as (m' & -> & Ho & Hc); [lia..|].
    exists m'. split; [done|]. split.
    + intros x Hx. rewrite Ho by lia. unfold store8. by rewrite fupd_ne by lia.
    + rewrite cstr_unfold by lia. assert (load8 m' s = load8 m t) as ->.
      { unfold load8 at 1. rewrite Ho by lia. unfold store8. rewrite fupd_eq, u8_load8.
        apply u8_load8. }
      rewrite (proj2 (Z.eqb_neq _ _) E0), Hc. f_equal. apply cstr_ext.
      intros x Hx. apply load8_store8_ne. lia.
Qed.

(** [safestrcpy] into a disjoint area of [n > 0] bytes stores the source cut
    at [n - 1] characters, terminated, and touches nothing else. *)
Lemma safestrcpy_spec m s t n : 0 < n -> (s + n <= t \/ t + n <= s) ->
  exists m', safestrcpy m s t n = Some m' /\ same_outside s n m m' /\
    cstr (Z.to_nat n) m' s = cstr (Z.to_nat (n - 1)) m t.
Proof.
  intros. unfold safestrcpy. rewrite (proj2 (Z.leb_gt n 0)) by lia.
  apply safestrcpy_loop_correct; lia.
Qed.

Lemma strlen_loop_correct fuel m s n k :
  0 <= n <= k -> k < 0x80000000 -> (Z.to_nat (k - n) < fuel)%nat ->
  load8 m (s + k) = 0 -> (forall i, n <= i < k -> load8 m (s + i) <> 0) ->
  strlen_loop fuel m s n = Some k.
Proof.
  revert n. induction fuel as [|fuel IH]; intros n Hn Hk Hf H0 Hne; [lia|].
  cbn [strlen_loop]. destruct (Z.eqb_spec (load8 m (s + n)) 0) as [E|E].
  - destruct (decide (n = k)) as [->|]; [done|]. exfalso. apply (Hne n); [lia|done].
  - assert (n <> k) by congruence. rewrite s32_small by lia. apply IH; try done; try lia.
    intros i Hi. apply Hne. lia.
Qed.

(** [strlen] finds the first NUL. *)
Lemma strlen_spec fuel m s k :
  0 <= k < 0x80000000 -> (Z.to_nat k < fuel)%nat ->
  load8 m (s + k) = 0 -> (forall i, 0 <= i < k -> load8 m (s + i) <> 0) ->
  strlen fuel m s = Some k.
Proof. intros. apply strlen_loop_correct; try done; lia. Qed.

(** ** Claims *)

(** [memmove] always returns, and the destination then holds the bytes the
    source held before the call, also when the two ranges overlap; nothing
    else changes. *)
Theorem memmove_correct m dst src n :
  0 <= n < 0x100000000 ->
  exists m', memmove m dst src n = Some m' /\
    (forall i, 0 <= i < n -> load8 m' (dst + i) = load8 m (src + i)) /\
    (forall x, ~ (dst <= x < dst + n) -> load8 m' x = load8 m x).
Proof.
  intros Hn. destruct (memmove_copy m dst src n) as (m' & H & Hm'); [lia|].
  exists m'. split; [done|]. split; intros x Hx; rewrite (Hm' _), load8_copy.
  - rewrite in_range_true by lia. f_equal. lia.
  - by rewrite in_range_false.
Qed.

Lemma memmove_correct_witness :
  exists m', memmove (fun x => x) 12 10 5 = Some m' /\
    (forall i, 0 <= i < 5 -> load8 m' (12 + i) = load8 (fun x => x) (10 + i)) /\
    (forall x, ~ (12 <= x < 12 + 5) -> load8 m' x = load8 (fun x => x) x).
Proof. apply memmove_correct. lia. Defined.

(** [safestrcpy] into a buffer that does not overlap the source always
    leaves a terminated string: the source's, cut to [n - 1] characters; and it
    writes nothing outside the [n] bytes of the buffer. *)
Theorem safestrcpy_correct m s t n :
  0 < n < 0x80000000 -> (s + n <= t \/ t + n <= s) ->
  exists m', safestrcpy m s t n = Some m' /\ same_outside s n m m' /\
    cstr (Z.to_nat n) m' s = cstr (Z.to_nat (n - 1)) m t.
Proof. intros Hn Hd. apply safestrcpy_spec; [lia|done]. Qed.

Lemma safestrcpy_correct_witness :
  exists m', safestrcpy (fun x => x) 100 200 8 = Some m' /\ same_outside 100 8 (fun x => x) m' /\
    cstr 8 m' 100 = cstr 7 (fun x => x) 200.
Proof. apply (safestrcpy_correct (fun x => x) 100 200 8); lia. Defined.
