(* ===== verification/KState.v ===== *)
(** * The kernel's global state

    The C globals the components share, as one record: physical memory, the
    spinlocks the CPU holds, the page allocator, the swap map, the memory
    statistics, the process table, the sleep locks, the buffer cache, the disk
    and its driver, the log, the inode and file tables, pipes and the console.
    Each component defines its operations in the state monad [K] over it.

    A pointer into a global array is the index of the element; a null pointer
    to a [struct proc] is [None].  Pointers to physical pages are addresses. *)

From S2P Require Import Prelude Riscv Mem.

(** ** Names of locks and sleep channels *)

(** Sleep locks: one per buffer and one per in-memory inode. *)
Inductive slid : Type := SL_buf (i : Z) | SL_inode (i : Z).

(** The spinlocks of the kernel. *)
Inductive lockid : Type :=
| L_kmem | L_refcount | L_swap | L_memstats | L_pid | L_wait | L_ticks
| L_bcache | L_vdisk | L_log | L_ftable | L_itable | L_cons | L_pr | L_tx
| L_proc (i : Z) | L_pipe (a : Z) | L_sleep (l : slid).

(** The addresses kernel code sleeps on. *)
Inductive chan : Type :=
| NoChan | ChTicks | ChLog | ChDisk | ChCons | ChTx
| ChProc (i : Z) | ChBuf (i : Z) | ChPipeR (a : Z) | ChPipeW (a : Z) | ChSleep (l : slid).

#[export] Instance slid_eq_dec : EqDecision slid.
Proof. solve_decision. Defined.
#[export] Instance lockid_eq_dec : EqDecision lockid.
Proof. solve_decision. Defined.
#[export] Instance chan_eq_dec : EqDecision chan.
Proof. solve_decision. Defined.

(** ** proc.h *)

Inductive procstate : Type := UNUSED | USED | SLEEPING | RUNNABLE | RUNNING | ZOMBIE.
#[export] Instance procstate_eq_dec : EqDecision procstate.
Proof. solve_decision. Defined.

(** Saved registers of a kernel context: [ra], [sp] and the callee-saved
    registers s0..s11. *)
Record context : Type := mkContext { ctx_ra : Z; ctx_sp : Z; ctx_s : Z -> Z }.

(** ** file.h and virtio.h *)

Inductive ftype : Type := FD_NONE | FD_PIPE | FD_INODE | FD_DEVICE.
#[export] Instance ftype_eq_dec : EqDecision ftype.
Proof. solve_decision. Defined.

(** What a disk descriptor points to: a command header, the data of a buffer,
    a status byte. *)
Inductive dmaddr : Type := A_null | A_op (i : Z) | A_data (b : Z) | A_status (i : Z).

Record vdesc : Type := mkDesc { d_addr : dmaddr; d_len : Z; d_flags : Z; d_next : Z }.
Record vreq : Type := mkReq { rq_type : Z; rq_reserved : Z; rq_sector : Z }.

(** A process; [p_trapframe] and [p_pagetable] are physical addresses, 0 when
    absent; files and inodes are indices into their tables. *)
Record proc : Type := mkProc {
  p_state : procstate;
  p_chan : chan;
  p_killed : Z;
  p_xstate : Z;
  p_pid : Z;
  p_parent : option Z;
  p_kstack : Z;
  p_sz : Z;
  p_pagetable : Z;
  p_trapframe : Z;
  p_context : context;
  p_ofile : Z -> option Z;
  p_cwd : option Z;
  p_name : list Z
}.

Definition p_set_state (v : procstate) (p : proc) : proc :=
  mkProc v (p_chan p) (p_killed p) (p_xstate p) (p_pid p) (p_parent p) (p_kstack p) (p_sz p) (p_pagetable p) (p_trapframe p) (p_context p) (p_ofile p) (p_cwd p) (p_name p).
Definition p_set_chan (v : chan) (p : proc) : proc :=
  mkProc (p_state p) v (p_killed p) (p_xstate p) (p_pid p) (p_parent p) (p_kstack p) (p_sz p) (p_pagetable p) (p_trapframe p) (p_context p) (p_ofile p) (p_cwd p) (p_name p).
Definition p_set_killed (v : Z) (p : proc) : proc :=
  mkProc (p_state p) (p_chan p) v (p_xstate p) (p_pid p) (p_parent p) (p_kstack p) (p_sz p) (p_pagetable p) (p_trapframe p) (p_context p) (p_ofile p) (p_cwd p) (p_name p).
Definition p_set_xstate (v : Z) (p : proc) : proc :=
  mkProc (p_state p) (p_chan p) (p_killed p) v (p_pid p) (p_parent p) (p_kstack p) (p_sz p) (p_pagetable p) (p_trapframe p) (p_context p) (p_ofile p) (p_cwd p) (p_name p).
Definition p_set_pid (v : Z) (p : proc) : proc :=
  mkProc (p_state p) (p_chan p) (p_killed p) (p_xstate p) v (p_parent p) (p_kstack p) (p_sz p) (p_pagetable p) (p_trapframe p) (p_context p) (p_ofile p) (p_cwd p) (p_name p).
Definition p_set_parent (v : option Z) (p : proc) : proc :=
  mkProc (p_state p) (p_chan p) (p_killed p) (p_xstate p) (p_pid p) v (p_kstack p) (p_sz p) (p_pagetable p) (p_trapframe p) (p_context p) (p_ofile p) (p_cwd p) (p_name p).
Definition p_set_kstack (v : Z) (p : proc) : proc :=
  mkProc (p_state p) (p_chan p) (p_killed p) (p_xstate p) (p_pid p) (p_parent p) v (p_sz p) (p_pagetable p) (p_trapframe p) (p_context p) (p_ofile p) (p_cwd p) (p_name p).
Definition p_set_sz (v : Z) (p : proc) : proc :=
  mkProc (p_state p) (p_chan p) (p_killed p) (p_xstate p) (p_pid p) (p_parent p) (p_kstack p) v (p_pagetable p) (p_trapframe p) (p_context p) (p_ofile p) (p_cwd p) (p_name p).
Definition p_set_pagetable (v : Z) (p : proc) : proc :=
  mkProc (p_state p) (p_chan p) (p_killed p) (p_xstate p) (p_pid p) (p_parent p) (p_kstack p) (p_sz p) v (p_trapframe p) (p_context p) (p_ofile p) (p_cwd p) (p_name p).
Definition p_set_trapframe (v : Z) (p : proc) : proc :=
  mkProc (p_state p) (p_chan p) (p_killed p) (p_xstate p) (p_pid p) (p_parent p) (p_kstack p) (p_sz p) (p_pagetable p) v (p_context p) (p_ofile p) (p_cwd p) (p_name p).
Definition p_set_context (v : context) (p : proc) : proc :=
  mkProc (p_state p) (p_chan p) (p_killed p) (p_xstate p) (p_pid p) (p_parent p) (p_kstack p) (p_sz p) (p_pagetable p) (p_trapframe p) v (p_ofile p) (p_cwd p) (p_name p).
Definition p_set_ofile (v : Z -> option Z) (p : proc) : proc :=
  mkProc (p_state p) (p_chan p) (p_killed p) (p_xstate p) (p_pid p) (p_parent p) (p_kstack p) (p_sz p) (p_pagetable p) (p_trapframe p) (p_context p) v (p_cwd p) (p_name p).
Definition p_set_cwd (v : option Z) (p : proc) : proc :=
  mkProc (p_state p) (p_chan p) (p_killed p) (p_xstate p) (p_pid p) (p_parent p) (p_kstack p) (p_sz p) (p_pagetable p) (p_trapframe p) (p_context p) (p_ofile p) v (p_name p).
Definition p_set_name (v : list Z) (p : proc) : proc :=
  mkProc (p_state p) (p_chan p) (p_killed p) (p_xstate p) (p_pid p) (p_parent p) (p_kstack p) (p_sz p) (p_pagetable p) (p_trapframe p) (p_context p) (p_ofile p) (p_cwd p) v.

(** swap.c: the bitmap of swap blocks and the count of free ones. *)
Record swapst : Type := mkSwap {
  sw_inuse : Z -> Z;
  sw_nfree : Z
}.

Definition sw_set_inuse (v : Z -> Z) (w : swapst) : swapst :=
  mkSwap v (sw_nfree w).
Definition sw_set_nfree (v : Z) (w : swapst) : swapst :=
  mkSwap (sw_inuse w) v.

(** memstats.c: the twelve counters. *)
Record stats : Type := mkStats {
  ms_cow_faults : Z;
  ms_cow_pages_shared : Z;
  ms_swap_outs : Z;
  ms_swap_ins : Z;
  ms_swap_blocks_used : Z;
  ms_page_faults : Z;
  ms_load_faults : Z;
  ms_store_faults : Z;
  ms_lazy_alloc_faults : Z;
  ms_pages_allocated : Z;
  ms_pages_freed : Z;
  ms_current_pages : Z
}.

Definition ms_set_cow_faults (v : Z) (t : stats) : stats :=
  mkStats v (ms_cow_pages_shared t) (ms_swap_outs t) (ms_swap_ins t) (ms_swap_blocks_used t) (ms_page_faults t) (ms_load_faults t) (ms_store_faults t) (ms_lazy_alloc_faults t) (ms_pages_allocated t) (ms_pages_freed t) (ms_current_pages t).
Definition ms_set_cow_pages_shared (v : Z) (t : stats) : stats :=
  mkStats (ms_cow_faults t) v (ms_swap_outs t) (ms_swap_ins t) (ms_swap_blocks_used t) (ms_page_faults t) (ms_load_faults t) (ms_store_faults t) (ms_lazy_alloc_faults t) (ms_pages_allocated t) (ms_pages_freed t) (ms_current_pages t).
Definition ms_set_swap_outs (v : Z) (t : stats) : stats :=
  mkStats (ms_cow_faults t) (ms_cow_pages_shared t) v (ms_swap_ins t) (ms_swap_blocks_used t) (ms_page_faults t) (ms_load_faults t) (ms_store_faults t) (ms_lazy_alloc_faults t) (ms_pages_allocated t) (ms_pages_freed t) (ms_current_pages t).
Definition ms_set_swap_ins (v : Z) (t : stats) : stats :=
  mkStats (ms_cow_faults t) (ms_cow_pages_shared t) (ms_swap_outs t) v (ms_swap_blocks_used t) (ms_page_faults t) (ms_load_faults t) (ms_store_faults t) (ms_lazy_alloc_faults t) (ms_pages_allocated t) (ms_pages_freed t) (ms_current_pages t).
Definition ms_set_swap_blocks_used (v : Z) (t : stats) : stats :=
  mkStats (ms_cow_faults t) (ms_cow_pages_shared t) (ms_swap_outs t) (ms_swap_ins t) v (ms_page_faults t) (ms_load_faults t) (ms_store_faults t) (ms_lazy_alloc_faults t) (ms_pages_allocated t) (ms_pages_freed t) (ms_current_pages t).
Definition ms_set_page_faults (v : Z) (t : stats) : stats :=
  mkStats (ms_cow_faults t) (ms_cow_pages_shared t) (ms_swap_outs t) (ms_swap_ins t) (ms_swap_blocks_used t) v (ms_load_faults t) (ms_store_faults t) (ms_lazy_alloc_faults t) (ms_pages_allocated t) (ms_pages_freed t) (ms_current_pages t).
Definition ms_set_load_faults (v : Z) (t : stats) : stats :=
  mkStats (ms_cow_faults t) (ms_cow_pages_shared t) (ms_swap_outs t) (ms_swap_ins t) (ms_swap_blocks_used t) (ms_page_faults t) v (ms_store_faults t) (ms_lazy_alloc_faults t) (ms_pages_allocated t) (ms_pages_freed t) (ms_current_pages t).
Definition ms_set_store_faults (v : Z) (t : stats) : stats :=
  mkStats (ms_cow_faults t) (ms_cow_pages_shared t) (ms_swap_outs t) (ms_swap_ins t) (ms_swap_blocks_used t) (ms_page_faults t) (ms_load_faults t) v (ms_lazy_alloc_faults t) (ms_pages_allocated t) (ms_pages_freed t) (ms_current_pages t).
Definition ms_set_lazy_alloc_faults (v : Z) (t : stats) : stats :=
  mkStats (ms_cow_faults t) (ms_cow_pages_shared t) (ms_swap_outs t) (ms_swap_ins t) (ms_swap_blocks_used t) (ms_page_faults t) (ms_load_faults t) (ms_store_faults t) v (ms_pages_allocated t) (ms_pages_freed t) (ms_current_pages t).
Definition ms_set_pages_allocated (v : Z) (t : stats) : stats :=
  mkStats (ms_cow_faults t) (ms_cow_pages_shared t) (ms_swap_outs t) (ms_swap_ins t) (ms_swap_blocks_used t) (ms_page_faults t) (ms_load_faults t) (ms_store_faults t) (ms_lazy_alloc_faults t) v (ms_pages_freed t) (ms_current_pages t).
Definition ms_set_pages_freed (v : Z) (t : stats) : stats :=
  mkStats (ms_cow_faults t) (ms_cow_pages_shared t) (ms_swap_outs t) (ms_swap_ins t) (ms_swap_blocks_used t) (ms_page_faults t) (ms_load_faults t) (ms_store_faults t) (ms_lazy_alloc_faults t) (ms_pages_allocated t) v (ms_current_pages t).
Definition ms_set_current_pages (v : Z) (t : stats) : stats :=
  mkStats (ms_cow_faults t) (ms_cow_pages_shared t) (ms_swap_outs t) (ms_swap_ins t) (ms_swap_blocks_used t) (ms_page_faults t) (ms_load_faults t) (ms_store_faults t) (ms_lazy_alloc_faults t) (ms_pages_allocated t) (ms_pages_freed t) v.

(** A sleep lock; its spinlock is [L_sleep]. *)
Record sleeplock : Type := mkSleep {
  sl_locked : bool;
  sl_pid : Z
}.

Definition sl_set_locked (v : bool) (l : sleeplock) : sleeplock :=
  mkSleep v (sl_pid l).
Definition sl_set_pid (v : Z) (l : sleeplock) : sleeplock :=
  mkSleep (sl_locked l) v.

(** buf.h; [b_data] is the array of [BSIZE] bytes, the list head is buffer [NBUF]. *)
Record buf : Type := mkBuf {
  b_valid : bool;
  b_disk : bool;
  b_dev : Z;
  b_blockno : Z;
  b_refcnt : Z;
  b_prev : Z;
  b_next : Z;
  b_data : Z -> Z
}.

Definition b_set_valid (v : bool) (b : buf) : buf :=
  mkBuf v (b_disk b) (b_dev b) (b_blockno b) (b_refcnt b) (b_prev b) (b_next b) (b_data b).
Definition b_set_disk (v : bool) (b : buf) : buf :=
  mkBuf (b_valid b) v (b_dev b) (b_blockno b) (b_refcnt b) (b_prev b) (b_next b) (b_data b).
Definition b_set_dev (v : Z) (b : buf) : buf :=
  mkBuf (b_valid b) (b_disk b) v (b_blockno b) (b_refcnt b) (b_prev b) (b_next b) (b_data b).
Definition b_set_blockno (v : Z) (b : buf) : buf :=
  mkBuf (b_valid b) (b_disk b) (b_dev b) v (b_refcnt b) (b_prev b) (b_next b) (b_data b).
Definition b_set_refcnt (v : Z) (b : buf) : buf :=
  mkBuf (b_valid b) (b_disk b) (b_dev b) (b_blockno b) v (b_prev b) (b_next b) (b_data b).
Definition b_set_prev (v : Z) (b : buf) : buf :=
  mkBuf (b_valid b) (b_disk b) (b_dev b) (b_blockno b) (b_refcnt b) v (b_next b) (b_data b).
Definition b_set_next (v : Z) (b : buf) : buf :=
  mkBuf (b_valid b) (b_disk b) (b_dev b) (b_blockno b) (b_refcnt b) (b_prev b) v (b_data b).
Definition b_set_data (v : Z -> Z) (b : buf) : buf :=
  mkBuf (b_valid b) (b_disk b) (b_dev b) (b_blockno b) (b_refcnt b) (b_prev b) (b_next b) v.

(** log.c: [lg_n] and [lg_block] are the in-memory header [log.lh]. *)
Record logst : Type := mkLog {
  lg_start : Z;
  lg_outstanding : Z;
  lg_committing : bool;
  lg_dev : Z;
  lg_n : Z;
  lg_block : Z -> Z
}.

Definition lg_set_start (v : Z) (g : logst) : logst :=
  mkLog v (lg_outstanding g) (lg_committing g) (lg_dev g) (lg_n g) (lg_block g).
Definition lg_set_outstanding (v : Z) (g : logst) : logst :=
  mkLog (lg_start g) v (lg_committing g) (lg_dev g) (lg_n g) (lg_block g).
Definition lg_set_committing (v : bool) (g : logst) : logst :=
  mkLog (lg_start g) (lg_outstanding g) v (lg_dev g) (lg_n g) (lg_block g).
Definition lg_set_dev (v : Z) (g : logst) : logst :=
  mkLog (lg_start g) (lg_outstanding g) (lg_committing g) v (lg_n g) (lg_block g).
Definition lg_set_n (v : Z) (g : logst) : logst :=
  mkLog (lg_start g) (lg_outstanding g) (lg_committing g) (lg_dev g) v (lg_block g).
Definition lg_set_block (v : Z -> Z) (g : logst) : logst :=
  mkLog (lg_start g) (lg_outstanding g) (lg_committing g) (lg_dev g) (lg_n g) v.

(** fs.h *)
Record superblock : Type := mkSuper {
  sb_magic : Z;
  sb_size : Z;
  sb_nblocks : Z;
  sb_ninodes : Z;
  sb_nlog : Z;
  sb_logstart : Z;
  sb_inodestart : Z;
  sb_bmapstart : Z
}.

Definition sb_set_magic (v : Z) (x : superblock) : superblock :=
  mkSuper v (sb_size x) (sb_nblocks x) (sb_ninodes x) (sb_nlog x) (sb_logstart x) (sb_inodestart x) (sb_bmapstart x).
Definition sb_set_size (v : Z) (x : superblock) : superblock :=
  mkSuper (sb_magic x) v (sb_nblocks x) (sb_ninodes x) (sb_nlog x) (sb_logstart x) (sb_inodestart x) (sb_bmapstart x).
Definition sb_set_nblocks (v : Z) (x : superblock) : superblock :=
  mkSuper (sb_magic x) (sb_size x) v (sb_ninodes x) (sb_nlog x) (sb_logstart x) (sb_inodestart x) (sb_bmapstart x).
Definition sb_set_ninodes (v : Z) (x : superblock) : superblock :=
  mkSuper (sb_magic x) (sb_size x) (sb_nblocks x) v (sb_nlog x) (sb_logstart x) (sb_inodestart x) (sb_bmapstart x).
Definition sb_set_nlog (v : Z) (x : superblock) : superblock :=
  mkSuper (sb_magic x) (sb_size x) (sb_nblocks x) (sb_ninodes x) v (sb_logstart x) (sb_inodestart x) (sb_bmapstart x).
Definition sb_set_logstart (v : Z) (x : superblock) : superblock :=
  mkSuper (sb_magic x) (sb_size x) (sb_nblocks x) (sb_ninodes x) (sb_nlog x) v (sb_inodestart x) (sb_bmapstart x).
Definition sb_set_inodestart (v : Z) (x : superblock) : superblock :=
  mkSuper (sb_magic x) (sb_size x) (sb_nblocks x) (sb_ninodes x) (sb_nlog x) (sb_logstart x) v (sb_bmapstart x).
Definition sb_set_bmapstart (v : Z) (x : superblock) : superblock :=
  mkSuper (sb_magic x) (sb_size x) (sb_nblocks x) (sb_ninodes x) (sb_nlog x) (sb_logstart x) (sb_inodestart x) v.

(** file.h: an inode in memory; its sleep lock is [SL_inode]. *)
Record inode : Type := mkInode {
  i_dev : Z;
  i_inum : Z;
  i_ref : Z;
  i_valid : bool;
  i_type : Z;
  i_major : Z;
  i_minor : Z;
  i_nlink : Z;
  i_size : Z;
  i_addrs : Z -> Z
}.

Definition i_set_dev (v : Z) (x : inode) : inode :=
  mkInode v (i_inum x) (i_ref x) (i_valid x) (i_type x) (i_major x) (i_minor x) (i_nlink x) (i_size x) (i_addrs x).
Definition i_set_inum (v : Z) (x : inode) : inode :=
  mkInode (i_dev x) v (i_ref x) (i_valid x) (i_type x) (i_major x) (i_minor x) (i_nlink x) (i_size x) (i_addrs x).
Definition i_set_ref (v : Z) (x : inode) : inode :=
  mkInode (i_dev x) (i_inum x) v (i_valid x) (i_type x) (i_major x) (i_minor x) (i_nlink x) (i_size x) (i_addrs x).
Definition i_set_valid (v : bool) (x : inode) : inode :=
  mkInode (i_dev x) (i_inum x) (i_ref x) v (i_type x) (i_major x) (i_minor x) (i_nlink x) (i_size x) (i_addrs x).
Definition i_set_type (v : Z) (x : inode) : inode :=
  mkInode (i_dev x) (i_inum x) (i_ref x) (i_valid x) v (i_major x) (i_minor x) (i_nlink x) (i_size x) (i_addrs x).
Definition i_set_major (v : Z) (x : inode) : inode :=
  mkInode (i_dev x) (i_inum x) (i_ref x) (i_valid x) (i_type x) v (i_minor x) (i_nlink x) (i_size x) (i_addrs x).
Definition i_set_minor (v : Z) (x : inode) : inode :=
  mkInode (i_dev x) (i_inum x) (i_ref x) (i_valid x) (i_type x) (i_major x) v (i_nlink x) (i_size x) (i_addrs x).
Definition i_set_nlink (v : Z) (x : inode) : inode :=
  mkInode (i_dev x) (i_inum x) (i_ref x) (i_valid x) (i_type x) (i_major x) (i_minor x) v (i_size x) (i_addrs x).
Definition i_set_size (v : Z) (x : inode) : inode :=
  mkInode (i_dev x) (i_inum x) (i_ref x) (i_valid x) (i_type x) (i_major x) (i_minor x) (i_nlink x) v (i_addrs x).
Definition i_set_addrs (v : Z -> Z) (x : inode) : inode :=
  mkInode (i_dev x) (i_inum x) (i_ref x) (i_valid x) (i_type x) (i_major x) (i_minor x) (i_nlink x) (i_size x) v.

(** file.h: an open file; [f_pipe] is the address of the pipe's page. *)
Record file : Type := mkFile {
  f_type : ftype;
  f_ref : Z;
  f_readable : bool;
  f_writable : bool;
  f_pipe : Z;
  f_ip : option Z;
  f_off : Z;
  f_major : Z
}.

Definition f_set_type (v : ftype) (x : file) : file :=
  mkFile v (f_ref x) (f_readable x) (f_writable x) (f_pipe x) (f_ip x) (f_off x) (f_major x).
Definition f_set_ref (v : Z) (x : file) : file :=
  mkFile (f_type x) v (f_readable x) (f_writable x) (f_pipe x) (f_ip x) (f_off x) (f_major x).
Definition f_set_readable (v : bool) (x : file) : file :=
  mkFile (f_type x) (f_ref x) v (f_writable x) (f_pipe x) (f_ip x) (f_off x) (f_major x).
Definition f_set_writable (v : bool) (x : file) : file :=
  mkFile (f_type x) (f_ref x) (f_readable x) v (f_pipe x) (f_ip x) (f_off x) (f_major x).
Definition f_set_pipe (v : Z) (x : file) : file :=
  mkFile (f_type x) (f_ref x) (f_readable x) (f_writable x) v (f_ip x) (f_off x) (f_major x).
Definition f_set_ip (v : option Z) (x : file) : file :=
  mkFile (f_type x) (f_ref x) (f_readable x) (f_writable x) (f_pipe x) v (f_off x) (f_major x).
Definition f_set_off (v : Z) (x : file) : file :=
  mkFile (f_type x) (f_ref x) (f_readable x) (f_writable x) (f_pipe x) (f_ip x) v (f_major x).
Definition f_set_major (v : Z) (x : file) : file :=
  mkFile (f_type x) (f_ref x) (f_readable x) (f_writable x) (f_pipe x) (f_ip x) (f_off x) v.

(** pipe.c *)
Record pipe : Type := mkPipe {
  pi_data : Z -> Z;
  pi_nread : Z;
  pi_nwrite : Z;
  pi_readopen : bool;
  pi_writeopen : bool
}.

Definition pi_set_data (v : Z -> Z) (x : pipe) : pipe :=
  mkPipe v (pi_nread x) (pi_nwrite x) (pi_readopen x) (pi_writeopen x).
Definition pi_set_nread (v : Z) (x : pipe) : pipe :=
  mkPipe (pi_data x) v (pi_nwrite x) (pi_readopen x) (pi_writeopen x).
Definition pi_set_nwrite (v : Z) (x : pipe) : pipe :=
  mkPipe (pi_data x) (pi_nread x) v (pi_readopen x) (pi_writeopen x).
Definition pi_set_readopen (v : bool) (x : pipe) : pipe :=
  mkPipe (pi_data x) (pi_nread x) (pi_nwrite x) v (pi_writeopen x).
Definition pi_set_writeopen (v : bool) (x : pipe) : pipe :=
  mkPipe (pi_data x) (pi_nread x) (pi_nwrite x) (pi_readopen x) v.

(** virtio_disk.c: the descriptors, the two rings shared with the device
    ([vd_uidx] is [used->idx], [vd_used] the ids in its ring) and the driver's
    own books. *)
Record vdisk : Type := mkVdisk {
  vd_free : Z -> bool;
  vd_used_idx : Z;
  vd_desc : Z -> vdesc;
  vd_avail_idx : Z;
  vd_avail : Z -> Z;
  vd_uidx : Z;
  vd_used : Z -> Z;
  vd_info_b : Z -> option Z;
  vd_status : Z -> Z;
  vd_ops : Z -> vreq
}.

Definition vd_set_free (v : Z -> bool) (x : vdisk) : vdisk :=
  mkVdisk v (vd_used_idx x) (vd_desc x) (vd_avail_idx x) (vd_avail x) (vd_uidx x) (vd_used x) (vd_info_b x) (vd_status x) (vd_ops x).
Definition vd_set_used_idx (v : Z) (x : vdisk) : vdisk :=
  mkVdisk (vd_free x) v (vd_desc x) (vd_avail_idx x) (vd_avail x) (vd_uidx x) (vd_used x) (vd_info_b x) (vd_status x) (vd_ops x).
Definition vd_set_desc (v : Z -> vdesc) (x : vdisk) : vdisk :=
  mkVdisk (vd_free x) (vd_used_idx x) v (vd_avail_idx x) (vd_avail x) (vd_uidx x) (vd_used x) (vd_info_b x) (vd_status x) (vd_ops x).
Definition vd_set_avail_idx (v : Z) (x : vdisk) : vdisk :=
  mkVdisk (vd_free x) (vd_used_idx x) (vd_desc x) v (vd_avail x) (vd_uidx x) (vd_used x) (vd_info_b x) (vd_status x) (vd_ops x).
Definition vd_set_avail (v : Z -> Z) (x : vdisk) : vdisk :=
  mkVdisk (vd_free x) (vd_used_idx x) (vd_desc x) (vd_avail_idx x) v (vd_uidx x) (vd_used x) (vd_info_b x) (vd_status x) (vd_ops x).
Definition vd_set_uidx (v : Z) (x : vdisk) : vdisk :=
  mkVdisk (vd_free x) (vd_used_idx x) (vd_desc x) (vd_avail_idx x) (vd_avail x) v (vd_used x) (vd_info_b x) (vd_status x) (vd_ops x).
Definition vd_set_used (v : Z -> Z) (x : vdisk) : vdisk :=
  mkVdisk (vd_free x) (vd_used_idx x) (vd_desc x) (vd_avail_idx x) (vd_avail x) (vd_uidx x) v (vd_info_b x) (vd_status x) (vd_ops x).
Definition vd_set_info_b (v : Z -> option Z) (x : vdisk) : vdisk :=
  mkVdisk (vd_free x) (vd_used_idx x) (vd_desc x) (vd_avail_idx x) (vd_avail x) (vd_uidx x) (vd_used x) v (vd_status x) (vd_ops x).
Definition vd_set_status (v : Z -> Z) (x : vdisk) : vdisk :=
  mkVdisk (vd_free x) (vd_used_idx x) (vd_desc x) (vd_avail_idx x) (vd_avail x) (vd_uidx x) (vd_used x) (vd_info_b x) v (vd_ops x).
Definition vd_set_ops (v : Z -> vreq) (x : vdisk) : vdisk :=
  mkVdisk (vd_free x) (vd_used_idx x) (vd_desc x) (vd_avail_idx x) (vd_avail x) (vd_uidx x) (vd_used x) (vd_info_b x) (vd_status x) v.

(** console.c: the input ring. *)
Record cons : Type := mkCons {
  c_buf : Z -> Z;
  c_r : Z;
  c_w : Z;
  c_e : Z
}.

Definition c_set_buf (v : Z -> Z) (x : cons) : cons :=
  mkCons v (c_r x) (c_w x) (c_e x).
Definition c_set_r (v : Z) (x : cons) : cons :=
  mkCons (c_buf x) v (c_w x) (c_e x).
Definition c_set_w (v : Z) (x : cons) : cons :=
  mkCons (c_buf x) (c_r x) v (c_e x).
Definition c_set_e (v : Z) (x : cons) : cons :=
  mkCons (c_buf x) (c_r x) (c_w x) v.

(** The control registers the trap code reads and writes. *)
Record csrs : Type := mkCsrs {
  cs_sstatus : Z;
  cs_sepc : Z;
  cs_scause : Z;
  cs_stval : Z;
  cs_stvec : Z;
  cs_satp : Z;
  cs_time : Z;
  cs_stimecmp : Z;
  cs_tp : Z
}.

Definition cs_set_sstatus (v : Z) (x : csrs) : csrs :=
  mkCsrs v (cs_sepc x) (cs_scause x) (cs_stval x) (cs_stvec x) (cs_satp x) (cs_time x) (cs_stimecmp x) (cs_tp x).
Definition cs_set_sepc (v : Z) (x : csrs) : csrs :=
  mkCsrs (cs_sstatus x) v (cs_scause x) (cs_stval x) (cs_stvec x) (cs_satp x) (cs_time x) (cs_stimecmp x) (cs_tp x).
Definition cs_set_scause (v : Z) (x : csrs) : csrs :=
  mkCsrs (cs_sstatus x) (cs_sepc x) v (cs_stval x) (cs_stvec x) (cs_satp x) (cs_time x) (cs_stimecmp x) (cs_tp x).
Definition cs_set_stval (v : Z) (x : csrs) : csrs :=
  mkCsrs (cs_sstatus x) (cs_sepc x) (cs_scause x) v (cs_stvec x) (cs_satp x) (cs_time x) (cs_stimecmp x) (cs_tp x).
Definition cs_set_stvec (v : Z) (x : csrs) : csrs :=
  mkCsrs (cs_sstatus x) (cs_sepc x) (cs_scause x) (cs_stval x) v (cs_satp x) (cs_time x) (cs_stimecmp x) (cs_tp x).
Definition cs_set_satp (v : Z) (x : csrs) : csrs :=
  mkCsrs (cs_sstatus x) (cs_sepc x) (cs_scause x) (cs_stval x) (cs_stvec x) v (cs_time x) (cs_stimecmp x) (cs_tp x).
Definition cs_set_time (v : Z) (x : csrs) : csrs :=
  mkCsrs (cs_sstatus x) (cs_sepc x) (cs_scause x) (cs_stval x) (cs_stvec x) (cs_satp x) v (cs_stimecmp x) (cs_tp x).
Definition cs_set_stimecmp (v : Z) (x : csrs) : csrs :=
  mkCsrs (cs_sstatus x) (cs_sepc x) (cs_scause x) (cs_stval x) (cs_stvec x) (cs_satp x) (cs_time x) v (cs_tp x).
Definition cs_set_tp (v : Z) (x : csrs) : csrs :=
  mkCsrs (cs_sstatus x) (cs_sepc x) (cs_scause x) (cs_stval x) (cs_stvec x) (cs_satp x) (cs_time x) (cs_stimecmp x) v.

(** The whole kernel.  [k_held] lists the spinlocks the CPU holds, [k_cur] is
    [mycpu()->proc], [k_disk] maps a block number to its bytes and [k_past]
    lists what the disk contained before each write, newest first; [k_pipes]
    maps the address of a page to the pipe in it; [k_devsw] says which devices
    have [read] and [write] functions; [k_kpgtbl] is [kernel_pagetable] of vm.c; [k_first] is the static variable of
    [forkret], [k_started] that of [main]; [k_out] records the calls of [printf] (format and integer
    arguments), newest first. *)
Record kstate : Type := mkK {
  k_mem : mem;
  k_held : list lockid;
  k_freelist : Z;
  k_refcount : Z -> Z;
  k_swap : swapst;
  k_stats : stats;
  k_procs : Z -> proc;
  k_cur : option Z;
  k_nextpid : Z;
  k_initproc : option Z;
  k_ticks : Z;
  k_sleeplocks : slid -> sleeplock;
  k_bufs : Z -> buf;
  k_disk : Z -> Z -> Z;
  k_past : list (Z -> Z -> Z);
  k_vdisk : vdisk;
  k_log : logst;
  k_sb : superblock;
  k_itable : Z -> inode;
  k_ftable : Z -> file;
  k_pipes : Z -> pipe;
  k_devsw : Z -> bool;
  k_cons : cons;
  k_tx_busy : bool;
  k_csr : csrs;
  k_kpgtbl : Z;
  k_first : bool;
  k_started : bool;
  k_out : list (string * list Z)
}.

Definition k_set_mem (v : mem) (s : kstate) : kstate :=
  mkK v (k_held s) (k_freelist s) (k_refcount s) (k_swap s) (k_stats s) (k_procs s) (k_cur s) (k_nextpid s) (k_initproc s) (k_ticks s) (k_sleeplocks s) (k_bufs s) (k_disk s) (k_past s) (k_vdisk s) (k_log s) (k_sb s) (k_itable s) (k_ftable s) (k_pipes s) (k_devsw s) (k_cons s) (k_tx_busy s) (k_csr s) (k_kpgtbl s) (k_first s) (k_started s) (k_out s).
Definition k_set_held (v : list lockid) (s : kstate) : kstate :=
  mkK (k_mem s) v (k_freelist s) (k_refcount s) (k_swap s) (k_stats s) (k_procs s) (k_cur s) (k_nextpid s) (k_initproc s) (k_ticks s) (k_sleeplocks s) (k_bufs s) (k_disk s) (k_past s) (k_vdisk s) (k_log s) (k_sb s) (k_itable s) (k_ftable s) (k_pipes s) (k_devsw s) (k_cons s) (k_tx_busy s) (k_csr s) (k_kpgtbl s) (k_first s) (k_started s) (k_out s).
Definition k_set_freelist (v : Z) (s : kstate) : kstate :=
  mkK (k_mem s) (k_held s) v (k_refcount s) (k_swap s) (k_stats s) (k_procs s) (k_cur s) (k_nextpid s) (k_initproc s) (k_ticks s) (k_sleeplocks s) (k_bufs s) (k_disk s) (k_past s) (k_vdisk s) (k_log s) (k_sb s) (k_itable s) (k_ftable s) (k_pipes s) (k_devsw s) (k_cons s) (k_tx_busy s) (k_csr s) (k_kpgtbl s) (k_first s) (k_started s) (k_out s).
Definition k_set_refcount (v : Z -> Z) (s : kstate) : kstate :=
  mkK (k_mem s) (k_held s) (k_freelist s) v (k_swap s) (k_stats s) (k_procs s) (k_cur s) (k_nextpid s) (k_initproc s) (k_ticks s) (k_sleeplocks s) (k_bufs s) (k_disk s) (k_past s) (k_vdisk s) (k_log s) (k_sb s) (k_itable s) (k_ftable s) (k_pipes s) (k_devsw s) (k_cons s) (k_tx_busy s) (k_csr s) (k_kpgtbl s) (k_first s) (k_started s) (k_out s).
Definition k_set_swap (v : swapst) (s : kstate) : kstate :=
  mkK (k_mem s) (k_held s) (k_freelist s) (k_refcount s) v (k_stats s) (k_procs s) (k_cur s) (k_nextpid s) (k_initproc s) (k_ticks s) (k_sleeplocks s) (k_bufs s) (k_disk s) (k_past s) (k_vdisk s) (k_log s) (k_sb s) (k_itable s) (k_ftable s) (k_pipes s) (k_devsw s) (k_cons s) (k_tx_busy s) (k_csr s) (k_kpgtbl s) (k_first s) (k_started s) (k_out s).
Definition k_set_stats (v : stats) (s : kstate) : kstate :=
  mkK (k_mem s) (k_held s) (k_freelist s) (k_refcount s) (k_swap s) v (k_procs s) (k_cur s) (k_nextpid s) (k_initproc s) (k_ticks s) (k_sleeplocks s) (k_bufs s) (k_disk s) (k_past s) (k_vdisk s) (k_log s) (k_sb s) (k_itable s) (k_ftable s) (k_pipes s) (k_devsw s) (k_cons s) (k_tx_busy s) (k_csr s) (k_kpgtbl s) (k_first s) (k_started s) (k_out s).
Definition k_set_procs (v : Z -> proc) (s : kstate) : kstate :=
  mkK (k_mem s) (k_held s) (k_freelist s) (k_refcount s) (k_swap s) (k_stats s) v (k_cur s) (k_nextpid s) (k_initproc s) (k_ticks s) (k_sleeplocks s) (k_bufs s) (k_disk s) (k_past s) (k_vdisk s) (k_log s) (k_sb s) (k_itable s) (k_ftable s) (k_pipes s) (k_devsw s) (k_cons s) (k_tx_busy s) (k_csr s) (k_kpgtbl s) (k_first s) (k_started s) (k_out s).
Definition k_set_cur (v : option Z) (s : kstate) : kstate :=
  mkK (k_mem s) (k_held s) (k_freelist s) (k_refcount s) (k_swap s) (k_stats s) (k_procs s) v (k_nextpid s) (k_initproc s) (k_ticks s) (k_sleeplocks s) (k_bufs s) (k_disk s) (k_past s) (k_vdisk s) (k_log s) (k_sb s) (k_itable s) (k_ftable s) (k_pipes s) (k_devsw s) (k_cons s) (k_tx_busy s) (k_csr s) (k_kpgtbl s) (k_first s) (k_started s) (k_out s).
Definition k_set_nextpid (v : Z) (s : kstate) : kstate :=
  mkK (k_mem s) (k_held s) (k_freelist s) (k_refcount s) (k_swap s) (k_stats s) (k_procs s) (k_cur s) v (k_initproc s) (k_ticks s) (k_sleeplocks s) (k_bufs s) (k_disk s) (k_past s) (k_vdisk s) (k_log s) (k_sb s) (k_itable s) (k_ftable s) (k_pipes s) (k_devsw s) (k_cons s) (k_tx_busy s) (k_csr s) (k_kpgtbl s) (k_first s) (k_started s) (k_out s).
Definition k_set_initproc (v : option Z) (s : kstate) : kstate :=
  mkK (k_mem s) (k_held s) (k_freelist s) (k_refcount s) (k_swap s) (k_stats s) (k_procs s) (k_cur s) (k_nextpid s) v (k_ticks s) (k_sleeplocks s) (k_bufs s) (k_disk s) (k_past s) (k_vdisk s) (k_log s) (k_sb s) (k_itable s) (k_ftable s) (k_pipes s) (k_devsw s) (k_cons s) (k_tx_busy s) (k_csr s) (k_kpgtbl s) (k_first s) (k_started s) (k_out s).
Definition k_set_ticks (v : Z) (s : kstate) : kstate :=
  mkK (k_mem s) (k_held s) (k_freelist s) (k_refcount s) (k_swap s) (k_stats s) (k_procs s) (k_cur s) (k_nextpid s) (k_initproc s) v (k_sleeplocks s) (k_bufs s) (k_disk s) (k_past s) (k_vdisk s) (k_log s) (k_sb s) (k_itable s) (k_ftable s) (k_pipes s) (k_devsw s) (k_cons s) (k_tx_busy s) (k_csr s) (k_kpgtbl s) (k_first s) (k_started s) (k_out s).
Definition k_set_sleeplocks (v : slid -> sleeplock) (s : kstate) : kstate :=
  mkK (k_mem s) (k_held s) (k_freelist s) (k_refcount s) (k_swap s) (k_stats s) (k_procs s) (k_cur s) (k_nextpid s) (k_initproc s) (k_ticks s) v (k_bufs s) (k_disk s) (k_past s) (k_vdisk s) (k_log s) (k_sb s) (k_itable s) (k_ftable s) (k_pipes s) (k_devsw s) (k_cons s) (k_tx_busy s) (k_csr s) (k_kpgtbl s) (k_first s) (k_started s) (k_out s).
Definition k_set_bufs (v : Z -> buf) (s : kstate) : kstate :=
  mkK (k_mem s) (k_held s) (k_freelist s) (k_refcount s) (k_swap s) (k_stats s) (k_procs s) (k_cur s) (k_nextpid s) (k_initproc s) (k_ticks s) (k_sleeplocks s) v (k_disk s) (k_past s) (k_vdisk s) (k_log s) (k_sb s) (k_itable s) (k_ftable s) (k_pipes s) (k_devsw s) (k_cons s) (k_tx_busy s) (k_csr s) (k_kpgtbl s) (k_first s) (k_started s) (k_out s).
Definition k_set_disk (v : Z -> Z -> Z) (s : kstate) : kstate :=
  mkK (k_mem s) (k_held s) (k_freelist s) (k_refcount s) (k_swap s) (k_stats s) (k_procs s) (k_cur s) (k_nextpid s) (k_initproc s) (k_ticks s) (k_sleeplocks s) (k_bufs s) v (k_past s) (k_vdisk s) (k_log s) (k_sb s) (k_itable s) (k_ftable s) (k_pipes s) (k_devsw s) (k_cons s) (k_tx_busy s) (k_csr s) (k_kpgtbl s) (k_first s) (k_started s) (k_out s).
Definition k_set_past (v : list (Z -> Z -> Z)) (s : kstate) : kstate :=
  mkK (k_mem s) (k_held s) (k_freelist s) (k_refcount s) (k_swap s) (k_stats s) (k_procs s) (k_cur s) (k_nextpid s) (k_initproc s) (k_ticks s) (k_sleeplocks s) (k_bufs s) (k_disk s) v (k_vdisk s) (k_log s) (k_sb s) (k_itable s) (k_ftable s) (k_pipes s) (k_devsw s) (k_cons s) (k_tx_busy s) (k_csr s) (k_kpgtbl s) (k_first s) (k_started s) (k_out s).
Definition k_set_vdisk (v : vdisk) (s : kstate) : kstate :=
  mkK (k_mem s) (k_held s) (k_freelist s) (k_refcount s) (k_swap s) (k_stats s) (k_procs s) (k_cur s) (k_nextpid s) (k_initproc s) (k_ticks s) (k_sleeplocks s) (k_bufs s) (k_disk s) (k_past s) v (k_log s) (k_sb s) (k_itable s) (k_ftable s) (k_pipes s) (k_devsw s) (k_cons s) (k_tx_busy s) (k_csr s) (k_kpgtbl s) (k_first s) (k_started s) (k_out s).
Definition k_set_log (v : logst) (s : kstate) : kstate :=
  mkK (k_mem s) (k_held s) (k_freelist s) (k_refcount s) (k_swap s) (k_stats s) (k_procs s) (k_cur s) (k_nextpid s) (k_initproc s) (k_ticks s) (k_sleeplocks s) (k_bufs s) (k_disk s) (k_past s) (k_vdisk s) v (k_sb s) (k_itable s) (k_ftable s) (k_pipes s) (k_devsw s) (k_cons s) (k_tx_busy s) (k_csr s) (k_kpgtbl s) (k_first s) (k_started s) (k_out s).
Definition k_set_sb (v : superblock) (s : kstate) : kstate :=
  mkK (k_mem s) (k_held s) (k_freelist s) (k_refcount s) (k_swap s) (k_stats s) (k_procs s) (k_cur s) (k_nextpid s) (k_initproc s) (k_ticks s) (k_sleeplocks s) (k_bufs s) (k_disk s) (k_past s) (k_vdisk s) (k_log s) v (k_itable s) (k_ftable s) (k_pipes s) (k_devsw s) (k_cons s) (k_tx_busy s) (k_csr s) (k_kpgtbl s) (k_first s) (k_started s) (k_out s).
Definition k_set_itable (v : Z -> inode) (s : kstate) : kstate :=
  mkK (k_mem s) (k_held s) (k_freelist s) (k_refcount s) (k_swap s) (k_stats s) (k_procs s) (k_cur s) (k_nextpid s) (k_initproc s) (k_ticks s) (k_sleeplocks s) (k_bufs s) (k_disk s) (k_past s) (k_vdisk s) (k_log s) (k_sb s) v (k_ftable s) (k_pipes s) (k_devsw s) (k_cons s) (k_tx_busy s) (k_csr s) (k_kpgtbl s) (k_first s) (k_started s) (k_out s).
Definition k_set_ftable (v : Z -> file) (s : kstate) : kstate :=
  mkK (k_mem s) (k_held s) (k_freelist s) (k_refcount s) (k_swap s) (k_stats s) (k_procs s) (k_cur s) (k_nextpid s) (k_initproc s) (k_ticks s) (k_sleeplocks s) (k_bufs s) (k_disk s) (k_past s) (k_vdisk s) (k_log s) (k_sb s) (k_itable s) v (k_pipes s) (k_devsw s) (k_cons s) (k_tx_busy s) (k_csr s) (k_kpgtbl s) (k_first s) (k_started s) (k_out s).
Definition k_set_pipes (v : Z -> pipe) (s : kstate) : kstate :=
  mkK (k_mem s) (k_held s) (k_freelist s) (k_refcount s) (k_swap s) (k_stats s) (k_procs s) (k_cur s) (k_nextpid s) (k_initproc s) (k_ticks s) (k_sleeplocks s) (k_bufs s) (k_disk s) (k_past s) (k_vdisk s) (k_log s) (k_sb s) (k_itable s) (k_ftable s) v (k_devsw s) (k_cons s) (k_tx_busy s) (k_csr s) (k_kpgtbl s) (k_first s) (k_started s) (k_out s).
Definition k_set_devsw (v : Z -> bool) (s : kstate) : kstate :=
  mkK (k_mem s) (k_held s) (k_freelist s) (k_refcount s) (k_swap s) (k_stats s) (k_procs s) (k_cur s) (k_nextpid s) (k_initproc s) (k_ticks s) (k_sleeplocks s) (k_bufs s) (k_disk s) (k_past s) (k_vdisk s) (k_log s) (k_sb s) (k_itable s) (k_ftable s) (k_pipes s) v (k_cons s) (k_tx_busy s) (k_csr s) (k_kpgtbl s) (k_first s) (k_started s) (k_out s).
Definition k_set_cons (v : cons) (s : kstate) : kstate :=
  mkK (k_mem s) (k_held s) (k_freelist s) (k_refcount s) (k_swap s) (k_stats s) (k_procs s) (k_cur s) (k_nextpid s) (k_initproc s) (k_ticks s) (k_sleeplocks s) (k_bufs s) (k_disk s) (k_past s) (k_vdisk s) (k_log s) (k_sb s) (k_itable s) (k_ftable s) (k_pipes s) (k_devsw s) v (k_tx_busy s) (k_csr s) (k_kpgtbl s) (k_first s) (k_started s) (k_out s).
Definition k_set_tx_busy (v : bool) (s : kstate) : kstate :=
  mkK (k_mem s) (k_held s) (k_freelist s) (k_refcount s) (k_swap s) (k_stats s) (k_procs s) (k_cur s) (k_nextpid s) (k_initproc s) (k_ticks s) (k_sleeplocks s) (k_bufs s) (k_disk s) (k_past s) (k_vdisk s) (k_log s) (k_sb s) (k_itable s) (k_ftable s) (k_pipes s) (k_devsw s) (k_cons s) v (k_csr s) (k_kpgtbl s) (k_first s) (k_started s) (k_out s).
Definition k_set_csr (v : csrs) (s : kstate) : kstate :=
  mkK (k_mem s) (k_held s) (k_freelist s) (k_refcount s) (k_swap s) (k_stats s) (k_procs s) (k_cur s) (k_nextpid s) (k_initproc s) (k_ticks s) (k_sleeplocks s) (k_bufs s) (k_disk s) (k_past s) (k_vdisk s) (k_log s) (k_sb s) (k_itable s) (k_ftable s) (k_pipes s) (k_devsw s) (k_cons s) (k_tx_busy s) v (k_kpgtbl s) (k_first s) (k_started s) (k_out s).
Definition k_set_kpgtbl (v : Z) (s : kstate) : kstate :=
  mkK (k_mem s) (k_held s) (k_freelist s) (k_refcount s) (k_swap s) (k_stats s) (k_procs s) (k_cur s) (k_nextpid s) (k_initproc s) (k_ticks s) (k_sleeplocks s) (k_bufs s) (k_disk s) (k_past s) (k_vdisk s) (k_log s) (k_sb s) (k_itable s) (k_ftable s) (k_pipes s) (k_devsw s) (k_cons s) (k_tx_busy s) (k_csr s) v (k_first s) (k_started s) (k_out s).
Definition k_set_first (v : bool) (s : kstate) : kstate :=
  mkK (k_mem s) (k_held s) (k_freelist s) (k_refcount s) (k_swap s) (k_stats s) (k_procs s) (k_cur s) (k_nextpid s) (k_initproc s) (k_ticks s) (k_sleeplocks s) (k_bufs s) (k_disk s) (k_past s) (k_vdisk s) (k_log s) (k_sb s) (k_itable s) (k_ftable s) (k_pipes s) (k_devsw s) (k_cons s) (k_tx_busy s) (k_csr s) (k_kpgtbl s) v (k_started s) (k_out s).
Definition k_set_started (v : bool) (s : kstate) : kstate :=
  mkK (k_mem s) (k_held s) (k_freelist s) (k_refcount s) (k_swap s) (k_stats s) (k_procs s) (k_cur s) (k_nextpid s) (k_initproc s) (k_ticks s) (k_sleeplocks s) (k_bufs s) (k_disk s) (k_past s) (k_vdisk s) (k_log s) (k_sb s) (k_itable s) (k_ftable s) (k_pipes s) (k_devsw s) (k_cons s) (k_tx_busy s) (k_csr s) (k_kpgtbl s) (k_first s) v (k_out s).
Definition k_set_out (v : list (string * list Z)) (s : kstate) : kstate :=
  mkK (k_mem s) (k_held s) (k_freelist s) (k_refcount s) (k_swap s) (k_stats s) (k_procs s) (k_cur s) (k_nextpid s) (k_initproc s) (k_ticks s) (k_sleeplocks s) (k_bufs s) (k_disk s) (k_past s) (k_vdisk s) (k_log s) (k_sb s) (k_itable s) (k_ftable s) (k_pipes s) (k_devsw s) (k_cons s) (k_tx_busy s) (k_csr s) (k_kpgtbl s) (k_first s) (k_started s) v.

(** ** The kernel monad *)

Abbreviation K := (M kstate).

(** Physical memory is reached through the direct map, which covers RAM. *)
Definition in_ram (a n : Z) : bool := (KERNBASE <=? a) && (a + n <=? PHYSTOP).

Definition ld64 (a : Z) : K Z := fun s =>
  if in_ram a 8 then Ok (load64 (k_mem s) a) s else Undef "load outside RAM".
Definition st64 (a v : Z) : K unit := fun s =>
  if in_ram a 8 then Ok tt (k_set_mem (store64 (k_mem s) a v) s) else Undef "store outside RAM".
Definition kmemset (a c n : Z) : K unit := fun s =>
  if in_ram a n then Ok tt (k_set_mem (mem_fill (k_mem s) a c n) s)
  else Undef "memset outside RAM".
Definition kmemmove (d a n : Z) : K unit := fun s =>
  if in_ram d n && in_ram a n then Ok tt (k_set_mem (mem_copy (k_mem s) d a n) s)
  else Undef "memmove outside RAM".

(** Spinlocks as kernel code sees them on one CPU: taking a lock the CPU
    already holds, or dropping one it does not hold, panics.  [Spinlock]
    proves that the code of spinlock.c implements this. *)
Definition holds (lk : lockid) (s : kstate) : bool := bool_decide (lk ∈ k_held s).

Fixpoint drop_lock (lk : lockid) (h : list lockid) : list lockid :=
  match h with
  | [] => []
  | x :: h => if decide (x = lk) then h else x :: drop_lock lk h
  end.

Definition acquire (lk : lockid) : K unit := fun s =>
  if holds lk s then Panic "acquire" else Ok tt (k_set_held (lk :: k_held s) s).
Definition release (lk : lockid) : K unit := fun s =>
  if holds lk s then Ok tt (k_set_held (drop_lock lk (k_held s)) s) else Panic "release".

(** [initlock] clears [lk->locked] and [lk->cpu]. *)
Definition initlock (lk : lockid) : K unit :=
  modify (fun s => k_set_held (drop_lock lk (k_held s)) s).

(** [myproc()]. *)
Definition myproc : K (option Z) := gets k_cur.

(** [printf(fmt, ...)], as an entry of the trace. *)
Definition printf (fmt : string) (args : list Z) : K unit := fun s =>
  Ok tt (k_set_out ((fmt, args) :: k_out s) s).

(** Updating one process, buffer or sleep lock in place. *)
Definition upd_proc (i : Z) (f : proc -> proc) (s : kstate) : kstate :=
  k_set_procs (fupd (k_procs s) i (f (k_procs s i))) s.
Definition upd_buf (i : Z) (f : buf -> buf) (s : kstate) : kstate :=
  k_set_bufs (fupd (k_bufs s) i (f (k_bufs s i))) s.
Definition upd_sleeplock (l : slid) (f : sleeplock -> sleeplock) (s : kstate) : kstate :=
  k_set_sleeplocks (fun l' => if decide (l' = l) then f (k_sleeplocks s l) else k_sleeplocks s l') s.

(** Equations between states, field by field; [kcbv] computes fields of
    updated states. *)
Ltac kcbv := lazy beta iota delta [k_set_mem k_set_held k_set_freelist k_set_refcount k_set_swap k_set_stats k_set_procs k_set_cur k_set_nextpid k_set_initproc k_set_ticks k_set_sleeplocks k_set_bufs k_set_disk k_set_past k_set_vdisk k_set_log k_set_sb k_set_itable k_set_ftable k_set_pipes k_set_devsw k_set_cons k_set_tx_busy k_set_csr k_set_kpgtbl k_set_first k_set_out k_mem k_held k_freelist k_refcount k_swap k_stats k_procs k_cur k_nextpid k_initproc k_ticks k_sleeplocks k_bufs k_disk k_past k_vdisk k_log k_sb k_itable k_ftable k_pipes k_devsw k_cons k_tx_busy k_csr k_kpgtbl k_first k_out].
Ltac kcbv_in H := lazy beta iota delta [k_set_mem k_set_held k_set_freelist k_set_refcount k_set_swap k_set_stats k_set_procs k_set_cur k_set_nextpid k_set_initproc k_set_ticks k_set_sleeplocks k_set_bufs k_set_disk k_set_past k_set_vdisk k_set_log k_set_sb k_set_itable k_set_ftable k_set_pipes k_set_devsw k_set_cons k_set_tx_busy k_set_csr k_set_kpgtbl k_set_first k_set_out k_mem k_held k_freelist k_refcount k_swap k_stats k_procs k_cur k_nextpid k_initproc k_ticks k_sleeplocks k_bufs k_disk k_past k_vdisk k_log k_sb k_itable k_ftable k_pipes k_devsw k_cons k_tx_busy k_csr k_kpgtbl k_first k_out] in H.
Ltac kfields H := kcbv_in H; kcbv; injection H; intros; f_equal; congruence.

(** ** Facts *)

Lemma in_ram_page p a n : is_page p -> p <= a -> a + n <= p + PGSIZE -> in_ram a n = true.
Proof. intros (_ & H1 & H2) Ha Hn. unfold in_ram. lia. Qed.

Lemma holds_false lk s : lk ∉ k_held s -> holds lk s = false.
Proof. intros. unfold holds. by apply bool_decide_eq_false. Qed.
Lemma holds_true lk s : lk ∈ k_held s -> holds lk s = true.
Proof. intros. unfold holds. by apply bool_decide_eq_true. Qed.

Lemma drop_lock_head lk h : drop_lock lk (lk :: h) = h.
Proof. simpl. by rewrite decide_True. Qed.

Lemma acquire_ok lk s : lk ∉ k_held s -> acquire lk s = Ok tt (k_set_held (lk :: k_held s) s).
Proof. intros. unfold acquire. by rewrite holds_false. Qed.

Lemma acquire_panic lk s : lk ∈ k_held s -> acquire lk s = Panic "acquire".
Proof. intros. unfold acquire. by rewrite holds_true. Qed.

Lemma release_head lk h s : k_held s = lk :: h -> release lk s = Ok tt (k_set_held h s).
Proof.
  intros E. unfold release. rewrite holds_true by (rewrite E; set_solver).
  by rewrite E, drop_lock_head.
Qed.

(** A critical section that updates fields other than the lock set: it ends
    in the updated state with the lock set restored. *)
Lemma crit_ok lk (f : kstate -> kstate) s :
  lk ∉ k_held s ->
  (forall h, f (k_set_held h s) = k_set_held h (f s)) ->
  (acquire lk ;; modify f ;; release lk) s = Ok tt (k_set_held (k_held s) (f s)).
Proof.
  intros Hl Hf. step_with (acquire_ok lk s Hl). unfold modify, bind. rewrite Hf.
  by rewrite (release_head lk (k_held s)).
Qed.

(** Entering a critical section the CPU is already in. *)
Lemma crit_panic {A} lk (m : K A) s :
  lk ∈ k_held s -> (acquire lk ;; m) s = Panic "acquire".
Proof. intros. unfold bind. by rewrite acquire_panic. Qed.

(** A critical section that only reads. *)
Lemma crit_gets_ok {A} lk (f : kstate -> A) s :
  lk ∉ k_held s ->
  (forall h, f (k_set_held h s) = f s) ->
  (acquire lk ;; r <- gets f ;; release lk ;; ret r) s = Ok (f s) s.
Proof.
  intros Hl Hf. step_with (acquire_ok lk s Hl). unfold gets, bind. rewrite Hf.
  rewrite (release_head lk (k_held s)) by done. unfold ret. by destruct s.
Qed.

Lemma k_set_held_id s : k_set_held (k_held s) s = s.
Proof. by destruct s. Qed.

#[export] Hint Resolve holds_false holds_true acquire_ok : xv6.

(** Runs the next command of the goal with one of the given equations. *)
Tactic Notation "run" constr(H) := step_with H.

(** ** What runs outside the modelled kernel code

    [others i] is the effect of everything that runs between a process [i]
    leaving the CPU in [swtch] and the scheduler resuming it: other processes,
    interrupt handlers and the devices.  [mmio_read] and [mmio_write] access a
    device register (UART, PLIC, virtio) by its address.  [patience] bounds how often a sleeper is woken for
    nothing before a run counts as hanging. *)
Class Env : Type := {
  others : Z -> kstate -> kstate;
  mmio_read : Z -> kstate -> Z * kstate;
  mmio_write : Z -> Z -> kstate -> kstate;
  patience : nat
}.
