(* ===== verification/Sample.v ===== *)
(** * Concrete states

    A linker layout, an environment and kernel states on which the theorems
    of the development are instantiated: a machine with two free pages, and
    ones with a small user page table. *)

From S2P Require Import Prelude Riscv Mem KState.

#[export] Instance sample_layout : Layout :=
  {| kend := 0x80030000; etext := 0x80008000; trampoline := 0x80007000 |}.

(** Nothing runs while a process sleeps; device registers read as an idle UART. *)
#[export] Instance sample_env : Env :=
  {| others := fun _ s => s; mmio_read := fun _ s => (0x20, s); mmio_write := fun _ _ s => s; patience := 1 |}.

Definition no_proc : proc :=
  mkProc UNUSED NoChan 0 0 0 None 0 0 0 0 (mkContext 0 0 (fun _ => 0)) (fun _ => None) None [].

Definition no_buf : buf := mkBuf false false 0 0 0 0 0 (fun _ => 0).

Definition no_vdisk : vdisk :=
  mkVdisk (fun _ => true) 0 (fun _ => mkDesc A_null 0 0 0) 0 (fun _ => 0) 0 (fun _ => 0)
    (fun _ => None) (fun _ => 0) (fun _ => mkReq 0 0 0).

(** All of memory zero, no lock held, no process, an empty free list. *)
Definition zero_state : kstate :=
  mkK (fun _ => 0) [] 0 (fun _ => 0) (mkSwap (fun _ => 0) 1000)
    (mkStats 0 0 0 0 0 0 0 0 0 0 0 0) (fun _ => no_proc) None 1 None 0
    (fun _ => mkSleep false 0) (fun _ => no_buf) (fun _ _ => 0)
    [] no_vdisk (mkLog 0 0 false 0 0 (fun _ => 0)) (mkSuper 0 0 0 0 0 0 0 0)
    (fun _ => mkInode 0 0 0 false 0 0 0 0 0 (fun _ => 0))
    (fun _ => mkFile FD_NONE 0 false false 0 None 0 0)
    (fun _ => mkPipe (fun _ => 0) 0 0 false false) (fun _ => false)
    (mkCons (fun _ => 0) 0 0 0) false (mkCsrs 0 0 0 0 0 0 0 0 0) 0 true false [].

(** Pages used below. *)
Definition pgA : Z := 0x80100000.
Definition pgB : Z := 0x80101000.
Definition pgC : Z := 0x80102000.

(** Two free pages, [pgA] linked to [pgB]; [pgC] is in use twice. *)
Definition two_free : kstate :=
  k_set_mem (store64 (k_mem zero_state) pgA pgB)
    (k_set_freelist pgA
      (k_set_refcount (fun i => if i =? 0x102 then 2 else 0) zero_state)).

Lemma sample_layout_ok : layout_ok sample_layout.
Proof. by split. Qed.
