(* ===== verification/Spinlock.v ===== *)
(** * kernel/spinlock.c

    The spinlocks themselves, on several CPUs.  [spinst] holds the lock words
    and the per-CPU interrupt state; the operations are those of spinlock.c,
    run by CPU [c].  [step] interleaves the CPUs between the accesses to
    shared memory ([acquire_steps], [release_steps]), and the invariant of the
    reachable states gives mutual exclusion.  Alone on the machine the operations
    do what [KState.acquire] and [KState.release] say, which the rest of the
    kernel is built on. *)

From stdpp Require Import relations.
From S2P Require Import Prelude Riscv Mem KState Sample.

(** ** Definitions *)

(** [sp_locked] and [sp_cpu] are [lk->locked] and [lk->cpu]; [noff] and
    [intena] are the fields of [struct cpu]; [sie] is the interrupt-enable bit
    of the CPU's [sstatus]. *)
Record spinst : Type := mkSpin {
  sp_locked : lockid -> bool;
  sp_cpu : lockid -> option Z;
  noff : Z -> Z;
  intena : Z -> bool;
  sie : Z -> bool
}.

Definition lupd {A} (f : lockid -> A) (lk : lockid) (v : A) : lockid -> A :=
  fun x => if decide (x = lk) then v else f x.

Definition set_locked (lk : lockid) (v : bool) (s : spinst) : spinst :=
  mkSpin (lupd (sp_locked s) lk v) (sp_cpu s) (noff s) (intena s) (sie s).
Definition set_cpu (lk : lockid) (v : option Z) (s : spinst) : spinst :=
  mkSpin (sp_locked s) (lupd (sp_cpu s) lk v) (noff s) (intena s) (sie s).
Definition set_noff (c v : Z) (s : spinst) : spinst :=
  mkSpin (sp_locked s) (sp_cpu s) (fupd (noff s) c v) (intena s) (sie s).
Definition set_intena (c : Z) (v : bool) (s : spinst) : spinst :=
  mkSpin (sp_locked s) (sp_cpu s) (noff s) (fupd (intena s) c v) (sie s).
Definition set_sie (c : Z) (v : bool) (s : spinst) : spinst :=
  mkSpin (sp_locked s) (sp_cpu s) (noff s) (intena s) (fupd (sie s) c v).

Abbreviation SP := (M spinst).

Definition initlock (lk : lockid) : SP unit :=
  modify (set_locked lk false) ;; modify (set_cpu lk None).

Definition holding (c : Z) (lk : lockid) : SP bool :=
  gets (fun s => sp_locked s lk && bool_decide (sp_cpu s lk = Some c)).

Definition push_off (c : Z) : SP unit :=
  old <- gets (fun s => sie s c) ;;
  modify (set_sie c false) ;;
  n <- gets (fun s => noff s c) ;;
  (if n =? 0 then modify (set_intena c old) else ret tt) ;;
  n <- gets (fun s => noff s c) ;;
  modify (set_noff c (s32 (n + 1))).

Definition pop_off (c : Z) : SP unit :=
  on <- gets (fun s => sie s c) ;;
  if (on : bool) then panic "pop_off - interruptible" else
  n <- gets (fun s => noff s c) ;;
  if n <? 1 then panic "pop_off" else
  modify (set_noff c (n - 1)) ;;
  s <- get ;;
  if (noff s c =? 0) && intena s c then modify (set_sie c true) else ret tt.

(** [__sync_lock_test_and_set(&lk->locked, 1)]: the old value. *)
Definition test_and_set (lk : lockid) : SP bool :=
  old <- gets (fun s => sp_locked s lk) ;; modify (set_locked lk true) ;; ret old.

(** The loop of [acquire] run by one CPU while no other runs: when the first
    attempt fails the next ones fail too. *)
Definition acquire (c : Z) (lk : lockid) : SP unit :=
  push_off c ;;
  h <- holding c lk ;;
  if (h : bool) then panic "acquire" else
  old <- test_and_set lk ;;
  if (old : bool) then hang else
  modify (set_cpu lk (Some c)).

Definition release (c : Z) (lk : lockid) : SP unit :=
  h <- holding c lk ;;
  if negb h then panic "release" else
  modify (set_cpu lk None) ;;
  modify (set_locked lk false) ;;
  pop_off c.

(** ** Interleaving

    Where a CPU is inside [acquire] and [release]. *)
Inductive pc : Type :=
| Out                       (* in other code *)
| Want (lk : lockid)        (* in the loop of [acquire] *)
| Got (lk : lockid)         (* the swap succeeded, [lk->cpu] not yet set *)
| Giving (lk : lockid)      (* [lk->cpu] cleared, [lk->locked] not yet *)
| Gave (lk : lockid).       (* before [pop_off] *)

(** [at_c] is where each CPU is; [held] and [before] are what the steps so far
    say: the locks a CPU has acquired and not released, and whether
    interrupts were on when it last held none. *)
Record sys : Type := mkSys {
  sp : spinst;
  at_c : Z -> pc;
  held : Z -> list lockid;
  before : Z -> bool
}.

Inductive step : sys -> sys -> Prop :=
| step_intr x c b : (* [intr_on] or [intr_off] by code that holds no lock *)
    at_c x c = Out -> noff (sp x) c = 0 ->
    step x (mkSys (set_sie c b (sp x)) (at_c x) (held x) (before x))
| step_want x c lk s' : (* [acquire] up to the loop *)
    at_c x c = Out -> noff (sp x) c < 0x7ffffffe ->
    (push_off c ;; h <- holding c lk ;; if (h : bool) then panic "acquire" else ret tt) (sp x) = Ok tt s' ->
    step x (mkSys s' (fupd (at_c x) c (Want lk)) (held x)
              (if noff (sp x) c =? 0 then fupd (before x) c (sie (sp x) c) else before x))
| step_spin x c lk s' : (* the lock is taken *)
    at_c x c = Want lk -> test_and_set lk (sp x) = Ok true s' ->
    step x (mkSys s' (at_c x) (held x) (before x))
| step_got x c lk s' : (* the lock was free *)
    at_c x c = Want lk -> test_and_set lk (sp x) = Ok false s' ->
    step x (mkSys s' (fupd (at_c x) c (Got lk)) (held x) (before x))
| step_own x c lk :
    at_c x c = Got lk ->
    step x (mkSys (set_cpu lk (Some c) (sp x)) (fupd (at_c x) c Out)
              (fupd (held x) c (lk :: held x c)) (before x))
| step_give x c lk : (* [release] up to the clearing of [lk->cpu] *)
    at_c x c = Out -> holding c lk (sp x) = Ok true (sp x) ->
    step x (mkSys (set_cpu lk None (sp x)) (fupd (at_c x) c (Giving lk))
              (fupd (held x) c (drop_lock lk (held x c))) (before x))
| step_unlock x c lk :
    at_c x c = Giving lk ->
    step x (mkSys (set_locked lk false (sp x)) (fupd (at_c x) c (Gave lk)) (held x) (before x))
| step_pop x c lk s' :
    at_c x c = Gave lk -> pop_off c (sp x) = Ok tt s' ->
    step x (mkSys s' (fupd (at_c x) c Out) (held x) (before x)).

(** All locks free, every CPU outside, interrupts as they are. *)
Definition initial (x : sys) : Prop :=
  (forall lk, sp_locked (sp x) lk = false /\ sp_cpu (sp x) lk = None) /\
  (forall c, at_c x c = Out /\ held x c = [] /\ noff (sp x) c = 0).

Definition reachable (x : sys) : Prop := exists x0, initial x0 /\ rtc step x0 x.

(** ** The invariant *)

(** The lock CPU [c] owns without having it in [held]: just taken, or about to
    be given back. *)
Definition transit (p : pc) (lk : lockid) : Prop := p = Got lk \/ p = Giving lk.

Definition owns (x : sys) (c : Z) (lk : lockid) : Prop := lk ∈ held x c \/ transit (at_c x c) lk.

Definition inside (p : pc) : Z := match p with Out => 0 | _ => 1 end.

Record inv (x : sys) : Prop := {
  iv_locked : forall lk, sp_locked (sp x) lk = true <-> exists c, owns x c lk;
  iv_one : forall c c' lk, owns x c lk -> owns x c' lk -> c = c';
  iv_cpu : forall c lk, sp_cpu (sp x) lk = Some c <-> lk ∈ held x c;
  iv_transit : forall c lk, transit (at_c x c) lk -> lk ∉ held x c;
  iv_nodup : forall c, NoDup (held x c);
  iv_noff : forall c, noff (sp x) c = Z.of_nat (length (held x c)) + inside (at_c x c);
  iv_off : forall c, 0 < noff (sp x) c -> sie (sp x) c = false /\ intena (sp x) c = before x c;
  iv_max : forall c, noff (sp x) c < 0x7fffffff
}.

Lemma lupd_eq {A} (f : lockid -> A) lk v : lupd f lk v lk = v.
Proof. unfold lupd. by rewrite decide_True. Qed.

Lemma lupd_ne {A} (f : lockid -> A) lk v l : l <> lk -> lupd f lk v l = f l.
Proof. intros. unfold lupd. by rewrite decide_False. Qed.

Definition pushed (c : Z) (s : spinst) : spinst :=
  set_noff c (s32 (noff s c + 1))
    ((if noff s c =? 0 then set_intena c (sie s c) else id) (set_sie c false s)).

Lemma push_off_run c s : push_off c s = Ok tt (pushed c s).
Proof. unfold push_off, pushed, bind, gets, modify. cbn. by destruct (noff s c =? 0). Qed.

Definition popped (c : Z) (s : spinst) : spinst :=
  (if (noff s c - 1 =? 0) && intena s c then set_sie c true else id) (set_noff c (noff s c - 1) s).

Lemma pop_off_run c s : sie s c = false -> 1 <= noff s c -> pop_off c s = Ok tt (popped c s).
Proof.
  intros H1 H2. unfold pop_off, bind, gets, modify, get. rewrite H1, (proj2 (Z.ltb_ge _ _)) by done.
  change (noff (set_noff c (noff s c - 1) s) c) with (fupd (noff s) c (noff s c - 1) c). rewrite fupd_eq.
  change (intena (set_noff c (noff s c - 1) s) c) with (intena s c). unfold popped. by destruct (_ && _).
Qed.

Lemma popped_fields c s :
  (forall lk, sp_locked (popped c s) lk = sp_locked s lk) /\ (forall lk, sp_cpu (popped c s) lk = sp_cpu s lk) /\
  noff (popped c s) c = noff s c - 1 /\ intena (popped c s) c = intena s c /\
  sie (popped c s) c = (if noff s c - 1 =? 0 then intena s c || sie s c else sie s c) /\
  (forall c', c' <> c -> noff (popped c s) c' = noff s c' /\ sie (popped c s) c' = sie s c' /\ intena (popped c s) c' = intena s c').
Proof.
  unfold popped. destruct (noff s c - 1 =? 0); [destruct (intena s c) eqn:E|]; unfold set_sie, set_noff, id;
    cbn [andb sp_locked sp_cpu noff intena sie]; rewrite ?fupd_eq, ?E;
    (do 5 (split; [done|])); intros c' Hc; by rewrite ?fupd_ne by done.
Qed.

Lemma holding_run c lk s :
  holding c lk s = Ok (sp_locked s lk && bool_decide (sp_cpu s lk = Some c)) s.
Proof. done. Qed.

(** What a step on CPU [c] that keeps the locks and the [held] lists has to
    show. *)
Lemma inv_local x c s' a' b :
  inv x -> (forall lk, sp_locked s' lk = sp_locked (sp x) lk) -> (forall lk, sp_cpu s' lk = sp_cpu (sp x) lk) ->
  (forall c', c' <> c -> noff s' c' = noff (sp x) c' /\ sie s' c' = sie (sp x) c' /\
     intena s' c' = intena (sp x) c' /\ b c' = before x c' /\ a' c' = at_c x c') ->
  (forall lk, transit (a' c) lk <-> transit (at_c x c) lk) ->
  noff s' c = Z.of_nat (length (held x c)) + inside (a' c) -> noff s' c < 0x7fffffff ->
  (0 < noff s' c -> sie s' c = false /\ intena s' c = b c) ->
  inv (mkSys s' a' (held x) b).
Proof.
  intros [I1 I2 I3 I4 I5 I6 I7 I8] HL HC Hrest Htr Hn Hmax Hoff.
  assert (forall c' lk, transit (a' c') lk <-> transit (at_c x c') lk) as Htr'.
  { intros c' lk. destruct (decide (c' = c)) as [->|D]; [apply Htr|]. by destruct (Hrest c' D) as (_ & _ & _ & _ & ->). }
  assert (forall c' lk, owns (mkSys s' a' (held x) b) c' lk <-> owns x c' lk) as Hown.
  { intros c' lk. unfold owns. cbn. by rewrite Htr'. }
  split; cbn.
  - intros lk. rewrite HL, I1. by setoid_rewrite Hown.
  - intros c1 c2 lk. rewrite !Hown. apply I2.
  - intros c' lk. rewrite HC. apply I3.
  - intros c' lk. rewrite Htr'. apply I4.
  - apply I5.
  - intros c'. destruct (decide (c' = c)) as [->|D]; [done|]. destruct (Hrest c' D) as (-> & _ & _ & _ & ->). apply I6.
  - intros c'. destruct (decide (c' = c)) as [->|D]; [done|]. destruct (Hrest c' D) as (-> & -> & -> & -> & _). apply I7.
  - intros c'. destruct (decide (c' = c)) as [->|D]; [done|]. rewrite (proj1 (Hrest c' D)). apply I8.
Qed.

Lemma pushed_fields c s : noff s c < 0x7ffffffe -> 0 <= noff s c ->
  (forall lk, sp_locked (pushed c s) lk = sp_locked s lk) /\ (forall lk, sp_cpu (pushed c s) lk = sp_cpu s lk) /\
  noff (pushed c s) c = noff s c + 1 /\ sie (pushed c s) c = false /\
  intena (pushed c s) c = (if noff s c =? 0 then sie s c else intena s c) /\
  (forall c', c' <> c -> noff (pushed c s) c' = noff s c' /\ sie (pushed c s) c' = sie s c' /\ intena (pushed c s) c' = intena s c').
Proof.
  intros H1 H2. unfold pushed. destruct (noff s c =? 0); cbn; rewrite !fupd_eq, s32_small by lia;
    (do 5 (split; [done|])); intros c' Hc; by rewrite ?fupd_ne by done.
Qed.

Lemma noff_nonneg x c : inv x -> 0 <= noff (sp x) c.
Proof. intros I. rewrite (iv_noff x I). destruct (at_c x c); cbn; lia. Qed.

Lemma want_inv x c lk s' : inv x -> at_c x c = Out -> noff (sp x) c < 0x7ffffffe ->
  (push_off c ;; h <- holding c lk ;; if (h : bool) then panic "acquire" else ret tt) (sp x) = Ok tt s' ->
  inv (mkSys s' (fupd (at_c x) c (Want lk)) (held x)
         (if noff (sp x) c =? 0 then fupd (before x) c (sie (sp x) c) else before x)).
Proof.
  intros I Ho Hn Hrun. rewrite (bind_ok _ _ _ _ _ (push_off_run c (sp x))) in Hrun.
  unfold bind in Hrun. rewrite holding_run in Hrun. destruct (_ && _); [done|]. injection Hrun as <-.
  pose proof (noff_nonneg x c I) as Hpos.
  destruct (pushed_fields c (sp x) Hn Hpos) as (F1 & F2 & F3 & F4 & F5 & F6).
  apply (inv_local x c); [done|done|done| | | | |].
  - intros c' D. destruct (F6 c' D) as (-> & -> & ->). rewrite fupd_ne by done.
    do 3 (split; [done|]). destruct (_ =? 0); [by rewrite fupd_ne|done].
  - intros l. rewrite fupd_eq, Ho. unfold transit. split; by intros [|].
  - rewrite F3, fupd_eq, (iv_noff x I), Ho. cbn. lia.
  - lia.
  - intros _. rewrite F4, F5. split; [done|]. destruct (Z.eqb_spec (noff (sp x) c) 0); [by rewrite fupd_eq|].
    apply (iv_off x I). lia.
Qed.

Lemma pop_inv x c lk s' : inv x -> at_c x c = Gave lk -> pop_off c (sp x) = Ok tt s' ->
  inv (mkSys s' (fupd (at_c x) c Out) (held x) (before x)).
Proof.
  intros I Hp Hrun. pose proof (iv_noff x I c) as Hn. rewrite Hp in Hn. cbn in Hn.
  destruct (iv_off x I c ltac:(lia)) as [Hoff Hint]. pose proof (iv_max x I c) as Hmax.
  rewrite pop_off_run in Hrun by (done || lia). injection Hrun as <-.
  destruct (popped_fields c (sp x)) as (F1 & F2 & F3 & F4 & F5 & F6).
  apply (inv_local x c); [done|done|done| | | | |].
  - intros c' D. destruct (F6 c' D) as (-> & -> & ->). by rewrite fupd_ne.
  - intros l. rewrite fupd_eq, Hp. unfold transit. split; by intros [|].
  - rewrite F3, fupd_eq. cbn. lia.
  - lia.
  - rewrite F3, F4, F5. intros Hpos. by rewrite (proj2 (Z.eqb_neq _ _)) by lia.
Qed.

(** Taking the lock word. *)
Lemma got_inv x c lk : inv x -> at_c x c = Want lk -> sp_locked (sp x) lk = false ->
  inv (mkSys (set_locked lk true (sp x)) (fupd (at_c x) c (Got lk)) (held x) (before x)).
Proof.
  intros [I1 I2 I3 I4 I5 I6 I7 I8] Hp Hfree.
  assert (forall c', ~ owns x c' lk) as Hnone.
  { intros c' Ho. assert (sp_locked (sp x) lk = true) as E by (apply I1; by exists c'). congruence. }
  assert (forall c' l, owns (mkSys (set_locked lk true (sp x)) (fupd (at_c x) c (Got lk)) (held x) (before x)) c' l <->
    owns x c' l \/ (c' = c /\ l = lk)) as Hown.
  { intros c' l. unfold owns, transit. cbn. rewrite fupd_cases. case_decide as D.
    - rewrite D, Hp. split; [intros [?|[[= ->]|?]]; [auto|auto|done]|intros [[?|[?|?]]|[_ ->]]; [auto|done|done|auto]].
    - split; [auto|]. intros [?|[? _]]; [done|done]. }
  split; cbn.
  - intros l. setoid_rewrite Hown. unfold lupd. case_decide as D.
    + split; [intros _; exists c; auto|done].
    + rewrite I1. split; intros [c' Hc]; exists c'; [by left|]. by destruct Hc as [?|[_ ?]].
  - intros c1 c2 l. rewrite !Hown. intros [H1|[-> ->]] [H2|[-> E]]; [by eapply I2| | |done].
    + subst l. by destruct (Hnone c1).
    + by destruct (Hnone c2).
  - apply I3.
  - intros c' l. rewrite fupd_cases. case_decide as D; [|apply I4]. intros [[= ->]|?]; [|done].
    intros Hin. destruct (Hnone c'). by left.
  - apply I5.
  - intros c'. rewrite I6, fupd_cases. case_decide as D; [by rewrite D, Hp|done].
  - apply I7.
  - apply I8.
Qed.

(** Giving the lock word back. *)
Lemma unlock_inv x c lk : inv x -> at_c x c = Giving lk ->
  inv (mkSys (set_locked lk false (sp x)) (fupd (at_c x) c (Gave lk)) (held x) (before x)).
Proof.
  intros [I1 I2 I3 I4 I5 I6 I7 I8] Hp.
  assert (owns x c lk) as Hmine by (right; by right).
  assert (forall c' l, owns (mkSys (set_locked lk false (sp x)) (fupd (at_c x) c (Gave lk)) (held x) (before x)) c' l <->
    owns x c' l /\ l <> lk) as Hown.
  { intros c' l. unfold owns, transit. cbn. rewrite fupd_cases. case_decide as D.
    - subst c'. rewrite Hp. split.
      + intros [H|[?|?]]; [|done|done]. split; [by left|]. intros ->. apply (I4 c lk); [by right|done].
      + intros [[H|[?|[= ->]]] Hne]; [by left|done|done].
    - split; [|by intros [? _]]. intros H. split; [done|]. intros ->. apply D. by apply (I2 c' c lk). }
  split; cbn.
  - intros l. setoid_rewrite Hown. unfold lupd. case_decide as D.
    + split; [done|]. intros (c' & _ & ?). done.
    + rewrite I1. split; intros [c' Hc]; exists c'; [by split|apply Hc].
  - intros c1 c2 l. rewrite !Hown. intros [H1 _] [H2 _]. by eapply I2.
  - apply I3.
  - intros c' l. rewrite fupd_cases. case_decide as D; [by intros [|]|apply I4].
  - apply I5.
  - intros c'. rewrite I6, fupd_cases. case_decide as D; [by rewrite D, Hp|done].
  - apply I7.
  - apply I8.
Qed.

Lemma own_inv x c lk : inv x -> at_c x c = Got lk ->
  inv (mkSys (set_cpu lk (Some c) (sp x)) (fupd (at_c x) c Out) (fupd (held x) c (lk :: held x c)) (before x)).
Proof.
  intros [I1 I2 I3 I4 I5 I6 I7 I8] Hp.
  assert (lk ∉ held x c) as Hnew by (apply I4; rewrite Hp; by left).
  assert (forall c', lk ∉ held x c') as Hnone.
  { intros c' Hin. assert (c' = c) as -> by (apply (I2 c' c lk); [by left|right; rewrite Hp; by left]). done. }
  assert (forall c' l, owns (mkSys (set_cpu lk (Some c) (sp x)) (fupd (at_c x) c Out)
    (fupd (held x) c (lk :: held x c)) (before x)) c' l <-> owns x c' l) as Hown.
  { intros c' l. unfold owns, transit. cbn. rewrite !fupd_cases. case_decide as D; [|done].
    subst c'. rewrite Hp, elem_of_cons. split; [intros [[->|?]|[?|?]]; auto; done|].
    intros [?|[[= ->]|?]]; [auto|auto|done]. }
  split; cbn.
  - intros l. rewrite I1. by setoid_rewrite Hown.
  - intros c1 c2 l. rewrite !Hown. apply I2.
  - intros c' l. rewrite fupd_cases. unfold lupd. case_decide as D.
    + subst l. case_decide as E; [subst c'; split; [intros _; apply elem_of_cons; by left|done]|].
      split; [intros [= ->]; done|intros H; by destruct (Hnone c')].
    + rewrite I3. case_decide as E; [subst c'; rewrite elem_of_cons; naive_solver|done].
  - intros c' l. rewrite !fupd_cases. case_decide as D; [by intros [|]|apply I4].
  - intros c'. rewrite fupd_cases. case_decide as D; [apply NoDup_cons; split; [done|apply I5]|apply I5].
  - intros c'. rewrite I6, !fupd_cases. case_decide as D; [subst c'; rewrite Hp; cbn; lia|done].
  - apply I7.
  - apply I8.
Qed.

Lemma drop_lock_in lk l h : NoDup h -> l ∈ drop_lock lk h <-> l ∈ h /\ l <> lk.
Proof.
  induction h as [|a h IH]; intros Hn; cbn.
  { split; [intros H; ielem|intros [H _]; ielem]. }
  apply NoDup_cons in Hn as [Ha Hn]. case_decide as D.
  - subst a. rewrite elem_of_cons. split; [intros H; split; [by right|congruence]|intros [[->|?] ?]; done].
  - rewrite !elem_of_cons, IH by done. naive_solver.
Qed.

Lemma drop_lock_nodup lk h : NoDup h -> NoDup (drop_lock lk h).
Proof.
  induction h as [|a h IH]; intros Hn; cbn; [done|]. apply NoDup_cons in Hn as [Ha Hn]. case_decide; [done|].
  apply NoDup_cons. split; [|by apply IH]. intros [? _]%drop_lock_in; done.
Qed.

Lemma drop_lock_length lk h : lk ∈ h -> Z.of_nat (length (drop_lock lk h)) = Z.of_nat (length h) - 1.
Proof.
  induction h as [|a h IH]; intros Hin; [ielem|]. cbn. case_decide as D; [lia|].
  apply elem_of_cons in Hin as [->|Hin]; [done|]. cbn. specialize (IH Hin). lia.
Qed.

Lemma give_inv x c lk : inv x -> at_c x c = Out -> lk ∈ held x c ->
  inv (mkSys (set_cpu lk None (sp x)) (fupd (at_c x) c (Giving lk))
         (fupd (held x) c (drop_lock lk (held x c))) (before x)).
Proof.
  intros [I1 I2 I3 I4 I5 I6 I7 I8] Ho Hin.
  assert (forall c', lk ∈ held x c' -> c' = c) as Honly by (intros c' H; apply (I2 c' c lk); by left).
  assert (forall c' l, owns (mkSys (set_cpu lk None (sp x)) (fupd (at_c x) c (Giving lk))
    (fupd (held x) c (drop_lock lk (held x c))) (before x)) c' l <-> owns x c' l) as Hown.
  { intros c' l. unfold owns, transit. cbn. rewrite !fupd_cases. case_decide as D; [|done].
    subst c'. rewrite Ho, drop_lock_in by apply I5. split.
    - intros [[? _]|[?|[= ->]]]; [auto|done|auto].
    - intros [H|[?|?]]; [|done|done]. destruct (decide (l = lk)) as [->|]; auto. }
  split; cbn.
  - intros l. rewrite I1. by setoid_rewrite Hown.
  - intros c1 c2 l. rewrite !Hown. apply I2.
  - intros c' l. rewrite fupd_cases. unfold lupd. case_decide as D.
    + subst l. split; [done|]. case_decide as E; [intros [_ ?]%drop_lock_in; [done|apply I5]|].
      intros H. by destruct E; apply Honly.
    + rewrite I3. case_decide as E; [subst c'; rewrite drop_lock_in by apply I5; naive_solver|done].
  - intros c' l. rewrite !fupd_cases. case_decide as D; [|apply I4].
    intros [?|[= ->]]; [done|]. intros [_ ?]%drop_lock_in; [done|apply I5].
  - intros c'. rewrite fupd_cases. case_decide as D; [apply drop_lock_nodup, I5|apply I5].
  - intros c'. rewrite I6, !fupd_cases. case_decide as D; [|done]. subst c'. rewrite Ho, drop_lock_length by done. cbn. lia.
  - apply I7.
  - apply I8.
Qed.

Lemma holding_inv x c lk : inv x ->
  sp_locked (sp x) lk && bool_decide (sp_cpu (sp x) lk = Some c) = bool_decide (lk ∈ held x c).
Proof.
  intros I. rewrite (bool_decide_ext _ _ (iv_cpu x I c lk)). destruct (decide (lk ∈ held x c)) as [H|H].
  - rewrite bool_decide_eq_true_2 by done. rewrite andb_true_r. apply (iv_locked x I). exists c. by left.
  - rewrite bool_decide_eq_false_2 by done. by rewrite andb_false_r.
Qed.

Lemma step_inv x x' : inv x -> step x x' -> inv x'.
Proof.
  intros I. destruct 1 as [x c b Ho Hn|x c lk s' Ho Hn Hrun|x c lk s' Hp Hrun|x c lk s' Hp Hrun|x c lk Hp|x c lk Ho Hh|x c lk Hp|x c lk s' Hp Hrun].
  - apply (inv_local x c); [done|done|done| |done| | |].
    + intros c' D. cbn. by rewrite fupd_ne.
    + apply (iv_noff x I).
    + apply (iv_max x I).
    + cbn. lia.
  - by apply want_inv.
  - injection Hrun as Hl <-. apply (inv_local x c); [done| |done|done|done|apply (iv_noff x I)|apply (iv_max x I)|apply (iv_off x I)].
    intros l. cbn. unfold lupd. case_decide as D; [by rewrite D|done].
  - injection Hrun as Hl <-. by apply got_inv.
  - by apply own_inv.
  - rewrite holding_run in Hh. injection Hh as Hh. rewrite (holding_inv x c lk I) in Hh.
    apply give_inv; [done|done|by apply bool_decide_eq_true in Hh].
  - by apply unlock_inv.
  - by eapply pop_inv.
Qed.

Lemma initial_inv x : initial x -> inv x.
Proof.
  intros [HL HC]. assert (forall c lk, ~ owns x c lk) as Hno.
  { intros c lk. unfold owns, transit. destruct (HC c) as (-> & -> & _). intros [H|[H|H]]; [ielem|done|done]. }
  split.
  - intros lk. rewrite (proj1 (HL lk)). split; [done|]. intros [c Hc]. by destruct (Hno c lk).
  - intros c c' lk H. by destruct (Hno c lk).
  - intros c lk. rewrite (proj2 (HL lk)). destruct (HC c) as (_ & -> & _). by split; [|intros ?%not_elem_of_nil].
  - intros c lk. destruct (HC c) as (-> & _). by intros [|].
  - intros c. destruct (HC c) as (_ & -> & _). constructor.
  - intros c. destruct (HC c) as (-> & -> & ->). done.
  - intros c. destruct (HC c) as (_ & _ & ->). lia.
  - intros c. destruct (HC c) as (_ & _ & ->). lia.
Qed.

Lemma reachable_inv x : reachable x -> inv x.
Proof.
  intros (x0 & H0 & Hr). apply initial_inv in H0. induction Hr as [|x y z Hs _ IH]; [done|].
  apply IH. by eapply step_inv.
Qed.

(** A CPU that runs the whole of [acquire] or [release] while the others stand
    still does so in these steps. *)
Lemma acquire_steps x c lk s' : at_c x c = Out -> noff (sp x) c < 0x7ffffffe -> acquire c lk (sp x) = Ok tt s' ->
  exists x', rtc step x x' /\ sp x' = s' /\ at_c x' c = Out /\ held x' c = lk :: held x c.
Proof.
  intros Ho Hn H. apply bind_inv in H as ([] & s1 & H1 & H). apply bind_inv in H as ([] & s2 & H2 & H); [done|].
  apply bind_inv in H as ([] & s3 & H3 & H); [done|]. injection H as <-.
  eexists. split; [|split; [|split]].
  - eapply rtc_l; [apply (step_want x c lk s2 Ho Hn); by rewrite (bind_ok _ _ _ _ _ H1), (bind_ok _ _ _ _ _ H2)|].
    eapply rtc_l; [apply (step_got _ c lk s3); [apply fupd_eq|exact H3]|]. eapply rtc_l; [apply (step_own _ c lk), fupd_eq|]. apply rtc_refl.
  - done.
  - apply fupd_eq.
  - apply fupd_eq.
Qed.

Lemma release_steps x c lk s' : at_c x c = Out -> release c lk (sp x) = Ok tt s' ->
  exists x', rtc step x x' /\ sp x' = s' /\ at_c x' c = Out /\ held x' c = drop_lock lk (held x c).
Proof.
  intros Ho H. apply bind_inv in H as ([] & s1 & H1 & H); [|done]. pose proof H1 as E. injection E as _ <-. cbn [negb] in H.
  change (pop_off c (set_locked lk false (set_cpu lk None (sp x))) = Ok tt s') in H.
  eexists. split; [|split; [|split]].
  - eapply rtc_l; [by apply (step_give x c lk Ho)|]. eapply rtc_l; [apply (step_unlock _ c lk), fupd_eq|].
    eapply rtc_l; [apply (step_pop _ c lk s'); [apply fupd_eq|exact H]|]. apply rtc_refl.
  - done.
  - apply fupd_eq.
  - apply fupd_eq.
Qed.

(** ** Theorems *)

(** C35. Mutual exclusion: in every reachable interleaving of any number of
    CPUs no lock is held by two of them, [holding] answers for each CPU exactly
    whether it holds the lock, and a CPU that holds one has its interrupts
    off. *)
Theorem mutual_exclusion x c c' lk :
  reachable x -> lk ∈ held x c ->
  (lk ∈ held x c' -> c = c') /\
  holding c' lk (sp x) = Ok (bool_decide (lk ∈ held x c')) (sp x) /\
  sie (sp x) c = false /\ noff (sp x) c = Z.of_nat (length (held x c)) + inside (at_c x c).
Proof.
  intros I%reachable_inv Hin. split; [intros Hin'; apply (iv_one x I c c' lk); by left|].
  split; [rewrite holding_run; by rewrite holding_inv|]. split; [|apply (iv_noff x I)].
  apply (iv_off x I). rewrite (iv_noff x I). destruct (held x c); [by apply not_elem_of_nil in Hin|].
  destruct (at_c x c); cbn; lia.
Qed.

(** Nesting: when a CPU has given its last lock back, [pop_off] succeeds
    and its interrupts are as they were before it took the first one. *)
Theorem interrupts_restored x c lk :
  reachable x -> at_c x c = Gave lk -> held x c = [] ->
  exists s', pop_off c (sp x) = Ok tt s' /\ noff s' c = 0 /\ sie s' c = before x c.
Proof.
  intros I%reachable_inv Hp Hh. pose proof (iv_noff x I c) as Hn. rewrite Hp, Hh in Hn. cbn in Hn.
  destruct (iv_off x I c ltac:(lia)) as [Hoff Hint].
  destruct (popped_fields c (sp x)) as (_ & _ & F3 & _ & F5 & _).
  exists (popped c (sp x)). split; [apply pop_off_run; [done|lia]|]. rewrite F3, F5, Hn, Hoff, Hint.
  split; [done|]. cbn. apply orb_false_r.
Qed.

(** The view of CPU [c] that [KState] has of the locks. *)
Record sees (c : Z) (s : spinst) (h : list lockid) : Prop := {
  se_held : forall lk, lk ∈ h <-> sp_locked s lk = true /\ sp_cpu s lk = Some c;
  se_free : forall lk, lk ∉ h -> sp_locked s lk = false;
  se_nodup : NoDup h;
  se_noff : noff s c = Z.of_nat (length h);
  se_sie : h <> [] -> sie s c = false;
  se_max : Z.of_nat (length h) < 0x7ffffffe
}.

Lemma sees_holding c s h lk : sees c s h -> holding c lk s = Ok (bool_decide (lk ∈ h)) s.
Proof.
  intros V. rewrite holding_run. f_equal. rewrite (bool_decide_ext _ _ (se_held _ _ _ V lk)).
  destruct (sp_locked s lk); cbn; [apply bool_decide_ext; naive_solver|by rewrite bool_decide_eq_false_2 by naive_solver].
Qed.

Lemma acquire_sees c s h lk : sees c s h -> lk ∉ h -> Z.of_nat (length h) < 0x7ffffffd ->
  exists s', acquire c lk s = Ok tt s' /\ sees c s' (lk :: h).
Proof.
  intros V Hn Hlen. pose proof (se_noff _ _ _ V) as Hoff.
  destruct (pushed_fields c s) as (F1 & F2 & F3 & F4 & F5 & F6); [lia|lia|].
  exists (set_cpu lk (Some c) (set_locked lk true (pushed c s))). split.
  - unfold acquire. run (push_off_run c s). unfold bind. rewrite holding_run, F1, F2.
    pose proof (sees_holding c s h lk V) as Hh. rewrite holding_run in Hh. injection Hh as ->.
    rewrite bool_decide_eq_false_2 by done. unfold test_and_set, bind, gets, modify, ret.
    by rewrite F1, (se_free _ _ _ V lk Hn).
  - split; unfold set_cpu, set_locked; cbn [sp_locked sp_cpu noff sie].
    + intros l. unfold lupd. rewrite elem_of_cons, (se_held _ _ _ V l), F1, F2. case_decide; naive_solver.
    + intros l [Hl1 Hl2]%not_elem_of_cons. rewrite lupd_ne, F1 by done. by apply (se_free _ _ _ V).
    + apply NoDup_cons. split; [done|apply V].
    + rewrite F3, Hoff. cbn [length]. lia.
    + intros _. exact F4.
    + cbn [length]. lia.
Qed.

Lemma release_sees c s h lk : sees c s h -> lk ∈ h ->
  exists s', release c lk s = Ok tt s' /\ sees c s' (drop_lock lk h).
Proof.
  intros V Hin. set (s1 := set_locked lk false (set_cpu lk None s)).
  destruct (popped_fields c s1) as (F1 & F2 & F3 & F4 & F5 & F6).
  assert (h <> []) as Hne by (intros ->; by apply not_elem_of_nil in Hin).
  pose proof (se_noff _ _ _ V) as Hoff. pose proof (drop_lock_length lk h Hin) as Hlen.
  exists (popped c s1). split.
  - unfold release. run (sees_holding c s h lk V). rewrite bool_decide_eq_true_2 by done. cbn [negb].
    unfold bind, modify. fold s1. apply pop_off_run; [by apply (se_sie _ _ _ V)|].
    change (noff s1 c) with (noff s c). destruct h; [done|]. cbn in Hoff. lia.
  - split.
    + intros l. rewrite F1, F2, drop_lock_in by apply V. cbn. unfold lupd. rewrite (se_held _ _ _ V l). case_decide; naive_solver.
    + intros l Hl. rewrite F1. cbn. unfold lupd. case_decide as D; [done|]. apply (se_free _ _ _ V).
      intros H. apply Hl, drop_lock_in; [apply V|done].
    + apply drop_lock_nodup, V.
    + rewrite F3. change (noff s1 c) with (noff s c). lia.
    + intros Hd. rewrite F5. change (noff s1 c) with (noff s c).
      rewrite (proj2 (Z.eqb_neq _ _)); [by apply (se_sie _ _ _ V)|]. destruct (drop_lock lk h); [done|]. cbn in Hlen. lia.
    + pose proof (se_max _ _ _ V). lia.
Qed.

(** C36. The two views agree: on a CPU that runs alone, [acquire] and
    [release] of spinlock.c panic exactly when those of the kernel model do,
    and otherwise lead to states that agree again. *)
Theorem spinlock_refines c s lk k :
  sees c s (k_held k) -> Z.of_nat (length (k_held k)) < 0x7ffffffd ->
  match KState.acquire lk k with
  | Ok _ k' => exists s', acquire c lk s = Ok tt s' /\ sees c s' (k_held k')
  | _ => acquire c lk s = Panic "acquire"
  end /\
  match KState.release lk k with
  | Ok _ k' => exists s', release c lk s = Ok tt s' /\ sees c s' (k_held k')
  | _ => release c lk s = Panic "release"
  end.
Proof.
  intros V Hlen. unfold KState.acquire, KState.release. destruct (decide (lk ∈ k_held k)) as [Hin|Hin].
  - rewrite holds_true by done. split; [|by apply release_sees].
    destruct (pushed_fields c s) as (F1 & F2 & _); [rewrite (se_noff _ _ _ V); lia..|].
    unfold acquire. run (push_off_run c s). unfold bind. rewrite holding_run, F1, F2.
    pose proof (sees_holding c s _ lk V) as Hh. rewrite holding_run in Hh. injection Hh as ->.
    by rewrite bool_decide_eq_true_2.
  - rewrite holds_false by done. split; [by apply acquire_sees|].
    unfold release. run (sees_holding c s _ lk V). by rewrite bool_decide_eq_false_2.
Qed.

(** ** Instances: CPU 0 takes [L_kmem] and gives it back. *)

Definition spin0 : spinst := mkSpin (fun _ => false) (fun _ => None) (fun _ => 0) (fun _ => false) (fun _ => true).
Definition sys0 : sys := mkSys spin0 (fun _ => Out) (fun _ => []) (fun _ => true).

Lemma sys0_initial : initial sys0.
Proof. by split. Qed.

Lemma takes_kmem : exists x, rtc step sys0 x /\ held x 0 = [L_kmem] /\ at_c x 0 = Out /\ sp_locked (sp x) L_kmem = true /\
  sp_cpu (sp x) L_kmem = Some 0.
Proof.
  eexists. split.
  { eapply rtc_l; [eapply (step_want sys0 0 L_kmem); [done|done|reflexivity]|].
    eapply rtc_l; [eapply (step_got _ 0 L_kmem); reflexivity|].
    eapply rtc_l; [eapply (step_own _ 0 L_kmem); reflexivity|]. apply rtc_refl. }
  done.
Qed.

Lemma gives_kmem : exists x, rtc step sys0 x /\ held x 0 = [] /\ at_c x 0 = Gave L_kmem.
Proof.
  destruct takes_kmem as (x & Hx & Hh & Ho & Hl & Hc). eexists. split.
  { etrans; [exact Hx|].
    eapply rtc_l; [eapply (step_give x 0 L_kmem); [done|rewrite holding_run, Hl, Hc; reflexivity]|].
    eapply rtc_l; [eapply (step_unlock _ 0 L_kmem); reflexivity|]. apply rtc_refl. }
  cbn. by rewrite Hh.
Qed.

Lemma mutual_exclusion_witness : exists x, reachable x /\ L_kmem ∈ held x 0 /\ sie (sp x) 0 = false.
Proof.
  destruct takes_kmem as (x & Hx & Hh & _). exists x.
  assert (reachable x) as Hr by (exists sys0; split; [apply sys0_initial|done]).
  assert (L_kmem ∈ held x 0) as Hin by (rewrite Hh; ielem).
  split; [exact Hr|]. split; [exact Hin|]. apply (mutual_exclusion x 0 1 L_kmem Hr Hin).
Defined.

Lemma interrupts_restored_witness : exists x s', reachable x /\ pop_off 0 (sp x) = Ok tt s' /\ noff s' 0 = 0.
Proof.
  destruct gives_kmem as (x & Hx & Hh & Hp).
  assert (reachable x) as Hr by (exists sys0; split; [apply sys0_initial|done]).
  destruct (interrupts_restored x 0 L_kmem Hr Hp Hh) as (s' & H1 & H2 & _).
  exists x, s'. exact (conj Hr (conj H1 H2)).
Defined.

Lemma spin0_sees : sees 0 spin0 (k_held zero_state).
Proof. split; cbn; [intros lk; split; [by intros ?%not_elem_of_nil|by intros [? _]]|done|constructor|done|done|lia]. Qed.

Lemma spinlock_refines_witness : exists s', acquire 0 L_kmem spin0 = Ok tt s' /\ sees 0 s' [L_kmem].
Proof. exact (proj1 (spinlock_refines 0 spin0 L_kmem zero_state spin0_sees ltac:(done))). Defined.
