(* ===== verification/Memstats.v ===== *)
(** * kernel/memstats.c

    The memory-management counters, all [uint64], guarded by one lock. *)

From S2P Require Import Prelude Riscv Mem KState Sample.

(** ** Definitions *)

Definition zero_stats : stats := mkStats 0 0 0 0 0 0 0 0 0 0 0 0.

(** [c++] on a [uint64] counter, and the guarded [if(c > 0) c--]. *)
Definition incr (c : Z) : Z := u64 (c + 1).
Definition decr_pos (c : Z) : Z := if c >? 0 then c - 1 else c.

Definition on_stats (f : stats -> stats) (s : kstate) : kstate := k_set_stats (f (k_stats s)) s.

Definition memstats_init : K unit :=
  initlock L_memstats ;; modify (on_stats (fun _ => zero_stats)).

Definition memstats_inc_cow_fault : K unit :=
  acquire L_memstats ;;
  modify (on_stats (fun t => ms_set_cow_faults (incr (ms_cow_faults t)) t)) ;;
  release L_memstats.

Definition memstats_inc_cow_shared : K unit :=
  acquire L_memstats ;;
  modify (on_stats (fun t => ms_set_cow_pages_shared (incr (ms_cow_pages_shared t)) t)) ;;
  release L_memstats.

Definition memstats_inc_swap_out : K unit :=
  acquire L_memstats ;;
  modify (on_stats (fun t =>
    ms_set_swap_blocks_used (incr (ms_swap_blocks_used t))
      (ms_set_swap_outs (incr (ms_swap_outs t)) t))) ;;
  release L_memstats.

Definition memstats_inc_swap_in : K unit :=
  acquire L_memstats ;;
  modify (on_stats (fun t =>
    ms_set_swap_blocks_used (decr_pos (ms_swap_blocks_used t))
      (ms_set_swap_ins (incr (ms_swap_ins t)) t))) ;;
  release L_memstats.

Definition memstats_inc_page_fault (is_load : bool) : K unit :=
  acquire L_memstats ;;
  modify (on_stats (fun t =>
    let t := ms_set_page_faults (incr (ms_page_faults t)) t in
    if is_load then ms_set_load_faults (incr (ms_load_faults t)) t
    else ms_set_store_faults (incr (ms_store_faults t)) t)) ;;
  release L_memstats.

Definition memstats_inc_lazy_alloc : K unit :=
  acquire L_memstats ;;
  modify (on_stats (fun t => ms_set_lazy_alloc_faults (incr (ms_lazy_alloc_faults t)) t)) ;;
  release L_memstats.

Definition memstats_inc_pages_allocated : K unit :=
  acquire L_memstats ;;
  modify (on_stats (fun t =>
    ms_set_current_pages (incr (ms_current_pages t))
      (ms_set_pages_allocated (incr (ms_pages_allocated t)) t))) ;;
  release L_memstats.

Definition memstats_inc_pages_freed : K unit :=
  acquire L_memstats ;;
  modify (on_stats (fun t =>
    ms_set_current_pages (decr_pos (ms_current_pages t))
      (ms_set_pages_freed (incr (ms_pages_freed t)) t))) ;;
  release L_memstats.

(** The array [stats[0..11]] that [memstats_get] fills. *)
Definition stats_list (t : stats) : list Z :=
  [ms_cow_faults t;
   ms_cow_pages_shared t;
   ms_swap_outs t;
   ms_swap_ins t;
   ms_swap_blocks_used t;
   ms_page_faults t;
   ms_load_faults t;
   ms_store_faults t;
   ms_lazy_alloc_faults t;
   ms_pages_allocated t;
   ms_pages_freed t;
   ms_current_pages t].

Definition memstats_get : K (list Z) :=
  acquire L_memstats ;;
  r <- gets (fun s => stats_list (k_stats s)) ;;
  release L_memstats ;;
  ret r.

Definition memstats_reset : K unit :=
  acquire L_memstats ;;
  modify (on_stats (fun _ => zero_stats)) ;;
  release L_memstats.

(** The entry points that change the counters after boot. *)
Inductive stats_op : Type :=
| OpCowFault | OpCowShared | OpSwapOut | OpSwapIn | OpPageFault (is_load : bool)
| OpLazyAlloc | OpAllocated | OpFreed | OpReset.

Definition run_op (o : stats_op) : K unit :=
  match o with
  | OpCowFault => memstats_inc_cow_fault
  | OpCowShared => memstats_inc_cow_shared
  | OpSwapOut => memstats_inc_swap_out
  | OpSwapIn => memstats_inc_swap_in
  | OpPageFault b => memstats_inc_page_fault b
  | OpLazyAlloc => memstats_inc_lazy_alloc
  | OpAllocated => memstats_inc_pages_allocated
  | OpFreed => memstats_inc_pages_freed
  | OpReset => memstats_reset
  end.

(** The states the module can be in: after [memstats_init], then any
    sequence of the operations. *)
Inductive stats_reachable : kstate -> Prop :=
| sr_init s s' : memstats_init s = Ok tt s' -> stats_reachable s'
| sr_step s o s' : stats_reachable s -> run_op o s = Ok tt s' -> stats_reachable s'.

(** The counters are [uint64]s, and every page fault is counted once as a
    load or once as a store. *)
Record stats_ok (t : stats) : Prop := {
  so_range : Forall (fun c => 0 <= c < 0x10000000000000000) (stats_list t);
  so_faults : ms_page_faults t = u64 (ms_load_faults t + ms_store_faults t)
}.

(** ** Properties *)

Lemma stats_crit g s :
  L_memstats ∉ k_held s ->
  (acquire L_memstats ;; modify (on_stats g) ;; release L_memstats) s = Ok tt (on_stats g s).
Proof.
  intros Hl. rewrite crit_ok by done. by destruct s.
Qed.

(** What each operation does to the counters. *)
Definition op_effect (o : stats_op) (t : stats) : stats :=
  match o with
  | OpCowFault => ms_set_cow_faults (incr (ms_cow_faults t)) t
  | OpCowShared => ms_set_cow_pages_shared (incr (ms_cow_pages_shared t)) t
  | OpSwapOut => ms_set_swap_blocks_used (incr (ms_swap_blocks_used t))
                   (ms_set_swap_outs (incr (ms_swap_outs t)) t)
  | OpSwapIn => ms_set_swap_blocks_used (decr_pos (ms_swap_blocks_used t))
                  (ms_set_swap_ins (incr (ms_swap_ins t)) t)
  | OpPageFault b =>
      let t := ms_set_page_faults (incr (ms_page_faults t)) t in
      if b then ms_set_load_faults (incr (ms_load_faults t)) t
      else ms_set_store_faults (incr (ms_store_faults t)) t
  | OpLazyAlloc => ms_set_lazy_alloc_faults (incr (ms_lazy_alloc_faults t)) t
  | OpAllocated => ms_set_current_pages (incr (ms_current_pages t))
                     (ms_set_pages_allocated (incr (ms_pages_allocated t)) t)
  | OpFreed => ms_set_current_pages (decr_pos (ms_current_pages t))
                 (ms_set_pages_freed (incr (ms_pages_freed t)) t)
  | OpReset => zero_stats
  end.

Lemma run_op_ok o s : L_memstats ∉ k_held s -> run_op o s = Ok tt (on_stats (op_effect o) s).
Proof. intros. destruct o; by apply stats_crit. Qed.

Lemma pages_freed_ok s : L_memstats ∉ k_held s ->
  memstats_inc_pages_freed s = Ok tt (on_stats (op_effect OpFreed) s).
Proof. apply (run_op_ok OpFreed). Qed.

Lemma pages_allocated_ok s : L_memstats ∉ k_held s ->
  memstats_inc_pages_allocated s = Ok tt (on_stats (op_effect OpAllocated) s).
Proof. apply (run_op_ok OpAllocated). Qed.

Lemma cow_shared_ok s : L_memstats ∉ k_held s ->
  memstats_inc_cow_shared s = Ok tt (on_stats (op_effect OpCowShared) s).
Proof. apply (run_op_ok OpCowShared). Qed.

Lemma run_op_inv o s s' : run_op o s = Ok tt s' ->
  (L_memstats ∉ k_held s) /\ s' = on_stats (op_effect o) s.
Proof.
  intros H. destruct (decide (L_memstats ∈ k_held s)) as [Hl|Hl].
  - assert (run_op o s = Panic "acquire") by (destruct o; by apply crit_panic). congruence.
  - split; [done|]. rewrite run_op_ok in H by done. by injection H.
Qed.

Lemma incr_range c : 0 <= incr c < 0x10000000000000000.
Proof. apply u64_range. Qed.

Lemma decr_pos_range c : 0 <= c < 0x10000000000000000 -> 0 <= decr_pos c < 0x10000000000000000.
Proof. unfold decr_pos. rewrite Z.gtb_ltb. destruct (Z.ltb_spec 0 c); lia. Qed.

Lemma incr_fault_l a b : incr (u64 (a + b)) = u64 (incr a + b).
Proof. unfold incr. rewrite u64_add_l, u64_add_l. f_equal. lia. Qed.

Lemma incr_fault_r a b : incr (u64 (a + b)) = u64 (a + incr b).
Proof. unfold incr. rewrite u64_add_l, u64_add_r. f_equal. lia. Qed.

#[export] Hint Resolve incr_range decr_pos_range : xv6.

Lemma op_effect_ok o t : stats_ok t -> stats_ok (op_effect o t).
Proof.
  intros [Hr Hf]. unfold stats_list in Hr. decompose_Forall_hyps.
  split; [|destruct o as [| | | |[]| | | |]; cbn; rewrite ?Hf; auto using incr_fault_l, incr_fault_r].
  destruct o as [| | | |[]| | | |]; unfold stats_list; cbn;
    repeat (apply Forall_cons_2; [first [lia | solve [auto with xv6]]|]); by apply Forall_nil_2.
Qed.

Lemma stats_reachable_ok s : stats_reachable s -> stats_ok (k_stats s).
Proof.
  induction 1 as [s s' H|s o s' _ IH H].
  - unfold memstats_init, bind, initlock, modify in H. injection H as <-.
    split; [|done]. by apply (bool_decide_unpack _).
  - apply run_op_inv in H as [_ ->]. by apply op_effect_ok.
Qed.

(** ** Claims *)

(** In every state the statistics module can reach (from [memstats_init]
    by its operations) all twelve counters are in the range of [uint64], and
    the page faults are the load faults plus the store faults modulo 2^64. *)
Theorem memstats_invariant s :
  stats_reachable s ->
  Forall (fun c => 0 <= c < 0x10000000000000000) (stats_list (k_stats s)) /\
  ms_page_faults (k_stats s) = u64 (ms_load_faults (k_stats s) + ms_store_faults (k_stats s)).
Proof. intros H. destruct (stats_reachable_ok s H) as [H1 H2]. done. Qed.

Lemma memstats_invariant_witness :
  let s := on_stats (op_effect (OpPageFault true)) (on_stats (fun _ => zero_stats) zero_state) in
  Forall (fun c => 0 <= c < 0x10000000000000000) (stats_list (k_stats s)) /\
  ms_page_faults (k_stats s) = u64 (ms_load_faults (k_stats s) + ms_store_faults (k_stats s)).
Proof.
  intros s. apply memstats_invariant.
  apply (sr_step (on_stats (fun _ => zero_stats) zero_state) (OpPageFault true)).
  - by apply (sr_init zero_state).
  - apply run_op_ok, not_elem_of_nil.
Defined.
