(* ===== verification/Sched.v ===== *)
(** * Sleeping and waking (kernel/proc.c) and sleep locks (kernel/sleeplock.c)

    [sched] gives the CPU away; what happens until it returns is the
    parameter [others] of the class [Env]. *)

From S2P Require Import Prelude Riscv Mem KState.

Section Sched.
Context {ENV : Env}.

(** The process running on this CPU; kernel code that calls [myproc()] and
    follows the pointer needs one. *)
Definition curproc : K Z :=
  p <- myproc ;; match p with Some i => ret i | None => undef "myproc() is null" end.

(** The state has no interrupt bit of its own: a process that holds a lock has
    its interrupts off ([Spinlock]), so that the last test of the code,
    [intr_get()], fails here. *)
Definition sched : K unit :=
  i <- curproc ;;
  s <- get ;;
  if negb (holds (L_proc i) s) then panic "sched p->lock" else
  if negb (Z.of_nat (length (k_held s)) =? 1) then panic "sched locks" else
  if decide (p_state (k_procs s i) = RUNNING) then panic "sched RUNNING" else
  modify (others i).

Definition yield : K unit :=
  i <- curproc ;;
  acquire (L_proc i) ;;
  modify (upd_proc i (p_set_state RUNNABLE)) ;;
  sched ;;
  release (L_proc i).

Definition sleep (ch : chan) (lk : lockid) : K unit :=
  i <- curproc ;;
  acquire (L_proc i) ;;
  release lk ;;
  modify (upd_proc i (p_set_chan ch)) ;;
  modify (upd_proc i (p_set_state SLEEPING)) ;;
  sched ;;
  modify (upd_proc i (p_set_chan NoChan)) ;;
  release (L_proc i) ;;
  acquire lk.

(** The loop body of [wakeup]. *)
Definition wake_proc (ch : chan) (i : Z) : K unit :=
  me <- myproc ;;
  if decide (Some i = me) then ret tt else
  acquire (L_proc i) ;;
  p <- gets (fun s => k_procs s i) ;;
  (if decide (p_state p = SLEEPING /\ p_chan p = ch)
   then modify (upd_proc i (p_set_state RUNNABLE)) else ret tt) ;;
  release (L_proc i).

Definition wakeup (ch : chan) : K unit := for_each (seqZ 0 NPROC) (wake_proc ch).

Definition setkilled (i : Z) : K unit :=
  acquire (L_proc i) ;;
  modify (upd_proc i (p_set_killed 1)) ;;
  release (L_proc i).

Definition killed (i : Z) : K Z :=
  acquire (L_proc i) ;;
  k <- gets (fun s => p_killed (k_procs s i)) ;;
  release (L_proc i) ;;
  ret k.

Definition kkill (pid : Z) : K Z :=
  r <- for_find (seqZ 0 NPROC) (fun i =>
    acquire (L_proc i) ;;
    p <- gets (fun s => k_procs s i) ;;
    if p_pid p =? pid then
      modify (upd_proc i (p_set_killed 1)) ;;
      (if decide (p_state p = SLEEPING)
       then modify (upd_proc i (p_set_state RUNNABLE)) else ret tt) ;;
      release (L_proc i) ;;
      ret (Some 0)
    else
      release (L_proc i) ;;
      ret None) ;;
  ret (default (-1) r).

(** ** Sleep locks *)

Definition initsleeplock (l : slid) : K unit :=
  initlock (L_sleep l) ;;
  modify (upd_sleeplock l (fun _ => mkSleep false 0)).

Definition acquiresleep (l : slid) : K unit :=
  acquire (L_sleep l) ;;
  iter (S patience) (fun _ : unit =>
    b <- gets (fun s => sl_locked (k_sleeplocks s l)) ;;
    if b then sleep (ChSleep l) (L_sleep l) ;; ret (inl tt) else ret (inr tt)) tt ;;
  modify (upd_sleeplock l (sl_set_locked true)) ;;
  i <- curproc ;;
  pid <- gets (fun s => p_pid (k_procs s i)) ;;
  modify (upd_sleeplock l (sl_set_pid pid)) ;;
  release (L_sleep l).

Definition releasesleep (l : slid) : K unit :=
  acquire (L_sleep l) ;;
  modify (upd_sleeplock l (sl_set_locked false)) ;;
  modify (upd_sleeplock l (sl_set_pid 0)) ;;
  wakeup (ChSleep l) ;;
  release (L_sleep l).

Definition holdingsleep (l : slid) : K bool :=
  acquire (L_sleep l) ;;
  locked <- gets (fun s => sl_locked (k_sleeplocks s l)) ;;
  r <- (if locked then
          i <- curproc ;;
          gets (fun s => sl_pid (k_sleeplocks s l) =? p_pid (k_procs s i))
        else ret false) ;;
  release (L_sleep l) ;;
  ret r.

End Sched.

(** ** Lemmas *)

(** What [wakeup] does to process [i]. *)
Definition wake_one (ch : chan) (i : Z) (s : kstate) : kstate :=
  if decide (Some i = k_cur s) then s
  else if decide (p_state (k_procs s i) = SLEEPING /\ p_chan (k_procs s i) = ch)
  then upd_proc i (p_set_state RUNNABLE) s else s.

Definition wake_all (ch : chan) (l : list Z) (s : kstate) : kstate :=
  fold_left (fun s i => wake_one ch i s) l s.

(** The whole table; sealed, so that the loop is never unfolded. *)
Definition woken_def (ch : chan) (s : kstate) : kstate := wake_all ch (seqZ 0 NPROC) s.
Definition woken_aux : seal woken_def.
Proof. by eexists. Qed.
Definition woken : chan -> kstate -> kstate := woken_aux.(unseal).
Definition woken_eq : woken = woken_def := woken_aux.(seal_eq).

(** Only the states of processes change. *)
Definition only_procs (s s' : kstate) : Prop := k_set_procs (k_procs s) s' = s.

Lemma only_procs_refl s : only_procs s s.
Proof. by destruct s. Qed.

Lemma only_procs_trans s1 s2 s3 : only_procs s1 s2 -> only_procs s2 s3 -> only_procs s1 s3.
Proof. unfold only_procs. intros <- <-. by destruct s3. Qed.

Lemma only_procs_upd s i f : only_procs s (upd_proc i f s).
Proof. by destruct s. Qed.

Lemma only_procs_eq s s' : only_procs s s' -> s' = k_set_procs (k_procs s') s.
Proof. unfold only_procs. intros <-. by destruct s'. Qed.

Lemma only_procs_keeps s s' : only_procs s s' -> k_cur s' = k_cur s /\ k_held s' = k_held s.
Proof. unfold only_procs. intros <-. done. Qed.

Lemma wake_one_frame ch i s : only_procs s (wake_one ch i s).
Proof. unfold wake_one. case_decide; [apply only_procs_refl|]. case_decide; [apply only_procs_upd|apply only_procs_refl]. Qed.

Lemma wake_all_frame ch l : forall s, only_procs s (wake_all ch l s).
Proof.
  induction l as [|i l IH]; intros s; [apply only_procs_refl|].
  eapply only_procs_trans; [apply (wake_one_frame ch i)|apply IH].
Qed.

(** What a process looks like afterwards. *)
Definition wakes (ch : chan) (p : proc) : proc :=
  if decide (p_state p = SLEEPING /\ p_chan p = ch) then p_set_state RUNNABLE p else p.

Lemma wake_all_procs ch l : forall s j, NoDup l ->
  k_procs (wake_all ch l s) j =
    if decide (j ∈ l /\ Some j <> k_cur s) then wakes ch (k_procs s j) else k_procs s j.
Proof.
  induction l as [|i l IH]; intros s j Hn.
  { rewrite decide_False; [done|]. intros [H _]. by apply not_elem_of_nil in H. }
  apply NoDup_cons in Hn as [Hi Hn]. change (wake_all ch (i :: l) s) with (wake_all ch l (wake_one ch i s)).
  rewrite IH by done.
  rewrite (proj1 (only_procs_keeps _ _ (wake_one_frame ch i s))).
  destruct (decide (j = i)) as [->|Hne].
  - rewrite (decide_False (P := i ∈ l /\ _)) by naive_solver. unfold wake_one, wakes.
    destruct (decide (Some i = k_cur s)) as [E|E].
    + by rewrite decide_False by naive_solver.
    + rewrite (decide_True (P := i ∈ i :: l /\ _)) by (split; [ielem|done]). case_decide; [|done]. unfold upd_proc. cbn. by rewrite fupd_eq.
  - assert (k_procs (wake_one ch i s) j = k_procs s j) as ->.
    { unfold wake_one. case_decide; [done|]. case_decide; [|done]. unfold upd_proc. cbn. by rewrite fupd_ne. }
    destruct (decide (j ∈ l /\ Some j <> k_cur s)) as [D|D].
    + rewrite decide_True; [done|]. split; [ielem|apply D].
    + rewrite decide_False; [done|]. intros [[->|H]%elem_of_cons Hc]; [done|]. by apply D.
Qed.

Lemma wake_proc_run ch i s : (Some i <> k_cur s -> L_proc i ∉ k_held s) ->
  wake_proc ch i s = Ok tt (wake_one ch i s).
Proof.
  intros Hl. unfold wake_proc, myproc, bind at 1, gets at 1. unfold wake_one.
  destruct (decide (Some i = k_cur s)) as [E|E]; [done|].
  run (acquire_ok (L_proc i) s (Hl E)). unfold bind at 1, gets at 1.
  change (k_procs (k_set_held (L_proc i :: k_held s) s) i) with (k_procs s i).
  case_decide as D; unfold bind, modify, ret; rewrite (release_head (L_proc i) (k_held s)) by done; by destruct s.
Qed.

Lemma wake_all_run ch l : forall s, (forall i, i ∈ l -> Some i <> k_cur s -> L_proc i ∉ k_held s) ->
  for_each l (wake_proc ch) s = Ok tt (wake_all ch l s).
Proof.
  induction l as [|i l IH]; intros s Hl; [done|]. cbn [for_each].
  run (wake_proc_run ch i s (Hl i ltac:(ielem))). destruct (only_procs_keeps _ _ (wake_one_frame ch i s)) as [Ec Eh].
  apply IH. rewrite Ec, Eh. intros j Hj. apply Hl. ielem.
Qed.

Lemma wakeup_ok ch s : (forall i, 0 <= i < NPROC -> Some i <> k_cur s -> L_proc i ∉ k_held s) ->
  wakeup ch s = Ok tt (woken ch s).
Proof. intros H. rewrite woken_eq. apply wake_all_run. intros i Hi%elem_of_seqZ. apply H. lia. Qed.

Lemma drop_lock_id lk h : lk ∉ h -> drop_lock lk h = h.
Proof.
  induction h as [|a h IH]; intros Hn; [done|]. apply not_elem_of_cons in Hn as [Ha Hn]. cbn.
  by rewrite decide_False, IH by done.
Qed.

(** Leaving the CPU with the state [sleep] prepares, and coming back. *)
Definition asleep (i : Z) (ch : chan) (s : kstate) : kstate :=
  upd_proc i (p_set_state SLEEPING) (upd_proc i (p_set_chan ch) (k_set_held [L_proc i] s)).

Section SchedLemmas.
Context {ENV : Env}.

Lemma curproc_run i s : k_cur s = Some i -> curproc s = Ok i s.
Proof. intros E. unfold curproc, myproc, bind, gets. by rewrite E. Qed.

Lemma sleep_run i ch lk s : k_cur s = Some i -> k_held s = [lk] -> lk <> L_proc i ->
  k_held (others i (asleep i ch s)) = [L_proc i] ->
  sleep ch lk s = Ok tt (k_set_held [lk] (upd_proc i (p_set_chan NoChan) (others i (asleep i ch s)))).
Proof.
  intros Hc Hh Hne Ho. unfold sleep. run (curproc_run i s Hc).
  assert (L_proc i ∉ k_held s) as Hn by (rewrite Hh; intros E%list_elem_of_singleton; congruence).
  run (acquire_ok (L_proc i) s Hn).
  assert (release lk (k_set_held (L_proc i :: k_held s) s) = Ok tt (k_set_held [L_proc i] s)) as Hr.
  { unfold release. rewrite holds_true by (cbn; rewrite Hh; ielem). cbn. rewrite Hh, decide_False by congruence.
    by rewrite drop_lock_head. }
  run Hr. unfold bind at 1 2, modify at 1 2. fold (asleep i ch s).
  assert (sched (asleep i ch s) = Ok tt (others i (asleep i ch s))) as Hs.
  { unfold sched. run (curproc_run i (asleep i ch s) Hc). unfold bind at 1, get at 1.
    rewrite holds_true by (cbn; ielem). change (negb (Z.of_nat (length (k_held (asleep i ch s))) =? 1)) with false.
    cbn [negb]. rewrite decide_False; [done|]. unfold asleep, upd_proc. cbn. rewrite !fupd_eq. done. }
  run Hs. unfold bind at 1, modify at 1.
  set (s4 := upd_proc i (p_set_chan NoChan) (others i (asleep i ch s))).
  assert (k_held s4 = [L_proc i]) as Hh4 by done. run (release_head (L_proc i) [] s4 Hh4).
  rewrite acquire_ok by (cbn; intros ?%not_elem_of_nil; done). by destruct s4.
Qed.

Lemma killed_run i k s : L_proc i ∉ k_held s -> p_killed (k_procs s i) = k -> killed i s = Ok k s.
Proof.
  intros Hn <-. unfold killed. rewrite (bind_ok _ _ _ _ _ (acquire_ok (L_proc i) s Hn)).
  erewrite bind_ok; [|reflexivity]. erewrite bind_ok; [|by apply (release_head (L_proc i) (k_held s))]. by destruct s.
Qed.

Lemma setkilled_run i s : L_proc i ∉ k_held s -> setkilled i s = Ok tt (upd_proc i (p_set_killed 1) s).
Proof.
  intros Hn. unfold setkilled. rewrite (bind_ok _ _ _ _ _ (acquire_ok (L_proc i) s Hn)).
  erewrite bind_ok by reflexivity. rewrite (release_head (L_proc i) (k_held s)) by done. by destruct s.
Qed.

End SchedLemmas.
