(* ===== verification/Virtio.v ===== *)
(** * kernel/virtio_disk.c

    The driver of the virtio disk.  A request is a chain of three descriptors
    (command, data, status) whose head goes into the available ring; the device
    answers in the used ring and interrupts.  The device itself is not kernel
    code: what it does happens while the driver sleeps, in [others]. *)

From S2P Require Import Prelude Riscv Mem KState Sched.

(** ** virtio.h *)

Definition NUM : Z := 8.
Definition VIRTIO_MMIO_QUEUE_NOTIFY : Z := 0x050.
Definition VIRTIO_MMIO_INTERRUPT_STATUS : Z := 0x060.
Definition VIRTIO_MMIO_INTERRUPT_ACK : Z := 0x064.
Definition VRING_DESC_F_NEXT : Z := 1.
Definition VRING_DESC_F_WRITE : Z := 2.
Definition VIRTIO_BLK_T_IN : Z := 0.
Definition VIRTIO_BLK_T_OUT : Z := 1.

(** [disk.free[i]], [disk.desc[i]] and so on, updated in place. *)
Definition on_vdisk (f : vdisk -> vdisk) (s : kstate) : kstate := k_set_vdisk (f (k_vdisk s)) s.
Definition set_desc (i : Z) (d : vdesc) : K unit :=
  modify (on_vdisk (fun x => vd_set_desc (fupd (vd_desc x) i d) x)).
Definition set_free (i : Z) (v : bool) : K unit :=
  modify (on_vdisk (fun x => vd_set_free (fupd (vd_free x) i v) x)).
Definition set_info_b (i : Z) (b : option Z) : K unit :=
  modify (on_vdisk (fun x => vd_set_info_b (fupd (vd_info_b x) i b) x)).
Definition vget {A} (f : vdisk -> A) : K A := gets (fun s => f (k_vdisk s)).

Section Virtio.
Context {ENV : Env}.

(** [*R(r)] and [*R(r) = v]: the control registers are 32 bits wide. *)
Definition rread (r : Z) : K Z := fun s => let '(v, s) := mmio_read (VIRTIO0 + r) s in Ok (u32 v) s.
Definition rwrite (r v : Z) : K unit := modify (mmio_write (VIRTIO0 + r) (u32 v)).

Definition alloc_desc : K Z :=
  r <- for_find (seqZ 0 NUM) (fun i =>
    f <- vget (fun x => vd_free x i) ;;
    if f then set_free i false ;; ret (Some i) else ret None) ;;
  ret (default (-1) r).

Definition free_desc (i : Z) : K unit :=
  if i >=? NUM then panic "free_desc 1" else
  f <- vget (fun x => vd_free x i) ;;
  if f then panic "free_desc 2" else
  set_desc i (mkDesc A_null 0 0 0) ;;
  set_free i true ;;
  wakeup ChDisk.

(** One round of [free_chain]. *)
Definition free_next (i : Z) : K (Z + unit) :=
  d <- vget (fun x => vd_desc x i) ;;
  free_desc i ;;
  if has (d_flags d) VRING_DESC_F_NEXT then ret (inl (d_next d)) else ret (inr tt).

(** Every round frees a descriptor that was in use, so there are at most [NUM]. *)
Definition free_chain (i : Z) : K unit := iter (S (Z.to_nat NUM)) free_next i.

(** The loop of [alloc3_desc]; [got] holds [idx[0..i-1]]. *)
Fixpoint alloc_descs (n : nat) (got : list Z) : K (option (list Z)) :=
  match n with
  | O => ret (Some got)
  | S n =>
      i <- alloc_desc ;;
      if i <? 0 then for_each got free_desc ;; ret None
      else alloc_descs n (got ++ [i])
  end.

Definition alloc3_desc : K (option (list Z)) := alloc_descs 3 [].

(** The three descriptors of a request for buffer [b]. *)
Definition format_request (d0 d1 d2 b sector : Z) (write : bool) : K unit :=
  modify (on_vdisk (fun x => vd_set_ops (fupd (vd_ops x) d0
    (mkReq (if write then VIRTIO_BLK_T_OUT else VIRTIO_BLK_T_IN) 0 sector)) x)) ;;
  set_desc d0 (mkDesc (A_op d0) 16 VRING_DESC_F_NEXT d1) ;;
  set_desc d1 (mkDesc (A_data b) BSIZE
    (Z.lor (if write then 0 else VRING_DESC_F_WRITE) VRING_DESC_F_NEXT) d2) ;;
  modify (on_vdisk (fun x => vd_set_status (fupd (vd_status x) d0 0xff) x)) ;;
  set_desc d2 (mkDesc (A_status d0) 1 VRING_DESC_F_WRITE 0).

(** The head of the chain goes into the available ring; the write to the
    notify register tells the device to look. *)
Definition submit_request (d0 b : Z) : K unit :=
  modify (upd_buf b (b_set_disk true)) ;;
  set_info_b d0 (Some b) ;;
  modify (on_vdisk (fun x => vd_set_avail (fupd (vd_avail x) (vd_avail_idx x mod NUM) d0) x)) ;;
  modify (on_vdisk (fun x => vd_set_avail_idx ((vd_avail_idx x + 1) mod 0x10000) x)) ;;
  rwrite VIRTIO_MMIO_QUEUE_NOTIFY 0.

(** The bodies of the two waiting loops of [virtio_disk_rw]. *)
Definition alloc_wait (_ : unit) : K (unit + list Z) :=
  r <- alloc3_desc ;;
  match r with
  | Some l => ret (inr l)
  | None => sleep ChDisk L_vdisk ;; ret (inl tt)
  end.

Definition done_wait (b : Z) (_ : unit) : K (unit + unit) :=
  d <- gets (fun s => b_disk (k_bufs s b)) ;;
  if d then sleep (ChBuf b) L_vdisk ;; ret (inl tt) else ret (inr tt).

Definition virtio_disk_rw (b : Z) (write : bool) : K unit :=
  blockno <- gets (fun s => b_blockno (k_bufs s b)) ;;
  let sector := u32 (blockno * (BSIZE / 512)) in
  acquire L_vdisk ;;
  idx <- iter (S patience) alloc_wait tt ;;
  match idx with
  | [d0; d1; d2] =>
      format_request d0 d1 d2 b sector write ;;
      submit_request d0 b ;;
      iter (S patience) (done_wait b) tt ;;
      set_info_b d0 None ;;
      free_chain d0 ;;
      release L_vdisk
  | _ => undef "alloc3_desc returns three descriptors"
  end.

(** One round of the handler's loop: the next entry of the used ring. *)
Definition intr_one (_ : unit) : K (unit + unit) :=
  x <- vget (fun x => x) ;;
  if vd_used_idx x =? vd_uidx x then ret (inr tt) else
  let id := vd_used x (vd_used_idx x mod NUM) in
  if negb (vd_status x id =? 0) then panic "virtio_disk_intr status" else
  match vd_info_b x id with
  | None => undef "virtio_disk_intr: no buffer"
  | Some b =>
      modify (upd_buf b (b_set_disk false)) ;;
      wakeup (ChBuf b) ;;
      modify (on_vdisk (fun x => vd_set_used_idx ((vd_used_idx x + 1) mod 0x10000) x)) ;;
      ret (inl tt)
  end.

(** The 16-bit indices differ by the number of entries left. *)
Definition virtio_disk_intr : K unit :=
  acquire L_vdisk ;;
  st <- rread VIRTIO_MMIO_INTERRUPT_STATUS ;;
  rwrite VIRTIO_MMIO_INTERRUPT_ACK (Z.land st 3) ;;
  x <- vget (fun x => x) ;;
  iter (S (Z.to_nat ((vd_uidx x - vd_used_idx x) mod 0x10000))) intr_one tt ;;
  release L_vdisk.

End Virtio.
