(* ===== verification/DiskSpec.v ===== *)
(** * The disk driver does what it is asked (kernel/virtio_disk.c)

    [Disk] states what the driver relies on: accesses to the control registers
    change no kernel data, the device serves the request in the available
    ring as the virtio specification says, and while the
    requester sleeps the device finishes, the interrupt handler runs and the
    scheduler resumes the requester.  Under it, [virtio_disk_rw] moves exactly
    one block between the buffer and the disk. *)

From S2P Require Import Prelude Riscv Mem KState Sched Virtio.

(** The bytes of a block, put over old contents. *)
Definition block_of (new old : Z -> Z) : Z -> Z := fun i => if in_range 0 BSIZE i then new i else old i.

(** A request for buffer [b]: its chain is the next one in the available ring. *)
Record request (x : vdisk) (d0 d1 d2 b sector : Z) (write : bool) : Prop := {
  rq_pending : vd_avail_idx x = (vd_uidx x + 1) mod 0x10000;
  rq_head : vd_avail x (vd_uidx x mod NUM) = d0;
  rq_op : vd_ops x d0 = mkReq (if write then VIRTIO_BLK_T_OUT else VIRTIO_BLK_T_IN) 0 sector;
  rq_d0 : vd_desc x d0 = mkDesc (A_op d0) 16 VRING_DESC_F_NEXT d1;
  rq_d1 : vd_desc x d1 = mkDesc (A_data b) BSIZE
            (Z.lor (if write then 0 else VRING_DESC_F_WRITE) VRING_DESC_F_NEXT) d2;
  rq_d2 : vd_desc x d2 = mkDesc (A_status d0) 1 VRING_DESC_F_WRITE 0
}.

(** The device moves the block (two sectors), sets the status byte to 0 and
    puts the head of the chain into the used ring. *)
Definition moved (b block : Z) (write : bool) (s : kstate) : kstate :=
  if write then
    k_set_past (k_disk s :: k_past s)
      (k_set_disk (fupd (k_disk s) block (block_of (b_data (k_bufs s b)) (k_disk s block))) s)
  else upd_buf b (fun x => b_set_data (block_of (k_disk s block) (b_data x)) x) s.

Definition answered (d0 : Z) (x : vdisk) : vdisk :=
  vd_set_status (fupd (vd_status x) d0 0)
    (vd_set_used (fupd (vd_used x) (vd_uidx x mod NUM) d0)
      (vd_set_uidx ((vd_uidx x + 1) mod 0x10000) x)).

Definition served (d0 b sector : Z) (write : bool) (s : kstate) : kstate :=
  on_vdisk (answered d0) (moved b (sector / (BSIZE / 512)) write s).

Class Disk {ENV : Env} : Type := {
  device : kstate -> kstate;
  disk_read_reg : forall r s, exists v, mmio_read (VIRTIO0 + r) s = (v, s);
  disk_write_reg : forall r v s, mmio_write (VIRTIO0 + r) v s = s;
  device_serves : forall s d0 d1 d2 b sector write,
    request (k_vdisk s) d0 d1 d2 b sector write -> device s = served d0 b sector write s;
  disk_wakes : forall i b s,
    k_cur s = Some i -> k_held s = [L_proc i] ->
    p_state (k_procs s i) = SLEEPING -> p_chan (k_procs s i) = ChBuf b ->
    b_disk (k_bufs s b) = true -> vd_avail_idx (k_vdisk s) <> vd_uidx (k_vdisk s) ->
    forall s1, virtio_disk_intr (k_set_cur None (k_set_held [] (device s))) = Ok tt s1 ->
    p_state (k_procs s1 i) = RUNNABLE ->
    others i s = k_set_cur (Some i) (k_set_held [L_proc i] (upd_proc i (p_set_state RUNNING) s1));
  disk_patience : (1 <= patience)%nat
}.

(** ** Idle driver, running process *)

Record vidle (x : vdisk) : Prop := {
  vi_free : forall i, 0 <= i < NUM -> vd_free x i = true;
  vi_range : 0 <= vd_uidx x < 0x10000;
  vi_used : vd_used_idx x = vd_uidx x;
  vi_avail : vd_avail_idx x = vd_uidx x
}.

Record running (i : Z) (s : kstate) : Prop := {
  rn_cur : k_cur s = Some i;
  rn_range : 0 <= i < NPROC;
  rn_state : p_state (k_procs s i) = RUNNING
}.

(** Apart from the buffers, the disk, the driver and the sleep locks, only the
    state and the channel of processes change. *)
Definition proc_keep (p p' : proc) : Prop := p' = p_set_state (p_state p') (p_set_chan (p_chan p') p).

Record io_frame (s s' : kstate) : Prop := {
  io_rest : k_set_procs (k_procs s) (k_set_sleeplocks (k_sleeplocks s) (k_set_bufs (k_bufs s)
    (k_set_disk (k_disk s) (k_set_past (k_past s) (k_set_vdisk (k_vdisk s) s'))))) = s;
  io_procs : forall j, proc_keep (k_procs s j) (k_procs s' j)
}.

Lemma proc_keep_refl p : proc_keep p p.
Proof. by destruct p. Qed.

Lemma proc_keep_trans p q r : proc_keep p q -> proc_keep q r -> proc_keep p r.
Proof. unfold proc_keep. intros -> ->. by destruct p. Qed.

Lemma proc_keep_pid p p' : proc_keep p p' -> p_pid p' = p_pid p.
Proof. intros ->. by destruct p. Qed.

Lemma io_frame_refl s : io_frame s s.
Proof. split; [by destruct s|intros j; apply proc_keep_refl]. Qed.

Lemma io_frame_trans s1 s2 s3 : io_frame s1 s2 -> io_frame s2 s3 -> io_frame s1 s3.
Proof.
  intros [A1 B1] [A2 B2]. split; [rewrite <- A1, <- A2; by destruct s3|].
  intros j. by eapply proc_keep_trans.
Qed.

Lemma io_frame_held s s' : io_frame s s' -> k_held s' = k_held s.
Proof. intros [A _]. by rewrite <- A. Qed.

Lemma io_frame_log s s' : io_frame s s' -> k_log s' = k_log s.
Proof. intros [A _]. by rewrite <- A. Qed.

Lemma io_frame_cur s s' : io_frame s s' -> k_cur s' = k_cur s.
Proof. intros [A _]. by rewrite <- A. Qed.

Lemma io_frame_set_held h s s' : io_frame s s' -> io_frame (k_set_held h s) (k_set_held h s').
Proof. intros [E P]. split; [|exact P]. exact (f_equal (k_set_held h) E). Qed.

Lemma io_frame_vdisk f s : io_frame s (on_vdisk f s).
Proof. split; [by destruct s|intros j; apply proc_keep_refl]. Qed.

(** Waking processes. *)
Lemma wakes_keep ch p : proc_keep p (wakes ch p).
Proof. unfold wakes. case_decide; [by destruct p|apply proc_keep_refl]. Qed.

Lemma woken_procs ch s j : k_procs (woken ch s) j =
  if decide (0 <= j < NPROC /\ Some j <> k_cur s) then wakes ch (k_procs s j) else k_procs s j.
Proof.
  rewrite woken_eq. unfold woken_def. rewrite wake_all_procs by apply NoDup_seqZ.
  apply decide_ext. rewrite elem_of_seqZ. split; intros [? ?]; (split; [lia|done]).
Qed.

Lemma woken_frame ch s : only_procs s (woken ch s).
Proof. rewrite woken_eq. apply wake_all_frame. Qed.

Lemma woken_io ch s : io_frame s (woken ch s).
Proof.
  split.
  - rewrite (only_procs_eq _ _ (woken_frame ch s)). by destruct s.
  - intros j. rewrite woken_procs. case_decide; [apply wakes_keep|apply proc_keep_refl].
Qed.

(** ** The driver's steps *)

Definition took (i : Z) (s : kstate) : kstate := on_vdisk (fun x => vd_set_free (fupd (vd_free x) i false) x) s.

Lemma alloc_desc_run (n : nat) s : (n < 8)%nat ->
  (forall j, 0 <= j < Z.of_nat n -> vd_free (k_vdisk s) j = false) ->
  vd_free (k_vdisk s) (Z.of_nat n) = true ->
  alloc_desc s = Ok (Z.of_nat n) (took (Z.of_nat n) s).
Proof.
  intros Hn Hused Hfree. unfold alloc_desc, bind at 1.
  rewrite (seqZ_split NUM (Z.of_nat n)) by (unfold NUM; lia). rewrite for_find_app.
  - cbn [for_find]. unfold vget, bind at 1 2, gets at 1. by rewrite Hfree.
  - intros j Hj%elem_of_seqZ. unfold vget, bind, gets. by rewrite Hused by lia.
Qed.

Lemma alloc3_run s : (forall i, 0 <= i < NUM -> vd_free (k_vdisk s) i = true) ->
  alloc3_desc s = Ok (Some [0; 1; 2]) (took 2 (took 1 (took 0 s))).
Proof.
  intros Hf. unfold NUM in Hf. unfold alloc3_desc. cbn [alloc_descs].
  assert (alloc_desc s = Ok 0 (took 0 s)) as E0 by (apply (alloc_desc_run 0); [lia|lia|by apply Hf]).
  run E0. cbn [app Z.ltb Z.compare].
  assert (alloc_desc (took 0 s) = Ok 1 (took 1 (took 0 s))) as E1.
  { apply (alloc_desc_run 1); [lia| |].
    - intros j Hj. assert (j = 0) as -> by lia. done.
    - cbn. rewrite fupd_ne by lia. apply Hf. lia. }
  run E1. cbn [app Z.ltb Z.compare].
  assert (alloc_desc (took 1 (took 0 s)) = Ok 2 (took 2 (took 1 (took 0 s)))) as E2.
  { apply (alloc_desc_run 2); [lia| |].
    - intros j Hj. assert (j = 0 \/ j = 1) as [->| ->] by lia; done.
    - cbn. rewrite !fupd_ne by lia. apply Hf. lia. }
  run E2. done.
Qed.

(** Between submission and completion. *)
Record waiting (s : kstate) (b sector : Z) (write : bool) (t : kstate) : Prop := {
  wt_request : request (k_vdisk t) 0 1 2 b sector write;
  wt_info : vd_info_b (k_vdisk t) 0 = Some b;
  wt_uidx : vd_uidx (k_vdisk t) = vd_uidx (k_vdisk s);
  wt_used : vd_used_idx (k_vdisk t) = vd_used_idx (k_vdisk s);
  wt_free : forall i, vd_free (k_vdisk t) i = if decide (0 <= i < 3) then false else vd_free (k_vdisk s) i;
  wt_bufs : forall j, k_bufs t j = if decide (j = b) then b_set_disk true (k_bufs s b) else k_bufs s j;
  wt_rest : k_set_vdisk (k_vdisk s) (k_set_bufs (k_bufs s) t) = s
}.

Section registers.
Context {ENV : Env} {DSK : Disk}.

Lemma rread_run r s : exists v, rread r s = Ok v s.
Proof. unfold rread. destruct (disk_read_reg r s) as [v ->]. eauto. Qed.

Lemma rwrite_run r v s : rwrite r v s = Ok tt s.
Proof. unfold rwrite, modify. by rewrite disk_write_reg. Qed.

Lemma request_run s b sector write : vidle (k_vdisk s) ->
  exists t, (format_request 0 1 2 b sector write ;; submit_request 0 b) (took 2 (took 1 (took 0 s))) = Ok tt t /\
    waiting s b sector write t.
Proof.
  intros [V1 V2 V3 V4]. eexists. split.
  { unfold submit_request, format_request, set_desc, set_info_b, bind, modify. rewrite rwrite_run. reflexivity. }
  split.
  - split; cbn; [by rewrite V4|by rewrite V4, fupd_eq|done..].
  - done.
  - done.
  - done.
  - intros i. cbn. rewrite !fupd_cases. case_decide as D; repeat case_decide; done || lia.
  - intros j. cbn. rewrite fupd_cases. by case_decide as D; subst.
  - by destruct s.
Qed.
End registers.

Lemma only_procs_vdisk s s' : only_procs s s' -> k_vdisk s' = k_vdisk s.
Proof. unfold only_procs. intros <-. done. Qed.

(** The device and the interrupt handler. *)
Definition completed (b sector : Z) (write : bool) (t : kstate) : kstate :=
  on_vdisk (fun x => vd_set_used_idx ((vd_used_idx x + 1) mod 0x10000) x)
    (woken (ChBuf b) (upd_buf b (b_set_disk false) (served 0 b sector write t))).

Lemma served_vdisk b sector write t : k_vdisk (served 0 b sector write t) = answered 0 (k_vdisk t).
Proof. by destruct write. Qed.

Lemma completed_vdisk b sector write t : k_vdisk (completed b sector write t) =
  vd_set_used_idx ((vd_used_idx (k_vdisk t) + 1) mod 0x10000) (answered 0 (k_vdisk t)).
Proof.
  unfold completed, on_vdisk. cbn [k_vdisk k_set_vdisk]. rewrite (only_procs_vdisk _ _ (woken_frame _ _)).
  change (k_vdisk (upd_buf b _ (served 0 b sector write t))) with (k_vdisk (served 0 b sector write t)).
  by rewrite served_vdisk.
Qed.

Lemma completed_held b sector write t : k_held (completed b sector write t) = k_held t.
Proof.
  unfold completed, on_vdisk. cbn [k_held k_set_vdisk]. rewrite (proj2 (only_procs_keeps _ _ (woken_frame _ _))).
  by destruct write.
Qed.

Lemma vget_run {A} (f : vdisk -> A) s : vget f s = Ok (f (k_vdisk s)) s.
Proof. done. Qed.

Lemma modify_run (f : kstate -> kstate) s : modify f s = Ok tt (f s).
Proof. done. Qed.

Section intr.
Context {ENV : Env} {DSK : Disk}.
Context (b sector : Z) (write : bool) (t : kstate).
Context (Hc : k_cur t = None) (Hh : k_held t = [L_vdisk]) (Hb : vd_info_b (k_vdisk t) 0 = Some b).
Context (Hr : 0 <= vd_uidx (k_vdisk t) < 0x10000) (Hu : vd_used_idx (k_vdisk t) = vd_uidx (k_vdisk t)).

Lemma intr_serves : intr_one tt (served 0 b sector write t) = Ok (inl tt) (completed b sector write t).
Proof.
  unfold intr_one. run (vget_run (fun x => x) (served 0 b sector write t)). rewrite served_vdisk.
  unfold answered. cbn [vd_uidx vd_used_idx vd_used vd_status vd_info_b vd_set_status vd_set_used vd_set_uidx].
  rewrite Hu, (proj2 (Z.eqb_neq _ _)) by zlia. rewrite fupd_eq. change (fupd (vd_status (k_vdisk t)) 0 0 0) with 0.
  change (negb (0 =? 0)) with false. cbv iota zeta. rewrite Hb.
  run (modify_run (upd_buf b (b_set_disk false)) (served 0 b sector write t)).
  assert (k_held (upd_buf b (b_set_disk false) (served 0 b sector write t)) = [L_vdisk]) as Hh' by (destruct write; done).
  rewrite (bind_ok _ _ _ _ _ (wakeup_ok (ChBuf b) (upd_buf b (b_set_disk false) (served 0 b sector write t))
    ltac:(intros i Hi _; rewrite Hh'; by intros ?%list_elem_of_singleton))). done.
Qed.

Lemma intr_stops : intr_one tt (completed b sector write t) = Ok (inr tt) (completed b sector write t).
Proof.
  unfold intr_one. run (vget_run (fun x => x) (completed b sector write t)). rewrite completed_vdisk.
  unfold answered. cbn [vd_uidx vd_used_idx vd_set_used_idx vd_set_status vd_set_used vd_set_uidx]. by rewrite Hu, Z.eqb_refl.
Qed.

Lemma intr_run :
  virtio_disk_intr (k_set_held [] (served 0 b sector write t)) = Ok tt (k_set_held [] (completed b sector write t)).
Proof.
  unfold virtio_disk_intr.
  run (acquire_ok L_vdisk (k_set_held [] (served 0 b sector write t)) ltac:(apply not_elem_of_nil)).
  assert (k_set_held (L_vdisk :: k_held (k_set_held [] (served 0 b sector write t)))
    (k_set_held [] (served 0 b sector write t)) = served 0 b sector write t) as E.
  { clear Hc Hb Hr Hu. destruct t; cbn in Hh; subst; by destruct write. }
  rewrite E. clear E.
  destruct (rread_run VIRTIO_MMIO_INTERRUPT_STATUS (served 0 b sector write t)) as [v Hv]. run Hv.
  run (rwrite_run VIRTIO_MMIO_INTERRUPT_ACK (Z.land v 3) (served 0 b sector write t)).
  run (vget_run (fun x => x) (served 0 b sector write t)). rewrite served_vdisk.
  unfold answered. cbn [vd_uidx vd_used_idx vd_set_status vd_set_used vd_set_uidx].
  rewrite Hu. replace (((vd_uidx (k_vdisk t) + 1) mod 0x10000 - vd_uidx (k_vdisk t)) mod 0x10000) with 1 by zlia.
  change (S (Z.to_nat 1)) with 2%nat.
  assert (iter 2 intr_one tt (served 0 b sector write t) = Ok tt (completed b sector write t)) as Hit.
  { cbn [iter]. run intr_serves. run intr_stops. done. }
  run Hit. apply release_head. by rewrite completed_held.
Qed.

End intr.

(** What a finished request has done to disk and buffers. *)
Record transferred (b block : Z) (write : bool) (s s' : kstate) : Prop := {
  tr_disk : k_disk s' = if write
    then fupd (k_disk s) block (block_of (b_data (k_bufs s b)) (k_disk s block)) else k_disk s;
  tr_past : k_past s' = if write then k_disk s :: k_past s else k_past s;
  tr_other : forall j, j <> b -> k_bufs s' j = k_bufs s j;
  tr_buf : k_bufs s' b = b_set_disk false
    (if write then k_bufs s b
     else b_set_data (block_of (k_disk s block) (b_data (k_bufs s b))) (k_bufs s b));
  tr_sleep : k_sleeplocks s' = k_sleeplocks s
}.

Lemma only_procs_io s s' : only_procs s s' -> (forall j, proc_keep (k_procs s j) (k_procs s' j)) -> io_frame s s'.
Proof. unfold only_procs. intros E H. split; [|done]. rewrite <- E at 6. rewrite <- E. by destruct s'. Qed.

Lemma served_idle b sector write h s : k_set_cur None (k_set_held [] (served 0 b sector write s)) =
  k_set_held [] (served 0 b sector write (k_set_cur None (k_set_held h s))).
Proof. by destruct write, s. Qed.

Section transfer.
Context {ENV : Env} {DSK : Disk}.
Context (i b sector : Z) (write : bool) (t : kstate).
Context (Hrun : running i t) (Hh : k_held t = [L_vdisk]) (Hrq : request (k_vdisk t) 0 1 2 b sector write).
Context (Hb : vd_info_b (k_vdisk t) 0 = Some b) (Hd : b_disk (k_bufs t b) = true).
Context (Hr : 0 <= vd_uidx (k_vdisk t) < 0x10000) (Hu : vd_used_idx (k_vdisk t) = vd_uidx (k_vdisk t)).

Let y := k_set_cur None (k_set_held [L_vdisk] (asleep i (ChBuf b) t)).
Let z := completed b sector write y.

(** The fields of the state the handler leaves. *)
Lemma handler_state :
  transferred b (sector / (BSIZE / 512)) write t z /\
  k_set_procs (k_procs t) (k_set_bufs (k_bufs t) (k_set_disk (k_disk t) (k_set_past (k_past t)
    (k_set_vdisk (k_vdisk t) (k_set_cur (k_cur t) z))))) = t /\
  (forall j, j <> i -> proc_keep (k_procs t j) (k_procs z j)) /\
  k_procs z i = p_set_state RUNNABLE (p_set_chan (ChBuf b) (k_procs t i)).
Proof.
  unfold z, completed. set (u := upd_buf b (b_set_disk false) (served 0 b sector write y)).
  pose proof (only_procs_eq _ _ (woken_frame (ChBuf b) u)) as Hw. pose proof (woken_procs (ChBuf b) u) as Hp.
  revert Hw Hp. generalize (woken (ChBuf b) u). intros w Hw. rewrite Hw. clear Hw.
  generalize (k_procs w). intros pw Hp. cbn [k_procs k_set_procs] in Hp.
  assert (k_cur u = None) as Huc by (unfold u; by destruct write).
  assert (forall j, k_procs u j = if decide (j = i) then p_set_state SLEEPING (p_set_chan (ChBuf b) (k_procs t i)) else k_procs t j) as Huj.
  { intros j. assert (k_procs u = k_procs (asleep i (ChBuf b) t)) as -> by (unfold u; by destruct write).
    unfold asleep, upd_proc. cbn. destruct (decide (j = i)) as [->|D]; [by rewrite !fupd_eq|by rewrite !fupd_ne]. }
  rewrite Huc in Hp. split; [|split; [|split]].
  - split; unfold u, served, moved, y; destruct write; cbn; try done.
    + intros j Hj. by rewrite fupd_ne.
    + intros j Hj. by rewrite !fupd_ne.
    + by rewrite fupd_eq.
    + by rewrite !fupd_eq.
  - unfold u, served, moved, y. destruct t; cbn in Hh; subst. by destruct write.
  - intros j Hj. cbn. rewrite Hp, Huj, (decide_False (P := j = i)) by done. case_decide; [apply wakes_keep|apply proc_keep_refl].
  - cbn. rewrite Hp, Huj. pose proof (rn_range _ _ Hrun). rewrite !decide_True by done. unfold wakes. by rewrite decide_True.
Qed.

Lemma wait_run : exists w, sleep (ChBuf b) L_vdisk t = Ok tt w /\
  transferred b (sector / (BSIZE / 512)) write t w /\ io_frame t w /\ running i w /\
  k_vdisk w = vd_set_used_idx ((vd_used_idx (k_vdisk t) + 1) mod 0x10000) (answered 0 (k_vdisk t)).
Proof.
  pose proof Hrun as [Hc Hi Hs].
  assert (device (asleep i (ChBuf b) t) = served 0 b sector write (asleep i (ChBuf b) t)) as Hdev by (by eapply device_serves).
  assert (virtio_disk_intr (k_set_cur None (k_set_held [] (device (asleep i (ChBuf b) t)))) = Ok tt (k_set_held [] z)) as Hintr.
  { rewrite Hdev. assert (k_set_cur None (k_set_held [] (served 0 b sector write (asleep i (ChBuf b) t))) =
      k_set_held [] (served 0 b sector write y)) as -> by apply served_idle.
    by apply intr_run. }
  destruct handler_state as (HT & HF & HP & HPi).
  assert (others i (asleep i (ChBuf b) t) =
    k_set_cur (Some i) (k_set_held [L_proc i] (upd_proc i (p_set_state RUNNING) (k_set_held [] z)))) as Hoth.
  { apply (disk_wakes i b); [done|done| | |done| |done|].
    - unfold asleep, upd_proc. cbn. by rewrite fupd_eq.
    - unfold asleep, upd_proc. cbn. by rewrite !fupd_eq.
    - change (k_vdisk (asleep i (ChBuf b) t)) with (k_vdisk t). rewrite (rq_pending _ _ _ _ _ _ _ Hrq). zlia.
    - change (k_procs (k_set_held [] z) i) with (k_procs z i). by rewrite HPi. }
  eexists. split; [apply (sleep_run i); [done|done|done|]; by rewrite Hoth|]. rewrite Hoth.
  pose proof (completed_vdisk b sector write y) as HV. fold z in HV. change (k_vdisk y) with (k_vdisk t) in HV.
  split; [|split; [|split]].
  - destruct HT as [T1 T2 T3 T4 T5]. by split.
  - split; [|].
    + pose proof (tr_sleep _ _ _ _ _ HT) as HS. clear -HF HS Hc Hh. revert HF HS. generalize z. clear y z.
      intros [] HF HS. destruct t. kcbv_in Hc. kcbv_in Hh. kcbv_in HS. kcbv_in HF.
      unfold upd_proc. kcbv. injection HF; intros. subst. reflexivity.
    + intros j. cbn. rewrite !fupd_cases. destruct (decide (j = i)) as [->|D]; [|by apply HP].
      rewrite decide_True by done. unfold z in HPi. cbn in HPi. rewrite HPi. by destruct (k_procs t i).
  - split; [done|done|]. cbn. rewrite !fupd_eq. done.
  - exact HV.
Qed.

End transfer.

(** ** Freeing the descriptors *)

Definition freed (i : Z) (s : kstate) : kstate :=
  woken ChDisk (on_vdisk (fun x => vd_set_free (fupd (vd_free x) i true)
    (vd_set_desc (fupd (vd_desc x) i (mkDesc A_null 0 0 0)) x)) s).

Lemma freed_vdisk i s : k_vdisk (freed i s) =
  vd_set_free (fupd (vd_free (k_vdisk s)) i true)
    (vd_set_desc (fupd (vd_desc (k_vdisk s)) i (mkDesc A_null 0 0 0)) (k_vdisk s)).
Proof. unfold freed. by rewrite (only_procs_vdisk _ _ (woken_frame _ _)). Qed.

Lemma freed_held i s : k_held (freed i s) = k_held s.
Proof. unfold freed. by rewrite (proj2 (only_procs_keeps _ _ (woken_frame _ _))). Qed.

Lemma freed_io i s : io_frame s (freed i s).
Proof.
  unfold freed. eapply io_frame_trans; [|apply woken_io]. split; [by destruct s|intros j; apply proc_keep_refl].
Qed.

(** Other components, and the process that runs, do not change. *)
Lemma freed_rest i s : k_set_procs (k_procs s) (k_set_vdisk (k_vdisk s) (freed i s)) = s.
Proof. unfold freed. rewrite (only_procs_eq _ _ (woken_frame _ _)). by destruct s. Qed.

Lemma freed_running i j s : running j s -> running j (freed i s).
Proof.
  intros [H1 H2 H3]. unfold freed. split; [|done|].
  - by rewrite (proj1 (only_procs_keeps _ _ (woken_frame _ _))).
  - rewrite woken_procs. rewrite decide_False; [done|]. intros [_ H]. apply H. by rewrite <- H1.
Qed.

Lemma free_desc_run i s : 0 <= i < NUM -> k_held s = [L_vdisk] -> vd_free (k_vdisk s) i = false ->
  free_desc i s = Ok tt (freed i s).
Proof.
  intros Hi Hh Hf. unfold free_desc. rewrite Z.geb_leb, (proj2 (Z.leb_gt _ _)) by lia.
  run (vget_run (fun x => vd_free x i) s). rewrite Hf.
  run (modify_run (on_vdisk (fun x => vd_set_desc (fupd (vd_desc x) i (mkDesc A_null 0 0 0)) x)) s).
  run (modify_run (on_vdisk (fun x => vd_set_free (fupd (vd_free x) i true) x))
    (on_vdisk (fun x => vd_set_desc (fupd (vd_desc x) i (mkDesc A_null 0 0 0)) x) s)).
  rewrite wakeup_ok; [done|]. intros j _ _. cbn. rewrite Hh. by intros ?%list_elem_of_singleton.
Qed.

Lemma free_next_run i s : 0 <= i < NUM -> k_held s = [L_vdisk] -> vd_free (k_vdisk s) i = false ->
  free_next i s = Ok (if has (d_flags (vd_desc (k_vdisk s) i)) VRING_DESC_F_NEXT
                      then inl (d_next (vd_desc (k_vdisk s) i)) else inr tt) (freed i s).
Proof.
  intros Hi Hh Hf. unfold free_next. run (vget_run (fun x => vd_desc x i) s). run (free_desc_run i s Hi Hh Hf).
  by destruct (has _ _).
Qed.

Lemma freed_other i j s : j <> i ->
  vd_desc (k_vdisk (freed i s)) j = vd_desc (k_vdisk s) j /\ vd_free (k_vdisk (freed i s)) j = vd_free (k_vdisk s) j.
Proof. intros H. rewrite freed_vdisk. cbn. by rewrite !fupd_ne. Qed.

(** The chain of a request. *)
Lemma free_chain_run x b sector write s : k_held s = [L_vdisk] ->
  request x 0 1 2 b sector write -> vd_desc (k_vdisk s) = vd_desc x ->
  (forall i, 0 <= i < 3 -> vd_free (k_vdisk s) i = false) ->
  free_chain 0 s = Ok tt (freed 2 (freed 1 (freed 0 s))).
Proof.
  intros Hh [_ _ _ D0 D1 D2] E Hf. rewrite <- E in D0, D1, D2. unfold free_chain. change (S (Z.to_nat NUM)) with 9%nat.
  destruct (freed_other 0 1 s) as [A1 B1]; [done|]. destruct (freed_other 0 2 s) as [A2 B2]; [done|].
  destruct (freed_other 1 2 (freed 0 s)) as [A3 B3]; [done|].
  pose proof (free_next_run 0 s ltac:(by unfold NUM) Hh (Hf 0 ltac:(lia))) as E0. rewrite D0 in E0.
  rewrite (iter_next _ _ _ _ _ _ E0). clear E0.
  pose proof (free_next_run 1 (freed 0 s) ltac:(by unfold NUM) ltac:(by rewrite freed_held)
    ltac:(rewrite B1; apply Hf; lia)) as E1.
  rewrite A1, D1 in E1.
  assert (has (d_flags (mkDesc (A_data b) BSIZE (Z.lor (if write then 0 else VRING_DESC_F_WRITE) VRING_DESC_F_NEXT) 2))
    VRING_DESC_F_NEXT = true) as F1 by (by destruct write).
  rewrite F1 in E1. rewrite (iter_next _ _ _ _ _ _ E1). clear E1.
  pose proof (free_next_run 2 (freed 1 (freed 0 s)) ltac:(by unfold NUM) ltac:(by rewrite !freed_held)
    ltac:(rewrite B3, B2; apply Hf; lia)) as E2.
  rewrite A3, A2, D2 in E2. exact (iter_done _ _ _ _ _ _ E2).
Qed.

Lemma freed_bufs i s : k_bufs (freed i s) = k_bufs s /\ k_disk (freed i s) = k_disk s /\
  k_past (freed i s) = k_past s /\ k_sleeplocks (freed i s) = k_sleeplocks s.
Proof. pose proof (freed_rest i s) as E. rewrite <- E at 2 4 6 8. done. Qed.

Section driver.
Context {ENV : Env} {DSK : Disk}.

(** The state of a request on its way. *)
Lemma waiting_state i b sector write s t : running i s -> waiting s b sector write t ->
  running i t /\ k_held t = k_held s /\ k_disk t = k_disk s /\ k_past t = k_past s /\
  k_sleeplocks t = k_sleeplocks s /\ k_procs t = k_procs s.
Proof.
  intros [H1 H2 H3] [_ _ _ _ _ _ E]. revert H1 H3. rewrite <- E. cbn. intros H1 H3. split; [by split|done].
Qed.

Lemma waiting_io b sector write s t : waiting s b sector write t -> io_frame s t.
Proof.
  intros [_ _ _ _ _ _ E]. split.
  - rewrite <- E at 7. rewrite <- E. by destruct t.
  - intros j. rewrite <- E. apply proc_keep_refl.
Qed.

(** The two rounds of the loop that waits for the device. *)
Lemma done_wait_run i b sector write t :
  running i t -> k_held t = [L_vdisk] -> request (k_vdisk t) 0 1 2 b sector write ->
  vd_info_b (k_vdisk t) 0 = Some b -> b_disk (k_bufs t b) = true ->
  0 <= vd_uidx (k_vdisk t) < 0x10000 -> vd_used_idx (k_vdisk t) = vd_uidx (k_vdisk t) ->
  exists w, iter (S patience) (done_wait b) tt t = Ok tt w /\
    transferred b (sector / (BSIZE / 512)) write t w /\ io_frame t w /\ running i w /\
    k_vdisk w = vd_set_used_idx ((vd_used_idx (k_vdisk t) + 1) mod 0x10000) (answered 0 (k_vdisk t)).
Proof.
  intros Hrun Hh Hrq Hb Hd Hr Hu.
  destruct (wait_run i b sector write t Hrun Hh Hrq Hb Hd Hr Hu) as (w & Hw & HT & HF & HR & HV).
  exists w. split; [|done].
  assert (done_wait b tt t = Ok (inl tt) w) as E1.
  { unfold done_wait, bind at 1, gets at 1. rewrite Hd. by run Hw. }
  assert (done_wait b tt w = Ok (inr tt) w) as E2.
  { unfold done_wait, bind at 1, gets at 1. by rewrite (tr_buf _ _ _ _ _ HT). }
  rewrite (iter_next _ _ _ _ _ _ E1). pose proof disk_patience as Hp. destruct patience as [|n]; [lia|].
  exact (iter_done _ _ _ _ _ _ E2).
Qed.

(** The descriptors go back and the driver is idle again. *)
Lemma release_run i x b sector write s :
  running i s -> k_held s = [L_vdisk] -> request x 0 1 2 b sector write -> vd_desc (k_vdisk s) = vd_desc x ->
  (forall j, 0 <= j < NUM -> vd_free (k_vdisk s) j = if decide (0 <= j < 3) then false else true) ->
  0 <= vd_uidx (k_vdisk s) < 0x10000 -> vd_used_idx (k_vdisk s) = vd_uidx (k_vdisk s) ->
  vd_avail_idx (k_vdisk s) = vd_uidx (k_vdisk s) ->
  exists s', (set_info_b 0 None ;; free_chain 0 ;; release L_vdisk) s = Ok tt s' /\
    k_bufs s' = k_bufs s /\ k_disk s' = k_disk s /\ k_past s' = k_past s /\ k_sleeplocks s' = k_sleeplocks s /\
    io_frame (k_set_held [] s) s' /\ running i s' /\ vidle (k_vdisk s').
Proof.
  intros Hrun Hh Hrq Hdesc Hf Hr Hu Ha. unfold set_info_b.
  set (u := on_vdisk (fun x => vd_set_info_b (fupd (vd_info_b x) 0 None) x) s).
  run (modify_run (on_vdisk (fun x => vd_set_info_b (fupd (vd_info_b x) 0 None) x)) s). fold u.
  run (free_chain_run x b sector write u Hh Hrq Hdesc
    ltac:(intros j Hj; unfold u; cbn; rewrite Hf by (unfold NUM; lia); by rewrite decide_True)).
  set (w := freed 2 (freed 1 (freed 0 u))).
  assert (k_held w = [L_vdisk]) as Hw by (unfold w; by rewrite !freed_held).
  exists (k_set_held [] w). split; [by apply release_head|].
  assert (running i u) as Hru by (destruct Hrun; by split).
  assert (running i w) as [W1 W2 W3] by (unfold w; by repeat apply freed_running).
  assert (k_bufs w = k_bufs s /\ k_disk w = k_disk s /\ k_past w = k_past s /\ k_sleeplocks w = k_sleeplocks s) as (B1 & B2 & B3 & B4).
  { unfold w. destruct (freed_bufs 2 (freed 1 (freed 0 u))) as (-> & -> & -> & ->).
    destruct (freed_bufs 1 (freed 0 u)) as (-> & -> & -> & ->). by destruct (freed_bufs 0 u) as (-> & -> & -> & ->). }
  split; [done|]. split; [done|]. split; [done|]. split; [done|]. split; [|split].
  - apply io_frame_set_held. eapply io_frame_trans; [apply io_frame_vdisk|]. fold u.
    exact (io_frame_trans _ _ _ (freed_io 0 u) (io_frame_trans _ _ _ (freed_io 1 _) (freed_io 2 _))).
  - by split.
  - split; cbn [k_vdisk k_set_held]; unfold w; rewrite !freed_vdisk; cbn.
    + intros j Hj. rewrite !fupd_cases. repeat case_decide; try done. rewrite Hf by done. rewrite decide_False; [done|lia].
    + done.
    + done.
    + done.
Qed.

(** The whole request: one block moved, the driver idle again, and nothing
    else changed but the states of processes. *)
Lemma virtio_disk_rw_ok i b write s :
  running i s -> k_held s = [] -> vidle (k_vdisk s) -> 0 <= b_blockno (k_bufs s b) < 0x80000000 ->
  exists s', virtio_disk_rw b write s = Ok tt s' /\
    transferred b (b_blockno (k_bufs s b)) write s s' /\ io_frame s s' /\ running i s' /\ vidle (k_vdisk s').
Proof.
  intros Hrun Hh Hv Hbn. unfold virtio_disk_rw, bind at 1, gets at 1.
  set (sector := u32 (b_blockno (k_bufs s b) * (BSIZE / 512))).
  assert (sector / (BSIZE / 512) = b_blockno (k_bufs s b)) as Hsec.
  { unfold sector. change (BSIZE / 512) with 2. rewrite u32_small by lia. by rewrite Z.div_mul. }
  run (acquire_ok L_vdisk s ltac:(rewrite Hh; apply not_elem_of_nil)). rewrite Hh. set (s1 := k_set_held [L_vdisk] s).
  assert (alloc_wait tt s1 = Ok (inr [0; 1; 2]) (took 2 (took 1 (took 0 s1)))) as Ha.
  { unfold alloc_wait. run (alloc3_run s1 (vi_free _ Hv)). done. }
  run (iter_done patience _ _ _ _ _ Ha). cbv beta iota.
  destruct (request_run s1 b sector write Hv) as (t & Et & W). apply bind_inv in Et as ([] & s2 & E1 & E2).
  run E1. run E2. clear E1 E2 s2.
  destruct (waiting_state i b sector write s1 t) as (Rt & Ht & Dt & Pt & St & Prt); [by destruct Hrun|done|].
  pose proof W as [W1 W2 W3 W4 W5 W6 W7].
  destruct (done_wait_run i b sector write t Rt Ht W1 W2 ltac:(rewrite W6; by rewrite decide_True)) as (w & Ew & HT & HF & HR & HV).
  { rewrite W3. apply Hv. } { rewrite W3, W4. apply Hv. }
  run Ew. rewrite Hsec in HT.
  destruct (release_run i (k_vdisk t) b sector write w HR) as (s' & Es & B & D & P & S & F & R & V).
  { by rewrite (io_frame_held _ _ HF), Ht. } { done. } { by rewrite HV. }
  { intros j Hj. rewrite HV. cbn. rewrite W5. case_decide; [done|]. by apply (vi_free _ Hv). }
  { rewrite HV. cbn. zlia. } { rewrite HV. cbn. rewrite W4, W3. change (k_vdisk s1) with (k_vdisk s). by rewrite (vi_used _ Hv). }
  { rewrite HV. cbn. apply W1. }
  exists s'. split; [exact Es|]. split; [|split; [|done]].
  - destruct HT as [T1 T2 T3 T4 T5]. rewrite <- D in T1. rewrite <- P in T2. rewrite <- B in T3, T4. rewrite <- S in T5.
    split; [by rewrite T1, Dt, W6, decide_True by done; destruct write|by rewrite T2, Dt, Pt| | |by rewrite T5, St].
    + intros j Hj. rewrite T3, W6 by done. by rewrite decide_False.
    + rewrite T4, W6, decide_True, Dt by done. by destruct write.
  - assert (io_frame s1 w) as F1 by (eapply io_frame_trans; [by eapply waiting_io|done]).
    apply (io_frame_set_held []) in F1. eapply io_frame_trans; [|exact F].
    assert (k_set_held [] s1 = s) as E by (unfold s1; destruct s; cbn in Hh; by subst). rewrite E in F1. exact F1.
Qed.
End driver.
