(* ===== verification/Bio.v ===== *)
(** * kernel/bio.c

    The buffer cache: [NBUF] buffers on a doubly linked list through
    [prev]/[next], most recently used first; the list head is buffer number
    [NBUF]. *)

From S2P Require Import Prelude Riscv Mem KState Sched Virtio.

(** ** Definitions *)

Definition bhead : Z := NBUF.

Section Bio.
Context {ENV : Env}.

Definition set_next (i v : Z) : K unit := modify (upd_buf i (b_set_next v)).
Definition set_prev (i v : Z) : K unit := modify (upd_buf i (b_set_prev v)).
Definition buf_of (i : Z) : K buf := gets (fun s => k_bufs s i).

(** [b->next = head.next; b->prev = &head; head.next->prev = b; head.next = b;] *)
Definition binsert (b : Z) : K unit :=
  h <- buf_of bhead ;;
  set_next b (b_next h) ;;
  set_prev b bhead ;;
  h <- buf_of bhead ;;
  set_prev (b_next h) b ;;
  set_next bhead b.

(** [b->next->prev = b->prev; b->prev->next = b->next;] *)
Definition bremove (b : Z) : K unit :=
  x <- buf_of b ;;
  set_prev (b_next x) (b_prev x) ;;
  x <- buf_of b ;;
  set_next (b_prev x) (b_next x).

(** The loop body of [binit] initialises the sleep lock between the two
    halves of the insertion. *)
Definition binit : K unit :=
  initlock L_bcache ;;
  set_prev bhead bhead ;;
  set_next bhead bhead ;;
  for_each (seqZ 0 NBUF) (fun b =>
    h <- buf_of bhead ;;
    set_next b (b_next h) ;;
    set_prev b bhead ;;
    initsleeplock (SL_buf b) ;;
    h <- buf_of bhead ;;
    set_prev (b_next h) b ;;
    set_next bhead b).

(** The two searches of [bget]: forwards for the block, backwards for an
    unused buffer.  They visit each buffer at most once. *)
Definition cached_next (dev blockno b : Z) : K (Z + option Z) :=
  if b =? bhead then ret (inr None) else
  x <- buf_of b ;;
  if (b_dev x =? dev) && (b_blockno x =? blockno) then ret (inr (Some b))
  else ret (inl (b_next x)).

Definition bget_cached (dev blockno : Z) : K (option Z) :=
  h <- buf_of bhead ;;
  iter (S (Z.to_nat NBUF)) (cached_next dev blockno) (b_next h).

Definition unused_next (b : Z) : K (Z + option Z) :=
  if b =? bhead then ret (inr None) else
  x <- buf_of b ;;
  if b_refcnt x =? 0 then ret (inr (Some b)) else ret (inl (b_prev x)).

Definition bget_unused : K (option Z) :=
  h <- buf_of bhead ;;
  iter (S (Z.to_nat NBUF)) unused_next (b_prev h).

Definition bget (dev blockno : Z) : K Z :=
  acquire L_bcache ;;
  r <- bget_cached dev blockno ;;
  match r with
  | Some b =>
      modify (upd_buf b (fun x => b_set_refcnt (u32 (b_refcnt x + 1)) x)) ;;
      release L_bcache ;;
      acquiresleep (SL_buf b) ;;
      ret b
  | None =>
      r <- bget_unused ;;
      match r with
      | Some b =>
          modify (upd_buf b (b_set_dev dev)) ;;
          modify (upd_buf b (b_set_blockno blockno)) ;;
          modify (upd_buf b (b_set_valid false)) ;;
          modify (upd_buf b (b_set_refcnt 1)) ;;
          release L_bcache ;;
          acquiresleep (SL_buf b) ;;
          ret b
      | None => panic "bget: no buffers"
      end
  end.

Definition bread (dev blockno : Z) : K Z :=
  b <- bget dev blockno ;;
  x <- buf_of b ;;
  (if b_valid x then ret tt else
     virtio_disk_rw b false ;;
     modify (upd_buf b (b_set_valid true))) ;;
  ret b.

Definition bwrite (b : Z) : K unit :=
  h <- holdingsleep (SL_buf b) ;;
  if negb h then panic "bwrite" else virtio_disk_rw b true.

Definition brelse (b : Z) : K unit :=
  h <- holdingsleep (SL_buf b) ;;
  if negb h then panic "brelse" else
  releasesleep (SL_buf b) ;;
  acquire L_bcache ;;
  modify (upd_buf b (fun x => b_set_refcnt (u32 (b_refcnt x - 1)) x)) ;;
  x <- buf_of b ;;
  (if b_refcnt x =? 0 then
     bremove b ;;
     binsert b
   else ret tt) ;;
  release L_bcache.

Definition bpin (b : Z) : K unit :=
  acquire L_bcache ;;
  modify (upd_buf b (fun x => b_set_refcnt (u32 (b_refcnt x + 1)) x)) ;;
  release L_bcache.

Definition bunpin (b : Z) : K unit :=
  acquire L_bcache ;;
  modify (upd_buf b (fun x => b_set_refcnt (u32 (b_refcnt x - 1)) x)) ;;
  release L_bcache.

(** [memmove(b->data, (char* )pa, n)] and [memmove((char* )pa, b->data, n)]:
    [b->data] has [BSIZE] bytes, a longer copy leaves the array. *)
Definition data_from_mem (b pa n : Z) : K unit :=
  if n >? BSIZE then undef "memmove past the end of b->data" else
  s <- get ;;
  if negb (in_ram pa n) then undef "memmove outside RAM" else
  modify (upd_buf b (fun x => b_set_data
    (fun i => if in_range 0 n i then k_mem s (pa + i) else b_data x i) x)).

Definition data_to_mem (pa b n : Z) : K unit :=
  if n >? BSIZE then undef "memmove past the end of b->data" else
  s <- get ;;
  if negb (in_ram pa n) then undef "memmove outside RAM" else
  modify (fun s => k_set_mem
    (fun x => if in_range pa n x then b_data (k_bufs s b) (x - pa) else k_mem s x) s).

End Bio.
