(* ===== verification/BioSpec.v ===== *)
(** * The buffer cache (kernel/bio.c)

    The invariant of the cache: the buffers form one ring in LRU order, no two
    buffers hold the same block, and a buffer nobody references has the bytes
    of its disk block.  Under it, [bread] returns a locked buffer with the
    current contents of the block, [bwrite] makes them durable, and [brelse]
    moves an unreferenced buffer to the front of the ring. *)

From S2P Require Import Prelude Riscv Mem KState Sched Virtio DiskSpec Bio.

(** ** The ring *)

(** From node [x] along [next] through the nodes [l] to [z], and back along
    [prev]. *)
Fixpoint seg (f : Z -> buf) (x : Z) (l : list Z) (z : Z) : Prop :=
  match l with
  | [] => b_next (f x) = z /\ b_prev (f z) = x
  | y :: l => b_next (f x) = y /\ b_prev (f y) = x /\ seg f y l z
  end.

Definition ring (f : Z -> buf) (l : list Z) : Prop := seg f bhead l bhead.

Lemma seg_app f l1 : forall x y l2 z, seg f x (l1 ++ y :: l2) z <-> seg f x l1 y /\ seg f y l2 z.
Proof.
  induction l1 as [|w l1 IH]; intros x y l2 z; cbn [seg app]; [tauto|]. rewrite IH. tauto.
Qed.

Lemma seg_frame f g l : forall x z, seg f x l z ->
  (forall w, w ∈ x :: l -> b_next (g w) = b_next (f w)) ->
  (forall w, w ∈ l ++ [z] -> b_prev (g w) = b_prev (f w)) -> seg g x l z.
Proof.
  induction l as [|y l IH]; intros x z H Hn Hp; cbn [seg] in *.
  - rewrite Hn, Hp by set_solver. done.
  - destruct H as (H1 & H2 & H3). rewrite (Hn x), (Hp y) by set_solver. split; [done|]. split; [done|].
    apply IH; [done| |]; intros w Hw; [apply Hn|apply Hp]; set_solver.
Qed.

Lemma seg_first f x l z : seg f x l z -> b_next (f x) = hd z l.
Proof. destruct l; cbn; tauto. Qed.

Lemma seg_last f l : forall x z, seg f x l z -> b_prev (f z) = default x (last l).
Proof.
  induction l as [|y l _] using rev_ind; intros x z H; [apply H|].
  rewrite last_snoc. apply seg_app in H as [_ H]. apply H.
Qed.

(** Joining two parts of a ring after the node between them is removed. *)
Definition unlinked (f : Z -> buf) (b : Z) : Z -> buf :=
  let n := b_next (f b) in let p := b_prev (f b) in
  let g := fupd f n (b_set_prev p (f n)) in
  fupd g p (b_set_next n (g p)).

Lemma unlinked_next f b w : b_next (f b) <> b -> b_prev (f b) <> b ->
  b_next (unlinked f b w) = if decide (w = b_prev (f b)) then b_next (f b) else b_next (f w).
Proof. intros. unfold unlinked. rewrite !fupd_cases. repeat case_decide; subst; done || congruence. Qed.

Lemma unlinked_prev f b w :
  b_prev (unlinked f b w) = if decide (w = b_next (f b)) then b_prev (f b) else b_prev (f w).
Proof. unfold unlinked. rewrite !fupd_cases. repeat case_decide; subst; done || congruence. Qed.

Lemma ring_remove f l1 b l2 : NoDup (bhead :: l1 ++ b :: l2) ->
  ring f (l1 ++ b :: l2) -> ring (unlinked f b) (l1 ++ l2).
Proof.
  unfold ring. intros Hn H. apply seg_app in H as [H1 H2].
  pose proof (seg_last _ _ _ _ H1) as Ep. pose proof (seg_first _ _ _ _ H2) as En.
  apply NoDup_cons in Hn as [Hh Hn]. apply NoDup_app in Hn as (N1 & N12 & N2). apply NoDup_cons in N2 as [Nb N2].
  assert (b <> bhead) as Hbh by set_solver.
  assert (b_next (f b) <> b) as D1 by (rewrite En; destruct l2; cbn; set_solver).
  assert (b_prev (f b) <> b) as D2.
  { rewrite Ep. destruct l1 as [|y l1 _] using rev_ind; cbn; [done|]. rewrite last_snoc. cbn. set_solver. }
  destruct l1 as [|p l1 _] using rev_ind.
  - cbn in Ep. cbn [app]. destruct l2 as [|n l2]; cbn [hd seg] in *.
    + rewrite unlinked_next, unlinked_prev, Ep, En by done. by rewrite !decide_True.
    + rewrite unlinked_next, unlinked_prev, Ep, En by done. rewrite !decide_True by done. split; [done|]. split; [done|].
      destruct H2 as (_ & _ & H2). eapply seg_frame; [exact H2| |]; intros w Hw.
      * rewrite unlinked_next, Ep by done. rewrite decide_False; [done|]. set_solver.
      * rewrite unlinked_prev, En. rewrite decide_False; [done|]. apply NoDup_cons in N2 as [N2 _]. set_solver.
  - rewrite last_snoc in Ep. cbn in Ep. apply seg_app in H1 as [H1 Hpb]. rewrite <- app_assoc.
    assert (p <> bhead) as Hph by set_solver. apply NoDup_app in N1 as (N1 & N1p & _).
    assert (seg (unlinked f b) bhead l1 p) as S1.
    { eapply seg_frame; [exact H1| |]; intros w Hw.
      - rewrite unlinked_next, Ep by done. rewrite decide_False; [done|]. intros ->.
        apply elem_of_cons in Hw as [?|Hw]; [done|]. apply (N1p _ Hw). set_solver.
      - rewrite unlinked_prev, En. rewrite decide_False; [done|]. destruct l2 as [|n l2]; cbn; [set_solver|].
        intros ->. eapply (N12 n); [set_solver|]. set_solver. }
    destruct l2 as [|n l2]; cbn [hd app] in *.
    + apply seg_app. split; [done|]. cbn. rewrite unlinked_next, unlinked_prev, Ep, En by done. by rewrite !decide_True.
    + apply seg_app. split; [done|]. cbn. rewrite unlinked_next, unlinked_prev, Ep, En by done. rewrite !decide_True by done.
      split; [done|]. split; [done|]. destruct H2 as (_ & _ & H2). eapply seg_frame; [exact H2| |]; intros w Hw.
      * rewrite unlinked_next, Ep by done. rewrite decide_False; [done|]. intros ->. eapply (N12 p); set_solver.
      * rewrite unlinked_prev, En. rewrite decide_False; [done|]. apply NoDup_cons in N2 as [N2 _]. set_solver.
Qed.

(** Putting a node at the front. *)
Definition fronted (f : Z -> buf) (b : Z) : Z -> buf :=
  let n := b_next (f bhead) in
  let g := fupd f b (b_set_next n (f b)) in
  let g := fupd g b (b_set_prev bhead (g b)) in
  let h := fupd g n (b_set_prev b (g n)) in
  fupd h bhead (b_set_next b (h bhead)).

Lemma fronted_next f b w : b <> bhead -> b_next (fronted f b w) =
  if decide (w = bhead) then b else if decide (w = b) then b_next (f bhead) else b_next (f w).
Proof. intros. unfold fronted. rewrite !fupd_cases. repeat case_decide; subst; done || congruence. Qed.

Lemma fronted_prev f b w : b_next (f bhead) <> b -> b_prev (fronted f b w) =
  if decide (w = b_next (f bhead)) then b else if decide (w = b) then bhead else b_prev (f w).
Proof. intros. unfold fronted. rewrite !fupd_cases. repeat case_decide; subst; done || congruence. Qed.

Lemma ring_insert f b l : NoDup (bhead :: b :: l) -> ring f l -> ring (fronted f b) (b :: l).
Proof.
  unfold ring. intros Hn H. pose proof (seg_first _ _ _ _ H) as En.
  apply NoDup_cons in Hn as [Hh Hn]. apply NoDup_cons in Hn as [Hb Hn].
  assert (b <> bhead) as Hbh by set_solver.
  assert (b_next (f bhead) <> b) as D by (rewrite En; destruct l; cbn; set_solver).
  cbn [seg]. rewrite !fronted_next, !fronted_prev by done. rewrite En.
  rewrite (decide_True (P := bhead = bhead)), (decide_False (P := b = hd bhead l)) by (done || congruence).
  split; [done|]. split; [by rewrite decide_True|].
  destruct l as [|n l]; cbn [seg hd] in *.
  - rewrite fronted_next, fronted_prev by done. rewrite En. rewrite !decide_False, !decide_True by done. done.
  - rewrite fronted_next, fronted_prev by done. rewrite En. rewrite decide_False, !decide_True by done.
    split; [done|]. split; [done|]. destruct H as (_ & _ & H). eapply seg_frame; [exact H| |]; intros w Hw.
    + rewrite fronted_next by done. rewrite !decide_False by set_solver. done.
    + rewrite fronted_prev, En by done. apply NoDup_cons in Hn as [Hn _]. rewrite !decide_False by set_solver. done.
Qed.

(** ** The two searches *)

Definition is_block (f : Z -> buf) (dev n b : Z) : bool := (b_dev (f b) =? dev) && (b_blockno (f b) =? n).
Definition is_unused (f : Z -> buf) (b : Z) : bool := b_refcnt (f b) =? 0.

Lemma buf_of_run b s : buf_of b s = Ok (k_bufs s b) s.
Proof. done. Qed.

Lemma cached_next_run dev n s l : forall x fuel, bhead ∉ l -> seg (k_bufs s) x l bhead -> (length l < fuel)%nat ->
  iter fuel (cached_next dev n) (b_next (k_bufs s x)) s = Ok (find (is_block (k_bufs s) dev n) l) s.
Proof.
  induction l as [|y l IH]; intros x fuel Hh H Hf; (destruct fuel as [|fuel]; [cbn in Hf; lia|]); cbn [seg] in H.
  - destruct H as [-> _]. apply iter_done. unfold cached_next. by rewrite Z.eqb_refl.
  - destruct H as (-> & _ & H). cbn [find]. assert ((y =? bhead) = false) as Hy by (apply Z.eqb_neq; set_solver).
    destruct (is_block (k_bufs s) dev n y) eqn:E.
    + apply iter_done. unfold cached_next. rewrite Hy. run (buf_of_run y s). unfold is_block in E. by rewrite E.
    + erewrite iter_next; [apply IH; [set_solver|exact H|cbn in Hf; lia]|].
      unfold cached_next. rewrite Hy. run (buf_of_run y s). unfold is_block in E. by rewrite E.
Qed.

Lemma bget_cached_run dev n s l : bhead ∉ l -> ring (k_bufs s) l -> (length l <= Z.to_nat NBUF)%nat ->
  bget_cached dev n s = Ok (find (is_block (k_bufs s) dev n) l) s.
Proof.
  intros Hh H Hl. unfold bget_cached. run (buf_of_run bhead s). by apply cached_next_run; [|exact H|lia].
Qed.

Lemma unused_next_run s l : forall z fuel, bhead ∉ l -> seg (k_bufs s) bhead l z -> (length l < fuel)%nat ->
  iter fuel unused_next (b_prev (k_bufs s z)) s = Ok (find (is_unused (k_bufs s)) (rev l)) s.
Proof.
  induction l as [|y l IH] using rev_ind; intros z fuel Hh H Hf; (destruct fuel as [|fuel]; [cbn in Hf; lia|]).
  - destruct H as [_ ->]. apply iter_done. unfold unused_next. by rewrite Z.eqb_refl.
  - apply seg_app in H as (H & _ & ->). rewrite rev_app_distr. cbn [rev app find].
    rewrite length_app in Hf. cbn in Hf.
    assert ((y =? bhead) = false) as Hy by (apply Z.eqb_neq; set_solver).
    destruct (is_unused (k_bufs s) y) eqn:E.
    + apply iter_done. unfold unused_next. rewrite Hy. run (buf_of_run y s). unfold is_unused in E. by rewrite E.
    + erewrite iter_next; [apply IH; [set_solver|exact H|lia]|].
      unfold unused_next. rewrite Hy. run (buf_of_run y s). unfold is_unused in E. by rewrite E.
Qed.

Lemma bget_unused_run s l : bhead ∉ l -> ring (k_bufs s) l -> (length l <= Z.to_nat NBUF)%nat ->
  bget_unused s = Ok (find (is_unused (k_bufs s)) (rev l)) s.
Proof.
  intros Hh H Hl. unfold bget_unused. run (buf_of_run bhead s). by apply unused_next_run; [|exact H|lia].
Qed.

(** ** Sleep locks nobody else holds *)

(** Only sleep locks and process states change. *)
Record quiet (s s' : kstate) : Prop := {
  qt_io : io_frame s s';
  qt_bufs : k_bufs s' = k_bufs s;
  qt_disk : k_disk s' = k_disk s;
  qt_past : k_past s' = k_past s;
  qt_vdisk : k_vdisk s' = k_vdisk s
}.

Lemma quiet_refl s : quiet s s.
Proof. split; [apply io_frame_refl|done..]. Qed.

Lemma quiet_trans s1 s2 s3 : quiet s1 s2 -> quiet s2 s3 -> quiet s1 s3.
Proof. intros [] []. split; [by eapply io_frame_trans|congruence..]. Qed.

Lemma quiet_running i s s' : running i s -> quiet s s' -> p_state (k_procs s' i) = RUNNING -> running i s'.
Proof. intros [H1 H2 _] [F _ _ _ _] H. split; [by rewrite (io_frame_cur _ _ F)|done|done]. Qed.

Lemma upd_sleeplock_at l f s l' :
  k_sleeplocks (upd_sleeplock l f s) l' = if decide (l' = l) then f (k_sleeplocks s l) else k_sleeplocks s l'.
Proof. done. Qed.

Section sleeplocks.
Context {ENV : Env}.

Lemma curproc_at i s : k_cur s = Some i -> curproc s = Ok i s.
Proof. intros E. unfold curproc, myproc, bind, gets. by rewrite E. Qed.

(** The lock is free: no waiting. *)
Lemma acquiresleep_run i l s : running i s -> k_held s = [] -> sl_locked (k_sleeplocks s l) = false ->
  exists s', acquiresleep l s = Ok tt s' /\ quiet s s' /\ running i s' /\ k_held s' = [] /\
    (forall l', k_sleeplocks s' l' = if decide (l' = l) then mkSleep true (p_pid (k_procs s i)) else k_sleeplocks s l').
Proof.
  intros Hrun Hh Hl. unfold acquiresleep. run (acquire_ok (L_sleep l) s ltac:(rewrite Hh; apply not_elem_of_nil)).
  set (s1 := k_set_held _ s).
  erewrite bind_ok; [|apply iter_done; unfold bind, gets; change (k_sleeplocks s1 l) with (k_sleeplocks s l); rewrite Hl; reflexivity].
  run (modify_run (upd_sleeplock l (sl_set_locked true)) s1). set (s2 := upd_sleeplock l (sl_set_locked true) s1).
  run (curproc_at i s2 ltac:(apply Hrun)). unfold bind at 1, gets.
  run (modify_run (upd_sleeplock l (sl_set_pid (p_pid (k_procs s2 i)))) s2).
  rewrite (release_head (L_sleep l) []) by (cbn; by rewrite Hh).
  eexists. split; [reflexivity|]. split; [|split; [|split]].
  - split; [split|done..]; [|intros j; apply proc_keep_refl]. destruct s; cbn in Hh; by subst.
  - destruct Hrun. by split.
  - done.
  - intros l'. cbn. repeat (case_decide; try done).
Qed.

Lemma releasesleep_run i l s : running i s -> k_held s = [] ->
  exists s', releasesleep l s = Ok tt s' /\ quiet s s' /\ running i s' /\ k_held s' = [] /\
    (forall l', k_sleeplocks s' l' = if decide (l' = l) then mkSleep false 0 else k_sleeplocks s l').
Proof.
  intros Hrun Hh. unfold releasesleep. run (acquire_ok (L_sleep l) s ltac:(rewrite Hh; apply not_elem_of_nil)).
  set (s1 := k_set_held _ s).
  run (modify_run (upd_sleeplock l (sl_set_locked false)) s1). set (s2 := upd_sleeplock l (sl_set_locked false) s1).
  run (modify_run (upd_sleeplock l (sl_set_pid 0)) s2). set (s3 := upd_sleeplock l (sl_set_pid 0) s2).
  assert (k_held s3 = [L_sleep l]) as Hh3 by (cbn; by rewrite Hh).
  run (wakeup_ok (ChSleep l) s3 ltac:(intros j _ _; rewrite Hh3; by intros ?%list_elem_of_singleton)).
  pose proof (woken_frame (ChSleep l) s3) as F. pose proof (only_procs_eq _ _ F) as E.
  rewrite (release_head (L_sleep l) []) by (rewrite (proj2 (only_procs_keeps _ _ F)); exact Hh3).
  eexists. split; [reflexivity|]. split; [|split; [|split]].
  - rewrite E. split; [split|done..].
    + destruct s; cbn in Hh; by subst.
    + intros j. cbn [k_procs k_set_held k_set_procs]. rewrite woken_procs. case_decide; [apply wakes_keep|apply proc_keep_refl].
  - destruct Hrun as [R1 R2 R3]. split; [|done|].
    + cbn. by rewrite (proj1 (only_procs_keeps _ _ F)).
    + cbn. rewrite woken_procs, decide_False; [done|]. intros [_ H]. apply H. by rewrite <- R1.
  - done.
  - intros l'. rewrite E. cbn. repeat (case_decide; try done).
Qed.

Lemma holdingsleep_run i l s : running i s -> k_held s = [] -> sl_locked (k_sleeplocks s l) = true ->
  sl_pid (k_sleeplocks s l) = p_pid (k_procs s i) -> holdingsleep l s = Ok true s.
Proof.
  intros Hrun Hh Hl Hp. unfold holdingsleep. run (acquire_ok (L_sleep l) s ltac:(rewrite Hh; apply not_elem_of_nil)).
  set (s1 := k_set_held _ s). unfold bind at 1, gets at 1. change (k_sleeplocks s1 l) with (k_sleeplocks s l). rewrite Hl.
  assert ((i0 <- curproc ;; gets (fun s => sl_pid (k_sleeplocks s l) =? p_pid (k_procs s i0))) s1 = Ok true s1) as E.
  { run (curproc_at i s1 ltac:(apply Hrun)). unfold gets. cbn. rewrite Hp. by rewrite Z.eqb_refl. }
  run E. erewrite bind_ok; [|apply (release_head (L_sleep l) []); cbn; by rewrite Hh].
  unfold ret, s1. destruct s; cbn in Hh; by subst.
Qed.
End sleeplocks.

(** ** The invariant *)

(** Everything but the cache, the disk and process states stays. *)
Record bframe (s s' : kstate) : Prop := {
  bf_io : io_frame s s';
  bf_ilock : forall ip, k_sleeplocks s' (SL_inode ip) = k_sleeplocks s (SL_inode ip)
}.

Lemma bframe_refl s : bframe s s.
Proof. split; [apply io_frame_refl|done]. Qed.

Lemma bframe_trans s1 s2 s3 : bframe s1 s2 -> bframe s2 s3 -> bframe s1 s3.
Proof. intros [A1 A2] [B1 B2]. split; [by eapply io_frame_trans|]. intros ip. by rewrite B2. Qed.

(** Equal contents of a block. *)
Definition beq (d d' : Z -> Z) : Prop := forall k, 0 <= k < BSIZE -> d k = d' k.

#[export] Instance beq_equiv : Equivalence beq.
Proof.
  split; [by intros d k|by intros d d' H k Hk; rewrite H|].
  intros d1 d2 d3 H1 H2 k Hk. by rewrite H1, H2.
Qed.

Lemma beq_block_of new old : beq (block_of new old) new.
Proof. intros k Hk. unfold block_of. by rewrite in_range_true. Qed.

(** [b] is a buffer of the cache that holds block [n]. *)
Definition holds_block (f : Z -> buf) (n b : Z) : Prop :=
  0 <= b < NBUF /\ b_dev (f b) = ROOTDEV /\ b_blockno (f b) = n.

(** Process [i] owns the buffers [own]; [pin b] counts the other references
    to [b] (the log's). *)
Record bcache (i : Z) (pin : Z -> Z) (own : list Z) (l : list Z) (s : kstate) : Prop := {
  bc_perm : l ≡ₚ seqZ 0 NBUF;
  bc_ring : ring (k_bufs s) l;
  bc_uniq : forall n b c, holds_block (k_bufs s) n b -> holds_block (k_bufs s) n c -> b = c;
  bc_own : forall b, b ∈ own -> 0 <= b < NBUF /\ b_dev (k_bufs s b) = ROOTDEV;
  bc_nodup : NoDup own;
  bc_lock : forall b, b ∈ own -> k_sleeplocks s (SL_buf b) = mkSleep true (p_pid (k_procs s i));
  bc_free : forall b, 0 <= b < NBUF -> b ∉ own -> sl_locked (k_sleeplocks s (SL_buf b)) = false;
  bc_ref : forall b, 0 <= b < NBUF -> b_refcnt (k_bufs s b) = pin b + (if decide (b ∈ own) then 1 else 0);
  bc_pin : forall b, 0 <= b < NBUF -> 0 <= pin b < 0x80000000 /\ (0 < pin b -> b_dev (k_bufs s b) = ROOTDEV);
  bc_valid : forall b, 0 <= b < NBUF -> b_valid (k_bufs s b) = (b_dev (k_bufs s b) =? ROOTDEV);
  bc_clean : forall n b, holds_block (k_bufs s) n b -> b_refcnt (k_bufs s b) = 0 -> beq (b_data (k_bufs s b)) (k_disk s n);
  bc_blockno : forall b, 0 <= b < NBUF -> 0 <= b_blockno (k_bufs s b) < 0x80000000;
  bc_disk : forall b, 0 <= b < NBUF -> b_disk (k_bufs s b) = false
}.

(** The machine between two file-system steps of process [i]. *)
Record calm (i : Z) (s : kstate) : Prop := {
  cl_run : running i s;
  cl_held : k_held s = [];
  cl_vidle : vidle (k_vdisk s)
}.

(** What a block contains, seen through the cache. *)
Definition view (s : kstate) (n : Z) : Z -> Z :=
  match find (is_block (k_bufs s) ROOTDEV n) (seqZ 0 NBUF) with
  | Some b => b_data (k_bufs s b)
  | None => k_disk s n
  end.

Lemma is_block_holds f n b : 0 <= b < NBUF -> is_block f ROOTDEV n b = true <-> holds_block f n b.
Proof. intros Hb. unfold is_block, holds_block. rewrite andb_true_iff, !Z.eqb_eq. tauto. Qed.

Lemma in_bufs b : b ∈ seqZ 0 NBUF <-> 0 <= b < NBUF.
Proof. rewrite elem_of_seqZ. lia. Qed.

Lemma find_block f n l b : (forall c, c ∈ l -> 0 <= c < NBUF) ->
  find (is_block f ROOTDEV n) l = Some b -> b ∈ l /\ holds_block f n b.
Proof.
  intros Hl H. apply find_some in H as [H1 H2]. apply list_elem_of_In in H1. split; [done|].
  apply is_block_holds; [by apply Hl|done].
Qed.

Lemma find_no_block f n l : find (is_block f ROOTDEV n) l = None -> forall c, c ∈ l -> ~ holds_block f n c.
Proof.
  intros H c Hc Hh. apply list_elem_of_In in Hc. pose proof (find_none _ _ H _ Hc) as E.
  apply is_block_holds in Hh; [congruence|apply Hh].
Qed.

Section views.
Context (i : Z) (pin : Z -> Z) (own l : list Z) (s : kstate) (BC : bcache i pin own l s).

Lemma bc_in b : b ∈ l <-> 0 <= b < NBUF.
Proof. rewrite (bc_perm _ _ _ _ _ BC). apply in_bufs. Qed.

Lemma bc_nodup_l : NoDup (bhead :: l).
Proof.
  apply NoDup_cons. split; [rewrite bc_in; unfold bhead; lia|].
  rewrite (bc_perm _ _ _ _ _ BC). apply NoDup_seqZ.
Qed.

Lemma bc_len : length l = Z.to_nat NBUF.
Proof. rewrite (bc_perm _ _ _ _ _ BC). apply length_seqZ. Qed.

Lemma view_cached n b : holds_block (k_bufs s) n b -> view s n = b_data (k_bufs s b).
Proof.
  intros H. unfold view. destruct (find _ _) as [c|] eqn:E.
  - apply find_block in E as [_ Hc]; [|intros; by apply in_bufs]. by rewrite (bc_uniq _ _ _ _ _ BC n c b).
  - exfalso. eapply find_no_block; [exact E| |exact H]. apply in_bufs, H.
Qed.

Lemma view_uncached n : (forall b, ~ holds_block (k_bufs s) n b) -> view s n = k_disk s n.
Proof.
  intros H. unfold view. destruct (find _ _) as [c|] eqn:E; [|done].
  apply find_block in E as [_ Hc]; [|intros; by apply in_bufs]. by destruct (H c).
Qed.

Lemma cached_dec n : (exists b, holds_block (k_bufs s) n b) \/ (forall b, ~ holds_block (k_bufs s) n b).
Proof.
  destruct (find (is_block (k_bufs s) ROOTDEV n) (seqZ 0 NBUF)) as [c|] eqn:E.
  - apply find_block in E as [_ Hc]; [|intros; by apply in_bufs]. eauto.
  - right. intros b Hb. eapply find_no_block; [exact E| |exact Hb]. apply in_bufs, Hb.
Qed.
End views.

(** ** bget *)

(** Buffer [b] becomes [x]; otherwise only sleep locks and process states
    change. *)
Record touched (b : Z) (x : buf) (s s' : kstate) : Prop := {
  tc_io : io_frame s s';
  tc_bufs : forall c, k_bufs s' c = if decide (c = b) then x else k_bufs s c;
  tc_disk : k_disk s' = k_disk s;
  tc_past : k_past s' = k_past s;
  tc_vdisk : k_vdisk s' = k_vdisk s
}.

Lemma touched_quiet b x s s' s'' : touched b x s s' -> quiet s' s'' -> touched b x s s''.
Proof. intros [] []. split; [by eapply io_frame_trans|intros c; rewrite qt_bufs0; auto|congruence..]. Qed.

Lemma touched_upd b f s : touched b (f (k_bufs s b)) s (upd_buf b f s).
Proof.
  split; [|intros c; apply fupd_cases|done..]. split; [by destruct s|intros j; apply proc_keep_refl].
Qed.

Lemma touched_again b x y s s' s'' : touched b x s s' -> touched b y s' s'' -> touched b y s s''.
Proof.
  intros [A1 A2 A3 A4 A5] [B1 B2 B3 B4 B5]. split; [by eapply io_frame_trans| |congruence..].
  intros c. rewrite B2, A2. by case_decide.
Qed.

Lemma touched_held b x s s' h : touched b x s s' -> touched b x (k_set_held h s) (k_set_held h s').
Proof. intros [A1 A2 A3 A4 A5]. split; [by apply io_frame_set_held|done..]. Qed.

Lemma held_nil s : k_held s = [] -> k_set_held [] s = s.
Proof. intros E. rewrite <- E. apply k_set_held_id. Qed.

Lemma calm_running i s s' : running i s -> k_procs s' = k_procs s -> k_cur s' = k_cur s -> running i s'.
Proof. intros [] E1 E2. split; [by rewrite E2|done|by rewrite E1]. Qed.

Lemma find_unused_in f l b : find (is_unused f) (rev l) = Some b -> b ∈ l /\ b_refcnt (f b) = 0.
Proof.
  intros H. apply find_some in H as [H1 H2]. apply in_rev, list_elem_of_In in H1. split; [done|].
  unfold is_unused in H2. lia.
Qed.

Section bget.
Context {ENV : Env} {DSK : Disk}.
Context (i : Z) (pin : Z -> Z) (own l : list Z) (s : kstate).
Context (BC : bcache i pin own l s) (CL : calm i s).

Let pid := p_pid (k_procs s i).

(** What both ways of [bget] establish. *)
Definition got (b : Z) (x : buf) (s' : kstate) : Prop :=
  touched b x s s' /\ running i s' /\ k_held s' = [] /\
  (forall l', k_sleeplocks s' l' = if decide (l' = SL_buf b) then mkSleep true pid else k_sleeplocks s l').

(** Leaving the critical section and locking the buffer. *)
Lemma bget_lock b x t : 0 <= b < NBUF -> b ∉ own -> touched b x (k_set_held [L_bcache] s) t ->
  k_held t = [L_bcache] -> running i t -> k_sleeplocks t = k_sleeplocks s -> p_pid (k_procs t i) = pid ->
  exists s', (release L_bcache ;; acquiresleep (SL_buf b) ;; ret b) t = Ok b s' /\ got b x s'.
Proof.
  intros Hb Ho HT Hh Hr Hs Hp. erewrite bind_ok; [|by apply (release_head L_bcache [])].
  destruct (acquiresleep_run i (SL_buf b) (k_set_held [] t)) as (s' & E & Q & R & H & S).
  { by destruct Hr. } { done. } { cbn. rewrite Hs. by apply (bc_free _ _ _ _ _ BC). }
  run E. exists s'. split; [done|]. split; [|split; [done|split; [done|]]].
  - eapply touched_quiet; [|exact Q]. apply (touched_held _ _ _ _ []) in HT. cbn in HT.
    assert (k_set_held [] (k_set_held [L_bcache] s) = s) as E1 by (rewrite <- (held_nil s) at 2; [done|apply CL]).
    by rewrite E1 in HT.
  - intros l'. rewrite S. cbn. rewrite Hs, Hp. done.
Qed.

Lemma bget_hit n b : holds_block (k_bufs s) n b -> b ∉ own ->
  exists s', bget ROOTDEV n s = Ok b s' /\ got b (b_set_refcnt (b_refcnt (k_bufs s b) + 1) (k_bufs s b)) s'.
Proof.
  intros Hb Ho. unfold bget. run (acquire_ok L_bcache s ltac:(rewrite (cl_held _ _ CL); apply not_elem_of_nil)).
  rewrite (cl_held _ _ CL). set (s1 := k_set_held [L_bcache] s).
  assert (find (is_block (k_bufs s) ROOTDEV n) l = Some b) as Hf.
  { destruct (find _ _) as [c|] eqn:E.
    - apply find_block in E as [_ Hc]; [|intros; by apply (bc_in _ _ _ _ _ BC)]. f_equal. by eapply (bc_uniq _ _ _ _ _ BC).
    - exfalso. eapply find_no_block; [exact E| |exact Hb]. apply (bc_in _ _ _ _ _ BC), Hb. }
  pose proof (bc_nodup_l _ _ _ _ _ BC) as [Hbh _]%NoDup_cons. pose proof (bc_len _ _ _ _ _ BC) as Hlen.
  assert (bget_cached ROOTDEV n s1 = Ok (Some b) s1) as Ec.
  { rewrite (bget_cached_run ROOTDEV n s1 l); [by rewrite <- Hf|done|apply BC|lia]. }
  run Ec. set (f := fun x => b_set_refcnt (u32 (b_refcnt x + 1)) x).
  run (modify_run (upd_buf b f) s1).
  assert (f (k_bufs s b) = b_set_refcnt (b_refcnt (k_bufs s b) + 1) (k_bufs s b)) as <-.
  { unfold f. rewrite u32_small; [done|]. pose proof (bc_ref _ _ _ _ _ BC b ltac:(apply Hb)).
    pose proof (proj1 (bc_pin _ _ _ _ _ BC b ltac:(apply Hb))). case_decide; lia. }
  apply bget_lock; [apply Hb|done|apply (touched_upd b f s1)|done| |done|done].
  destruct CL as [[] _ _]. by split.
Qed.

Lemma bget_miss n b : (forall c, ~ holds_block (k_bufs s) n c) -> find (is_unused (k_bufs s)) (rev l) = Some b ->
  exists s', bget ROOTDEV n s = Ok b s' /\
    got b (b_set_refcnt 1 (b_set_valid false (b_set_blockno n (b_set_dev ROOTDEV (k_bufs s b))))) s'.
Proof.
  intros Hn Hu. destruct (find_unused_in _ _ _ Hu) as [Hb Hz]. apply (bc_in _ _ _ _ _ BC) in Hb.
  unfold bget. run (acquire_ok L_bcache s ltac:(rewrite (cl_held _ _ CL); apply not_elem_of_nil)).
  rewrite (cl_held _ _ CL). set (s1 := k_set_held [L_bcache] s).
  pose proof (bc_nodup_l _ _ _ _ _ BC) as [Hbh _]%NoDup_cons. pose proof (bc_len _ _ _ _ _ BC) as Hlen.
  assert (bget_cached ROOTDEV n s1 = Ok None s1) as Ec.
  { rewrite (bget_cached_run ROOTDEV n s1 l); [|done|apply BC|lia]. change (k_bufs s1) with (k_bufs s).
    destruct (find (is_block _ _ _) _) as [c|] eqn:E; [|done]. exfalso.
    apply find_block in E as [_ Hc]; [|intros; by apply (bc_in _ _ _ _ _ BC)]. by apply (Hn c). }
  run Ec. assert (bget_unused s1 = Ok (Some b) s1) as Eu.
  { rewrite (bget_unused_run s1 l); [by rewrite <- Hu|done|apply BC|lia]. }
  run Eu. run (modify_run (upd_buf b (b_set_dev ROOTDEV)) s1). set (s2 := upd_buf b (b_set_dev ROOTDEV) s1).
  run (modify_run (upd_buf b (b_set_blockno n)) s2). set (s3 := upd_buf b (b_set_blockno n) s2).
  run (modify_run (upd_buf b (b_set_valid false)) s3). set (s4 := upd_buf b (b_set_valid false) s3).
  run (modify_run (upd_buf b (b_set_refcnt 1)) s4).
  assert (b ∉ own) as Ho.
  { intros Ho. pose proof (bc_ref _ _ _ _ _ BC b Hb) as E. rewrite decide_True in E by done.
    pose proof (proj1 (bc_pin _ _ _ _ _ BC b Hb)). lia. }
  apply bget_lock; [done|done| |done| |done|done].
  - assert (k_bufs s4 b = b_set_valid false (b_set_blockno n (b_set_dev ROOTDEV (k_bufs s b)))) as <-.
    { unfold s4, s3, s2. cbn. by rewrite !fupd_eq. }
    eapply touched_again; [|apply touched_upd]. eapply touched_again; [|apply touched_upd].
    eapply touched_again; [|apply touched_upd]. apply touched_upd.
  - destruct CL as [[] _ _]. by split.
Qed.
End bget.

(** ** bread *)

(** A buffer joins the ones the process owns. *)
Lemma bcache_take i pin own l s b n s' : bcache i pin own l s ->
  0 <= b < NBUF -> b ∉ own -> 0 <= n < 0x80000000 ->
  (forall c, c <> b -> ~ holds_block (k_bufs s) n c) ->
  (forall c, c <> b -> k_bufs s' c = k_bufs s c) ->
  b_next (k_bufs s' b) = b_next (k_bufs s b) -> b_prev (k_bufs s' b) = b_prev (k_bufs s b) ->
  b_dev (k_bufs s' b) = ROOTDEV -> b_blockno (k_bufs s' b) = n -> b_valid (k_bufs s' b) = true ->
  b_refcnt (k_bufs s' b) = b_refcnt (k_bufs s b) + 1 -> b_disk (k_bufs s' b) = false ->
  k_disk s' = k_disk s -> p_pid (k_procs s' i) = p_pid (k_procs s i) ->
  (forall l', k_sleeplocks s' l' = if decide (l' = SL_buf b) then mkSleep true (p_pid (k_procs s i)) else k_sleeplocks s l') ->
  bcache i pin (b :: own) l s'.
Proof.
  intros BC Hb Ho Hn Hu Hbufs Hnx Hpv Hdev Hbn Hval Href Hdsk Hdisk Hpid Hlk.
  assert (forall c, b_next (k_bufs s' c) = b_next (k_bufs s c) /\ b_prev (k_bufs s' c) = b_prev (k_bufs s c)) as Hlinks.
  { intros c. destruct (decide (c = b)) as [->|D]; [done|by rewrite Hbufs]. }
  assert (forall m c, c <> b -> holds_block (k_bufs s') m c -> holds_block (k_bufs s) m c) as Hback.
  { intros m c D. unfold holds_block. by rewrite Hbufs. }
  split.
  - apply BC.
  - eapply seg_frame; [apply BC| |]; intros; apply Hlinks.
  - intros m x y Hx Hy. destruct (decide (x = b)) as [->|Dx], (decide (y = b)) as [->|Dy]; [done|..].
    + exfalso. assert (m = n) as -> by (destruct Hx as (_ & _ & <-); done). by apply (Hu y), Hback.
    + exfalso. assert (m = n) as -> by (destruct Hy as (_ & _ & <-); done). by apply (Hu x), Hback.
    + by eapply (bc_uniq _ _ _ _ _ BC); apply Hback.
  - intros c Hc. destruct (decide (c = b)) as [->|D]; [done|]. rewrite Hbufs by done. apply (bc_own _ _ _ _ _ BC). set_solver.
  - apply NoDup_cons. split; [done|apply BC].
  - intros c Hc. rewrite Hlk, Hpid. case_decide as D; [done|]. apply (bc_lock _ _ _ _ _ BC).
    apply elem_of_cons in Hc as [->|Hc]; [done|done].
  - intros c Hc Hco. rewrite Hlk. case_decide as D; [injection D; set_solver|]. apply (bc_free _ _ _ _ _ BC); set_solver.
  - intros c Hc. destruct (decide (c = b)) as [->|D].
    + rewrite Href, (bc_ref _ _ _ _ _ BC) by done. rewrite decide_False, decide_True by (done || set_solver). lia.
    + rewrite Hbufs, (bc_ref _ _ _ _ _ BC) by done. f_equal. apply decide_ext. set_solver.
  - intros c Hc. destruct (bc_pin _ _ _ _ _ BC c Hc) as [P1 P2]. split; [done|]. intros P3.
    destruct (decide (c = b)) as [->|D]; [done|]. rewrite Hbufs by done. auto.
  - intros c Hc. destruct (decide (c = b)) as [->|D]; [by rewrite Hval, Hdev|]. rewrite Hbufs by done. by apply (bc_valid _ _ _ _ _ BC).
  - intros m c Hc Hr. destruct (decide (c = b)) as [->|D].
    + exfalso. rewrite Href, (bc_ref _ _ _ _ _ BC), decide_False in Hr by done. pose proof (proj1 (bc_pin _ _ _ _ _ BC b Hb)). lia.
    + rewrite Hdisk, Hbufs by done. rewrite Hbufs in Hr by done. apply (bc_clean _ _ _ _ _ BC); [by apply Hback|done].
  - intros c Hc. destruct (decide (c = b)) as [->|D]; [by rewrite Hbn|]. rewrite Hbufs by done. by apply (bc_blockno _ _ _ _ _ BC).
  - intros c Hc. destruct (decide (c = b)) as [->|D]; [done|]. rewrite Hbufs by done. by apply (bc_disk _ _ _ _ _ BC).
Qed.

Record bread_post (i : Z) (pin : Z -> Z) (own l : list Z) (s : kstate) (n b : Z) (s' : kstate) : Prop := {
  bp_cache : bcache i pin (b :: own) l s';
  bp_calm : calm i s';
  bp_new : b ∉ own;
  bp_block : holds_block (k_bufs s') n b;
  bp_data : beq (b_data (k_bufs s' b)) (view s n);
  bp_view : forall m, beq (view s' m) (view s m);
  bp_disk : k_disk s' = k_disk s;
  bp_past : k_past s' = k_past s;
  bp_keep : forall c, c <> b -> k_bufs s' c = k_bufs s c;
  bp_old : holds_block (k_bufs s) n b \/ b_refcnt (k_bufs s b) = 0;
  bp_io : bframe s s'
}.

Section bread.
Context {ENV : Env} {DSK : Disk}.
Context (i : Z) (pin : Z -> Z) (own l : list Z) (s : kstate).
Context (BC : bcache i pin own l s) (CL : calm i s).

Lemma io_frame_pid s' j : io_frame s s' -> p_pid (k_procs s' j) = p_pid (k_procs s j).
Proof. intros [_ P]. by apply proc_keep_pid. Qed.

Lemma got_take b x s' n : got i s b x s' -> 0 <= b < NBUF -> b ∉ own -> 0 <= n < 0x80000000 ->
  (forall c, c <> b -> ~ holds_block (k_bufs s) n c) ->
  b_next x = b_next (k_bufs s b) -> b_prev x = b_prev (k_bufs s b) -> b_dev x = ROOTDEV -> b_blockno x = n ->
  b_valid x = true -> b_refcnt x = b_refcnt (k_bufs s b) + 1 -> b_disk x = false ->
  bcache i pin (b :: own) l s' /\ calm i s'.
Proof.
  intros ([F B D P V] & R & H & L) Hb Ho Hn Hu. intros. split.
  - assert (k_bufs s' b = x) as E by (by rewrite B, decide_True).
    eapply (bcache_take _ _ _ _ s b n); rewrite ?E; try done; [|by apply io_frame_pid].
    intros c Hc. by rewrite B, decide_False.
  - split; [done|done|rewrite V; apply CL].
Qed.

(** A block in the cache. *)
Lemma bread_hit n b : holds_block (k_bufs s) n b -> b ∉ own ->
  exists s', bread ROOTDEV n s = Ok b s' /\ bread_post i pin own l s n b s'.
Proof.
  intros Hb Ho. destruct (bget_hit i pin own l s BC CL n b Hb Ho) as (s' & E & G).
  unfold bread. run E. run (buf_of_run b s'). pose proof G as ([F B D P V] & R & H & L).
  assert (k_bufs s' b = b_set_refcnt (b_refcnt (k_bufs s b) + 1) (k_bufs s b)) as Eb by (by rewrite B, decide_True).
  assert (b_valid (k_bufs s b) = true) as Hv by (rewrite (bc_valid _ _ _ _ _ BC) by apply Hb; apply Z.eqb_eq, Hb).
  rewrite Eb. cbn [b_valid b_set_refcnt]. rewrite Hv. exists s'. split; [done|].
  destruct (got_take b _ s' n G) as [C1 C2]; [apply Hb|done| |intros c Hc Hc'; by apply Hc, (bc_uniq _ _ _ _ _ BC n)|done|done|apply Hb|apply Hb|done|done| |].
  { destruct Hb as (Hb1 & _ & <-). by apply (bc_blockno _ _ _ _ _ BC). }
  { by apply (bc_disk _ _ _ _ _ BC), Hb. }
  assert (forall m c, holds_block (k_bufs s') m c <-> holds_block (k_bufs s) m c) as Hiff.
  { intros m c. unfold holds_block. rewrite B. case_decide as D'; [rewrite D'|]; done. }
  assert (forall c, b_data (k_bufs s' c) = b_data (k_bufs s c)) as Hdata.
  { intros c. rewrite B. case_decide as D'; [rewrite D'|]; done. }
  split; [done|done|done|by apply Hiff| | |done|done| |by left|split; [done|intros ip; by rewrite L]].
  - by rewrite Hdata, (view_cached _ _ _ _ _ BC n b Hb).
  - intros m. destruct (cached_dec s m) as [[c Hc]|Hc].
    + by rewrite (view_cached _ _ _ _ _ BC m c Hc), (view_cached _ _ _ _ _ C1 m c (proj2 (Hiff m c) Hc)), Hdata.
    + rewrite (view_uncached s m Hc), (view_uncached s' m); [by rewrite D|]. intros c Hc'. by apply (Hc c), Hiff.
  - intros c Hc. by rewrite B, decide_False.
Qed.

(** A block that is not cached, read into the least recently used buffer. *)
Lemma bread_miss n b : 0 <= n < 0x80000000 -> (forall c, ~ holds_block (k_bufs s) n c) ->
  find (is_unused (k_bufs s)) (rev l) = Some b ->
  exists s', bread ROOTDEV n s = Ok b s' /\ bread_post i pin own l s n b s'.
Proof.
  intros Hn Hc Hu. destruct (find_unused_in _ _ _ Hu) as [Hb Hz]. apply (bc_in _ _ _ _ _ BC) in Hb.
  assert (b ∉ own) as Ho.
  { intros Ho. pose proof (bc_ref _ _ _ _ _ BC b Hb) as E. rewrite decide_True in E by done.
    pose proof (proj1 (bc_pin _ _ _ _ _ BC b Hb)). lia. }
  destruct (bget_miss i pin own l s BC CL n b Hc Hu) as (s1 & E & [F B D P V] & R & H & L).
  unfold bread. run E. run (buf_of_run b s1).
  assert (k_bufs s1 b = b_set_refcnt 1 (b_set_valid false (b_set_blockno n (b_set_dev ROOTDEV (k_bufs s b))))) as Eb by (by rewrite B, decide_True).
  rewrite Eb. cbn [b_valid b_set_refcnt b_set_valid].
  destruct (virtio_disk_rw_ok i b false s1) as (s2 & E2 & T & F2 & R2 & V2); [done|done|rewrite V; apply CL|by rewrite Eb|].
  rewrite bind_assoc. run E2. run (modify_run (upd_buf b (b_set_valid true)) s2).
  set (s3 := upd_buf b (b_set_valid true) s2). exists s3. split; [done|].
  destruct T as [T1 T2 T3 T4 T5]. cbv iota in T1; rewrite Eb in T4. cbn [b_blockno b_set_refcnt b_set_valid b_set_blockno] in T4.
  assert (k_bufs s3 b = b_set_valid true (b_set_disk false (b_set_data (block_of (k_disk s n) (b_data (k_bufs s b)))
     (b_set_refcnt 1 (b_set_valid false (b_set_blockno n (b_set_dev ROOTDEV (k_bufs s b)))))))) as E3.
  { unfold s3, upd_buf. cbn [k_bufs k_set_bufs]. by rewrite fupd_eq, T4, D. }
  assert (forall c, c <> b -> k_bufs s3 c = k_bufs s c) as K3.
  { intros c Hcb. unfold s3, upd_buf. cbn [k_bufs k_set_bufs]. rewrite fupd_ne, T3, B by done. by rewrite decide_False. }
  assert (io_frame s s3) as F3.
  { eapply io_frame_trans; [exact F|]. eapply io_frame_trans; [exact F2|]. apply (touched_upd b (b_set_valid true) s2). }
  assert (bcache i pin (b :: own) l s3) as C3.
  { eapply (bcache_take _ _ _ _ s b n); rewrite ?E3; try done.
    - by rewrite Hz.
    - change (k_disk s3) with (k_disk s2). by rewrite T1.
    - by apply io_frame_pid.
    - change (k_sleeplocks s3) with (k_sleeplocks s2). by rewrite T5. }
  assert (calm i s3) as CL3.
  { split; [destruct R2; by split| |done]. change (k_held s3) with (k_held s2). by rewrite (io_frame_held _ _ F2). }
  assert (holds_block (k_bufs s3) n b) as Hb3 by (by split; [|rewrite E3]).
  split; [done|done|done|done| | |change (k_disk s3) with (k_disk s2); by rewrite T1| |done|by right|].
  - rewrite E3, (view_uncached s n Hc). cbn. apply beq_block_of.
  - intros m. destruct (decide (m = n)) as [->|Dm].
    + rewrite (view_cached _ _ _ _ _ C3 n b Hb3), E3, (view_uncached s n Hc). cbn. apply beq_block_of.
    + destruct (cached_dec s m) as [[c Hcm]|Hcm].
      * rewrite (view_cached _ _ _ _ _ BC m c Hcm). destruct (decide (c = b)) as [->|Dc].
        -- rewrite (view_uncached s3 m).
           ++ change (k_disk s3) with (k_disk s2). rewrite T1, D. symmetry. by apply (bc_clean _ _ _ _ _ BC).
           ++ intros c' Hc'. destruct (decide (c' = b)) as [->|D'].
              ** apply Dm. destruct Hc' as (_ & _ & <-). by rewrite E3.
              ** apply D', (bc_uniq _ _ _ _ _ BC m); [|done]. unfold holds_block in *. by rewrite K3 in Hc'.
        -- rewrite (view_cached _ _ _ _ _ C3 m c), K3 by (unfold holds_block in *; by rewrite ?K3). done.
      * rewrite (view_uncached s m Hcm), (view_uncached s3 m).
        -- change (k_disk s3) with (k_disk s2). by rewrite T1, D.
        -- intros c' Hc'. destruct (decide (c' = b)) as [->|D'].
           ++ apply Dm. destruct Hc' as (_ & _ & <-). by rewrite E3.
           ++ apply (Hcm c'). unfold holds_block in *. by rewrite K3 in Hc'.
  - change (k_past s3) with (k_past s2). by rewrite T2.
  - split; [done|]. intros ip. change (k_sleeplocks s3) with (k_sleeplocks s2). by rewrite T5, L.
Qed.
End bread.

(** ** The interface of the cache *)

(** A buffer is available for block [n]. *)
Definition room (s : kstate) (n : Z) : Prop :=
  (exists b, holds_block (k_bufs s) n b) \/ (exists b, 0 <= b < NBUF /\ b_refcnt (k_bufs s b) = 0).

Lemma find_unused_some f l b : b ∈ l -> b_refcnt (f b) = 0 -> exists c, find (is_unused f) (rev l) = Some c.
Proof.
  intros Hb Hz. destruct (find _ _) as [c|] eqn:E; [eauto|]. apply list_elem_of_In, in_rev in Hb.
  pose proof (find_none _ _ E b Hb) as H. unfold is_unused in H. lia.
Qed.

Section interface.
Context {ENV : Env} {DSK : Disk}.

Lemma bread_ok i pin own l s n : bcache i pin own l s -> calm i s -> 0 <= n < 0x80000000 ->
  (forall b, b ∈ own -> ~ holds_block (k_bufs s) n b) -> room s n ->
  exists b s', bread ROOTDEV n s = Ok b s' /\ bread_post i pin own l s n b s'.
Proof.
  intros BC CL Hn Hnl Hr. destruct (cached_dec s n) as [[b Hb]|Hc].
  - destruct (bread_hit i pin own l s BC CL n b Hb) as (s' & E & H); [|eauto]. intros Ho. by apply (Hnl b).
  - destruct Hr as [[b Hb]|(b & Hb & Hz)]; [by destruct (Hc b)|].
    apply (bc_in _ _ _ _ _ BC) in Hb. destruct (find_unused_some _ _ _ Hb Hz) as [c Hf].
    destruct (bread_miss i pin own l s BC CL n c Hn Hc Hf) as (s' & E & H). eauto.
Qed.

(** Without one, [bread] panics. *)
Lemma bread_panics i pin own l s n : bcache i pin own l s -> calm i s -> ~ room s n ->
  bread ROOTDEV n s = Panic "bget: no buffers".
Proof.
  intros BC CL Hr. unfold bread. apply bind_panic. unfold bget.
  run (acquire_ok L_bcache s ltac:(rewrite (cl_held _ _ CL); apply not_elem_of_nil)).
  set (s1 := k_set_held _ s).
  pose proof (bc_nodup_l _ _ _ _ _ BC) as [Hbh _]%NoDup_cons. pose proof (bc_len _ _ _ _ _ BC) as Hlen.
  assert (bget_cached ROOTDEV n s1 = Ok None s1) as Ec.
  { rewrite (bget_cached_run ROOTDEV n s1 l); [|done|apply BC|lia]. change (k_bufs s1) with (k_bufs s).
    destruct (find _ _) as [c|] eqn:E; [|done]. exfalso. apply Hr. left.
    apply find_block in E as [_ Hc]; [|intros; by apply (bc_in _ _ _ _ _ BC)]. eauto. }
  assert (bget_unused s1 = Ok None s1) as Eu.
  { rewrite (bget_unused_run s1 l); [|done|apply BC|lia]. change (k_bufs s1) with (k_bufs s).
    destruct (find _ _) as [c|] eqn:E; [|done]. exfalso. apply Hr. right.
    apply find_unused_in in E as [E1 E2]. apply (bc_in _ _ _ _ _ BC) in E1. eauto. }
  run Ec. run Eu. done.
Qed.

(** The owner changes the data of a buffer. *)
Lemma bcache_data i pin own l s b d : bcache i pin own l s -> b ∈ own ->
  bcache i pin own l (upd_buf b (b_set_data d) s).
Proof.
  intros BC Ho. pose proof (bc_own _ _ _ _ _ BC b Ho) as [Hb _].
  assert (forall c, exists d', k_bufs (upd_buf b (b_set_data d) s) c = b_set_data d' (k_bufs s c)) as Hd.
  { intros c. cbn. rewrite fupd_cases. case_decide as D; [rewrite D; eauto|]. exists (b_data (k_bufs s c)). by destruct (k_bufs s c). }
  assert (forall m c, holds_block (k_bufs (upd_buf b (b_set_data d) s)) m c <-> holds_block (k_bufs s) m c) as Hiff.
  { intros m c. unfold holds_block. by destruct (Hd c) as [d' ->]. }
  split; try (intros c; destruct (Hd c) as [d' ->]; cbn; apply BC); try apply BC.
  - eapply seg_frame; [apply BC| |]; intros w _; by destruct (Hd w) as [d' ->].
  - intros m x y Hx%Hiff Hy%Hiff. by apply (bc_uniq _ _ _ _ _ BC m).
  - intros m c Hc%Hiff Hr. destruct (decide (c = b)) as [->|D].
    + exfalso. revert Hr. destruct (Hd b) as [d' ->]. cbn. rewrite (bc_ref _ _ _ _ _ BC), decide_True by done.
      pose proof (proj1 (bc_pin _ _ _ _ _ BC b Hb)). lia.
    + revert Hr. cbn. rewrite fupd_ne by done. by apply (bc_clean _ _ _ _ _ BC).
Qed.

Lemma view_data i pin own l s b d n m : bcache i pin own l s -> b ∈ own -> holds_block (k_bufs s) n b ->
  view (upd_buf b (b_set_data d) s) m = if decide (m = n) then d else view s m.
Proof.
  intros BC Ho Hb. set (s' := upd_buf b (b_set_data d) s).
  pose proof (bcache_data i pin own l s b d BC Ho) as BC'. fold s' in BC'.
  assert (forall m c, holds_block (k_bufs s') m c <-> holds_block (k_bufs s) m c) as Hiff.
  { intros m' c. unfold holds_block, s'. cbn. rewrite fupd_cases. case_decide as D; [rewrite D|]; done. }
  case_decide as D; [subst m|].
  - rewrite (view_cached _ _ _ _ _ BC' n b) by (by apply Hiff). unfold s'. cbn. by rewrite fupd_eq.
  - destruct (cached_dec s m) as [[c Hc]|Hc].
    + rewrite (view_cached _ _ _ _ _ BC m c Hc), (view_cached _ _ _ _ _ BC' m c) by (by apply Hiff).
      unfold s'. cbn. rewrite fupd_ne; [done|]. intros ->. apply D. by destruct Hc as (_ & _ & <-), Hb as (_ & _ & <-).
    + rewrite (view_uncached s m Hc), (view_uncached s' m); [done|]. intros c Hc'%Hiff. by apply (Hc c).
Qed.

Lemma calm_data i s b f : calm i s -> calm i (upd_buf b f s).
Proof. intros [[] ? ?]. by split; [split| |]. Qed.

(** The same buffers, locks and unreferenced blocks. *)
Lemma bcache_ext i pin own l s s' : bcache i pin own l s -> (forall c, k_bufs s' c = k_bufs s c) ->
  (forall b, k_sleeplocks s' (SL_buf b) = k_sleeplocks s (SL_buf b)) -> p_pid (k_procs s' i) = p_pid (k_procs s i) ->
  (forall m c, holds_block (k_bufs s) m c -> b_refcnt (k_bufs s c) = 0 -> k_disk s' m = k_disk s m) ->
  bcache i pin own l s'.
Proof.
  intros BC Hb Hl Hp Hd.
  assert (forall m c, holds_block (k_bufs s') m c <-> holds_block (k_bufs s) m c) as Hiff.
  { intros m c. unfold holds_block. by rewrite Hb. }
  split; try (intros c; rewrite ?Hb, ?Hl; apply BC); try apply BC.
  - eapply seg_frame; [apply BC| |]; intros w _; by rewrite Hb.
  - intros m x y Hx%Hiff Hy%Hiff. by apply (bc_uniq _ _ _ _ _ BC m).
  - intros c Hc. rewrite Hl, Hp. by apply (bc_lock _ _ _ _ _ BC).
  - intros m c Hc%Hiff. rewrite Hb. intros Hr. rewrite (Hd m c Hc Hr). by apply (bc_clean _ _ _ _ _ BC).
Qed.

Lemma view_ext s s' m : (forall c, k_bufs s' c = k_bufs s c) -> k_disk s' m = k_disk s m -> view s' m = view s m.
Proof.
  intros Hb Hd. unfold view. rewrite Hd.
  assert (find (is_block (k_bufs s') ROOTDEV m) (seqZ 0 NBUF) = find (is_block (k_bufs s) ROOTDEV m) (seqZ 0 NBUF)) as ->.
  { induction (seqZ 0 NBUF) as [|c l IH]; [done|]. cbn [find]. unfold is_block at 1 3. by rewrite Hb, IH. }
  case_match; [by rewrite Hb|done].
Qed.

Lemma bwrite_ok i pin own l s n b : bcache i pin own l s -> calm i s -> b ∈ own -> holds_block (k_bufs s) n b ->
  exists s', bwrite b s = Ok tt s' /\ bcache i pin own l s' /\ calm i s' /\
    (forall c, k_bufs s' c = k_bufs s c) /\
    k_disk s' = fupd (k_disk s) n (block_of (b_data (k_bufs s b)) (k_disk s n)) /\
    k_past s' = k_disk s :: k_past s /\ bframe s s'.
Proof.
  intros BC CL Ho Hb. unfold bwrite. pose proof (bc_lock _ _ _ _ _ BC b Ho) as Hl.
  run (holdingsleep_run i (SL_buf b) s (cl_run _ _ CL) (cl_held _ _ CL) ltac:(by rewrite Hl) ltac:(by rewrite Hl)).
  cbn [negb]. destruct (bc_own _ _ _ _ _ BC b Ho) as [Hr _].
  destruct (virtio_disk_rw_ok i b true s) as (s' & E & T & F & R & V); [apply CL|apply CL|apply CL| |].
  { by apply (bc_blockno _ _ _ _ _ BC). }
  destruct T as [T1 T2 T3 T4 T5]. assert (b_blockno (k_bufs s b) = n) as En by apply Hb. rewrite En in T1.
  assert (forall c, k_bufs s' c = k_bufs s c) as Hbufs.
  { intros c. destruct (decide (c = b)) as [->|D]; [|by apply T3]. rewrite T4.
    pose proof (bc_disk _ _ _ _ _ BC b Hr) as Hd. destruct (k_bufs s b). cbn in Hd. by rewrite Hd. }
  exists s'. split; [done|]. split; [|split; [|split; [done|split; [done|split; [done|split; [done|by rewrite T5]]]]]].
  - eapply bcache_ext; [exact BC|done|by rewrite T5|by apply (io_frame_pid s)|].
    intros m c Hc Hz. rewrite T1. apply fupd_ne. intros ->.
    assert (c = b) as -> by (by eapply (bc_uniq _ _ _ _ _ BC)).
    rewrite (bc_ref _ _ _ _ _ BC), decide_True in Hz by done. pose proof (proj1 (bc_pin _ _ _ _ _ BC b Hr)). lia.
  - split; [done| |done]. rewrite (io_frame_held _ _ F). apply CL.
Qed.

(** Moving a buffer within the ring changes only its links. *)
Definition core (x : buf) : buf := b_set_next 0 (b_set_prev 0 x).

Lemma core_set_next v x : core (b_set_next v x) = core x.
Proof. done. Qed.

Lemma core_set_prev v x : core (b_set_prev v x) = core x.
Proof. done. Qed.

Lemma core_unlinked f b c : core (unlinked f b c) = core (f c).
Proof. unfold unlinked. rewrite !fupd_cases. repeat case_decide; repeat (rewrite core_set_next || rewrite core_set_prev); congruence. Qed.

Lemma core_fronted f b c : core (fronted f b c) = core (f c).
Proof. unfold fronted. rewrite !fupd_cases. repeat case_decide; repeat (rewrite core_set_next || rewrite core_set_prev); congruence. Qed.

Lemma bremove_run b s : b_next (k_bufs s b) <> b -> bremove b s = Ok tt (k_set_bufs (unlinked (k_bufs s) b) s).
Proof.
  intros Hn. unfold bremove. run (buf_of_run b s). unfold set_prev at 1.
  set (g := upd_buf (b_next (k_bufs s b)) (b_set_prev (b_prev (k_bufs s b)))).
  run (modify_run g s). run (buf_of_run b (g s)). unfold set_next, modify.
  assert (k_bufs (g s) b = k_bufs s b) as -> by (unfold g; cbn; by rewrite fupd_ne by congruence). done.
Qed.

Lemma binsert_run b s : b <> bhead -> binsert b s = Ok tt (k_set_bufs (fronted (k_bufs s) b) s).
Proof.
  intros Hn. unfold binsert. run (buf_of_run bhead s). set (n := b_next (k_bufs s bhead)).
  unfold set_next at 1. run (modify_run (upd_buf b (b_set_next n)) s). set (s1 := upd_buf b (b_set_next n) s).
  unfold set_prev at 1. run (modify_run (upd_buf b (b_set_prev bhead)) s1). set (s2 := upd_buf b (b_set_prev bhead) s1).
  run (buf_of_run bhead s2).
  assert (b_next (k_bufs s2 bhead) = n) as -> by (unfold s2, s1; cbn; by rewrite !fupd_ne). done.
Qed.

(** The fields the invariant looks at besides the links. *)
Lemma bcache_core i pin own l l' s s' : bcache i pin own l s -> (forall c, core (k_bufs s' c) = core (k_bufs s c)) ->
  l' ≡ₚ l -> ring (k_bufs s') l' -> k_sleeplocks s' = k_sleeplocks s -> k_procs s' = k_procs s ->
  k_disk s' = k_disk s -> bcache i pin own l' s'.
Proof.
  intros BC Hc Hperm Hr Hs Hp Hd.
  assert (forall c, b_valid (k_bufs s' c) = b_valid (k_bufs s c) /\ b_disk (k_bufs s' c) = b_disk (k_bufs s c) /\
    b_dev (k_bufs s' c) = b_dev (k_bufs s c) /\ b_blockno (k_bufs s' c) = b_blockno (k_bufs s c) /\
    b_refcnt (k_bufs s' c) = b_refcnt (k_bufs s c) /\ b_data (k_bufs s' c) = b_data (k_bufs s c)) as H.
  { intros c. specialize (Hc c). destruct (k_bufs s' c), (k_bufs s c). cbn in *. unfold core in Hc. cbn in Hc. by simplify_eq. }
  assert (forall m c, holds_block (k_bufs s') m c <-> holds_block (k_bufs s) m c) as Hiff.
  { intros m c. unfold holds_block. by destruct (H c) as (_ & _ & -> & -> & _). }
  split; rewrite ?Hs, ?Hp, ?Hd;
    try (intros c; destruct (H c) as (E1 & E2 & E3 & E4 & E5 & E6); rewrite ?E1, ?E2, ?E3, ?E4, ?E5, ?E6; apply BC); try apply BC.
  - rewrite Hperm. apply BC.
  - done.
  - intros m x y Hx%Hiff Hy%Hiff. by apply (bc_uniq _ _ _ _ _ BC m).
  - intros m c Hm%Hiff. destruct (H c) as (_ & _ & _ & _ & -> & ->). by apply (bc_clean _ _ _ _ _ BC).
Qed.

Lemma bcache_own_perm i pin own own' l s : own ≡ₚ own' -> bcache i pin own l s -> bcache i pin own' l s.
Proof.
  intros Hp BC. assert (forall b, b ∈ own' <-> b ∈ own) as Hin by (intros b; by rewrite Hp).
  split; try apply BC.
  - intros b Hb%Hin. by apply (bc_own _ _ _ _ _ BC).
  - rewrite <- Hp. apply BC.
  - intros b Hb%Hin. by apply (bc_lock _ _ _ _ _ BC).
  - intros b Hb Ho. apply (bc_free _ _ _ _ _ BC); [done|]. by rewrite <- Hin.
  - intros b Hb. rewrite (bc_ref _ _ _ _ _ BC) by done. f_equal. apply decide_ext. by rewrite Hin.
Qed.

(** The owner unlocks a buffer and drops its reference. *)
Lemma bcache_drop i pin own l s n b s' : bcache i pin (b :: own) l s -> holds_block (k_bufs s) n b ->
  0 < pin b \/ beq (b_data (k_bufs s b)) (k_disk s n) ->
  (forall c, k_bufs s' c = if decide (c = b) then b_set_refcnt (b_refcnt (k_bufs s b) - 1) (k_bufs s b) else k_bufs s c) ->
  (forall l', k_sleeplocks s' l' = if decide (l' = SL_buf b) then mkSleep false 0 else k_sleeplocks s l') ->
  k_disk s' = k_disk s -> p_pid (k_procs s' i) = p_pid (k_procs s i) -> bcache i pin own l s'.
Proof.
  intros BC Hb Hcl Hbufs Hlk Hd Hp. assert (0 <= b < NBUF) as Hr by apply Hb.
  pose proof (bc_nodup _ _ _ _ _ BC) as [Hno Hnd]%NoDup_cons.
  assert (forall c, c <> b -> k_bufs s' c = k_bufs s c) as Hne by (intros c Hc; by rewrite Hbufs, decide_False).
  assert (k_bufs s' b = b_set_refcnt (b_refcnt (k_bufs s b) - 1) (k_bufs s b)) as Heq by (by rewrite Hbufs, decide_True).
  assert (forall m c, holds_block (k_bufs s') m c <-> holds_block (k_bufs s) m c) as Hiff.
  { intros m c. unfold holds_block. rewrite Hbufs. case_decide as D; [rewrite D|]; done. }
  split.
  - apply BC.
  - eapply seg_frame; [apply BC| |]; intros w _; rewrite Hbufs; case_decide as D; [rewrite D|..|rewrite D|]; done.
  - intros m x y Hx%Hiff Hy%Hiff. by apply (bc_uniq _ _ _ _ _ BC m).
  - intros c Hc. destruct (bc_own _ _ _ _ _ BC c) as [H1 H2]; [set_solver|]. rewrite Hne by set_solver. done.
  - done.
  - intros c Hc. rewrite Hlk, Hp, decide_False by (intros [= ->]; done). apply (bc_lock _ _ _ _ _ BC). set_solver.
  - intros c Hc Ho. rewrite Hlk. case_decide as D; [done|]. apply (bc_free _ _ _ _ _ BC); [done|].
    intros [->|?]%elem_of_cons; done.
  - intros c Hc. pose proof (bc_ref _ _ _ _ _ BC c Hc) as E. destruct (decide (c = b)) as [->|D].
    + rewrite Heq. cbn. rewrite decide_True in E by set_solver. rewrite decide_False by done. lia.
    + rewrite Hne, E by done. f_equal. apply decide_ext. set_solver.
  - intros c Hc. destruct (bc_pin _ _ _ _ _ BC c Hc) as [P1 P2]. split; [done|]. intros P3. specialize (P2 P3).
    rewrite Hbufs. case_decide as D; [rewrite <- D|]; done.
  - intros c Hc. pose proof (bc_valid _ _ _ _ _ BC c Hc). rewrite Hbufs. case_decide as D; [rewrite <- D|]; done.
  - intros m c Hc%Hiff Hz. rewrite Hd. destruct (decide (c = b)) as [->|D].
    + rewrite Heq in Hz |- *. cbn in *. assert (m = n) as -> by (destruct Hc as (_ & _ & <-); apply Hb).
      destruct Hcl as [Hcl|Hcl]; [|done]. exfalso. rewrite (bc_ref _ _ _ _ _ BC), decide_True in Hz by (done || set_solver). lia.
    + rewrite Hne in Hz |- * by done. by apply (bc_clean _ _ _ _ _ BC).
  - intros c Hc. pose proof (bc_blockno _ _ _ _ _ BC c Hc). rewrite Hbufs. case_decide as D; [rewrite <- D|]; done.
  - intros c Hc. pose proof (bc_disk _ _ _ _ _ BC c Hc). rewrite Hbufs. case_decide as D; [rewrite <- D|]; done.
Qed.

(** The list surgery of [brelse]. *)
Definition to_front (b : Z) : K unit := bremove b ;; binsert b.

Lemma to_front_run i pin own l s b : bcache i pin own l s -> 0 <= b < NBUF ->
  exists l' s', to_front b s = Ok tt s' /\ s' = k_set_bufs (k_bufs s') s /\
    (forall c, core (k_bufs s' c) = core (k_bufs s c)) /\ bcache i pin own l' s'.
Proof.
  intros BC Hb. pose proof Hb as Hin. apply (bc_in _ _ _ _ _ BC) in Hin. apply list_elem_of_split in Hin as (l1 & l2 & El).
  pose proof (bc_nodup_l _ _ _ _ _ BC) as Hnd. pose proof (bc_ring _ _ _ _ _ BC) as Hr. rewrite El in Hnd, Hr.
  pose proof (ring_remove _ _ _ _ Hnd Hr) as Hr2.
  assert (NoDup (bhead :: b :: l1 ++ l2)) as Hnd2.
  { assert (bhead :: b :: l1 ++ l2 ≡ₚ bhead :: l1 ++ b :: l2) as -> by solve_Permutation. done. }
  pose proof (ring_insert _ b _ Hnd2 Hr2) as Hr3.
  assert (b_next (k_bufs s b) <> b) as Hnx.
  { apply seg_app in Hr as [_ Hr]. rewrite (seg_first _ _ _ _ Hr). apply NoDup_cons in Hnd2 as [Hh Hnd2].
    apply NoDup_cons in Hnd2 as [Hbl _]. destruct l2; cbn; set_solver. }
  set (f1 := unlinked (k_bufs s) b) in *. set (f2 := fronted f1 b) in *.
  exists (b :: l1 ++ l2), (k_set_bufs f2 s). split; [|split; [done|split]].
  - unfold to_front. run (bremove_run b s Hnx). rewrite binsert_run; [done|]. unfold bhead. lia.
  - intros c. cbn. unfold f2, f1. by rewrite core_fronted, core_unlinked.
  - eapply bcache_core; [exact BC| | |exact Hr3|done..].
    + intros c. cbn. unfold f2, f1. by rewrite core_fronted, core_unlinked.
    + rewrite El. solve_Permutation.
Qed.

(** What a step that only moves references and links keeps. *)
Record settled (i : Z) (s s' : kstate) : Prop := {
  sd_calm : calm i s';
  sd_disk : k_disk s' = k_disk s;
  sd_past : k_past s' = k_past s;
  sd_bufs : forall c, exists r, core (k_bufs s' c) = core (b_set_refcnt r (k_bufs s c));
  sd_io : bframe s s'
}.

Lemma settled_data i s s' c : settled i s s' -> b_data (k_bufs s' c) = b_data (k_bufs s c) /\
  b_dev (k_bufs s' c) = b_dev (k_bufs s c) /\ b_blockno (k_bufs s' c) = b_blockno (k_bufs s c).
Proof.
  intros [_ _ _ H _]. destruct (H c) as [r E]. destruct (k_bufs s' c), (k_bufs s c). unfold core in E. cbn in *. by simplify_eq.
Qed.

Lemma settled_holds i s s' m c : settled i s s' -> holds_block (k_bufs s') m c <-> holds_block (k_bufs s) m c.
Proof. intros H. unfold holds_block. by destruct (settled_data _ _ _ c H) as (_ & -> & ->). Qed.

Lemma settled_view i s s' m : settled i s s' -> view s' m = view s m.
Proof.
  intros H. unfold view. rewrite (sd_disk _ _ _ H).
  assert (find (is_block (k_bufs s') ROOTDEV m) (seqZ 0 NBUF) = find (is_block (k_bufs s) ROOTDEV m) (seqZ 0 NBUF)) as ->.
  { induction (seqZ 0 NBUF) as [|c l IH]; [done|]. cbn [find]. unfold is_block at 1 3.
    by destruct (settled_data _ _ _ c H) as (_ & -> & ->); rewrite IH. }
  case_match; [|done]. by destruct (settled_data _ _ _ z H) as (-> & _).
Qed.

Lemma settled_trans i s1 s2 s3 : settled i s1 s2 -> settled i s2 s3 -> settled i s1 s3.
Proof.
  intros [A1 A2 A3 A4 A5] [B1 B2 B3 B4 B5]. split; [done|congruence..| |by eapply bframe_trans].
  intros c. destruct (A4 c) as [r Ea], (B4 c) as [r' Eb]. exists r'. rewrite Eb.
  destruct (k_bufs s1 c), (k_bufs s2 c). unfold core in *. cbn in *. by simplify_eq.
Qed.

Lemma io_frame_bufs g s : io_frame s (k_set_bufs g s).
Proof. split; [by destruct s|intros j; apply proc_keep_refl]. Qed.

Lemma bcache_set_held i pin own l s h : bcache i pin own l s -> bcache i pin own l (k_set_held h s).
Proof. intros BC. by apply (bcache_ext _ _ _ _ s). Qed.

Lemma brelse_ok i pin own l s n b : bcache i pin (b :: own) l s -> calm i s -> holds_block (k_bufs s) n b ->
  0 < pin b \/ beq (b_data (k_bufs s b)) (k_disk s n) ->
  exists l' s', brelse b s = Ok tt s' /\ bcache i pin own l' s' /\ settled i s s'.
Proof.
  intros BC CL Hb Hcl. assert (0 <= b < NBUF) as Hr by apply Hb.
  unfold brelse. pose proof (bc_lock _ _ _ _ _ BC b ltac:(set_solver)) as Hl.
  run (holdingsleep_run i (SL_buf b) s (cl_run _ _ CL) (cl_held _ _ CL) ltac:(by rewrite Hl) ltac:(by rewrite Hl)).
  cbn [negb]. destruct (releasesleep_run i (SL_buf b) s (cl_run _ _ CL) (cl_held _ _ CL)) as (s1 & E1 & [Q1 Q2 Q3 Q4 Q5] & R1 & H1 & L1).
  run E1. run (acquire_ok L_bcache s1 ltac:(rewrite H1; apply not_elem_of_nil)). rewrite H1.
  set (s2 := k_set_held [L_bcache] s1). set (f := fun x => b_set_refcnt (u32 (b_refcnt x - 1)) x).
  run (modify_run (upd_buf b f) s2). set (s3 := upd_buf b f s2). run (buf_of_run b s3).
  assert (f (k_bufs s b) = b_set_refcnt (b_refcnt (k_bufs s b) - 1) (k_bufs s b)) as Ef.
  { unfold f. pose proof (bc_ref _ _ _ _ _ BC b Hr) as E. rewrite decide_True in E by set_solver.
    pose proof (proj1 (bc_pin _ _ _ _ _ BC b Hr)). rewrite u32_small; [done|lia]. }
  assert (forall c, k_bufs s3 c = if decide (c = b) then b_set_refcnt (b_refcnt (k_bufs s b) - 1) (k_bufs s b) else k_bufs s c) as B3.
  { intros c. unfold s3, upd_buf, s2. cbn [k_bufs k_set_bufs k_set_held]. rewrite fupd_cases, Q2. case_decide; [done|done]. }
  assert (bcache i pin own l s3) as BC3.
  { eapply bcache_drop; [exact BC|exact Hb|done|done|done|done|]. apply (io_frame_pid s s1 i Q1). }
  assert (exists l' g, (if b_refcnt (k_bufs s3 b) =? 0 then to_front b else ret tt) s3 = Ok tt (k_set_bufs g s3) /\
    (forall c, core (g c) = core (k_bufs s3 c)) /\ bcache i pin own l' (k_set_bufs g s3)) as (l' & g & E4 & C4 & BC4).
  { destruct (b_refcnt (k_bufs s3 b) =? 0).
    - destruct (to_front_run i pin own l s3 b BC3 Hr) as (l' & s4 & E4 & E5 & C4 & BC4). exists l', (k_bufs s4).
      by rewrite <- E5.
    - exists l, (k_bufs s3). assert (k_set_bufs (k_bufs s3) s3 = s3) as -> by (by destruct s3). done. }
  unfold to_front in E4. run E4. rewrite (release_head L_bcache []) by done.
  exists l', (k_set_held [] (k_set_bufs g s3)). split; [done|]. split; [by apply bcache_set_held|].
  assert (k_set_held [] (k_set_bufs g s3) = k_set_bufs g s1) as ->.
  { transitivity (k_set_bufs g (k_set_held [] s1)); [done|by rewrite held_nil]. }
  split; [|done|done| |].
  - destruct R1. split; [by split|done|]. cbn. rewrite Q5. apply CL.
  - intros c. cbn. rewrite C4, B3. case_decide as D; [rewrite D; eauto|].
    exists (b_refcnt (k_bufs s c)). by destruct (k_bufs s c).
  - split; [eapply io_frame_trans; [exact Q1|apply io_frame_bufs]|]. intros ip. cbn. by rewrite L1.
Qed.

(** The log's references. *)
Lemma bcache_pin i pin pin' own l s b v s' : bcache i pin own l s -> b ∈ own -> 0 <= v < 0x80000000 ->
  (forall c, pin' c = if decide (c = b) then v else pin c) ->
  (forall c, k_bufs s' c = if decide (c = b) then b_set_refcnt (v + 1) (k_bufs s b) else k_bufs s c) ->
  k_sleeplocks s' = k_sleeplocks s -> k_procs s' = k_procs s -> k_disk s' = k_disk s -> bcache i pin' own l s'.
Proof.
  intros BC Ho Hv Hpin Hbufs Hl Hp Hd. destruct (bc_own _ _ _ _ _ BC b Ho) as [Hr Hdev].
  assert (forall m c, holds_block (k_bufs s') m c <-> holds_block (k_bufs s) m c) as Hiff.
  { intros m c. unfold holds_block. rewrite Hbufs. case_decide as D; [rewrite D|]; done. }
  split; rewrite ?Hl, ?Hp, ?Hd; try apply BC.
  - eapply seg_frame; [apply BC| |]; intros w _; rewrite Hbufs; case_decide as D; [rewrite D|..|rewrite D|]; done.
  - intros m x y Hx%Hiff Hy%Hiff. by apply (bc_uniq _ _ _ _ _ BC m).
  - intros c Hc. pose proof (bc_own _ _ _ _ _ BC c Hc). rewrite Hbufs. case_decide as D; [rewrite <- D|]; done.
  - intros c Hc. rewrite Hpin, Hbufs. case_decide as D; [rewrite D, decide_True by done; cbn; lia|]. by apply (bc_ref _ _ _ _ _ BC).
  - intros c Hc. destruct (bc_pin _ _ _ _ _ BC c Hc) as [P1 P2]. rewrite Hpin, Hbufs.
    case_decide as D; [split; [done|intros _; exact Hdev]|done].
  - intros c Hc. pose proof (bc_valid _ _ _ _ _ BC c Hc). rewrite Hbufs. case_decide as D; [rewrite <- D|]; done.
  - intros m c Hm%Hiff. rewrite Hbufs. case_decide as D; [cbn; lia|]. by apply (bc_clean _ _ _ _ _ BC).
  - intros c Hc. pose proof (bc_blockno _ _ _ _ _ BC c Hc). rewrite Hbufs. case_decide as D; [rewrite <- D|]; done.
  - intros c Hc. pose proof (bc_disk _ _ _ _ _ BC c Hc). rewrite Hbufs. case_decide as D; [rewrite <- D|]; done.
Qed.

Lemma refcnt_run i pin own l s b d (f := fun x => b_set_refcnt (u32 (b_refcnt x + d)) x) :
  bcache i pin own l s -> calm i s -> b ∈ own -> 0 <= pin b + d < 0x80000000 ->
  exists s', (acquire L_bcache ;; modify (upd_buf b f) ;; release L_bcache) s = Ok tt s' /\
    bcache i (fupd pin b (pin b + d)) own l s' /\ settled i s s'.
Proof.
  intros BC CL Ho Hv. destruct (bc_own _ _ _ _ _ BC b Ho) as [Hr Hdev].
  rewrite (crit_ok L_bcache (upd_buf b f)); [|rewrite (cl_held _ _ CL); apply not_elem_of_nil|done].
  change (k_held s) with (k_held (upd_buf b f s)). rewrite k_set_held_id. eexists. split; [reflexivity|].
  assert (f (k_bufs s b) = b_set_refcnt (pin b + d + 1) (k_bufs s b)) as Ef.
  { unfold f. rewrite (bc_ref _ _ _ _ _ BC), decide_True by done.
    replace (pin b + 1 + d) with (pin b + d + 1) by lia. rewrite u32_small; [done|lia]. }
  split.
  - eapply bcache_pin; [exact BC|exact Ho|exact Hv|intros c; apply fupd_cases| |done..].
    intros c. cbn. rewrite fupd_cases. case_decide; [done|done].
  - split; [by apply calm_data|done|done| |split; [apply (touched_upd b f s)|done]].
    intros c. cbn. rewrite fupd_cases. case_decide as D; [rewrite D; unfold f; eauto|].
    exists (b_refcnt (k_bufs s c)). by destruct (k_bufs s c).
Qed.

Lemma bpin_ok i pin own l s b : bcache i pin own l s -> calm i s -> b ∈ own -> pin b < 0x7fffffff ->
  exists s', bpin b s = Ok tt s' /\ bcache i (fupd pin b (pin b + 1)) own l s' /\ settled i s s'.
Proof.
  intros BC CL Ho Hp. destruct (bc_own _ _ _ _ _ BC b Ho) as [Hr _]. pose proof (proj1 (bc_pin _ _ _ _ _ BC b Hr)).
  apply refcnt_run; [done|done|done|lia].
Qed.

Lemma bunpin_ok i pin own l s b : bcache i pin own l s -> calm i s -> b ∈ own -> 0 < pin b ->
  exists s', bunpin b s = Ok tt s' /\ bcache i (fupd pin b (pin b + -1)) own l s' /\ settled i s s'.
Proof.
  intros BC CL Ho Hp. destruct (bc_own _ _ _ _ _ BC b Ho) as [Hr _]. pose proof (proj1 (bc_pin _ _ _ _ _ BC b Hr)).
  apply (refcnt_run i pin own l s b (-1)); [done|done|done|lia].
Qed.
End interface.
