(* ===== verification/Blocks.v ===== *)
(** * Blocks as the log and the file system use them

    The buffer cache abstracted to block contents.  [blocks i pb own V D P s]
    says: process [i] is running with no spinlock held and the driver idle, it
    owns the buffers [own] (pairs of buffer and block), the log pins the
    blocks [pb], every block [m] reads as [V m], the disk contains [D], and
    [P] lists the earlier contents of the disk.  Each operation of bio.c has
    one rule. *)

From S2P Require Import Prelude Riscv Mem KState Sched Virtio DiskSpec Bio BioSpec.

Definition contents : Type := Z -> Z -> Z.

Record blocks (i : Z) (pb : list Z) (own : list (Z * Z)) (V D : contents) (P : list contents) (s : kstate) : Prop := {
  bl_cache : exists pin l, bcache i pin own.*1 l s /\
    (forall b, 0 <= b < NBUF -> pin b = if decide (b_dev (k_bufs s b) = ROOTDEV /\ b_blockno (k_bufs s b) ∈ pb) then 1 else 0);
  bl_calm : calm i s;
  bl_own : forall b n, (b, n) ∈ own -> holds_block (k_bufs s) n b;
  bl_pins : forall m, m ∈ pb -> exists b, holds_block (k_bufs s) m b;
  bl_view : forall m, beq (view s m) (V m);
  bl_disk : k_disk s = D;
  bl_past : k_past s = P
}.

(** Blocks nobody changes read as they are on disk. *)
Lemma blocks_clean i pb own V D P s m : blocks i pb own V D P s -> m ∉ pb -> m ∉ own.*2 -> beq (V m) (D m).
Proof.
  intros [(pin & l & BC & Hpin) _ Hown _ HV HD _] Hm Ho. rewrite <- (HV m), <- HD.
  destruct (cached_dec s m) as [[b Hb]|Hc]; [|by rewrite view_uncached].
  rewrite (view_cached _ _ _ _ _ BC m b Hb). apply (bc_clean _ _ _ _ _ BC); [done|].
  rewrite (bc_ref _ _ _ _ _ BC), Hpin by apply Hb. rewrite !decide_False; [done| |].
  - intros ([b' n] & -> & Hin)%list_elem_of_fmap. pose proof (Hown _ _ Hin) as H. cbn in *.
    assert (n = m) as -> by (destruct H as (_ & _ & <-); apply Hb). apply Ho, list_elem_of_fmap. by exists (b', m).
  - intros [_ H]. apply Hm. by destruct Hb as (_ & _ & <-).
Qed.

(** Enough unused buffers. *)
Lemma blocks_room i pb own V D P s n : blocks i pb own V D P s ->
  n ∈ pb \/ Z.of_nat (length pb + length own) < NBUF -> room s n.
Proof.
  intros [(pin & l & BC & Hpin) _ _ Hpb _ _ _] [Hn|Hlen]; [left; auto|]. right.
  destruct (find (is_unused (k_bufs s)) (seqZ 0 NBUF)) as [b|] eqn:E.
  { apply find_some in E as [E1 E2]. apply list_elem_of_In, in_bufs in E1. exists b. unfold is_unused in E2. split; [done|lia]. }
  exfalso. pose proof (find_none _ _ E) as Hused. unfold is_unused in Hused.
  set (holder := fun m => default 0 (find (is_block (k_bufs s) ROOTDEV m) (seqZ 0 NBUF))).
  assert (forall b, b ∈ seqZ 0 NBUF -> b ∈ own.*1 ++ map holder pb) as Hsub.
  { intros b Hb. pose proof (Hused b ltac:(by apply list_elem_of_In)) as Hr. apply in_bufs in Hb. apply Z.eqb_neq in Hr.
    rewrite (bc_ref _ _ _ _ _ BC), Hpin in Hr by done. apply elem_of_app.
    destruct (decide (b ∈ own.*1)) as [|Ho]; [by left|]. right. case_decide as Dp; [|lia]. destruct Dp as [D1 D2].
    apply list_elem_of_fmap. exists (b_blockno (k_bufs s b)). split; [|done]. unfold holder.
    destruct (find (is_block _ _ _) _) as [c|] eqn:Ec.
    - apply find_block in Ec as [_ Hc]; [|intros; by apply in_bufs]. by apply (bc_uniq _ _ _ _ _ BC (b_blockno (k_bufs s b))).
    - exfalso. eapply find_no_block; [exact Ec| |]; [by apply in_bufs|done]. }
  pose proof (NoDup_submseteq _ _ (NoDup_seqZ 0 NBUF) Hsub) as Hle%submseteq_length.
  rewrite length_seqZ, length_app, length_fmap, length_map in Hle. unfold NBUF, MAXOPBLOCKS in *. lia.
Qed.

(** As many pinned blocks as buffers: each buffer holds one. *)
Lemma pinned_all i pin own l s pb : bcache i pin own l s -> NoDup pb -> Z.of_nat (length pb) = NBUF ->
  (forall m, m ∈ pb -> exists b, holds_block (k_bufs s) m b) ->
  forall b, 0 <= b < NBUF -> exists m, m ∈ pb /\ holds_block (k_bufs s) m b.
Proof.
  intros BC Hnd Hlen Hpb b Hb.
  set (holder := fun m => default 0 (find (is_block (k_bufs s) ROOTDEV m) (seqZ 0 NBUF))).
  assert (forall m, m ∈ pb -> holds_block (k_bufs s) m (holder m)) as Hh.
  { intros m Hm. destruct (Hpb m Hm) as [c Hc]. unfold holder. destruct (find (is_block _ _ _) _) as [x|] eqn:E.
    - apply find_block in E as [_ Hx]; [done|intros; by apply in_bufs].
    - exfalso. eapply find_no_block; [exact E| |exact Hc]. apply in_bufs, Hc. }
  assert (NoDup (map holder pb)) as Hnd'.
  { apply NoDup_fmap_2_strong; [|done]. intros x y Hx Hy E. pose proof (Hh x Hx) as (_ & _ & <-). rewrite E. by apply Hh. }
  assert (map holder pb ≡ₚ seqZ 0 NBUF) as Hp.
  { apply submseteq_length_Permutation; [|rewrite length_map, length_seqZ; lia]. apply NoDup_submseteq; [done|].
    intros x (m & -> & Hm)%list_elem_of_fmap. apply in_bufs, (Hh m Hm). }
  assert (b ∈ map holder pb) as (m & -> & Hm)%list_elem_of_fmap by (rewrite Hp; by apply in_bufs).
  exists m. split; [done|]. by apply Hh.
Qed.

Section rules.
Context {ENV : Env} {DSK : Disk}.

Lemma bread_rule_room i pb own V D P s n : blocks i pb own V D P s -> 0 <= n < 0x80000000 -> n ∉ own.*2 ->
  room s n ->
  exists b s', bread ROOTDEV n s = Ok b s' /\ blocks i pb ((b, n) :: own) V D P s' /\ bframe s s' /\ b ∉ own.*1.
Proof.
  intros B Hn Ho Hroom. destruct B as [(pin & l & BC & Hpin) CL Hown Hpb HV HD HP].
  destruct (bread_ok i pin own.*1 l s n BC CL Hn) as (b & s' & E & [C1 C2 C3 C4 C5 C6 C7 C8 C9 C10 C11]); [|done|].
  { intros b ([b' n'] & -> & Hin)%list_elem_of_fmap Hb. pose proof (Hown _ _ Hin) as H. cbn in *.
    apply Ho, list_elem_of_fmap. exists (b', n'). split; [|done]. cbn. destruct H as (_ & _ & <-). symmetry. apply Hb. }
  assert (forall m c, c <> b -> holds_block (k_bufs s) m c -> holds_block (k_bufs s') m c) as Hkeep.
  { intros m c Hc. unfold holds_block. by rewrite C9. }
  exists b, s'. split; [done|]. split; [|done]. split; [|done| | | |congruence|congruence].
  - exists pin, l. split; [done|]. intros c Hc. destruct (decide (c = b)) as [->|Db].
    2:{ rewrite C9 by done. by apply Hpin. }
    rewrite Hpin by done. pose proof C4 as (_ & D1 & D2). rewrite D1, D2. destruct C10 as [H|H].
    + destruct H as (_ & D3 & D4). apply decide_ext. rewrite D3, D4. tauto.
    + assert (pin b = 0) as Hz.
      { rewrite (bc_ref _ _ _ _ _ BC) in H by done. pose proof (proj1 (bc_pin _ _ _ _ _ BC b Hc)). case_decide; lia. }
      rewrite Hpin in Hz by done. rewrite Hz. destruct (decide (n ∈ pb)) as [Dp|Dp]; [exfalso|rewrite decide_False; tauto].
      destruct (Hpb n Dp) as [c Hcn]. destruct (decide (c = b)) as [->|Dc].
      * destruct Hcn as (_ & D3 & D4). rewrite D3, D4, decide_True in Hz by done. lia.
      * apply Dc. eapply (bc_uniq _ _ _ _ _ C1 n); [by apply Hkeep|done].
  - intros c m [[= -> ->]|Hin]%elem_of_cons; [done|]. apply Hkeep; [|by apply Hown].
    intros ->. apply C3, list_elem_of_fmap. by exists (b, m).
  - intros m Hm. destruct (Hpb m Hm) as [c Hc]. destruct (decide (c = b)) as [->|Dc]; [|eauto].
    exists b. destruct C10 as [H|H].
    + assert (m = n) as -> by (destruct Hc as (_ & _ & <-); apply H). done.
    + exfalso. rewrite (bc_ref _ _ _ _ _ BC), Hpin in H by apply Hc. destruct Hc as (_ & Hc1 & Hc2).
      rewrite Hc1, Hc2, decide_True in H by done. case_decide; lia.
  - intros m. rewrite (C6 m). apply HV.
Qed.

Lemma bread_rule i pb own V D P s n : blocks i pb own V D P s -> 0 <= n < 0x80000000 -> n ∉ own.*2 ->
  n ∈ pb \/ Z.of_nat (length pb + length own) < NBUF ->
  exists b s', bread ROOTDEV n s = Ok b s' /\ blocks i pb ((b, n) :: own) V D P s' /\ bframe s s' /\ b ∉ own.*1.
Proof. intros B Hn Ho Hr. apply bread_rule_room; [done|done|done|]. by eapply blocks_room. Qed.

Lemma bread_rule_full i pb own V D P s n : blocks i pb own V D P s -> ~ room s n ->
  bread ROOTDEV n s = Panic "bget: no buffers".
Proof. intros [(pin & l & BC & _) CL _ _ _ _ _]. by apply (bread_panics i pin own.*1 l). Qed.

Lemma blocks_perm i pb own own' V D P s : own ≡ₚ own' -> blocks i pb own V D P s -> blocks i pb own' V D P s.
Proof.
  intros Hp [(pin & l & BC & Hpin) CL Hown Hpb HV HD HP]. split; try done.
  - exists pin, l. split; [|done]. eapply bcache_own_perm; [|exact BC]. by apply fmap_Permutation.
  - intros b n H. apply Hown. by rewrite Hp.
Qed.

Lemma blocks_view_ext i pb own V V' D P s : (forall m, beq (V m) (V' m)) ->
  blocks i pb own V D P s -> blocks i pb own V' D P s.
Proof. intros H [A B C E F G I]. split; try done. intros m. by rewrite <- (H m). Qed.

(** The owner writes into a buffer. *)
Lemma data_rule i pb own V D P s b n d : blocks i pb own V D P s -> (b, n) ∈ own ->
  blocks i pb own (fupd V n d) D P (upd_buf b (b_set_data d) s) /\ bframe s (upd_buf b (b_set_data d) s).
Proof.
  intros [(pin & l & BC & Hpin) CL Hown Hpb HV HD HP] Hin. pose proof (Hown _ _ Hin) as Hb.
  assert (b ∈ own.*1) as Ho by (apply list_elem_of_fmap; by exists (b, n)).
  assert (forall m c, holds_block (k_bufs (upd_buf b (b_set_data d) s)) m c <-> holds_block (k_bufs s) m c) as Hiff.
  { intros m c. unfold holds_block. cbn. rewrite fupd_cases. case_decide as E; [rewrite E|]; done. }
  split; [split|].
  - exists pin, l. split; [by apply bcache_data|]. intros c Hc. rewrite Hpin by done. apply decide_ext. cbn.
    rewrite fupd_cases. case_decide as E; [rewrite E|]; done.
  - by apply calm_data.
  - intros c m H%Hown. by apply Hiff.
  - intros m H. destruct (Hpb m H) as [c Hc]. exists c. by apply Hiff.
  - intros m. rewrite (view_data i pin own.*1 l s b d n m BC Ho Hb), fupd_cases. case_decide; [done|apply HV].
  - done.
  - done.
  - split; [apply (touched_upd b (b_set_data d) s)|done].
Qed.

Lemma bwrite_rule i pb own V D P s b n : blocks i pb own V D P s -> (b, n) ∈ own ->
  exists s' X, bwrite b s = Ok tt s' /\ beq X (V n) /\ blocks i pb own V (fupd D n X) (D :: P) s' /\ bframe s s' /\
    (forall c, k_bufs s' c = k_bufs s c).
Proof.
  intros [(pin & l & BC & Hpin) CL Hown Hpb HV HD HP] Hin. pose proof (Hown _ _ Hin) as Hb.
  assert (b ∈ own.*1) as Ho by (apply list_elem_of_fmap; by exists (b, n)).
  destruct (bwrite_ok i pin own.*1 l s n b BC CL Ho Hb) as (s' & E & BC' & CL' & Hbufs & HD' & HP' & F).
  exists s', (block_of (b_data (k_bufs s b)) (k_disk s n)). split; [done|].
  assert (beq (block_of (b_data (k_bufs s b)) (k_disk s n)) (V n)) as HX.
  { rewrite beq_block_of, <- (view_cached _ _ _ _ _ BC n b Hb). apply HV. }
  assert (forall m c, holds_block (k_bufs s') m c <-> holds_block (k_bufs s) m c) as Hiff.
  { intros m c. unfold holds_block. by rewrite Hbufs. }
  split; [done|]. split; [|done]. split; [|done| | | |by rewrite HD', HD|by rewrite HP', HD, HP].
  - exists pin, l. split; [done|]. intros c Hc. rewrite Hpin by done. apply decide_ext. by rewrite Hbufs.
  - intros c m H%Hown. by apply Hiff.
  - intros m H. destruct (Hpb m H) as [c Hc]. exists c. by apply Hiff.
  - intros m. rewrite <- (HV m). destruct (decide (m = n)) as [->|Dm].
    + by rewrite (view_cached _ _ _ _ _ BC' n b (proj2 (Hiff n b) Hb)), (view_cached _ _ _ _ _ BC n b Hb), Hbufs.
    + rewrite (view_ext s s' m Hbufs); [done|]. by rewrite HD', fupd_ne.
Qed.

(** Steps that only move references. *)
Lemma blocks_settled i pb pb' own own' V D P s s' pin l : settled i s s' -> blocks i pb own V D P s ->
  bcache i pin own'.*1 l s' -> (forall x, x ∈ own' -> x ∈ own) -> (forall m, m ∈ pb' -> m ∈ pb \/ m ∈ own.*2) ->
  (forall b, 0 <= b < NBUF -> pin b = if decide (b_dev (k_bufs s b) = ROOTDEV /\ b_blockno (k_bufs s b) ∈ pb') then 1 else 0) ->
  blocks i pb' own' V D P s' /\ bframe s s'.
Proof.
  intros ST [_ CL Hown Hpb HV HD HP] BC' Hsub Hsub' Hpin. split; [|apply ST]. split; [| | | | |by rewrite (sd_disk _ _ _ ST)|by rewrite (sd_past _ _ _ ST)].
  - exists pin, l. split; [done|]. intros c Hc. rewrite Hpin by done. apply decide_ext.
    by destruct (settled_data _ _ _ c ST) as (_ & -> & ->).
  - apply ST.
  - intros b n H%Hsub%Hown. by apply (settled_holds _ _ _ _ _ ST).
  - intros m [H|([b n] & -> & H)%list_elem_of_fmap]%Hsub'.
    + destruct (Hpb m H) as [c Hc]. exists c. by apply (settled_holds _ _ _ _ _ ST).
    + exists b. by apply (settled_holds _ _ _ _ _ ST), Hown.
  - intros m. by rewrite (settled_view _ _ _ _ ST).
Qed.

Lemma brelse_rule i pb own V D P s b n : blocks i pb ((b, n) :: own) V D P s ->
  n ∈ pb \/ beq (V n) (D n) ->
  exists s', brelse b s = Ok tt s' /\ blocks i pb own V D P s' /\ bframe s s'.
Proof.
  intros B Hcl. pose proof B as [(pin & l & BC & Hpin) CL Hown Hpb HV HD HP].
  pose proof (Hown b n ltac:(set_solver)) as Hb.
  destruct (brelse_ok i pin own.*1 l s n b BC CL Hb) as (l' & s' & E & BC' & ST).
  { destruct Hcl as [Hcl|Hcl].
    - left. rewrite Hpin by apply Hb. rewrite decide_True; [lia|]. destruct Hb as (_ & -> & ->). done.
    - right. rewrite HD, <- Hcl, <- (HV n). by rewrite (view_cached _ _ _ _ _ BC n b Hb). }
  exists s'. split; [done|]. eapply blocks_settled; [exact ST|exact B|exact BC'|set_solver|auto|done].
Qed.

Lemma bpin_rule i pb own V D P s b n : blocks i pb own V D P s -> (b, n) ∈ own -> n ∉ pb ->
  exists s', bpin b s = Ok tt s' /\ blocks i (n :: pb) own V D P s' /\ bframe s s'.
Proof.
  intros B Hin Hn. pose proof B as [(pin & l & BC & Hpin) CL Hown Hpb HV HD HP].
  pose proof (Hown b n Hin) as Hb. assert (b ∈ own.*1) as Ho by (apply list_elem_of_fmap; by exists (b, n)).
  assert (pin b = 0) as Hz.
  { rewrite Hpin by apply Hb. rewrite decide_False; [done|]. intros [_ H]. apply Hn. by destruct Hb as (_ & _ & <-). }
  destruct (bpin_ok i pin own.*1 l s b BC CL Ho ltac:(lia)) as (s' & E & BC' & ST).
  exists s'. split; [done|]. eapply blocks_settled; [exact ST|exact B|exact BC'|done| |].
  - intros m [->|H]%elem_of_cons; [right|by left]. apply list_elem_of_fmap. by exists (b, n).
  - intros c Hc. rewrite fupd_cases. case_decide as Dc.
    + subst c. rewrite Hz, decide_True; [done|]. destruct Hb as (_ & -> & ->). set_solver.
    + rewrite Hpin by done. apply decide_ext. rewrite elem_of_cons. split; [tauto|]. intros [H1 [H2|H2]]; [|done].
      exfalso. apply Dc. eapply (bc_uniq _ _ _ _ _ BC n); [by split|done].
Qed.

Lemma bunpin_rule i pb own V D P s b n : blocks i (n :: pb) own V D P s -> (b, n) ∈ own -> n ∉ pb ->
  exists s', bunpin b s = Ok tt s' /\ blocks i pb own V D P s' /\ bframe s s'.
Proof.
  intros B Hin Hn. pose proof B as [(pin & l & BC & Hpin) CL Hown Hpb HV HD HP].
  pose proof (Hown b n Hin) as Hb. assert (b ∈ own.*1) as Ho by (apply list_elem_of_fmap; by exists (b, n)).
  assert (pin b = 1) as Hz.
  { rewrite Hpin by apply Hb. rewrite decide_True; [done|]. destruct Hb as (_ & -> & ->). set_solver. }
  destruct (bunpin_ok i pin own.*1 l s b BC CL Ho ltac:(lia)) as (s' & E & BC' & ST).
  exists s'. split; [done|]. eapply blocks_settled; [exact ST|exact B|exact BC'|done|set_solver|].
  intros c Hc. rewrite fupd_cases. case_decide as Dc.
  - subst c. rewrite Hz, decide_False; [done|]. destruct Hb as (_ & _ & ->). tauto.
  - rewrite Hpin by done. apply decide_ext. rewrite elem_of_cons. split; [|tauto]. intros [H1 [H2|H2]]; [|done].
    exfalso. apply Dc. eapply (bc_uniq _ _ _ _ _ BC n); [by split|done].
Qed.

Lemma blocks_pb_perm i pb pb' own V D P s : pb ≡ₚ pb' -> blocks i pb own V D P s -> blocks i pb' own V D P s.
Proof.
  intros Hp [(pin & l & BC & Hpin) CL Hown Hpb HV HD HP]. split; try done.
  - exists pin, l. split; [done|]. intros c Hc. rewrite Hpin by done. apply decide_ext. by rewrite Hp.
  - intros m H. apply Hpb. by rewrite Hp.
Qed.
End rules.

(** * The buffer cache after boot

    [binit] links the buffers of a zeroed [bcache] and leaves the invariant
    of the cache with no block cached, every block reading as it is on disk. *)

(** [struct buf] as C's zero initialisation leaves it. *)
Definition zeroed (x : buf) : Prop :=
  b_valid x = false /\ b_disk x = false /\ b_dev x = 0 /\ b_blockno x = 0 /\ b_refcnt x = 0.

Lemma zeroed_core x y : core x = core y -> zeroed y -> zeroed x.
Proof. unfold zeroed. destruct x, y. cbn. intros [= <- <- <- <- <- <-]. done. Qed.

Lemma initsleeplock_run l s : k_held s = [] ->
  initsleeplock l s = Ok tt (upd_sleeplock l (fun _ => mkSleep false 0) s).
Proof. intros Hh. unfold initsleeplock, initlock, bind, modify. destruct s. cbn in *. by subst. Qed.

(** The loop body of [binit]. *)
Lemma binit_one_run b s : k_held s = [] -> b <> bhead ->
  (h <- buf_of bhead ;; set_next b (b_next h) ;; set_prev b bhead ;; initsleeplock (SL_buf b) ;;
   h <- buf_of bhead ;; set_prev (b_next h) b ;; set_next bhead b) s =
  Ok tt (k_set_bufs (fronted (k_bufs s) b) (upd_sleeplock (SL_buf b) (fun _ => mkSleep false 0) s)).
Proof.
  intros Hh Hn. run (buf_of_run bhead s). set (n := b_next (k_bufs s bhead)).
  unfold set_next at 1. run (modify_run (upd_buf b (b_set_next n)) s). set (s1 := upd_buf b (b_set_next n) s).
  unfold set_prev at 1. run (modify_run (upd_buf b (b_set_prev bhead)) s1). set (s2 := upd_buf b (b_set_prev bhead) s1).
  run (initsleeplock_run (SL_buf b) s2 Hh). set (s3 := upd_sleeplock _ _ s2). run (buf_of_run bhead s3).
  assert (b_next (k_bufs s3 bhead) = n) as -> by (unfold s3, s2, s1; cbn; by rewrite !fupd_ne). done.
Qed.

Lemma binit_loop s : k_held s = [] -> ring (k_bufs s) [] ->
  exists s', for_each (seqZ 0 NBUF) (fun b =>
      h <- buf_of bhead ;; set_next b (b_next h) ;; set_prev b bhead ;; initsleeplock (SL_buf b) ;;
      h <- buf_of bhead ;; set_prev (b_next h) b ;; set_next bhead b) s = Ok tt s' /\
    (exists l, l ≡ₚ seqZ 0 NBUF /\ ring (k_bufs s') l) /\ (forall c, core (k_bufs s' c) = core (k_bufs s c)) /\
    (forall b, 0 <= b < NBUF -> k_sleeplocks s' (SL_buf b) = mkSleep false 0) /\
    s' = k_set_bufs (k_bufs s') (k_set_sleeplocks (k_sleeplocks s') s).
Proof.
  intros Hh Hr. eapply (for_each_seqZ (fun k s' => (exists l, l ≡ₚ seqZ 0 k /\ ring (k_bufs s') l) /\
    (forall c, core (k_bufs s' c) = core (k_bufs s c)) /\ (forall b, 0 <= b < k -> k_sleeplocks s' (SL_buf b) = mkSleep false 0) /\
    s' = k_set_bufs (k_bufs s') (k_set_sleeplocks (k_sleeplocks s') s)) _ NBUF); [done| |].
  - intros k s1 Hk ((l & Hl & Hrl) & Hc & Hs & E).
    assert (k_held s1 = []) as Hh1 by by rewrite E. assert (k <> bhead) as Hkb by (unfold bhead; lia).
    eexists. split; [by apply binit_one_run|]. split; [|split; [|split]].
    + exists (k :: l). split.
      * rewrite Hl. rewrite (seqZ_app 0 k 1) by lia. by rewrite Permutation_app_comm.
      * apply ring_insert; [|done]. rewrite Hl. repeat (apply NoDup_cons; split); [| |apply NoDup_seqZ].
        -- rewrite elem_of_cons, elem_of_seqZ. unfold bhead in *. lia.
        -- rewrite elem_of_seqZ. lia.
    + intros c. cbn. by rewrite core_fronted, Hc.
    + intros b Hb. cbn. case_decide as D; [done|]. apply Hs. destruct (decide (b = k)); [by subst|lia].
    + rewrite E. by destruct s.
  - split; [exists []; split; [by rewrite seqZ_nil|done]|]. split; [done|]. split; [lia|]. by destruct s.
Qed.

(** [binit] on zeroed buffers. *)
Lemma binit_ok i s : k_held s = [] -> (forall b, 0 <= b < NBUF -> zeroed (k_bufs s b)) ->
  exists s', binit s = Ok tt s' /\ (exists l, bcache i (fun _ => 0) [] l s') /\
    (forall b, 0 <= b < NBUF -> zeroed (k_bufs s' b)) /\
    s' = k_set_bufs (k_bufs s') (k_set_sleeplocks (k_sleeplocks s') s).
Proof.
  intros Hh Hz. unfold binit. assert (initlock L_bcache s = Ok tt s) as E0.
  { unfold initlock, modify. destruct s. cbn in *. by subst. }
  run E0. unfold set_prev at 1. run (modify_run (upd_buf bhead (b_set_prev bhead)) s).
  set (s1 := upd_buf bhead (b_set_prev bhead) s). unfold set_next at 1. run (modify_run (upd_buf bhead (b_set_next bhead)) s1).
  set (s2 := upd_buf bhead (b_set_next bhead) s1).
  assert (ring (k_bufs s2) []) as Hr by (cbn; rewrite !fupd_eq; done).
  destruct (binit_loop s2 Hh Hr) as (s' & E & (l & Hl & Hrl) & Hc & Hs & Es).
  assert (forall b, 0 <= b < NBUF -> zeroed (k_bufs s' b)) as Hz'.
  { intros b Hb. apply (zeroed_core _ (k_bufs s b)); [|by apply Hz]. rewrite Hc. cbn. rewrite !fupd_ne by (unfold bhead; lia). done. }
  assert (forall n b, ~ holds_block (k_bufs s' ) n b) as Hno.
  { intros n b (Hb & Hd & _). destruct (Hz' b Hb) as (_ & _ & Hd' & _). by rewrite Hd in Hd'. }
  exists s'. split; [done|]. split; [|split; [done|rewrite Es; by destruct s]]. exists l. split; try done.
  - intros n b c Hb. by destruct (Hno n b).
  - intros b Hb. by apply not_elem_of_nil in Hb.
  - constructor.
  - intros b Hb. by apply not_elem_of_nil in Hb.
  - intros b Hb _. by rewrite Hs.
  - intros b Hb. rewrite decide_False by apply not_elem_of_nil. by destruct (Hz' b Hb) as (_ & _ & _ & _ & ->).
  - intros b Hb. destruct (Hz' b Hb) as (Hv & _ & Hd & _). by rewrite Hv, Hd.
  - intros n b Hb. by destruct (Hno n b).
  - intros b Hb. by destruct (Hz' b Hb) as (_ & _ & _ & -> & _).
  - intros b Hb. by destruct (Hz' b Hb) as (_ & -> & _).
Qed.

(** The empty cache reads as the disk. *)
Lemma blocks_boot i s l : calm i s -> bcache i (fun _ => 0) [] l s -> (forall b, 0 <= b < NBUF -> zeroed (k_bufs s b)) ->
  blocks i [] [] (k_disk s) (k_disk s) (k_past s) s.
Proof.
  intros C B Hz.
  assert (forall n b, ~ holds_block (k_bufs s) n b) as Hno.
  { intros n b (Hb & Hd & _). destruct (Hz b Hb) as (_ & _ & Hd' & _). by rewrite Hd in Hd'. }
  split; try done.
  - exists (fun _ => 0), l. split; [done|]. intros b _. rewrite decide_False; [done|]. intros [_ H]. by apply not_elem_of_nil in H.
  - intros b n Hb. by apply not_elem_of_nil in Hb.
  - intros m Hm. by apply not_elem_of_nil in Hm.
  - intros m. by rewrite view_uncached.
Qed.
