(* ===== verification/Log.v ===== *)
(** * kernel/log.c

    The write-ahead log.  A transaction's blocks are first copied to the log
    area, then the header block is written, which commits them, then they are
    copied to their home locations, and the header is cleared.  [struct
    logheader] is four bytes of [n] followed by the block numbers. *)

From S2P Require Import Prelude Riscv Mem KState Sched Virtio Bio.

Definition LOGSZ : Z := 4 * (LOGBLOCKS + 1).

(** Words of a buffer's data. *)
Definition bget32 (b off : Z) : K Z := gets (fun s => load32 (b_data (k_bufs s b)) off).
Definition bput32 (b off v : Z) : K unit :=
  modify (upd_buf b (fun x => b_set_data (store32 (b_data x) off v) x)).

(** [memmove(d->data, a->data, BSIZE)]. *)
Definition copy_data (d a : Z) : K unit :=
  modify (fun s => upd_buf d (fun x => b_set_data
    (fun i => if in_range 0 BSIZE i then b_data (k_bufs s a) i else b_data x i) x) s).

(** The in-memory header: [log.lh.block] has [LOGBLOCKS] elements. *)
Definition on_log (f : logst -> logst) (s : kstate) : kstate := k_set_log (f (k_log s)) s.
Definition lget {A} (f : logst -> A) : K A := gets (fun s => f (k_log s)).
Definition get_block (i : Z) : K Z :=
  if in_range 0 LOGBLOCKS i then lget (fun g => lg_block g i) else undef "log.lh.block[i] out of range".
Definition set_block (i v : Z) : K unit :=
  if in_range 0 LOGBLOCKS i then modify (on_log (fun g => lg_set_block (fupd (lg_block g) i v) g))
  else undef "log.lh.block[i] out of range".

Section Log.
Context {ENV : Env}.

Definition install_one (recovering : bool) (tail : Z) : K unit :=
  dst <- get_block tail ;;
  (if recovering then printf "recovering tail %d dst %d" [tail; dst] else ret tt) ;;
  g <- lget (fun g => g) ;;
  lbuf <- bread (lg_dev g) (u32 (lg_start g + tail + 1)) ;;
  dbuf <- bread (lg_dev g) (u32 dst) ;;
  copy_data dbuf lbuf ;;
  bwrite dbuf ;;
  (if recovering then ret tt else bunpin dbuf) ;;
  brelse lbuf ;;
  brelse dbuf.

Definition install_trans (recovering : bool) : K unit :=
  n <- lget lg_n ;;
  for_each (seqZ 0 n) (install_one recovering).

Definition read_head : K unit :=
  g <- lget (fun g => g) ;;
  b <- bread (lg_dev g) (u32 (lg_start g)) ;;
  n <- bget32 b 0 ;;
  modify (on_log (lg_set_n (s32 n))) ;;
  for_each (seqZ 0 (s32 n)) (fun i => v <- bget32 b (4 + 4 * i) ;; set_block i (s32 v)) ;;
  brelse b.

Definition write_head : K unit :=
  g <- lget (fun g => g) ;;
  b <- bread (lg_dev g) (u32 (lg_start g)) ;;
  bput32 b 0 (u32 (lg_n g)) ;;
  for_each (seqZ 0 (lg_n g)) (fun i => v <- get_block i ;; bput32 b (4 + 4 * i) (u32 v)) ;;
  bwrite b ;;
  brelse b.

Definition recover_from_log : K unit :=
  read_head ;;
  install_trans true ;;
  modify (on_log (lg_set_n 0)) ;;
  write_head.

Definition initlog (dev : Z) (sb : superblock) : K unit :=
  if LOGSZ >=? BSIZE then panic "initlog: too big logheader" else
  initlock L_log ;;
  modify (on_log (lg_set_start (s32 (sb_logstart sb)))) ;;
  modify (on_log (lg_set_dev dev)) ;;
  recover_from_log.

Definition begin_op : K unit :=
  acquire L_log ;;
  iter (S patience) (fun _ : unit =>
    g <- lget (fun g => g) ;;
    if lg_committing g then sleep ChLog L_log ;; ret (inl tt)
    else if lg_n g + (lg_outstanding g + 1) * MAXOPBLOCKS >? LOGBLOCKS then
      sleep ChLog L_log ;; ret (inl tt)
    else
      modify (on_log (fun g => lg_set_outstanding (lg_outstanding g + 1) g)) ;;
      release L_log ;;
      ret (inr tt)) tt.

Definition write_log_one (tail : Z) : K unit :=
  g <- lget (fun g => g) ;;
  to <- bread (lg_dev g) (u32 (lg_start g + tail + 1)) ;;
  src <- get_block tail ;;
  from <- bread (lg_dev g) (u32 src) ;;
  copy_data to from ;;
  bwrite to ;;
  brelse from ;;
  brelse to.

Definition write_log : K unit :=
  n <- lget lg_n ;;
  for_each (seqZ 0 n) write_log_one.

Definition commit : K unit :=
  n <- lget lg_n ;;
  if n >? 0 then
    write_log ;;
    write_head ;;
    install_trans false ;;
    modify (on_log (lg_set_n 0)) ;;
    write_head
  else ret tt.

Definition end_op : K unit :=
  acquire L_log ;;
  modify (on_log (fun g => lg_set_outstanding (lg_outstanding g - 1) g)) ;;
  g <- lget (fun g => g) ;;
  if lg_committing g then panic "log.committing" else
  do_commit <- (if lg_outstanding g =? 0 then
                  modify (on_log (lg_set_committing true)) ;; ret true
                else wakeup ChLog ;; ret false) ;;
  release L_log ;;
  if (do_commit : bool) then
    commit ;;
    acquire L_log ;;
    modify (on_log (lg_set_committing false)) ;;
    wakeup ChLog ;;
    release L_log
  else ret tt.

(** The first [i] with [log.lh.block[i] == b->blockno], or [n]. *)
Definition find_logged (g : logst) (blockno : Z) : Z :=
  match list_find (fun i => u32 (lg_block g i) = blockno) (seqZ 0 (lg_n g)) with
  | Some (_, i) => i
  | None => lg_n g
  end.

Definition log_write (b : Z) : K unit :=
  acquire L_log ;;
  g <- lget (fun g => g) ;;
  if lg_n g >=? LOGBLOCKS then panic "too big a transaction" else
  if lg_outstanding g <? 1 then panic "log_write outside of trans" else
  blockno <- gets (fun s => b_blockno (k_bufs s b)) ;;
  let i := find_logged g blockno in
  set_block i (s32 blockno) ;;
  (if i =? lg_n g then
     bpin b ;;
     modify (on_log (fun g => lg_set_n (lg_n g + 1) g))
   else ret tt) ;;
  release L_log.

End Log.
