(* ===== verification/LogSpec.v ===== *)
(** * Crash safety of the log

    What log.c promises: after a crash at any point of [commit], recovery
    finds either none or all of the blocks of the transaction.  The disk is
    the list of all its contents in turn ([k_past] and [k_disk]), a crash
    keeps one of them, and [recovered] says what recovery makes of it. *)

From S2P Require Import Prelude Riscv Mem KState Sched Virtio DiskSpec Bio BioSpec Blocks Log.

(** ** The header on disk *)

Definition hdr_n (d : Z -> Z) : Z := s32 (load32 d 0).
Definition hdr_block (d : Z -> Z) (k : Z) : Z := s32 (load32 d (4 + 4 * k)).

(** The header [d] names the blocks [bl]. *)
Definition header (d : Z -> Z) (bl : list Z) : Prop :=
  hdr_n d = Z.of_nat (length bl) /\ forall k m, bl !! k = Some m -> hdr_block d (Z.of_nat k) = m.

(** The contents after recovery, for a log that starts at block [st]. *)
Definition recovered (st : Z) (D : contents) : contents :=
  fold_left (fun A k => fupd A (hdr_block (D st) k) (D (st + k + 1))) (seqZ 0 (hdr_n (D st))) D.

(** The blocks of the log, and the home blocks a header may name. *)
Definition in_log (st m : Z) : Prop := st <= m <= st + LOGBLOCKS.

Record geometry (st : Z) (bl : list Z) : Prop := {
  ge_start : 0 <= st /\ st + LOGBLOCKS < 0x80000000;
  ge_nodup : NoDup bl;
  ge_len : Z.of_nat (length bl) <= LOGBLOCKS;
  ge_home : forall m, m ∈ bl -> 0 <= m < 0x80000000 /\ ~ in_log st m
}.

(** The log's record in memory: started at [st], naming [bl]. *)
Definition log_at (st : Z) (bl : list Z) (g : logst) : Prop :=
  lg_start g = st /\ lg_dev g = ROOTDEV /\ lg_n g = Z.of_nat (length bl) /\
  forall k m, bl !! k = Some m -> lg_block g (Z.of_nat k) = m.

Lemma s32_u32 z : 0 <= z < 0x80000000 -> s32 (u32 z) = z.
Proof. intros H. unfold s32, u32. zlia. Qed.

Lemma u32_block z : 0 <= z < 0x80000000 -> u32 z = z.
Proof. intros H. unfold u32. zlia. Qed.

Lemma load32_beq d d' o : beq d d' -> 0 <= o -> o + 4 <= BSIZE -> load32 d o = load32 d' o.
Proof. intros H H1 H2. apply (loadn_ext 4). intros x Hx. apply H. lia. Qed.

Lemma header_beq d d' bl : beq d d' -> Z.of_nat (length bl) <= LOGBLOCKS -> header d bl -> header d' bl.
Proof.
  intros H Hl [H1 H2]. unfold header, hdr_n, hdr_block, LOGBLOCKS, MAXOPBLOCKS, BSIZE in *. split.
  - rewrite <- H1. f_equal. symmetry. by apply load32_beq.
  - intros k m Hk. rewrite <- (H2 k m Hk). apply lookup_lt_Some in Hk. f_equal. symmetry. apply load32_beq; [done|lia|unfold BSIZE; lia].
Qed.

(** What recovery does with each block. *)
Lemma recovered_fold st (D : contents) (h : Z -> Z) (l : list Z) (A : contents) m :
  (forall k, k ∈ l -> h k <> m) ->
  fold_left (fun A k => fupd A (h k) (D (st + k + 1))) l A m = A m.
Proof.
  revert A. induction l as [|k l IH]; intros A H; [done|]. cbn. rewrite IH by set_solver.
  apply fupd_ne. intros E. apply (H k); [set_solver|done].
Qed.

Lemma recovered_other st D bl m : header (D st) bl -> m ∉ bl -> recovered st D m = D m.
Proof.
  intros [H1 H2] Hm. apply recovered_fold. intros k [Hk1 Hk2]%elem_of_seqZ E.
  destruct (lookup_lt_is_Some_2 bl (Z.to_nat k)) as [x Hx]; [lia|].
  apply Hm. pose proof (H2 _ _ Hx) as H. rewrite Z2Nat.id in H by lia. rewrite <- E, H. by apply list_elem_of_lookup_2 in Hx.
Qed.

Lemma recovered_home st D bl k m : header (D st) bl -> NoDup bl -> bl !! k = Some m ->
  recovered st D m = D (st + Z.of_nat k + 1).
Proof.
  intros [H1 H2] Hnd Hk. unfold recovered. rewrite H1. pose proof (lookup_lt_Some _ _ _ Hk).
  replace (Z.of_nat (length bl)) with (Z.of_nat k + (1 + (Z.of_nat (length bl) - Z.of_nat k - 1))) by lia.
  rewrite seqZ_app by lia. rewrite fold_left_app. rewrite (seqZ_app (0 + Z.of_nat k) 1) by lia. rewrite fold_left_app.
  rewrite recovered_fold.
  - rewrite (seqZ_cons (0 + Z.of_nat k) 1), seqZ_nil by lia. cbn [fold_left]. rewrite Z.add_0_l, (H2 _ _ Hk). apply fupd_eq.
  - intros j [Hj1 Hj2]%elem_of_seqZ E. destruct (lookup_lt_is_Some_2 bl (Z.to_nat j)) as [x Hx]; [lia|].
    pose proof (H2 _ _ Hx) as H3. rewrite Z2Nat.id in H3 by lia. rewrite E in H3. subst x.
    pose proof (NoDup_lookup _ _ _ _ Hnd Hk Hx). lia.
Qed.

Section rules.
Context {ENV : Env} {DSK : Disk}.

(** An owned buffer has what its block reads as. *)
Lemma blocks_data i pb own V D P s b n : blocks i pb own V D P s -> (b, n) ∈ own ->
  beq (b_data (k_bufs s b)) (V n).
Proof.
  intros [(pin & l & BC & _) _ Hown _ HV _ _] Hin. rewrite <- (HV n). symmetry.
  rewrite (view_cached _ _ _ _ _ BC n b (Hown _ _ Hin)). done.
Qed.

Lemma copy_data_rule i pb own V D P s d nd a na : blocks i pb own V D P s -> (d, nd) ∈ own -> (a, na) ∈ own ->
  exists s' x, copy_data d a s = Ok tt s' /\ beq x (V na) /\ blocks i pb own (fupd V nd x) D P s' /\ bframe s s'.
Proof.
  intros B Hd Ha.
  set (x := fun i => if in_range 0 BSIZE i then b_data (k_bufs s a) i else b_data (k_bufs s d) i).
  destruct (data_rule i pb own V D P s d nd x B Hd) as [B' F'].
  exists (upd_buf d (b_set_data x) s), x. split; [done|]. split; [|done].
  rewrite <- (blocks_data _ _ _ _ _ _ _ _ _ B Ha). intros k Hk. unfold x. by rewrite in_range_true by lia.
Qed.

Lemma bframe_log s s' : bframe s s' -> k_log s' = k_log s.
Proof. intros [A _]. by apply io_frame_log. Qed.

Lemma fupd_beq (V : contents) n x y m : beq x y -> beq (fupd V n x m) (fupd V n y m).
Proof. intros H. rewrite !fupd_cases. by case_decide. Qed.

Lemma fupd_beq_same (V : contents) n x m : beq x (V n) -> beq (fupd V n x m) (V m).
Proof. intros H. rewrite fupd_cases. case_decide; [by subst|done]. Qed.

Lemma lget_run {A} (f : logst -> A) s : lget f s = Ok (f (k_log s)) s.
Proof. done. Qed.

Lemma get_block_run st bl s k m : log_at st bl (k_log s) -> Z.of_nat (length bl) <= LOGBLOCKS -> 0 <= k ->
  bl !! Z.to_nat k = Some m -> get_block k s = Ok m s.
Proof.
  intros (_ & _ & _ & Hb) Hl Hk Hm. pose proof (lookup_lt_Some _ _ _ Hm). unfold get_block.
  rewrite in_range_true by lia. unfold lget, gets. by rewrite <- (Hb _ _ Hm), Z2Nat.id by lia.
Qed.

(** [write_log_one]: the cached block goes to its place in the log. *)
Lemma write_log_one_rule i st bl V D P s k m :
  blocks i bl [] V D P s -> log_at st bl (k_log s) -> geometry st bl -> Z.of_nat (length bl) < NBUF ->
  0 <= k -> bl !! Z.to_nat k = Some m ->
  exists s' X, write_log_one k s = Ok tt s' /\ beq X (V m) /\
    blocks i bl [] (fupd V (st + k + 1) X) (fupd D (st + k + 1) X) (D :: P) s' /\ bframe s s'.
Proof.
  intros B L [G1 G2 G3 G4] Hroom Hk Hm. pose proof L as (L1 & L2 & _). pose proof (lookup_lt_Some _ _ _ Hm).
  pose proof (G4 m (list_elem_of_lookup_2 _ _ _ Hm)) as [Hm1 Hm2].
  assert (0 <= st + k + 1 < 0x80000000) as Hlb by lia. set (lb := st + k + 1) in *.
  assert (m <> lb) as Hne by (unfold in_log, lb in *; lia).
  unfold write_log_one. rewrite (bind_ok _ _ _ _ _ (lget_run (fun g => g) s)), L1, L2.
  fold lb. rewrite (u32_block lb) by done.
  destruct (bread_rule i bl [] V D P s lb B Hlb ltac:(set_solver) ltac:(right; cbn; lia)) as (to & s1 & E1 & B1 & F1 & _).
  rewrite (bind_ok _ _ _ _ _ E1).
  assert (log_at st bl (k_log s1)) as L' by (by rewrite (bframe_log _ _ F1)).
  rewrite (bind_ok _ _ _ _ _ (get_block_run _ _ _ _ _ L' G3 Hk Hm)), (u32_block m) by done.
  destruct (bread_rule i bl _ V D P s1 m B1 Hm1 ltac:(set_solver) ltac:(left; by apply list_elem_of_lookup_2 in Hm))
    as (from & s2 & E2 & B2 & F2 & _). rewrite (bind_ok _ _ _ _ _ E2).
  destruct (copy_data_rule i bl _ V D P s2 to lb from m B2 ltac:(set_solver) ltac:(set_solver)) as (s3 & x & E3 & Hx & B3 & F3).
  rewrite (bind_ok _ _ _ _ _ E3).
  destruct (bwrite_rule i bl _ _ D P s3 to lb B3 ltac:(set_solver)) as (s4 & X & E4 & HX & B4 & F4 & _). rewrite fupd_eq in HX.
  rewrite (bind_ok _ _ _ _ _ E4).
  destruct (brelse_rule _ _ _ _ _ _ _ _ _ B4 ltac:(left; by apply list_elem_of_lookup_2 in Hm)) as (s5 & E5 & B5 & F5).
  rewrite (bind_ok _ _ _ _ _ E5).
  destruct (brelse_rule _ _ _ _ _ _ _ _ _ B5 ltac:(right; rewrite !fupd_eq; by symmetry)) as (s6 & E6 & B6 & F6).
  exists s6, X. split; [done|]. split; [by rewrite HX|]. split.
  - eapply blocks_view_ext; [|exact B6]. intros y. apply fupd_beq. by symmetry.
  - apply (bframe_trans _ s1); [done|]. apply (bframe_trans _ s2); [done|]. apply (bframe_trans _ s3); [done|].
    apply (bframe_trans _ s4); [done|]. by apply (bframe_trans _ s5).
Qed.

(** The cache does not depend on the log's record or on the console. *)
Lemma blocks_log i pb own V D P s g : blocks i pb own V D P s -> blocks i pb own V D P (k_set_log g s).
Proof.
  intros [(pin & l & [] & Hpin) [[] ? ?] ? ? ? ? ?]. split; try done.
  exists pin, l. split; [by split|done].
Qed.

Lemma blocks_out i pb own V D P s o : blocks i pb own V D P s -> blocks i pb own V D P (k_set_out o s).
Proof.
  intros [(pin & l & [] & Hpin) [[] ? ?] ? ? ? ? ?]. split; try done.
  exists pin, l. split; [by split|done].
Qed.

(** Everything stays but the cache, the disk and what was printed. *)
Definition oframe (s s' : kstate) : Prop := bframe s (k_set_out (k_out s) s').

Lemma oframe_of s s' : bframe s s' -> oframe s s'.
Proof.
  intros H. assert (k_out s = k_out s') as E by (destruct H as [[A _] _]; by rewrite <- A).
  unfold oframe. rewrite E. by destruct s'.
Qed.

Lemma oframe_trans s1 s2 s3 : oframe s1 s2 -> oframe s2 s3 -> oframe s1 s3.
Proof.
  intros A [[B1 B2] B3]. apply (bframe_trans _ _ _ A). split; [split|]; [|done|done].
  exact (f_equal (k_set_out (k_out s1)) B1).
Qed.

Lemma oframe_out s o : oframe s (k_set_out o s).
Proof. unfold oframe. replace (k_set_out (k_out s) (k_set_out o s)) with s by by destruct s. apply bframe_refl. Qed.

Lemma oframe_log s s' : oframe s s' -> k_log s' = k_log s.
Proof. intros A. by apply bframe_log in A. Qed.

(** [install_one]: a block of the log goes to its home. *)
Lemma install_one_rule (r : bool) i st bl pb V D P s k m :
  blocks i (if r then pb else m :: pb) [] V D P s -> log_at st bl (k_log s) -> geometry st bl ->
  Z.of_nat (length pb) + 1 < NBUF -> m ∉ pb -> st + k + 1 ∉ pb ->
  0 <= k -> bl !! Z.to_nat k = Some m ->
  exists s' X, install_one r k s = Ok tt s' /\ beq X (V (st + k + 1)) /\
    blocks i pb [] (fupd V m X) (fupd D m X) (D :: P) s' /\ oframe s s'.
Proof.
  intros B L [G1 G2 G3 G4] Hroom Hmp Hlp Hk Hm. pose proof L as (L1 & L2 & _). pose proof (lookup_lt_Some _ _ _ Hm).
  pose proof (G4 m (list_elem_of_lookup_2 _ _ _ Hm)) as [Hm1 Hm2].
  assert (0 <= st + k + 1 < 0x80000000) as Hlb by lia. set (lb := st + k + 1) in *.
  assert (m <> lb) as Hne by (unfold in_log, lb in *; lia). set (pb' := if r then pb else m :: pb) in *.
  assert (lb ∉ pb') as Hlp' by (destruct r; set_solver).
  pose proof (blocks_clean _ _ _ _ _ _ _ lb B Hlp' ltac:(set_solver)) as Hclean.
  unfold install_one. rewrite (bind_ok _ _ _ _ _ (get_block_run _ _ _ _ _ L G3 Hk Hm)).
  assert (exists s0, (if r then printf "recovering tail %d dst %d" [k; m] else ret tt) s = Ok tt s0 /\
    blocks i pb' [] V D P s0 /\ oframe s s0 /\ k_log s0 = k_log s) as (s0 & E0 & B0 & F0 & L0).
  { destruct r; [exists (k_set_out ((("recovering tail %d dst %d"%string, [k; m])) :: k_out s) s)|exists s]; (split; [done|]).
    - split; [by apply blocks_out|]. split; [apply oframe_out|done].
    - split; [done|]. split; [apply oframe_of, bframe_refl|done]. }
  rewrite (bind_ok _ _ _ _ _ E0), (bind_ok _ _ _ _ _ (lget_run (fun g => g) s0)), L0, L1, L2.
  fold lb. rewrite (u32_block lb), (u32_block m) by done.
  destruct (bread_rule i pb' [] V D P s0 lb B0 Hlb ltac:(set_solver) ltac:(right; subst pb'; destruct r; cbn; lia))
    as (lbuf & s1 & E1 & B1 & F1 & _). rewrite (bind_ok _ _ _ _ _ E1).
  destruct (bread_rule i pb' _ V D P s1 m B1 Hm1 ltac:(set_solver) ltac:(subst pb'; destruct r; [right; cbn; lia|left; set_solver]))
    as (dbuf & s2 & E2 & B2 & F2 & _). rewrite (bind_ok _ _ _ _ _ E2).
  destruct (copy_data_rule i pb' _ V D P s2 dbuf m lbuf lb B2 ltac:(set_solver) ltac:(set_solver)) as (s3 & x & E3 & Hx & B3 & F3).
  rewrite (bind_ok _ _ _ _ _ E3).
  destruct (bwrite_rule i pb' _ _ D P s3 dbuf m B3 ltac:(set_solver)) as (s4 & X & E4 & HX & B4 & F4 & _). rewrite fupd_eq in HX.
  rewrite (bind_ok _ _ _ _ _ E4).
  assert (exists s5, (if r then ret tt else bunpin dbuf) s4 = Ok tt s5 /\
    blocks i pb [(dbuf, m); (lbuf, lb)] (fupd V m x) (fupd D m X) (D :: P) s5 /\ bframe s4 s5) as (s5 & E5 & B5 & F5).
  { destruct r; [exists s4; split; [done|]; split; [done|apply bframe_refl]|].
    apply (bunpin_rule _ _ _ _ _ _ _ _ m); [done|set_solver|done]. }
  rewrite (bind_ok _ _ _ _ _ E5).
  eapply (blocks_perm _ _ _ [(lbuf, lb); (dbuf, m)]) in B5; [|apply perm_swap].
  destruct (brelse_rule _ _ _ _ _ _ _ _ _ B5 ltac:(right; by rewrite !fupd_ne by done)) as (s6 & E6 & B6 & F6).
  rewrite (bind_ok _ _ _ _ _ E6).
  destruct (brelse_rule _ _ _ _ _ _ _ _ _ B6 ltac:(right; rewrite !fupd_eq; by symmetry)) as (s7 & E7 & B7 & F7).
  exists s7, X. split; [done|]. split; [by rewrite HX|]. split.
  - eapply blocks_view_ext; [|exact B7]. intros y. apply fupd_beq. by symmetry.
  - apply (oframe_trans _ _ _ F0), oframe_of. apply (bframe_trans _ s1); [done|]. apply (bframe_trans _ s2); [done|].
    apply (bframe_trans _ s3); [done|]. apply (bframe_trans _ s4); [done|]. apply (bframe_trans _ s5); [done|].
    by apply (bframe_trans _ s6).
Qed.

Lemma load32_store32_ne d o o' v : o' + 4 <= o \/ o + 4 <= o' -> load32 (store32 d o v) o' = load32 d o'.
Proof. intros H. apply (loadn_outside 4 _ _ _ o 4); [apply (storen_outside 4)|lia]. Qed.

Lemma bput32_rule i pb own V D P s b n o v : blocks i pb own V D P s -> (b, n) ∈ own ->
  exists s', bput32 b o v s = Ok tt s' /\ b_data (k_bufs s' b) = store32 (b_data (k_bufs s b)) o v /\
    blocks i pb own (fupd V n (b_data (k_bufs s' b))) D P s' /\ bframe s s'.
Proof.
  intros B Hin. set (d := store32 (b_data (k_bufs s b)) o v).
  exists (upd_buf b (b_set_data d) s). split; [done|].
  assert (b_data (k_bufs (upd_buf b (b_set_data d) s) b) = d) as -> by (cbn; by rewrite fupd_eq).
  split; [done|]. by apply data_rule.
Qed.

(** The buffer of the header names the first [k] blocks of [bl]. *)
Definition head_upto (st : Z) (bl : list Z) (b k : Z) (s : kstate) : Prop :=
  load32 (b_data (k_bufs s b)) 0 = u32 (Z.of_nat (length bl)) /\
  forall j m, bl !! j = Some m -> Z.of_nat j < k -> load32 (b_data (k_bufs s b)) (4 + 4 * Z.of_nat j) = u32 m.

Lemma write_head_loop i st bl pb V D P s b : blocks i pb [(b, st)] V D P s -> log_at st bl (k_log s) -> geometry st bl ->
  head_upto st bl b 0 s ->
  exists s', for_each (seqZ 0 (Z.of_nat (length bl))) (fun i => v <- get_block i ;; bput32 b (4 + 4 * i) (u32 v)) s = Ok tt s' /\
    (exists d, blocks i pb [(b, st)] (fupd V st d) D P s' /\ header d bl) /\ bframe s s'.
Proof.
  intros B L G H0.
  destruct (for_each_seqZ (fun k s' => (exists d, blocks i pb [(b, st)] (fupd V st d) D P s') /\ head_upto st bl b k s' /\ bframe s s')
    (fun i => v <- get_block i ;; bput32 b (4 + 4 * i) (u32 v)) (Z.of_nat (length bl)) ltac:(lia)) with (s := s)
    as (s' & E & (d & Bd) & [Hn Hh] & F).
  - intros k s1 Hk ((d & B1) & [Hn Hh] & F1). destruct (lookup_lt_is_Some_2 bl (Z.to_nat k)) as [m Hm]; [lia|].
    assert (log_at st bl (k_log s1)) as L1 by by rewrite (bframe_log _ _ F1).
    rewrite (bind_ok _ _ _ _ _ (get_block_run _ _ _ _ _ L1 (ge_len _ _ G) (proj1 Hk) Hm)).
    destruct (bput32_rule _ _ _ _ _ _ _ b st (4 + 4 * k) (u32 m) B1 ltac:(set_solver)) as (s2 & E2 & D2 & B2 & F2).
    exists s2. split; [done|]. split; [|split; [|by apply (bframe_trans _ s1)]].
    + eexists. eapply blocks_view_ext; [|exact B2]. intros y. rewrite !fupd_cases. by case_decide.
    + unfold head_upto. rewrite D2. split; [by rewrite load32_store32_ne by lia|]. intros j x Hj Hjk.
      destruct (decide (Z.of_nat j = k)) as [Ej|Ej].
      * rewrite Ej, load32_store32. replace (Z.to_nat k) with j in Hm by lia. simplify_eq. unfold u32. by rewrite Z.mod_mod by lia.
      * rewrite load32_store32_ne by lia. apply Hh; [done|lia].
  - split; [|split; [done|apply bframe_refl]]. exists (V st). eapply blocks_view_ext; [|exact B].
    intros y. rewrite fupd_cases. case_decide; [by subst|done].
  - exists s'. split; [done|]. split; [|done]. exists d. split; [done|].
    pose proof (blocks_data _ _ _ _ _ _ _ b st Bd ltac:(set_solver)) as Hd. rewrite fupd_eq in Hd. pose proof (ge_len _ _ G) as Hl.
    apply (header_beq _ _ _ Hd Hl). split.
    + unfold hdr_n. rewrite Hn. unfold LOGBLOCKS, MAXOPBLOCKS in *. rewrite s32_u32; [done|lia].
    + intros k m Hk. unfold hdr_block. pose proof (lookup_lt_Some _ _ _ Hk). rewrite (Hh k m) by (done || lia).
      apply s32_u32, (ge_home _ _ G). by apply list_elem_of_lookup_2 in Hk.
Qed.

(** [write_head] puts the record in memory on disk. *)
Lemma write_head_rule i st bl pb V D P s : blocks i pb [] V D P s -> log_at st bl (k_log s) -> geometry st bl ->
  st ∉ pb -> Z.of_nat (length pb) < NBUF ->
  exists s' X, write_head s = Ok tt s' /\ header X bl /\ blocks i pb [] (fupd V st X) (fupd D st X) (D :: P) s' /\ bframe s s'.
Proof.
  intros B L G Hst Hroom. pose proof L as (L1 & L2 & L3 & _). destruct (ge_start _ _ G) as [Hs1 Hs2].
  assert (0 <= st < 0x80000000) as Hsr by (unfold LOGBLOCKS, MAXOPBLOCKS in *; lia).
  unfold write_head. rewrite (bind_ok _ _ _ _ _ (lget_run (fun g => g) s)), L1, L2, L3, (u32_block st) by done.
  destruct (bread_rule i pb [] V D P s st B Hsr ltac:(set_solver) ltac:(right; cbn; lia)) as (b & s1 & E1 & B1 & F1 & _).
  rewrite (bind_ok _ _ _ _ _ E1).
  destruct (bput32_rule _ _ _ _ _ _ _ b st 0 (u32 (Z.of_nat (length bl))) B1 ltac:(set_solver)) as (s2 & E2 & D2 & B2 & F2).
  rewrite (bind_ok _ _ _ _ _ E2).
  destruct (write_head_loop _ st bl _ _ _ _ _ _ B2) as (s3 & E3 & (d & B3 & Hd) & F3); [|done| |].
  { by rewrite (bframe_log _ _ F2), (bframe_log _ _ F1). }
  { split; [|lia]. rewrite D2, load32_store32. unfold u32. by rewrite Z.mod_mod by lia. }
  rewrite (bind_ok _ _ _ _ _ E3).
  destruct (bwrite_rule _ _ _ _ _ _ _ b st B3 ltac:(set_solver)) as (s4 & X & E4 & HX & B4 & F4 & _). rewrite fupd_eq in HX.
  rewrite (bind_ok _ _ _ _ _ E4).
  destruct (brelse_rule _ _ _ _ _ _ _ _ _ B4 ltac:(right; rewrite !fupd_eq; by symmetry)) as (s5 & E5 & B5 & F5).
  exists s5, X. split; [done|]. split; [eapply header_beq; [by symmetry|apply G|done]|]. split.
  - eapply blocks_view_ext; [|exact B5]. intros y. rewrite !fupd_cases. case_decide; [by symmetry|done].
  - apply (bframe_trans _ s1); [done|]. apply (bframe_trans _ s2); [done|]. apply (bframe_trans _ s3); [done|].
    by apply (bframe_trans _ s4).
Qed.

(** ** The phases of a commit *)

Definition same_but_log (st : Z) (A B : contents) : Prop :=
  forall m, ~ (st < m <= st + LOGBLOCKS) -> A m = B m.

(** The first [k] blocks of [bl] are in the log of [A], as [V] has them. *)
Definition logged (st : Z) (bl : list Z) (k : Z) (A V : contents) : Prop :=
  forall j m, bl !! j = Some m -> Z.of_nat j < k -> beq (A (st + Z.of_nat j + 1)) (V m).

Lemma logged_step st bl k (A V : contents) X m : logged st bl k A V -> 0 <= k -> bl !! Z.to_nat k = Some m ->
  beq X (V m) -> logged st bl (k + 1) (fupd A (st + k + 1) X) V.
Proof.
  intros H Hk Hm HX j x Hj Hjk. rewrite fupd_cases. case_decide as E; [|apply H; [done|lia]].
  replace (Z.to_nat k) with j in Hm by lia. by simplify_eq.
Qed.

Lemma same_but_log_step st A B k X bl m : same_but_log st A B -> geometry st bl -> 0 <= k -> bl !! Z.to_nat k = Some m ->
  same_but_log st (fupd A (st + k + 1) X) B.
Proof.
  intros H G Hk Hm y Hy. pose proof (lookup_lt_Some _ _ _ Hm). pose proof (ge_len _ _ G). rewrite fupd_ne by lia. by apply H.
Qed.

Lemma write_log_rule i st bl V D P s :
  blocks i bl [] V D P s -> log_at st bl (k_log s) -> geometry st bl -> Z.of_nat (length bl) < NBUF ->
  exists s' V1 D1 news, write_log s = Ok tt s' /\ blocks i bl [] V1 D1 (news ++ P) s' /\ bframe s s' /\
    same_but_log st V1 V /\ (forall d, d ∈ D1 :: news -> same_but_log st d D) /\
    logged st bl (Z.of_nat (length bl)) D1 V /\ logged st bl (Z.of_nat (length bl)) V1 V.
Proof.
  intros B L G Hroom. unfold write_log. rewrite (bind_ok _ _ _ _ _ (lget_run lg_n s)). rewrite (proj1 (proj2 (proj2 L))).
  destruct (for_each_seqZ (fun k s' => exists V1 D1 news, blocks i bl [] V1 D1 (news ++ P) s' /\ bframe s s' /\
    same_but_log st V1 V /\ (forall d, d ∈ D1 :: news -> same_but_log st d D) /\ logged st bl k D1 V /\ logged st bl k V1 V)
    write_log_one (Z.of_nat (length bl)) ltac:(lia)) with (s := s) as (s' & E & V1 & D1 & news & H).
  - intros k s1 Hk (V1 & D1 & news & B1 & F1 & HV & HD & H1 & H2).
    destruct (lookup_lt_is_Some_2 bl (Z.to_nat k)) as [m Hm]; [lia|].
    assert (log_at st bl (k_log s1)) as L1 by by rewrite (bframe_log _ _ F1).
    destruct (write_log_one_rule _ _ _ _ _ _ _ _ _ B1 L1 G Hroom (proj1 Hk) Hm) as (s2 & X & E2 & HX & B2 & F2).
    rewrite (HV m) in HX. 2:{ pose proof (ge_home _ _ G m (list_elem_of_lookup_2 _ _ _ Hm)) as [_ Hn]. unfold in_log in Hn. lia. }
    exists s2. split; [done|]. exists (fupd V1 (st + k + 1) X), (fupd D1 (st + k + 1) X), (D1 :: news).
    split; [done|]. split; [by apply (bframe_trans _ s1)|]. split; [by eapply same_but_log_step; [..|exact (proj1 Hk)|exact Hm]|]. split.
    + intros d [->|Hd]%elem_of_cons; [|by apply HD]. eapply same_but_log_step; [apply HD; set_solver|exact G|exact (proj1 Hk)|exact Hm].
    + split; apply (logged_step _ _ _ _ _ _ m); (done || lia).
  - exists V, D, []. split; [done|]. split; [apply bframe_refl|]. split; [done|]. split; [|split; intros j m _ ?; lia].
    intros d ->%list_elem_of_singleton. done.
  - exists s', V1, D1, news. by split.
Qed.

(** The blocks of [bl] up to [k] are what the log has. *)
Definition installed (st : Z) (bl : list Z) (k : Z) (A V : contents) : Prop :=
  forall j m, bl !! j = Some m -> Z.of_nat j < k -> beq (A m) (V (st + Z.of_nat j + 1)).

Definition same_but (bl : list Z) (A B : contents) : Prop := forall m, m ∉ bl -> A m = B m.

Lemma installed_step st bl k (A V : contents) X m : NoDup bl -> installed st bl k A V -> 0 <= k -> bl !! Z.to_nat k = Some m ->
  beq X (V (st + k + 1)) -> installed st bl (k + 1) (fupd A m X) V.
Proof.
  intros Hnd H Hk Hm HX j x Hj Hjk. rewrite fupd_cases. case_decide as E.
  - subst x. pose proof (NoDup_lookup _ _ _ _ Hnd Hj Hm). by replace (Z.of_nat j) with k by lia.
  - apply H; [done|]. destruct (decide (Z.of_nat j = k)) as [Ej|]; [|lia]. exfalso. apply E.
    replace (Z.to_nat k) with j in Hm by lia. by simplify_eq.
Qed.

Lemma same_but_step bl A B k m X : same_but bl A B -> bl !! Z.to_nat k = Some m -> same_but bl (fupd A m X) B.
Proof.
  intros H Hm y Hy. rewrite fupd_ne; [by apply H|]. intros ->. apply Hy. by apply list_elem_of_lookup_2 in Hm.
Qed.

Lemma install_trans_rule (r : bool) i st bl V D P s :
  blocks i (if r then [] else bl) [] V D P s -> log_at st bl (k_log s) -> geometry st bl ->
  r = true \/ Z.of_nat (length bl) < NBUF ->
  exists s' V1 D1 news, install_trans r s = Ok tt s' /\ blocks i [] [] V1 D1 (news ++ P) s' /\ oframe s s' /\
    same_but bl V1 V /\ (forall d, d ∈ D1 :: news -> same_but bl d D) /\
    installed st bl (Z.of_nat (length bl)) D1 V /\ installed st bl (Z.of_nat (length bl)) V1 V.
Proof.
  intros B L G Hroom. unfold install_trans. rewrite (bind_ok _ _ _ _ _ (lget_run lg_n s)). rewrite (proj1 (proj2 (proj2 L))).
  destruct (for_each_seqZ (fun k s' => exists V1 D1 news, blocks i (if r then [] else drop (Z.to_nat k) bl) [] V1 D1 (news ++ P) s' /\
    oframe s s' /\ same_but bl V1 V /\ (forall d, d ∈ D1 :: news -> same_but bl d D) /\ installed st bl k D1 V /\ installed st bl k V1 V)
    (install_one r) (Z.of_nat (length bl)) ltac:(lia)) with (s := s) as (s' & E & V1 & D1 & news & B1 & H).
  - intros k s1 Hk (V1 & D1 & news & B1 & F1 & HV & HD & H1 & H2).
    destruct (lookup_lt_is_Some_2 bl (Z.to_nat k)) as [m Hm]; [lia|].
    assert (log_at st bl (k_log s1)) as L1 by by rewrite (oframe_log _ _ F1).
    set (pb := if r then [] else drop (Z.to_nat (k + 1)) bl).
    assert (st + k + 1 ∉ bl) as Hlb.
    { intros [_ Hl]%(ge_home _ _ G). apply Hl. pose proof (ge_len _ _ G). unfold in_log. lia. }
    assert (forall x, x ∈ pb -> x ∈ bl) as Hpb.
    { intros x. unfold pb. destruct r; [set_solver|]. intros (j & Hj)%list_elem_of_lookup_1. rewrite lookup_drop in Hj. by apply list_elem_of_lookup_2 in Hj. }
    destruct (install_one_rule r i st bl pb V1 D1 (news ++ P) s1 k m) as (s2 & X & E2 & HX & B2 & F2); try done.
    + unfold pb. destruct r; [done|]. replace (Z.to_nat (k + 1)) with (S (Z.to_nat k)) by lia. by rewrite <- (drop_S _ m).
    + unfold pb. destruct r; cbn; [done|]. rewrite length_drop. destruct Hroom as [|Hroom]; [done|]. lia.
    + unfold pb. destruct r; [set_solver|]. intros (j & Hj)%list_elem_of_lookup_1. rewrite lookup_drop in Hj.
      pose proof (NoDup_lookup _ _ _ _ (ge_nodup _ _ G) Hj Hm). lia.
    + auto.
    + lia.
    + rewrite (HV _ Hlb) in HX. exists s2. split; [done|]. exists (fupd V1 m X), (fupd D1 m X), (D1 :: news). split; [done|].
      split; [by apply (oframe_trans _ s1)|]. split; [by apply (same_but_step _ _ _ k)|]. split.
      * intros d [->|Hd]%elem_of_cons; [|by apply HD]. apply (same_but_step _ _ _ k); [apply HD; set_solver|done].
      * split; (apply installed_step; [apply G|done|lia|done|done]).
  - exists V, D, []. split; [by destruct r|]. split; [apply oframe_of, bframe_refl|]. split; [done|]. split; [|split; intros j m _ ?; lia].
    intros d ->%list_elem_of_singleton. done.
  - exists s', V1, D1, news. split; [done|]. split; [|done]. rewrite Nat2Z.id, drop_all in B1. by destruct r.
Qed.

(** ** What a crash leaves *)

(** The header is one that [write_head] writes. *)
Definition recoverable (st : Z) (d : contents) : Prop := exists bl, header (d st) bl /\ geometry st bl.

(** Equal outside the log. *)
Definition matches (st : Z) (A B : contents) : Prop := forall m, ~ in_log st m -> beq (A m) (B m).

Lemma recovered_committed st bl (d V : contents) : header (d st) bl -> NoDup bl ->
  logged st bl (Z.of_nat (length bl)) d V -> (forall m, m ∉ bl -> ~ in_log st m -> beq (d m) (V m)) ->
  matches st (recovered st d) V.
Proof.
  intros H Hnd Hl Ho m Hm. destruct (decide (m ∈ bl)) as [(k & Hk)%list_elem_of_lookup_1|Hn].
  - rewrite (recovered_home _ _ _ _ _ H Hnd Hk). apply Hl; [done|]. apply lookup_lt_Some in Hk. lia.
  - rewrite (recovered_other _ _ _ _ H Hn). by apply Ho.
Qed.

Lemma recovered_empty st (d V : contents) : header (d st) [] -> matches st d V -> matches st (recovered st d) V.
Proof. intros H Hm. apply (recovered_committed _ []); [done|constructor|by intros j m|]. intros m _. apply Hm. Qed.

Lemma geometry_nil st bl : geometry st bl -> geometry st [].
Proof. intros G. split; [apply G|constructor|cbn; unfold LOGBLOCKS, MAXOPBLOCKS; lia|set_solver]. Qed.

Lemma geometry_out st bl k : geometry st bl -> 0 <= k <= LOGBLOCKS -> st + k ∉ bl.
Proof. intros G Hk [_ H]%(ge_home _ _ G). apply H. unfold in_log. lia. Qed.

Lemma geometry_st st bl : geometry st bl -> st ∉ bl.
Proof. intros G. rewrite <- (Z.add_0_r st). apply (geometry_out _ _ _ G). unfold LOGBLOCKS, MAXOPBLOCKS. lia. Qed.

Lemma oframe_set_log g s s' : oframe s s' -> oframe (k_set_log g s) (k_set_log g s').
Proof. intros [[A B] C]. split; [split|]; [|done|done]. exact (f_equal (k_set_log g) A). Qed.

Lemma same_but_logged st bl A B V : geometry st bl -> same_but bl A B ->
  logged st bl (Z.of_nat (length bl)) B V -> logged st bl (Z.of_nat (length bl)) A V.
Proof.
  intros G H Hl j m Hj Hjk. rewrite H; [by apply Hl|]. rewrite <- Z.add_assoc. apply (geometry_out _ _ _ G).
  pose proof (ge_len _ _ G). lia.
Qed.

(** Once the header is on disk, the rest of the log decides. *)
Lemma after_head st bl (V D D1 A : contents) X : geometry st bl -> (forall m, m ∉ bl -> beq (V m) (D m)) ->
  same_but_log st D1 D -> logged st bl (Z.of_nat (length bl)) D1 V -> header X bl -> same_but bl A (fupd D1 st X) ->
  matches st (recovered st A) V /\ forall m, m ∉ bl -> ~ in_log st m -> beq (A m) (V m).
Proof.
  intros G Hclean HD Hl HX HA. assert (0 <= LOGBLOCKS) as HLB by done. pose proof (geometry_st _ _ G) as Hst.
  assert (forall m, m ∉ bl -> ~ in_log st m -> beq (A m) (V m)) as Hother.
  { intros m Hm Hlm. unfold in_log in Hlm. rewrite HA by done. rewrite fupd_ne by lia. rewrite HD by lia. symmetry. by apply Hclean. }
  split; [|done]. apply (recovered_committed _ bl); [by rewrite HA, fupd_eq|apply G| |done].
  apply (same_but_logged _ _ _ _ _ G HA). intros j m Hj Hjk. rewrite fupd_ne by lia. by apply Hl.
Qed.

(** Installing what the log has, and clearing the header. *)
Lemma after_install st bl (V V1 A : contents) X Y : logged st bl (Z.of_nat (length bl)) V1 V ->
  installed st bl (Z.of_nat (length bl)) A (fupd V1 st X) -> (forall m, m ∉ bl -> ~ in_log st m -> beq (A m) (V m)) ->
  matches st (fupd A st Y) V.
Proof.
  intros Hl HI Ho m Hm. assert (0 <= LOGBLOCKS) as HLB by done. rewrite fupd_ne by (unfold in_log in Hm; lia).
  destruct (decide (m ∈ bl)) as [(k & Hk)%list_elem_of_lookup_1|]; [|by apply Ho].
  pose proof (lookup_lt_Some _ _ _ Hk). rewrite (HI k m Hk) by lia. rewrite fupd_ne by lia. apply Hl; [done|lia].
Qed.

Lemma before_head st (D d : contents) : header (D st) [] -> same_but_log st d D -> matches st (recovered st d) D.
Proof.
  intros H Hd. assert (0 <= LOGBLOCKS) as HLB by done. apply recovered_empty; [by rewrite Hd by lia|].
  intros m Hm. unfold in_log in Hm. by rewrite Hd by lia.
Qed.

(** [commit]: at every moment the disk recovers to all of the old contents or
    all of the new ones; at the end it has the new ones and an empty log. *)
Lemma commit_rule i st bl V D P s :
  blocks i bl [] V D P s -> log_at st bl (k_log s) -> geometry st bl -> Z.of_nat (length bl) < NBUF -> bl <> [] ->
  header (D st) [] ->
  exists s' V' D' news, commit s = Ok tt s' /\ blocks i [] [] V' D' (news ++ P) s' /\
    oframe (k_set_log (lg_set_n 0 (k_log s)) s) s' /\
    matches st V' V /\ matches st D' V /\ header (D' st) [] /\
    (forall d, d ∈ D' :: news -> recoverable st d /\ (matches st (recovered st d) D \/ matches st (recovered st d) V)).
Proof.
  intros B L G Hroom Hne Hh. pose proof (geometry_st _ _ G) as Hst. pose proof L as (L1 & L2 & L3 & _).
  assert (0 < Z.of_nat (length bl)) as Hpos by (destruct bl; [done|cbn; lia]).
  assert (forall m, m ∉ bl -> beq (V m) (D m)) as Hclean by (intros m Hm; eapply blocks_clean; [exact B|done|set_solver]).
  assert (0 <= LOGBLOCKS) as HLB by done.
  unfold commit. rewrite (bind_ok _ _ _ _ _ (lget_run lg_n s)), L3, (proj2 (Z.gtb_lt _ _)) by lia.
  destruct (write_log_rule _ _ _ _ _ _ _ B L G Hroom) as (s1 & V1 & D1 & news1 & E1 & B1 & F1 & HV1 & HD1 & Hl1 & HlV1).
  rewrite (bind_ok _ _ _ _ _ E1).
  assert (log_at st bl (k_log s1)) as Lg1 by by rewrite (bframe_log _ _ F1).
  destruct (write_head_rule _ _ _ _ _ _ _ _ B1 Lg1 G Hst Hroom) as (s2 & X & E2 & HX & B2 & F2).
  rewrite (bind_ok _ _ _ _ _ E2).
  assert (log_at st bl (k_log s2)) as Lg2 by by rewrite (bframe_log _ _ F2).
  destruct (install_trans_rule false _ _ _ _ _ _ _ B2 Lg2 G ltac:(by right)) as (s3 & V3 & D3 & news3 & E3 & B3 & F3 & HV3 & HD3 & HI3 & HIV3).
  rewrite (bind_ok _ _ _ _ _ E3).
  assert (k_log s3 = k_log s) as Lg3 by by rewrite (oframe_log _ _ F3), (bframe_log _ _ F2), (bframe_log _ _ F1).
  set (g := lg_set_n 0 (k_log s)). rewrite (bind_ok _ _ _ _ _ (modify_run (on_log (lg_set_n 0)) s3)). unfold on_log. rewrite Lg3. fold g.
  apply (blocks_log _ _ _ _ _ _ _ g) in B3.
  assert (log_at st [] (k_log (k_set_log g s3))) as Lg4 by (split; [done|]; by split).
  destruct (write_head_rule _ _ [] _ _ _ _ _ B3 Lg4 (geometry_nil _ _ G) ltac:(set_solver) ltac:(done)) as (s5 & Y & E5 & HY & B5 & F5).
  pose proof (HD1 D1 ltac:(by apply elem_of_cons; left)) as HD11.
  pose proof (HD3 D3 ltac:(by apply elem_of_cons; left)) as HD33.
  assert (forall A, same_but bl A (fupd D1 st X) -> matches st (recovered st A) V /\
    forall m, m ∉ bl -> ~ in_log st m -> beq (A m) (V m)) as Hhead by (intros A HA; by apply (after_head _ bl _ D D1 A X)).
  assert (matches st (fupd D3 st Y) V) as HfinalD by (apply (after_install _ bl _ V1 _ X); [done|done|by apply Hhead]).
  exists s5, (fupd V3 st Y), (fupd D3 st Y), (D3 :: news3 ++ D1 :: news1).
  split; [done|]. split; [rewrite <- app_comm_cons, <- app_assoc; exact B5|].
  split.
  { apply (oframe_trans _ (k_set_log g s3)); [|by apply oframe_of]. apply oframe_set_log.
    apply (oframe_trans _ s2); [|done]. apply oframe_of. by apply (bframe_trans _ s1). }
  split.
  { apply (after_install _ bl _ V1 _ X); [done|done|]. intros m Hm Hlm. unfold in_log in Hlm. rewrite HV3 by done. rewrite fupd_ne by lia. by rewrite HV1 by lia. }
  split; [done|]. split; [by rewrite fupd_eq|].
  assert (forall A, same_but_log st A D -> recoverable st A /\ matches st (recovered st A) D) as Hold.
  { intros A HA. split; [|by apply before_head]. exists []. rewrite HA by lia. split; [done|by eapply geometry_nil]. }
  assert (forall A, same_but bl A (fupd D1 st X) -> recoverable st A /\ matches st (recovered st A) V) as Hnew.
  { intros A HA. split; [|by apply Hhead]. exists bl. by rewrite HA, fupd_eq. }
  intros d [->|[->|[Hd|[->|Hd]%elem_of_cons]%elem_of_app]%elem_of_cons]%elem_of_cons.
  - split; [exists []; rewrite fupd_eq; split; [done|by eapply geometry_nil]|]. right. apply recovered_empty; [by rewrite fupd_eq|done].
  - destruct (Hnew D3 HD33). auto.
  - destruct (Hnew d ltac:(apply HD3, elem_of_cons; by right)). auto.
  - destruct (Hold D1 HD11). auto.
  - destruct (Hold d ltac:(apply HD1, elem_of_cons; by right)). auto.
Qed.

(** ** Recovery *)

(** The counters of operations stay. *)
Definition same_ops (g g' : logst) : Prop :=
  lg_outstanding g' = lg_outstanding g /\ lg_committing g' = lg_committing g.

Lemma read_head_loop st bl b s1 g : header (b_data (k_bufs s1 b)) bl -> geometry st bl ->
  lg_start g = st -> lg_dev g = ROOTDEV -> lg_n g = Z.of_nat (length bl) ->
  exists g', for_each (seqZ 0 (Z.of_nat (length bl))) (fun i => v <- bget32 b (4 + 4 * i) ;; set_block i (s32 v)) (k_set_log g s1)
    = Ok tt (k_set_log g' s1) /\ log_at st bl g' /\ same_ops g g'.
Proof.
  intros [Hn Hh] G G1 G2 G3.
  destruct (for_each_seqZ (fun k s' => exists g', s' = k_set_log g' s1 /\ lg_start g' = st /\ lg_dev g' = ROOTDEV /\
    lg_n g' = Z.of_nat (length bl) /\ same_ops g g' /\
    forall j m, bl !! j = Some m -> Z.of_nat j < k -> lg_block g' (Z.of_nat j) = m)
    (fun i => v <- bget32 b (4 + 4 * i) ;; set_block i (s32 v)) (Z.of_nat (length bl)) ltac:(lia)) with (s := k_set_log g s1)
    as (s' & E & g' & -> & I1 & I2 & I3 & I5 & I4).
  - intros k s' Hk (g' & -> & I1 & I2 & I3 & I5 & I4). destruct (lookup_lt_is_Some_2 bl (Z.to_nat k)) as [m Hm]; [lia|].
    pose proof (Hh _ _ Hm) as Hv. rewrite Z2Nat.id in Hv by lia. unfold hdr_block in Hv.
    exists (k_set_log (lg_set_block (fupd (lg_block g') k m) g') s1). split.
    + unfold set_block. pose proof (ge_len _ _ G). rewrite in_range_true by lia. rewrite <- Hv. done.
    + eexists. split; [done|]. split; [done|]. split; [done|]. split; [done|]. split; [done|]. intros j x Hj Hjk. cbn. rewrite fupd_cases.
      case_decide as Ej; [|apply I4; [done|lia]]. replace (Z.to_nat k) with j in Hm by lia. by simplify_eq.
  - exists g. split; [done|]. split; [done|]. split; [done|]. split; [done|]. split; [done|]. intros; lia.
  - exists g'. split; [done|]. split; [|done]. split; [done|]. split; [done|]. split; [done|]. intros k m Hk. apply I4; [done|].
    apply lookup_lt_Some in Hk. lia.
Qed.

Lemma read_head_rule i st bl V D P s : blocks i [] [] V D P s ->
  lg_start (k_log s) = st -> lg_dev (k_log s) = ROOTDEV -> header (D st) bl -> geometry st bl ->
  exists s', read_head s = Ok tt s' /\ blocks i [] [] V D P s' /\ log_at st bl (k_log s') /\
    same_ops (k_log s) (k_log s') /\ oframe (k_set_log (k_log s') s) s'.
Proof.
  intros B L1 L2 Hh G. destruct (ge_start _ _ G) as [Hs1 Hs2].
  assert (0 <= st < 0x80000000) as Hsr by (unfold LOGBLOCKS, MAXOPBLOCKS in *; lia).
  pose proof (blocks_clean _ _ _ _ _ _ _ st B ltac:(set_solver) ltac:(set_solver)) as Hclean.
  unfold read_head. rewrite (bind_ok _ _ _ _ _ (lget_run (fun g => g) s)), L1, L2, (u32_block st) by done.
  destruct (bread_rule i [] [] V D P s st B Hsr ltac:(set_solver) ltac:(by right)) as (b & s1 & E1 & B1 & F1 & _).
  rewrite (bind_ok _ _ _ _ _ E1).
  pose proof (blocks_data _ _ _ _ _ _ _ b st B1 ltac:(set_solver)) as Hd.
  assert (header (b_data (k_bufs s1 b)) bl) as Hb.
  { apply (header_beq (D st)); [|apply G|done]. by rewrite Hd. }
  unfold bget32 at 1. rewrite (bind_ok _ _ s1 (load32 (b_data (k_bufs s1 b)) 0) s1) by done.
  fold (hdr_n (b_data (k_bufs s1 b))). rewrite (proj1 Hb).
  set (g := lg_set_n (Z.of_nat (length bl)) (k_log s1)).
  rewrite (bind_ok _ _ _ _ _ (modify_run (on_log (lg_set_n (Z.of_nat (length bl)))) s1)). fold (k_set_log g s1).
  pose proof (bframe_log _ _ F1) as Lg1.
  destruct (read_head_loop st bl b s1 g Hb G) as (g' & E2 & L' & O'); [by cbn; rewrite Lg1|by cbn; rewrite Lg1|done|].
  change (on_log (lg_set_n (Z.of_nat (length bl))) s1) with (k_set_log g s1). rewrite (bind_ok _ _ _ _ _ E2).
  apply (blocks_log _ _ _ _ _ _ _ g') in B1.
  destruct (brelse_rule _ _ _ _ _ _ _ _ _ B1 ltac:(by right)) as (s3 & E3 & B3 & F3).
  exists s3. pose proof (bframe_log _ _ F3) as Lg3. split; [done|]. split; [done|]. rewrite Lg3. split; [done|].
  split; [unfold g in O'; by rewrite Lg1 in O'|].
  apply (oframe_trans _ (k_set_log g' s1)); [|by apply oframe_of]. by apply oframe_set_log, oframe_of.
Qed.

Lemma recovered_same st bl (d D : contents) : header (D st) bl -> geometry st bl -> same_but bl d D ->
  matches st (recovered st d) (recovered st D).
Proof.
  intros H G Hd. apply (recovered_committed _ bl); [by rewrite Hd by by apply geometry_st|apply G| |].
  - intros j m Hj Hjk. rewrite (recovered_home _ _ _ _ _ H (ge_nodup _ _ G) Hj). rewrite Hd; [done|].
    rewrite <- Z.add_assoc. apply (geometry_out _ _ _ G). pose proof (ge_len _ _ G). lia.
  - intros m Hm _. by rewrite (recovered_other _ _ _ _ H Hm), Hd.
Qed.

(** [recover_from_log] makes [recovered] true; a crash during recovery
    changes nothing of what the next recovery finds. *)
Lemma recover_rule i st bl V D P s : blocks i [] [] V D P s ->
  lg_start (k_log s) = st -> lg_dev (k_log s) = ROOTDEV -> header (D st) bl -> geometry st bl ->
  exists s' V' D' news, recover_from_log s = Ok tt s' /\ blocks i [] [] V' D' (news ++ P) s' /\
    log_at st [] (k_log s') /\ same_ops (k_log s) (k_log s') /\ oframe (k_set_log (k_log s') s) s' /\
    matches st D' (recovered st D) /\ header (D' st) [] /\
    forall d, d ∈ D' :: news -> matches st (recovered st d) (recovered st D).
Proof.
  intros B L1 L2 Hh G. assert (0 <= LOGBLOCKS) as HLB by done. unfold recover_from_log.
  assert (forall m, beq (V m) (D m)) as Hclean by (intros m; eapply blocks_clean; [exact B|set_solver|set_solver]).
  destruct (read_head_rule _ _ _ _ _ _ _ B L1 L2 Hh G) as (s1 & E1 & B1 & Lg1 & O1 & F1). rewrite (bind_ok _ _ _ _ _ E1).
  destruct (install_trans_rule true _ _ _ _ _ _ _ B1 Lg1 G ltac:(by left)) as (s2 & V2 & D2 & news & E2 & B2 & F2 & _ & HD2 & HI & _).
  rewrite (bind_ok _ _ _ _ _ E2). pose proof (oframe_log _ _ F2) as Lg2. destruct Lg1 as (Lg3 & Lg4 & _).
  set (g := lg_set_n 0 (k_log s1)). rewrite (bind_ok _ _ _ _ _ (modify_run (on_log (lg_set_n 0)) s2)). unfold on_log. rewrite Lg2. fold g.
  apply (blocks_log _ _ _ _ _ _ _ g) in B2.
  assert (log_at st [] g) as Lg5 by (split; [done|]; by split).
  destruct (write_head_rule _ _ [] _ _ _ _ _ B2 Lg5 (geometry_nil _ _ G) ltac:(set_solver) ltac:(done)) as (s3 & Y & E3 & HY & B3 & F3).
  pose proof (bframe_log _ _ F3) as Lg6. cbn in Lg6.
  assert (matches st D2 (recovered st D)) as HM.
  { intros m Hm. destruct (decide (m ∈ bl)) as [(k & Hk)%list_elem_of_lookup_1|Hn].
    - rewrite (recovered_home _ _ _ _ _ Hh (ge_nodup _ _ G) Hk), <- (Hclean _). apply HI; [done|]. apply lookup_lt_Some in Hk. lia.
    - rewrite (recovered_other _ _ _ _ Hh Hn), (HD2 D2); [done|by apply elem_of_cons; left|done]. }
  assert (matches st (fupd D2 st Y) (recovered st D)) as HM'.
  { intros m Hm. rewrite fupd_ne; [by apply HM|]. unfold in_log in Hm. lia. }
  exists s3, (fupd V2 st Y), (fupd D2 st Y), (D2 :: news). split; [done|]. split; [done|]. rewrite Lg6. split; [done|]. split; [done|]. split.
  { apply (oframe_trans _ (k_set_log g s2)); [|by apply oframe_of]. apply (oframe_trans _ (k_set_log g s1)); [|by apply oframe_set_log].
    by apply (oframe_set_log g) in F1. }
  split; [done|]. split; [by rewrite fupd_eq|].
  intros d [->|Hd]%elem_of_cons; [apply recovered_empty; [by rewrite fupd_eq|done]|]. apply (recovered_same _ bl); auto.
Qed.

End rules.
