(* ===== verification/Txn.v ===== *)
(** * Transactions

    File-system code between [begin_op] and [end_op].  [txn i st n bl own V D P s]
    extends [blocks] with the log: it starts at block [st], [n] operations are
    outstanding, the current transaction has logged (and pinned) the blocks
    [bl], and the header on disk is empty.  [begin_op], [log_write] and [end_op] have one rule each. *)

From S2P Require Import Prelude Riscv Mem KState Sched Virtio DiskSpec Bio BioSpec Blocks Log LogSpec.

Record txn (i st n : Z) (bl : list Z) (own : list (Z * Z)) (V D : contents) (P : list contents) (s : kstate) : Prop := {
  tx_blocks : blocks i bl own V D P s;
  tx_log : log_at st bl (k_log s);
  tx_geo : geometry st bl;
  tx_out : lg_outstanding (k_log s) = n;
  tx_idle : lg_committing (k_log s) = false;
  tx_head : header (D st) []
}.

(** Everything but the cache, the log, the disk and the console stays. *)
Definition tframe (s s' : kstate) : Prop := oframe (k_set_log (k_log s') s) s'.

Lemma tframe_of s s' : bframe s s' -> tframe s s'.
Proof.
  intros F. unfold tframe. rewrite (bframe_log _ _ F).
  replace (k_set_log (k_log s) s) with s by by destruct s. by apply oframe_of.
Qed.

Lemma tframe_refl s : tframe s s.
Proof. apply tframe_of, bframe_refl. Qed.

Lemma tframe_trans s1 s2 s3 : tframe s1 s2 -> tframe s2 s3 -> tframe s1 s3.
Proof. intros A B. eapply oframe_trans; [exact (oframe_set_log (k_log s3) _ _ A)|exact B]. Qed.

Lemma tframe_log g s : tframe s (k_set_log g s).
Proof. apply (oframe_of (k_set_log g s)), bframe_refl. Qed.

Section find.
Variables (st : Z) (bl : list Z) (g : logst).
Hypotheses (L : log_at st bl g) (G : geometry st bl).

Lemma logged_at k m : bl !! k = Some m -> u32 (lg_block g (Z.of_nat k)) = m.
Proof.
  intros Hk. rewrite (proj2 (proj2 (proj2 L)) _ _ Hk). apply u32_block, (ge_home _ _ G).
  by apply list_elem_of_lookup_2 in Hk.
Qed.

Lemma find_logged_new n : n ∉ bl -> find_logged g n = Z.of_nat (length bl).
Proof.
  intros Hn. unfold find_logged. rewrite (proj1 (proj2 (proj2 L))).
  destruct (list_find _ _) as [[j k]|] eqn:E; [|done]. exfalso.
  apply list_find_Some in E as (E1 & E2 & _). apply list_elem_of_lookup_2, elem_of_seqZ in E1.
  destruct (lookup_lt_is_Some_2 bl (Z.to_nat k)) as [m Hm]; [lia|].
  apply Hn. rewrite <- E2, <- (Z2Nat.id k), (logged_at _ _ Hm) by lia. by apply list_elem_of_lookup_2 in Hm.
Qed.

Lemma find_logged_old n : n ∈ bl -> exists k, bl !! k = Some n /\ find_logged g n = Z.of_nat k.
Proof.
  intros (j & Hj)%list_elem_of_lookup_1. pose proof (lookup_lt_Some _ _ _ Hj). unfold find_logged.
  rewrite (proj1 (proj2 (proj2 L))).
  destruct (list_find _ _) as [[l k]|] eqn:E.
  - apply list_find_Some in E as (E1 & E2 & _). apply list_elem_of_lookup_2, elem_of_seqZ in E1.
    destruct (lookup_lt_is_Some_2 bl (Z.to_nat k)) as [m Hm]; [lia|]. exists (Z.to_nat k). split; [|lia].
    rewrite <- (Z2Nat.id k), (logged_at _ _ Hm) in E2 by lia. by rewrite Hm, E2.
  - apply list_find_None in E. rewrite Forall_forall in E. exfalso.
    apply (E (Z.of_nat j)); [apply elem_of_seqZ; lia|]. by apply logged_at.
Qed.
End find.

Section rules.
Context {ENV : Env} {DSK : Disk}.

Lemma bpin_run b h s : k_held s = h -> L_bcache ∉ h ->
  bpin b s = Ok tt (upd_buf b (fun x => b_set_refcnt (u32 (b_refcnt x + 1)) x) s).
Proof.
  intros Hh Hn. unfold bpin. rewrite (bind_ok _ _ _ _ _ (acquire_ok L_bcache s ltac:(by rewrite Hh))).
  set (f := upd_buf b (fun x => b_set_refcnt (u32 (b_refcnt x + 1)) x)).
  rewrite (bind_ok _ _ _ _ _ (modify_run f _)). rewrite (release_head L_bcache h); [|cbn; by rewrite Hh].
  f_equal. destruct s. cbn in *. by subst.
Qed.

Lemma locked_log s : k_held s = [] ->
  acquire L_log s = Ok tt (k_set_held [L_log] s) /\ forall t, k_held t = [L_log] -> release L_log t = Ok tt (k_set_held [] t).
Proof.
  intros Hh. split; [|intros t; apply release_head]. rewrite acquire_ok; [by rewrite Hh|]. rewrite Hh. set_solver.
Qed.

Lemma reset_held s : k_held s = [] -> k_set_held [] s = s.
Proof. intros H. destruct s. cbn in H. by subst. Qed.

Lemma blocks_procs i pb own V D P s p : blocks i pb own V D P s ->
  p_pid (p i) = p_pid (k_procs s i) -> p_state (p i) = RUNNING -> blocks i pb own V D P (k_set_procs p s).
Proof.
  intros [(pin & l & [] & Hpin) [[] ? ?] ? ? ? ? ?] Hp Hs. split; try done.
  exists pin, l. split; [|done]. split; try done. intros b Hb. cbn. rewrite Hp. auto.
Qed.

(** [wakeup] under the log's lock. *)
Lemma log_wakeup i pb own V D P s g : blocks i pb own V D P s ->
  exists t s', wakeup ChLog (k_set_held [L_log] (k_set_log g s)) = Ok tt t /\ release L_log t = Ok tt s' /\
    blocks i pb own V D P s' /\ k_log s' = g /\ tframe s s'.
Proof.
  intros B. set (s1 := k_set_held [L_log] (k_set_log g s)). exists (woken ChLog s1). pose proof (bl_calm _ _ _ _ _ _ _ B) as [R Hh _].
  assert (k_held s1 = [L_log]) as Hh1 by done. pose proof (woken_frame ChLog s1) as F. pose proof (only_procs_eq _ _ F) as E.
  exists (k_set_procs (k_procs (woken ChLog s1)) (k_set_log g s)). split; [|split; [|split; [|split]]].
  - apply wakeup_ok. intros j _ _. rewrite Hh1. by intros ?%list_elem_of_singleton.
  - rewrite (release_head L_log []) by by rewrite (proj2 (only_procs_keeps _ _ F)). rewrite E at 1. unfold s1. f_equal.
    destruct s. cbn in Hh |- *. by rewrite Hh.
  - assert (k_procs (woken ChLog s1) i = k_procs s i) as Hi.
    { rewrite woken_procs, decide_False; [done|]. intros [_ H]. apply H. symmetry. apply R. }
    apply blocks_procs; [by apply blocks_log|by rewrite Hi|rewrite Hi; apply R].
  - done.
  - split; [split|]; [by destruct s| |done]. intros j. cbn [k_procs k_set_procs k_set_log k_set_out]. rewrite woken_procs.
    case_decide; [apply wakes_keep|apply proc_keep_refl].
Qed.

(** [begin_op] with room in the log. *)
Lemma begin_op_rule i st n bl own V D P s : txn i st n bl own V D P s ->
  Z.of_nat (length bl) + (n + 1) * MAXOPBLOCKS <= LOGBLOCKS ->
  exists s', begin_op s = Ok tt s' /\ txn i st (n + 1) bl own V D P s' /\ tframe s s'.
Proof.
  intros [B L G Ho Hc Hd] Hroom. pose proof (bl_calm _ _ _ _ _ _ _ B) as [_ Hh _]. destruct (locked_log s Hh) as [Ea Er].
  set (g := lg_set_outstanding (n + 1) (k_log s)). exists (k_set_log g s). split; [|split; [|apply tframe_log]].
  - unfold begin_op. rewrite (bind_ok _ _ _ _ _ Ea). set (s1 := k_set_held _ s). apply iter_done.
    rewrite (bind_ok _ _ _ _ _ (lget_run (fun g => g) s1)). change (k_log s1) with (k_log s).
    rewrite Hc, Ho, (proj1 (proj2 (proj2 L))). destruct (Z.gtb_spec (Z.of_nat (length bl) + (n + 1) * MAXOPBLOCKS) LOGBLOCKS); [lia|].
    rewrite (bind_ok _ _ _ _ _ (modify_run _ s1)). erewrite bind_ok; [|by apply Er]. unfold ret. f_equal. unfold g. rewrite <- Ho.
    destruct s. cbn in *. by rewrite Hh.
  - split; [by apply blocks_log|done|done|done|done|done].
Qed.

(** The blocks of the transaction after [log_write] of block [n]. *)
Definition absorb (n : Z) (bl : list Z) : list Z := if decide (n ∈ bl) then bl else bl ++ [n].

Lemma log_at_set st bl g k n : log_at st bl g -> bl !! k = Some n ->
  log_at st bl (lg_set_block (fupd (lg_block g) (Z.of_nat k) n) g).
Proof.
  intros (L1 & L2 & L3 & L4) Hk. split; [done|]. split; [done|]. split; [done|]. intros j m Hj. cbn. rewrite fupd_cases.
  case_decide as E; [|by apply L4]. assert (j = k) as -> by lia. by simplify_eq.
Qed.

Lemma log_at_add st bl g n : log_at st bl g ->
  log_at st (bl ++ [n]) (lg_set_n (Z.of_nat (length bl) + 1) (lg_set_block (fupd (lg_block g) (Z.of_nat (length bl)) n) g)).
Proof.
  intros (L1 & L2 & L3 & L4). split; [done|]. split; [done|]. split; [cbn; rewrite length_app; cbn; lia|].
  intros j m Hj. cbn. rewrite fupd_cases. case_decide as E.
  - assert (j = length bl) as -> by lia. rewrite lookup_app_r, Nat.sub_diag in Hj by lia. by simplify_eq/=.
  - apply lookup_app_Some in Hj as [Hj|[Hl Hj]]; [by apply L4|]. apply lookup_lt_Some in Hj. cbn in Hj. lia.
Qed.

Lemma geometry_add st bl n : geometry st bl -> n ∉ bl -> Z.of_nat (length bl) < LOGBLOCKS ->
  0 <= n < 0x80000000 -> ~ in_log st n -> geometry st (bl ++ [n]).
Proof.
  intros [G1 G2 G3 G4] Hn Hl Hr Hi. split; [done| |rewrite length_app; cbn; lia|].
  - apply NoDup_app. split; [done|]. split; [|apply NoDup_singleton]. intros x Hx ->%list_elem_of_singleton. done.
  - intros m [Hm| ->%list_elem_of_singleton]%elem_of_app; [by apply G4|done].
Qed.

(** [log_write]: the owned block joins the transaction. *)
Lemma log_write_rule i st n bl own V D P s b m : txn i st n bl own V D P s -> (b, m) ∈ own -> 1 <= n ->
  Z.of_nat (length bl) < LOGBLOCKS -> ~ in_log st m ->
  exists s', log_write b s = Ok tt s' /\ txn i st n (absorb m bl) own V D P s' /\ tframe s s'.
Proof.
  intros [B L G Ho Hc Hd] Hin Hn Hlen Hm. pose proof (bl_calm _ _ _ _ _ _ _ B) as [_ Hh _]. destruct (locked_log s Hh) as [Ea Er].
  pose proof (bl_own _ _ _ _ _ _ _ B _ _ Hin) as (Hb1 & _ & Hb2).
  assert (0 <= m < 0x80000000) as Hmr. { destruct (bl_cache _ _ _ _ _ _ _ B) as (pin & l & BC & _). rewrite <- Hb2. by apply (bc_blockno _ _ _ _ _ BC). }
  pose proof L as (_ & _ & L3 & _).
  unfold log_write. rewrite (bind_ok _ _ _ _ _ Ea). set (s1 := k_set_held _ s).
  rewrite (bind_ok _ _ _ _ _ (lget_run (fun g => g) s1)). change (k_log s1) with (k_log s). rewrite L3, Ho.
  destruct (Z.geb_spec (Z.of_nat (length bl)) LOGBLOCKS) as [|_]; [lia|]. destruct (Z.ltb_spec n 1) as [|_]; [lia|].
  rewrite (bind_ok _ _ s1 m s1) by (unfold gets; by rewrite <- Hb2).
  replace (s32 m) with m by (unfold s32; zlia). unfold absorb. case_decide as Dm.
  - destruct (find_logged_old _ _ _ L G m Dm) as (k & Hk & ->). pose proof (lookup_lt_Some _ _ _ Hk).
    unfold set_block. rewrite in_range_true by lia. set (g := lg_set_block (fupd (lg_block (k_log s)) (Z.of_nat k) m) (k_log s)).
    rewrite (bind_ok _ _ _ _ _ (modify_run _ s1)). rewrite (proj2 (Z.eqb_neq _ _)) by lia. unfold ret at 1. unfold bind at 1.
    exists (k_set_log g s). split; [rewrite Er by done; f_equal; destruct s; cbn in *; by rewrite Hh|]. split; [|apply tframe_log].
    split; [by apply blocks_log|by apply log_at_set|done..].
  - rewrite (find_logged_new _ _ _ L G m Dm), Z.eqb_refl. unfold set_block. rewrite in_range_true by lia.
    rewrite (bind_ok _ _ _ _ _ (modify_run _ s1)). set (s2 := on_log _ s1).
    destruct (bpin_rule _ _ _ _ _ _ _ _ _ B Hin Dm) as (s3 & E3 & B3 & F3). rewrite (bpin_run b [] s Hh) in E3 by set_solver.
    rewrite bind_assoc. rewrite (bind_ok _ _ _ _ _ (bpin_run b [L_log] s2 eq_refl ltac:(by intros ?%list_elem_of_singleton))).
    rewrite (bind_ok _ _ _ _ _ (modify_run _ _)). rewrite Er by done. injection E3 as <-.
    set (g := lg_set_n (Z.of_nat (length bl) + 1) (lg_set_block (fupd (lg_block (k_log s)) (Z.of_nat (length bl)) m) (k_log s))).
    set (s3 := upd_buf b _ s) in *. exists (k_set_log g s3). split.
    { f_equal. unfold g, s3, s2, s1. rewrite <- L3. destruct s. cbn in *. by rewrite Hh. }
    split; [|apply (tframe_trans _ s3); [by apply tframe_of|apply tframe_log]]. split.
    + apply blocks_log. eapply blocks_pb_perm; [|exact B3]. apply Permutation_cons_append.
    + by apply log_at_add.
    + by apply geometry_add.
    + done.
    + done.
    + done.
Qed.

(** [end_op] of an operation that is not the last. *)
Lemma end_op_wait i st n bl V D P s : txn i st n bl [] V D P s -> 1 < n ->
  exists s', end_op s = Ok tt s' /\ txn i st (n - 1) bl [] V D P s' /\ tframe s s'.
Proof.
  intros [B L G Ho Hc Hd] Hn. pose proof (bl_calm _ _ _ _ _ _ _ B) as [_ Hh _]. destruct (locked_log s Hh) as [Ea Er].
  set (g := lg_set_outstanding (n - 1) (k_log s)). destruct (log_wakeup _ _ _ _ _ _ _ g B) as (t & s' & Ew & Ed & B' & Lg & F).
  exists s'. split; [|split; [|done]].
  - unfold end_op. rewrite (bind_ok _ _ _ _ _ Ea). rewrite (bind_ok _ _ _ _ _ (modify_run _ _)).
    rewrite (bind_ok _ _ _ _ _ (lget_run (fun g => g) _)).
    change (lg_committing _) with (lg_committing (k_log s)). rewrite Hc.
    change (lg_outstanding (k_log (on_log _ _))) with (lg_outstanding (k_log s) - 1). rewrite Ho.
    rewrite (proj2 (Z.eqb_neq _ _)) by lia. rewrite bind_assoc.
    replace (on_log _ (k_set_held [L_log] s)) with (k_set_held [L_log] (k_set_log g s)) by (unfold g; rewrite <- Ho; by destruct s).
    rewrite (bind_ok _ _ _ _ _ Ew). unfold ret at 1. unfold bind at 1. by rewrite (bind_ok _ _ _ _ _ Ed).
  - split; [done|by rewrite Lg|done|by rewrite Lg|by rewrite Lg|done].
Qed.

(** [commit], also of a transaction that logged nothing. *)
Lemma commit_any i st bl V D P s :
  blocks i bl [] V D P s -> log_at st bl (k_log s) -> geometry st bl -> Z.of_nat (length bl) < NBUF -> header (D st) [] ->
  exists s' V' D' news, commit s = Ok tt s' /\ blocks i [] [] V' D' (news ++ P) s' /\ tframe s s' /\
    k_log s' = lg_set_n 0 (k_log s) /\
    matches st V' V /\ matches st D' V /\ header (D' st) [] /\
    (forall d, d ∈ D' :: news -> recoverable st d /\ (matches st (recovered st d) D \/ matches st (recovered st d) V)).
Proof.
  intros B L G Hroom Hh. destruct (decide (bl = [])) as [E|Hne].
  - subst bl. pose proof L as (_ & _ & L3 & _). change (Z.of_nat (length [])) with 0 in L3. exists s, V, D, []. split.
    { unfold commit. rewrite (bind_ok _ _ _ _ _ (lget_run lg_n s)). by rewrite L3. }
    split; [done|]. split; [apply tframe_refl|]. split; [rewrite <- L3; by destruct (k_log s)|]. split; [by intros m _|].
    assert (matches st D V) as HM by (intros m _; symmetry; eapply blocks_clean; [exact B|set_solver|set_solver]).
    split; [done|]. split; [done|]. intros d ->%list_elem_of_singleton.
    split; [by exists []|]. left. by apply recovered_empty.
  - destruct (commit_rule _ _ _ _ _ _ _ B L G Hroom Hne Hh) as (s' & V' & D' & news & E & B' & F & H1 & H2 & H3 & H4).
    exists s', V', D', news. split; [done|]. split; [done|].
    assert (k_log s' = lg_set_n 0 (k_log s)) as Lg by exact (oframe_log _ _ F). split; [by unfold tframe; rewrite Lg|]. done.
Qed.

(** [end_op] of the last operation commits without the lock. *)
Lemma end_op_last i st bl V D P s : txn i st 1 bl [] V D P s ->
  end_op s = (commit ;; acquire L_log ;; modify (on_log (lg_set_committing false)) ;; wakeup ChLog ;; release L_log)
    (k_set_log (lg_set_committing true (lg_set_outstanding 0 (k_log s))) s).
Proof.
  intros [B L G Ho Hc Hd]. pose proof (bl_calm _ _ _ _ _ _ _ B) as [_ Hh _]. destruct (locked_log s Hh) as [Ea Er].
  unfold end_op. rewrite (bind_ok _ _ _ _ _ Ea), (bind_ok _ _ _ _ _ (modify_run _ _)), (bind_ok _ _ _ _ _ (lget_run (fun g => g) _)).
  change (lg_committing _) with (lg_committing (k_log s)). rewrite Hc.
  change (lg_outstanding (k_log (on_log _ _))) with (lg_outstanding (k_log s) - 1). rewrite Ho.
  change (1 - 1 =? 0) with true. cbv iota. rewrite bind_assoc, (bind_ok _ _ _ _ _ (modify_run _ _)). unfold ret at 1. unfold bind at 1.
  erewrite bind_ok; [|by apply Er]. cbv iota. f_equal. change 0 with (1 - 1). rewrite <- Ho. destruct s; cbn in *; by rewrite Hh.
Qed.

Lemma end_op_commit i st bl V D P s : txn i st 1 bl [] V D P s -> Z.of_nat (length bl) < NBUF ->
  exists s' V' D' news, end_op s = Ok tt s' /\ txn i st 0 [] [] V' D' (news ++ P) s' /\ tframe s s' /\
    matches st V' V /\ matches st D' V /\
    (forall d, d ∈ D' :: news -> recoverable st d /\ (matches st (recovered st d) D \/ matches st (recovered st d) V)).
Proof.
  intros T Hroom. rewrite (end_op_last _ _ _ _ _ _ _ T). destruct T as [B L G Ho Hc Hd].
  set (g := lg_set_committing true (lg_set_outstanding 0 (k_log s))). set (s1 := k_set_log g s).
  destruct (commit_any i st bl V D P s1) as (s2 & V' & D' & news & E2 & B2 & F2 & Lg2 & H1 & H2 & H3 & H4); try done.
  { by apply blocks_log. }
  pose proof (bl_calm _ _ _ _ _ _ _ B2) as [_ Hh2 _]. destruct (locked_log s2 Hh2) as [Ea2 _].
  set (g2 := lg_set_committing false (k_log s2)).
  destruct (log_wakeup _ _ _ _ _ _ _ g2 B2) as (t & s' & Ew & Ed & B' & Lg & F).
  exists s', V', D', news. split; [|split; [|split; [|done]]].
  - rewrite (bind_ok _ _ _ _ _ E2), (bind_ok _ _ _ _ _ Ea2), (bind_ok _ _ _ _ _ (modify_run _ _)).
    replace (on_log _ (k_set_held [L_log] s2)) with (k_set_held [L_log] (k_set_log g2 s2)) by (by destruct s2).
    by rewrite (bind_ok _ _ _ _ _ Ew).
  - destruct L as (L1 & L2 & _). split; [done| |by eapply geometry_nil| | |done]; rewrite Lg; unfold g2; rewrite Lg2; [|done|done].
    split; [done|]. by split.
  - apply (tframe_trans _ s1); [apply tframe_log|]. by apply (tframe_trans _ s2).
Qed.

End rules.
