(* ===== verification/DiskSample.v ===== *)
(** * A concrete disk

    A device that serves requests as the virtio specification says, an
    environment in which it answers while the requester sleeps, and a machine
    that has just run [binit], on which the theorems about the storage stack
    are instantiated. *)

From S2P Require Import Prelude Riscv Mem KState Sched Virtio DiskSpec Bio BioSpec Blocks Log LogSpec Txn Sample.

(** A disk that serves the request in the available ring. *)
Definition sample_device (s : kstate) : kstate :=
  let x := k_vdisk s in
  let d0 := vd_avail x (vd_uidx x mod NUM) in
  match d_addr (vd_desc x (d_next (vd_desc x d0))) with
  | A_data b => served d0 b (rq_sector (vd_ops x d0)) (rq_type (vd_ops x d0) =? VIRTIO_BLK_T_OUT) s
  | _ => s
  end.

(** While the requester sleeps, the device answers, the interrupt handler runs
    and the scheduler resumes the requester. *)
Definition disk_others (i : Z) (s : kstate) : kstate :=
  match virtio_disk_intr (k_set_cur None (k_set_held [] (sample_device s))) with
  | Ok _ s1 => if decide (p_state (k_procs s1 i) = RUNNABLE)
               then k_set_cur (Some i) (k_set_held [L_proc i] (upd_proc i (p_set_state RUNNING) s1)) else s
  | _ => s
  end.

Definition disk_env : Env :=
  {| others := disk_others; mmio_read := fun _ s => (0x20, s); mmio_write := fun _ _ s => s; patience := 1 |}.

Lemma served_request s d0 d1 d2 b sector write : request (k_vdisk s) d0 d1 d2 b sector write ->
  sample_device s = served d0 b sector write s.
Proof.
  intros [H1 H2 H3 H4 H5 H6]. unfold sample_device. rewrite H2, H4. cbn [d_next]. rewrite H5. cbn [d_addr]. rewrite H3.
  by destruct write.
Qed.

Definition sample_disk : @Disk disk_env.
Proof.
  refine (@Build_Disk disk_env sample_device _ _ served_request _ _).
  - intros r s. by exists 0x20.
  - done.
  - intros i b s _ _ _ _ _ _ s1 E Hr. change (disk_others i s = k_set_cur (Some i) (k_set_held [L_proc i] (upd_proc i (p_set_state RUNNING) s1))).
    unfold disk_others. change (@virtio_disk_intr disk_env) with (@virtio_disk_intr sample_env) in E. rewrite E.
    by rewrite decide_True.
  - cbn. lia.
Defined.

(** Process 0 runs, the log starts at block 2, and [n] operations are under
    way on the disk [d] with the super block [sb]. *)
Definition boot_state (n : Z) (d : contents) (sb : superblock) : kstate :=
  k_set_cur (Some 0) (k_set_procs (fun _ => p_set_state RUNNING no_proc)
    (k_set_log (mkLog 2 n false ROOTDEV 0 (fun _ => 0)) (k_set_sb sb (k_set_disk d zero_state)))).

Definition booted_on (n : Z) (d : contents) (sb : superblock) : kstate :=
  match binit (boot_state n d sb) with Ok _ s => s | _ => boot_state n d sb end.

Lemma booted_on_blocks n d sb : blocks 0 [] [] d d [] (booted_on n d sb) /\ k_log (booted_on n d sb) = k_log (boot_state n d sb) /\
  k_sb (booted_on n d sb) = sb.
Proof.
  destruct (binit_ok 0 (boot_state n d sb) eq_refl ltac:(by intros b _)) as (s' & E & (l & BC) & Hz & Es).
  assert (booted_on n d sb = s') as -> by (unfold booted_on; by rewrite E).
  assert (k_past s' = []) as Hp by by rewrite Es. assert (k_disk s' = d) as Hd by by rewrite Es.
  split; [|split; by rewrite Es]. assert (calm 0 s') as C by (rewrite Es; split; [split; done|done|]; split; done).
  pose proof (blocks_boot 0 s' l C BC Hz) as B. by rewrite Hp, Hd in B.
Qed.

Lemma fresh_txn n d sb s : blocks 0 [] [] d d [] s -> k_log s = k_log (boot_state n d sb) -> header (d 2) [] -> txn 0 2 n [] [] d d [] s.
Proof.
  intros B L H. split; [exact B| | | | |exact H]; rewrite ?L; try done.
  split; [done|constructor|done|]. intros m Hm. by apply not_elem_of_nil in Hm.
Qed.

Lemma booted_on_txn n d sb : header (d 2) [] -> txn 0 2 n [] [] d d [] (booted_on n d sb).
Proof. destruct (booted_on_blocks n d sb) as (B & L & _). exact (fresh_txn n d sb _ B L). Qed.

(** The empty disk. *)
Definition before_binit : kstate := boot_state 0 (k_disk zero_state) (k_sb zero_state).
Definition booted : kstate := booted_on 0 (k_disk zero_state) (k_sb zero_state).

Lemma booted_disk : k_disk booted = k_disk zero_state.
Proof. exact (bl_disk _ _ _ _ _ _ _ (proj1 (booted_on_blocks 0 (k_disk zero_state) (k_sb zero_state)))). Qed.

Lemma booted_blocks : blocks 0 [] [] (k_disk booted) (k_disk booted) [] booted.
Proof. rewrite booted_disk. exact (proj1 (booted_on_blocks 0 _ _)). Qed.

Lemma booted_txn : txn 0 2 0 [] [] (k_disk booted) (k_disk booted) [] booted.
Proof. rewrite booted_disk. apply (booted_on_txn 0). by split. Qed.
