(* ===== verification/StorageSpec.v ===== *)
(** * What the disk driver, the buffer cache and the log promise

    The contracts of the storage stack, up to the whole path of a file-system
    update through log.c and bio.c to the disk: [begin_op], updates of cached
    blocks with [log_write], [end_op], a crash that keeps any one of the
    disk's contents, and [initlog] at the next boot. *)

From S2P Require Import Prelude Riscv Mem KState Sched Virtio DiskSpec Bio BioSpec Blocks Log LogSpec Txn DiskSample.

Lemma room_dec s n : room s n \/ ~ room s n.
Proof.
  destruct (cached_dec s n) as [H|H]; [by left; left|].
  destruct (find (is_unused (k_bufs s)) (seqZ 0 NBUF)) as [b|] eqn:E.
  - left. right. apply find_some in E as [E1 E2]. exists b. split; [by apply in_bufs, list_elem_of_In|]. unfold is_unused in E2. lia.
  - right. intros [[b Hb]|[b [Hb Hr]]]; [by apply (H b)|]. pose proof (find_none _ _ E b) as Hf. unfold is_unused in Hf.
    rewrite Hr in Hf. by discriminate Hf; apply list_elem_of_In, in_bufs.
Qed.

(** ** Updates *)

(** Bytes to put at an offset of a block. *)
Record upd : Type := mkUpd { u_block : Z; u_off : Z; u_bytes : list Z }.

(** The use of [log_write] its comment gives: [bread], modify, [log_write],
    [brelse]. *)
Definition update {ENV : Env} (u : upd) : K unit :=
  bp <- bread ROOTDEV (u_block u) ;;
  modify (upd_buf bp (fun x => b_set_data (mem_write (b_data x) (u_off u) (u_bytes u)) x)) ;;
  log_write bp ;;
  brelse bp.

Definition operation {ENV : Env} (us : list upd) : K unit :=
  begin_op ;; for_each us update ;; end_op.

(** The contents the updates ask for. *)
Definition updated (us : list upd) (V : contents) : contents :=
  fold_left (fun V u => fupd V (u_block u) (mem_write (V (u_block u)) (u_off u) (u_bytes u))) us V.

Definition good_update (st : Z) (u : upd) : Prop :=
  0 <= u_block u < 0x80000000 /\ ~ in_log st (u_block u).

Lemma mem_write_beq d d' o bs : beq d d' -> beq (mem_write d o bs) (mem_write d' o bs).
Proof. intros H k Hk. unfold mem_write. case_match; [done|]. by apply H. Qed.

Lemma updated_beq us : forall V W, (forall m, beq (V m) (W m)) -> forall m, beq (updated us V m) (updated us W m).
Proof.
  induction us as [|u us IH]; intros V W H; [exact H|]. apply IH. intros m. rewrite !fupd_cases.
  case_decide; [by apply mem_write_beq|apply H].
Qed.

Lemma absorb_length n bl : (length (absorb n bl) <= S (length bl))%nat.
Proof. unfold absorb. case_decide; [lia|]. rewrite length_app. cbn. lia. Qed.

Lemma absorb_in n bl : n ∈ absorb n bl.
Proof. unfold absorb. case_decide; set_solver. Qed.

(** The blocks of a transaction after some updates. *)
Definition absorbed (us : list upd) (bl : list Z) : list Z := fold_left (fun bl u => absorb (u_block u) bl) us bl.

Lemma absorbed_length us : forall bl, (length (absorbed us bl) <= length bl + length us)%nat.
Proof.
  induction us as [|u us IH]; intros bl; [cbn; lia|]. specialize (IH (absorb (u_block u) bl)).
  pose proof (absorb_length (u_block u) bl).
  change (absorbed (u :: us) bl) with (absorbed us (absorb (u_block u) bl)). cbn [length]. lia.
Qed.

Lemma absorbed_distinct us : forall bl, NoDup (bl ++ map u_block us) -> absorbed us bl = bl ++ map u_block us.
Proof.
  induction us as [|u us IH]; intros bl Hnd; [by rewrite app_nil_r|]. cbn [map] in Hnd |- *.
  change (absorbed (u :: us) bl) with (absorbed us (absorb (u_block u) bl)). unfold absorb. rewrite decide_False.
  - rewrite cons_middle, app_assoc in Hnd. rewrite IH by done. by rewrite <- app_assoc.
  - intros H. apply NoDup_app in Hnd as (_ & Hd & _). apply (Hd _ H). set_solver.
Qed.

Section crash.
Context {ENV : Env} {DSK : Disk}.

Lemma update_rule i st n bl V D P s u : txn i st n bl [] V D P s -> 1 <= n -> Z.of_nat (length bl) < LOGBLOCKS ->
  good_update st u ->
  exists s', update u s = Ok tt s' /\
    txn i st n (absorb (u_block u) bl) [] (updated [u] V) D P s' /\ tframe s s'.
Proof.
  intros T Hn Hlen [Hr Hl]. unfold update. set (m := u_block u) in *. pose proof T as [B L G Ho Hc Hd].
  destruct (bread_rule i bl [] V D P s m B Hr ltac:(set_solver) ltac:(right; unfold NBUF; cbn; unfold LOGBLOCKS in *; lia))
    as (b & s1 & E1 & B1 & F1 & _). rewrite (bind_ok _ _ _ _ _ E1).
  set (x := mem_write (b_data (k_bufs s1 b)) (u_off u) (u_bytes u)).
  destruct (data_rule i bl _ V D P s1 b m x B1 ltac:(set_solver)) as [B2 F2].
  rewrite (bind_ok _ _ _ _ _ (modify_run _ s1)). change (upd_buf b _ s1) with (upd_buf b (b_set_data x) s1).
  set (s2 := upd_buf b (b_set_data x) s1) in *.
  assert (k_log s2 = k_log s) as Lg by exact (bframe_log _ _ F1).
  assert (txn i st n bl [(b, m)] (updated [u] V) D P s2) as T2.
  { split; rewrite ?Lg; try done. eapply blocks_view_ext; [|exact B2]. intros y. apply fupd_beq, mem_write_beq.
    apply (blocks_data _ _ _ _ _ _ _ _ _ B1). set_solver. }
  destruct (log_write_rule _ _ _ _ _ _ _ _ _ b m T2 ltac:(set_solver) Hn Hlen Hl) as (s3 & E3 & T3 & F3).
  rewrite (bind_ok _ _ _ _ _ E3).
  destruct (brelse_rule _ _ _ _ _ _ _ _ _ (tx_blocks _ _ _ _ _ _ _ _ _ T3) ltac:(left; apply absorb_in)) as (s4 & E4 & B4 & F4).
  exists s4. split; [done|]. split.
  - destruct T3 as [_ L3 G3 Ho3 Hc3 Hd3]. split; rewrite ?(bframe_log _ _ F4); done.
  - apply (tframe_trans _ s1); [by apply tframe_of|]. apply (tframe_trans _ s2); [by apply tframe_of|].
    apply (tframe_trans _ s3); [done|]. by apply tframe_of.
Qed.

Lemma updates_rule i st n us : forall bl V D P s, txn i st n bl [] V D P s -> 1 <= n ->
  Z.of_nat (length bl + length us) <= LOGBLOCKS -> Forall (good_update st) us ->
  exists s', for_each us update s = Ok tt s' /\ txn i st n (absorbed us bl) [] (updated us V) D P s' /\ tframe s s'.
Proof.
  induction us as [|u us IH]; intros bl V D P s T Hn Hlen Hus.
  { exists s. split; [done|]. split; [done|]. apply tframe_refl. }
  apply Forall_cons in Hus as [Hu Hus]. cbn [length] in Hlen.
  destruct (update_rule _ _ _ _ _ _ _ _ u T Hn ltac:(lia) Hu) as (s1 & E1 & T1 & F1).
  pose proof (absorb_length (u_block u) bl).
  destruct (IH _ _ _ _ _ T1 Hn ltac:(lia) Hus) as (s2 & E2 & T2 & F2).
  exists s2. cbn [for_each]. rewrite (bind_ok _ _ _ _ _ E1). split; [done|]. split; [done|].
  by apply (tframe_trans _ s1).
Qed.

(** [initlog] at boot. *)
Lemma initlog_rule i st sb W d s : blocks i [] [] W d (k_past s) s -> s32 (sb_logstart sb) = st -> recoverable st d ->
  lg_outstanding (k_log s) = 0 -> lg_committing (k_log s) = false ->
  exists s' V', initlog ROOTDEV sb s = Ok tt s' /\ txn i st 0 [] [] V' (k_disk s') (k_past s') s' /\
    matches st (k_disk s') (recovered st d).
Proof.
  intros B Hst (bl & Hh & G) Ho Hc. unfold initlog. change (LOGSZ >=? BSIZE) with false. cbv iota.
  pose proof (bl_calm _ _ _ _ _ _ _ B) as [_ Hheld _].
  assert (initlock L_log s = Ok tt s) as E0 by (unfold initlock, modify; destruct s; cbn in *; by subst).
  rewrite (bind_ok _ _ _ _ _ E0), (bind_ok _ _ _ _ _ (modify_run _ s)), (bind_ok _ _ _ _ _ (modify_run _ _)). rewrite Hst.
  set (g := lg_set_dev ROOTDEV (lg_set_start st (k_log s))). change (on_log _ (on_log _ s)) with (k_set_log g s).
  apply (blocks_log _ _ _ _ _ _ _ g) in B.
  destruct (recover_rule i st bl W d _ _ B eq_refl eq_refl Hh G) as (s' & V' & D' & news & E & B' & L' & [O1 O2] & F & HM & Hh' & _).
  pose proof (bl_disk _ _ _ _ _ _ _ B') as Hdisk. pose proof (bl_past _ _ _ _ _ _ _ B') as Hpast.
  exists s', V'. split; [done|]. rewrite Hdisk, Hpast. split; [|done].
  split; [done|done|by eapply geometry_nil|by rewrite O1|by rewrite O2|done].
Qed.

(** An operation of at most [MAXOPBLOCKS] updates, started when no other is
    outstanding, and recovery from a crash at any point of it. *)
Lemma operation_rule i st us V D P s : txn i st 0 [] [] V D P s -> Forall (good_update st) us ->
  Z.of_nat (length us) <= MAXOPBLOCKS ->
  exists s' V' D' news, operation us s = Ok tt s' /\ txn i st 0 [] [] V' D' (news ++ P) s' /\ tframe s s' /\
    matches st V' (updated us V) /\ matches st D' (updated us V) /\
    (forall d, d ∈ D' :: news -> recoverable st d /\
       (matches st (recovered st d) D \/ matches st (recovered st d) (updated us V))).
Proof.
  intros T Hus Hlen. unfold operation. unfold MAXOPBLOCKS in Hlen.
  destruct (begin_op_rule _ _ _ _ _ _ _ _ _ T ltac:(done)) as (s1 & E1 & T1 & F1). rewrite (bind_ok _ _ _ _ _ E1).
  destruct (updates_rule _ _ _ us _ _ _ _ _ T1 ltac:(lia) ltac:(unfold LOGBLOCKS, MAXOPBLOCKS; cbn; lia) Hus)
    as (s2 & E2 & T2 & F2). rewrite (bind_ok _ _ _ _ _ E2). pose proof (absorbed_length us []) as Hl. cbn in Hl.
  destruct (end_op_commit _ _ _ _ _ _ _ T2 ltac:(unfold NBUF, MAXOPBLOCKS; lia)) as (s3 & V' & D' & news & E3 & T3 & F3 & H1 & H2 & H3).
  exists s3, V', D', news. split; [done|]. split; [done|]. split; [|done].
  apply (tframe_trans _ s1); [done|]. by apply (tframe_trans _ s2).
Qed.

(** With as many pinned blocks as buffers, no other block can be read. *)
Lemma full_no_room i bl V D P s n : blocks i bl [] V D P s -> NoDup bl -> Z.of_nat (length bl) = NBUF -> n ∉ bl -> ~ room s n.
Proof.
  intros [(pin & l & BC & Hpin) _ _ Hpb _ _ _] Hnd Hlen Hn.
  pose proof (pinned_all _ _ _ _ _ _ BC Hnd Hlen Hpb) as Hall. intros [[b Hb]|[b [Hb Hr]]].
  - destruct (Hall b) as (m & Hm & Hbm); [apply Hb|]. apply Hn. replace n with m; [done|].
    destruct Hb as (_ & _ & <-). by destruct Hbm as (_ & _ & <-).
  - destruct (Hall b Hb) as (m & Hm & _ & Hd & Hbn).
    rewrite (bc_ref _ _ _ _ _ BC), Hpin, decide_True in Hr; [|by rewrite Hd, Hbn|done|done].
    by rewrite decide_False in Hr by apply not_elem_of_nil.
Qed.

(** A commit of [NBUF] blocks finds no buffer for the log. *)
Lemma commit_no_buffer i st bl V D P s :
  blocks i bl [] V D P s -> log_at st bl (k_log s) -> geometry st bl -> Z.of_nat (length bl) = NBUF ->
  commit s = Panic "bget: no buffers".
Proof.
  intros B L G Hlen. pose proof L as (L1 & L2 & L3 & _). pose proof (ge_start _ _ G) as Hst. unfold NBUF, LOGBLOCKS in *.
  unfold commit. rewrite (bind_ok _ _ _ _ _ (lget_run lg_n s)), L3, Hlen. change (MAXOPBLOCKS * 3 >? 0) with true. cbv iota.
  apply bind_panic. unfold write_log. rewrite (bind_ok _ _ _ _ _ (lget_run lg_n s)), L3, Hlen.
  rewrite seqZ_cons by done. cbn [for_each]. apply bind_panic. unfold write_log_one.
  rewrite (bind_ok _ _ _ _ _ (lget_run (fun g => g) s)), L1, L2. apply bind_panic.
  rewrite u32_small by (unfold MAXOPBLOCKS in *; lia). apply (bread_rule_full i bl [] V D P); [done|].
  apply (full_no_room i bl V D P); [done|apply G|done|].
  rewrite Z.add_0_r. apply (geometry_out _ _ _ G). unfold LOGBLOCKS, MAXOPBLOCKS. lia.
Qed.

(** C1. Crash safety: an operation of up to [MAXOPBLOCKS] block updates
    between [begin_op] and [end_op] returns with all of them on disk, and
    whichever of the disk's contents a crash keeps on the way, [initlog] at
    the next boot returns with either all of the old blocks or all of the new
    ones, ready for the next operation. *)
Theorem crash_safe i st us V D P s : txn i st 0 [] [] V D P s -> Forall (good_update st) us ->
  Z.of_nat (length us) <= MAXOPBLOCKS ->
  exists s' news, operation us s = Ok tt s' /\ k_past s' = news ++ P /\ matches st (k_disk s') (updated us V) /\
    forall d, d ∈ k_disk s' :: news -> forall j W sb s0, blocks j [] [] W d (k_past s0) s0 ->
      lg_outstanding (k_log s0) = 0 -> lg_committing (k_log s0) = false -> s32 (sb_logstart sb) = st ->
      exists s1 V1, initlog ROOTDEV sb s0 = Ok tt s1 /\ txn j st 0 [] [] V1 (k_disk s1) (k_past s1) s1 /\
        (matches st (k_disk s1) D \/ matches st (k_disk s1) (updated us V)).
Proof.
  intros T Hus Hlen. destruct (operation_rule _ _ _ _ _ _ _ T Hus Hlen) as (s' & V' & D' & news & E & T' & _ & _ & HM & Hd).
  pose proof (tx_blocks _ _ _ _ _ _ _ _ _ T') as B. pose proof (bl_disk _ _ _ _ _ _ _ B) as HD.
  exists s', news. rewrite HD. split; [done|]. split; [apply B|]. split; [done|].
  intros d Hin j W sb s0 B0 Ho Hc Hst. destruct (Hd d Hin) as [Hr Hor].
  destruct (initlog_rule _ _ sb _ _ _ B0 Hst Hr Ho Hc) as (s1 & V1 & E1 & T1 & HM1).
  exists s1, V1. split; [done|]. split; [done|].
  destruct Hor as [H|H]; [left|right]; intros m Hm; by rewrite (HM1 m Hm), (H m Hm).
Qed.

(** C37. The reservation of [begin_op] is one buffer too generous: three
    operations of [MAXOPBLOCKS] updates each to different blocks, all admitted
    by [begin_op] and all within their reservation, make the last [end_op]
    panic, since the commit needs a buffer for the log and all [NBUF] are
    pinned. *)
Theorem full_log_panics i st us V D P s : txn i st 0 [] [] V D P s -> Forall (good_update st) us ->
  Z.of_nat (length us) = 3 * MAXOPBLOCKS -> NoDup (map u_block us) ->
  (begin_op ;; begin_op ;; begin_op ;; for_each us update ;; end_op ;; end_op ;; end_op) s = Panic "bget: no buffers".
Proof.
  intros T0 Hus Hlen Hnd.
  destruct (begin_op_rule _ _ _ _ _ _ _ _ _ T0 ltac:(done)) as (s1 & E1 & T1 & _). rewrite (bind_ok _ _ _ _ _ E1).
  destruct (begin_op_rule _ _ _ _ _ _ _ _ _ T1 ltac:(done)) as (s2 & E2 & T2 & _). rewrite (bind_ok _ _ _ _ _ E2).
  destruct (begin_op_rule _ _ _ _ _ _ _ _ _ T2 ltac:(done)) as (s3 & E3 & T3 & _). rewrite (bind_ok _ _ _ _ _ E3).
  destruct (updates_rule _ _ _ us _ _ _ _ _ T3 ltac:(lia) ltac:(unfold LOGBLOCKS; cbn; lia) Hus) as (s4 & E4 & T4 & _).
  rewrite (bind_ok _ _ _ _ _ E4). rewrite absorbed_distinct in T4 by done. cbn [app] in T4.
  destruct (end_op_wait _ _ _ _ _ _ _ _ T4 ltac:(lia)) as (s5 & E5 & T5 & _). rewrite (bind_ok _ _ _ _ _ E5).
  destruct (end_op_wait _ _ _ _ _ _ _ _ T5 ltac:(lia)) as (s6 & E6 & T6 & _). rewrite (bind_ok _ _ _ _ _ E6).
  rewrite (end_op_last i st (map u_block us) (updated us V) D P s6 T6). apply bind_panic. destruct T6 as [B L G _ _ _].
  apply (commit_no_buffer i st (map u_block us) (updated us V) D P); [by apply blocks_log|done|done|].
  rewrite length_map. unfold NBUF. lia.
Qed.

(** C5. Recovery: [recover_from_log] on any disk whose header was written by
    [write_head] returns with the contents [recovered] describes and an empty
    log, and a crash at any point of the recovery leaves a disk that recovers
    to the same contents. *)
Theorem recovery_correct i st V D P s : blocks i [] [] V D P s ->
  lg_start (k_log s) = st -> lg_dev (k_log s) = ROOTDEV -> recoverable st D ->
  exists s' news, recover_from_log s = Ok tt s' /\ k_past s' = news ++ P /\ lg_n (k_log s') = 0 /\
    hdr_n (k_disk s' st) = 0 /\ matches st (k_disk s') (recovered st D) /\
    forall d, d ∈ k_disk s' :: news -> matches st (recovered st d) (recovered st D).
Proof.
  intros B L1 L2 (bl & Hh & G).
  destruct (recover_rule _ _ _ _ _ _ _ B L1 L2 Hh G) as (s' & V' & D' & news & E & B' & (_ & _ & L3 & _) & _ & _ & HM & Hh' & Hd).
  pose proof (bl_disk _ _ _ _ _ _ _ B') as HD. exists s', news. rewrite HD. split; [done|]. split; [apply B'|].
  split; [done|]. split; [apply Hh'|]. done.
Qed.

(** The buffer cache: [bread] returns a locked buffer with the current
    contents of the block, keeping what every block reads as, or panics
    exactly when the block is not cached and no buffer is unused. *)
Theorem bread_correct i pb own V D P s n : blocks i pb own V D P s -> 0 <= n < 0x80000000 -> n ∉ own.*2 ->
  (room s n /\ exists b s', bread ROOTDEV n s = Ok b s' /\ beq (b_data (k_bufs s' b)) (V n) /\
     k_sleeplocks s' (SL_buf b) = mkSleep true (p_pid (k_procs s' i)) /\
     blocks i pb ((b, n) :: own) V D P s' /\ bframe s s') \/
  (~ room s n /\ bread ROOTDEV n s = Panic "bget: no buffers").
Proof.
  intros B Hn Ho. destruct (room_dec s n) as [Hr|Hr]; [left|right; split; [done|by eapply bread_rule_full]].
  split; [done|]. destruct (bread_rule_room _ _ _ _ _ _ _ _ B Hn Ho Hr) as (b & s' & E & B' & F & _).
  exists b, s'. split; [done|]. split; [eapply blocks_data; [done|ielem]|]. split; [|done].
  destruct (bl_cache _ _ _ _ _ _ _ B') as (pin & l & BC & _). apply (bc_lock _ _ _ _ _ BC). cbn. ielem.
Qed.

(** Writing a block through the cache: [bread], a change of the data,
    [bwrite] and [brelse] put exactly the new bytes of this block on disk,
    leave every other block alone, and the next [bread] returns them. *)
Theorem write_read_block i pb V D P s n d : blocks i pb [] V D P s -> 0 <= n < 0x80000000 ->
  Z.of_nat (length pb) < NBUF ->
  exists s' b, (b <- bread ROOTDEV n ;; modify (upd_buf b (b_set_data d)) ;; bwrite b ;; brelse b ;; bread ROOTDEV n) s = Ok b s' /\
    beq (b_data (k_bufs s' b)) d /\ beq (k_disk s' n) d /\ (forall m, m <> n -> k_disk s' m = k_disk s m) /\
    k_past s' = k_disk s :: k_past s /\ bframe s s'.
Proof.
  intros B Hn Hroom. pose proof (bl_disk _ _ _ _ _ _ _ B) as HD. pose proof (bl_past _ _ _ _ _ _ _ B) as HP.
  destruct (bread_rule _ _ _ _ _ _ _ _ B Hn ltac:(apply not_elem_of_nil) ltac:(right; cbn; lia)) as (b & s1 & E1 & B1 & F1 & _).
  rewrite (bind_ok _ _ _ _ _ E1). destruct (data_rule _ _ _ _ _ _ _ b n d B1 ltac:(ielem)) as [B2 F2].
  rewrite (bind_ok _ _ _ _ _ (modify_run _ s1)). set (s2 := upd_buf b (b_set_data d) s1) in *.
  destruct (bwrite_rule _ _ _ _ _ _ _ b n B2 ltac:(ielem)) as (s3 & X & E3 & HX & B3 & F3 & _). rewrite fupd_eq in HX.
  rewrite (bind_ok _ _ _ _ _ E3).
  destruct (brelse_rule _ _ _ _ _ _ _ _ _ B3 ltac:(right; rewrite !fupd_eq; by symmetry)) as (s4 & E4 & B4 & F4).
  rewrite (bind_ok _ _ _ _ _ E4).
  destruct (bread_rule _ _ _ _ _ _ _ _ B4 Hn ltac:(apply not_elem_of_nil) ltac:(right; cbn; lia)) as (c & s5 & E5 & B5 & F5 & _).
  exists s5, c. split; [done|]. rewrite (bl_disk _ _ _ _ _ _ _ B5), (bl_past _ _ _ _ _ _ _ B5), HD, HP, fupd_eq.
  pose proof (blocks_data _ _ _ _ _ _ _ c n B5 ltac:(ielem)) as Hc. rewrite fupd_eq in Hc.
  split; [done|]. split; [done|]. split; [intros m Hm; by rewrite fupd_ne|]. split; [done|].
  apply (bframe_trans _ s1); [done|]. apply (bframe_trans _ s2); [done|]. apply (bframe_trans _ s3); [done|]. by apply (bframe_trans _ s4).
Qed.

(** C11. The disk driver: a request of a running process that holds no
    spinlock, on an idle driver, completes: [virtio_disk_rw] returns, exactly
    the one block moved between the buffer and the disk, all descriptors are
    free again, and nothing else changed but states of processes. *)
Theorem virtio_disk_rw_correct i b write s :
  running i s -> k_held s = [] -> vidle (k_vdisk s) -> 0 <= b_blockno (k_bufs s b) < 0x80000000 ->
  exists s', virtio_disk_rw b write s = Ok tt s' /\
    transferred b (b_blockno (k_bufs s b)) write s s' /\ io_frame s s' /\ running i s' /\ vidle (k_vdisk s').
Proof. apply virtio_disk_rw_ok. Qed.
End crash.

(** ** Instances *)

Definition two_updates : list upd := [mkUpd 100 0 [1; 2]; mkUpd 101 4 [7]].

Lemma crash_safe_witness : exists s' news, @operation disk_env two_updates booted = Ok tt s' /\ k_past s' = news ++ [] /\
  matches 2 (k_disk s') (updated two_updates (k_disk booted)) /\
  forall d, d ∈ k_disk s' :: news -> forall j W sb s0, blocks j [] [] W d (k_past s0) s0 ->
    lg_outstanding (k_log s0) = 0 -> lg_committing (k_log s0) = false -> s32 (sb_logstart sb) = 2 ->
    exists s1 V1, @initlog disk_env ROOTDEV sb s0 = Ok tt s1 /\ txn j 2 0 [] [] V1 (k_disk s1) (k_past s1) s1 /\
      (matches 2 (k_disk s1) (k_disk booted) \/ matches 2 (k_disk s1) (updated two_updates (k_disk booted))).
Proof.
  apply (@crash_safe disk_env sample_disk 0 2 two_updates (k_disk booted) (k_disk booted) [] booted booted_txn); [|done].
  repeat (apply Forall_cons_2; [unfold good_update, in_log, LOGBLOCKS, MAXOPBLOCKS; cbn; lia|]). apply Forall_nil_2.
Defined.

Definition thirty_updates : list upd := map (fun k => mkUpd (100 + k) 0 [1]) (seqZ 0 30).

Lemma thirty_good : Forall (good_update 2) thirty_updates.
Proof.
  apply Forall_forall. intros u (k & -> & Hk%elem_of_seqZ)%list_elem_of_fmap. unfold good_update, in_log, LOGBLOCKS, MAXOPBLOCKS. cbn. lia.
Qed.

Lemma full_log_panics_witness :
  (@begin_op disk_env ;; @begin_op disk_env ;; @begin_op disk_env ;; for_each thirty_updates (@update disk_env) ;;
   @end_op disk_env ;; @end_op disk_env ;; @end_op disk_env) booted = Panic "bget: no buffers".
Proof.
  apply (@full_log_panics disk_env sample_disk 0 2 thirty_updates (k_disk booted) (k_disk booted) [] booted booted_txn thirty_good).
  - done.
  - apply (bool_decide_unpack _). vm_compute. exact I.
Defined.

Lemma recovery_correct_witness : exists s' news, @recover_from_log disk_env booted = Ok tt s' /\ k_past s' = news ++ [] /\
  lg_n (k_log s') = 0 /\ hdr_n (k_disk s' 2) = 0 /\ matches 2 (k_disk s') (recovered 2 (k_disk booted)) /\
  forall d, d ∈ k_disk s' :: news -> matches 2 (recovered 2 d) (recovered 2 (k_disk booted)).
Proof.
  destruct booted_txn as [B (L1 & L2 & _) G _ _ H].
  apply (@recovery_correct disk_env sample_disk 0 2 (k_disk booted) (k_disk booted) [] booted B L1 L2). exists []. exact (conj H G).
Defined.

Lemma bread_correct_witness :
  (room booted 7 /\ exists b s', @bread disk_env ROOTDEV 7 booted = Ok b s' /\ beq (b_data (k_bufs s' b)) (k_disk booted 7) /\
     k_sleeplocks s' (SL_buf b) = mkSleep true (p_pid (k_procs s' 0)) /\
     blocks 0 [] [(b, 7)] (k_disk booted) (k_disk booted) [] s' /\ bframe booted s') \/
  (~ room booted 7 /\ @bread disk_env ROOTDEV 7 booted = Panic "bget: no buffers").
Proof.
  apply (@bread_correct disk_env sample_disk 0 [] [] (k_disk booted) (k_disk booted) [] booted 7);
    [apply booted_blocks|lia|apply not_elem_of_nil].
Defined.

Lemma write_read_block_witness : exists s' b, (b <- @bread disk_env ROOTDEV 7 ;; modify (upd_buf b (b_set_data (fun _ => 9))) ;;
    @bwrite disk_env b ;; brelse b ;; @bread disk_env ROOTDEV 7) booted = Ok b s' /\
  beq (b_data (k_bufs s' b)) (fun _ => 9) /\ beq (k_disk s' 7) (fun _ => 9) /\
  (forall m, m <> 7 -> k_disk s' m = k_disk booted m) /\ k_past s' = k_disk booted :: k_past booted /\ bframe booted s'.
Proof.
  apply (@write_read_block disk_env sample_disk 0 [] (k_disk booted) (k_disk booted) [] booted 7 (fun _ => 9));
    [apply booted_blocks|lia|done].
Defined.

Lemma virtio_disk_rw_correct_witness : exists s', @virtio_disk_rw disk_env 3 true before_binit = Ok tt s' /\
  transferred 3 0 true before_binit s' /\ io_frame before_binit s' /\ running 0 s' /\ vidle (k_vdisk s').
Proof. apply (@virtio_disk_rw_correct disk_env sample_disk 0 3 true before_binit); [by split|done|by split|done]. Defined.
