(* ===== verification/PhysMem.v ===== *)
(** * Physical pages: kernel/kalloc.c, kernel/swap.c and [walk] of kernel/vm.c

    The allocator, the swap area and the page-table walk call each other:
    [kalloc] swaps a page out when it has none left, swapping walks page
    tables, and [walk] allocates page-table pages.  [walk_with] takes the
    allocator as an argument to break the cycle; the calls on the way from
    [kalloc] pass [alloc = 0] and never use it ([walk_noalloc]). *)

From S2P Require Import Prelude Riscv Mem KState Memstats Sched Bio.

Section PhysMem.
Context {LAY : Layout} {ENV : Env}.

(** ** Reference counts (kalloc.c) *)

Definition pageindex (pa : Z) : K Z :=
  if (pa <? KERNBASE) || (pa >=? PHYSTOP) then panic "pageindex: invalid pa"
  else ret ((pa - KERNBASE) / PGSIZE).

(** [(uint64)pa % PGSIZE != 0 || (uint64)pa < KERNBASE || (uint64)pa >= PHYSTOP] *)
Definition bad_pa (pa : Z) : bool :=
  negb (pa mod PGSIZE =? 0) || (pa <? KERNBASE) || (pa >=? PHYSTOP).

Definition get_count (i : Z) : K Z := gets (fun s => k_refcount s i).
Definition set_count (i v : Z) : K unit :=
  modify (fun s => k_set_refcount (fupd (k_refcount s) i v) s).

Definition krefinc (pa : Z) : K unit :=
  if bad_pa pa then panic "krefinc: invalid pa" else
  acquire L_refcount ;;
  i <- pageindex pa ;;
  c <- get_count i ;;
  set_count i (s32 (c + 1)) ;;
  release L_refcount.

Definition krefdec (pa : Z) : K Z :=
  if bad_pa pa then panic "krefdec: invalid pa" else
  acquire L_refcount ;;
  i <- pageindex pa ;;
  c <- get_count i ;;
  if c <=? 0 then panic "krefdec: refcount <= 0" else
  set_count i (c - 1) ;;
  count <- get_count i ;;
  release L_refcount ;;
  ret count.

Definition krefget (pa : Z) : K Z :=
  if bad_pa pa then panic "krefget: invalid pa" else
  acquire L_refcount ;;
  i <- pageindex pa ;;
  count <- get_count i ;;
  release L_refcount ;;
  ret count.

Definition kfree (pa : Z) : K unit :=
  if negb (pa mod PGSIZE =? 0) || (pa <? kend) || (pa >=? PHYSTOP) then panic "kfree" else
  count <- krefdec pa ;;
  if count >? 0 then ret tt else
  memstats_inc_pages_freed ;;
  kmemset pa 1 PGSIZE ;;
  acquire L_kmem ;;
  h <- gets k_freelist ;;
  st64 pa h ;;
  modify (k_set_freelist pa) ;;
  release L_kmem.

(** ** The page-table walk (vm.c) *)

(** The loop of [walk]: [level] counts down from 2; the result is the address
    of the level-0 entry, or 0. *)
Fixpoint walk_levels (ka : K Z) (level : nat) (pagetable va : Z) (alloc : bool) : K Z :=
  match level with
  | O => ret (pagetable + 8 * PX 0 va)
  | S l =>
      let pte := pagetable + 8 * PX (Z.of_nat level) va in
      e <- ld64 pte ;;
      if has e PTE_V then walk_levels ka l (PTE2PA e) va alloc
      else if negb alloc then ret 0
      else
        pg <- ka ;;
        if pg =? 0 then ret 0 else
        kmemset pg 0 PGSIZE ;;
        st64 pte (Z.lor (PA2PTE pg) PTE_V) ;;
        walk_levels ka l pg va alloc
  end.

Definition walk_with (ka : K Z) (pagetable va : Z) (alloc : bool) : K Z :=
  if va >=? MAXVA then panic "walk" else walk_levels ka 2 pagetable va alloc.

(** [walk(pagetable, va, 0)]. *)
Definition walk0 (pagetable va : Z) : K Z := walk_with (ret 0) pagetable va false.

(** ** Swap (swap.c) *)

Definition SWAP_START_BLOCK : Z := FSSIZE.
Definition SWAP_MAX_BLOCKS : Z := 1000.

Definition swapinit : K unit :=
  initlock L_swap ;;
  modify (fun s => k_set_swap (mkSwap (fun _ => 0) SWAP_MAX_BLOCKS) s).

(** [swap.inuse[i/8] & (1 << (i%8))] *)
Definition swap_bit (w : swapst) (i : Z) : bool := has (sw_inuse w (i / 8)) (Z.shiftl 1 (i mod 8)).

Definition set_inuse (i : Z) (f : Z -> Z) (w : swapst) : swapst :=
  sw_set_inuse (fupd (sw_inuse w) (i / 8) (u8 (f (sw_inuse w (i / 8))))) w.

Definition on_swap (f : swapst -> swapst) (s : kstate) : kstate := k_set_swap (f (k_swap s)) s.

Definition swapalloc : K Z :=
  acquire L_swap ;;
  w <- gets k_swap ;;
  if sw_nfree w =? 0 then release L_swap ;; ret (-1) else
  r <- for_find (seqZ 0 SWAP_MAX_BLOCKS) (fun i =>
    w <- gets k_swap ;;
    if negb (swap_bit w i) then
      modify (on_swap (set_inuse i (fun b => Z.lor b (Z.shiftl 1 (i mod 8))))) ;;
      modify (on_swap (fun w => sw_set_nfree (u32 (sw_nfree w - 1)) w)) ;;
      release L_swap ;;
      ret (Some i)
    else ret None) ;;
  match r with
  | Some i => ret i
  | None => release L_swap ;; ret (-1)
  end.

Definition swapfree (swapblock : Z) : K unit :=
  if (swapblock <? 0) || (swapblock >=? SWAP_MAX_BLOCKS) then panic "swapfree: invalid swapblock" else
  acquire L_swap ;;
  w <- gets k_swap ;;
  if negb (swap_bit w swapblock) then panic "swapfree: double free" else
  modify (on_swap (set_inuse swapblock (fun b => Z.land b (Z.lnot (Z.shiftl 1 (swapblock mod 8)))))) ;;
  modify (on_swap (fun w => sw_set_nfree (u32 (sw_nfree w + 1)) w)) ;;
  release L_swap.

Definition swapblock_to_diskblock (swapblock : Z) : Z := u32 (SWAP_START_BLOCK + swapblock).

Definition pte_to_swapblock (pte : Z) : Z := s32 (Z.land (Z.shiftr pte 10) 0xFFFFFFFF).

Definition swapblock_to_pte (swapblock : Z) : Z :=
  Z.lor (u64 (Z.shiftl (u64 swapblock) 10)) PTE_SWAPPED.

Definition swapout (pagetable va : Z) : K Z :=
  let va := PGROUNDDOWN va in
  pte <- walk0 pagetable va ;;
  if pte =? 0 then ret (-1) else
  e <- ld64 pte ;;
  if negb (has e PTE_V) then ret (-1) else
  if has e PTE_COW then ret (-1) else
  if negb (has e PTE_U) then ret (-1) else
  swapblock <- swapalloc ;;
  if swapblock <? 0 then ret (-1) else
  e <- ld64 pte ;;
  let pa := PTE2PA e in
  b <- bread ROOTDEV (swapblock_to_diskblock swapblock) ;;
  data_from_mem b pa PGSIZE ;;
  bwrite b ;;
  brelse b ;;
  st64 pte (swapblock_to_pte swapblock) ;;
  kfree pa ;;
  memstats_inc_swap_out ;;
  ret 0.

(** [walk(p->pagetable, va, 0) != 0 && *pte & PTE_V && *pte & PTE_U && !( *pte & PTE_COW)] *)
Definition candidate (pagetable va : Z) : K bool :=
  pte <- walk0 pagetable va ;;
  if pte =? 0 then ret false else
  e <- ld64 pte ;;
  ret (has e PTE_V && has e PTE_U && negb (has e PTE_COW)).

(** The scan of one process's pages. *)
Definition scan_pages (i : Z) : K (option Z) :=
  p <- gets (fun s => k_procs s i) ;;
  iter (Z.to_nat (p_sz p / PGSIZE) + 2) (fun va =>
    p <- gets (fun s => k_procs s i) ;;
    if va <? p_sz p then
      c <- candidate (p_pagetable p) va ;;
      if c then
        r <- swapout (p_pagetable p) va ;;
        if r =? 0 then
          release (L_proc i) ;; ret (inr (Some 0))
        else ret (inl (u64 (va + PGSIZE)))
      else ret (inl (u64 (va + PGSIZE)))
    else ret (inr None)) 0.

Definition select_victim_page : K Z :=
  r <- for_find (seqZ 0 NPROC) (fun i =>
    acquire (L_proc i) ;;
    p <- gets (fun s => k_procs s i) ;;
    r <- (if decide (p_state p <> UNUSED /\ p_pagetable p <> 0) then scan_pages i else ret None) ;;
    match r with
    | Some v => ret (Some v)
    | None => release (L_proc i) ;; ret None
    end) ;;
  ret (default (-1) r).

(** ** The allocator (kalloc.c) *)

(** [acquire(&kmem.lock); r = kmem.freelist; if(r) kmem.freelist = r->next;
    release(&kmem.lock);] *)
Definition pop_freelist : K Z :=
  acquire L_kmem ;;
  r <- gets k_freelist ;;
  (if r =? 0 then ret tt else n <- ld64 r ;; modify (k_set_freelist n)) ;;
  release L_kmem ;;
  ret r.

Definition kalloc : K Z :=
  r <- pop_freelist ;;
  r <- (if r =? 0 then
          v <- select_victim_page ;;
          if v =? 0 then pop_freelist else ret r
        else ret r) ;;
  (if r =? 0 then ret tt else
     kmemset r 5 PGSIZE ;;
     acquire L_refcount ;;
     i <- pageindex r ;;
     set_count i 1 ;;
     release L_refcount ;;
     memstats_inc_pages_allocated) ;;
  ret r.

Definition walk (pagetable va : Z) (alloc : bool) : K Z := walk_with kalloc pagetable va alloc.

Definition swapin (pagetable va : Z) : K Z :=
  let va := PGROUNDDOWN va in
  pte <- walk pagetable va false ;;
  if pte =? 0 then ret 0 else
  e <- ld64 pte ;;
  if negb (has e PTE_SWAPPED) then ret 0 else
  let swapblock := pte_to_swapblock e in
  pa <- kalloc ;;
  if pa =? 0 then ret 0 else
  b <- bread ROOTDEV (swapblock_to_diskblock swapblock) ;;
  data_to_mem pa b PGSIZE ;;
  brelse b ;;
  swapfree swapblock ;;
  e <- ld64 pte ;;
  let flags := Z.land (Z.land e 0x3FF) (Z.lnot PTE_SWAPPED) in
  st64 pte (Z.lor (Z.lor (PA2PTE pa) flags) PTE_V) ;;
  ret pa.

(** [for(; p + PGSIZE <= (char* )pa_end; p += PGSIZE)] *)
Definition freerange (pa_start pa_end : Z) : K unit :=
  iter (Z.to_nat ((pa_end - pa_start) / PGSIZE) + 2) (fun p =>
    if p + PGSIZE <=? pa_end then
      acquire L_refcount ;;
      i <- pageindex p ;;
      set_count i 0 ;;
      release L_refcount ;;
      kfree p ;;
      ret (inl (p + PGSIZE))
    else ret (inr tt)) (PGROUNDUP pa_start).

Definition kinit : K unit :=
  initlock L_kmem ;;
  initlock L_refcount ;;
  modify (k_set_refcount (fun _ => 0)) ;;
  freerange kend PHYSTOP.

End PhysMem.
