(* ===== verification/Kalloc.v ===== *)
(** * The page allocator is correct (kernel/kalloc.c)

    The free list is a linked list through the first word of each free page;
    [alloc_ok] relates it to the list of the pages on it.  Every operation is
    described on every branch: the count-only [kfree], the freeing one, the
    ones that panic, allocation from the list and without pages. *)

From S2P Require Import Prelude Riscv Mem KState Memstats Sched Bio PhysMem.

(** ** Definitions *)

(** Index of a page in [refcount.count], and its count. *)
Definition pidx (pa : Z) : Z := (pa - KERNBASE) / PGSIZE.
Definition count_of (s : kstate) (pa : Z) : Z := k_refcount s (pidx pa).
Definition with_count (pa v : Z) (s : kstate) : kstate :=
  k_set_refcount (fupd (k_refcount s) (pidx pa) v) s.

(** The pages linked from [p] through their first word, in order. *)
Fixpoint free_chain (m : mem) (p : Z) (fl : list Z) : Prop :=
  match fl with
  | [] => p = 0
  | q :: fl => p = q /\ free_chain m (load64 m q) fl
  end.

Section Kalloc.
Context {LAY : Layout} {ENV : Env}.

(** The allocator's invariant: [fl] is the free list; its pages are distinct
    pages of the heap and nobody counts a reference to them. *)
Record alloc_ok (s : kstate) (fl : list Z) : Prop := {
  ao_chain : free_chain (k_mem s) (k_freelist s) fl;
  ao_nodup : NoDup fl;
  ao_heap : Forall heap_page fl;
  ao_free : Forall (fun p => count_of s p = 0) fl
}.

(** No page is lost: a heap page with count 0 is on the free list. *)
Definition no_leak (s : kstate) (fl : list Z) : Prop :=
  forall p, heap_page p -> count_of s p <= 0 -> p ∈ fl.

(** The states after the two kinds of [kfree] and after an allocation. *)
Definition freed (pa : Z) (s : kstate) : kstate :=
  k_set_freelist pa
    (k_set_mem (store64 (mem_fill (k_mem s) pa 1 PGSIZE) pa (k_freelist s))
      (on_stats (op_effect OpFreed) (with_count pa 0 s))).

Definition allocated (pa : Z) (s : kstate) : kstate :=
  on_stats (op_effect OpAllocated)
    (with_count pa 1
      (k_set_mem (mem_fill (k_mem s) pa 5 PGSIZE)
        (k_set_freelist (load64 (k_mem s) pa) s))).

(** Locks [kfree] and [kalloc] take. *)
Definition alloc_locks_free (s : kstate) : Prop :=
  (L_kmem ∉ k_held s) /\ (L_refcount ∉ k_held s) /\ (L_memstats ∉ k_held s).

(** ** Reference counts *)

Lemma bad_pa_false pa : is_page pa -> bad_pa pa = false.
Proof. intros (H1 & H2 & H3). unfold bad_pa. rewrite H1. clia. Qed.

Lemma pageindex_ok pa s : is_page pa -> pageindex pa s = Ok (pidx pa) s.
Proof.
  intros (H1 & H2 & H3). unfold pageindex.
  rewrite (proj2 (Z.ltb_ge pa KERNBASE)), Z.geb_leb, (proj2 (Z.leb_gt PHYSTOP pa)) by clia. done.
Qed.

Lemma krefinc_ok pa s : is_page pa -> L_refcount ∉ k_held s ->
  krefinc pa s = Ok tt (with_count pa (s32 (count_of s pa + 1)) s).
Proof.
  intros Hp Hl. unfold krefinc. rewrite bad_pa_false by done.
  run (acquire_ok L_refcount s Hl). unfold bind. rewrite pageindex_ok by done.
  unfold get_count, set_count, gets, modify.
  rewrite (release_head L_refcount (k_held s)) by done. by destruct s.
Qed.

Lemma krefdec_ok pa s : is_page pa -> L_refcount ∉ k_held s -> 0 < count_of s pa ->
  krefdec pa s = Ok (count_of s pa - 1) (with_count pa (count_of s pa - 1) s).
Proof.
  intros Hp Hl Hc. unfold krefdec. rewrite bad_pa_false by done.
  run (acquire_ok L_refcount s Hl). unfold bind. rewrite pageindex_ok by done.
  unfold get_count, set_count, gets, modify.
  change (k_refcount (k_set_held (L_refcount :: k_held s) s) (pidx pa)) with (count_of s pa).
  rewrite (proj2 (Z.leb_gt _ _)) by done.
  rewrite (release_head L_refcount (k_held s)) by done. unfold ret. cbn [k_refcount k_set_refcount].
  rewrite fupd_eq. by destruct s.
Qed.

Lemma krefdec_panic pa s : is_page pa -> L_refcount ∉ k_held s -> count_of s pa <= 0 ->
  krefdec pa s = Panic "krefdec: refcount <= 0".
Proof.
  intros Hp Hl Hc. unfold krefdec. rewrite bad_pa_false by done.
  run (acquire_ok L_refcount s Hl). unfold bind. rewrite pageindex_ok by done.
  unfold get_count, gets.
  change (k_refcount (k_set_held (L_refcount :: k_held s) s) (pidx pa)) with (count_of s pa).
  by rewrite (proj2 (Z.leb_le _ _)).
Qed.

(** ** [kfree] *)

Lemma kfree_guard pa : heap_page pa ->
  negb (pa mod PGSIZE =? 0) || (pa <? kend) || (pa >=? PHYSTOP) = false.
Proof. intros ((H1 & H2 & H3) & H4). rewrite H1. clia. Qed.

Lemma kfree_dec pa s : heap_page pa -> L_refcount ∉ k_held s -> 1 < count_of s pa ->
  kfree pa s = Ok tt (with_count pa (count_of s pa - 1) s).
Proof.
  intros Hp Hl Hc. unfold kfree. rewrite kfree_guard by done.
  run (krefdec_ok pa s (proj1 Hp) Hl ltac:(lia)). rewrite Z.gtb_ltb.
  by rewrite (proj2 (Z.ltb_lt 0 _)) by lia.
Qed.

Lemma kfree_panic pa s : heap_page pa -> L_refcount ∉ k_held s -> count_of s pa <= 0 ->
  kfree pa s = Panic "krefdec: refcount <= 0".
Proof.
  intros Hp Hl Hc. unfold kfree. rewrite kfree_guard by done.
  by run (krefdec_panic pa s (proj1 Hp) Hl Hc).
Qed.

Lemma page_in_ram pa : is_page pa -> in_ram pa PGSIZE = true.
Proof. intros. eapply in_ram_page; [done|lia|lia]. Qed.

Lemma word_in_ram pa i : is_page pa -> 0 <= i < 512 -> in_ram (pa + 8 * i) 8 = true.
Proof. intros. eapply in_ram_page; [done|lia|unfold PGSIZE; lia]. Qed.

Lemma kfree_last pa s : heap_page pa -> alloc_locks_free s -> count_of s pa = 1 ->
  kfree pa s = Ok tt (freed pa s).
Proof.
  intros Hp (Hk & Hr & Hm) Hc. unfold kfree. rewrite kfree_guard by done.
  run (krefdec_ok pa s (proj1 Hp) Hr ltac:(lia)). rewrite Hc.
  change (1 - 1 >? 0) with false. cbv iota.
  run (pages_freed_ok (with_count pa (1 - 1) s) Hm).
  unfold bind, kmemset. rewrite page_in_ram by apply Hp.
  rewrite acquire_ok by done. unfold gets, st64, modify.
  pose proof (word_in_ram pa 0 (proj1 Hp) ltac:(lia)) as Hw. rewrite Z.add_0_r in Hw. rewrite Hw.
  rewrite (release_head L_kmem (k_held s)) by done. by destruct s.
Qed.

(** ** Allocation *)

Lemma pop_freelist_ok pa s : is_page pa -> L_kmem ∉ k_held s -> k_freelist s = pa ->
  pop_freelist s = Ok pa (k_set_freelist (load64 (k_mem s) pa) s).
Proof.
  intros Hp Hl Hf. unfold pop_freelist. run (acquire_ok L_kmem s Hl). unfold bind, gets.
  change (k_freelist (k_set_held (L_kmem :: k_held s) s)) with (k_freelist s). rewrite Hf.
  rewrite (proj2 (Z.eqb_neq pa 0)) by (destruct Hp as (?&?&?); clia).
  unfold ld64. pose proof (word_in_ram pa 0 Hp ltac:(lia)) as Hw. rewrite Z.add_0_r in Hw.
  rewrite Hw. unfold modify. rewrite (release_head L_kmem (k_held s)) by done. by destruct s.
Qed.

Lemma pop_freelist_empty s : L_kmem ∉ k_held s -> k_freelist s = 0 -> pop_freelist s = Ok 0 s.
Proof.
  intros Hl Hf. unfold pop_freelist. run (acquire_ok L_kmem s Hl). unfold bind, gets.
  change (k_freelist (k_set_held (L_kmem :: k_held s) s)) with (k_freelist s). rewrite Hf.
  change (0 =? 0) with true. cbv beta iota delta [ret].
  rewrite (release_head L_kmem (k_held s)) by done. by destruct s.
Qed.

Lemma kalloc_head pa s : is_page pa -> alloc_locks_free s -> k_freelist s = pa ->
  kalloc s = Ok pa (allocated pa s).
Proof.
  intros Hp (Hk & Hr & Hm) Hf. unfold kalloc. run (pop_freelist_ok pa s Hp Hk Hf).
  assert (pa <> 0) as Hne by (destruct Hp as (?&?&?); clia).
  rewrite (proj2 (Z.eqb_neq pa 0) Hne). unfold bind at 1, ret at 1.
  rewrite (proj2 (Z.eqb_neq pa 0) Hne). unfold bind, kmemset. rewrite page_in_ram by done.
  rewrite acquire_ok by done. rewrite pageindex_ok by done. unfold set_count, modify.
  rewrite (release_head L_refcount (k_held s)) by done.
  rewrite pages_allocated_ok by done. by destruct s.
Qed.

(** ** The invariant *)

Lemma pidx_inj p q : is_page p -> is_page q -> pidx p = pidx q -> p = q.
Proof. intros (Hp & Hp1 & Hp2) (Hq & Hq1 & Hq2). unfold pidx, PGSIZE in *. zlia. Qed.

Lemma count_with_count pa v s : count_of (with_count pa v s) pa = v.
Proof. apply fupd_eq. Qed.

Lemma count_with_count_ne pa q v s : is_page pa -> is_page q -> q <> pa ->
  count_of (with_count pa v s) q = count_of s q.
Proof. intros Hp Hq Hne. unfold count_of, with_count. cbn [k_refcount k_set_refcount]. apply fupd_ne. intros E. by apply Hne, pidx_inj. Qed.

Lemma pages_disjoint p q x : is_page p -> is_page q -> p <> q -> in_page p x -> ~ in_page q x.
Proof. intros (H1&_&_) (H2&_&_) Hne Hp Hq. by apply Hne, (in_page_inj p q x). Qed.

(** A word of one page is not affected by changes to another page. *)
Lemma load64_other_page m m' p q i : is_page p -> is_page q -> p <> q -> 0 <= i < 512 ->
  same_outside q PGSIZE m m' -> load64 m' (p + 8 * i) = load64 m (p + 8 * i).
Proof.
  intros Hp Hq Hne Hi Hm. eapply load64_outside; [done|]. intros x Hx.
  eapply (pages_disjoint p q); try done. unfold in_page, PGSIZE. lia.
Qed.

Lemma free_chain_ext m m' p fl :
  (forall q, q ∈ fl -> load64 m' q = load64 m q) -> free_chain m p fl -> free_chain m' p fl.
Proof.
  revert p. induction fl as [|q fl IH]; intros p H; [done|].
  cbn [free_chain]. intros [-> Hc]. split; [done|]. rewrite H by set_solver.
  apply IH; [|done]. intros. apply H. set_solver.
Qed.

Lemma alloc_ok_frame s s' fl :
  alloc_ok s fl ->
  k_freelist s' = k_freelist s ->
  (forall q, q ∈ fl -> agree_on q PGSIZE (k_mem s) (k_mem s')) ->
  (forall q, q ∈ fl -> count_of s' q = count_of s q) ->
  alloc_ok s' fl.
Proof.
  intros [Hc Hn Hh Hf] Hfl Hm Hcnt. split; [|done|done|].
  - rewrite Hfl. eapply free_chain_ext; [|done]. intros q Hq. apply (loadn_ext 8).
    intros x Hx. apply (Hm q Hq). unfold PGSIZE. simpl in Hx. lia.
  - apply Forall_forall. intros q Hq. rewrite Hcnt by done.
    by apply (proj1 (Forall_forall _ _) Hf).
Qed.

Lemma free_not_counted s fl pa : alloc_ok s fl -> 0 < count_of s pa -> pa ∉ fl.
Proof.
  intros [_ _ _ Hf] Hc Hin. rewrite Forall_forall in Hf. specialize (Hf _ Hin). lia.
Qed.

Lemma free_is_heap s fl pa : alloc_ok s fl -> pa ∈ fl -> heap_page pa.
Proof. intros [_ _ Hh _] Hin. by apply (proj1 (Forall_forall _ _) Hh). Qed.

Lemma heap_page_range pa : heap_page pa -> 0 < pa < 0x10000000000000000.
Proof. clia. Qed.

Lemma freelist_range s fl : alloc_ok s fl -> 0 <= k_freelist s < 0x10000000000000000.
Proof.
  intros Ha. pose proof (ao_chain _ _ Ha) as Hc. destruct fl as [|q fl]; cbn in Hc.
  - lia.
  - destruct Hc as [-> _]. pose proof (heap_page_range q) as Hq.
    destruct Hq; [|lia]. eapply free_is_heap; [done|set_solver].
Qed.

Lemma with_count_ok s fl pa v : alloc_ok s fl -> is_page pa -> pa ∉ fl ->
  alloc_ok (with_count pa v s) fl.
Proof.
  intros Ha Hp Hnin. eapply alloc_ok_frame; [done|done|done|].
  intros q Hq. apply count_with_count_ne; [done|by eapply free_is_heap|]. by intros ->.
Qed.

(** Giving back the last reference puts the page in front of the free list. *)
Lemma freed_ok s fl pa : alloc_ok s fl -> heap_page pa -> count_of s pa = 1 ->
  alloc_ok (freed pa s) (pa :: fl).
Proof.
  intros Ha Hp Hc. assert (pa ∉ fl) as Hnin by (eapply free_not_counted; [done|lia]).
  assert (same_outside pa PGSIZE (k_mem s) (k_mem (freed pa s))) as Hout.
  { eapply same_outside_trans; [apply mem_fill_outside|].
    eapply same_outside_weaken; [apply store64_outside|]. unfold PGSIZE. lia. }
  assert (alloc_ok (with_count pa 0 s) fl) as Ha' by (apply with_count_ok; [done|apply Hp|done]).
  split.
  - cbn [free_chain]. split; [done|]. change (k_mem (freed pa s)) with
      (store64 (mem_fill (k_mem s) pa 1 PGSIZE) pa (k_freelist s)).
    rewrite load64_store64, u64_small by (by eapply freelist_range).
    eapply free_chain_ext; [|apply Ha].
    intros q Hq. rewrite <- (Z.add_0_r q). apply (load64_other_page _ _ q pa 0); try done.
    + by eapply free_is_heap.
    + apply Hp.
    + by intros ->.
  - constructor; [done|apply Ha].
  - constructor; [done|apply Ha].
  - constructor; [apply count_with_count|apply Ha'].
Qed.

(** Allocation takes the first page off the list; its count becomes 1. *)
Lemma allocated_ok s fl pa : alloc_ok s (pa :: fl) -> alloc_ok (allocated pa s) fl.
Proof.
  intros [[Hfl Hc] Hn Hh Hf]. inversion Hn as [|? ? Hnin Hn']; subst.
  inversion Hh as [|? ? Hp Hh']; subst. inversion Hf as [|? ? Hf0 Hf']; subst.
  split; [|done|done|].
  - change (k_freelist (allocated _ s)) with (load64 (k_mem s) (k_freelist s)).
    eapply free_chain_ext; [|done]. intros q Hq. rewrite <- (Z.add_0_r q).
    apply (load64_other_page _ _ q (k_freelist s) 0); try done.
    + by apply (proj1 (Forall_forall _ _) Hh' q).
    + apply Hp.
    + by intros ->.
    + apply mem_fill_outside.
  - apply Forall_forall. intros q Hq.
    change (count_of (with_count (k_freelist s) 1 s) q = 0).
    rewrite count_with_count_ne; [by apply (proj1 (Forall_forall _ _) Hf')|apply Hp| |by intros ->].
    by apply (proj1 (Forall_forall _ _) Hh' q).
Qed.

Lemma freed_no_leak s fl pa : no_leak s fl -> heap_page pa -> count_of s pa = 1 ->
  no_leak (freed pa s) (pa :: fl).
Proof.
  intros Hl Hp Hc p Hpp Hcp. destruct (decide (p = pa)) as [->|Hne]; [set_solver|].
  apply elem_of_cons; right. apply Hl; [done|].
  change (count_of (freed pa s) p) with (count_of (with_count pa 0 s) p) in Hcp.
  by rewrite count_with_count_ne in Hcp by (done || apply Hp || apply Hpp).
Qed.

Lemma allocated_no_leak s fl pa : no_leak s (pa :: fl) -> heap_page pa ->
  no_leak (allocated pa s) fl.
Proof.
  intros Hl Hp p Hpp Hcp. change (count_of (allocated pa s) p) with
    (count_of (with_count pa 1 s) p) in Hcp.
  destruct (decide (p = pa)) as [->|Hne]; [rewrite count_with_count in Hcp; lia|].
  rewrite count_with_count_ne in Hcp by (done || apply Hp || apply Hpp).
  by apply Hl, elem_of_cons in Hcp as [->|].
Qed.

End Kalloc.
