(* ===== verification/Swap.v ===== *)
(** * Swap blocks and swapping (kernel/swap.c)

    The bitmap of swap blocks: [swapalloc] hands out the lowest free block,
    [swapfree] gives one back, and the free counter always matches the map.
    The transfers themselves: [swapout] and [swapin] copy a page of 4096
    bytes through a 1024-byte buffer, so neither ever completes. *)

From S2P Require Import Prelude Riscv Mem KState Memstats Sched Bio PhysMem Kalloc Sample.

(** ** Definitions *)

Definition swap_blocks : list Z := seqZ 0 SWAP_MAX_BLOCKS.

(** Number of blocks in use. *)
Definition swap_used (w : swapst) : Z :=
  sumZ (fun i => if swap_bit w i then 1 else 0) swap_blocks.

(** The free counter counts the clear bits. *)
Definition swap_ok (w : swapst) : Prop := sw_nfree w = SWAP_MAX_BLOCKS - swap_used w.

(** Block [i] taken or given back. *)
Definition take_block (i : Z) (w : swapst) : swapst :=
  sw_set_nfree (u32 (sw_nfree w - 1))
    (set_inuse i (fun b => Z.lor b (Z.shiftl 1 (i mod 8))) w).
Definition give_block (i : Z) (w : swapst) : swapst :=
  sw_set_nfree (u32 (sw_nfree w + 1))
    (set_inuse i (fun b => Z.land b (Z.lnot (Z.shiftl 1 (i mod 8)))) w).

(** [i] is the lowest free block. *)
Definition first_free (w : swapst) (i : Z) : Prop :=
  0 <= i < SWAP_MAX_BLOCKS /\ swap_bit w i = false /\
  forall j, 0 <= j < i -> swap_bit w j = true.

(** ** The bitmap *)

Lemma swap_bit_eq w i : 0 <= i -> swap_bit w i = Z.testbit (sw_inuse w (i / 8)) (i mod 8).
Proof.
  intros Hi. unfold swap_bit. rewrite Z.shiftl_1_l. apply has_pow2.
  by apply Z.mod_pos_bound.
Qed.

Lemma swap_bit_take w i j : 0 <= i -> 0 <= j ->
  swap_bit (take_block i w) j = if decide (j = i) then true else swap_bit w j.
Proof.
  intros Hi Hj. rewrite !swap_bit_eq by done. pose proof (Z.mod_pos_bound j 8 ltac:(lia)).
  unfold take_block, set_inuse. cbn [sw_inuse sw_set_inuse sw_set_nfree]. unfold fupd.
  destruct (Z.eqb_spec (j / 8) (i / 8)) as [Ed|Ed].
  - rewrite u8_testbit, Z.lor_spec, Z.shiftl_1_l by lia. destruct (decide (j = i)) as [->|Hne].
    + rewrite Z.pow2_bits_true by lia. by rewrite orb_true_r.
    + rewrite Z.pow2_bits_false by (intros E; by apply Hne, block_pos_inj).
      by rewrite orb_false_r, Ed.
  - by destruct (decide (j = i)) as [->|].
Qed.

Lemma swap_bit_give w i j : 0 <= i -> 0 <= j ->
  swap_bit (give_block i w) j = if decide (j = i) then false else swap_bit w j.
Proof.
  intros Hi Hj. rewrite !swap_bit_eq by done. pose proof (Z.mod_pos_bound j 8 ltac:(lia)).
  unfold give_block, set_inuse. cbn [sw_inuse sw_set_inuse sw_set_nfree]. unfold fupd.
  destruct (Z.eqb_spec (j / 8) (i / 8)) as [Ed|Ed].
  - rewrite u8_testbit, Z.land_spec, Z.lnot_spec, Z.shiftl_1_l by lia.
    destruct (decide (j = i)) as [->|Hne].
    + rewrite Z.pow2_bits_true by lia. by rewrite andb_false_r.
    + rewrite Z.pow2_bits_false by (intros E; by apply Hne, block_pos_inj).
      by rewrite andb_true_r, Ed.
  - by destruct (decide (j = i)) as [->|].
Qed.

Lemma elem_of_blocks i : i ∈ swap_blocks <-> 0 <= i < SWAP_MAX_BLOCKS.
Proof. unfold swap_blocks. rewrite elem_of_seqZ. lia. Qed.

Lemma sumZ_bounds {A} (p : A -> bool) l :
  0 <= sumZ (fun x => if p x then 1 else 0) l <= Z.of_nat (length l).
Proof. induction l as [|x l IH]; cbn -[Z.of_nat]; [lia|]. destruct (p x); lia. Qed.

Lemma swap_used_bounds w : 0 <= swap_used w <= SWAP_MAX_BLOCKS.
Proof. apply (sumZ_bounds (swap_bit w) swap_blocks). Qed.

Lemma sumZ_blocks_upd w w' i : 0 <= i < SWAP_MAX_BLOCKS ->
  (forall j, 0 <= j -> j <> i -> swap_bit w' j = swap_bit w j) ->
  swap_used w' = swap_used w + ((if swap_bit w' i then 1 else 0) - (if swap_bit w i then 1 else 0)).
Proof.
  intros Hi Hb. unfold swap_used.
  apply (sumZ_upd (fun j => if swap_bit w j then 1 else 0)
    (fun j => if swap_bit w' j then 1 else 0) swap_blocks i).
  - apply NoDup_seqZ.
  - by apply elem_of_blocks.
  - intros j Hj%elem_of_blocks Hne. by rewrite Hb by lia.
Qed.

Lemma take_block_ok w i : swap_ok w -> 0 <= i < SWAP_MAX_BLOCKS -> swap_bit w i = false ->
  swap_ok (take_block i w).
Proof.
  intros Hw Hi Hb. pose proof (swap_used_bounds (take_block i w)) as Hu.
  pose proof (swap_used_bounds w) as Hu'. unfold swap_ok in *.
  assert (swap_used (take_block i w) = swap_used w + 1) as E.
  { rewrite (sumZ_blocks_upd w (take_block i w) i) by
      (done || intros; rewrite swap_bit_take by lia; by rewrite decide_False).
    rewrite swap_bit_take, decide_True, Hb by lia. lia. }
  rewrite E in *. cbn [sw_nfree take_block sw_set_nfree]. rewrite Hw.
  unfold SWAP_MAX_BLOCKS in *. rewrite u32_small by lia. lia.
Qed.

Lemma give_block_ok w i : swap_ok w -> 0 <= i < SWAP_MAX_BLOCKS -> swap_bit w i = true ->
  swap_ok (give_block i w).
Proof.
  intros Hw Hi Hb. pose proof (swap_used_bounds (give_block i w)) as Hu.
  pose proof (swap_used_bounds w) as Hu'. unfold swap_ok in *.
  assert (swap_used (give_block i w) = swap_used w - 1) as E.
  { rewrite (sumZ_blocks_upd w (give_block i w) i) by
      (done || intros; rewrite swap_bit_give by lia; by rewrite decide_False).
    rewrite swap_bit_give, decide_True, Hb by lia. lia. }
  rewrite E in *. cbn [sw_nfree give_block sw_set_nfree]. rewrite Hw.
  unfold SWAP_MAX_BLOCKS in *. rewrite u32_small by lia. lia.
Qed.

(** With a free block there is a lowest one. *)
Lemma first_free_exists w : swap_used w < SWAP_MAX_BLOCKS -> exists i, first_free w i.
Proof.
  intros Hu.
  assert (forall n, 0 <= n -> n <= SWAP_MAX_BLOCKS ->
    (exists i, first_free w i) \/ forall j, 0 <= j < n -> swap_bit w j = true) as Hn.
  { apply (natlike_ind (fun n => n <= SWAP_MAX_BLOCKS -> _ \/ _)); [right; lia|].
    intros k Hk IH Hk1. destruct IH as [?|IH]; [lia|by left|].
    destruct (swap_bit w k) eqn:Hb.
    - right. intros j Hj. destruct (decide (j = k)) as [->|]; [done|]. apply IH. lia.
    - left. exists k. split; [lia|]. split; [done|]. intros. apply IH. lia. }
  destruct (Hn SWAP_MAX_BLOCKS) as [?|Hall]; [done..|].
  exfalso. unfold swap_used in Hu. rewrite (sumZ_const _ _ 1) in Hu.
  - unfold swap_blocks in Hu. rewrite length_seqZ in Hu. unfold SWAP_MAX_BLOCKS in Hu. lia.
  - intros j Hj%elem_of_blocks. by rewrite Hall.
Qed.

(** ** Allocating and freeing blocks *)

Lemma swapalloc_first s i : L_swap ∉ k_held s -> sw_nfree (k_swap s) <> 0 ->
  first_free (k_swap s) i -> swapalloc s = Ok i (on_swap (take_block i) s).
Proof.
  intros Hl Hn (Hi & Hb & Hlow). unfold swapalloc. run (acquire_ok L_swap s Hl).
  unfold bind at 1, gets at 1.
  change (k_swap (k_set_held (L_swap :: k_held s) s)) with (k_swap s).
  rewrite (proj2 (Z.eqb_neq _ _) Hn). unfold bind at 1.
  rewrite (seqZ_split SWAP_MAX_BLOCKS i Hi). rewrite for_find_app.
  2:{ intros j Hj%elem_of_seqZ. unfold bind, gets.
      change (k_swap (k_set_held (L_swap :: k_held s) s)) with (k_swap s).
      rewrite Hlow by lia. done. }
  cbn [for_find]. unfold bind, gets.
  change (k_swap (k_set_held (L_swap :: k_held s) s)) with (k_swap s).
  rewrite Hb. cbv beta iota delta [negb modify].
  rewrite (release_head L_swap (k_held s)) by done. unfold ret. by destruct s.
Qed.

Lemma swapalloc_full s : L_swap ∉ k_held s -> sw_nfree (k_swap s) = 0 ->
  swapalloc s = Ok (-1) s.
Proof.
  intros Hl Hn. unfold swapalloc. run (acquire_ok L_swap s Hl).
  unfold bind at 1, gets at 1.
  change (k_swap (k_set_held (L_swap :: k_held s) s)) with (k_swap s).
  rewrite Hn. cbn [Z.eqb]. unfold bind.
  rewrite (release_head L_swap (k_held s)) by done. by destruct s.
Qed.

Lemma swapfree_ok s i : L_swap ∉ k_held s -> 0 <= i < SWAP_MAX_BLOCKS ->
  swap_bit (k_swap s) i = true -> swapfree i s = Ok tt (on_swap (give_block i) s).
Proof.
  intros Hl Hi Hb. unfold swapfree.
  rewrite Z.geb_leb, (proj2 (Z.ltb_ge i 0)), (proj2 (Z.leb_gt SWAP_MAX_BLOCKS i)) by lia.
  cbn [orb]. run (acquire_ok L_swap s Hl). unfold bind, gets.
  change (k_swap (k_set_held (L_swap :: k_held s) s)) with (k_swap s).
  rewrite Hb. cbv beta iota delta [negb modify].
  rewrite (release_head L_swap (k_held s)) by done. by destruct s.
Qed.

Lemma swapfree_double s i : L_swap ∉ k_held s -> 0 <= i < SWAP_MAX_BLOCKS ->
  swap_bit (k_swap s) i = false -> swapfree i s = Panic "swapfree: double free".
Proof.
  intros Hl Hi Hb. unfold swapfree.
  rewrite Z.geb_leb, (proj2 (Z.ltb_ge i 0)), (proj2 (Z.leb_gt SWAP_MAX_BLOCKS i)) by lia.
  cbn [orb]. run (acquire_ok L_swap s Hl). unfold bind, gets.
  change (k_swap (k_set_held (L_swap :: k_held s) s)) with (k_swap s).
  by rewrite Hb.
Qed.

(** ** Swap entries *)

Lemma swapblock_pte_roundtrip b : 0 <= b < 0x80000000 ->
  pte_to_swapblock (swapblock_to_pte b) = b.
Proof.
  intros Hb. unfold pte_to_swapblock, swapblock_to_pte. rewrite (u64_small b) by lia.
  pose proof (shiftl_range b 10 31 ltac:(lia) ltac:(lia) ltac:(lia)) as Hs.
  change (2 ^ (31 + 10)) with 0x20000000000 in Hs. rewrite u64_small by lia.
  rewrite Z.shiftr_lor, Z.shiftr_shiftl_l by lia. rewrite Z.shiftl_0_r.
  change (Z.shiftr PTE_SWAPPED 10) with 0. rewrite Z.lor_0_r.
  change 0xFFFFFFFF with (Z.ones 32). rewrite Z.land_ones by lia.
  rewrite Z.mod_small by lia. apply s32_small. lia.
Qed.

Lemma swapblock_to_pte_flags b : 0 <= b < 0x80000000 ->
  PTE_FLAGS (swapblock_to_pte b) = PTE_SWAPPED.
Proof.
  intros Hb. unfold swapblock_to_pte. rewrite (u64_small b) by lia.
  pose proof (shiftl_range b 10 31 ltac:(lia) ltac:(lia) ltac:(lia)) as Hs.
  change (2 ^ (31 + 10)) with 0x20000000000 in Hs. rewrite u64_small by lia.
  unfold PTE_FLAGS. rewrite Z.land_lor_distr_l. change (Z.land PTE_SWAPPED 0x3FF) with PTE_SWAPPED.
  replace (Z.land (Z.shiftl b 10) 0x3FF) with 0; [done|].
  change 0x3FF with (Z.ones 10). rewrite Z.land_ones, Z.shiftl_mul_pow2 by lia.
  by rewrite Z.mod_mul.
Qed.

(** ** Swapping never completes *)

Section Transfers.
Context {LAY : Layout} {ENV : Env}.

Lemma reads_ld64 a : reads_only (ld64 a).
Proof. intros s v s'. unfold ld64. destruct (in_ram a 8); [|done]. by intros [= _ <-]. Qed.

Lemma reads_walk_levels l ka pt va : reads_only (walk_levels ka l pt va false).
Proof.
  revert pt. induction l as [|l IH]; intros pt; cbn [walk_levels negb]; [apply reads_ret|].
  apply reads_bind; [apply reads_ld64|]. intros e. apply reads_if; [apply IH|apply reads_ret].
Qed.

Lemma reads_walk0 pt va : reads_only (walk0 pt va).
Proof. apply reads_if; [apply reads_panic|apply reads_walk_levels]. Qed.

Lemma reads_candidate pt va : reads_only (candidate pt va).
Proof.
  apply reads_bind; [apply reads_walk0|]. intros pte. apply reads_if; [apply reads_ret|].
  apply reads_bind; [apply reads_ld64|]. intros e. apply reads_ret.
Qed.

(** What a lock taken and dropped around a body that keeps the state does. *)
Lemma crit_reads lk s : k_set_held (drop_lock lk (lk :: k_held s)) (k_set_held (lk :: k_held s) s) = s.
Proof. rewrite drop_lock_head. by destruct s. Qed.

Lemma acquire_inv lk s s' : acquire lk s = Ok tt s' ->
  (lk ∉ k_held s) /\ s' = k_set_held (lk :: k_held s) s.
Proof.
  unfold acquire. destruct (holds lk s) eqn:E; [done|]. intros [= <-]. split; [|done].
  by apply bool_decide_eq_false in E.
Qed.

Lemma release_inv lk s s' : release lk s = Ok tt s' -> s' = k_set_held (drop_lock lk (k_held s)) s.
Proof. unfold release. destruct (holds lk s); [|done]. by intros [= <-]. Qed.

(** A failing [swapalloc] leaves the map as it was. *)
Lemma swapalloc_neg s r s' : swapalloc s = Ok r s' -> r < 0 -> s' = s.
Proof.
  intros H Hr. unfold swapalloc in H. apply bind_inv in H as ([] & s1 & H1 & H).
  apply acquire_inv in H1 as [Hl ->].
  apply bind_inv in H as (w & s1 & [= <- <-] & H).
  destruct (sw_nfree _ =? 0).
  - apply bind_inv in H as ([] & s2 & H2%release_inv & [= <- <-]). rewrite H2. apply crit_reads.
  - apply bind_inv in H as (o & s2 & H2 & H).
    apply (for_find_inv (fun x => x = k_set_held (L_swap :: k_held s) s) (fun b _ => 0 <= b)) in H2.
    + destruct o as [b|]; [by injection H as <- <-; lia|]. subst s2.
      apply bind_inv in H as ([] & s3 & H3%release_inv & [= <- <-]). rewrite H3. apply crit_reads.
    + intros i s3 o3 s4 Hi%elem_of_seqZ -> H3.
      apply bind_inv in H3 as (w3 & s5 & [= <- <-] & H3).
      destruct (negb (swap_bit _ i)); [|by injection H3 as <- <-].
      apply bind_inv in H3 as (? & s6 & _ & H3). apply bind_inv in H3 as (? & s7 & _ & H3).
      apply bind_inv in H3 as (? & s8 & _ & [= <- <-]). lia.
    + done.
Qed.

(** [swapout] reports success on no run: past its guards it copies 4096
    bytes into the 1024 bytes of [b->data]. *)
Lemma swapout_inv pt va s r s' : swapout pt va s = Ok r s' -> r = -1 /\ s' = s.
Proof.
  intros H. unfold swapout in H.
  apply bind_inv in H as (pte & s1 & ->%reads_walk0 & H).
  destruct (pte =? 0); [by injection H as <- <-|].
  apply bind_inv in H as (e & s1 & ->%reads_ld64 & H).
  destruct (negb (has e PTE_V)); [by injection H as <- <-|].
  destruct (has e PTE_COW); [by injection H as <- <-|].
  destruct (negb (has e PTE_U)); [by injection H as <- <-|].
  apply bind_inv in H as (b & s1 & Hb & H). destruct (Z.ltb_spec b 0).
  - injection H as <- <-. split; [done|]. by eapply swapalloc_neg.
  - apply bind_inv in H as (e' & s2 & _ & H). apply bind_inv in H as (bf & s3 & _ & H).
    by apply bind_inv in H as (? & s4 & H4 & _).
Qed.

Lemma swapin_inv pt va s r s' : swapin pt va s = Ok r s' -> r = 0.
Proof.
  intros H. unfold swapin in H.
  apply bind_inv in H as (pte & s1 & _ & H). destruct (pte =? 0); [by injection H as <- <-|].
  apply bind_inv in H as (e & s2 & _ & H).
  destruct (negb (has e PTE_SWAPPED)); [by injection H as <- <-|].
  apply bind_inv in H as (pa & s3 & _ & H). destruct (pa =? 0); [by injection H as <- <-|].
  apply bind_inv in H as (b & s4 & _ & H). by apply bind_inv in H as (? & s5 & H5 & _).
Qed.

Lemma scan_pages_inv i s r s' : scan_pages i s = Ok r s' -> r = None /\ s' = s.
Proof.
  intros H. unfold scan_pages in H. apply bind_inv in H as (p & s1 & [= <- <-] & H).
  revert H. apply (iter_inv (fun _ x => x = s) (fun b x => b = None /\ x = s)); [|done].
  intros va s2 r2 s3 -> H2. apply bind_inv in H2 as (p & s4 & [= <- <-] & H2).
  destruct (va <? _); [|by injection H2 as <- <-].
  apply bind_inv in H2 as (c & s5 & ->%reads_candidate & H2).
  destruct c; [|by injection H2 as <- <-].
  apply bind_inv in H2 as (v & s6 & [-> ->]%swapout_inv & H2). by injection H2 as <- <-.
Qed.

(** No victim is ever written out. *)
Lemma select_victim_inv s r s' : select_victim_page s = Ok r s' -> r = -1 /\ s' = s.
Proof.
  intros H. unfold select_victim_page in H. apply bind_inv in H as (o & s1 & H1 & [= <- <-]).
  apply (for_find_inv (fun x => x = s) (fun _ _ => False)) in H1; [by destruct o|..].
  - intros i s2 r2 s3 _ -> H2. apply bind_inv in H2 as ([] & s4 & [Hl ->]%acquire_inv & H2).
    apply bind_inv in H2 as (p & s5 & [= <- <-] & H2).
    apply bind_inv in H2 as (o2 & s6 & H6 & H2).
    assert (o2 = None /\ s6 = k_set_held (L_proc i :: k_held s) s) as [-> ->].
    { destruct (decide _); [by apply scan_pages_inv in H6|by injection H6 as <- <-]. }
    apply bind_inv in H2 as ([] & s7 & ->%release_inv & [= <- <-]). apply crit_reads.
  - done.
Qed.

(** Every run of [kalloc] that returns either takes the first free page or
    finds none and changes nothing. *)
Lemma pop_freelist_inv s r s' : pop_freelist s = Ok r s' ->
  r = k_freelist s /\ s' = (if r =? 0 then s else k_set_freelist (load64 (k_mem s) r) s).
Proof.
  intros H. unfold pop_freelist in H. apply bind_inv in H as ([] & s1 & [Hl ->]%acquire_inv & H).
  apply bind_inv in H as (p & s2 & [= <- <-] & H). apply bind_inv in H as ([] & s3 & H3 & H).
  apply bind_inv in H as ([] & s4 & ->%release_inv & [= <- <-]). split; [done|].
  change (k_freelist (k_set_held (L_kmem :: k_held s) s)) with (k_freelist s) in *.
  destruct (k_freelist s =? 0) eqn:E.
  - injection H3 as <-. apply crit_reads.
  - apply bind_inv in H3 as (n & s5 & Hn & [= <-]). unfold ld64 in Hn.
    destruct (in_ram _ 8); [|done]. injection Hn as <- <-.
    cbn [k_held k_set_freelist k_set_held]. rewrite drop_lock_head. by destruct s.
Qed.

Lemma kalloc_inv s r s' : kalloc s = Ok r s' ->
  (r <> 0 /\ k_freelist s = r /\ s' = allocated r s) \/ (r = 0 /\ k_freelist s = 0 /\ s' = s).
Proof.
  intros H. unfold kalloc in H. apply bind_inv in H as (p & s1 & [-> ->]%pop_freelist_inv & H).
  apply bind_inv in H as (p & s2 & H2 & H). apply bind_inv in H as ([] & s3 & H3 & [= <- <-]).
  destruct (Z.eqb_spec (k_freelist s) 0) as [E|E].
  - right. apply bind_inv in H2 as (v & s4 & [-> ->]%select_victim_inv & H2).
    injection H2 as <- <-. rewrite E in *. by injection H3 as <-.
  - left. injection H2 as <- <-. split; [done|]. split; [done|].
    rewrite (proj2 (Z.eqb_neq _ _) E) in H3.
    apply bind_inv in H3 as ([] & s4 & H4 & H3). unfold kmemset in H4.
    destruct (in_ram _ _) eqn:Hram; [|done]. injection H4 as <-.
    apply bind_inv in H3 as ([] & s5 & [Hl ->]%acquire_inv & H3).
    apply bind_inv in H3 as (i & s6 & H6 & H3). unfold pageindex in H6.
    destruct (_ || _); [done|]. injection H6 as <- <-.
    apply bind_inv in H3 as ([] & s7 & [= <-] & H3).
    apply bind_inv in H3 as ([] & s8 & ->%release_inv & H3).
    apply (run_op_inv OpAllocated) in H3 as [_ ->].
    cbn [k_held k_set_refcount k_set_held]. rewrite drop_lock_head. by destruct s.
Qed.

End Transfers.

(** ** Claims *)

Section SwapClaims.
Context {LAY : Layout} {ENV : Env}.

(** [swapalloc] in a consistent swap area always returns: the lowest
    free block, marked in use with every other block untouched, or -1 with
    nothing changed exactly when all 1000 blocks are in use. *)
Theorem swapalloc_correct s :
  swap_ok (k_swap s) -> L_swap ∉ k_held s ->
  (swap_used (k_swap s) = SWAP_MAX_BLOCKS /\ swapalloc s = Ok (-1) s) \/
  (exists i s', swapalloc s = Ok i s' /\ first_free (k_swap s) i /\
     swap_ok (k_swap s') /\ swap_used (k_swap s) < SWAP_MAX_BLOCKS /\
     forall j, 0 <= j -> swap_bit (k_swap s') j = if decide (j = i) then true else swap_bit (k_swap s) j).
Proof.
  intros Hw Hl. pose proof (swap_used_bounds (k_swap s)) as Hu. unfold swap_ok in Hw.
  destruct (decide (swap_used (k_swap s) = SWAP_MAX_BLOCKS)) as [E|E].
  - left. split; [done|]. apply swapalloc_full; [done|lia].
  - right. destruct (first_free_exists (k_swap s)) as [i Hi]; [lia|].
    exists i, (on_swap (take_block i) s). split; [apply swapalloc_first; [done|lia|done]|].
    split; [done|]. split; [apply take_block_ok; [done|apply Hi|apply Hi]|]. split; [lia|].
    intros j Hj. apply swap_bit_take; [apply Hi|done].
Qed.

(** [swapfree] gives back exactly the block it is asked to and keeps the
    free counter right; a block that is not in use makes it panic. *)
Theorem swapfree_correct s i :
  swap_ok (k_swap s) -> L_swap ∉ k_held s -> 0 <= i < SWAP_MAX_BLOCKS ->
  if swap_bit (k_swap s) i
  then exists s', swapfree i s = Ok tt s' /\ swap_ok (k_swap s') /\
         (forall j, 0 <= j -> swap_bit (k_swap s') j = if decide (j = i) then false else swap_bit (k_swap s) j)
  else swapfree i s = Panic "swapfree: double free".
Proof.
  intros Hw Hl Hi. destruct (swap_bit (k_swap s) i) eqn:Hb.
  - exists (on_swap (give_block i) s). split; [by apply swapfree_ok|].
    split; [by apply give_block_ok|]. intros j Hj. apply swap_bit_give; lia.
  - by apply swapfree_double.
Qed.

(** A swap entry in a page table is invalid for the MMU and gives the
    block number back, for every block number of the swap area; it keeps none
    of the permission bits of the page it replaces. *)
Theorem swap_pte_roundtrip b :
  0 <= b < SWAP_MAX_BLOCKS ->
  pte_to_swapblock (swapblock_to_pte b) = b /\
  has (swapblock_to_pte b) PTE_V = false /\ has (swapblock_to_pte b) PTE_SWAPPED = true /\
  PTE_FLAGS (swapblock_to_pte b) = PTE_SWAPPED.
Proof.
  intros Hb. unfold SWAP_MAX_BLOCKS in Hb.
  pose proof (swapblock_to_pte_flags b ltac:(lia)) as Hf.
  split; [apply swapblock_pte_roundtrip; lia|].
  rewrite has_V, has_SWAPPED, <- !(PTE_FLAGS_bit (swapblock_to_pte b)), Hf by lia. done.
Qed.

(** Swapping never moves a page: every run of [swapout] that returns
    reports failure and changes nothing, every run of [swapin] that returns
    reports failure, and [select_victim_page] never frees a page.  (Past their
    guards both copy 4096 bytes through the 1024-byte [b->data].) *)
Theorem swap_never_completes s pt va r s' :
  (swapout pt va s = Ok r s' -> r = -1 /\ s' = s) /\
  (swapin pt va s = Ok r s' -> r = 0) /\
  (select_victim_page s = Ok r s' -> r = -1 /\ s' = s).
Proof.
  split; [apply swapout_inv|]. split; [apply swapin_inv|apply select_victim_inv].
Qed.

End SwapClaims.

Lemma swap_ok_zero : swap_ok (k_swap zero_state).
Proof. by vm_compute. Qed.

Lemma swapalloc_correct_witness :
  (swap_used (k_swap zero_state) = SWAP_MAX_BLOCKS /\ swapalloc zero_state = Ok (-1) zero_state) \/
  (exists i s', swapalloc zero_state = Ok i s' /\ first_free (k_swap zero_state) i /\
     swap_ok (k_swap s') /\ swap_used (k_swap zero_state) < SWAP_MAX_BLOCKS /\
     forall j, 0 <= j -> swap_bit (k_swap s') j
       = if decide (j = i) then true else swap_bit (k_swap zero_state) j).
Proof. apply swapalloc_correct; [apply swap_ok_zero|apply not_elem_of_nil]. Defined.

Lemma swapfree_correct_witness :
  swap_bit (k_swap zero_state) 7 = false /\ swapfree 7 zero_state = Panic "swapfree: double free" /\
  exists s', swapfree 7 (on_swap (take_block 7) zero_state) = Ok tt s' /\ swap_ok (k_swap s').
Proof.
  split; [done|]. split.
  - apply (swapfree_correct zero_state 7); [apply swap_ok_zero|apply not_elem_of_nil|done].
  - destruct (swapfree_correct (on_swap (take_block 7) zero_state) 7) as (s' & H1 & H2 & _).
    + by vm_compute.
    + apply not_elem_of_nil.
    + done.
    + by exists s'.
Defined.

Lemma swap_pte_roundtrip_witness :
  pte_to_swapblock (swapblock_to_pte 999) = 999 /\
  has (swapblock_to_pte 999) PTE_V = false /\ has (swapblock_to_pte 999) PTE_SWAPPED = true /\
  PTE_FLAGS (swapblock_to_pte 999) = PTE_SWAPPED.
Proof. apply swap_pte_roundtrip. by vm_compute. Defined.

Lemma swap_never_completes_witness :
  swapout pgA 0 zero_state = Ok (-1) zero_state /\ -1 = -1 /\ zero_state = zero_state.
Proof.
  assert (swapout pgA 0 zero_state = Ok (-1) zero_state) as H by (by vm_compute).
  split; [exact H|]. apply (swap_never_completes zero_state pgA 0 (-1) zero_state). exact H.
Defined.
