(* ===== verification/AllocSpec.v ===== *)
(** * What the page allocator promises (kernel/kalloc.c)

    The abstract allocator has a list of free pages and a number of
    references per page.  Every sequence of [kalloc], [kfree] and [krefinc]
    calls that respects the reference counts runs on the kernel's data
    structures without panicking and with the results of the abstract one. *)

From S2P Require Import Prelude Riscv Mem KState Sample Memstats Sched Bio PhysMem Kalloc Swap.

(** ** The abstract allocator *)

Record pages : Type := mkPages { pg_free : list Z; pg_refs : Z -> Z }.

Inductive alloc_call : Type := CAlloc | CFree (pa : Z) | CShare (pa : Z).

(** A call's result (the page, or 0) and next state; [None] where the caller
    breaks the contract: freeing or sharing a page nobody holds, counting
    past [INT_MAX], or asking for a page when there is none. *)
Definition spec_call (c : alloc_call) (g : pages) : option (Z * pages) :=
  match c with
  | CAlloc =>
      match pg_free g with
      | [] => None
      | p :: fl => Some (p, mkPages fl (fupd (pg_refs g) p 1))
      end
  | CFree p =>
      if pg_refs g p <=? 0 then None else
      if pg_refs g p =? 1 then Some (0, mkPages (p :: pg_free g) (fupd (pg_refs g) p 0))
      else Some (0, mkPages (pg_free g) (fupd (pg_refs g) p (pg_refs g p - 1)))
  | CShare p =>
      if (pg_refs g p <=? 0) || (0x7fffffff <=? pg_refs g p) then None
      else Some (0, mkPages (pg_free g) (fupd (pg_refs g) p (pg_refs g p + 1)))
  end.

Fixpoint spec_calls (cs : list alloc_call) (g : pages) : option (list Z * pages) :=
  match cs with
  | [] => Some ([], g)
  | c :: cs =>
      match spec_call c g with
      | None => None
      | Some (r, g) =>
          match spec_calls cs g with Some (rs, g) => Some (r :: rs, g) | None => None end
      end
  end.

Section AllocSpec.
Context {LAY : Layout} {ENV : Env}.

(** The same calls on the kernel. *)
Definition run_call (c : alloc_call) : K Z :=
  match c with
  | CAlloc => kalloc
  | CFree p => kfree p ;; ret 0
  | CShare p => krefinc p ;; ret 0
  end.

Fixpoint run_calls (cs : list alloc_call) : K (list Z) :=
  match cs with
  | [] => ret []
  | c :: cs => r <- run_call c ;; rs <- run_calls cs ;; ret (r :: rs)
  end.

(** The kernel state represents the abstract allocator. *)
Record represents (s : kstate) (g : pages) : Prop := {
  rp_alloc : alloc_ok s (pg_free g);
  rp_refs : forall p, heap_page p -> count_of s p = pg_refs g p;
  rp_held : forall p, 0 < pg_refs g p -> heap_page p;
  rp_locks : alloc_locks_free s
}.

Lemma refs_fupd s s' g p v :
  represents s g -> heap_page p ->
  (forall q, heap_page q -> count_of s' q = count_of (with_count p v s) q) ->
  forall q, heap_page q -> count_of s' q = fupd (pg_refs g) p v q.
Proof.
  intros Hr Hp Hs' q Hq. rewrite Hs' by done. destruct (decide (q = p)) as [->|Hne].
  - by rewrite count_with_count, fupd_eq.
  - rewrite count_with_count_ne by (done || apply Hp || apply Hq).
    rewrite fupd_ne by done. by apply Hr.
Qed.

Lemma held_fupd g p v : heap_page p -> (forall q, 0 < pg_refs g q -> heap_page q) ->
  forall q, 0 < fupd (pg_refs g) p v q -> heap_page q.
Proof.
  intros Hp H q Hq. destruct (decide (q = p)) as [->|Hne]; [done|].
  rewrite fupd_ne in Hq by done. auto.
Qed.

(** One call: the kernel's step is the abstract one. *)
Lemma call_refines c s g r g' :
  represents s g -> spec_call c g = Some (r, g') ->
  exists s', run_call c s = Ok r s' /\ represents s' g'.
Proof.
  intros Hr Hc. pose proof Hr as [Ha Hrefs Hheld Hlk]. destruct c as [|p|p]; simpl in Hc.
  - destruct (pg_free g) as [|q fl] eqn:Hfl; [done|]. injection Hc as <- <-.
    assert (heap_page q) as Hq by (eapply free_is_heap; [done|set_solver]).
    exists (allocated q s). split.
    + apply kalloc_head; [apply Hq|done|apply (ao_chain _ _ Ha)].
    + split; [by apply allocated_ok| |by apply held_fupd|done].
      by apply (refs_fupd s).
  - destruct (Z.leb_spec (pg_refs g p) 0) as [|Hpos]; [done|].
    assert (heap_page p) as Hp by auto. assert (count_of s p = pg_refs g p) as Hcnt by auto.
    unfold run_call. destruct (Z.eqb_spec (pg_refs g p) 1) as [H1|H1]; injection Hc as <- <-.
    + exists (freed p s). split.
      * by run (kfree_last p s Hp Hlk ltac:(lia)).
      * split; [by apply freed_ok; [..|lia]| |by apply held_fupd|done]. by apply (refs_fupd s).
    + exists (with_count p (count_of s p - 1) s). split.
      * by run (kfree_dec p s Hp (proj1 (proj2 Hlk)) ltac:(lia)).
      * rewrite Hcnt. split; [|by apply (refs_fupd s)|by apply held_fupd|done].
        apply with_count_ok; [done|apply Hp|eapply free_not_counted; [done|lia]].
  - destruct (Z.leb_spec (pg_refs g p) 0) as [|Hpos]; [done|].
    destruct (Z.leb_spec 0x7fffffff (pg_refs g p)) as [|Hmax]; [done|]. injection Hc as <- <-.
    assert (heap_page p) as Hp by auto. assert (count_of s p = pg_refs g p) as Hcnt by auto.
    exists (with_count p (pg_refs g p + 1) s). split.
    + unfold run_call. run (krefinc_ok p s (proj1 Hp) (proj1 (proj2 Hlk))).
      by rewrite Hcnt, s32_small by lia.
    + split; [|by apply (refs_fupd s)|by apply held_fupd|done].
      apply with_count_ok; [done|apply Hp|eapply free_not_counted; [done|lia]].
Qed.

(** C14. Refinement: any sequence of [kalloc], [kfree] and [krefinc] calls the
    abstract allocator accepts runs to the end on the kernel, returns the
    same pages and leaves the kernel representing the abstract state. *)
Theorem kalloc_refines_spec cs s g rs g' :
  represents s g -> spec_calls cs g = Some (rs, g') ->
  exists s', run_calls cs s = Ok rs s' /\ represents s' g'.
Proof.
  revert s g rs. induction cs as [|c cs IH]; intros s g rs Hr Hc; cbn in Hc.
  - injection Hc as <- <-. by exists s.
  - destruct (spec_call c g) as [[r g1]|] eqn:Hc1; [|done].
    destruct (spec_calls cs g1) as [[rs1 g2]|] eqn:Hc2; [|done]. injection Hc as <- <-.
    destruct (call_refines c s g r g1 Hr Hc1) as (s1 & Hs1 & Hr1).
    destruct (IH s1 g1 rs1 Hr1 Hc2) as (s2 & Hs2 & Hr2).
    exists s2. split; [|done]. cbn [run_calls]. run Hs1. by run Hs2.
Qed.

(** [kalloc] with a free page: it returns the first one of the list with
    count 1 and every byte 5, keeps the invariant for the rest of the list,
    changes no other page's bytes or count, and loses no page. *)
Theorem kalloc_takes_first s fl pa :
  alloc_ok s (pa :: fl) -> alloc_locks_free s ->
  exists s', kalloc s = Ok pa s' /\ alloc_ok s' fl /\ count_of s' pa = 1 /\
    (forall x, in_page pa x -> load8 (k_mem s') x = 5) /\
    (forall x, ~ in_page pa x -> k_mem s' x = k_mem s x) /\
    (forall q, is_page q -> q <> pa -> count_of s' q = count_of s q) /\
    (no_leak s (pa :: fl) -> no_leak s' fl).
Proof.
  intros Ha Hl. assert (heap_page pa) as Hp by (eapply free_is_heap; [done|set_solver]).
  exists (allocated pa s). split; [by apply kalloc_head; [apply Hp|..|apply (ao_chain _ _ Ha)]|].
  split; [by apply allocated_ok|]. split; [apply count_with_count|].
  split; [|split; [apply mem_fill_outside|split]].
  - intros x Hx. change (load8 (mem_fill (k_mem s) pa 5 PGSIZE) x = 5).
    unfold load8, mem_fill. by rewrite in_range_true.
  - intros q Hq Hne. apply (count_with_count_ne pa q 1 s); [apply Hp|done|done].
  - intros Hn. by apply allocated_no_leak.
Qed.

(** [kfree] on a page of the heap, by its count: above 1 only the count
    drops, at 1 the page goes to the front of the free list and no page is
    lost, at 0 or below the kernel panics. *)
Theorem kfree_by_count s fl pa :
  alloc_ok s fl -> alloc_locks_free s -> heap_page pa ->
  (1 < count_of s pa ->
     kfree pa s = Ok tt (with_count pa (count_of s pa - 1) s) /\
     alloc_ok (with_count pa (count_of s pa - 1) s) fl) /\
  (count_of s pa = 1 ->
     exists s', kfree pa s = Ok tt s' /\ alloc_ok s' (pa :: fl) /\
       (forall q, is_page q -> q <> pa -> count_of s' q = count_of s q) /\
       (no_leak s fl -> no_leak s' (pa :: fl))) /\
  (count_of s pa <= 0 -> kfree pa s = Panic "krefdec: refcount <= 0").
Proof.
  intros Ha Hl Hp. pose proof (proj1 (proj2 Hl)) as Hr. split; [|split].
  - intros Hc. split; [by apply kfree_dec|].
    apply with_count_ok; [done|apply Hp|eapply free_not_counted; [done|lia]].
  - intros Hc. exists (freed pa s). split; [by apply kfree_last|].
    split; [by apply freed_ok|]. split; [|by intros; apply freed_no_leak].
    intros q Hq Hne. apply (count_with_count_ne pa q 0 s); [apply Hp|done|done].
  - by apply kfree_panic.
Qed.

(** Every run of [kalloc] that returns either takes the head of the free
    list, or the list is empty and it returns 0 with the whole kernel state
    unchanged: no path of [kalloc] obtains a page by swapping one out. *)
Theorem kalloc_returns s r s' :
  kalloc s = Ok r s' ->
  (r <> 0 /\ k_freelist s = r /\ s' = allocated r s) \/ (r = 0 /\ k_freelist s = 0 /\ s' = s).
Proof. apply kalloc_inv. Qed.

(** ** Booting *)

(** The first round of [freerange] clears the page's count and calls [kfree],
    whose [krefdec] refuses a count of 0. *)
Lemma freerange_panics s lo hi :
  heap_page (PGROUNDUP lo) -> PGROUNDUP lo + PGSIZE <= hi -> L_refcount ∉ k_held s ->
  freerange lo hi s = Panic "krefdec: refcount <= 0".
Proof.
  intros Hp Hhi Hl. unfold freerange. rewrite Nat.add_comm. cbn [iter Nat.add].
  rewrite (proj2 (Z.leb_le _ _) Hhi). apply bind_panic.
  run (acquire_ok L_refcount s Hl).
  run (pageindex_ok (PGROUNDUP lo) (k_set_held (L_refcount :: k_held s) s) (proj1 Hp)).
  set (s1 := with_count (PGROUNDUP lo) 0 s).
  assert (set_count (pidx (PGROUNDUP lo)) 0 (k_set_held (L_refcount :: k_held s) s)
          = Ok tt (k_set_held (L_refcount :: k_held s) s1)) as H1 by done.
  run H1. run (release_head L_refcount (k_held s) (k_set_held (L_refcount :: k_held s) s1) eq_refl).
  replace (k_set_held _ (k_set_held _ s1)) with s1 by (unfold s1; by destruct s).
  apply bind_panic, kfree_panic; [done|done|]. unfold s1. by rewrite count_with_count.
Qed.

(** The kernel cannot boot: with at least one whole page of RAM after the
    kernel image, [kinit], called with no lock held, panics in [krefdec] on the
    first page it gives to the allocator. *)
Theorem kinit_panics s :
  layout_ok LAY -> PGROUNDUP kend + PGSIZE <= PHYSTOP -> k_held s = [] ->
  kinit s = Panic "krefdec: refcount <= 0".
Proof.
  intros [H1 H2 H3 H4 H5] Hroom Hh. unfold kinit, initlock.
  pose proof (PGROUNDUP_bounds kend) as Hb. pose proof (PGROUNDUP_aligned kend) as Ha.
  unfold bind, modify. apply freerange_panics; [|done|].
  - split; [split; [apply Ha; clia|]|]; clia.
  - cbn. rewrite Hh. apply not_elem_of_nil.
Qed.

End AllocSpec.

(** ** Instances *)

Definition spec_two_free : pages :=
  mkPages [pgA; pgB] (fun p => if p =? pgC then 2 else 0).

Lemma two_free_ok : alloc_ok two_free [pgA; pgB].
Proof.
  split.
  - cbn [free_chain]. repeat split; vm_compute; reflexivity.
  - apply (bool_decide_unpack _). by vm_compute.
  - repeat (apply Forall_cons_2; [split; [|unfold kend, pgA, pgB; cbn; lia]; apply (bool_decide_unpack _); by vm_compute|]). apply Forall_nil_2.
  - repeat (apply Forall_cons_2; [by vm_compute|]). apply Forall_nil_2.
Qed.

Lemma two_free_locks : alloc_locks_free two_free.
Proof. unfold alloc_locks_free. repeat split; apply not_elem_of_nil. Qed.

Lemma two_free_represents : represents two_free spec_two_free.
Proof.
  split; [apply two_free_ok| | |apply two_free_locks].
  - intros p Hp. unfold count_of, pidx, two_free, spec_two_free, pgC, heap_page, is_page in *. cbn.
    unfold KERNBASE, PHYSTOP, PGSIZE, kend, sample_layout in *.
    destruct (Z.eqb_spec p 0x80102000) as [Heq|Hne]; [by rewrite Heq|].
    destruct (Z.eqb_spec ((p - 0x80000000) / 4096) 0x102) as [E|]; [|done]. zlia.
  - intros p Hp. cbn in Hp. destruct (Z.eqb_spec p pgC) as [Heq|]; [|lia]. rewrite Heq.
    apply (bool_decide_unpack _). by vm_compute.
Qed.

Lemma kalloc_refines_spec_witness :
  exists s', run_calls [CAlloc; CShare pgC; CFree pgC; CFree pgA; CAlloc; CAlloc] two_free
      = Ok [pgA; 0; 0; 0; pgA; pgB] s' /\
    represents s' (mkPages [] (pg_refs (mkPages []
      (fupd (fupd (fupd (fupd (fupd (fupd (pg_refs spec_two_free) pgA 1) pgC 3) pgC 2) pgA 0) pgA 1) pgB 1)))).
Proof.
  apply (kalloc_refines_spec _ two_free spec_two_free); [apply two_free_represents|reflexivity].
Defined.

Lemma kalloc_takes_first_witness :
  alloc_ok two_free [pgA; pgB] /\ exists s', kalloc two_free = Ok pgA s' /\ alloc_ok s' [pgB].
Proof.
  split; [apply two_free_ok|].
  destruct (kalloc_takes_first two_free [pgB] pgA two_free_ok two_free_locks) as (s' & H1 & H2 & _).
  by exists s'.
Defined.

Lemma kfree_by_count_witness :
  kfree pgC two_free = Ok tt (with_count pgC 1 two_free) /\
  kfree pgA two_free = Panic "krefdec: refcount <= 0".
Proof.
  assert (heap_page pgC) as HC by (apply (bool_decide_unpack _); by vm_compute).
  assert (heap_page pgA) as HA by (apply (bool_decide_unpack _); by vm_compute).
  split.
  - destruct (kfree_by_count two_free _ pgC two_free_ok two_free_locks HC) as [H _].
    apply H. by vm_compute.
  - destruct (kfree_by_count two_free _ pgA two_free_ok two_free_locks HA) as (_ & _ & H).
    apply H. by vm_compute.
Defined.

Lemma kalloc_returns_witness :
  pgA <> 0 /\ k_freelist two_free = pgA /\ allocated pgA two_free = allocated pgA two_free.
Proof.
  destruct (kalloc_returns two_free pgA (allocated pgA two_free)) as [H|[H _]].
  - apply kalloc_head; [apply (bool_decide_unpack _); by vm_compute|apply two_free_locks|done].
  - exact H.
  - done.
Defined.

Lemma kinit_panics_witness :
  layout_ok sample_layout /\ PGROUNDUP kend + PGSIZE <= PHYSTOP /\
  kinit zero_state = Panic "krefdec: refcount <= 0".
Proof.
  split; [apply sample_layout_ok|]. split; [by vm_compute|].
  apply kinit_panics; [apply sample_layout_ok|by vm_compute|done].
Defined.
