(* ===== verification/Vm.v ===== *)
(** * Virtual memory: kernel/vm.c

    Page-table construction and removal, copy-on-write fork, lazy allocation
    and copying between kernel and user memory.  [walk] is in [PhysMem].
    Kernel buffers passed by pointer are byte lists: [copyout] takes the bytes
    to copy, [copyin] and [copyinstr] return the bytes they stored together
    with the C return value. *)

From S2P Require Import Prelude Riscv Mem KState Memstats Sched Bio PhysMem.

Section Vm.
Context {LAY : Layout} {ENV : Env}.

(** ** Looking up and installing mappings *)

Definition walkaddr (pagetable va : Z) : K Z :=
  if va >=? MAXVA then ret 0 else
  pte <- walk pagetable va false ;;
  if pte =? 0 then ret 0 else
  e <- ld64 pte ;;
  if negb (has e PTE_V) then ret 0 else
  if negb (has e PTE_U) then ret 0 else
  ret (PTE2PA e).

(** The loop stops at [a == last]; its [size / PGSIZE] rounds are the fuel. *)
Definition mappages (pagetable va size pa perm : Z) : K Z :=
  if negb (va mod PGSIZE =? 0) then panic "mappages: va not aligned" else
  if negb (size mod PGSIZE =? 0) then panic "mappages: size not aligned" else
  if size =? 0 then panic "mappages: size" else
  let last := u64 (va + size - PGSIZE) in
  iter (Z.to_nat (size / PGSIZE)) (fun '(a, pa) =>
    pte <- walk pagetable a true ;;
    if pte =? 0 then ret (inr (-1)) else
    e <- ld64 pte ;;
    if has e PTE_V then panic "mappages: remap" else
    st64 pte (Z.lor (Z.lor (PA2PTE pa) perm) PTE_V) ;;
    if a =? last then ret (inr 0) else
    ret (inl (u64 (a + PGSIZE), u64 (pa + PGSIZE)))) (va, pa).

Definition kvmmap (kpgtbl va pa sz perm : Z) : K unit :=
  r <- mappages kpgtbl va sz pa perm ;;
  if negb (r =? 0) then panic "kvmmap" else ret tt.

(** [proc_mapstacks] of kernel/proc.c. *)
Definition proc_mapstacks (kpgtbl : Z) : K unit :=
  for_each (seqZ 0 NPROC) (fun p =>
    pa <- kalloc ;;
    if pa =? 0 then panic "kalloc" else
    kvmmap kpgtbl (KSTACK p) pa PGSIZE (Z.lor PTE_R PTE_W)).

Definition kvmmake : K Z :=
  kpgtbl <- kalloc ;;
  kmemset kpgtbl 0 PGSIZE ;;
  kvmmap kpgtbl UART0 UART0 PGSIZE (Z.lor PTE_R PTE_W) ;;
  kvmmap kpgtbl VIRTIO0 VIRTIO0 PGSIZE (Z.lor PTE_R PTE_W) ;;
  kvmmap kpgtbl PLIC PLIC 0x4000000 (Z.lor PTE_R PTE_W) ;;
  kvmmap kpgtbl KERNBASE KERNBASE (etext - KERNBASE) (Z.lor PTE_R PTE_X) ;;
  kvmmap kpgtbl etext etext (PHYSTOP - etext) (Z.lor PTE_R PTE_W) ;;
  kvmmap kpgtbl TRAMPOLINE trampoline PGSIZE (Z.lor PTE_R PTE_X) ;;
  proc_mapstacks kpgtbl ;;
  ret kpgtbl.

Definition uvmcreate : K Z :=
  pagetable <- kalloc ;;
  if pagetable =? 0 then ret 0 else
  kmemset pagetable 0 PGSIZE ;;
  ret pagetable.

(** ** Removing mappings *)

(** One round of [uvmunmap]. *)
Definition unmap_page (pagetable a : Z) (do_free : bool) : K unit :=
  pte <- walk pagetable a false ;;
  if pte =? 0 then ret tt else
  e <- ld64 pte ;;
  if negb (has e PTE_V) && negb (has e PTE_SWAPPED) then ret tt else
  (if do_free then
     if has e PTE_SWAPPED then swapfree (pte_to_swapblock e)
     else if has e PTE_V then kfree (PTE2PA e) else ret tt
   else ret tt) ;;
  st64 pte 0.

Definition uvmunmap (pagetable va npages : Z) (do_free : bool) : K unit :=
  if negb (va mod PGSIZE =? 0) then panic "uvmunmap: not aligned" else
  iter (Z.to_nat npages + 1) (fun a =>
    if a <? u64 (va + u64 (npages * PGSIZE)) then
      unmap_page pagetable a do_free ;;
      ret (inl (u64 (a + PGSIZE)))
    else ret (inr tt)) va.

Definition uvmdealloc (pagetable oldsz newsz : Z) : K Z :=
  if newsz >=? oldsz then ret oldsz else
  (if PGROUNDUP newsz <? PGROUNDUP oldsz then
     let npages := s32 ((PGROUNDUP oldsz - PGROUNDUP newsz) / PGSIZE) in
     uvmunmap pagetable (PGROUNDUP newsz) (u64 npages) true
   else ret tt) ;;
  ret newsz.

Definition uvmalloc (pagetable oldsz newsz xperm : Z) : K Z :=
  if newsz <? oldsz then ret oldsz else
  let oldsz := PGROUNDUP oldsz in
  iter (Z.to_nat ((newsz - oldsz) / PGSIZE) + 2) (fun a =>
    if a <? newsz then
      mem <- kalloc ;;
      if mem =? 0 then
        uvmdealloc pagetable a oldsz ;; ret (inr 0)
      else
      kmemset mem 0 PGSIZE ;;
      r <- mappages pagetable a PGSIZE mem (Z.lor (Z.lor PTE_R PTE_U) xperm) ;;
      if negb (r =? 0) then
        kfree mem ;;
        uvmdealloc pagetable a oldsz ;; ret (inr 0)
      else ret (inl (u64 (a + PGSIZE)))
    else ret (inr newsz)) oldsz.

(** [freewalk] recurses once per level; an Sv39 table has three. *)
Fixpoint freewalk_levels (depth : nat) (pagetable : Z) : K unit :=
  match depth with
  | O => hang
  | S d =>
      for_each (seqZ 0 512) (fun i =>
        pte <- ld64 (pagetable + 8 * i) ;;
        if has pte PTE_V && negb (has pte (Z.lor (Z.lor PTE_R PTE_W) PTE_X)) then
          freewalk_levels d (PTE2PA pte) ;;
          st64 (pagetable + 8 * i) 0
        else if has pte PTE_V then panic "freewalk: leaf" else ret tt) ;;
      kfree pagetable
  end.

Definition freewalk (pagetable : Z) : K unit := freewalk_levels 3 pagetable.

Definition uvmfree (pagetable sz : Z) : K unit :=
  (if sz >? 0 then uvmunmap pagetable 0 (PGROUNDUP sz / PGSIZE) true else ret tt) ;;
  freewalk pagetable.

(** ** Copy-on-write fork *)

(** One round of [uvmcopy]; [false] means [goto err].  (The source text has a
    second, identical [else] branch after the read-only one, which no C
    compiler accepts; the model has the branch once.) *)
Definition copy_page (old new i : Z) : K bool :=
  pte <- walk old i false ;;
  if pte =? 0 then ret true else
  e <- ld64 pte ;;
  if negb (has e PTE_V) then ret true else
  let pa := PTE2PA e in
  let flags := PTE_FLAGS e in
  if negb (has flags PTE_U) then ret true else
  if has flags PTE_COW then
    r <- mappages new i PGSIZE pa flags ;;
    if negb (r =? 0) then ret false else
    krefinc pa ;; ret true
  else if has flags PTE_W then
    st64 pte (Z.lor (Z.land e (Z.lnot PTE_W)) PTE_COW) ;;
    let flags := Z.lor (Z.land flags (Z.lnot PTE_W)) PTE_COW in
    r <- mappages new i PGSIZE pa flags ;;
    if negb (r =? 0) then ret false else
    krefinc pa ;; memstats_inc_cow_shared ;; ret true
  else
    r <- mappages new i PGSIZE pa flags ;;
    if negb (r =? 0) then ret false else
    krefinc pa ;; memstats_inc_cow_shared ;; ret true.

Definition uvmcopy (old new sz : Z) : K Z :=
  r <- iter (Z.to_nat (sz / PGSIZE) + 2) (fun i =>
    if i <? sz then
      ok <- copy_page old new i ;;
      if ok then ret (inl (u64 (i + PGSIZE))) else ret (inr (Some i))
    else ret (inr None)) 0 ;;
  match r with
  | None => ret 0
  | Some i => uvmunmap new 0 (i / PGSIZE) true ;; ret (-1)
  end.

Definition cowfault (pagetable va : Z) : K Z :=
  let va := PGROUNDDOWN va in
  pte <- walk pagetable va false ;;
  if pte =? 0 then ret (-1) else
  e <- ld64 pte ;;
  if negb (has e PTE_V) then ret (-1) else
  if negb (has e PTE_COW) then ret (-1) else
  let pa := PTE2PA e in
  let flags := PTE_FLAGS e in
  mem <- kalloc ;;
  if mem =? 0 then ret (-1) else
  kmemmove mem pa PGSIZE ;;
  st64 pte (Z.lor (Z.lor (PA2PTE mem) (Z.land flags (Z.lnot PTE_COW))) PTE_W) ;;
  krefdec pa ;;
  ret 0.

Definition uvmclear (pagetable va : Z) : K unit :=
  pte <- walk pagetable va false ;;
  if pte =? 0 then panic "uvmclear" else
  e <- ld64 pte ;;
  st64 pte (Z.land e (Z.lnot PTE_U)).

(** ** Lazy allocation *)

Definition ismapped (pagetable va : Z) : K bool :=
  pte <- walk pagetable va false ;;
  if pte =? 0 then ret false else
  e <- ld64 pte ;;
  ret (has e PTE_V).

Definition vmfault (pagetable va : Z) : K Z :=
  i <- curproc ;;
  p <- gets (fun s => k_procs s i) ;;
  if va >=? p_sz p then ret 0 else
  let va := PGROUNDDOWN va in
  b <- ismapped pagetable va ;;
  if b then ret 0 else
  mem <- kalloc ;;
  if mem =? 0 then ret 0 else
  kmemset mem 0 PGSIZE ;;
  r <- mappages (p_pagetable p) va PGSIZE mem (Z.lor (Z.lor PTE_W PTE_U) PTE_R) ;;
  if negb (r =? 0) then kfree mem ;; ret 0 else
  ret mem.

(** ** Copying to and from user space *)

Definition kwrite (a : Z) (bs : list Z) : K unit := fun s =>
  if in_ram a (Z.of_nat (length bs)) then Ok tt (k_set_mem (mem_write (k_mem s) a bs) s)
  else Undef "memmove outside RAM".
Definition kread (a n : Z) : K (list Z) := fun s =>
  if in_ram a n then Ok (mem_read (k_mem s) a n) s else Undef "memmove outside RAM".

(** The part of one round of [copyout] that finds the physical page:
    [None] for [return -1]. *)
Definition copyout_page (pagetable va0 : Z) : K (option Z) :=
  pte <- walk pagetable va0 false ;;
  e <- (if pte =? 0 then ret 0 else ld64 pte) ;;
  r <- (if (pte =? 0) || negb (has e PTE_V) then
          pa0 <- vmfault pagetable va0 ;;
          if pa0 =? 0 then ret None else
          pte <- walk pagetable va0 false ;;
          if pte =? 0 then ret None else ret (Some (pte, pa0))
        else
          pa0 <- walkaddr pagetable va0 ;;
          if pa0 =? 0 then ret None else ret (Some (pte, pa0))) ;;
  match r with
  | None => ret None
  | Some (pte, pa0) =>
      e <- ld64 pte ;;
      r <- (if has e PTE_COW then
              c <- cowfault pagetable va0 ;;
              if negb (c =? 0) then ret None else
              pa0 <- walkaddr pagetable va0 ;;
              if pa0 =? 0 then ret None else
              pte <- walk pagetable va0 false ;;
              if pte =? 0 then ret None else ret (Some (pte, pa0))
            else ret (Some (pte, pa0))) ;;
      match r with
      | None => ret None
      | Some (pte, pa0) =>
          e <- ld64 pte ;;
          if negb (has e PTE_W) then ret None else ret (Some pa0)
      end
  end.

Definition copyout (pagetable dstva : Z) (src : list Z) : K Z :=
  iter (length src + 1) (fun '(dstva, src) =>
    let len := Z.of_nat (length src) in
    if len >? 0 then
      let va0 := PGROUNDDOWN dstva in
      if va0 >=? MAXVA then ret (inr (-1)) else
      r <- copyout_page pagetable va0 ;;
      match r with
      | None => ret (inr (-1))
      | Some pa0 =>
          let n := PGSIZE - (dstva - va0) in
          let n := if n >? len then len else n in
          kwrite (pa0 + (dstva - va0)) (take (Z.to_nat n) src) ;;
          ret (inl (u64 (va0 + PGSIZE), drop (Z.to_nat n) src))
      end
    else ret (inr 0)) (dstva, src).

Definition copyin (pagetable srcva len : Z) : K (Z * list Z) :=
  iter (Z.to_nat len + 1) (fun '(srcva, len, dst) =>
    if len >? 0 then
      let va0 := PGROUNDDOWN srcva in
      pa0 <- walkaddr pagetable va0 ;;
      pa0 <- (if pa0 =? 0 then vmfault pagetable va0 else ret pa0) ;;
      if pa0 =? 0 then ret (inr (-1, dst)) else
      let n := PGSIZE - (srcva - va0) in
      let n := if n >? len then len else n in
      bs <- kread (pa0 + (srcva - va0)) n ;;
      ret (inl (u64 (va0 + PGSIZE), len - n, dst ++ bs))
    else ret (inr (0, dst))) (srcva, len, []).

(** The inner loop of [copyinstr] over the [n] bytes of one page: the bytes
    stored, and whether the NUL was among them. *)
Fixpoint copy_until_nul (bs : list Z) : list Z * bool :=
  match bs with
  | [] => ([], false)
  | b :: bs =>
      if b =? 0 then ([0], true)
      else let '(dst, got) := copy_until_nul bs in (b :: dst, got)
  end.

Definition copyinstr (pagetable srcva max : Z) : K (Z * list Z) :=
  iter (Z.to_nat max + 1) (fun '(srcva, max, dst) =>
    if max >? 0 then
      let va0 := PGROUNDDOWN srcva in
      pa0 <- walkaddr pagetable va0 ;;
      if pa0 =? 0 then ret (inr (-1, dst)) else
      let n := PGSIZE - (srcva - va0) in
      let n := if n >? max then max else n in
      bs <- kread (pa0 + (srcva - va0)) n ;;
      let '(out, got_null) := copy_until_nul bs in
      if got_null then ret (inr (0, dst ++ out)) else
      ret (inl (u64 (va0 + PGSIZE), max - n, dst ++ out))
    else ret (inr (-1, dst))) (srcva, max, []).

End Vm.

(** * Copying to or from user memory or the kernel: either_copyout and
    either_copyin of kernel/proc.c

    The [user_dst]/[dst] and [user_src]/[src] pairs of the C code are values
    of one type: a user virtual address, a physical address of the kernel, or
    a local variable of a kernel function.  Bytes for a local destination are
    handed back by the caller that collects them; a local source is the list
    of its bytes. *)

Inductive place : Type := User (va : Z) | Kern (pa : Z) | Klocal (bs : list Z).

(** [dst += n] and [src += n]. *)
Definition place_add (p : place) (n : Z) : place :=
  match p with
  | User va => User (u64 (va + n))
  | Kern pa => Kern (u64 (pa + n))
  | Klocal bs => Klocal (drop (Z.to_nat n) bs)
  end.

Section Either.
Context {LAY : Layout} {ENV : Env}.

Definition either_copyout (dst : place) (src : list Z) : K Z :=
  match dst with
  | User va =>
      i <- curproc ;;
      pt <- gets (fun s => p_pagetable (k_procs s i)) ;;
      copyout pt va src
  | Kern pa => kwrite pa src ;; ret 0
  | Klocal _ => ret 0
  end.

(** The result and the bytes stored at the destination, which on an error are
    the ones copied before it. *)
Definition either_copyin (src : place) (len : Z) : K (Z * list Z) :=
  match src with
  | User va =>
      i <- curproc ;;
      pt <- gets (fun s => p_pagetable (k_procs s i)) ;;
      copyin pt va len
  | Kern pa => bs <- kread pa len ;; ret (0, bs)
  | Klocal bs =>
      if Z.of_nat (length bs) <? len then undef "memmove past the end of a local variable"
      else ret (0, take (Z.to_nat len) bs)
  end.

End Either.
