(* ===== verification/PageTable.v ===== *)
(** * Sv39 page tables in memory

    A page table is three levels of pages of 512 entries.  [pt_ok] says that
    the pages [t1] and [t0] are the tables of the two lower levels, every one
    reached through exactly one entry; [ent] is the map from virtual page
    numbers to entries that the tables represent.  Adding a table page keeps
    that map, and storing a leaf entry changes it at one page number. *)

From S2P Require Import Prelude Riscv Mem KState.

(** ** Definitions *)

(** Virtual page numbers, and the index a page number has at a level. *)
Definition NVPN : Z := MAXVA / PGSIZE.
Definition idx (level v : Z) : Z := v / 512 ^ level mod 512.

(** Address of entry [i] of the table at [p]. *)
Definition slot (p i : Z) : Z := p + 8 * i.

(** The table an entry points to. *)
Definition child (m : mem) (p i : Z) : option Z :=
  if has (load64 m (slot p i)) PTE_V then Some (PTE2PA (load64 m (slot p i))) else None.

(** Address of the level-0 entry of page [v], and the entry; 0 when a table is missing. *)
Definition pte_addr (m : mem) (root v : Z) : option Z :=
  t ← child m root (idx 2 v); t' ← child m t (idx 1 v); Some (slot t' (idx 0 v)).
Definition ent (m : mem) (root v : Z) : Z :=
  match pte_addr m root v with Some a => load64 m a | None => 0 end.

(** An entry that points to a table: none of R, W, X. *)
Definition is_ptr (e : Z) : Prop := has e (Z.lor (Z.lor PTE_R PTE_W) PTE_X) = false.

(** The entries of the pages [ps] point to the pages [cs], each to one and
    each page by one. *)
Record links (m : mem) (ps cs : list Z) : Prop := {
  lk_in : forall p i c, p ∈ ps -> 0 <= i < 512 -> child m p i = Some c ->
    c ∈ cs /\ is_ptr (load64 m (slot p i));
  lk_inj : forall p q i j c, p ∈ ps -> q ∈ ps -> 0 <= i < 512 -> 0 <= j < 512 ->
    child m p i = Some c -> child m q j = Some c -> p = q /\ i = j;
  lk_sur : forall c, c ∈ cs -> exists p i, p ∈ ps /\ 0 <= i < 512 /\ child m p i = Some c
}.

Section PageTable.
Context {LAY : Layout}.

Definition tables (root : Z) (t1 t0 : list Z) : list Z := root :: t1 ++ t0.

(** The kernel maps addresses below [MAXVA], one bit less than Sv39 allows, so
    the upper half of the root table stays empty. *)
Record pt_ok (m : mem) (root : Z) (t1 t0 : list Z) : Prop := {
  pt_nodup : NoDup (tables root t1 t0);
  pt_heap : Forall heap_page (tables root t1 t0);
  pt_l2 : links m [root] t1;
  pt_l1 : links m t1 t0;
  pt_half : forall i, 256 <= i < 512 -> child m root i = None
}.

(** ** Indices and slots *)

Lemma va_page_range va : 0 <= va < MAXVA -> 0 <= va / PGSIZE < NVPN.
Proof. change NVPN with 0x4000000. change MAXVA with 0x4000000000. unfold PGSIZE. zlia. Qed.

Lemma sz_pages sz : 0 <= sz <= MAXVA -> 0 <= PGROUNDUP sz / PGSIZE <= NVPN.
Proof.
  intros Hsz. change MAXVA with 0x4000000000 in Hsz. change NVPN with 0x4000000.
  rewrite PGROUNDUP_eq by lia. unfold PGSIZE. zlia.
Qed.

Lemma idx_range l v : 0 <= idx l v < 512.
Proof. by apply Z.mod_pos_bound. Qed.

Lemma PX_idx l va : 0 <= l -> PX l va = idx l (va / PGSIZE).
Proof.
  intros Hl. rewrite PX_eq by done. unfold idx. rewrite Z.pow_add_r, Z.pow_mul_r by lia.
  change (2 ^ 12) with PGSIZE. change (2 ^ 9) with 512.
  rewrite Z.div_div by (try apply Z.pow_pos_nonneg; unfold PGSIZE; lia). done.
Qed.

(** The three indices determine the page number. *)
Lemma idx_split v : 0 <= v < NVPN -> v = idx 2 v * 262144 + idx 1 v * 512 + idx 0 v.
Proof.
  change NVPN with 0x4000000. unfold idx. change (512 ^ 2) with (512 * 512).
  change (512 ^ 1) with 512. change (512 ^ 0) with 1. intros H.
  rewrite Z.div_1_r, <- Z.div_div by lia. rewrite (Z.mod_small (v / 512 / 512)).
  - pose proof (Z.div_mod v 512). pose proof (Z.div_mod (v / 512) 512). lia.
  - split; [apply Z.div_pos; [apply Z.div_pos|]|apply Z.div_lt_upper_bound, Z.div_lt_upper_bound]; lia.
Qed.

(** The addresses the kernel uses lie in the lower half of the root table, and
    every entry of a table there belongs to one of them. *)
Lemma idx2_low v : 0 <= v < NVPN -> idx 2 v < 256.
Proof. change NVPN with 0x4000000. unfold idx. change (512 ^ 2) with 262144. intros H. zlia. Qed.

Lemma idx_compose a b c : 0 <= a < 256 -> 0 <= b < 512 -> 0 <= c < 512 ->
  exists w, 0 <= w < NVPN /\ idx 2 w = a /\ idx 1 w = b /\ idx 0 w = c.
Proof.
  intros Ha Hb Hc. exists (a * 262144 + b * 512 + c). change NVPN with 0x4000000. unfold idx.
  change (512 ^ 2) with 262144. change (512 ^ 1) with 512. change (512 ^ 0) with 1. rewrite Z.div_1_r. zlia.
Qed.

Lemma idx_inj v w : 0 <= v < NVPN -> 0 <= w < NVPN ->
  idx 2 v = idx 2 w -> idx 1 v = idx 1 w -> idx 0 v = idx 0 w -> v = w.
Proof.
  intros Hv Hw E2 E1 E0. rewrite (idx_split v), (idx_split w) by done. by rewrite E2, E1, E0.
Qed.

Lemma slot_inj p q i j : is_page p -> is_page q -> 0 <= i < 512 -> 0 <= j < 512 ->
  slot p i = slot q j -> p = q /\ i = j.
Proof.
  intros (H1 & _) (H2 & _) Hi Hj E. unfold slot, PGSIZE in *.
  assert (p = q) by zlia. lia.
Qed.

(** Distinct slots do not overlap. *)
Lemma slot_apart p q i j : is_page p -> is_page q -> 0 <= i < 512 -> 0 <= j < 512 ->
  (p <> q \/ i <> j) -> slot p i + 8 <= slot q j \/ slot q j + 8 <= slot p i.
Proof.
  intros (H1 & _) (H2 & _) Hi Hj E. unfold slot, PGSIZE in *.
  destruct (decide (p = q)) as [->|Hne]; [lia|]. zlia.
Qed.

Lemma slot_in_page p i : 0 <= i < 512 -> p <= slot p i /\ slot p i + 8 <= p + PGSIZE.
Proof. unfold slot, PGSIZE. lia. Qed.

Lemma slot_in_ram p i : is_page p -> 0 <= i < 512 -> in_ram (slot p i) 8 = true.
Proof. intros Hp Hi. pose proof (slot_in_page p i Hi). eapply in_ram_page; [done|lia|lia]. Qed.

(** What [store64] to one slot does to the others. *)
Lemma load64_slot_ne m p q i j v : is_page p -> is_page q -> 0 <= i < 512 -> 0 <= j < 512 ->
  (p <> q \/ i <> j) -> load64 (store64 m (slot p i) v) (slot q j) = load64 m (slot q j).
Proof. intros. apply load64_store64_ne. by apply slot_apart. Qed.

(** ** Links *)

Lemma child_ext m m' p i : load64 m' (slot p i) = load64 m (slot p i) -> child m' p i = child m p i.
Proof. unfold child. by intros ->. Qed.

Lemma child_zero m p i : load64 m (slot p i) = 0 -> child m p i = None.
Proof. unfold child. by intros ->. Qed.

Lemma links_ext m m' ps cs :
  (forall p i, p ∈ ps -> 0 <= i < 512 -> load64 m' (slot p i) = load64 m (slot p i)) ->
  links m ps cs -> links m' ps cs.
Proof.
  intros H [H1 H2 H3]. split.
  - intros p i c Hp Hi. rewrite (child_ext m m') by auto. rewrite (H p i) by auto. by apply H1.
  - intros p q i j c Hp Hq Hi Hj. rewrite !(child_ext m m') by auto. by apply H2.
  - intros c Hc. destruct (H3 c Hc) as (p & i & Hp & Hi & E). exists p, i.
    rewrite (child_ext m m') by auto. done.
Qed.

(** The entry that points to the table page [pg]. *)
Definition ptr_to (pg : Z) : Z := Z.lor (PA2PTE pg) PTE_V.

Lemma ptr_to_V pg : has (ptr_to pg) PTE_V = true.
Proof. rewrite has_V. unfold ptr_to. rewrite Z.lor_spec. apply orb_true_r. Qed.

Lemma ptr_to_PA pg : is_page pg -> PTE2PA (ptr_to pg) = pg.
Proof. intros (H1 & H2 & H3). unfold ptr_to. apply PTE2PA_PA2PTE; [done|clia|by vm_compute]. Qed.

Lemma ptr_to_is_ptr pg : is_ptr (ptr_to pg).
Proof.
  unfold is_ptr, ptr_to, has. rewrite Z.land_lor_distr_l.
  replace (Z.land (PA2PTE pg) (Z.lor (Z.lor PTE_R PTE_W) PTE_X)) with 0; [done|].
  symmetry. apply Z.bits_inj'. intros k Hk. rewrite Z.land_spec, Z.bits_0.
  destruct (decide (k < 10)); [by rewrite PA2PTE_low by lia|].
  change (Z.lor (Z.lor PTE_R PTE_W) PTE_X) with 14.
  rewrite (testbit_small 14 4 k) by lia. apply andb_false_r.
Qed.

Lemma ptr_to_range pg : is_page pg -> 0 <= ptr_to pg < 0x10000000000000000.
Proof.
  intros (H1 & H2 & H3). unfold ptr_to, PA2PTE. rewrite Z.shiftr_div_pow2 by lia.
  apply (lor_range _ _ 64); [lia| |done].
  rewrite Z.shiftl_mul_pow2 by lia. change (2 ^ 12) with 4096. change (2 ^ 10) with 1024.
  change (2 ^ 64) with 0x10000000000000000. unfold PGSIZE, PHYSTOP, KERNBASE in *. zlia.
Qed.

(** A new child in an empty slot. *)
Lemma links_grow m m' ps cs p i pg :
  links m ps cs -> p ∈ ps -> 0 <= i < 512 -> child m p i = None -> pg ∉ cs -> is_page pg ->
  load64 m' (slot p i) = ptr_to pg ->
  (forall q j, q ∈ ps -> 0 <= j < 512 -> q <> p \/ j <> i ->
     load64 m' (slot q j) = load64 m (slot q j)) ->
  links m' ps (pg :: cs).
Proof.
  intros [H1 H2 H3] Hp Hi Hnone Hpg Hpage Hnew Hold.
  assert (child m' p i = Some pg) as Hc.
  { unfold child. rewrite Hnew, ptr_to_V. by rewrite ptr_to_PA. }
  assert (forall q j c, q ∈ ps -> 0 <= j < 512 -> child m' q j = Some c ->
    (q = p /\ j = i /\ c = pg) \/ ((q <> p \/ j <> i) /\ child m q j = Some c)) as Hcase.
  { intros q j c Hq Hj E. destruct (decide (q = p /\ j = i)) as [[-> ->]|Hne].
    - left. rewrite Hc in E. by injection E as <-.
    - right. assert (q <> p \/ j <> i) as Hne' by (destruct (decide (q = p)); naive_solver).
      split; [done|]. rewrite <- E. symmetry. apply child_ext. by apply Hold. }
  split.
  - intros q j c Hq Hj E. destruct (Hcase q j c Hq Hj E) as [(-> & -> & ->)|[Hne E']].
    + rewrite Hnew. split; [set_solver|apply ptr_to_is_ptr].
    + rewrite Hold by done. destruct (H1 q j c Hq Hj E') as [H4 H5]. split; [set_solver|done].
  - intros q q' j j' c Hq Hq' Hj Hj' E E'.
    destruct (Hcase q j c Hq Hj E) as [(-> & -> & ->)|[Hne E1]];
      destruct (Hcase q' j' _ Hq' Hj' E') as [(-> & -> & F)|[Hne' E1']]; [done|..].
    + by destruct (H1 q' j' pg Hq' Hj' E1') as [? _].
    + subst c. by destruct (H1 q j pg Hq Hj E1) as [? _].
    + by eapply H2.
  - intros c Hc'. apply elem_of_cons in Hc' as [->|Hc']; [by exists p, i|].
    destruct (H3 c Hc') as (q & j & Hq & Hj & E). exists q, j. split; [done|]. split; [done|].
    rewrite <- E. apply child_ext, Hold; [done|done|].
    destruct (decide (q = p)) as [->|]; [|by left]. right. intros ->. by rewrite E in Hnone.
Qed.

(** A new parent whose entries are all zero. *)
Lemma links_parent m ps cs pg :
  links m ps cs -> (forall i, 0 <= i < 512 -> load64 m (slot pg i) = 0) -> links m (pg :: ps) cs.
Proof.
  intros [H1 H2 H3] Hz.
  assert (forall p i c, p ∈ pg :: ps -> 0 <= i < 512 -> child m p i = Some c -> p ∈ ps) as Hin.
  { intros p i c Hp Hi E. apply elem_of_cons in Hp as [->|]; [|done].
    by rewrite child_zero in E by auto. }
  split.
  - intros p i c Hp Hi E. apply H1; eauto.
  - intros p q i j c Hp Hq Hi Hj E E'. eapply H2; eauto.
  - intros c Hc. destruct (H3 c Hc) as (p & i & Hp & Hi & E). exists p, i. set_solver.
Qed.

(** ** Well-formed tables *)

Section ok.
Context (m : mem) (root : Z) (t1 t0 : list Z) (OK : pt_ok m root t1 t0).

Lemma table_page t : t ∈ tables root t1 t0 -> heap_page t.
Proof. apply (proj1 (Forall_forall _ _) (pt_heap _ _ _ _ OK)). Qed.

Lemma root_page : heap_page root.
Proof. apply table_page. set_solver. Qed.

Lemma t1_page t : t ∈ t1 -> heap_page t.
Proof. intros. apply table_page. unfold tables. set_solver. Qed.

Lemma t0_page t : t ∈ t0 -> heap_page t.
Proof. intros. apply table_page. unfold tables. set_solver. Qed.

Lemma root_not_t1 : root ∉ t1.
Proof. pose proof (pt_nodup _ _ _ _ OK) as H. apply NoDup_cons in H as [H _]. set_solver. Qed.

Lemma root_not_t0 : root ∉ t0.
Proof. pose proof (pt_nodup _ _ _ _ OK) as H. apply NoDup_cons in H as [H _]. set_solver. Qed.

Lemma t1_not_t0 t : t ∈ t1 -> t ∉ t0.
Proof.
  pose proof (pt_nodup _ _ _ _ OK) as H. apply NoDup_cons in H as [_ H].
  apply NoDup_app in H as (_ & H & _). auto.
Qed.

Lemma child_root i t : 0 <= i < 512 -> child m root i = Some t -> t ∈ t1.
Proof. intros Hi E. by apply (lk_in _ _ _ (pt_l2 _ _ _ _ OK) root i t); [set_solver|..]. Qed.

Lemma child_t1 p i t : p ∈ t1 -> 0 <= i < 512 -> child m p i = Some t -> t ∈ t0.
Proof. intros Hp Hi E. by apply (lk_in _ _ _ (pt_l1 _ _ _ _ OK) p i t). Qed.

Lemma pte_addr_inv v a : pte_addr m root v = Some a ->
  exists t t', child m root (idx 2 v) = Some t /\ child m t (idx 1 v) = Some t' /\
    t ∈ t1 /\ t' ∈ t0 /\ a = slot t' (idx 0 v).
Proof.
  unfold pte_addr. destruct (child m root (idx 2 v)) as [t|] eqn:E2; [|done]. cbn.
  destruct (child m t (idx 1 v)) as [t'|] eqn:E1; [|done]. cbn. intros [= <-].
  pose proof (child_root _ _ (idx_range 2 v) E2) as Ht.
  pose proof (child_t1 _ _ _ Ht (idx_range 1 v) E1) as Ht'. by exists t, t'.
Qed.

(** Different pages have different entries. *)
Lemma pte_addr_inj v w a : 0 <= v < NVPN -> 0 <= w < NVPN ->
  pte_addr m root v = Some a -> pte_addr m root w = Some a -> v = w.
Proof.
  intros Hv Hw (t & t' & E1 & E2 & Ht & Ht' & ->)%pte_addr_inv
    (u & u' & F1 & F2 & Hu & Hu' & E)%pte_addr_inv.
  apply slot_inj in E as [<- Ei]; [|by apply t0_page|by apply t0_page|apply idx_range..].
  destruct (lk_inj _ _ _ (pt_l1 _ _ _ _ OK) t u (idx 1 v) (idx 1 w) t') as [<- E1'];
    [done|done|apply idx_range|apply idx_range|done|done|].
  destruct (lk_inj _ _ _ (pt_l2 _ _ _ _ OK) root root (idx 2 v) (idx 2 w) t) as [_ E2'];
    [set_solver|set_solver|apply idx_range|apply idx_range|done|done|].
  by apply idx_inj.
Qed.

Lemma pte_addr_ram v a : pte_addr m root v = Some a -> in_ram a 8 = true /\ a <> 0.
Proof.
  intros (t & t' & _ & _ & _ & Ht' & ->)%pte_addr_inv.
  pose proof (t0_page t' Ht') as Hp. pose proof (idx_range 0 v) as Hi. split.
  - apply slot_in_ram; [apply Hp|done].
  - destruct Hp as ((_ & Hp & _) & _). unfold slot. clia.
Qed.

End ok.

(** The tables of another memory that agrees on the table pages. *)
Lemma pt_ok_ext m m' root t1 t0 :
  (forall t i, t ∈ root :: t1 -> 0 <= i < 512 -> load64 m' (slot t i) = load64 m (slot t i)) ->
  pt_ok m root t1 t0 -> pt_ok m' root t1 t0.
Proof.
  intros H [H1 H2 H3 H4 H5]. split; [done|done|(eapply links_ext; [|done]); set_solver..|].
  intros i Hi. rewrite (child_ext m m') by (apply H; [ielem|lia]). by apply H5.
Qed.

Lemma pte_addr_ext m m' root t1 t0 v :
  pt_ok m root t1 t0 ->
  (forall t i, t ∈ root :: t1 -> 0 <= i < 512 -> load64 m' (slot t i) = load64 m (slot t i)) ->
  pte_addr m' root v = pte_addr m root v.
Proof.
  intros OK H. unfold pte_addr. rewrite (child_ext m m' root) by (apply H; [set_solver|apply idx_range]).
  destruct (child m root (idx 2 v)) as [t|] eqn:E; [|done]. cbn.
  assert (t ∈ t1) as Ht by (eapply child_root; [done|apply idx_range|done]).
  by rewrite (child_ext m m' t) by (apply H; [set_solver|apply idx_range]).
Qed.

Lemma ent_ext m m' root t1 t0 v :
  pt_ok m root t1 t0 ->
  (forall t i, t ∈ tables root t1 t0 -> 0 <= i < 512 -> load64 m' (slot t i) = load64 m (slot t i)) ->
  ent m' root v = ent m root v.
Proof.
  intros OK H. unfold ent. rewrite (pte_addr_ext m m' root t1 t0 v OK).
  2:{ intros t i Ht. apply H. unfold tables. set_solver. }
  destruct (pte_addr m root v) as [a|] eqn:E; [|done].
  apply (pte_addr_inv _ _ _ _ OK) in E as (t & t' & _ & _ & _ & Ht' & ->).
  apply H; [unfold tables; set_solver|apply idx_range].
Qed.

(** ** Storing a leaf entry *)

Section leaf.
Context (m : mem) (root : Z) (t1 t0 : list Z) (OK : pt_ok m root t1 t0).
Context (v a e : Z) (Hv : 0 <= v < NVPN) (Ha : pte_addr m root v = Some a).

Lemma leaf_store_interior t i : t ∈ root :: t1 -> 0 <= i < 512 ->
  load64 (store64 m a e) (slot t i) = load64 m (slot t i).
Proof.
  intros Ht Hi. destruct (pte_addr_inv _ _ _ _ OK _ _ Ha) as (u & u' & _ & _ & _ & Hu' & ->).
  apply load64_slot_ne; [by eapply t0_page| |apply idx_range|done|].
  - eapply table_page; [done|]. unfold tables. set_solver.
  - left. intros <-. apply elem_of_cons in Ht as [->|Ht].
    + by eapply root_not_t0.
    + by eapply t1_not_t0.
Qed.

Lemma leaf_store_ok : pt_ok (store64 m a e) root t1 t0.
Proof. eapply pt_ok_ext; [apply leaf_store_interior|done]. Qed.

Lemma leaf_store_addr w : pte_addr (store64 m a e) root w = pte_addr m root w.
Proof. eapply pte_addr_ext; [done|apply leaf_store_interior]. Qed.

Lemma leaf_store_ent w : 0 <= w < NVPN ->
  ent (store64 m a e) root w = if decide (w = v) then u64 e else ent m root w.
Proof.
  intros Hw. unfold ent. rewrite leaf_store_addr. case_decide as Hd.
  - subst w. rewrite Ha. apply load64_store64.
  - destruct (pte_addr m root w) as [b|] eqn:Eb; [|done].
    destruct (pte_addr_inv _ _ _ _ OK _ _ Ha) as (u & u' & _ & _ & _ & Hu' & Ea).
    destruct (pte_addr_inv _ _ _ _ OK _ _ Eb) as (x & x' & _ & _ & _ & Hx' & Eb').
    rewrite Ea, Eb'. apply load64_slot_ne; [by eapply t0_page|by eapply t0_page|apply idx_range..|].
    destruct (decide (u' = x')) as [<-|]; [right|by left]. intros Ei.
    apply Hd, (pte_addr_inj _ _ _ _ OK w v a); [done|done| |done]. by rewrite Eb, Eb', Ea, Ei.
Qed.

End leaf.

(** ** Adding a table page *)

(** [m'] is [m] after [pg] was cleared and linked from entry [i] of [p]. *)
Definition linked (m m' : mem) (p i pg : Z) : Prop :=
  load64 m' (slot p i) = ptr_to pg /\
  (forall j, 0 <= j < 512 -> load64 m' (slot pg j) = 0) /\
  (forall q j, is_page q -> q <> pg -> 0 <= j < 512 -> q <> p \/ j <> i ->
     load64 m' (slot q j) = load64 m (slot q j)).

Section grow.
Context (m m' : mem) (root : Z) (t1 t0 : list Z) (OK : pt_ok m root t1 t0).
Context (i pg : Z) (Hi : 0 <= i < 512) (Hpg : heap_page pg) (Hnew : pg ∉ tables root t1 t0).

Lemma new_table_ne t : t ∈ tables root t1 t0 -> t <> pg.
Proof. by intros Ht ->. Qed.

Lemma grow_root : i < 256 -> child m root i = None -> linked m m' root i pg -> pt_ok m' root (pg :: t1) t0.
Proof.
  intros Hlow Hn (Hl & Hz & Ho). pose proof OK as [H1 H2 H3 H4 H6].
  assert (forall t j, t ∈ t1 -> 0 <= j < 512 -> load64 m' (slot t j) = load64 m (slot t j)) as Hold.
  { intros t j Ht Hj. apply Ho; [by eapply t1_page|apply new_table_ne; unfold tables; set_solver|done|].
    left. intros ->. by eapply root_not_t1. }
  split.
  - unfold tables in *. apply NoDup_cons in H1 as [H1 H5]. apply NoDup_cons. split; [set_solver|].
    cbn. apply NoDup_cons. split; [set_solver|done].
  - unfold tables in *. inversion H2; subst. constructor; [done|]. by constructor.
  - apply (links_grow m m' [root] t1 root i); [done|set_solver|done|done| |apply Hpg|done|].
    + unfold tables in Hnew. set_solver.
    + intros q j Hq%list_elem_of_singleton Hj Hne. subst q. apply Ho; [by eapply root_page| |done|done].
      apply new_table_ne. unfold tables. set_solver.
  - apply links_parent; [|done]. by eapply links_ext.
  - intros j Hj. rewrite (child_ext m m'); [by apply H6|]. apply Ho; [by eapply root_page| |lia|right; lia].
    apply new_table_ne. unfold tables. set_solver.
Qed.

Lemma grow_root_ent v : child m root i = None -> linked m m' root i pg ->
  ent m' root v = ent m root v.
Proof.
  intros Hn (Hl & Hz & Ho). unfold ent, pte_addr. destruct (decide (idx 2 v = i)) as [Ei|Ei].
  - rewrite Ei, Hn. assert (child m' root i = Some pg) as ->.
    { unfold child. rewrite Hl, ptr_to_V. by rewrite ptr_to_PA by apply Hpg. }
    cbn. by rewrite child_zero by (apply Hz, idx_range).
  - pose proof (idx_range 2 v) as R2. pose proof (idx_range 1 v) as R1. pose proof (idx_range 0 v) as R0.
    assert (root <> pg) by (apply new_table_ne; unfold tables; set_solver).
    rewrite (child_ext m m' root) by (apply Ho; [by eapply root_page|done|done|by right]).
    destruct (child m root (idx 2 v)) as [t|] eqn:E2; [|done]. cbn.
    assert (t ∈ t1) as Ht by (by apply (child_root m root t1 t0 OK (idx 2 v))).
    assert (forall u j, u ∈ t1 ++ t0 -> 0 <= j < 512 -> load64 m' (slot u j) = load64 m (slot u j)) as Hold.
    { intros u j Hu Hj. assert (u ∈ tables root t1 t0) as Hu' by (unfold tables; set_solver).
      apply Ho; [by eapply table_page|by apply new_table_ne|done|]. left. intros ->.
      apply elem_of_app in Hu as [Hu|Hu]; [by eapply root_not_t1|by eapply root_not_t0]. }
    rewrite (child_ext m m' t) by (apply Hold; [set_solver|done]).
    destruct (child m t (idx 1 v)) as [t'|] eqn:E1; [|done]. cbn.
    apply Hold; [|done]. apply elem_of_app. right. by apply (child_t1 m root t1 t0 OK t (idx 1 v)).
Qed.

Context (p : Z) (Hp : p ∈ t1).

Lemma grow_t1 : child m p i = None -> linked m m' p i pg -> pt_ok m' root t1 (pg :: t0).
Proof.
  intros Hn (Hl & Hz & Ho). pose proof OK as [H1 H2 H3 H4 H6].
  assert (forall j, 0 <= j < 512 -> load64 m' (slot root j) = load64 m (slot root j)) as Hroot.
  { intros j Hj. apply Ho; [by eapply root_page|apply new_table_ne; unfold tables; set_solver|done|].
    left. intros ->. by eapply root_not_t1. }
  split.
  - assert (tables root t1 (pg :: t0) ≡ₚ pg :: tables root t1 t0) as ->.
    { unfold tables. rewrite <- Permutation_middle. apply Permutation_swap. }
    by apply NoDup_cons.
  - assert (tables root t1 (pg :: t0) ≡ₚ pg :: tables root t1 t0) as ->.
    { unfold tables. rewrite <- Permutation_middle. apply Permutation_swap. }
    by constructor.
  - eapply links_ext; [|done]. intros q j Hq%list_elem_of_singleton Hj. subst q. by apply Hroot.
  - eapply (links_grow m m'); [done|done|done|done| |apply Hpg|done|].
    + unfold tables in Hnew. set_solver.
    + intros q j Hq Hj Hne. apply Ho; [by eapply t1_page|apply new_table_ne; unfold tables; set_solver|done|done].
  - intros j Hj. rewrite (child_ext m m') by (apply Hroot; lia). by apply H6.
Qed.

Lemma grow_t1_ent v : child m p i = None -> linked m m' p i pg -> ent m' root v = ent m root v.
Proof.
  intros Hn (Hl & Hz & Ho).
  pose proof (idx_range 2 v) as R2. pose proof (idx_range 1 v) as R1. pose proof (idx_range 0 v) as R0.
  assert (forall u j, u ∈ tables root t1 t0 -> 0 <= j < 512 -> u <> p \/ j <> i ->
    load64 m' (slot u j) = load64 m (slot u j)) as Hold.
  { intros u j Hu Hj Hne. apply Ho; [by eapply table_page|by apply new_table_ne|done|done]. }
  assert (root <> p) by (intros ->; by eapply root_not_t1).
  unfold ent, pte_addr. rewrite (child_ext m m' root) by (apply Hold; [unfold tables; set_solver|done|by left]).
  destruct (child m root (idx 2 v)) as [t|] eqn:E2; [|done]. cbn.
  assert (t ∈ t1) as Ht by (by apply (child_root m root t1 t0 OK (idx 2 v))).
  destruct (decide (t = p /\ idx 1 v = i)) as [[-> Ei]|Hne].
  - rewrite Ei, Hn. cbn. assert (child m' p i = Some pg) as ->.
    { unfold child. rewrite Hl, ptr_to_V. by rewrite ptr_to_PA by apply Hpg. }
    cbn. by apply Hz.
  - assert (t <> p \/ idx 1 v <> i) by (destruct (decide (t = p)); naive_solver).
    rewrite (child_ext m m' t) by (apply Hold; [unfold tables; set_solver|done|done]).
    destruct (child m t (idx 1 v)) as [t'|] eqn:E1; [|done]. cbn.
    assert (t' ∈ t0) as Ht' by (by apply (child_t1 m root t1 t0 OK t (idx 1 v))).
    apply Hold; [unfold tables; set_solver|done|]. left. intros ->. exact (t1_not_t0 m root t1 t0 OK p Hp Ht').
Qed.

End grow.
End PageTable.
