(* ===== verification/Walk.v ===== *)
(** * The page-table walk (kernel/vm.c, [walk])

    [walk] is proved against the allocator's interface [Allocator], which
    [kalloc] implements.  Without [alloc] it computes the address of the entry
    the tables have; with [alloc] it adds the missing tables, changes no
    mapping, and fails only when the free list is empty. *)

From S2P Require Import Prelude Riscv Mem KState Memstats Sched Bio PhysMem Kalloc Swap PageTable.

Section Walk.
Context {LAY : Layout} {ENV : Env}.

(** ** What the walk needs of an allocator *)

Class Allocator (ka : K Z) : Prop := {
  alloc_head s pa fl : alloc_ok s (pa :: fl) -> alloc_locks_free s ->
    ka s = Ok pa (allocated pa s);
  alloc_none s r s' : alloc_ok s [] -> ka s = Ok r s' -> r = 0 /\ s' = s
}.

#[export] Instance kalloc_allocator : Allocator kalloc.
Proof.
  split.
  - intros s pa fl Ha Hl. apply kalloc_head; [|done|apply (ao_chain _ _ Ha)].
    eapply free_is_heap; [done|set_solver].
  - intros s r s' Ha H. pose proof (ao_chain _ _ Ha) as Hf. cbn in Hf.
    apply kalloc_inv in H as [(H1 & H2 & _)|(-> & _ & ->)]; [congruence|done].
Qed.

(** ** Address spaces and frames *)

(** The free list [fl] and a page table with pages [t1] and [t0], each of
    them counted once. *)
Record vmem (s : kstate) (fl : list Z) (root : Z) (t1 t0 : list Z) : Prop := {
  vm_alloc : alloc_ok s fl;
  vm_pt : pt_ok (k_mem s) root t1 t0;
  vm_cnt : forall t, t ∈ tables root t1 t0 -> count_of s t = 1;
  vm_locks : alloc_locks_free s
}.

(** Nothing but memory, the free list, the counts and the statistics changed. *)
Definition only_vm (s s' : kstate) : Prop :=
  k_set_mem (k_mem s) (k_set_freelist (k_freelist s)
    (k_set_refcount (k_refcount s) (k_set_stats (k_stats s) s'))) = s.

(** From [s] to [s'] only the pages of [fl] and [ts] were written, pages were
    only taken off the free list to become tables, and no other page's count
    changed. *)
Record vframe (s s' : kstate) (fl fl' ts ts' : list Z) : Prop := {
  vf_only : only_vm s s';
  vf_used : exists ns, fl = ns ++ fl';
  vf_tables : forall p, p ∈ ts' -> p ∈ ts \/ p ∈ fl;
  vf_mono : forall p, p ∈ ts -> p ∈ ts';
  vf_keep : forall p, p ∈ fl -> p ∈ fl' \/ p ∈ ts';
  vf_mem : forall x, (forall p, p ∈ fl ++ ts -> ~ in_page p x) -> k_mem s' x = k_mem s x;
  vf_cnt : forall p, is_page p -> p ∉ fl -> count_of s' p = count_of s p
}.

Lemma only_vm_refl s : only_vm s s.
Proof. by destruct s. Qed.

Lemma only_vm_mem s m : only_vm s (k_set_mem m s).
Proof. by destruct s. Qed.

Lemma only_vm_count s q x : only_vm s (with_count q x s).
Proof. by destruct s. Qed.

Lemma only_vm_stats s g : only_vm s (on_stats g s).
Proof. by destruct s. Qed.

Lemma only_vm_trans s1 s2 s3 : only_vm s1 s2 -> only_vm s2 s3 -> only_vm s1 s3.
Proof. unfold only_vm. intros <- <-. by destruct s3. Qed.

Lemma only_vm_locks s s' : only_vm s s' -> alloc_locks_free s -> alloc_locks_free s'.
Proof. unfold only_vm. by intros <-. Qed.

Lemma vframe_refl s fl ts : vframe s s fl fl ts ts.
Proof. split; [apply only_vm_refl|by exists []|auto..]. Qed.

Lemma vframe_trans s1 s2 s3 fl1 fl2 fl3 ts1 ts2 ts3 :
  vframe s1 s2 fl1 fl2 ts1 ts2 -> vframe s2 s3 fl2 fl3 ts2 ts3 -> vframe s1 s3 fl1 fl3 ts1 ts3.
Proof.
  intros [A1 [n1 ->] C1 M1 K1 D1 E1] [A2 [n2 ->] C2 M2 K2 D2 E2]. split.
  - by eapply only_vm_trans.
  - exists (n1 ++ n2). by rewrite app_assoc.
  - intros p Hp. apply C2 in Hp as [Hp|Hp]; [by apply C1|set_solver].
  - auto.
  - intros p Hp. apply K1 in Hp as [Hp|Hp]; auto.
  - intros x Hx. rewrite D2; [by apply D1|]. intros p Hp.
    apply elem_of_app in Hp as [Hp|Hp]; [apply Hx; set_solver|].
    apply C1 in Hp as [Hp|Hp]; apply Hx; set_solver.
  - intros p Hp Hn. rewrite E2, E1; [done|done|done|done|set_solver].
Qed.

Lemma vf_sub s s' fl fl' ts ts' p : vframe s s' fl fl' ts ts' -> p ∈ fl' -> p ∈ fl.
Proof. intros HF Hp. destruct (vf_used _ _ _ _ _ _ HF) as [ns ->]. apply elem_of_app. by right. Qed.

Lemma vmem_not_free s fl root t1 t0 t : vmem s fl root t1 t0 -> t ∈ tables root t1 t0 -> t ∉ fl.
Proof.
  intros Hv Ht. eapply free_not_counted; [apply Hv|]. rewrite (vm_cnt _ _ _ _ _ Hv t Ht). lia.
Qed.

Lemma vmem_table_page s fl root t1 t0 t : vmem s fl root t1 t0 -> t ∈ tables root t1 t0 -> heap_page t.
Proof. intros Hv. by eapply table_page, Hv. Qed.

(** ** Adding one table *)

(** The state after [pg] was allocated, cleared and linked from entry [i] of [p]. *)
Definition table_added (p i pg : Z) (s : kstate) : kstate :=
  k_set_mem (store64 (mem_fill (k_mem (allocated pg s)) pg 0 PGSIZE) (slot p i) (ptr_to pg))
    (allocated pg s).

Section add.
Context (s : kstate) (pg : Z) (fl : list Z) (root : Z) (t1 t0 : list Z).
Context (HV : vmem s (pg :: fl) root t1 t0).

Lemma add_pg_heap : heap_page pg.
Proof. eapply free_is_heap; [apply HV|set_solver]. Qed.

Lemma add_pg_new : pg ∉ tables root t1 t0.
Proof. intros H. eapply vmem_not_free; [done|done|set_solver]. Qed.

Lemma add_pg_ne t : t ∈ tables root t1 t0 -> t <> pg.
Proof. intros Ht ->. by apply add_pg_new. Qed.

Context (p i : Z) (Hp : p ∈ tables root t1 t0) (Hi : 0 <= i < 512).

Lemma add_mem_outside x : ~ in_page pg x -> ~ in_page p x -> k_mem (table_added p i pg s) x = k_mem s x.
Proof.
  intros H1 H2. change (k_mem (table_added p i pg s)) with
    (store64 (mem_fill (mem_fill (k_mem s) pg 5 PGSIZE) pg 0 PGSIZE) (slot p i) (ptr_to pg)).
  pose proof (slot_in_page p i Hi) as Hs. unfold in_page in *.
  rewrite (store64_outside _ _ _ x) by lia. rewrite (mem_fill_outside _ _ _ _ x) by lia.
  by apply mem_fill_outside.
Qed.

Lemma add_linked : linked (k_mem s) (k_mem (table_added p i pg s)) p i pg.
Proof.
  pose proof add_pg_heap as [Hpg _]. pose proof (vmem_table_page _ _ _ _ _ _ HV Hp) as [Hpp _].
  change (k_mem (table_added p i pg s)) with
    (store64 (mem_fill (mem_fill (k_mem s) pg 5 PGSIZE) pg 0 PGSIZE) (slot p i) (ptr_to pg)).
  split; [|split].
  - rewrite load64_store64. by apply u64_small, ptr_to_range.
  - intros j Hj. rewrite load64_slot_ne; [|done|done|done|done|by left; apply add_pg_ne].
    pose proof (slot_in_page pg j Hj). apply load64_fill0; lia.
  - intros q j Hq Hne Hj Hd. rewrite load64_slot_ne by (done || naive_solver).
    unfold slot. rewrite (load64_other_page (mem_fill (k_mem s) pg 5 PGSIZE) _ q pg j) by
      (done || apply mem_fill_outside).
    by apply (load64_other_page (k_mem s) _ q pg j); try apply mem_fill_outside.
Qed.

Lemma add_alloc_ok : alloc_ok (table_added p i pg s) fl.
Proof.
  eapply alloc_ok_frame; [apply allocated_ok, HV|done| |done].
  intros q Hq x Hx.
  assert (heap_page q) as [Hqp _] by (eapply free_is_heap; [apply HV|set_solver]).
  pose proof add_pg_heap as [Hpg _]. pose proof (vmem_table_page _ _ _ _ _ _ HV Hp) as [Hpp _].
  assert (q <> pg) as Hne. { intros ->. pose proof (ao_nodup _ _ (vm_alloc _ _ _ _ _ HV)) as Hn.
    by apply NoDup_cons in Hn as [Hn _]. }
  assert (q <> p) as Hne'. { intros ->. by eapply vmem_not_free; [done|done|set_solver]. }
  rewrite add_mem_outside by (eapply (pages_disjoint q); done). symmetry.
  apply mem_fill_outside. by eapply (pages_disjoint q pg).
Qed.

Lemma add_cnt t : is_page t -> count_of (table_added p i pg s) t = if decide (t = pg) then 1 else count_of s t.
Proof.
  intros Ht. change (count_of (table_added p i pg s) t) with (count_of (with_count pg 1 s) t).
  case_decide as E; [subst; apply count_with_count|].
  apply count_with_count_ne; [apply add_pg_heap|done|done].
Qed.

Lemma add_frame ts' : (forall q, q ∈ ts' <-> q = pg \/ q ∈ tables root t1 t0) ->
  vframe s (table_added p i pg s) (pg :: fl) fl (tables root t1 t0) ts'.
Proof.
  intros Hts. split.
  - by destruct s.
  - by exists [pg].
  - intros q Hq. apply Hts in Hq as [->|]; set_solver.
  - intros q Hq. apply Hts. by right.
  - intros q Hq. apply elem_of_cons in Hq as [->|]; [right; apply Hts; by left|by left].
  - intros x Hx. apply add_mem_outside; apply Hx; set_solver.
  - intros q Hq Hn. rewrite add_cnt by done. rewrite decide_False; [done|]. set_solver.
Qed.

Lemma add_vmem t1' t0' : (forall q, q ∈ tables root t1' t0' -> q = pg \/ q ∈ tables root t1 t0) ->
  pt_ok (k_mem (table_added p i pg s)) root t1' t0' -> vmem (table_added p i pg s) fl root t1' t0'.
Proof.
  intros Hts Hok. split; [apply add_alloc_ok|done| |apply HV].
  intros t Ht. pose proof (table_page _ _ _ _ Hok t Ht) as [Htp _]. rewrite add_cnt by done.
  case_decide; [done|]. apply HV. by destruct (Hts t Ht).
Qed.

End add.

(** The commands that add the table. *)
Lemma add_table_run {A} pg fl s p i (k : K A) : alloc_ok s (pg :: fl) -> is_page p -> 0 <= i < 512 ->
  (kmemset pg 0 PGSIZE ;; st64 (slot p i) (Z.lor (PA2PTE pg) PTE_V) ;; k) (allocated pg s)
  = k (table_added p i pg s).
Proof.
  intros Ha Hp Hi. assert (heap_page pg) as [Hpg _] by (eapply free_is_heap; [done|set_solver]).
  unfold bind, kmemset, st64. rewrite page_in_ram by done.
  by rewrite slot_in_ram.
Qed.

(** ** The walk *)

Section walk.
Context (ka : K Z) {AL : Allocator ka}.

Lemma level_slot l p va : p + 8 * PX (Z.of_nat l) va = slot p (idx (Z.of_nat l) (va / PGSIZE)).
Proof. by rewrite PX_idx by lia. Qed.

Lemma ld64_slot s p i : is_page p -> 0 <= i < 512 -> ld64 (slot p i) s = Ok (load64 (k_mem s) (slot p i)) s.
Proof. intros Hp Hi. unfold ld64. by rewrite slot_in_ram. Qed.

(** Following a valid entry, or finding an invalid one. *)
Lemma walk_step l p va b s t : is_page p ->
  child (k_mem s) p (idx (Z.of_nat (S l)) (va / PGSIZE)) = Some t ->
  walk_levels ka (S l) p va b s = walk_levels ka l t va b s.
Proof.
  intros Hp Hc. cbn [walk_levels]. rewrite level_slot. unfold bind.
  rewrite ld64_slot by (done || apply idx_range). unfold child in Hc.
  destruct (has _ _); [|done]. by injection Hc as ->.
Qed.

Lemma walk_miss l p va b s : is_page p ->
  child (k_mem s) p (idx (Z.of_nat (S l)) (va / PGSIZE)) = None ->
  walk_levels ka (S l) p va b s =
    (if negb b then ret 0 else
     pg <- ka ;;
     if pg =? 0 then ret 0 else
     kmemset pg 0 PGSIZE ;;
     st64 (slot p (idx (Z.of_nat (S l)) (va / PGSIZE))) (Z.lor (PA2PTE pg) PTE_V) ;;
     walk_levels ka l pg va b) s.
Proof.
  intros Hp Hc. cbn [walk_levels]. rewrite level_slot. unfold bind at 1.
  rewrite ld64_slot by (done || apply idx_range). unfold child in Hc. by destruct (has _ _).
Qed.

Lemma walk_noalloc s root t1 t0 va : pt_ok (k_mem s) root t1 t0 -> 0 <= va < MAXVA ->
  walk_with ka root va false s = Ok (default 0 (pte_addr (k_mem s) root (va / PGSIZE))) s.
Proof.
  intros OK Hva. unfold walk_with. rewrite Z.geb_leb, (proj2 (Z.leb_gt _ _)) by lia.
  unfold pte_addr. destruct (child (k_mem s) root (idx 2 (va / PGSIZE))) as [t|] eqn:E2.
  - assert (t ∈ t1) as Ht by (eapply (child_root _ _ _ _ OK); [apply idx_range|done]).
    erewrite walk_step; [|by apply (root_page _ _ _ _ OK)|done]. cbn [mbind option_bind].
    destruct (child (k_mem s) t (idx 1 (va / PGSIZE))) as [t'|] eqn:E1.
    + erewrite walk_step; [|by apply (t1_page _ _ _ _ OK)|done]. cbn [walk_levels mbind option_bind].
      by rewrite PX_idx.
    + rewrite walk_miss; [done|by apply (t1_page _ _ _ _ OK)|done].
  - rewrite walk_miss; [done|by apply (root_page _ _ _ _ OK)|done].
Qed.

(** With the tables present, both kinds of walk find the entry. *)
Lemma walk_hit s root t1 t0 va b a : pt_ok (k_mem s) root t1 t0 -> 0 <= va < MAXVA ->
  pte_addr (k_mem s) root (va / PGSIZE) = Some a -> walk_with ka root va b s = Ok a s.
Proof.
  intros OK Hva Ha. unfold walk_with. rewrite Z.geb_leb, (proj2 (Z.leb_gt _ _)) by lia.
  destruct (pte_addr_inv _ _ _ _ OK _ _ Ha) as (t & t' & E2 & E1 & Ht & _ & ->).
  erewrite walk_step; [|by apply (root_page _ _ _ _ OK)|done].
  erewrite walk_step; [|by apply (t1_page _ _ _ _ OK)|done].
  cbn [walk_levels]. by rewrite PX_idx.
Qed.

(** The result of a walk that adds tables. *)
Definition walk_post (s : kstate) (fl : list Z) (root : Z) (t1 t0 : list Z) (v : Z) (n : nat)
    (a : Z) (s' : kstate) : Prop :=
  exists fl' t1' t0', vmem s' fl' root t1' t0' /\
    vframe s s' fl fl' (tables root t1 t0) (tables root t1' t0') /\
    (forall w, ent (k_mem s') root w = ent (k_mem s) root w) /\
    (length fl <= length fl' + n)%nat /\
    ((a = 0 /\ fl' = [] /\ (length fl < n)%nat) \/ (a <> 0 /\ pte_addr (k_mem s') root v = Some a)).

Lemma walk_level1 tot s fl root t1 t0 va t :
  vmem s fl root t1 t0 -> child (k_mem s) root (idx 2 (va / PGSIZE)) = Some t ->
  (tot = true -> 1 <= length fl)%nat ->
  wpx tot (walk_levels ka 1 t va true) (walk_post s fl root t1 t0 (va / PGSIZE) 1) s.
Proof.
  intros HV E2 Htot. pose proof (vm_pt _ _ _ _ _ HV) as OK.
  assert (t ∈ t1) as Ht by (eapply (child_root _ _ _ _ OK); [apply idx_range|done]).
  assert (t ∈ tables root t1 t0) as Htt by (unfold tables; set_solver).
  pose proof (t1_page _ _ _ _ OK t Ht) as [Htp _].
  pose proof (idx_range 1 (va / PGSIZE)) as R1. unfold wpx.
  destruct (child (k_mem s) t (idx 1 (va / PGSIZE))) as [t'|] eqn:E1.
  - erewrite walk_step by done. cbn [walk_levels]. rewrite PX_idx by done. unfold ret.
    assert (pte_addr (k_mem s) root (va / PGSIZE) = Some (slot t' (idx 0 (va / PGSIZE)))) as Hpa.
    { unfold pte_addr. rewrite E2. cbn. by rewrite E1. }
    exists fl, t1, t0. split; [done|]. split; [apply vframe_refl|]. split; [done|].
    split; [lia|]. right. split; [|done]. by apply (pte_addr_ram _ _ _ _ OK) in Hpa as [_ ?].
  - rewrite walk_miss by done. cbn [negb]. destruct fl as [|pg fl].
    + unfold bind. destruct (ka s) as [r s'| | |] eqn:Ek; [|by destruct tot; [specialize (Htot eq_refl); cbn in Htot; lia|]..].
      destruct (alloc_none s r s') as [-> ->]; [apply HV|done|]. cbn.
      exists [], t1, t0. split; [done|]. split; [apply vframe_refl|]. split; [done|].
      split; [lia|]. left. cbn. split; [done|]. split; [done|lia].
    + pose proof (add_pg_heap _ _ _ _ _ _ HV) as Hpg.
      pose proof (add_pg_new _ _ _ _ _ _ HV) as Hnew.
      unfold bind at 1. rewrite (alloc_head s pg fl) by apply HV.
      rewrite (proj2 (Z.eqb_neq pg 0)) by (pose proof (heap_page_range pg Hpg); lia).
      rewrite (add_table_run pg fl) by (done || apply HV). cbn [walk_levels]. unfold ret.
      change (Z.of_nat 1) with 1. set (s' := table_added t _ pg s).
      pose proof (add_linked _ _ _ _ _ _ HV t (idx 1 (va / PGSIZE)) Htt R1) as Hlk. fold s' in Hlk.
      assert (pt_ok (k_mem s') root t1 (pg :: t0)) as OK' by (by eapply grow_t1).
      exists fl, t1, (pg :: t0). split; [|split; [|split; [|split]]].
      * apply (add_vmem _ _ _ _ _ _ HV); [done|done| |done]. unfold tables. set_solver.
      * apply (add_frame _ _ _ _ _ _ HV); [done|done|]. unfold tables. set_solver.
      * intros w. by eapply grow_t1_ent.
      * cbn. lia.
      * right. rewrite PX_idx by done.
        assert (pte_addr (k_mem s') root (va / PGSIZE) = Some (slot pg (idx 0 (va / PGSIZE)))) as Hpa.
        { unfold pte_addr. destruct Hlk as (Hl & _ & Ho).
          rewrite (child_ext (k_mem s)), E2; [|apply Ho; [by apply (root_page _ _ _ _ OK)| |apply idx_range|]].
          - cbn [mbind option_bind]. unfold child. rewrite Hl, ptr_to_V. by rewrite ptr_to_PA by apply Hpg.
          - intros ->. apply Hnew. unfold tables. set_solver.
          - left. intros ->. by eapply root_not_t1. }
        split; [|done]. by apply (pte_addr_ram _ _ _ _ OK') in Hpa as [_ ?].
Qed.

Lemma walk_alloc tot s fl root t1 t0 va :
  vmem s fl root t1 t0 -> 0 <= va < MAXVA -> (tot = true -> 2 <= length fl)%nat ->
  wpx tot (walk_with ka root va true) (walk_post s fl root t1 t0 (va / PGSIZE) 2) s.
Proof.
  intros HV Hva Htot. pose proof (vm_pt _ _ _ _ _ HV) as OK.
  assert (root ∈ tables root t1 t0) as Hrt by (unfold tables; set_solver).
  pose proof (root_page _ _ _ _ OK) as [Hrp _].
  pose proof (idx_range 2 (va / PGSIZE)) as R2.
  unfold walk_with. rewrite Z.geb_leb, (proj2 (Z.leb_gt _ _)) by lia.
  unfold wpx. destruct (child (k_mem s) root (idx 2 (va / PGSIZE))) as [t|] eqn:E2.
  - erewrite walk_step by done.
    eapply (wpx_mono tot (walk_levels ka 1 t va true)); [eapply walk_level1; [done|done|]; intros ->; specialize (Htot eq_refl); lia|].
    intros a s' (fl' & t1' & t0' & H1 & H2 & H3 & H4 & H5). exists fl', t1', t0'.
    split; [done|]. split; [done|]. split; [done|]. split; [lia|].
    destruct H5 as [(? & ? & ?)|?]; [left|by right]. split; [done|]. split; [done|lia].
  - rewrite walk_miss by done. cbn [negb]. destruct fl as [|pg fl].
    + unfold bind. destruct (ka s) as [r s'| | |] eqn:Ek; [|by destruct tot; [specialize (Htot eq_refl); cbn in Htot; lia|]..].
      destruct (alloc_none s r s') as [-> ->]; [apply HV|done|]. cbn.
      exists [], t1, t0. split; [done|]. split; [apply vframe_refl|]. split; [done|].
      split; [lia|]. left. cbn. split; [done|]. split; [done|lia].
    + pose proof (add_pg_heap _ _ _ _ _ _ HV) as Hpg.
      pose proof (add_pg_new _ _ _ _ _ _ HV) as Hnew.
      unfold bind at 1. rewrite (alloc_head s pg fl) by apply HV.
      rewrite (proj2 (Z.eqb_neq pg 0)) by (pose proof (heap_page_range pg Hpg); lia).
      rewrite (add_table_run pg fl) by (done || apply HV).
      change (Z.of_nat 2) with 2. set (s' := table_added root _ pg s).
      pose proof (add_linked _ _ _ _ _ _ HV root (idx 2 (va / PGSIZE)) Hrt R2) as Hlk. fold s' in Hlk.
      assert (pt_ok (k_mem s') root (pg :: t1) t0) as OK'
        by (eapply (grow_root _ _ _ _ _ (vm_pt _ _ _ _ _ HV) _ _ R2 Hpg Hnew (idx2_low _ (va_page_range va Hva))); done).
      assert (vmem s' fl root (pg :: t1) t0) as HV'.
      { apply (add_vmem _ _ _ _ _ _ HV); [done|done| |done]. unfold tables. set_solver. }
      assert (child (k_mem s') root (idx 2 (va / PGSIZE)) = Some pg) as E2'.
      { unfold child. rewrite (proj1 Hlk), ptr_to_V. by rewrite ptr_to_PA by apply Hpg. }
      eapply (wpx_mono tot (walk_levels ka 1 pg va true)).
      { eapply walk_level1; [done|done|]. intros ->. specialize (Htot eq_refl). cbn in Htot. lia. }
      intros a s2 (fl' & t1' & t0' & H1 & H2 & H3 & H4 & H5). exists fl', t1', t0'.
      split; [done|]. split; [|split; [|split]].
      * eapply vframe_trans; [|done]. apply (add_frame _ _ _ _ _ _ HV); [done|done|]. unfold tables. set_solver.
      * intros w. rewrite H3. by eapply grow_root_ent.
      * cbn. lia.
      * destruct H5 as [(? & ? & ?)|?]; [left|by right]. split; [done|]. split; [done|cbn; lia].
Qed.

End walk.
End Walk.
