(* ===== verification/VmMap.v ===== *)
(** * Installing and removing mappings (kernel/vm.c)

    [mappages], [walkaddr], [ismapped], [uvmunmap] and [uvmdealloc] as
    operations on the map from page numbers to entries. *)

From S2P Require Import Prelude Riscv Mem KState Memstats Sched Bio PhysMem Kalloc Swap Vm.
From S2P Require Import PageTable Walk.

(** ** Definitions *)

(** The leaf entry [mappages] stores. *)
Definition leaf_pte (pa perm : Z) : Z := Z.lor (Z.lor (PA2PTE pa) perm) PTE_V.

(** [f] with [k] pages from [v0] on mapped to consecutive frames. *)
Definition mapped (f : Z -> Z) (v0 k pa perm w : Z) : Z :=
  if decide (v0 <= w < v0 + k) then leaf_pte (pa + (w - v0) * PGSIZE) perm else f w.

(** An entry whose page is in memory, and one whose page is there or in the
    swap area. *)
Definition resident (e : Z) : bool := has e PTE_V && negb (has e PTE_SWAPPED).
Definition in_use (e : Z) : bool := has e PTE_V || has e PTE_SWAPPED.

(** [f] with the entries in use of [k] pages from [v0] on cleared. *)
Definition cleared (f : Z -> Z) (v0 k w : Z) : Z :=
  if decide (v0 <= w < v0 + k) then if in_use (f w) then 0 else f w else f w.

(** How many of the entries of the pages [ws] are resident and refer to [p]. *)
Definition leaf_refs (f : Z -> Z) (ws : list Z) (p : Z) : Z :=
  sumZ (fun w => if resident (f w) && (PTE2PA (f w) =? p) then 1 else 0) ws.

(** The swap blocks of the entries of the pages [ws], in their order. *)
Definition swap_list (f : Z -> Z) (ws : list Z) : list Z :=
  omap (fun w => if has (f w) PTE_SWAPPED then Some (pte_to_swapblock (f w)) else None) ws.

Lemma elem_of_swap_list f ws b :
  b ∈ swap_list f ws <-> exists w, w ∈ ws /\ has (f w) PTE_SWAPPED = true /\ pte_to_swapblock (f w) = b.
Proof.
  unfold swap_list. rewrite list_elem_of_omap. split.
  - intros (w & Hw & E). exists w. destruct (has (f w) PTE_SWAPPED); [|done]. by injection E as <-.
  - intros (w & Hw & HV & <-). exists w. by rewrite HV.
Qed.

Lemma swap_list_nil f ws : (forall w, w ∈ ws -> has (f w) PTE_SWAPPED = false) -> swap_list f ws = [].
Proof.
  intros H. destruct (swap_list f ws) as [|b l] eqn:E; [done|]. assert (b ∈ swap_list f ws) as Hb by (rewrite E; left).
  apply elem_of_swap_list in Hb as (w & Hw & Hs & _). by rewrite H in Hs.
Qed.

Lemma swap_list_next f v0 j : 0 <= j ->
  swap_list f (seqZ v0 (j + 1)) = swap_list f (seqZ v0 j) ++ swap_list f [v0 + j].
Proof.
  intros Hj. rewrite seqZ_app by lia. unfold swap_list. rewrite omap_app.
  rewrite (seqZ_cons (v0 + j) 1) by lia. by rewrite (seqZ_nil _ (Z.pred 1)) by lia.
Qed.

Lemma swap_list_prefix f v0 j n : 0 <= j <= n -> exists l, swap_list f (seqZ v0 n) = swap_list f (seqZ v0 j) ++ l.
Proof.
  intros Hj. exists (swap_list f (seqZ (v0 + j) (n - j))). replace n with (j + (n - j)) at 1 by lia.
  rewrite seqZ_app by lia. unfold swap_list. by rewrite omap_app.
Qed.

Lemma resident_valid e : has e PTE_SWAPPED = false -> resident e = has e PTE_V.
Proof. unfold resident. intros ->. by rewrite andb_true_r. Qed.

Lemma in_use_valid e : has e PTE_SWAPPED = false -> in_use e = has e PTE_V.
Proof. unfold in_use. intros ->. by rewrite orb_false_r. Qed.

Lemma sumZ_app {A} (f : A -> Z) l1 l2 : sumZ f (l1 ++ l2) = sumZ f l1 + sumZ f l2.
Proof. induction l1 as [|x l IH]; cbn; lia. Qed.

Lemma sumZ_nonneg {A} (f : A -> Z) l : (forall x, 0 <= f x) -> 0 <= sumZ f l.
Proof. intros H. induction l as [|x l IH]; cbn; [lia|]. specialize (H x). lia. Qed.

Lemma leaf_refs_nonneg f ws p : 0 <= leaf_refs f ws p.
Proof. apply sumZ_nonneg. intros w. by destruct (_ && _). Qed.

Lemma leaf_refs_ext f g ws p : (forall w, w ∈ ws -> f w = g w) -> leaf_refs f ws p = leaf_refs g ws p.
Proof. intros H. apply sumZ_ext. intros w Hw. by rewrite H. Qed.

Lemma leaf_refs_prefix f v0 j n p : 0 <= j <= n -> leaf_refs f (seqZ v0 j) p <= leaf_refs f (seqZ v0 n) p.
Proof.
  intros Hj. replace n with (j + (n - j)) by lia. rewrite seqZ_app by lia. unfold leaf_refs.
  rewrite sumZ_app. pose proof (leaf_refs_nonneg f (seqZ (v0 + j) (n - j)) p) as H.
  unfold leaf_refs in H. lia.
Qed.

Lemma leaf_refs_next f v0 j p : 0 <= j ->
  leaf_refs f (seqZ v0 (j + 1)) p =
    leaf_refs f (seqZ v0 j) p + if resident (f (v0 + j)) && (PTE2PA (f (v0 + j)) =? p) then 1 else 0.
Proof.
  intros Hj. rewrite seqZ_app by lia. unfold leaf_refs. rewrite sumZ_app. f_equal.
  rewrite (seqZ_cons (v0 + j) 1) by lia. rewrite (seqZ_nil _ (Z.pred 1)) by lia.
  cbn [sumZ]. apply Z.add_0_r.
Qed.

Lemma cleared_invalid f v0 k w : v0 <= w < v0 + k -> has (cleared f v0 k w) PTE_V = false.
Proof. intros Hw. unfold cleared. rewrite decide_True by done. destruct (in_use (f w)) eqn:E; [done|]. by apply orb_false_iff in E as [-> _]. Qed.

(** ** Leaf entries *)

Lemma leaf_pte_lor pa perm : leaf_pte pa perm = Z.lor (PA2PTE pa) (Z.lor perm PTE_V).
Proof. unfold leaf_pte. by rewrite Z.lor_assoc. Qed.

Lemma perm_V_range perm : 0 <= perm < 1024 -> 0 <= Z.lor perm PTE_V < 1024.
Proof. intros H. by apply (lor_range _ _ 10). Qed.

Lemma leaf_pte_V pa perm : has (leaf_pte pa perm) PTE_V = true.
Proof. rewrite has_V. unfold leaf_pte. rewrite Z.lor_spec. apply orb_true_r. Qed.

Lemma leaf_pte_PA pa perm : pa mod PGSIZE = 0 -> 0 <= pa < 0x100000000000000 -> 0 <= perm < 1024 ->
  PTE2PA (leaf_pte pa perm) = pa.
Proof. intros. rewrite leaf_pte_lor. apply PTE2PA_PA2PTE; [done|done|by apply perm_V_range]. Qed.

Lemma leaf_pte_flags pa perm : 0 <= perm < 1024 -> PTE_FLAGS (leaf_pte pa perm) = Z.lor perm PTE_V.
Proof. intros. rewrite leaf_pte_lor. apply PTE_FLAGS_PA2PTE. by apply perm_V_range. Qed.

Lemma leaf_pte_bit pa perm k : 0 <= k < 10 ->
  Z.testbit (leaf_pte pa perm) k = Z.testbit perm k || (k =? 0).
Proof.
  intros Hk. unfold leaf_pte. rewrite !Z.lor_spec, PA2PTE_low by done. cbn [orb]. f_equal.
Qed.

Lemma leaf_pte_here pa perm : 0 <= perm < 512 -> has (leaf_pte pa perm) PTE_SWAPPED = false.
Proof. intros Hp. rewrite has_SWAPPED, leaf_pte_bit by lia. by rewrite (testbit_small perm 9 9) by lia. Qed.

Lemma PA2PTE_range pa : 0 <= pa < 0x100000000000000 -> 0 <= PA2PTE pa < 2 ^ 54.
Proof.
  intros H. unfold PA2PTE. rewrite Z.shiftl_mul_pow2, Z.shiftr_div_pow2 by lia.
  change (2 ^ 12) with 4096. change (2 ^ 10) with 1024. change (2 ^ 54) with 0x40000000000000. zlia.
Qed.

Lemma leaf_pte_range pa perm : 0 <= pa < 0x100000000000000 -> 0 <= perm < 1024 ->
  0 <= leaf_pte pa perm < 0x10000000000000000.
Proof.
  intros Hpa Hp. rewrite leaf_pte_lor. apply (lor_range _ _ 64); [lia| |].
  - pose proof (PA2PTE_range pa Hpa) as H. change (2 ^ 54) with 0x40000000000000 in H.
    change (2 ^ 64) with 0x10000000000000000. lia.
  - pose proof (perm_V_range perm Hp). change (2 ^ 64) with 0x10000000000000000. lia.
Qed.

Lemma page_number va : va mod PGSIZE = 0 -> va = va / PGSIZE * PGSIZE.
Proof. intros. unfold PGSIZE in *. zlia. Qed.

Lemma page_number_range v : 0 <= v < NVPN -> 0 <= v * PGSIZE < MAXVA.
Proof. change NVPN with 0x4000000. change MAXVA with 0x4000000000. unfold PGSIZE. lia. Qed.

Lemma page_mul_div v : v * PGSIZE / PGSIZE = v.
Proof. by apply Z.div_mul. Qed.

Section VmMap.
Context {LAY : Layout} {ENV : Env}.

(** ** Reading and writing entries *)

Section entries.
Context (s : kstate) (fl : list Z) (root : Z) (t1 t0 : list Z) (HV : vmem s fl root t1 t0).

Lemma walk_ok va : 0 <= va < MAXVA ->
  walk root va false s = Ok (default 0 (pte_addr (k_mem s) root (va / PGSIZE))) s.
Proof. intros. eapply walk_noalloc; [apply HV|done]. Qed.

(** [walk] without allocation, then reading the entry. *)
Lemma walk_ld64 {A} va (k0 : K A) (k : Z -> Z -> K A) : 0 <= va < MAXVA ->
  (pte <- walk root va false ;; if pte =? 0 then k0 else e <- ld64 pte ;; k pte e) s =
  match pte_addr (k_mem s) root (va / PGSIZE) with
  | None => k0 s
  | Some a => k a (ent (k_mem s) root (va / PGSIZE)) s
  end.
Proof.
  intros Hva. unfold bind at 1. rewrite walk_ok by done.
  destruct (pte_addr (k_mem s) root (va / PGSIZE)) as [a|] eqn:Ea; [|done]. cbn [default].
  pose proof (vm_pt _ _ _ _ _ HV) as OK.
  destruct (pte_addr_ram _ _ _ _ OK _ _ Ea) as [Hram Hne].
  unfold default, id. rewrite (proj2 (Z.eqb_neq a 0)) by done. unfold bind, ld64. rewrite Hram.
  unfold ent. by rewrite Ea.
Qed.

(** Storing entry [e] for page [v]. *)
Definition set_entry (a e : Z) : kstate := k_set_mem (store64 (k_mem s) a e) s.

Context (v a : Z) (Hv : 0 <= v < NVPN) (Ha : pte_addr (k_mem s) root v = Some a).

Lemma set_entry_run e : st64 a e s = Ok tt (set_entry a e).
Proof.
  unfold st64. by rewrite (proj1 (pte_addr_ram _ _ _ _ (vm_pt _ _ _ _ _ HV) _ _ Ha)).
Qed.

Lemma set_entry_ent e w : 0 <= w < NVPN -> 0 <= e < 0x10000000000000000 ->
  ent (k_mem (set_entry a e)) root w = if decide (w = v) then e else ent (k_mem s) root w.
Proof.
  intros Hw He. unfold set_entry. cbn [k_mem k_set_mem].
  rewrite (leaf_store_ent _ _ _ _ (vm_pt _ _ _ _ _ HV) v a e Hv Ha w Hw). by rewrite u64_small.
Qed.

Lemma entry_page : exists t, t ∈ tables root t1 t0 /\ t <= a /\ a + 8 <= t + PGSIZE.
Proof.
  destruct (pte_addr_inv _ _ _ _ (vm_pt _ _ _ _ _ HV) _ _ Ha) as (u & t & _ & _ & _ & Ht & ->).
  exists t. split; [unfold tables; set_solver|]. apply slot_in_page, idx_range.
Qed.

Lemma set_entry_mem e x : (forall p, p ∈ tables root t1 t0 -> ~ in_page p x) ->
  k_mem (set_entry a e) x = k_mem s x.
Proof.
  intros Hx. destruct entry_page as (t & Ht & H1 & H2). apply store64_outside.
  specialize (Hx t Ht). unfold in_page in Hx. lia.
Qed.

Lemma set_entry_vmem e : vmem (set_entry a e) fl root t1 t0.
Proof.
  pose proof HV as [H1 H2 H3 H4]. split; [|by eapply leaf_store_ok|done|done].
  eapply alloc_ok_frame; [done|done| |done].
  intros q Hq x Hx. apply set_entry_mem. intros p Hp.
  eapply (pages_disjoint q); [by eapply free_is_heap|by eapply (vmem_table_page _ _ _ _ _ p HV)| |done].
  intros ->. by eapply vmem_not_free.
Qed.

Lemma set_entry_frame e : vframe s (set_entry a e) fl fl (tables root t1 t0) (tables root t1 t0).
Proof.
  split; [apply only_vm_mem|by exists []|auto|auto|auto| |auto].
  intros x Hx. apply set_entry_mem. set_solver.
Qed.

End entries.

(** ** [mappages] *)

Section mappages.
Context (s : kstate) (fl : list Z) (root : Z) (t1 t0 : list Z) (HV : vmem s fl root t1 t0).
Context (va n pa perm : Z).
Context (Hal : va mod PGSIZE = 0) (Hva : 0 <= va) (Hn : 0 < n) (Hmax : va + n * PGSIZE <= MAXVA).
Context (Hpal : pa mod PGSIZE = 0) (Hpa : 0 <= pa) (Hpmax : pa + n * PGSIZE <= 0x100000000000000).
Context (Hperm : 0 <= perm < 1024).
Context (Hfree : forall w, va / PGSIZE <= w < va / PGSIZE + n -> has (ent (k_mem s) root w) PTE_V = false).

(** After [k] pages. *)
Definition map_state (k : Z) (s' : kstate) (fl' t1' t0' : list Z) : Prop :=
  vmem s' fl' root t1' t0' /\
  vframe s s' fl fl' (tables root t1 t0) (tables root t1' t0') /\
  (forall w, 0 <= w < NVPN ->
     ent (k_mem s') root w = mapped (ent (k_mem s) root) (va / PGSIZE) k pa perm w) /\
  Z.of_nat (length fl) <= Z.of_nat (length fl') + 2 * k.

Definition map_post (r : Z) (s' : kstate) : Prop :=
  exists k fl' t1' t0',
    vmem s' fl' root t1' t0' /\
    vframe s s' fl fl' (tables root t1 t0) (tables root t1' t0') /\
    (forall w, 0 <= w < NVPN ->
       ent (k_mem s') root w = mapped (ent (k_mem s) root) (va / PGSIZE) k pa perm w) /\
    ((r = 0 /\ k = n) \/ (r = -1 /\ 0 <= k < n /\ fl' = [] /\ Z.of_nat (length fl) < 2 * n)) /\
    Z.of_nat (length fl) <= Z.of_nat (length fl') + 2 * n.

Lemma va_small k : 0 <= k < n -> 0 <= va + k * PGSIZE < MAXVA.
Proof using Hva Hmax. unfold PGSIZE in *. lia. Qed.

Lemma va_page k : (va + k * PGSIZE) / PGSIZE = va / PGSIZE + k.
Proof using. by apply Z.div_add. Qed.

Lemma map_page tot k s1 fl1 u1 u0 :
  map_state k s1 fl1 u1 u0 -> 0 <= k < n -> (tot = true -> 2 <= length fl1)%nat ->
  wpx tot (pte <- walk root (va + k * PGSIZE) true ;;
           if pte =? 0 then ret (inr (-1)) else
           e <- ld64 pte ;;
           if has e PTE_V then panic "mappages: remap" else
           st64 pte (leaf_pte (pa + k * PGSIZE) perm) ;;
           if va + k * PGSIZE =? u64 (va + n * PGSIZE - PGSIZE) then ret (inr 0) else
           ret (inl (u64 (va + k * PGSIZE + PGSIZE), u64 (pa + k * PGSIZE + PGSIZE))))
    (fun r s2 => match r with
       | inr r => map_post r s2
       | inl (a, b) => a = va + (k + 1) * PGSIZE /\ b = pa + (k + 1) * PGSIZE /\ k + 1 < n /\
           exists fl2 w1 w0, map_state (k + 1) s2 fl2 w1 w0
       end) s1.
Proof.
  intros (HV1 & HF1 & HE1 & HL1) Hk Htot. apply wpx_bind.
  eapply wpx_mono; [apply (walk_alloc kalloc tot s1 fl1 root u1 u0); [done|by apply va_small|done]|].
  intros a s2 (fl2 & w1 & w0 & HV2 & HF2 & HE2 & HL2 & Hres). rewrite va_page in Hres.
  pose proof (vframe_trans _ _ _ _ _ _ _ _ _ HF1 HF2) as HF.
  assert (0 <= va / PGSIZE + k < NVPN) as Hw.
  { rewrite <- va_page. by apply va_page_range, va_small. }
  destruct Hres as [(-> & -> & Hshort)|[Hne Ha]].
  - apply wpx_ret. exists k, [], w1, w0. split; [done|]. split; [done|]. split; [|split].
    + intros w Hw'. rewrite HE2. by apply HE1.
    + right. split; [done|]. split; [done|]. split; [done|lia].
    + cbn in *. lia.
  - rewrite (proj2 (Z.eqb_neq a 0)) by done. cbn [negb].
    destruct (pte_addr_ram _ _ _ _ (vm_pt _ _ _ _ _ HV2) _ _ Ha) as [Hram _].
    eapply wpx_bind_ok; [unfold ld64; by rewrite Hram|].
    assert (load64 (k_mem s2) a = ent (k_mem s2) root (va / PGSIZE + k)) as -> by (unfold ent; by rewrite Ha).
    rewrite HE2, HE1 by done. unfold mapped at 1. rewrite decide_False by lia.
    rewrite Hfree by lia.
    eapply wpx_bind_ok; [by eapply set_entry_run|]. set (s3 := set_entry s2 a _).
    assert (vmem s3 fl2 root w1 w0) as HV3 by (by eapply set_entry_vmem).
    pose proof (vframe_trans _ _ _ _ _ _ _ _ _ HF (set_entry_frame _ _ _ _ _ HV2 _ _ Hw Ha
      (leaf_pte (pa + k * PGSIZE) perm))) as HF3. fold s3 in HF3.
    assert (forall w, 0 <= w < NVPN -> ent (k_mem s3) root w =
      mapped (ent (k_mem s) root) (va / PGSIZE) (k + 1) pa perm w) as HE3.
    { intros w Hw'. unfold s3. rewrite (set_entry_ent _ _ _ _ _ HV2 _ _ Hw Ha) by
        (try done; apply leaf_pte_range; unfold PGSIZE in *; try lia; done).
      rewrite HE2, HE1 by done. unfold mapped. case_decide as D1.
      - subst w. rewrite decide_True by lia. f_equal. unfold PGSIZE. lia.
      - destruct (decide (va / PGSIZE <= w < va / PGSIZE + k)).
        + by rewrite decide_True by lia.
        + by rewrite decide_False by lia. }
    assert (0 <= va + n * PGSIZE - PGSIZE < 0x10000000000000000) as Hlast.
    { change MAXVA with 0x4000000000 in Hmax. unfold PGSIZE in *. lia. }
    rewrite (u64_small _ Hlast).
    destruct (Z.eqb_spec (va + k * PGSIZE) (va + n * PGSIZE - PGSIZE)) as [E|E].
    + apply wpx_ret. assert (k + 1 = n) as En by (unfold PGSIZE in *; lia). rewrite En in HE3.
      exists n, fl2, w1, w0. split; [done|]. split; [done|]. split; [done|]. split; [by left|lia].
    + apply wpx_ret. assert (k + 1 < n) as En by (unfold PGSIZE in *; lia).
      change MAXVA with 0x4000000000 in Hmax.
      rewrite !u64_small by (unfold PGSIZE in *; lia).
      split; [unfold PGSIZE; lia|]. split; [unfold PGSIZE; lia|]. split; [done|].
      exists fl2, w1, w0. split; [done|]. split; [done|]. split; [done|lia].
Qed.

(** [mappages] maps all its pages, or stops with -1 when the free list has
    run out, with a prefix of them mapped; it changes no other entry. *)
Lemma mappages_spec tot :
  (tot = true -> 2 * n <= Z.of_nat (length fl)) ->
  wpx tot (mappages root va (n * PGSIZE) pa perm) map_post s.
Proof.
  intros Htot. unfold mappages. rewrite Hal. change (0 =? 0) with true. cbn [negb].
  rewrite Z.mod_mul by done. change (0 =? 0) with true. cbn [negb].
  rewrite (proj2 (Z.eqb_neq (n * PGSIZE) 0)) by (unfold PGSIZE; lia).
  rewrite page_mul_div.
  apply (wpx_iter tot (fun '(a, b) s1 => exists k, 0 <= k < n /\ a = va + k * PGSIZE /\
      b = pa + k * PGSIZE /\ exists fl1 u1 u0, map_state k s1 fl1 u1 u0)
    (fun '(a, _) => Z.to_nat (n - 1 - (a - va) / PGSIZE))).
  - intros [a b] s1 (k & Hk & -> & -> & fl1 & u1 & u0 & HS).
    eapply wpx_mono; [apply (map_page tot k s1 fl1 u1 u0); [done|done|]|].
    + intros E. specialize (Htot E). destruct HS as (_ & _ & _ & HL). lia.
    + intros [[a b]|r] s2; [|done]. intros (-> & -> & Hlt & HS2). split; [exists (k + 1); split; [lia|done]|].
      replace (va + (k + 1) * PGSIZE - va) with ((k + 1) * PGSIZE) by lia.
      replace (va + k * PGSIZE - va) with (k * PGSIZE) by lia. rewrite !page_mul_div. lia.
  - exists 0. split; [lia|]. rewrite !Z.mul_0_l, !Z.add_0_r. split; [done|]. split; [done|].
    exists fl, t1, t0. split; [done|]. split; [apply vframe_refl|]. split; [|lia].
    intros w Hw. unfold mapped. by rewrite decide_False by lia.
  - rewrite Z.sub_diag, Z.div_0_l by done. lia.
Qed.

End mappages.

(** The case of one page. *)
Definition map_one_post (s : kstate) (fl : list Z) (root : Z) (t1 t0 : list Z) (v pa perm : Z)
    (r : Z) (s' : kstate) : Prop :=
  exists fl' t1' t0', vmem s' fl' root t1' t0' /\
    vframe s s' fl fl' (tables root t1 t0) (tables root t1' t0') /\
    Z.of_nat (length fl) <= Z.of_nat (length fl') + 2 /\
    ((r = 0 /\ forall w, 0 <= w < NVPN -> ent (k_mem s') root w =
        if decide (w = v) then leaf_pte pa perm else ent (k_mem s) root w) \/
     (r = -1 /\ fl' = [] /\ Z.of_nat (length fl) < 2 /\
        forall w, 0 <= w < NVPN -> ent (k_mem s') root w = ent (k_mem s) root w)).

Lemma map_one tot s fl root t1 t0 v pa perm :
  vmem s fl root t1 t0 -> 0 <= v < NVPN -> is_page pa -> 0 <= perm < 1024 ->
  has (ent (k_mem s) root v) PTE_V = false -> (tot = true -> 2 <= length fl)%nat ->
  wpx tot (mappages root (v * PGSIZE) PGSIZE pa perm) (map_one_post s fl root t1 t0 v pa perm) s.
Proof.
  intros HV Hv (Hp1 & Hp2 & Hp3) Hperm Hfree Htot. change NVPN with 0x4000000 in Hv.
  change (mappages root (v * PGSIZE) PGSIZE pa perm) with (mappages root (v * PGSIZE) (1 * PGSIZE) pa perm).
  eapply wpx_mono.
  { apply (mappages_spec s fl root t1 t0 HV (v * PGSIZE) 1 pa perm).
    - by apply Z.mod_mul.
    - unfold PGSIZE. lia.
    - lia.
    - change MAXVA with 0x4000000000. unfold PGSIZE. lia.
    - clia.
    - clia.
    - done.
    - intros w. rewrite page_mul_div. intros Hw. by assert (w = v) as -> by lia.
    - intros E. specialize (Htot E). lia. }
  intros r s' (k & fl' & t1' & t0' & H1 & H2 & H3 & H4 & H5). rewrite page_mul_div in H3.
  exists fl', t1', t0'. split; [done|]. split; [done|]. split; [lia|].
  destruct H4 as [(-> & ->)|(-> & Hk & -> & Hs)]; [left|right].
  - split; [done|]. intros w Hw. rewrite H3 by done. unfold mapped.
    destruct (decide (w = v)) as [->|Hne]; [rewrite decide_True by lia|by rewrite decide_False by lia].
    f_equal. lia.
  - split; [done|]. split; [done|]. split; [lia|]. intros w Hw. rewrite H3 by done.
    unfold mapped. by rewrite decide_False by lia.
Qed.

(** Mapping over a valid entry panics. *)
Lemma mappages_remap s fl root t1 t0 va n pa perm :
  vmem s fl root t1 t0 -> va mod PGSIZE = 0 -> 0 <= va < MAXVA -> 0 < n ->
  has (ent (k_mem s) root (va / PGSIZE)) PTE_V = true ->
  mappages root va (n * PGSIZE) pa perm s = Panic "mappages: remap".
Proof.
  intros HV Hal Hva Hn HvV. unfold mappages. rewrite Hal. change (0 =? 0) with true. cbn [negb].
  rewrite Z.mod_mul by done. change (0 =? 0) with true. cbn [negb].
  rewrite (proj2 (Z.eqb_neq (n * PGSIZE) 0)) by (unfold PGSIZE; lia).
  rewrite page_mul_div. replace (Z.to_nat n) with (S (Z.to_nat (n - 1))) by lia. cbn [iter].
  destruct (pte_addr (k_mem s) root (va / PGSIZE)) as [a|] eqn:Ea;
    [|unfold ent in HvV; by rewrite Ea in HvV].
  pose proof (vm_pt _ _ _ _ _ HV) as OK. destruct (pte_addr_ram _ _ _ _ OK _ _ Ea) as [Hram Hne].
  apply bind_panic. run (walk_hit kalloc s root t1 t0 va true a OK Hva Ea).
  rewrite (proj2 (Z.eqb_neq a 0)) by done. unfold bind, ld64. rewrite Hram.
  unfold ent in HvV. rewrite Ea in HvV. by rewrite HvV.
Qed.

(** ** Removing mappings *)

(** [s'] differs from [s] only in the pages [W] and their counts. *)
Record frame (W : list Z) (s s' : kstate) : Prop := {
  fr_only : only_vm s s';
  fr_mem : forall x, (forall p, p ∈ W -> ~ in_page p x) -> k_mem s' x = k_mem s x;
  fr_cnt : forall p, is_page p -> p ∉ W -> count_of s' p = count_of s p
}.

Lemma frame_refl W s : frame W s s.
Proof. split; [apply only_vm_refl|done|done]. Qed.

Lemma frame_trans W s1 s2 s3 : frame W s1 s2 -> frame W s2 s3 -> frame W s1 s3.
Proof.
  intros [A1 B1 C1] [A2 B2 C2]. split.
  - by eapply only_vm_trans.
  - intros x Hx. rewrite B2, B1; done.
  - intros p Hp Hn. rewrite C2, C1; done.
Qed.

Lemma frame_mono W W' s s' : (forall p, p ∈ W -> p ∈ W') -> frame W s s' -> frame W' s s'.
Proof. intros H [A B C]. split; [done|auto|auto]. Qed.

Lemma vframe_frame s s' fl fl' ts ts' : vframe s s' fl fl' ts ts' -> frame (fl ++ ts) s s'.
Proof. intros [A B C M K D E]. split; [done|done|]. intros p Hp Hn. apply E; set_solver. Qed.

(** Only the pages [W] were written; counts are described apart. *)
Definition mframe (W : list Z) (s s' : kstate) : Prop :=
  only_vm s s' /\ forall x, (forall q, q ∈ W -> ~ in_page q x) -> k_mem s' x = k_mem s x.

Lemma mframe_refl W s : mframe W s s.
Proof. split; [apply only_vm_refl|done]. Qed.

Lemma mframe_trans W s1 s2 s3 : mframe W s1 s2 -> mframe W s2 s3 -> mframe W s1 s3.
Proof. intros [A1 B1] [A2 B2]. split; [by eapply only_vm_trans|]. intros x Hx. by rewrite B2, B1. Qed.

Lemma mframe_mono W W' s s' : (forall q, q ∈ W -> q ∈ W') -> mframe W s s' -> mframe W' s s'.
Proof. intros H [A B]. split; [done|]. auto. Qed.

Lemma frame_mframe W s s' : frame W s s' -> mframe W s s'.
Proof. intros [A B C]. by split. Qed.

(** What [kfree] does to a page someone still counts: the free list grows by
    the page exactly when the last reference goes. *)
Lemma kfree_spec s fl pa : alloc_ok s fl -> alloc_locks_free s -> heap_page pa -> 1 <= count_of s pa ->
  exists s', kfree pa s = Ok tt s' /\ frame [pa] s s' /\
    count_of s' pa = count_of s pa - 1 /\
    alloc_ok s' (if decide (count_of s pa = 1) then pa :: fl else fl) /\
    (forall x, 1 < count_of s pa -> k_mem s' x = k_mem s x).
Proof.
  intros Ha Hl Hp Hc. destruct (decide (count_of s pa = 1)) as [E|E].
  - exists (freed pa s). split; [by apply kfree_last|]. split; [|split; [|split]].
    + split.
      * by destruct s.
      * intros x Hx. specialize (Hx pa ltac:(set_solver)). unfold in_page, PGSIZE in Hx.
        transitivity (mem_fill (k_mem s) pa 1 PGSIZE x).
        -- apply store64_outside. lia.
        -- apply mem_fill_outside. unfold PGSIZE. lia.
      * intros q Hq Hn. apply (count_with_count_ne pa q 0 s); [apply Hp|done|set_solver].
    + rewrite E. apply count_with_count.
    + by apply freed_ok.
    + lia.
  - exists (with_count pa (count_of s pa - 1) s). split; [apply kfree_dec; [done|apply Hl|lia]|].
    split; [|split; [|split]].
    + split; [by destruct s|done|]. intros q Hq Hn. apply count_with_count_ne; [apply Hp|done|set_solver].
    + apply count_with_count.
    + apply with_count_ok; [done|apply Hp|eapply free_not_counted; [done|lia]].
    + done.
Qed.

(** A page outside [W] keeps its bytes. *)
Lemma mframe_agree W s s' q : mframe W s s' -> (forall p, p ∈ W -> is_page p) -> is_page q -> q ∉ W ->
  agree_on q PGSIZE (k_mem s) (k_mem s').
Proof.
  intros HF HW Hq Hn x Hx. apply HF. intros p Hp.
  eapply (pages_disjoint q p); [done|by apply HW|by intros ->|done].
Qed.

Lemma frame_page W s s' q : frame W s s' -> (forall p, p ∈ W -> is_page p) -> is_page q -> q ∉ W ->
  agree_on q PGSIZE (k_mem s) (k_mem s').
Proof. intros [HO HM _]. by apply mframe_agree. Qed.

Lemma frame_slot W s s' q i : frame W s s' -> (forall p, p ∈ W -> is_page p) -> is_page q -> q ∉ W ->
  0 <= i < 512 -> load64 (k_mem s') (slot q i) = load64 (k_mem s) (slot q i).
Proof.
  intros HF HW Hq Hn Hi. apply (loadn_ext 8). intros x Hx.
  apply (frame_page W s s' q HF HW Hq Hn). pose proof (slot_in_page q i Hi). simpl in Hx. lia.
Qed.

(** Changes that keep the bytes and counts of the tables keep the address space. *)
Lemma tables_kept s s' fl fl' root t1 t0 :
  vmem s fl root t1 t0 -> only_vm s s' ->
  (forall t, t ∈ tables root t1 t0 ->
     agree_on t PGSIZE (k_mem s) (k_mem s') /\ count_of s' t = count_of s t) ->
  alloc_ok s' fl' ->
  vmem s' fl' root t1 t0 /\
  (forall w, pte_addr (k_mem s') root w = pte_addr (k_mem s) root w) /\
  (forall w, ent (k_mem s') root w = ent (k_mem s) root w).
Proof.
  intros HV Ho Ht Ha. pose proof (vm_pt _ _ _ _ _ HV) as OK.
  assert (forall t i, t ∈ tables root t1 t0 -> 0 <= i < 512 ->
    load64 (k_mem s') (slot t i) = load64 (k_mem s) (slot t i)) as Hsl.
  { intros t i Hin Hi. apply (loadn_ext 8). intros x Hx. apply (proj1 (Ht t Hin)).
    pose proof (slot_in_page t i Hi). simpl in Hx. lia. }
  assert (forall t i, t ∈ root :: t1 -> 0 <= i < 512 ->
    load64 (k_mem s') (slot t i) = load64 (k_mem s) (slot t i)) as Hsl'.
  { intros t i Hin. apply Hsl. unfold tables. set_solver. }
  split; [|split].
  - split; [done|by eapply pt_ok_ext| |].
    + intros t Hin. rewrite (proj2 (Ht t Hin)). by apply HV.
    + eapply only_vm_locks; [done|apply HV].
  - intros w. by eapply pte_addr_ext.
  - intros w. by eapply ent_ext.
Qed.

(** In particular changes outside the tables. *)
Lemma frame_vmem W s s' fl fl' root t1 t0 :
  vmem s fl root t1 t0 -> frame W s s' -> (forall p, p ∈ W -> is_page p) ->
  (forall p, p ∈ W -> p ∉ tables root t1 t0) -> alloc_ok s' fl' ->
  vmem s' fl' root t1 t0 /\
  (forall w, pte_addr (k_mem s') root w = pte_addr (k_mem s) root w) /\
  (forall w, ent (k_mem s') root w = ent (k_mem s) root w).
Proof.
  intros HV HF HW Hd Ha. eapply tables_kept; [done|apply HF| |done].
  intros t Ht. pose proof (vmem_table_page _ _ _ _ _ t HV Ht) as [Hp _].
  assert (t ∉ W) as Hn by (intros Hin; by apply (Hd t)).
  split; [by apply (frame_page W)|by apply (fr_cnt _ _ _ HF)].
Qed.

(** ** States that differ outside the memory *)

Record vm_same (s s' : kstate) : Prop := {
  vs_mem : k_mem s' = k_mem s;
  vs_free : k_freelist s' = k_freelist s;
  vs_ref : k_refcount s' = k_refcount s
}.

Lemma vm_same_count s s' q : vm_same s s' -> count_of s' q = count_of s q.
Proof. intros [_ _ E]. unfold count_of. by rewrite E. Qed.

Lemma same_alloc s s' fl : vm_same s s' -> alloc_ok s fl -> alloc_ok s' fl.
Proof.
  intros E [A B C D]. pose proof E as [Em Ef Er]. split; [by rewrite Em, Ef|done|done|]. eapply Forall_impl; [exact D|]. intros q Hq. cbn.
  unfold count_of in *. by rewrite Er.
Qed.

Lemma same_vmem s s' fl root t1 t0 : vm_same s s' -> alloc_locks_free s' -> vmem s fl root t1 t0 -> vmem s' fl root t1 t0.
Proof.
  intros E Hl [A B C D]. split; [by apply (same_alloc s)|by rewrite (vs_mem _ _ E)| |done]. intros t Ht. rewrite (vm_same_count _ _ t E). by apply C.
Qed.

Lemma set_swap_same s : k_set_swap (k_swap s) s = s.
Proof. by destruct s. Qed.

Lemma mframe_swap W s s' w : mframe W s (k_set_swap (k_swap s) s') -> mframe W (k_set_swap w s) (k_set_swap w s').
Proof. intros [Ho Hm]. split; [|done]. unfold only_vm in *. destruct s, s'. injection Ho. intros. by subst. Qed.

(** ** Giving swap blocks back *)

Definition give_blocks (w : swapst) (bs : list Z) : swapst := foldl (fun w b => give_block b w) w bs.

Lemma give_blocks_bit bs w j : 0 <= j -> Forall (fun b => 0 <= b) bs ->
  swap_bit (give_blocks w bs) j = if decide (j ∈ bs) then false else swap_bit w j.
Proof.
  intros Hj. revert w. induction bs as [|b bs IH]; intros w Hb; [done|]. apply Forall_cons in Hb as [Hb0 Hb].
  change (give_blocks w (b :: bs)) with (give_blocks (give_block b w) bs). rewrite IH by done.
  destruct (decide (j ∈ bs)) as [D|D]; [by rewrite decide_True by (by right)|]. rewrite swap_bit_give by lia.
  destruct (decide (j = b)) as [->|Hne]; [by rewrite decide_True by left|]. rewrite decide_False; [done|]. intros [?|?]%elem_of_cons; done.
Qed.

(** The blocks [bs] are in use, each of them listed once. *)
Definition blocks_used (s : kstate) (bs : list Z) : Prop :=
  NoDup bs /\ forall b, b ∈ bs -> 0 <= b < SWAP_MAX_BLOCKS /\ swap_bit (k_swap s) b = true /\ (L_swap ∉ k_held s).

Lemma give_blocks_ok s bs : blocks_used s bs -> swap_ok (k_swap s) -> swap_ok (give_blocks (k_swap s) bs).
Proof.
  intros [Hnd Hb]. assert (forall b, b ∈ bs -> 0 <= b < SWAP_MAX_BLOCKS /\ swap_bit (k_swap s) b = true) as Hb' by (intros b Hin; destruct (Hb b Hin) as (? & ? & _); done).
  clear Hb. revert Hb'. generalize (k_swap s). induction bs as [|b bs IH]; intros w Hb Hw; [done|]. apply NoDup_cons in Hnd as [Hn Hnd].
  destruct (Hb b ltac:(left)) as [Hr Hbit]. apply (IH Hnd (give_block b w)); [|by apply give_block_ok].
  intros c Hc. destruct (Hb c ltac:(by right)) as [Hr' Hbit']. split; [done|]. rewrite swap_bit_give by lia. rewrite decide_False; [done|]. by intros ->.
Qed.

Section unmap.
Context (s : kstate) (fl : list Z) (root : Z) (t1 t0 : list Z) (HV : vmem s fl root t1 t0).
Context (v : Z) (do_free : bool) (Hv : 0 <= v < NVPN).
Let f := ent (k_mem s) root.
Let e := f v.

(** The references the removal gives back, and the swap blocks. *)
Definition dropped (p : Z) : Z := if do_free && resident e && (PTE2PA e =? p) then 1 else 0.
Definition gone : list Z := if do_free then swap_list f [v] else [].

Definition unmap_post (s' : kstate) (fl' : list Z) : Prop :=
  vmem s' fl' root t1 t0 /\
  mframe (fl' ++ tables root t1 t0) s (k_set_swap (k_swap s) s') /\
  (forall w, 0 <= w < NVPN -> ent (k_mem s') root w = cleared f v 1 w) /\
  (forall p, is_page p -> count_of s' p = count_of s p - dropped p) /\
  (forall p, p ∈ fl' <-> p ∈ fl \/ (dropped p = 1 /\ count_of s' p = 0)) /\
  k_swap s' = give_blocks (k_swap s) gone.

Lemma gone_nil : has e PTE_SWAPPED = false -> gone = [].
Proof. intros He. unfold gone. rewrite swap_list_nil; [by destruct do_free|]. by intros w ->%list_elem_of_singleton. Qed.

Lemma unmap_unused : in_use e = false -> unmap_post s fl.
Proof.
  intros He. pose proof He as [HeV HeS]%orb_false_iff. assert (forall p, dropped p = 0) as Hd.
  { intros p. unfold dropped, resident. rewrite HeV. by rewrite andb_false_r. }
  split; [done|]. split; [rewrite set_swap_same; apply mframe_refl|]. split; [|split; [|split]].
  - intros w Hw. unfold cleared. destruct (decide (v <= w < v + 1)); [|done].
    assert (w = v) as -> by lia. fold e. by rewrite He.
  - intros p Hp. rewrite Hd. lia.
  - intros p. rewrite Hd. naive_solver.
  - by rewrite gone_nil.
Qed.

(** The end of the removal: the entry is cleared. *)
Lemma unmap_clear a s1 fl1 : pte_addr (k_mem s1) root v = Some a -> in_use e = true -> vmem s1 fl1 root t1 t0 ->
  mframe (fl1 ++ tables root t1 t0) s (k_set_swap (k_swap s) s1) ->
  (forall w, ent (k_mem s1) root w = f w) ->
  (forall p, is_page p -> count_of s1 p = count_of s p - dropped p) ->
  (forall p, p ∈ fl1 <-> p ∈ fl \/ (dropped p = 1 /\ count_of s1 p = 0)) -> k_swap s1 = give_blocks (k_swap s) gone ->
  exists s' fl', st64 a 0 s1 = Ok tt s' /\ unmap_post s' fl'.
Proof using Hv.
  intros Ha1 He HV1 HF1 HE1 HC1 Hfl1 Hsw1. exists (set_entry s1 a 0), fl1.
  split; [by eapply set_entry_run|]. split; [by eapply set_entry_vmem|]. split; [|split; [|done]].
  - eapply mframe_trans; [exact HF1|]. split; [exact (only_vm_mem (k_set_swap (k_swap s) s1) (k_mem (set_entry s1 a 0)))|].
    intros x Hx. eapply (set_entry_mem s1); [done|done|done|]. intros q Hq. apply Hx. ielem.
  - intros w Hw. rewrite (set_entry_ent s1 fl1 root t1 t0 HV1 v a Hv Ha1) by (done || lia). rewrite HE1. unfold cleared.
    destruct (decide (w = v)) as [->|Hne].
    + rewrite decide_True by lia. fold e. by rewrite He.
    + by rewrite decide_False by lia.
Qed.

Context (Hblk : do_free = true -> blocks_used s (swap_list f [v])).
Context (Hleaf : resident e = true -> do_free = true ->
  heap_page (PTE2PA e) /\ (PTE2PA e ∉ tables root t1 t0) /\ 1 <= count_of s (PTE2PA e)).

(** A page in memory is freed. *)
Lemma unmap_resident a : pte_addr (k_mem s) root v = Some a -> do_free = true -> resident e = true ->
  exists s' fl', (kfree (PTE2PA e) ;; st64 a 0) s = Ok tt s' /\ unmap_post s' fl'.
Proof.
  intros Ea Hdf He. pose proof He as [HeV HeS%negb_true_iff]%andb_true_iff. destruct (Hleaf He Hdf) as (Hp & Hnt & Hc).
  destruct (kfree_spec s fl (PTE2PA e)) as (s1 & Hk & HF & Hc1 & Ha1 & Hm1); [apply HV|apply HV|done|done|].
  destruct (frame_vmem [PTE2PA e] s s1 fl (if decide (count_of s (PTE2PA e) = 1) then PTE2PA e :: fl else fl)
    root t1 t0 HV HF) as (HV1 & Hpa1 & HE1);
    [intros p ->%list_elem_of_singleton; apply Hp|set_solver|done|].
  assert (k_swap s1 = k_swap s) as Hs1 by (pose proof (fr_only _ _ _ HF) as Ho; unfold only_vm in Ho; by rewrite <- Ho).
  run Hk. eapply unmap_clear; [by rewrite Hpa1|unfold in_use; by rewrite HeV|done| |done| | |by rewrite gone_nil].
  - rewrite <- Hs1. assert (k_set_swap (k_swap s1) s1 = s1) as -> by (by destruct s1). case_decide.
    + eapply mframe_mono; [|by eapply frame_mframe]. intros q ->%list_elem_of_singleton. ielem.
    + split; [apply HF|]. intros x _. apply Hm1. lia.
  - intros p Hpp. unfold dropped. rewrite He, Hdf. cbn [andb].
    destruct (Z.eqb_spec (PTE2PA e) p) as [<-|Hne]; [done|].
    rewrite (fr_cnt _ _ _ HF); [lia|done|set_solver].
  - intros p. unfold dropped. rewrite He, Hdf. cbn [andb].
    destruct (Z.eqb_spec (PTE2PA e) p) as [<-|Hne].
    + rewrite Hc1. case_decide; [set_solver by lia|].
      split; [by left|]. intros [?|[_ ?]]; [done|lia].
    + case_decide; set_solver.
Qed.

(** A page in the swap area gives its block back. *)
Lemma unmap_swapped a : pte_addr (k_mem s) root v = Some a -> do_free = true -> has e PTE_SWAPPED = true ->
  exists s' fl', (swapfree (pte_to_swapblock e) ;; st64 a 0) s = Ok tt s' /\ unmap_post s' fl'.
Proof.
  intros Ea Hdf He. assert (swap_list f [v] = [pte_to_swapblock e]) as El by (unfold swap_list; cbn; fold e; by rewrite He).
  destruct (Hblk Hdf) as [_ Hb]. rewrite El in Hb. destruct (Hb (pte_to_swapblock e) ltac:(left)) as (Hr & Hbit & Hl).
  run (swapfree_ok s _ Hl Hr Hbit). set (s1 := on_swap _ s). assert (vm_same s s1) as Hsame by done.
  assert (forall p, dropped p = 0) as Hd by (intros p; unfold dropped, resident; by rewrite He, !andb_false_r).
  eapply (unmap_clear a s1 fl); [done|unfold in_use; by rewrite He, orb_true_r|apply (same_vmem s); [done|apply HV|done]| |done| | |].
  - change (k_set_swap (k_swap s) s1) with (k_set_swap (k_swap s) s). rewrite set_swap_same. apply mframe_refl.
  - intros p Hp. rewrite Hd, (vm_same_count s s1) by done. lia.
  - intros p. rewrite Hd. naive_solver.
  - unfold gone. by rewrite Hdf, El.
Qed.

Lemma unmap_page_ok : exists s' fl', unmap_page root (v * PGSIZE) do_free s = Ok tt s' /\ unmap_post s' fl'.
Proof.
  unfold unmap_page. rewrite (walk_ld64 s fl root t1 t0 HV) by (by apply page_number_range).
  rewrite page_mul_div. fold f e.
  destruct (pte_addr (k_mem s) root v) as [a|] eqn:Ea.
  2:{ exists s, fl. split; [done|]. apply unmap_unused. unfold e, f, ent. by rewrite Ea. }
  rewrite <- negb_orb. fold (in_use e). destruct (in_use e) eqn:He; cbn [negb].
  2:{ exists s, fl. split; [done|]. by apply unmap_unused. }
  destruct (Sumbool.sumbool_of_bool do_free) as [Hdf|Hdf]; rewrite Hdf.
  - destruct (has e PTE_SWAPPED) eqn:HeS; [by apply unmap_swapped|]. pose proof He as HeV. rewrite in_use_valid in HeV by done. rewrite HeV.
    apply unmap_resident; [done|done|]. by rewrite resident_valid.
  - eapply (unmap_clear a s fl); [done|done|done|rewrite set_swap_same; apply mframe_refl|done| | |].
    + intros p Hpp. unfold dropped. rewrite Hdf. cbn [andb]. lia.
    + intros p. unfold dropped. rewrite Hdf. cbn [andb]. naive_solver.
    + unfold gone. by rewrite Hdf.
Qed.

End unmap.

(** ** [uvmunmap] *)

Section uvmunmap.
Context (s : kstate) (fl : list Z) (root : Z) (t1 t0 : list Z) (HV : vmem s fl root t1 t0).
Context (v0 n : Z) (do_free : bool) (Hv0 : 0 <= v0) (Hn : 0 <= n) (Hmax : v0 + n <= NVPN).
Let f := ent (k_mem s) root.

(** The references given back by the first [j] pages, and the swap blocks. *)
Definition drops (j p : Z) : Z := if do_free then leaf_refs f (seqZ v0 j) p else 0.
Definition swap_drops (j : Z) : list Z := if do_free then swap_list f (seqZ v0 j) else [].

Definition unmapped (j : Z) (s' : kstate) (fl' : list Z) : Prop :=
  vmem s' fl' root t1 t0 /\
  mframe (fl' ++ tables root t1 t0) s (k_set_swap (k_swap s) s') /\
  (forall w, 0 <= w < NVPN -> ent (k_mem s') root w = cleared f v0 j w) /\
  (forall p, is_page p -> count_of s' p = count_of s p - drops j p) /\
  (forall p, is_page p -> p ∈ fl' <-> p ∈ fl \/ (0 < drops j p /\ count_of s' p = 0)) /\
  k_swap s' = give_blocks (k_swap s) (swap_drops j).

Lemma drops_step j p : 0 <= j ->
  drops (j + 1) p = drops j p +
    if do_free && resident (f (v0 + j)) && (PTE2PA (f (v0 + j)) =? p) then 1 else 0.
Proof. intros Hj. unfold drops. destruct do_free; [by apply leaf_refs_next|done]. Qed.

Lemma drops_le j p : 0 <= j <= n -> drops j p <= drops n p.
Proof. unfold drops. destruct do_free; [apply leaf_refs_prefix|done]. Qed.

Lemma drops_nonneg j p : 0 <= drops j p.
Proof. unfold drops. destruct do_free; [apply leaf_refs_nonneg|done]. Qed.

Context (Hblk : do_free = true -> blocks_used s (swap_list f (seqZ v0 n))).
Context (Hleaf : forall w, v0 <= w < v0 + n -> resident (f w) = true -> do_free = true ->
  heap_page (PTE2PA (f w)) /\ (PTE2PA (f w) ∉ tables root t1 t0)).
Context (Hrefs : forall p, heap_page p -> 0 < drops n p -> drops n p <= count_of s p).

(** The block of the next entry has not been given back yet. *)
Lemma next_block_used j s1 : 0 <= j < n -> do_free = true -> k_swap s1 = give_blocks (k_swap s) (swap_drops j) -> k_held s1 = k_held s ->
  blocks_used s1 (swap_list f [v0 + j]).
Proof using Hblk.
  intros Hj Hdf Esw Eh. destruct (Hblk Hdf) as [Hnd Hb]. destruct (swap_list_prefix f v0 (j + 1) n ltac:(lia)) as [l El].
  rewrite El, swap_list_next in Hnd, Hb by lia. apply NoDup_app in Hnd as (Hnd & _ & _). apply NoDup_app in Hnd as (_ & Hapart & Hnd).
  split; [done|]. intros b Hin. destruct (Hb b) as (Hr & Hbit & Hl); [rewrite !elem_of_app; auto|]. split; [done|]. rewrite Eh. split; [|done].
  rewrite Esw. unfold swap_drops. rewrite Hdf, give_blocks_bit; [|lia|apply Forall_forall; intros c Hc; destruct (Hb c) as (? & _); [rewrite !elem_of_app; auto|lia]].
  rewrite decide_False; [done|]. intros Hin'. by apply (Hapart b).
Qed.

Lemma unmapped_step j s1 fl1 : unmapped j s1 fl1 -> 0 <= j < n ->
  exists s2 fl2, unmap_page root ((v0 + j) * PGSIZE) do_free s1 = Ok tt s2 /\ unmapped (j + 1) s2 fl2.
Proof.
  intros (HV1 & HF1 & HE1 & HC1 & Hfl1 & Hs1) Hj.
  assert (0 <= v0 + j < NVPN) as Hw by lia.
  assert (ent (k_mem s1) root (v0 + j) = f (v0 + j)) as He.
  { rewrite HE1 by done. unfold cleared. by rewrite decide_False by lia. }
  assert (swap_list (ent (k_mem s1) root) [v0 + j] = swap_list f [v0 + j]) as Hsl by (unfold swap_list; cbn; by rewrite He).
  assert (forall p, heap_page p -> do_free && resident (f (v0 + j)) && (PTE2PA (f (v0 + j)) =? p) = true ->
    1 <= count_of s1 p) as Hpos.
  { intros p Hp Hd. rewrite HC1 by apply Hp. pose proof (Hrefs p Hp). pose proof (drops_le (j + 1) p ltac:(lia)).
    pose proof (drops_nonneg j p). rewrite drops_step, Hd in * by lia. lia. }
  destruct (unmap_page_ok s1 fl1 root t1 t0 HV1 (v0 + j) do_free Hw) as (s2 & fl2 & Hrun & HV2 & HF2 & HE2 & HC2 & Hfl2 & Hs2).
  { intros Hdf. rewrite Hsl. apply next_block_used; [done|done|done|].
    pose proof (proj1 HF1) as Ho. unfold only_vm in Ho. by rewrite <- Ho. }
  { rewrite He. intros H1 H2. destruct (Hleaf (v0 + j) ltac:(lia) H1 H2) as [H3 H4].
    split; [done|]. split; [done|]. apply Hpos; [done|]. rewrite H1, H2. cbn. apply Z.eqb_refl. }
  exists s2, fl2. split; [done|]. unfold dropped in *. rewrite He in *. split; [done|].
  split; [|split; [|split; [|split]]].
  - eapply mframe_trans; [eapply mframe_mono; [|exact HF1]|by apply mframe_swap]. intros p Hp. ielem. left.
    apply Hfl2. by left.
  - intros w Hw'. rewrite HE2 by done. unfold cleared. rewrite HE1 by done. unfold cleared.
    destruct (decide (v0 + j <= w < v0 + j + 1)) as [D|D].
    + rewrite (decide_False (P := v0 <= w < v0 + j)), (decide_True (P := v0 <= w < v0 + (j + 1))) by lia. done.
    + destruct (decide (v0 <= w < v0 + j)).
      * by rewrite decide_True by lia.
      * by rewrite decide_False by lia.
  - intros p Hp. rewrite HC2, HC1, drops_step by (done || lia). lia.
  - intros p Hp. rewrite Hfl2, Hfl1 by done. rewrite HC2, drops_step by (done || lia).
    pose proof (drops_nonneg j p). destruct (do_free && _ && _) eqn:Ed.
    + assert (heap_page p) as Hhp.
      { apply andb_true_iff in Ed as [[E1 E2]%andb_true_iff <-%Z.eqb_eq]. by apply Hleaf; [lia|..]. }
      specialize (Hpos p Hhp Ed). split.
      * intros [[?|[? ?]]|[_ ?]]; [by left|lia|right; lia].
      * intros [?|[_ ?]]; [by left; left|right; split; [done|lia]].
    + rewrite Z.add_0_r, Z.sub_0_r. split.
      * intros [[?|?]|[? _]]; [by left|by right|done].
      * intros [?|?]; [by left; left|by left; right].
  - rewrite Hs2, Hs1. unfold gone, swap_drops. rewrite Hsl. destruct do_free; [|done]. rewrite swap_list_next by lia. unfold give_blocks. by rewrite foldl_app.
Qed.

(** [uvmunmap] clears the entries of its range that are in use and no others,
    gives back one reference per resident entry and the block of every swapped
    one when asked to, and the pages whose last reference went are exactly the
    ones added to the free list. *)
Lemma uvmunmap_any : exists s' fl', uvmunmap root (v0 * PGSIZE) n do_free s = Ok tt s' /\ unmapped n s' fl'.
Proof.
  unfold uvmunmap. rewrite Z.mod_mul by done. change (0 =? 0) with true. cbn [negb].
  change NVPN with 0x4000000 in Hmax.
  assert (u64 (v0 * PGSIZE + u64 (n * PGSIZE)) = (v0 + n) * PGSIZE) as ->.
  { rewrite u64_add_r, u64_small; unfold PGSIZE; lia. }
  apply wpx_total_unit.
  apply (wpx_iter true (fun a s1 => exists j fl1, 0 <= j <= n /\ a = (v0 + j) * PGSIZE /\ unmapped j s1 fl1)
    (fun a => Z.to_nat (v0 + n - a / PGSIZE))).
  - intros a s1 (j & fl1 & Hj & -> & HU). destruct (Z.ltb_spec ((v0 + j) * PGSIZE) ((v0 + n) * PGSIZE)) as [Hlt|Hge].
    + assert (j < n) as Hjn by (unfold PGSIZE in *; lia).
      destruct (unmapped_step j s1 fl1 HU ltac:(lia)) as (s2 & fl2 & Hrun & HU2).
      eapply wpx_bind_ok; [done|]. apply wpx_ret. rewrite u64_small by (unfold PGSIZE in *; lia).
      replace ((v0 + j) * PGSIZE + PGSIZE) with ((v0 + (j + 1)) * PGSIZE) by (unfold PGSIZE; lia).
      split; [exists (j + 1), fl2; split; [lia|done]|]. rewrite !page_mul_div. lia.
    + apply wpx_ret. assert (j = n) as -> by (unfold PGSIZE in *; lia). by exists fl1.
  - exists 0, fl. rewrite Z.add_0_r. split; [lia|]. split; [done|]. split; [done|].
    split; [rewrite set_swap_same; apply mframe_refl|]. assert (forall p, drops 0 p = 0) as Hd by (intros p; unfold drops; by destruct do_free).
    split; [|split; [|split]].
    + intros w Hw. unfold cleared. by rewrite decide_False by lia.
    + intros p Hp. rewrite Hd. lia.
    + intros p Hp. rewrite Hd. naive_solver lia.
    + unfold swap_drops. by destruct do_free.
  - rewrite page_mul_div. lia.
Qed.

End uvmunmap.

(** A range without swapped pages leaves the swap area alone. *)
Lemma uvmunmap_ok s fl root t1 t0 (HV : vmem s fl root t1 t0) v0 n do_free (f := ent (k_mem s) root) : 0 <= v0 -> 0 <= n -> v0 + n <= NVPN ->
  (forall w, v0 <= w < v0 + n -> has (f w) PTE_SWAPPED = false) ->
  (forall w, v0 <= w < v0 + n -> has (f w) PTE_V = true -> do_free = true -> heap_page (PTE2PA (f w)) /\ (PTE2PA (f w) ∉ tables root t1 t0)) ->
  (forall p, heap_page p -> 0 < drops s root v0 do_free n p -> drops s root v0 do_free n p <= count_of s p) ->
  exists s' fl', uvmunmap root (v0 * PGSIZE) n do_free s = Ok tt s' /\ vmem s' fl' root t1 t0 /\ mframe (fl' ++ tables root t1 t0) s s' /\
    (forall w, 0 <= w < NVPN -> ent (k_mem s') root w = cleared f v0 n w) /\
    (forall p, is_page p -> count_of s' p = count_of s p - drops s root v0 do_free n p) /\
    (forall p, is_page p -> p ∈ fl' <-> p ∈ fl \/ (0 < drops s root v0 do_free n p /\ count_of s' p = 0)).
Proof.
  intros Hv0 Hn Hmax Hsw Hleaf Hrefs.
  assert (swap_list f (seqZ v0 n) = []) as Hnil by (apply swap_list_nil; intros w Hw%elem_of_seqZ; by apply Hsw).
  destruct (uvmunmap_any s fl root t1 t0 HV v0 n do_free Hv0 Hn Hmax) as (s' & fl' & R & HV' & HM & HE & HC & Hfl & Hs).
  - intros _. unfold f in Hnil. rewrite Hnil. split; [apply NoDup_nil_2|by intros b ?%elem_of_nil].
  - intros w Hw. rewrite resident_valid by (by apply Hsw). by apply Hleaf.
  - done.
  - exists s', fl'. split; [done|]. split; [done|]. split; [|done]. unfold swap_drops in Hs. fold f in Hs. rewrite Hnil in Hs.
    assert (k_swap s' = k_swap s) as E by (rewrite Hs; by destruct do_free). rewrite <- E in HM. by destruct s'.
Qed.

End VmMap.
