(* ===== verification/VmAlloc.v ===== *)
(** * Growing and shrinking a process (kernel/vm.c)

    [uvmcreate], [uvmalloc] and [uvmdealloc].  [uvmalloc] maps fresh zeroed
    pages of its own; when memory runs out it undoes exactly what it did. *)

From S2P Require Import Prelude Riscv Mem KState Memstats Sched Bio PhysMem Kalloc Swap Vm.
From S2P Require Import PageTable Walk VmMap.

(** ** Definitions *)

(** Pages between two sizes. *)
Definition pages_between (lo hi : Z) : Z := PGROUNDUP hi / PGSIZE - PGROUNDUP lo / PGSIZE.

Definition zero_page (m : mem) (p : Z) : Prop := forall x, in_page p x -> load8 m x = 0.

Section VmAlloc.
Context {LAY : Layout} {ENV : Env}.

(** ** One fresh page *)

(** The state after [kalloc] returned [pg] and it was cleared. *)
Definition fresh (pg : Z) (s : kstate) : kstate :=
  k_set_mem (mem_fill (k_mem (allocated pg s)) pg 0 PGSIZE) (allocated pg s).

Lemma allocated_frame pg s : is_page pg -> frame [pg] s (allocated pg s).
Proof.
  intros Hp. split.
  - by destruct s.
  - intros x Hx. apply mem_fill_outside. apply (Hx pg). set_solver.
  - intros q Hq Hn. apply (count_with_count_ne pg q 1 s); [done|done|set_solver].
Qed.

(** ... and [pg] filled with anything. *)
Lemma filled_frame pg s m' : is_page pg -> same_outside pg PGSIZE (k_mem (allocated pg s)) m' ->
  frame [pg] s (k_set_mem m' (allocated pg s)).
Proof.
  intros Hp Hm. eapply frame_trans; [by apply allocated_frame|]. split; [apply only_vm_mem| |done].
  intros x Hx. apply Hm. apply (Hx pg). ielem.
Qed.

Lemma fresh_frame pg s : is_page pg -> frame [pg] s (fresh pg s).
Proof. intros Hp. apply filled_frame; [done|apply mem_fill_outside]. Qed.

Lemma fresh_count pg s : count_of (fresh pg s) pg = 1.
Proof. apply count_with_count. Qed.

Lemma fresh_zero pg s : zero_page (k_mem (fresh pg s)) pg.
Proof. intros x Hx. unfold load8, fresh. cbn [k_mem k_set_mem]. unfold mem_fill. by rewrite in_range_true. Qed.

Section one.
Context (s : kstate) (pg : Z) (fl : list Z) (root : Z) (t1 t0 : list Z).
Context (HV : vmem s (pg :: fl) root t1 t0).

Lemma pg_heap : heap_page pg.
Proof. eapply free_is_heap; [apply HV|set_solver]. Qed.

Lemma pg_not_fl : pg ∉ fl.
Proof. pose proof (ao_nodup _ _ (vm_alloc _ _ _ _ _ HV)) as H. by apply NoDup_cons in H as [H _]. Qed.

Lemma pg_not_table : pg ∉ tables root t1 t0.
Proof. intros H. eapply vmem_not_free; [done|done|set_solver]. Qed.

Lemma kalloc_vmem : kalloc s = Ok pg (allocated pg s).
Proof. eapply (alloc_head s pg fl); apply HV. Qed.

Lemma filled_vmem m' (s' := k_set_mem m' (allocated pg s)) :
  same_outside pg PGSIZE (k_mem (allocated pg s)) m' ->
  vmem s' fl root t1 t0 /\
  (forall w, pte_addr (k_mem s') root w = pte_addr (k_mem s) root w) /\
  (forall w, ent (k_mem s') root w = ent (k_mem s) root w).
Proof.
  intros Hm. pose proof pg_heap as [Hp _]. eapply (frame_vmem [pg]); [done|by apply filled_frame| | |].
  - by intros p ->%list_elem_of_singleton.
  - intros p ->%list_elem_of_singleton. apply pg_not_table.
  - eapply alloc_ok_frame; [apply allocated_ok, HV|done| |done].
    intros q Hq. eapply (frame_page [pg]).
    + split; [apply only_vm_mem| |done]. intros x Hx. apply Hm. apply (Hx pg). ielem.
    + by intros p ->%list_elem_of_singleton.
    + eapply free_is_heap; [apply HV|ielem].
    + intros ->%list_elem_of_singleton. by apply pg_not_fl.
Qed.

Lemma fresh_vmem : vmem (fresh pg s) fl root t1 t0 /\
  (forall w, pte_addr (k_mem (fresh pg s)) root w = pte_addr (k_mem s) root w) /\
  (forall w, ent (k_mem (fresh pg s)) root w = ent (k_mem s) root w).
Proof. apply filled_vmem, mem_fill_outside. Qed.

Lemma fresh_run {A} (k0 : K A) (k : Z -> K A) :
  (mem <- kalloc ;; if mem =? 0 then k0 else kmemset mem 0 PGSIZE ;; k mem) s = k pg (fresh pg s).
Proof.
  pose proof pg_heap as Hp. run kalloc_vmem.
  rewrite (proj2 (Z.eqb_neq pg 0)) by (pose proof (heap_page_range pg Hp); lia).
  unfold bind, kmemset. by rewrite page_in_ram by apply Hp.
Qed.

End one.

(** Without a free page [kalloc] can only fail, and then changes nothing. *)
Lemma kalloc_empty_wpx {A} s root t1 t0 (k : Z -> K A) (Q : A -> kstate -> Prop) :
  vmem s [] root t1 t0 -> wpx false (k 0) Q s -> wpx false (mem <- kalloc ;; k mem) Q s.
Proof.
  intros HV Hk. apply wpx_bind. unfold wpx at 1. destruct (kalloc s) as [r s'| | |] eqn:E; [|done..].
  destruct (alloc_none s r s') as [-> ->]; [apply HV|done|done].
Qed.

(** ** [uvmdealloc] *)

Lemma pages_between_bounds lo hi : 0 <= lo <= hi -> hi <= MAXVA ->
  0 <= pages_between lo hi /\ 0 <= PGROUNDUP lo / PGSIZE /\
  PGROUNDUP lo / PGSIZE + pages_between lo hi <= NVPN.
Proof.
  intros H1 H2. unfold pages_between. change MAXVA with 0x4000000000 in H2. change NVPN with 0x4000000.
  rewrite !PGROUNDUP_eq by lia. unfold PGSIZE. zlia.
Qed.

Lemma uvmunmap_none root va b s : va mod PGSIZE = 0 -> 0 <= va < 0x10000000000000000 ->
  uvmunmap root va 0 b s = Ok tt s.
Proof.
  intros Hal Hr. unfold uvmunmap. rewrite Hal. cbn [Z.eqb negb Z.to_nat Nat.add iter].
  rewrite Z.mul_0_l. change (u64 0) with 0. rewrite Z.add_0_r, u64_small by done.
  change (Z.to_nat 0 + 1)%nat with 1%nat. cbn [iter]. unfold bind. by rewrite Z.ltb_irrefl.
Qed.

Lemma uvmdealloc_run root oldsz newsz s : 0 <= newsz < oldsz -> oldsz <= MAXVA ->
  uvmdealloc root oldsz newsz s =
    (uvmunmap root (PGROUNDUP newsz / PGSIZE * PGSIZE) (pages_between newsz oldsz) true ;; ret newsz) s.
Proof.
  intros H1 H2. unfold uvmdealloc. rewrite Z.geb_leb, (proj2 (Z.leb_gt oldsz newsz)) by lia.
  pose proof (pages_between_bounds newsz oldsz ltac:(lia) H2) as (Hb & Hb0 & Hb').
  change MAXVA with 0x4000000000 in H2. change NVPN with 0x4000000 in Hb'.
  rewrite <- (page_number (PGROUNDUP newsz)) by (apply PGROUNDUP_aligned; lia).
  destruct (Z.ltb_spec (PGROUNDUP newsz) (PGROUNDUP oldsz)) as [Hlt|Hge].
  - assert ((PGROUNDUP oldsz - PGROUNDUP newsz) / PGSIZE = pages_between newsz oldsz) as ->.
    { unfold pages_between in *. pose proof (PGROUNDUP_aligned newsz ltac:(lia)).
      pose proof (PGROUNDUP_aligned oldsz ltac:(lia)). unfold PGSIZE in *. zlia. }
    rewrite s32_small by (unfold PGSIZE in *; lia). by rewrite u64_small by lia.
  - assert (pages_between newsz oldsz = 0) as -> by (unfold pages_between, PGSIZE in *; zlia).
    run (uvmunmap_none root (PGROUNDUP newsz) true s (PGROUNDUP_aligned newsz ltac:(lia))
      ltac:(pose proof (PGROUNDUP_bounds newsz); unfold PGSIZE in *; lia)). done.
Qed.

(** ** [uvmalloc] *)

(** The references to [p] from pages mapped to the frames [ps]. *)
Lemma leaf_refs_list g v0 ps perm p :
  (forall i q, ps !! i = Some q -> g (v0 + Z.of_nat i) = leaf_pte q perm) ->
  (forall q, q ∈ ps -> is_page q) -> NoDup ps -> 0 <= perm < 512 ->
  leaf_refs g (seqZ v0 (Z.of_nat (length ps))) p = if decide (p ∈ ps) then 1 else 0.
Proof.
  revert v0. induction ps as [|q ps IH]; intros v0 Hg Hp Hn Hperm; [done|].
  apply NoDup_cons in Hn as [Hq Hn].
  rewrite seqZ_cons by (cbn; lia). replace (Z.pred (Z.of_nat (length (q :: ps)))) with (Z.of_nat (length ps)) by (cbn; lia).
  unfold leaf_refs in *. cbn [sumZ]. rewrite IH; [|..|done|done].
  - pose proof (Hg 0%nat q eq_refl) as Hg0. cbn in Hg0. rewrite Z.add_0_r in Hg0.
    rewrite Hg0, resident_valid, leaf_pte_V by (by apply leaf_pte_here).
    destruct (Hp q ltac:(set_solver)) as (H1 & H2 & H3).
    rewrite leaf_pte_PA by (lia || done || clia). cbn [andb].
    destruct (Z.eqb_spec q p) as [->|Hne].
    + rewrite (decide_False (P := p ∈ ps)), decide_True by set_solver. done.
    + destruct (decide (p ∈ ps)); [by rewrite decide_True by set_solver|by rewrite decide_False by set_solver].
  - intros i r Hr. replace (Z.succ v0 + Z.of_nat i) with (v0 + Z.of_nat (S i)) by lia. by apply Hg.
  - set_solver.
Qed.

Section uvmalloc.
Context (s : kstate) (fl : list Z) (root : Z) (t1 t0 : list Z) (HV : vmem s fl root t1 t0).
Context (v0 n perm : Z) (Hv0 : 0 <= v0) (Hmax : v0 + n <= NVPN) (Hperm : 0 <= perm < 1024).
Let f := ent (k_mem s) root.

(** [j] pages have been added: [ps], in order. *)
Record grown (j : Z) (s' : kstate) (fl' t1' t0' ps : list Z) : Prop := {
  g_vm : vmem s' fl' root t1' t0';
  g_frame : frame (fl ++ tables root t1 t0) s s';
  g_free : forall p, p ∈ fl' -> p ∈ fl;
  g_tables : forall p, p ∈ tables root t1' t0' -> p ∈ tables root t1 t0 \/ p ∈ fl;
  g_keep : forall p, p ∈ fl -> p ∈ fl' \/ p ∈ ps \/ p ∈ tables root t1' t0';
  g_other : forall w, 0 <= w < NVPN -> ~ (v0 <= w < v0 + j) -> ent (k_mem s') root w = f w;
  g_new : forall i p, ps !! i = Some p -> ent (k_mem s') root (v0 + Z.of_nat i) = leaf_pte p perm;
  g_len : Z.of_nat (length ps) = j;
  g_nodup : NoDup ps;
  g_pages : forall p, p ∈ ps -> p ∈ fl /\ (p ∉ fl') /\ (p ∉ tables root t1' t0') /\
    count_of s' p = 1 /\ zero_page (k_mem s') p
}.

(** Everything undone: the old entries, and every page back on the free list
    but the ones that became tables. *)
Definition undone (s' : kstate) : Prop :=
  exists fl' t1' t0', vmem s' fl' root t1' t0' /\
    frame (fl ++ tables root t1 t0) s s' /\
    (forall w, 0 <= w < NVPN -> ent (k_mem s') root w = f w) /\
    (forall p, p ∈ fl -> p ∈ fl' \/ p ∈ tables root t1' t0') /\
    (forall p, p ∈ tables root t1' t0' -> p ∈ tables root t1 t0 \/ p ∈ fl).

Lemma grown_0 : grown 0 s fl t1 t0 [].
Proof.
  split; [done|apply frame_refl|done|by left|by left|done|done|done|constructor|].
  by intros p ?%not_elem_of_nil.
Qed.

Lemma grown_page p j s1 fl1 u1 u0 ps : grown j s1 fl1 u1 u0 ps -> p ∈ fl1 ++ tables root u1 u0 -> is_page p.
Proof.
  intros G [Hq|Hq]%elem_of_app.
  - eapply free_is_heap; [apply (g_vm _ _ _ _ _ _ G)|done].
  - by eapply (vmem_table_page _ _ _ _ _ p (g_vm _ _ _ _ _ _ G)).
Qed.

(** The new pages stay as they are while the free pages and tables change. *)
Lemma grown_keep j s1 fl1 u1 u0 ps s2 (fl2 : list Z) w1 w0 p :
  grown j s1 fl1 u1 u0 ps -> frame (fl1 ++ tables root u1 u0) s1 s2 ->
  (forall q, q ∈ fl2 -> q ∈ fl1) ->
  (forall q, q ∈ tables root w1 w0 -> q ∈ tables root u1 u0 \/ q ∈ fl1) -> p ∈ ps ->
  p ∈ fl /\ (p ∉ fl2) /\ (p ∉ tables root w1 w0) /\ count_of s2 p = 1 /\ zero_page (k_mem s2) p.
Proof.
  intros G HF Hsub Hts Hp. destruct (g_pages _ _ _ _ _ _ G p Hp) as (H1 & H2 & H3 & H4 & H5).
  assert (heap_page p) as [Hpp _] by (eapply free_is_heap; [apply HV|done]).
  assert (p ∉ fl1 ++ tables root u1 u0) as Hn by ielem.
  split; [done|]. split; [by intros ?%Hsub|]. split; [by intros [?|?]%Hts|].
  split; [by rewrite (fr_cnt _ _ _ HF)|]. intros x Hx. unfold load8.
  rewrite (frame_page _ _ _ p HF); [by apply H5| |done|done|done].
  intros q. by eapply grown_page.
Qed.

(** From a state that has [j] new pages, [pg] allocated and cleared and then
    tables added. *)
Section step.
Context (j : Z) (s1 : kstate) (pg : Z) (fl1 u1 u0 ps : list Z) (s2 : kstate) (fl2 w1 w0 : list Z).
Context (G : grown j s1 (pg :: fl1) u1 u0 ps) (Hj : 0 <= j < n) (HV2 : vmem s2 fl2 root w1 w0).
Context (HF : vframe (fresh pg s1) s2 fl1 fl2 (tables root u1 u0) (tables root w1 w0)).

Lemma step_frame : frame ((pg :: fl1) ++ tables root u1 u0) s1 s2.
Proof.
  pose proof (pg_heap _ _ _ _ _ _ (g_vm _ _ _ _ _ _ G)) as Hp.
  eapply frame_trans; (eapply frame_mono; [|first [apply fresh_frame, Hp|by eapply vframe_frame]]); intros; ielem.
Qed.

Lemma step_frame0 : frame (fl ++ tables root t1 t0) s s2.
Proof.
  eapply frame_trans; [apply (g_frame _ _ _ _ _ _ G)|]. eapply frame_mono; [|apply step_frame].
  intros p [Hp%(g_free _ _ _ _ _ _ G)|Hp]%elem_of_app; [ielem|].
  destruct (g_tables _ _ _ _ _ _ G p Hp); ielem.
Qed.

Lemma step_sub p : p ∈ pg :: fl2 -> p ∈ pg :: fl1.
Proof. intros Hp. ielem. right. by eapply vf_sub. Qed.

Lemma step_tables p : p ∈ tables root w1 w0 -> p ∈ tables root u1 u0 \/ p ∈ pg :: fl1.
Proof. intros Hp. destruct (vf_tables _ _ _ _ _ _ HF p Hp); ielem. Qed.

Lemma step_keep p : p ∈ fl -> p = pg \/ p ∈ fl2 \/ p ∈ ps \/ p ∈ tables root w1 w0.
Proof.
  intros Hp. destruct (g_keep _ _ _ _ _ _ G p Hp) as [Hq|[Hq|Hq]]; [|tauto|].
  - ielem. destruct (vf_keep _ _ _ _ _ _ HF p Hq); tauto.
  - do 3 right. by apply (vf_mono _ _ _ _ _ _ HF).
Qed.

Lemma step_old p : p ∈ tables root w1 w0 -> p ∈ tables root t1 t0 \/ p ∈ fl.
Proof.
  intros [Hp|Hp]%step_tables; [by apply (g_tables _ _ _ _ _ _ G)|].
  right. by apply (g_free _ _ _ _ _ _ G).
Qed.

Lemma step_ps p : p ∈ ps ->
  p ∈ fl /\ (p ∉ pg :: fl2) /\ (p ∉ tables root w1 w0) /\ count_of s2 p = 1 /\ zero_page (k_mem s2) p.
Proof.
  intros Hp. eapply grown_keep; [exact G|apply step_frame|apply step_sub|apply step_tables|done].
Qed.

Lemma step_pg : pg ∈ fl /\ (pg ∉ fl2) /\ (pg ∉ tables root w1 w0) /\ count_of s2 pg = 1 /\
  zero_page (k_mem s2) pg /\ (pg ∉ ps) /\ heap_page pg.
Proof.
  pose proof (g_vm _ _ _ _ _ _ G) as G1. pose proof (pg_heap _ _ _ _ _ _ G1) as Hp.
  pose proof (pg_not_fl _ _ _ _ _ _ G1) as Hpf. pose proof (pg_not_table _ _ _ _ _ _ G1) as Hpt.
  split; [apply (g_free _ _ _ _ _ _ G); ielem|].
  split; [by intros ?%(vf_sub _ _ _ _ _ _ _ HF)|]. split; [by intros [?|?]%(vf_tables _ _ _ _ _ _ HF)|].
  split; [by rewrite (vf_cnt _ _ _ _ _ _ HF), fresh_count by (done || apply Hp)|]. split; [|split; [|done]].
  - intros x Hx. unfold load8. rewrite (frame_page _ _ _ pg (vframe_frame _ _ _ _ _ _ HF)); [by apply fresh_zero| |apply Hp|ielem|done].
    intros q [Hq|Hq]%elem_of_app; [|by eapply (vmem_table_page _ _ _ _ _ q G1)].
    eapply (free_is_heap s1); [apply G1|ielem].
  - intros Hin. destruct (g_pages _ _ _ _ _ _ G pg Hin) as (_ & H & _). ielem.
Qed.

(** [mappages] added the page. *)
Lemma grown_step :
  (forall w, 0 <= w < NVPN -> ent (k_mem s2) root w =
     if decide (w = v0 + j) then leaf_pte pg perm else ent (k_mem (fresh pg s1)) root w) ->
  grown (j + 1) s2 fl2 w1 w0 (ps ++ [pg]).
Proof.
  intros HE. destruct (fresh_vmem _ _ _ _ _ _ (g_vm _ _ _ _ _ _ G)) as (_ & _ & HE').
  destruct step_pg as (P1 & P2 & P3 & P4 & P5 & P6 & P7).
  pose proof (g_len _ _ _ _ _ _ G) as Hlen. split.
  - done.
  - apply step_frame0.
  - intros p Hp. apply (g_free _ _ _ _ _ _ G), step_sub. ielem.
  - apply step_old.
  - intros p Hp. rewrite elem_of_app, list_elem_of_singleton. pose proof (step_keep p Hp). tauto.
  - intros w Hw Hout. rewrite HE by done. rewrite decide_False by lia.
    rewrite HE'. apply (g_other _ _ _ _ _ _ G); [done|lia].
  - intros i p Hi. change NVPN with 0x4000000 in *. apply lookup_app_Some in Hi as [Hi|[Hi1 Hi2]].
    + pose proof (lookup_lt_Some _ _ _ Hi). rewrite HE by lia. rewrite decide_False by lia.
      rewrite HE'. by apply (g_new _ _ _ _ _ _ G).
    + apply list_lookup_singleton_Some in Hi2 as [Hi2 <-]. rewrite HE by lia.
      by rewrite decide_True by lia.
  - rewrite length_app. cbn. lia.
  - apply NoDup_app. split; [apply (g_nodup _ _ _ _ _ _ G)|]. split; [|apply NoDup_singleton].
    by intros p Hq ->%list_elem_of_singleton.
  - intros p [Hq|Hq]%elem_of_app.
    + destruct (step_ps p Hq) as (H1 & H2 & H3). split; [done|]. split; [ielem|done].
    + apply list_elem_of_singleton in Hq as ->. done.
Qed.

(** [mappages] failed and the page was given back. *)
Lemma grown_back s3 :
  (forall w, 0 <= w < NVPN -> ent (k_mem s2) root w = ent (k_mem s1) root w) ->
  frame [pg] s2 s3 -> alloc_ok s3 (pg :: fl2) -> grown j s3 (pg :: fl2) w1 w0 ps.
Proof.
  intros HE HF3 Ha3. destruct step_pg as (P1 & P2 & P3 & P4 & P5 & P6 & P7).
  destruct (frame_vmem [pg] s2 s3 fl2 (pg :: fl2) root w1 w0 HV2 HF3) as (HV3 & _ & HE3);
    [by intros p ->%list_elem_of_singleton; apply P7|by intros p ->%list_elem_of_singleton|done|].
  split.
  - done.
  - eapply frame_trans; [apply step_frame0|]. eapply frame_mono; [|done].
    intros p ->%list_elem_of_singleton. ielem.
  - intros p Hp. by apply (g_free _ _ _ _ _ _ G), step_sub.
  - apply step_old.
  - intros p Hp. rewrite elem_of_cons. pose proof (step_keep p Hp). tauto.
  - intros w Hw Hout. rewrite HE3, HE by done. by apply (g_other _ _ _ _ _ _ G).
  - intros i p Hi. rewrite HE3, HE; [by apply (g_new _ _ _ _ _ _ G)|].
    pose proof (lookup_lt_Some _ _ _ Hi). pose proof (g_len _ _ _ _ _ _ G). lia.
  - apply (g_len _ _ _ _ _ _ G).
  - apply (g_nodup _ _ _ _ _ _ G).
  - intros p Hp. destruct (step_ps p Hp) as (H1 & H2 & H3 & H4 & H5).
    assert (p <> pg) as Hne by (by intros ->).
    split; [done|]. split; [done|]. split; [done|]. split.
    + rewrite (fr_cnt _ _ _ HF3); [done|eapply free_is_heap; [apply HV|done]|ielem].
    + intros x Hx. unfold load8. rewrite (frame_page _ _ _ p HF3); [by apply H5| |eapply free_is_heap; [apply HV|done]|ielem|done].
      intros q ->%list_elem_of_singleton. apply P7.
Qed.

End step.
Context (Hzero : forall w, v0 <= w < v0 + n -> f w = 0) (Hperm9 : perm < 512).

(** Removing the new pages again restores the old map. *)
Lemma rollback j s1 fl1 u1 u0 ps : grown j s1 fl1 u1 u0 ps -> 0 <= j <= n ->
  exists r s2, uvmdealloc root ((v0 + j) * PGSIZE) (v0 * PGSIZE) s1 = Ok r s2 /\ undone s2.
Proof.
  intros G Hj. change NVPN with 0x4000000 in Hmax.
  destruct (decide (j = 0)) as [->|Hj0].
  { exists ((v0 + 0) * PGSIZE), s1. split.
    - unfold uvmdealloc. rewrite Z.add_0_r, Z.geb_leb, Z.leb_refl. done.
    - exists fl1, u1, u0. pose proof (g_len _ _ _ _ _ _ G) as Hl. destruct ps; [|done].
      split; [apply G|]. split; [apply G|]. split; [|split; [|apply G]].
      + intros w Hw. apply G; [done|lia].
      + intros p Hp. destruct (g_keep _ _ _ _ _ _ G p Hp) as [?|[?|?]]; [by left|ielem|by right]. }
  assert (forall k, 0 <= k <= n -> PGROUNDUP ((v0 + k) * PGSIZE) = (v0 + k) * PGSIZE) as Hup.
  { intros k Hk. rewrite PGROUNDUP_eq by (unfold PGSIZE; lia). unfold PGSIZE. zlia. }
  rewrite uvmdealloc_run by (change MAXVA with 0x4000000000; unfold PGSIZE; lia).
  assert (pages_between (v0 * PGSIZE) ((v0 + j) * PGSIZE) = j) as ->.
  { unfold pages_between. pose proof (Hup 0 ltac:(lia)) as H0. rewrite Z.add_0_r in H0.
    rewrite H0, (Hup j), !page_mul_div by lia. lia. }
  pose proof (Hup 0 ltac:(lia)) as H0. rewrite Z.add_0_r in H0. rewrite H0, page_mul_div.
  assert (forall w, v0 <= w < v0 + j -> exists p, p ∈ ps /\ ent (k_mem s1) root w = leaf_pte p perm /\
    heap_page p /\ PTE2PA (leaf_pte p perm) = p) as Hin.
  { intros w Hw. pose proof (g_len _ _ _ _ _ _ G) as Hl.
    destruct (lookup_lt_is_Some_2 ps (Z.to_nat (w - v0))) as [p Hp]; [lia|].
    assert (p ∈ ps) as Hpp by (by eapply list_elem_of_lookup_2).
    assert (heap_page p) as Hhp by (eapply free_is_heap; [apply HV|by apply (g_pages _ _ _ _ _ _ G)]).
    exists p. split; [done|]. split; [|split; [done|]].
    - rewrite <- (g_new _ _ _ _ _ _ G _ _ Hp). f_equal. lia.
    - apply leaf_pte_PA; [apply Hhp|destruct Hhp as ((?&?&?)&?); clia|done]. }
  assert (forall p, drops s1 root v0 true j p = if decide (p ∈ ps) then 1 else 0) as Hdr.
  { intros p. unfold drops. rewrite <- (g_len _ _ _ _ _ _ G). eapply leaf_refs_list.
    - apply G.
    - intros q Hq. eapply free_is_heap; [apply HV|by apply (g_pages _ _ _ _ _ _ G)].
    - apply G.
    - lia. }
  destruct (uvmunmap_ok s1 fl1 root u1 u0 (g_vm _ _ _ _ _ _ G) v0 j true Hv0 ltac:(lia)) as (s2 & fl2 & Hrun & HU).
  { change NVPN with 0x4000000. lia. }
  { intros w Hw. destruct (Hin w Hw) as (p & _ & -> & _). apply leaf_pte_here. lia. }
  { intros w Hw _ _. destruct (Hin w Hw) as (p & Hp & -> & Hhp & ->). split; [done|].
    by apply (g_pages _ _ _ _ _ _ G). }
  { intros p Hp. rewrite Hdr. case_decide as D; [|lia]. intros _.
    destruct (g_pages _ _ _ _ _ _ G p D) as (_ & _ & _ & -> & _). lia. }
  destruct HU as (HV2 & HF2 & HE2 & HC2 & Hfl2).
  exists (v0 * PGSIZE), s2. split; [by run Hrun|]. exists fl2, u1, u0. split; [done|]. split; [|split; [|split; [|apply G]]].
  - eapply frame_trans; [apply G|]. split; [apply HF2| |].
    + intros x Hx. apply HF2. intros q [Hq|Hq]%elem_of_app Hqx.
      * assert (is_page q) as Hqp by (eapply free_is_heap; [apply HV2|done]).
        apply Hfl2 in Hq as [Hq|[Hq _]]; [|rewrite Hdr in Hq; case_decide as D; [|lia]|done].
        -- eapply (Hx q); [|done]. apply elem_of_app. left. by apply G.
        -- eapply (Hx q); [|done]. apply elem_of_app. left. by apply (g_pages _ _ _ _ _ _ G).
      * eapply (Hx q); [|done]. apply elem_of_app. destruct (g_tables _ _ _ _ _ _ G q Hq); tauto.
    + intros q Hq Hn. rewrite HC2, Hdr by done. case_decide as D; [|lia]. exfalso. apply Hn.
      apply elem_of_app. left. by apply (g_pages _ _ _ _ _ _ G).
  - intros w Hw. rewrite HE2 by done. unfold cleared. case_decide as D.
    + destruct (Hin w D) as (p & _ & -> & _). rewrite in_use_valid, leaf_pte_V by (apply leaf_pte_here; lia). symmetry. apply Hzero. lia.
    + by apply G.
  - intros p Hp. assert (is_page p) as Hpp by (eapply free_is_heap; [apply HV|done]).
    destruct (g_keep _ _ _ _ _ _ G p Hp) as [?|[D|?]]; [left; rewrite Hfl2 by done; tauto| |tauto].
    left. rewrite Hfl2 by done. right. rewrite HC2 by done. rewrite Hdr, decide_True by done.
    destruct (g_pages _ _ _ _ _ _ G p D) as (_ & _ & _ & -> & _). lia.
Qed.

End uvmalloc.

(** [uvmalloc] adds zeroed pages of its own for the whole range, or fails for
    lack of memory with every entry as before. *)
Lemma uvmalloc_spec tot s fl root t1 t0 oldsz newsz xperm
    (v0 := PGROUNDUP oldsz / PGSIZE) (n := pages_between oldsz newsz)
    (perm := Z.lor (Z.lor PTE_R PTE_U) xperm) :
  vmem s fl root t1 t0 -> 0 <= oldsz <= newsz -> newsz <= MAXVA -> 0 <= xperm < 512 ->
  (forall w, v0 <= w < v0 + n -> ent (k_mem s) root w = 0) ->
  (tot = true -> 3 * n <= Z.of_nat (length fl)) ->
  wpx tot (uvmalloc root oldsz newsz xperm) (fun r s' =>
    (r = newsz /\ exists fl' t1' t0' ps, grown s fl root t1 t0 v0 perm n s' fl' t1' t0' ps) \/
    (tot = false /\ r = 0 /\ undone s fl root t1 t0 s')) s.
Proof.
  intros HV Hsz Hmax Hx Hzero Htot.
  destruct (pages_between_bounds oldsz newsz Hsz Hmax) as (Hn & Hv0 & Hnv). fold n v0 in Hn, Hv0, Hnv.
  assert (0 <= perm < 2 ^ 9) as Hperm by (apply lor_range; [lia|by vm_compute|done]).
  change (2 ^ 9) with 512 in Hperm.
  assert (PGROUNDUP oldsz = v0 * PGSIZE) as Hup.
  { apply page_number, PGROUNDUP_aligned. change MAXVA with 0x4000000000 in Hmax. lia. }
  assert (forall j, 0 <= j -> (v0 + j) * PGSIZE < newsz <-> j < n) as Hlt.
  { intros j Hj. unfold n, pages_between, v0. change MAXVA with 0x4000000000 in Hmax.
    pose proof (PGROUNDUP_bounds newsz). pose proof (PGROUNDUP_aligned newsz). unfold PGSIZE in *. zlia. }
  pose proof (rollback s fl root t1 t0 HV v0 n perm Hv0 Hnv ltac:(lia) Hzero ltac:(lia)) as Hroll.
  unfold uvmalloc. rewrite (proj2 (Z.ltb_ge newsz oldsz)) by lia. rewrite Hup.
  apply (wpx_iter tot (fun a s1 => exists j fl1 u1 u0 ps, 0 <= j <= n /\ a = (v0 + j) * PGSIZE /\
      grown s fl root t1 t0 v0 perm j s1 fl1 u1 u0 ps /\
      Z.of_nat (length fl) <= Z.of_nat (length fl1) + 3 * j)
    (fun a => Z.to_nat (v0 + n - a / PGSIZE))).
  - intros a s1 (j & fl1 & u1 & u0 & ps & Hj & -> & G & HL).
    destruct (Z.ltb_spec ((v0 + j) * PGSIZE) newsz) as [Hl|Hge].
    2:{ apply wpx_ret. left. split; [done|]. assert (j = n) as -> by (pose proof (Hlt j); lia).
        by exists fl1, u1, u0, ps. }
    apply Hlt in Hl; [|lia]. destruct fl1 as [|pg fl1].
    { assert (tot = false) as ->.
      { destruct tot; [|done]. specialize (Htot eq_refl). cbn in HL. lia. }
      eapply kalloc_empty_wpx; [apply G|]. change (0 =? 0) with true. cbv iota.
      destruct (Hroll j s1 _ _ _ _ G Hj) as (r & s2 & Hr & HU).
      eapply wpx_bind_ok; [exact Hr|]. apply wpx_ret. by right. }
    pose proof (fresh_vmem _ _ _ _ _ _ (g_vm _ _ _ _ _ _ _ _ _ _ _ _ _ G)) as (HVf & _ & HEf).
    unfold wpx. rewrite (fresh_run _ _ _ _ _ _ (g_vm _ _ _ _ _ _ _ _ _ _ _ _ _ G)).
    pose proof (pg_heap _ _ _ _ _ _ (g_vm _ _ _ _ _ _ _ _ _ _ _ _ _ G)) as Hpg.
    apply (wpx_bind tot). eapply wpx_mono.
    { apply (map_one tot (fresh pg s1) fl1 root u1 u0 (v0 + j) pg perm HVf).
      - lia.
      - apply Hpg.
      - lia.
      - rewrite HEf, (g_other _ _ _ _ _ _ _ _ _ _ _ _ _ G) by lia. by rewrite Hzero by lia.
      - intros E. specialize (Htot E). cbn in HL. lia. }
    intros r s2 (fl2 & w1 & w0 & HV2 & HF & HL2 & [(-> & HE)|(-> & -> & Hs & HE)]).
    + apply wpx_ret. change NVPN with 0x4000000 in Hnv.
      rewrite u64_small by (unfold PGSIZE; lia).
      replace ((v0 + j) * PGSIZE + PGSIZE) with ((v0 + (j + 1)) * PGSIZE) by (unfold PGSIZE; lia).
      split; [|rewrite !page_mul_div; lia].
      exists (j + 1), fl2, w1, w0, (ps ++ [pg]). split; [lia|]. split; [done|]. split; [|cbn in HL; lia].
      eapply (grown_step s fl root t1 t0 HV v0 n); [done|done|lia|exact G|lia|done|done|done].
    + destruct (step_pg s fl root t1 t0 v0 n perm ltac:(lia) j s1 pg fl1 u1 u0 ps s2 [] w1 w0 G ltac:(lia) HF) as (P1 & P2 & P3 & P4 & _).
      destruct (kfree_spec s2 [] pg) as (s3 & Hk & HF3 & _ & Ha3 & _); [apply HV2|apply HV2|done|lia|].
      rewrite decide_True in Ha3 by done.
      eapply wpx_bind_ok; [exact Hk|].
      assert (grown s fl root t1 t0 v0 perm j s3 [pg] w1 w0 ps) as G3.
      { eapply (grown_back s fl root t1 t0 HV v0 n perm Hv0 Hnv ltac:(lia) j s1 pg); [exact G|lia|done|done| |done|done].
        intros w Hw. by rewrite HE, HEf. }
      destruct (Hroll j s3 _ _ _ _ G3 Hj) as (r & s4 & Hr & HU).
      eapply wpx_bind_ok; [exact Hr|]. apply wpx_ret. right. split; [|done].
      destruct tot; [|done]. specialize (Htot eq_refl). cbn in HL. lia.
  - exists 0, fl, t1, t0, []. rewrite Z.add_0_r. split; [lia|]. split; [done|]. split; [by apply grown_0|lia].
  - rewrite page_mul_div. pose proof (Hlt (n - 1)). unfold PGSIZE in *. zlia.
Qed.
End VmAlloc.
