(* ===== verification/VmFree.v ===== *)
(** * Freeing an address space (kernel/vm.c)

    [freewalk] on a tree of tables without leaves puts every table page on the
    free list, once; [uvmfree] first drops the references to the user's pages.
    [tree] is the shape [freewalk] recurses over, and a well-formed Sv39 table
    without valid leaves has it, with exactly its table pages. *)

From S2P Require Import Prelude Riscv Mem KState Memstats Sched Bio PhysMem Kalloc Swap Vm.
From S2P Require Import PageTable Walk VmMap VmAlloc.

(** The tables below [p], children before parents, in the order of the
    recursion; the entries of the lowest level are not valid. *)
Fixpoint tree (m : mem) (depth : nat) (p : Z) (ts : list Z) : Prop :=
  match depth with
  | O => False
  | S d => exists sub : Z -> list Z, ts = (seqZ 0 512 ≫= sub) ++ [p] /\
      forall i, 0 <= i < 512 ->
        match child m p i with
        | Some c => is_ptr (load64 m (slot p i)) /\ tree m d c (sub i)
        | None => sub i = []
        end
  end.

Section VmFree.
Context {LAY : Layout} {ENV : Env}.

(** Pages in use, each with one reference. *)
Record owned (s : kstate) (fl ts : list Z) : Prop := {
  ow_alloc : alloc_ok s fl;
  ow_locks : alloc_locks_free s;
  ow_nodup : NoDup ts;
  ow_heap : forall t, t ∈ ts -> heap_page t;
  ow_cnt : forall t, t ∈ ts -> count_of s t = 1
}.

Lemma owned_app s fl ts ts' : owned s fl (ts ++ ts') -> owned s fl ts /\ owned s fl ts'.
Proof.
  intros [A L N H C]. apply NoDup_app in N as (N1 & _ & N2).
  split; (split; [done|done|done|intros t Ht; apply H, elem_of_app; auto|intros t Ht; apply C, elem_of_app; auto]).
Qed.

Lemma owned_frame W s s' fl fl' ts : owned s fl ts -> frame W s s' -> (forall t, t ∈ ts -> t ∉ W) ->
  alloc_ok s' fl' -> owned s' fl' ts.
Proof.
  intros [A L N H C] HF Hd A'. split; [done|eapply only_vm_locks; [apply HF|done]|done|done|].
  intros t Ht. rewrite (fr_cnt _ _ _ HF); [by apply C|by apply H|by apply Hd].
Qed.

Lemma tree_ext m m' d : forall p ts, tree m d p ts ->
  (forall q, q ∈ ts -> agree_on q PGSIZE m m') -> tree m' d p ts.
Proof.
  induction d as [|d IH]; intros p ts HT Hag; [done|].
  destruct HT as (sub & -> & HT). exists sub. split; [done|]. intros i Hi.
  assert (load64 m' (slot p i) = load64 m (slot p i)) as E.
  { apply (loadn_ext 8). intros x Hx. apply (Hag p); [ielem|]. pose proof (slot_in_page p i Hi). simpl in Hx. lia. }
  rewrite (child_ext m m') by done. rewrite E. specialize (HT i Hi).
  destruct (child m p i) as [c|]; [|done]. split; [apply HT|]. apply IH; [apply HT|].
  intros q Hq. apply Hag, elem_of_app. left. apply list_elem_of_bind. exists i. split; [done|]. apply elem_of_seqZ. lia.
Qed.

(** Clearing one entry of a table in use. *)
Lemma clear_slot s fl p i : alloc_ok s fl -> is_page p -> p ∉ fl -> 0 <= i < 512 ->
  exists s', st64 (p + 8 * i) 0 s = Ok tt s' /\ frame [p] s s' /\ alloc_ok s' fl /\
    (forall q, count_of s' q = count_of s q) /\
    (forall j, 0 <= j < 512 -> j <> i -> load64 (k_mem s') (slot p j) = load64 (k_mem s) (slot p j)).
Proof.
  intros A Hp Hn Hi. exists (k_set_mem (store64 (k_mem s) (slot p i) 0) s).
  assert (frame [p] s (k_set_mem (store64 (k_mem s) (slot p i) 0) s)) as HF.
  { split; [apply only_vm_mem| |done]. intros x Hx. apply store64_outside.
    specialize (Hx p ltac:(ielem)). pose proof (slot_in_page p i Hi). unfold in_page in Hx. lia. }
  split; [|split; [done|split; [|split; [done|]]]].
  - unfold st64. change (p + 8 * i) with (slot p i). by rewrite slot_in_ram.
  - eapply alloc_ok_frame; [done|done| |done]. intros q Hq.
    apply (frame_page [p]); [done| |by eapply free_is_heap|]; intros; set_solver.
  - intros j Hj Hne. apply load64_slot_ne; [done..|lia].
Qed.

Section levels.
Context (d : nat).
Context (IH : forall p ts s fl, owned s fl ts -> tree (k_mem s) d p ts ->
  exists s', freewalk_levels d p s = Ok tt s' /\ frame ts s s' /\ alloc_ok s' (rev ts ++ fl)).
Context (p : Z) (Hp : heap_page p) (sub : Z -> list Z).

Definition kid_ok (m : mem) (i : Z) : Prop :=
  match child m p i with
  | Some c => is_ptr (load64 m (slot p i)) /\ tree m d c (sub i)
  | None => sub i = []
  end.

Let body (i : Z) : K unit :=
  pte <- ld64 (p + 8 * i) ;;
  if has pte PTE_V && negb (has pte (Z.lor (Z.lor PTE_R PTE_W) PTE_X)) then
    freewalk_levels d (PTE2PA pte) ;;
    st64 (p + 8 * i) 0
  else if has pte PTE_V then panic "freewalk: leaf" else ret tt.

(** One entry: its subtree is freed; the other entries stay. *)
Lemma freewalk_entry i s fl : 0 <= i < 512 -> owned s fl (sub i) -> count_of s p = 1 -> p ∉ sub i ->
  kid_ok (k_mem s) i ->
  exists s', body i s = Ok tt s' /\ frame (p :: sub i) s s' /\ alloc_ok s' (rev (sub i) ++ fl) /\
    count_of s' p = 1 /\
    (forall j, 0 <= j < 512 -> j <> i -> load64 (k_mem s') (slot p j) = load64 (k_mem s) (slot p j)).
Proof.
  intros Hi HO Hc Hnp HK. unfold body, bind at 1, ld64 at 1. change (p + 8 * i) with (slot p i).
  rewrite slot_in_ram by (apply Hp || done). unfold kid_ok, child in HK.
  destruct (has (load64 (k_mem s) (slot p i)) PTE_V) eqn:HeV.
  - destruct HK as [Hptr HT]. unfold is_ptr in Hptr. rewrite Hptr. cbn [andb negb].
    destruct (IH _ _ _ _ HO HT) as (s1 & Hrun & HF & HA). run Hrun.
    assert (forall q, q ∈ sub i -> is_page q) as Hpg by (intros q Hq; by apply (ow_heap _ _ _ HO)).
    assert (count_of s1 p = 1) as Hc1 by (rewrite (fr_cnt _ _ _ HF); [done|apply Hp|done]).
    destruct (clear_slot s1 (rev (sub i) ++ fl) p i HA) as (s2 & Hrun2 & HF2 & HA2 & HC2 & HS2).
    { apply Hp. } { eapply free_not_counted; [done|lia]. } { done. }
    exists s2. split; [done|]. split; [|split; [done|split; [by rewrite HC2|]]].
    + eapply frame_trans; (eapply frame_mono; [|done]); intros q Hq; ielem.
    + intros j Hj Hne. rewrite HS2 by done. apply (frame_slot (sub i)); [done|done|apply Hp|done|done].
  - rewrite HK. exists s. split; [done|]. split; [apply frame_refl|]. split; [apply HO|done].
Qed.

Lemma freewalk_entries l : forall s fl, NoDup l -> (forall i, i ∈ l -> 0 <= i < 512) ->
  owned s fl (l ≫= sub) -> count_of s p = 1 -> p ∉ l ≫= sub ->
  (forall i, i ∈ l -> kid_ok (k_mem s) i) ->
  exists s', for_each l body s = Ok tt s' /\ frame (p :: (l ≫= sub)) s s' /\ count_of s' p = 1 /\
    alloc_ok s' (rev (l ≫= sub) ++ fl).
Proof.
  induction l as [|i l IHl]; intros s fl Hnd Hl HO Hc Hnp HK.
  { exists s. split; [done|]. split; [apply frame_refl|]. split; [done|apply HO]. }
  apply NoDup_cons in Hnd as [Hi Hnd]. cbn [mbind list_bind] in *.
  destruct (owned_app _ _ _ _ HO) as [HO1 HO2].
  assert (forall q, q ∈ l ≫= sub -> q ∉ p :: sub i) as Hdis.
  { intros q Hq [->|Hq']%elem_of_cons; [apply Hnp, elem_of_app; by right|].
    pose proof (ow_nodup _ _ _ HO) as (_ & Hd & _)%NoDup_app. by apply (Hd q). }
  destruct (freewalk_entry i s fl) as (s1 & Hrun & HF & HA & Hc1 & HS);
    [apply Hl; ielem|done|done|intros Hin; apply Hnp, elem_of_app; by left|apply HK; ielem|].
  assert (forall q, q ∈ p :: sub i -> is_page q) as Hpg.
  { intros q [->|Hq]%elem_of_cons; [apply Hp|by apply (ow_heap _ _ _ HO1)]. }
  destruct (IHl s1 (rev (sub i) ++ fl) Hnd) as (s2 & Hrun2 & HF2 & Hc2 & HA2).
  - intros j Hj. apply Hl. ielem.
  - by eapply owned_frame.
  - done.
  - intros Hin. apply Hnp, elem_of_app. by right.
  - intros j Hj. assert (j <> i) as Hne by (by intros ->). assert (0 <= j < 512) as Hj5 by (apply Hl; ielem).
    specialize (HK j ltac:(ielem)). unfold kid_ok in *.
    rewrite (child_ext (k_mem s)) by (by apply HS). rewrite (HS j) by done. destruct (child (k_mem s) p j) as [c|]; [|done].
    split; [apply HK|]. eapply tree_ext; [apply HK|]. intros q Hq.
    assert (q ∈ l ≫= sub) as Hq2 by (apply list_elem_of_bind; by exists j).
    apply (frame_page (p :: sub i)); [done|done|by apply (ow_heap _ _ _ HO2)|by apply Hdis].
  - exists s2. split; [cbn [for_each]; run Hrun; exact Hrun2|]. split; [|split; [done|by rewrite rev_app_distr, <- app_assoc]].
    eapply frame_trans; (eapply frame_mono; [|done]); intros q [->|Hq]%elem_of_cons; ielem.
Qed.

End levels.

(** [freewalk] frees every table of the tree, and always returns. *)
Lemma freewalk_levels_ok d : forall p ts s fl, owned s fl ts -> tree (k_mem s) d p ts ->
  exists s', freewalk_levels d p s = Ok tt s' /\ frame ts s s' /\ alloc_ok s' (rev ts ++ fl).
Proof.
  induction d as [|d IH]; intros p ts s fl HO HT; [done|].
  destruct HT as (sub & -> & HK). destruct (owned_app _ _ _ _ HO) as [HO1 HO2].
  assert (heap_page p) as Hp by (apply (ow_heap _ _ _ HO2); ielem).
  assert (p ∉ seqZ 0 512 ≫= sub) as Hnp.
  { intros Hin. pose proof (ow_nodup _ _ _ HO) as (_ & Hd & _)%NoDup_app. apply (Hd p Hin). ielem. }
  destruct (freewalk_entries d IH p Hp sub (seqZ 0 512) s fl) as (s1 & Hrun & HF & Hc & HA).
  - apply NoDup_seqZ.
  - intros i Hi%elem_of_seqZ. lia.
  - done.
  - apply (ow_cnt _ _ _ HO2). ielem.
  - done.
  - intros i Hi%elem_of_seqZ. apply HK. lia.
  - destruct (kfree_spec s1 _ p HA) as (s2 & Hrun2 & HF2 & _ & HA2 & _);
      [eapply only_vm_locks; [apply HF|apply HO]|done|lia|].
    rewrite Hc in HA2. exists s2. cbn [freewalk_levels]. split; [by run Hrun|].
    split; [|by rewrite rev_app_distr].
    eapply frame_trans; (eapply frame_mono; [|done]); intros q Hq; ielem.
Qed.

(** ** The tree of a page table without leaves *)

Section shape.
Context (m : mem) (root : Z) (t1 t0 : list Z) (OK : pt_ok m root t1 t0).

Definition kid (p i : Z) : list Z := match child m p i with Some c => [c] | None => [] end.
Definition tables_of (p : Z) : list Z := (seqZ 0 512 ≫= kid p) ++ [p].
Definition below_root (i : Z) : list Z := match child m root i with Some p => tables_of p | None => [] end.

Lemma elem_of_kids p c : c ∈ seqZ 0 512 ≫= kid p <-> exists i, 0 <= i < 512 /\ child m p i = Some c.
Proof.
  rewrite list_elem_of_bind. unfold kid. split.
  - intros (i & Hc & Hi%elem_of_seqZ). exists i. split; [lia|].
    destruct (child m p i); [|by apply not_elem_of_nil in Hc]. by apply list_elem_of_singleton in Hc as ->.
  - intros (i & Hi & E). exists i. rewrite E. split; [ielem|]. apply elem_of_seqZ. lia.
Qed.

Lemma elem_of_tables_of p q : q ∈ tables_of p <-> q = p \/ exists i, 0 <= i < 512 /\ child m p i = Some q.
Proof. unfold tables_of. rewrite elem_of_app, elem_of_kids, list_elem_of_singleton. tauto. Qed.

Lemma NoDup_tables_of p : p ∈ t1 -> NoDup (tables_of p).
Proof.
  intros Hp. apply NoDup_app. split; [|split; [|apply NoDup_singleton]].
  - apply NoDup_bind; [| |apply NoDup_seqZ].
    + intros i j c Hi%elem_of_seqZ Hj%elem_of_seqZ. unfold kid.
      destruct (child m p i) eqn:Ei; [|by intros ?%not_elem_of_nil].
      destruct (child m p j) eqn:Ej; [|by intros _ ?%not_elem_of_nil].
      intros ->%list_elem_of_singleton ->%list_elem_of_singleton.
      eapply (lk_inj _ _ _ (pt_l1 _ _ _ _ OK) p p i j); [done|done|lia|lia|done|done].
    + intros i _. unfold kid. destruct (child m p i); [apply NoDup_singleton|constructor].
  - intros c (i & Hi & E)%elem_of_kids ->%list_elem_of_singleton.
    by apply (t1_not_t0 _ _ _ _ OK p), (child_t1 _ _ _ _ OK p i).
Qed.

Lemma elem_of_below i q : 0 <= i < 512 -> q ∈ below_root i ->
  exists p, child m root i = Some p /\ p ∈ t1 /\ (q = p \/ q ∈ t0 /\ exists j, 0 <= j < 512 /\ child m p j = Some q).
Proof.
  intros Hi. unfold below_root. destruct (child m root i) as [p|] eqn:E; [|by intros ?%not_elem_of_nil].
  pose proof (child_root _ _ _ _ OK i p Hi E) as Hp. intros [->|(j & Hj & Ej)]%elem_of_tables_of.
  - exists p. auto.
  - exists p. split; [done|]. split; [done|]. right. split; [by eapply (child_t1 _ _ _ _ OK p j)|by exists j].
Qed.

Definition all_tables : list Z := (seqZ 0 512 ≫= below_root) ++ [root].

Lemma NoDup_all_tables : NoDup all_tables.
Proof.
  apply NoDup_app. split; [|split; [|apply NoDup_singleton]].
  - apply NoDup_bind; [| |apply NoDup_seqZ].
    + intros i j q Hi%elem_of_seqZ Hj%elem_of_seqZ Hqi Hqj.
      destruct (elem_of_below i q ltac:(lia) Hqi) as (p & Ep & Hp & Hq).
      destruct (elem_of_below j q ltac:(lia) Hqj) as (p' & Ep' & Hp' & Hq').
      assert (p = p') as <-.
      { destruct Hq as [->|(Hq0 & a & Ha & Ea)]; destruct Hq' as [Hq'|(Hq0' & b & Hb & Eb)]; [done|..].
        - by destruct (t1_not_t0 _ _ _ _ OK p).
        - subst q. by destruct (t1_not_t0 _ _ _ _ OK p').
        - by eapply (lk_inj _ _ _ (pt_l1 _ _ _ _ OK) p p' a b). }
      by eapply (lk_inj _ _ _ (pt_l2 _ _ _ _ OK) root root i j); [ielem|ielem|lia|lia|..].
    + intros i Hi%elem_of_seqZ. unfold below_root. destruct (child m root i) as [p|] eqn:E; [|constructor].
      apply NoDup_tables_of. eapply (child_root _ _ _ _ OK i); [lia|done].
  - intros q (i & Hq & Hi%elem_of_seqZ)%list_elem_of_bind ->%list_elem_of_singleton.
    destruct (elem_of_below i root ltac:(lia) Hq) as (p & _ & Hp & [->|[H0 _]]);
      [by apply (root_not_t1 _ _ _ _ OK)|by apply (root_not_t0 _ _ _ _ OK)].
Qed.

Lemma all_tables_perm : all_tables ≡ₚ tables root t1 t0.
Proof.
  apply NoDup_Permutation; [apply NoDup_all_tables|apply OK|]. intros q. unfold all_tables, tables.
  rewrite elem_of_app, list_elem_of_singleton, elem_of_cons, elem_of_app. split.
  - intros [(i & Hq & Hi%elem_of_seqZ)%list_elem_of_bind| ->]; [|by left].
    destruct (elem_of_below i q ltac:(lia) Hq) as (p & _ & Hp & [->|[H0 _]]); auto.
  - intros [->|Hq]; [by right|left]. apply list_elem_of_bind.
    assert (exists p, p ∈ t1 /\ q ∈ tables_of p) as (p & Hp & Hqp).
    { destruct Hq as [Hq|Hq]; [exists q; split; [done|]; apply elem_of_tables_of; by left|].
      destruct (lk_sur _ _ _ (pt_l1 _ _ _ _ OK) q Hq) as (p & i & Hp & Hi & E).
      exists p. split; [done|]. apply elem_of_tables_of. right. by exists i. }
    destruct (lk_sur _ _ _ (pt_l2 _ _ _ _ OK) p Hp) as (r & i & ->%list_elem_of_singleton & Hi & E).
    exists i. unfold below_root. rewrite E. split; [done|]. apply elem_of_seqZ. lia.
Qed.

(** Without valid leaves it is a tree. *)
Lemma no_leaves : (forall w, 0 <= w < NVPN -> has (ent m root w) PTE_V = false) ->
  forall c i, c ∈ t0 -> 0 <= i < 512 -> child m c i = None.
Proof.
  intros Hno c i Hc Hi.
  destruct (lk_sur _ _ _ (pt_l1 _ _ _ _ OK) c Hc) as (p & j & Hp & Hj & E1).
  destruct (lk_sur _ _ _ (pt_l2 _ _ _ _ OK) p Hp) as (r & k & ->%list_elem_of_singleton & Hk & E2).
  assert (k < 256) as Hk2.
  { destruct (Z.lt_ge_cases k 256); [done|]. by rewrite (pt_half _ _ _ _ OK) in E2 by lia. }
  destruct (idx_compose k j i ltac:(lia) Hj Hi) as (w & Hw & I2 & I1 & I0).
  specialize (Hno w Hw). unfold ent, pte_addr in Hno. rewrite I2, I1, I0, E2 in Hno. cbn [mbind option_bind] in Hno.
  rewrite E1 in Hno. cbn [mbind option_bind] in Hno. unfold child. by rewrite Hno.
Qed.

Lemma tree_of_table : (forall w, 0 <= w < NVPN -> has (ent m root w) PTE_V = false) -> tree m 3 root all_tables.
Proof.
  intros Hno. pose proof (no_leaves Hno) as Hleaf. exists below_root. split; [done|]. intros i Hi.
  unfold below_root. destruct (child m root i) as [p|] eqn:E; [|done].
  destruct (lk_in _ _ _ (pt_l2 _ _ _ _ OK) root i p ltac:(ielem) Hi E) as [Hp Hptr]. split; [done|].
  exists (kid p). split; [done|]. intros j Hj. unfold kid. destruct (child m p j) as [c|] eqn:E1; [|done].
  destruct (lk_in _ _ _ (pt_l1 _ _ _ _ OK) p j c Hp Hj E1) as [Hc Hptr1]. split; [done|].
  exists (fun _ => []). split; [|intros k Hk; by rewrite Hleaf].
  assert (forall l : list Z, l ≫= (fun _ => @nil Z) = []) as -> by (intros l; by induction l). done.
Qed.

End shape.

(** [freewalk] and [uvmfree] give back every table page. *)
Lemma freewalk_ok s fl root t1 t0 : vmem s fl root t1 t0 ->
  (forall w, 0 <= w < NVPN -> has (ent (k_mem s) root w) PTE_V = false) ->
  exists s' fl', freewalk root s = Ok tt s' /\ frame (tables root t1 t0) s s' /\
    alloc_ok s' fl' /\ fl' ≡ₚ tables root t1 t0 ++ fl.
Proof.
  intros HV Hno. pose proof (vm_pt _ _ _ _ _ HV) as OK. pose proof (all_tables_perm _ _ _ _ OK) as HP.
  destruct (freewalk_levels_ok 3 root (all_tables (k_mem s) root) s fl) as (s' & Hrun & HF & HA).
  - split; [apply HV|apply HV|by eapply NoDup_all_tables| |]; intros t Ht.
    + eapply table_page; [done|]. by rewrite <- HP.
    + eapply (vm_cnt _ _ _ _ _ HV). by rewrite <- HP.
  - by eapply tree_of_table.
  - exists s', (rev (all_tables (k_mem s) root) ++ fl). split; [done|].
    split; [eapply frame_mono; [|done]; intros q; by rewrite HP|]. split; [done|].
    by rewrite <- HP, <- Permutation_rev.
Qed.

Lemma uvmfree_ok s fl root t1 t0 sz (n := PGROUNDUP sz / PGSIZE) :
  vmem s fl root t1 t0 -> 0 <= sz <= MAXVA ->
  (forall w, 0 <= w < n -> has (ent (k_mem s) root w) PTE_SWAPPED = false) ->
  (forall w, 0 <= w < n -> has (ent (k_mem s) root w) PTE_V = true ->
     heap_page (PTE2PA (ent (k_mem s) root w)) /\ (PTE2PA (ent (k_mem s) root w) ∉ tables root t1 t0)) ->
  (forall p, heap_page p -> 0 < drops s root 0 true n p -> drops s root 0 true n p <= count_of s p) ->
  (forall w, n <= w < NVPN -> has (ent (k_mem s) root w) PTE_V = false) ->
  exists s' fl', uvmfree root sz s = Ok tt s' /\ mframe fl' s s' /\ alloc_ok s' fl' /\
    (forall p, is_page p -> p ∉ tables root t1 t0 -> count_of s' p = count_of s p - drops s root 0 true n p) /\
    (forall p, is_page p -> p ∈ fl' <-> p ∈ fl \/ p ∈ tables root t1 t0 \/
       (0 < drops s root 0 true n p /\ drops s root 0 true n p = count_of s p)).
Proof.
  intros HV Hsz Hsw Hleaf Hrefs Hno.
  pose proof (sz_pages sz Hsz) as Hn. fold n in Hn.
  destruct (uvmunmap_ok s fl root t1 t0 HV 0 n true ltac:(lia) ltac:(lia) ltac:(lia))
    as (s1 & fl1 & Hrun & HV1 & HM1 & HE1 & HC1 & Hfl1); [done|auto|done|].
  destruct (freewalk_ok s1 fl1 root t1 t0 HV1) as (s2 & fl2 & Hrun2 & HF2 & HA2 & HP2).
  { intros w Hw. rewrite HE1 by done. destruct (decide (w < n)) as [D|D]; [apply cleared_invalid; lia|].
    unfold cleared. rewrite decide_False by lia. apply Hno. lia. }
  assert (mframe fl2 s s2) as HM2.
  { apply (mframe_trans _ s s1 s2); [eapply mframe_mono; [|exact HM1]|eapply mframe_mono; [|by apply frame_mframe]]; intros q Hq; rewrite HP2, elem_of_app;
      [apply elem_of_app in Hq as [?|?]|]; auto. }
  exists s2, fl2. split; [|split; [done|split; [done|split]]].
  - unfold uvmfree. rewrite Z.gtb_ltb. destruct (Z.ltb_spec 0 sz) as [Hpos|Hz].
    + fold n. rewrite Z.mul_0_l in Hrun. by run Hrun.
    + assert (n = 0) as En by (unfold n; assert (sz = 0) as -> by lia; done).
      rewrite En, Z.mul_0_l, uvmunmap_none in Hrun by done. injection Hrun as <-. by run (eq_refl (Ok tt s)).
  - intros p Hp Hnt. rewrite (fr_cnt _ _ _ HF2) by done. by apply HC1.
  - intros p Hp. rewrite HP2, elem_of_app, (Hfl1 p Hp), (HC1 p Hp). split; [|].
    + intros [H|[H|[H1 H2]]]; [auto|auto|right; right; lia].
    + intros [H|[H|[H1 H2]]]; [auto|auto|right; right; lia].
Qed.

End VmFree.
