(* ===== verification/VmCow.v ===== *)
(** * Copy-on-write fork (kernel/vm.c)

    [uvmcopy] gives the child the parent's pages: both page tables end up with
    the same entry for every user page, none of them writable, and every page
    counts one reference more.  [cowfault] gives the faulting process a page of
    its own with the same contents. *)

From S2P Require Import Prelude Riscv Mem KState Memstats Sched Bio PhysMem Kalloc Swap Vm.
From S2P Require Import PageTable Walk VmMap VmAlloc.

(** ** Definitions *)

(** What [uvmcopy] makes of the entry of a user page, in both tables. *)
Definition share (e : Z) : Z :=
  if has e PTE_COW then e else
  if has e PTE_W then Z.lor (Z.land e (Z.lnot PTE_W)) PTE_COW else e.

(** A valid user page. *)
Definition user_leaf (e : Z) : bool := has e PTE_V && has e PTE_U.

(** An entry with ten flag bits and a 44-bit frame number. *)
Definition canonical (e : Z) : Prop := 0 <= e < 2 ^ 54.

(** How many user pages among [ws] refer to [p]. *)
Definition user_refs (f : Z -> Z) (ws : list Z) (p : Z) : Z :=
  sumZ (fun w => if user_leaf (f w) && (PTE2PA (f w) =? p) then 1 else 0) ws.

(** ** Entries, bit by bit *)

Lemma canonical_high e k : canonical e -> 54 <= k -> Z.testbit e k = false.
Proof. intros He Hk. by apply (testbit_small e 54). Qed.

Lemma bits_canonical e : 0 <= e -> (forall k, 54 <= k -> Z.testbit e k = false) -> canonical e.
Proof.
  intros H0 H. split; [done|]. destruct (decide (e = 0)) as [->|]; [done|].
  apply Z.log2_lt_pow2; [lia|]. destruct (Z.lt_ge_cases (Z.log2 e) 54) as [|Hge]; [done|].
  specialize (H _ Hge). by rewrite Z.bit_log2 in H by lia.
Qed.

(** The frame number and the flags make up a canonical entry. *)
Lemma pte_recompose e : canonical e -> Z.lor (PA2PTE (PTE2PA e)) (PTE_FLAGS e) = e.
Proof.
  intros He. assert (PTE2PA e = Z.shiftl (Z.shiftr e 10) 12) as Hpa.
  { unfold PTE2PA. apply u64_small. destruct He as [H1 H2]. change (2 ^ 54) with 0x40000000000000 in H2.
    rewrite Z.shiftl_mul_pow2, Z.shiftr_div_pow2 by lia. change (2 ^ 10) with 1024. change (2 ^ 12) with 4096. zlia. }
  unfold PA2PTE. rewrite Hpa. rewrite (Z.shiftr_shiftl_l _ 12 12) by lia. rewrite Z.sub_diag, Z.shiftl_0_r.
  unfold PTE_FLAGS. change 0x3FF with (Z.ones 10). apply Z.bits_inj'. intros k Hk.
  rewrite Z.lor_spec, Z.land_spec. destruct (Z.lt_ge_cases k 10).
  - rewrite Z.shiftl_spec_low, Z.ones_spec_low by lia. cbn. apply andb_true_r.
  - rewrite Z.shiftl_spec, Z.shiftr_spec, Z.ones_spec_high by lia.
    rewrite andb_false_r, orb_false_r. f_equal. lia.
Qed.

Lemma leaf_pte_recompose e : canonical e -> has e PTE_V = true -> leaf_pte (PTE2PA e) (PTE_FLAGS e) = e.
Proof.
  intros He Hv. unfold leaf_pte. rewrite pte_recompose by done. rewrite has_V in Hv.
  apply Z.bits_inj'. intros k Hk. rewrite Z.lor_spec. change PTE_V with (2 ^ 0).
  destruct (decide (k = 0)) as [->|Hne]; [by rewrite Hv|].
  rewrite Z.pow2_bits_false by done. apply orb_false_r.
Qed.

Lemma share_bit e k : 0 <= k -> Z.testbit (share e) k =
  if has e PTE_COW then Z.testbit e k else
  if has e PTE_W then Z.testbit e k && negb (k =? 2) || (k =? 8) else Z.testbit e k.
Proof.
  intros Hk. unfold share. destruct (has e PTE_COW); [done|]. destruct (has e PTE_W); [|done].
  rewrite Z.lor_spec, Z.land_spec, Z.lnot_spec by done.
  change PTE_W with (2 ^ 2). change PTE_COW with (2 ^ 8). rewrite !Z.pow2_bits_eqb by lia.
  by rewrite (Z.eqb_sym 2), (Z.eqb_sym 8).
Qed.

Lemma share_nonneg e : 0 <= e -> 0 <= share e.
Proof.
  intros He. unfold share. destruct (has e PTE_COW); [done|]. destruct (has e PTE_W); [|done].
  apply Z.lor_nonneg. split; [apply Z.land_nonneg; by left|done].
Qed.

Lemma share_canonical e : canonical e -> canonical (share e).
Proof.
  intros He. apply bits_canonical; [apply share_nonneg, He|]. intros k Hk.
  rewrite share_bit by lia. rewrite (canonical_high e) by done.
  destruct (has e PTE_COW); [done|]. destruct (has e PTE_W); [|done].
  by rewrite (proj2 (Z.eqb_neq k 8)) by lia.
Qed.

Lemma share_PA e : PTE2PA (share e) = PTE2PA e.
Proof.
  apply PTE2PA_ext. apply Z.bits_inj'. intros k Hk. rewrite !Z.shiftr_spec by done.
  rewrite share_bit by lia. rewrite (proj2 (Z.eqb_neq (k + 10) 2)), (proj2 (Z.eqb_neq (k + 10) 8)) by lia.
  rewrite andb_true_r, orb_false_r. by destruct (has e PTE_COW), (has e PTE_W).
Qed.

Lemma share_keeps e k : 0 <= k -> k <> 2 -> k <> 8 -> Z.testbit (share e) k = Z.testbit e k.
Proof.
  intros Hk H2 H8. rewrite share_bit by done.
  rewrite (proj2 (Z.eqb_neq k 2) H2), (proj2 (Z.eqb_neq k 8) H8), andb_true_r, orb_false_r.
  by destruct (has e PTE_COW), (has e PTE_W).
Qed.

Lemma share_user e : user_leaf (share e) = user_leaf e.
Proof. unfold user_leaf. rewrite !has_V, !has_U, !share_keeps by lia. done. Qed.

(** A shared page is writable only if it was both writable and shared before. *)
Lemma share_not_writable e : (has e PTE_COW = true -> has e PTE_W = false) -> has (share e) PTE_W = false.
Proof.
  intros H. rewrite has_W, share_bit by lia. destruct (has e PTE_COW) eqn:E.
  - rewrite <- has_W. auto.
  - rewrite <- has_W. destruct (has e PTE_W) eqn:E2; [|done]. by rewrite andb_false_r.
Qed.

(** A page that was writable, or shared before, is marked. *)
Lemma share_cow e : has (share e) PTE_COW = has e PTE_COW || has e PTE_W.
Proof.
  rewrite (has_COW (share e)), share_bit by lia. destruct (has e PTE_COW) eqn:E; rewrite <- has_COW.
  - done.
  - rewrite E. by destruct (has e PTE_W).
Qed.

Section VmCow.
Context {LAY : Layout} {ENV : Env}.

(** ** Two address spaces *)

(** The parent's and the child's page tables, with no table in common. *)
Record two (s : kstate) (fl : list Z) (p : Z) (p1 p0 : list Z) (c : Z) (c1 c0 : list Z) : Prop := {
  tw_p : vmem s fl p p1 p0;
  tw_c : vmem s fl c c1 c0;
  tw_disj : forall t, t ∈ tables p p1 p0 -> t ∉ tables c c1 c0
}.

Section ops.
Context (s : kstate) (fl : list Z) (p : Z) (p1 p0 : list Z) (c : Z) (c1 c0 : list Z).
Context (TW : two s fl p p1 p0 c c1 c0).

(** Changes outside the tables. *)
Lemma two_frame W s' fl' : frame W s s' -> (forall q, q ∈ W -> is_page q) ->
  (forall q, q ∈ W -> (q ∉ tables p p1 p0) /\ (q ∉ tables c c1 c0)) -> alloc_ok s' fl' ->
  two s' fl' p p1 p0 c c1 c0 /\
  (forall w, ent (k_mem s') p w = ent (k_mem s) p w) /\
  (forall w, ent (k_mem s') c w = ent (k_mem s) c w).
Proof.
  intros HF HW Hd Ha. destruct TW as [Hp Hc Hpc].
  destruct (frame_vmem W s s' fl fl' p p1 p0 Hp HF HW) as (H1 & _ & H2); [intros q Hq; apply (Hd q Hq)|done|].
  destruct (frame_vmem W s s' fl fl' c c1 c0 Hc HF HW) as (H3 & _ & H4); [intros q Hq; apply (Hd q Hq)|done|].
  by split.
Qed.

(** The child's tables grew. *)
Lemma two_child s' fl' c1' c0' : vmem s' fl' c c1' c0' ->
  vframe s s' fl fl' (tables c c1 c0) (tables c c1' c0') ->
  two s' fl' p p1 p0 c c1' c0' /\ (forall w, ent (k_mem s') p w = ent (k_mem s) p w).
Proof.
  intros HV HF. destruct TW as [Hp Hc Hpc].
  destruct (frame_vmem (fl ++ tables c c1 c0) s s' fl fl' p p1 p0 Hp) as (H1 & _ & H2).
  - by eapply vframe_frame.
  - intros q [Hq|Hq]%elem_of_app; [eapply free_is_heap; [apply Hp|done]|by eapply (vmem_table_page _ _ _ _ _ q Hc)].
  - intros q [Hq|Hq]%elem_of_app Hin; [exact (vmem_not_free _ _ _ _ _ _ Hp Hin Hq)|exact (Hpc _ Hin Hq)].
  - apply HV.
  - split; [|done]. split; [done|done|]. intros t Ht Hin.
    destruct (vf_tables _ _ _ _ _ _ HF t Hin) as [Hq|Hq]; [exact (Hpc _ Ht Hq)|exact (vmem_not_free _ _ _ _ _ _ Hp Ht Hq)].
Qed.

(** An entry of the parent changed. *)
Lemma two_set_entry v a e : 0 <= v < NVPN -> 0 <= e < 0x10000000000000000 ->
  pte_addr (k_mem s) p v = Some a ->
  two (set_entry s a e) fl p p1 p0 c c1 c0 /\
  mframe (tables p p1 p0) s (set_entry s a e) /\
  (forall w, 0 <= w < NVPN -> ent (k_mem (set_entry s a e)) p w = if decide (w = v) then e else ent (k_mem s) p w) /\
  (forall w, ent (k_mem (set_entry s a e)) c w = ent (k_mem s) c w).
Proof.
  intros Hv He Ha. destruct TW as [Hp Hc Hpc].
  assert (mframe (tables p p1 p0) s (set_entry s a e)) as HM.
  { split; [apply only_vm_mem|]. intros x Hx. by apply (set_entry_mem s fl p p1 p0 Hp v a Hv Ha). }
  pose proof (set_entry_vmem s fl p p1 p0 Hp v a Hv Ha e) as HV'.
  assert (frame (tables p p1 p0) s (set_entry s a e)) as HF by (split; [apply HM|apply HM|done]).
  destruct (frame_vmem _ s _ fl fl c c1 c0 Hc HF) as (H1 & _ & H2).
  - intros q Hq. by eapply (vmem_table_page _ _ _ _ _ q Hp).
  - intros q Hq. by apply Hpc.
  - apply HV'.
  - split; [by split|]. split; [done|]. split; [|done].
    intros w Hw. by apply (set_entry_ent s fl p p1 p0 Hp v a Hv Ha).
Qed.

(** One more reference to a page that is neither free nor a table. *)
Lemma two_count q x : is_page q -> q ∉ fl -> q ∉ tables p p1 p0 -> q ∉ tables c c1 c0 ->
  two (with_count q x s) fl p p1 p0 c c1 c0.
Proof.
  intros Hq Hf Hp Hc. eapply (two_frame [q]).
  - split; [apply only_vm_count|done|]. intros r Hr Hn. apply count_with_count_ne; [done|done|]. ielem.
  - by intros r ->%list_elem_of_singleton.
  - by intros r ->%list_elem_of_singleton.
  - apply with_count_ok; [apply TW|done|done].
Qed.

Lemma two_stats g : two (on_stats g s) fl p p1 p0 c c1 c0.
Proof.
  eapply (two_frame []); [split; [apply only_vm_stats|done|done]|by intros q ?%not_elem_of_nil..|].
  eapply alloc_ok_frame; [apply TW|done|done|done].
Qed.

End ops.

(** ** One page of [uvmcopy] *)

(** Tables were only added, and every free page that went is one of them. *)
Definition taken (fl fl' ts ts' : list Z) : Prop :=
  (forall t, t ∈ ts -> t ∈ ts') /\ (forall t, t ∈ fl -> t ∈ fl' \/ t ∈ ts').

Lemma taken_refl fl ts : taken fl fl ts ts.
Proof. by split; auto. Qed.

Lemma taken_trans fl1 fl2 fl3 ts1 ts2 ts3 : taken fl1 fl2 ts1 ts2 -> taken fl2 fl3 ts2 ts3 -> taken fl1 fl3 ts1 ts3.
Proof. intros [A B] [C D]. split; [auto|]. intros t [Ht|Ht]%B; auto. Qed.

Lemma vframe_taken s s' fl fl' ts ts' : vframe s s' fl fl' ts ts' -> taken fl fl' ts ts'.
Proof. intros F. split; [apply (vf_mono _ _ _ _ _ _ F)|apply (vf_keep _ _ _ _ _ _ F)]. Qed.

Section page.
Context (p : Z) (p1 p0 : list Z) (c v : Z) (Hv : 0 <= v < NVPN).

(** What sharing page [v], whose entry is [e], does. *)
Definition shared (s : kstate) (fl : list Z) (c1 c0 : list Z) (e : Z) (ok : bool) (s' : kstate) : Prop :=
  exists fl' c1' c0', two s' fl' p p1 p0 c c1' c0' /\
    mframe (fl ++ tables p p1 p0 ++ tables c c1 c0) s s' /\
    (exists ns, fl = ns ++ fl') /\
    (forall t, t ∈ tables c c1' c0' -> t ∈ tables c c1 c0 \/ t ∈ fl) /\
    (forall w, 0 <= w < NVPN -> ent (k_mem s') p w = if decide (w = v) then share e else ent (k_mem s) p w) /\
    (forall w, 0 <= w < NVPN -> ent (k_mem s') c w =
       if decide (w = v /\ ok = true) then share e else ent (k_mem s) c w) /\
    (forall q, is_page q -> q ∉ fl ->
       count_of s' q = count_of s q + if ok && (PTE2PA e =? q) then 1 else 0) /\
    Z.of_nat (length fl) <= Z.of_nat (length fl') + 2 /\
    (ok = false -> fl' = [] /\ Z.of_nat (length fl) < 2) /\
    taken fl fl' (tables c c1 c0) (tables c c1' c0').

(** The common end of the three branches. *)
Lemma share_tail tot s fl c1 c0 e (fin : K bool) :
  two s fl p p1 p0 c c1 c0 -> canonical e -> has e PTE_V = true ->
  heap_page (PTE2PA e) -> PTE2PA e ∉ tables p p1 p0 -> PTE2PA e ∉ tables c c1 c0 ->
  1 <= count_of s (PTE2PA e) < 0x7fffffff -> ent (k_mem s) p v = share e ->
  has (ent (k_mem s) c v) PTE_V = false ->
  (forall s', L_memstats ∉ k_held s' -> exists g, fin s' = Ok true (on_stats g s')) ->
  (tot = true -> 2 <= length fl)%nat ->
  wpx tot (r <- mappages c (v * PGSIZE) PGSIZE (PTE2PA e) (PTE_FLAGS (share e)) ;;
           if negb (r =? 0) then ret false else krefinc (PTE2PA e) ;; fin)
    (shared s fl c1 c0 e) s.
Proof.
  intros TW He HV Hq Hqp Hqc Hcnt Hpe Hce Hfin Htot. apply wpx_bind.
  eapply wpx_mono; [apply (map_one tot s fl c c1 c0 v)|].
  { apply TW. }
  { done. }
  { apply Hq. }
  { apply PTE_FLAGS_range. }
  { done. }
  { done. }
  intros r s1 (fl1 & d1 & d0 & HV1 & HF1 & HL1 & Hres).
  destruct (two_child _ _ _ _ _ _ _ _ TW _ _ _ _ HV1 HF1) as (TW1 & HEp).
  assert (mframe (fl ++ tables p p1 p0 ++ tables c c1 c0) s s1) as HM.
  { eapply mframe_mono; [|eapply frame_mframe, vframe_frame; done]. intros x Hx. ielem. }
  assert (PTE2PA e ∉ fl) as Hqf by (eapply free_not_counted; [apply TW|lia]).
  assert (forall q, is_page q -> q ∉ fl -> count_of s1 q = count_of s q) as HC1 by apply HF1.
  destruct Hres as [(-> & HE1)|(-> & -> & Hshort & HE1)].
  - change (negb (0 =? 0)) with false. cbv iota.
    assert (L_refcount ∉ k_held s1) as Hl by apply (vm_locks _ _ _ _ _ HV1).
    eapply wpx_bind_ok; [apply krefinc_ok; [apply Hq|done]|]. rewrite HC1, s32_small by (lia || apply Hq || done).
    destruct (Hfin (with_count (PTE2PA e) (count_of s (PTE2PA e) + 1) s1)) as [g Hg];
      [apply (vm_locks _ _ _ _ _ HV1)|].
    eapply wpx_Ok; [exact Hg|]. exists fl1, d1, d0.
    assert (PTE2PA e ∉ tables c d1 d0) as Hqd by (intros [?|?]%(vf_tables _ _ _ _ _ _ HF1); done).
    split; [|split; [|split; [|split; [|split; [|split; [|split; [|split; [|split]]]]]]]].
    + apply two_stats, two_count; [done|apply Hq|by intros ?%(vf_sub _ _ _ _ _ _ _ HF1)|done|done].
    + eapply mframe_trans; [exact HM|]. split; [by destruct s1|done].
    + apply HF1.
    + apply HF1.
    + intros w Hw. change (ent (k_mem s1) p w = if decide (w = v) then share e else ent (k_mem s) p w).
      rewrite HEp. by destruct (decide (w = v)) as [->|].
    + intros w Hw. change (ent (k_mem s1) c w = if decide (w = v /\ true = true) then share e else ent (k_mem s) c w).
      rewrite HE1 by done. rewrite <- (share_PA e), leaf_pte_recompose; [|by apply share_canonical|].
      * destruct (decide (w = v)); [by rewrite decide_True by done|by rewrite decide_False by naive_solver].
      * rewrite has_V, share_keeps by lia. by rewrite <- has_V.
    + intros q Hqq Hqn. change (count_of (with_count (PTE2PA e) (count_of s (PTE2PA e) + 1) s1) q =
        count_of s q + if true && (PTE2PA e =? q) then 1 else 0). cbn [andb].
      destruct (Z.eqb_spec (PTE2PA e) q) as [<-|Hne]; [apply count_with_count|].
      rewrite count_with_count_ne by (done || apply Hq). rewrite HC1 by done. lia.
    + done.
    + done.
    + by eapply vframe_taken.
  - change (negb (-1 =? 0)) with true. cbv iota. apply wpx_ret. exists [], d1, d0.
    split; [done|]. split; [done|]. split; [apply HF1|]. split; [apply HF1|]. split; [|split; [|split; [|split; [|split]]]].
    + intros w Hw. rewrite HEp. by destruct (decide (w = v)) as [->|].
    + intros w Hw. rewrite decide_False by naive_solver. by apply HE1.
    + intros q Hqq Hqn. cbn [andb]. rewrite HC1 by done. lia.
    + done.
    + done.
    + by eapply vframe_taken.
Qed.

Lemma flags_has e m : 0 <= m < 1024 -> has (PTE_FLAGS e) m = has e m.
Proof.
  intros Hm. unfold has, PTE_FLAGS. f_equal. f_equal. rewrite <- Z.land_assoc. f_equal.
  apply Z.bits_inj'. intros k Hk. rewrite Z.land_spec. change 0x3FF with (Z.ones 10).
  destruct (Z.lt_ge_cases k 10).
  - by rewrite Z.ones_spec_low by lia.
  - rewrite (testbit_small m 10 k) by lia. by rewrite andb_false_r.
Qed.

(** The flags of the shared entry, as the code computes them. *)
Lemma share_flags_cow e : has e PTE_COW = true -> PTE_FLAGS (share e) = PTE_FLAGS e.
Proof. unfold share. by intros ->. Qed.

Lemma share_flags_ro e : has e PTE_COW = false -> has e PTE_W = false -> PTE_FLAGS (share e) = PTE_FLAGS e.
Proof. unfold share. by intros -> ->. Qed.

Lemma share_flags_w e : has e PTE_COW = false -> has e PTE_W = true ->
  Z.lor (Z.land (PTE_FLAGS e) (Z.lnot PTE_W)) PTE_COW = PTE_FLAGS (share e).
Proof.
  intros H1 H2. unfold share. rewrite H1, H2. unfold PTE_FLAGS.
  rewrite Z.land_lor_distr_l. change (Z.land PTE_COW 0x3FF) with PTE_COW. f_equal.
  rewrite <- !Z.land_assoc. f_equal.
Qed.

Lemma fin_ret (s : kstate) : exists g, ret true s = Ok true (on_stats g s).
Proof. exists (fun t => t). by destruct s. Qed.

Lemma fin_stats (s : kstate) : L_memstats ∉ k_held s ->
  exists g, (memstats_inc_cow_shared ;; ret true) s = Ok true (on_stats g s).
Proof. intros H. exists (op_effect OpCowShared). by run (cow_shared_ok s H). Qed.

Lemma copy_page_spec tot s fl c1 c0 (e := ent (k_mem s) p v) :
  two s fl p p1 p0 c c1 c0 -> canonical e ->
  (user_leaf e = true -> heap_page (PTE2PA e) /\ (PTE2PA e ∉ tables p p1 p0) /\
     (PTE2PA e ∉ tables c c1 c0) /\ 1 <= count_of s (PTE2PA e) < 0x7fffffff) ->
  has (ent (k_mem s) c v) PTE_V = false -> (tot = true -> 2 <= length fl)%nat ->
  wpx tot (copy_page p c (v * PGSIZE)) (fun ok s' =>
    if user_leaf e then shared s fl c1 c0 e ok s' else ok = true /\ s' = s) s.
Proof.
  intros TW He Hleaf Hce Htot. unfold wpx, copy_page.
  rewrite (walk_ld64 s fl p p1 p0 (tw_p _ _ _ _ _ _ _ _ TW)) by (by apply page_number_range).
  rewrite page_mul_div. fold e. destruct (pte_addr (k_mem s) p v) as [a|] eqn:Ea.
  2:{ cbn. assert (user_leaf e = false) as ->; [|done]. unfold e, ent. by rewrite Ea. }
  unfold user_leaf in *. destruct (has e PTE_V) eqn:HeV; [|done]. cbn [negb andb] in *.
  rewrite !flags_has by (by vm_compute). destruct (has e PTE_U) eqn:HeU; [|done]. cbn [negb].
  destruct (Hleaf eq_refl) as (Hq & Hqp & Hqc & Hcnt).
  destruct (has e PTE_COW) eqn:HeC; [|destruct (has e PTE_W) eqn:HeW].
  - apply (wpx_mono tot _ (shared s fl c1 c0 e)); [|done]. rewrite <- share_flags_cow by done.
    apply share_tail; try done; [|intros; apply fin_ret]. unfold share. by rewrite HeC.
  - rewrite (share_flags_w e HeC HeW).
    assert (Z.lor (Z.land e (Z.lnot PTE_W)) PTE_COW = share e) as Hsh by (unfold share; by rewrite HeC, HeW).
    rewrite Hsh.
    assert (0 <= share e < 0x10000000000000000) as Hrg.
    { destruct (share_canonical e He) as [H1 H2]. change (2 ^ 54) with 0x40000000000000 in H2. lia. }
    destruct (two_set_entry s fl p p1 p0 c c1 c0 TW v a (share e) Hv Hrg Ea) as (TW1 & HM1 & HE1 & HE1c).
    unfold bind at 1. rewrite (set_entry_run s fl p p1 p0 (tw_p _ _ _ _ _ _ _ _ TW) v a Ea).
    apply (wpx_mono tot _ (shared (set_entry s a (share e)) fl c1 c0 e)).
    + apply share_tail; try done; [|by rewrite HE1c|intros; by apply fin_stats].
      rewrite HE1 by done. by rewrite decide_True.
    + intros ok s2 (fl2 & d1 & d0 & G1 & G2 & G3 & G4 & G5 & G6 & G7 & G8 & G9).
      exists fl2, d1, d0. split; [done|]. split; [|split; [done|split; [done|split; [|split; [|done]]]]].
      * eapply mframe_trans; [|exact G2]. eapply mframe_mono; [|exact HM1]. intros x Hx. ielem.
      * intros w Hw. rewrite G5, HE1 by done. by destruct (decide (w = v)).
      * intros w Hw. rewrite G6, HE1c by done. done.
  - apply (wpx_mono tot _ (shared s fl c1 c0 e)); [|done]. rewrite <- share_flags_ro by done.
    apply share_tail; try done; [|intros; by apply fin_stats]. unfold share. by rewrite HeC, HeW.
Qed.

End page.

(** ** [uvmcopy] *)

Section uvmcopy.
Context (s : kstate) (fl : list Z) (p : Z) (p1 p0 : list Z) (c : Z) (c1 c0 : list Z).
Context (TW : two s fl p p1 p0 c c1 c0) (n : Z) (Hn : 0 <= n <= NVPN).
Let f := ent (k_mem s) p.
Let g := ent (k_mem s) c.

(** [j] pages of the parent are shared; [k] of them are in the child's table. *)
Record forked (j k : Z) (s' : kstate) (fl' c1' c0' : list Z) : Prop := {
  fk_two : two s' fl' p p1 p0 c c1' c0';
  fk_mem : mframe (fl ++ tables p p1 p0 ++ tables c c1 c0) s s';
  fk_used : exists ns, fl = ns ++ fl';
  fk_tables : forall t, t ∈ tables c c1' c0' -> t ∈ tables c c1 c0 \/ t ∈ fl;
  fk_parent : forall w, 0 <= w < NVPN ->
    ent (k_mem s') p w = if decide (w < j /\ user_leaf (f w) = true) then share (f w) else f w;
  fk_child : forall w, 0 <= w < NVPN ->
    ent (k_mem s') c w = if decide (w < k /\ user_leaf (f w) = true) then share (f w) else g w;
  fk_count : forall q, is_page q -> q ∉ fl -> count_of s' q = count_of s q + user_refs f (seqZ 0 k) q;
  fk_taken : taken fl fl' (tables c c1 c0) (tables c c1' c0')
}.

Context (Hcan : forall w, 0 <= w < n -> canonical (f w)).
Context (Hleaf : forall w, 0 <= w < n -> user_leaf (f w) = true ->
  heap_page (PTE2PA (f w)) /\ (PTE2PA (f w) ∉ tables p p1 p0) /\ (PTE2PA (f w) ∉ tables c c1 c0) /\
  1 <= count_of s (PTE2PA (f w)) <= 0x40000000).
Context (Hnew : forall w, 0 <= w < n -> g w = 0).

Lemma user_refs_next j q : 0 <= j ->
  user_refs f (seqZ 0 (j + 1)) q =
    user_refs f (seqZ 0 j) q + if user_leaf (f j) && (PTE2PA (f j) =? q) then 1 else 0.
Proof.
  intros Hj. rewrite seqZ_app by lia. unfold user_refs. rewrite sumZ_app. f_equal.
  rewrite (seqZ_cons (0 + j) 1) by lia. rewrite (seqZ_nil _ (Z.pred 1)) by lia.
  cbn [sumZ]. rewrite Z.add_0_l. apply Z.add_0_r.
Qed.

Lemma user_refs_bounds j q : 0 <= j -> 0 <= user_refs f (seqZ 0 j) q <= j.
Proof.
  intros Hj. revert j Hj. apply natlike_ind; [done|]. intros j Hj IH.
  rewrite <- Z.add_1_r, user_refs_next by lia. destruct (_ && _); lia.
Qed.

Lemma forked_0 : forked 0 0 s fl c1 c0.
Proof.
  split; [done|apply mframe_refl|by exists []|by left| | | |].
  - intros w Hw. by rewrite decide_False by lia.
  - intros w Hw. by rewrite decide_False by lia.
  - intros q Hq Hf. change (user_refs f (seqZ 0 0) q) with 0. lia.
  - apply taken_refl.
Qed.

Lemma leaf_not_free w : 0 <= w < n -> user_leaf (f w) = true -> PTE2PA (f w) ∉ fl.
Proof. intros Hw Hu. destruct (Hleaf w Hw Hu) as (_ & _ & _ & H). eapply free_not_counted; [apply TW|lia]. Qed.

Lemma forked_step tot j s1 fl1 d1 d0 : forked j j s1 fl1 d1 d0 -> 0 <= j < n ->
  (tot = true -> 2 <= length fl1)%nat ->
  wpx tot (copy_page p c (j * PGSIZE)) (fun ok s2 => exists fl2 e1 e0,
    forked (j + 1) (if ok then j + 1 else j) s2 fl2 e1 e0 /\
    Z.of_nat (length fl1) <= Z.of_nat (length fl2) + 2 /\
    (ok = false -> fl2 = [] /\ Z.of_nat (length fl1) < 2)) s1.
Proof.
  intros [K1 K2 K3 K4 K5 K6 K7 K8] Hj Htot.
  assert (ent (k_mem s1) p j = f j) as Hpj by (rewrite K5 by lia; by rewrite decide_False by lia).
  assert (ent (k_mem s1) c j = 0) as Hcj.
  { rewrite K6 by lia. rewrite decide_False by lia. by apply Hnew. }
  eapply wpx_mono; [apply (copy_page_spec p p1 p0 c j ltac:(lia) tot s1 fl1 d1 d0)|]; rewrite ?Hpj, ?Hcj.
  - done.
  - by apply Hcan.
  - intros Hu. destruct (Hleaf j Hj Hu) as (H1 & H2 & H3 & H4). split; [done|]. split; [done|].
    pose proof (leaf_not_free j Hj Hu) as Hnf. split; [by intros [?|?]%K4|].
    rewrite K7 by (done || apply H1). pose proof (user_refs_bounds j (PTE2PA (f j)) ltac:(lia)).
    change NVPN with 0x4000000 in *. lia.
  - done.
  - done.
  - intros ok s2. destruct (user_leaf (f j)) eqn:Hu.
    + intros (fl2 & e1 & e0 & G1 & G2 & G3 & G4 & G5 & G6 & G7 & G8 & G9 & G10).
      destruct K3 as [ns Hns]. exists fl2, e1, e0. split; [|split; [lia|done]]. split.
      * done.
      * eapply mframe_trans; [done|]. eapply mframe_mono; [|exact G2]. intros x Hx. rewrite Hns. ielem.
        destruct (K4 x Hx); ielem. left. rewrite <- elem_of_app. by rewrite <- Hns.
      * destruct G3 as [ns' Hns']. exists (ns ++ ns'). rewrite <- app_assoc, <- Hns'. done.
      * intros t [Ht|Ht]%G4; [by apply K4|]. right. rewrite Hns. ielem.
      * intros w Hw. rewrite G5, K5 by done. destruct (decide (w = j)) as [->|Hne].
        -- by rewrite decide_True by (split; [lia|done]).
        -- destruct (decide (w < j /\ user_leaf (f w) = true)) as [[D1 D2]|D].
           ++ by rewrite decide_True by (split; [lia|done]).
           ++ rewrite decide_False; [done|]. intros [D1 D2]. apply D. split; [lia|done].
      * intros w Hw. rewrite G6, K6 by done. destruct ok.
        -- destruct (decide (w = j)) as [->|Hne].
           ++ by rewrite !decide_True by (done || (split; [lia|done])).
           ++ rewrite (decide_False (P := w = j /\ true = true)) by naive_solver.
              destruct (decide (w < j /\ user_leaf (f w) = true)) as [[D1 D2]|D].
              ** by rewrite decide_True by (split; [lia|done]).
              ** rewrite decide_False; [done|]. intros [D1 D2]. apply D. split; [lia|done].
        -- rewrite (decide_False (P := w = j /\ false = true)) by naive_solver. done.
      * intros q Hq Hf. rewrite G7, K7; [|done|done|done|].
        -- destruct ok; [rewrite user_refs_next, Hu by lia; lia|cbn [andb]; lia].
        -- intros Hin. apply Hf. rewrite Hns. ielem.
      * by eapply taken_trans.
    + intros [-> ->]. exists fl1, d1, d0. split; [|split; [lia|done]]. split; try done.
      * intros w Hw. rewrite K5 by done. destruct (decide (w < j /\ user_leaf (f w) = true)) as [[D1 D2]|D].
        -- by rewrite decide_True by (split; [lia|done]).
        -- rewrite decide_False; [done|]. intros [D1 D2]. apply D. split; [|done].
           assert (w <> j) by congruence. lia.
      * intros w Hw. rewrite K6 by done. destruct (decide (w < j /\ user_leaf (f w) = true)) as [[D1 D2]|D].
        -- by rewrite decide_True by (split; [lia|done]).
        -- rewrite decide_False; [done|]. intros [D1 D2]. apply D. split; [|done].
           assert (w <> j) by congruence. lia.
      * intros q Hq Hf. rewrite K7, user_refs_next, Hu by (done || lia). cbn [andb]. lia.
Qed.

Context (Hsw : forall w, 0 <= w < n -> user_leaf (f w) = true -> has (f w) PTE_SWAPPED = false).

Lemma share_here w : 0 <= w < n -> user_leaf (f w) = true -> has (share (f w)) PTE_SWAPPED = false.
Proof. intros Hw Hu. rewrite has_SWAPPED, share_keeps, <- has_SWAPPED by lia. by apply Hsw. Qed.

(** The references the child's entries hold are the ones counted. *)
Lemma forked_refs j k s1 fl1 d1 d0 q : forked j k s1 fl1 d1 d0 -> 0 <= k <= n ->
  leaf_refs (ent (k_mem s1) c) (seqZ 0 k) q = user_refs f (seqZ 0 k) q.
Proof.
  intros F Hk. apply sumZ_ext. intros w Hw%elem_of_seqZ. rewrite (fk_child _ _ _ _ _ _ F) by lia.
  destruct (user_leaf (f w)) eqn:Hu.
  - rewrite decide_True by (split; [lia|done]). rewrite share_PA.
    rewrite resident_valid by (apply share_here; [lia|done]).
    pose proof (share_user (f w)) as Hs. rewrite Hu in Hs. apply andb_true_iff in Hs as [-> _]. done.
  - rewrite decide_False by naive_solver. rewrite Hnew by lia. done.
Qed.

(** A page with references is a user page of the parent. *)
Lemma user_refs_leaf k q : k <= n -> 0 < user_refs f (seqZ 0 k) q ->
  exists w, 0 <= w < n /\ user_leaf (f w) = true /\ PTE2PA (f w) = q.
Proof.
  intros Hk. assert (forall l, (forall w, w ∈ l -> 0 <= w < n) -> 0 < user_refs f l q ->
    exists w, 0 <= w < n /\ user_leaf (f w) = true /\ PTE2PA (f w) = q) as H; [|apply H; intros w Hw%elem_of_seqZ; lia].
  induction l as [|w l IH]; intros Hl Hp; [done|]. unfold user_refs in Hp. cbn [sumZ] in Hp.
  destruct (user_leaf (f w) && (PTE2PA (f w) =? q)) eqn:E.
  - apply andb_true_iff in E as [E1 E2%Z.eqb_eq]. exists w. split; [apply Hl; ielem|done].
  - apply IH; [intros; apply Hl; ielem|done].
Qed.

(** The child's entries can be unmapped again. *)
Section child.
Context (j k : Z) (s1 : kstate) (fl1 d1 d0 : list Z) (F : forked j k s1 fl1 d1 d0) (Hk : 0 <= k <= n).

Lemma forked_present w : 0 <= w < k -> has (ent (k_mem s1) c w) PTE_SWAPPED = false.
Proof.
  intros Hw. rewrite (fk_child _ _ _ _ _ _ F) by lia. case_decide as D.
  - apply share_here; [lia|apply D].
  - rewrite Hnew by lia. done.
Qed.

Lemma forked_leaf w : 0 <= w < k -> has (ent (k_mem s1) c w) PTE_V = true ->
  heap_page (PTE2PA (ent (k_mem s1) c w)) /\ (PTE2PA (ent (k_mem s1) c w) ∉ tables c d1 d0).
Proof.
  intros Hw. rewrite (fk_child _ _ _ _ _ _ F) by lia. case_decide as D; [|by rewrite Hnew by lia].
  intros _. rewrite share_PA. destruct (Hleaf w ltac:(lia) (proj2 D)) as (H1 & H2 & H3 & _). split; [done|].
  intros [?|?]%(fk_tables _ _ _ _ _ _ F); [done|]. eapply (leaf_not_free w); [lia|apply D|done].
Qed.

Lemma forked_counted q : heap_page q -> 0 < user_refs f (seqZ 0 k) q -> user_refs f (seqZ 0 k) q < count_of s1 q.
Proof.
  intros Hq Hpos. destruct (user_refs_leaf k q ltac:(lia) Hpos) as (w & Hw & Hu & <-).
  rewrite (fk_count _ _ _ _ _ _ F); [|apply Hq|by apply leaf_not_free]. pose proof (Hleaf w Hw Hu). lia.
Qed.

End child.

(** Undoing a failed fork: the child loses its entries and the counts are as
    before; only the marks in the parent's table stay. *)
Lemma fork_undo j k s1 d1 d0 : forked j k s1 [] d1 d0 -> 0 <= k <= n ->
  exists s2, uvmunmap c 0 k true s1 = Ok tt s2 /\ forked j 0 s2 [] d1 d0.
Proof.
  intros F Hk. pose proof (fk_two _ _ _ _ _ _ F) as [Tp Tc Td].
  pose proof (fun q => user_refs_leaf k q (proj2 Hk)) as Hex.
  assert (forall q, drops s1 c 0 true k q = user_refs f (seqZ 0 k) q) as Hdr by (intros q; by eapply forked_refs).
  destruct (uvmunmap_ok s1 [] c d1 d0 Tc 0 k true) as (s2 & fl2 & Hrun & HV2 & HM2 & HE2 & HC2 & Hfl2).
  { lia. }
  { lia. }
  { lia. }
  { intros w Hw. by eapply (forked_present j k). }
  { intros w Hw HwV _. by eapply (forked_leaf j k). }
  { intros q Hq Hpos. rewrite Hdr in *. apply Z.lt_le_incl. by eapply (forked_counted j k). }
  assert (fl2 = []) as ->.
  { destruct fl2 as [|q fl2]; [done|]. assert (heap_page q) as Hq by (eapply free_is_heap; [apply HV2|ielem]).
    assert (q ∈ q :: fl2) as Hin by ielem. apply Hfl2 in Hin as [Hin|[Hpos Hz]]; [ielem| |apply Hq].
    rewrite HC2, Hdr in * by apply Hq. destruct (Hex q Hpos) as (w & Hw & Hu & <-).
    rewrite (fk_count _ _ _ _ _ _ F) in Hz; [|apply Hq|by apply leaf_not_free].
    pose proof (Hleaf w Hw Hu). lia. }
  destruct (tables_kept s1 s2 [] [] p p1 p0 Tp) as (Tp2 & _ & HEp2).
  { apply HM2. }
  { intros t Ht. pose proof (vmem_table_page _ _ _ _ _ t Tp Ht) as Htp. split.
    - intros x Hx. apply HM2. intros q Hq. ielem.
      eapply (pages_disjoint t q); [apply Htp|by eapply (vmem_table_page _ _ _ _ _ q Tc)| |done].
      intros ->. by eapply Td.
    - rewrite HC2, Hdr by apply Htp. pose proof (user_refs_bounds k t ltac:(lia)) as Hb.
      destruct (decide (0 < user_refs f (seqZ 0 k) t)) as [Hpos|]; [|lia].
      destruct (Hex t Hpos) as (w & Hw & Hu & <-). by destruct (Hleaf w Hw Hu) as (_ & ? & _). }
  { apply HV2. }
  exists s2. split; [exact Hrun|]. split.
  - by split.
  - eapply mframe_trans; [apply F|]. eapply mframe_mono; [|exact HM2]. intros q Hq. ielem.
    destruct (fk_tables _ _ _ _ _ _ F q Hq); ielem.
  - exists fl. by rewrite app_nil_r.
  - apply F.
  - intros w Hw. rewrite HEp2. by apply F.
  - intros w Hw. rewrite decide_False by lia. rewrite HE2 by done. unfold cleared.
    rewrite (fk_child _ _ _ _ _ _ F) by done. destruct (decide (0 <= w < 0 + k)) as [D|D].
    + destruct (decide (w < k /\ _)) as [[_ Du]|].
      * rewrite in_use_valid by (apply share_here; [lia|done]).
        pose proof (share_user (f w)) as Hs. rewrite Du in Hs. apply andb_true_iff in Hs as [-> _].
        symmetry. apply Hnew. lia.
      * by destruct (in_use _); [rewrite Hnew by lia|].
    + by rewrite decide_False by lia.
  - intros q Hq Hf. rewrite HC2, Hdr, (fk_count _ _ _ _ _ _ F) by done.
    change (user_refs f (seqZ 0 0) q) with 0. lia.
  - apply F.
Qed.

(** [uvmcopy] shares every user page of the parent, or fails for lack of
    memory and undoes the child's half. *)
Lemma uvmcopy_spec tot sz : n = PGROUNDUP sz / PGSIZE -> 0 <= sz <= MAXVA ->
  (tot = true -> 2 * n <= Z.of_nat (length fl)) ->
  wpx tot (uvmcopy p c sz) (fun r s' =>
    (r = 0 /\ exists fl' c1' c0', forked n n s' fl' c1' c0') \/
    (tot = false /\ r = -1 /\ exists j c1' c0', 0 < j <= n /\ forked j 0 s' [] c1' c0')) s.
Proof.
  intros En Hsz Htot. change MAXVA with 0x4000000000 in Hsz.
  assert (forall j, 0 <= j -> j * PGSIZE < sz <-> j < n) as Hlt.
  { intros j Hj. rewrite En, PGROUNDUP_eq by lia. unfold PGSIZE. zlia. }
  assert (sz / PGSIZE <= n <= sz / PGSIZE + 1) as Hfuel.
  { rewrite En, PGROUNDUP_eq by lia. unfold PGSIZE. zlia. }
  unfold uvmcopy. apply wpx_bind.
  apply (wpx_iter tot (fun a s1 => exists j fl1 d1 d0, 0 <= j <= n /\ a = j * PGSIZE /\
      forked j j s1 fl1 d1 d0 /\ Z.of_nat (length fl) <= Z.of_nat (length fl1) + 2 * j)
    (fun a => Z.to_nat (n - a / PGSIZE))).
  - intros a s1 (j & fl1 & d1 & d0 & Hj & -> & F & HL).
    destruct (Z.ltb_spec (j * PGSIZE) sz) as [Hl|Hge].
    2:{ apply wpx_ret, wpx_ret. left. split; [done|]. assert (j = n) as -> by (pose proof (Hlt j); lia).
        by exists fl1, d1, d0. }
    apply Hlt in Hl; [|lia]. apply wpx_bind.
    eapply wpx_mono; [apply (forked_step tot j s1 fl1 d1 d0 F); [lia|]|].
    { intros E. specialize (Htot E). lia. }
    intros [] s2 (fl2 & e1 & e0 & F2 & HL2 & Hfail); apply wpx_ret.
    + change NVPN with 0x4000000 in Hn. rewrite u64_small by (unfold PGSIZE; lia).
      replace (j * PGSIZE + PGSIZE) with ((j + 1) * PGSIZE) by (unfold PGSIZE; lia).
      split; [|rewrite !page_mul_div; lia]. exists (j + 1), fl2, e1, e0.
      split; [lia|]. split; [done|]. split; [done|lia].
    + destruct (Hfail eq_refl) as [-> Hshort]. rewrite page_mul_div.
      destruct (fork_undo (j + 1) j s2 e1 e0 F2 ltac:(lia)) as (s3 & Hrun & F3).
      eapply wpx_bind_ok; [exact Hrun|]. apply wpx_ret. right. split.
      * destruct tot; [|done]. specialize (Htot eq_refl). lia.
      * split; [done|]. exists (j + 1), e1, e0. split; [lia|done].
  - exists 0, fl, c1, c0. split; [lia|]. split; [done|]. split; [apply forked_0|lia].
  - rewrite Z.div_0_l by done. lia.
Qed.

End uvmcopy.

(** ** [cowfault] *)

(** The entry [cowfault] installs for its copy [pg]. *)
Definition own_pte (pg e : Z) : Z :=
  Z.lor (Z.lor (PA2PTE pg) (Z.land (PTE_FLAGS e) (Z.lnot PTE_COW))) PTE_W.

Lemma own_pte_bit pg e k : 0 <= k < 10 ->
  Z.testbit (own_pte pg e) k = Z.testbit e k && negb (k =? 8) || (k =? 2).
Proof.
  intros Hk. unfold own_pte. rewrite !Z.lor_spec, Z.land_spec, Z.lnot_spec, PA2PTE_low, PTE_FLAGS_bit by lia.
  change PTE_W with (2 ^ 2). change PTE_COW with (2 ^ 8). rewrite !Z.pow2_bits_eqb by lia.
  by rewrite (Z.eqb_sym 2), (Z.eqb_sym 8).
Qed.

Lemma own_flags_range e : 0 <= Z.lor (Z.land (PTE_FLAGS e) (Z.lnot PTE_COW)) PTE_W < 1024.
Proof.
  apply (lor_range _ _ 10); [lia| |done]. unfold PTE_FLAGS. rewrite <- Z.land_assoc, (Z.land_comm 0x3FF), Z.land_assoc.
  change 0x3FF with (Z.ones 10). rewrite Z.land_ones by lia. by apply Z.mod_pos_bound.
Qed.

Lemma own_pte_lor pg e : own_pte pg e = Z.lor (PA2PTE pg) (Z.lor (Z.land (PTE_FLAGS e) (Z.lnot PTE_COW)) PTE_W).
Proof. unfold own_pte. by rewrite Z.lor_assoc. Qed.

Lemma own_pte_PA pg e : is_page pg -> PTE2PA (own_pte pg e) = pg.
Proof. intros (H1 & H2 & H3). rewrite own_pte_lor. apply PTE2PA_PA2PTE; [done|clia|apply own_flags_range]. Qed.

Lemma own_pte_range pg e : is_page pg -> 0 <= own_pte pg e < 0x10000000000000000.
Proof.
  intros (H1 & H2 & H3). rewrite own_pte_lor. apply (lor_range _ _ 64); [lia| |].
  - pose proof (PA2PTE_range pg ltac:(clia)) as H. change (2 ^ 54) with 0x40000000000000 in H.
    change (2 ^ 64) with 0x10000000000000000. lia.
  - pose proof (own_flags_range e). change (2 ^ 64) with 0x10000000000000000. lia.
Qed.

Section cowfault.
Context (s : kstate) (root : Z) (t1 t0 : list Z) (va : Z) (Hva : 0 <= va < MAXVA).
Let v := va / PGSIZE.
Let e := ent (k_mem s) root v.

Lemma cowfault_page : PGROUNDDOWN va / PGSIZE = v /\ 0 <= PGROUNDDOWN va < MAXVA.
Proof.
  rewrite PGROUNDDOWN_eq. unfold v, PGSIZE. change MAXVA with 0x4000000000 in *. zlia.
Qed.

(** No copy-on-write page: -1, and nothing happens. *)
Lemma cowfault_refuses fl : vmem s fl root t1 t0 -> has e PTE_V && has e PTE_COW = false ->
  cowfault root va s = Ok (-1) s.
Proof.
  intros HV Hno. destruct cowfault_page as [Hpg Hrg]. unfold cowfault.
  rewrite (walk_ld64 s fl root t1 t0 HV) by done. rewrite Hpg. fold e.
  destruct (pte_addr (k_mem s) root v) as [a|]; [|done].
  destruct (has e PTE_V); [|done]. cbn [negb andb] in *. by rewrite Hno.
Qed.

(** A copy-on-write page and a free page [pg]: the process gets [pg] with the
    same bytes and may write to it; the old page loses one reference. *)
Lemma cowfault_copies pg fl : vmem s (pg :: fl) root t1 t0 ->
  has e PTE_V = true -> has e PTE_COW = true ->
  heap_page (PTE2PA e) -> PTE2PA e ∉ tables root t1 t0 -> 1 <= count_of s (PTE2PA e) ->
  exists s', cowfault root va s = Ok 0 s' /\ vmem s' fl root t1 t0 /\
    only_vm s s' /\
    (forall w, 0 <= w < NVPN -> ent (k_mem s') root w = if decide (w = v) then own_pte pg e else ent (k_mem s) root w) /\
    (forall i, 0 <= i < PGSIZE -> k_mem s' (pg + i) = k_mem s (PTE2PA e + i)) /\
    (forall x, (forall q, q ∈ pg :: tables root t1 t0 -> ~ in_page q x) -> k_mem s' x = k_mem s x) /\
    count_of s' pg = 1 /\ count_of s' (PTE2PA e) = count_of s (PTE2PA e) - 1 /\
    (forall q, is_page q -> q <> pg -> q <> PTE2PA e -> count_of s' q = count_of s q).
Proof.
  intros HV HeV HeC Hp Hpt Hcnt. destruct cowfault_page as [Hpg Hrg].
  assert (0 <= v < NVPN) as Hv by (by apply va_page_range).
  pose proof (pg_heap _ _ _ _ _ _ HV) as Hg. pose proof (pg_not_table _ _ _ _ _ _ HV) as Hgt.
  assert (PTE2PA e ∉ pg :: fl) as Hpf by (eapply free_not_counted; [apply HV|lia]).
  assert (pg <> PTE2PA e) as Hne by (intros E; apply Hpf; rewrite <- E; ielem).
  unfold cowfault. rewrite (walk_ld64 s (pg :: fl) root t1 t0 HV) by done. rewrite Hpg. fold e.
  destruct (pte_addr (k_mem s) root v) as [a|] eqn:Ea.
  2:{ unfold e, ent in HeV. by rewrite Ea in HeV. }
  rewrite HeV, HeC. cbn [negb]. run (kalloc_vmem _ _ _ _ _ _ HV).
  rewrite (proj2 (Z.eqb_neq pg 0)) by (pose proof (heap_page_range pg Hg); lia).
  set (m1 := mem_copy (k_mem (allocated pg s)) pg (PTE2PA e) PGSIZE).
  assert (same_outside pg PGSIZE (k_mem (allocated pg s)) m1) as Hm1 by apply mem_copy_outside.
  set (s1 := k_set_mem m1 (allocated pg s)).
  destruct (filled_vmem s pg fl root t1 t0 HV m1 Hm1) as (HV1 & Ha1 & HE1). fold s1 in HV1, Ha1, HE1.
  pose proof (filled_frame pg s m1 (proj1 Hg) Hm1) as HF1. fold s1 in HF1.
  assert (kmemmove pg (PTE2PA e) PGSIZE (allocated pg s) = Ok tt s1) as Hmv.
  { unfold kmemmove. by rewrite !page_in_ram by (apply Hg || apply Hp). }
  run Hmv. fold (own_pte pg e). rewrite <- Ha1 in Ea.
  run (set_entry_run s1 fl root t1 t0 HV1 v a Ea (own_pte pg e)). set (s2 := set_entry s1 a (own_pte pg e)).
  assert (count_of s2 (PTE2PA e) = count_of s (PTE2PA e)) as Hc2.
  { apply (fr_cnt _ _ _ HF1); [apply Hp|]. intros E%list_elem_of_singleton. congruence. }
  pose proof (set_entry_vmem s1 fl root t1 t0 HV1 v a Hv Ea (own_pte pg e)) as HV2. fold s2 in HV2.
  run (krefdec_ok (PTE2PA e) s2 (proj1 Hp) (proj1 (proj2 (vm_locks _ _ _ _ _ HV2))) ltac:(lia)).
  eexists. split; [reflexivity|]. rewrite Hc2.
  destruct (tables_kept s2 (with_count (PTE2PA e) (count_of s (PTE2PA e) - 1) s2) fl fl root t1 t0 HV2) as (HV3 & _ & HE3).
  { apply only_vm_count. }
  { intros t Ht. split; [done|]. apply count_with_count_ne; [apply Hp|by eapply (vmem_table_page _ _ _ _ _ t HV)|by intros ->]. }
  { apply with_count_ok; [apply HV2|apply Hp|]. intros Hin. apply Hpf. ielem. }
  assert (forall x, (forall q, q ∈ tables root t1 t0 -> ~ in_page q x) -> k_mem s2 x = m1 x) as Hms2.
  { intros x Hx. by apply (set_entry_mem s1 fl root t1 t0 HV1 v a Hv Ea). }
  split; [done|]. split; [|split; [|split; [|split; [|split; [|split]]]]].
  - eapply only_vm_trans; [apply HF1|]. eapply only_vm_trans; [apply only_vm_mem|apply only_vm_count].
  - intros w Hw. rewrite HE3. unfold s2.
    rewrite (set_entry_ent s1 fl root t1 t0 HV1 v a Hv Ea) by (done || by apply own_pte_range, Hg).
    by rewrite HE1.
  - intros i Hi. change (k_mem s2 (pg + i) = k_mem s (PTE2PA e + i)). rewrite Hms2.
    + unfold m1, mem_copy. rewrite in_range_true by lia. replace (PTE2PA e + (pg + i - pg)) with (PTE2PA e + i) by lia.
      apply mem_fill_outside. intros Hin. apply Hne, (in_page_inj pg (PTE2PA e) (PTE2PA e + i)); [apply Hg|apply Hp|done|].
      unfold in_page. lia.
    + intros q Hq Hin. eapply (pages_disjoint pg q); [apply Hg|by eapply (vmem_table_page _ _ _ _ _ q HV)| | |exact Hin].
      * by intros ->.
      * unfold in_page. lia.
  - intros x Hx. change (k_mem s2 x = k_mem s x). rewrite Hms2 by (intros; apply Hx; ielem).
    apply HF1. intros q ->%list_elem_of_singleton. apply Hx. ielem.
  - rewrite count_with_count_ne by (apply Hp || apply Hg || done). apply count_with_count.
  - apply count_with_count.
  - intros q Hq H1 H2. rewrite count_with_count_ne by (done || apply Hp).
    apply (fr_cnt _ _ _ HF1); [done|ielem].
Qed.

End cowfault.
End VmCow.
