(* ===== verification/VmCopy.v ===== *)
(** * Lazy allocation and copying to and from user space (kernel/vm.c)

    A process's memory as the bytes its page table reaches.  [copyin] and
    [copyinstr] read exactly those bytes; [vmfault] adds a zeroed page;
    [copyout] changes exactly the bytes it is asked to, after giving the
    process a copy of its own of every shared page in the range. *)

From S2P Require Import Prelude Riscv Mem KState Memstats Sched Bio PhysMem Kalloc Swap Vm.
From S2P Require Import PageTable Walk VmMap VmAlloc VmCow.

(** ** Definitions *)

(** Physical address of a user byte, and the byte. *)
Definition upa (m : mem) (root va : Z) : Z := PTE2PA (ent m root (va / PGSIZE)) + va mod PGSIZE.
Definition ubyte (m : mem) (root va : Z) : Z := load8 m (upa m root va).

(** The user may read the page of [va]. *)
Definition uvalid (m : mem) (root va : Z) : bool := user_leaf (ent m root (va / PGSIZE)).

(** [n] user bytes from [va] on. *)
Definition uread (m : mem) (root va n : Z) : list Z := map (ubyte m root) (seqZ va n).

(** ** Pages and chunks *)

Lemma uread_app m root va a b : 0 <= a -> 0 <= b ->
  uread m root va (a + b) = uread m root va a ++ uread m root (va + a) b.
Proof. intros Ha Hb. unfold uread. by rewrite seqZ_app, map_app. Qed.

Lemma length_uread m root va n : length (uread m root va n) = Z.to_nat n.
Proof. unfold uread. by rewrite length_map, length_seqZ. Qed.

Lemma uread_ext m m' root va n : (forall i, 0 <= i < n -> ubyte m' root (va + i) = ubyte m root (va + i)) ->
  uread m' root va n = uread m root va n.
Proof.
  intros H. unfold uread. apply map_ext_in. intros a Ha%list_elem_of_In%elem_of_seqZ.
  replace a with (va + (a - va)) by lia. apply H. lia.
Qed.

Lemma uread_bytes m root va bs :
  (forall i, 0 <= i < Z.of_nat (length bs) -> ubyte m root (va + i) = nth (Z.to_nat i) bs 0) ->
  uread m root va (Z.of_nat (length bs)) = bs.
Proof.
  revert va. induction bs as [|b bs IH]; intros va H; [done|].
  replace (Z.of_nat (length (b :: bs))) with (1 + Z.of_nat (length bs)) by (cbn; lia).
  rewrite uread_app by lia. change (uread m root va 1) with [ubyte m root va]. cbn [app]. f_equal.
  - specialize (H 0 ltac:(cbn; lia)). by rewrite Z.add_0_r in H.
  - apply IH. intros i Hi. rewrite <- Z.add_assoc, (H (1 + i)) by (cbn; lia).
    by replace (Z.to_nat (1 + i)) with (S (Z.to_nat i)) by lia.
Qed.

(** Bytes of one page lie together. *)
Lemma uread_chunk m root va n : 0 <= n -> va mod PGSIZE + n <= PGSIZE ->
  mem_read m (upa m root va) n = uread m root va n.
Proof.
  intros Hn Hp. unfold mem_read, uread.
  rewrite (seqZ_shift va), map_map. apply map_ext_in.
  intros i Hi%list_elem_of_In%elem_of_seqZ. unfold ubyte. f_equal. unfold upa.
  assert ((va + i) / PGSIZE = va / PGSIZE) as -> by (unfold PGSIZE in *; zlia).
  assert ((va + i) mod PGSIZE = va mod PGSIZE + i) as -> by (unfold PGSIZE in *; zlia). lia.
Qed.

Lemma PGROUNDDOWN_sub va : va - PGROUNDDOWN va = va mod PGSIZE.
Proof. rewrite PGROUNDDOWN_eq. unfold PGSIZE. zlia. Qed.

Lemma PGROUNDDOWN_page va : PGROUNDDOWN va / PGSIZE = va / PGSIZE.
Proof. rewrite PGROUNDDOWN_eq. unfold PGSIZE. zlia. Qed.

Lemma PGROUNDDOWN_range va : 0 <= va < MAXVA -> 0 <= PGROUNDDOWN va < MAXVA.
Proof. rewrite PGROUNDDOWN_eq. change MAXVA with 0x4000000000. zlia. Qed.

(** The bytes left in the page of [va], cut to [len]. *)
Definition chunk (va len : Z) : Z :=
  let n := PGSIZE - (va - PGROUNDDOWN va) in if n >? len then len else n.

Lemma chunk_bounds va len : 0 < len ->
  0 < chunk va len <= len /\ va mod PGSIZE + chunk va len <= PGSIZE /\
  (chunk va len < len -> PGROUNDDOWN va + PGSIZE = va + chunk va len).
Proof.
  intros Hlen. unfold chunk. rewrite PGROUNDDOWN_sub. pose proof (Z.mod_pos_bound va PGSIZE ltac:(done)).
  rewrite PGROUNDDOWN_eq. unfold PGSIZE in *. rewrite Z.gtb_ltb.
  destruct (Z.ltb_spec len (4096 - va mod 4096)); zlia.
Qed.

(** The inner loop of [copyinstr]. *)
Lemma copy_until_nul_none bs : Forall (fun b => b <> 0) bs -> copy_until_nul bs = (bs, false).
Proof.
  induction 1 as [|b bs Hb _ IH]; [done|]. cbn. by rewrite (proj2 (Z.eqb_neq b 0) Hb), IH.
Qed.

Lemma copy_until_nul_found bs rest : Forall (fun b => b <> 0) bs ->
  copy_until_nul (bs ++ 0 :: rest) = (bs ++ [0], true).
Proof.
  induction 1 as [|b bs Hb _ IH]; [done|]. cbn. by rewrite (proj2 (Z.eqb_neq b 0) Hb), IH.
Qed.

Section VmCopy.
Context {LAY : Layout} {ENV : Env}.

(** ** Reading user memory *)

Section read.
Context (s : kstate) (fl : list Z) (root : Z) (t1 t0 : list Z) (HV : vmem s fl root t1 t0).

Lemma walkaddr_ok va : 0 <= va ->
  walkaddr root va s =
    Ok (if (va <? MAXVA) && uvalid (k_mem s) root va then PTE2PA (ent (k_mem s) root (va / PGSIZE)) else 0) s.
Proof.
  intros Hva. unfold walkaddr, uvalid, user_leaf. rewrite Z.geb_leb.
  destruct (Z.leb_spec MAXVA va); destruct (Z.ltb_spec va MAXVA); try lia; [done|].
  rewrite (walk_ld64 s fl root t1 t0 HV) by lia. cbn [andb].
  destruct (pte_addr (k_mem s) root (va / PGSIZE)) as [a|] eqn:Ea.
  - by destruct (has _ PTE_V), (has _ PTE_U).
  - unfold ent. by rewrite Ea.
Qed.

(** Every user page lies in RAM. *)
Definition in_user (va : Z) : Prop :=
  0 <= va < MAXVA /\ uvalid (k_mem s) root va = true /\ is_page (PTE2PA (ent (k_mem s) root (va / PGSIZE))).

Lemma in_user_page va : in_user va -> in_user (PGROUNDDOWN va).
Proof.
  intros (H1 & H2 & H3). unfold in_user, uvalid in *. rewrite PGROUNDDOWN_page.
  split; [by apply PGROUNDDOWN_range|done].
Qed.

Lemma walkaddr_user va : in_user va ->
  walkaddr root (PGROUNDDOWN va) s = Ok (PTE2PA (ent (k_mem s) root (va / PGSIZE))) s.
Proof.
  intros Hu. destruct (in_user_page va Hu) as (H1 & H2 & _). rewrite walkaddr_ok by lia.
  rewrite (proj2 (Z.ltb_lt _ _)) by lia. rewrite H2. cbn [andb]. by rewrite PGROUNDDOWN_page.
Qed.

Lemma kread_user va len : in_user va -> 0 < len ->
  kread (PTE2PA (ent (k_mem s) root (va / PGSIZE)) + (va - PGROUNDDOWN va)) (chunk va len) s
  = Ok (uread (k_mem s) root va (chunk va len)) s.
Proof.
  intros (H1 & H2 & H3) Hlen. destruct (chunk_bounds va len Hlen) as (Hc & Hp & _).
  unfold kread. rewrite PGROUNDDOWN_sub. pose proof (Z.mod_pos_bound va PGSIZE ltac:(done)).
  rewrite (in_ram_page _ _ _ H3) by lia. by rewrite <- uread_chunk by lia.
Qed.

(** [copyin] of a range of user pages returns its bytes and changes nothing. *)
Lemma copyin_ok va len : 0 <= len -> (forall i, 0 <= i < len -> in_user (va + i)) ->
  copyin root va len s = Ok (0, uread (k_mem s) root va len) s.
Proof.
  intros Hlen Hu. unfold copyin. apply wpx_run.
  apply (wpx_iter true (fun '(a, l, dst) s' => s' = s /\ exists d, 0 <= d <= len /\ l = len - d /\
      dst = uread (k_mem s) root va d /\ (0 < l -> a = va + d))
    (fun '(_, l, _) => Z.to_nat l)).
  - intros [[a l] dst] s' (-> & d & Hd & -> & -> & Ha). rewrite Z.gtb_ltb.
    destruct (Z.ltb_spec 0 (len - d)) as [Hpos|Hz].
    + rewrite (Ha Hpos). assert (in_user (va + d)) as Hin by (apply Hu; lia).
      eapply wpx_bind_ok; [by apply walkaddr_user|].
      assert (PTE2PA (ent (k_mem s) root ((va + d) / PGSIZE)) <> 0) as Hne.
      { destruct Hin as (_ & _ & (_ & H & _)). clia. }
      rewrite (proj2 (Z.eqb_neq _ _) Hne). eapply wpx_bind_ok; [done|].
      rewrite (proj2 (Z.eqb_neq _ _) Hne). fold (chunk (va + d) (len - d)).
      eapply wpx_bind_ok; [by apply kread_user|]. apply wpx_ret.
      destruct (chunk_bounds (va + d) (len - d) Hpos) as (Hc & _ & Hnext).
      split; [|lia]. split; [done|]. exists (d + chunk (va + d) (len - d)).
      split; [lia|]. split; [lia|]. split; [by rewrite uread_app by lia|].
      intros Hmore. rewrite Hnext by lia. rewrite u64_small; [lia|].
      destruct (Hu (d + chunk (va + d) (len - d)) ltac:(lia)) as (H1 & _).
      change MAXVA with 0x4000000000 in H1. lia.
    + apply wpx_ret. by assert (d = len) as -> by lia.
  - split; [done|]. exists 0. split; [lia|]. split; [lia|]. split; [done|]. intros _. lia.
  - lia.
Qed.

(** ** Strings *)

Lemma uread_nonzero va n : (forall i, 0 <= i < n -> ubyte (k_mem s) root (va + i) <> 0) ->
  Forall (fun b => b <> 0) (uread (k_mem s) root va n).
Proof.
  intros H. unfold uread. apply Forall_forall. intros b Hb.
  apply list_elem_of_In, in_map_iff in Hb as (i & <- & Hi%list_elem_of_In%elem_of_seqZ).
  replace i with (va + (i - va)) by lia. apply H. lia.
Qed.

Lemma copyinstr_found va max k : 0 <= k < max ->
  (forall i, 0 <= i <= k -> in_user (va + i)) ->
  (forall i, 0 <= i < k -> ubyte (k_mem s) root (va + i) <> 0) -> ubyte (k_mem s) root (va + k) = 0 ->
  copyinstr root va max s = Ok (0, uread (k_mem s) root va (k + 1)) s.
Proof.
  intros Hk Hu Hnz Hz. unfold copyinstr. apply wpx_run.
  apply (wpx_iter true (fun '(a, l, dst) s' => s' = s /\ exists d, 0 <= d <= k /\ l = max - d /\
      dst = uread (k_mem s) root va d /\ a = va + d) (fun '(_, l, _) => Z.to_nat l)).
  - intros [[a l] dst] s' (-> & d & Hd & -> & -> & ->). rewrite Z.gtb_ltb, (proj2 (Z.ltb_lt 0 _)) by lia.
    assert (in_user (va + d)) as Hin by (apply Hu; lia).
    eapply wpx_bind_ok; [by apply walkaddr_user|].
    assert (PTE2PA (ent (k_mem s) root ((va + d) / PGSIZE)) <> 0) as Hne.
    { destruct Hin as (_ & _ & (_ & H & _)). clia. }
    rewrite (proj2 (Z.eqb_neq _ _) Hne). fold (chunk (va + d) (max - d)).
    eapply wpx_bind_ok; [apply kread_user; [done|lia]|].
    destruct (chunk_bounds (va + d) (max - d) ltac:(lia)) as (Hc & _ & Hnext).
    set (c := chunk (va + d) (max - d)) in *. destruct (Z.lt_ge_cases k (d + c)) as [Hin'|Hout].
    + replace c with ((k - d) + (1 + (c - (k - d) - 1))) by lia. rewrite uread_app by lia.
      replace (va + d + (k - d)) with (va + k) by lia.
      rewrite (uread_app _ _ _ 1) by lia. change (uread (k_mem s) root (va + k) 1) with [ubyte (k_mem s) root (va + k)].
      rewrite Hz. cbn [app]. rewrite copy_until_nul_found.
      2:{ apply uread_nonzero. intros i Hi. rewrite <- Z.add_assoc. apply Hnz. lia. }
      apply wpx_ret. split; [|done]. f_equal. rewrite app_assoc, <- uread_app by lia.
      replace (d + (k - d)) with k by lia. rewrite uread_app by lia. f_equal.
      change (uread (k_mem s) root (va + k) 1) with [ubyte (k_mem s) root (va + k)]. by rewrite Hz.
    + rewrite copy_until_nul_none.
      2:{ apply uread_nonzero. intros i Hi. rewrite <- Z.add_assoc. apply Hnz. lia. }
      apply wpx_ret. split; [|lia]. split; [done|]. exists (d + c).
      split; [lia|]. split; [lia|]. split; [by rewrite uread_app by lia|].
      rewrite Hnext by lia. rewrite u64_small; [lia|].
      destruct (Hu (d + c) ltac:(lia)) as (H1 & _). change MAXVA with 0x4000000000 in H1. lia.
  - split; [done|]. exists 0. split; [lia|]. split; [lia|]. split; [done|]. lia.
  - lia.
Qed.

End read.

(** ** The memory of a process *)

(** The user pages of a page table are pages of their own: none is a table,
    all are counted, and no two page numbers share one. *)
Record uspace (s : kstate) (fl : list Z) (root : Z) (t1 t0 : list Z) : Prop := {
  us_vm : vmem s fl root t1 t0;
  us_leaf : forall w, 0 <= w < NVPN -> user_leaf (ent (k_mem s) root w) = true ->
    let q := PTE2PA (ent (k_mem s) root w) in
    heap_page q /\ (q ∉ tables root t1 t0) /\ 1 <= count_of s q;
  us_inj : forall w w', 0 <= w < NVPN -> 0 <= w' < NVPN ->
    user_leaf (ent (k_mem s) root w) = true -> user_leaf (ent (k_mem s) root w') = true ->
    PTE2PA (ent (k_mem s) root w) = PTE2PA (ent (k_mem s) root w') -> w = w'
}.

(** It depends on memory, the free list, the counts and the allocator's locks. *)
Lemma uspace_same s s' fl root t1 t0 : uspace s fl root t1 t0 -> k_mem s' = k_mem s -> k_freelist s' = k_freelist s ->
  k_refcount s' = k_refcount s -> alloc_locks_free s' -> uspace s' fl root t1 t0.
Proof.
  intros [[[] ? ? ?] ? ?] Em Ef Ec Hl. assert (forall p, count_of s' p = count_of s p) as Hc by (intros p; unfold count_of; by rewrite Ec).
  split; [split; [split| | |]| |]; rewrite ?Em, ?Ef; try done.
  - rewrite Forall_forall in *. intros p Hp. rewrite Hc. auto.
  - intros t Ht. rewrite Hc. auto.
  - intros w Hw Hu. cbv zeta. rewrite Hc. auto.
Qed.

(** A step that changes page [v] at most, and keeps the other user pages. *)
Lemma uspace_step s fl root t1 t0 s' fl' t1' t0' v :
  uspace s fl root t1 t0 -> vmem s' fl' root t1' t0' -> 0 <= v < NVPN ->
  (forall w, 0 <= w < NVPN -> w <> v -> ent (k_mem s') root w = ent (k_mem s) root w) ->
  (forall w, 0 <= w < NVPN -> w <> v -> user_leaf (ent (k_mem s) root w) = true ->
     let q := PTE2PA (ent (k_mem s) root w) in
     agree_on q PGSIZE (k_mem s) (k_mem s') /\ 1 <= count_of s' q /\ (q ∉ tables root t1' t0')) ->
  (user_leaf (ent (k_mem s') root v) = true ->
     let q := PTE2PA (ent (k_mem s') root v) in
     heap_page q /\ (q ∉ tables root t1' t0') /\ 1 <= count_of s' q /\
     forall w, 0 <= w < NVPN -> w <> v -> user_leaf (ent (k_mem s) root w) = true ->
       PTE2PA (ent (k_mem s) root w) <> q) ->
  uspace s' fl' root t1' t0' /\
  (forall va, 0 <= va < MAXVA -> va / PGSIZE <> v -> uvalid (k_mem s) root va = true ->
     uvalid (k_mem s') root va = true /\ ubyte (k_mem s') root va = ubyte (k_mem s) root va).
Proof.
  intros U HV Hv HE Hold Hnew. split.
  - split; [done| |].
    + intros w Hw. destruct (decide (w = v)) as [->|Hne].
      * intros Hu. destruct (Hnew Hu) as (H1 & H2 & H3 & _). done.
      * rewrite HE by done. intros Hu q. destruct (us_leaf _ _ _ _ _ U w Hw Hu) as (H1 & _).
        destruct (Hold w Hw Hne Hu) as (_ & H2 & H3). done.
    + intros w w' Hw Hw'. destruct (decide (w = v)) as [->|Hne]; destruct (decide (w' = v)) as [->|Hne']; [done|..].
      * rewrite (HE w') by done. intros Hu Hu' E. destruct (Hnew Hu) as (_ & _ & _ & H). exfalso.
        by apply (H w' Hw' Hne' Hu').
      * rewrite (HE w) by done. intros Hu Hu' E. destruct (Hnew Hu') as (_ & _ & _ & H). exfalso.
        by apply (H w Hw Hne Hu).
      * rewrite !HE by done. by apply U.
  - intros va Hva Hne Hu. pose proof (va_page_range va Hva) as Hw. unfold uvalid, ubyte, upa in *.
    rewrite HE by done. split; [done|]. destruct (Hold _ Hw Hne Hu) as (H1 & _). unfold load8.
    rewrite (H1 (PTE2PA (ent (k_mem s) root (va / PGSIZE)) + va mod PGSIZE)); [done|].
    pose proof (Z.mod_pos_bound va PGSIZE ltac:(done)). lia.
Qed.

(** A user page is neither free nor a table. *)
Lemma leaf_private s fl root t1 t0 w : uspace s fl root t1 t0 -> 0 <= w < NVPN ->
  user_leaf (ent (k_mem s) root w) = true -> PTE2PA (ent (k_mem s) root w) ∉ fl ++ tables root t1 t0.
Proof.
  intros U Hw Hu. destruct (us_leaf _ _ _ _ _ U w Hw Hu) as (_ & H1 & H2). intros [Hin|Hin]%elem_of_app; [|done].
  eapply free_not_counted; [apply (us_vm _ _ _ _ _ U)| |done]. lia.
Qed.

Lemma fl_tables_pages s fl root t1 t0 q : vmem s fl root t1 t0 -> q ∈ fl ++ tables root t1 t0 -> is_page q.
Proof.
  intros HV [Hq|Hq]%elem_of_app; [eapply free_is_heap; [apply HV|done]|by eapply (vmem_table_page _ _ _ _ _ q HV)].
Qed.

(** Only free pages and tables change: every user page stays. *)
Lemma uspace_frame s fl root t1 t0 s' fl' t1' t0' v :
  uspace s fl root t1 t0 -> vmem s' fl' root t1' t0' -> 0 <= v < NVPN ->
  frame (fl ++ tables root t1 t0) s s' ->
  (forall t, t ∈ tables root t1' t0' -> t ∈ tables root t1 t0 \/ t ∈ fl) ->
  (forall w, 0 <= w < NVPN -> w <> v -> ent (k_mem s') root w = ent (k_mem s) root w) ->
  (user_leaf (ent (k_mem s') root v) = true ->
     let q := PTE2PA (ent (k_mem s') root v) in
     q ∈ fl /\ (q ∉ tables root t1' t0') /\ 1 <= count_of s' q) ->
  uspace s' fl' root t1' t0' /\
  (forall va, 0 <= va < MAXVA -> va / PGSIZE <> v -> uvalid (k_mem s) root va = true ->
     uvalid (k_mem s') root va = true /\ ubyte (k_mem s') root va = ubyte (k_mem s) root va).
Proof.
  intros U HV Hv HF Ht HE Hnew. pose proof (us_vm _ _ _ _ _ U) as HV0.
  eapply (uspace_step s); try done.
  - intros w Hw Hne Hu q. destruct (us_leaf _ _ _ _ _ U w Hw Hu) as (H1 & H2 & H3).
    pose proof (leaf_private _ _ _ _ _ _ U Hw Hu) as Hp. fold q in H1, H2, H3, Hp.
    split; [apply (frame_page _ _ _ _ HF); [intros r; by eapply fl_tables_pages|apply H1|done]|].
    split; [rewrite (fr_cnt _ _ _ HF); [done|apply H1|done]|].
    intros [?|?]%Ht; apply Hp; ielem.
  - intros Hu q. destruct (Hnew Hu) as (H1 & H2 & H3). fold q in H1, H2, H3.
    split; [eapply free_is_heap; [apply HV0|done]|]. split; [done|]. split; [done|].
    intros w Hw Hne Huw E. apply (leaf_private _ _ _ _ _ _ U Hw Huw). rewrite E. ielem.
Qed.

(** ** [vmfault] *)

(** The permissions of a lazily allocated page. *)
Definition lazy_perm : Z := Z.lor (Z.lor PTE_W PTE_U) PTE_R.

Section vmfault.
Context (s : kstate) (fl : list Z) (root : Z) (t1 t0 : list Z) (U : uspace s fl root t1 t0).
Context (i va : Z) (Hcur : k_cur s = Some i) (Hva : 0 <= va < MAXVA).
Let v := va / PGSIZE.

Lemma ismapped_ok : ismapped root (PGROUNDDOWN va) s = Ok (has (ent (k_mem s) root v) PTE_V) s.
Proof.
  unfold ismapped. rewrite (walk_ld64 s fl root t1 t0) by (apply U || by apply PGROUNDDOWN_range).
  rewrite PGROUNDDOWN_page. fold v. destruct (pte_addr (k_mem s) root v) as [a|] eqn:Ea; [done|].
  unfold ent. by rewrite Ea.
Qed.

(** Outside the process, or on a mapped page: 0, and nothing happens. *)
Lemma vmfault_refuses : p_sz (k_procs s i) <= va \/ has (ent (k_mem s) root v) PTE_V = true ->
  vmfault root va s = Ok 0 s.
Proof.
  intros H. unfold vmfault, curproc, myproc, bind at 1 2, gets at 1. rewrite Hcur.
  unfold ret at 1, bind at 1, gets at 1. rewrite Z.geb_leb.
  destruct (Z.leb_spec (p_sz (k_procs s i)) va); [done|]. destruct H as [|H]; [lia|].
  run ismapped_ok. by rewrite H.
Qed.

(** Otherwise it maps a zeroed page of its own, or fails for lack of memory
    with every entry and every user byte as before. *)
Lemma vmfault_spec tot :
  p_pagetable (k_procs s i) = root -> va < p_sz (k_procs s i) ->
  has (ent (k_mem s) root v) PTE_V = false -> (tot = true -> 3 <= length fl)%nat ->
  wpx tot (vmfault root va) (fun r s' => exists fl' t1' t0',
    uspace s' fl' root t1' t0' /\ only_vm s s' /\
    (forall w, 0 <= w < NVPN -> w <> v -> ent (k_mem s') root w = ent (k_mem s) root w) /\
    (forall a, 0 <= a < MAXVA -> uvalid (k_mem s) root a = true ->
       uvalid (k_mem s') root a = true /\ ubyte (k_mem s') root a = ubyte (k_mem s) root a) /\
    ((r <> 0 /\ is_page r /\ ent (k_mem s') root v = leaf_pte r lazy_perm /\ zero_page (k_mem s') r /\
        (length fl <= length fl' + 3)%nat) \/
     (tot = false /\ r = 0 /\ ent (k_mem s') root v = ent (k_mem s) root v))) s.
Proof.
  intros Hpt Hsz Hnv Htot. pose proof (us_vm _ _ _ _ _ U) as HV.
  assert (0 <= v < NVPN) as Hv by (by apply va_page_range).
  assert (forall a, 0 <= a < MAXVA -> uvalid (k_mem s) root a = true -> a / PGSIZE <> v) as Hother.
  { intros a Ha Hu E. unfold uvalid, user_leaf in Hu. rewrite E, Hnv in Hu. done. }
  unfold vmfault, curproc, myproc. eapply wpx_bind_ok.
  { unfold bind, gets. rewrite Hcur. done. }
  eapply wpx_bind_ok; [done|]. rewrite Z.geb_leb, (proj2 (Z.leb_gt _ _)) by lia.
  eapply wpx_bind_ok; [apply ismapped_ok|]. rewrite Hnv. rewrite Hpt.
  replace (PGROUNDDOWN va) with (v * PGSIZE) by (rewrite PGROUNDDOWN_eq; unfold v, PGSIZE; lia).
  destruct fl as [|pg fl1].
  { assert (tot = false) as -> by (destruct tot; [specialize (Htot eq_refl); cbn in Htot; lia|done]).
    eapply kalloc_empty_wpx; [done|]. apply wpx_ret. exists [], t1, t0. split; [done|].
    split; [apply only_vm_refl|]. split; [done|]. split; [done|]. by right. }
  pose proof (pg_heap _ _ _ _ _ _ HV) as Hpg. pose proof (pg_not_fl _ _ _ _ _ _ HV) as Hpf.
  pose proof (pg_not_table _ _ _ _ _ _ HV) as Hgt.
  destruct (fresh_vmem _ _ _ _ _ _ HV) as (HVf & _ & HEf).
  unfold wpx. rewrite (fresh_run _ _ _ _ _ _ HV). apply (wpx_bind tot).
  eapply wpx_mono.
  { apply (map_one tot (fresh pg s) fl1 root t1 t0 v pg lazy_perm HVf Hv (proj1 Hpg)).
    - by vm_compute.
    - by rewrite HEf.
    - intros E. specialize (Htot E). cbn in Htot. lia. }
  intros r s2 (fl2 & w1 & w0 & HV2 & HF2 & HL2 & Hres).
  assert (frame ((pg :: fl1) ++ tables root t1 t0) s s2) as HF.
  { eapply frame_trans; (eapply frame_mono; [|first [apply fresh_frame, Hpg|by eapply vframe_frame]]); intros; ielem. }
  assert (forall t, t ∈ tables root w1 w0 -> t ∈ tables root t1 t0 \/ t ∈ pg :: fl1) as Hts.
  { intros t [?|?]%(vf_tables _ _ _ _ _ _ HF2); [by left|right; ielem]. }
  assert (count_of s2 pg = 1) as Hc2.
  { rewrite (vf_cnt _ _ _ _ _ _ HF2); [apply fresh_count|apply Hpg|done]. }
  assert (pg ∉ tables root w1 w0) as Hgw by (by intros [?|?]%(vf_tables _ _ _ _ _ _ HF2)).
  destruct Hres as [(-> & HE)|(-> & -> & Hshort & HE)].
  - apply wpx_ret. assert (PTE2PA (leaf_pte pg lazy_perm) = pg) as Hpa.
    { destruct Hpg as ((H1 & H2 & H3) & _). apply leaf_pte_PA; [done|clia|by vm_compute]. }
    assert (ent (k_mem s2) root v = leaf_pte pg lazy_perm) as Hev by (rewrite HE by done; by rewrite decide_True).
    destruct (uspace_frame s (pg :: fl1) root t1 t0 s2 fl2 w1 w0 v U HV2 Hv HF Hts) as (U2 & Hub).
    + intros w Hw Hne. rewrite HE by done. rewrite decide_False by done. apply HEf.
    + intros _. cbv zeta. rewrite Hev, Hpa, Hc2. split; [ielem|done].
    + exists fl2, w1, w0. split; [done|]. split; [apply HF|]. split; [|split].
      * intros w Hw Hne. rewrite HE by done. rewrite decide_False by done. apply HEf.
      * intros a Ha Hu. apply Hub; [done|by apply Hother|done].
      * left. split; [pose proof (heap_page_range pg Hpg); lia|]. split; [apply Hpg|]. split; [done|].
        split; [|cbn; lia]. intros x Hx. unfold load8.
        rewrite (frame_page _ _ _ pg (vframe_frame _ _ _ _ _ _ HF2)); [by apply fresh_zero| |apply Hpg|ielem|done].
        intros q. by eapply fl_tables_pages.
  - change (negb (-1 =? 0)) with true. cbv iota.
    destruct (kfree_spec s2 [] pg) as (s3 & Hk & HF3 & _ & Ha3 & _); [apply HV2|apply HV2|done|lia|].
    rewrite decide_True in Ha3 by done. eapply wpx_bind_ok; [exact Hk|]. apply wpx_ret.
    destruct (frame_vmem [pg] s2 s3 [] [pg] root w1 w0 HV2 HF3) as (HV3 & _ & HE3);
      [by intros q ->%list_elem_of_singleton; apply Hpg|by intros q ->%list_elem_of_singleton|done|].
    assert (frame ((pg :: fl1) ++ tables root t1 t0) s s3) as HF'.
    { eapply frame_trans; [done|]. eapply frame_mono; [|done]. intros q ->%list_elem_of_singleton. ielem. }
    assert (forall w, 0 <= w < NVPN -> ent (k_mem s3) root w = ent (k_mem s) root w) as HE'.
    { intros w Hw. by rewrite HE3, HE, HEf. }
    destruct (uspace_frame s (pg :: fl1) root t1 t0 s3 [pg] w1 w0 v U HV3 Hv HF' Hts) as (U3 & Hub).
    + intros w Hw Hne. by apply HE'.
    + rewrite HE' by done. unfold user_leaf. by rewrite Hnv.
    + exists [pg], w1, w0. split; [done|]. split; [apply HF'|]. split; [intros w Hw _; by apply HE'|].
      split; [intros a Ha Hu; apply Hub; [done|by apply Hother|done]|].
      right. split; [|split; [done|by apply HE']].
      destruct tot; [|done]. specialize (Htot eq_refl). cbn in Htot. lia.
Qed.

End vmfault.
(** ** [copyout] *)

(** [copyout] can write to page [v]: it is mapped for the user and writable or
    shared, or it lies in the current process and is not allocated yet. *)
Definition page_ready (s : kstate) (root v : Z) : Prop :=
  let e := ent (k_mem s) root v in
  (has e PTE_V = true /\ has e PTE_U = true /\ (has e PTE_COW = true \/ has e PTE_W = true)) \/
  (has e PTE_V = false /\ exists i, k_cur s = Some i /\ p_pagetable (k_procs s i) = root /\
     v * PGSIZE < p_sz (k_procs s i)).

(** What preparing page [v] for writing ends in. *)
Definition prepared (s : kstate) (fl : list Z) (root v : Z) (pa : Z) (s1 : kstate) (fl1 u1 u0 : list Z) : Prop :=
  uspace s1 fl1 root u1 u0 /\ only_vm s s1 /\
  user_leaf (ent (k_mem s1) root v) = true /\ has (ent (k_mem s1) root v) PTE_W = true /\
  pa = PTE2PA (ent (k_mem s1) root v) /\
  (forall w, 0 <= w < NVPN -> w <> v -> ent (k_mem s1) root w = ent (k_mem s) root w) /\
  (forall a, 0 <= a < MAXVA -> uvalid (k_mem s) root a = true ->
     uvalid (k_mem s1) root a = true /\ ubyte (k_mem s1) root a = ubyte (k_mem s) root a) /\
  (length fl <= length fl1 + 3)%nat.

Lemma entry_read s fl root t1 t0 v a : vmem s fl root t1 t0 -> pte_addr (k_mem s) root v = Some a ->
  ld64 a s = Ok (ent (k_mem s) root v) s /\ a <> 0.
Proof.
  intros HV Ha. destruct (pte_addr_ram _ _ _ _ (vm_pt _ _ _ _ _ HV) _ _ Ha) as [Hr Hn].
  split; [|done]. unfold ld64, ent. by rewrite Hr, Ha.
Qed.

Lemma valid_entry s root v : has (ent (k_mem s) root v) PTE_V = true -> exists a, pte_addr (k_mem s) root v = Some a.
Proof. unfold ent. destruct (pte_addr (k_mem s) root v) as [a|]; [by exists a|done]. Qed.

(** Sharing undone by [cowfault]. *)
Lemma cowfault_uspace s pg fl root t1 t0 v (e := ent (k_mem s) root v) :
  uspace s (pg :: fl) root t1 t0 -> 0 <= v < NVPN ->
  has e PTE_V = true -> has e PTE_U = true -> has e PTE_COW = true ->
  exists s1, cowfault root (v * PGSIZE) s = Ok 0 s1 /\ prepared s (pg :: fl) root v pg s1 fl t1 t0 /\
    ent (k_mem s1) root v = own_pte pg e.
Proof.
  intros U Hv HeV HeU HeC. pose proof (us_vm _ _ _ _ _ U) as HV.
  assert (user_leaf e = true) as Hu by (unfold user_leaf; by rewrite HeV, HeU).
  destruct (us_leaf _ _ _ _ _ U v Hv Hu) as (Hp & Hpt & Hcnt). fold e in Hp, Hpt, Hcnt.
  destruct (cowfault_copies s root t1 t0 (v * PGSIZE) (page_number_range v Hv) pg fl)
    as (s1 & Hrun & HV1 & Ho & HE & Hcopy & Hmem & Hc1 & Hc2 & Hc3); rewrite ?page_mul_div; try done.
  rewrite page_mul_div in *. fold e in Hcopy, Hc2, Hc3, HE. exists s1. split; [done|].
  pose proof (pg_heap _ _ _ _ _ _ HV) as Hg. pose proof (pg_not_table _ _ _ _ _ _ HV) as Hgt.
  assert (ent (k_mem s1) root v = own_pte pg e) as Hev by (rewrite HE by done; by rewrite decide_True).
  assert (user_leaf (own_pte pg e) = true) as Hu1.
  { unfold user_leaf. rewrite has_V, has_U, !own_pte_bit by lia. rewrite <- has_V, <- has_U, HeV, HeU. done. }
  assert (PTE2PA (own_pte pg e) = pg) as Hpa by apply own_pte_PA, Hg.
  assert (forall w, 0 <= w < NVPN -> user_leaf (ent (k_mem s) root w) = true ->
    PTE2PA (ent (k_mem s) root w) <> pg) as Hne.
  { intros w Hw Huw E. apply (leaf_private _ _ _ _ _ _ U Hw Huw). rewrite E. ielem. }
  destruct (uspace_step s (pg :: fl) root t1 t0 s1 fl t1 t0 v U HV1 Hv) as (U1 & Hub).
  - intros w Hw Hwv. rewrite HE by done. by rewrite decide_False.
  - intros w Hw Hwv Huw q. destruct (us_leaf _ _ _ _ _ U w Hw Huw) as (H1 & H2 & H3). fold q in H1, H2, H3.
    assert (q <> pg) as Hq1 by (by apply Hne).
    assert (q <> PTE2PA e) as Hq2 by (intros E; by apply Hwv, (us_inj _ _ _ _ _ U)).
    split; [|split; [rewrite Hc3 by (done || apply H1); done|done]].
    intros x Hx. apply Hmem. intros r Hr. eapply (pages_disjoint q r); [apply H1| | |done].
    + apply elem_of_cons in Hr as [->|Hr]; [apply Hg|by eapply (vmem_table_page _ _ _ _ _ r HV)].
    + intros <-. by apply elem_of_cons in Hr as [?|?].
  - intros _. cbv zeta. rewrite Hev, Hpa, Hc1. split; [done|]. split; [done|]. split; [done|].
    intros w Hw Hwv Huw. by apply Hne.
  - split; [|done]. split; [done|]. split; [done|]. rewrite Hev. split; [done|]. split; [|split; [done|split; [|split]]].
    + rewrite has_W, own_pte_bit by lia. cbn. apply orb_true_r.
    + intros w Hw Hwv. rewrite HE by done. by rewrite decide_False.
    + intros a Ha Hua. destruct (decide (a / PGSIZE = v)) as [Ea|Ea]; [|by apply Hub].
      unfold uvalid, ubyte, upa in *. rewrite Ea, Hev, Hpa. split; [done|]. fold e. unfold load8.
      rewrite Hcopy; [done|]. apply Z.mod_pos_bound. done.
    + cbn. lia.
Qed.

(** The first lookup of [copyout_page]. *)
Lemma first_lookup {A} s fl root t1 t0 v (k : Z -> Z -> K A) : vmem s fl root t1 t0 -> 0 <= v < NVPN ->
  (pte <- walk root (v * PGSIZE) false ;;
   e <- (if pte =? 0 then ret 0 else ld64 pte) ;; k pte e) s =
  k (default 0 (pte_addr (k_mem s) root v)) (ent (k_mem s) root v) s.
Proof.
  intros HV Hv. unfold bind at 1. rewrite (walk_ok s fl root t1 t0 HV) by (by apply page_number_range).
  rewrite page_mul_div. destruct (pte_addr (k_mem s) root v) as [a|] eqn:Ea; cbn [default].
  - destruct (entry_read s fl root t1 t0 v a HV Ea) as [Hr Hn].
    unfold default, id. rewrite (proj2 (Z.eqb_neq a 0)) by done. by run Hr.
  - unfold ent. by rewrite Ea.
Qed.

(** The last lookups: [walkaddr], the entry's address, and its W bit. *)
Lemma walkaddr_leaf s fl root t1 t0 v : uspace s fl root t1 t0 -> 0 <= v < NVPN ->
  user_leaf (ent (k_mem s) root v) = true ->
  walkaddr root (v * PGSIZE) s = Ok (PTE2PA (ent (k_mem s) root v)) s /\
  PTE2PA (ent (k_mem s) root v) <> 0.
Proof.
  intros U Hv Hu. destruct (us_leaf _ _ _ _ _ U v Hv Hu) as (Hp & _).
  pose proof (page_number_range v Hv) as Hr. split; [|pose proof (heap_page_range _ Hp); lia].
  rewrite (walkaddr_ok s fl root t1 t0) by (apply U || lia).
  rewrite (proj2 (Z.ltb_lt _ _)) by lia. unfold uvalid. rewrite page_mul_div, Hu. done.
Qed.

(** A page the process may write as it is. *)
Definition open_page (s : kstate) (root v : Z) : Prop :=
  let e := ent (k_mem s) root v in user_leaf e = true /\ has e PTE_W = true /\ has e PTE_COW = false.

Lemma copyout_page_open s fl root t1 t0 v : uspace s fl root t1 t0 -> 0 <= v < NVPN -> open_page s root v ->
  copyout_page root (v * PGSIZE) s = Ok (Some (PTE2PA (ent (k_mem s) root v))) s.
Proof.
  intros U Hv (Hu & HeW & HeC). pose proof (us_vm _ _ _ _ _ U) as HV. unfold copyout_page.
  rewrite (first_lookup s fl root t1 t0 v) by done.
  assert (has (ent (k_mem s) root v) PTE_V = true) as HeV by (by apply andb_true_iff in Hu as [? _]).
  rewrite HeV. cbn [negb]. destruct (valid_entry s root v HeV) as [a Ea]. rewrite Ea. unfold default, id.
  destruct (entry_read s fl root t1 t0 v a HV Ea) as [Hr Hn].
  destruct (walkaddr_leaf s fl root t1 t0 v U Hv Hu) as [Hwa Hnz].
  rewrite (proj2 (Z.eqb_neq a 0) Hn). cbn [orb]. unfold bind at 1, bind at 1. rewrite Hwa.
  rewrite (proj2 (Z.eqb_neq _ 0) Hnz). unfold ret at 1. run Hr. rewrite HeC. unfold ret at 1. unfold bind at 1. run Hr. by rewrite HeW.
Qed.

Lemma copyout_page_ok s fl root t1 t0 v : uspace s fl root t1 t0 -> 0 <= v < NVPN ->
  page_ready s root v -> (3 <= length fl)%nat ->
  exists pa s1 fl1 u1 u0, copyout_page root (v * PGSIZE) s = Ok (Some pa) s1 /\
    prepared s fl root v pa s1 fl1 u1 u0.
Proof.
  intros U Hv Hready Hlen. pose proof (us_vm _ _ _ _ _ U) as HV. unfold copyout_page.
  rewrite (first_lookup s fl root t1 t0 v) by done.
  destruct Hready as [(HeV & HeU & Hwr)|(HeV & j & Hcur & Hpt & Hsz)]; rewrite HeV; cbn [negb].
  - assert (user_leaf (ent (k_mem s) root v) = true) as Hu by (unfold user_leaf; by rewrite HeV, HeU).
    destruct (has (ent (k_mem s) root v) PTE_COW) eqn:HeC.
    + destruct (valid_entry s root v HeV) as [a Ea]. rewrite Ea. unfold default, id.
      destruct (entry_read s fl root t1 t0 v a HV Ea) as [Hr Hn].
      destruct (walkaddr_leaf s fl root t1 t0 v U Hv Hu) as [Hwa Hnz].
      rewrite (proj2 (Z.eqb_neq a 0) Hn). cbn [orb]. unfold bind at 1, bind at 1. rewrite Hwa.
      rewrite (proj2 (Z.eqb_neq _ 0) Hnz). unfold ret at 1. run Hr. rewrite HeC.
      destruct fl as [|pg fl]; [cbn in Hlen; lia|].
      destruct (cowfault_uspace s pg fl root t1 t0 v U Hv HeV HeU HeC) as (s1 & Hrun & HP & Hev).
      pose proof HP as (U1 & Ho1 & Hu1 & Hw1 & Hpa1 & _).
      destruct (walkaddr_leaf s1 fl root t1 t0 v U1 Hv Hu1) as [Hwa1 Hnz1].
      assert (has (ent (k_mem s1) root v) PTE_V = true) as HV1 by (by apply andb_true_iff in Hu1 as [? _]).
      destruct (valid_entry s1 root v HV1) as [a1 Ea1].
      destruct (entry_read s1 fl root t1 t0 v a1 (us_vm _ _ _ _ _ U1) Ea1) as [Hr1 Hn1].
      exists pg, s1, fl, t1, t0. split; [|done].
      unfold bind at 1, bind at 1. rewrite Hrun. change (negb (0 =? 0)) with false. cbv iota.
      run Hwa1. rewrite (proj2 (Z.eqb_neq _ 0) Hnz1).
      unfold bind at 1. rewrite (walk_ok s1 fl root t1 t0) by (apply U1 || by apply page_number_range).
      rewrite page_mul_div, Ea1. unfold default, id. rewrite (proj2 (Z.eqb_neq a1 0) Hn1). unfold ret at 1.
      run Hr1. rewrite Hw1. cbn [negb]. by rewrite <- Hpa1.
    + destruct Hwr as [?|HeW]; [done|].
      exists (PTE2PA (ent (k_mem s) root v)), s, fl, t1, t0. split.
      * pose proof (copyout_page_open s fl root t1 t0 v U Hv (conj Hu (conj HeW HeC))) as E. unfold copyout_page in E.
        rewrite (first_lookup s fl root t1 t0 v) in E by done. by rewrite HeV in E.
      * split; [done|]. split; [apply only_vm_refl|]. repeat (split; [done|]). lia.
  - rewrite orb_true_r.
    destruct (wpx_total _ _ _ (vmfault_spec s fl root t1 t0 U j (v * PGSIZE) Hcur (page_number_range v Hv) true Hpt Hsz
      ltac:(by rewrite page_mul_div) ltac:(by intros _)))
      as (pg & s1 & Hrun & fl1 & u1 & u0 & U1 & Ho1 & HE1 & Hub & [(Hnz & Hpg & Hev & Hz & HL)|(? & _)]); [|done].
    rewrite page_mul_div in *.
    assert (user_leaf (ent (k_mem s1) root v) = true) as Hu1.
    { rewrite Hev. unfold user_leaf. rewrite has_V, has_U, !leaf_pte_bit by lia. done. }
    assert (PTE2PA (ent (k_mem s1) root v) = pg) as Hpa.
    { rewrite Hev. destruct Hpg as (H1 & H2 & H3). apply leaf_pte_PA; [done|clia|by vm_compute]. }
    assert (has (ent (k_mem s1) root v) PTE_V = true) as HV1 by (by apply andb_true_iff in Hu1 as [? _]).
    destruct (valid_entry s1 root v HV1) as [a1 Ea1].
    destruct (entry_read s1 fl1 root u1 u0 v a1 (us_vm _ _ _ _ _ U1) Ea1) as [Hr1 Hn1].
    exists pg, s1, fl1, u1, u0. split.
    + unfold bind at 1, bind at 1. rewrite Hrun. rewrite (proj2 (Z.eqb_neq pg 0) Hnz).
      unfold bind at 1. rewrite (walk_ok s1 fl1 root u1 u0) by (apply U1 || by apply page_number_range).
      rewrite page_mul_div, Ea1. unfold default, id. rewrite (proj2 (Z.eqb_neq a1 0) Hn1). unfold ret at 1.
      run Hr1. rewrite Hev, has_COW, leaf_pte_bit by lia. change (Z.testbit lazy_perm 8 || (8 =? 0)) with false. cbv iota.
      unfold ret at 1. unfold bind at 1. run Hr1. rewrite Hev, has_W, leaf_pte_bit by lia. done.
    + split; [done|]. split; [done|]. split; [done|]. split; [|split; [done|split; [done|split; [done|done]]]].
      rewrite Hev, has_W, leaf_pte_bit by lia. done.
Qed.

(** Writing bytes into a user page. *)
Section write.
Context (s : kstate) (fl : list Z) (root : Z) (t1 t0 : list Z) (U : uspace s fl root t1 t0).
Context (va : Z) (bs : list Z) (Hva : 0 <= va < MAXVA).
Context (Hleaf : uvalid (k_mem s) root va = true).
Context (Hbs : Forall (fun b => 0 <= b < 256) bs).
Context (Hfit : va mod PGSIZE + Z.of_nat (length bs) <= PGSIZE).
Let v := va / PGSIZE.
Let pa := PTE2PA (ent (k_mem s) root v).
Let s' := k_set_mem (mem_write (k_mem s) (pa + va mod PGSIZE) bs) s.

Lemma write_frame : frame [pa] s s' /\ heap_page pa /\ (pa ∉ fl ++ tables root t1 t0).
Proof.
  pose proof (va_page_range va Hva) as Hv. destruct (us_leaf _ _ _ _ _ U v Hv Hleaf) as (Hp & _).
  pose proof (leaf_private _ _ _ _ _ _ U Hv Hleaf) as Hn. split; [|done]. split; [apply only_vm_mem| |done].
  intros x Hx. apply mem_write_outside. specialize (Hx pa ltac:(ielem)). unfold in_page in Hx.
  pose proof (Z.mod_pos_bound va PGSIZE ltac:(done)). lia.
Qed.

Lemma write_run : kwrite (pa + (va - PGROUNDDOWN va)) bs s = Ok tt s'.
Proof.
  destruct write_frame as (_ & Hp & _). unfold kwrite. rewrite PGROUNDDOWN_sub.
  pose proof (Z.mod_pos_bound va PGSIZE ltac:(done)).
  by rewrite (in_ram_page pa) by (apply Hp || lia).
Qed.

Lemma write_ent : vmem s' fl root t1 t0 /\ forall w, ent (k_mem s') root w = ent (k_mem s) root w.
Proof.
  destruct write_frame as (HF & Hp & Hn). pose proof (us_vm _ _ _ _ _ U) as HV.
  destruct (frame_vmem [pa] s s' fl fl root t1 t0 HV HF) as (HV' & _ & HE).
  - intros q ->%list_elem_of_singleton. apply Hp.
  - intros q ->%list_elem_of_singleton. by apply not_elem_of_app in Hn as [_ ?].
  - eapply alloc_ok_frame; [apply HV|done| |done]. intros q Hq. apply (frame_page _ _ _ _ HF).
    + intros r ->%list_elem_of_singleton. apply Hp.
    + eapply free_is_heap; [apply HV|done].
    + intros ->%list_elem_of_singleton. by apply not_elem_of_app in Hn as [? _].
  - done.
Qed.

Lemma write_uspace : uspace s' fl root t1 t0.
Proof.
  destruct write_ent as (HV' & HE). split; [done| |].
  - intros w Hw. rewrite HE. apply (us_leaf _ _ _ _ _ U w Hw).
  - intros w w' Hw Hw'. rewrite !HE. by apply U.
Qed.

Lemma write_byte a : 0 <= a < MAXVA -> uvalid (k_mem s) root a = true ->
  ubyte (k_mem s') root a =
    if decide (va <= a < va + Z.of_nat (length bs)) then nth (Z.to_nat (a - va)) bs 0 else ubyte (k_mem s) root a.
Proof.
  intros Ha Hu. destruct write_frame as (HF & Hp & _). destruct write_ent as (_ & HE).
  unfold ubyte, upa. rewrite HE. unfold s'. cbn [k_mem k_set_mem]. unfold load8, mem_write.
  pose proof (Z.mod_pos_bound va PGSIZE ltac:(done)) as Hm. pose proof (Z.mod_pos_bound a PGSIZE ltac:(done)) as Hma.
  destruct (decide (a / PGSIZE = v)) as [Ea|Ea].
  - rewrite Ea. fold pa. assert (a - va = a mod PGSIZE - va mod PGSIZE) as Hd by (unfold v, PGSIZE in *; zlia).
    case_decide as D.
    + rewrite in_range_true by lia.
      replace (pa + a mod PGSIZE - (pa + va mod PGSIZE)) with (a - va) by lia.
      apply u8_small. rewrite Forall_forall in Hbs. apply Hbs. apply list_elem_of_In, nth_In. lia.
    + by rewrite in_range_false by lia.
  - rewrite decide_False.
    2:{ intros D. apply Ea. unfold v, PGSIZE in *. zlia. }
    rewrite in_range_false; [done|]. intros Hin.
    pose proof (va_page_range a Ha) as Hw. pose proof (va_page_range va Hva) as Hv.
    destruct (us_leaf _ _ _ _ _ U (a / PGSIZE) Hw Hu) as (Hq & _).
    apply Ea, (us_inj _ _ _ _ _ U); [done|done|done|done|].
    eapply (in_page_inj _ _ (PTE2PA (ent (k_mem s) root (a / PGSIZE)) + a mod PGSIZE)); [apply Hq|apply Hp| |].
    + unfold in_page. lia.
    + fold pa. unfold in_page. lia.
Qed.

End write.

Lemma page_ready_same s s1 root v : only_vm s s1 -> ent (k_mem s1) root v = ent (k_mem s) root v ->
  page_ready s root v -> page_ready s1 root v.
Proof.
  intros Ho HE. assert (k_cur s1 = k_cur s /\ k_procs s1 = k_procs s) as [E1 E2] by (unfold only_vm in Ho; by rewrite <- Ho).
  unfold page_ready. by rewrite HE, E1, E2.
Qed.

(** One byte to such a page. *)
Lemma copyout_byte s fl root t1 t0 va c : uspace s fl root t1 t0 -> 0 <= va < MAXVA ->
  open_page s root (va / PGSIZE) -> 0 <= c < 256 ->
  exists s', copyout root va [c] s = Ok 0 s' /\ s' = k_set_mem (k_mem s') s /\ uspace s' fl root t1 t0 /\
    (forall w, ent (k_mem s') root w = ent (k_mem s) root w) /\
    (forall a, 0 <= a < MAXVA -> uvalid (k_mem s) root a = true ->
       ubyte (k_mem s') root a = if decide (a = va) then c else ubyte (k_mem s) root a).
Proof.
  intros U Hva Ho Hc. pose proof Ho as (Hu & _). pose proof (va_page_range va Hva) as Hv.
  assert (Forall (fun b => 0 <= b < 256) [c]) as Hb by by apply Forall_singleton.
  assert (va mod PGSIZE + Z.of_nat (length [c]) <= PGSIZE) as Hfit.
  { pose proof (Z.mod_pos_bound va PGSIZE ltac:(done)). cbn. lia. }
  pose proof (write_run s fl root t1 t0 U va [c] Hva Hu Hfit) as Hrun.
  pose proof (write_uspace s fl root t1 t0 U va [c] Hva Hu Hfit) as U'.
  pose proof (write_byte s fl root t1 t0 U va [c] Hva Hu Hb Hfit) as Hbyte.
  destruct (write_ent s fl root t1 t0 U va [c] Hva Hu Hfit) as [_ HE].
  set (s' := k_set_mem _ s) in *. exists s'. split; [|split; [done|split; [done|split; [done|]]]].
  - unfold copyout. cbn [length Nat.add]. rewrite (iter_next _ _ _ (u64 (PGROUNDDOWN va + PGSIZE), []) s s'); [by apply iter_done|].
    change (Z.of_nat (length [c])) with 1. change (1 >? 0) with true. cbv iota.
    rewrite Z.geb_leb, (proj2 (Z.leb_gt _ _)) by (apply PGROUNDDOWN_range; lia).
    pose proof (copyout_page_open s fl root t1 t0 _ U Hv Ho) as Ep.
    replace (va / PGSIZE * PGSIZE) with (PGROUNDDOWN va) in Ep by (rewrite PGROUNDDOWN_eq; unfold PGSIZE; zlia).
    rewrite (bind_ok _ _ _ _ _ Ep).
    assert ((if PGSIZE - (va - PGROUNDDOWN va) >? 1 then 1 else PGSIZE - (va - PGROUNDDOWN va)) = 1) as ->.
    { rewrite PGROUNDDOWN_sub. cbn [length] in Hfit. destruct (Z.gtb_spec (PGSIZE - va mod PGSIZE) 1); lia. }
    change (take (Z.to_nat 1) [c]) with [c]. by rewrite (bind_ok _ _ _ _ _ Hrun).
  - intros a Ha Hua. rewrite Hbyte by done. cbn [length]. destruct (decide (a = va)) as [->|Hne].
    + rewrite decide_True by lia. by rewrite Z.sub_diag.
    + by rewrite decide_False by lia.
Qed.

Section copyout.
Context (s : kstate) (fl : list Z) (root : Z) (t1 t0 : list Z) (U : uspace s fl root t1 t0).
Context (va : Z) (src : list Z) (Hva : 0 <= va).
Let len := Z.of_nat (length src).
Context (Hmax : va + len <= MAXVA) (Hbytes : Forall (fun b => 0 <= b < 256) src).
Context (Hready : forall w, va / PGSIZE <= w <= (va + len - 1) / PGSIZE -> page_ready s root w).
Context (Hfree : 3 * ((va + len - 1) / PGSIZE - va / PGSIZE + 1) <= Z.of_nat (length fl)).

(** The first [d] bytes are written, [k] pages are done. *)
Record written (d k : Z) (s1 : kstate) (fl1 u1 u0 : list Z) : Prop := {
  wr_space : uspace s1 fl1 root u1 u0;
  wr_only : only_vm s s1;
  wr_valid : forall i, 0 <= i < d -> uvalid (k_mem s1) root (va + i) = true;
  wr_bytes : uread (k_mem s1) root va d = take (Z.to_nat d) src;
  wr_others : forall b, 0 <= b < MAXVA -> uvalid (k_mem s) root b = true ->
    uvalid (k_mem s1) root b = true /\ (~ (va <= b < va + d) -> ubyte (k_mem s1) root b = ubyte (k_mem s) root b);
  wr_rest : forall w, 0 <= w < NVPN -> va / PGSIZE + k <= w -> ent (k_mem s1) root w = ent (k_mem s) root w;
  wr_used : Z.of_nat (length fl) <= Z.of_nat (length fl1) + 3 * k
}.

Lemma written_step d k s1 fl1 u1 u0 (c := chunk (va + d) (len - d)) :
  written d k s1 fl1 u1 u0 -> 0 <= d < len -> 0 <= k -> (va + d) / PGSIZE = va / PGSIZE + k ->
  exists pa s2 s3 fl2 w1 w0, copyout_page root (PGROUNDDOWN (va + d)) s1 = Ok (Some pa) s2 /\
    kwrite (pa + (va + d - PGROUNDDOWN (va + d))) (take (Z.to_nat c) (drop (Z.to_nat d) src)) s2 = Ok tt s3 /\
    written (d + c) (k + 1) s3 fl2 w1 w0.
Proof.
  intros W Hd Hk Hpage. set (v := (va + d) / PGSIZE) in *.
  destruct (chunk_bounds (va + d) (len - d) ltac:(lia)) as (Hc & Hfit & _). fold c in Hc, Hfit.
  assert (0 <= va + d < MAXVA) as Hvad by lia.
  pose proof (va_page_range (va + d) Hvad) as Hv. fold v in Hv.
  assert (v <= (va + len - 1) / PGSIZE) as Hvle by (unfold v; apply Z.div_le_mono; [done|lia]).
  assert (page_ready s1 root v) as Hrdy.
  { eapply page_ready_same; [apply (wr_only _ _ _ _ _ _ W)|apply (wr_rest _ _ _ _ _ _ W); [done|lia]|]. apply Hready. lia. }
  destruct (copyout_page_ok s1 fl1 root u1 u0 v (wr_space _ _ _ _ _ _ W) Hv Hrdy) as (pa & s2 & fl2 & w1 & w0 & Hrun & HP).
  { pose proof (wr_used _ _ _ _ _ _ W). lia. }
  destruct HP as (U2 & Ho2 & Hu2 & Hw2 & Hpa & HE2 & Hub2 & HL2).
  set (bs := take (Z.to_nat c) (drop (Z.to_nat d) src)).
  assert (Z.of_nat (length bs) = c) as Hlb by (unfold bs; rewrite length_take, length_drop; lia).
  assert (Forall (fun b => 0 <= b < 256) bs) as Hbs by (by apply Forall_take, Forall_drop).
  set (s3 := k_set_mem (mem_write (k_mem s2) (pa + (va + d) mod PGSIZE) bs) s2).
  assert (uvalid (k_mem s2) root (va + d) = true) as Huv by done.
  pose proof (write_run s2 fl2 root w1 w0 U2 (va + d) bs Hvad Huv ltac:(lia)) as Hkw.
  destruct (write_ent s2 fl2 root w1 w0 U2 (va + d) bs Hvad Huv ltac:(lia)) as (_ & HE3).
  pose proof (write_uspace s2 fl2 root w1 w0 U2 (va + d) bs Hvad Huv ltac:(lia)) as U3.
  pose proof (fun a => write_byte s2 fl2 root w1 w0 U2 (va + d) bs Hvad Huv Hbs ltac:(lia) a) as Hub3.
  fold v in Hkw, HE3, U3, Hub3. rewrite <- Hpa in Hkw, HE3, U3, Hub3. fold s3 in Hkw, HE3, U3, Hub3.
  rewrite Hlb in Hub3.
  assert (forall a, uvalid (k_mem s3) root a = uvalid (k_mem s2) root a) as Huv3 by (intros a; unfold uvalid; by rewrite HE3).
  assert (forall i, 0 <= i < c -> uvalid (k_mem s2) root (va + d + i) = true) as Huvc.
  { intros i Hi. unfold uvalid. replace ((va + d + i) / PGSIZE) with v; [done|]. unfold v, PGSIZE in *. zlia. }
  exists pa, s2, s3, fl2, w1, w0. split; [|split; [exact Hkw|]].
  { replace (PGROUNDDOWN (va + d)) with (v * PGSIZE) by (rewrite PGROUNDDOWN_eq; unfold v, PGSIZE; lia). done. }
  split.
  - done.
  - eapply only_vm_trans; [apply W|]. eapply only_vm_trans; [done|apply only_vm_mem].
  - intros i Hi. rewrite Huv3. destruct (Z.lt_ge_cases i d).
    + apply (Hub2 (va + i)); [lia|]. apply (wr_valid _ _ _ _ _ _ W). lia.
    + replace (va + i) with (va + d + (i - d)) by lia. apply Huvc. lia.
  - rewrite uread_app by lia. replace (Z.to_nat (d + c)) with (Z.to_nat d + Z.to_nat c)%nat by lia.
    rewrite <- take_take_drop. f_equal.
    + rewrite <- (wr_bytes _ _ _ _ _ _ W). apply uread_ext. intros i Hi.
      pose proof (wr_valid _ _ _ _ _ _ W i Hi) as Hi'. destruct (Hub2 (va + i) ltac:(lia) Hi') as [H1 H2].
      rewrite Hub3 by (done || lia). by rewrite decide_False by lia.
    + fold bs. rewrite <- Hlb. apply uread_bytes. rewrite Hlb. intros i Hi.
      rewrite Hub3 by (lia || by apply Huvc). rewrite decide_True by lia. f_equal. lia.
  - intros b Hb Hub. destruct (wr_others _ _ _ _ _ _ W b Hb Hub) as [H1 H2].
    destruct (Hub2 b Hb H1) as [H3 H4]. rewrite Huv3. split; [done|]. intros Hout.
    rewrite Hub3 by done. rewrite decide_False by lia. rewrite H4. apply H2. lia.
  - intros w Hw Hle. rewrite HE3, HE2 by lia. apply (wr_rest _ _ _ _ _ _ W); [done|lia].
  - pose proof (wr_used _ _ _ _ _ _ W). lia.
Qed.

Lemma copyout_ok : exists k s' fl' t1' t0', copyout root va src s = Ok 0 s' /\ written len k s' fl' t1' t0'.
Proof.
  destruct (wpx_total (copyout root va src)
    (fun r s' => r = 0 /\ exists k fl' t1' t0', written len k s' fl' t1' t0') s)
    as (r & s' & Hrun & -> & k & fl' & t1' & t0' & W); [|by exists k, s', fl', t1', t0'].
  unfold copyout.
  apply (wpx_iter true (fun '(a, rest) s1 => exists d k fl1 u1 u0, 0 <= d <= len /\ 0 <= k /\
      rest = drop (Z.to_nat d) src /\ written d k s1 fl1 u1 u0 /\
      (d < len -> a = va + d /\ (va + d) / PGSIZE = va / PGSIZE + k))
    (fun '(_, rest) => length rest)).
  - intros [a rest] s1 (d & k & fl1 & u1 & u0 & Hd & Hk & -> & W & Hmore).
    assert (Z.of_nat (length (drop (Z.to_nat d) src)) = len - d) as Hl by (rewrite length_drop; lia).
    rewrite Hl, Z.gtb_ltb. destruct (Z.ltb_spec 0 (len - d)) as [Hpos|Hz].
    + destruct (Hmore ltac:(lia)) as [-> Hpage].
      destruct (written_step d k s1 fl1 u1 u0 W ltac:(lia) Hk Hpage) as (pa & s2 & s3 & fl2 & w1 & w0 & Hcp & Hkw & W3).
      rewrite Z.geb_leb, (proj2 (Z.leb_gt _ _)) by (apply PGROUNDDOWN_range; lia).
      eapply wpx_bind_ok; [exact Hcp|]. fold (chunk (va + d) (len - d)).
      eapply wpx_bind_ok; [exact Hkw|]. apply wpx_ret.
      destruct (chunk_bounds (va + d) (len - d) Hpos) as (Hc & _ & Hnext).
      set (c := chunk (va + d) (len - d)) in *. split.
      * exists (d + c), (k + 1), fl2, w1, w0. split; [lia|]. split; [lia|].
        split; [rewrite drop_drop; f_equal; lia|]. split; [done|]. intros Hlt. specialize (Hnext ltac:(lia)).
        rewrite Hnext, u64_small by (change MAXVA with 0x4000000000 in Hmax; lia). split; [lia|].
        rewrite PGROUNDDOWN_eq in Hnext. unfold PGSIZE in *. zlia.
      * rewrite !length_drop. lia.
    + apply wpx_ret. split; [done|]. assert (d = len) as -> by lia. by exists k, fl1, u1, u0.
  - exists 0, 0, fl, t1, t0. split; [lia|]. split; [lia|]. split; [done|]. split; [|intros _; rewrite !Z.add_0_r; done].
    split; [done|apply only_vm_refl|lia|done|done|done|lia].
  - lia.
Qed.

End copyout.

(** To pages that are writable and private already, [copyout] changes nothing
    but the bytes. *)
Section copyout_open.
Context (s : kstate) (fl : list Z) (root : Z) (t1 t0 : list Z) (U : uspace s fl root t1 t0).
Context (va : Z) (src : list Z) (Hva : 0 <= va).
Let len := Z.of_nat (length src).
Context (Hmax : va + len <= MAXVA) (Hbytes : Forall (fun b => 0 <= b < 256) src).
Context (Hopen : forall w, va / PGSIZE <= w <= (va + len - 1) / PGSIZE -> open_page s root w).

(** The first [d] bytes are stored. *)
Record stored (d : Z) (s1 : kstate) : Prop := {
  so_mem : s1 = k_set_mem (k_mem s1) s;
  so_space : uspace s1 fl root t1 t0;
  so_ent : forall w, ent (k_mem s1) root w = ent (k_mem s) root w;
  so_bytes : forall a, 0 <= a < MAXVA -> uvalid (k_mem s) root a = true ->
    ubyte (k_mem s1) root a = if decide (va <= a < va + d) then nth (Z.to_nat (a - va)) src 0 else ubyte (k_mem s) root a
}.

Lemma stored_step d s1 (c := chunk (va + d) (len - d)) : stored d s1 -> 0 <= d < len ->
  exists pa s2, copyout_page root (PGROUNDDOWN (va + d)) s1 = Ok (Some pa) s1 /\
    kwrite (pa + (va + d - PGROUNDDOWN (va + d))) (take (Z.to_nat c) (drop (Z.to_nat d) src)) s1 = Ok tt s2 /\ stored (d + c) s2.
Proof.
  intros [S1 S2 S3 S4] Hd. destruct (chunk_bounds (va + d) (len - d) ltac:(lia)) as (Hc & Hfit & _). fold c in Hc, Hfit.
  assert (0 <= va + d < MAXVA) as Hvad by lia. set (v := (va + d) / PGSIZE). pose proof (va_page_range (va + d) Hvad) as Hv. fold v in Hv.
  assert (open_page s1 root v) as Ho.
  { unfold open_page. rewrite S3. apply Hopen. unfold v. split; apply Z.div_le_mono; done || lia. }
  set (bs := take (Z.to_nat c) (drop (Z.to_nat d) src)).
  assert (Z.of_nat (length bs) = c) as Hlb by (unfold bs; rewrite length_take, length_drop; lia).
  assert (Forall (fun b => 0 <= b < 256) bs) as Hbs by (by apply Forall_take, Forall_drop).
  assert (uvalid (k_mem s1) root (va + d) = true) as Huv by apply Ho.
  pose proof (write_run s1 fl root t1 t0 S2 (va + d) bs Hvad Huv ltac:(lia)) as Hrun.
  destruct (write_ent s1 fl root t1 t0 S2 (va + d) bs Hvad Huv ltac:(lia)) as (_ & HE).
  pose proof (write_uspace s1 fl root t1 t0 S2 (va + d) bs Hvad Huv ltac:(lia)) as U2.
  pose proof (fun a => write_byte s1 fl root t1 t0 S2 (va + d) bs Hvad Huv Hbs ltac:(lia) a) as Hub. fold v in Hrun, HE, U2, Hub.
  exists (PTE2PA (ent (k_mem s1) root v)), (k_set_mem (mem_write (k_mem s1) (PTE2PA (ent (k_mem s1) root v) + (va + d) mod PGSIZE) bs) s1).
  split; [|split; [exact Hrun|]].
  - replace (PGROUNDDOWN (va + d)) with (v * PGSIZE) by (rewrite PGROUNDDOWN_eq; unfold v, PGSIZE; lia).
    by apply (copyout_page_open s1 fl root t1 t0).
  - split; [rewrite S1; done|done|by intros w; rewrite HE|]. intros a Ha Hua.
    rewrite Hub; [|done|unfold uvalid in *; by rewrite S3]. rewrite S4, Hlb by done.
    destruct (decide (va + d <= a < va + d + c)).
    + rewrite decide_True by lia. unfold bs. rewrite nth_lookup, lookup_take_lt, lookup_drop, <- nth_lookup by lia. f_equal. lia.
    + destruct (decide (va <= a < va + d)); [by rewrite decide_True by lia|by rewrite decide_False by lia].
Qed.

Lemma copyout_open : exists s', copyout root va src s = Ok 0 s' /\ stored len s'.
Proof.
  destruct (wpx_total (copyout root va src) (fun r s' => r = 0 /\ stored len s') s) as (r & s' & Hrun & -> & W); [|by exists s'].
  unfold copyout. apply (wpx_iter true (fun '(a, rest) s1 => exists d, 0 <= d <= len /\ rest = drop (Z.to_nat d) src /\ stored d s1 /\
      (d < len -> a = va + d)) (fun '(_, rest) => length rest)).
  - intros [a rest] s1 (d & Hd & -> & W & Hmore).
    assert (Z.of_nat (length (drop (Z.to_nat d) src)) = len - d) as Hl by (rewrite length_drop; lia).
    rewrite Hl, Z.gtb_ltb. destruct (Z.ltb_spec 0 (len - d)) as [Hpos|Hz].
    + rewrite (Hmore ltac:(lia)). destruct (stored_step d s1 W ltac:(lia)) as (pa & s2 & Hcp & Hkw & W2).
      rewrite Z.geb_leb, (proj2 (Z.leb_gt _ _)) by (apply PGROUNDDOWN_range; lia).
      eapply wpx_bind_ok; [exact Hcp|]. fold (chunk (va + d) (len - d)). eapply wpx_bind_ok; [exact Hkw|]. apply wpx_ret.
      destruct (chunk_bounds (va + d) (len - d) Hpos) as (Hc & _ & Hnext). set (c := chunk (va + d) (len - d)) in *. split.
      * exists (d + c). split; [lia|]. split; [rewrite drop_drop; f_equal; lia|]. split; [done|]. intros Hlt. specialize (Hnext ltac:(lia)).
        rewrite Hnext, u64_small by (change MAXVA with 0x4000000000 in Hmax; lia). lia.
      * rewrite !length_drop. lia.
    + apply wpx_ret. split; [done|]. by assert (d = len) as -> by lia.
  - exists 0. split; [lia|]. split; [done|]. split; [|intros _; by rewrite Z.add_0_r].
    split; [by destruct s|done|done|]. intros a Ha _. by rewrite decide_False by lia.
  - lia.
Qed.
End copyout_open.
End VmCopy.
