(* ===== verification/VmSample.v ===== *)
(** * A concrete address space

    A process with one user page and eight free pages of memory, and a second,
    empty page table: the state on which the virtual-memory theorems are
    instantiated.  [pt_check] decides well-formedness of concrete tables. *)

From S2P Require Import Prelude Riscv Mem KState Sample Memstats Sched Bio PhysMem Kalloc Swap Vm.
From S2P Require Import PageTable Walk VmMap VmAlloc VmCow VmCopy.

(** ** Deciding well-formedness *)

Definition entries (ps : list Z) : list (Z * Z) := p ← ps; (fun i => (p, i)) <$> seqZ 0 512.

Definition links_check (m : mem) (ps cs : list Z) : bool :=
  bool_decide (omap (fun '(p, i) => child m p i) (entries ps) = cs) &&
  forallb (fun '(p, i) => negb (has (load64 m (slot p i)) PTE_V) ||
    negb (has (load64 m (slot p i)) (Z.lor (Z.lor PTE_R PTE_W) PTE_X))) (entries ps).

Lemma elem_of_entries ps p i : (p, i) ∈ entries ps <-> p ∈ ps /\ 0 <= i < 512.
Proof.
  unfold entries. rewrite list_elem_of_bind. split.
  - intros (q & Hi & Hq). apply list_elem_of_fmap in Hi as (j & [= -> ->] & Hj%elem_of_seqZ). split; [done|lia].
  - intros [Hp Hi]. exists p. split; [|done]. apply list_elem_of_fmap. exists i.
    split; [done|]. apply elem_of_seqZ. lia.
Qed.

(** Equal images in a duplicate-free list come from equal elements. *)
Lemma omap_inj {A B} (f : A -> option B) l x y c : NoDup (omap f l) -> x ∈ l -> y ∈ l ->
  f x = Some c -> f y = Some c -> x = y.
Proof.
  induction l as [|z l IH]; intros Hn Hx Hy Ex Ey; [by apply not_elem_of_nil in Hx|].
  cbn in Hn. assert (forall w, w ∈ l -> f w = Some c -> c ∈ omap f l) as Hin.
  { intros w Hw Ew. apply list_elem_of_omap. by exists w. }
  apply elem_of_cons in Hx as [->|Hx]; apply elem_of_cons in Hy as [->|Hy]; [done|..].
  - rewrite Ex in Hn. apply NoDup_cons in Hn as [Hn _]. destruct Hn. by apply (Hin y).
  - rewrite Ey in Hn. apply NoDup_cons in Hn as [Hn _]. destruct Hn. by apply (Hin x).
  - destruct (f z); [apply NoDup_cons in Hn as [_ Hn]|]; by apply IH.
Qed.

Lemma links_check_ok m ps cs : NoDup cs -> links_check m ps cs = true -> links m ps cs.
Proof.
  intros Hn H. apply andb_true_iff in H as [E%bool_decide_eq_true Hp].
  rewrite forallb_forall in Hp. split.
  - intros p i c Hin Hi Hc. assert ((p, i) ∈ entries ps) as Hpi by (by apply elem_of_entries). split.
    + rewrite <- E. apply list_elem_of_omap. by exists (p, i).
    + apply list_elem_of_In in Hpi. specialize (Hp _ Hpi). cbv beta iota in Hp. unfold child in Hc. unfold is_ptr.
      destruct (has (load64 m (slot p i)) PTE_V); [|done]. cbn [negb orb] in Hp. by apply negb_true_iff in Hp.
  - intros p q i j c Hip Hiq Hi Hj Hc Hd.
    assert ((p, i) = (q, j)) as [= -> ->]; [|done].
    eapply (omap_inj (fun '(p, i) => child m p i) (entries ps)); [by rewrite E|by apply elem_of_entries..|done|done].
  - intros c Hc. rewrite <- E in Hc. apply list_elem_of_omap in Hc as ([p i] & Hin & Hc).
    apply elem_of_entries in Hin as [Hip Hi]. by exists p, i.
Qed.

Definition pt_check {LAY : Layout} (m : mem) (root : Z) (t1 t0 : list Z) : bool :=
  bool_decide (NoDup (tables root t1 t0)) && bool_decide (Forall heap_page (tables root t1 t0)) &&
  links_check m [root] t1 && links_check m t1 t0 &&
  forallb (fun i => bool_decide (child m root i = None)) (seqZ 256 256).

Lemma pt_check_ok {LAY : Layout} m root t1 t0 : pt_check m root t1 t0 = true -> pt_ok m root t1 t0.
Proof.
  intros H. apply andb_true_iff in H as [H H5]. apply andb_true_iff in H as [[[H1%bool_decide_eq_true H2%bool_decide_eq_true]%andb_true_iff H3]%andb_true_iff H4].
  assert (NoDup (t1 ++ t0)) as Hn by (by apply NoDup_cons in H1 as [_ H1]).
  apply NoDup_app in Hn as (Hn1 & _ & Hn0).
  split; [done|done|by apply links_check_ok|by apply links_check_ok|].
  intros i Hi. rewrite forallb_forall in H5. specialize (H5 i). rewrite bool_decide_eq_true in H5.
  apply H5, list_elem_of_In, elem_of_seqZ. lia.
Qed.

(** ** The state *)

Definition free8 : list Z := map (fun k => 0x80100000 + k * 0x1000) (seqZ 0 8).

Lemma length_free8 : length free8 = 8%nat.
Proof. reflexivity. Qed.

Fixpoint chain_mem (m : mem) (ps : list Z) : mem :=
  match ps with
  | [] => m
  | p :: ps => store64 (chain_mem m ps) p (hd 0 ps)
  end.

Definition uroot : Z := 0x80110000.
Definition utab1 : Z := 0x80111000.
Definition utab0 : Z := 0x80112000.
Definition udata : Z := 0x80113000.
Definition croot : Z := 0x80114000.

Definition rwu : Z := Z.lor (Z.lor PTE_R PTE_W) PTE_U.

Definition sample_mem : mem :=
  store64 (store64 (store64 (chain_mem (fun _ => 0) free8)
    uroot (ptr_to utab1)) utab1 (ptr_to utab0)) utab0 (leaf_pte udata rwu).

(** Process 0 runs: one page is mapped, four pages belong to it. *)
Definition user_state : kstate :=
  k_set_mem sample_mem (k_set_freelist 0x80100000
    (k_set_refcount (fun i => if (0x110 <=? i) && (i <=? 0x114) then 1 else 0)
      (k_set_procs (fun i => if i =? 0 then p_set_state RUNNING (p_set_sz 0x4000 (p_set_pagetable uroot no_proc))
                             else no_proc)
        (k_set_cur (Some 0) zero_state)))).

Lemma user_alloc : alloc_ok user_state free8.
Proof.
  split.
  - vm_compute. repeat split; reflexivity.
  - apply (bool_decide_unpack _). by vm_compute.
  - apply (bool_decide_unpack _). by vm_compute.
  - apply (bool_decide_unpack _). by vm_compute.
Qed.

Lemma user_locks : alloc_locks_free user_state.
Proof. unfold alloc_locks_free. repeat split; apply not_elem_of_nil. Qed.

Lemma user_vmem : vmem user_state free8 uroot [utab1] [utab0].
Proof.
  split; [apply user_alloc|apply pt_check_ok; by vm_compute| |apply user_locks].
  apply Forall_forall, (bool_decide_unpack _). by vm_compute.
Qed.

Lemma child_vmem : vmem user_state free8 croot [] [].
Proof.
  split; [apply user_alloc|apply pt_check_ok; by vm_compute| |apply user_locks].
  apply Forall_forall, (bool_decide_unpack _). by vm_compute.
Qed.

(** Entries of a table whose only mapped page is page 0. *)
Lemma slots_zero m p : forallb (fun i => load64 m (slot p i) =? 0) (seqZ 1 511) = true ->
  forall i, 0 <= i < 512 -> i <> 0 -> load64 m (slot p i) = 0.
Proof.
  intros H i Hi Hne. rewrite forallb_forall in H. apply Z.eqb_eq, H, list_elem_of_In, elem_of_seqZ. lia.
Qed.

Lemma user_ent w : 0 <= w < NVPN -> ent sample_mem uroot w = if decide (w = 0) then leaf_pte udata rwu else 0.
Proof.
  intros Hw. pose proof (idx_split w Hw) as Hs.
  pose proof (idx_range 2 w) as R2. pose proof (idx_range 1 w) as R1. pose proof (idx_range 0 w) as R0.
  unfold ent, pte_addr. destruct (decide (idx 2 w = 0)) as [E2|E2].
  - rewrite E2. assert (child sample_mem uroot 0 = Some utab1) as -> by (by vm_compute). cbn [mbind option_bind].
    destruct (decide (idx 1 w = 0)) as [E1|E1].
    + rewrite E1. assert (child sample_mem utab1 0 = Some utab0) as -> by (by vm_compute). cbn [mbind option_bind].
      destruct (decide (idx 0 w = 0)) as [E0|E0].
      * rewrite decide_True by lia. rewrite E0. by vm_compute.
      * rewrite decide_False by lia. apply slots_zero; [by vm_compute|done|done].
    + rewrite child_zero by (apply slots_zero; [by vm_compute|done|done]). cbn. by rewrite decide_False by lia.
  - rewrite child_zero by (apply slots_zero; [by vm_compute|done|done]). cbn. by rewrite decide_False by lia.
Qed.

Lemma child_ent w : ent sample_mem croot w = 0.
Proof.
  unfold ent, pte_addr. rewrite child_zero; [done|].
  destruct (decide (idx 2 w = 0)) as [->|Hne]; [by vm_compute|].
  apply slots_zero; [by vm_compute|apply idx_range|done].
Qed.

Lemma user_uspace : uspace user_state free8 uroot [utab1] [utab0].
Proof.
  split; [apply user_vmem| |].
  - intros w Hw. change (k_mem user_state) with sample_mem. rewrite user_ent by done.
    case_decide; [|done]. intros _. cbv zeta. assert (PTE2PA (leaf_pte udata rwu) = udata) as -> by (by vm_compute).
    split; [apply (bool_decide_unpack _); by vm_compute|]. split; [|by vm_compute].
    apply (bool_decide_unpack _). by vm_compute.
  - intros w w' Hw Hw'. change (k_mem user_state) with sample_mem. rewrite !user_ent by done.
    by repeat case_decide; subst.
Qed.

Lemma user_two : two user_state free8 uroot [utab1] [utab0] croot [] [].
Proof.
  split; [apply user_vmem|apply child_vmem|].
  apply Forall_forall, (bool_decide_unpack _). by vm_compute.
Qed.

(** The same process after a fork: its page is copy-on-write and has one
    reference left. *)
Definition cowu : Z := Z.lor (Z.lor PTE_R PTE_COW) PTE_U.
Definition cow_state : kstate := k_set_mem (store64 sample_mem utab0 (leaf_pte udata cowu)) user_state.

Lemma cow_vmem : vmem cow_state free8 uroot [utab1] [utab0].
Proof.
  split; [|apply pt_check_ok; by vm_compute| |apply user_locks].
  - split; [vm_compute; repeat split; reflexivity|apply (bool_decide_unpack _); by vm_compute..].
  - apply Forall_forall, (bool_decide_unpack _). by vm_compute.
Qed.
