(* ===== verification/VmSpec.v ===== *)
(** * What virtual memory guarantees (kernel/vm.c)

    The theorems about the page-table code, each with an instance on the
    concrete process of [VmSample]. *)

From S2P Require Import Prelude Riscv Mem KState Sample Memstats Sched Bio PhysMem Kalloc Swap Vm.
From S2P Require Import PageTable Walk VmMap VmAlloc VmFree VmCow VmCopy VmSample.

Section VmSpec.
Context {LAY : Layout} {ENV : Env}.

(** [walk] without allocation returns the address of the page's entry (0
    if a table is missing) and changes nothing; with allocation and two free
    pages it always returns the entry's address, adds only cleared tables
    taken from the free list, and leaves every mapping and every other page as
    it was. *)
Theorem walk_correct s fl root t1 t0 va :
  vmem s fl root t1 t0 -> 0 <= va < MAXVA ->
  walk root va false s = Ok (default 0 (pte_addr (k_mem s) root (va / PGSIZE))) s /\
  ((2 <= length fl)%nat -> exists a s' fl' t1' t0',
     walk root va true s = Ok a s' /\ pte_addr (k_mem s') root (va / PGSIZE) = Some a /\
     (forall w, ent (k_mem s') root w = ent (k_mem s) root w) /\
     vmem s' fl' root t1' t0' /\
     vframe s s' fl fl' (tables root t1 t0) (tables root t1' t0')).
Proof.
  intros HV Hva. split; [by apply (walk_ok s fl root t1 t0 HV)|]. intros Hlen.
  destruct (wpx_total _ _ _ (walk_alloc kalloc true s fl root t1 t0 va HV Hva ltac:(by intros _)))
    as (a & s' & Hrun & fl' & t1' & t0' & HV' & HF & HE & _ & [(_ & _ & ?)|[_ Ha]]); [lia|].
  by exists a, s', fl', t1', t0'.
Qed.

(** [mappages] on a range with no valid entry: with two free pages per
    page it returns 0 and exactly the entries of the range become the given
    frames with the given permissions; every run that returns ends in such a
    state, or in -1 with an empty free list and a prefix of the range mapped. *)
Theorem mappages_correct s fl root t1 t0 va n pa perm :
  vmem s fl root t1 t0 -> va mod PGSIZE = 0 -> 0 <= va -> 0 < n -> va + n * PGSIZE <= MAXVA ->
  0 <= pa -> pa + n * PGSIZE <= 0x100000000000000 -> 0 <= perm < 1024 ->
  (forall w, va / PGSIZE <= w < va / PGSIZE + n -> has (ent (k_mem s) root w) PTE_V = false) ->
  (2 * n <= Z.of_nat (length fl) ->
     exists s', mappages root va (n * PGSIZE) pa perm s = Ok 0 s' /\
       map_post s fl root t1 t0 va n pa perm 0 s') /\
  (forall r s', mappages root va (n * PGSIZE) pa perm s = Ok r s' ->
     map_post s fl root t1 t0 va n pa perm r s').
Proof.
  intros HV Hal Hva Hn Hmax Hpa Hpmax Hperm Hfree. split.
  - intros Hlen. destruct (wpx_total _ _ _ (mappages_spec s fl root t1 t0 HV va n pa perm
      Hal Hva Hn Hmax Hpa Hpmax Hperm Hfree true (fun _ => Hlen))) as (r & s' & Hrun & Hpost).
    exists s'. assert (r = 0) as ->; [|done].
    destruct Hpost as (k & fl' & t1' & t0' & _ & _ & _ & [[-> _]|(_ & _ & _ & ?)] & _); [done|lia].
  - intros r s'. apply (wpx_partial false). by apply mappages_spec.
Qed.

(** [mappages] panics rather than replace a valid entry. *)
Theorem mappages_no_remap s fl root t1 t0 va n pa perm :
  vmem s fl root t1 t0 -> va mod PGSIZE = 0 -> 0 <= va < MAXVA -> 0 < n ->
  has (ent (k_mem s) root (va / PGSIZE)) PTE_V = true ->
  mappages root va (n * PGSIZE) pa perm s = Panic "mappages: remap".
Proof. apply mappages_remap. Qed.

(** C15. [uvmunmap] of a page-aligned range returns: every entry of the range
    that is valid or swapped out is 0 afterwards, and no other entry changes.
    When it frees, every page loses one reference per entry that had it in
    memory, the pages whose count became 0, no others, join the free list, and
    the swap blocks of the swapped entries, no others, are free again, with the
    count of free blocks right.  Freeing assumes that the resident pages are
    pages of the heap with enough references and that no two swapped entries
    have the same block, which is marked in use.  Nothing but the tables, free
    pages and the swap map is written.  An address that is not page-aligned
    panics. *)
Theorem uvmunmap_correct s fl root t1 t0 v0 n do_free (f := ent (k_mem s) root) :
  vmem s fl root t1 t0 -> 0 <= v0 -> 0 <= n -> v0 + n <= NVPN -> swap_ok (k_swap s) ->
  (do_free = true -> blocks_used s (swap_list f (seqZ v0 n))) ->
  (forall w, v0 <= w < v0 + n -> resident (f w) = true -> do_free = true ->
     heap_page (PTE2PA (f w)) /\ (PTE2PA (f w) ∉ tables root t1 t0)) ->
  (forall p, heap_page p -> 0 < drops s root v0 do_free n p -> drops s root v0 do_free n p <= count_of s p) ->
  (exists s' fl', uvmunmap root (v0 * PGSIZE) n do_free s = Ok tt s' /\
    vmem s' fl' root t1 t0 /\ mframe (fl' ++ tables root t1 t0) s (k_set_swap (k_swap s) s') /\
    (forall w, 0 <= w < NVPN -> ent (k_mem s') root w = cleared f v0 n w) /\
    (forall p, is_page p -> count_of s' p = count_of s p - drops s root v0 do_free n p) /\
    (forall p, is_page p -> p ∈ fl' <-> p ∈ fl \/ (0 < drops s root v0 do_free n p /\ count_of s' p = 0)) /\
    swap_ok (k_swap s') /\
    (forall b, 0 <= b -> swap_bit (k_swap s') b =
       if decide (do_free = true /\ b ∈ swap_list f (seqZ v0 n)) then false else swap_bit (k_swap s) b)) /\
  (forall va, va mod PGSIZE <> 0 -> uvmunmap root va n do_free s = Panic "uvmunmap: not aligned").
Proof.
  intros HV Hv0 Hn Hmax Hsw Hblk Hleaf Hrefs. split; [|intros va Hva; unfold uvmunmap; by rewrite (proj2 (Z.eqb_neq _ _) Hva)].
  destruct (uvmunmap_any s fl root t1 t0 HV v0 n do_free Hv0 Hn Hmax Hblk Hleaf Hrefs)
    as (s' & fl' & Hrun & HV' & HM & HE & HC & Hfl & Hs). exists s', fl'. do 6 (split; [done|]). rewrite Hs. unfold swap_drops. fold f. destruct do_free.
  - pose proof (Hblk eq_refl) as [_ Hb]. split; [by apply give_blocks_ok; [apply Hblk|]|]. intros b Hb0.
    rewrite give_blocks_bit by (done || apply Forall_forall; intros c Hc; destruct (Hb c Hc); lia). repeat case_decide; naive_solver.
  - split; [done|]. intros b Hb0. by rewrite decide_False by naive_solver.
Qed.

(** Mapping frames and unmapping them again without freeing restores the
    map the table had. *)
Theorem map_unmap_roundtrip s fl root t1 t0 va n pa perm :
  vmem s fl root t1 t0 -> va mod PGSIZE = 0 -> 0 <= va -> 0 < n -> va + n * PGSIZE <= MAXVA ->
  0 <= pa -> pa + n * PGSIZE <= 0x100000000000000 -> 0 <= perm < 512 ->
  (forall w, va / PGSIZE <= w < va / PGSIZE + n -> ent (k_mem s) root w = 0) ->
  2 * n <= Z.of_nat (length fl) ->
  exists s1 s2, mappages root va (n * PGSIZE) pa perm s = Ok 0 s1 /\
    uvmunmap root va n false s1 = Ok tt s2 /\
    (forall w, 0 <= w < NVPN -> ent (k_mem s2) root w = ent (k_mem s) root w).
Proof.
  intros HV Hal Hva Hn Hmax Hpa Hpmax Hperm Hfree Hlen.
  assert (forall w, va / PGSIZE <= w < va / PGSIZE + n -> has (ent (k_mem s) root w) PTE_V = false) as Hfree'.
  { intros w Hw. by rewrite Hfree. }
  destruct (wpx_total _ _ _ (mappages_spec s fl root t1 t0 HV va n pa perm
      Hal Hva Hn Hmax Hpa Hpmax ltac:(lia) Hfree' true (fun _ => Hlen)))
    as (r & s1 & Hrun & k & fl1 & u1 & u0 & HV1 & _ & HE1 & Hk & _).
  destruct Hk as [[-> ->]|(_ & _ & _ & ?)]; [|lia].
  assert (0 <= va / PGSIZE /\ va / PGSIZE + n <= NVPN) as [Hv0 Hv1].
  { change NVPN with 0x4000000. change MAXVA with 0x4000000000 in Hmax. unfold PGSIZE in *. zlia. }
  destruct (uvmunmap_ok s1 fl1 root u1 u0 HV1 (va / PGSIZE) n false Hv0 ltac:(lia) Hv1)
    as (s2 & fl2 & Hrun2 & _ & _ & HE2 & _).
  - intros w Hw. rewrite HE1 by lia. unfold mapped. rewrite decide_True by done.
    by apply leaf_pte_here.
  - done.
  - intros p _ Hpos. unfold drops in Hpos. lia.
  - rewrite <- (page_number va Hal) in Hrun2. exists s1, s2. split; [done|]. split; [done|].
    intros w Hw. rewrite HE2 by done. unfold cleared. rewrite HE1 by done. unfold mapped.
    case_decide as D; [|done]. rewrite in_use_valid, leaf_pte_V by (by apply leaf_pte_here). by rewrite Hfree.
Qed.

(** [uvmalloc] with enough free pages returns the new size and maps one
    zeroed page of its own, with the wanted permissions, for every page of the
    range; every run that fails returns 0 with every entry as before and every
    page it took back on the free list, but for new tables. *)
Theorem uvmalloc_correct s fl root t1 t0 oldsz newsz xperm :
  vmem s fl root t1 t0 -> 0 <= oldsz <= newsz -> newsz <= MAXVA -> 0 <= xperm < 512 ->
  (forall w, PGROUNDUP oldsz / PGSIZE <= w < PGROUNDUP newsz / PGSIZE -> ent (k_mem s) root w = 0) ->
  (3 * pages_between oldsz newsz <= Z.of_nat (length fl) ->
     exists s' fl' t1' t0' ps, uvmalloc root oldsz newsz xperm s = Ok newsz s' /\
       grown s fl root t1 t0 (PGROUNDUP oldsz / PGSIZE) (Z.lor (Z.lor PTE_R PTE_U) xperm)
         (pages_between oldsz newsz) s' fl' t1' t0' ps) /\
  (forall r s', uvmalloc root oldsz newsz xperm s = Ok r s' ->
     (r = newsz /\ exists fl' t1' t0' ps,
        grown s fl root t1 t0 (PGROUNDUP oldsz / PGSIZE) (Z.lor (Z.lor PTE_R PTE_U) xperm)
          (pages_between oldsz newsz) s' fl' t1' t0' ps) \/
     (r = 0 /\ undone s fl root t1 t0 s')).
Proof.
  intros HV Hsz Hmax Hx Hz.
  assert (forall w, PGROUNDUP oldsz / PGSIZE <= w < PGROUNDUP oldsz / PGSIZE + pages_between oldsz newsz ->
    ent (k_mem s) root w = 0) as Hz' by (intros w Hw; apply Hz; unfold pages_between in Hw; lia).
  split.
  - intros Hlen. destruct (wpx_total _ _ _ (uvmalloc_spec true s fl root t1 t0 oldsz newsz xperm
      HV Hsz Hmax Hx Hz' (fun _ => Hlen))) as (r & s' & Hrun & [[-> (fl' & t1' & t0' & ps & G)]|[? _]]); [|done].
    by exists s', fl', t1', t0', ps.
  - intros r s' Hrun. eapply (wpx_partial false) in Hrun; [|by apply (uvmalloc_spec false s fl root t1 t0)].
    destruct Hrun as [H|(_ & H)]; [by left|by right].
Qed.

(** What [uvmcopy] finds: the parent's user pages are heap pages in memory, in
    use and not page-table pages, and the child's table is empty up to page
    [n]. *)
Record fork_ready (s : kstate) (fl : list Z) (p : Z) (p1 p0 : list Z) (c : Z) (c1 c0 : list Z) (n : Z) : Prop := {
  fr_two : two s fl p p1 p0 c c1 c0;
  fr_canonical : forall w, 0 <= w < n -> canonical (ent (k_mem s) p w);
  fr_leaf : forall w, 0 <= w < n -> user_leaf (ent (k_mem s) p w) = true ->
    heap_page (PTE2PA (ent (k_mem s) p w)) /\ (PTE2PA (ent (k_mem s) p w) ∉ tables p p1 p0) /\
    (PTE2PA (ent (k_mem s) p w) ∉ tables c c1 c0) /\
    1 <= count_of s (PTE2PA (ent (k_mem s) p w)) <= 0x40000000;
  fr_new : forall w, 0 <= w < n -> ent (k_mem s) c w = 0;
  fr_present : forall w, 0 <= w < n -> user_leaf (ent (k_mem s) p w) = true ->
    has (ent (k_mem s) p w) PTE_SWAPPED = false
}.

Lemma fork_wpx tot s fl p p1 p0 c c1 c0 sz (n := PGROUNDUP sz / PGSIZE) :
  fork_ready s fl p p1 p0 c c1 c0 n -> 0 <= sz <= MAXVA ->
  (tot = true -> 2 * n <= Z.of_nat (length fl)) ->
  wpx tot (uvmcopy p c sz) (fun r s' =>
    (r = 0 /\ exists fl' c1' c0', forked s fl p p1 p0 c c1 c0 n n s' fl' c1' c0') \/
    (tot = false /\ r = -1 /\ exists j c1' c0', 0 < j <= n /\ forked s fl p p1 p0 c c1 c0 j 0 s' [] c1' c0')) s.
Proof.
  intros [TW Hcan Hleaf Hnew Hsw] Hsz Hlen.
  by apply (uvmcopy_spec s fl p p1 p0 c c1 c0 TW n (sz_pages sz Hsz) Hcan Hleaf Hnew Hsw tot sz).
Qed.

(** C2. [uvmcopy] of a parent's [sz] bytes into a fresh page table: with two
    free pages per page it returns 0 and every user page is in both tables with
    the same, shared entry and one reference more; every run that fails returns
    -1 with the child's table and all counts as before and only copy-on-write
    marks left in the parent's. *)
Theorem uvmcopy_correct s fl p p1 p0 c c1 c0 sz (n := PGROUNDUP sz / PGSIZE) :
  fork_ready s fl p p1 p0 c c1 c0 n -> 0 <= sz <= MAXVA ->
  (2 * n <= Z.of_nat (length fl) ->
     exists s' fl' c1' c0', uvmcopy p c sz s = Ok 0 s' /\ forked s fl p p1 p0 c c1 c0 n n s' fl' c1' c0') /\
  (forall r s', uvmcopy p c sz s = Ok r s' ->
     (r = 0 /\ exists fl' c1' c0', forked s fl p p1 p0 c c1 c0 n n s' fl' c1' c0') \/
     (r = -1 /\ exists j c1' c0', 0 < j <= n /\ forked s fl p p1 p0 c c1 c0 j 0 s' [] c1' c0')).
Proof.
  intros R Hsz. split.
  - intros Hlen. destruct (wpx_total _ _ _ (fork_wpx true _ _ _ _ _ _ _ _ _ R Hsz (fun _ => Hlen)))
      as (r & s' & Hrun & [[-> (fl' & c1' & c0' & F)]|[? _]]); [|done]. by exists s', fl', c1', c0'.
  - intros r s' Hrun. eapply (wpx_partial false) in Hrun; [|by apply (fork_wpx false _ _ _ _ _ _ _ _ _ R)].
    destruct Hrun as [H|(_ & H)]; [by left|by right].
Qed.

(** C12. Isolation after fork: once [uvmcopy] succeeded, parent and child map
    every user page to the same frame with its old contents, and neither table
    lets the process write to it; a page that could be written before is marked
    copy-on-write in both. *)
Theorem fork_isolation s fl p p1 p0 c c1 c0 sz s' w :
  fork_ready s fl p p1 p0 c c1 c0 (PGROUNDUP sz / PGSIZE) -> 0 <= sz <= MAXVA ->
  uvmcopy p c sz s = Ok 0 s' ->
  0 <= w < PGROUNDUP sz / PGSIZE -> user_leaf (ent (k_mem s) p w) = true ->
  (has (ent (k_mem s) p w) PTE_COW = true -> has (ent (k_mem s) p w) PTE_W = false) ->
  let e' := ent (k_mem s') p w in
  ent (k_mem s') c w = e' /\ PTE2PA e' = PTE2PA (ent (k_mem s) p w) /\
  has e' PTE_W = false /\
  has e' PTE_COW = has (ent (k_mem s) p w) PTE_COW || has (ent (k_mem s) p w) PTE_W /\
  agree_on (PTE2PA e') PGSIZE (k_mem s) (k_mem s').
Proof.
  intros R Hsz Hrun Hw Hu Hcw e'. pose proof (sz_pages sz Hsz) as Hn.
  eapply (wpx_partial false) in Hrun; [|by apply (fork_wpx false _ _ _ _ _ _ _ _ _ R)].
  destruct Hrun as [(_ & fl' & c1' & c0' & F)|(_ & ? & _)]; [|done].
  assert (e' = share (ent (k_mem s) p w)) as He.
  { unfold e'. rewrite (fk_parent _ _ _ _ _ _ _ _ _ _ _ _ _ _ F) by lia. by rewrite decide_True by (split; [lia|done]). }
  split.
  { rewrite (fk_child _ _ _ _ _ _ _ _ _ _ _ _ _ _ F) by lia. rewrite decide_True by (split; [lia|done]). by rewrite He. }
  rewrite He, share_PA. split; [done|]. split; [by apply share_not_writable|]. split; [apply share_cow|].
  destruct (fr_leaf _ _ _ _ _ _ _ _ _ R w Hw Hu) as (Hp & H1 & H2 & H3).
  pose proof (fr_two _ _ _ _ _ _ _ _ _ R) as TW.
  eapply mframe_agree; [apply (fk_mem _ _ _ _ _ _ _ _ _ _ _ _ _ _ F)| |apply Hp|].
  - intros q [Hq|[Hq|Hq]%elem_of_app]%elem_of_app.
    + eapply free_is_heap; [apply TW|done].
    + by eapply (vmem_table_page _ _ _ _ _ q (tw_p _ _ _ _ _ _ _ _ TW)).
    + by eapply (vmem_table_page _ _ _ _ _ q (tw_c _ _ _ _ _ _ _ _ TW)).
  - intros [Hq|[Hq|Hq]%elem_of_app]%elem_of_app; [|done|done].
    eapply (free_not_counted s fl); [apply TW| |done]. lia.
Qed.

(** [uvmfree] of a process whose valid entries all lie below its size
    returns; every user page loses one reference per mapping, and exactly the
    old free pages, the page-table pages and the pages that lost their last
    reference are on the free list, and no other page is written. *)
Theorem uvmfree_correct s fl root t1 t0 sz (n := PGROUNDUP sz / PGSIZE) :
  vmem s fl root t1 t0 -> 0 <= sz <= MAXVA ->
  (forall w, 0 <= w < n -> has (ent (k_mem s) root w) PTE_SWAPPED = false) ->
  (forall w, 0 <= w < n -> has (ent (k_mem s) root w) PTE_V = true ->
     heap_page (PTE2PA (ent (k_mem s) root w)) /\ (PTE2PA (ent (k_mem s) root w) ∉ tables root t1 t0)) ->
  (forall p, heap_page p -> 0 < drops s root 0 true n p -> drops s root 0 true n p <= count_of s p) ->
  (forall w, n <= w < NVPN -> has (ent (k_mem s) root w) PTE_V = false) ->
  exists s' fl', uvmfree root sz s = Ok tt s' /\ mframe fl' s s' /\ alloc_ok s' fl' /\
    (forall p, is_page p -> p ∉ tables root t1 t0 -> count_of s' p = count_of s p - drops s root 0 true n p) /\
    (forall p, is_page p -> p ∈ fl' <-> p ∈ fl \/ p ∈ tables root t1 t0 \/
       (0 < drops s root 0 true n p /\ drops s root 0 true n p = count_of s p)).
Proof. apply uvmfree_ok. Qed.

(** C27. Fork and exit: freeing the child's address space right after
    [uvmcopy] gives back every page the fork took and the child's table, and
    every other page has the count it had before the fork. *)
Theorem fork_exit s fl p p1 p0 c c1 c0 sz s' :
  fork_ready s fl p p1 p0 c c1 c0 (PGROUNDUP sz / PGSIZE) -> 0 <= sz <= MAXVA ->
  (forall w, 0 <= w < NVPN -> ent (k_mem s) c w = 0) ->
  uvmcopy p c sz s = Ok 0 s' ->
  exists s'' fl'', uvmfree c sz s' = Ok tt s'' /\ alloc_ok s'' fl'' /\
    (forall q, is_page q -> q ∈ fl'' <-> q ∈ fl \/ q ∈ tables c c1 c0) /\
    (forall q, is_page q -> q ∉ fl -> q ∉ tables c c1 c0 -> count_of s'' q = count_of s q).
Proof.
  intros R Hsz Hempty Hrun. pose proof (sz_pages sz Hsz) as Hn. set (n := PGROUNDUP sz / PGSIZE) in *.
  eapply (wpx_partial false) in Hrun; [|by apply (fork_wpx false _ _ _ _ _ _ _ _ _ R)].
  destruct Hrun as [(_ & fl' & c1' & c0' & F)|(_ & ? & _)]; [|done]. fold n in F.
  destruct R as [TW Hcan Hleaf Hnew Hsw]. pose proof (fk_two _ _ _ _ _ _ _ _ _ _ _ _ _ _ F) as TW'.
  assert (0 <= n <= n) as Hnn by lia.
  assert (forall q, leaf_refs (ent (k_mem s') c) (seqZ 0 n) q = user_refs (ent (k_mem s) p) (seqZ 0 n) q) as Hdr
    by (intros q; by eapply forked_refs).
  assert (forall q, heap_page q -> 0 < user_refs (ent (k_mem s) p) (seqZ 0 n) q ->
    user_refs (ent (k_mem s) p) (seqZ 0 n) q < count_of s' q) as Hcnt by (intros q; by eapply forked_counted).
  destruct (uvmfree_ok s' fl' c c1' c0' sz) as (s2 & fl2 & Hrun & _ & HA & HC & Hfl); fold n.
  { apply TW'. }
  { done. }
  { intros w Hw. eapply forked_present; [exact Hn|exact Hnew|exact Hsw|exact F|lia|done]. }
  { intros w Hw HwV. eapply forked_leaf; [exact TW|exact Hn|exact Hleaf|exact Hnew|exact F|done|done|done]. }
  { intros q Hq. unfold drops. rewrite Hdr. intros Hpos. by apply Z.lt_le_incl, Hcnt. }
  { intros w Hw. rewrite (fk_child _ _ _ _ _ _ _ _ _ _ _ _ _ _ F) by lia. rewrite decide_False by lia.
    by rewrite Hempty by lia. }
  exists s2, fl2. split; [done|]. split; [done|]. unfold drops in *. destruct (fk_used _ _ _ _ _ _ _ _ _ _ _ _ _ _ F) as [ns ->].
  split.
  - intros q Hq. rewrite (Hfl q Hq), Hdr. split.
    + intros [H|[H|[Hpos Heq]]]; [left; ielem|by destruct (fk_tables _ _ _ _ _ _ _ _ _ _ _ _ _ _ F q H); auto|].
      destruct (user_refs_leaf s p n Hn n q ltac:(lia) Hpos) as (w & Hw & Hu & <-).
      specialize (Hcnt _ (proj1 (Hleaf w Hw Hu)) Hpos). lia.
    + destruct (fk_taken _ _ _ _ _ _ _ _ _ _ _ _ _ _ F) as [T1 T2].
      intros [[H|H]%T2|H%T1]; auto.
  - intros q Hq Hnf Hnt. rewrite HC, Hdr by (done || intros [?|?]%(fk_tables _ _ _ _ _ _ _ _ _ _ _ _ _ _ F); done).
    rewrite (fk_count _ _ _ _ _ _ _ _ _ _ _ _ _ _ F) by done. lia.
Qed.

(** C16. [cowfault] on a page that is not copy-on-write returns -1 and changes
    nothing; on a copy-on-write page, with a free page, it gives the process
    that page with the same bytes, writable, takes one reference from the old
    page, whose bytes stay, and changes no other entry or count. *)
Theorem cowfault_correct s fl root t1 t0 va (v := va / PGSIZE) (e := ent (k_mem s) root v) :
  vmem s fl root t1 t0 -> 0 <= va < MAXVA ->
  (has e PTE_V && has e PTE_COW = false -> cowfault root va s = Ok (-1) s) /\
  (forall pg fl1, fl = pg :: fl1 -> has e PTE_V = true -> has e PTE_COW = true ->
     heap_page (PTE2PA e) -> PTE2PA e ∉ tables root t1 t0 -> 1 <= count_of s (PTE2PA e) ->
     exists s', cowfault root va s = Ok 0 s' /\ vmem s' fl1 root t1 t0 /\
       ent (k_mem s') root v = own_pte pg e /\ PTE2PA (own_pte pg e) = pg /\
       has (own_pte pg e) PTE_W = true /\ has (own_pte pg e) PTE_COW = false /\
       (forall w, 0 <= w < NVPN -> w <> v -> ent (k_mem s') root w = ent (k_mem s) root w) /\
       (forall i, 0 <= i < PGSIZE -> k_mem s' (pg + i) = k_mem s (PTE2PA e + i)) /\
       agree_on (PTE2PA e) PGSIZE (k_mem s) (k_mem s') /\
       count_of s' pg = 1 /\ count_of s' (PTE2PA e) = count_of s (PTE2PA e) - 1 /\
       (forall q, is_page q -> q <> pg -> q <> PTE2PA e -> count_of s' q = count_of s q)).
Proof.
  intros HV Hva. split; [by apply (cowfault_refuses s root t1 t0 va Hva fl)|].
  intros pg fl1 -> HeV HeC Hp Hpt Hcnt.
  destruct (cowfault_copies s root t1 t0 va Hva pg fl1 HV HeV HeC Hp Hpt Hcnt)
    as (s' & Hrun & HV' & Ho & HE & Hcopy & Hmem & H1 & H2 & H3).
  pose proof (pg_heap _ _ _ _ _ _ HV) as Hg. pose proof (va_page_range va Hva) as Hv.
  exists s'. split; [done|]. split; [done|]. split; [rewrite HE by done; by rewrite decide_True|].
  split; [apply own_pte_PA, Hg|]. split; [rewrite has_W, own_pte_bit by lia; apply orb_true_r|].
  split; [rewrite has_COW, own_pte_bit by lia; by rewrite andb_false_r|].
  split; [intros w Hw Hne; rewrite HE by done; by rewrite decide_False|]. split; [done|].
  split; [|by split]. intros x Hx. apply Hmem. intros q Hq Hin.
  assert (PTE2PA e ∉ pg :: fl1) as Hpf by (eapply free_not_counted; [apply HV|lia]).
  apply elem_of_cons in Hq as [->|Hq].
  - apply Hpf. rewrite (in_page_inj pg (PTE2PA e) x); [ielem|apply Hg|apply Hp|done|done].
  - apply Hpt. rewrite <- (in_page_inj q (PTE2PA e) x); [done|by eapply (vmem_table_page _ _ _ _ _ q HV)|apply Hp|done|done].
Qed.

(** When the faulting process holds the last reference to a copy-on-write
    page, [cowfault] loses that page: its count drops to 0 and it is not put on
    the free list. *)
Theorem cowfault_leaks s pg fl root t1 t0 va (e := ent (k_mem s) root (va / PGSIZE)) :
  vmem s (pg :: fl) root t1 t0 -> 0 <= va < MAXVA -> has e PTE_V = true -> has e PTE_COW = true ->
  heap_page (PTE2PA e) -> PTE2PA e ∉ tables root t1 t0 -> count_of s (PTE2PA e) = 1 ->
  exists s', cowfault root va s = Ok 0 s' /\ alloc_ok s' fl /\ ~ no_leak s' fl.
Proof.
  intros HV Hva HeV HeC Hp Hpt Hcnt.
  destruct (cowfault_copies s root t1 t0 va Hva pg fl HV HeV HeC Hp Hpt ltac:(fold e; rewrite Hcnt; lia))
    as (s' & Hrun & HV' & _ & _ & _ & _ & _ & H2 & _).
  exists s'. split; [done|]. split; [apply HV'|]. intros Hn.
  assert (PTE2PA e ∉ pg :: fl) as Hpf by (eapply free_not_counted; [apply HV|lia]).
  apply Hpf, elem_of_cons. right. apply Hn; [done|]. unfold e in *. rewrite H2, Hcnt. done.
Qed.

(** C29. [vmfault] at an address outside the process, or on a mapped page,
    returns 0 and changes nothing.  Otherwise, with three free pages, it maps a
    zeroed page there, readable and writable by the user, and no other page or
    byte of the process changes; when memory runs out it returns 0 with every
    entry unchanged. *)
Theorem vmfault_correct s fl root t1 t0 i va (v := va / PGSIZE) :
  uspace s fl root t1 t0 -> k_cur s = Some i -> p_pagetable (k_procs s i) = root -> 0 <= va < MAXVA ->
  (p_sz (k_procs s i) <= va \/ has (ent (k_mem s) root v) PTE_V = true -> vmfault root va s = Ok 0 s) /\
  (va < p_sz (k_procs s i) -> has (ent (k_mem s) root v) PTE_V = false ->
     ((3 <= length fl)%nat -> exists r s', vmfault root va s = Ok r s' /\ r <> 0) /\
     forall r s', vmfault root va s = Ok r s' ->
       (exists fl' t1' t0', uspace s' fl' root t1' t0') /\
       (forall w, 0 <= w < NVPN -> w <> v -> ent (k_mem s') root w = ent (k_mem s) root w) /\
       (forall a, 0 <= a < MAXVA -> uvalid (k_mem s) root a = true ->
          uvalid (k_mem s') root a = true /\ ubyte (k_mem s') root a = ubyte (k_mem s) root a) /\
       (r <> 0 -> ent (k_mem s') root v = leaf_pte r lazy_perm /\ zero_page (k_mem s') r) /\
       (r = 0 -> ent (k_mem s') root v = ent (k_mem s) root v)).
Proof.
  intros U Hcur Hpt Hva. split; [by apply (vmfault_refuses s fl root t1 t0 U i va)|].
  intros Hsz Hnv. split.
  - intros Hlen. destruct (wpx_total _ _ _ (vmfault_spec s fl root t1 t0 U i va Hcur Hva true Hpt Hsz Hnv (fun _ => Hlen)))
      as (r & s' & Hrun & fl' & t1' & t0' & _ & _ & _ & _ & [[Hr _]|[? _]]); [|done]. by exists r, s'.
  - intros r s' Hrun. eapply (wpx_partial false) in Hrun; [|by apply (vmfault_spec s fl root t1 t0 U i va Hcur Hva false)].
    destruct Hrun as (fl' & t1' & t0' & U' & _ & HE & HB & HR). split; [by exists fl', t1', t0'|]. do 2 (split; [done|]).
    destruct HR as [(Hr & _ & HrE & Hz & _)|(_ & -> & HrE)]; split; done.
Qed.

(** [copyin] over mapped user pages returns exactly the user's bytes,
    across page boundaries, and leaves the kernel state as it was. *)
Theorem copyin_correct s fl root t1 t0 va len :
  vmem s fl root t1 t0 -> 0 <= len -> (forall i, 0 <= i < len -> in_user s root (va + i)) ->
  copyin root va len s = Ok (0, uread (k_mem s) root va len) s.
Proof. intros HV. by apply (copyin_ok s fl root t1 t0 HV). Qed.

(** [copyinstr] of a string whose NUL is within [max] bytes returns the
    string with its NUL and nothing after it. *)
Theorem copyinstr_correct s fl root t1 t0 va max k :
  vmem s fl root t1 t0 -> 0 <= k < max ->
  (forall i, 0 <= i <= k -> in_user s root (va + i)) ->
  (forall i, 0 <= i < k -> ubyte (k_mem s) root (va + i) <> 0) -> ubyte (k_mem s) root (va + k) = 0 ->
  copyinstr root va max s = Ok (0, uread (k_mem s) root va (k + 1)) s.
Proof. intros HV. by apply (copyinstr_found s fl root t1 t0 HV). Qed.

(** C28. [copyout] to pages that are writable, copy-on-write or not yet
    allocated, with three free pages per page: it returns 0, the user sees
    exactly the bytes given, and every other byte the user could read is
    unchanged. *)
Theorem copyout_correct s fl root t1 t0 va src (len := Z.of_nat (length src)) :
  uspace s fl root t1 t0 -> 0 <= va -> va + len <= MAXVA -> Forall (fun b => 0 <= b < 256) src ->
  (forall w, va / PGSIZE <= w <= (va + len - 1) / PGSIZE -> page_ready s root w) ->
  3 * ((va + len - 1) / PGSIZE - va / PGSIZE + 1) <= Z.of_nat (length fl) ->
  exists s' fl' t1' t0', copyout root va src s = Ok 0 s' /\ uspace s' fl' root t1' t0' /\
    uread (k_mem s') root va len = src /\
    (forall i, 0 <= i < len -> uvalid (k_mem s') root (va + i) = true) /\
    (forall b, 0 <= b < MAXVA -> uvalid (k_mem s) root b = true -> ~ (va <= b < va + len) ->
       ubyte (k_mem s') root b = ubyte (k_mem s) root b).
Proof.
  intros U Hva Hmax Hbytes Hready Hfree.
  destruct (copyout_ok s fl root t1 t0 U va src Hva Hmax Hbytes Hready Hfree) as (k & s' & fl' & t1' & t0' & Hrun & W).
  exists s', fl', t1', t0'. split; [done|]. destruct W as [U' _ Hval Hb Ho _ _]. split; [done|].
  split; [unfold len; rewrite Hb; apply firstn_all2; lia|]. split; [done|].
  intros b Hb1 Hb2 Hout. by apply Ho.
Qed.

(** What [copyout] writes, [copyin] reads back. *)
Theorem copyout_copyin s fl root t1 t0 va src (len := Z.of_nat (length src)) :
  uspace s fl root t1 t0 -> 0 <= va -> va + len <= MAXVA -> Forall (fun b => 0 <= b < 256) src ->
  (forall w, va / PGSIZE <= w <= (va + len - 1) / PGSIZE -> page_ready s root w) ->
  3 * ((va + len - 1) / PGSIZE - va / PGSIZE + 1) <= Z.of_nat (length fl) ->
  exists s', copyout root va src s = Ok 0 s' /\ copyin root va len s' = Ok (0, src) s'.
Proof.
  intros U Hva Hmax Hbytes Hready Hfree.
  destruct (copyout_ok s fl root t1 t0 U va src Hva Hmax Hbytes Hready Hfree) as (k & s' & fl' & t1' & t0' & Hrun & W).
  exists s'. split; [done|]. destruct W as [U' _ Hval Hb _ _ _].
  rewrite (copyin_ok s' fl' root t1' t0' (us_vm _ _ _ _ _ U')).
  - unfold len. rewrite Hb, firstn_all2 by lia. done.
  - unfold len. lia.
  - intros i Hi. split; [unfold len in *; lia|]. split; [by apply Hval|].
    eapply (us_leaf _ _ _ _ _ U' ((va + i) / PGSIZE)); [apply va_page_range; unfold len in *; lia|by apply Hval].
Qed.

End VmSpec.

(** ** Instances on the sample process *)

Lemma user_mem : k_mem user_state = sample_mem.
Proof. reflexivity. Qed.

Lemma user_free w : 1 <= w < NVPN -> ent (k_mem user_state) uroot w = 0.
Proof. intros Hw. rewrite user_mem, user_ent by lia. by rewrite decide_False by lia. Qed.

Lemma user_page0 : ent (k_mem user_state) uroot 0 = leaf_pte udata rwu.
Proof. by vm_compute. Qed.

Lemma user_in_page va : 0 <= va < PGSIZE -> in_user user_state uroot va.
Proof.
  intros Hva. unfold in_user, uvalid. replace (va / PGSIZE) with 0 by (unfold PGSIZE in *; zlia).
  rewrite user_page0. split; [|split; [by vm_compute|apply (bool_decide_unpack _); by vm_compute]].
  change MAXVA with 0x4000000000. unfold PGSIZE in *. lia.
Qed.

Lemma user_ready w : 0 <= w < 4 -> page_ready user_state uroot w.
Proof.
  intros Hw. unfold page_ready. rewrite user_mem, user_ent by (change NVPN with 0x4000000; lia).
  case_decide.
  - left. split; [by vm_compute|]. split; [by vm_compute|]. right. by vm_compute.
  - right. split; [done|]. exists 0. split; [done|]. split; [done|].
    change (p_sz (k_procs user_state 0)) with 0x4000. unfold PGSIZE. lia.
Qed.

Lemma user_fork_ready : fork_ready user_state free8 uroot [utab1] [utab0] croot [] [] (PGROUNDUP 0x4000 / PGSIZE).
Proof.
  change (PGROUNDUP 0x4000 / PGSIZE) with 4.
  assert (forall w, 0 <= w < 4 -> ent (k_mem user_state) uroot w = if decide (w = 0) then leaf_pte udata rwu else 0) as HE.
  { intros w Hw. apply user_ent. change NVPN with 0x4000000. lia. }
  assert (PTE2PA (leaf_pte udata rwu) = udata) as Hpa by (by vm_compute).
  split; [apply user_two| | |intros w _; apply child_ent|].
  - intros w Hw. rewrite HE by done. by case_decide.
  - intros w Hw. rewrite HE by done. case_decide; [|done]. intros _. rewrite Hpa.
    split; [apply (bool_decide_unpack _); by vm_compute|]. split; [apply (bool_decide_unpack _); by vm_compute|].
    split; [apply (bool_decide_unpack _); by vm_compute|by vm_compute].
  - intros w Hw. rewrite HE by done. case_decide; [|done]. intros _. by vm_compute.
Qed.

Lemma walk_correct_witness :
  walk uroot 0x1000 false user_state = Ok (utab0 + 8) user_state /\
  exists a s' fl' t1' t0', walk uroot 0x40000000 true user_state = Ok a s' /\ vmem s' fl' uroot t1' t0'.
Proof.
  split.
  - rewrite (proj1 (walk_correct user_state free8 uroot [utab1] [utab0] 0x1000 user_vmem ltac:(done))).
    by f_equal.
  - destruct (proj2 (walk_correct user_state free8 uroot [utab1] [utab0] 0x40000000 user_vmem ltac:(done))
      ltac:(rewrite length_free8; lia)) as (a & s' & fl' & t1' & t0' & H1 & _ & _ & H2 & _). by exists a, s', fl', t1', t0'.
Defined.

Lemma mappages_correct_witness : exists s',
  mappages uroot 0x1000 (2 * PGSIZE) 0x10000000 rwu user_state = Ok 0 s' /\
  map_post user_state free8 uroot [utab1] [utab0] 0x1000 2 0x10000000 rwu 0 s'.
Proof.
  apply (mappages_correct user_state free8 uroot [utab1] [utab0] 0x1000 2 0x10000000 rwu user_vmem); try done.
  intros w Hw. change (0x1000 / PGSIZE) with 1 in Hw. rewrite user_free by (change NVPN with 0x4000000; lia). done.
Defined.

Lemma mappages_no_remap_witness : mappages uroot 0 (1 * PGSIZE) 0 rwu user_state = Panic "mappages: remap".
Proof.
  apply (mappages_no_remap user_state free8 uroot [utab1] [utab0] 0 1 0 rwu user_vmem); done.
Defined.

Lemma udata_heap : heap_page udata.
Proof. apply (bool_decide_unpack _). by vm_compute. Qed.

Lemma user_drops p : drops user_state uroot 0 true 4 p = if decide (p = udata) then 1 else 0.
Proof.
  unfold drops. change (seqZ 0 4) with [0; 1; 2; 3]. unfold leaf_refs. cbn [sumZ].
  rewrite user_page0, !user_free by (change NVPN with 0x4000000; lia).
  change (PTE2PA (leaf_pte udata rwu)) with udata. change (resident (leaf_pte udata rwu)) with true.
  change (resident 0) with false. cbn [andb]. destruct (Z.eqb_spec udata p); case_decide; congruence || lia.
Qed.

Lemma user_counted p : heap_page p -> 0 < drops user_state uroot 0 true 4 p ->
  drops user_state uroot 0 true 4 p <= count_of user_state p.
Proof. intros _. rewrite user_drops. case_decide as D; [|lia]. rewrite D. intros _. by vm_compute. Qed.

Lemma user_present w : 0 <= w < 4 -> has (ent (k_mem user_state) uroot w) PTE_SWAPPED = false.
Proof.
  intros Hw. destruct (decide (w = 0)) as [->|]; [by vm_compute|].
  by rewrite user_free by (change NVPN with 0x4000000; lia).
Qed.

Lemma user_heap w : 0 <= w < 4 -> has (ent (k_mem user_state) uroot w) PTE_V = true ->
  heap_page (PTE2PA (ent (k_mem user_state) uroot w)) /\
  (PTE2PA (ent (k_mem user_state) uroot w) ∉ tables uroot [utab1] [utab0]).
Proof.
  intros Hw. destruct (decide (w = 0)) as [->|].
  - intros _. split; apply (bool_decide_unpack _); by vm_compute.
  - by rewrite user_free by (change NVPN with 0x4000000; lia).
Qed.

(** The page after the first one is in block 7 of the swap area. *)
Definition swapped_state : kstate :=
  k_set_mem (store64 sample_mem (utab0 + 8) (swapblock_to_pte 7)) (on_swap (take_block 7) user_state).

Lemma swapped_vmem : vmem swapped_state free8 uroot [utab1] [utab0].
Proof.
  split; [|apply pt_check_ok; by vm_compute| |apply user_locks].
  - split; [vm_compute; repeat split; reflexivity|apply (bool_decide_unpack _); by vm_compute..].
  - apply Forall_forall, (bool_decide_unpack _). by vm_compute.
Qed.

Lemma swapped_ent w : 0 <= w < 2 -> ent (k_mem swapped_state) uroot w = if decide (w = 0) then leaf_pte udata rwu else swapblock_to_pte 7.
Proof. intros Hw. assert (w = 0 \/ w = 1) as [-> | ->] by lia; by vm_compute. Qed.

Lemma swapped_list : swap_list (ent (k_mem swapped_state) uroot) (seqZ 0 2) = [7].
Proof. by vm_compute. Qed.

Lemma swapped_drops p : drops swapped_state uroot 0 true 2 p = if udata =? p then 1 else 0.
Proof.
  unfold drops, leaf_refs. change (seqZ 0 2) with [0; 1]. cbn [sumZ]. rewrite !swapped_ent by done. rewrite decide_True, decide_False by done.
  change (PTE2PA (leaf_pte udata rwu)) with udata. change (resident (leaf_pte udata rwu)) with true. change (resident (swapblock_to_pte 7)) with false.
  cbn [andb]. by destruct (udata =? p).
Qed.

Lemma uvmunmap_correct_witness : exists s' (fl' : list Z), uvmunmap uroot (0 * PGSIZE) 2 true swapped_state = Ok tt s' /\
  swap_bit (k_swap swapped_state) 7 = true /\ swap_bit (k_swap s') 7 = false /\ udata ∈ fl' /\
  ent (k_mem s') uroot 0 = 0 /\ ent (k_mem s') uroot 1 = 0.
Proof.
  destruct (uvmunmap_correct swapped_state free8 uroot [utab1] [utab0] 0 2 true swapped_vmem ltac:(lia) ltac:(lia) ltac:(done)) as [(s' & fl' & H1 & _ & _ & HE & HC & Hfl & _ & Hb) _].
  - by vm_compute.
  - intros _. rewrite swapped_list. split; [apply NoDup_singleton|]. intros b ->%list_elem_of_singleton. split; [done|]. split; [by vm_compute|apply not_elem_of_nil].
  - intros w Hw Hr _. rewrite swapped_ent in * by lia. case_decide; [|done]. change (PTE2PA (leaf_pte udata rwu)) with udata.
    split; apply (bool_decide_unpack _); by vm_compute.
  - intros p _. rewrite swapped_drops. destruct (Z.eqb_spec udata p) as [<-|]; [by vm_compute|done].
  - exists s', fl'. split; [exact H1|]. split; [by vm_compute|]. split; [rewrite (Hb 7 ltac:(done)), swapped_list, decide_True by (split; [done|left]); reflexivity|].
    split; [|split].
    + apply Hfl; [apply udata_heap|]. right. rewrite (HC udata (proj1 udata_heap)), swapped_drops. split; reflexivity.
    + assert (0 <= 0 < NVPN) as Hk by (change NVPN with 0x4000000; lia). etransitivity; [exact (HE 0 Hk)|]. unfold cleared. rewrite decide_True by done. rewrite swapped_ent by done. reflexivity.
    + assert (0 <= 1 < NVPN) as Hk by (change NVPN with 0x4000000; lia). etransitivity; [exact (HE 1 Hk)|]. unfold cleared. rewrite decide_True by done. rewrite swapped_ent by done. reflexivity.
Defined.

Lemma uvmfree_correct_witness : exists s' fl', uvmfree uroot 0x4000 user_state = Ok tt s' /\ alloc_ok s' fl' /\
  udata ∈ fl' /\ utab0 ∈ fl'.
Proof.
  destruct (uvmfree_correct user_state free8 uroot [utab1] [utab0] 0x4000 user_vmem ltac:(done)
    user_present user_heap user_counted) as (s' & fl' & H1 & _ & H2 & _ & H3).
  - intros w Hw. change (PGROUNDUP 0x4000 / PGSIZE) with 4 in Hw. by rewrite user_free by lia.
  - exists s', fl'. split; [exact H1|]. split; [exact H2|]. change (PGROUNDUP 0x4000 / PGSIZE) with 4 in H3. split.
    + apply H3; [apply udata_heap|]. right. right. rewrite user_drops. split; [done|by vm_compute].
    + apply H3; [apply (bool_decide_unpack _); by vm_compute|]. right. left. apply (bool_decide_unpack _). by vm_compute.
Defined.

Lemma map_unmap_roundtrip_witness : exists s1 s2,
  mappages uroot 0x1000 (2 * PGSIZE) 0x10000000 rwu user_state = Ok 0 s1 /\
  uvmunmap uroot 0x1000 2 false s1 = Ok tt s2.
Proof.
  destruct (map_unmap_roundtrip user_state free8 uroot [utab1] [utab0] 0x1000 2 0x10000000 rwu user_vmem)
    as (s1 & s2 & H1 & H2 & _); [done..| |by vm_compute|exists s1, s2; exact (conj H1 H2)].
  intros w Hw. change (0x1000 / PGSIZE) with 1 in Hw. apply user_free. change NVPN with 0x4000000. lia.
Defined.

Lemma uvmalloc_correct_witness : exists s', uvmalloc uroot 0x1000 0x2800 PTE_W user_state = Ok 0x2800 s'.
Proof.
  destruct (uvmalloc_correct user_state free8 uroot [utab1] [utab0] 0x1000 0x2800 PTE_W user_vmem) as [H _]; [done..| |].
  - intros w Hw. change (PGROUNDUP 0x1000 / PGSIZE) with 1 in Hw. change (PGROUNDUP 0x2800 / PGSIZE) with 3 in Hw.
    apply user_free. change NVPN with 0x4000000. lia.
  - destruct H as (s' & fl' & t1' & t0' & ps & H & _); [by vm_compute|exists s'; exact H].
Defined.

Lemma uvmcopy_correct_witness : exists s' fl' c1' c0', uvmcopy uroot croot 0x4000 user_state = Ok 0 s' /\
  forked user_state free8 uroot [utab1] [utab0] croot [] [] 4 4 s' fl' c1' c0'.
Proof.
  apply (uvmcopy_correct user_state free8 uroot [utab1] [utab0] croot [] [] 0x4000 user_fork_ready); [done|].
  by vm_compute.
Defined.

Lemma user_forks : exists s', uvmcopy uroot croot 0x4000 user_state = Ok 0 s'.
Proof.
  destruct (wpx_total _ _ _ (fork_wpx true user_state free8 uroot [utab1] [utab0] croot [] [] 0x4000
    user_fork_ready ltac:(done) ltac:(by vm_compute))) as (r & s' & Hrun & [[-> _]|[E _]]); [|discriminate E].
  by exists s'.
Qed.

Lemma fork_isolation_witness : exists s', uvmcopy uroot croot 0x4000 user_state = Ok 0 s' /\
  ent (k_mem s') croot 0 = ent (k_mem s') uroot 0 /\ has (ent (k_mem s') uroot 0) PTE_W = false /\
  has (ent (k_mem s') uroot 0) PTE_COW = true.
Proof.
  assert (0 <= 0 < PGROUNDUP 0x4000 / PGSIZE) as Hw by done.
  assert (user_leaf (ent (k_mem user_state) uroot 0) = true) as Hu by (by vm_compute).
  assert (has (ent (k_mem user_state) uroot 0) PTE_COW = false) as Hc by (by vm_compute).
  assert (has (ent (k_mem user_state) uroot 0) PTE_W = true) as Hwr by (by vm_compute).
  assert (0 <= 0x4000 <= MAXVA) as Hsz by (change MAXVA with 0x4000000000; lia).
  destruct user_forks as [s' Hrun].
  destruct (fork_isolation user_state free8 uroot [utab1] [utab0] croot [] [] 0x4000 s' 0
    user_fork_ready Hsz Hrun Hw Hu ltac:(rewrite Hc; intros; congruence)) as (H1 & _ & H2 & H3 & _).
  exists s'. rewrite Hc, Hwr in H3. exact (conj Hrun (conj H1 (conj H2 H3))).
Defined.

Lemma fork_exit_witness : exists s' s'' fl'', uvmcopy uroot croot 0x4000 user_state = Ok 0 s' /\
  uvmfree croot 0x4000 s' = Ok tt s'' /\ alloc_ok s'' fl''.
Proof.
  assert (0 <= 0x4000 <= MAXVA) as Hsz by (change MAXVA with 0x4000000000; lia).
  destruct user_forks as [s' Hrun].
  destruct (fork_exit user_state free8 uroot [utab1] [utab0] croot [] [] 0x4000 s' user_fork_ready Hsz
    (fun w _ => child_ent w) Hrun) as (s'' & fl'' & H1 & H2 & _).
  exists s', s'', fl''. exact (conj Hrun (conj H1 H2)).
Defined.

(** The first free page goes to the faulting process. *)
Definition free7 : list Z := tl free8.

Lemma cow_entry : ent (k_mem cow_state) uroot (0x123 / PGSIZE) = leaf_pte udata cowu.
Proof. by vm_compute. Qed.

Lemma udata_not_table : udata ∉ tables uroot [utab1] [utab0].
Proof. apply (bool_decide_unpack _). by vm_compute. Qed.

Lemma cowu_page : PTE2PA (leaf_pte udata cowu) = udata.
Proof. reflexivity. Qed.

Lemma cowfault_correct_witness :
  cowfault uroot 0x1000 cow_state = Ok (-1) cow_state /\
  exists s', cowfault uroot 0x123 cow_state = Ok 0 s' /\ vmem s' free7 uroot [utab1] [utab0] /\
    ent (k_mem s') uroot 0 = own_pte 0x80100000 (leaf_pte udata cowu).
Proof.
  split.
  - apply (cowfault_correct cow_state free8 uroot [utab1] [utab0] 0x1000 cow_vmem); [done|by vm_compute].
  - pose proof (proj2 (cowfault_correct cow_state free8 uroot [utab1] [utab0] 0x123 cow_vmem ltac:(done))
      0x80100000 free7 eq_refl) as H. cbv zeta in H. rewrite cow_entry, cowu_page in H.
    destruct (H eq_refl eq_refl udata_heap udata_not_table ltac:(by vm_compute)) as (s' & H1 & H2 & H3 & _).
    exists s'. exact (conj H1 (conj H2 H3)).
Defined.

Lemma cowfault_leaks_witness : exists s', cowfault uroot 0x123 cow_state = Ok 0 s' /\ ~ no_leak s' free7.
Proof.
  pose proof (cowfault_leaks cow_state 0x80100000 free7 uroot [utab1] [utab0] 0x123 cow_vmem ltac:(done)) as H.
  cbv zeta in H. rewrite cow_entry, cowu_page in H.
  destruct (H eq_refl eq_refl udata_heap udata_not_table eq_refl) as (s' & H1 & _ & H2).
  exists s'. exact (conj H1 H2).
Defined.

Lemma vmfault_correct_witness :
  vmfault uroot 0x5000 user_state = Ok 0 user_state /\
  exists r s', vmfault uroot 0x1234 user_state = Ok r s' /\ r <> 0 /\
    ent (k_mem s') uroot 1 = leaf_pte r lazy_perm /\ zero_page (k_mem s') r.
Proof.
  split.
  - apply (vmfault_correct user_state free8 uroot [utab1] [utab0] 0 0x5000 user_uspace); [done..|]. left. done.
  - destruct (proj2 (vmfault_correct user_state free8 uroot [utab1] [utab0] 0 0x1234 user_uspace
      eq_refl eq_refl ltac:(done)) ltac:(done) ltac:(by vm_compute)) as [H1 H2].
    destruct H1 as (r & s' & Hrun & Hr); [rewrite length_free8; lia|].
    destruct (H2 r s' Hrun) as (_ & _ & _ & H3 & _). destruct (H3 Hr) as [H4 H5].
    exists r, s'. exact (conj Hrun (conj Hr (conj H4 H5))).
Defined.

Lemma copyin_correct_witness :
  copyin uroot 0x10 3 user_state = Ok (0, uread (k_mem user_state) uroot 0x10 3) user_state.
Proof.
  apply (copyin_correct user_state free8 uroot [utab1] [utab0] 0x10 3 user_vmem); [lia|].
  intros i Hi. apply user_in_page. unfold PGSIZE. lia.
Defined.

Lemma copyinstr_correct_witness :
  copyinstr uroot 0x10 16 user_state = Ok (0, uread (k_mem user_state) uroot 0x10 1) user_state.
Proof.
  apply (copyinstr_correct user_state free8 uroot [utab1] [utab0] 0x10 16 0 user_vmem); [lia| |lia|by vm_compute].
  intros i Hi. apply user_in_page. unfold PGSIZE. lia.
Defined.

(** Two pages are written: the mapped one and the next, not yet allocated. *)
Lemma copyout_correct_witness : exists s',
  copyout uroot 0xffe [1; 2; 3; 4] user_state = Ok 0 s' /\ uread (k_mem s') uroot 0xffe 4 = [1; 2; 3; 4].
Proof.
  destruct (copyout_correct user_state free8 uroot [utab1] [utab0] 0xffe [1; 2; 3; 4] user_uspace)
    as (s' & fl' & t1' & t0' & H1 & _ & H2 & _); [done|done|by repeat (apply Forall_cons; split; [lia|]); apply Forall_nil| |done|].
  - intros w Hw. change (0xffe / PGSIZE) with 0 in Hw. change ((0xffe + _ - 1) / PGSIZE) with 1 in Hw.
    apply user_ready. lia.
  - exists s'. exact (conj H1 H2).
Defined.

Lemma copyout_copyin_witness : exists s',
  copyout uroot 0xffe [1; 2; 3; 4] user_state = Ok 0 s' /\ copyin uroot 0xffe 4 s' = Ok (0, [1; 2; 3; 4]) s'.
Proof.
  apply (copyout_copyin user_state free8 uroot [utab1] [utab0] 0xffe [1; 2; 3; 4] user_uspace);
    [done|done|by repeat (apply Forall_cons; split; [lia|]); apply Forall_nil| |done].
  intros w Hw. change (0xffe / PGSIZE) with 0 in Hw. change ((0xffe + _ - 1) / PGSIZE) with 1 in Hw.
  apply user_ready. lia.
Defined.
