(* ===== verification/Fs.v ===== *)
(** * kernel/fs.c

    The file system: block allocation, inodes, file contents, directories and
    path names.  An in-memory inode is its index in [itable]; C strings are
    byte lists whose end stands for the terminating NUL. *)

From S2P Require Import Prelude Riscv Mem KState Sched Virtio Bio Log PhysMem Vm.

(** ** fs.h, stat.h and param.h *)

Definition ROOTINO : Z := 1.
Definition FSMAGIC : Z := 0x10203040.
Definition NDIRECT : Z := 12.
Definition NINDIRECT : Z := BSIZE / 4.
Definition MAXFILE : Z := NDIRECT + NINDIRECT.
Definition DINODE : Z := 64.          (* sizeof(struct dinode) *)
Definition IPB : Z := BSIZE / DINODE.
Definition IBLOCK (i : Z) (sb : superblock) : Z := u32 (i / IPB + sb_inodestart sb).
Definition BPB : Z := BSIZE * 8.
Definition BBLOCK (b : Z) (sb : superblock) : Z := u32 (b / BPB + sb_bmapstart sb).
Definition DIRSIZ : Z := 14.
Definition DIRENT : Z := 16.          (* sizeof(struct dirent) *)
Definition T_DIR : Z := 1.
Definition T_FILE : Z := 2.
Definition T_DEVICE : Z := 3.
Definition NINODE : Z := 50.

Record stat : Type := mkStat {
  st_dev : Z; st_ino : Z; st_type : Z; st_nlink : Z; st_size : Z }.

(** ** C strings *)

(** The first character of a string: NUL at its end. *)
Definition chr (p : list Z) : Z := hd 0 p.

(** [strncmp] over byte lists, as the loop of string.c. *)
Fixpoint strncmp_l (n : nat) (p q : list Z) : Z :=
  match n with
  | O => 0
  | S n =>
      if negb (chr p =? 0) && (chr p =? chr q) then strncmp_l n (tail p) (tail q)
      else chr p - chr q
  end.

(** The [n] bytes [strncpy] stores: the string, padded with NULs. *)
Fixpoint strncpy_l (n : nat) (t : list Z) : list Z :=
  match n with
  | O => []
  | S n => if chr t =? 0 then 0 :: replicate n 0 else chr t :: strncpy_l n (tail t)
  end.

Definition namecmp (s t : list Z) : Z := strncmp_l (Z.to_nat DIRSIZ) s t.

(** Bytes of a buffer. *)
Definition bget8 (b off : Z) : K Z := gets (fun s => load8 (b_data (k_bufs s b)) off).
Definition bput8 (b off v : Z) : K unit :=
  modify (upd_buf b (fun x => b_set_data (store8 (b_data x) off v) x)).
Definition bget16 (b off : Z) : K Z := gets (fun s => loadn 2 (b_data (k_bufs s b)) off).
Definition bput16 (b off v : Z) : K unit :=
  modify (upd_buf b (fun x => b_set_data (storen 2 (b_data x) off v) x)).
Definition bytes_of (b off n : Z) : K (list Z) := gets (fun s => mem_read (b_data (k_bufs s b)) off n).
Definition bwrite_bytes (b off : Z) (bs : list Z) : K unit :=
  modify (upd_buf b (fun x => b_set_data (mem_write (b_data x) off bs) x)).
Definition bzero_bytes (b off n : Z) : K unit :=
  modify (upd_buf b (fun x => b_set_data (mem_fill (b_data x) off 0 n) x)).

Definition upd_inode (i : Z) (f : inode -> inode) (s : kstate) : kstate :=
  k_set_itable (fupd (k_itable s) i (f (k_itable s i))) s.
Definition inode_of (i : Z) : K inode := gets (fun s => k_itable s i).

Section Fs.
Context {LAY : Layout} {ENV : Env}.

(** ** Blocks *)

Definition readsb (dev : Z) : K unit :=
  bp <- bread (u32 dev) 1 ;;
  magic <- bget32 bp 0 ;;
  size <- bget32 bp 4 ;;
  nblocks <- bget32 bp 8 ;;
  ninodes <- bget32 bp 12 ;;
  nlog <- bget32 bp 16 ;;
  logstart <- bget32 bp 20 ;;
  inodestart <- bget32 bp 24 ;;
  bmapstart <- bget32 bp 28 ;;
  modify (k_set_sb (mkSuper magic size nblocks ninodes nlog logstart inodestart bmapstart)) ;;
  brelse bp.

Definition bzero (dev bno : Z) : K unit :=
  bp <- bread (u32 dev) (u32 bno) ;;
  bzero_bytes bp 0 BSIZE ;;
  log_write bp ;;
  brelse bp.

(** The inner loop of [balloc], over the bits of one bitmap block: the bit
    found is set, the block logged and released. *)
Definition balloc_bits (bp b size : Z) : K (option Z) :=
  for_find (seqZ 0 (Z.min BPB (size - b))) (fun bi =>
    let m := Z.shiftl 1 (bi mod 8) in
    x <- bget8 bp (bi / 8) ;;
    if Z.land x m =? 0 then
      bput8 bp (bi / 8) (Z.lor x m) ;;
      log_write bp ;;
      brelse bp ;;
      ret (Some bi)
    else ret None).

(** One round of the outer loop. *)
Definition balloc_block (dev b : Z) : K (option Z) :=
  sb <- gets k_sb ;;
  bp <- bread dev (BBLOCK b sb) ;;
  r <- balloc_bits bp b (sb_size sb) ;;
  match r with
  | Some bi => bzero dev (b + bi) ;; ret (Some (b + bi))
  | None => brelse bp ;; ret None
  end.

Definition balloc (dev : Z) : K Z :=
  sb <- gets k_sb ;;
  r <- for_find (map (Z.mul BPB) (seqZ 0 ((sb_size sb + BPB - 1) / BPB))) (balloc_block dev) ;;
  match r with
  | Some b => ret b
  | None => printf "balloc: out of blocks" [] ;; ret 0
  end.

Definition bfree (dev b : Z) : K unit :=
  sb <- gets k_sb ;;
  bp <- bread (u32 dev) (BBLOCK b sb) ;;
  let bi := b mod BPB in
  let m := Z.shiftl 1 (bi mod 8) in
  x <- bget8 bp (bi / 8) ;;
  if Z.land x m =? 0 then panic "freeing free block" else
  bput8 bp (bi / 8) (Z.land x (Z.lnot m)) ;;
  log_write bp ;;
  brelse bp.

(** ** Inodes *)

Definition iinit : K unit :=
  initlock L_itable ;;
  for_each (seqZ 0 NINODE) (fun i => initsleeplock (SL_inode i)).

(** The scan of [iget]: the entry that has the inode, with one reference
    more, or else the first free entry. *)
Definition iget_scan (dev inum : Z) : K (Z + option Z) :=
  iter (S (Z.to_nat NINODE)) (fun '(i, empty) =>
    if i <? NINODE then
      x <- inode_of i ;;
      if (i_ref x >? 0) && (i_dev x =? dev) && (i_inum x =? inum) then
        modify (upd_inode i (fun x => i_set_ref (i_ref x + 1) x)) ;;
        ret (inr (inl i))
      else
        ret (inl (i + 1, match empty with
                         | None => if i_ref x =? 0 then Some i else None
                         | Some _ => empty
                         end))
    else ret (inr (inr empty))) (0, None).

Definition iget (dev inum : Z) : K Z :=
  acquire L_itable ;;
  r <- iget_scan dev inum ;;
  match r with
  | inl i => release L_itable ;; ret i
  | inr None => panic "iget: no inodes"
  | inr (Some i) =>
      modify (upd_inode i (i_set_dev dev)) ;;
      modify (upd_inode i (i_set_inum inum)) ;;
      modify (upd_inode i (i_set_ref 1)) ;;
      modify (upd_inode i (i_set_valid false)) ;;
      release L_itable ;;
      ret i
  end.

(** [None] is the null pointer. *)
Definition ialloc (dev type : Z) : K (option Z) :=
  sb <- gets k_sb ;;
  r <- for_find (seqZ 1 (sb_ninodes sb - 1)) (fun inum =>
    bp <- bread dev (IBLOCK inum sb) ;;
    let dip := inum mod IPB * DINODE in
    t <- bget16 bp dip ;;
    if t =? 0 then
      bzero_bytes bp dip DINODE ;;
      bput16 bp dip (u16 type) ;;
      log_write bp ;;
      brelse bp ;;
      i <- iget dev inum ;;
      ret (Some i)
    else brelse bp ;; ret None) ;;
  match r with
  | Some i => ret (Some i)
  | None => printf "ialloc: no inodes" [] ;; ret None
  end.

Definition iupdate (ip : Z) : K unit :=
  x <- inode_of ip ;;
  sb <- gets k_sb ;;
  bp <- bread (i_dev x) (IBLOCK (i_inum x) sb) ;;
  let dip := i_inum x mod IPB * DINODE in
  x <- inode_of ip ;;
  bput16 bp dip (u16 (i_type x)) ;;
  bput16 bp (dip + 2) (u16 (i_major x)) ;;
  bput16 bp (dip + 4) (u16 (i_minor x)) ;;
  bput16 bp (dip + 6) (u16 (i_nlink x)) ;;
  bput32 bp (dip + 8) (i_size x) ;;
  for_each (seqZ 0 (NDIRECT + 1)) (fun j => bput32 bp (dip + 12 + 4 * j) (i_addrs x j)) ;;
  log_write bp ;;
  brelse bp.

Definition idup (ip : Z) : K Z :=
  acquire L_itable ;;
  modify (upd_inode ip (fun x => i_set_ref (i_ref x + 1) x)) ;;
  release L_itable ;;
  ret ip.

(** The fields of a disk inode at offset [dip] of a block. *)
Definition load_dinode (d : mem) (dip : Z) (x : inode) : inode :=
  i_set_addrs (fun j => if in_range 0 (NDIRECT + 1) j then load32 d (dip + 12 + 4 * j) else i_addrs x j)
    (i_set_size (load32 d (dip + 8))
      (i_set_nlink (s16 (loadn 2 d (dip + 6)))
        (i_set_minor (s16 (loadn 2 d (dip + 4)))
          (i_set_major (s16 (loadn 2 d (dip + 2)))
            (i_set_type (s16 (loadn 2 d dip)) x))))).

Definition ilock (ip : Z) : K unit :=
  x <- inode_of ip ;;
  if i_ref x <? 1 then panic "ilock" else
  acquiresleep (SL_inode ip) ;;
  x <- inode_of ip ;;
  if i_valid x then ret tt else
  sb <- gets k_sb ;;
  bp <- bread (i_dev x) (IBLOCK (i_inum x) sb) ;;
  let dip := i_inum x mod IPB * DINODE in
  modify (fun s => upd_inode ip (load_dinode (b_data (k_bufs s bp)) dip) s) ;;
  brelse bp ;;
  modify (upd_inode ip (i_set_valid true)) ;;
  x <- inode_of ip ;;
  if i_type x =? 0 then panic "ilock: no type" else ret tt.

Definition iunlock (ip : Z) : K unit :=
  h <- holdingsleep (SL_inode ip) ;;
  x <- inode_of ip ;;
  if negb h || (i_ref x <? 1) then panic "iunlock" else
  releasesleep (SL_inode ip).

(** ** Inode content *)

Definition set_addr (ip j a : Z) : K unit :=
  modify (upd_inode ip (fun x => i_set_addrs (fupd (i_addrs x) j a) x)).

(** The block number [bn] of the indirect block [ind]. *)
Definition bmap_entry (dev ind bn : Z) : K Z :=
  bp <- bread dev ind ;;
  a <- bget32 bp (4 * bn) ;;
  addr <- (if a =? 0 then
             addr <- balloc dev ;;
             (if addr =? 0 then ret tt else
                bput32 bp (4 * bn) addr ;;
                log_write bp) ;;
             ret addr
           else ret a) ;;
  brelse bp ;;
  ret addr.

Definition bmap (ip bn : Z) : K Z :=
  x <- inode_of ip ;;
  if bn <? NDIRECT then
    if i_addrs x bn =? 0 then
      addr <- balloc (i_dev x) ;;
      if addr =? 0 then ret 0 else
      set_addr ip bn addr ;;
      ret addr
    else ret (i_addrs x bn)
  else
  let bn := bn - NDIRECT in
  if bn <? NINDIRECT then
    addr <- (if i_addrs x NDIRECT =? 0 then
               addr <- balloc (i_dev x) ;;
               (if addr =? 0 then ret tt else set_addr ip NDIRECT addr) ;;
               ret addr
             else ret (i_addrs x NDIRECT)) ;;
    if addr =? 0 then ret 0 else
    bmap_entry (i_dev x) addr bn
  else panic "bmap: out of range".

(** The two parts of [itrunc]. *)
Definition itrunc_direct (ip i : Z) : K unit :=
  x <- inode_of ip ;;
  if i_addrs x i =? 0 then ret tt else
  bfree (s32 (i_dev x)) (i_addrs x i) ;;
  set_addr ip i 0.

Definition itrunc_indirect (ip : Z) : K unit :=
  x <- inode_of ip ;;
  if i_addrs x NDIRECT =? 0 then ret tt else
  bp <- bread (i_dev x) (i_addrs x NDIRECT) ;;
  for_each (seqZ 0 NINDIRECT) (fun j =>
    a <- bget32 bp (4 * j) ;;
    if a =? 0 then ret tt else bfree (s32 (i_dev x)) a) ;;
  brelse bp ;;
  bfree (s32 (i_dev x)) (i_addrs x NDIRECT) ;;
  set_addr ip NDIRECT 0.

Definition itrunc (ip : Z) : K unit :=
  for_each (seqZ 0 NDIRECT) (itrunc_direct ip) ;;
  itrunc_indirect ip ;;
  modify (upd_inode ip (i_set_size 0)) ;;
  iupdate ip.

(** Dropping the last reference of an inode without links frees it. *)
Definition iput (ip : Z) : K unit :=
  acquire L_itable ;;
  x <- inode_of ip ;;
  (if (i_ref x =? 1) && i_valid x && (i_nlink x =? 0) then
     acquiresleep (SL_inode ip) ;;
     release L_itable ;;
     itrunc ip ;;
     modify (upd_inode ip (i_set_type 0)) ;;
     iupdate ip ;;
     modify (upd_inode ip (i_set_valid false)) ;;
     releasesleep (SL_inode ip) ;;
     acquire L_itable
   else ret tt) ;;
  modify (upd_inode ip (fun x => i_set_ref (i_ref x - 1) x)) ;;
  release L_itable.

Definition iunlockput (ip : Z) : K unit := iunlock ip ;; iput ip.

(** One round of [ireclaim]. *)
Definition ireclaim_one (dev inum : Z) : K unit :=
  sb <- gets k_sb ;;
  bp <- bread (u32 dev) (IBLOCK inum sb) ;;
  let dip := inum mod IPB * DINODE in
  type <- bget16 bp dip ;;
  nlink <- bget16 bp (dip + 6) ;;
  ip <- (if negb (type =? 0) && (nlink =? 0) then
           printf "ireclaim: orphaned inode %d" [inum] ;;
           i <- iget (u32 dev) inum ;; ret (Some i)
         else ret None) ;;
  brelse bp ;;
  match ip with
  | Some ip => begin_op ;; ilock ip ;; iunlock ip ;; iput ip ;; end_op
  | None => ret tt
  end.

Definition ireclaim (dev : Z) : K unit :=
  sb <- gets k_sb ;;
  for_each (seqZ 1 (sb_ninodes sb - 1)) (ireclaim_one dev).

Definition fsinit (dev : Z) : K unit :=
  readsb dev ;;
  sb <- gets k_sb ;;
  if negb (sb_magic sb =? FSMAGIC) then panic "invalid file system" else
  initlog dev sb ;;
  ireclaim dev.

Definition stati (ip : Z) : K stat :=
  x <- inode_of ip ;;
  ret (mkStat (s32 (i_dev x)) (i_inum x) (i_type x) (i_nlink x) (i_size x)).

(** The result and, for a local destination, the bytes stored there.  Every
    round copies at least one byte. *)
Definition readi (ip : Z) (dst : place) (off n : Z) : K (Z * list Z) :=
  x <- inode_of ip ;;
  if (off >? i_size x) || (u32 (off + n) <? off) then ret (0, []) else
  let n := if u32 (off + n) >? i_size x then i_size x - off else n in
  r <- iter (S (Z.to_nat n)) (fun '(tot, off, dst, out) =>
    if tot <? n then
      addr <- bmap ip (off / BSIZE) ;;
      if addr =? 0 then ret (inr (tot, out)) else
      x <- inode_of ip ;;
      bp <- bread (i_dev x) addr ;;
      let m := Z.min (n - tot) (BSIZE - off mod BSIZE) in
      bs <- bytes_of bp (off mod BSIZE) m ;;
      r <- either_copyout dst bs ;;
      brelse bp ;;
      if r =? -1 then ret (inr (-1, out)) else
      ret (inl (tot + m, off + m, place_add dst m, out ++ bs))
    else ret (inr (tot, out))) (0, off, dst, []) ;;
  ret (s32 (fst r), snd r).

Definition writei (ip : Z) (src : place) (off n : Z) : K Z :=
  x <- inode_of ip ;;
  if (off >? i_size x) || (u32 (off + n) <? off) then ret (-1) else
  if u32 (off + n) >? MAXFILE * BSIZE then ret (-1) else
  r <- iter (S (Z.to_nat n)) (fun '(tot, off, src) =>
    if tot <? n then
      addr <- bmap ip (off / BSIZE) ;;
      if addr =? 0 then ret (inr (tot, off)) else
      x <- inode_of ip ;;
      bp <- bread (i_dev x) addr ;;
      let m := Z.min (n - tot) (BSIZE - off mod BSIZE) in
      c <- either_copyin src m ;;
      bwrite_bytes bp (off mod BSIZE) (snd c) ;;
      if fst c =? -1 then brelse bp ;; ret (inr (tot, off)) else
      log_write bp ;;
      brelse bp ;;
      ret (inl (tot + m, off + m, place_add src m))
    else ret (inr (tot, off))) (0, off, src) ;;
  let '(tot, off) := r in
  modify (upd_inode ip (fun x => if off >? i_size x then i_set_size off x else x)) ;;
  iupdate ip ;;
  ret (s32 tot).

(** ** Directories *)

(** [struct dirent] as bytes. *)
Definition de_inum (de : list Z) : Z := nth 0 de 0 + 256 * nth 1 de 0.
Definition de_name (de : list Z) : list Z := drop 2 de.
Definition mk_dirent (inum : Z) (name : list Z) : list Z :=
  [u8 inum; u8 (inum / 256)] ++ strncpy_l (Z.to_nat DIRSIZ) name.

(** The entry at offset [off]. *)
Definition read_dirent (dp off : Z) (who : string) : K (list Z) :=
  r <- readi dp (Klocal []) off DIRENT ;;
  if negb (fst r =? DIRENT) then panic who else ret (snd r).

(** The inode found and [*poff]. *)
Definition dirlookup (dp : Z) (name : list Z) : K (option (Z * Z)) :=
  x <- inode_of dp ;;
  if negb (i_type x =? T_DIR) then panic "dirlookup not DIR" else
  iter (Z.to_nat (i_size x / DIRENT) + 2) (fun off =>
    x <- inode_of dp ;;
    if off <? i_size x then
      de <- read_dirent dp off "dirlookup read" ;;
      if de_inum de =? 0 then ret (inl (u32 (off + DIRENT))) else
      if namecmp name (de_name de) =? 0 then
        x <- inode_of dp ;;
        ip <- iget (i_dev x) (de_inum de) ;;
        ret (inr (Some (ip, off)))
      else ret (inl (u32 (off + DIRENT)))
    else ret (inr None)) 0.

Definition dirlink (dp : Z) (name : list Z) (inum : Z) : K Z :=
  r <- dirlookup dp name ;;
  match r with
  | Some (ip, _) => iput ip ;; ret (-1)
  | None =>
      x <- inode_of dp ;;
      off <- iter (Z.to_nat (i_size x / DIRENT) + 2) (fun off =>
        x <- inode_of dp ;;
        if off <? i_size x then
          de <- read_dirent dp off "dirlink read" ;;
          if de_inum de =? 0 then ret (inr off) else ret (inl (u32 (off + DIRENT)))
        else ret (inr off)) 0 ;;
      n <- writei dp (Klocal (mk_dirent inum name)) off DIRENT ;;
      if negb (n =? DIRENT) then ret (-1) else ret 0
  end.

End Fs.

(** ** Paths *)

Fixpoint skip_slashes (p : list Z) : list Z :=
  match p with
  | c :: p' => if c =? 47 then skip_slashes p' else p
  | [] => []
  end.

(** The element at the front of a path and what follows it. *)
Fixpoint split_elem (p : list Z) : list Z * list Z :=
  match p with
  | c :: p' =>
      if (c =? 47) || (c =? 0) then ([], p)
      else let '(s, r) := split_elem p' in (c :: s, r)
  | [] => ([], [])
  end.

(** [memmove(name, s, DIRSIZ)], or the element with a NUL; the rest of [name]
    keeps its old bytes. *)
Definition copy_elem (s name : list Z) : list Z :=
  let len := Z.of_nat (length s) in
  if len >=? DIRSIZ then take (Z.to_nat DIRSIZ) s
  else s ++ 0 :: drop (Z.to_nat len + 1) name.

(** The rest of the path and the new contents of [name]. *)
Definition skipelem (path name : list Z) : option (list Z * list Z) :=
  let path := skip_slashes path in
  if chr path =? 0 then None else
  let '(s, path) := split_elem path in
  Some (skip_slashes path, copy_elem s name).

Section Names.
Context {LAY : Layout} {ENV : Env}.

(** Each round removes at least one character of the path. *)
Definition namex (path : list Z) (nameiparent : bool) (name : list Z) : K (option Z * list Z) :=
  ip <- (if chr path =? 47 then iget ROOTDEV ROOTINO
         else
           i <- curproc ;;
           cwd <- gets (fun s => p_cwd (k_procs s i)) ;;
           match cwd with
           | Some d => idup d
           | None => undef "idup of a null pointer"
           end) ;;
  iter (S (length path)) (fun '(ip, path, name) =>
    match skipelem path name with
    | Some (path, name) =>
        ilock ip ;;
        x <- inode_of ip ;;
        if negb (i_type x =? T_DIR) then
          iunlockput ip ;; ret (inr (None, name))
        else if nameiparent && (chr path =? 0) then
          iunlock ip ;; ret (inr (Some ip, name))
        else
        next <- dirlookup ip name ;;
        match next with
        | None => iunlockput ip ;; ret (inr (None, name))
        | Some (next, _) => iunlockput ip ;; ret (inl (next, path, name))
        end
    | None =>
        if nameiparent then iput ip ;; ret (inr (None, name))
        else ret (inr (Some ip, name))
    end) (ip, path, name).

(** A local [char name[DIRSIZ]]: written before it is read. *)
Definition fresh_name : list Z := replicate (Z.to_nat DIRSIZ) 0.

Definition namei (path : list Z) : K (option Z) :=
  r <- namex path false fresh_name ;; ret (fst r).

Definition nameiparent (path : list Z) : K (option Z * list Z) :=
  namex path true fresh_name.

End Names.
