(* ===== verification/FsSpec.v ===== *)
(** * Block allocation (kernel/fs.c)

    [balloc] and [bfree] inside a transaction, over the contents [V] of the
    blocks as the operation sees them: the bitmap says which blocks are in
    use, [balloc] takes the first free one, marks and clears it, [bfree] gives
    one back.  Both change the bitmap only through the log. *)

From S2P Require Import Prelude Riscv Mem CString KState Sched Virtio DiskSpec Bio BioSpec Blocks Log LogSpec Txn StorageSpec DiskSample Sample Vm PhysMem Fs.

(** ** Steps of a transaction *)

Lemma tframe_sb s s' : tframe s s' -> k_sb s' = k_sb s.
Proof. intros [[A _] _]. exact (f_equal k_sb A). Qed.

Lemma tframe_out s o : tframe s (k_set_out o s).
Proof. unfold tframe. replace (k_set_log (k_log (k_set_out o s)) s) with s by by destruct s. apply oframe_out. Qed.

Section steps.
Context {ENV : Env} {DSK : Disk}.

Lemma txn_same i st n bl own own' V V' D P s s' : txn i st n bl own V D P s -> blocks i bl own' V' D P s' -> bframe s s' ->
  txn i st n bl own' V' D P s'.
Proof. intros [B L G Ho Hc Hd] B' F. split; rewrite ?(bframe_log _ _ F); done. Qed.

Lemma bread_txn i st n bl own V D P s m : txn i st n bl own V D P s -> 0 <= m < 0x80000000 -> m ∉ own.*2 ->
  m ∈ bl \/ Z.of_nat (length bl + length own) < NBUF ->
  exists b s', bread ROOTDEV m s = Ok b s' /\ txn i st n bl ((b, m) :: own) V D P s' /\ tframe s s' /\ beq (b_data (k_bufs s' b)) (V m).
Proof.
  intros T Hm Ho Hr. destruct (bread_rule _ _ _ _ _ _ _ _ (tx_blocks _ _ _ _ _ _ _ _ _ T) Hm Ho Hr) as (b & s' & E & B & F & _).
  exists b, s'. split; [done|]. split; [by eapply txn_same|]. split; [by apply tframe_of|]. apply (blocks_data _ _ _ _ _ _ _ _ _ B). ielem.
Qed.

Lemma data_txn i st n bl own V D P s b m f d : txn i st n bl own V D P s -> (b, m) ∈ own -> beq (f (b_data (k_bufs s b))) d ->
  let s' := upd_buf b (fun x => b_set_data (f (b_data x)) x) s in
  txn i st n bl own (fupd V m d) D P s' /\ tframe s s'.
Proof.
  intros T Hin Hd s'. destruct (data_rule _ _ _ _ _ _ _ b m (f (b_data (k_bufs s b))) (tx_blocks _ _ _ _ _ _ _ _ _ T) Hin) as [B F].
  change (upd_buf b (b_set_data (f (b_data (k_bufs s b)))) s) with s' in B, F. split; [|by apply tframe_of]. eapply txn_same; [exact T| |exact F].
  eapply blocks_view_ext; [|exact B]. intros y. by apply fupd_beq.
Qed.

(** A block is released clean, or logged. *)
Lemma brelse_txn i st n bl own V D P s b m : txn i st n bl ((b, m) :: own) V D P s -> m ∈ bl \/ beq (V m) (D m) ->
  exists s', brelse b s = Ok tt s' /\ txn i st n bl own V D P s' /\ tframe s s'.
Proof.
  intros T H. destruct (brelse_rule _ _ _ _ _ _ _ _ _ (tx_blocks _ _ _ _ _ _ _ _ _ T) H) as (s' & E & B & F).
  exists s'. split; [done|]. split; [by eapply txn_same|]. by apply tframe_of.
Qed.

End steps.

(** ** Bits of the bitmap *)

Definition bit_of (d : mem) (bi : Z) : bool := has (load8 d (bi / 8)) (Z.shiftl 1 (bi mod 8)).
Definition set_bit (bi : Z) (d : mem) : mem := store8 d (bi / 8) (Z.lor (load8 d (bi / 8)) (Z.shiftl 1 (bi mod 8))).
Definition clear_bit (bi : Z) (d : mem) : mem := store8 d (bi / 8) (Z.land (load8 d (bi / 8)) (Z.lnot (Z.shiftl 1 (bi mod 8)))).

Lemma bit_of_testbit d bi : bit_of d bi = Z.testbit (load8 d (bi / 8)) (bi mod 8).
Proof. unfold bit_of. rewrite Z.shiftl_1_l, has_pow2; [done|]. apply Z.mod_pos_bound. lia. Qed.

Lemma mod8 x : 0 <= x mod 8 < 8.
Proof. apply Z.mod_pos_bound. lia. Qed.

Lemma bit_store d bi bj v : 0 <= bj -> 0 <= v < 256 ->
  bit_of (store8 d (bi / 8) v) bj = if decide (bj / 8 = bi / 8) then Z.testbit v (bj mod 8) else bit_of d bj.
Proof.
  intros Hj Hv. rewrite !bit_of_testbit. case_decide as E.
  - by rewrite E, load8_store8, u8_small.
  - by rewrite load8_store8_ne.
Qed.

Lemma byte_or x k : 0 <= x < 256 -> 0 <= k < 8 -> 0 <= Z.lor x (Z.shiftl 1 k) < 256.
Proof.
  intros Hx Hk. change 256 with (2 ^ 8). apply lor_range; [lia|done|]. rewrite Z.shiftl_1_l.
  split; [lia|]. apply Z.pow_lt_mono_r; lia.
Qed.

Lemma byte_clear x k : 0 <= x < 256 -> 0 <= k < 8 -> 0 <= Z.land x (Z.lnot (Z.shiftl 1 k)) < 256.
Proof.
  intros Hx Hk. replace (Z.land x (Z.lnot (Z.shiftl 1 k))) with (Z.land x (Z.lnot (Z.shiftl 1 k)) mod 2 ^ 8);
    [by apply Z.mod_pos_bound|]. apply Z.bits_inj'. intros j Hj. destruct (decide (j < 8)).
  - by rewrite Z.mod_pow2_bits_low by lia.
  - by rewrite Z.mod_pow2_bits_high, Z.land_spec, (testbit_small x 8) by (change (2 ^ 8) with 256; lia).
Qed.

Lemma bit_of_set d bi bj : 0 <= bi -> 0 <= bj -> bit_of (set_bit bi d) bj = if decide (bj = bi) then true else bit_of d bj.
Proof.
  intros Hi Hj. unfold set_bit. rewrite bit_store by first [done|apply byte_or; [apply load8_range|apply mod8]].
  pose proof (mod8 bi). pose proof (mod8 bj). case_decide as E.
  - rewrite Z.lor_spec, Z.shiftl_1_l. destruct (decide (bj = bi)) as [->|Hne].
    + rewrite Z.pow2_bits_true by lia. apply orb_true_r.
    + rewrite Z.pow2_bits_false by (intros E'; by apply Hne, block_pos_inj). by rewrite orb_false_r, bit_of_testbit, E.
  - by rewrite decide_False by congruence.
Qed.

Lemma bit_of_clear d bi bj : 0 <= bi -> 0 <= bj -> bit_of (clear_bit bi d) bj = if decide (bj = bi) then false else bit_of d bj.
Proof.
  intros Hi Hj. unfold clear_bit. rewrite bit_store by first [done|apply byte_clear; [apply load8_range|apply mod8]].
  pose proof (mod8 bi). pose proof (mod8 bj). case_decide as E.
  - rewrite Z.land_spec, Z.lnot_spec, Z.shiftl_1_l by lia. destruct (decide (bj = bi)) as [->|Hne].
    + rewrite Z.pow2_bits_true by lia. apply andb_false_r.
    + rewrite Z.pow2_bits_false by (intros E'; by apply Hne, block_pos_inj). by rewrite andb_true_r, bit_of_testbit, E.
  - by rewrite decide_False by congruence.
Qed.

Lemma load8_beq d d' k : beq d d' -> 0 <= k < BSIZE -> load8 d k = load8 d' k.
Proof. intros H Hk. unfold load8. by rewrite H. Qed.

Lemma store8_beq d d' k v : beq d d' -> beq (store8 d k v) (store8 d' k v).
Proof. intros H x Hx. unfold store8. rewrite !fupd_cases. case_decide; [done|]. by apply H. Qed.

Lemma bit_in_block bi : 0 <= bi < BPB -> 0 <= bi / 8 < BSIZE.
Proof. unfold BPB, BSIZE. zlia. Qed.

Lemma bit_of_beq d d' bi : beq d d' -> 0 <= bi < BPB -> bit_of d bi = bit_of d' bi.
Proof. intros H Hb. unfold bit_of. by rewrite (load8_beq _ _ _ H (bit_in_block _ Hb)). Qed.

(** ** The bitmap *)

Definition used (V : contents) (sb : superblock) (b : Z) : bool := bit_of (V (BBLOCK b sb)) (b mod BPB).

(** Boot block, super block, log, bitmap and inode blocks. *)
Definition meta (st : Z) (sb : superblock) (m : Z) : Prop :=
  m = 0 \/ m = 1 \/ in_log st m \/ (exists c, 0 <= c < sb_size sb /\ BBLOCK c sb = m) \/
  (exists k, 0 <= k < sb_ninodes sb /\ IBLOCK k sb = m).

(** Log, bitmap and inode blocks are apart from each other, and all of the
    blocks that are not for data are marked as in use, as mkfs leaves them. *)
Record fs_bitmap (st : Z) (sb : superblock) (V : contents) : Prop := {
  fb_size : 0 <= sb_size sb < 0x7fff0000;
  fb_start : 0 <= sb_bmapstart sb /\ sb_bmapstart sb + sb_size sb / BPB < sb_size sb;
  fb_istart : 0 <= sb_inodestart sb /\ sb_inodestart sb + sb_ninodes sb / IPB < sb_size sb;
  fb_home : forall b, 0 <= b < sb_size sb -> ~ in_log st (BBLOCK b sb);
  fb_inodes : forall k, 0 <= k < sb_ninodes sb -> 0 <= IBLOCK k sb < sb_size sb /\ ~ in_log st (IBLOCK k sb) /\
    forall c, 0 <= c < sb_size sb -> BBLOCK c sb <> IBLOCK k sb;
  fb_meta : forall b, 0 <= b < sb_size sb -> used V sb b = false -> ~ meta st sb b
}.

Definition zeroed : mem := fun _ => 0.

Definition taken (V : contents) (sb : superblock) (b : Z) : contents :=
  fupd (fupd V (BBLOCK b sb) (set_bit (b mod BPB) (V (BBLOCK b sb)))) b zeroed.

Definition freed (V : contents) (sb : superblock) (b : Z) : contents :=
  fupd V (BBLOCK b sb) (clear_bit (b mod BPB) (V (BBLOCK b sb))).

Lemma mod_BPB b : 0 <= b mod BPB < BPB.
Proof. apply Z.mod_pos_bound. done. Qed.

Lemma zeroed_fill d : beq (mem_fill d 0 0 BSIZE) zeroed.
Proof. intros k Hk. unfold mem_fill. by rewrite in_range_true by lia. Qed.

Lemma meta_log st sb m : ~ meta st sb m -> ~ in_log st m.
Proof. unfold meta. tauto. Qed.

Lemma meta_bitmap st sb m c : ~ meta st sb m -> 0 <= c < sb_size sb -> BBLOCK c sb <> m.
Proof. intros H Hc E. apply H. right; right; right; left. by exists c. Qed.

Lemma meta_inode st sb m k : ~ meta st sb m -> 0 <= k < sb_ninodes sb -> IBLOCK k sb <> m.
Proof. intros H Hc E. apply H. right; right; right; right. by exists k. Qed.

Section bitmap.
Variables (st : Z) (sb : superblock) (V : contents).
Hypothesis F : fs_bitmap st sb V.

Lemma BBLOCK_at b : 0 <= b < sb_size sb -> BBLOCK b sb = b / BPB + sb_bmapstart sb /\ 0 <= BBLOCK b sb < sb_size sb.
Proof using F.
  intros Hb. destruct F as [Hs H _ _]. assert (b / BPB <= sb_size sb / BPB) by (apply Z.div_le_mono; [done|lia]).
  assert (0 <= b / BPB) by (apply Z.div_pos; [lia|done]). unfold BBLOCK. rewrite u32_small by lia. lia.
Qed.

Lemma IBLOCK_at k : 0 <= k < sb_ninodes sb -> IBLOCK k sb = k / IPB + sb_inodestart sb.
Proof using F.
  intros Hk. destruct F as [Hs _ H _ _ _]. assert (k / IPB <= sb_ninodes sb / IPB) by (apply Z.div_le_mono; [done|lia]).
  assert (0 <= k / IPB) by (apply Z.div_pos; [lia|done]). unfold IBLOCK. rewrite u32_small by lia. lia.
Qed.

Lemma BBLOCK_small b : 0 <= b < sb_size sb -> 0 <= BBLOCK b sb < 0x80000000.
Proof using F. intros Hb. pose proof (BBLOCK_at b Hb). pose proof (fb_size _ _ _ F). lia. Qed.

(** Two blocks have the same bit only when they are the same. *)
Lemma same_bit b c : 0 <= b < sb_size sb -> 0 <= c < sb_size sb -> BBLOCK c sb = BBLOCK b sb -> c mod BPB = b mod BPB -> c = b.
Proof using F.
  intros Hb Hc E1 E2. pose proof (BBLOCK_at b Hb) as [Eb _]. pose proof (BBLOCK_at c Hc) as [Ec _].
  rewrite (Z.div_mod b BPB), (Z.div_mod c BPB) by done. rewrite E2. f_equal. f_equal. lia.
Qed.

Lemma used_freed b c : 0 <= b < sb_size sb -> 0 <= c < sb_size sb ->
  used (freed V sb b) sb c = if decide (c = b) then false else used V sb c.
Proof using F.
  intros Hb Hc. unfold used, freed. rewrite fupd_cases. case_decide as E.
  - rewrite bit_of_clear by apply mod_BPB. destruct (decide (c = b)) as [->|Hne]; [by rewrite decide_True|].
    rewrite decide_False by (intros E'; by apply Hne, same_bit). by rewrite E.
  - by rewrite decide_False by congruence.
Qed.

Lemma used_taken b c : 0 <= b < sb_size sb -> used V sb b = false -> 0 <= c < sb_size sb ->
  used (taken V sb b) sb c = if decide (c = b) then true else used V sb c.
Proof using F.
  intros Hb Hu Hc. unfold used, taken. rewrite fupd_ne by (by apply (meta_bitmap st), Hc; apply (fb_meta _ _ _ F)). rewrite fupd_cases. case_decide as E.
  - rewrite bit_of_set by apply mod_BPB. destruct (decide (c = b)) as [->|Hne]; [by rewrite decide_True|].
    rewrite decide_False by (intros E'; by apply Hne, same_bit). by rewrite E.
  - by rewrite decide_False by congruence.
Qed.

Lemma taken_bitmap b : 0 <= b < sb_size sb -> used V sb b = false -> fs_bitmap st sb (taken V sb b).
Proof using F.
  intros Hb Hu. split; [apply F..|]. intros c Hc. rewrite used_taken by done. case_decide; [done|]. by apply F.
Qed.

Lemma freed_bitmap b : 0 <= b < sb_size sb -> ~ meta st sb b ->
  fs_bitmap st sb (freed V sb b).
Proof using F.
  intros Hb Hn. split; [apply F..|]. intros c Hc. rewrite used_freed by done. case_decide; [by subst|]. by apply F.
Qed.
End bitmap.

(** ** The operations *)

Lemma first_false (p : Z -> bool) n :
  (exists i, 0 <= i < n /\ p i = false /\ forall j, 0 <= j < i -> p j = true) \/ (forall j, 0 <= j < n -> p j = true).
Proof.
  destruct (list_find (fun i => p i = false) (seqZ 0 n)) as [[k i]|] eqn:E.
  - left. exists i. apply list_find_Some in E as (E1 & E2 & E3). apply lookup_seqZ in E1 as [-> H1]. split; [lia|]. split; [done|].
    intros j Hj. apply not_false_is_true. apply (E3 (Z.to_nat j)); [|lia]. apply lookup_seqZ. lia.
  - right. intros j Hj. apply list_find_None in E. rewrite Forall_forall in E. apply not_false_is_true, E, elem_of_seqZ. lia.
Qed.

(** The blocks an operation holds are in use and not part of the bitmap. *)
Record aside (sb : superblock) (V : contents) (own : list (Z * Z)) : Prop := {
  as_bitmap : forall c, 0 <= c < sb_size sb -> BBLOCK c sb ∉ own.*2;
  as_used : forall m, m ∈ own.*2 -> 0 <= m < sb_size sb -> used V sb m = true
}.

Lemma aside_nil sb V : aside sb V [].
Proof. split; [intros c _; apply not_elem_of_nil|]. intros m Hm. by apply not_elem_of_nil in Hm. Qed.

Section alloc.
Context {LAY : Layout} {ENV : Env} {DSK : Disk}.

(** A block held by the operation is changed, logged and released. *)
Lemma put_txn i st n bl own V D P s b m f d : txn i st n bl ((b, m) :: own) V D P s -> beq (f (b_data (k_bufs s b))) d ->
  1 <= n -> Z.of_nat (length bl) < LOGBLOCKS -> ~ in_log st m ->
  exists s', (modify (upd_buf b (fun x => b_set_data (f (b_data x)) x)) ;; log_write b ;; brelse b) s = Ok tt s' /\
    txn i st n (absorb m bl) own (fupd V m d) D P s' /\ tframe s s'.
Proof.
  intros T Hd Hn Hl Hm. destruct (data_txn _ _ _ _ _ _ _ _ _ b m f d T ltac:(ielem) Hd) as [T1 F1].
  rewrite (bind_ok _ _ _ _ _ (modify_run _ s)). set (s1 := upd_buf b _ s) in *.
  destruct (log_write_rule _ _ _ _ _ _ _ _ _ b m T1 ltac:(ielem) Hn Hl Hm) as (s2 & E2 & T2 & F2).
  rewrite (bind_ok _ _ _ _ _ E2).
  destruct (brelse_txn _ _ _ _ _ _ _ _ _ _ _ T2 ltac:(left; apply absorb_in)) as (s3 & E3 & T3 & F3).
  exists s3. split; [done|]. split; [done|]. apply (tframe_trans _ s1); [done|]. by apply (tframe_trans _ s2).
Qed.

Lemma bzero_rule i st n bl own V D P s m : txn i st n bl own V D P s -> 0 <= m < 0x80000000 -> m ∉ own.*2 ->
  1 <= n -> Z.of_nat (length bl + length own) < LOGBLOCKS -> ~ in_log st m ->
  exists s', bzero ROOTDEV m s = Ok tt s' /\ txn i st n (absorb m bl) own (fupd V m zeroed) D P s' /\ tframe s s'.
Proof.
  intros T Hm Ho Hn Hl Hi. unfold bzero. rewrite (u32_small m) by lia. change (u32 ROOTDEV) with ROOTDEV.
  destruct (bread_txn _ _ _ _ _ _ _ _ _ m T Hm Ho ltac:(right; unfold NBUF, LOGBLOCKS in *; lia)) as (b & s1 & E1 & T1 & F1 & _).
  rewrite (bind_ok _ _ _ _ _ E1). unfold bzero_bytes.
  destruct (put_txn _ _ _ _ _ _ _ _ _ b m (fun d => mem_fill d 0 0 BSIZE) zeroed T1 (zeroed_fill _) Hn ltac:(lia) Hi) as (s2 & E2 & T2 & F2).
  exists s2. split; [done|]. split; [done|]. by apply (tframe_trans _ s1).
Qed.

(** The test of a bit of a bitmap block. *)
Lemma bit_run {A} i st n bl own V D P s b m bi (f g : Z -> K A) : txn i st n bl own V D P s -> (b, m) ∈ own -> 0 <= bi < BPB ->
  (x <- bget8 b (bi / 8) ;; if Z.land x (Z.shiftl 1 (bi mod 8)) =? 0 then f x else g x) s =
  if bit_of (V m) bi then g (load8 (V m) (bi / 8)) s else f (load8 (V m) (bi / 8)) s.
Proof.
  intros T Hin Hb. pose proof (blocks_data _ _ _ _ _ _ _ _ _ (tx_blocks _ _ _ _ _ _ _ _ _ T) Hin) as HD.
  unfold bget8. erewrite bind_ok by reflexivity. rewrite (load8_beq _ _ _ HD (bit_in_block bi Hb)).
  unfold bit_of, has. by destruct (Z.land _ _ =? 0).
Qed.

(** The bits of one bitmap block: the first free one is taken. *)
Lemma balloc_bits_found i st n bl own V D P s b m k sz bi : txn i st n bl ((b, m) :: own) V D P s -> 1 <= n ->
  Z.of_nat (length bl) < LOGBLOCKS -> ~ in_log st m -> 0 <= bi < Z.min BPB (sz - k) ->
  bit_of (V m) bi = false -> (forall bj, 0 <= bj < bi -> bit_of (V m) bj = true) ->
  exists s', balloc_bits b k sz s = Ok (Some bi) s' /\
    txn i st n (absorb m bl) own (fupd V m (set_bit bi (V m))) D P s' /\ tframe s s'.
Proof.
  intros T Hn Hl Hi Hb Hfree Hused. unfold balloc_bits. rewrite (seqZ_split _ bi) by lia. rewrite for_find_app.
  2: { intros bj Hbj. apply elem_of_seqZ in Hbj. cbv zeta. rewrite (bit_run _ _ _ _ _ _ _ _ _ b m _ _ _ T) by (ielem || lia).
       by rewrite Hused by lia. }
  destruct (put_txn _ _ _ _ _ _ _ _ _ b m (fun d => store8 d (bi / 8) (Z.lor (load8 (V m) (bi / 8)) (Z.shiftl 1 (bi mod 8)))) (set_bit bi (V m)) T)
    as (s' & E & T' & F'); [|done..|].
  { apply store8_beq, (blocks_data _ _ _ _ _ _ _ _ _ (tx_blocks _ _ _ _ _ _ _ _ _ T)). ielem. }
  exists s'. split; [|done]. apply bind_inv in E as ([] & s1 & E1 & E). apply bind_inv in E as ([] & s2 & E2 & E3).
  cbn [for_find]. rewrite (bind_ok _ _ s (Some bi) s'); [done|]. cbv zeta. rewrite (bit_run _ _ _ _ _ _ _ _ _ b m _ _ _ T) by (ielem || lia). rewrite Hfree.
  unfold bput8. by rewrite (bind_ok _ _ _ _ _ E1), (bind_ok _ _ _ _ _ E2), (bind_ok _ _ _ _ _ E3).
Qed.

Lemma balloc_bits_full i st n bl own V D P s b m k sz : txn i st n bl ((b, m) :: own) V D P s ->
  (forall bj, 0 <= bj < Z.min BPB (sz - k) -> bit_of (V m) bj = true) -> balloc_bits b k sz s = Ok None s.
Proof.
  intros T Hused. apply for_find_none. intros bj Hbj. apply elem_of_seqZ in Hbj. cbv zeta.
  rewrite (bit_run _ _ _ _ _ _ _ _ _ b m _ _ _ T) by (ielem || lia). by rewrite Hused by lia.
Qed.

Lemma block_bit sb k bi : 0 <= bi < BPB -> BBLOCK (BPB * k + bi) sb = BBLOCK (BPB * k) sb /\ (BPB * k + bi) mod BPB = bi.
Proof.
  intros Hb. unfold BBLOCK. rewrite (Z.mul_comm BPB k), Z.div_add_l, Z.div_mul, (Z.div_small bi), Z.add_0_r by (done || lia).
  split; [done|]. by rewrite Z.add_comm, Z.mod_add, Z.mod_small.
Qed.

(** The first free block, or none. *)
Definition first_free (V : contents) (sb : superblock) (b : Z) : Prop :=
  0 <= b < sb_size sb /\ used V sb b = false /\ forall c, 0 <= c < b -> used V sb c = true.

Lemma balloc_block_rule i st n bl own V D P s k : let sb := k_sb s in
  txn i st n bl own V D P s -> fs_bitmap st sb V -> aside sb V own -> 1 <= n -> Z.of_nat (length bl + length own) + 2 <= LOGBLOCKS ->
  0 <= k -> BPB * k < sb_size sb -> (forall c, 0 <= c < BPB * k -> used V sb c = true) ->
  exists r s', balloc_block ROOTDEV (BPB * k) s = Ok r s' /\ tframe s s' /\
    match r with
    | Some b => first_free V sb b /\ txn i st n (absorb b (absorb (BBLOCK b sb) bl)) own (taken V sb b) D P s'
    | None => txn i st n bl own V D P s' /\ forall c, 0 <= c < BPB * (k + 1) -> c < sb_size sb -> used V sb c = true
    end.
Proof.
  intros sb T F A Hn Hl Hk Hsz Hused. set (m := BBLOCK (BPB * k) sb). assert (0 < BPB) as HB by done.
  pose proof (as_bitmap _ _ _ A (BPB * k) ltac:(nia)) as Ho. fold m in Ho.
  pose proof (BBLOCK_small _ _ _ F (BPB * k) ltac:(nia)) as Hm. pose proof (fb_home _ _ _ F (BPB * k) ltac:(nia)) as Hi. fold m in Hm, Hi.
  destruct (bread_txn _ _ _ _ _ _ _ _ _ m T Hm Ho ltac:(right; unfold NBUF, LOGBLOCKS in *; lia))
    as (b & s1 & E1 & T1 & F1 & _).
  unfold balloc_block. erewrite bind_ok by reflexivity. fold sb m. rewrite (bind_ok _ _ _ _ _ E1).
  set (L := Z.min BPB (sb_size sb - BPB * k)). assert (forall bj, 0 <= bj < L -> used V sb (BPB * k + bj) = bit_of (V m) bj) as HU.
  { intros bj Hj. unfold used. by destruct (block_bit sb k bj ltac:(lia)) as [-> ->]. }
  destruct (first_false (bit_of (V m)) L) as [(bi & Hbi & Hf & Hlt)|Hall].
  - destruct (balloc_bits_found _ _ _ _ _ _ _ _ _ b m (BPB * k) (sb_size sb) bi T1 Hn ltac:(lia) Hi Hbi Hf Hlt) as (s2 & E2 & T2 & F2).
    rewrite (bind_ok _ _ _ _ _ E2). destruct (block_bit sb k bi ltac:(lia)) as [Eb Ebi]. set (c := BPB * k + bi) in *. fold m in Eb.
    assert (used V sb c = false) as Hc by exact (eq_trans (HU bi Hbi) Hf). assert (0 <= c < sb_size sb) as Hcr by lia.
    pose proof (meta_log _ _ _ (fb_meta _ _ _ F c Hcr Hc)) as Hlog.
    assert (c ∉ own.*2) as Hco by (intros H; by rewrite (as_used _ _ _ A c H Hcr) in Hc). pose proof (fb_size _ _ _ F). pose proof (absorb_length m bl).
    destruct (bzero_rule _ _ _ _ _ _ _ _ _ c T2 ltac:(lia) Hco Hn ltac:(lia) Hlog) as (s3 & E3 & T3 & F3).
    exists (Some c), s3. split; [by rewrite (bind_ok _ _ _ _ _ E3)|]. split; [by apply (tframe_trans _ s1), (tframe_trans _ s2)|].
    split; [|unfold taken; by rewrite Eb, Ebi]. split; [done|]. split; [done|]. intros d Hd.
    destruct (decide (d < BPB * k)); [by apply Hused; lia|]. replace d with (BPB * k + (d - BPB * k)) by lia. rewrite HU by lia. apply Hlt. lia.
  - rewrite (bind_ok _ _ _ _ _ (balloc_bits_full _ _ _ _ _ _ _ _ _ b m (BPB * k) (sb_size sb) T1 Hall)).
    assert (m ∈ bl \/ beq (V m) (D m)) as Hclean.
    { destruct (decide (m ∈ bl)); [by left|right]. apply (blocks_clean _ _ _ _ _ _ _ _ (tx_blocks _ _ _ _ _ _ _ _ _ T)); done. }
    destruct (brelse_txn _ _ _ _ _ _ _ _ _ _ _ T1 Hclean) as (s2 & E2 & T2 & F2).
    exists None, s2. split; [by rewrite (bind_ok _ _ _ _ _ E2)|]. split; [by apply (tframe_trans _ s1)|]. split; [done|]. intros d Hd Hd2.
    destruct (decide (d < BPB * k)); [by apply Hused; lia|]. replace d with (BPB * k + (d - BPB * k)) by lia. rewrite HU by lia. apply Hall. lia.
Qed.

(** [k] bitmap blocks have been searched. *)
Lemma balloc_loop i st n bl own V D P sb : fs_bitmap st sb V -> aside sb V own -> 1 <= n -> Z.of_nat (length bl + length own) + 2 <= LOGBLOCKS ->
  forall len k s, txn i st n bl own V D P s -> k_sb s = sb -> 0 <= k -> (forall c, 0 <= c < BPB * k -> used V sb c = true) ->
  BPB * (k + Z.of_nat len - 1) < sb_size sb ->
  exists r s', for_find (map (Z.mul BPB) (seqZ k (Z.of_nat len))) (balloc_block ROOTDEV) s = Ok r s' /\ tframe s s' /\
    match r with
    | Some b => first_free V sb b /\ txn i st n (absorb b (absorb (BBLOCK b sb) bl)) own (taken V sb b) D P s'
    | None => txn i st n bl own V D P s' /\ forall c, 0 <= c < BPB * (k + Z.of_nat len) -> c < sb_size sb -> used V sb c = true
    end.
Proof.
  intros F A Hn Hl. assert (0 < BPB) as HB by done. induction len as [|len IH]; intros k s T Hs Hk Hused Hend.
  { exists None, s. split; [done|]. split; [apply tframe_refl|]. split; [done|]. intros c Hc _. apply Hused. lia. }
  rewrite seqZ_cons by lia. cbn [map for_find]. subst sb.
  destruct (balloc_block_rule i st n bl own V D P s k T F A Hn Hl Hk ltac:(nia) Hused) as ([b|] & s1 & E1 & F1 & H1); rewrite (bind_ok _ _ _ _ _ E1).
  { by exists (Some b), s1. }
  destruct H1 as [T1 H1]. replace (Z.pred (Z.of_nat (S len))) with (Z.of_nat len) by lia. destruct (decide (len = 0%nat)) as [->|].
  { exists None, s1. split; [done|]. split; [done|]. split; [done|]. exact H1. }
  destruct (IH (Z.succ k) s1 T1 (tframe_sb _ _ F1) ltac:(lia)) as (r & s2 & E2 & F2 & H2); [intros c Hc; apply H1; nia|nia|].
  exists r, s2. split; [done|]. split; [by apply (tframe_trans _ s1)|].
  destruct r; [done|]. destruct H2 as [T2 H2]. split; [done|]. intros c Hc. apply H2. lia.
Qed.

Lemma balloc_rule i st n bl own V D P s : let sb := k_sb s in
  txn i st n bl own V D P s -> fs_bitmap st sb V -> aside sb V own -> 1 <= n -> Z.of_nat (length bl + length own) + 2 <= LOGBLOCKS ->
  exists r s' bl' V', balloc ROOTDEV s = Ok r s' /\ tframe s s' /\ txn i st n bl' own V' D P s' /\
    (first_free V sb r /\ V' = taken V sb r /\ bl' = absorb r (absorb (BBLOCK r sb) bl) \/
     r = 0 /\ V' = V /\ bl' = bl /\ forall c, 0 <= c < sb_size sb -> used V sb c = true).
Proof.
  intros sb T F A Hn Hl. unfold balloc. erewrite bind_ok by reflexivity. fold sb. pose proof (fb_size _ _ _ F) as Hsz.
  set (nb := (sb_size sb + BPB - 1) / BPB). assert (BPB * (nb - 1) < sb_size sb <= BPB * nb) as Hnb by (unfold nb, BPB, BSIZE; zlia).
  destruct (balloc_loop i st n bl own V D P sb F A Hn Hl (Z.to_nat nb) 0 s T eq_refl ltac:(lia) ltac:(lia)) as (r & s1 & E1 & F1 & H1).
  { unfold BPB, BSIZE in *. lia. }
  rewrite Z2Nat.id in E1 by (unfold BPB, BSIZE in *; lia). rewrite (bind_ok _ _ _ _ _ E1). destruct r as [b|].
  - destruct H1 as [H1 T1]. exists b, s1, (absorb b (absorb (BBLOCK b sb) bl)), (taken V sb b). split; [done|]. split; [done|]. split; [exact T1|]. by left.
  - destruct H1 as [T1 H1]. set (s2 := k_set_out (("balloc: out of blocks"%string, []) :: k_out s1) s1).
    exists 0, s2, bl, V. split; [done|]. split; [|split].
    + apply (tframe_trans _ s1); [done|]. apply tframe_out.
    + destruct T1. split; try done. by apply blocks_out.
    + right. split; [done|]. split; [done|]. split; [done|]. intros c Hc. apply H1; unfold BPB, BSIZE in *; lia.
Qed.

Lemma bfree_rule i st n bl own V D P s b : let sb := k_sb s in
  txn i st n bl own V D P s -> fs_bitmap st sb V -> aside sb V own -> 1 <= n -> Z.of_nat (length bl + length own) + 1 <= LOGBLOCKS -> 0 <= b < sb_size sb ->
  if used V sb b then exists s', bfree ROOTDEV b s = Ok tt s' /\ tframe s s' /\ txn i st n (absorb (BBLOCK b sb) bl) own (freed V sb b) D P s'
  else bfree ROOTDEV b s = Panic "freeing free block".
Proof.
  intros sb T F A Hn Hl Hb. set (m := BBLOCK b sb). pose proof (as_bitmap _ _ _ A b Hb : m ∉ own.*2) as Ho. pose proof (BBLOCK_small _ _ _ F b Hb) as Hm. pose proof (fb_home _ _ _ F b Hb) as Hi. fold m in Hm, Hi.
  destruct (bread_txn _ _ _ _ _ _ _ _ _ m T Hm Ho ltac:(right; unfold NBUF, LOGBLOCKS in *; lia))
    as (bp & s1 & E1 & T1 & F1 & _).
  unfold bfree. erewrite bind_ok by reflexivity. fold sb m. change (u32 ROOTDEV) with ROOTDEV. rewrite (bind_ok _ _ _ _ _ E1). cbv zeta.
  pose proof (mod_BPB b). unfold used. fold m. set (bi := b mod BPB) in *.
  rewrite (bit_run _ _ _ _ _ _ _ _ _ bp m bi _ _ T1) by (ielem || lia). destruct (bit_of (V m) bi); [|done].
  destruct (put_txn _ _ _ _ _ _ _ _ _ bp m (fun d => store8 d (bi / 8) (Z.land (load8 (V m) (bi / 8)) (Z.lnot (Z.shiftl 1 (bi mod 8))))) (clear_bit bi (V m)) T1)
    as (s' & E & T' & F'); [|done|lia|done|].
  { apply store8_beq, (blocks_data _ _ _ _ _ _ _ _ _ (tx_blocks _ _ _ _ _ _ _ _ _ T1)). ielem. }
  exists s'. split; [exact E|]. split; [by apply (tframe_trans _ s1)|exact T'].
Qed.

(** Allocation of a block, inside an operation that may still log two
    blocks: with a free block, [balloc] returns the first one, cleared and
    marked, every other mark and every other block outside the bitmap as
    before; with none it returns 0 and changes nothing.  The bitmap stays well
    formed and at most two more blocks are logged. *)
Theorem balloc_correct i st n bl V D P s : let sb := k_sb s in
  txn i st n bl [] V D P s -> fs_bitmap st sb V -> 1 <= n -> Z.of_nat (length bl) + 2 <= LOGBLOCKS ->
  exists r s' bl' V', balloc ROOTDEV s = Ok r s' /\ tframe s s' /\ txn i st n bl' [] V' D P s' /\ fs_bitmap st sb V' /\
    (length bl' <= length bl + 2)%nat /\
    ((exists b, 0 <= b < sb_size sb /\ used V sb b = false) ->
      first_free V sb r /\ V' r = zeroed /\
      (forall c, 0 <= c < sb_size sb -> used V' sb c = if decide (c = r) then true else used V sb c) /\
      (forall m, m <> r -> m <> BBLOCK r sb -> V' m = V m)) /\
    ((forall b, 0 <= b < sb_size sb -> used V sb b = true) -> r = 0 /\ V' = V).
Proof.
  intros sb T F Hn Hl. destruct (balloc_rule i st n bl [] V D P s T F (aside_nil _ _) Hn ltac:(cbn [length]; lia)) as (r & s' & bl' & V' & E & F' & T' & H). fold sb in H.
  exists r, s', bl', V'. split; [done|]. split; [done|]. split; [done|].
  destruct H as [(Hr & -> & ->)|(-> & -> & -> & Hall)].
  - pose proof Hr as (Hr1 & Hr2 & _). split; [by apply taken_bitmap|]. split.
    { pose proof (absorb_length (BBLOCK r sb) bl). pose proof (absorb_length r (absorb (BBLOCK r sb) bl)). lia. }
    split; [intros _|intros H; rewrite H in Hr2 by done; done]. split; [done|]. split; [apply fupd_eq|]. split.
    + intros c Hc. by apply (used_taken st).
    + intros m H1 H2. unfold taken. by rewrite !fupd_ne.
  - split; [done|]. split; [lia|]. split; [|done]. intros (b & Hb & Hu). by rewrite Hall in Hu.
Qed.

(** Giving a block back: [bfree] of a block in use, not one of the
    blocks with a fixed use, clears its mark and nothing else, through the log, and leaves a
    well-formed bitmap; of a block that is free already, it panics. *)
Theorem bfree_correct i st n bl V D P s b : let sb := k_sb s in
  txn i st n bl [] V D P s -> fs_bitmap st sb V -> 1 <= n -> Z.of_nat (length bl) + 1 <= LOGBLOCKS -> 0 <= b < sb_size sb ->
  (used V sb b = false -> bfree ROOTDEV b s = Panic "freeing free block") /\
  (used V sb b = true -> ~ meta st sb b ->
   exists s' bl' V', bfree ROOTDEV b s = Ok tt s' /\ tframe s s' /\ txn i st n bl' [] V' D P s' /\ fs_bitmap st sb V' /\
    (length bl' <= length bl + 1)%nat /\
    (forall c, 0 <= c < sb_size sb -> used V' sb c = if decide (c = b) then false else used V sb c) /\
    (forall m, m <> BBLOCK b sb -> V' m = V m)).
Proof.
  intros sb T F Hn Hl Hb. pose proof (bfree_rule i st n bl [] V D P s b T F (aside_nil _ _) Hn ltac:(cbn [length]; lia) Hb) as H. fold sb in H. split; intros Hu; rewrite Hu in H; [done|].
  intros Hm. destruct H as (s' & E & F' & T'). exists s', (absorb (BBLOCK b sb) bl), (freed V sb b). split; [done|]. split; [done|].
  split; [done|]. split; [by apply freed_bitmap|]. pose proof (absorb_length (BBLOCK b sb) bl). split; [lia|].
  split; [intros c Hc; by apply (used_freed st)|]. intros m Hne. by apply fupd_ne.
Qed.
End alloc.

(** ** A small file system *)

(** 64 blocks, the log from block 2, the bitmap in block 40; blocks 0 to 40
    are in use. *)
Definition small_sb : superblock := mkSuper 0x10203040 64 23 8 31 2 33 40.

Definition small_disk : contents := fun m => if m =? 40 then mem_write zeroed 0 [255; 255; 255; 255; 255; 1] else zeroed.

Lemma small_BBLOCK b : 0 <= b < 64 -> BBLOCK b small_sb = 40.
Proof. intros Hb. unfold BBLOCK. change (sb_bmapstart small_sb) with 40. by rewrite Z.div_small by (unfold BPB, BSIZE; lia). Qed.

Lemma small_IBLOCK k : 0 <= k < 8 -> IBLOCK k small_sb = 33.
Proof. intros Hk. unfold IBLOCK. change (sb_inodestart small_sb) with 33. by rewrite Z.div_small by (change IPB with 16; lia). Qed.

Lemma small_meta m : 40 < m \/ 33 < m < 40 -> ~ meta 2 small_sb m.
Proof.
  intros Hm [->|[->|[H|[(c & Hc & H)|(k & Hk & H)]]]]; [lia..| | |].
  - unfold in_log, LOGBLOCKS, MAXOPBLOCKS in H. lia.
  - rewrite small_BBLOCK in H by done. lia.
  - rewrite small_IBLOCK in H by done. lia.
Qed.

Lemma small_bitmap : fs_bitmap 2 small_sb small_disk.
Proof.
  split; change (sb_size small_sb) with 64; change (sb_ninodes small_sb) with 8; [lia|by split|by split|..].
  - intros b Hb. rewrite small_BBLOCK by done. unfold in_log, LOGBLOCKS, MAXOPBLOCKS. lia.
  - intros k Hk. rewrite small_IBLOCK by done. split; [lia|]. split; [unfold in_log, LOGBLOCKS, MAXOPBLOCKS; lia|].
    intros c Hc. rewrite small_BBLOCK by done. lia.
  - intros b Hb Hu. apply small_meta. left. apply Z.nle_gt. intros Hle.
    assert (forallb (used small_disk small_sb) (seqZ 0 41) = true) as Hall by by vm_compute.
    rewrite forallb_forall in Hall. rewrite Hall in Hu; [done|]. apply list_elem_of_In, elem_of_seqZ. lia.
Qed.

Definition small_fs : kstate := booted_on 1 small_disk small_sb.

Lemma small_txn : txn 0 2 1 [] [] small_disk small_disk [] small_fs.
Proof. apply booted_on_txn. by split. Qed.

Lemma small_fs_sb : k_sb small_fs = small_sb.
Proof. exact (proj2 (proj2 (booted_on_blocks 1 small_disk small_sb))). Qed.

Lemma small_first b : first_free small_disk small_sb b -> b = 41.
Proof.
  intros (H1 & H2 & H3). destruct (Z.lt_trichotomy b 41) as [H|[H|H]]; [|done|].
  - assert (forallb (used small_disk small_sb) (seqZ 0 41) = true) as Hall by by vm_compute.
    rewrite forallb_forall in Hall. rewrite Hall in H2; [done|]. apply list_elem_of_In, elem_of_seqZ. lia.
  - assert (used small_disk small_sb 41 = false) as E by by vm_compute. rewrite H3 in E by lia. done.
Qed.

Lemma small_free : 0 <= 41 < sb_size small_sb /\ used small_disk small_sb 41 = false.
Proof. split; [done|by vm_compute]. Qed.

Lemma small_used : 0 <= 39 < sb_size small_sb /\ used small_disk small_sb 39 = true.
Proof. split; [done|by vm_compute]. Qed.

Lemma balloc_correct_witness : exists s' V', @balloc disk_env ROOTDEV small_fs = Ok 41 s' /\
  used small_disk small_sb 41 = false /\ used V' small_sb 41 = true /\ V' 41 = zeroed.
Proof.
  pose proof (@balloc_correct disk_env sample_disk 0 2 1 [] small_disk small_disk [] small_fs small_txn) as H.
  rewrite small_fs_sb in H.
  destruct (H small_bitmap ltac:(lia) ltac:(done)) as (r & s' & bl' & V' & E & _ & _ & _ & _ & Hf & _).
  destruct (Hf (ex_intro _ 41 small_free)) as (Hr & Hz & Hu & _). pose proof (small_first r Hr) as ->.
  exact (ex_intro _ s' (ex_intro _ V' (conj E (conj (proj2 small_free) (conj (Hu 41 (proj1 small_free)) Hz))))).
Defined.

Lemma bfree_correct_witness : @bfree disk_env ROOTDEV 41 small_fs = Panic "freeing free block" /\
  exists s' V', @bfree disk_env ROOTDEV 39 small_fs = Ok tt s' /\ used small_disk small_sb 39 = true /\ used V' small_sb 39 = false.
Proof.
  pose proof (@bfree_correct disk_env sample_disk 0 2 1 [] small_disk small_disk [] small_fs) as H.
  rewrite small_fs_sb in H. split.
  - exact (proj1 (H 41 small_txn small_bitmap ltac:(lia) ltac:(done) (proj1 small_free)) (proj2 small_free)).
  - destruct (proj2 (H 39 small_txn small_bitmap ltac:(lia) ltac:(done) (proj1 small_used)) (proj2 small_used) (small_meta 39 ltac:(lia)))
      as (s' & bl' & V' & E & _ & _ & _ & _ & Hu & _).
    exact (ex_intro _ s' (ex_intro _ V' (conj E (conj (proj2 small_used) (Hu 39 (proj1 small_used)))))).
Defined.
