(* ===== verification/Inode.v ===== *)
(** * Files as the inodes describe them (kernel/fs.c)

    The abstract side of the inode layer.  [block_at V x bn] is the disk block
    of block [bn] of the file with inode [x], [byte_at] and [data] its bytes,
    [owns] the blocks it uses.  [inode_ok] is the invariant of one file: no
    holes below its size, every block of its own, in use and in the data
    area.  [evolves] relates the file before and after an operation on it and
    says that nobody else's blocks changed; the two ways a file gets a block
    ([attach], [attach_indirect]) are instances. *)

From S2P Require Import Prelude Riscv Mem CString KState Sched Virtio DiskSpec Bio BioSpec Blocks Log LogSpec Txn Vm PhysMem Fs FsSpec.

(** Arithmetic on block numbers and offsets. *)
Ltac flia := change MAXFILE with 268 in *; change NINDIRECT with 256 in *; change NDIRECT with 12 in *; change BSIZE with 1024 in *; lia.

Definition block_at (V : contents) (x : inode) (bn : Z) : Z :=
  if bn <? NDIRECT then i_addrs x bn
  else if i_addrs x NDIRECT =? 0 then 0 else load32 (V (i_addrs x NDIRECT)) (4 * (bn - NDIRECT)).

Definition byte_at (V : contents) (x : inode) (k : Z) : Z := load8 (V (block_at V x (k / BSIZE))) (k mod BSIZE).

Definition data (V : contents) (x : inode) : list Z := map (byte_at V x) (seqZ 0 (i_size x)).

Definition owns (V : contents) (x : inode) (m : Z) : Prop :=
  m <> 0 /\ (m = i_addrs x NDIRECT \/ exists bn, 0 <= bn < MAXFILE /\ m = block_at V x bn).

Record inode_ok (st : Z) (sb : superblock) (V : contents) (x : inode) : Prop := {
  in_dev : i_dev x = ROOTDEV;
  in_inum : 0 <= i_inum x < sb_ninodes sb;
  in_size : 0 <= i_size x <= MAXFILE * BSIZE;
  in_full : forall bn, 0 <= bn -> bn * BSIZE < i_size x -> block_at V x bn <> 0;
  in_data : forall m, owns V x m -> 0 <= m < sb_size sb /\ used V sb m = true /\ ~ meta st sb m;
  in_inj : forall bn bn', 0 <= bn < MAXFILE -> 0 <= bn' < MAXFILE -> block_at V x bn <> 0 -> block_at V x bn = block_at V x bn' -> bn = bn';
  in_ind : forall bn, 0 <= bn < MAXFILE -> block_at V x bn <> 0 -> block_at V x bn <> i_addrs x NDIRECT
}.

(** Not a block of the bitmap. *)
Definition plain (sb : superblock) (m : Z) : Prop := forall c, 0 <= c < sb_size sb -> BBLOCK c sb <> m.

Record evolves (sb : superblock) (V : contents) (x : inode) (V' : contents) (x' : inode) : Prop := {
  ev_inode : x' = i_set_addrs (i_addrs x') x;
  ev_keep : forall bn, 0 <= bn < MAXFILE -> block_at V x bn <> 0 -> block_at V' x' bn = block_at V x bn;
  ev_ind : i_addrs x NDIRECT <> 0 -> i_addrs x' NDIRECT = i_addrs x NDIRECT;
  ev_owns : forall m, owns V' x' m -> owns V x m \/ used V sb m = false;
  ev_used : forall m, 0 <= m < sb_size sb -> used V sb m = true -> used V' sb m = true;
  ev_frame : forall m, 0 <= m < sb_size sb -> used V sb m = true -> plain sb m -> ~ owns V x m -> beq (V' m) (V m)
}.

Lemma block_at_direct V x bn : bn < NDIRECT -> block_at V x bn = i_addrs x bn.
Proof. intros H. unfold block_at. by rewrite (proj2 (Z.ltb_lt _ _) H). Qed.

Lemma block_at_indirect V x bn : NDIRECT <= bn -> i_addrs x NDIRECT <> 0 ->
  block_at V x bn = load32 (V (i_addrs x NDIRECT)) (4 * (bn - NDIRECT)).
Proof.
  intros H Hi. unfold block_at. rewrite (proj2 (Z.ltb_ge _ _) H). by rewrite (proj2 (Z.eqb_neq _ _) Hi).
Qed.

Lemma block_at_none V x bn : NDIRECT <= bn -> i_addrs x NDIRECT = 0 -> block_at V x bn = 0.
Proof. intros H Hi. unfold block_at. rewrite (proj2 (Z.ltb_ge _ _) H). by rewrite Hi. Qed.

(** Blocks of a file depend on its indirect block only. *)
Lemma block_at_ext V V' x bn : 0 <= bn < MAXFILE -> (i_addrs x NDIRECT <> 0 -> beq (V' (i_addrs x NDIRECT)) (V (i_addrs x NDIRECT))) ->
  block_at V' x bn = block_at V x bn.
Proof.
  intros Hbn H. destruct (Z.lt_ge_cases bn NDIRECT); [by rewrite !block_at_direct|].
  destruct (Z.eq_dec (i_addrs x NDIRECT) 0); [by rewrite !block_at_none|]. rewrite !block_at_indirect by done.
  apply load32_beq; [auto|flia|flia].
Qed.

Lemma owns_block V x bn : 0 <= bn < MAXFILE -> block_at V x bn <> 0 -> owns V x (block_at V x bn).
Proof. intros H1 H2. split; [done|right]. by exists bn. Qed.

Lemma owns_ind V x : i_addrs x NDIRECT <> 0 -> owns V x (i_addrs x NDIRECT).
Proof. intros H. split; [done|by left]. Qed.

Lemma byte_block k : 0 <= k < MAXFILE * BSIZE -> 0 <= k / BSIZE < MAXFILE /\ 0 <= k mod BSIZE < BSIZE.
Proof.
  intros Hk. split; [|by apply Z.mod_pos_bound]. split; [apply Z.div_pos; [lia|done]|]. apply Z.div_lt_upper_bound; [done|lia].
Qed.

Lemma i_addrs_id x : x = i_set_addrs (i_addrs x) x.
Proof. by destruct x. Qed.

Section evolves.
Variables (st : Z) (sb : superblock).

Lemma evolves_refl V x : evolves sb V x V x.
Proof. split; try done; [apply i_addrs_id|by left]. Qed.

Lemma evolves_trans V0 x0 V1 x1 V2 x2 : inode_ok st sb V0 x0 -> inode_ok st sb V1 x1 -> inode_ok st sb V2 x2 ->
  evolves sb V0 x0 V1 x1 -> evolves sb V1 x1 V2 x2 -> evolves sb V0 x0 V2 x2.
Proof.
  intros I0 I1 I2 [A1 A2 A3 A4 A5 A6] [B1 B2 B3 B4 B5 B6]. split.
  - rewrite B1 at 1. rewrite A1. by destruct x0.
  - intros bn Hbn H. rewrite <- (A2 bn Hbn H). apply B2; [done|]. by rewrite A2.
  - intros H. rewrite <- (A3 H). apply B3. by rewrite A3.
  - intros m Hm. destruct (B4 m Hm) as [H|H]; [by apply A4|]. right. destruct (used V0 sb m) eqn:E; [|done].
    rewrite A5 in H; [done| |done]. apply (in_data _ _ _ _ I2 m Hm).
  - intros m Hm H. by apply B5, A5.
  - intros m Hm Hu Hp Ho. rewrite (B6 m Hm (A5 m Hm Hu) Hp); [by apply A6|]. intros H.
    destruct (A4 m H) as [?|E]; [done|]. by rewrite Hu in E.
Qed.

Lemma free_block V m : fs_bitmap st sb V -> 0 <= m < sb_size sb -> used V sb m = false -> ~ meta st sb m /\ m <> 0.
Proof. intros F Hm Hu. pose proof (fb_meta _ _ _ F m Hm Hu) as H. split; [done|]. intros ->. apply H. by left. Qed.

Lemma free_not_owned V x m : inode_ok st sb V x -> used V sb m = false -> ~ owns V x m.
Proof. intros I Hu H. pose proof (in_data _ _ _ _ I m H) as (_ & E & _). by rewrite E in Hu. Qed.

Lemma full_range V x bn : inode_ok st sb V x -> 0 <= bn -> bn * BSIZE < i_size x -> 0 <= bn < MAXFILE.
Proof. intros I H1 H2. pose proof (in_size _ _ _ _ I). unfold BSIZE in *. lia. Qed.

Section attach.
Variables (V : contents) (x : inode) (V' : contents) (x' : inode) (r : Z).
Hypotheses (F : fs_bitmap st sb V) (I : inode_ok st sb V x) (Hr : 0 <= r < sb_size sb) (Hfree : used V sb r = false).
Hypothesis Hx : x' = i_set_addrs (i_addrs x') x.
Hypothesis Hused : forall c, 0 <= c < sb_size sb -> used V' sb c = if decide (c = r) then true else used V sb c.
Hypothesis Hframe : forall m, m <> r -> plain sb m -> (i_addrs x NDIRECT <> 0 -> m <> i_addrs x NDIRECT) -> beq (V' m) (V m).

Lemma attach_used m : 0 <= m < sb_size sb -> used V sb m = true -> used V' sb m = true.
Proof using Hused. intros Hm Hu. rewrite Hused by done. by case_decide. Qed.

Lemma attach_frame m : 0 <= m < sb_size sb -> used V sb m = true -> plain sb m -> ~ owns V x m -> beq (V' m) (V m).
Proof using Hframe Hfree.
  intros Hm Hu Hp Ho. apply Hframe; [by intros ->; rewrite Hu in Hfree|done|]. intros Hi ->. by apply Ho, owns_ind.
Qed.

Lemma attach_data m : owns V x m \/ m = r -> 0 <= m < sb_size sb /\ used V' sb m = true /\ ~ meta st sb m.
Proof using F I Hr Hfree Hused.
  intros [H| ->].
  - pose proof (in_data _ _ _ _ I m H) as (H1 & H2 & H3). split; [done|]. split; [by apply attach_used|done].
  - split; [done|]. rewrite Hused, decide_True by done. split; [done|]. by apply (free_block V).
Qed.

(** A block for block [bn] of the file. *)
Lemma attach bn : 0 <= bn < MAXFILE -> block_at V x bn = 0 -> i_addrs x' NDIRECT = i_addrs x NDIRECT ->
  (forall bn', 0 <= bn' < MAXFILE -> block_at V' x' bn' = if decide (bn' = bn) then r else block_at V x bn') ->
  inode_ok st sb V' x' /\ evolves sb V x V' x'.
Proof using F I Hr Hfree Hx Hused Hframe.
  intros Hbn H0 Hind Hat. pose proof (free_block V r F Hr Hfree) as [Hm Hr0]. pose proof (free_not_owned V x r I Hfree) as Hno.
  assert (forall m, owns V' x' m -> owns V x m \/ m = r) as Ho.
  { intros m (Hm0 & [->|(bn' & Hb & ->)]); [left; rewrite Hind in *; by apply owns_ind|]. rewrite Hat in Hm0 |- * by done.
    case_decide; [by right|left; by apply owns_block]. }
  assert (i_size x' = i_size x) as Hsz by (rewrite Hx; done). destruct I as [I1 I2 I3 I4 I5 I6 I7]. split; split; rewrite ?Hsz.
  - by rewrite Hx.
  - by rewrite Hx.
  - done.
  - intros bn' H1 H2. rewrite Hat by (by eapply full_range). case_decide; [done|by apply I4].
  - intros m H. apply attach_data. by apply Ho.
  - intros a b Ha Hb. rewrite !Hat by done. intros Hne E. destruct (decide (a = bn)) as [->|Han], (decide (b = bn)) as [->|Hbn']; [done|..].
    + exfalso. apply Hno. rewrite E. apply owns_block; [done|]. by rewrite <- E.
    + exfalso. apply Hno. rewrite <- E. by apply owns_block.
    + by apply I6.
  - intros a Ha. rewrite Hat, Hind by done. case_decide; [|by apply I7]. intros _ E. apply Hno. rewrite E. apply owns_ind. by rewrite <- E.
  - exact Hx.
  - intros a Ha Hne. rewrite Hat by done. case_decide; [by subst|done].
  - done.
  - intros m H. destruct (Ho m H) as [?| ->]; auto.
  - apply attach_used.
  - apply attach_frame.
Qed.

(** A block for the indirect block numbers. *)
Lemma attach_indirect : i_addrs x NDIRECT = 0 -> i_addrs x' NDIRECT = r ->
  (forall bn, 0 <= bn < MAXFILE -> block_at V' x' bn = block_at V x bn) ->
  inode_ok st sb V' x' /\ evolves sb V x V' x'.
Proof using F I Hr Hfree Hx Hused Hframe.
  intros H0 Hind Hat. pose proof (free_block V r F Hr Hfree) as [Hm Hr0]. pose proof (free_not_owned V x r I Hfree) as Hno.
  assert (forall m, owns V' x' m -> owns V x m \/ m = r) as Ho.
  { intros m (Hm0 & [->|(bn' & Hb & ->)]); [by right|left]. rewrite Hat in * by done. by apply owns_block. }
  assert (i_size x' = i_size x) as Hsz by (rewrite Hx; done). destruct I as [I1 I2 I3 I4 I5 I6 I7]. split; split; rewrite ?Hsz.
  - by rewrite Hx.
  - by rewrite Hx.
  - done.
  - intros bn' H1 H2. rewrite Hat by (by eapply full_range). by apply I4.
  - intros m H. apply attach_data. by apply Ho.
  - intros a b Ha Hb. rewrite !Hat by done. by apply I6.
  - intros a Ha. rewrite Hat, Hind by done. intros Hne E. apply Hno. rewrite <- E. by apply owns_block.
  - exact Hx.
  - intros a Ha _. by apply Hat.
  - done.
  - intros m H. destruct (Ho m H) as [?| ->]; auto.
  - apply attach_used.
  - apply attach_frame.
Qed.
End attach.
End evolves.

(** ** Writes that leave the block numbers alone *)

Section write.
Variables (st : Z) (sb : superblock) (V : contents) (x : inode) (m : Z) (d : mem).
Hypotheses (I : inode_ok st sb V x) (F : fs_bitmap st sb V) (Hp : plain sb m) (Hi : i_addrs x NDIRECT <> 0 -> m <> i_addrs x NDIRECT).

Lemma fw_used c : 0 <= c < sb_size sb -> used (fupd V m d) sb c = used V sb c.
Proof using Hp. intros Hc. unfold used. by rewrite fupd_ne by by apply Hp. Qed.

Lemma fw_bitmap : fs_bitmap st sb (fupd V m d).
Proof using F Hp. split; [apply F..|]. intros b Hb. rewrite fw_used by done. by apply F. Qed.

Lemma fw_block_at bn : 0 <= bn < MAXFILE -> block_at (fupd V m d) x bn = block_at V x bn.
Proof using Hi. intros Hbn. apply block_at_ext; [done|]. intros Hne. rewrite fupd_ne; [done|]. by apply not_eq_sym, Hi. Qed.

Lemma fw_owns k : owns (fupd V m d) x k <-> owns V x k.
Proof using Hi.
  unfold owns. split; intros (H0 & [H|(bn & Hb & H)]); (split; [done|]); [by left|right|by left|right]; exists bn; split; try done.
  - by rewrite fw_block_at in H.
  - by rewrite fw_block_at.
Qed.

Lemma fw_ok : inode_ok st sb (fupd V m d) x.
Proof using I Hp Hi.
  pose proof (full_range st sb V x) as HR. destruct I as [I1 I2 I3 I4 I5 I6 I7]. split; try done.
  - intros bn H1 H2. rewrite fw_block_at by (by apply HR). by apply I4.
  - intros k Hk%fw_owns. destruct (I5 k Hk) as (H1 & H2 & H3). by rewrite fw_used.
  - intros a b Ha Hb. rewrite !fw_block_at by done. by apply I6.
  - intros a Ha. rewrite fw_block_at by done. by apply I7.
Qed.

Lemma fw_byte k : 0 <= k < MAXFILE * BSIZE -> byte_at (fupd V m d) x k =
  if decide (block_at V x (k / BSIZE) = m) then load8 d (k mod BSIZE) else byte_at V x k.
Proof using Hi.
  intros Hk. unfold byte_at. rewrite fw_block_at by by apply byte_block. rewrite fupd_cases. by case_decide.
Qed.

(** A block of the file itself. *)
Lemma fw_evolves : owns V x m -> evolves sb V x (fupd V m d) x.
Proof using Hp Hi.
  intros Ho. split; [apply i_addrs_id|..].
  - intros bn Hbn _. by apply fw_block_at.
  - done.
  - intros k Hk%fw_owns. by left.
  - intros k Hk. by rewrite fw_used.
  - intros k Hk _ _ Hno. rewrite fupd_ne; [done|]. by intros ->.
Qed.

(** A block of somebody else. *)
Lemma fw_data : ~ owns V x m -> data (fupd V m d) x = data V x.
Proof using I Hi Hp.
  intros Ho. apply map_ext_in. intros k Hk%list_elem_of_In%elem_of_seqZ. pose proof (in_size _ _ _ _ I) as Hs.
  rewrite fw_byte by lia. rewrite decide_False; [done|]. intros <-. apply Ho. apply owns_block; [apply byte_block; lia|].
  apply (in_full _ _ _ _ I); [apply Z.div_pos; [lia|done]|]. pose proof (Z.mul_div_le k BSIZE). flia.
Qed.
End write.
