(* ===== verification/InodeSpec.v ===== *)
(** * The inode layer inside a transaction (kernel/fs.c)

    [bmap], [readi], [writei] and [iupdate] on a file that satisfies
    [inode_ok], inside a transaction of the log. *)

From S2P Require Import Prelude Riscv Mem CString KState Sched Virtio DiskSpec Bio BioSpec Blocks Log LogSpec Txn StorageSpec Vm PhysMem Fs FsSpec Inode.

(** ** Frames *)

(** Everything but the cache, the log, the disk, the console and the inode
    table stays. *)
Definition fframe (s s' : kstate) : Prop := tframe (k_set_itable (k_itable s') s) s'.

Lemma tframe_set_itable t s s' : tframe s s' -> tframe (k_set_itable t s) (k_set_itable t s').
Proof. intros [[A B] C]. split; [split|]; [|done|done]. exact (f_equal (k_set_itable t) A). Qed.

Lemma tframe_itable s s' : tframe s s' -> k_itable s' = k_itable s.
Proof. intros [[A _] _]. exact (f_equal k_itable A). Qed.

Lemma fframe_of s s' : tframe s s' -> fframe s s'.
Proof.
  intros F. unfold fframe. rewrite (tframe_itable _ _ F). by replace (k_set_itable (k_itable s) s) with s by by destruct s.
Qed.

Lemma fframe_refl s : fframe s s.
Proof. apply fframe_of, tframe_refl. Qed.

Lemma fframe_trans s1 s2 s3 : fframe s1 s2 -> fframe s2 s3 -> fframe s1 s3.
Proof. intros A B. eapply tframe_trans; [exact (tframe_set_itable (k_itable s3) _ _ A)|exact B]. Qed.

Lemma fframe_set t s : fframe s (k_set_itable t s).
Proof. apply (tframe_refl (k_set_itable t s)). Qed.

Lemma fframe_sb s s' : fframe s s' -> k_sb s' = k_sb s.
Proof. intros F. exact (tframe_sb _ _ F). Qed.

Lemma fframe_ftable s s' : fframe s s' -> k_ftable s' = k_ftable s.
Proof. intros [[A _] _]. exact (f_equal k_ftable A). Qed.

Lemma fframe_ilock s s' ip : fframe s s' -> k_sleeplocks s' (SL_inode ip) = k_sleeplocks s (SL_inode ip).
Proof. intros [_ B]. apply (B ip). Qed.

(** Of the inode table, only entry [ip] changes. *)
Record iframe (ip : Z) (s s' : kstate) : Prop := {
  if_frame : fframe s s';
  if_others : forall j, j <> ip -> k_itable s' j = k_itable s j
}.

Lemma iframe_of ip s s' : tframe s s' -> iframe ip s s'.
Proof. intros F. split; [by apply fframe_of|]. intros j _. by rewrite (tframe_itable _ _ F). Qed.

Lemma iframe_refl ip s : iframe ip s s.
Proof. apply iframe_of, tframe_refl. Qed.

Lemma iframe_trans ip s1 s2 s3 : iframe ip s1 s2 -> iframe ip s2 s3 -> iframe ip s1 s3.
Proof. intros [A1 A2] [B1 B2]. split; [by eapply fframe_trans|]. intros j Hj. by rewrite B2, A2. Qed.

Lemma iframe_upd ip f s : iframe ip s (upd_inode ip f s).
Proof. split; [apply fframe_set|]. intros j Hj. by apply fupd_ne. Qed.

#[export] Hint Resolve iframe_of iframe_refl iframe_upd : xv6.

Lemma blocks_itable i pb own V D P s t : blocks i pb own V D P s -> blocks i pb own V D P (k_set_itable t s).
Proof.
  intros [(pin & l & [] & Hpin) [[] ? ?] ? ? ? ? ?]. split; try done.
  exists pin, l. split; [by split|done].
Qed.

Lemma txn_itable i st n bl own V D P s t : txn i st n bl own V D P s -> txn i st n bl own V D P (k_set_itable t s).
Proof. intros []. split; try done. by apply blocks_itable. Qed.

Lemma inode_of_run ip s : inode_of ip s = Ok (k_itable s ip) s.
Proof. done. Qed.

(** ** Blocks of a file *)

Section inode.
Context {LAY : Layout} {ENV : Env} {DSK : Disk}.
Variables (i st n : Z) (sb : superblock) (D : contents) (P : list contents).
Hypothesis Hn : 1 <= n.

(** A transaction with the inode in memory. *)
Record at_inode (bl : list Z) (own : list (Z * Z)) (V : contents) (ip : Z) (x : inode) (s : kstate) : Prop := {
  ai_txn : txn i st n bl own V D P s;
  ai_sb : k_sb s = sb;
  ai_inode : k_itable s ip = x
}.

Lemma at_tframe bl own V ip x bl' own' V' s s' : at_inode bl own V ip x s -> txn i st n bl' own' V' D P s' -> tframe s s' ->
  at_inode bl' own' V' ip x s'.
Proof. intros [T Hs Hx] T' F. split; [done|by rewrite (tframe_sb _ _ F)|by rewrite (tframe_itable _ _ F)]. Qed.

Lemma at_set_inode bl own V ip x s f : at_inode bl own V ip x s -> at_inode bl own V ip (f x) (upd_inode ip f s).
Proof.
  intros [T Hs Hx]. split; [by apply txn_itable|done|]. change (fupd (k_itable s) ip (f (k_itable s ip)) ip = f x). by rewrite fupd_eq, Hx.
Qed.

Lemma data_block V x m : inode_ok st sb V x -> fs_bitmap st sb V -> owns V x m -> 0 <= m < 0x80000000 /\ m <> 0 /\ ~ in_log st m /\ plain sb m.
Proof.
  intros I F H. pose proof (in_data _ _ _ _ I m H) as (H1 & _ & H2). pose proof (fb_size _ _ _ F). split; [lia|]. split; [apply H|].
  split; [by eapply meta_log|]. intros c Hc. by apply (meta_bitmap st).
Qed.

Lemma clean_txn bl own V s m : txn i st n bl own V D P s -> m ∉ own.*2 -> m ∈ bl \/ beq (V m) (D m).
Proof.
  intros T Ho. destruct (decide (m ∈ bl)); [by left|right].
  by apply (blocks_clean _ _ _ _ _ _ _ _ (tx_blocks _ _ _ _ _ _ _ _ _ T)).
Qed.

(** A block read and given back unchanged. *)
Lemma peek_txn {A} bl own V s m (f : mem -> A) : txn i st n bl own V D P s -> 0 <= m < 0x80000000 -> m ∉ own.*2 ->
  Z.of_nat (length bl + length own) < NBUF -> (forall d d', beq d d' -> f d = f d') ->
  exists s', (bp <- bread ROOTDEV m ;; a <- gets (fun s => f (b_data (k_bufs s bp))) ;; brelse bp ;; ret a) s = Ok (f (V m)) s' /\
    txn i st n bl own V D P s' /\ tframe s s'.
Proof.
  intros T Hm Ho Hl Hf. destruct (bread_txn _ _ _ _ _ _ _ _ _ m T Hm Ho ltac:(by right)) as (b & s1 & E1 & T1 & F1 & Hd).
  destruct (brelse_txn _ _ _ _ _ _ _ _ _ _ _ T1 (clean_txn _ _ _ _ _ T Ho)) as (s2 & E2 & T2 & F2). exists s2. split; [|split; [done|by apply (tframe_trans _ s1)]].
  rewrite (bind_ok _ _ _ _ _ E1). erewrite bind_ok by reflexivity. rewrite (bind_ok _ _ _ _ _ E2). by rewrite (Hf _ _ Hd).
Qed.

(** A block of the file that is there. *)
Lemma bmap_have bl V ip x s bn : at_inode bl [] V ip x s -> inode_ok st sb V x -> fs_bitmap st sb V ->
  0 <= bn < MAXFILE -> block_at V x bn <> 0 -> Z.of_nat (length bl) < NBUF ->
  exists s', bmap ip bn s = Ok (block_at V x bn) s' /\ at_inode bl [] V ip x s' /\ tframe s s'.
Proof.
  intros A I F Hbn Hne Hl. pose proof A as [T Hs Hx]. unfold bmap. rewrite (bind_ok _ _ _ _ _ (inode_of_run ip s)), Hx.
  destruct (Z.ltb_spec bn NDIRECT) as [Hd|Hd].
  { rewrite block_at_direct in * by done. rewrite (proj2 (Z.eqb_neq _ _) Hne). exists s. split; [done|]. split; [done|apply tframe_refl]. }
  destruct (Z.ltb_spec (bn - NDIRECT) NINDIRECT) as [_|H]; [|unfold MAXFILE in Hbn; lia].
  assert (i_addrs x NDIRECT <> 0) as Hi by (intros H; by rewrite block_at_none in Hne).
  rewrite (proj2 (Z.eqb_neq _ _) Hi). rewrite block_at_indirect in * by done. set (m := i_addrs x NDIRECT) in *.
  erewrite bind_ok by reflexivity. rewrite (proj2 (Z.eqb_neq _ _) Hi), (in_dev _ _ _ _ I).
  destruct (data_block V x m I F (owns_ind V x Hi)) as (Hm & _).
  destruct (peek_txn bl [] V s m (fun d => load32 d (4 * (bn - NDIRECT))) T Hm (not_elem_of_nil _) ltac:(cbn [length]; lia)) as (s' & E & T' & F').
  { intros d d' Hdd. apply load32_beq; [done|flia|flia]. }
  exists s'. split; [|split; [by eapply at_tframe|done]]. apply bind_inv in E as (bp & s1 & E1 & E). apply bind_inv in E as (a & s2 & E2 & E).
  apply bind_inv in E as ([] & s3 & E3 & E). injection E as -> ->.
  unfold bmap_entry. rewrite (bind_ok _ _ _ _ _ E1). unfold bget32. rewrite (bind_ok _ _ _ _ _ E2). rewrite (proj2 (Z.eqb_neq _ _) Hne).
  erewrite bind_ok by reflexivity. by rewrite (bind_ok _ _ _ _ _ E3).
Qed.

Lemma storen_beq k d d' a v : beq d d' -> beq (storen k d a v) (storen k d' a v).
Proof. intros H j Hj. unfold storen. case_match; [done|]. by apply H. Qed.

(** ** A new block *)

Record mapped (V : contents) (x : inode) (V' : contents) (x' : inode) (bn r : Z) : Prop := {
  mp_ok : inode_ok st sb V' x';
  mp_bitmap : fs_bitmap st sb V';
  mp_evolves : evolves sb V x V' x';
  mp_at : block_at V' x' bn = r;
  mp_other : forall bn', 0 <= bn' < MAXFILE -> bn' <> bn -> block_at V' x' bn' = block_at V x bn';
  mp_old : forall bn', 0 <= bn' < MAXFILE -> block_at V x bn' <> 0 -> beq (V' (block_at V x bn')) (V (block_at V x bn'));
  mp_full : r = 0 -> forall c, 0 <= c < sb_size sb -> used V' sb c = true
}.

(** What an operation may have added to the log. *)
Definition logs (bl bl' : list Z) (N : Z -> Prop) : Prop := forall m, m ∈ bl' -> m ∈ bl \/ (exists c, 0 <= c < sb_size sb /\ BBLOCK c sb = m) \/ N m.

Lemma absorb_elem m k bl : m ∈ absorb k bl -> m = k \/ m ∈ bl.
Proof. unfold absorb. case_decide; [by right|]. intros [?|?%list_elem_of_singleton]%elem_of_app; auto. Qed.

Lemma taken_other V r m : m <> r -> plain sb m -> 0 <= r < sb_size sb -> taken V sb r m = V m.
Proof. intros H1 H2 Hr. unfold taken. rewrite !fupd_ne; [done|by apply not_eq_sym, H2|done]. Qed.

Section taken.
Variables (V : contents) (x : inode) (r : Z).
Hypotheses (F : fs_bitmap st sb V) (I : inode_ok st sb V x) (Hr : 0 <= r < sb_size sb) (Hfree : used V sb r = false).

Lemma taken_owned m : owns V x m -> taken V sb r m = V m.
Proof using F I Hr Hfree.
  intros H. apply taken_other; [|by eapply data_block|done]. intros ->. by apply (free_not_owned st sb V x r).
Qed.

Lemma taken_block_at x' bn : 0 <= bn < MAXFILE -> i_addrs x' NDIRECT = i_addrs x NDIRECT -> (bn < NDIRECT -> i_addrs x' bn = i_addrs x bn) ->
  block_at (taken V sb r) x' bn = block_at V x bn.
Proof using F I Hr Hfree.
  intros Hbn Hi Hd. destruct (Z.lt_ge_cases bn NDIRECT); [rewrite !block_at_direct by done; auto|].
  transitivity (block_at V x' bn).
  - apply block_at_ext; [done|]. rewrite Hi. intros Hne. by rewrite taken_owned by by apply owns_ind.
  - unfold block_at. by rewrite (proj2 (Z.ltb_ge _ _)), Hi by done.
Qed.

(** A direct block. *)
Lemma taken_direct bn (x' := i_set_addrs (fupd (i_addrs x) bn r) x) : 0 <= bn < NDIRECT -> i_addrs x bn = 0 ->
  mapped V x (taken V sb r) x' bn r.
Proof using F I Hr Hfree.
  intros Hbn H0. pose proof (free_block st sb V r F Hr Hfree) as [_ Hr0]. assert (0 <= bn < MAXFILE) as Hbm by flia.
  assert (forall bn', 0 <= bn' < MAXFILE -> bn' <> bn -> block_at (taken V sb r) x' bn' = block_at V x bn') as Hoth.
  { intros bn' Hb Hne. apply taken_block_at; [done|cbn; apply fupd_ne; lia|]. intros _. by apply fupd_ne. }
  assert (block_at (taken V sb r) x' bn = r) as Hat by (rewrite block_at_direct by lia; apply fupd_eq).
  destruct (attach st sb V x (taken V sb r) x' r F I Hr Hfree eq_refl) with (bn := bn) as [I' E].
  - intros c Hc. by apply (used_taken st).
  - intros m Hm Hp _. by rewrite taken_other.
  - done.
  - rewrite block_at_direct by lia. done.
  - apply fupd_ne. lia.
  - intros bn' Hb. case_decide; [by subst|by apply Hoth].
  - split; try done; [by apply taken_bitmap|]. intros bn' Hb Hne. by rewrite taken_owned by by apply owns_block.
Qed.

(** The block of indirect numbers: no block of the file changes. *)
Lemma taken_indirect (x' := i_set_addrs (fupd (i_addrs x) NDIRECT r) x) : i_addrs x NDIRECT = 0 ->
  inode_ok st sb (taken V sb r) x' /\ evolves sb V x (taken V sb r) x' /\
  forall bn, 0 <= bn < MAXFILE -> block_at (taken V sb r) x' bn = block_at V x bn.
Proof using F I Hr Hfree.
  intros H0. pose proof (free_block st sb V r F Hr Hfree) as [_ Hr0].
  assert (forall bn, 0 <= bn < MAXFILE -> block_at (taken V sb r) x' bn = block_at V x bn) as Hat.
  { intros bn Hb. destruct (Z.lt_ge_cases bn NDIRECT) as [H|H].
    - rewrite !block_at_direct by done. apply fupd_ne. lia.
    - rewrite (block_at_none V x) by done. assert (i_addrs x' NDIRECT = r) as Hi by apply fupd_eq. rewrite block_at_indirect by (by rewrite ?Hi).
      rewrite Hi. unfold taken. by rewrite fupd_eq. }
  destruct (attach_indirect st sb V x (taken V sb r) x' r F I Hr Hfree eq_refl) as [I' E]; [| |done|apply fupd_eq|done|done].
  - intros c Hc. by apply (used_taken st).
  - intros m Hm Hp _. by rewrite taken_other.
Qed.

(** An entry of the indirect block. *)
Lemma taken_entry bn (ind := i_addrs x NDIRECT) (V1 := taken V sb r) (V' := fupd V1 ind (store32 (V1 ind) (4 * (bn - NDIRECT)) r)) :
  NDIRECT <= bn < MAXFILE -> ind <> 0 -> block_at V x bn = 0 -> mapped V x V' x bn r.
Proof using F I Hr Hfree.
  intros Hbn Hi H0. pose proof (free_block st sb V r F Hr Hfree) as [_ Hr0]. pose proof (owns_ind V x Hi) as Hoi. fold ind in Hoi.
  destruct (data_block V x ind I F Hoi) as (_ & _ & _ & Hpi). pose proof (taken_owned ind Hoi) as Ei. fold V1 in Ei.
  pose proof (fb_size _ _ _ F) as Hsz.
  assert (forall bn', 0 <= bn' < MAXFILE -> block_at V' x bn' = if decide (bn' = bn) then r else block_at V x bn') as Hat.
  { intros bn' Hb. destruct (Z.lt_ge_cases bn' NDIRECT) as [H|H]; [rewrite (decide_False (P := bn' = bn)) by flia; by rewrite !block_at_direct|].
    rewrite !block_at_indirect by done. fold ind. unfold V'. rewrite fupd_eq. case_decide as Hc.
    - subst bn'. rewrite load32_store32. apply u32_small. lia.
    - rewrite Ei. unfold load32, store32. apply (loadn_outside 4 _ _ _ (4 * (bn - NDIRECT)) 4); [apply (storen_outside 4)|].
      change (Z.of_nat 4) with 4. lia. }
  assert (forall c, 0 <= c < sb_size sb -> used V' sb c = if decide (c = r) then true else used V sb c) as Hu.
  { intros c Hc. unfold used at 1, V'. rewrite fupd_ne by (by apply Hpi). fold (used V1 sb c). by apply (used_taken st). }
  destruct (attach st sb V x V' x r F I Hr Hfree) with (bn := bn) as [I' E]; [by destruct x|done| |flia|done|done|done|].
  { intros m Hm Hp Hne. unfold V'. rewrite fupd_ne by (by apply Hne). unfold V1. by rewrite taken_other. }
  assert (0 <= bn < MAXFILE) as Hbm by flia. split; [done| |done|by rewrite Hat, decide_True| | |done].
  - split; [apply F..|]. intros b Hb. rewrite Hu by done. case_decide; [done|]. by apply F.
  - intros bn' Hb Hne. by rewrite Hat, decide_False.
  - intros bn' Hb Hne. unfold V'. rewrite fupd_ne by (by apply (in_ind _ _ _ _ I)). unfold V1. by rewrite taken_owned by by apply owns_block.
Qed.
End taken.

Lemma mapped_refl V x bn : inode_ok st sb V x -> fs_bitmap st sb V -> block_at V x bn <> 0 -> mapped V x V x bn (block_at V x bn).
Proof. intros I F H. split; try done. apply evolves_refl. Qed.

(** ** bmap *)

Lemma balloc_at bl own V ip x s : at_inode bl own V ip x s -> fs_bitmap st sb V -> aside sb V own ->
  Z.of_nat (length bl + length own) + 2 <= LOGBLOCKS ->
  exists r s' bl' V', balloc ROOTDEV s = Ok r s' /\ tframe s s' /\ at_inode bl' own V' ip x s' /\ logs bl bl' (fun m => m <> 0 /\ m = r) /\
    (length bl' <= length bl + 2)%nat /\
    (0 <= r < sb_size sb /\ r <> 0 /\ used V sb r = false /\ V' = taken V sb r \/
     r = 0 /\ V' = V /\ bl' = bl /\ forall c, 0 <= c < sb_size sb -> used V sb c = true).
Proof.
  intros A F As Hl. pose proof A as [T Hs Hx]. pose proof (balloc_rule i st n bl own V D P s T) as HB. rewrite Hs in HB.
  destruct (HB F As Hn Hl) as (r & s' & bl' & V' & E & F' & T' & H). exists r, s', bl', V'. split; [done|]. split; [done|].
  split; [by eapply at_tframe|]. destruct H as [((Hr & Hu & _) & -> & ->)|(-> & -> & -> & Hall)].
  - pose proof (free_block st sb V r F Hr Hu) as [_ H0]. split; [|split; [|by left]].
    + intros m [->|[->|H]%absorb_elem]%absorb_elem; [by auto| |by left]. right; left. by exists r.
    + pose proof (absorb_length (BBLOCK r sb) bl). pose proof (absorb_length r (absorb (BBLOCK r sb) bl)). lia.
  - split; [by intros m Hm; left|]. split; [lia|by right].
Qed.

Lemma aside_ind V x b : inode_ok st sb V x -> fs_bitmap st sb V -> i_addrs x NDIRECT <> 0 -> aside sb V [(b, i_addrs x NDIRECT)].
Proof.
  intros I F Hi. pose proof (owns_ind V x Hi) as Ho. split.
  - intros c Hc E%list_elem_of_singleton. destruct (data_block V x _ I F Ho) as (_ & _ & _ & Hp). by apply (Hp c).
  - intros m ->%list_elem_of_singleton _. by apply (in_data _ _ _ _ I _ Ho).
Qed.

Lemma bmap_entry_rule bl V ip x s bn (ind := i_addrs x NDIRECT) : at_inode bl [] V ip x s -> inode_ok st sb V x -> fs_bitmap st sb V ->
  NDIRECT <= bn < MAXFILE -> ind <> 0 -> Z.of_nat (length bl) + 3 <= LOGBLOCKS ->
  exists r s' bl' V', bmap_entry ROOTDEV ind (bn - NDIRECT) s = Ok r s' /\ tframe s s' /\ at_inode bl' [] V' ip x s' /\
    mapped V x V' x bn r /\ logs bl bl' (fun m => m <> 0 /\ (m = r \/ m = ind)) /\ (length bl' <= length bl + 3)%nat.
Proof.
  intros A I F Hbn Hi Hl. pose proof A as [T Hs Hx]. pose proof (owns_ind V x Hi) as Hoi. fold ind in Hoi.
  destruct (data_block V x ind I F Hoi) as (Hm & _ & Hlog & _). unfold LOGBLOCKS in Hl.
  destruct (bread_txn _ _ _ _ _ _ _ _ _ ind T Hm (not_elem_of_nil _) ltac:(right; cbn [length]; unfold NBUF; lia)) as (b & s1 & E1 & T1 & F1 & Hd).
  unfold bmap_entry. rewrite (bind_ok _ _ _ _ _ E1). unfold bget32. erewrite bind_ok by reflexivity.
  rewrite (load32_beq _ _ (4 * (bn - NDIRECT)) Hd) by flia. rewrite <- (block_at_indirect V x bn (proj1 Hbn) Hi : _ = load32 (V ind) _). destruct (Z.eqb_spec (block_at V x bn) 0) as [H0|H0].
  2: { destruct (brelse_txn _ _ _ _ _ _ _ _ _ _ _ T1 (clean_txn _ _ _ _ _ T (not_elem_of_nil _))) as (s2 & E2 & T2 & F2).
       exists (block_at V x bn), s2, bl, V. erewrite bind_ok by reflexivity. rewrite (bind_ok _ _ _ _ _ E2). split; [done|].
       assert (tframe s s2) as F' by by apply (tframe_trans _ s1). split; [done|]. split; [by eapply at_tframe|]. split; [by apply mapped_refl|].
       split; [by intros m ?; left|lia]. }
  pose proof (at_tframe _ _ _ _ _ _ _ _ _ _ A T1 F1) as A1.
  destruct (balloc_at bl _ V ip x s1 A1 F (aside_ind V x b I F Hi) ltac:(cbn [length]; unfold LOGBLOCKS; lia))
    as (r & s2 & bl2 & V2 & E2 & F2 & A2 & L2 & Hl2 & H). rewrite bind_assoc, (bind_ok _ _ _ _ _ E2).
  pose proof A2 as [T2 _ _]. destruct H as [(Hr & Hr0 & Hfree & ->)|(-> & -> & -> & Hall)].
  - rewrite (proj2 (Z.eqb_neq _ _) Hr0). unfold bput32.
    set (V1 := taken V sb r) in *. set (f := fun d => store32 d (4 * (bn - NDIRECT)) r).
    destruct (put_txn _ _ _ _ _ _ _ _ _ b ind f (f (V1 ind)) T2) as (s3 & E3 & T3 & F3); [|done|unfold LOGBLOCKS; lia|done|].
    { apply storen_beq, (blocks_data _ _ _ _ _ _ _ _ _ (tx_blocks _ _ _ _ _ _ _ _ _ T2)). ielem. }
    apply bind_inv in E3 as ([] & s4 & E4 & E3). apply bind_inv in E3 as ([] & s5 & E5 & E6).
    exists r, s3, (absorb ind bl2), (fupd V1 ind (f (V1 ind))).
    rewrite !bind_assoc, (bind_ok _ _ _ _ _ E4), (bind_ok _ _ _ _ _ E5). erewrite bind_ok by reflexivity.
    rewrite (bind_ok _ _ _ _ _ E6). split; [done|]. assert (tframe s s3) as F' by (apply (tframe_trans _ s1); [done|]; by apply (tframe_trans _ s2)).
    split; [done|]. split; [by eapply at_tframe|]. split; [by apply taken_entry|]. split.
    + intros m [->|Hm']%absorb_elem; [by auto|]. destruct (L2 m Hm') as [?|[?|[? ->]]]; auto.
    + pose proof (absorb_length ind bl2). lia.
  - erewrite bind_ok by reflexivity.
    destruct (brelse_txn _ _ _ _ _ _ _ _ _ _ _ T2 (clean_txn _ _ _ _ _ T (not_elem_of_nil _))) as (s3 & E3 & T3 & F3).
    exists 0, s3, bl, V. rewrite (bind_ok _ _ _ _ _ E3). split; [done|].
    assert (tframe s s3) as F' by (apply (tframe_trans _ s1); [done|]; by apply (tframe_trans _ s2)). split; [done|]. split; [by eapply at_tframe|].
    split; [|split; [by intros m ?; left|lia]]. split; try done. apply evolves_refl.
Qed.

Lemma mapped_indirect V x V1 x1 V2 bn r : inode_ok st sb V x -> inode_ok st sb V1 x1 -> evolves sb V x V1 x1 ->
  (forall bn, 0 <= bn < MAXFILE -> block_at V1 x1 bn = block_at V x bn) -> (forall m, owns V x m -> beq (V1 m) (V m)) ->
  mapped V1 x1 V2 x1 bn r -> mapped V x V2 x1 bn r.
Proof.
  intros I I1 E1 Hat Hold [I2 F2 E2 M1 M2 M3 M4]. split; try done.
  - by apply (evolves_trans st sb V x V1 x1).
  - intros bn' Hb Hne. rewrite M2 by done. by apply Hat.
  - intros bn' Hb Hne. rewrite <- Hat in Hne |- * by done. rewrite (M3 bn' Hb Hne). rewrite Hat in * by done. apply Hold. by apply owns_block.
Qed.

Lemma mapped_none V x bn : inode_ok st sb V x -> fs_bitmap st sb V -> block_at V x bn = 0 ->
  (forall c, 0 <= c < sb_size sb -> used V sb c = true) -> mapped V x V x bn 0.
Proof. intros I F H0 Hall. split; try done. apply evolves_refl. Qed.

(** [bmap] of any block of a file: the block that is there, or a new one, or 0
    when the disk is full. *)
Lemma bmap_rule bl V ip x s bn : at_inode bl [] V ip x s -> inode_ok st sb V x -> fs_bitmap st sb V ->
  0 <= bn < MAXFILE -> Z.of_nat (length bl) + 5 <= LOGBLOCKS ->
  exists r s' bl' V' x', bmap ip bn s = Ok r s' /\ iframe ip s s' /\ at_inode bl' [] V' ip x' s' /\
    mapped V x V' x' bn r /\ logs bl bl' (fun m => m <> 0 /\ (m = r \/ m = i_addrs x' NDIRECT)) /\ (length bl' <= length bl + 5)%nat.
Proof.
  intros A I F Hbn Hl. pose proof A as [T Hs Hx]. unfold bmap. rewrite (bind_ok _ _ _ _ _ (inode_of_run ip s)), Hx, (in_dev _ _ _ _ I).
  destruct (Z.ltb_spec bn NDIRECT) as [Hd|Hd].
  - destruct (Z.eqb_spec (i_addrs x bn) 0) as [H0|H0].
    2: { exists (i_addrs x bn), s, bl, V, x. split; [done|]. split; [auto with xv6|]. split; [done|].
         rewrite <- (block_at_direct V) in * by done. split; [by apply mapped_refl|]. split; [by intros m ?; left|lia]. }
    destruct (balloc_at bl [] V ip x s A F (aside_nil _ _) ltac:(cbn [length]; lia)) as (r & s1 & bl1 & V1 & E1 & F1 & A1 & L1 & Hl1 & H).
    rewrite (bind_ok _ _ _ _ _ E1). destruct H as [(Hr & Hr0 & Hfree & ->)|(-> & -> & -> & Hall)].
    + rewrite (proj2 (Z.eqb_neq _ _) Hr0). set (f := fun x => i_set_addrs (fupd (i_addrs x) bn r) x).
      exists r, (upd_inode ip f s1), bl1, (taken V sb r), (f x). split; [done|]. split; [apply (iframe_trans _ _ s1); auto with xv6|].
      split; [by apply at_set_inode|]. split; [exact (taken_direct V x r F I Hr Hfree bn ltac:(lia) H0)|]. split; [|lia]. intros m Hm. destruct (L1 m Hm) as [?|[?|[? ->]]]; auto.
    + exists 0, s1, bl, V, x. split; [done|]. split; [auto with xv6|]. split; [done|]. rewrite <- (block_at_direct V) in H0 by done.
      split; [by apply mapped_none|]. split; [by intros m ?; left|lia].
  - destruct (Z.ltb_spec (bn - NDIRECT) NINDIRECT) as [_|H]; [|unfold MAXFILE in Hbn; lia].
    destruct (Z.eqb_spec (i_addrs x NDIRECT) 0) as [H0|H0].
    2: { erewrite bind_ok by reflexivity. rewrite (proj2 (Z.eqb_neq _ _) H0).
         destruct (bmap_entry_rule bl V ip x s bn A I F ltac:(lia) H0 ltac:(lia)) as (r & s1 & bl1 & V1 & E1 & F1 & A1 & M1 & L1 & Hl1).
         exists r, s1, bl1, V1, x. split; [done|]. split; [auto with xv6|]. split; [done|]. split; [done|]. split; [done|lia]. }
    destruct (balloc_at bl [] V ip x s A F (aside_nil _ _) ltac:(cbn [length]; lia)) as (r & s1 & bl1 & V1 & E1 & F1 & A1 & L1 & Hl1 & H).
    rewrite bind_assoc, (bind_ok _ _ _ _ _ E1). destruct H as [(Hr & Hr0 & Hfree & ->)|(-> & -> & -> & Hall)].
    + rewrite (proj2 (Z.eqb_neq _ _) Hr0). set (f := fun x => i_set_addrs (fupd (i_addrs x) NDIRECT r) x). set (s2 := upd_inode ip f s1).
      rewrite bind_assoc, (bind_ok _ _ _ tt s2) by done. erewrite bind_ok by reflexivity. rewrite (proj2 (Z.eqb_neq _ _) Hr0).
      destruct (taken_indirect V x r F I Hr Hfree H0) as (I1 & Ev & Hat). fold (f x) in I1, Ev, Hat.
      assert (i_addrs (f x) NDIRECT = r) as Hi by apply fupd_eq.
      destruct (bmap_entry_rule bl1 (taken V sb r) ip (f x) s2 bn) as (r2 & s3 & bl3 & V3 & E3 & F3 & A3 & M3 & L3 & Hl3);
        [by apply at_set_inode|done|by apply taken_bitmap|lia|by rewrite Hi|lia|]. rewrite Hi in E3, L3.
      exists r2, s3, bl3, V3, (f x). split; [done|]. split; [apply (iframe_trans _ _ s1); [auto with xv6|]; apply (iframe_trans _ _ s2); [apply iframe_upd|auto with xv6]|].
      split; [done|]. split.
      * apply (mapped_indirect V x (taken V sb r) (f x)); try done. intros m Hm. by rewrite (taken_owned V x r).
      * split; [|lia]. intros m Hm. destruct (L3 m Hm) as [H1|[?|H1]]; [|auto|rewrite Hi; auto]. destruct (L1 m H1) as [?|[?|[? ->]]]; rewrite ?Hi; auto.
    + erewrite bind_ok by reflexivity. exists 0, s1, bl, V, x. split; [done|]. split; [auto with xv6|]. split; [done|].
      split; [apply mapped_none; [done..|by apply block_at_none|done]|]. split; [by intros m ?; left|lia].
Qed.
End inode.
