(* ===== verification/Dinode.v ===== *)
(** * Inodes on disk (kernel/fs.c, iupdate and ilock)

    [struct dinode] as a list of fields at offsets of a block: what [iupdate]
    stores, [ilock] loads, and the other inodes of the block stay.
    [saved V sb x] says that the disk inode of [x] agrees with it. *)

From Stdlib Require Import Sorting.Sorted.
From S2P Require Import Prelude Riscv Mem CString KState Sched Virtio DiskSpec Bio BioSpec Blocks Log LogSpec Txn StorageSpec Vm PhysMem Fs FsSpec Inode InodeSpec.

(** ** Fields of a structure in memory *)

(** Offset, width in bytes, value. *)
Definition field : Type := Z * nat * Z.

Definition put_field (d : mem) (f : field) : mem := let '(o, w, v) := f in storen w d o v.
Definition put_fields (fs : list field) (d : mem) : mem := foldl put_field d fs.

Definition before (f g : field) : Prop := f.1.1 + Z.of_nat f.1.2 <= g.1.1.

Lemma put_fields_outside fs : forall d a n, Forall (fun f => a <= f.1.1 /\ f.1.1 + Z.of_nat f.1.2 <= a + n) fs ->
  same_outside a n d (put_fields fs d).
Proof.
  induction fs as [|[[o w] v] fs IH]; intros d a n H; [done|]. apply Forall_cons in H as [H1 H2]. cbn in H1.
  apply (same_outside_trans _ _ _ (storen w d o v)); [|by apply IH].
  eapply same_outside_weaken; [apply storen_outside|]. lia.
Qed.

Lemma put_fields_after fs x : Forall (fun f => x < f.1.1) fs -> forall d, put_fields fs d x = d x.
Proof.
  induction 1 as [|[[o w] v] fs H Hall IH]; intros d; [done|]. change (put_fields fs (storen w d o v) x = d x).
  rewrite IH. apply storen_outside. cbn in H. lia.
Qed.

Lemma put_fields_load fs : StronglySorted before fs -> forall d o w v, (o, w, v) ∈ fs ->
  loadn w (put_fields fs d) o = v mod 256 ^ Z.of_nat w.
Proof.
  induction 1 as [|f fs HS IH Hall]; intros d o w v H; [by apply not_elem_of_nil in H|].
  apply elem_of_cons in H as [<-|H]; [|by apply IH]. rewrite <- (loadn_storen w d o v). apply loadn_ext. intros x Hx.
  refine (put_fields_after fs x _ (storen w d o v)). eapply Forall_impl; [exact Hall|]. intros g Hg. unfold before in Hg. cbn in Hg. lia.
Qed.

Lemma put_fields_beq fs : forall d d', beq d d' -> beq (put_fields fs d) (put_fields fs d').
Proof. induction fs as [|[[o w] v] fs IH]; intros d d' H; [done|]. by apply IH, storen_beq. Qed.

(** ** struct dinode *)

Definition dinode_fields (x : inode) (dip : Z) : list field :=
  [(dip, 2%nat, u16 (i_type x)); (dip + 2, 2%nat, u16 (i_major x)); (dip + 4, 2%nat, u16 (i_minor x)); (dip + 6, 2%nat, u16 (i_nlink x));
   (dip + 8, 4%nat, i_size x)] ++ map (fun j => (dip + 12 + 4 * j, 4%nat, i_addrs x j)) (seqZ 0 (NDIRECT + 1)).

Definition dip_of (x : inode) : Z := i_inum x mod IPB * DINODE.

(** The fields of an inode have the width of their C types. *)
Record inode_range (x : inode) : Prop := {
  ir_type : -0x8000 <= i_type x < 0x8000;
  ir_major : -0x8000 <= i_major x < 0x8000;
  ir_minor : -0x8000 <= i_minor x < 0x8000;
  ir_nlink : -0x8000 <= i_nlink x < 0x8000;
  ir_size : 0 <= i_size x < 0x100000000;
  ir_addrs : forall j, 0 <= j <= NDIRECT -> 0 <= i_addrs x j < 0x100000000
}.

Record saved (V : contents) (sb : superblock) (x : inode) (d := V (IBLOCK (i_inum x) sb)) (o := dip_of x) : Prop := {
  sv_type : s16 (loadn 2 d o) = i_type x;
  sv_major : s16 (loadn 2 d (o + 2)) = i_major x;
  sv_minor : s16 (loadn 2 d (o + 4)) = i_minor x;
  sv_nlink : s16 (loadn 2 d (o + 6)) = i_nlink x;
  sv_size : load32 d (o + 8) = i_size x;
  sv_addrs : forall j, 0 <= j <= NDIRECT -> load32 d (o + 12 + 4 * j) = i_addrs x j
}.

Lemma dinode_seq : seqZ 0 (NDIRECT + 1) = [0; 1; 2; 3; 4; 5; 6; 7; 8; 9; 10; 11; 12].
Proof. done. Qed.

Lemma dinode_sorted x dip : StronglySorted before (dinode_fields x dip).
Proof.
  unfold dinode_fields. rewrite dinode_seq. cbn [map app].
  repeat (constructor; [|repeat (apply Forall_cons_2; [unfold before; cbn; lia|]); constructor]). constructor.
Qed.

Lemma dinode_inside x dip : Forall (fun f => dip <= f.1.1 /\ f.1.1 + Z.of_nat f.1.2 <= dip + DINODE) (dinode_fields x dip).
Proof.
  unfold dinode_fields. rewrite dinode_seq. cbn [map app]. repeat (apply Forall_cons_2; [unfold DINODE; cbn; lia|]). constructor.
Qed.

Lemma s16_u16 v : -0x8000 <= v < 0x8000 -> s16 (u16 v) = v.
Proof. intros H. unfold s16, u16. zlia. Qed.

Lemma dinode_saved V sb x (m := IBLOCK (i_inum x) sb) : inode_range x ->
  saved (fupd V m (put_fields (dinode_fields x (dip_of x)) (V m))) sb x.
Proof.
  intros R. assert (forall o w v, (o, w, v) ∈ dinode_fields x (dip_of x) ->
    loadn w (put_fields (dinode_fields x (dip_of x)) (V m)) o = v mod 256 ^ Z.of_nat w) as HL
    by (intros o w v; apply put_fields_load, dinode_sorted).
  assert (forall v, u16 v mod 256 ^ Z.of_nat 2 = u16 v) as H16 by (intros v; apply Z.mod_small, Z.mod_pos_bound; done).
  destruct R. unfold dinode_fields in HL. split; fold m; rewrite fupd_eq.
  - rewrite (HL _ _ (u16 (i_type x))) by set_solver. by rewrite H16, s16_u16.
  - rewrite (HL _ _ (u16 (i_major x))) by set_solver. by rewrite H16, s16_u16.
  - rewrite (HL _ _ (u16 (i_minor x))) by set_solver. by rewrite H16, s16_u16.
  - rewrite (HL _ _ (u16 (i_nlink x))) by set_solver. by rewrite H16, s16_u16.
  - unfold load32. rewrite (HL _ _ (i_size x)) by set_solver. by apply Z.mod_small.
  - intros j Hj. unfold load32. rewrite (HL _ _ (i_addrs x j)); [by apply Z.mod_small, ir_addrs0|].
    apply elem_of_app. right. apply list_elem_of_fmap. exists j. split; [done|]. apply elem_of_seqZ. lia.
Qed.

(** Where the disk inode does not change, it stays saved. *)
Lemma saved_ext V V' sb x : saved V sb x ->
  (forall k, dip_of x <= k < dip_of x + DINODE -> V' (IBLOCK (i_inum x) sb) k = V (IBLOCK (i_inum x) sb) k) -> saved V' sb x.
Proof.
  intros [] H. assert (forall w o, dip_of x <= o -> o + Z.of_nat w <= dip_of x + DINODE ->
    loadn w (V' (IBLOCK (i_inum x) sb)) o = loadn w (V (IBLOCK (i_inum x) sb)) o) as HL.
  { intros w o H1 H2. apply loadn_ext. intros k Hk. apply H. lia. }
  unfold DINODE in *. split; try (rewrite HL by lia; done).
  - unfold load32. rewrite HL by lia. done.
  - intros j Hj. unfold load32. rewrite HL by flia. exact (sv_addrs0 j Hj).
Qed.

Lemma dip_range x : 0 <= i_inum x -> 0 <= dip_of x /\ dip_of x + DINODE <= BSIZE.
Proof. intros H. unfold dip_of. change IPB with 16. unfold DINODE, BSIZE. zlia. Qed.

(** The inodes in a block do not overlap. *)
Lemma dip_apart st sb V x y : fs_bitmap st sb V -> 0 <= i_inum x < sb_ninodes sb -> 0 <= i_inum y < sb_ninodes sb -> i_inum x <> i_inum y ->
  IBLOCK (i_inum x) sb = IBLOCK (i_inum y) sb -> dip_of x + DINODE <= dip_of y \/ dip_of y + DINODE <= dip_of x.
Proof.
  intros F Hx Hy Hne E. rewrite !(IBLOCK_at st sb V F) in E by done. unfold dip_of, DINODE. change IPB with 16 in *. zlia.
Qed.

Lemma dinode_other st sb V x y (m := IBLOCK (i_inum x) sb) : fs_bitmap st sb V -> 0 <= i_inum x < sb_ninodes sb -> 0 <= i_inum y < sb_ninodes sb ->
  i_inum x <> i_inum y -> saved V sb y -> saved (fupd V m (put_fields (dinode_fields x (dip_of x)) (V m))) sb y.
Proof.
  intros F Hx Hy Hne S. eapply saved_ext; [exact S|]. intros k Hk. rewrite fupd_cases. case_decide as E; [|done]. rewrite E.
  apply (put_fields_outside _ _ (dip_of x) DINODE); [apply dinode_inside|]. fold m in E. pose proof (dip_apart st sb V x y F Hx Hy Hne ltac:(by unfold m in E)). lia.
Qed.

(** ** Nobody else is disturbed *)

Lemma meta_used st sb V m : fs_bitmap st sb V -> 0 <= m < sb_size sb -> meta st sb m -> used V sb m = true.
Proof. intros F Hm H. destruct (used V sb m) eqn:E; [done|]. by destruct (fb_meta _ _ _ F m Hm E). Qed.

(** What an operation on the file [x] leaves alone: the blocks in use that are
    neither its own nor bitmap nor its inode's block, and the other inodes. *)
Record undisturbed (st : Z) (sb : superblock) (V : contents) (x : inode) (V' : contents) : Prop := {
  ud_used : forall m, 0 <= m < sb_size sb -> used V sb m = true -> used V' sb m = true;
  ud_block : forall m, 0 <= m < sb_size sb -> used V sb m = true -> ~ in_log st m -> plain sb m -> ~ owns V x m ->
    m <> IBLOCK (i_inum x) sb -> beq (V' m) (V m);
  ud_inode : forall y, 0 <= i_inum y < sb_ninodes sb -> i_inum y <> i_inum x -> saved V sb y -> saved V' sb y
}.

(** The blocks of a file depend on its indirect block alone. *)
Lemma same_blocks V V' y : (forall m, owns V y m -> beq (V' m) (V m)) ->
  (forall bn, 0 <= bn < MAXFILE -> block_at V' y bn = block_at V y bn) /\ forall m, owns V' y m <-> owns V y m.
Proof.
  intros Hb. assert (forall bn, 0 <= bn < MAXFILE -> block_at V' y bn = block_at V y bn) as Hat.
  { intros bn Hbn. apply block_at_ext; [done|]. intros Hi. by apply Hb, owns_ind. }
  split; [done|]. intros m. unfold owns.
  split; intros (H0 & [?|(bn & Hbn & ->)]); (split; [done|]); [by left| |by left|]; right; exists bn; by rewrite ?Hat in *.
Qed.

(** A file depends on its blocks and their marks. *)
Lemma same_file st sb V V' y : inode_ok st sb V y -> (forall m, owns V y m -> beq (V' m) (V m)) ->
  (forall m, 0 <= m < sb_size sb -> used V sb m = true -> used V' sb m = true) -> inode_ok st sb V' y /\ data V' y = data V y.
Proof.
  intros I Hb Hu. destruct (same_blocks V V' y Hb) as [Hat Ho].
  pose proof (full_range st sb V y) as HR. pose proof I as [I1 I2 I3 I4 I5 I6 I7]. split; [split; try done|].
  - intros bn H1 H2. rewrite Hat by (by apply HR). by apply I4.
  - intros m Hm%Ho. destruct (I5 m Hm) as (H1 & H2 & H3). split; [done|]. split; [by apply Hu|done].
  - intros a b Ha Hb'. rewrite !Hat by done. by apply I6.
  - intros a Ha. rewrite Hat by done. by apply I7.
  - apply map_ext_in. intros k Hk%list_elem_of_In%elem_of_seqZ. pose proof (byte_block k ltac:(lia)) as [Hbk Hmk].
    unfold byte_at, load8. rewrite Hat by done. rewrite Hb; [done| |done]. apply owns_block; [done|]. apply I4; [lia|]. unfold BSIZE in *. zlia.
Qed.

(** Another file keeps its blocks and its bytes. *)
Lemma other_file st sb V x V' y : undisturbed st sb V x V' -> inode_ok st sb V y -> 0 <= i_inum x < sb_ninodes sb ->
  (forall m, owns V x m -> ~ owns V y m) -> inode_ok st sb V' y /\ data V' y = data V y.
Proof.
  intros U I Hx Hd. apply same_file; [done| |apply U]. intros m Hm. destruct (in_data _ _ _ _ I m Hm) as (H1 & H2 & H3).
  apply (ud_block _ _ _ _ _ U); [done|done|by eapply meta_log| | |].
  - intros c Hc. by apply (meta_bitmap st).
  - intros H. by apply (Hd m).
  - apply not_eq_sym. by apply (meta_inode st).
Qed.

(** An evolving file, saved at the end. *)
Lemma evolves_undisturbed st sb V x V1 x1 y (m := IBLOCK (i_inum x) sb) : fs_bitmap st sb V -> fs_bitmap st sb V1 -> inode_ok st sb V x ->
  evolves sb V x V1 x1 -> i_inum y = i_inum x -> undisturbed st sb V x (fupd V1 m (put_fields (dinode_fields y (dip_of y)) (V1 m))).
Proof.
  intros F F1 I Ev Hy. pose proof (in_inum _ _ _ _ I) as Hi. destruct (fb_inodes _ _ _ F _ Hi) as (Hm & _ & Hpl). fold m in Hm, Hpl.
  set (V2 := fupd V1 m _). split.
  - intros k Hk Hu. unfold V2. rewrite fw_used by done. by apply (ev_used _ _ _ _ _ Ev).
  - intros k Hk Hu _ Hp Ho Hne. unfold V2. rewrite fupd_ne by done. by apply (ev_frame _ _ _ _ _ Ev).
  - intros z Hz Hne S. unfold V2, m. rewrite <- Hy. apply (dinode_other st); [done|by rewrite Hy|done|by rewrite Hy; apply not_eq_sym|].
    destruct (fb_inodes _ _ _ F _ Hz) as (Hmz & _ & Hpz). pose proof (dip_range z ltac:(lia)) as Hd.
    eapply saved_ext; [exact S|]. intros k Hk. assert (meta st sb (IBLOCK (i_inum z) sb)) as Hmeta by (right; right; right; right; by exists (i_inum z)).
    apply (ev_frame _ _ _ _ _ Ev); [done|by apply (meta_used st)|done| |lia]. intros H. by apply (in_data _ _ _ _ I _ H).
Qed.

(** ** Contents that differ in the log only *)

Section matches.
Variables (st : Z) (sb : superblock) (V V' : contents).
Hypotheses (F : fs_bitmap st sb V) (M : matches st V' V).

Lemma matches_used c : 0 <= c < sb_size sb -> used V' sb c = used V sb c.
Proof using F M. intros Hc. unfold used. apply bit_of_beq; [|apply mod_BPB]. apply M. by apply (fb_home _ _ _ F). Qed.

Lemma matches_bitmap : fs_bitmap st sb V'.
Proof using F M. split; [apply F..|]. intros b Hb. rewrite matches_used by done. by apply F. Qed.

Lemma matches_file y : inode_ok st sb V y -> inode_ok st sb V' y /\ data V' y = data V y.
Proof using F M.
  intros I. apply same_file; [done| |by intros m Hm; rewrite matches_used]. intros m Hm. apply M. eapply meta_log. by apply (in_data _ _ _ _ I).
Qed.

Lemma matches_owns y m : inode_ok st sb V y -> owns V' y m <-> owns V y m.
Proof using F M. intros I. apply same_blocks. intros k Hk. apply M. eapply meta_log. by apply (in_data _ _ _ _ I). Qed.

Lemma matches_saved y : 0 <= i_inum y < sb_ninodes sb -> saved V sb y -> saved V' sb y.
Proof using F M.
  intros Hy S. eapply saved_ext; [exact S|]. intros k Hk. pose proof (dip_range y ltac:(lia)). apply M; [by apply (fb_inodes _ _ _ F)|lia].
Qed.

Lemma matches_undisturbed V0 x : undisturbed st sb V0 x V -> undisturbed st sb V0 x V'.
Proof using F M.
  intros [U1 U2 U3]. split.
  - intros m Hm Hu. rewrite matches_used by done. by apply U1.
  - intros m Hm Hu Hl Hp Ho Hne. rewrite (M m Hl). by apply U2.
  - intros y Hy Hne S. by apply matches_saved, U3.
Qed.
End matches.

(** ** iupdate *)

Section update.
Context {LAY : Layout} {ENV : Env} {DSK : Disk}.
Variables (i st n : Z) (D : contents) (P : list contents).

Definition bput_field (b : Z) (f : field) : K unit := modify (upd_buf b (fun x => b_set_data (put_field (b_data x) f) x)).

Lemma txn_view_ext bl own V V' s : txn i st n bl own V D P s -> (forall m, beq (V m) (V' m)) -> txn i st n bl own V' D P s.
Proof. intros [B L G Ho Hc Hd] H. split; try done. by eapply blocks_view_ext. Qed.

Lemma bput_field_run bl own V s b m f : txn i st n bl ((b, m) :: own) V D P s ->
  exists s', bput_field b f s = Ok tt s' /\ txn i st n bl ((b, m) :: own) (fupd V m (put_field (V m) f)) D P s' /\ tframe s s'.
Proof.
  intros T. eexists. split; [apply modify_run|]. apply (data_txn _ _ _ _ _ _ _ _ _ b m (fun d => put_field d f)); [done|ielem|].
  destruct f as [[o w] v]. apply storen_beq, (blocks_data _ _ _ _ _ _ _ _ _ (tx_blocks _ _ _ _ _ _ _ _ _ T)). ielem.
Qed.

Lemma bput_fields_run bl own b m : forall fs V s, txn i st n bl ((b, m) :: own) V D P s ->
  exists s', for_each fs (bput_field b) s = Ok tt s' /\ txn i st n bl ((b, m) :: own) (fupd V m (put_fields fs (V m))) D P s' /\ tframe s s'.
Proof.
  induction fs as [|f fs IH]; intros V s T.
  - exists s. split; [done|]. split; [|apply tframe_refl]. eapply txn_view_ext; [exact T|]. intros k. rewrite fupd_cases. case_decide; by subst.
  - destruct (bput_field_run _ _ _ _ _ _ f T) as (s1 & E1 & T1 & F1). destruct (IH _ _ T1) as (s2 & E2 & T2 & F2).
    exists s2. cbn [for_each]. rewrite (bind_ok _ _ _ _ _ E1). split; [done|]. split; [|by apply (tframe_trans _ s1)].
    eapply txn_view_ext; [exact T2|]. intros k. rewrite fupd_eq, !fupd_cases. by case_decide.
Qed.

Lemma addrs_stores b (f : Z -> Z) (g : Z -> Z) l : forall s,
  for_each l (fun j => bput32 b (f j) (g j)) s = for_each (map (fun j => (f j, 4%nat, g j)) l) (bput_field b) s.
Proof.
  induction l as [|j l IH]; intros s; [done|]. cbn [map for_each]. erewrite bind_ok by reflexivity.
  symmetry. erewrite bind_ok by reflexivity. symmetry. apply IH.
Qed.

(** The stores of [iupdate], one by one. *)
Lemma iupdate_stores b x dip (k : K unit) s s1 : for_each (dinode_fields x dip) (bput_field b) s = Ok tt s1 ->
  (bput16 b dip (u16 (i_type x)) ;;
   bput16 b (dip + 2) (u16 (i_major x)) ;;
   bput16 b (dip + 4) (u16 (i_minor x)) ;;
   bput16 b (dip + 6) (u16 (i_nlink x)) ;;
   bput32 b (dip + 8) (i_size x) ;;
   for_each (seqZ 0 (NDIRECT + 1)) (fun j => bput32 b (dip + 12 + 4 * j) (i_addrs x j)) ;; k) s = k s1.
Proof.
  intros E. unfold dinode_fields in E. cbn [app for_each] in E.
  do 5 (erewrite bind_ok in E by reflexivity; erewrite bind_ok by reflexivity). rewrite (bind_ok _ _ _ tt s1); [done|].
  rewrite addrs_stores. exact E.
Qed.

Lemma iupdate_rule bl V ip x s sb : at_inode i st n sb D P bl [] V ip x s -> inode_ok st sb V x -> fs_bitmap st sb V ->
  1 <= n -> Z.of_nat (length bl) < LOGBLOCKS ->
  let m := IBLOCK (i_inum x) sb in
  exists s', iupdate ip s = Ok tt s' /\ tframe s s' /\
    at_inode i st n sb D P (absorb m bl) [] (fupd V m (put_fields (dinode_fields x (dip_of x)) (V m))) ip x s'.
Proof.
  intros A I F Hn Hl m. pose proof A as [T Hs Hx]. destruct (fb_inodes _ _ _ F _ (in_inum _ _ _ _ I)) as (Hm & Hlog & _). fold m in Hm, Hlog.
  pose proof (fb_size _ _ _ F). unfold iupdate. rewrite (bind_ok _ _ _ _ _ (inode_of_run ip s)), Hx. erewrite bind_ok by reflexivity. rewrite Hs.
  rewrite (in_dev _ _ _ _ I). fold m. unfold LOGBLOCKS in Hl.
  destruct (bread_txn _ _ _ _ _ _ _ _ _ m T ltac:(lia) (not_elem_of_nil _) ltac:(right; cbn [length]; unfold NBUF; lia)) as (b & s1 & E1 & T1 & F1 & _).
  rewrite (bind_ok _ _ _ _ _ E1), (bind_ok _ _ _ _ _ (inode_of_run ip s1)), (tframe_itable _ _ F1), Hx.
  change (i_inum x mod IPB * DINODE) with (dip_of x).
  destruct (bput_fields_run _ _ _ _ (dinode_fields x (dip_of x)) _ _ T1) as (s2 & E2 & T2 & F2). rewrite (iupdate_stores _ _ _ _ _ _ E2).
  destruct (log_write_rule _ _ _ _ _ _ _ _ _ b m T2 ltac:(ielem) Hn Hl Hlog) as (s3 & E3 & T3 & F3). rewrite (bind_ok _ _ _ _ _ E3).
  destruct (brelse_txn _ _ _ _ _ _ _ _ _ _ _ T3 ltac:(left; apply absorb_in)) as (s4 & E4 & T4 & F4).
  assert (tframe s s4) as F' by (apply (tframe_trans _ s1); [done|]; apply (tframe_trans _ s2); [done|]; by apply (tframe_trans _ s3)).
  exists s4. split; [done|]. split; [done|]. by eapply at_tframe.
Qed.
End update.
