(* ===== verification/FileIO.v ===== *)
(** * Reading and writing files (kernel/fs.c, readi and writei)

    [readi] hands the bytes of a file to whatever takes them, a process or a
    kernel variable: the class [Sink] is what it relies on.  [writei] takes
    them from a [Source].  The file is described by [Inode.data]. *)

From S2P Require Import Prelude Riscv Mem CString KState Sched Virtio DiskSpec Bio BioSpec Blocks Log LogSpec Txn StorageSpec Vm PhysMem Fs FsSpec Inode InodeSpec Dinode.

(** ** Where bytes go and come from *)

Definition byte (b : Z) : Prop := 0 <= b < 256.

(** What a process's memory depends on. *)
Record user_same (s s' : kstate) : Prop := {
  um_mem : k_mem s' = k_mem s;
  um_freelist : k_freelist s' = k_freelist s;
  um_refcount : k_refcount s' = k_refcount s;
  um_held : k_held s' = k_held s;
  um_cur : k_cur s' = k_cur s;
  um_procs : forall j, proc_keep (k_procs s j) (k_procs s' j)
}.

Lemma user_same_refl s : user_same s s.
Proof. split; try done. intros j. apply proc_keep_refl. Qed.

Lemma user_same_trans s1 s2 s3 : user_same s1 s2 -> user_same s2 s3 -> user_same s1 s3.
Proof.
  intros [A1 A2 A3 A4 A5 A6] [B1 B2 B3 B4 B5 B6]. split; [congruence..|]. intros j. eapply proc_keep_trans; [apply A6|apply B6].
Qed.

Lemma io_user s s' : io_frame s s' -> user_same s s'.
Proof.
  intros [A B]. split; [exact (f_equal k_mem A)|exact (f_equal k_freelist A)|exact (f_equal k_refcount A)|exact (f_equal k_held A)|exact (f_equal k_cur A)|done].
Qed.

Lemma fframe_user s s' : fframe s s' -> user_same s s'.
Proof. intros [A _]. destruct (io_user _ _ A). by split. Qed.

(** [Sk p out s]: the destination, now at [p], has received the bytes [out];
    it takes [N] bytes in all. *)
Class Sink {LAY : Layout} {ENV : Env} (N : Z) (Sk : place -> list Z -> kstate -> Prop) : Prop := {
  sk_frame : forall p out s s', Sk p out s -> user_same s s' -> Sk p out s';
  sk_copy : forall p out bs s, Sk p out s -> Forall byte bs -> Z.of_nat (length (out ++ bs)) <= N ->
    exists s', either_copyout p bs s = Ok 0 s' /\ s' = k_set_mem (k_mem s') s /\
      Sk (place_add p (Z.of_nat (length bs))) (out ++ bs) s'
}.

(** [Sr p rest s]: the source, now at [p], has the bytes [rest] to give. *)
Class Source {LAY : Layout} {ENV : Env} (Sr : place -> list Z -> kstate -> Prop) : Prop := {
  sr_frame : forall p rest s s', Sr p rest s -> user_same s s' -> Sr p rest s';
  sr_bytes : forall p rest s, Sr p rest s -> Forall byte rest;
  sr_copy : forall p rest m s, Sr p rest s -> 0 <= m <= Z.of_nat (length rest) ->
    either_copyin p m s = Ok (0, take (Z.to_nat m) rest) s /\ Sr (place_add p m) (drop (Z.to_nat m) rest) s
}.

(** ** Frames *)

(** Everything but the cache, the log, the disk, the console and memory. *)
Definition uframe (s s' : kstate) : Prop := tframe (k_set_mem (k_mem s') s) s'.

Lemma tframe_set_mem m s s' : tframe s s' -> tframe (k_set_mem m s) (k_set_mem m s').
Proof. intros [[A B] C]. split; [split|]; [|done|done]. exact (f_equal (k_set_mem m) A). Qed.

Lemma tframe_mem s s' : tframe s s' -> k_mem s' = k_mem s.
Proof. intros [[A _] _]. exact (f_equal k_mem A). Qed.

Lemma uframe_of s s' : tframe s s' -> uframe s s'.
Proof. intros F. unfold uframe. rewrite (tframe_mem _ _ F). by replace (k_set_mem (k_mem s) s) with s by by destruct s. Qed.

Lemma uframe_set s m : uframe s (k_set_mem m s).
Proof. apply (tframe_refl (k_set_mem m s)). Qed.

Lemma uframe_trans s1 s2 s3 : uframe s1 s2 -> uframe s2 s3 -> uframe s1 s3.
Proof. intros A B. eapply tframe_trans; [exact (tframe_set_mem (k_mem s3) _ _ A)|exact B]. Qed.

Lemma uframe_refl s : uframe s s.
Proof. apply uframe_of, tframe_refl. Qed.

Lemma blocks_mem i pb own V D P s t : blocks i pb own V D P s -> blocks i pb own V D P (k_set_mem t s).
Proof.
  intros [(pin & l & [] & Hpin) [[] ? ?] ? ? ? ? ?]. split; try done.
  exists pin, l. split; [by split|done].
Qed.

Lemma at_mem i st n sb D P bl own V ip x s t : at_inode i st n sb D P bl own V ip x s ->
  at_inode i st n sb D P bl own V ip x (k_set_mem t s).
Proof. intros [[] Hs Hx]. split; [split; try done; by apply blocks_mem|done|done]. Qed.

(** ** Bytes of a block *)

Lemma nth_take_drop {A} (l : list A) a b j d : (j < a)%nat -> nth j (take a (drop b l)) d = nth (b + j) l d.
Proof. intros H. rewrite !nth_lookup. by rewrite lookup_take_lt, lookup_drop by done. Qed.

Lemma block_bytes V x off m : 0 <= off -> 0 <= m <= BSIZE - off mod BSIZE ->
  mem_read (V (block_at V x (off / BSIZE))) (off mod BSIZE) m = map (byte_at V x) (seqZ off m).
Proof.
  intros Ho Hm. unfold mem_read. rewrite (seqZ_shift off m), map_map. apply map_ext_in. intros j Hj%list_elem_of_In%elem_of_seqZ.
  unfold byte_at. assert ((off + j) / BSIZE = off / BSIZE /\ (off + j) mod BSIZE = off mod BSIZE + j) as [-> ->]; [|done].
  unfold BSIZE in *. zlia.
Qed.

Lemma mem_read_beq d d' o m : beq d d' -> 0 <= o -> o + m <= BSIZE -> mem_read d o m = mem_read d' o m.
Proof. intros H H1 H2. apply mem_read_ext. intros k Hk. apply H. lia. Qed.

Lemma mem_read_bytes d o m : Forall byte (mem_read d o m).
Proof. apply Forall_forall. intros b (j & -> & _)%list_elem_of_fmap. apply u8_range. Qed.

(** ** Directory entries *)

Lemma strncpy_length n t : length (strncpy_l n t) = n.
Proof. revert t. induction n as [|n IH]; intros t; [done|]. cbn. destruct (chr t =? 0); cbn; [by rewrite length_replicate|by rewrite IH]. Qed.

Lemma mk_dirent_length inum name : length (mk_dirent inum name) = 16%nat.
Proof. unfold mk_dirent. rewrite length_app, strncpy_length. done. Qed.

Lemma strncpy_bytes n t : Forall byte t -> Forall byte (strncpy_l n t).
Proof.
  revert t. induction n as [|n IH]; intros t Ht; [constructor|]. assert (byte 0) as H0 by done. cbn. destruct (chr t =? 0).
  - constructor; [done|]. by apply Forall_replicate.
  - constructor; [by destruct Ht|]. apply IH. by destruct Ht.
Qed.

Lemma mk_dirent_bytes k name : Forall byte name -> Z.of_nat (length (mk_dirent k name)) = 16 /\ Forall byte (mk_dirent k name).
Proof.
  intros H. rewrite mk_dirent_length. split; [done|]. unfold mk_dirent. repeat constructor; try apply u8_range. by apply strncpy_bytes.
Qed.


Section io.
Context {LAY : Layout} {ENV : Env} {DSK : Disk}.
Variables (i st n : Z) (sb : superblock) (D : contents) (P : list contents).
Hypothesis Hn : 1 <= n.

Lemma file_block V x off : inode_ok st sb V x -> fs_bitmap st sb V -> 0 <= off -> off < i_size x ->
  0 <= off / BSIZE < MAXFILE /\ 0 <= off mod BSIZE < BSIZE /\ block_at V x (off / BSIZE) <> 0 /\
  0 <= block_at V x (off / BSIZE) < 0x80000000.
Proof.
  intros I F Ho Hsz. pose proof (in_size _ _ _ _ I) as Hs. pose proof (byte_block off ltac:(lia)) as [Hbn Hmod].
  assert (block_at V x (off / BSIZE) <> 0) as Hne by (apply (in_full _ _ _ _ I); [lia|]; unfold BSIZE in *; zlia).
  pose proof (data_block st sb V x _ I F (owns_block V x _ Hbn Hne)) as (Ha & _). done.
Qed.

(** ** readi *)

Section read.
Context (N : Z) (Sk : place -> list Z -> kstate -> Prop) `{!Sink N Sk}.
Variables (bl : list Z) (V : contents) (ip : Z) (x : inode).
Hypotheses (I : inode_ok st sb V x) (F : fs_bitmap st sb V) (Hbl : Z.of_nat (length bl) < NBUF).

Definition clip (off len : Z) : Z := if off + len >? i_size x then i_size x - off else len.

Lemma readi_rule s p off len : at_inode i st n sb D P bl [] V ip x s -> Sk p [] s -> 0 <= off -> 0 <= len ->
  off + len < 0x100000000 -> off <= i_size x -> clip off len <= N ->
  let r := clip off len in
  exists p' s', readi ip p off len s = Ok (r, map (byte_at V x) (seqZ off r)) s' /\
    at_inode i st n sb D P bl [] V ip x s' /\ Sk p' (map (byte_at V x) (seqZ off r)) s' /\ uframe s s'.
Proof using I F Hbl Sink0 DSK.
  intros A HS Ho Hlen Hov Hsz HN r. pose proof (in_size _ _ _ _ I) as Hs. assert (0 <= r <= i_size x - off) as Hr.
  { unfold r, clip. destruct (Z.gtb_spec (off + len) (i_size x)); lia. }
  destruct (wpx_total (readi ip p off len) (fun v s' => v = (r, map (byte_at V x) (seqZ off r)) /\ at_inode i st n sb D P bl [] V ip x s' /\
    exists p', Sk p' (map (byte_at V x) (seqZ off r)) s' /\ uframe s s') s) as (v & s' & E & -> & A' & p' & HS' & F'); [|by exists p', s'].
  unfold readi. eapply wpx_bind_ok; [apply inode_of_run|]. rewrite (ai_inode _ _ _ _ _ _ _ _ _ _ _ _ A), (u32_small (off + len)) by lia.
  rewrite (Z.gtb_ltb off), (proj2 (Z.ltb_ge (i_size x) off)), (proj2 (Z.ltb_ge (off + len) off)) by lia. cbn [orb].
  change (if off + len >? i_size x then i_size x - off else len) with r. apply wpx_bind.
  apply (wpx_iter true (fun '(tot, o, q, out) s1 => 0 <= tot <= r /\ o = off + tot /\ out = map (byte_at V x) (seqZ off tot) /\
      at_inode i st n sb D P bl [] V ip x s1 /\ Sk q out s1 /\ uframe s s1) (fun '(tot, _, _, _) => Z.to_nat (r - tot))).
  - intros [[[tot o] q] out] s1 (Ht & -> & -> & A1 & HS1 & F1). destruct (Z.ltb_spec tot r) as [Hlt|Hge].
    2: { apply wpx_ret. assert (tot = r) as -> by lia. apply wpx_ret. cbn [fst snd]. split; [f_equal; apply s32_small; flia|]. split; [done|]. by exists q. }
    set (out := map (byte_at V x) (seqZ off tot)) in *. assert (Z.of_nat (length out) = tot) as Hout by (unfold out; rewrite length_map, length_seqZ; lia).
    destruct (file_block V x (off + tot) I F ltac:(lia) ltac:(lia)) as (Hbn & Hmod & Hne & Ha).
    destruct (bmap_have i st n sb D P bl V ip x s1 _ A1 I F Hbn Hne Hbl) as (s2 & E2 & A2 & F2).
    eapply wpx_bind_ok; [exact E2|]. rewrite (proj2 (Z.eqb_neq _ _) Hne). set (a := block_at V x ((off + tot) / BSIZE)) in *.
    eapply wpx_bind_ok; [apply inode_of_run|]. rewrite (ai_inode _ _ _ _ _ _ _ _ _ _ _ _ A2), (in_dev _ _ _ _ I).
    pose proof A2 as [T2 _ _].
    destruct (bread_txn _ _ _ _ _ _ _ _ _ a T2 Ha (not_elem_of_nil _) ltac:(right; cbn [length]; lia)) as (b & s3 & E3 & T3 & F3 & Hd).
    eapply wpx_bind_ok; [exact E3|]. set (m := Z.min (r - tot) (BSIZE - (off + tot) mod BSIZE)).
    eapply wpx_bind_ok; [reflexivity|]. assert (0 < m <= BSIZE - (off + tot) mod BSIZE /\ m <= r - tot) as [Hm Hmr] by lia.
    rewrite (mem_read_beq _ _ _ m Hd) by lia. unfold a. rewrite block_bytes by lia. set (bs := map (byte_at V x) (seqZ (off + tot) m)).
    assert (Z.of_nat (length bs) = m) as Hbs by (unfold bs; rewrite length_map, length_seqZ; lia).
    pose proof (sk_frame _ _ _ _ HS1 (fframe_user _ _ (fframe_of _ _ F2))) as HS2. pose proof (sk_frame _ _ _ _ HS2 (fframe_user _ _ (fframe_of _ _ F3))) as HS3.
    destruct (sk_copy q out bs s3 HS3) as (s4 & E4 & Hs4 & HS4).
    { apply Forall_forall. intros c (j & -> & _)%list_elem_of_fmap. apply u8_range. }
    { rewrite length_app. lia. }
    eapply wpx_bind_ok; [exact E4|]. pose proof (at_tframe i st n sb D P _ _ _ _ _ _ _ _ _ _ A2 T3 F3) as A3.
    apply (at_mem _ _ _ _ _ _ _ _ _ _ _ _ (k_mem s4)) in A3. rewrite <- Hs4 in A3. pose proof A3 as [T4 _ _].
    destruct (brelse_txn _ _ _ _ _ _ _ _ _ _ _ T4 (clean_txn _ _ _ _ _ _ _ _ _ _ T2 (not_elem_of_nil _))) as (s5 & E5 & T5 & F5).
    eapply wpx_bind_ok; [exact E5|]. apply wpx_ret. rewrite Hbs in HS4. split; [|lia].
    assert (out ++ bs = map (byte_at V x) (seqZ off (tot + m))) as Hcat by (unfold out, bs; by rewrite seqZ_app, map_app by lia).
    split; [lia|]. split; [lia|]. split; [done|]. split; [by eapply at_tframe|]. split; [exact (sk_frame _ _ _ _ HS4 (fframe_user _ _ (fframe_of _ _ F5)))|].
    apply (uframe_trans _ s1); [done|]. apply (uframe_trans _ s2); [by apply uframe_of|]. apply (uframe_trans _ s3); [by apply uframe_of|].
    apply (uframe_trans _ s4); [|by apply uframe_of]. rewrite Hs4. apply uframe_set.
  - split; [lia|]. split; [lia|]. split; [done|]. split; [done|]. split; [done|apply uframe_refl].
  - lia.
Qed.
End read.
End io.
