(* ===== verification/FileWrite.v ===== *)
(** * Writing files (kernel/fs.c, writei)

    [writei] splices the bytes of its source into the file, adding blocks as
    needed and stopping early only when the disk is full, saves the inode and
    touches nobody else's blocks, all through the log. *)

From S2P Require Import Prelude Riscv Mem CString KState Sched Virtio DiskSpec Bio BioSpec Blocks Log LogSpec Txn StorageSpec Vm PhysMem Fs FsSpec Inode InodeSpec Dinode FileIO.

(** ** The bytes of the file *)

Section splice.
Variables (st : Z) (sb : superblock) (V : contents) (x : inode) (off : Z) (src : list Z).
Hypotheses (Hoff : 0 <= off) (Hmax : off + Z.of_nat (length src) <= MAXFILE * BSIZE) (Hbytes : Forall byte src).

(** The first [tot] bytes are in the file, the others are as they were. *)
Definition spliced (tot : Z) (V1 : contents) (x1 : inode) : Prop :=
  forall k, 0 <= k < MAXFILE * BSIZE -> k < i_size x \/ off <= k < off + tot ->
    block_at V1 x1 (k / BSIZE) <> 0 /\
    byte_at V1 x1 k = if decide (off <= k < off + tot) then nth (Z.to_nat (k - off)) src 0 else byte_at V x k.

Lemma spliced_start : inode_ok st sb V x -> spliced 0 V x.
Proof using.
  intros I k Hk H. rewrite decide_False by lia. split; [|done]. apply (in_full _ _ _ _ I); [apply Z.div_pos; [lia|done]|].
  unfold BSIZE in *. zlia.
Qed.

Lemma spliced_mapped tot V1 x1 V2 x2 bn r : spliced tot V1 x1 -> mapped st sb V1 x1 V2 x2 bn r -> spliced tot V2 x2.
Proof using.
  intros S M k Hk H. destruct (S k Hk H) as [H1 H2]. pose proof (byte_block k Hk) as [Hb Hm].
  pose proof (ev_keep _ _ _ _ _ (mp_evolves _ _ _ _ _ _ _ _ M) _ Hb H1) as E. rewrite E. split; [done|]. rewrite <- H2.
  unfold byte_at, load8. rewrite E. by rewrite (mp_old _ _ _ _ _ _ _ _ M _ Hb H1).
Qed.

Lemma spliced_block tot V1 x1 m (o := off + tot) (r := block_at V1 x1 (o / BSIZE)) (bs := take (Z.to_nat m) (drop (Z.to_nat tot) src)) :
  inode_ok st sb V1 x1 -> spliced tot V1 x1 -> 0 <= tot -> 0 < m <= BSIZE - o mod BSIZE -> tot + m <= Z.of_nat (length src) -> r <> 0 ->
  spliced (tot + m) (fupd V1 r (mem_write (V1 r) (o mod BSIZE) bs)) x1.
Proof using Hoff Hmax Hbytes.
  intros I S Ht Hm Hl Hr k Hk H. pose proof (byte_block o ltac:(lia)) as [Hbo Hmo]. pose proof (byte_block k Hk) as [Hbk Hmk].
  assert (i_addrs x1 NDIRECT <> 0 -> r <> i_addrs x1 NDIRECT) as Hri by (intros _; by apply (in_ind _ _ _ _ I)).
  assert (Z.of_nat (length bs) = m) as Hbs by (unfold bs; rewrite length_take, length_drop; lia).
  rewrite (fw_block_at V1 x1 r _ Hri) by done. rewrite (fw_byte V1 x1 r _ Hri) by done.
  assert (o <= k < o + m -> k / BSIZE = o / BSIZE /\ k mod BSIZE = o mod BSIZE + (k - o)) as Hin by (unfold BSIZE in *; zlia).
  destruct (decide (o <= k < o + m)) as [Ho|Ho].
  - destruct (Hin Ho) as [E1 E2]. rewrite E1. fold r. split; [done|]. rewrite decide_True, decide_True by (done || lia).
    unfold load8, mem_write. rewrite in_range_true by lia. rewrite E2. replace (o mod BSIZE + (k - o) - o mod BSIZE) with (k - o) by lia.
    unfold bs. rewrite nth_take_drop by lia. replace (Z.to_nat tot + Z.to_nat (k - o))%nat with (Z.to_nat (k - off)) by lia.
    apply u8_small. rewrite Forall_forall in Hbytes. apply Hbytes, list_elem_of_In, nth_In. lia.
  - destruct (S k Hk ltac:(lia)) as [H1 H2]. split; [done|]. transitivity (byte_at V1 x1 k).
    + destruct (decide (block_at V1 x1 (k / BSIZE) = r)) as [E|E]; [|reflexivity]. unfold load8, byte_at, mem_write, load8. rewrite E.
      rewrite in_range_false; [done|]. intros Hr'. apply Ho. apply (in_inj _ _ _ _ I) in E; [|done..|by rewrite E]. unfold BSIZE in *. zlia.
    + rewrite H2. destruct (decide (off <= k < off + tot)); [by rewrite decide_True by lia|by rewrite decide_False by lia].
Qed.
End splice.

(** The inode with its new size. *)
Definition grown (o : Z) (x : inode) : inode := if o >? i_size x then i_set_size o x else x.

Definition splice (off : Z) (bs l : list Z) : list Z := take (Z.to_nat off) l ++ bs ++ drop (Z.to_nat off + length bs) l.

Lemma grown_size o x : i_size (grown o x) = Z.max o (i_size x).
Proof. unfold grown. destruct (Z.gtb_spec o (i_size x)); cbn; lia. Qed.

Lemma grown_block o V x bn : block_at V (grown o x) bn = block_at V x bn.
Proof. unfold grown. by destruct (o >? i_size x). Qed.

Lemma grown_ind o x : i_addrs (grown o x) = i_addrs x.
Proof. unfold grown. by destruct (o >? i_size x). Qed.

Lemma grown_owns o V x m : owns V (grown o x) m <-> owns V x m.
Proof. unfold owns. rewrite grown_ind. by setoid_rewrite grown_block. Qed.

Lemma data_lookup V x k : 0 <= k < i_size x -> data V x !! Z.to_nat k = Some (byte_at V x k).
Proof. intros Hk. unfold data. rewrite list_lookup_fmap, lookup_seqZ_lt by lia. cbn. f_equal. f_equal. lia. Qed.

Lemma data_length V x : length (data V x) = Z.to_nat (i_size x).
Proof. unfold data. by rewrite length_map, length_seqZ. Qed.

Section spliced.
Variables (st : Z) (sb : superblock) (V : contents) (x : inode) (off : Z) (src : list Z) (tot : Z) (V1 : contents) (x1 : inode).
Hypotheses (I1 : inode_ok st sb V1 x1) (Ev : evolves sb V x V1 x1) (S : spliced V x off src tot V1 x1).
Hypotheses (Hoff : 0 <= off <= i_size x) (Ht : 0 <= tot <= Z.of_nat (length src)) (Hmax : off + tot <= MAXFILE * BSIZE).

Lemma spliced_size : i_size x1 = i_size x.
Proof using Ev. rewrite (ev_inode _ _ _ _ _ Ev). done. Qed.

Lemma spliced_ok : inode_ok st sb V1 (grown (off + tot) x1).
Proof using I1 Ev S Hoff Ht Hmax.
  pose proof spliced_size as Hs. pose proof I1 as [J1 J2 J3 J4 J5 J6 J7].
  assert (i_dev (grown (off + tot) x1) = i_dev x1 /\ i_inum (grown (off + tot) x1) = i_inum x1) as [Hd Hi] by (unfold grown; by destruct (_ >? _)).
  split; rewrite ?Hd, ?Hi; try done.
  - rewrite grown_size. lia.
  - intros bn H1 H2. rewrite grown_size in H2. rewrite grown_block. destruct (Z.lt_ge_cases (bn * BSIZE) (i_size x)); [by apply J4; lia|].
    replace bn with (bn * BSIZE / BSIZE) by (by rewrite Z.div_mul). apply S; flia.
  - intros m Hm. apply J5. by apply (grown_owns (off + tot)).
  - intros a b. rewrite !grown_block. by apply J6.
  - intros a. rewrite grown_block, grown_ind. by apply J7.
Qed.

Lemma spliced_data : data V1 (grown (off + tot) x1) = splice off (take (Z.to_nat tot) src) (data V x).
Proof using I1 Ev S Hoff Ht Hmax.
  pose proof spliced_size as Hs. pose proof (in_size _ _ _ _ I1) as Hz. apply list_eq. intros j. unfold splice.
  assert (length (take (Z.to_nat tot) src) = Z.to_nat tot) as Hl by (rewrite length_take; lia).
  destruct (Z.lt_ge_cases (Z.of_nat j) (Z.max (off + tot) (i_size x1))) as [Hj|Hj].
  - rewrite <- (Nat2Z.id j) at 1. rewrite data_lookup by (rewrite grown_size; lia). unfold byte_at at 1. rewrite grown_block. fold (byte_at V1 x1 (Z.of_nat j)).
    destruct (S (Z.of_nat j) ltac:(lia) ltac:(lia)) as [_ ->]. case_decide as D1.
    + rewrite lookup_app_r by (rewrite length_take, data_length; lia). rewrite length_take, data_length.
      rewrite lookup_app_l by lia. rewrite lookup_take_lt by lia. symmetry.
      rewrite (list_lookup_lookup_total_lt src) by lia. f_equal. rewrite list_lookup_total_alt, nth_lookup.
      replace (j - Z.to_nat off `min` Z.to_nat (i_size x))%nat with (Z.to_nat (Z.of_nat j - off)) by lia.
      destruct (src !! Z.to_nat (Z.of_nat j - off)) eqn:El; [done|]. apply lookup_ge_None in El. lia.
    + destruct (Z.lt_ge_cases (Z.of_nat j) off).
      * rewrite lookup_app_l by (rewrite length_take, data_length; lia). rewrite lookup_take_lt by lia.
        rewrite <- (Nat2Z.id j) at 2. by rewrite data_lookup by lia.
      * rewrite lookup_app_r by (rewrite length_take, data_length; lia). rewrite length_take, data_length.
        rewrite lookup_app_r by lia. rewrite Hl, lookup_drop.
        replace (Z.to_nat off + Z.to_nat tot + (j - Z.to_nat off `min` Z.to_nat (i_size x) - Z.to_nat tot))%nat with (Z.to_nat (Z.of_nat j)) by lia.
        by rewrite data_lookup by lia.
  - rewrite !lookup_ge_None_2; [done| |].
    + rewrite !length_app, length_take, length_drop, Hl, data_length. lia.
    + rewrite data_length, grown_size. lia.
Qed.
End spliced.

(** ** The loop *)

Lemma bitmap_one sb m : sb_size sb <= BPB -> (exists c, 0 <= c < sb_size sb /\ BBLOCK c sb = m) -> m = BBLOCK 0 sb.
Proof. intros H (c & Hc & <-). unfold BBLOCK. by rewrite !Z.div_small by lia. Qed.

(** The fields stay within their widths. *)
Lemma grown_range st sb V x V1 x1 o : inode_ok st sb V1 (grown o x1) -> fs_bitmap st sb V1 -> evolves sb V x V1 x1 -> inode_range x -> inode_range (grown o x1).
Proof.
  intros I1 F1 Ev R. pose proof (in_size _ _ _ _ I1) as Hs. pose proof (fb_size _ _ _ F1) as Hsz.
  assert (i_type (grown o x1) = i_type x /\ i_major (grown o x1) = i_major x /\ i_minor (grown o x1) = i_minor x /\ i_nlink (grown o x1) = i_nlink x) as (E1 & E2 & E3 & E4).
  { unfold grown. rewrite (ev_inode _ _ _ _ _ Ev). by destruct (o >? _). }
  destruct R. split; rewrite ?E1, ?E2, ?E3, ?E4; try done; [flia|].
  intros j Hj. destruct (Z.eq_dec (i_addrs (grown o x1) j) 0) as [->|Hne]; [done|]. assert (owns V1 (grown o x1) (i_addrs (grown o x1) j)) as Ho.
  { destruct (Z.eq_dec j NDIRECT) as [->|]; [by apply owns_ind|]. rewrite <- (block_at_direct V1) in * by lia. apply owns_block; [flia|done]. }
  pose proof (in_data _ _ _ _ I1 _ Ho) as (H & _). lia.
Qed.

Section write.
Context {LAY : Layout} {ENV : Env} {DSK : Disk}.
Variables (i st n : Z) (sb : superblock) (D : contents) (P : list contents).
Hypothesis Hn : 1 <= n.
Hypothesis Hone : sb_size sb <= BPB.
Context (Sr : place -> list Z -> kstate -> Prop) `{!Source Sr}.
Variables (bl : list Z) (V : contents) (ip : Z) (x : inode) (off : Z) (src : list Z) (s : kstate).
Let len := Z.of_nat (length src).
Let span := (off + len - 1) / BSIZE - off / BSIZE + 1.
Hypotheses (Hoff : 0 <= off <= i_size x) (Hmax : off + len <= MAXFILE * BSIZE) (Hbytes : Forall byte src).
Hypotheses (I0 : inode_ok st sb V x) (F0 : fs_bitmap st sb V).
Hypothesis Hroom : Z.of_nat (length bl) + span + 8 <= LOGBLOCKS.

(** [tot] bytes are written. *)
Record writing (tot : Z) (bl1 : list Z) (V1 : contents) (x1 : inode) (s1 : kstate) : Prop := {
  wi_at : at_inode i st n sb D P bl1 [] V1 ip x1 s1;
  wi_ok : inode_ok st sb V1 x1;
  wi_bitmap : fs_bitmap st sb V1;
  wi_evolves : evolves sb V x V1 x1;
  wi_bytes : spliced V x off src tot V1 x1;
  wi_log : forall m, m ∈ bl1 -> m ∈ bl \/ m = BBLOCK 0 sb \/ (m <> 0 /\ m = i_addrs x1 NDIRECT) \/
    exists k, off <= k < off + tot /\ m = block_at V1 x1 (k / BSIZE);
  wi_frame : iframe ip s s1
}.

Lemma writing_room tot bl1 V1 x1 s1 : 0 <= tot <= len -> writing tot bl1 V1 x1 s1 -> Z.of_nat (length bl1) <= Z.of_nat (length bl) + 2 + Z.max 0 span.
Proof.
  intros Ht W. pose proof (ge_nodup _ _ (tx_geo _ _ _ _ _ _ _ _ _ (ai_txn _ _ _ _ _ _ _ _ _ _ _ _ (wi_at _ _ _ _ _ W)))) as Hnd.
  assert (bl1 ⊆+ bl ++ [BBLOCK 0 sb; i_addrs x1 NDIRECT] ++ map (block_at V1 x1) (seqZ (off / BSIZE) span)) as Hsub.
  { apply NoDup_submseteq; [done|]. intros m Hm. rewrite !elem_of_app, !elem_of_cons.
    destruct (wi_log _ _ _ _ _ W m Hm) as [?|[?|[[_ ?]|(k & Hk & ->)]]]; [by auto|by auto|by auto|]. right; right.
    apply list_elem_of_fmap. exists (k / BSIZE). split; [done|]. apply elem_of_seqZ. unfold span, BSIZE in *. zlia. }
  apply submseteq_length in Hsub. rewrite !length_app, length_map, length_seqZ in Hsub. cbn [length] in Hsub. lia.
Qed.

Lemma span_nonneg : 0 <= span.
Proof. unfold span, len, BSIZE. zlia. Qed.

Definition chunk_of (tot : Z) : Z := Z.min (len - tot) (BSIZE - (off + tot) mod BSIZE).

(** A round: the disk is full, or a piece of one block is written. *)
Lemma writing_step tot bl1 V1 x1 s1 q (o := off + tot) (m := chunk_of tot) : 0 <= tot < len -> writing tot bl1 V1 x1 s1 -> Sr q (drop (Z.to_nat tot) src) s1 ->
  exists r s2, bmap ip (o / BSIZE) s1 = Ok r s2 /\
    ((r = 0 /\ exists bl2 V2 x2, writing tot bl2 V2 x2 s2 /\ forall c, 0 <= c < sb_size sb -> used V2 sb c = true) \/
     (r <> 0 /\ exists b s3 s4 bl2 V2 x2, i_dev (k_itable s2 ip) = ROOTDEV /\ bread ROOTDEV r s2 = Ok b s3 /\
        either_copyin q m s3 = Ok (0, take (Z.to_nat m) (drop (Z.to_nat tot) src)) s3 /\
        (bwrite_bytes b (o mod BSIZE) (take (Z.to_nat m) (drop (Z.to_nat tot) src)) ;; log_write b ;; brelse b) s3 = Ok tt s4 /\
        writing (tot + m) bl2 V2 x2 s4 /\ Sr (place_add q m) (drop (Z.to_nat (tot + m)) src) s4)).
Proof.
  intros Ht W HS. pose proof (writing_room tot bl1 V1 x1 s1 ltac:(lia) W) as Hr. pose proof span_nonneg as Hsp. destruct W as [A I F E S L Fr].
  unfold LOGBLOCKS, MAXOPBLOCKS in Hroom. pose proof (byte_block o ltac:(unfold o; lia)) as [Hbo Hmo].
  destruct (bmap_rule i st n sb D P Hn bl1 V1 ip x1 s1 (o / BSIZE) A I F Hbo ltac:(unfold LOGBLOCKS, MAXOPBLOCKS; lia)) as (r & s2 & bl2 & V2 & x2 & E2 & F2 & A2 & M & L2 & Hl2).
  pose proof M as [I2 B2 Ev2 At2 _ _ Full2]. exists r, s2. split; [done|].
  pose proof (spliced_mapped st sb V x off src tot V1 x1 V2 x2 _ r S M) as S2.
  assert (evolves sb V x V2 x2) as E' by (by apply (evolves_trans st sb V x V1 x1)).
  assert (iframe ip s s2) as Fr2 by (by apply (iframe_trans _ _ s1)).
  assert (forall m, m ∈ bl2 -> (m ∈ bl \/ m = BBLOCK 0 sb \/ (m <> 0 /\ m = i_addrs x2 NDIRECT) \/
    exists k, off <= k < off + tot /\ m = block_at V2 x2 (k / BSIZE)) \/ (m <> 0 /\ m = r)) as L2'.
  { intros k Hk. destruct (L2 k Hk) as [H|[H|[H0 [->| ->]]]]; [|left; right; left; by apply bitmap_one|by right|left; auto].
    left. destruct (L k H) as [?|[?|[[H0 ->]|(j & Hj & ->)]]]; [by auto|by auto| |].
    - rewrite <- (ev_ind _ _ _ _ _ Ev2 H0). rewrite <- (ev_ind _ _ _ _ _ Ev2 H0) in H0. auto.
    - right; right; right. exists j. split; [done|]. symmetry. apply (ev_keep _ _ _ _ _ Ev2); [apply byte_block; lia|]. apply (S j); lia. }
  destruct (Z.eq_dec r 0) as [->|Hr0]; [left|right]; (split; [done|]).
  { exists bl2, V2, x2. split; [|by apply Full2]. split; try done. intros k Hk. by destruct (L2' k Hk) as [?|[? ->]]. }
  pose proof A2 as [T2 _ Hx2]. assert (owns V2 x2 r) as Hor by (rewrite <- At2; apply owns_block; [done|by rewrite At2]).
  destruct (data_block st sb V2 x2 r I2 B2 Hor) as (Hra & _ & Hlog & Hpl). unfold NBUF, MAXOPBLOCKS in *.
  destruct (bread_txn _ _ _ _ _ _ _ _ _ r T2 Hra (not_elem_of_nil _) ltac:(right; cbn [length]; unfold NBUF, MAXOPBLOCKS; lia)) as (b & s3 & E3 & T3 & F3 & Hd).
  assert (0 < m <= BSIZE - o mod BSIZE /\ tot + m <= len) as [Hm Hml] by (unfold m, chunk_of; fold o; lia).
  pose proof (sr_frame _ _ _ _ HS (fframe_user _ _ (if_frame _ _ _ F2))) as HS2. pose proof (sr_frame _ _ _ _ HS2 (fframe_user _ _ (fframe_of _ _ F3))) as HS3.
  destruct (sr_copy q _ m s3 HS3) as [Ec HS3']; [rewrite length_drop; lia|]. set (bs := take (Z.to_nat m) (drop (Z.to_nat tot) src)) in *.
  destruct (put_txn _ _ _ _ _ _ _ _ _ b r (fun d => mem_write d (o mod BSIZE) bs) _ T3 (mem_write_beq _ _ _ _ Hd) Hn ltac:(unfold LOGBLOCKS, MAXOPBLOCKS; lia) Hlog)
    as (s4 & E4 & T4 & F4).
  assert (tframe s2 s4) as F24 by by apply (tframe_trans _ s3).
  exists b, s3, s4, (absorb r bl2), (fupd V2 r (mem_write (V2 r) (o mod BSIZE) bs)), x2. rewrite Hx2, (in_dev _ _ _ _ I2).
  split; [done|]. split; [done|]. split; [done|]. split; [done|]. split.
  - assert (i_addrs x2 NDIRECT <> 0 -> r <> i_addrs x2 NDIRECT) as Hri.
    { intros _. rewrite <- At2. apply (in_ind _ _ _ _ I2); [done|by rewrite At2]. }
    pose proof (fw_ok st sb V2 x2 r (mem_write (V2 r) (o mod BSIZE) bs) I2 Hpl Hri) as I4. split.
    + by eapply at_tframe.
    + done.
    + by apply fw_bitmap.
    + apply (evolves_trans st sb V x V2 x2); [done..|]. by apply fw_evolves.
    + rewrite <- At2 at 1 2. apply (spliced_block st sb V x off src); [lia|done|done|done|done|lia|done|done|by fold o; rewrite At2].
    + intros k Hk. assert (block_at V2 x2 (o / BSIZE) = k \/ (k ∈ bl \/ k = BBLOCK 0 sb \/ (k <> 0 /\ k = i_addrs x2 NDIRECT) \/
        exists j, off <= j < off + tot /\ k = block_at V2 x2 (j / BSIZE))) as [<-|H].
      { apply absorb_elem in Hk as [->|Hk]; [by left|]. destruct (L2' k Hk) as [?|[? ->]]; auto. }
      * right; right; right. exists o. split; [unfold o; lia|]. by rewrite fw_block_at.
      * destruct H as [?|[?|[?|(j & Hj & ->)]]]; [auto..|]. right; right; right. exists j. split; [lia|]. rewrite fw_block_at; [done|done|]. apply byte_block. lia.
    + apply (iframe_trans _ _ s2); auto with xv6.
  - replace (Z.to_nat (tot + m)) with (Z.to_nat tot + Z.to_nat m)%nat by lia. rewrite <- drop_drop. exact (sr_frame _ _ _ _ HS3' (fframe_user _ _ (fframe_of _ _ F4))).
Qed.

Definition full (V1 : contents) : Prop := forall c, 0 <= c < sb_size sb -> used V1 sb c = true.

(** A write stops only between blocks. *)
Definition whole (tot : Z) : Prop := tot = 0 \/ tot = len \/ (off + tot) mod BSIZE = 0.

Lemma whole_chunk tot : 0 <= tot < len -> 0 < chunk_of tot <= len - tot /\ whole (tot + chunk_of tot).
Proof.
  intros Ht. unfold whole, chunk_of. pose proof (Z.mod_pos_bound (off + tot) BSIZE ltac:(done)) as Hm. split; [lia|].
  destruct (Z.min_spec (len - tot) (BSIZE - (off + tot) mod BSIZE)) as [[_ ->]|[_ ->]]; [right; left; lia|]. right; right. unfold BSIZE in *. zlia.
Qed.

Lemma writei_loop q : at_inode i st n sb D P bl [] V ip x s -> Sr q src s ->
  wpx true (iter (S (Z.to_nat len)) (fun '(tot, off, src) =>
    if tot <? len then
      addr <- bmap ip (off / BSIZE) ;;
      if addr =? 0 then ret (inr (tot, off)) else
      x <- inode_of ip ;;
      bp <- bread (i_dev x) addr ;;
      let m := Z.min (len - tot) (BSIZE - off mod BSIZE) in
      c <- either_copyin src m ;;
      bwrite_bytes bp (off mod BSIZE) (snd c) ;;
      if fst c =? -1 then brelse bp ;; ret (inr (tot, off)) else
      log_write bp ;;
      brelse bp ;;
      ret (inl (tot + m, off + m, place_add src m))
    else ret (inr (tot, off))) (0, off, q))
  (fun '(tot, o) s1 => o = off + tot /\ 0 <= tot <= len /\ exists bl1 V1 x1, writing tot bl1 V1 x1 s1 /\ (tot < len -> full V1) /\ whole tot) s.
Proof.
  intros A HS. apply (wpx_iter true (fun '(tot, o, q) s1 => o = off + tot /\ 0 <= tot <= len /\ exists bl1 V1 x1, writing tot bl1 V1 x1 s1 /\
    Sr q (drop (Z.to_nat tot) src) s1 /\ whole tot) (fun '(tot, _, _) => Z.to_nat (len - tot))).
  - intros [[tot o] q1] s1 (-> & Ht & bl1 & V1 & x1 & W & HS1 & Hw). destruct (Z.ltb_spec tot len) as [Hlt|Hge].
    2: { apply wpx_ret. split; [done|]. split; [done|]. exists bl1, V1, x1. split; [done|]. split; [lia|done]. }
    destruct (writing_step tot bl1 V1 x1 s1 q1 ltac:(lia) W HS1) as (r & s2 & E2 & [(-> & bl2 & V2 & x2 & W2 & Hf)|(Hr & b & s3 & s4 & bl2 & V2 & x2 & Hd & E3 & Ec & E4 & W4 & HS4)]).
    { eapply wpx_bind_ok; [exact E2|]. apply wpx_ret. split; [done|]. split; [lia|]. by exists bl2, V2, x2. }
    eapply wpx_bind_ok; [exact E2|]. rewrite (proj2 (Z.eqb_neq _ _) Hr). eapply wpx_bind_ok; [apply inode_of_run|]. rewrite Hd.
    eapply wpx_bind_ok; [exact E3|]. fold (chunk_of tot). eapply wpx_bind_ok; [exact Ec|]. cbn [fst snd].
    apply bind_inv in E4 as ([] & s5 & E5 & E4). apply bind_inv in E4 as ([] & s6 & E6 & E7).
    eapply wpx_bind_ok; [exact E5|]. change (0 =? -1) with false. cbv iota. eapply wpx_bind_ok; [exact E6|]. eapply wpx_bind_ok; [exact E7|].
    apply wpx_ret. destruct (whole_chunk tot ltac:(lia)) as [Hc Hw'].
    split; [|lia]. split; [lia|]. split; [lia|]. by exists bl2, V2, x2.
  - split; [lia|]. split; [unfold len; lia|]. exists bl, V, x. split; [|split; [by rewrite drop_0|by left]]. split; [done..|apply evolves_refl|by apply (spliced_start st sb)|by auto|apply iframe_refl].
  - lia.
Qed.

(** What [writei] ends in, with [r] bytes written. *)
Record wrote (r : Z) (bl' : list Z) (V' : contents) (x' : inode) : Prop := {
  wo_count : 0 <= r <= len;
  wo_full : r < len -> full V';
  wo_whole : whole r;
  wo_data : data V' x' = splice off (take (Z.to_nat r) src) (data V x);
  wo_ok : inode_ok st sb V' x';
  wo_bitmap : fs_bitmap st sb V';
  wo_range : inode_range x';
  wo_saved : saved V' sb x';
  wo_inode : x' = i_set_size (i_size x') (i_set_addrs (i_addrs x') x);
  wo_others : undisturbed st sb V x V';
  wo_owns : forall m, owns V' x' m -> owns V x m \/ used V sb m = false;
  wo_log : Z.of_nat (length bl') <= Z.of_nat (length bl) + span + 3
}.

Lemma writei_rule q : at_inode i st n sb D P bl [] V ip x s -> Sr q src s -> inode_range x ->
  exists r s' bl' V' x', writei ip q off len s = Ok r s' /\ iframe ip s s' /\ at_inode i st n sb D P bl' [] V' ip x' s' /\ wrote r bl' V' x'.
Proof.
  intros A HS R. destruct (wpx_total (writei ip q off len) (fun r s' => exists bl' V' x', iframe ip s s' /\
    at_inode i st n sb D P bl' [] V' ip x' s' /\ wrote r bl' V' x') s) as (r & s' & E & bl' & V' & x' & H); [|by exists r, s', bl', V', x'].
  pose proof (in_size _ _ _ _ I0) as Hs0. assert (0 <= len) by (unfold len; lia). unfold writei. eapply wpx_bind_ok; [apply inode_of_run|].
  rewrite (ai_inode _ _ _ _ _ _ _ _ _ _ _ _ A), (u32_small (off + len)) by flia.
  rewrite (Z.gtb_ltb off), (proj2 (Z.ltb_ge (i_size x) off)), (proj2 (Z.ltb_ge (off + len) off)) by lia. cbn [orb].
  rewrite Z.gtb_ltb, (proj2 (Z.ltb_ge (MAXFILE * BSIZE) (off + len))) by lia. apply wpx_bind. eapply wpx_mono; [by apply writei_loop|].
  intros [tot o] s1 (-> & Ht & bl1 & V1 & x1 & W & Hf & Hw). pose proof (writing_room _ _ _ _ _ Ht W) as Hr. pose proof span_nonneg as Hsp.
  destruct W as [A1 I1 F1 Ev1 S1 _ Fr1]. set (f := fun x => if off + tot >? i_size x then i_set_size (off + tot) x else x).
  eapply wpx_bind_ok; [apply (modify_run (upd_inode ip f))|]. apply (at_set_inode _ _ _ _ _ _ _ _ _ _ _ _ f) in A1.
  change (f x1) with (grown (off + tot) x1) in A1. set (x2 := grown (off + tot) x1) in *.
  pose proof (spliced_ok st sb V x off src tot V1 x1 I1 Ev1 S1 Hoff Ht ltac:(lia)) as I2. fold x2 in I2.
  pose proof (spliced_data st sb V x off src tot V1 x1 I1 Ev1 S1 Hoff Ht ltac:(lia)) as D2. fold x2 in D2.
  pose proof (grown_range st sb V x V1 x1 (off + tot) I2 F1 Ev1 R) as R2. fold x2 in R2.
  assert (x2 = i_set_size (i_size x2) (i_set_addrs (i_addrs x2) x)) as Hx2.
  { unfold x2, grown. rewrite (ev_inode _ _ _ _ _ Ev1). destruct (_ >? _); by destruct x. }
  assert (i_inum x2 = i_inum x) as Hi2 by by rewrite Hx2.
  unfold LOGBLOCKS, MAXOPBLOCKS in Hroom.
  destruct (iupdate_rule i st n D P bl1 V1 ip x2 _ sb A1 I2 F1 Hn ltac:(unfold LOGBLOCKS, MAXOPBLOCKS; lia)) as (s2 & E2 & F2 & A2).
  eapply wpx_bind_ok; [exact E2|]. apply wpx_ret. set (m := IBLOCK (i_inum x2) sb) in *. set (d := put_fields _ _) in *.
  destruct (fb_inodes _ _ _ F1 _ (in_inum _ _ _ _ I2)) as (Hm & _ & Hpl). fold m in Hm, Hpl.
  assert (~ owns V1 x2 m) as Hno by (intros H1; apply (in_data _ _ _ _ I2 m H1); right; right; right; right; exists (i_inum x2); split; [apply I2|done]).
  assert (i_addrs x2 NDIRECT <> 0 -> m <> i_addrs x2 NDIRECT) as Hmi by (intros H1 ->; by apply Hno, owns_ind).
  rewrite s32_small by flia. exists (absorb m bl1), (fupd V1 m d), x2. split; [|split; [done|]].
  - apply (iframe_trans _ _ s1); [done|]. apply (iframe_trans _ _ (upd_inode ip f s1)); auto with xv6.
  - split; [done| |done| | | | | | | | |].
    + intros Hlt c Hc. rewrite fw_used by done. by apply Hf.
    + rewrite (fw_data st sb); [exact D2|done|done|done|done].
    + by apply fw_ok.
    + by apply fw_bitmap.
    + done.
    + by apply dinode_saved.
    + done.
    + unfold d, m. rewrite Hi2. by apply (evolves_undisturbed st sb V x V1 x1).
    + intros k Hk. apply (ev_owns _ _ _ _ _ Ev1), (grown_owns (off + tot)), (fw_owns V1 x2 m d Hmi), Hk.
    + pose proof (absorb_length m bl1). lia.
Qed.
End write.
