(* ===== verification/InodeLock.v ===== *)
(** * Locking inodes (kernel/fs.c, ilock and iunlock)

    [ilock] takes the sleep lock of an inode and, the first time, loads it
    from disk: what [iupdate] saved comes back. *)

From S2P Require Import Prelude Riscv Mem CString KState Sched Virtio DiskSpec Bio BioSpec Blocks Log LogSpec Txn StorageSpec Vm PhysMem Fs FsSpec Inode InodeSpec Dinode FileIO.

(** ** Sleep locks of inodes and the cache *)

Lemma quiet_itable s s' : quiet s s' -> k_itable s' = k_itable s.
Proof. intros [[A _] _ _ _ _]. exact (f_equal k_itable A). Qed.

Lemma quiet_sb s s' : quiet s s' -> k_sb s' = k_sb s.
Proof. intros [[A _] _ _ _ _]. exact (f_equal k_sb A). Qed.

Lemma quiet_ftable s s' : quiet s s' -> k_ftable s' = k_ftable s.
Proof. intros [[A _] _ _ _ _]. exact (f_equal k_ftable A). Qed.

Lemma quiet_user s s' : quiet s s' -> user_same s s'.
Proof. intros [A _ _ _ _]. by apply io_user. Qed.

Lemma blocks_quiet i pb own V D P s s' : blocks i pb own V D P s -> quiet s s' -> running i s' ->
  (forall b, k_sleeplocks s' (SL_buf b) = k_sleeplocks s (SL_buf b)) -> blocks i pb own V D P s'.
Proof.
  intros [(pin & l & BC & Hpin) [R Hh Hv] Ho Hpb HV HD HP] [Q1 Q2 Q3 Q4 Q5] R' Hl.
  assert (p_pid (k_procs s' i) = p_pid (k_procs s i)) as Hpid by apply proc_keep_pid, Q1. split; rewrite ?Q2, ?Q3, ?Q4; try done.
  - exists pin, l. split; [|done]. destruct BC. split; rewrite ?Q2, ?Q3; try done.
    + intros b Hb. rewrite Hl, Hpid. auto.
    + intros b Hb Hn. rewrite Hl. auto.
  - split; [done| |by rewrite Q5]. by rewrite (io_frame_held _ _ Q1).
  - intros m. rewrite <- HV. unfold view. by rewrite Q2, Q3.
Qed.

Lemma txn_quiet i st n bl own V D P s s' : txn i st n bl own V D P s -> quiet s s' -> running i s' ->
  (forall b, k_sleeplocks s' (SL_buf b) = k_sleeplocks s (SL_buf b)) -> txn i st n bl own V D P s'.
Proof.
  intros [B L G Ho Hc Hd] Q R Hl. assert (k_log s' = k_log s) as E by (destruct Q as [[A _] _ _ _ _]; exact (f_equal k_log A)).
  split; rewrite ?E; try done. by eapply blocks_quiet.
Qed.

(** [x'] is [x] with the fields of the disk inode [y]. *)
Record loaded (x x' y : inode) : Prop := {
  ld_dev : i_dev x' = i_dev x;
  ld_inum : i_inum x' = i_inum x;
  ld_ref : i_ref x' = i_ref x;
  ld_valid : i_valid x' = true;
  ld_type : i_type x' = i_type y;
  ld_major : i_major x' = i_major y;
  ld_minor : i_minor x' = i_minor y;
  ld_nlink : i_nlink x' = i_nlink y;
  ld_size : i_size x' = i_size y;
  ld_addrs : forall j, 0 <= j <= NDIRECT -> i_addrs x' j = i_addrs y j
}.

Section lock.
Context {LAY : Layout} {ENV : Env} {DSK : Disk}.
Variables (i st n : Z) (D : contents) (P : list contents).

Definition locked_by (ip : Z) (s : kstate) : Prop := k_sleeplocks s (SL_inode ip) = mkSleep true (p_pid (k_procs s i)).

Lemma take_ilock bl own V ip s : txn i st n bl own V D P s -> sl_locked (k_sleeplocks s (SL_inode ip)) = false ->
  exists s', acquiresleep (SL_inode ip) s = Ok tt s' /\ txn i st n bl own V D P s' /\ quiet s s' /\ locked_by ip s'.
Proof.
  intros T Hl. pose proof (bl_calm _ _ _ _ _ _ _ (tx_blocks _ _ _ _ _ _ _ _ _ T)) as [R Hh _].
  destruct (acquiresleep_run i (SL_inode ip) s R Hh Hl) as (s' & E & Q & R' & _ & HS). exists s'. split; [done|]. split.
  - eapply txn_quiet; [done..|]. intros b. by rewrite HS.
  - split; [done|]. unfold locked_by. rewrite HS, decide_True by done. f_equal. symmetry. apply proc_keep_pid, Q.
Qed.

(** [ilock] of an inode already in memory. *)
Lemma ilock_valid bl own V ip s : txn i st n bl own V D P s -> 1 <= i_ref (k_itable s ip) -> i_valid (k_itable s ip) = true ->
  sl_locked (k_sleeplocks s (SL_inode ip)) = false ->
  exists s', ilock ip s = Ok tt s' /\ txn i st n bl own V D P s' /\ quiet s s' /\ locked_by ip s'.
Proof.
  intros T Hr Hv Hl. destruct (take_ilock bl own V ip s T Hl) as (s' & E & T' & Q & HL). exists s'. split; [|done].
  unfold ilock. rewrite (bind_ok _ _ _ _ _ (inode_of_run ip s)), (proj2 (Z.ltb_ge _ _) Hr), (bind_ok _ _ _ _ _ E).
  rewrite (bind_ok _ _ _ _ _ (inode_of_run ip s')), (quiet_itable _ _ Q), Hv. done.
Qed.

Lemma iunlock_rule bl own V ip s : txn i st n bl own V D P s -> 1 <= i_ref (k_itable s ip) -> locked_by ip s ->
  exists s', iunlock ip s = Ok tt s' /\ txn i st n bl own V D P s' /\ quiet s s' /\ sl_locked (k_sleeplocks s' (SL_inode ip)) = false.
Proof.
  intros T Hr HL. pose proof (bl_calm _ _ _ _ _ _ _ (tx_blocks _ _ _ _ _ _ _ _ _ T)) as [R Hh _]. unfold locked_by in HL.
  unfold iunlock. rewrite (bind_ok _ _ _ _ _ (holdingsleep_run i (SL_inode ip) s R Hh ltac:(by rewrite HL) ltac:(by rewrite HL))).
  rewrite (bind_ok _ _ _ _ _ (inode_of_run ip s)), (proj2 (Z.ltb_ge _ _) Hr). cbn [negb orb].
  destruct (releasesleep_run i (SL_inode ip) s R Hh) as (s' & E & Q & R' & _ & HS). exists s'. split; [done|]. split.
  - eapply txn_quiet; [done..|]. intros b. by rewrite HS.
  - split; [done|]. by rewrite HS, decide_True.
Qed.

(** [ilock] of an inode not yet read: it comes from disk. *)
Lemma ilock_load bl V ip s y sb (x := k_itable s ip) : txn i st n bl [] V D P s -> k_sb s = sb -> fs_bitmap st sb V -> Z.of_nat (length bl) < NBUF ->
  1 <= i_ref x -> i_valid x = false -> i_dev x = ROOTDEV -> 0 <= i_inum x < sb_ninodes sb ->
  sl_locked (k_sleeplocks s (SL_inode ip)) = false -> i_inum y = i_inum x -> saved V sb y -> i_type y <> 0 ->
  exists s', ilock ip s = Ok tt s' /\ txn i st n bl [] V D P s' /\ locked_by ip s' /\ user_same s s' /\ k_sb s' = sb /\ k_ftable s' = k_ftable s /\
    (forall j, j <> ip -> k_itable s' j = k_itable s j) /\ loaded x (k_itable s' ip) y.
Proof.
  intros T Hs F Hbl Hr Hv Hd Hi Hl Hy Sv Hty. destruct (take_ilock bl [] V ip s T Hl) as (s1 & E1 & T1 & Q1 & L1).
  destruct (fb_inodes _ _ _ F _ Hi) as (Hm & _). pose proof (fb_size _ _ _ F) as Hsz. set (m := IBLOCK (i_inum x) sb) in *.
  destruct (bread_txn _ _ _ _ _ _ _ _ _ m T1 ltac:(lia) (not_elem_of_nil _) ltac:(right; cbn [length]; lia)) as (b & s2 & E2 & T2 & F2 & Hb).
  pose proof (tframe_itable _ _ F2) as It2. rewrite (quiet_itable _ _ Q1) in It2.
  set (d := b_data (k_bufs s2 b)) in *. set (x3 := load_dinode d (dip_of x) x). set (s3 := upd_inode ip (load_dinode d (dip_of x)) s2).
  assert (k_itable s3 ip = x3) as Hx3 by (unfold s3, upd_inode; cbn [k_itable k_set_itable]; by rewrite fupd_eq, It2).
  destruct (brelse_txn i st n bl [] V D P s3 b m (txn_itable _ _ _ _ _ _ _ _ _ _ T2) (clean_txn _ _ _ _ _ _ _ _ _ _ T1 (not_elem_of_nil _))) as (s4 & E4 & T4 & F4).
  set (s5 := upd_inode ip (i_set_valid true) s4). pose proof (tframe_itable _ _ F4) as It4.
  assert (k_itable s5 ip = i_set_valid true x3) as Hx5 by (unfold s5, upd_inode; cbn [k_itable k_set_itable]; by rewrite fupd_eq, It4, Hx3).
  pose proof (dip_range y ltac:(lia)) as Hdy. assert (dip_of y = dip_of x) as Edip by (unfold dip_of; by rewrite Hy).
  assert (forall w o, dip_of x <= o -> o + Z.of_nat w <= dip_of x + DINODE -> loadn w d o = loadn w (V (IBLOCK (i_inum y) sb)) o) as HL.
  { intros w o H1 H2. rewrite Hy. apply loadn_ext. intros k Hk. apply Hb. lia. }
  assert (loaded x (k_itable s5 ip) y) as HLd.
  { rewrite Hx5. destruct Sv as [S1 S2 S3 S4 S5 S6]. rewrite Edip in *. unfold DINODE in HL. split; [done..| | | | | |].
    - change (s16 (loadn 2 d (dip_of x)) = i_type y). by rewrite HL by lia.
    - change (s16 (loadn 2 d (dip_of x + 2)) = i_major y). by rewrite HL by lia.
    - change (s16 (loadn 2 d (dip_of x + 4)) = i_minor y). by rewrite HL by lia.
    - change (s16 (loadn 2 d (dip_of x + 6)) = i_nlink y). by rewrite HL by lia.
    - change (loadn 4 d (dip_of x + 8) = i_size y). by rewrite HL by lia.
    - intros j Hj. change ((if in_range 0 (NDIRECT + 1) j then loadn 4 d (dip_of x + 12 + 4 * j) else i_addrs x j) = i_addrs y j).
      rewrite in_range_true by flia. rewrite HL by flia. exact (S6 j Hj). }
  exists s5. split.
  - unfold ilock. rewrite (bind_ok _ _ _ _ _ (inode_of_run ip s)). fold x. rewrite (proj2 (Z.ltb_ge _ _) Hr), (bind_ok _ _ _ _ _ E1).
    rewrite (bind_ok _ _ _ _ _ (inode_of_run ip s1)), (quiet_itable _ _ Q1). fold x. rewrite Hv. erewrite bind_ok by reflexivity.
    rewrite (quiet_sb _ _ Q1), Hs, Hd. fold m. rewrite (bind_ok _ _ _ _ _ E2). change (i_inum x mod IPB * DINODE) with (dip_of x).
    rewrite (bind_ok _ _ _ tt s3) by reflexivity. rewrite (bind_ok _ _ _ _ _ E4), (bind_ok _ _ _ tt s5) by reflexivity.
    rewrite (bind_ok _ _ _ _ _ (inode_of_run ip s5)), (ld_type _ _ _ HLd). by rewrite (proj2 (Z.eqb_neq _ _) Hty).
  - assert (iframe ip s1 s5) as Fr.
    { apply (iframe_trans _ _ s2); [by apply iframe_of|]. apply (iframe_trans _ _ s3); [apply iframe_upd|].
      apply (iframe_trans _ _ s4); [by apply iframe_of|apply iframe_upd]. }
    split; [by apply txn_itable|]. split; [|split; [|split; [|split; [|split]]]].
    + unfold locked_by in *. rewrite (fframe_ilock _ _ ip (if_frame _ _ _ Fr)), L1. f_equal. symmetry. apply proc_keep_pid, (um_procs _ _ (fframe_user _ _ (if_frame _ _ _ Fr))).
    + eapply user_same_trans; [by apply quiet_user|]. apply fframe_user, Fr.
    + rewrite (fframe_sb _ _ (if_frame _ _ _ Fr)), (quiet_sb _ _ Q1). done.
    + rewrite (fframe_ftable _ _ (if_frame _ _ _ Fr)). by apply quiet_ftable.
    + intros j Hj. rewrite (if_others _ _ _ Fr j Hj). by rewrite (quiet_itable _ _ Q1).
    + done.
Qed.
End lock.

(** * Mounting (kernel/fs.c, readsb, fsinit and ireclaim)

    [fsinit] on a disk with a valid super block reads it, recovers the log and,
    when no inode is orphaned, leaves a state in which operations can start. *)

(** The super block in the bytes of a block. *)
Definition sb_of (d : mem) : superblock :=
  mkSuper (load32 d 0) (load32 d 4) (load32 d 8) (load32 d 12) (load32 d 16) (load32 d 20) (load32 d 24) (load32 d 28).

Lemma sb_of_beq d d' : beq d d' -> sb_of d = sb_of d'.
Proof. intros H. unfold sb_of. by rewrite !(load32_beq d d' _ H) by (unfold BSIZE; lia). Qed.

(** Inode [k] has a type and no link. *)
Definition orphan (sb : superblock) (V : contents) (k : Z) : Prop :=
  let d := V (IBLOCK k sb) in let o := k mod IPB * DINODE in loadn 2 d o <> 0 /\ loadn 2 d (o + 6) = 0.

Lemma blocks_sb i pb own V D P s sb : blocks i pb own V D P s -> blocks i pb own V D P (k_set_sb sb s).
Proof.
  intros [(pin & l & [] & Hpin) [[] ? ?] ? ? ? ? ?]. split; try done.
  exists pin, l. split; [by split|done].
Qed.

(** What stays the same: memory, processes, inodes, open files. *)
Record mount_frame (s s' : kstate) : Prop := {
  mf_user : user_same s s';
  mf_itable : k_itable s' = k_itable s;
  mf_ftable : k_ftable s' = k_ftable s;
  mf_ilocks : forall j, k_sleeplocks s' (SL_inode j) = k_sleeplocks s (SL_inode j)
}.

Lemma mount_refl s : mount_frame s s.
Proof. split; [apply user_same_refl|done..]. Qed.

Lemma mount_trans s1 s2 s3 : mount_frame s1 s2 -> mount_frame s2 s3 -> mount_frame s1 s3.
Proof.
  intros [A1 A2 A3 A4] [B1 B2 B3 B4]. split; [by eapply user_same_trans|congruence|congruence|]. intros j. by rewrite B4.
Qed.

Lemma mount_tframe s s' : tframe s s' -> mount_frame s s'.
Proof.
  intros F. split; [by apply fframe_user, fframe_of|by apply tframe_itable|by apply fframe_ftable, fframe_of|].
  intros j. by apply fframe_ilock, fframe_of.
Qed.

Lemma mount_sb s sb : mount_frame s (k_set_sb sb s).
Proof. split; [split; try done; intros j; apply proc_keep_refl|done..]. Qed.

Section mount.
Context {LAY : Layout} {ENV : Env} {DSK : Disk}.

Lemma readsb_rule i V D P s : blocks i [] [] V D P s ->
  exists s', readsb ROOTDEV s = Ok tt s' /\ blocks i [] [] V D P s' /\ k_sb s' = sb_of (D 1) /\ k_log s' = k_log s /\ mount_frame s s'.
Proof.
  intros B. pose proof (blocks_clean _ _ _ _ _ _ _ 1 B (not_elem_of_nil _) (not_elem_of_nil _)) as Hcl.
  destruct (bread_rule i [] [] V D P s 1 B ltac:(lia) (not_elem_of_nil _) ltac:(by right)) as (b & s1 & E1 & B1 & F1 & _).
  pose proof (blocks_data _ _ _ _ _ _ _ b 1 B1 ltac:(ielem)) as Hd. set (d := b_data (k_bufs s1 b)) in *.
  apply (blocks_sb _ _ _ _ _ _ _ (sb_of d)) in B1. destruct (brelse_rule _ _ _ _ _ _ _ _ _ B1 ltac:(by right)) as (s2 & E2 & B2 & F2).
  exists s2. split; [|split; [done|split; [|split]]].
  - unfold readsb. change (u32 ROOTDEV) with ROOTDEV. rewrite (bind_ok _ _ _ _ _ E1). unfold bget32. do 8 erewrite bind_ok by reflexivity.
    rewrite (bind_ok _ _ _ tt (k_set_sb (sb_of d) s1)) by reflexivity. exact E2.
  - rewrite (tframe_sb _ _ (tframe_of _ _ F2)). change (sb_of d = sb_of (D 1)). apply sb_of_beq. by rewrite Hd.
  - rewrite (bframe_log _ _ F2). exact (bframe_log _ _ F1).
  - apply (mount_trans _ s1); [by apply mount_tframe, tframe_of|]. apply (mount_trans _ (k_set_sb (sb_of d) s1)); [apply mount_sb|by apply mount_tframe, tframe_of].
Qed.

Lemma initlog_mount i st bl V D P s sb : blocks i [] [] V D P s -> sb_logstart sb = st -> header (D st) bl -> geometry st bl ->
  lg_outstanding (k_log s) = 0 -> lg_committing (k_log s) = false ->
  exists s' V' D' news, initlog ROOTDEV sb s = Ok tt s' /\ txn i st 0 [] [] V' D' (news ++ P) s' /\ tframe s s' /\ matches st D' (recovered st D) /\
    forall d, d ∈ D' :: news -> matches st (recovered st d) (recovered st D).
Proof.
  intros B Hs Hh G Ho Hc. pose proof (bl_calm _ _ _ _ _ _ _ B) as [_ Hheld _]. pose proof (ge_start _ _ G) as [Hs1 Hs2].
  set (g := lg_set_dev ROOTDEV (lg_set_start st (k_log s))). unfold initlog. change (LOGSZ >=? BSIZE) with false. cbv iota.
  assert (initlock L_log s = Ok tt s) as E0 by (unfold initlock, modify; f_equal; destruct s; cbn in *; by subst).
  rewrite (bind_ok _ _ _ _ _ E0), Hs, s32_small by (unfold LOGBLOCKS, MAXOPBLOCKS in *; lia).
  erewrite bind_ok by reflexivity. rewrite (bind_ok _ _ _ tt (k_set_log g s)) by (by destruct s).
  destruct (recover_rule i st bl V D P (k_set_log g s) (blocks_log _ _ _ _ _ _ _ g B) eq_refl eq_refl Hh G) as (s' & V' & D' & news & E & B' & L' & [O1 O2] & F & M & Hh' & Hd).
  exists s', V', D', news. split; [done|]. split; [|split; [exact F|done]].
  split; [done|done|by eapply geometry_nil|by rewrite O1|by rewrite O2|done].
Qed.

(** An inode that is not orphaned is left alone. *)
Lemma ireclaim_one_rule i st V D P s sb k : txn i st 0 [] [] V D P s -> k_sb s = sb -> 0 <= k -> 0 <= IBLOCK k sb < 0x80000000 -> ~ orphan sb V k ->
  exists s', ireclaim_one ROOTDEV k s = Ok tt s' /\ txn i st 0 [] [] V D P s' /\ tframe s s'.
Proof.
  intros T Hs Hk Hb Hno. destruct (bread_txn _ _ _ _ _ _ _ _ _ (IBLOCK k sb) T Hb (not_elem_of_nil _) ltac:(by right)) as (b & s1 & E1 & T1 & F1 & Hd).
  destruct (brelse_txn _ _ _ _ _ _ _ _ _ _ _ T1 (clean_txn _ _ _ _ _ _ _ _ _ _ T (not_elem_of_nil _))) as (s2 & E2 & T2 & F2).
  exists s2. split; [|split; [done|by apply (tframe_trans _ s1)]]. unfold ireclaim_one. erewrite bind_ok by reflexivity. rewrite Hs. change (u32 ROOTDEV) with ROOTDEV.
  rewrite (bind_ok _ _ _ _ _ E1). unfold bget16. do 2 erewrite bind_ok by reflexivity. set (o := k mod IPB * DINODE).
  assert (0 <= o /\ o + 64 <= BSIZE) as Ho by (unfold o, DINODE, BSIZE; change IPB with 16; zlia).
  assert (forall p, 0 <= p -> p + 2 <= BSIZE -> loadn 2 (b_data (k_bufs s1 b)) p = loadn 2 (V (IBLOCK k sb)) p) as HL by (intros p H1 H2; apply loadn_ext; intros q Hq; apply Hd; lia).
  rewrite !HL by lia. unfold orphan in Hno. fold o in Hno.
  assert (negb (loadn 2 (V (IBLOCK k sb)) o =? 0) && (loadn 2 (V (IBLOCK k sb)) (o + 6) =? 0) = false) as ->.
  { destruct (Z.eqb_spec (loadn 2 (V (IBLOCK k sb)) o) 0), (Z.eqb_spec (loadn 2 (V (IBLOCK k sb)) (o + 6)) 0); try done. by destruct Hno. }
  erewrite bind_ok by reflexivity. by rewrite (bind_ok _ _ _ _ _ E2).
Qed.

Lemma ireclaim_rule i st V D P s sb : txn i st 0 [] [] V D P s -> k_sb s = sb -> (forall k, 1 <= k < sb_ninodes sb -> 0 <= IBLOCK k sb < 0x80000000 /\ ~ orphan sb V k) ->
  exists s', ireclaim ROOTDEV s = Ok tt s' /\ txn i st 0 [] [] V D P s' /\ tframe s s'.
Proof.
  intros T Hs Hk. unfold ireclaim. erewrite bind_ok by reflexivity. rewrite Hs.
  assert (forall l s1, (forall k, k ∈ l -> 1 <= k < sb_ninodes sb) -> txn i st 0 [] [] V D P s1 -> k_sb s1 = sb ->
    exists s', for_each l (ireclaim_one ROOTDEV) s1 = Ok tt s' /\ txn i st 0 [] [] V D P s' /\ tframe s1 s') as H.
  { induction l as [|k l IH]; intros s1 Hl T1 Hs1; [by exists s1; split; [|split; [|apply tframe_refl]]|].
    destruct (Hk k (Hl k ltac:(ielem))) as [Hb Hno]. destruct (Hl k ltac:(ielem)) as [H1 _].
    destruct (ireclaim_one_rule i st V D P s1 sb k T1 Hs1 ltac:(lia) Hb Hno) as (s2 & E2 & T2 & F2).
    destruct (IH s2) as (s3 & E3 & T3 & F3); [intros j Hj; apply Hl; ielem|done|by rewrite (tframe_sb _ _ F2)|].
    exists s3. cbn [for_each]. rewrite (bind_ok _ _ _ _ _ E2). split; [done|]. split; [done|by apply (tframe_trans _ s2)]. }
  apply H; [|done|done]. intros k Hk'%elem_of_seqZ. lia.
Qed.

(** Mounting. *)
Lemma fsinit_rule i V D P s sb st : blocks i [] [] V D P s -> sb_of (D 1) = sb -> sb_magic sb = FSMAGIC -> sb_logstart sb = st -> recoverable st D ->
  lg_outstanding (k_log s) = 0 -> lg_committing (k_log s) = false -> fs_bitmap st sb (recovered st D) ->
  (forall k, 1 <= k < sb_ninodes sb -> ~ orphan sb (recovered st D) k) ->
  exists s' V' D' news, fsinit ROOTDEV s = Ok tt s' /\ txn i st 0 [] [] V' D' (news ++ P) s' /\ k_sb s' = sb /\ mount_frame s s' /\
    matches st D' (recovered st D) /\ matches st V' (recovered st D) /\ forall d, d ∈ D' :: news -> matches st (recovered st d) (recovered st D).
Proof.
  intros B Hsb Hm Hst (bl & Hh & G) Ho Hc F Horph. destruct (readsb_rule i V D P s B) as (s1 & E1 & B1 & Hs1 & Lg1 & M1). rewrite Hsb in Hs1.
  destruct (initlog_mount i st bl V D P s1 sb B1 Hst Hh G ltac:(by rewrite Lg1) ltac:(by rewrite Lg1)) as (s2 & V2 & D2 & news & E2 & T2 & F2 & MD & Hd).
  assert (matches st V2 (recovered st D)) as MV.
  { intros m Hmm. rewrite <- (MD m Hmm). apply (blocks_clean _ _ _ _ _ _ _ _ (tx_blocks _ _ _ _ _ _ _ _ _ T2)); apply not_elem_of_nil. }
  assert (k_sb s2 = sb) as Hs2 by by rewrite (tframe_sb _ _ F2).
  destruct (ireclaim_rule i st V2 D2 (news ++ P) s2 sb T2 Hs2) as (s3 & E3 & T3 & F3).
  { intros k Hk. destruct (fb_inodes _ _ _ F k ltac:(lia)) as (Hb & Hl & _). pose proof (fb_size _ _ _ F). split; [lia|]. intros [O1 O2]. apply (Horph k Hk).
    assert (0 <= k mod IPB * DINODE /\ k mod IPB * DINODE + 64 <= BSIZE) as Hk2 by (unfold DINODE, BSIZE; change IPB with 16; zlia).
    assert (forall p, 0 <= p -> p + 2 <= BSIZE -> loadn 2 (recovered st D (IBLOCK k sb)) p = loadn 2 (V2 (IBLOCK k sb)) p) as HL by (intros p H1 H2; apply loadn_ext; intros q Hq; symmetry; apply (MV _ Hl); lia).
    unfold orphan. by rewrite !HL by lia. }
  exists s3, V2, D2, news. split; [|split; [done|split; [by rewrite (tframe_sb _ _ F3)|split; [|done]]]].
  - unfold fsinit. rewrite (bind_ok _ _ _ _ _ E1). erewrite bind_ok by reflexivity. rewrite Hs1, Hm, Z.eqb_refl. cbn [negb]. by rewrite (bind_ok _ _ _ _ _ E2).
  - apply (mount_trans _ s1); [done|]. apply (mount_trans _ s2); by apply mount_tframe.
Qed.
End mount.
