(* ===== verification/PathSpec.v ===== *)
(** * Path names (kernel/fs.c, skipelem)

    The elements [namex] walks through are exactly the non-empty pieces
    between slashes, each cut to [DIRSIZ] bytes, for every path and whatever
    the name buffer contained; the loop ends after at most as many rounds as
    the path has characters. *)

From S2P Require Import Prelude Riscv Mem KState Sched Bio Log Vm Fs.

(** ** Reference *)

(** The pieces of a C string between slashes; [cur] is the piece so far. *)
Fixpoint pieces (p cur : list Z) : list (list Z) :=
  match p with
  | c :: p' => if c =? 0 then [cur] else if c =? 47 then cur :: pieces p' [] else pieces p' (cur ++ [c])
  | [] => [cur]
  end.

Definition elements (p : list Z) : list (list Z) := filter (fun e => e <> []) (pieces p []).

(** The name a buffer of [DIRSIZ] bytes holds: it need not end in a NUL. *)
Fixpoint cname (name : list Z) : list Z :=
  match name with
  | c :: name => if c =? 0 then [] else c :: cname name
  | [] => []
  end.

(** The names the loop of [namex] looks up, in turn. *)
Fixpoint walked (fuel : nat) (path name : list Z) : list (list Z) :=
  match fuel with
  | O => []
  | S fuel =>
      match skipelem path name with
      | Some (path, name) => cname name :: walked fuel path name
      | None => []
      end
  end.

(** ** Proof *)

Lemma cname_app s r : Forall (fun c => c <> 0) s -> cname (s ++ 0 :: r) = s.
Proof. induction 1 as [|c s Hc _ IH]; [done|]. cbn. by rewrite (proj2 (Z.eqb_neq c 0) Hc), IH. Qed.

Lemma cname_all s : Forall (fun c => c <> 0) s -> cname s = s.
Proof. induction 1 as [|c s Hc _ IH]; [done|]. cbn. by rewrite (proj2 (Z.eqb_neq c 0) Hc), IH. Qed.

(** The copied element. *)
Lemma copy_elem_name s name : Forall (fun c => c <> 0) s -> length name = Z.to_nat DIRSIZ ->
  cname (copy_elem s name) = take (Z.to_nat DIRSIZ) s /\ length (copy_elem s name) = Z.to_nat DIRSIZ.
Proof.
  intros Hs Hn. unfold copy_elem. destruct (Z.geb_spec (Z.of_nat (length s)) DIRSIZ) as [Hl|Hl].
  - split; [by apply cname_all, Forall_take|]. rewrite length_take. lia.
  - rewrite cname_app, firstn_all2 by (done || lia). split; [done|]. rewrite length_app. cbn [length]. rewrite length_drop. lia.
Qed.

Lemma pieces_nonempty p : forall cur, cur <> [] -> exists e es, pieces p cur = e :: es /\ e <> [].
Proof.
  induction p as [|c p IH]; intros cur Hc; cbn; [by exists cur, []|].
  destruct (c =? 0); [by exists cur, []|]. destruct (c =? 47); [by exists cur, (pieces p [])|].
  apply IH. by destruct cur.
Qed.

(** Leading slashes do not matter. *)
Lemma elements_skip p : elements (skip_slashes p) = elements p.
Proof.
  induction p as [|c p IH]; [done|]. cbn [skip_slashes]. destruct (Z.eqb_spec c 47) as [->|Hc]; [|done].
  rewrite IH. unfold elements at 2. cbn [pieces]. change (47 =? 0) with false. change (47 =? 47) with true. cbv iota.
  by rewrite filter_cons_False by tauto.
Qed.

(** The first element. *)
Lemma split_elem_pieces p : forall cur, let '(s, r) := split_elem p in
  Forall (fun c => c <> 0) s /\ p = s ++ r /\
  (chr r = 0 \/ chr r = 47) /\
  pieces p cur = (cur ++ s) :: (if chr r =? 47 then pieces (drop 1 r) [] else []).
Proof.
  induction p as [|c p IH]; intros cur; cbn [split_elem].
  { rewrite (app_nil_r cur). split; [constructor|]. split; [done|]. split; [by left|done]. }
  destruct (Z.eqb_spec c 47) as [->|H47]; cbn [orb].
  { rewrite (app_nil_r cur). split; [constructor|]. split; [done|]. split; [by right|done]. }
  destruct (Z.eqb_spec c 0) as [->|H0].
  { rewrite (app_nil_r cur). split; [constructor|]. split; [done|]. split; [by left|done]. }
  specialize (IH (cur ++ [c])). destruct (split_elem p) as [s r]. destruct IH as (I1 & -> & I3 & I4).
  split; [by constructor|]. split; [done|]. split; [done|]. cbn [pieces].
  rewrite (proj2 (Z.eqb_neq c 0) H0), (proj2 (Z.eqb_neq c 47) H47), I4. by rewrite <- app_assoc.
Qed.

Lemma skip_slashes_length p : (length (skip_slashes p) <= length p)%nat.
Proof. induction p as [|c p IH]; [done|]. cbn. destruct (c =? 47); cbn; lia. Qed.

(** One round of the loop. *)
Lemma skipelem_elements path name : length name = Z.to_nat DIRSIZ ->
  match skipelem path name with
  | None => elements path = []
  | Some (path', name') => exists e, elements path = e :: elements path' /\ cname name' = take (Z.to_nat DIRSIZ) e /\
      length name' = Z.to_nat DIRSIZ /\ (length path' < length path)%nat
  end.
Proof.
  intros Hn. rewrite <- elements_skip. unfold skipelem. pose proof (skip_slashes_length path) as Hl. set (p := skip_slashes path) in *.
  assert (chr p <> 47) as H47.
  { unfold p. clear. induction path as [|c path IH]; [done|]. cbn. destruct (Z.eqb_spec c 47); [done|]. done. }
  destruct (Z.eqb_spec (chr p) 0) as [E0|E0].
  { unfold elements. destruct p as [|c p']; [done|]. cbn in E0. subst c. done. }
  pose proof (split_elem_pieces p []) as H. destruct (split_elem p) as [s r]. destruct H as (H1 & H2 & H3 & H4).
  destruct (copy_elem_name s name H1 Hn) as [C1 C2]. exists s. cbn [app] in H4.
  assert (s <> []) as Hs.
  { intros ->. cbn in H2. subst r. destruct H3; done. }
  split; [|split; [done|split; [done|]]].
  - rewrite elements_skip. unfold elements. rewrite H4, filter_cons_True by done. f_equal.
    destruct (Z.eqb_spec (chr r) 47) as [E|E]; [|destruct H3 as [E'|E']; [|done]].
    + destruct r as [|c r]; [done|]. cbn in E. subst c. cbn [pieces drop]. change (47 =? 0) with false. change (47 =? 47) with true. cbv iota.
      by rewrite filter_cons_False by tauto.
    + destruct r as [|c r]; [done|]. cbn in E'. subst c. done.
  - pose proof (skip_slashes_length r). rewrite H2, length_app in Hl. assert (0 < length s)%nat by (destruct s; [done|cbn; lia]). lia.
Qed.

(** Path parsing: the names [namex] looks up one after the other are the
    elements of the path, each cut to [DIRSIZ] bytes, whatever the name buffer
    held before, and [length path] rounds are enough: more fuel finds nothing
    more. *)
Theorem skipelem_walks (path name : list Z) (fuel : nat) : length name = Z.to_nat DIRSIZ -> (length path <= fuel)%nat ->
  walked fuel path name = map (take (Z.to_nat DIRSIZ)) (elements path) /\
  walked (S fuel) path name = walked fuel path name.
Proof.
  assert (forall fuel path name, length name = Z.to_nat DIRSIZ -> (length path <= fuel)%nat ->
    walked fuel path name = map (take (Z.to_nat DIRSIZ)) (elements path)) as H.
  { clear. induction fuel as [|fuel IH]; intros path name Hn Hf; cbn [walked].
    - destruct path; [done|cbn in Hf; lia].
    - pose proof (skipelem_elements path name Hn) as H. destruct (skipelem path name) as [[path' name']|]; [|by rewrite H].
      destruct H as (e & -> & -> & Hn' & Hl). cbn [map]. f_equal. apply IH; [done|lia]. }
  intros Hn Hf. rewrite !H; [done|done|lia|done|lia].
Qed.

(** "//usr/bin//ls" has three elements. *)
Lemma skipelem_walks_witness :
  walked 13 [47; 47; 117; 115; 114; 47; 98; 105; 110; 47; 47; 108; 115] fresh_name =
    map (take (Z.to_nat DIRSIZ)) (elements [47; 47; 117; 115; 114; 47; 98; 105; 110; 47; 47; 108; 115]) /\
  walked 14 [47; 47; 117; 115; 114; 47; 98; 105; 110; 47; 47; 108; 115] fresh_name =
    walked 13 [47; 47; 117; 115; 114; 47; 98; 105; 110; 47; 47; 108; 115] fresh_name.
Proof. apply (skipelem_walks [47; 47; 117; 115; 114; 47; 98; 105; 110; 47; 47; 108; 115] fresh_name 13); [done|cbn; lia]. Defined.
