(* ===== verification/Printf.v ===== *)
(** * kernel/printf.c and user/printf.c

    The formatting of the kernel's and the user library's [printf]: the
    sequence of characters handed to [consputc] and [putc].  The two differ
    in the table of digits and in the shape of their loops.  A variadic
    argument is a 64-bit register value, or a pointer to a C string.  The
    locks and the panic flags around the kernel's version are not part of the
    format. *)

From S2P Require Import Prelude.

(** ** Definitions *)

(** [digits[d]]: the characters of "0123456789abcdef", and in upper case in
    user/printf.c. *)
Definition digits (d : Z) : Z := if d <? 10 then 48 + d else 87 + d.
Definition udigits (d : Z) : Z := if d <? 10 then 48 + d else 55 + d.

Section Format.
Context (dg : Z -> Z).

(** The do-while loop of [printint]: [buf] from index 0 on.  A 64-bit number
    has at most 64 digits in a base of at least 2. *)
Fixpoint print_digits (fuel : nat) (x base : Z) : list Z :=
  match fuel with
  | O => []
  | S fuel =>
      dg (x mod base) :: (if x / base =? 0 then [] else print_digits fuel (x / base) base)
  end.

(** [x = -xx] of the C code, as an unsigned number; [buf] is printed
    backwards. *)
Definition printint (xx base : Z) (sign : bool) : list Z :=
  let neg := sign && (xx <? 0) in
  let x := if neg then u64 (- xx) else u64 xx in
  let buf := print_digits 64 x base ++ (if neg then [45] else []) in
  rev buf.

(** [digits[x >> 60]] and [x <<= 4], sixteen times. *)
Fixpoint print_nibbles (n : nat) (x : Z) : list Z :=
  match n with
  | O => []
  | S n => dg (Z.shiftr x 60) :: print_nibbles n (u64 (Z.shiftl x 4))
  end.

Definition printptr (x : Z) : list Z := [48; 120] ++ print_nibbles 16 x.

Inductive arg : Type := Num (v : Z) | Str (s : option (list Z)).

(** [va_arg(ap, T)] of an integer type. *)
Definition arg_num (a : list arg) : Z := match a with Num v :: _ => v | _ => 0 end.

(** A 64-bit register read as [long long]. *)
Definition s64 (x : Z) : Z := (x + 0x8000000000000000) mod 0x10000000000000000 - 0x8000000000000000.

(** "(null)" *)
Definition null_str : list Z := [40; 110; 117; 108; 108; 41].

(** The characters before the NUL. *)
Fixpoint cstring (s : list Z) : list Z :=
  match s with
  | c :: s => if c =? 0 then [] else c :: cstring s
  | [] => []
  end.

Definition arg_str (a : list arg) : list Z :=
  match a with
  | Str (Some s) :: _ => cstring s
  | _ => null_str
  end.

(** One conversion: what is printed, the number of format characters after
    the [%] it uses, and whether it takes an argument.  [None] is the end of
    the format. *)
Definition conversion (c0 c1 c2 : Z) (a : list arg) : option (list Z * nat * bool) :=
  if c0 =? 100 then Some (printint (s32 (arg_num a)) 10 true, 1%nat, true)
  else if (c0 =? 108) && (c1 =? 100) then Some (printint (s64 (arg_num a)) 10 true, 2%nat, true)
  else if (c0 =? 108) && (c1 =? 108) && (c2 =? 100) then Some (printint (s64 (arg_num a)) 10 true, 3%nat, true)
  else if c0 =? 117 then Some (printint (u32 (arg_num a)) 10 false, 1%nat, true)
  else if (c0 =? 108) && (c1 =? 117) then Some (printint (s64 (arg_num a)) 10 false, 2%nat, true)
  else if (c0 =? 108) && (c1 =? 108) && (c2 =? 117) then Some (printint (s64 (arg_num a)) 10 false, 3%nat, true)
  else if c0 =? 120 then Some (printint (u32 (arg_num a)) 16 false, 1%nat, true)
  else if (c0 =? 108) && (c1 =? 120) then Some (printint (s64 (arg_num a)) 16 false, 2%nat, true)
  else if (c0 =? 108) && (c1 =? 108) && (c2 =? 120) then Some (printint (s64 (arg_num a)) 16 false, 3%nat, true)
  else if c0 =? 112 then Some (printptr (u64 (arg_num a)), 1%nat, true)
  else if c0 =? 99 then Some ([u32 (arg_num a)], 1%nat, true)
  else if c0 =? 115 then Some (arg_str a, 1%nat, true)
  else if c0 =? 37 then Some ([37], 1%nat, false)
  else if c0 =? 0 then None
  else Some ([37; c0], 1%nat, false).

(** The kernel's loop over the format string; every round uses at least one of its
    characters. *)
Fixpoint format (fuel : nat) (fmt : list Z) (a : list arg) : list Z :=
  match fuel with
  | O => []
  | S fuel =>
      match fmt with
      | [] => []
      | cx :: fmt =>
          if cx =? 0 then []
          else if negb (cx =? 37) then cx :: format fuel fmt a
          else
            let c0 := hd 0 fmt in
            let c1 := if c0 =? 0 then 0 else nth 1 fmt 0 in
            let c2 := if c1 =? 0 then 0 else nth 2 fmt 0 in
            match conversion c0 c1 c2 a with
            | None => []
            | Some (out, k, takes) =>
                out ++ format fuel (drop k fmt) (if takes then tail a else a)
            end
      end
  end.

Definition printf_chars (fmt : list Z) (a : list arg) : list Z := format (S (length fmt)) fmt a.

(** The user library's loop, with its [state]: [true] after a [%]. *)
Fixpoint vprintf_loop (fuel : nat) (state : bool) (fmt : list Z) (a : list arg) : list Z :=
  match fuel with
  | O => []
  | S fuel =>
      match fmt with
      | [] => []
      | c0 :: rest =>
          if c0 =? 0 then []
          else if negb state then
            if c0 =? 37 then vprintf_loop fuel true rest a
            else c0 :: vprintf_loop fuel false rest a
          else
            let c1 := hd 0 rest in
            let c2 := if c1 =? 0 then 0 else nth 1 rest 0 in
            match conversion c0 c1 c2 a with
            | None => []
            | Some (out, k, takes) =>
                out ++ vprintf_loop fuel false (drop k fmt) (if takes then tail a else a)
            end
      end
  end.

Definition vprintf (fmt : list Z) (a : list arg) : list Z := vprintf_loop (S (length fmt)) false fmt a.

End Format.

(** ** Lemmas *)

(** The value of a sequence of digits, most significant first. *)
Definition dval (c : Z) : Z := if c <? 58 then c - 48 else if c <? 91 then c - 55 else c - 87.
Definition digits_val (base : Z) (l : list Z) : Z := fold_left (fun n c => n * base + dval c) l 0.

(** A number with an optional minus sign. *)
Definition int_val (base : Z) (l : list Z) : Z :=
  match l with
  | 45 :: l => - digits_val base l
  | _ => digits_val base l
  end.

(** A table whose entries stand for their index. *)
Class Digits (dg : Z -> Z) : Prop := {
  dval_dg d : 0 <= d < 16 -> dval (dg d) = d;
  dg_digit d : 0 <= d < 16 -> 48 <= dg d
}.

#[export] Instance digits_Digits : Digits digits.
Proof. split; intros; unfold dval, digits; destruct (Z.ltb_spec d 10); repeat case_match; lia. Qed.

#[export] Instance udigits_Digits : Digits udigits.
Proof. split; intros; unfold dval, udigits; destruct (Z.ltb_spec d 10); repeat case_match; lia. Qed.

Section facts.
Context (dg : Z -> Z) `{DG : !Digits dg}.

Lemma digits_val_snoc base l c : digits_val base (l ++ [c]) = digits_val base l * base + dval c.
Proof. unfold digits_val. by rewrite fold_left_app. Qed.

Lemma print_digits_val base : 2 <= base <= 16 -> forall fuel x, 0 <= x < base ^ Z.of_nat fuel ->
  digits_val base (rev (print_digits dg fuel x base)) = x.
Proof.
  intros Hb fuel. induction fuel as [|fuel IH]; intros x Hx; [cbn in *; lia|].
  rewrite Nat2Z.inj_succ, Z.pow_succ_r in Hx by lia.
  assert (0 <= x mod base < base) by (apply Z.mod_pos_bound; lia).
  pose proof (Z.div_mod x base ltac:(lia)) as Hd. assert (0 <= x / base < base ^ Z.of_nat fuel).
  { split; [apply Z.div_pos; lia|]. apply Z.div_lt_upper_bound; lia. }
  cbn [print_digits rev]. rewrite digits_val_snoc, dval_dg by lia.
  destruct (Z.eqb_spec (x / base) 0) as [E|E]; [rewrite E in Hd; unfold digits_val; cbn; lia|].
  rewrite IH by done. lia.
Qed.

Lemma print_digits_length base : 2 <= base -> forall fuel n x, 0 <= x < base ^ Z.of_nat (S n) ->
  (length (print_digits dg fuel x base) <= S n)%nat.
Proof.
  intros Hb fuel. induction fuel as [|fuel IH]; intros n x Hx; [cbn; lia|].
  cbn [print_digits length]. destruct (Z.eqb_spec (x / base) 0) as [E|E]; [cbn; lia|].
  destruct n as [|n]; [rewrite Z.pow_1_r in Hx; rewrite Z.div_small in E; lia|].
  rewrite (Nat2Z.inj_succ (S n)), Z.pow_succ_r in Hx by lia.
  apply le_n_S, IH. split; [apply Z.div_pos; lia|]. apply Z.div_lt_upper_bound; lia.
Qed.

Lemma print_digits_digits base fuel x : 2 <= base <= 16 -> 0 <= x ->
  Forall (fun c => 48 <= c) (print_digits dg fuel x base).
Proof.
  intros Hb. revert x. induction fuel as [|fuel IH]; intros x Hx; [done|].
  cbn [print_digits]. constructor.
  - apply dg_digit. pose proof (Z.mod_pos_bound x base). lia.
  - case_match; [done|]. apply IH. apply Z.div_pos; lia.
Qed.

Lemma int_val_digits base l : Forall (fun c => 48 <= c) l -> int_val base l = digits_val base l.
Proof.
  destruct l as [|c l]; [done|]. intros [Hc _]%Forall_cons_1. unfold int_val.
  destruct c as [|p|p]; [done| |done]. repeat (destruct p as [p|p|]; try done).
Qed.

Lemma printint_val base xx (sign : bool) : base = 10 \/ base = 16 ->
  (if sign then -0x8000000000000000 <= xx < 0x8000000000000000 else 0 <= xx < 0x10000000000000000) ->
  int_val base (printint dg xx base sign) = xx /\ (length (printint dg xx base sign) <= 20)%nat.
Proof.
  intros Hb Hx. unfold printint. rewrite length_rev, length_app.
  assert (2 <= base <= 16) as Hb2 by lia.
  assert (forall x, 0 <= x < 0x10000000000000000 -> 0 <= x < base ^ Z.of_nat 64) as Hfuel.
  { intros x Hx'. assert (0x10000000000000000 <= base ^ 64) by (destruct Hb as [E|E]; rewrite E; by vm_compute).
    change (Z.of_nat 64) with 64. lia. }
  assert (0x8000000000000001 <= base ^ Z.of_nat 19 /\ 0x10000000000000000 <= base ^ Z.of_nat 20) as [H19 H20]
    by (destruct Hb as [E|E]; rewrite E; by vm_compute).
  destruct (sign && (xx <? 0)) eqn:E.
  - apply andb_true_iff in E as [-> E]. apply Z.ltb_lt in E. rewrite u64_small by lia. split.
    + rewrite rev_app_distr. cbn [rev app int_val]. rewrite print_digits_val by (lia || apply Hfuel; lia). lia.
    + pose proof (print_digits_length base ltac:(lia) 64 18 (- xx) ltac:(lia)). cbn [length]. lia.
  - assert (0 <= xx < 0x10000000000000000) as Hr.
    { destruct sign; [|done]. cbn in E. apply Z.ltb_ge in E. lia. }
    rewrite u64_small by done. rewrite app_nil_r. split.
    + rewrite int_val_digits by (apply Forall_rev; apply print_digits_digits; lia).
      apply print_digits_val; [done|]. by apply Hfuel.
    + pose proof (print_digits_length base ltac:(lia) 64 19 xx ltac:(lia)). cbn [length]. lia.
Qed.

(** A conversion uses between one and three characters, and the format ends
    only at a NUL. *)
Lemma conversion_uses c0 c1 c2 a : c0 <> 0 ->
  exists out k takes, conversion dg c0 c1 c2 a = Some (out, S k, takes).
Proof. intros H. unfold conversion. apply Z.eqb_neq in H. rewrite H. repeat case_match; eauto. Qed.

Lemma format_vprintf n : forall fmt a f1 f2, (length fmt < n)%nat -> (length fmt < f1)%nat -> (length fmt < f2)%nat ->
  format dg f1 fmt a = vprintf_loop dg f2 false fmt a.
Proof.
  induction n as [|n IH]; intros fmt a f1 f2 Hn H1 H2; [lia|].
  destruct f1 as [|f1]; [lia|]. destruct f2 as [|f2]; [lia|]. destruct fmt as [|c fmt]; [done|].
  cbn [length] in *. cbn [format vprintf_loop negb]. destruct (Z.eqb_spec c 0); [done|].
  destruct (Z.eqb_spec c 37) as [->|]; cbn [negb]; [|f_equal; apply IH; lia].
  destruct f2 as [|f2]; [lia|]. destruct fmt as [|c0 fmt]; [done|].
  cbn [vprintf_loop hd nth length negb] in *. destruct (Z.eqb_spec c0 0) as [->|Hc]; [done|].
  assert (hd 0 fmt = nth 0 fmt 0) as -> by (by destruct fmt).
  destruct (conversion_uses c0 (nth 0 fmt 0) (if nth 0 fmt 0 =? 0 then 0 else nth 1 fmt 0) a Hc) as (out & k & takes & ->).
  f_equal. cbn [drop]. apply IH; rewrite ?length_drop; lia.
Qed.
End facts.

(** ** Theorems *)

(** What [printint] prints reads back as the number it was given, signed
    or unsigned, in base 10 and 16, with the kernel's and the user library's
    digits, and never needs more than the 20 bytes of its buffer. *)
Theorem printint_roundtrip (dg : Z -> Z) (base xx : Z) (sign : bool) :
  Digits dg -> base = 10 \/ base = 16 ->
  (if sign then -0x8000000000000000 <= xx < 0x8000000000000000 else 0 <= xx < 0x10000000000000000) ->
  int_val base (printint dg xx base sign) = xx /\ (length (printint dg xx base sign) <= 20)%nat.
Proof. intros DG. by apply printint_val. Qed.

Lemma printint_roundtrip_witness :
  int_val 10 (printint digits (-0x8000000000000000) 10 true) = -0x8000000000000000 /\
  (length (printint digits (-0x8000000000000000) 10 true) <= 20)%nat.
Proof. apply (printint_roundtrip digits 10 (-0x8000000000000000) true); [apply _|by left|lia]. Defined.

(** The user library's [vprintf], a state machine over the format, prints
    the same characters as the kernel's [printf], a loop that looks ahead,
    for every format, digit table and arguments. *)
Theorem vprintf_is_printf (dg : Z -> Z) (fmt : list Z) (a : list arg) :
  vprintf dg fmt a = printf_chars dg fmt a.
Proof. unfold vprintf, printf_chars. symmetry. apply (format_vprintf dg (S (length fmt))); lia. Qed.
