(* ===== verification/Console.v ===== *)
(** * kernel/uart.c and kernel/console.c

    The UART driver and the console's line discipline.  Registers of the UART
    are read and written through [Env]; [panicking] and [panicked] are not
    modelled, since a panic ends a run. *)

From S2P Require Import Prelude Riscv Mem KState Sched Vm.

(** ** uart.c *)

Definition RHR : Z := 0.
Definition THR : Z := 0.
Definition IER : Z := 1.
Definition IER_RX_ENABLE : Z := Z.shiftl 1 0.
Definition IER_TX_ENABLE : Z := Z.shiftl 1 1.
Definition FCR : Z := 2.
Definition FCR_FIFO_ENABLE : Z := Z.shiftl 1 0.
Definition FCR_FIFO_CLEAR : Z := Z.shiftl 3 1.
Definition ISR : Z := 2.
Definition LCR : Z := 3.
Definition LCR_EIGHT_BITS : Z := Z.shiftl 3 0.
Definition LCR_BAUD_LATCH : Z := Z.shiftl 1 7.
Definition LSR : Z := 5.
Definition LSR_RX_READY : Z := Z.shiftl 1 0.
Definition LSR_TX_IDLE : Z := Z.shiftl 1 5.

Section Uart.
Context {ENV : Env}.

(** Registers are one byte wide. *)
Definition ReadReg (reg : Z) : K Z := fun s =>
  let '(v, s) := mmio_read (UART0 + reg) s in Ok (u8 v) s.
Definition WriteReg (reg v : Z) : K unit := modify (mmio_write (UART0 + reg) (u8 v)).

Definition uartinit : K unit :=
  WriteReg IER 0 ;;
  WriteReg LCR LCR_BAUD_LATCH ;;
  WriteReg 0 3 ;;
  WriteReg 1 0 ;;
  WriteReg LCR LCR_EIGHT_BITS ;;
  WriteReg FCR (Z.lor FCR_FIFO_ENABLE FCR_FIFO_CLEAR) ;;
  WriteReg IER (Z.lor IER_TX_ENABLE IER_RX_ENABLE) ;;
  initlock L_tx.

Definition uartwrite (buf : list Z) : K unit :=
  acquire L_tx ;;
  for_each buf (fun c =>
    iter (S patience) (fun _ : unit =>
      b <- gets k_tx_busy ;;
      if b then sleep ChTx L_tx ;; ret (inl tt) else ret (inr tt)) tt ;;
    WriteReg THR c ;;
    modify (k_set_tx_busy true)) ;;
  release L_tx.

(** The wait for an empty holding register spins.  [panicking] and [panicked]
    are 0, since a panic is an outcome; [push_off] and [pop_off] only keep
    interrupts out in between. *)
Definition uartputc_sync (c : Z) : K unit :=
  iter (S patience) (fun _ : unit =>
    l <- ReadReg LSR ;;
    if has l LSR_TX_IDLE then ret (inr tt) else ret (inl tt)) tt ;;
  WriteReg THR c.

Definition uartgetc : K Z :=
  l <- ReadReg LSR ;;
  if has l LSR_RX_READY then ReadReg RHR else ret (-1).

(** ** console.c *)

Definition BACKSPACE : Z := 0x100.
Definition Ctl (x : Z) : Z := x - 64.
Definition INPUT_BUF_SIZE : Z := 128.
Definition CONSOLE : Z := 1.

Definition consputc (c : Z) : K unit :=
  if c =? BACKSPACE then
    uartputc_sync 8 ;; uartputc_sync 32 ;; uartputc_sync 8
  else uartputc_sync c.

Definition on_cons (f : cons -> cons) (s : kstate) : kstate := k_set_cons (f (k_cons s)) s.
Definition cget : K cons := gets k_cons.

(** The name [procdump] prints for a state. *)
Definition states (st : procstate) : string :=
  match st with
  | UNUSED => "unused" | USED => "used" | SLEEPING => "sleep "
  | RUNNABLE => "runble" | RUNNING => "run   " | ZOMBIE => "zombie"
  end.

(** [procdump] of kernel/proc.c; the trace has the state's name in the format
    and the process's name after its pid. *)
Definition procdump : K unit :=
  printf "" [] ;;
  for_each (seqZ 0 NPROC) (fun i =>
    p <- gets (fun s => k_procs s i) ;;
    if decide (p_state p = UNUSED) then ret tt else
    printf (String.append "%d %s %s: " (states (p_state p))) (p_pid p :: p_name p)).

(** The loop for control-U: it removes at most the characters typed. *)
Definition kill_line : K unit :=
  x <- cget ;;
  iter (S (Z.to_nat (u32 (c_e x - c_w x)))) (fun _ : unit =>
    x <- cget ;;
    if negb (c_e x =? c_w x) &&
       negb (c_buf x (u32 (c_e x - 1) mod INPUT_BUF_SIZE) =? 10) then
      modify (on_cons (fun x => c_set_e (u32 (c_e x - 1)) x)) ;;
      consputc BACKSPACE ;;
      ret (inl tt)
    else ret (inr tt)) tt.

Definition consoleintr (c : Z) : K unit :=
  acquire L_cons ;;
  (if c =? Ctl 80 then procdump
   else if c =? Ctl 85 then kill_line
   else if (c =? Ctl 72) || (c =? 127) then
     x <- cget ;;
     if negb (c_e x =? c_w x) then
       modify (on_cons (fun x => c_set_e (u32 (c_e x - 1)) x)) ;;
       consputc BACKSPACE
     else ret tt
   else
     x <- cget ;;
     if negb (c =? 0) && (u32 (c_e x - c_r x) <? INPUT_BUF_SIZE) then
       let c := if c =? 13 then 10 else c in
       consputc c ;;
       modify (on_cons (fun x =>
         c_set_e (u32 (c_e x + 1)) (c_set_buf (fupd (c_buf x) (c_e x mod INPUT_BUF_SIZE) (u8 c)) x))) ;;
       x <- cget ;;
       if (c =? 10) || (c =? Ctl 68) || (u32 (c_e x - c_r x) =? INPUT_BUF_SIZE) then
         modify (on_cons (fun x => c_set_w (c_e x) x)) ;;
         wakeup ChCons
       else ret tt
     else ret tt) ;;
  release L_cons.

(** Characters are read until none is waiting. *)
Definition uartintr : K unit :=
  ReadReg ISR ;;
  acquire L_tx ;;
  l <- ReadReg LSR ;;
  (if has l LSR_TX_IDLE then
     modify (k_set_tx_busy false) ;;
     wakeup ChTx
   else ret tt) ;;
  release L_tx ;;
  iter (S patience) (fun _ : unit =>
    c <- uartgetc ;;
    if c =? -1 then ret (inr tt) else consoleintr c ;; ret (inl tt)) tt.

Context {LAY : Layout}.

Definition consolewrite (src : place) (n : Z) : K Z :=
  iter (S (Z.to_nat n)) (fun i =>
    if i <? n then
      let nn := Z.min 32 (n - i) in
      c <- either_copyin (place_add src i) nn ;;
      if fst c =? -1 then ret (inr i) else
      uartwrite (snd c) ;;
      ret (inl (i + nn))
    else ret (inr i)) 0.

(** The inner loop of [consoleread]: [false] when the process was killed. *)
Definition wait_input : K bool :=
  iter (S patience) (fun _ : unit =>
    x <- cget ;;
    if c_r x =? c_w x then
      i <- curproc ;;
      k <- killed i ;;
      if negb (k =? 0) then ret (inr false) else
      sleep ChCons L_cons ;; ret (inl tt)
    else ret (inr true)) tt.

(** [None] is the early return of a killed process, [Some n] the value of [n]
    after the loop. *)
Definition consoleread (dst : place) (n : Z) : K Z :=
  let target := u32 n in
  acquire L_cons ;;
  r <- iter (S (Z.to_nat n)) (fun '(dst, n) =>
    if n >? 0 then
      go <- wait_input ;;
      if negb go then ret (inr None) else
      x <- cget ;;
      let c := c_buf x (c_r x mod INPUT_BUF_SIZE) in
      modify (on_cons (fun x => c_set_r (u32 (c_r x + 1)) x)) ;;
      if c =? Ctl 68 then
        (if u32 n <? target then modify (on_cons (fun x => c_set_r (u32 (c_r x - 1)) x)) else ret tt) ;;
        ret (inr (Some n))
      else
      e <- either_copyout dst [c] ;;
      if e =? -1 then ret (inr (Some n)) else
      if c =? 10 then ret (inr (Some (n - 1))) else
      ret (inl (place_add dst 1, n - 1))
    else ret (inr (Some n))) (dst, n) ;;
  release L_cons ;;
  match r with
  | None => ret (-1)
  | Some n => ret (s32 (target - n))
  end.

Definition consoleinit : K unit :=
  initlock L_cons ;;
  uartinit ;;
  modify (fun s => k_set_devsw (fupd (k_devsw s) CONSOLE true) s).

End Uart.
