(* ===== verification/Pipe.v ===== *)
(** * kernel/pipe.c

    A pipe is a ring of [PIPESIZE] bytes with free-running 32-bit counters;
    [k_pipes] maps the address of the page that holds it to its contents.
    [pipealloc] is in [File], since it allocates file structures. *)

From S2P Require Import Prelude Riscv Mem KState Sched PhysMem Vm.

Definition PIPESIZE : Z := 512.

Definition upd_pipe (pi : Z) (f : pipe -> pipe) (s : kstate) : kstate :=
  k_set_pipes (fupd (k_pipes s) pi (f (k_pipes s pi))) s.
Definition pipe_of (pi : Z) : K pipe := gets (fun s => k_pipes s pi).

Section Pipe.
Context {LAY : Layout} {ENV : Env}.

Definition pipeclose (pi : Z) (writable : bool) : K unit :=
  acquire (L_pipe pi) ;;
  (if writable then
     modify (upd_pipe pi (pi_set_writeopen false)) ;;
     wakeup (ChPipeR pi)
   else
     modify (upd_pipe pi (pi_set_readopen false)) ;;
     wakeup (ChPipeW pi)) ;;
  x <- pipe_of pi ;;
  if negb (pi_readopen x) && negb (pi_writeopen x) then
    release (L_pipe pi) ;;
    kfree pi
  else release (L_pipe pi).

(** [pi->data[pi->nwrite++ % PIPESIZE] = ch]. *)
Definition pipe_put (ch : Z) (x : pipe) : pipe :=
  pi_set_nwrite (u32 (pi_nwrite x + 1))
    (pi_set_data (fupd (pi_data x) (pi_nwrite x mod PIPESIZE) (u8 ch)) x).

(** One round of [pipewrite] with [i < n]: [inl] to go on, [inr true] for the
    [break], [inr false] for [return -1] (the lock is released by the
    caller). *)
Definition pipewrite_one (pr pi addr i : Z) : K (Z + bool) :=
  x <- pipe_of pi ;;
  stop <- (if pi_readopen x then k <- killed pr ;; ret (negb (k =? 0)) else ret true) ;;
  if (stop : bool) then ret (inr false) else
  x <- pipe_of pi ;;
  if pi_nwrite x =? u32 (pi_nread x + PIPESIZE) then
    wakeup (ChPipeR pi) ;;
    sleep (ChPipeW pi) (L_pipe pi) ;;
    ret (inl i)
  else
    pt <- gets (fun s => p_pagetable (k_procs s pr)) ;;
    c <- copyin pt (u64 (addr + i)) 1 ;;
    if fst c =? -1 then ret (inr true) else
    modify (upd_pipe pi (pipe_put (hd 0 (snd c)))) ;;
    ret (inl (i + 1)).

(** Each round writes a byte or sleeps; a sleep that wakes up for nothing
    [patience] times counts as hanging. *)
Definition pipewrite (pi addr n : Z) : K Z :=
  pr <- curproc ;;
  acquire (L_pipe pi) ;;
  r <- iter (S (Z.to_nat n) * S patience) (fun i =>
    if i <? n then
      r <- pipewrite_one pr pi addr i ;;
      match r with
      | inl i' => ret (inl i')
      | inr true => ret (inr (Some i))
      | inr false => ret (inr None)
      end
    else ret (inr (Some i))) 0 ;;
  match r with
  | None => release (L_pipe pi) ;; ret (-1)
  | Some i => wakeup (ChPipeR pi) ;; release (L_pipe pi) ;; ret i
  end.

(** The wait for data: [false] when the process was killed. *)
Definition pipe_wait (pr pi : Z) : K bool :=
  iter (S patience) (fun _ : unit =>
    x <- pipe_of pi ;;
    if (pi_nread x =? pi_nwrite x) && pi_writeopen x then
      k <- killed pr ;;
      if negb (k =? 0) then ret (inr false) else
      sleep (ChPipeR pi) (L_pipe pi) ;;
      ret (inl tt)
    else ret (inr true)) tt.

(** The copy loop of [piperead]. *)
Definition pipe_copy (pr pi addr n : Z) : K Z :=
  iter (S (Z.to_nat n)) (fun i =>
    if i <? n then
      x <- pipe_of pi ;;
      if pi_nread x =? pi_nwrite x then ret (inr i) else
      let ch := pi_data x (pi_nread x mod PIPESIZE) in
      pt <- gets (fun s => p_pagetable (k_procs s pr)) ;;
      e <- copyout pt (u64 (addr + i)) [ch] ;;
      if e =? -1 then ret (inr (if i =? 0 then -1 else i)) else
      modify (upd_pipe pi (fun x => pi_set_nread (u32 (pi_nread x + 1)) x)) ;;
      ret (inl (i + 1))
    else ret (inr i)) 0.

Definition piperead (pi addr n : Z) : K Z :=
  pr <- curproc ;;
  acquire (L_pipe pi) ;;
  go <- pipe_wait pr pi ;;
  if negb go then release (L_pipe pi) ;; ret (-1) else
  i <- pipe_copy pr pi addr n ;;
  wakeup (ChPipeW pi) ;;
  release (L_pipe pi) ;;
  ret i.

End Pipe.
