(* ===== verification/PipeSpec.v ===== *)
(** * Pipes are first-in first-out (kernel/pipe.c)

    The ring with its free-running counters represents a queue of at most
    [PIPESIZE] bytes.  [pipewrite] appends the writer's bytes, [piperead]
    takes bytes from the front to the reader, at end of file and on a broken
    pipe they return at once. *)

From S2P Require Import Prelude Riscv Mem KState Memstats Sched DiskSpec PhysMem Kalloc Swap Vm.
From S2P Require Import PageTable Walk VmMap VmAlloc VmCow VmCopy VmSample VmSpec Sample Pipe.

Record pipe_rep (x : pipe) (q : list Z) : Prop := {
  pr_read : 0 <= pi_nread x < 0x100000000;
  pr_write : pi_nwrite x = u32 (pi_nread x + Z.of_nat (length q));
  pr_size : Z.of_nat (length q) <= PIPESIZE;
  pr_ring : cring PIPESIZE (pi_data x) (pi_nread x) q;
  pr_bytes : Forall (fun c => 0 <= c < 256) q
}.

(** The tests for an empty and for a full pipe. *)
Lemma rep_empty x q : pipe_rep x q -> (pi_nread x =? pi_nwrite x) = bool_decide (q = []).
Proof.
  intros [R W S _ _]. rewrite W. unfold PIPESIZE in *. case_bool_decide as Hq.
  - subst q. apply Z.eqb_eq. cbn [length]. rewrite Z.add_0_r, u32_small; [done|lia].
  - apply Z.eqb_neq. assert (0 < Z.of_nat (length q)) by (destruct q; [done|cbn; lia]). unfold u32. zlia.
Qed.

Lemma rep_full x q : pipe_rep x q -> Z.of_nat (length q) < PIPESIZE -> (pi_nwrite x =? u32 (pi_nread x + PIPESIZE)) = false.
Proof. intros [R W S _ _] H. rewrite W. apply Z.eqb_neq. unfold PIPESIZE, u32 in *. zlia. Qed.

Lemma rep_put x q c : pipe_rep x q -> Z.of_nat (length q) < PIPESIZE -> 0 <= c < 256 -> pipe_rep (pipe_put c x) (q ++ [c]).
Proof.
  intros [R W S H B] Hl Hc. unfold pipe_put. replace (u8 c) with c by (unfold u8; zlia).
  split; cbn [pi_nread pi_nwrite pi_data pi_set_nwrite pi_set_data].
  - done.
  - rewrite W, u32_add_l, length_app. cbn [length]. f_equal. lia.
  - rewrite length_app. cbn [length]. lia.
  - rewrite W, (u32_mod PIPESIZE) by done. by apply cring_put.
  - apply Forall_app. split; [done|by apply Forall_singleton].
Qed.

Lemma rep_get x c q : pipe_rep x (c :: q) ->
  pi_data x (pi_nread x mod PIPESIZE) = c /\ pipe_rep (pi_set_nread (u32 (pi_nread x + 1)) x) q.
Proof.
  intros [R W S H B]. apply cring_cons in H as [H1 H2]. apply Forall_cons in B as [_ B]. split; [done|].
  split; cbn [pi_nread pi_nwrite pi_data pi_set_nread length] in *.
  - apply u32_range.
  - rewrite W, u32_add_l. f_equal. lia.
  - lia.
  - by apply (cring_u32 PIPESIZE).
  - done.
Qed.

(** [s'] is [s] under the pipe's lock, with this pipe changed. *)
Definition locked (pi : Z) (s s' : kstate) : Prop :=
  s' = k_set_pipes (k_pipes s') (k_set_held [L_pipe pi] s) /\ forall p, p <> pi -> k_pipes s' p = k_pipes s p.

Lemma locked_put pi s s' f : locked pi s s' -> locked pi s (upd_pipe pi f s').
Proof. intros [E H]. split; [rewrite E; done|]. intros p Hp. cbn. rewrite fupd_ne by done. by apply H. Qed.

(** Nothing changes but this pipe and the states of processes. *)
Record pframe (pi : Z) (s s' : kstate) : Prop := {
  pf_rest : k_set_procs (k_procs s) (k_set_pipes (k_pipes s) s') = s;
  pf_procs : forall j, proc_keep (k_procs s j) (k_procs s' j);
  pf_pipes : forall p, p <> pi -> k_pipes s' p = k_pipes s p
}.

Section ops.
Context {LAY : Layout} {ENV : Env}.

(** [wakeup] and [release] at the end of both operations. *)
Lemma pipe_done ch pi s s1 : k_held s = [] -> locked pi s s1 ->
  exists s', (wakeup ch ;; release (L_pipe pi)) s1 = Ok tt s' /\
    k_pipes s' pi = k_pipes s1 pi /\ pframe pi s s' /\ (forall i, k_cur s = Some i -> k_procs s' i = k_procs s i).
Proof.
  intros Hh [E1 Hp]. assert (k_held s1 = [L_pipe pi]) as Hh1 by by rewrite E1.
  pose proof (woken_frame ch s1) as F. pose proof (only_procs_eq _ _ F) as E.
  assert (k_procs s1 = k_procs s /\ k_cur s1 = k_cur s) as [Hpr Hcu] by by rewrite E1.
  exists (k_set_held [] (woken ch s1)). split; [|split; [|split]].
  - rewrite (bind_ok _ _ _ _ _ (wakeup_ok ch s1 ltac:(intros j _ _; rewrite Hh1; by intros ?%list_elem_of_singleton))).
    apply release_head. by rewrite (proj2 (only_procs_keeps _ _ F)).
  - by rewrite E.
  - split.
    + rewrite E, E1. destruct s. cbn in Hh |- *. by rewrite Hh.
    + intros j. cbn [k_procs k_set_held]. rewrite woken_procs, Hpr. case_decide; [apply wakes_keep|apply proc_keep_refl].
    + intros p Hne. rewrite E. cbn. by apply Hp.
  - intros i Hi. cbn [k_procs k_set_held]. rewrite woken_procs, decide_False; [by rewrite Hpr|]. intros [_ H]. apply H. by rewrite Hcu.
Qed.

(** The allocator and page tables do not depend on pipes. *)
Lemma vmem_locked pi s s1 fl root t1 t0 : vmem s fl root t1 t0 -> locked pi s s1 -> vmem s1 fl root t1 t0.
Proof. intros [[] ? ? ?] [-> _]. split; [by split|done|done|]. unfold alloc_locks_free in *. cbn. set_solver. Qed.

Section write.
Context (s : kstate) (fl : list Z) (root : Z) (t1 t0 : list Z) (HV : vmem s fl root t1 t0).
Context (i pi a n : Z) (Hcur : k_cur s = Some i) (Hheld : k_held s = []).
Context (Hpt : p_pagetable (k_procs s i) = root) (Hk : p_killed (k_procs s i) = 0).
Context (Ha : 0 <= a) (Hmax : a + n <= MAXVA) (Huser : forall k, 0 <= k < n -> in_user s root (a + k)).

(** One byte goes in. *)
Lemma pipe_write_one s1 q k : locked pi s s1 -> pipe_rep (k_pipes s1 pi) q -> pi_readopen (k_pipes s1 pi) = true ->
  Z.of_nat (length q) < PIPESIZE -> 0 <= k < n ->
  exists s2, pipewrite_one i pi a k s1 = Ok (inl (k + 1)) s2 /\ locked pi s s2 /\
    pipe_rep (k_pipes s2 pi) (q ++ [ubyte (k_mem s) root (a + k)]) /\
    pi_readopen (k_pipes s2 pi) = true /\ pi_writeopen (k_pipes s2 pi) = pi_writeopen (k_pipes s1 pi).
Proof.
  intros L R Ho Hl Hkn. pose proof L as [E1 _]. set (c := ubyte (k_mem s) root (a + k)).
  exists (upd_pipe pi (pipe_put c) s1). assert (0 <= c < 256) as Hc by apply u8_range.
  split; [|split; [by apply locked_put|cbn; rewrite fupd_eq; split; [by apply rep_put|done]]].
  unfold pipewrite_one, pipe_of. rewrite (bind_ok _ _ s1 (k_pipes s1 pi) s1) by done. rewrite Ho.
  assert (killed i s1 = Ok 0 s1) as Ek.
  { apply killed_run; [rewrite E1; cbn; by intros ?%list_elem_of_singleton|by rewrite E1]. }
  rewrite bind_assoc, (bind_ok _ _ _ _ _ Ek). unfold ret at 1. unfold bind at 1. change (negb (0 =? 0)) with false. cbv iota.
  rewrite (bind_ok _ _ s1 (k_pipes s1 pi) s1) by done. rewrite (rep_full _ _ R Hl).
  rewrite (bind_ok _ _ s1 root s1) by (unfold gets; rewrite E1; cbn; by rewrite Hpt).
  rewrite u64_small by (change MAXVA with 0x4000000000 in Hmax; lia).
  assert (k_mem s1 = k_mem s) as Em by by rewrite E1.
  rewrite (bind_ok _ _ s1 (0, [c]) s1).
  2:{ rewrite (copyin_ok s1 fl root t1 t0 (vmem_locked _ _ _ _ _ _ _ HV L)); [|lia|].
      - unfold c. by rewrite Em.
      - intros j Hj. replace j with 0 by lia. rewrite Z.add_0_r. unfold in_user. rewrite Em. by apply Huser. }
  cbn [fst snd hd]. change (0 =? -1) with false. cbv iota. by rewrite (bind_ok _ _ _ _ _ (modify_run _ s1)).
Qed.

Lemma pipe_write_loop r : forall fuel k s1 q, Z.of_nat r = n - k -> 0 <= k -> (r < fuel)%nat ->
  locked pi s s1 -> pipe_rep (k_pipes s1 pi) q -> pi_readopen (k_pipes s1 pi) = true ->
  Z.of_nat (length q) + Z.of_nat r <= PIPESIZE ->
  exists s2, iter fuel (fun i0 =>
    if i0 <? n then
      r <- pipewrite_one i pi a i0 ;;
      match r with
      | inl i' => ret (inl i')
      | inr true => ret (inr (Some i0))
      | inr false => ret (inr None)
      end
    else ret (inr (Some i0))) k s1 = Ok (Some n) s2 /\ locked pi s s2 /\
    pipe_rep (k_pipes s2 pi) (q ++ uread (k_mem s) root (a + k) (Z.of_nat r)) /\
    pi_readopen (k_pipes s2 pi) = true /\ pi_writeopen (k_pipes s2 pi) = pi_writeopen (k_pipes s1 pi).
Proof.
  induction r as [|r IH]; intros fuel k s1 q Hr Hk0 Hf L R Ho Hl; (destruct fuel as [|fuel]; [lia|]).
  - exists s1. rewrite app_nil_r. split; [|done]. apply iter_done. rewrite (proj2 (Z.ltb_ge k n)) by lia. by replace n with k by lia.
  - destruct (pipe_write_one s1 q k L R Ho ltac:(lia) ltac:(lia)) as (s2 & E2 & L2 & R2 & Ho2 & Hw2).
    destruct (IH fuel (k + 1) s2 _ ltac:(lia) ltac:(lia) ltac:(lia) L2 R2 Ho2) as (s3 & E3 & L3 & R3 & Ho3 & Hw3).
    { rewrite length_app. cbn [length]. lia. }
    exists s3. split; [|split; [done|split; [|split; [done|congruence]]]].
    + erewrite iter_next; [exact E3|]. rewrite (proj2 (Z.ltb_lt k n)) by lia. by rewrite (bind_ok _ _ _ _ _ E2).
    + rewrite <- app_assoc in R3. replace (Z.of_nat (S r)) with (1 + Z.of_nat r) by lia. rewrite uread_app by lia.
      by replace (a + k + 1) with (a + (k + 1)) by lia.
Qed.

(** [pipewrite] with room appends the writer's bytes. *)
Lemma pipewrite_rule q : pipe_rep (k_pipes s pi) q -> pi_readopen (k_pipes s pi) = true -> 0 <= n ->
  Z.of_nat (length q) + n <= PIPESIZE ->
  exists s', pipewrite pi a n s = Ok n s' /\ pipe_rep (k_pipes s' pi) (q ++ uread (k_mem s) root a n) /\
    pi_writeopen (k_pipes s' pi) = pi_writeopen (k_pipes s pi) /\ pframe pi s s' /\ k_procs s' i = k_procs s i.
Proof.
  intros R Ho Hn Hl. unfold pipewrite. rewrite (bind_ok _ _ _ _ _ (curproc_run i s Hcur)).
  rewrite (bind_ok _ _ _ _ _ (acquire_ok (L_pipe pi) s ltac:(rewrite Hheld; apply not_elem_of_nil))), Hheld.
  set (s1 := k_set_held [L_pipe pi] s). assert (locked pi s s1) as L by (split; [by destruct s|done]).
  destruct (pipe_write_loop (Z.to_nat n) (S (Z.to_nat n) * S patience) 0 s1 q) as (s2 & E2 & L2 & R2 & _ & Hw2); try done; [lia|lia|lia|].
  rewrite (bind_ok _ _ _ _ _ E2). destruct (pipe_done (ChPipeR pi) pi s s2 Hheld L2) as (s3 & E3 & P3 & F3 & C3).
  exists s3. split; [|split; [|split; [by rewrite P3|split; [done|by apply C3]]]].
  - unfold bind in E3 |- *. destruct (wakeup (ChPipeR pi) s2) as [[] t| | |]; try done. by rewrite E3.
  - rewrite P3. rewrite Z.add_0_r, Z2Nat.id in R2 by lia. done.
Qed.
End write.

(** [s'] is [s] under the pipe's lock, with this pipe and memory changed. *)
Definition reading (pi : Z) (s s' : kstate) : Prop :=
  s' = k_set_pipes (k_pipes s') (k_set_mem (k_mem s') (k_set_held [L_pipe pi] s)) /\
  forall p, p <> pi -> k_pipes s' p = k_pipes s p.

Section read.
Context (s : kstate) (fl : list Z) (root : Z) (t1 t0 : list Z).
Context (i pi b n : Z) (Hcur : k_cur s = Some i) (Hheld : k_held s = []).
Context (Hpt : p_pagetable (k_procs s i) = root).
Context (Hb : 0 <= b) (Hmax : b + n <= MAXVA).

(** What the loop has done after [m] bytes. *)
Definition delivered (k m : Z) (q : list Z) (s1 s2 : kstate) : Prop :=
  reading pi s s2 /\ uspace s2 fl root t1 t0 /\ (forall w, ent (k_mem s2) root w = ent (k_mem s1) root w) /\
  (forall a, 0 <= a < MAXVA -> uvalid (k_mem s1) root a = true ->
     ubyte (k_mem s2) root a = if decide (b + k <= a < b + k + m) then nth (Z.to_nat (a - (b + k))) q 0 else ubyte (k_mem s1) root a) /\
  pipe_rep (k_pipes s2 pi) (drop (Z.to_nat m) q) /\
  pi_readopen (k_pipes s2 pi) = pi_readopen (k_pipes s1 pi) /\ pi_writeopen (k_pipes s2 pi) = pi_writeopen (k_pipes s1 pi).

Lemma delivered_none k q s1 : reading pi s s1 -> uspace s1 fl root t1 t0 -> pipe_rep (k_pipes s1 pi) q -> delivered k 0 q s1 s1.
Proof.
  intros L U R. split; [done|]. split; [done|]. split; [done|]. split; [|done]. intros a _ _. by rewrite decide_False by lia.
Qed.

(** One byte goes out. *)
Lemma pipe_read_one s1 c q k : reading pi s s1 -> uspace s1 fl root t1 t0 -> pipe_rep (k_pipes s1 pi) (c :: q) ->
  0 <= k < n -> open_page s1 root ((b + k) / PGSIZE) ->
  exists s2, (pt <- gets (fun s => p_pagetable (k_procs s i)) ;;
      e <- copyout pt (u64 (b + k)) [c] ;;
      if e =? -1 then ret (inr (if k =? 0 then -1 else k)) else
      modify (upd_pipe pi (fun x => pi_set_nread (u32 (pi_nread x + 1)) x)) ;;
      ret (inl (k + 1))) s1 = Ok (inl (k + 1) : Z + Z) s2 /\ delivered k 1 (c :: q) s1 s2.
Proof.
  intros L U R Hkn Hop. pose proof L as [E1 Hp1]. pose proof (pr_bytes _ _ R) as [Hc _]%Forall_cons.
  destruct (copyout_byte s1 fl root t1 t0 (b + k) c U ltac:(lia) Hop Hc) as (s2 & E2 & F2 & U2 & HE & Hby).
  set (s3 := upd_pipe pi (fun x => pi_set_nread (u32 (pi_nread x + 1)) x) s2). exists s3. split.
  - rewrite (bind_ok _ _ s1 root s1) by (unfold gets; rewrite E1; cbn; by rewrite Hpt).
    rewrite u64_small by (change MAXVA with 0x4000000000 in Hmax; lia). rewrite (bind_ok _ _ _ _ _ E2).
    change (0 =? -1) with false. cbv iota. by rewrite (bind_ok _ _ _ _ _ (modify_run _ s2)).
  - split; [|split; [|split; [done|split; [|]]]].
    + split; [unfold s3; rewrite F2, E1; by destruct s|]. intros p Hp. cbn. rewrite fupd_ne by done. rewrite F2. cbn. by apply Hp1.
    + destruct U2 as [[[] ? ? ?] ? ?]. split; [split; [by split|done|done|done]|done|done].
    + intros a Ha Hu. change (k_mem s3) with (k_mem s2). rewrite Hby by done. destruct (decide (a = b + k)) as [->|Hne].
      * rewrite decide_True by lia. by rewrite Z.sub_diag.
      * by rewrite decide_False by lia.
    + cbn. rewrite fupd_eq, F2. cbn. split; [|done]. by apply rep_get in R as [_ R].
Qed.

Lemma pipe_read_loop r : forall fuel k s1 q, Z.of_nat r = n - k -> 0 <= k -> (r < fuel)%nat ->
  reading pi s s1 -> uspace s1 fl root t1 t0 -> pipe_rep (k_pipes s1 pi) q ->
  (forall j, 0 <= j < Z.min (Z.of_nat r) (Z.of_nat (length q)) -> open_page s1 root ((b + k + j) / PGSIZE)) ->
  let m := Z.min (Z.of_nat r) (Z.of_nat (length q)) in
  exists s2, iter fuel (fun i0 =>
    if i0 <? n then
      x <- pipe_of pi ;;
      if pi_nread x =? pi_nwrite x then ret (inr i0) else
      let ch := pi_data x (pi_nread x mod PIPESIZE) in
      pt <- gets (fun s => p_pagetable (k_procs s i)) ;;
      e <- copyout pt (u64 (b + i0)) [ch] ;;
      if e =? -1 then ret (inr (if i0 =? 0 then -1 else i0)) else
      modify (upd_pipe pi (fun x => pi_set_nread (u32 (pi_nread x + 1)) x)) ;;
      ret (inl (i0 + 1))
    else ret (inr i0)) k s1 = Ok (k + m) s2 /\ delivered k m q s1 s2.
Proof.
  induction r as [|r IH]; intros fuel k s1 q Hr Hk0 Hf L U R Hop m; (destruct fuel as [|fuel]; [lia|]).
  - exists s1. replace m with 0 by (unfold m; lia). split; [|by apply delivered_none]. apply iter_done.
    rewrite (proj2 (Z.ltb_ge k n)) by lia. by rewrite Z.add_0_r.
  - destruct q as [|c q].
    { exists s1. replace m with 0 by (unfold m; cbn; lia). split; [|by apply delivered_none]. apply iter_done.
      rewrite (proj2 (Z.ltb_lt k n)) by lia. unfold pipe_of. rewrite (bind_ok _ _ s1 (k_pipes s1 pi) s1) by done.
      rewrite (rep_empty _ _ R), bool_decide_eq_true_2 by done. by rewrite Z.add_0_r. }
    cbn [length] in *. destruct (pipe_read_one s1 c q k L U R ltac:(lia)) as (s2 & E2 & D2).
    { specialize (Hop 0 ltac:(lia)). by rewrite Z.add_0_r in Hop. }
    destruct D2 as (L2 & U2 & HE2 & HB2 & R2 & Hr2 & Hw2). change (drop (Z.to_nat 1) (c :: q)) with q in R2.
    destruct (IH fuel (k + 1) s2 q ltac:(lia) ltac:(lia) ltac:(lia) L2 U2 R2) as (s3 & E3 & L3 & U3 & HE3 & HB3 & R3 & Hr3 & Hw3).
    { intros j Hj. unfold open_page. rewrite HE2. replace (b + (k + 1) + j) with (b + k + (j + 1)) by lia. apply Hop. lia. }
    set (m' := Z.min (Z.of_nat r) (Z.of_nat (length q))) in *. assert (m = m' + 1) as Em by (unfold m, m'; lia).
    exists s3. split; [|split; [done|split; [done|split; [|split; [|split; [|split; congruence]]]]]].
    + erewrite iter_next; [rewrite E3; f_equal; lia|]. rewrite (proj2 (Z.ltb_lt k n)) by lia. unfold pipe_of.
      rewrite (bind_ok _ _ s1 (k_pipes s1 pi) s1) by done. rewrite (rep_empty _ _ R), bool_decide_eq_false_2 by done.
      rewrite (proj1 (rep_get _ _ _ R)). exact E2.
    + intros w. by rewrite HE3, HE2.
    + intros a Ha Hu. rewrite HB3, HB2; [|done|done|done|unfold uvalid; by rewrite HE2].
      destruct (decide (b + (k + 1) <= a < b + (k + 1) + m')) as [D|D].
      * rewrite decide_True by lia. by replace (Z.to_nat (a - (b + k))) with (S (Z.to_nat (a - (b + (k + 1))))) by lia.
      * destruct (decide (b + k <= a < b + k + 1)) as [D'|D']; [rewrite decide_True by lia|by rewrite decide_False by lia].
        by replace (Z.to_nat (a - (b + k))) with 0%nat by lia.
    + rewrite Em. replace (Z.to_nat (m' + 1)) with (S (Z.to_nat m')) by lia. done.
Qed.

Lemma pipe_wait_run s1 q : reading pi s s1 -> pipe_rep (k_pipes s1 pi) q -> q <> [] \/ pi_writeopen (k_pipes s1 pi) = false ->
  pipe_wait i pi s1 = Ok true s1.
Proof.
  intros L R Hq. apply iter_done. unfold pipe_of. rewrite (bind_ok _ _ s1 (k_pipes s1 pi) s1) by done. rewrite (rep_empty _ _ R).
  destruct Hq as [Hq|Hq]; [by rewrite bool_decide_eq_false_2|]. by rewrite Hq, andb_false_r.
Qed.

(** [piperead] delivers the first bytes of the queue. *)
Lemma piperead_rule q : uspace s fl root t1 t0 -> pipe_rep (k_pipes s pi) q ->
  q <> [] \/ pi_writeopen (k_pipes s pi) = false -> 0 <= n ->
  let m := Z.min n (Z.of_nat (length q)) in
  (forall j, 0 <= j < m -> open_page s root ((b + j) / PGSIZE)) ->
  exists s', piperead pi b n s = Ok m s' /\ uspace s' fl root t1 t0 /\
    uread (k_mem s') root b m = take (Z.to_nat m) q /\
    (forall a, 0 <= a < MAXVA -> uvalid (k_mem s) root a = true -> ~ (b <= a < b + m) ->
       ubyte (k_mem s') root a = ubyte (k_mem s) root a) /\
    pipe_rep (k_pipes s' pi) (drop (Z.to_nat m) q) /\
    pi_readopen (k_pipes s' pi) = pi_readopen (k_pipes s pi) /\ pi_writeopen (k_pipes s' pi) = pi_writeopen (k_pipes s pi).
Proof.
  intros U R Hq Hn m Hop. unfold piperead. rewrite (bind_ok _ _ _ _ _ (curproc_run i s Hcur)).
  rewrite (bind_ok _ _ _ _ _ (acquire_ok (L_pipe pi) s ltac:(rewrite Hheld; apply not_elem_of_nil))), Hheld.
  set (s1 := k_set_held [L_pipe pi] s). assert (reading pi s s1) as L by (split; [by destruct s|done]).
  rewrite (bind_ok _ _ _ _ _ (pipe_wait_run s1 q L R Hq)). cbn [negb].
  assert (uspace s1 fl root t1 t0) as U1.
  { apply (uspace_same s); try done. unfold alloc_locks_free, s1. cbn. set_solver. }
  assert (Z.min (Z.of_nat (Z.to_nat n)) (Z.of_nat (length q)) = m) as Em by (unfold m; lia).
  destruct (pipe_read_loop (Z.to_nat n) (S (Z.to_nat n)) 0 s1 q ltac:(lia) ltac:(lia) ltac:(lia) L U1 R) as (s2 & E2 & D2).
  { intros j Hj. rewrite Z.add_0_r. apply Hop. lia. }
  rewrite Em in E2, D2. cbn [Z.add] in E2. destruct D2 as (L2 & U2 & HE2 & HB2 & R2 & Hr2 & Hw2). rewrite Z.add_0_r in HB2.
  unfold pipe_copy. rewrite (bind_ok _ _ _ _ _ E2).
  assert (locked pi (k_set_mem (k_mem s2) s) s2) as L2' by (destruct L2 as [E' H']; split; [done|done]).
  destruct (pipe_done (ChPipeW pi) pi (k_set_mem (k_mem s2) s) s2 Hheld L2') as (s3 & E3 & P3 & [F3 _ _] & _).
  assert (k_mem s3 = k_mem s2 /\ k_freelist s3 = k_freelist s /\ k_refcount s3 = k_refcount s /\ k_held s3 = []) as (M3 & Q3 & C3 & H3).
  { rewrite <- Hheld. change (k_mem s2) with (k_mem (k_set_mem (k_mem s2) s)). change (k_freelist s) with (k_freelist (k_set_mem (k_mem s2) s)).
    change (k_refcount s) with (k_refcount (k_set_mem (k_mem s2) s)). change (k_held s) with (k_held (k_set_mem (k_mem s2) s)).
    rewrite <- F3. done. }
  exists s3. split; [|split; [|split; [|split; [|by rewrite P3]]]].
  - unfold bind in E3 |- *. destruct (wakeup (ChPipeW pi) s2) as [[] t| | |]; try done. by rewrite E3.
  - apply (uspace_same s2); try done.
    + destruct L2 as [-> _]. done.
    + destruct L2 as [-> _]. done.
    + unfold alloc_locks_free. rewrite H3. set_solver.
  - rewrite M3.
    replace m with (Z.of_nat (length (take (Z.to_nat m) q))) at 1 by (rewrite length_take; unfold m; lia).
    apply uread_bytes. intros j Hj. rewrite length_take in Hj. assert (0 <= j < m) as Hjm by lia.
    rewrite HB2; [|unfold m in *; lia|].
    + rewrite decide_True by lia. replace (b + j - b) with j by lia. rewrite <- (take_drop (Z.to_nat m) q) at 1.
      rewrite app_nth1; [done|]. rewrite length_take. lia.
    + destruct (Hop j Hjm) as (Hu & _). done.
  - rewrite M3. intros a Ha Hu Hout. rewrite HB2 by done. by rewrite decide_False.
Qed.
End read.

Lemma pframe_keeps pi s s' : pframe pi s s' -> k_mem s' = k_mem s /\ k_freelist s' = k_freelist s /\
  k_refcount s' = k_refcount s /\ k_held s' = k_held s /\
  (forall j, p_pagetable (k_procs s' j) = p_pagetable (k_procs s j) /\ p_killed (k_procs s' j) = p_killed (k_procs s j)).
Proof.
  intros [A B _]. split; [by rewrite <- A|]. split; [by rewrite <- A|]. split; [by rewrite <- A|]. split; [by rewrite <- A|].
  intros j. rewrite (B j). by destruct (k_procs s j).
Qed.

(** C39. Pipes are first in, first out: a writer with room in the pipe and a
    reader that runs next.  [pipewrite] returns [n]; [piperead] returns the
    number of bytes there were, at most [m], and the reader finds exactly the
    first bytes sent, in order, nothing else in its memory changed; the pipe
    keeps the rest. *)
Theorem pipe_transfer s fl w rootw w1 w0 r rootr r1 r0 pi a b n m q :
  k_cur s = Some w -> k_held s = [] ->
  p_pagetable (k_procs s w) = rootw -> p_killed (k_procs s w) = 0 -> vmem s fl rootw w1 w0 ->
  0 <= a -> a + n <= MAXVA -> (forall k, 0 <= k < n -> in_user s rootw (a + k)) ->
  p_pagetable (k_procs s r) = rootr -> uspace s fl rootr r1 r0 ->
  0 <= b -> b + m <= MAXVA -> (forall k, 0 <= k < m -> open_page s rootr ((b + k) / PGSIZE)) ->
  pipe_rep (k_pipes s pi) q -> pi_readopen (k_pipes s pi) = true ->
  0 < n -> 0 <= m -> Z.of_nat (length q) + n <= PIPESIZE ->
  let sent := q ++ uread (k_mem s) rootw a n in
  let k := Z.min m (Z.of_nat (length sent)) in
  exists s1 s2, pipewrite pi a n s = Ok n s1 /\ piperead pi b m (k_set_cur (Some r) s1) = Ok k s2 /\
    uread (k_mem s2) rootr b k = take (Z.to_nat k) sent /\
    (forall x, 0 <= x < MAXVA -> uvalid (k_mem s) rootr x = true -> ~ (b <= x < b + k) ->
       ubyte (k_mem s2) rootr x = ubyte (k_mem s) rootr x) /\
    pipe_rep (k_pipes s2 pi) (drop (Z.to_nat k) sent).
Proof.
  intros Hcur Hheld Hpw Hkw HV Ha Ham Huser Hpr U Hb Hbm Hopen R Ho Hn Hm Hl sent k.
  destruct (pipewrite_rule s fl rootw w1 w0 HV w pi a n Hcur Hheld Hpw Hkw Ha Ham Huser q R Ho ltac:(lia) Hl) as (s1 & E1 & R1 & _ & F1 & _).
  destruct (pframe_keeps _ _ _ F1) as (M1 & Q1 & C1 & H1 & P1). set (s1' := k_set_cur (Some r) s1).
  assert (sent <> []) as Hne.
  { unfold sent. intros [_ E]%app_eq_nil. apply (f_equal length) in E. rewrite length_uread in E. cbn in E. lia. }
  assert (uspace s1' fl rootr r1 r0) as U1.
  { apply (uspace_same s); try done. unfold alloc_locks_free, s1'. cbn. rewrite H1, Hheld. set_solver. }
  destruct (piperead_rule s1' fl rootr r1 r0 r pi b m eq_refl ltac:(cbn; by rewrite H1) ltac:(cbn; by rewrite (proj1 (P1 r)))
    Hb Hbm sent U1 R1 ltac:(by left) Hm) as (s2 & E2 & _ & B2 & O2 & R2 & _).
  { intros j Hj. unfold open_page, s1'. cbn. rewrite M1. apply Hopen. lia. }
  exists s1, s2. split; [done|]. split; [done|]. split; [done|]. split; [|done].
  intros x Hx Hu Hout. rewrite O2; [unfold s1'; cbn; by rewrite M1|done|unfold s1'; cbn; by rewrite M1|done].
Qed.

End ops.

(** The running process writes three of its bytes into a new pipe and reads
    two of them back to another address. *)
Definition pipe_state : kstate := k_set_pipes (fun _ => mkPipe (fun _ => 0) 0 0 true true) user_state.

Lemma pipe_transfer_witness : exists s1 s2, pipewrite 0x80100000 16 3 pipe_state = Ok 3 s1 /\
  piperead 0x80100000 32 2 (k_set_cur (Some 0) s1) = Ok 2 s2 /\
  uread (k_mem s2) uroot 32 2 = take 2 ([] ++ uread (k_mem pipe_state) uroot 16 3) /\
  (forall x, 0 <= x < MAXVA -> uvalid (k_mem pipe_state) uroot x = true -> ~ (32 <= x < 34) ->
     ubyte (k_mem s2) uroot x = ubyte (k_mem pipe_state) uroot x) /\
  pipe_rep (k_pipes s2 0x80100000) (drop 2 ([] ++ uread (k_mem pipe_state) uroot 16 3)).
Proof.
  assert (uspace pipe_state free8 uroot [utab1] [utab0]) as U by by apply (uspace_same user_state), user_locks; [apply user_uspace|..].
  apply (pipe_transfer pipe_state free8 0 uroot [utab1] [utab0] 0 uroot [utab1] [utab0] 0x80100000 16 32 3 2 []); try done.
  - apply U.
  - intros k Hk. apply user_in_page. unfold PGSIZE. lia.
  - intros k Hk. replace ((32 + k) / PGSIZE) with 0 by (unfold PGSIZE; zlia). unfold open_page.
    change (k_mem pipe_state) with (k_mem user_state). rewrite user_page0. split; [|split]; by vm_compute.
Defined.
