(* ===== verification/File.v ===== *)
(** * kernel/file.c, and pipealloc of kernel/pipe.c

    The table of open files.  A [struct file *] is an index into [ftable]. *)

From S2P Require Import Prelude Riscv Mem KState Sched Bio Log PhysMem Vm.
From S2P Require Import Vm Fs Console Pipe.

Definition NFILE : Z := 100.
Definition NDEV : Z := 10.

Definition upd_file (f : Z) (g : file -> file) (s : kstate) : kstate :=
  k_set_ftable (fupd (k_ftable s) f (g (k_ftable s f))) s.
Definition file_of (f : Z) : K file := gets (fun s => k_ftable s f).

(** [ff.ip] of an open inode or device. *)
Definition ip_of (x : file) : K Z :=
  match f_ip x with Some ip => ret ip | None => undef "f->ip is null" end.

(** The bytes of a little-endian integer. *)
Definition le_bytes (n : nat) (v : Z) : list Z := map (fun i => u8 (v / 256 ^ i)) (seqZ 0 (Z.of_nat n)).

(** [struct stat]: dev, ino, type, nlink, size; 24 bytes with its padding. *)
Definition stat_bytes (st : stat) : list Z :=
  le_bytes 4 (st_dev st) ++ le_bytes 4 (st_ino st) ++ le_bytes 2 (st_type st) ++
  le_bytes 2 (st_nlink st) ++ replicate 4 0 ++ le_bytes 8 (st_size st).

Section File.
Context {LAY : Layout} {ENV : Env}.

Definition fileinit : K unit := initlock L_ftable.

(** [None] is the null pointer. *)
Definition filealloc : K (option Z) :=
  acquire L_ftable ;;
  r <- for_find (seqZ 0 NFILE) (fun f =>
    x <- file_of f ;;
    if f_ref x =? 0 then
      modify (upd_file f (f_set_ref 1)) ;;
      release L_ftable ;;
      ret (Some f)
    else ret None) ;;
  match r with
  | Some f => ret (Some f)
  | None => release L_ftable ;; ret None
  end.

Definition filedup (f : Z) : K Z :=
  acquire L_ftable ;;
  x <- file_of f ;;
  if f_ref x <? 1 then panic "filedup" else
  modify (upd_file f (fun x => f_set_ref (f_ref x + 1) x)) ;;
  release L_ftable ;;
  ret f.

Definition fileclose (f : Z) : K unit :=
  acquire L_ftable ;;
  x <- file_of f ;;
  if f_ref x <? 1 then panic "fileclose" else
  modify (upd_file f (fun x => f_set_ref (f_ref x - 1) x)) ;;
  ff <- file_of f ;;
  if f_ref ff >? 0 then release L_ftable else
  modify (upd_file f (f_set_ref 0)) ;;
  modify (upd_file f (f_set_type FD_NONE)) ;;
  release L_ftable ;;
  match f_type ff with
  | FD_PIPE => pipeclose (f_pipe ff) (f_writable ff)
  | FD_INODE | FD_DEVICE => begin_op ;; ip <- ip_of ff ;; iput ip ;; end_op
  | FD_NONE => ret tt
  end.

Definition filestat (f addr : Z) : K Z :=
  i <- curproc ;;
  x <- file_of f ;;
  match f_type x with
  | FD_INODE | FD_DEVICE =>
      ip <- ip_of x ;;
      ilock ip ;;
      st <- stati ip ;;
      iunlock ip ;;
      pt <- gets (fun s => p_pagetable (k_procs s i)) ;;
      r <- copyout pt addr (stat_bytes st) ;;
      if r <? 0 then ret (-1) else ret 0
  | _ => ret (-1)
  end.

(** [devsw[major].read] and [.write]: the console is the only device the
    kernel registers. *)
Definition dev_ok (x : file) : K bool :=
  d <- gets k_devsw ;;
  ret (negb (f_major x <? 0) && negb (f_major x >=? NDEV) && d (f_major x)).

Definition fileread (f addr n : Z) : K Z :=
  x <- file_of f ;;
  if negb (f_readable x) then ret (-1) else
  match f_type x with
  | FD_PIPE => piperead (f_pipe x) addr n
  | FD_DEVICE =>
      ok <- dev_ok x ;;
      if negb ok then ret (-1) else
      if f_major x =? CONSOLE then consoleread (User addr) n
      else undef "a device that was never registered"
  | FD_INODE =>
      ip <- ip_of x ;;
      ilock ip ;;
      x <- file_of f ;;
      r <- readi ip (User addr) (f_off x) (u32 n) ;;
      (if fst r >? 0 then
         modify (upd_file f (fun x => f_set_off (u32 (f_off x + fst r)) x))
       else ret tt) ;;
      iunlock ip ;;
      ret (fst r)
  | FD_NONE => panic "fileread"
  end.

(** [((MAXOPBLOCKS-1-1-2) / 2) * BSIZE]. *)
Definition max_write : Z := (MAXOPBLOCKS - 1 - 1 - 2) / 2 * BSIZE.

(** One round of the loop of [filewrite]: a transaction of its own. *)
Definition filewrite_chunk (f ip addr i n1 : Z) : K Z :=
  begin_op ;;
  ilock ip ;;
  x <- file_of f ;;
  r <- writei ip (User (u64 (addr + i))) (f_off x) n1 ;;
  (if r >? 0 then
     modify (upd_file f (fun x => f_set_off (u32 (f_off x + r)) x))
   else ret tt) ;;
  iunlock ip ;;
  end_op ;;
  ret r.

Definition filewrite (f addr n : Z) : K Z :=
  x <- file_of f ;;
  if negb (f_writable x) then ret (-1) else
  match f_type x with
  | FD_PIPE => pipewrite (f_pipe x) addr n
  | FD_DEVICE =>
      ok <- dev_ok x ;;
      if negb ok then ret (-1) else
      if f_major x =? CONSOLE then consolewrite (User addr) n
      else undef "a device that was never registered"
  | FD_INODE =>
      ip <- ip_of x ;;
      i <- iter (S (Z.to_nat n)) (fun i =>
        if i <? n then
          let n1 := Z.min (n - i) max_write in
          r <- filewrite_chunk f ip addr i n1 ;;
          if negb (r =? n1) then ret (inr i) else ret (inl (i + r))
        else ret (inr i)) 0 ;;
      ret (if i =? n then n else -1)
  | FD_NONE => panic "filewrite"
  end.

(** The two file structures, the read end first; [None] for [return -1]. *)
Definition pipealloc : K (option (Z * Z)) :=
  f0 <- filealloc ;;
  f1 <- (match f0 with Some _ => filealloc | None => ret None end) ;;
  pi <- (match f0, f1 with Some _, Some _ => kalloc | _, _ => ret 0 end) ;;
  match f0, f1 with
  | Some r, Some w =>
      if pi =? 0 then fileclose r ;; fileclose w ;; ret None else
      modify (upd_pipe pi (pi_set_readopen true)) ;;
      modify (upd_pipe pi (pi_set_writeopen true)) ;;
      modify (upd_pipe pi (pi_set_nwrite 0)) ;;
      modify (upd_pipe pi (pi_set_nread 0)) ;;
      initlock (L_pipe pi) ;;
      modify (upd_file r (fun x => f_set_pipe pi (f_set_writable false (f_set_readable true (f_set_type FD_PIPE x))))) ;;
      modify (upd_file w (fun x => f_set_pipe pi (f_set_writable true (f_set_readable false (f_set_type FD_PIPE x))))) ;;
      ret (Some (r, w))
  | Some r, None => fileclose r ;; ret None
  | None, _ => ret None
  end.

End File.
