(* ===== verification/FileSpec.v ===== *)
(** * Open files and user memory

    User memory as the source and destination of file transfers, and reading
    and writing open files (kernel/file.c, [filewrite] and [fileread]).  The
    instances of [Source] and [Sink] that [filewrite] and [fileread] use:
    mapped memory of the running process, and its writable private memory. *)

From S2P Require Import Prelude Riscv Mem CString KState Sched Virtio DiskSpec Bio BioSpec Blocks Log LogSpec Txn PhysMem Kalloc Vm PageTable Walk VmMap VmAlloc VmCow VmCopy Fs FsSpec Inode InodeSpec Dinode FileIO.
From S2P Require Import StorageSpec FileWrite InodeLock Pipe Console File.

Section user.
Context {LAY : Layout} {ENV : Env}.

(** The process runs in the address space [root]. *)
Record in_space (i root : Z) (s : kstate) : Prop := {
  is_cur : k_cur s = Some i;
  is_root : p_pagetable (k_procs s i) = root;
  is_space : exists fl t1 t0, uspace s fl root t1 t0
}.

Lemma proc_keep_pagetable p p' : proc_keep p p' -> p_pagetable p' = p_pagetable p.
Proof. intros ->. done. Qed.

Lemma in_space_same i root s s' : in_space i root s -> user_same s s' -> in_space i root s'.
Proof.
  intros [H1 H2 (fl & t1 & t0 & U)] [M1 M2 M3 M4 M5 M6]. split; [by rewrite M5|by rewrite (proc_keep_pagetable _ _ (M6 i))|].
  exists fl, t1, t0. apply (uspace_same s); [done..|]. pose proof (vm_locks _ _ _ _ _ (us_vm _ _ _ _ _ U)) as HL. unfold alloc_locks_free in *. by rewrite M4.
Qed.

Definition ulen (l : list Z) : Z := Z.of_nat (length l).

(** ** Reading from the process *)

Record from_user (i root : Z) (p : place) (rest : list Z) (s : kstate) : Prop := {
  fu_space : in_space i root s;
  fu_bytes : exists va, p = User va /\ 0 <= va /\ va + ulen rest <= MAXVA /\
    (forall j, 0 <= j < ulen rest -> in_user s root (va + j)) /\ uread (k_mem s) root va (ulen rest) = rest
}.

#[export] Instance from_user_source i root : Source (from_user i root).
Proof.
  split.
  - intros p rest s s' [H1 (va & -> & H2 & H3 & H4 & H5)] M. split; [by eapply in_space_same|]. exists va.
    pose proof (um_mem _ _ M) as E. unfold in_user in *. rewrite E. done.
  - intros p rest s [_ (va & _ & _ & _ & _ & <-)]. apply Forall_forall. intros b (j & -> & _)%list_elem_of_fmap. apply u8_range.
  - intros p rest m s [H1 (va & -> & H2 & H3 & H4 & H5)] Hm. pose proof H1 as [Hc Hr (fl & t1 & t0 & U)]. unfold ulen in *.
    assert (rest = uread (k_mem s) root va m ++ uread (k_mem s) root (va + m) (Z.of_nat (length rest) - m)) as Hsplit.
    { rewrite <- uread_app by lia. rewrite <- H5 at 1. f_equal. lia. }
    assert (length (uread (k_mem s) root va m) = Z.to_nat m) as Hlm by (unfold uread; by rewrite length_map, length_seqZ).
    assert (take (Z.to_nat m) rest = uread (k_mem s) root va m) as Ht.
    { rewrite Hsplit, take_app_le, take_ge by lia. done. }
    assert (drop (Z.to_nat m) rest = uread (k_mem s) root (va + m) (Z.of_nat (length rest) - m)) as Hd.
    { rewrite Hsplit at 1. rewrite drop_app_ge by lia. rewrite Hlm, Nat.sub_diag. done. }
    split.
    + unfold either_copyin. rewrite (bind_ok _ _ _ _ _ (curproc_run i s Hc)). erewrite bind_ok by reflexivity. rewrite Hr, Ht.
      apply (copyin_ok s fl root t1 t0 (us_vm _ _ _ _ _ U)); [lia|]. intros j Hj. apply H4. lia.
    + split; [done|]. exists (va + m). cbn [place_add]. rewrite u64_small by (change MAXVA with 0x4000000000 in H3; lia). unfold ulen. rewrite length_drop.
      split; [done|]. split; [lia|]. split; [lia|]. split.
      * intros j Hj. rewrite <- Z.add_assoc. apply H4. lia.
      * rewrite Hd. f_equal. lia.
Qed.

(** A prefix of what there is to read. *)
Lemma from_user_take i root p rest m s : from_user i root p rest s -> from_user i root p (take m rest) s.
Proof.
  intros [H1 (va & -> & H2 & H3 & H4 & H5)]. unfold ulen in *. pose proof (length_take rest m) as Hl. split; [done|]. exists va. unfold ulen.
  split; [done|]. split; [done|]. split; [lia|]. split; [intros j Hj; apply H4; lia|].
  set (n := Z.of_nat (length (take m rest))) in *.
  assert (rest = uread (k_mem s) root va n ++ uread (k_mem s) root (va + n) (Z.of_nat (length rest) - n)) as Hsplit.
  { rewrite <- uread_app by lia. rewrite <- H5 at 1. f_equal. lia. }
  assert (length (uread (k_mem s) root va n) = Z.to_nat n) as Hu by (unfold uread; by rewrite length_map, length_seqZ).
  rewrite <- (take_app_length' (uread (k_mem s) root va n) (uread (k_mem s) root (va + n) (Z.of_nat (length rest) - n)) (Z.to_nat n) ltac:(done)).
  rewrite <- Hsplit. unfold n. rewrite Nat2Z.id, length_take. destruct (Nat.le_ge_cases m (length rest)).
  - by rewrite Nat.min_l.
  - rewrite Nat.min_r by done. by rewrite !take_ge.
Qed.

(** A piece of it. *)
Lemma from_user_piece i root addr src k m s : from_user i root (User addr) src s -> 0 <= k <= ulen src ->
  from_user i root (User (u64 (addr + k))) (take m (drop (Z.to_nat k) src)) s.
Proof. intros H Hk. apply from_user_take. exact (proj2 (sr_copy _ _ k _ H Hk)). Qed.

(** ** Writing to the process *)

Section to_user.
Variables (i root va N : Z) (m0 : mem).

(** Since the memory was [m0], the bytes [out] were stored from [va] on. *)
Record to_user (p : place) (out : list Z) (s : kstate) : Prop := {
  tu_space : in_space i root s;
  tu_place : p = User (va + ulen out);
  tu_range : 0 <= va /\ va + N <= MAXVA /\ ulen out <= N;
  tu_open : forall w, va / PGSIZE <= w <= (va + N - 1) / PGSIZE -> open_page s root w;
  tu_ent : forall w, ent (k_mem s) root w = ent m0 root w;
  tu_bytes : forall a, 0 <= a < MAXVA -> uvalid m0 root a = true ->
    ubyte (k_mem s) root a = if decide (va <= a < va + ulen out) then nth (Z.to_nat (a - va)) out 0 else ubyte m0 root a
}.

#[export] Instance to_user_sink : Sink N to_user.
Proof.
  split.
  - intros p out s s' [H1 H2 H3 H4 H5 H6] M. pose proof (um_mem _ _ M) as E. split; rewrite ?E; try done; [by eapply in_space_same|].
    intros w Hw. unfold open_page. rewrite E. by apply H4.
  - intros p out bs s [H1 -> H3 H4 H5 H6] Hbs Hl. pose proof H1 as [Hc Hr (fl & t1 & t0 & U)]. rewrite length_app in Hl. unfold ulen in *.
    destruct (copyout_open s fl root t1 t0 U (va + Z.of_nat (length out)) bs) as (s' & E & [S1 S2 S3 S4]); [lia|lia|done| |].
    { intros w Hw. apply H4. unfold PGSIZE in *. zlia. }
    exists s'. split.
    + unfold either_copyout. rewrite (bind_ok _ _ _ _ _ (curproc_run i s Hc)). erewrite bind_ok by reflexivity. by rewrite Hr.
    + split; [done|]. split; unfold ulen; rewrite ?length_app.
      * split; [by rewrite S1|by rewrite S1|by exists fl, t1, t0].
      * cbn [place_add]. rewrite u64_small by (change MAXVA with 0x4000000000 in *; lia). f_equal. lia.
      * lia.
      * intros w Hw. unfold open_page. rewrite S3. by apply H4.
      * intros w. by rewrite S3, H5.
      * intros a Ha Hv. rewrite S4; [|done|unfold uvalid in *; by rewrite H5]. rewrite H6 by done.
        destruct (decide (va + Z.of_nat (length out) <= a < va + Z.of_nat (length out) + Z.of_nat (length bs))).
        -- rewrite decide_True by lia. rewrite app_nth2 by lia. f_equal. lia.
        -- destruct (decide (va <= a < va + Z.of_nat (length out))).
           ++ rewrite decide_True by lia. by rewrite app_nth1 by lia.
           ++ by rewrite decide_False by lia.
Qed.
End to_user.

(** ** Kernel variables *)

(** A local variable as a source. *)
Definition from_local (p : place) (rest : list Z) (s : kstate) : Prop := p = Klocal rest /\ Forall byte rest.

#[export] Instance from_local_source : Source from_local.
Proof.
  split.
  - done.
  - by intros p rest s [_ H].
  - intros p rest m s [-> Hb] Hm. cbn [either_copyin place_add]. rewrite (proj2 (Z.ltb_ge _ _)) by lia. split; [done|]. split; [done|by apply Forall_drop].
Qed.

(** A local variable as a destination takes any number of bytes, and memory
    stays [m]. *)
Definition to_local (m : mem) (p : place) (out : list Z) (s : kstate) : Prop := (exists bs, p = Klocal bs) /\ k_mem s = m.

#[export] Instance to_local_sink N m : Sink N (to_local m).
Proof.
  split.
  - intros p out s s' [H1 H2] M. split; [done|]. by rewrite (um_mem _ _ M).
  - intros p out bs s [[l ->] Hm] _ _. exists s. split; [done|]. split; [by destruct s|]. split; [by eexists|done].
Qed.
End user.

(** * Reading and writing open files (kernel/file.c, filewrite and fileread)

    A write to an open file splices the bytes of the process into it, one
    transaction for each piece.  A crash in between leaves the file with a
    prefix of the bytes.  A read hands out what is there. *)

(** ** Splicing in pieces *)

Lemma splice_nil off l : splice off [] l = l.
Proof. unfold splice. cbn [length app]. by rewrite Nat.add_0_r, take_drop. Qed.

Lemma splice_splice off a b l : 0 <= off <= Z.of_nat (length l) ->
  splice (off + Z.of_nat (length a)) b (splice off a l) = splice off (a ++ b) l.
Proof.
  intros Ho. unfold splice. set (k := Z.to_nat off). replace (Z.to_nat (off + Z.of_nat (length a))) with (k + length a)%nat by lia.
  assert (length (take k l) = k) as Hk by (rewrite length_take; lia). rewrite !(app_assoc (take k l) a). rewrite length_app.
  rewrite take_app_length' by (rewrite length_app; lia). rewrite drop_app_ge by (rewrite length_app; lia).
  rewrite length_app, Hk, drop_drop, <- !app_assoc. do 4 f_equal. lia.
Qed.

Lemma take_pieces {A} (l : list A) a b : take a l ++ take b (drop a l) = take (a + b) l.
Proof. by rewrite take_take_drop. Qed.

(** ** Frames *)

Lemma blocks_ftable i pb own V D P s t : blocks i pb own V D P s -> blocks i pb own V D P (k_set_ftable t s).
Proof.
  intros [(pin & l & [] & Hpin) [[] ? ?] ? ? ? ? ?]. split; try done.
  exists pin, l. split; [by split|done].
Qed.

Lemma txn_ftable i st n bl own V D P s t : txn i st n bl own V D P s -> txn i st n bl own V D P (k_set_ftable t s).
Proof. intros []. split; try done. by apply blocks_ftable. Qed.

Lemma locked_keep i ip s s' : locked_by i ip s -> fframe s s' -> locked_by i ip s'.
Proof.
  intros L F. unfold locked_by in *. rewrite (fframe_ilock _ _ ip F), L. f_equal. symmetry.
  apply proc_keep_pid, (um_procs _ _ (fframe_user _ _ F)).
Qed.

(** Of the inodes and the open files, only [ip] and [f] change. *)
Record op_frame (ip f : Z) (s s' : kstate) : Prop := {
  of_user : user_same s s';
  of_inodes : forall j, j <> ip -> k_itable s' j = k_itable s j;
  of_files : forall j, j <> f -> k_ftable s' j = k_ftable s j
}.

Lemma op_refl ip f s : op_frame ip f s s.
Proof. split; [apply user_same_refl|done|done]. Qed.

Lemma op_trans ip f s1 s2 s3 : op_frame ip f s1 s2 -> op_frame ip f s2 s3 -> op_frame ip f s1 s3.
Proof.
  intros [A1 A2 A3] [B1 B2 B3]. split; [by eapply user_same_trans| |].
  - intros j Hj. by rewrite B2, A2.
  - intros j Hj. by rewrite B3, A3.
Qed.

Lemma op_iframe ip f s s' : iframe ip s s' -> op_frame ip f s s'.
Proof. intros [F H]. split; [by apply fframe_user|done|]. intros j _. by rewrite (fframe_ftable _ _ F). Qed.

Lemma op_quiet ip f s s' : quiet s s' -> op_frame ip f s s'.
Proof. intros Q. split; [by apply quiet_user|by rewrite (quiet_itable _ _ Q)|by rewrite (quiet_ftable _ _ Q)]. Qed.

Lemma op_file ip f g s : op_frame ip f s (upd_file f g s).
Proof. split; [split; try done; intros j; apply proc_keep_refl|done|]. intros j Hj. by apply fupd_ne. Qed.

#[export] Hint Resolve op_refl op_iframe op_quiet op_file : xv6.

(** ** Files at rest *)

Lemma matches_sym st A B : matches st A B -> matches st B A.
Proof. intros M m Hm. symmetry. by apply M. Qed.

Lemma matches_trans st A B C : matches st A B -> matches st B C -> matches st A C.
Proof. intros M N m Hm. etrans; [by apply M|by apply N]. Qed.

(** Inode [ino] of the disk [d] is a file with the bytes [bs]. *)
Definition on_disk (st : Z) (sb : superblock) (d : contents) (ino : Z) (bs : list Z) : Prop :=
  exists y, i_inum y = ino /\ inode_ok st sb d y /\ saved d sb y /\ data d y = bs.

Lemma on_disk_matches st sb V d y : fs_bitmap st sb V -> inode_ok st sb V y -> saved V sb y -> matches st d V ->
  on_disk st sb d (i_inum y) (data V y).
Proof.
  intros F I S M. destruct (matches_file st sb V d F M y I) as [I' E]. exists y. split; [done|]. split; [done|]. split; [|done].
  eapply matches_saved; [done..|apply I|done].
Qed.

Section file.
Context {LAY : Layout} {ENV : Env} {DSK : Disk}.
Variables (i st : Z) (sb : superblock) (ip f : Z).

(** No operation is under way, and inode [ip], in memory and unlocked, is a
    file that the disk holds. *)
Record resting (V D : contents) (P : list contents) (x : inode) (s : kstate) : Prop := {
  rs_txn : txn i st 0 [] [] V D P s;
  rs_sb : k_sb s = sb;
  rs_inode : k_itable s ip = x;
  rs_valid : i_valid x = true;
  rs_ref : 1 <= i_ref x;
  rs_unlocked : sl_locked (k_sleeplocks s (SL_inode ip)) = false;
  rs_ok : inode_ok st sb V x;
  rs_bitmap : fs_bitmap st sb V;
  rs_range : inode_range x;
  rs_saved : saved V sb x
}.

Lemma resting_disk V D P x s : resting V D P x s -> matches st D V.
Proof.
  intros R m _. symmetry. apply (blocks_clean _ _ _ _ _ _ _ _ (tx_blocks _ _ _ _ _ _ _ _ _ (rs_txn _ _ _ _ _ R))); apply not_elem_of_nil.
Qed.

(** The steps that open a transaction on the file. *)
Lemma open_op V D P x s : resting V D P x s -> exists s1 s2, begin_op s = Ok tt s1 /\ ilock ip s1 = Ok tt s2 /\
  at_inode i st 1 sb D P [] [] V ip x s2 /\ locked_by i ip s2 /\ op_frame ip f s s2 /\ k_ftable s2 = k_ftable s.
Proof.
  intros [T Hs Hx Hv Hr Hl I F R S]. destruct (begin_op_rule i st 0 [] [] V D P s T ltac:(done)) as (s1 & E1 & T1 & F1).
  assert (k_itable s1 ip = x) as Hx1 by by rewrite (tframe_itable _ _ F1).
  destruct (ilock_valid i st 1 D P [] [] V ip s1 T1) as (s2 & E2 & T2 & Q2 & L2); [by rewrite Hx1|by rewrite Hx1| |].
  { by rewrite (fframe_ilock _ _ ip (fframe_of _ _ F1)). }
  exists s1, s2. split; [done|]. split; [done|]. split; [|split; [done|split]].
  - split; [done|by rewrite (quiet_sb _ _ Q2), (tframe_sb _ _ F1)|by rewrite (quiet_itable _ _ Q2)].
  - apply (op_trans _ _ _ s1); auto with xv6.
  - by rewrite (quiet_ftable _ _ Q2), (fframe_ftable _ _ (fframe_of _ _ F1)).
Qed.

(** The steps that close it commit: a crash shows the file before or after. *)
Lemma close_op bl V V1 D P x x1 s : at_inode i st 1 sb D P bl [] V1 ip x1 s -> locked_by i ip s -> Z.of_nat (length bl) < NBUF -> matches st D V ->
  i_valid x1 = true -> 1 <= i_ref x1 -> inode_ok st sb V1 x1 -> fs_bitmap st sb V1 -> inode_range x1 -> saved V1 sb x1 ->
  fs_bitmap st sb V -> inode_ok st sb V x -> saved V sb x -> i_inum x1 = i_inum x ->
  exists s1 s' V' D' news, iunlock ip s = Ok tt s1 /\ end_op s1 = Ok tt s' /\ resting V' D' (news ++ P) x1 s' /\ matches st V' V1 /\
    op_frame ip f s s' /\ k_ftable s' = k_ftable s /\
    forall d, d ∈ D' :: news -> recoverable st d /\
      (on_disk st sb (recovered st d) (i_inum x) (data V x) \/ on_disk st sb (recovered st d) (i_inum x) (data V1 x1)).
Proof.
  intros [T Hs Hx] L Hbl HD Hv Hr I1 F1 R1 S1 F I S Hi. destruct (iunlock_rule i st 1 D P bl [] V1 ip s T ltac:(by rewrite Hx) L) as (s1 & E1 & T1 & Q1 & U1).
  destruct (end_op_commit i st bl V1 D P s1 T1 Hbl) as (s' & V' & D' & news & E2 & T2 & F2 & M1 & M2 & Hc).
  exists s1, s', V', D', news. split; [done|]. split; [done|]. split; [|split; [done|split; [|split]]].
  - destruct (matches_file st sb V1 V' F1 M1 x1 I1) as [I' _]. split; try done.
    + by rewrite (tframe_sb _ _ F2), (quiet_sb _ _ Q1).
    + by rewrite (tframe_itable _ _ F2), (quiet_itable _ _ Q1).
    + by rewrite (fframe_ilock _ _ ip (fframe_of _ _ F2)).
    + exact (matches_bitmap st sb V1 V' F1 M1).
    + exact (matches_saved st sb V1 V' F1 M1 x1 (in_inum _ _ _ _ I1) S1).
  - apply (op_trans _ _ _ s1); auto with xv6.
  - by rewrite (fframe_ftable _ _ (fframe_of _ _ F2)), (quiet_ftable _ _ Q1).
  - intros d Hd. destruct (Hc d Hd) as [H1 H2]. split; [done|]. destruct H2 as [H2|H2].
    + left. apply on_disk_matches; [done..|]. by eapply matches_trans.
    + right. rewrite <- Hi. by apply on_disk_matches.
Qed.

(** ** One transaction of filewrite *)

(** What happened to the disk concerns this file alone. *)
Record keeps (V : contents) (x : inode) (V' : contents) (x' : inode) : Prop := {
  kp_others : undisturbed st sb V x V';
  kp_owns : forall m, owns V' x' m -> owns V x m \/ used V sb m = false;
  kp_inum : i_inum x' = i_inum x
}.

Lemma keeps_refl V x : keeps V x V x.
Proof. split; [by split|by left|done]. Qed.

Lemma keeps_trans V x V1 x1 V2 x2 : inode_ok st sb V2 x2 -> keeps V x V1 x1 -> keeps V1 x1 V2 x2 -> keeps V x V2 x2.
Proof.
  intros I [[A1 A2 A3] A4 A5] [[B1 B2 B3] B4 B5]. split; [split| |congruence].
  - intros m Hm Hu. by apply B1, A1.
  - intros m Hm Hu Hl Hp Ho Hi. rewrite B2; [by apply A2|done|by apply A1|done|done| |by rewrite A5].
    intros H. destruct (A4 m H) as [?|E]; [done|]. by rewrite Hu in E.
  - intros y Hy Hne S. apply B3; [done|by rewrite A5|]. by apply A3.
  - intros m H. destruct (B4 m H) as [H1|H1]; [by apply A4|right]. destruct (used V sb m) eqn:E; [|done].
    rewrite A1 in H1; [done|by apply (in_data _ _ _ _ I m H)|done].
Qed.

Lemma keeps_matches V x V1 V2 x' : fs_bitmap st sb V1 -> inode_ok st sb V1 x' -> matches st V2 V1 -> keeps V x V1 x' -> keeps V x V2 x'.
Proof.
  intros F I M [A B C]. split; [exact (matches_undisturbed st sb V1 V2 F M V x A)| |done].
  intros m H. apply B. exact (proj1 (matches_owns st sb V1 V2 F M x' m I) H).
Qed.

(** The file does not grow into another one. *)
Lemma keeps_apart V x V' x' y m : keeps V x V' x' -> inode_ok st sb V y -> (forall k, owns V x k -> ~ owns V y k) ->
  0 <= i_inum x < sb_ninodes sb -> owns V' y m -> ~ owns V' x' m.
Proof.
  intros [U Ho _] I Hd Hx Hy Hm. assert (owns V y m) as Hy0.
  { apply (same_blocks V V' y); [|done]. intros k Hk. destruct (in_data _ _ _ _ I k Hk) as (H1 & H2 & H3).
    apply (ud_block _ _ _ _ _ U); [done|done|by eapply meta_log| | |apply not_eq_sym; by apply (meta_inode st)].
    - intros c Hc. by apply (meta_bitmap st).
    - intros H. by apply (Hd k). }
  destruct (Ho m Hm) as [H|H]; [by apply (Hd m)|]. by rewrite (proj1 (proj2 (in_data _ _ _ _ I m Hy0))) in H.
Qed.

Definition count (r : Z) : Z := Z.max 0 r.

(** [writei] returned [r]: so many bytes are in the file, and fewer than asked
    for only when the disk or the file is full. *)
Record piece (V : contents) (x : inode) (off : Z) (src : list Z) (r : Z) (V' : contents) (x' : inode) : Prop := {
  pc_count : -1 <= r <= Z.of_nat (length src);
  pc_short : r < Z.of_nat (length src) -> full sb V' \/ MAXFILE * BSIZE < off + Z.of_nat (length src);
  pc_data : data V' x' = splice off (take (Z.to_nat (count r)) src) (data V x);
  pc_keeps : keeps V x V' x'
}.

(** [writei] past the largest file does nothing. *)
Lemma writei_too_big V D P bl x s q off len : at_inode i st 1 sb D P bl [] V ip x s -> inode_ok st sb V x -> 0 <= off <= i_size x ->
  MAXFILE * BSIZE < off + len -> 0 <= len < 0x80000000 -> writei ip q off len s = Ok (-1) s.
Proof.
  intros A I Ho Hb Hl. pose proof (in_size _ _ _ _ I) as Hs. unfold writei.
  rewrite (bind_ok _ _ _ _ _ (inode_of_run ip s)), (ai_inode _ _ _ _ _ _ _ _ _ _ _ _ A), (u32_small (off + len)) by flia.
  rewrite (Z.gtb_ltb off), (proj2 (Z.ltb_ge (i_size x) off)), (proj2 (Z.ltb_ge (off + len) off)) by lia. cbn [orb].
  by rewrite Z.gtb_ltb, (proj2 (Z.ltb_lt (MAXFILE * BSIZE) (off + len))) by lia.
Qed.

Hypothesis Hone : sb_size sb <= BPB.
Variable root : Z.

(** [writei] of at most [max_write] bytes, on every branch. *)
Lemma writei_piece V D P x s q off src (len := Z.of_nat (length src)) : at_inode i st 1 sb D P [] [] V ip x s -> inode_ok st sb V x ->
  fs_bitmap st sb V -> inode_range x -> saved V sb x -> 0 <= off <= i_size x -> len <= max_write -> from_user i root q src s ->
  exists r s' bl V' x', writei ip q off len s = Ok r s' /\ iframe ip s s' /\ at_inode i st 1 sb D P bl [] V' ip x' s' /\
    Z.of_nat (length bl) < NBUF /\ piece V x off src r V' x' /\ inode_ok st sb V' x' /\ fs_bitmap st sb V' /\ inode_range x' /\ saved V' sb x' /\
    i_valid x' = i_valid x /\ i_ref x' = i_ref x.
Proof using Hone DSK.
  intros A I F R S Ho Hl HS. change max_write with 3072 in Hl. destruct (Z.lt_ge_cases (MAXFILE * BSIZE) (off + len)) as [Hb|Hb].
  - exists (-1), s, [], V, x. split; [apply (writei_too_big V D P [] x); [done|done|done|done|unfold len in *; lia]|]. split; [apply iframe_refl|]. split; [done|]. split; [done|].
    split; [|done]. split; [lia|by right| |apply keeps_refl]. change (Z.to_nat (count (-1))) with 0%nat. by rewrite take_0, splice_nil.
  - assert ((off + len - 1) / BSIZE - off / BSIZE + 1 <= 4) as Hspan by (unfold BSIZE; zlia).
    assert (Z.of_nat (length (@nil Z)) + ((off + len - 1) / BSIZE - off / BSIZE + 1) + 8 <= LOGBLOCKS) as Hroom by (change LOGBLOCKS with 30; cbn [length]; lia).
    destruct (writei_rule i st 1 sb D P ltac:(lia) Hone (from_user i root) [] V ip x off src s Ho Hb (sr_bytes _ _ _ HS) I F
      Hroom q A HS R) as (r & s' & bl & V' & x' & E & Fr & A' & W).
    destruct W as [W1 W2 _ W3 W4 W5 W6 W7 W8 W9 W10 W11]. exists r, s', bl, V', x'. split; [done|]. split; [done|]. split; [done|].
    split; [change NBUF with 30; change (Z.of_nat (length (@nil Z))) with 0 in W11; fold len in W11; lia|].
    assert (i_valid x' = i_valid x /\ i_ref x' = i_ref x /\ i_inum x' = i_inum x) as (H1 & H2 & H3) by (rewrite W8; done). split; [|done].
    split; [lia|by left; apply W2| |by split]. unfold count. by rewrite Z.max_r by lia.
Qed.

(** Whatever disk of the history a crash leaves, recovery finds the file with
    a prefix of [src] in it. *)
Definition prefix_on_disk (V : contents) (x : inode) (off : Z) (src : list Z) (d : contents) : Prop :=
  recoverable st d /\ exists k, (k <= length src)%nat /\ on_disk st sb (recovered st d) (i_inum x) (splice off (take k src) (data V x)).

Definition moved (off : Z) (s s' : kstate) : Prop := k_ftable s' f = f_set_off off (k_ftable s f).

Lemma f_off_same x : f_set_off (f_off x) x = x.
Proof. by destruct x. Qed.

Lemma chunk_rule V D P x s addr k off src (len := Z.of_nat (length src)) : resting V D P x s -> f_off (k_ftable s f) = off ->
  0 <= off <= i_size x -> len <= max_write -> from_user i root (User (u64 (addr + k))) src s ->
  exists r s' V' D' news x', filewrite_chunk f ip addr k len s = Ok r s' /\ resting V' D' (news ++ P) x' s' /\
    piece V x off src r V' x' /\ op_frame ip f s s' /\ moved (off + count r) s s' /\
    forall d, d ∈ D' :: news -> prefix_on_disk V x off src d.
Proof using Hone DSK.
  intros R Hof Ho Hl HS. pose proof R as [T Hs Hx Hv Hr Hlk I F Rg Sv]. pose proof (in_size _ _ _ _ I) as Hsz.
  destruct (open_op V D P x s R) as (s1 & s2 & E1 & E2 & A2 & L2 & F2 & Ft2).
  destruct (writei_piece V D P x s2 (User (u64 (addr + k))) off src A2 I F Rg Sv Ho Hl (sr_frame _ _ _ _ HS (of_user _ _ _ _ F2)))
    as (r & s3 & bl & V1 & x1 & E3 & Fr3 & A3 & Hbl & Pc & I1 & F1 & R1 & S1 & Hv1 & Hr1).
  set (g := fun y => f_set_off (u32 (f_off y + r)) y). set (s4 := if r >? 0 then upd_file f g s3 else s3).
  assert (at_inode i st 1 sb D P bl [] V1 ip x1 s4 /\ locked_by i ip s4 /\ op_frame ip f s3 s4 /\ moved (off + count r) s s4) as (A4 & L4 & O4 & M4).
  { pose proof (pc_count _ _ _ _ _ _ _ Pc) as Hc. pose proof (locked_keep i ip s2 s3 L2 (if_frame _ _ _ Fr3)) as L3.
    assert (k_ftable s3 f = k_ftable s f) as Ef by by rewrite (fframe_ftable _ _ (if_frame _ _ _ Fr3)), Ft2.
    unfold s4, moved, count. change max_write with 3072 in Hl. destruct (Z.gtb_spec r 0) as [Hp|Hp].
    - split; [destruct A3 as [T3 ? ?]; split; [by apply txn_ftable|done|done]|]. split; [done|]. split; [auto with xv6|].
      change (fupd (k_ftable s3) f (g (k_ftable s3 f)) f = f_set_off (off + Z.max 0 r) (k_ftable s f)). rewrite fupd_eq, Ef. unfold g.
      rewrite Hof, Z.max_r, u32_small by flia. done.
    - split; [done|]. split; [done|]. split; [auto with xv6|]. rewrite Z.max_l, Z.add_0_r, <- Hof, f_off_same by lia. done. }
  destruct (close_op bl V V1 D P x x1 s4 A4 L4 Hbl (resting_disk _ _ _ _ _ R) ltac:(by rewrite Hv1) ltac:(by rewrite Hr1) I1 F1 R1 S1 F I Sv
    (kp_inum _ _ _ _ (pc_keeps _ _ _ _ _ _ _ Pc))) as (s5 & s' & V' & D' & news & E5 & E6 & R' & M' & O' & Ft' & Hc).
  exists r, s', V', D', news, x1. split; [|split; [done|split; [|split; [|split]]]].
  - unfold filewrite_chunk. rewrite (bind_ok _ _ _ _ _ E1), (bind_ok _ _ _ _ _ E2), (bind_ok _ _ _ (k_ftable s2 f) s2) by reflexivity.
    rewrite Ft2, Hof, (bind_ok _ _ _ _ _ E3). rewrite (bind_ok _ _ _ tt s4) by (unfold s4; by destruct (r >? 0)).
    by rewrite (bind_ok _ _ _ _ _ E5), (bind_ok _ _ _ _ _ E6).
  - destruct Pc as [P1 P2 P3 P4]. split; [done| | |by eapply keeps_matches].
    + intros Hlt. destruct (P2 Hlt) as [Hf|?]; [left|by right]. intros c Hcr. rewrite (matches_used st sb V1 V' F1 M') by done. by apply Hf.
    + rewrite <- P3. exact (proj2 (matches_file st sb V1 V' F1 M' x1 I1)).
  - apply (op_trans _ _ _ s2); [done|]. apply (op_trans _ _ _ s3); [auto with xv6|]. by apply (op_trans _ _ _ s4).
  - unfold moved. rewrite Ft'. exact M4.
  - intros d Hd. destruct (Hc d Hd) as [H1 [H2|H2]]; (split; [done|]).
    + exists 0%nat. split; [lia|]. by rewrite take_0, splice_nil.
    + exists (Z.to_nat (count r)). pose proof (pc_count _ _ _ _ _ _ _ Pc). split; [unfold count; lia|]. by rewrite <- (pc_data _ _ _ _ _ _ _ Pc).
Qed.

(** ** The loop of filewrite *)

Section loop.
Variables (V D : contents) (P : list contents) (x : inode) (s : kstate) (addr off : Z) (src : list Z).
Let n := Z.of_nat (length src).
Hypotheses (R : resting V D P x s) (Hof : f_off (k_ftable s f) = off) (Ho : 0 <= off <= i_size x) (HS : from_user i root (User addr) src s).

(** The first [k] bytes are written; [news] are the disks since. *)
Record progress (k : Z) (news : list contents) (V1 D1 : contents) (x1 : inode) (s1 : kstate) : Prop := {
  pg_rest : resting V1 D1 (news ++ P) x1 s1;
  pg_count : 0 <= k <= n;
  pg_data : data V1 x1 = splice off (take (Z.to_nat k) src) (data V x);
  pg_keeps : keeps V x V1 x1;
  pg_frame : op_frame ip f s s1;
  pg_moved : moved (off + k) s s1;
  pg_crash : forall d, d ∈ D1 :: news -> prefix_on_disk V x off src d
}.

Lemma splice_more k j : 0 <= k <= n -> splice (off + k) (take j (drop (Z.to_nat k) src)) (splice off (take (Z.to_nat k) src) (data V x)) =
  splice off (take (Z.to_nat k + j) src) (data V x).
Proof using Ho.
  intros Hk. rewrite <- take_pieces, <- splice_splice by (rewrite data_length; lia). do 2 f_equal. rewrite length_take. lia.
Qed.

Lemma progress_start : progress 0 [] V D x s.
Proof using R Hof.
  split; [done|lia|by rewrite take_0, splice_nil|apply keeps_refl|apply op_refl| |].
  - unfold moved. by rewrite Z.add_0_r, <- Hof, f_off_same.
  - pose proof R as [T _ _ _ _ _ I F _ Sv]. pose proof (tx_head _ _ _ _ _ _ _ _ _ T) as Hh. intros d ->%list_elem_of_singleton. split.
    + exists []. split; [done|]. apply T.
    + exists 0%nat. split; [lia|]. rewrite take_0, splice_nil. apply on_disk_matches; [done..|]. apply recovered_empty; [done|]. by eapply resting_disk.
Qed.

Lemma progress_size k news V1 D1 x1 s1 : progress k news V1 D1 x1 s1 -> 0 <= off + k <= i_size x1.
Proof using Ho.
  intros G. pose proof (pg_count _ _ _ _ _ _ G) as Hk. pose proof (in_size _ _ _ _ (rs_ok _ _ _ _ _ (pg_rest _ _ _ _ _ _ G))) as Hs.
  pose proof (f_equal length (pg_data _ _ _ _ _ _ G)) as E. unfold splice in E. rewrite !length_app, !length_take, !data_length in E. lia.
Qed.

Lemma progress_step k news V1 D1 x1 s1 (n1 := Z.min (n - k) max_write) : progress k news V1 D1 x1 s1 -> k < n ->
  exists r s2 news2 V2 D2 x2, filewrite_chunk f ip addr k n1 s1 = Ok r s2 /\ -1 <= r <= n1 /\ progress (k + count r) news2 V2 D2 x2 s2 /\
    (r < n1 -> full sb V2 \/ MAXFILE * BSIZE < off + n).
Proof using Hone DSK R Hof Ho HS.
  intros G Hlt. pose proof (progress_size _ _ _ _ _ _ G) as Hsz. pose proof G as [G1 G2 G3 G4 G5 G6 G7]. change max_write with 3072 in n1.
  set (pc := take (Z.to_nat n1) (drop (Z.to_nat k) src)). assert (Z.of_nat (length pc) = n1) as Hpc by (unfold pc; rewrite length_take, length_drop; lia).
  destruct (chunk_rule V1 D1 (news ++ P) x1 s1 addr k (off + k) pc) as (r & s2 & V2 & D2 & nw & x2 & E & R2 & Pc & O2 & M2 & C2).
  { done. } { by rewrite G6. } { done. } { rewrite Hpc. change max_write with 3072. lia. }
  { apply (sr_frame _ _ s); [|apply G5]. apply from_user_piece; [done|]. unfold ulen. lia. }
  rewrite Hpc in *. destruct Pc as [P1 P2 P3 P4]. rewrite Hpc in *. exists r, s2, (nw ++ news), V2, D2, x2.
  assert (forall j, splice (off + k) (take j pc) (data V1 x1) = splice off (take (Z.to_nat k + Nat.min j (Z.to_nat n1)) src) (data V x)) as Hsp.
  { intros j. rewrite G3. unfold pc. rewrite take_take. by apply splice_more. }
  split; [done|]. split; [done|]. split; [|intros H; destruct (P2 H); [by left|right; lia]]. split.
  - by rewrite <- app_assoc.
  - unfold count. lia.
  - rewrite P3, Hsp. do 2 f_equal. unfold count. lia.
  - apply (keeps_trans V x V1 x1); [apply R2|done|done].
  - by apply (op_trans _ _ _ s1).
  - unfold moved in *. rewrite M2, G6, Z.add_assoc. done.
  - intros d Hd. assert (d ∈ D2 :: nw \/ d ∈ D1 :: news) as [H|H] by set_solver; [|by apply G7]. destruct (C2 d H) as [H1 (j & Hj & H2)]. split; [done|].
    exists (Z.to_nat k + Nat.min j (Z.to_nat n1))%nat. split; [lia|]. rewrite <- Hsp. by rewrite <- (kp_inum _ _ _ _ G4).
Qed.

(** [filewrite] writes all, or a prefix when the disk or the file is full. *)
Lemma filewrite_rule : f_writable (k_ftable s f) = true -> f_type (k_ftable s f) = FD_INODE -> f_ip (k_ftable s f) = Some ip ->
  exists r s' news V' D' x', filewrite f addr n s = Ok (if r =? n then n else -1) s' /\ progress r news V' D' x' s' /\
    (r < n -> full sb V' \/ MAXFILE * BSIZE < off + n).
Proof using Hone DSK R Hof Ho HS.
  intros Hw Ht Hi. destruct (wpx_total (filewrite f addr n) (fun v s' => exists r news V' D' x', v = (if r =? n then n else -1) /\
    progress r news V' D' x' s' /\ (r < n -> full sb V' \/ MAXFILE * BSIZE < off + n)) s) as (v & s' & E & r & news & V' & D' & x' & -> & H); [|by exists r, s', news, V', D', x'].
  unfold filewrite. eapply wpx_bind_ok; [reflexivity|]. rewrite Hw, Ht. cbn [negb]. unfold ip_of. rewrite Hi. eapply wpx_bind_ok; [reflexivity|]. apply wpx_bind.
  apply (wpx_iter true (fun k s1 => exists news V1 D1 x1, progress k news V1 D1 x1 s1) (fun k => Z.to_nat (n - k))).
  - intros k s1 (news & V1 & D1 & x1 & G). pose proof (pg_count _ _ _ _ _ _ G) as Hk. destruct (Z.ltb_spec k n) as [Hlt|Hge].
    2: { apply wpx_ret, wpx_ret. exists k, news, V1, D1, x1. split; [done|]. split; [done|lia]. }
    destruct (progress_step _ _ _ _ _ _ G Hlt) as (r & s2 & nw & V2 & D2 & x2 & E & Hr & G2 & Hs). eapply wpx_bind_ok; [exact E|].
    change max_write with 3072 in *. destruct (Z.eqb_spec r (Z.min (n - k) 3072)) as [Heq|Hne]; cbn [negb]; apply wpx_ret.
    + unfold count in G2. rewrite Z.max_r in G2 by lia. split; [by exists nw, V2, D2, x2|lia].
    + apply wpx_ret. exists (k + count r), nw, V2, D2, x2. unfold count in *.
      rewrite (proj2 (Z.eqb_neq k n)), (proj2 (Z.eqb_neq (k + Z.max 0 r) n)) by lia. split; [done|]. split; [done|]. intros _. apply Hs. lia.
  - exists [], V, D, x. apply progress_start.
  - lia.
Qed.
End loop.

(** ** fileread *)

Lemma data_part V x off r : 0 <= off -> 0 <= r <= i_size x - off ->
  map (byte_at V x) (seqZ off r) = take (Z.to_nat r) (drop (Z.to_nat off) (data V x)).
Proof.
  intros Ho Hr. unfold data. rewrite <- fmap_drop, <- fmap_take. f_equal. replace (i_size x) with (off + (r + (i_size x - off - r))) by lia.
  rewrite !seqZ_app by lia. rewrite drop_app_length' by (rewrite length_seqZ; lia). by rewrite take_app_length' by (rewrite length_seqZ; lia).
Qed.

(** [readi] finds what is there from [off] on, at most [n] bytes. *)
Lemma readi_part N Sk `{!Sink N Sk} ops bl V D P x s p off n (bs := take (Z.to_nat n) (drop (Z.to_nat off) (data V x))) : at_inode i st ops sb D P bl [] V ip x s ->
  Z.of_nat (length bl) < NBUF -> inode_ok st sb V x -> fs_bitmap st sb V -> Sk p [] s -> 0 <= off -> 0 <= n <= N -> n < 0x80000000 ->
  exists p' s', readi ip p off n s = Ok (Z.of_nat (length bs), bs) s' /\ at_inode i st ops sb D P bl [] V ip x s' /\ Sk p' bs s' /\ uframe s s'.
Proof.
  intros A Hbl I F HS Ho Hn Hb. pose proof (in_size _ _ _ _ I) as Hs. destruct (Z.lt_ge_cases (i_size x) off) as [Hlt|Hge].
  - assert (bs = []) as -> by (unfold bs; by rewrite drop_ge, take_nil by (rewrite data_length; lia)). exists p, s. split; [|split; [done|split; [done|apply uframe_refl]]].
    unfold readi. rewrite (bind_ok _ _ _ _ _ (inode_of_run ip s)), (ai_inode _ _ _ _ _ _ _ _ _ _ _ _ A).
    by rewrite (Z.gtb_ltb off), (proj2 (Z.ltb_lt (i_size x) off)) by lia.
  - assert (0 <= clip x off n <= i_size x - off /\ clip x off n <= n) as [Hc Hcn] by (unfold clip; destruct (Z.gtb_spec (off + n) (i_size x)); lia).
    assert (map (byte_at V x) (seqZ off (clip x off n)) = bs) as Ebs.
    { rewrite data_part by lia. unfold bs, clip. destruct (Z.gtb_spec (off + n) (i_size x)); [|done].
      rewrite !take_ge by (rewrite length_drop, data_length; lia). done. }
    destruct (readi_rule i st ops sb D P N Sk bl V ip x I F Hbl s p off n A HS Ho ltac:(lia) ltac:(flia) ltac:(lia) ltac:(lia)) as (p' & s' & E & A' & HS' & F').
    rewrite Ebs in *. exists p', s'. split; [|done]. rewrite E, <- Ebs, length_map, length_seqZ. do 2 f_equal. lia.
Qed.

Lemma fileread_rule Sk n `{!Sink n Sk} V D P x s addr off (bs := take (Z.to_nat n) (drop (Z.to_nat off) (data V x))) : resting V D P x s ->
  f_readable (k_ftable s f) = true -> f_type (k_ftable s f) = FD_INODE -> f_ip (k_ftable s f) = Some ip -> f_off (k_ftable s f) = off ->
  0 <= off < 0x80000000 -> 0 <= n < 0x80000000 -> Sk (User addr) [] s ->
  exists p' s', fileread f addr n s = Ok (Z.of_nat (length bs)) s' /\ resting V D P x s' /\ Sk p' bs s' /\ moved (off + Z.of_nat (length bs)) s s'.
Proof.
  intros [T Hs Hx Hv Hr Hl I F Rg Sv] Hrd Ht Hi Hof Ho Hn HS. pose proof (in_size _ _ _ _ I) as Hsz.
  destruct (ilock_valid i st 0 D P [] [] V ip s T ltac:(by rewrite Hx) ltac:(by rewrite Hx) Hl) as (s1 & E1 & T1 & Q1 & L1).
  assert (at_inode i st 0 sb D P [] [] V ip x s1) as A1 by (split; [done|by rewrite (quiet_sb _ _ Q1)|by rewrite (quiet_itable _ _ Q1)]).
  destruct (readi_part n Sk 0 [] V D P x s1 (User addr) off n A1 ltac:(done) I F (sk_frame _ _ _ _ HS (quiet_user _ _ Q1)) ltac:(lia) ltac:(lia) ltac:(lia))
    as (p' & s2 & E2 & [T2 Hs2 Hx2] & HS2 & F2). fold bs in E2, HS2.
  set (len := Z.of_nat (length bs)) in *. assert (0 <= len <= n) as Hlen by (unfold len, bs; rewrite length_take; lia).
  assert (locked_by i ip s2) as L2 by exact (locked_keep i ip (k_set_mem (k_mem s2) s1) s2 L1 (fframe_of _ _ F2)).
  assert (k_ftable s2 = k_ftable s) as Ft2 by (rewrite <- (quiet_ftable _ _ Q1); exact (fframe_ftable _ _ (fframe_of _ _ F2))).
  set (g := fun y => f_set_off (u32 (f_off y + len)) y). set (s3 := if len >? 0 then upd_file f g s2 else s2).
  assert (txn i st 0 [] [] V D P s3 /\ k_sb s3 = sb /\ k_itable s3 ip = x /\ locked_by i ip s3 /\ Sk p' bs s3 /\ moved (off + len) s s3) as (T3 & Hs3 & Hx3 & L3 & HS3 & M3).
  { unfold s3, moved. destruct (Z.gtb_spec len 0) as [Hp|Hp].
    - split; [by apply txn_ftable|]. do 3 (split; [done|]). split; [apply (sk_frame _ _ _ _ HS2 (of_user _ _ _ _ (op_file ip f g s2)))|].
      change (fupd (k_ftable s2) f (g (k_ftable s2 f)) f = f_set_off (off + len) (k_ftable s f)). rewrite fupd_eq, Ft2. unfold g.
      by rewrite Hof, u32_small by lia.
    - do 5 (split; [done|]). replace len with 0 by lia. by rewrite Ft2, Z.add_0_r, <- Hof, f_off_same. }
  destruct (iunlock_rule i st 0 D P [] [] V ip s3 T3 ltac:(by rewrite Hx3) L3) as (s4 & E4 & T4 & Q4 & U4). exists p', s4. split; [|split; [|split]].
  - unfold fileread. rewrite (bind_ok _ _ _ (k_ftable s f) s) by reflexivity. rewrite Hrd, Ht. cbn [negb]. unfold ip_of. rewrite Hi.
    erewrite bind_ok by reflexivity. rewrite (bind_ok _ _ _ _ _ E1), (bind_ok _ _ _ (k_ftable s f) s1) by (rewrite <- (quiet_ftable _ _ Q1); reflexivity).
    rewrite Hof, (u32_small n), (bind_ok _ _ _ _ _ E2) by lia. cbn [fst].
    rewrite (bind_ok _ _ _ tt s3) by (unfold s3; by destruct (len >? 0)). by rewrite (bind_ok _ _ _ _ _ E4).
  - split; try done; [by rewrite (quiet_sb _ _ Q4)|by rewrite (quiet_itable _ _ Q4)].
  - exact (sk_frame _ _ _ _ HS3 (quiet_user _ _ Q4)).
  - unfold moved. rewrite (quiet_ftable _ _ Q4). exact M3.
Qed.
End file.
