(* ===== verification/ConsoleSpec.v ===== *)
(** * The console's line discipline (kernel/console.c)

    The ring buffer with its three counters implements an editor of one line
    at a time: [l_done] are the bytes of finished lines that wait to be read,
    [l_edit] the line being typed, which backspace and control-U can still
    change.  [consoleintr] is one key, [consoleread] takes one line. *)

From S2P Require Import Prelude Riscv Mem KState Sched PhysMem Kalloc Vm DiskSpec Console Sample PageTable Walk VmMap VmAlloc VmCow VmCopy VmSample.
From S2P Require Import Fs FileIO Pipe File FileSpec.

(** ** The abstract editor *)

Record line : Type := mkLine { l_done : list Z; l_edit : list Z }.

Definition size (l : line) : Z := Z.of_nat (length (l_done l) + length (l_edit l)).

(** Keys: control-P lists processes, control-U kills the line, control-H and
    delete erase a character; carriage return is a newline; newline,
    control-D or a full buffer finish the line. *)
Definition key (c : Z) (l : line) : line :=
  if c =? Ctl 80 then l
  else if c =? Ctl 85 then mkLine (l_done l) []
  else if (c =? Ctl 72) || (c =? 127) then mkLine (l_done l) (removelast (l_edit l))
  else if (c =? 0) || (INPUT_BUF_SIZE <=? size l) then l
  else
    let c := if c =? 13 then 10 else c in
    if (c =? 10) || (c =? Ctl 68) || (size l + 1 =? INPUT_BUF_SIZE) then mkLine (l_done l ++ l_edit l ++ [c]) []
    else mkLine (l_done l) (l_edit l ++ [c]).

(** What a read of at most [n] bytes takes from the finished lines, and what
    it leaves: up to and with a newline; control-D ends the read, and is left
    for the next one unless it comes first. *)
Fixpoint read_line (n : nat) (first : bool) (q : list Z) : list Z * list Z :=
  match n, q with
  | S n, c :: q' =>
      if c =? Ctl 68 then ([], if first then q' else q)
      else if c =? 10 then ([c], q')
      else let '(bs, r) := read_line n false q' in (c :: bs, r)
  | _, _ => ([], q)
  end.

(** The read does not have to wait: it ends within the bytes there are. *)
Fixpoint line_ready (n : nat) (q : list Z) : bool :=
  match n, q with
  | O, _ => true
  | S n, c :: q => (c =? Ctl 68) || (c =? 10) || line_ready n q
  | S _, [] => false
  end.

Lemma read_line_length n : forall first q, (length (fst (read_line n first q)) <= n)%nat.
Proof.
  induction n as [|n IH]; intros first q; [cbn; lia|]. destruct q as [|c q]; [cbn; lia|]. cbn [read_line].
  destruct (c =? Ctl 68); [cbn; lia|]. destruct (c =? 10); [cbn; lia|]. specialize (IH false q).
  destruct (read_line n false q). cbn in *. lia.
Qed.

(** ** Representation *)

Record cons_rep (x : cons) (l : line) : Prop := {
  cr_r : 0 <= c_r x < 0x100000000;
  cr_w : c_w x = u32 (c_r x + Z.of_nat (length (l_done l)));
  cr_e : c_e x = u32 (c_r x + size l);
  cr_size : size l <= INPUT_BUF_SIZE;
  cr_ring : cring INPUT_BUF_SIZE (c_buf x) (c_r x) (l_done l ++ l_edit l);
  cr_nl : 10 ∉ l_edit l
}.

(** The counters as the code compares them. *)
Lemma rep_sizes x l : cons_rep x l -> u32 (c_e x - c_r x) = size l /\ u32 (c_e x - c_w x) = Z.of_nat (length (l_edit l)) /\
  u32 (c_w x - c_r x) = Z.of_nat (length (l_done l)).
Proof.
  intros [R W E S _ _]. unfold size, INPUT_BUF_SIZE in *. rewrite W, E. split; [|split].
  - apply u32_dist. lia.
  - replace (c_r x + Z.of_nat (length (l_done l) + length (l_edit l)))
      with (c_r x + Z.of_nat (length (l_done l)) + Z.of_nat (length (l_edit l))) by lia.
    unfold u32. rewrite <- Zminus_mod. set (a := c_r x + _). replace (a + Z.of_nat (length (l_edit l)) - a) with (Z.of_nat (length (l_edit l))) by lia.
    apply Z.mod_small. lia.
  - apply u32_dist. lia.
Qed.

Lemma rep_edit_empty x l : cons_rep x l -> (c_e x =? c_w x) = bool_decide (l_edit l = []).
Proof.
  intros R. destruct (rep_sizes _ _ R) as (_ & H & _). destruct R as [Rr W E S _ _]. unfold size, INPUT_BUF_SIZE in *.
  destruct (l_edit l) as [|c q] eqn:El; [|cbn [length] in *].
  - rewrite bool_decide_eq_true_2 by done. apply Z.eqb_eq. rewrite W, E. do 2 f_equal. cbn. lia.
  - rewrite bool_decide_eq_false_2 by done. apply Z.eqb_neq. intros Heq. rewrite Heq, Z.sub_diag in H. unfold u32 in H. rewrite Z.mod_0_l in H by done. lia.
Qed.

Lemma size_app d e c : size (mkLine d (e ++ [c])) = size (mkLine d e) + 1.
Proof. unfold size. cbn. rewrite length_app. cbn. lia. Qed.

(** Erasing the last character. *)
Lemma rep_erase x l c : cons_rep x (mkLine (l_done l) (l_edit l ++ [c])) ->
  cons_rep (c_set_e (u32 (c_e x - 1)) x) l /\ c_buf x (u32 (c_e x - 1) mod INPUT_BUF_SIZE) = c.
Proof.
  intros [R W E S H N]. rewrite size_app in *. cbn in *. destruct l as [d e]. cbn in *.
  assert (u32 (c_e x - 1) = u32 (c_r x + size (mkLine d e))) as E1.
  { rewrite E. unfold u32. rewrite Zminus_mod_idemp_l. f_equal. lia. }
  rewrite app_assoc in H. apply cring_app in H as [H1 H2]. split.
  - split; cbn; [done|done|done|lia|done|set_solver].
  - rewrite E1, (u32_mod INPUT_BUF_SIZE) by done. apply cring_one in H2. rewrite <- H2. do 2 f_equal. unfold size. cbn.
    rewrite length_app. lia.
Qed.

(** Storing a character. *)
Lemma rep_store x l c : cons_rep x l -> size l < INPUT_BUF_SIZE -> 0 <= c < 256 -> c <> 10 ->
  cons_rep (c_set_e (u32 (c_e x + 1)) (c_set_buf (fupd (c_buf x) (c_e x mod INPUT_BUF_SIZE) (u8 c)) x)) (mkLine (l_done l) (l_edit l ++ [c])).
Proof.
  destruct l as [d e]. intros [R W E S H N] Hs Hc Hn. replace (u8 c) with c by (unfold u8; zlia). cbn [l_done l_edit] in *. split; cbn [c_r c_w c_e c_buf c_set_e c_set_buf l_done l_edit].
  - done.
  - done.
  - rewrite size_app, E, u32_add_l. f_equal. lia.
  - rewrite size_app. lia.
  - rewrite E, (u32_mod INPUT_BUF_SIZE), app_assoc by done. unfold size in *. cbn [l_done l_edit] in *. rewrite <- length_app in *. by apply cring_put.
  - set_solver.
Qed.

(** Storing the character that finishes the line. *)
Lemma rep_finish x l c : cons_rep x l -> size l < INPUT_BUF_SIZE -> 0 <= c < 256 ->
  let x' := c_set_e (u32 (c_e x + 1)) (c_set_buf (fupd (c_buf x) (c_e x mod INPUT_BUF_SIZE) (u8 c)) x) in
  cons_rep (c_set_w (c_e x') x') (mkLine (l_done l ++ l_edit l ++ [c]) []).
Proof.
  destruct l as [d e]. intros [R W E S H N] Hs Hc. replace (u8 c) with c by (unfold u8; zlia). unfold size in *.
  cbn [l_done l_edit] in *. split; unfold size; cbn [c_r c_w c_e c_buf c_set_w c_set_e c_set_buf l_done l_edit]; rewrite ?length_app; cbn [length].
  - done.
  - rewrite E, u32_add_l. f_equal. lia.
  - rewrite E, u32_add_l. f_equal. lia.
  - lia.
  - rewrite app_nil_r, E, (u32_mod INPUT_BUF_SIZE), (app_assoc d e) by done. rewrite <- length_app in *. by apply cring_put.
  - apply not_elem_of_nil.
Qed.

(** Taking the first finished byte. *)
Lemma rep_take x c d e : cons_rep x (mkLine (c :: d) e) ->
  c_buf x (c_r x mod INPUT_BUF_SIZE) = c /\ cons_rep (c_set_r (u32 (c_r x + 1)) x) (mkLine d e).
Proof.
  intros [R W E S H N]. unfold size in *. cbn [l_done l_edit app length] in *. apply cring_cons in H as [H1 H2].
  split; [done|]. split; unfold size; cbn [c_r c_w c_e c_buf c_set_r l_done l_edit].
  - apply u32_range.
  - rewrite W, u32_add_l. f_equal. lia.
  - rewrite E, u32_add_l. f_equal. lia.
  - lia.
  - by apply (cring_u32 INPUT_BUF_SIZE).
  - done.
Qed.

(** Giving it back. *)
Lemma rep_untake x : 0 <= c_r x < 0x100000000 -> c_set_r (u32 (c_r (c_set_r (u32 (c_r x + 1)) x) - 1)) (c_set_r (u32 (c_r x + 1)) x) = x.
Proof.
  intros H. destruct x as [f r w e]. cbn in *. unfold c_set_r. cbn. f_equal. unfold u32. rewrite Zminus_mod_idemp_l.
  replace (r + 1 - 1) with r by lia. by apply Z.mod_small.
Qed.

(** ** The device *)

(** What the code relies on: accesses to the UART's registers change no
    kernel data, and the transmitter is ready. *)
Class Uart {ENV : Env} : Prop := {
  uart_read : forall r s, snd (mmio_read (UART0 + r) s) = s;
  uart_ready : forall s, has (u8 (fst (mmio_read (UART0 + LSR) s))) LSR_TX_IDLE = true;
  uart_write : forall r v s, mmio_write (UART0 + r) v s = s
}.

#[export] Instance sample_uart : @Uart sample_env.
Proof. by split. Qed.

(** Besides the console only the states of processes and the trace change. *)
Definition cframe (s s' : kstate) : Prop :=
  k_set_procs (k_procs s) (k_set_cons (k_cons s) (k_set_out (k_out s) s')) = s /\
  forall j, proc_keep (k_procs s j) (k_procs s' j).

Lemma cframe_trans s1 s2 s3 : cframe s1 s2 -> cframe s2 s3 -> cframe s1 s3.
Proof.
  intros [A1 B1] [A2 B2]. split; [rewrite <- A1, <- A2; by destruct s3|]. intros j. by eapply proc_keep_trans.
Qed.

Lemma cframe_cons x s : cframe s (k_set_cons x s).
Proof. split; [by destruct s|]. intros j. apply proc_keep_refl. Qed.

Lemma cframe_refl s : cframe s s.
Proof. split; [by destruct s|]. intros j. apply proc_keep_refl. Qed.

Lemma held_reset s : k_held s = [] -> k_set_held [] s = s.
Proof. intros H. destruct s. cbn in H. by subst. Qed.

Section intr.
Context {ENV : Env} {UART : Uart}.

Lemma ReadReg_run r s : ReadReg r s = Ok (u8 (fst (mmio_read (UART0 + r) s))) s.
Proof. unfold ReadReg. pose proof (uart_read r s) as H. destruct (mmio_read (UART0 + r) s) as [v s']. cbn in *. by subst. Qed.

Lemma uartputc_sync_run c s : uartputc_sync c s = Ok tt s.
Proof.
  unfold uartputc_sync. erewrite bind_ok.
  2:{ apply iter_done. rewrite (bind_ok _ _ _ _ _ (ReadReg_run LSR s)), uart_ready. reflexivity. }
  unfold WriteReg, modify. by rewrite uart_write.
Qed.

Lemma consputc_run c s : consputc c s = Ok tt s.
Proof.
  unfold consputc. destruct (c =? BACKSPACE); [|apply uartputc_sync_run].
  rewrite !(bind_ok _ _ _ _ _ (uartputc_sync_run _ _)). apply uartputc_sync_run.
Qed.

Lemma procdump_run s : exists o, procdump s = Ok tt (k_set_out o s).
Proof.
  unfold procdump. rewrite (bind_ok _ _ s tt (k_set_out ((""%string, []) :: k_out s) s)) by done.
  set (o := (""%string, []) :: k_out s). clearbody o. generalize (seqZ 0 NPROC). intros l. revert o.
  induction l as [|i l IH]; intros o; [by exists o|]. cbn [for_each]. rewrite bind_assoc.
  rewrite (bind_ok _ _ _ (k_procs s i) (k_set_out o s)) by done. case_decide.
  - rewrite (bind_ok _ _ _ tt (k_set_out o s)) by done. apply IH.
  - erewrite bind_ok; [|reflexivity]. apply IH.
Qed.

Lemma cget_run s : cget s = Ok (k_cons s) s.
Proof. done. Qed.

(** Control-U: the loop erases the whole line being typed. *)
Lemma kill_loop n : forall s l, cons_rep (k_cons s) l -> (length (l_edit l) < n)%nat ->
  exists x, iter n (fun _ : unit =>
    x <- cget ;;
    if negb (c_e x =? c_w x) && negb (c_buf x (u32 (c_e x - 1) mod INPUT_BUF_SIZE) =? 10) then
      modify (on_cons (fun x => c_set_e (u32 (c_e x - 1)) x)) ;; consputc BACKSPACE ;; ret (inl tt)
    else ret (inr tt)) tt s = Ok tt (k_set_cons x s) /\ cons_rep x (mkLine (l_done l) []).
Proof.
  induction n as [|n IH]; intros s [d e] R Hn; [lia|]. cbn [l_done l_edit] in *.
  destruct (decide (e = [])) as [->|He].
  - exists (k_cons s). split; [|done]. replace (k_set_cons (k_cons s) s) with s by by destruct s. apply iter_done.
    rewrite (bind_ok _ _ _ _ _ (cget_run s)), (rep_edit_empty _ _ R). done.
  - destruct (exists_last He) as (e' & c & ->). destruct (rep_erase _ (mkLine d e') c R) as [R' Hc].
    pose proof (cr_nl _ _ R) as Hnl. cbn [l_edit] in Hnl. assert (c <> 10) as Hc10 by set_solver.
    destruct (IH (k_set_cons (c_set_e (u32 (c_e (k_cons s) - 1)) (k_cons s)) s) _ R') as (x & E & Rx).
    { rewrite length_app in Hn. cbn in *. lia. }
    exists x. split; [|done]. rewrite (iter_next _ _ _ tt s (k_set_cons (c_set_e (u32 (c_e (k_cons s) - 1)) (k_cons s)) s)).
    + rewrite E. by destruct s.
    + rewrite (bind_ok _ _ _ _ _ (cget_run s)), (rep_edit_empty _ _ R), Hc. rewrite bool_decide_eq_false_2 by done.
      rewrite (proj2 (Z.eqb_neq c 10) Hc10). cbn [negb andb]. rewrite (bind_ok _ _ _ _ _ (modify_run _ s)).
      by rewrite (bind_ok _ _ _ _ _ (consputc_run _ _)).
Qed.

Lemma kill_line_run s l : cons_rep (k_cons s) l ->
  exists x, kill_line s = Ok tt (k_set_cons x s) /\ cons_rep x (mkLine (l_done l) []).
Proof.
  intros R. unfold kill_line. rewrite (bind_ok _ _ _ _ _ (cget_run s)). apply kill_loop; [done|].
  rewrite (proj1 (proj2 (rep_sizes _ _ R))). lia.
Qed.

(** The default case of the switch. *)
Lemma type_run c s l : cons_rep (k_cons s) l -> 0 < c < 256 -> size l < INPUT_BUF_SIZE -> k_held s = [L_cons] ->
  let c := if c =? 13 then 10 else c in
  exists s', (consputc c ;;
    modify (on_cons (fun x => c_set_e (u32 (c_e x + 1)) (c_set_buf (fupd (c_buf x) (c_e x mod INPUT_BUF_SIZE) (u8 c)) x))) ;;
    x <- cget ;;
    if (c =? 10) || (c =? Ctl 68) || (u32 (c_e x - c_r x) =? INPUT_BUF_SIZE) then
      modify (on_cons (fun x => c_set_w (c_e x) x)) ;; wakeup ChCons
    else ret tt) s = Ok tt s' /\ cframe s s' /\
    cons_rep (k_cons s') (if (c =? 10) || (c =? Ctl 68) || (size l + 1 =? INPUT_BUF_SIZE)
      then mkLine (l_done l ++ l_edit l ++ [c]) [] else mkLine (l_done l) (l_edit l ++ [c])).
Proof.
  intros R Hc Hs Hh c0. assert (0 <= c0 < 256) as Hc0 by (unfold c0; case_match; lia). clearbody c0. clear c Hc.
  rewrite (bind_ok _ _ _ _ _ (consputc_run c0 s)). rewrite (bind_ok _ _ _ _ _ (modify_run _ s)).
  set (x' := c_set_e (u32 (c_e (k_cons s) + 1)) (c_set_buf (fupd (c_buf (k_cons s)) (c_e (k_cons s) mod INPUT_BUF_SIZE) (u8 c0)) (k_cons s))).
  change (on_cons _ s) with (k_set_cons x' s). rewrite (bind_ok _ _ _ _ _ (cget_run _)). cbn [k_cons k_set_cons].
  assert (u32 (c_e x' - c_r x') = size l + 1) as ->.
  { cbn. rewrite (cr_e _ _ R), u32_add_l. rewrite <- Z.add_assoc. apply u32_dist. unfold size, INPUT_BUF_SIZE in *. lia. }
  destruct ((c0 =? 10) || (c0 =? Ctl 68) || (size l + 1 =? INPUT_BUF_SIZE)) eqn:Eq.
  - rewrite (bind_ok _ _ _ _ _ (modify_run _ _)). set (s2 := on_cons _ _).
    rewrite wakeup_ok. 2:{ intros j _ _. change (k_held s2) with (k_held s). rewrite Hh. by intros ?%list_elem_of_singleton. }
    pose proof (woken_frame ChCons s2) as F. pose proof (only_procs_eq _ _ F) as E. eexists. split; [done|]. split.
    + apply (cframe_trans _ s2); [exact (cframe_cons (c_set_w (c_e x') x') s)|]. split; [rewrite E; by destruct s2|]. intros j. rewrite woken_procs.
      case_decide; [apply wakes_keep|apply proc_keep_refl].
    + rewrite E. by apply rep_finish.
  - exists (k_set_cons x' s). split; [done|]. split; [apply cframe_cons|]. apply rep_store; try done.
    intros ->. done.
Qed.

(** The switch of [consoleintr]: one key of the editor. *)
Lemma key_run c s l : cons_rep (k_cons s) l -> 0 <= c < 256 -> k_held s = [L_cons] ->
  exists s', (if c =? Ctl 80 then procdump
   else if c =? Ctl 85 then kill_line
   else if (c =? Ctl 72) || (c =? 127) then
     x <- cget ;;
     if negb (c_e x =? c_w x) then
       modify (on_cons (fun x => c_set_e (u32 (c_e x - 1)) x)) ;; consputc BACKSPACE
     else ret tt
   else
     x <- cget ;;
     if negb (c =? 0) && (u32 (c_e x - c_r x) <? INPUT_BUF_SIZE) then
       let c := if c =? 13 then 10 else c in
       consputc c ;;
       modify (on_cons (fun x =>
         c_set_e (u32 (c_e x + 1)) (c_set_buf (fupd (c_buf x) (c_e x mod INPUT_BUF_SIZE) (u8 c)) x))) ;;
       x <- cget ;;
       if (c =? 10) || (c =? Ctl 68) || (u32 (c_e x - c_r x) =? INPUT_BUF_SIZE) then
         modify (on_cons (fun x => c_set_w (c_e x) x)) ;; wakeup ChCons
       else ret tt
     else ret tt) s = Ok tt s' /\ cframe s s' /\ cons_rep (k_cons s') (key c l).
Proof.
  intros R Hc Hh. unfold key. destruct (c =? Ctl 80).
  { destruct (procdump_run s) as [o E]. exists (k_set_out o s). split; [done|]. split; [|done].
    split; [by destruct s|]. intros j. apply proc_keep_refl. }
  destruct (c =? Ctl 85).
  { destruct (kill_line_run s l R) as (x & E & Rx). exists (k_set_cons x s). split; [done|]. split; [apply cframe_cons|done]. }
  destruct ((c =? Ctl 72) || (c =? 127)).
  { rewrite (bind_ok _ _ _ _ _ (cget_run s)), (rep_edit_empty _ _ R). destruct l as [d e]. cbn [l_done l_edit] in *. case_bool_decide as He.
    - subst e. exists s. split; [done|]. split; [apply cframe_refl|done].
    - destruct (exists_last He) as (e' & x & ->). destruct (rep_erase _ (mkLine d e') x R) as [R' _]. rewrite removelast_last.
      cbn [negb]. rewrite (bind_ok _ _ _ _ _ (modify_run _ s)), consputc_run. eexists. split; [reflexivity|]. split; [apply cframe_cons|done]. }
  rewrite (bind_ok _ _ _ _ _ (cget_run s)), (proj1 (rep_sizes _ _ R)).
  destruct (Z.eqb_spec c 0) as [->|Hz].
  { exists s. split; [done|]. split; [apply cframe_refl|done]. }
  destruct (Z.leb_spec INPUT_BUF_SIZE (size l)) as [Hf|Hf]; destruct (Z.ltb_spec (size l) INPUT_BUF_SIZE); try lia; cbn [negb andb orb].
  - exists s. split; [done|]. split; [apply cframe_refl|done].
  - apply type_run; [done|lia|done|done].
Qed.

(** [consoleintr] is one key. *)
Lemma consoleintr_rule c s l : cons_rep (k_cons s) l -> 0 <= c < 256 -> k_held s = [] ->
  exists s', consoleintr c s = Ok tt s' /\ cframe s s' /\ cons_rep (k_cons s') (key c l).
Proof.
  intros R Hc Hh. unfold consoleintr. rewrite (bind_ok _ _ _ _ _ (acquire_ok L_cons s ltac:(rewrite Hh; apply not_elem_of_nil))).
  rewrite Hh. destruct (key_run c (k_set_held [L_cons] s) l R Hc eq_refl) as (s' & E & [F1 F2] & R'). rewrite (bind_ok _ _ _ _ _ E).
  assert (k_held s' = [L_cons]) as Hh' by (change [L_cons] with (k_held (k_set_held [L_cons] s)); by rewrite <- F1).
  exists (k_set_held [] s'). split; [by apply (release_head L_cons [])|]. split; [|done]. split; [|done].
  rewrite <- (held_reset s Hh). change (k_set_held [] s) with (k_set_held [] (k_set_held [L_cons] s)). rewrite <- F1. by destruct s'.
Qed.
End intr.

(** ** Reading *)

(** Only the console and memory change. *)
Definition rframe (s s' : kstate) : Prop := s' = k_set_mem (k_mem s') (k_set_cons (k_cons s') s).

Section read.
Context {LAY : Layout} {ENV : Env}.

(** One round of the loop, with [q] not empty. *)
Definition read_body (target : Z) : place * Z -> K ((place * Z) + option Z) := fun '(dst, n) =>
    if n >? 0 then
      go <- wait_input ;;
      if negb go then ret (inr None) else
      x <- cget ;;
      let c := c_buf x (c_r x mod INPUT_BUF_SIZE) in
      modify (on_cons (fun x => c_set_r (u32 (c_r x + 1)) x)) ;;
      if c =? Ctl 68 then
        (if u32 n <? target then modify (on_cons (fun x => c_set_r (u32 (c_r x - 1)) x)) else ret tt) ;;
        ret (inr (Some n))
      else
      e <- either_copyout dst [c] ;;
      if e =? -1 then ret (inr (Some n)) else
      if c =? 10 then ret (inr (Some (n - 1))) else
      ret (inl (place_add dst 1, n - 1))
    else ret (inr (Some n)).

Lemma wait_input_run s c q e : cons_rep (k_cons s) (mkLine (c :: q) e) -> wait_input s = Ok true s.
Proof.
  intros R. destruct (rep_sizes _ _ R) as (_ & _ & H). apply iter_done. rewrite (bind_ok _ _ _ _ _ (cget_run s)).
  rewrite (proj2 (Z.eqb_neq _ _)); [done|]. intros E. rewrite E, Z.sub_diag in H. unfold u32 in H. rewrite Z.mod_0_l in H by done.
  cbn [l_done length] in H. lia.
Qed.

(** The loop, into any destination [Sk] that takes [N] bytes and has got [out]. *)
Lemma read_loop N Sk `{!Sink N Sk} target m : forall q e p out s, cons_rep (k_cons s) (mkLine q e) -> Forall byte q -> line_ready m q = true ->
  Z.of_nat m <= target < 0x80000000 -> Z.of_nat (length out) + Z.of_nat m <= N -> Sk p out s ->
  let '(bs, rest) := read_line m (Z.of_nat m =? target) q in
  exists s' p', iter (S m) (read_body target) (p, Z.of_nat m) s = Ok (Some (Z.of_nat m - Z.of_nat (length bs))) s' /\
    cons_rep (k_cons s') (mkLine rest e) /\ Sk p' (out ++ bs) s' /\ rframe s s'.
Proof.
  induction m as [|m IH]; intros q e p out s R Hq Hr Hm Hout HS.
  { exists s, p. split; [by apply iter_done|]. split; [done|]. rewrite app_nil_r. split; [done|unfold rframe; by destruct s]. }
  destruct q as [|c q]; [done|]. cbn [read_line line_ready] in *. destruct (rep_take _ _ _ _ R) as [Hc R']. apply Forall_cons in Hq as [Hcb Hq].
  set (s1 := k_set_cons (c_set_r (u32 (c_r (k_cons s) + 1)) (k_cons s)) s).
  assert (Sk p out s1) as HS1 by (eapply sk_frame; [exact HS|split; try done; intros j; apply proc_keep_refl]).
  assert (forall r, (if c =? Ctl 68 then
        (if u32 (Z.of_nat (S m)) <? target then modify (on_cons (fun x => c_set_r (u32 (c_r x - 1)) x)) else ret tt) ;;
        ret (inr (Some (Z.of_nat (S m))))
      else e <- either_copyout p [c] ;; if e =? -1 then ret (inr (Some (Z.of_nat (S m)))) else
      if c =? 10 then ret (inr (Some (Z.of_nat (S m) - 1))) else ret (inl (place_add p 1, Z.of_nat (S m) - 1))) s1 = r ->
    read_body target (p, Z.of_nat (S m)) s = r) as Hbody.
  { intros r <-. unfold read_body. destruct (Z.gtb_spec (Z.of_nat (S m)) 0); [|lia].
    rewrite (bind_ok _ _ _ _ _ (wait_input_run s c q e R)). cbn [negb].
    rewrite (bind_ok _ _ _ _ _ (cget_run s)), Hc, (bind_ok _ _ _ _ _ (modify_run _ s)). done. }
  destruct (Z.eqb_spec c (Ctl 68)) as [->|Hd].
  - rewrite u32_small in Hbody by lia. destruct (Z.eqb_spec (Z.of_nat (S m)) target) as [Et|Et].
    + rewrite (proj2 (Z.ltb_ge _ _)) in Hbody by lia. exists s1, p. split.
      { apply iter_done, Hbody. cbn [length]. by rewrite Z.sub_0_r. }
      split; [done|]. rewrite app_nil_r. split; [done|unfold rframe; by destruct s].
    + rewrite (proj2 (Z.ltb_lt _ _)) in Hbody by lia. exists s, p. rewrite app_nil_r. split; [|split; [done|split; [done|unfold rframe; by destruct s]]].
      apply iter_done, Hbody. rewrite (bind_ok _ _ _ _ _ (modify_run _ s1)). cbn [length]. rewrite Z.sub_0_r. unfold ret. f_equal.
      unfold s1, on_cons. cbn [k_cons k_set_cons]. rewrite rep_untake by apply R. by destruct s.
  - destruct (sk_copy (N := N) p out [c] s1 HS1 (Forall_cons_2 _ _ _ Hcb (Forall_nil_2 _)) ltac:(rewrite length_app; cbn [length]; lia)) as (s2 & E2 & F2 & S2).
    rewrite (bind_ok _ _ _ _ _ E2) in Hbody. change (0 =? -1) with false in Hbody. cbv iota in Hbody. change (Z.of_nat (length [c])) with 1 in S2.
    destruct (Z.eqb_spec c 10) as [->|Hn].
    + exists s2, (place_add p 1). split; [by apply iter_done, Hbody|]. split; [by rewrite F2|]. split; [done|].
      unfold rframe. rewrite F2. by destruct s.
    + cbn [orb] in Hr. replace (Z.of_nat (S m) - 1) with (Z.of_nat m) in Hbody by lia.
      assert (cons_rep (k_cons s2) (mkLine q e)) as R2 by by rewrite F2.
      specialize (IH q e (place_add p 1) (out ++ [c]) s2 R2 Hq Hr ltac:(lia) ltac:(rewrite length_app; cbn [length]; lia) S2).
      rewrite (proj2 (Z.eqb_neq (Z.of_nat m) target)) in IH by lia. destruct (read_line m false q) as [bs rest].
      destruct IH as (s3 & p3 & E3 & R3 & S3 & F3). exists s3, p3. split; [|split; [done|split]].
      * rewrite (iter_next _ _ _ _ _ _ (Hbody _ eq_refl)), E3. cbn [length]. do 2 f_equal. lia.
      * by rewrite <- app_assoc in S3.
      * unfold rframe in *. rewrite F3, F2. by destruct s.
Qed.

(** Taking or dropping a lock that the allocator does not use. *)
Lemma to_user_held i root va N m0 p out s h : to_user i root va N m0 p out s -> alloc_locks_free (k_set_held h s) ->
  to_user i root va N m0 p out (k_set_held h s).
Proof.
  intros [[H1 H2 (fl & t1 & t0 & U)] A2 A3 A4 A5 A6] Hl. split; try done. split; [done|done|]. exists fl, t1, t0. by apply (uspace_same s).
Qed.

(** [consoleread] into the memory of a process. *)
Lemma consoleread_rule i root va m0 q e n s : cons_rep (k_cons s) (mkLine q e) -> Forall byte q -> k_held s = [] -> line_ready (Z.to_nat n) q = true ->
  0 <= n < 0x80000000 -> to_user i root va n m0 (User va) [] s ->
  let '(bs, rest) := read_line (Z.to_nat n) true q in
  exists s' p', consoleread (User va) n s = Ok (Z.of_nat (length bs)) s' /\
    cons_rep (k_cons s') (mkLine rest e) /\ to_user i root va n m0 p' bs s' /\ rframe s s'.
Proof.
  intros R Hq Hh Hr Hn HS. set (m := Z.to_nat n) in *.
  assert (to_user i root va n m0 (User va) [] (k_set_held [L_cons] s)) as HS1 by (apply to_user_held; [done|]; repeat split; by apply (bool_decide_unpack _)).
  pose proof (read_loop n (to_user i root va n m0) n m q e (User va) [] (k_set_held [L_cons] s) R Hq Hr ltac:(lia) ltac:(cbn [length]; lia) HS1) as H.
  rewrite (proj2 (Z.eqb_eq (Z.of_nat m) n)) in H by lia. destruct (read_line m true q) as [bs rest] eqn:Eq.
  destruct H as (s' & p' & E & R' & S' & F'). unfold consoleread. rewrite u32_small by lia.
  rewrite (bind_ok _ _ _ _ _ (acquire_ok L_cons s ltac:(rewrite Hh; apply not_elem_of_nil))), Hh.
  replace (Z.of_nat m) with n in E by lia. change (fun '(dst, n0) => _) with (read_body n). rewrite (bind_ok _ _ _ _ _ E).
  assert (k_held s' = [L_cons]) as Hh' by by rewrite F'. rewrite (bind_ok _ _ _ _ _ (release_head L_cons [] s' Hh')).
  exists (k_set_held [] s'), p'. split; [|split; [done|split]].
  - unfold ret. f_equal. replace (n - (n - Z.of_nat (length bs))) with (Z.of_nat (length bs)) by lia.
    pose proof (read_line_length m true q) as Hl. rewrite Eq in Hl. cbn in Hl. unfold s32. zlia.
  - apply to_user_held; [done|]. repeat split; apply not_elem_of_nil.
  - unfold rframe in *. rewrite F'. destruct s. cbn in Hh |- *. by rewrite Hh.
Qed.
End read.

(** ** The console as its users see it *)

Definition no_line : line := mkLine [] [].
Definition keys (cs : list Z) (l : line) : line := fold_left (fun l c => key c l) cs l.

Lemma keys_run {ENV : Env} {UART : Uart} cs : forall s l, cons_rep (k_cons s) l -> Forall (fun c => 0 <= c < 256) cs -> k_held s = [] ->
  exists s', for_each cs consoleintr s = Ok tt s' /\ cframe s s' /\ cons_rep (k_cons s') (keys cs l).
Proof.
  induction cs as [|c cs IH]; intros s l R Hc Hh; [exists s; split; [done|split; [apply cframe_refl|done]]|].
  apply Forall_cons in Hc as [Hc Hcs]. destruct (consoleintr_rule c s l R Hc Hh) as (s1 & E1 & F1 & R1).
  assert (k_held s1 = []) as Hh1 by (rewrite <- Hh; by rewrite <- (proj1 F1)).
  destruct (IH s1 _ R1 Hcs Hh1) as (s2 & E2 & F2 & R2). exists s2. cbn [for_each]. rewrite (bind_ok _ _ _ _ _ E1).
  split; [done|]. split; [by apply (cframe_trans _ s1)|done].
Qed.

(** The bytes of the editor are bytes. *)
Lemma key_bytes c l : byte c -> Forall byte (l_done l) /\ Forall byte (l_edit l) -> Forall byte (l_done (key c l)) /\ Forall byte (l_edit (key c l)).
Proof.
  intros Hc [H1 H2]. assert (byte (if c =? 13 then 10 else c)) as Hc' by (destruct (c =? 13); [done|exact Hc]).
  assert (Forall byte (removelast (l_edit l))) as Hr.
  { rewrite Forall_forall in *. intros x Hx%list_elem_of_In. apply H2, list_elem_of_In.
    destruct (l_edit l) as [|y r] eqn:E; [done|]. rewrite (app_removelast_last 0 (l := y :: r)) by done. apply in_or_app. by left. }
  unfold key. repeat case_match; cbn [l_done l_edit]; split; rewrite ?Forall_app, ?Forall_singleton; auto using Forall_nil_2.
Qed.

Lemma keys_bytes cs l : Forall byte cs -> Forall byte (l_done l) /\ Forall byte (l_edit l) -> Forall byte (l_done (keys cs l)) /\ Forall byte (l_edit (keys cs l)).
Proof. revert l. induction cs as [|c cs IH]; intros l Hc Hl; [done|]. apply Forall_cons in Hc as [Hc Hcs]. apply IH; [done|]. by apply key_bytes. Qed.

Lemma cframe_user s s' : cframe s s' -> user_same s s' /\ k_ftable s' = k_ftable s /\ k_devsw s' = k_devsw s.
Proof. intros [E K]. split; [split; try done; by rewrite <- E|]. split; by rewrite <- E. Qed.

(** File [f] is the console, open for reading. *)
Record console_file (s : kstate) (f : Z) : Prop := {
  cn_type : f_type (k_ftable s f) = FD_DEVICE;
  cn_major : f_major (k_ftable s f) = CONSOLE;
  cn_readable : f_readable (k_ftable s f) = true;
  cn_driver : k_devsw s CONSOLE = true
}.

Lemma console_fileread {LAY : Layout} {ENV : Env} s f va n : console_file s f -> fileread f va n s = consoleread (User va) n s.
Proof.
  intros [H1 H2 H3 H4]. unfold fileread, file_of. erewrite bind_ok by reflexivity. rewrite H3, H1. cbn [negb].
  unfold dev_ok, bind, gets, ret. rewrite H2. change (negb (CONSOLE <? 0) && negb (CONSOLE >=? NDEV)) with true. by rewrite H4.
Qed.

(** C38. The line discipline: whatever keys arrive, the console's ring with
    its wrapping 32-bit counters represents the abstract editor's state (never
    more than [INPUT_BUF_SIZE] bytes, no newline in the line being typed), and
    a read of the console file by a process, for which enough input has
    arrived, into its own writable memory, returns exactly the bytes of the
    edited line, stores them there, leaves every other byte of the process and
    its mappings as they were, and leaves the rest of the input for the next
    read. *)
Theorem console_line {LAY : Layout} {ENV : Env} {UART : Uart} (cs : list Z) (l : line) (f n va i root : Z) (s : kstate) :
  cons_rep (k_cons s) l -> Forall byte (l_done l) /\ Forall byte (l_edit l) -> k_held s = [] -> Forall byte cs ->
  line_ready (Z.to_nat n) (l_done (keys cs l)) = true ->
  0 <= n < 0x80000000 -> console_file s f -> to_user i root va n (k_mem s) (User va) [] s ->
  let '(bs, rest) := read_line (Z.to_nat n) true (l_done (keys cs l)) in
  exists s', (for_each cs consoleintr ;; fileread f va n) s = Ok (Z.of_nat (length bs)) s' /\
    cons_rep (k_cons s') (mkLine rest (l_edit (keys cs l))) /\
    (forall w, ent (k_mem s') root w = ent (k_mem s) root w) /\
    forall a, 0 <= a < MAXVA -> uvalid (k_mem s) root a = true ->
      ubyte (k_mem s') root a = if decide (va <= a < va + Z.of_nat (length bs)) then nth (Z.to_nat (a - va)) bs 0 else ubyte (k_mem s) root a.
Proof.
  intros R Hb Hh Hc Hr Hn [C1 C2 C3 C4] HS. destruct (keys_run cs s l R Hc Hh) as (s1 & E1 & F1 & R1).
  rewrite (bind_ok _ _ _ _ _ E1). destruct (cframe_user _ _ F1) as (M & Ef & Ed). rewrite console_fileread by (split; rewrite ?Ef, ?Ed; done).
  pose proof (keys_bytes cs l Hc Hb) as [Hq _]. destruct (keys cs l) as [q e]. cbn [l_done l_edit] in *.
  pose proof (consoleread_rule i root va (k_mem s) q e n s1 R1 Hq ltac:(by rewrite (um_held _ _ M)) Hr Hn (sk_frame _ _ _ _ HS M)) as H.
  destruct (read_line (Z.to_nat n) true q) as [bs rest]. destruct H as (s' & p' & E & R' & [_ _ _ _ H5 H6] & _). by exists s'.
Qed.

(** Typing "ls", a wrong character, backspace and return; process 0 reads. *)
Definition reader : kstate := k_set_ftable (fun _ => mkFile FD_DEVICE 1 true false 0 None 0 CONSOLE) (k_set_devsw (fun d => d =? CONSOLE) user_state).

Lemma reader_to : to_user 0 uroot 16 100 (k_mem reader) (User 16) [] reader.
Proof.
  split; [|done|done| |done|].
  - split; [done|done|]. exists free8, [utab1], [utab0]. apply (uspace_same user_state); [apply user_uspace|done|done|done|apply user_locks].
  - intros w Hw. assert (w = 0) as -> by (change (16 / PGSIZE) with 0 in Hw; change ((16 + 100 - 1) / PGSIZE) with 0 in Hw; lia).
    unfold open_page. change (k_mem reader) with sample_mem. rewrite user_ent by done. repeat split; by vm_compute.
  - intros a _ _. by rewrite decide_False by (unfold ulen; cbn; lia).
Qed.

Lemma console_line_witness : exists s', (for_each [108; 115; 120; 8; 13] consoleintr ;; fileread 0 16 100) reader = Ok 3 s' /\ ubyte (k_mem s') uroot 17 = 115.
Proof.
  assert (cons_rep (k_cons reader) no_line) as R by (split; [done|done|done|done|done|apply not_elem_of_nil]).
  assert (Forall byte [108; 115; 120; 8; 13]) as Hb by (repeat (apply Forall_cons_2; [done|]); apply Forall_nil_2).
  destruct (console_line [108; 115; 120; 8; 13] no_line 0 100 16 0 uroot reader R (conj (Forall_nil_2 _) (Forall_nil_2 _)) eq_refl Hb eq_refl ltac:(lia) ltac:(by split) reader_to)
    as (s' & E & _ & _ & H).
  exists s'. split; [exact E|]. clear E. rewrite H; [reflexivity|done|]. unfold uvalid. change (17 / PGSIZE) with 0. change (k_mem reader) with sample_mem. rewrite user_ent by done. by vm_compute.
Defined.
