(* ===== verification/FileProps.v ===== *)
(** * What reading and writing open files guarantees

    The theorems about [filewrite] and [fileread], and a disk with one file on
    which they are instantiated. *)

From S2P Require Import Prelude Riscv Mem CString KState Sample Sched Virtio DiskSpec Bio BioSpec Blocks Log LogSpec Txn DiskSample StorageSpec PhysMem Kalloc Vm PageTable Walk VmMap VmAlloc VmCow VmCopy VmSample.
From S2P Require Import Vm Fs FsSpec Inode InodeSpec Dinode FileIO FileWrite InodeLock Pipe Console File FileSpec.

Lemma sink_le {LAY : Layout} {ENV : Env} N m (Sk : place -> list Z -> kstate -> Prop) `{!Sink N Sk} : m <= N -> Sink m Sk.
Proof. intros Hm. split; [apply sk_frame|]. intros p out bs s HS Hb Hl. apply (sk_copy (N := N)); [done|done|lia]. Qed.

Section props.
Context {LAY : Layout} {ENV : Env} {DSK : Disk}.

(** [f] is an open file on inode [ip], at offset [off]. *)
Record open_file (s : kstate) (f ip off : Z) : Prop := {
  op_type : f_type (k_ftable s f) = FD_INODE;
  op_ip : f_ip (k_ftable s f) = Some ip;
  op_off : f_off (k_ftable s f) = off
}.

(** [y] is a file of the disk other than [x]. *)
Record apart (st : Z) (sb : superblock) (V : contents) (x y : inode) : Prop := {
  ap_ok : inode_ok st sb V y;
  ap_saved : saved V sb y;
  ap_inum : i_inum y <> i_inum x;
  ap_blocks : forall m, owns V x m -> ~ owns V y m
}.

(** C4. [filewrite] on an open file always returns.  The bytes of the process
    replace those of the file from its offset on, and the file grows as needed;
    it returns the count, or -1 if only a prefix was written, which happens
    only when the disk has no free block or the file would pass MAXFILE blocks.
    The offset advances, the file is saved on disk again, its fields within
    the width of their types, and every other file keeps its inode, its blocks
    and its bytes. *)
Theorem filewrite_correct i st sb ip f root V D P x s addr off src (n := Z.of_nat (length src)) :
  sb_size sb <= BPB -> resting i st sb ip V D P x s -> open_file s f ip off -> f_writable (k_ftable s f) = true ->
  0 <= off <= i_size x -> from_user i root (User addr) src s ->
  exists r s' news V' D' x', filewrite f addr n s = Ok (if r =? n then n else -1) s' /\
    resting i st sb ip V' D' (news ++ P) x' s' /\ 0 <= r <= n /\
    (r < n -> full sb V' \/ MAXFILE * BSIZE < off + n) /\
    data V' x' = splice off (take (Z.to_nat r) src) (data V x) /\
    k_ftable s' f = f_set_off (off + r) (k_ftable s f) /\
    forall y, apart st sb V x y -> apart st sb V' x' y /\ data V' y = data V y.
Proof.
  intros Hone R [H1 H2 H3] Hw Ho HS.
  destruct (filewrite_rule i st sb ip f Hone root V D P x s addr off src R H3 Ho HS Hw H1 H2) as (r & s' & news & V' & D' & x' & E & G & Hs).
  pose proof G as [G1 G2 G3 G4 G5 G6 G7]. exists r, s', news, V', D', x'. do 6 (split; [done|]). intros y [A1 A2 A3 A4].
  pose proof (in_inum _ _ _ _ (rs_ok _ _ _ _ _ _ _ _ _ R)) as Hx. destruct (other_file st sb V x V' y (kp_others _ _ _ _ _ _ G4) A1 Hx A4) as [B1 B2].
  split; [|done]. split; [done| |by rewrite (kp_inum _ _ _ _ _ _ G4)|].
  - apply (ud_inode _ _ _ _ _ (kp_others _ _ _ _ _ _ G4)); [apply A1|done|done].
  - intros m Hm Hy. pose proof (keeps_apart st sb V x V' x' y m G4 A1 A4 Hx Hy) as Ho'. by apply Ho'.
Qed.

(** C3. A crash during [filewrite] loses no more than a suffix of the write.
    Every content the disk had since the call is one that recovery accepts, and
    after recovery the inode on disk is the old file with some prefix of the
    new bytes in place: never a torn block, a size without its data, or an
    inode that points to blocks not marked in the bitmap. *)
Theorem filewrite_crash i st sb ip f root V D P x s addr off src (n := Z.of_nat (length src)) :
  sb_size sb <= BPB -> resting i st sb ip V D P x s -> open_file s f ip off -> f_writable (k_ftable s f) = true ->
  0 <= off <= i_size x -> from_user i root (User addr) src s ->
  exists v s' news, filewrite f addr n s = Ok v s' /\ k_past s' = news ++ k_past s /\
    forall d, d ∈ k_disk s' :: news -> recoverable st d /\
      exists k, (k <= length src)%nat /\ on_disk st sb (recovered st d) (i_inum x) (splice off (take k src) (data V x)).
Proof.
  intros Hone R [H1 H2 H3] Hw Ho HS.
  destruct (filewrite_rule i st sb ip f Hone root V D P x s addr off src R H3 Ho HS Hw H1 H2) as (r & s' & news & V' & D' & x' & E & G & _).
  pose proof (tx_blocks _ _ _ _ _ _ _ _ _ (rs_txn _ _ _ _ _ _ _ _ _ R)) as B.
  pose proof (tx_blocks _ _ _ _ _ _ _ _ _ (rs_txn _ _ _ _ _ _ _ _ _ (pg_rest _ _ _ _ _ _ _ _ _ _ _ _ _ _ _ _ _ G))) as B'.
  eexists _, s', news. split; [exact E|]. split; [by rewrite (bl_past _ _ _ _ _ _ _ B), (bl_past _ _ _ _ _ _ _ B')|].
  rewrite (bl_disk _ _ _ _ _ _ _ B'). apply G.
Qed.

(** C25. [fileread] on an open file always returns the number of bytes there are
    from the offset on, at most [n] and none past the end.  It stores exactly
    these bytes at [addr], leaves every other byte of the process and all
    mappings alone, advances the offset and does not change the file. *)
Theorem fileread_correct i st sb ip f root V D P x s addr off n (bs := take (Z.to_nat n) (drop (Z.to_nat off) (data V x))) :
  resting i st sb ip V D P x s -> open_file s f ip off -> f_readable (k_ftable s f) = true -> 0 <= off < 0x80000000 -> 0 <= n < 0x80000000 ->
  to_user i root addr n (k_mem s) (User addr) [] s ->
  exists s', fileread f addr n s = Ok (Z.of_nat (length bs)) s' /\ resting i st sb ip V D P x s' /\
    k_ftable s' f = f_set_off (off + Z.of_nat (length bs)) (k_ftable s f) /\
    (forall w, ent (k_mem s') root w = ent (k_mem s) root w) /\
    forall a, 0 <= a < MAXVA -> uvalid (k_mem s) root a = true ->
      ubyte (k_mem s') root a = if decide (addr <= a < addr + Z.of_nat (length bs)) then nth (Z.to_nat (a - addr)) bs 0 else ubyte (k_mem s) root a.
Proof.
  intros R [H1 H2 H3] Hrd Ho Hn HS.
  destruct (fileread_rule i st sb ip f (to_user i root addr n (k_mem s)) n V D P x s addr off R Hrd H1 H2 H3 Ho Hn HS) as (p' & s' & E & R' & [] & M).
  by exists s'.
Qed.

(** C26. What [filewrite] wrote, [fileread] reads.  Two open files share an
    inode and an offset.  A write through the first writes all [n] bytes, or
    stops after [r] of them and returns -1 because no free block is left on the
    disk or the file would pass MAXFILE blocks; a read of as many bytes as were
    written through the second returns that number, puts exactly these bytes
    into the memory of the process and leaves its other bytes as they were. *)
Theorem write_read_roundtrip i st sb ip f g root V D P x s addr va off src (n := Z.of_nat (length src)) :
  sb_size sb <= BPB -> resting i st sb ip V D P x s -> open_file s f ip off -> open_file s g ip off -> f <> g ->
  f_writable (k_ftable s f) = true -> f_readable (k_ftable s g) = true -> 0 <= off <= i_size x ->
  from_user i root (User addr) src s -> to_user i root va n (k_mem s) (User va) [] s ->
  exists r s1 news V1 D1 x1 s2, filewrite f addr n s = Ok (if r =? n then n else -1) s1 /\
    resting i st sb ip V1 D1 (news ++ P) x1 s1 /\ 0 <= r <= n /\ (r < n -> full sb V1 \/ MAXFILE * BSIZE < off + n) /\
    fileread g va r s1 = Ok r s2 /\
    forall a, 0 <= a < MAXVA -> uvalid (k_mem s) root a = true ->
      ubyte (k_mem s2) root a = if decide (va <= a < va + r) then nth (Z.to_nat (a - va)) src 0 else ubyte (k_mem s) root a.
Proof.
  intros Hone R [H1 H2 H3] [K1 K2 K3] Hne Hw Hrd Ho HS HT.
  destruct (filewrite_rule i st sb ip f Hone root V D P x s addr off src R H3 Ho HS Hw H1 H2) as (r & s1 & news & V1 & D1 & x1 & E & G & Hs).
  pose proof G as [G1 G2 G3 G4 [U _ Ft] G6 G7]. exists r, s1, news, V1, D1, x1. fold n in E, G2.
  pose proof (in_size _ _ _ _ (rs_ok _ _ _ _ _ _ _ _ _ R)) as Hs0. pose proof (in_size _ _ _ _ (rs_ok _ _ _ _ _ _ _ _ _ G1)) as Hs1.
  pose proof (progress_size i st sb ip f V P x s off src Ho _ _ _ _ _ _ G) as Hs2.
  pose proof (Ft g (not_eq_sym Hne)) as Eg. set (w := take (Z.to_nat r) src) in *. assert (Z.of_nat (length w) = r) as Hlw by (unfold w; rewrite length_take; unfold n in *; lia).
  assert (take (Z.to_nat r) (drop (Z.to_nat off) (data V1 x1)) = w) as Hsrc.
  { rewrite G3. fold w. unfold splice. rewrite drop_app_length' by (rewrite length_take, data_length; lia). rewrite take_app_length'; [done|lia]. }
  destruct (@fileread_rule _ _ _ i st sb ip g (to_user i root va n (k_mem s)) r (sink_le n r _ ltac:(lia)) V1 D1 (news ++ P) x1 s1 va off G1) as (p' & s2 & E2 & _ & T2 & _);
    [by rewrite Eg|by rewrite Eg|by rewrite Eg|by rewrite Eg|flia|unfold n in *; flia|by eapply sk_frame|].
  rewrite Hsrc, Hlw in *. exists s2. do 4 (split; [done|]). split; [exact E2|]. intros a Ha Hu. destruct T2 as [_ _ _ _ _ W6]. rewrite W6 by done. unfold ulen. rewrite Hlw.
  case_decide; [|done]. unfold w. by rewrite !nth_lookup, lookup_take_lt by lia.
Qed.

(** What [iupdate] saved, [ilock] loads.  Take any later state in which the
    disk outside the log still reads as [iupdate] left it, in this transaction or after it
    committed: a cache entry that names the inode and is not valid yet gets
    exactly its type, device numbers, link count, size and block addresses. *)
Theorem iupdate_ilock_roundtrip i st n sb D P bl V ip x s : at_inode i st n sb D P bl [] V ip x s ->
  inode_ok st sb V x -> fs_bitmap st sb V -> inode_range x -> i_type x <> 0 -> 1 <= n -> Z.of_nat (length bl) < LOGBLOCKS ->
  exists s1 bl1 V1, iupdate ip s = Ok tt s1 /\ txn i st n bl1 [] V1 D P s1 /\ tframe s s1 /\ (length bl1 <= length bl + 1)%nat /\
    forall n' bl' V' D' P' jp t (z := k_itable t jp), txn i st n' bl' [] V' D' P' t -> matches st V' V1 -> k_sb t = sb -> Z.of_nat (length bl') < NBUF ->
      i_inum z = i_inum x -> i_dev z = ROOTDEV -> i_valid z = false -> 1 <= i_ref z -> sl_locked (k_sleeplocks t (SL_inode jp)) = false ->
      exists t', ilock jp t = Ok tt t' /\ locked_by i jp t' /\ loaded z (k_itable t' jp) x.
Proof.
  intros A I F Rg Hty Hn Hl. destruct (iupdate_rule i st n D P bl V ip x s sb A I F Hn Hl) as (s1 & E1 & F1 & [T1 Hs1 Hx1]).
  set (m := IBLOCK (i_inum x) sb) in *. set (d := put_fields _ _) in *. pose proof (in_inum _ _ _ _ I) as Hi.
  destruct (fb_inodes _ _ _ F _ Hi) as (_ & _ & Hpl). fold m in Hpl. pose proof (fw_bitmap st sb V m d F Hpl) as F'.
  exists s1, (absorb m bl), (fupd V m d). split; [done|]. split; [done|]. split; [done|]. split; [pose proof (absorb_length m bl); lia|].
  intros n' bl' V' D' P' jp t z T M Hs Hb Hz Hd Hv Hr Hlk.
  destruct (ilock_load i st n' D' P' bl' V' jp t x sb T Hs (matches_bitmap _ _ _ _ F' M) Hb Hr Hv Hd ltac:(fold z; by rewrite Hz) Hlk (eq_sym Hz)
    (matches_saved st sb _ _ F' M x Hi (dinode_saved V sb x Rg)) Hty) as (t' & E & _ & L & _ & _ & _ & _ & Ld).
  by exists t'.
Qed.
End props.

(** ** A disk with one file *)

(** Inode 1 is a file of five bytes, in block 39. *)
Definition hello : inode := mkInode ROOTDEV 1 1 true 2 0 0 1 5 (fun j => if j =? 0 then 39 else 0).
Definition hello_bytes : list Z := [104; 101; 108; 108; 111].

Definition inode_disk : contents := fupd small_disk 33 (put_fields (dinode_fields hello (dip_of hello)) (small_disk 33)).
Definition hello_disk : contents := fupd inode_disk 39 (mem_write zeroed 0 hello_bytes).

Lemma hello_plain m : m <> 40 -> plain small_sb m.
Proof. intros Hm c Hc. rewrite small_BBLOCK by done. congruence. Qed.

Lemma hello_bitmap : fs_bitmap 2 small_sb hello_disk.
Proof. apply fw_bitmap; [|by apply hello_plain]. apply fw_bitmap; [apply small_bitmap|by apply hello_plain]. Qed.

Lemma hello_range : inode_range hello.
Proof. split; cbn; try lia. intros j _. destruct (j =? 0); lia. Qed.

Lemma hello_saved : saved hello_disk small_sb hello.
Proof.
  apply (saved_ext inode_disk); [exact (dinode_saved small_disk small_sb hello hello_range)|]. intros k _. unfold hello_disk.
  by rewrite fupd_ne.
Qed.

Lemma hello_block V bn : 0 <= bn -> block_at V hello bn = if decide (bn = 0) then 39 else 0.
Proof.
  intros Hb. case_decide as E; [by subst|]. destruct (Z.lt_ge_cases bn NDIRECT).
  - rewrite block_at_direct by done. cbn. by rewrite (proj2 (Z.eqb_neq _ _) E).
  - by rewrite block_at_none.
Qed.

Lemma hello_owns V m : owns V hello m -> m = 39.
Proof. intros (H0 & [->|(bn & Hb & ->)]); [done|]. rewrite hello_block in * by lia. by case_decide. Qed.

Lemma hello_ok : inode_ok 2 small_sb hello_disk hello.
Proof.
  assert (0 <= 39 < 64 /\ used hello_disk small_sb 39 = true) as H39 by (split; [lia|by vm_compute]).
  split; [done|done|by cbn|..].
  - intros bn H1 H2. cbn in H2. unfold BSIZE in H2. rewrite hello_block, decide_True by lia. done.
  - intros m ->%hello_owns. split; [apply H39|]. split; [apply H39|]. apply small_meta. lia.
  - intros a b Ha Hb. rewrite !hello_block by lia. by repeat case_decide; subst.
  - intros a Ha. rewrite hello_block by lia. by case_decide.
Qed.

Lemma hello_data : data hello_disk hello = hello_bytes.
Proof. by vm_compute. Qed.

(** The process of [user_state], with "abcd" at the start of its memory. *)
Definition abcd : list Z := [97; 98; 99; 100].
Definition abcd_mem : mem := mem_write sample_mem udata abcd.
Definition abcd_state : kstate := k_set_mem abcd_mem user_state.

Lemma abcd_ent w : ent abcd_mem uroot w = ent sample_mem uroot w.
Proof.
  apply (ent_ext sample_mem abcd_mem uroot [utab1] [utab0]); [apply user_vmem|]. intros t j Ht Hj. apply (loadn_ext 8). intros a Ha.
  apply mem_write_outside. pose proof (slot_in_page t j Hj). change (Z.of_nat (length abcd)) with 4. change (Z.of_nat 8) with 8 in Ha.
  apply elem_of_cons in Ht as [->|[->|[->|[]%elem_of_nil]%elem_of_cons]%elem_of_cons]; unfold uroot, utab1, utab0, udata, PGSIZE in *; lia.
Qed.

Lemma abcd_uspace : uspace abcd_state free8 uroot [utab1] [utab0].
Proof.
  pose proof user_uspace as [HV H1 H2]. split.
  - split; [|apply pt_check_ok; by vm_compute| |apply user_locks].
    + split; [vm_compute; repeat split; reflexivity|apply (bool_decide_unpack _); by vm_compute..].
    + apply Forall_forall, (bool_decide_unpack _). by vm_compute.
  - intros w. change (k_mem abcd_state) with abcd_mem. rewrite abcd_ent. apply H1.
  - intros w w'. change (k_mem abcd_state) with abcd_mem. rewrite !abcd_ent. apply H2.
Qed.

(** It runs with the file open for writing as file 0 and for reading as file 1,
    both at offset 2. *)
Definition hello_file (writable : bool) : file := f_set_off 2 (f_set_ip (Some 0) (f_set_writable writable (f_set_readable (negb writable)
  (f_set_ref 1 (f_set_type FD_INODE (k_ftable zero_state 0)))))).

Definition with_process (s : kstate) : kstate :=
  k_set_ftable (fun f => hello_file (f =? 0)) (k_set_itable (fun _ => hello)
    (k_set_sleeplocks (fun l => match l with SL_inode _ => mkSleep false 0 | _ => k_sleeplocks s l end)
      (k_set_procs (fun j => p_set_pagetable uroot (k_procs s j))
        (k_set_mem (k_mem abcd_state) (k_set_freelist (k_freelist user_state) (k_set_refcount (k_refcount user_state) s)))))).

Lemma with_process_txn st n bl V D P s : txn 0 st n bl [] V D P s -> txn 0 st n bl [] V D P (with_process s).
Proof.
  intros [[(pin & l & [] & Hpin) [[] ? ?] ? ? ? ? ?] ? ? ? ? ?]. split; try done. split; try done.
  exists pin, l. split; [by split|done].
Qed.

Lemma with_process_space st n bl V D P s : txn 0 st n bl [] V D P s -> in_space 0 uroot (with_process s).
Proof.
  intros T. pose proof (bl_calm _ _ _ _ _ _ _ (tx_blocks _ _ _ _ _ _ _ _ _ T)) as [R Hh _]. split; [apply R|done|].
  exists free8, [utab1], [utab0]. apply (uspace_same abcd_state); [apply abcd_uspace|done|done|done|].
  unfold alloc_locks_free. change (k_held (with_process s)) with (k_held s). rewrite Hh. repeat split; apply not_elem_of_nil.
Qed.

Definition hello_state (n : Z) : kstate := with_process (booted_on n hello_disk small_sb).

Lemma hello_txn n : txn 0 2 n [] [] hello_disk hello_disk [] (hello_state n).
Proof. apply with_process_txn, booted_on_txn. by split. Qed.

Lemma with_process_sb s : k_sb (with_process s) = k_sb s.
Proof. done. Qed.

Lemma hello_sb n : k_sb (hello_state n) = small_sb.
Proof. exact (eq_trans (with_process_sb _) (proj2 (proj2 (booted_on_blocks n hello_disk small_sb)))). Qed.

Lemma with_process_resting s : txn 0 2 0 [] [] hello_disk hello_disk [] s -> k_sb s = small_sb ->
  resting 0 2 small_sb 0 hello_disk hello_disk [] hello (with_process s).
Proof.
  intros T Hs. split; [by apply with_process_txn|exact Hs|done|done|done|done|apply hello_ok|apply hello_bitmap|apply hello_range|apply hello_saved].
Qed.

Lemma with_process_page s a : 0 <= a < PGSIZE -> ent (k_mem (with_process s)) uroot (a / PGSIZE) = leaf_pte udata rwu.
Proof. intros Ha. rewrite Z.div_small by done. change (k_mem (with_process s)) with abcd_mem. by rewrite abcd_ent, user_ent. Qed.

Lemma with_process_valid s a : 0 <= a < PGSIZE -> uvalid (k_mem (with_process s)) uroot a = true.
Proof. intros Ha. unfold uvalid. rewrite with_process_page by done. by vm_compute. Qed.

Lemma with_process_from s : in_space 0 uroot (with_process s) -> from_user 0 uroot (User 0) abcd (with_process s).
Proof.
  intros H. split; [done|]. exists 0. split; [done|]. split; [done|]. split; [done|]. split.
  - intros j Hj. change (ulen abcd) with 4 in Hj. unfold in_user, uvalid. rewrite with_process_page by (unfold PGSIZE; lia).
    split; [change MAXVA with 0x4000000000; lia|]. split; [by vm_compute|]. apply (bool_decide_unpack _). by vm_compute.
  - change (k_mem (with_process s)) with abcd_mem. by vm_compute.
Qed.

Lemma with_process_to s : in_space 0 uroot (with_process s) -> to_user 0 uroot 16 4 (k_mem (with_process s)) (User 16) [] (with_process s).
Proof.
  intros H. split; [done|done|done| |done|].
  - intros w Hw. assert (w = 0 / PGSIZE) as -> by (change (0 / PGSIZE) with 0; change (16 / PGSIZE) with 0 in Hw; change ((16 + 4 - 1) / PGSIZE) with 0 in Hw; lia).
    unfold open_page. rewrite with_process_page by done. repeat split; by vm_compute.
  - intros a _ _. by rewrite decide_False by (unfold ulen; cbn; lia).
Qed.

Lemma with_process_open s f : open_file (with_process s) f 0 2.
Proof. by split. Qed.

Lemma hello_resting : resting 0 2 small_sb 0 hello_disk hello_disk [] hello (hello_state 0).
Proof. apply with_process_resting; [apply booted_on_txn; by split|exact (proj2 (proj2 (booted_on_blocks 0 hello_disk small_sb)))]. Qed.

Lemma hello_space : in_space 0 uroot (hello_state 0).
Proof. eapply with_process_space, booted_on_txn. by split. Qed.

(** ** The theorems on this disk *)

Lemma filewrite_correct_witness : exists r s' V' x', @filewrite sample_layout disk_env 0 0 4 (hello_state 0) = Ok (if r =? 4 then 4 else -1) s' /\
  data V' x' = splice 2 (take (Z.to_nat r) abcd) hello_bytes.
Proof.
  destruct (@filewrite_correct sample_layout disk_env sample_disk 0 2 small_sb 0 0 uroot hello_disk hello_disk [] hello (hello_state 0) 0 2 abcd
    ltac:(by vm_compute) hello_resting (with_process_open _ 0) eq_refl ltac:(by vm_compute) (with_process_from _ hello_space))
    as (r & s' & news & V' & D' & x' & E & _ & _ & _ & Hd & _).
  rewrite hello_data in Hd. exact (ex_intro _ r (ex_intro _ s' (ex_intro _ V' (ex_intro _ x' (conj E Hd))))).
Defined.

Lemma filewrite_crash_witness : exists v s', @filewrite sample_layout disk_env 0 0 4 (hello_state 0) = Ok v s' /\
  exists k, on_disk 2 small_sb (recovered 2 (k_disk s')) 1 (splice 2 (take k abcd) hello_bytes).
Proof.
  destruct (@filewrite_crash sample_layout disk_env sample_disk 0 2 small_sb 0 0 uroot hello_disk hello_disk [] hello (hello_state 0) 0 2 abcd
    ltac:(by vm_compute) hello_resting (with_process_open _ 0) eq_refl ltac:(by vm_compute) (with_process_from _ hello_space))
    as (v & s' & news & E & _ & H).
  destruct (H (k_disk s') (list_elem_of_here _ _)) as (_ & k & _ & Hk). rewrite hello_data in Hk.
  exact (ex_intro _ v (ex_intro _ s' (conj E (ex_intro _ k Hk)))).
Defined.

Lemma hello_valid a : (0 <=? a) && (a <? PGSIZE) = true -> uvalid (k_mem (hello_state 0)) uroot a = true.
Proof. intros [H1%Z.leb_le H2%Z.ltb_lt]%andb_true_iff. exact (with_process_valid (booted_on 0 hello_disk small_sb) a (conj H1 H2)). Qed.

Lemma eighteen : 0 <= 18 < MAXVA.
Proof. by vm_compute. Qed.

Lemma hello_read : take (Z.to_nat 4) (drop (Z.to_nat 2) (data hello_disk hello)) = [108; 108; 111].
Proof. by rewrite hello_data. Qed.

Lemma third_byte bs v w : bs = [108; 108; 111] ->
  v = (if decide (16 <= 18 < 16 + Z.of_nat (length bs)) then nth (Z.to_nat (18 - 16)) bs 0 else w) -> v = 111.
Proof. by intros -> ->. Qed.

Lemma fileread_correct_witness : exists s', @fileread sample_layout disk_env 1 16 4 (hello_state 0) = Ok 3 s' /\ ubyte (k_mem s') uroot 18 = 111.
Proof.
  destruct (@fileread_correct sample_layout disk_env sample_disk 0 2 small_sb 0 1 uroot hello_disk hello_disk [] hello (hello_state 0) 16 2 4
    hello_resting (with_process_open _ 1) eq_refl ltac:(lia) ltac:(lia) (with_process_to _ hello_space)) as (s' & E & _ & _ & _ & Hb).
  pose proof (third_byte _ (ubyte (k_mem s') uroot 18) (ubyte (k_mem (hello_state 0)) uroot 18) hello_read (Hb 18 eighteen (hello_valid 18 eq_refl))) as H3.
  pose proof (f_equal (fun b => @Ok kstate Z (Z.of_nat (length b)) s') hello_read) as H4. cbv beta in H4.
  exact (ex_intro _ s' (conj (eq_trans E H4) H3)).
Defined.

(** The write succeeds. *)
Lemma hello_write : match @filewrite sample_layout disk_env 0 0 4 (hello_state 0) with Ok v _ => v | _ => -1 end = 4.
Proof. by vm_compute. Qed.

Lemma whole_write r s1 : @filewrite sample_layout disk_env 0 0 4 (hello_state 0) = Ok (if r =? 4 then 4 else -1) s1 -> r = 4.
Proof. intros E. pose proof hello_write as H. rewrite E in H. destruct (Z.eqb_spec r 4); [done|discriminate H]. Qed.

Lemma eighteen_99 v : v = (if decide (16 <= 18 < 16 + 4) then nth (Z.to_nat (18 - 16)) abcd 0 else ubyte (k_mem (hello_state 0)) uroot 18) -> v = 99.
Proof. by intros ->. Qed.

Lemma hello_zero a : (a =? 18) = true -> ubyte (k_mem (hello_state 0)) uroot a = 0.
Proof. intros ->%Z.eqb_eq. change (k_mem (hello_state 0)) with abcd_mem. by vm_compute. Qed.

Lemma write_read_roundtrip_witness : exists s1 s2, @filewrite sample_layout disk_env 0 0 4 (hello_state 0) = Ok 4 s1 /\
  @fileread sample_layout disk_env 1 16 4 s1 = Ok 4 s2 /\ ubyte (k_mem (hello_state 0)) uroot 18 = 0 /\ ubyte (k_mem s2) uroot 18 = 99.
Proof.
  destruct (@write_read_roundtrip sample_layout disk_env sample_disk 0 2 small_sb 0 0 1 uroot hello_disk hello_disk [] hello (hello_state 0) 0 16 2 abcd
    ltac:(by vm_compute) hello_resting (with_process_open _ 0) (with_process_open _ 1) ltac:(lia) eq_refl eq_refl ltac:(by vm_compute)
    (with_process_from _ hello_space) (with_process_to _ hello_space)) as (r & s1 & news & V1 & D1 & x1 & s2 & E & _ & _ & _ & E2 & Hb).
  pose proof (whole_write r s1 E) as Hr4. rewrite Hr4 in E, E2, Hb.
  pose proof (eighteen_99 _ (Hb 18 eighteen (hello_valid 18 eq_refl))) as H18.
  exact (ex_intro _ s1 (ex_intro _ s2 (conj E (conj E2 (conj (hello_zero 18 eq_refl) H18))))).
Defined.

Lemma hello_at n : at_inode 0 2 n small_sb hello_disk [] [] [] hello_disk 0 hello (hello_state n).
Proof. exact (Build_at_inode 0 2 n small_sb hello_disk [] [] [] hello_disk 0 hello (hello_state n) (hello_txn n) (hello_sb n) eq_refl). Qed.

Definition forget (s : kstate) : kstate := k_set_itable (fun _ => i_set_valid false hello) s.

Lemma forget_keeps s s1 : tframe s s1 -> k_sb (forget s1) = k_sb s /\ k_sleeplocks (forget s1) (SL_inode 0) = k_sleeplocks s (SL_inode 0).
Proof. intros F. split; [exact (tframe_sb _ _ F)|exact (fframe_ilock _ _ 0 (fframe_of _ _ F))]. Qed.

Lemma with_process_unlocked s : k_sleeplocks (with_process s) (SL_inode 0) = mkSleep false 0.
Proof. done. Qed.

Lemma short_log (bl : list Z) : (length bl <= length (@nil Z) + 1)%nat -> Z.of_nat (length bl) < NBUF.
Proof. intros H. change NBUF with 30. cbn [length] in H. lia. Qed.

Lemma iupdate_ilock_roundtrip_witness : exists s1 s2, @iupdate disk_env 0 (hello_state 1) = Ok tt s1 /\ @ilock disk_env 0 (forget s1) = Ok tt s2 /\
  i_size (k_itable s2 0) = 5.
Proof.
  destruct (@iupdate_ilock_roundtrip disk_env sample_disk 0 2 1 small_sb hello_disk [] [] hello_disk 0 hello (hello_state 1) (hello_at 1)
    hello_ok hello_bitmap hello_range ltac:(by vm_compute) ltac:(lia) ltac:(by vm_compute)) as (s1 & bl1 & V1 & E & T & F & Hl & H).
  destruct (forget_keeps _ _ F) as [Hs Hk]. rewrite hello_sb in Hs. unfold hello_state in Hk. rewrite with_process_unlocked in Hk.
  destruct (H 1 bl1 V1 hello_disk [] 0 (forget s1) (txn_itable _ _ _ _ _ _ _ _ _ _ T) (fun m _ => reflexivity (V1 m)) Hs (short_log bl1 Hl)
    eq_refl eq_refl eq_refl (Z.le_refl 1) (f_equal sl_locked Hk)) as (s2 & E2 & _ & Ld).
  exact (ex_intro _ s1 (ex_intro _ s2 (conj E (conj E2 (ld_size _ _ _ Ld))))).
Defined.
