(* ===== verification/Dir.v ===== *)
(** * Directories (kernel/fs.c, dirlookup, dirlink and iget)

    A directory is a file of 16-byte entries.  [dir_find] and [dir_free] say
    what is looked up and where an entry goes, on the bytes of the file; the
    kernel's loops compute them. *)

From S2P Require Import Prelude Riscv Mem CString KState Sched Virtio DiskSpec Bio BioSpec Blocks Log LogSpec Txn StorageSpec PhysMem Kalloc Vm PageTable Walk VmMap VmAlloc VmCow VmCopy.
From S2P Require Import Vm Fs FsSpec Inode InodeSpec Dinode FileIO FileWrite InodeLock Pipe Console File FileSpec.

(** ** The bytes of a directory *)

Definition entry (bs : list Z) (off : Z) : list Z := take 16 (drop (Z.to_nat off) bs).

(** An entry in use with this name. *)
Definition hit (bs name : list Z) (off : Z) : bool :=
  negb (de_inum (entry bs off) =? 0) && (namecmp name (de_name (entry bs off)) =? 0).
Definition empty (bs : list Z) (off : Z) : bool := de_inum (entry bs off) =? 0.

Definition offsets (bs : list Z) : list Z := map (Z.mul 16) (seqZ 0 (Z.of_nat (length bs) / 16)).

Definition dir_find (bs name : list Z) : option Z := find (hit bs name) (offsets bs).
Definition dir_free (bs : list Z) : Z := match find (empty bs) (offsets bs) with Some off => off | None => Z.of_nat (length bs) end.

Lemma elem_of_offsets bs off : Z.of_nat (length bs) mod 16 = 0 -> off ∈ offsets bs <-> off mod 16 = 0 /\ 0 <= off < Z.of_nat (length bs).
Proof.
  intros Hm. unfold offsets. rewrite list_elem_of_fmap. split.
  - intros (k & -> & Hk%elem_of_seqZ). zlia.
  - intros [H1 H2]. exists (off / 16). split; [zlia|]. apply elem_of_seqZ. zlia.
Qed.

Lemma dir_find_some bs name off : Z.of_nat (length bs) mod 16 = 0 -> dir_find bs name = Some off ->
  off mod 16 = 0 /\ 0 <= off < Z.of_nat (length bs) /\ hit bs name off = true.
Proof.
  intros Hm [H1 H2]%find_some. apply list_elem_of_In, elem_of_offsets in H1 as [H3 H4]; done.
Qed.

Lemma dir_free_range bs : Z.of_nat (length bs) mod 16 = 0 -> dir_free bs mod 16 = 0 /\ 0 <= dir_free bs <= Z.of_nat (length bs).
Proof.
  intros Hm. unfold dir_free. destruct (find _ _) as [off|] eqn:E; [|lia]. apply find_some in E as [E _].
  apply list_elem_of_In, elem_of_offsets in E as [H3 H4]; [lia|done].
Qed.

Lemma dir_free_empty bs : dir_free bs < Z.of_nat (length bs) -> empty bs (dir_free bs) = true.
Proof. unfold dir_free. destruct (find _ _) as [off|] eqn:E; [|lia]. intros _. exact (proj2 (find_some _ _ E)). Qed.

(** *** Linking an entry *)

Section link.
Variables (bs de : list Z) (off : Z).
Hypotheses (Hm : Z.of_nat (length bs) mod 16 = 0) (Ho : off mod 16 = 0 /\ 0 <= off <= Z.of_nat (length bs)) (Hde : length de = 16%nat).

Lemma splice_length : Z.of_nat (length (splice off de bs)) = Z.max (off + 16) (Z.of_nat (length bs)).
Proof using Ho Hde. unfold splice. rewrite !length_app, length_take, length_drop, Hde. lia. Qed.

Lemma entry_here : entry (splice off de bs) off = de.
Proof using Ho Hde.
  unfold entry, splice. rewrite drop_app_length' by (rewrite length_take; lia). by rewrite take_app_length' by lia.
Qed.

Lemma entry_other o : o mod 16 = 0 -> 0 <= o < Z.of_nat (length bs) -> o <> off -> entry (splice off de bs) o = entry bs o.
Proof using Hm Ho Hde.
  intros H1 H2 Hne. unfold entry. apply list_eq. intros j. destruct (Nat.lt_ge_cases j 16) as [Hj|Hj]; [|by rewrite !lookup_take_ge by lia].
  rewrite !lookup_take_lt by done. rewrite !lookup_drop. unfold splice.
  destruct (Z.lt_ge_cases o off).
  - rewrite lookup_app_l by (rewrite length_take; zlia). by rewrite lookup_take_lt by zlia.
  - rewrite lookup_app_r by (rewrite length_take; lia). rewrite length_take, lookup_app_r by (rewrite Hde; zlia). rewrite lookup_drop, Hde. f_equal. zlia.
Qed.
End link.

Lemma namecmp_pad n name : strncmp_l n name (strncpy_l n name) = 0.
Proof.
  revert name. induction n as [|n IH]; intros name; [done|]. cbn. destruct (Z.eqb_spec (chr name) 0) as [E|E]; cbn; [by rewrite E|].
  rewrite Z.eqb_refl. cbn. apply IH.
Qed.

Lemma mk_dirent_inum inum name : 0 <= inum < 65536 -> de_inum (mk_dirent inum name) = inum.
Proof. intros H. unfold de_inum, mk_dirent. cbn [nth app]. unfold u8. zlia. Qed.

Lemma mk_dirent_name inum name : de_name (mk_dirent inum name) = strncpy_l (Z.to_nat DIRSIZ) name.
Proof. done. Qed.

Lemma find_ext_in {A} (f g : A -> bool) l : (forall a, a ∈ l -> f a = g a) -> find f l = find g l.
Proof.
  induction l as [|a l IH]; intros H; [done|]. cbn. rewrite (H a) by ielem. destruct (g a); [done|]. apply IH. intros b Hb. apply H. ielem.
Qed.

Lemma find_app_none {A} (f : A -> bool) l l' : find f l = None -> find f (l ++ l') = find f l'.
Proof. induction l as [|a l IH]; [done|]. cbn. destruct (f a); [done|apply IH]. Qed.

Lemma find_app_some {A} (f : A -> bool) l l' a : find f l = Some a -> find f (l ++ l') = Some a.
Proof. induction l as [|b l IH]; [done|]. cbn. destruct (f b); [done|apply IH]. Qed.

Lemma find_only {A} (f : A -> bool) l a : a ∈ l -> f a = true -> (forall b, b ∈ l -> f b = true -> b = a) -> find f l = Some a.
Proof.
  intros Ha Hf Hu. destruct (find f l) as [b|] eqn:E.
  - apply find_some in E as [E1 E2]. apply list_elem_of_In in E1. by rewrite (Hu b E1 E2).
  - apply list_elem_of_In in Ha. pose proof (find_none _ _ E a Ha) as H. congruence.
Qed.

Section linked.
Variables (bs name : list Z) (inum : Z).
Hypotheses (Hm : Z.of_nat (length bs) mod 16 = 0) (Hi : 0 < inum < 65536).
Let off := dir_free bs.
Let bs' := splice off (mk_dirent inum name) bs.

Lemma linked_length : Z.of_nat (length bs') = Z.max (off + 16) (Z.of_nat (length bs)) /\ Z.of_nat (length bs') mod 16 = 0.
Proof using Hm. destruct (dir_free_range bs Hm) as [H1 H2]. fold off in H1, H2. unfold bs'. rewrite (splice_length _ _ _ (conj H1 H2) (mk_dirent_length _ _)). zlia. Qed.

Lemma linked_entry o : o mod 16 = 0 -> 0 <= o < Z.of_nat (length bs') -> entry bs' o = if decide (o = off) then mk_dirent inum name else entry bs o.
Proof using Hm.
  intros H1 H2. destruct (dir_free_range bs Hm) as [G1 G2]. fold off in G1, G2. destruct linked_length as [L1 _]. unfold bs'. case_decide as E.
  - subst o. apply entry_here; [done|apply mk_dirent_length].
  - apply entry_other; [done|done|apply mk_dirent_length|done|zlia|done].
Qed.

(** A name that was not there is found where it was linked. *)
Lemma linked_found : dir_find bs name = None -> dir_find bs' name = Some off.
Proof using Hm Hi.
  intros Hn. destruct (dir_free_range bs Hm) as [G1 G2]. fold off in G1, G2. destruct linked_length as [L1 L2]. apply find_only.
  - apply elem_of_offsets; [done|]. lia.
  - unfold hit. rewrite linked_entry, decide_True by (done || lia). rewrite mk_dirent_inum, mk_dirent_name by lia. unfold namecmp. rewrite namecmp_pad.
    by rewrite (proj2 (Z.eqb_neq inum 0)) by lia.
  - intros o [H1 H2]%elem_of_offsets Hh; [|done]. destruct (Z.eq_dec o off) as [|Hne]; [done|exfalso]. unfold hit in Hh. rewrite linked_entry, decide_False in Hh by done.
    assert (o ∈ offsets bs) as Ho by (apply elem_of_offsets; [done|zlia]). apply list_elem_of_In in Ho. pose proof (find_none _ _ Hn o Ho) as H. unfold hit in H. congruence.
Qed.

Lemma linked_here : entry bs' off = mk_dirent inum name.
Proof using Hm. destruct (dir_free_range bs Hm). apply entry_here; [done|apply mk_dirent_length]. Qed.

Lemma linked_kept name' o : dir_find bs name' = Some o -> entry bs' o = entry bs o.
Proof using Hm.
  intros Hf. destruct (dir_find_some bs name' o Hm Hf) as (H1 & H2 & H3). destruct linked_length as [L1 _].
  rewrite linked_entry, decide_False; [done| |done|lia]. intros ->. pose proof (dir_free_empty bs (proj2 H2)) as H4.
  unfold hit in H3. unfold empty in H4. fold off in H4. by rewrite H4 in H3.
Qed.

(** The other names are found where they were. *)
Lemma linked_others name' : namecmp name' (strncpy_l (Z.to_nat DIRSIZ) name) <> 0 -> dir_find bs' name' = dir_find bs name'.
Proof using Hm Hi.
  intros Hne. destruct (dir_free_range bs Hm) as [G1 G2]. fold off in G1, G2. destruct linked_length as [L1 L2].
  assert (forall o, o ∈ offsets bs -> hit bs' name' o = hit bs name' o) as Hsame.
  { intros o [H1 H2]%elem_of_offsets; [|done]. unfold hit. rewrite linked_entry by (done || lia). case_decide as E; [|done].
    rewrite mk_dirent_name, (proj2 (Z.eqb_neq _ _) Hne), andb_false_r. symmetry. apply andb_false_iff. left. apply negb_false_iff.
    rewrite E. apply dir_free_empty. fold off. lia. }
  destruct (Z.eq_dec off (Z.of_nat (length bs))) as [Eo|Eo].
  - assert (offsets bs' = offsets bs ++ [off]) as Eoff.
    { unfold offsets. rewrite L1. replace (Z.max (off + 16) (Z.of_nat (length bs)) / 16) with (Z.of_nat (length bs) / 16 + 1) by zlia.
      rewrite seqZ_app, map_app by zlia. f_equal. change (seqZ (0 + Z.of_nat (length bs) / 16) 1) with [Z.of_nat (length bs) / 16]. cbn [map]. f_equal. rewrite Eo. zlia. }
    unfold dir_find. rewrite Eoff. destruct (find (hit bs name') (offsets bs)) as [o|] eqn:Ef.
    + rewrite <- (find_ext_in _ _ _ Hsame) in Ef. by apply find_app_some.
    + rewrite <- (find_ext_in _ _ _ Hsame) in Ef. rewrite find_app_none by done. cbn. unfold hit. rewrite linked_entry, decide_True by (done || lia).
      by rewrite mk_dirent_name, (proj2 (Z.eqb_neq _ _) Hne), andb_false_r.
  - assert (offsets bs' = offsets bs) as Eoff by (unfold offsets; rewrite L1; f_equal; f_equal; zlia).
    unfold dir_find. rewrite Eoff. by apply find_ext_in.
Qed.
End linked.

(** An entry is in one block, so it is written in full or not at all. *)
Lemma linked_split inum name r off : off mod 16 = 0 -> whole off (mk_dirent inum name) r -> 0 <= r <= Z.of_nat (length (mk_dirent inum name)) -> r = 0 \/ r = 16.
Proof.
  unfold whole. rewrite mk_dirent_length. change (Z.of_nat 16) with 16. change BSIZE with 1024. intros Ho [->|[->|Hw]] Hr; [by left|by right|]. zlia.
Qed.

(** ** The inode cache *)

(** The entry is in use for this inode. *)
Definition caches (dev inum : Z) (x : inode) : bool := (i_ref x >? 0) && (i_dev x =? dev) && (i_inum x =? inum).

Definition in_table (j : Z) : Prop := 0 <= j < NINODE.

(** An inode has at most one entry. *)
Definition one_copy (t : Z -> inode) : Prop := forall j k dev inum, in_table j -> in_table k ->
  caches dev inum (t j) = true -> caches dev inum (t k) = true -> j = k.

Definition cache_room (dev inum : Z) (t : Z -> inode) : Prop := exists j, in_table j /\ (caches dev inum (t j) = true \/ i_ref (t j) = 0).

(** What [iget] makes of the entry [x]. *)
Record got (dev inum : Z) (t : Z -> inode) (ip : Z) (z : inode) : Prop := {
  gt_table : in_table ip;
  gt_how : (caches dev inum (t ip) = true /\ z = i_set_ref (i_ref (t ip) + 1) (t ip)) \/
    ((forall j, in_table j -> caches dev inum (t j) = false) /\ i_ref (t ip) = 0 /\
      z = i_set_valid false (i_set_ref 1 (i_set_inum inum (i_set_dev dev (t ip)))))
}.

Lemma got_entry dev inum t ip z : got dev inum t ip z -> i_dev z = dev /\ i_inum z = inum /\ 1 <= i_ref z.
Proof.
  intros [_ [[H ->]|(_ & _ & ->)]]; [|done]. unfold caches in H. cbn. lia.
Qed.

(** Only entry [ip] changes, to [z]. *)
Definition entry_set (t : Z -> inode) (ip : Z) (z : inode) (t' : Z -> inode) : Prop := forall j, t' j = if decide (j = ip) then z else t j.

Lemma got_one_copy dev inum t ip z t' : one_copy t -> got dev inum t ip z -> entry_set t ip z t' -> one_copy t'.
Proof.
  intros H G Ht'. pose proof (got_entry _ _ _ _ _ G) as (Z1 & Z2 & Z3). destruct G as [Ht Hhow].
  assert (forall k d n, in_table k -> k <> ip -> caches d n z = true -> caches d n (t k) = true -> False) as Hk.
  { intros k d n Hin Hne H1 H2. assert (d = dev /\ n = inum) as [-> ->] by (unfold caches in H1; lia).
    destruct Hhow as [[H3 _]|[H3 _]]; [by apply Hne, (H k ip dev inum)|]. by rewrite H3 in H2. }
  intros j k d n Hj Hkt. rewrite !Ht'.
  destruct (decide (j = ip)) as [->|Nj], (decide (k = ip)) as [->|Nk]; intros C1 C2; [done|by destruct (Hk k d n)|by destruct (Hk j d n)|by apply (H j k d n)].
Qed.

Section cache.
Context {ENV : Env}.

(** The scan of [iget]. *)
Lemma iget_scan_run dev inum s : (exists ip, in_table ip /\ caches dev inum (k_itable s ip) = true /\
    iget_scan dev inum s = Ok (inl ip) (upd_inode ip (fun x => i_set_ref (i_ref x + 1) x) s)) \/
  ((forall j, in_table j -> caches dev inum (k_itable s j) = false) /\ exists e, iget_scan dev inum s = Ok (inr e) s /\
    match e with Some ip => in_table ip /\ i_ref (k_itable s ip) = 0 | None => forall j, in_table j -> i_ref (k_itable s j) <> 0 end).
Proof.
  destruct (wpx_total (iget_scan dev inum) (fun r s' => match r with
    | inl ip => in_table ip /\ caches dev inum (k_itable s ip) = true /\ s' = upd_inode ip (fun x => i_set_ref (i_ref x + 1) x) s
    | inr e => (forall j, in_table j -> caches dev inum (k_itable s j) = false) /\ s' = s /\
        match e with Some ip => in_table ip /\ i_ref (k_itable s ip) = 0 | None => forall j, in_table j -> i_ref (k_itable s j) <> 0 end
    end) s) as (r & s' & E & H).
  2: { destruct r as [ip|e]; [left|right]; [destruct H as (H1 & H2 & ->); by exists ip|]. destruct H as (H1 & -> & H2). split; [done|]. by exists e. }
  apply (wpx_iter true (fun '(i, e) s' => 0 <= i <= NINODE /\ s' = s /\ (forall j, 0 <= j < i -> caches dev inum (k_itable s j) = false) /\
    match e with Some ip => in_table ip /\ i_ref (k_itable s ip) = 0 | None => forall j, 0 <= j < i -> i_ref (k_itable s j) <> 0 end) (fun '(i, _) => Z.to_nat (NINODE - i))).
  - intros [i e] s' (Hi & -> & Hn & He). destruct (Z.ltb_spec i NINODE) as [Hlt|Hge].
    + eapply wpx_bind_ok; [apply inode_of_run|]. fold (caches dev inum (k_itable s i)). destruct (caches dev inum (k_itable s i)) eqn:Ec.
      * eapply wpx_bind_ok; [apply modify_run|]. apply wpx_ret. split; [unfold in_table; lia|done].
      * apply wpx_ret. split; [|lia]. split; [lia|]. split; [done|]. split.
        { intros j Hj. destruct (Z.eq_dec j i) as [->|]; [done|]. apply Hn. lia. }
        destruct e as [k|]; [done|]. destruct (Z.eqb_spec (i_ref (k_itable s i)) 0) as [H0|H0]; [split; [unfold in_table; lia|done]|].
        intros j Hj. destruct (Z.eq_dec j i) as [->|]; [done|]. apply He. lia.
    + apply wpx_ret. split; [intros j Hj; apply Hn; unfold in_table in Hj; lia|]. split; [done|]. destruct e; [done|]. intros j Hj. apply He. unfold in_table in Hj. lia.
  - split; [done|]. split; [done|]. split; [lia|]. intros j Hj. lia.
  - lia.
Qed.

Lemma iget_run dev inum s : k_held s = [] ->
  (cache_room dev inum (k_itable s) -> exists ip z t, iget dev inum s = Ok ip (k_set_itable t s) /\ got dev inum (k_itable s) ip z /\ entry_set (k_itable s) ip z t) /\
  (~ cache_room dev inum (k_itable s) -> iget dev inum s = Panic "iget: no inodes").
Proof.
  intros Hh. assert (acquire L_itable s = Ok tt (k_set_held [L_itable] s)) as Ea by (rewrite acquire_ok; [by rewrite Hh|rewrite Hh; apply not_elem_of_nil]).
  set (s1 := k_set_held [L_itable] s) in *. unfold iget. rewrite (bind_ok _ _ _ _ _ Ea).
  assert (forall t, release L_itable (k_set_itable t s1) = Ok tt (k_set_itable t s)) as Er.
  { intros t. rewrite (release_head L_itable []) by done. f_equal. unfold s1. destruct s. cbn in *. by subst. }
  destruct (iget_scan_run dev inum s1) as [(ip & H1 & H2 & E)|(H1 & e & E & H2)]; rewrite (bind_ok _ _ _ _ _ E).
  - split; [|intros H; destruct H; exists ip; split; [done|by left]]. intros _. exists ip, (i_set_ref (i_ref (k_itable s ip) + 1) (k_itable s ip)).
    unfold upd_inode. rewrite (bind_ok _ _ _ _ _ (Er _)). eexists. split; [done|]. split; [split; [done|by left]|]. intros j. apply fupd_cases.
  - change (k_itable s1) with (k_itable s) in *. destruct e as [ip|].
    + split; [|intros H; destruct H; exists ip; split; [apply H2|right; apply H2]]. intros _.
      exists ip, (i_set_valid false (i_set_ref 1 (i_set_inum inum (i_set_dev dev (k_itable s ip))))).
      set (t1 := fupd (k_itable s) ip (i_set_dev dev (k_itable s ip))). set (t2 := fupd t1 ip (i_set_inum inum (t1 ip))).
      set (t3 := fupd t2 ip (i_set_ref 1 (t2 ip))). set (t4 := fupd t3 ip (i_set_valid false (t3 ip))).
      rewrite (bind_ok _ _ _ tt (k_set_itable t1 s1)), (bind_ok _ _ _ tt (k_set_itable t2 s1)), (bind_ok _ _ _ tt (k_set_itable t3 s1)), (bind_ok _ _ _ tt (k_set_itable t4 s1)) by reflexivity.
      exists t4. rewrite (bind_ok _ _ _ _ _ (Er _)). split; [done|]. split; [split; [apply H2|right; by split; [|split; [apply H2|]]]|].
      intros j. unfold t4, t3, t2, t1. rewrite !fupd_eq, !fupd_cases. by case_decide.
    + split; [|done]. intros (j & Hj & [Hc|Hc]); [by rewrite H1 in Hc|by apply H2 in Hc].
Qed.

Lemma ref_back y : i_set_ref (i_ref (i_set_ref (i_ref y + 1) y) - 1) (i_set_ref (i_ref y + 1) y) = y.
Proof using. change (i_ref (i_set_ref _ y)) with (i_ref y + 1). rewrite Z.add_simpl_r. by destruct y. Qed.

(** Giving back an entry just obtained. *)
Lemma iput_got s ip z t inum : k_held s = [] -> got ROOTDEV inum (k_itable s) ip z -> entry_set (k_itable s) ip z t ->
  exists t', iput ip (k_set_itable t s) = Ok tt (k_set_itable t' s) /\ entry_set (k_itable s) ip (i_set_ref (i_ref z - 1) z) t'.
Proof.
  intros Hh G Ht. assert (t ip = z) as Hz by (rewrite Ht; by rewrite decide_True). set (s1 := k_set_held [L_itable] (k_set_itable t s)).
  assert (acquire L_itable (k_set_itable t s) = Ok tt s1) as Ea by (rewrite acquire_ok; [cbn; by rewrite Hh|cbn; rewrite Hh; apply not_elem_of_nil]).
  set (t' := fupd t ip (i_set_ref (i_ref z - 1) z)). exists t'. split.
  - unfold iput. rewrite (bind_ok _ _ _ _ _ Ea), (bind_ok _ _ _ _ _ (inode_of_run ip s1)). change (k_itable s1 ip) with (t ip). rewrite Hz.
    assert ((i_ref z =? 1) && i_valid z && (i_nlink z =? 0) = false) as ->.
    { destruct G as [_ [[H ->]|(_ & _ & ->)]]; [|done]. unfold caches in H. cbn. rewrite (proj2 (Z.eqb_neq _ _)); [done|lia]. }
    erewrite bind_ok by reflexivity. rewrite (bind_ok _ _ _ tt (k_set_itable t' s1)) by (unfold t'; rewrite <- Hz; reflexivity).
    rewrite (release_head L_itable []) by done. f_equal. unfold s1. destruct s. cbn in *. by subst.
  - intros j. unfold t'. rewrite fupd_cases, Ht. by repeat case_decide.
Qed.

End cache.

(** ** dirlookup *)

Lemma dir_length st sb V x : inode_ok st sb V x -> Z.of_nat (length (data V x)) = i_size x.
Proof. intros I. rewrite data_length. pose proof (in_size _ _ _ _ I). lia. Qed.

Lemma uframe_tframe s s' : uframe s s' -> k_mem s' = k_mem s -> tframe s s'.
Proof. intros U E. unfold uframe in U. rewrite E in U. by replace (k_set_mem (k_mem s) s) with s in U by by destruct s. Qed.

(** A scan of the entries that stops at the first one that satisfies [f]. *)
Section scan.
Variables (bs : list Z) (f : Z -> bool).
Let n := Z.of_nat (length bs) / 16.

Lemma scan_prefix k : 0 <= k <= n -> (forall j, 0 <= j < k -> f (16 * j) = false) -> find f (offsets bs) = find f (map (Z.mul 16) (seqZ k (n - k))).
Proof.
  intros Hk Hn. unfold offsets. fold n. replace n with (k + (n - k)) at 1 by lia. rewrite seqZ_app, map_app by lia.
  apply find_app_none. destruct (find f _) as [o|] eqn:E; [|done]. apply find_some in E as [E1 E2].
  apply list_elem_of_In, list_elem_of_fmap in E1 as (j & -> & Hj%elem_of_seqZ). rewrite Hn in E2; [done|lia].
Qed.

Lemma scan_hit k : 0 <= k < n -> (forall j, 0 <= j < k -> f (16 * j) = false) -> f (16 * k) = true -> find f (offsets bs) = Some (16 * k).
Proof. intros Hk Hn Hf. rewrite (scan_prefix k) by (done || lia). rewrite seqZ_cons by lia. cbn [map find]. by rewrite Hf. Qed.

Lemma scan_end : (forall j, 0 <= j < n -> f (16 * j) = false) -> find f (offsets bs) = None.
Proof.
  intros Hn. rewrite (scan_prefix n); [by rewrite Z.sub_diag| |done]. split; [apply Z.div_pos; lia|lia].
Qed.
End scan.

Section dir.
Context {LAY : Layout} {ENV : Env} {DSK : Disk}.
Variables (i st ops : Z) (sb : superblock) (D : contents) (P : list contents) (bl : list Z) (V : contents) (dp : Z) (x : inode).
Hypotheses (I : inode_ok st sb V x) (F : fs_bitmap st sb V) (Hbl : Z.of_nat (length bl) < NBUF).
Hypothesis Hmod : i_size x mod 16 = 0.

Let here (s : kstate) : Prop := at_inode i st ops sb D P bl [] V dp x s.

Lemma read_dirent_rule s off who : here s -> off mod 16 = 0 -> 0 <= off < i_size x ->
  exists s', read_dirent dp off who s = Ok (entry (data V x) off) s' /\ here s' /\ tframe s s'.
Proof using I F Hbl Hmod DSK.
  intros A H1 H2. pose proof (dir_length st sb V x I) as Hlen.
  destruct (readi_part i st sb dp 16 (to_local (k_mem s)) ops bl V D P x s (Klocal []) off 16 A Hbl I F ltac:(split; [by exists []|done]) ltac:(lia) ltac:(lia) ltac:(lia))
    as (p' & s' & E & A' & [_ Hm] & U). change (Z.to_nat 16) with 16%nat in E. fold (entry (data V x) off) in E.
  assert (Z.of_nat (length (entry (data V x) off)) = 16) as L by (unfold entry; rewrite length_take, length_drop; zlia).
  exists s'. split; [|split; [done|by apply uframe_tframe]]. unfold read_dirent. change DIRENT with 16. rewrite (bind_ok _ _ _ _ _ E). cbn [fst snd]. by rewrite L.
Qed.

Definition looked_up (name : list Z) (s : kstate) (r : option (Z * Z)) (s' : kstate) : Prop :=
  match dir_find (data V x) name with
  | None => r = None /\ here s' /\ tframe s s'
  | Some off => exists s1 ip, here s1 /\ tframe s s1 /\ iget ROOTDEV (de_inum (entry (data V x) off)) s1 = Ok ip s' /\ r = Some (ip, off)
  end.

Lemma dirlookup_rule s name : here s -> i_type x = T_DIR ->
  (forall off, dir_find (data V x) name = Some off -> cache_room ROOTDEV (de_inum (entry (data V x) off)) (k_itable s)) ->
  exists r s', dirlookup dp name s = Ok r s' /\ looked_up name s r s'.
Proof using I F Hbl Hmod DSK.
  intros A Ht Hroom. pose proof (in_size _ _ _ _ I) as Hs. pose proof (dir_length st sb V x I) as Hlen. apply wpx_total. unfold dirlookup. eapply wpx_bind_ok; [apply inode_of_run|].
  rewrite (ai_inode _ _ _ _ _ _ _ _ _ _ _ _ A), Ht. change (negb (T_DIR =? T_DIR)) with false. cbv iota.
  apply (wpx_iter true (fun off s1 => exists k, off = 16 * k /\ 0 <= k <= i_size x / 16 /\ (forall j, 0 <= j < k -> hit (data V x) name (16 * j) = false) /\ here s1 /\ tframe s s1)
    (fun off => Z.to_nat (i_size x / 16 + 1 - off / 16))).
  - intros off s1 (k & -> & Hk & Hn & A1 & F1). eapply wpx_bind_ok; [apply inode_of_run|]. rewrite (ai_inode _ _ _ _ _ _ _ _ _ _ _ _ A1).
    destruct (Z.ltb_spec (16 * k) (i_size x)) as [Hlt|Hge].
    2: { apply wpx_ret. unfold looked_up, dir_find. rewrite scan_end; [done|]. rewrite Hlen. intros j Hj. apply Hn. zlia. }
    destruct (read_dirent_rule s1 (16 * k) "dirlookup read" A1 ltac:(zlia) ltac:(lia)) as (s2 & E2 & A2 & F2). eapply wpx_bind_ok; [exact E2|].
    assert (tframe s s2) as Fs2 by (by apply (tframe_trans _ s1)). change DIRENT with 16. set (de := entry (data V x) (16 * k)).
    assert (hit (data V x) name (16 * k) = false -> wpx true (ret (inl (u32 (16 * k + 16)))) (fun r s' => match r with
      | inl a' => (exists k0, a' = 16 * k0 /\ 0 <= k0 <= i_size x / 16 /\ (forall j, 0 <= j < k0 -> hit (data V x) name (16 * j) = false) /\ here s' /\ tframe s s') /\
          (Z.to_nat (i_size x / 16 + 1 - a' / 16) < Z.to_nat (i_size x / 16 + 1 - 16 * k / 16))%nat
      | inr b => looked_up name s b s' end) s2) as Hnext.
    { intros Hh. apply wpx_ret. rewrite u32_small by flia. split; [|zlia]. exists (k + 1). split; [lia|]. split; [zlia|]. split; [|done].
      intros j Hj. destruct (Z.eq_dec j k) as [->|]; [done|]. apply Hn. lia. }
    unfold hit in Hnext. fold de in Hnext. destruct (Z.eqb_spec (de_inum de) 0) as [H0|H0]; [by apply Hnext|].
    destruct (Z.eqb_spec (namecmp name (de_name de)) 0) as [H1|H1]; [|by apply Hnext]. clear Hnext.
    assert (dir_find (data V x) name = Some (16 * k)) as Ef.
    { apply scan_hit; [rewrite Hlen; zlia|done|]. unfold hit. fold de. by rewrite (proj2 (Z.eqb_neq _ _) H0), H1. }
    eapply wpx_bind_ok; [apply inode_of_run|]. rewrite (ai_inode _ _ _ _ _ _ _ _ _ _ _ _ A2), (in_dev _ _ _ _ I).
    assert (k_held s2 = []) as Hh by apply (bl_calm _ _ _ _ _ _ _ (tx_blocks _ _ _ _ _ _ _ _ _ (ai_txn _ _ _ _ _ _ _ _ _ _ _ _ A2))).
    pose proof (Hroom _ Ef) as Hr. rewrite <- (tframe_itable _ _ Fs2) in Hr. destruct (proj1 (iget_run ROOTDEV (de_inum de) s2 Hh) Hr) as (ip & z & t & E3 & _).
    eapply wpx_bind_ok; [exact E3|]. apply wpx_ret. unfold looked_up. rewrite Ef. by exists s2, ip.
  - exists 0. split; [done|]. split; [split; [lia|apply Z.div_pos; lia]|]. split; [lia|]. split; [done|apply tframe_refl].
  - change DIRENT with 16. zlia.
Qed.

(** ** dirlink *)

(** The search for a free entry. *)
Lemma dirlink_scan s : here s -> exists s', iter (Z.to_nat (i_size x / DIRENT) + 2) (fun off =>
    x <- inode_of dp ;;
    if off <? i_size x then
      de <- read_dirent dp off "dirlink read" ;;
      if de_inum de =? 0 then ret (inr off) else ret (inl (u32 (off + DIRENT)))
    else ret (inr off)) 0 s = Ok (dir_free (data V x)) s' /\ here s' /\ tframe s s'.
Proof using I F Hbl Hmod DSK.
  intros A. pose proof (in_size _ _ _ _ I) as Hs. pose proof (dir_length st sb V x I) as Hlen. change DIRENT with 16.
  match goal with |- exists s', ?m s = Ok ?v s' /\ _ => destruct (wpx_total m (fun r s' => r = v /\ here s' /\ tframe s s') s) as (r & s' & E & -> & H); [|by exists s'] end.
  apply (wpx_iter true (fun off s1 => exists k, off = 16 * k /\ 0 <= k <= i_size x / 16 /\ (forall j, 0 <= j < k -> empty (data V x) (16 * j) = false) /\ here s1 /\ tframe s s1)
    (fun off => Z.to_nat (i_size x / 16 + 1 - off / 16))).
  - intros off s1 (k & -> & Hk & Hn & A1 & F1). eapply wpx_bind_ok; [apply inode_of_run|]. rewrite (ai_inode _ _ _ _ _ _ _ _ _ _ _ _ A1).
    destruct (Z.ltb_spec (16 * k) (i_size x)) as [Hlt|Hge].
    2: { apply wpx_ret. unfold dir_free. rewrite scan_end; [split; [rewrite Hlen; zlia|done]|]. rewrite Hlen. intros j Hj. apply Hn. zlia. }
    destruct (read_dirent_rule s1 (16 * k) "dirlink read" A1 ltac:(zlia) ltac:(lia)) as (s2 & E2 & A2 & F2). eapply wpx_bind_ok; [exact E2|].
    assert (tframe s s2) as Fs2 by (by apply (tframe_trans _ s1)). fold (empty (data V x) (16 * k)). destruct (empty (data V x) (16 * k)) eqn:Ee; apply wpx_ret.
    + unfold dir_free. rewrite (scan_hit (data V x) (empty (data V x)) k); [done|rewrite Hlen; zlia|done|done].
    + rewrite u32_small by flia. split; [|zlia]. exists (k + 1). split; [lia|]. split; [zlia|]. split; [|done].
      intros j Hj. destruct (Z.eq_dec j k) as [->|]; [done|]. apply Hn. lia.
  - exists 0. split; [done|]. split; [split; [lia|apply Z.div_pos; lia]|]. split; [lia|]. split; [done|apply tframe_refl].
  - zlia.
Qed.

(** A name that is not there is linked, unless the disk is full. *)
Lemma dirlink_new s name inum (off := dir_free (data V x)) (de := mk_dirent inum name) : here s -> i_type x = T_DIR -> dir_find (data V x) name = None -> 1 <= ops ->
  sb_size sb <= BPB -> i_size x + 16 <= MAXFILE * BSIZE -> Z.of_nat (length bl) + 10 <= LOGBLOCKS -> inode_range x -> Forall byte de ->
  exists r s' bl' V' x', dirlink dp name inum s = Ok (if r =? 16 then 0 else -1) s' /\ iframe dp s s' /\ at_inode i st ops sb D P bl' [] V' dp x' s' /\
    wrote st sb bl V x off de r bl' V' x'.
Proof using I F Hbl Hmod DSK.
  intros A Ht Hf Hops Hone Hmax Hroom Rg Hb. destruct (dirlookup_rule s name A Ht ltac:(by rewrite Hf)) as (r1 & s1 & E1 & H1). unfold looked_up in H1. rewrite Hf in H1.
  destruct H1 as (-> & A1 & F1). destruct (dirlink_scan s1 A1) as (s2 & E2 & A2 & F2). pose proof (dir_length st sb V x I) as Hlen.
  destruct (dir_free_range (data V x)) as [O1 O2]; [by rewrite Hlen|]. fold off in O1, O2. rewrite Hlen in O2.
  assert (length de = 16%nat) as Ld by apply mk_dirent_length.
  destruct (writei_rule i st ops sb D P Hops Hone from_local bl V dp x off de s2 O2 ltac:(rewrite Ld; lia) Hb I F ltac:(rewrite Ld; unfold BSIZE; zlia)
    (Klocal de) A2 ltac:(by split) Rg) as (r & s3 & bl' & V' & x' & E3 & F3 & A3 & W). rewrite Ld in E3.
  exists r, s3, bl', V', x'. split; [|split; [|done]].
  - unfold dirlink. rewrite (bind_ok _ _ _ _ _ E1), (bind_ok _ _ _ _ _ (inode_of_run dp s1)), (ai_inode _ _ _ _ _ _ _ _ _ _ _ _ A1).
    rewrite (bind_ok _ _ _ _ _ E2). fold off de. change DIRENT with 16. change (Z.of_nat 16) with 16 in E3. rewrite (bind_ok _ _ _ _ _ E3). by destruct (r =? 16).
  - apply (iframe_trans _ _ s1); [auto with xv6|]. apply (iframe_trans _ _ s2); auto with xv6.
Qed.

(** A name that is there is refused, and the directory stays as it is. *)
Lemma dirlink_exists s name inum off : here s -> i_type x = T_DIR -> dir_find (data V x) name = Some off -> 1 <= i_ref x ->
  cache_room ROOTDEV (de_inum (entry (data V x) off)) (k_itable s) ->
  exists s', dirlink dp name inum s = Ok (-1) s' /\ here s'.
Proof using I F Hbl Hmod DSK.
  intros A Ht Hf Hr Hroom. destruct (dirlookup_rule s name A Ht ltac:(rewrite Hf; by intros ? [= <-])) as (r & s1 & E1 & H1). unfold looked_up in H1. rewrite Hf in H1.
  destruct H1 as (s0 & ip & A0 & F0 & Eg & ->). pose proof A0 as [T0 Hs0 Hx0].
  assert (k_held s0 = []) as Hh by apply (bl_calm _ _ _ _ _ _ _ (tx_blocks _ _ _ _ _ _ _ _ _ T0)). rewrite <- (tframe_itable _ _ F0) in Hroom.
  destruct (proj1 (iget_run ROOTDEV _ s0 Hh) Hroom) as (ip' & z & t & Eg' & G & Es). rewrite Eg in Eg'. injection Eg' as <- ->.
  destruct (iput_got s0 ip z t _ Hh G Es) as (t' & Ep & Es'). exists (k_set_itable t' s0). split.
  - unfold dirlink. by rewrite (bind_ok _ _ _ _ _ E1), (bind_ok _ _ _ _ _ Ep).
  - split; [by apply txn_itable|done|]. change (t' dp = x). rewrite Es'. case_decide as Ed; [|done]. subst ip. destruct G as [_ [[_ ->]|(_ & H0 & _)]]; [|rewrite Hx0 in H0; lia].
    rewrite Hx0. apply ref_back.
Qed.
End dir.
