(* ===== verification/DirProps.v ===== *)
(** * What directories guarantee

    The theorems about [iget], [dirlookup] and [dirlink], and a directory of
    two entries on which they are instantiated. *)

From S2P Require Import Prelude Riscv Mem CString KState Sample Sched Virtio DiskSpec Bio BioSpec Blocks Log LogSpec Txn DiskSample StorageSpec PhysMem Kalloc Vm PageTable Walk VmMap VmAlloc VmCow VmCopy VmSample.
From S2P Require Import Vm Fs FsSpec Inode InodeSpec Dinode FileIO FileWrite InodeLock Pipe Console File FileSpec FileProps Dir.

Section props.
Context {LAY : Layout} {ENV : Env} {DSK : Disk}.

(** Inode [dp], whose lock is held, is the directory [x] of the disk [V]. *)
Record directory (i st ops : Z) (sb : superblock) (D : contents) (P : list contents) (bl : list Z) (V : contents) (dp : Z) (x : inode) (s : kstate) : Prop := {
  dr_at : at_inode i st ops sb D P bl [] V dp x s;
  dr_ok : inode_ok st sb V x;
  dr_bitmap : fs_bitmap st sb V;
  dr_log : Z.of_nat (length bl) < NBUF;
  dr_type : i_type x = T_DIR;
  dr_size : i_size x mod 16 = 0
}.

(** C21. The inode cache never holds two copies of an inode.  [iget] gives the
    entry that caches the inode, with one more reference; or takes an entry
    without references, for which nothing has been read from disk yet; or
    panics, and this exactly when the inode is not cached and every entry is
    referenced.  It changes no other entry and leaves at most one entry per
    inode. *)
Theorem iget_correct dev inum s : k_held s = [] -> one_copy (k_itable s) ->
  (cache_room dev inum (k_itable s) -> exists ip z t, iget dev inum s = Ok ip (k_set_itable t s) /\ got dev inum (k_itable s) ip z /\
    entry_set (k_itable s) ip z t /\ one_copy t /\ caches dev inum (t ip) = true) /\
  (~ cache_room dev inum (k_itable s) -> iget dev inum s = Panic "iget: no inodes").
Proof.
  intros Hh H1. destruct (iget_run dev inum s Hh) as [Hr Hp]. split; [|exact Hp]. intros (ip & z & t & E & G & Es)%Hr. exists ip, z, t.
  do 3 (split; [done|]). split; [by apply (got_one_copy _ _ _ _ _ _ H1 G Es)|]. rewrite Es, decide_True by done.
  destruct (got_entry _ _ _ _ _ G) as (<- & <- & Hz). unfold caches. lia.
Qed.

(** C22. [dirlookup] returns.  When no entry in use has the name it returns
    none and changes nothing but the buffer cache; otherwise it returns the
    offset of the first such entry and a reference to its inode, taken as by
    [iget].  The directory and the rest of the disk stay as they are. *)
Theorem dirlookup_correct i st ops sb D P bl V dp x s name : directory i st ops sb D P bl V dp x s ->
  (forall off, dir_find (data V x) name = Some off -> cache_room ROOTDEV (de_inum (entry (data V x) off)) (k_itable s)) ->
  exists r s', dirlookup dp name s = Ok r s' /\ txn i st ops bl [] V D P s' /\
    match dir_find (data V x) name with
    | None => r = None /\ tframe s s'
    | Some off => exists ip z, r = Some (ip, off) /\ got ROOTDEV (de_inum (entry (data V x) off)) (k_itable s) ip z /\
        entry_set (k_itable s) ip z (k_itable s') /\ exists s1, tframe s s1 /\ s' = k_set_itable (k_itable s') s1
    end.
Proof.
  intros [A I F L T M] Hroom. destruct (dirlookup_rule i st ops sb D P bl V dp x I F L M s name A T Hroom) as (r & s' & E & H). exists r, s'. split; [done|].
  unfold looked_up in H. destruct (dir_find (data V x) name) as [off|]; [|destruct H as (-> & [A1 _ _] & H); done].
  destruct H as (s1 & ip & [T1 _ _] & F1 & Eg & ->). assert (k_held s1 = []) as Hh by apply (bl_calm _ _ _ _ _ _ _ (tx_blocks _ _ _ _ _ _ _ _ _ T1)).
  pose proof (Hroom _ eq_refl) as Hr. rewrite <- (tframe_itable _ _ F1) in Hr. destruct (proj1 (iget_run ROOTDEV _ s1 Hh) Hr) as (ip' & z & t & Eg' & G & Es).
  rewrite Eg in Eg'. injection Eg' as <- ->. rewrite (tframe_itable _ _ F1) in G, Es. split; [by apply txn_itable|]. exists ip, z. do 3 (split; [done|]). by exists s1.
Qed.

(** C10. What [dirlink] adds, lookup finds.  If the name is not in the
    directory, [dirlink] returns 0 and from then on the name is found, at an
    entry with the given inode number, while every name that differs from it
    in its first DIRSIZ characters is found where it was, with the inode it
    had; or it returns -1 with the bytes of the directory unchanged, and this
    only on a disk without a free block.  Either way the directory is saved
    and no other file is disturbed. *)
Theorem dirlink_correct i st ops sb D P bl V dp x s name inum (off := dir_free (data V x)) : directory i st ops sb D P bl V dp x s ->
  dir_find (data V x) name = None -> 0 < inum < 65536 -> Forall byte name -> 1 <= ops -> sb_size sb <= BPB -> i_size x + 16 <= MAXFILE * BSIZE ->
  Z.of_nat (length bl) + 10 <= LOGBLOCKS -> inode_range x ->
  exists r s' bl' V' x', dirlink dp name inum s = Ok r s' /\ directory i st ops sb D P bl' V' dp x' s' /\ saved V' sb x' /\ undisturbed st sb V x V' /\
    ((r = 0 /\ dir_find (data V' x') name = Some off /\ de_inum (entry (data V' x') off) = inum /\
      forall other, namecmp other (strncpy_l (Z.to_nat DIRSIZ) name) <> 0 -> dir_find (data V' x') other = dir_find (data V x) other /\
        forall o, dir_find (data V x) other = Some o -> entry (data V' x') o = entry (data V x) o) \/
     (r = -1 /\ full sb V' /\ data V' x' = data V x)).
Proof.
  intros [A I F L T M] Hf Hi Hn Hops Hone Hmax Hroom Rg.
  destruct (dirlink_new i st ops sb D P bl V dp x I F L M s name inum A T Hf Hops Hone Hmax Hroom Rg (proj2 (mk_dirent_bytes inum name Hn)))
    as (r & s' & bl' & V' & x' & E & _ & A' & W). fold off in W. pose proof (dir_length st sb V x I) as Hlen.
  assert (Z.of_nat (length (data V x)) mod 16 = 0) as Hm by by rewrite Hlen. destruct (dir_free_range _ Hm) as [O1 O2]. fold off in O1, O2.
  pose proof (linked_split inum name r off O1 (wo_whole _ _ _ _ _ _ _ _ _ _ _ W) (wo_count _ _ _ _ _ _ _ _ _ _ _ W)) as Hr.
  assert (take (Z.to_nat 16) (mk_dirent inum name) = mk_dirent inum name) as Hall by (apply take_ge; by rewrite mk_dirent_length).
  pose proof (wo_data _ _ _ _ _ _ _ _ _ _ _ W) as Hd. exists (if r =? 16 then 0 else -1), s', bl', V', x'. split; [done|].
  pose proof (dir_length st sb V' x' (wo_ok _ _ _ _ _ _ _ _ _ _ _ W)) as Hlen'.
  assert (Z.of_nat (length (data V' x')) mod 16 = 0 /\ Z.of_nat (length bl') < NBUF) as [Hm' L'].
  { split; [|pose proof (wo_log _ _ _ _ _ _ _ _ _ _ _ W) as Hlog; rewrite mk_dirent_length in Hlog; unfold BSIZE, NBUF, LOGBLOCKS, MAXOPBLOCKS in *; zlia].
    rewrite Hd. destruct Hr as [->| ->]; [by rewrite take_0, splice_nil|]. rewrite Hall. apply (linked_length (data V x) name inum Hm). }
  split; [split; [done|apply W|apply W|done|by rewrite (wo_inode _ _ _ _ _ _ _ _ _ _ _ W)|by rewrite <- Hlen']|]. do 2 (split; [apply W|]).
  destruct Hr as [->| ->]; [right|left].
  - split; [done|]. split; [apply (wo_full _ _ _ _ _ _ _ _ _ _ _ W); by rewrite mk_dirent_length|]. by rewrite Hd, take_0, splice_nil.
  - rewrite Hd, Hall. split; [done|]. split; [by apply linked_found|].
    split; [unfold off; rewrite linked_here by done; apply mk_dirent_inum; lia|]. intros other Ho. split; [by apply linked_others|]. intros o Hs. by apply (linked_kept _ _ _ Hm other).
Qed.
End props.

(** ** A directory of two entries *)

Definition two_entries : list Z := mk_dirent 1 [46] ++ mk_dirent 1 [46; 46].
Definition slash : inode := mkInode ROOTDEV 1 1 true T_DIR 0 0 1 32 (fun j => if j =? 0 then 39 else 0).
Definition slash_disk : contents := fupd hello_disk 39 (mem_write zeroed 0 two_entries).
Definition with_dir (s : kstate) : kstate := k_set_itable (fun j => if j =? 0 then slash else i_set_ref 0 slash) s.
Definition slash_state (n : Z) : kstate := with_dir (booted_on n slash_disk small_sb).

Lemma slash_bitmap : fs_bitmap 2 small_sb slash_disk.
Proof. apply fw_bitmap; [apply hello_bitmap|by apply hello_plain]. Qed.

Lemma slash_range : inode_range slash.
Proof. split; cbn; unfold T_DIR; try lia. intros j _. destruct (j =? 0); lia. Qed.

Lemma slash_ok : inode_ok 2 small_sb slash_disk slash.
Proof.
  assert (0 <= 39 < 64 /\ used slash_disk small_sb 39 = true) as H39 by (split; [lia|by vm_compute]).
  assert (forall bn, 0 <= bn -> block_at slash_disk slash bn = if decide (bn = 0) then 39 else 0) as Hb by exact (hello_block slash_disk).
  split; [done|done|by cbn|..].
  - intros bn H1 H2. cbn in H2. unfold BSIZE in H2. rewrite Hb, decide_True by lia. done.
  - intros m ->%(hello_owns slash_disk). split; [apply H39|]. split; [apply H39|]. apply small_meta. lia.
  - intros a b Ha Hc. rewrite !Hb by lia. by repeat case_decide; subst.
  - intros a Ha. rewrite Hb by lia. by case_decide.
Qed.

Lemma slash_data : data slash_disk slash = two_entries.
Proof. by vm_compute. Qed.

Lemma with_dir_directory s n : txn 0 2 n [] [] slash_disk slash_disk [] s -> k_sb s = small_sb ->
  directory 0 2 n small_sb slash_disk [] [] slash_disk 0 slash (with_dir s).
Proof. intros T Hs. split; [|apply slash_ok|apply slash_bitmap|done|done|done]. split; [by apply txn_itable|exact Hs|done]. Qed.

Lemma slash_directory n : directory 0 2 n small_sb slash_disk [] [] slash_disk 0 slash (slash_state n).
Proof.
  apply with_dir_directory; [apply booted_on_txn; by split|exact (proj2 (proj2 (booted_on_blocks n slash_disk small_sb)))].
Qed.

Lemma with_dir_one s : one_copy (k_itable (with_dir s)).
Proof.
  assert (forall j d m, caches d m (k_itable (with_dir s) j) = true -> j = 0) as H; [|intros j k d m _ _ H1 H2; by rewrite (H j d m H1), (H k d m H2)].
  intros j d m. change (k_itable (with_dir s) j) with (if j =? 0 then slash else i_set_ref 0 slash). by destruct (Z.eqb_spec j 0).
Qed.

Lemma with_dir_room s : cache_room ROOTDEV 1 (k_itable (with_dir s)).
Proof. exists 0. split; [done|]. by left. Qed.

Lemma slash_held n : k_held (slash_state n) = [].
Proof. apply (bl_calm _ _ _ _ _ _ _ (tx_blocks _ _ _ _ _ _ _ _ _ (ai_txn _ _ _ _ _ _ _ _ _ _ _ _ (dr_at _ _ _ _ _ _ _ _ _ _ _ (slash_directory n))))). Qed.

Lemma iget_correct_witness : exists ip t, iget ROOTDEV 1 (slash_state 0) = Ok ip (k_set_itable t (slash_state 0)) /\ one_copy t.
Proof.
  destruct (proj1 (@iget_correct ROOTDEV 1 (slash_state 0) (slash_held 0) (with_dir_one _)) (with_dir_room _)) as (ip & z & t & E & _ & _ & H & _).
  exact (ex_intro _ ip (ex_intro _ t (conj E H))).
Defined.

Lemma dirlookup_correct_witness : exists ip s', @dirlookup sample_layout disk_env 0 [46; 46; 0] (slash_state 0) = Ok (Some (ip, 16)) s'.
Proof.
  assert (dir_find (data slash_disk slash) [46; 46; 0] = Some 16 /\ de_inum (entry (data slash_disk slash) 16) = 1) as [Hf Hi] by (rewrite slash_data; by vm_compute).
  pose proof (@dirlookup_correct sample_layout disk_env sample_disk 0 2 0 small_sb slash_disk [] [] slash_disk 0 slash (slash_state 0) [46; 46; 0] (slash_directory 0)) as H.
  rewrite Hf in H. destruct H as (r & s' & E & _ & ip & z & -> & _).
  - intros off Ho. injection Ho as <-. rewrite Hi. apply with_dir_room.
  - exact (ex_intro _ ip (ex_intro _ s' E)).
Defined.

Lemma dirlink_correct_witness : exists r s', @dirlink sample_layout disk_env 0 [97; 0] 7 (slash_state 1) = Ok r s'.
Proof.
  assert (dir_find (data slash_disk slash) [97; 0] = None) as Hf by (rewrite slash_data; by vm_compute).
  assert (Forall byte [97; 0]) as Hn by (repeat constructor; done).
  destruct (@dirlink_correct sample_layout disk_env sample_disk 0 2 1 small_sb slash_disk [] [] slash_disk 0 slash (slash_state 1) [97; 0] 7 (slash_directory 1)
    Hf ltac:(lia) Hn ltac:(lia) ltac:(done) ltac:(done) ltac:(done) slash_range) as (r & s' & bl' & V' & x' & E & _).
  exact (ex_intro _ r (ex_intro _ s' E)).
Defined.
