(* ===== verification/Proc.v ===== *)
(** * Processes: kernel/proc.c

    Allocation of process-table entries, fork, exit and wait, and one round of
    the scheduler.  Sleeping and waking are in [Sched], copying in [Vm],
    [forkret] in [Trap]. *)

From S2P Require Import Prelude Riscv Mem KState Sched Bio Log PhysMem Vm.
From S2P Require Import Vm Fs Console Pipe File.

(** Addresses of code that the kernel stores in registers and contexts. *)
Class Symbols : Type := {
  a_forkret : Z; a_kernelvec : Z; a_usertrap : Z; a_uservec : Z; a_userret : Z
}.

(** ** The trap frame: offsets of proc.h *)

Definition TF_kernel_satp : Z := 0.
Definition TF_kernel_sp : Z := 8.
Definition TF_kernel_trap : Z := 16.
Definition TF_epc : Z := 24.
Definition TF_kernel_hartid : Z := 32.
Definition TF_sp : Z := 48.
Definition TF_a0 : Z := 112.
Definition TF_a1 : Z := 120.
Definition TF_a2 : Z := 128.
Definition TF_a3 : Z := 136.
Definition TF_a4 : Z := 144.
Definition TF_a5 : Z := 152.
Definition TF_a7 : Z := 168.
Definition TF_SIZE : Z := 288.

(** [p->trapframe->r] *)
Definition tf_get (i r : Z) : K Z :=
  tf <- gets (fun s => p_trapframe (k_procs s i)) ;; ld64 (tf + r).
Definition tf_set (i r v : Z) : K unit :=
  tf <- gets (fun s => p_trapframe (k_procs s i)) ;; st64 (tf + r) (u64 v).

Definition pset (i : Z) (f : proc -> proc) : K unit := modify (upd_proc i f).
Definition pget (i : Z) : K proc := gets (fun s => k_procs s i).

(** [safestrcpy(s, t, n)] on byte lists, as the loop of string.c. *)
Fixpoint safestrcpy_l (n : nat) (s t : list Z) : list Z :=
  match n with
  | O => s
  | S O => 0 :: tail s
  | S n =>
      if chr t =? 0 then 0 :: 0 :: drop 2 s
      else chr t :: safestrcpy_l n (tail s) (tail t)
  end.

(** [np->ofile[i] = v] *)
Definition set_ofile (i fd : Z) (v : option Z) : K unit :=
  pset i (fun p => p_set_ofile (fupd (p_ofile p) fd v) p).

Definition cpuid : K Z := gets (fun s => s32 (cs_tp (k_csr s))).

Section Proc.
Context {LAY : Layout} {ENV : Env} {SYM : Symbols}.

Definition procinit : K unit :=
  initlock L_pid ;;
  initlock L_wait ;;
  for_each (seqZ 0 NPROC) (fun i =>
    initlock (L_proc i) ;;
    pset i (p_set_state UNUSED) ;;
    pset i (p_set_kstack (KSTACK i))).

(** [nextpid] is an [int]: counting past the largest one is undefined. *)
Definition allocpid : K Z :=
  acquire L_pid ;;
  pid <- gets k_nextpid ;;
  (if pid <? INT_MAX then modify (k_set_nextpid (pid + 1)) else undef "nextpid overflows") ;;
  release L_pid ;;
  ret pid.

Definition proc_pagetable (i : Z) : K Z :=
  pagetable <- uvmcreate ;;
  if pagetable =? 0 then ret 0 else
  r <- mappages pagetable TRAMPOLINE PGSIZE trampoline (Z.lor PTE_R PTE_X) ;;
  if r <? 0 then uvmfree pagetable 0 ;; ret 0 else
  p <- pget i ;;
  r <- mappages pagetable TRAPFRAME PGSIZE (p_trapframe p) (Z.lor PTE_R PTE_W) ;;
  if r <? 0 then
    uvmunmap pagetable TRAMPOLINE 1 false ;;
    uvmfree pagetable 0 ;;
    ret 0
  else ret pagetable.

Definition proc_freepagetable (pagetable sz : Z) : K unit :=
  uvmunmap pagetable TRAMPOLINE 1 false ;;
  uvmunmap pagetable TRAPFRAME 1 false ;;
  uvmfree pagetable sz.

Definition freeproc (i : Z) : K unit :=
  p <- pget i ;;
  (if p_trapframe p =? 0 then ret tt else kfree (p_trapframe p)) ;;
  pset i (p_set_trapframe 0) ;;
  p <- pget i ;;
  (if p_pagetable p =? 0 then ret tt else proc_freepagetable (p_pagetable p) (p_sz p)) ;;
  pset i (p_set_pagetable 0) ;;
  pset i (p_set_sz 0) ;;
  pset i (p_set_pid 0) ;;
  pset i (p_set_parent None) ;;
  pset i (fun p => p_set_name (0 :: tail (p_name p)) p) ;;
  pset i (p_set_chan NoChan) ;;
  pset i (p_set_killed 0) ;;
  pset i (p_set_xstate 0) ;;
  pset i (p_set_state UNUSED).

(** The search for an unused entry, which is left locked. *)
Definition find_unused : K (option Z) :=
  for_find (seqZ 0 NPROC) (fun i =>
    acquire (L_proc i) ;;
    p <- pget i ;;
    if decide (p_state p = UNUSED) then ret (Some i)
    else release (L_proc i) ;; ret None).

Definition allocproc : K (option Z) :=
  r <- find_unused ;;
  match r with
  | None => ret None
  | Some i =>
      pid <- allocpid ;;
      pset i (p_set_pid pid) ;;
      pset i (p_set_state USED) ;;
      tf <- kalloc ;;
      pset i (p_set_trapframe tf) ;;
      if tf =? 0 then freeproc i ;; release (L_proc i) ;; ret None else
      pt <- proc_pagetable i ;;
      pset i (p_set_pagetable pt) ;;
      if pt =? 0 then freeproc i ;; release (L_proc i) ;; ret None else
      p <- pget i ;;
      pset i (p_set_context (mkContext a_forkret (p_kstack p + PGSIZE) (fun _ => 0))) ;;
      ret (Some i)
  end.

(** The path of the root directory. *)
Definition root_path : list Z := [47].

Definition userinit : K unit :=
  r <- allocproc ;;
  modify (k_set_initproc r) ;;
  match r with
  | None => undef "userinit: null process"
  | Some i =>
      d <- namei root_path ;;
      pset i (p_set_cwd d) ;;
      pset i (p_set_state RUNNABLE) ;;
      release (L_proc i)
  end.

Definition growproc (n : Z) : K Z :=
  i <- curproc ;;
  p <- pget i ;;
  let sz := p_sz p in
  if n >? 0 then
    if u64 (sz + n) >? TRAPFRAME then ret (-1) else
    sz <- uvmalloc (p_pagetable p) sz (u64 (sz + n)) PTE_W ;;
    if sz =? 0 then ret (-1) else
    pset i (p_set_sz sz) ;;
    ret 0
  else if n <? 0 then
    sz <- uvmdealloc (p_pagetable p) sz (u64 (sz + n)) ;;
    pset i (p_set_sz sz) ;;
    ret 0
  else
    pset i (p_set_sz sz) ;;
    ret 0.

(** The open files and the current directory of the child. *)
Definition fork_files (i np : Z) : K unit :=
  for_each (seqZ 0 NOFILE) (fun fd =>
    p <- pget i ;;
    match p_ofile p fd with
    | Some f => f' <- filedup f ;; set_ofile np fd (Some f')
    | None => ret tt
    end) ;;
  p <- pget i ;;
  match p_cwd p with
  | Some d => d' <- idup d ;; pset np (p_set_cwd (Some d'))
  | None => undef "idup of a null pointer"
  end.

Definition kfork : K Z :=
  i <- curproc ;;
  r <- allocproc ;;
  match r with
  | None => ret (-1)
  | Some np =>
      p <- pget i ;;
      q <- pget np ;;
      r <- uvmcopy (p_pagetable p) (p_pagetable q) (p_sz p) ;;
      if r <? 0 then freeproc np ;; release (L_proc np) ;; ret (-1) else
      pset np (p_set_sz (p_sz p)) ;;
      kmemmove (p_trapframe q) (p_trapframe p) TF_SIZE ;;
      tf_set np TF_a0 0 ;;
      fork_files i np ;;
      pset np (fun q => p_set_name (safestrcpy_l 16 (p_name q) (p_name p)) q) ;;
      q <- pget np ;;
      let pid := p_pid q in
      release (L_proc np) ;;
      acquire L_wait ;;
      pset np (p_set_parent (Some i)) ;;
      release L_wait ;;
      acquire (L_proc np) ;;
      pset np (p_set_state RUNNABLE) ;;
      release (L_proc np) ;;
      ret pid
  end.

(** [wakeup(p)] of a pointer to a process, which may be null. *)
Definition wakeup_proc (p : option Z) : K unit :=
  match p with Some i => wakeup (ChProc i) | None => wakeup NoChan end.

Definition reparent (i : Z) : K unit :=
  for_each (seqZ 0 NPROC) (fun j =>
    pp <- pget j ;;
    if decide (p_parent pp = Some i) then
      init <- gets k_initproc ;;
      pset j (p_set_parent init) ;;
      wakeup_proc init
    else ret tt).

(** [kexit] up to the switch to the scheduler. *)
Definition kexit_body (status : Z) : K unit :=
  i <- curproc ;;
  init <- gets k_initproc ;;
  if decide (Some i = init) then panic "init exiting" else
  for_each (seqZ 0 NOFILE) (fun fd =>
    p <- pget i ;;
    match p_ofile p fd with
    | Some f => fileclose f ;; set_ofile i fd None
    | None => ret tt
    end) ;;
  begin_op ;;
  p <- pget i ;;
  match p_cwd p with
  | Some d => iput d
  | None => undef "iput of a null pointer"
  end ;;
  end_op ;;
  pset i (p_set_cwd None) ;;
  acquire L_wait ;;
  reparent i ;;
  p <- pget i ;;
  wakeup_proc (p_parent p) ;;
  acquire (L_proc i) ;;
  pset i (p_set_xstate status) ;;
  pset i (p_set_state ZOMBIE) ;;
  release L_wait.

Definition kexit {A} (status : Z) : K A :=
  kexit_body status ;;
  sched ;;
  panic "zombie exit".

(** One entry of the scan of [kwait]: [Some r] to return [r]. *)
Definition wait_one (i addr j : Z) : K (option Z) :=
  acquire (L_proc j) ;;
  pp <- pget j ;;
  if decide (p_state pp = ZOMBIE) then
    let pid := p_pid pp in
    p <- pget i ;;
    r <- (if addr =? 0 then ret 0
          else copyout (p_pagetable p) addr (le_bytes 4 (p_xstate pp))) ;;
    if r <? 0 then
      release (L_proc j) ;;
      release L_wait ;;
      ret (Some (-1))
    else
      freeproc j ;;
      release (L_proc j) ;;
      release L_wait ;;
      ret (Some pid)
  else release (L_proc j) ;; ret None.

(** The scan: the value to return, or whether there are children. *)
Fixpoint wait_scan (i addr : Z) (l : list Z) (havekids : bool) : K (Z + bool) :=
  match l with
  | [] => ret (inr havekids)
  | j :: l =>
      pp <- pget j ;;
      if decide (p_parent pp = Some i) then
        r <- wait_one i addr j ;;
        match r with
        | Some v => ret (inl v)
        | None => wait_scan i addr l true
        end
      else wait_scan i addr l havekids
  end.

Definition kwait (addr : Z) : K Z :=
  i <- curproc ;;
  acquire L_wait ;;
  iter (S patience) (fun _ : unit =>
    r <- wait_scan i addr (seqZ 0 NPROC) false ;;
    match r with
    | inl v => ret (inr v)
    | inr havekids =>
        stop <- (if havekids then k <- killed i ;; ret (negb (k =? 0)) else ret true) ;;
        if (stop : bool) then release L_wait ;; ret (inr (-1)) else
        sleep (ChProc i) L_wait ;;
        ret (inl tt)
    end) tt.

(** One process of the scheduler's loop; [run i] is what process [i] does on
    the CPU until it switches back. *)
Definition schedule_one (run : Z -> kstate -> kstate) (i : Z) : K bool :=
  acquire (L_proc i) ;;
  p <- pget i ;;
  found <- (if decide (p_state p = RUNNABLE) then
              pset i (p_set_state RUNNING) ;;
              modify (k_set_cur (Some i)) ;;
              modify (run i) ;;
              modify (k_set_cur None) ;;
              ret true
            else ret false) ;;
  release (L_proc i) ;;
  ret found.

Fixpoint schedule_all (run : Z -> kstate -> kstate) (l : list Z) (found : bool) : K bool :=
  match l with
  | [] => ret found
  | i :: l => f <- schedule_one run i ;; schedule_all run l (found || f)
  end.

(** One round of [scheduler], without the wait for an interrupt that follows a
    round that found nothing. *)
Definition scheduler_round (run : Z -> kstate -> kstate) : K bool :=
  schedule_all run (seqZ 0 NPROC) false.

End Proc.
