(* ===== verification/Exec.v ===== *)
(** * Program loading: kernel/exec.c *)

From S2P Require Import Prelude Riscv Mem KState Sched Bio Log PhysMem Vm.
From S2P Require Import Vm Fs Console Pipe File Proc.

(** ** elf.h *)

Definition ELF_MAGIC : Z := 0x464C457F.
Definition ELF_PROG_LOAD : Z := 1.
Definition ELFHDR : Z := 64.      (* sizeof(struct elfhdr) *)
Definition PROGHDR : Z := 56.     (* sizeof(struct proghdr) *)
Definition MAXARG : Z := 32.
Definition USERSTACK : Z := 1.

(** A field of [n] bytes at offset [o] of a structure read from a file. *)
Definition field (bs : list Z) (o n : nat) : Z :=
  foldr (fun b v => b + 256 * v) 0 (take n (drop o bs)).

Record elfhdr : Type := mkElf { e_magic : Z; e_entry : Z; e_phoff : Z; e_phnum : Z }.
Definition elf_of (bs : list Z) : elfhdr :=
  mkElf (field bs 0 4) (field bs 24 8) (field bs 32 8) (field bs 56 2).

Record proghdr : Type := mkPh {
  ph_type : Z; ph_flags : Z; ph_off : Z; ph_vaddr : Z; ph_filesz : Z; ph_memsz : Z }.
Definition ph_of (bs : list Z) : proghdr :=
  mkPh (field bs 0 4) (field bs 4 4) (field bs 8 8) (field bs 16 8) (field bs 32 8) (field bs 40 8).

Definition flags2perm (flags : Z) : Z :=
  let perm := if has flags 1 then PTE_X else 0 in
  if has flags 2 then Z.lor perm PTE_W else perm.

(** [strlen] of a C string. *)
Fixpoint strlen_l (s : list Z) : Z :=
  match s with
  | c :: s => if c =? 0 then 0 else 1 + strlen_l s
  | [] => 0
  end.

(** [for(last=s=path; *s; s++) if( *s == '/') last = s+1;] *)
Fixpoint last_elem (s last : list Z) : list Z :=
  match s with
  | c :: s => if c =? 0 then last else last_elem s (if c =? 47 then s else last)
  | [] => last
  end.

Section Exec.
Context {LAY : Layout} {ENV : Env} {SYM : Symbols}.

Definition loadseg (pagetable va ip offset sz : Z) : K Z :=
  iter (S (Z.to_nat sz)) (fun i =>
    if i <? sz then
      pa <- walkaddr pagetable (u64 (va + i)) ;;
      if pa =? 0 then panic "loadseg: address should exist" else
      let n := if u32 (sz - i) <? PGSIZE then u32 (sz - i) else PGSIZE in
      r <- readi ip (Kern pa) (u32 (offset + i)) n ;;
      if negb (u32 (fst r) =? n) then ret (inr (-1)) else
      ret (inl (u32 (i + PGSIZE)))
    else ret (inr 0)) 0.

(** One program header at offset [off]: the new size, or [None] for
    [goto bad] (with the size at that point). *)
Definition load_ph (pagetable ip off sz : Z) : K (bool * Z) :=
  r <- readi ip (Klocal []) (u32 off) PROGHDR ;;
  if negb (fst r =? PROGHDR) then ret (false, sz) else
  let ph := ph_of (snd r) in
  if negb (ph_type ph =? ELF_PROG_LOAD) then ret (true, sz) else
  if ph_memsz ph <? ph_filesz ph then ret (false, sz) else
  if u64 (ph_vaddr ph + ph_memsz ph) <? ph_vaddr ph then ret (false, sz) else
  if negb (ph_vaddr ph mod PGSIZE =? 0) then ret (false, sz) else
  sz1 <- uvmalloc pagetable sz (u64 (ph_vaddr ph + ph_memsz ph)) (flags2perm (s32 (ph_flags ph))) ;;
  if sz1 =? 0 then ret (false, sz) else
  l <- loadseg pagetable (ph_vaddr ph) ip (u32 (ph_off ph)) (u32 (ph_filesz ph)) ;;
  ret (negb (l <? 0), sz1).

(** The loop over the program headers. *)
Definition load_segments (pagetable ip : Z) (elf : elfhdr) : K (bool * Z) :=
  iter (S (Z.to_nat (e_phnum elf))) (fun '(i, off, sz) =>
    if i <? e_phnum elf then
      r <- load_ph pagetable ip off sz ;;
      if fst r then ret (inl (i + 1, s32 (off + PROGHDR), snd r))
      else ret (inr (false, snd r))
    else ret (inr (true, sz))) (0, s32 (e_phoff elf), 0).

(** The label [bad]. *)
Definition exec_bad (pagetable sz : Z) (ip : option Z) : K Z :=
  (if pagetable =? 0 then ret tt else proc_freepagetable pagetable sz) ;;
  match ip with
  | Some ip => iunlockput ip ;; end_op
  | None => ret tt
  end ;;
  ret (-1).

(** The argument strings, pushed on the new stack; [ustack] holds the
    addresses so far.  [None] for [goto bad]. *)
Fixpoint push_args (pagetable stackbase : Z) (argv : list (list Z)) (sp : Z) (ustack : list Z)
    : K (option (Z * list Z)) :=
  match argv with
  | [] => ret (Some (sp, ustack))
  | a :: argv =>
      if Z.of_nat (length ustack) >=? MAXARG then ret None else
      let sp := u64 (sp - (strlen_l a + 1)) in
      let sp := sp - sp mod 16 in
      if sp <? stackbase then ret None else
      r <- copyout pagetable sp (take (Z.to_nat (strlen_l a)) a ++ [0]) ;;
      if r <? 0 then ret None else
      push_args pagetable stackbase argv sp (ustack ++ [sp])
  end.

(** The stack with the arguments and the array of pointers to them: the final
    stack pointer and [argc], or [None] for [goto bad]. *)
Definition exec_stack (pagetable sz : Z) (argv : list (list Z)) : K (option (Z * Z)) :=
  let stackbase := u64 (sz - USERSTACK * PGSIZE) in
  r <- push_args pagetable stackbase argv sz [] ;;
  match r with
  | None => ret None
  | Some (sp, ustack) =>
      if Z.of_nat (length ustack) >=? MAXARG then undef "ustack[argc] past the end of the array" else
      let argc := Z.of_nat (length ustack) in
      let sp := u64 (sp - (argc + 1) * 8) in
      let sp := sp - sp mod 16 in
      if sp <? stackbase then ret None else
      r <- copyout pagetable sp (concat (map (le_bytes 8) (ustack ++ [0]))) ;;
      if r <? 0 then ret None else ret (Some (sp, argc))
  end.

(** The new image takes the place of the old one. *)
Definition exec_commit (i : Z) (path : list Z) (elf : elfhdr) (pagetable sz sp oldsz : Z) : K unit :=
  tf_set i TF_a1 sp ;;
  pset i (fun p => p_set_name (safestrcpy_l 16 (p_name p) (last_elem path path)) p) ;;
  p <- pget i ;;
  let oldpagetable := p_pagetable p in
  pset i (p_set_pagetable pagetable) ;;
  pset i (p_set_sz sz) ;;
  tf_set i TF_epc (e_entry elf) ;;
  tf_set i TF_sp sp ;;
  proc_freepagetable oldpagetable oldsz.

(** Everything after the program is loaded. *)
Definition exec_finish (i : Z) (path : list Z) (argv : list (list Z)) (elf : elfhdr) (pagetable sz : Z) : K Z :=
  p <- pget i ;;
  let oldsz := p_sz p in
  let sz := PGROUNDUP sz in
  sz1 <- uvmalloc pagetable sz (u64 (sz + (USERSTACK + 1) * PGSIZE)) PTE_W ;;
  if sz1 =? 0 then exec_bad pagetable sz None else
  let sz := sz1 in
  uvmclear pagetable (u64 (sz - (USERSTACK + 1) * PGSIZE)) ;;
  r <- exec_stack pagetable sz argv ;;
  match r with
  | None => exec_bad pagetable sz None
  | Some (sp, argc) => exec_commit i path elf pagetable sz sp oldsz ;; ret argc
  end.

Definition kexec (path : list Z) (argv : list (list Z)) : K Z :=
  i <- curproc ;;
  begin_op ;;
  ip <- namei path ;;
  match ip with
  | None => end_op ;; ret (-1)
  | Some ip =>
      ilock ip ;;
      r <- readi ip (Klocal []) 0 ELFHDR ;;
      if negb (fst r =? ELFHDR) then exec_bad 0 0 (Some ip) else
      let elf := elf_of (snd r) in
      if negb (e_magic elf =? ELF_MAGIC) then exec_bad 0 0 (Some ip) else
      pagetable <- proc_pagetable i ;;
      if pagetable =? 0 then exec_bad 0 0 (Some ip) else
      r <- load_segments pagetable ip elf ;;
      if negb (fst r) then exec_bad pagetable (snd r) (Some ip) else
      iunlockput ip ;;
      end_op ;;
      exec_finish i path argv elf pagetable (snd r)
  end.

End Exec.
