(* ===== verification/Syscall.v ===== *)
(** * System calls: kernel/syscall.c, kernel/sysproc.c and kernel/sysfile.c

    Each [sys_] function returns the 64-bit value stored in the caller's a0;
    [int] results are sign-extended, as C does. *)

From S2P Require Import Prelude Riscv Mem KState Memstats Sched Bio Log PhysMem Vm.
From S2P Require Import Vm Fs Console Pipe File Proc Exec.

Definition MAXPATH : Z := 128.
Definition O_RDONLY : Z := 0x000.
Definition O_WRONLY : Z := 0x001.
Definition O_RDWR : Z := 0x002.
Definition O_CREATE : Z := 0x200.
Definition O_TRUNC : Z := 0x400.
Definition SBRK_EAGER : Z := 1.

(** "." and ".." *)
Definition dot : list Z := [46].
Definition dotdot : list Z := [46; 46].

Section Syscall.
Context {LAY : Layout} {ENV : Env} {SYM : Symbols}.

(** ** syscall.c *)

Definition fetchaddr (addr : Z) : K (option Z) :=
  i <- curproc ;;
  p <- pget i ;;
  if (addr >=? p_sz p) || (u64 (addr + 8) >? p_sz p) then ret None else
  r <- copyin (p_pagetable p) addr 8 ;;
  if negb (fst r =? 0) then ret None else ret (Some (field (snd r) 0 8)).

(** The length and the bytes in the buffer; a length of -1 is an error. *)
Definition fetchstr (addr max : Z) : K (Z * list Z) :=
  i <- curproc ;;
  p <- pget i ;;
  r <- copyinstr (p_pagetable p) addr max ;;
  if fst r <? 0 then ret (-1, snd r) else ret (strlen_l (snd r), snd r).

Definition argraw (n : Z) : K Z :=
  i <- curproc ;;
  if n =? 0 then tf_get i TF_a0
  else if n =? 1 then tf_get i TF_a1
  else if n =? 2 then tf_get i TF_a2
  else if n =? 3 then tf_get i TF_a3
  else if n =? 4 then tf_get i TF_a4
  else if n =? 5 then tf_get i TF_a5
  else panic "argraw".

Definition argint (n : Z) : K Z := v <- argraw n ;; ret (s32 v).
Definition argaddr (n : Z) : K Z := argraw n.
Definition argstr (n max : Z) : K (Z * list Z) := addr <- argaddr n ;; fetchstr addr max.

(** ** sysproc.c *)

Definition sys_exit : K Z := n <- argint 0 ;; kexit n.

Definition sys_getpid : K Z := i <- curproc ;; p <- pget i ;; ret (u64 (p_pid p)).

Definition sys_fork : K Z := r <- kfork ;; ret (u64 r).

Definition sys_wait : K Z := p <- argaddr 0 ;; r <- kwait p ;; ret (u64 r).

Definition sys_sbrk : K Z :=
  n <- argint 0 ;;
  t <- argint 1 ;;
  i <- curproc ;;
  p <- pget i ;;
  let addr := p_sz p in
  if (t =? SBRK_EAGER) || (n <? 0) then
    r <- growproc n ;;
    if r <? 0 then ret (u64 (-1)) else ret addr
  else
    if u64 (addr + n) <? addr then ret (u64 (-1)) else
    if u64 (addr + n) >? TRAPFRAME then ret (u64 (-1)) else
    pset i (fun p => p_set_sz (u64 (p_sz p + n)) p) ;;
    ret addr.

Definition sys_pause : K Z :=
  n <- argint 0 ;;
  let n := if n <? 0 then 0 else n in
  acquire L_ticks ;;
  ticks0 <- gets k_ticks ;;
  iter (S patience) (fun _ : unit =>
    t <- gets k_ticks ;;
    if u32 (t - ticks0) <? n then
      i <- curproc ;;
      k <- killed i ;;
      if negb (k =? 0) then release L_ticks ;; ret (inr (u64 (-1))) else
      sleep ChTicks L_ticks ;;
      ret (inl tt)
    else release L_ticks ;; ret (inr 0)) tt.

Definition sys_kill : K Z := pid <- argint 0 ;; r <- kkill pid ;; ret (u64 r).

Definition sys_uptime : K Z :=
  acquire L_ticks ;;
  xticks <- gets k_ticks ;;
  release L_ticks ;;
  ret xticks.

Definition sys_memstats : K Z :=
  addr <- argaddr 0 ;;
  st <- memstats_get ;;
  i <- curproc ;;
  p <- pget i ;;
  r <- copyout (p_pagetable p) addr (concat (map (le_bytes 8) st)) ;;
  if r <? 0 then ret (u64 (-1)) else ret 0.

(** ** sysfile.c *)

(** The descriptor and its file, or [None] for -1. *)
Definition argfd (n : Z) : K (option (Z * Z)) :=
  fd <- argint n ;;
  if (fd <? 0) || (fd >=? NOFILE) then ret None else
  i <- curproc ;;
  p <- pget i ;;
  match p_ofile p fd with
  | Some f => ret (Some (fd, f))
  | None => ret None
  end.

Definition fdalloc (f : Z) : K Z :=
  i <- curproc ;;
  r <- for_find (seqZ 0 NOFILE) (fun fd =>
    p <- pget i ;;
    match p_ofile p fd with
    | None => set_ofile i fd (Some f) ;; ret (Some fd)
    | Some _ => ret None
    end) ;;
  ret (default (-1) r).

Definition sys_dup : K Z :=
  a <- argfd 0 ;;
  match a with
  | None => ret (u64 (-1))
  | Some (_, f) =>
      fd <- fdalloc f ;;
      if fd <? 0 then ret (u64 (-1)) else
      filedup f ;;
      ret fd
  end.

Definition sys_read : K Z :=
  p <- argaddr 1 ;;
  n <- argint 2 ;;
  a <- argfd 0 ;;
  match a with
  | None => ret (u64 (-1))
  | Some (_, f) => r <- fileread f p n ;; ret (u64 r)
  end.

Definition sys_write : K Z :=
  p <- argaddr 1 ;;
  n <- argint 2 ;;
  a <- argfd 0 ;;
  match a with
  | None => ret (u64 (-1))
  | Some (_, f) => r <- filewrite f p n ;; ret (u64 r)
  end.

Definition sys_close : K Z :=
  a <- argfd 0 ;;
  match a with
  | None => ret (u64 (-1))
  | Some (fd, f) =>
      i <- curproc ;;
      set_ofile i fd None ;;
      fileclose f ;;
      ret 0
  end.

Definition sys_fstat : K Z :=
  st <- argaddr 1 ;;
  a <- argfd 0 ;;
  match a with
  | None => ret (u64 (-1))
  | Some (_, f) => r <- filestat f st ;; ret (u64 r)
  end.

(** The label [bad] of [sys_link]. *)
Definition link_bad (ip : Z) : K Z :=
  ilock ip ;;
  modify (upd_inode ip (fun x => i_set_nlink (s16 (i_nlink x - 1)) x)) ;;
  iupdate ip ;;
  iunlockput ip ;;
  end_op ;;
  ret (u64 (-1)).

Definition sys_link : K Z :=
  old <- argstr 0 MAXPATH ;;
  if fst old <? 0 then ret (u64 (-1)) else
  new <- argstr 1 MAXPATH ;;
  if fst new <? 0 then ret (u64 (-1)) else
  begin_op ;;
  r <- namei (snd old) ;;
  match r with
  | None => end_op ;; ret (u64 (-1))
  | Some ip =>
      ilock ip ;;
      x <- inode_of ip ;;
      if i_type x =? T_DIR then iunlockput ip ;; end_op ;; ret (u64 (-1)) else
      modify (upd_inode ip (fun x => i_set_nlink (s16 (i_nlink x + 1)) x)) ;;
      iupdate ip ;;
      iunlock ip ;;
      r <- nameiparent (snd new) ;;
      match r with
      | (None, _) => link_bad ip
      | (Some dp, name) =>
          ilock dp ;;
          d <- inode_of dp ;;
          x <- inode_of ip ;;
          bad <- (if i_dev d =? i_dev x then l <- dirlink dp name (i_inum x) ;; ret (l <? 0)
                  else ret true) ;;
          if (bad : bool) then iunlockput dp ;; link_bad ip else
          iunlockput dp ;;
          iput ip ;;
          end_op ;;
          ret 0
      end
  end.

Definition isdirempty (dp : Z) : K bool :=
  x <- inode_of dp ;;
  iter (S (Z.to_nat (i_size x / DIRENT))) (fun off =>
    x <- inode_of dp ;;
    if off <? i_size x then
      de <- read_dirent dp off "isdirempty: readi" ;;
      if negb (de_inum de =? 0) then ret (inr false) else ret (inl (u32 (off + DIRENT)))
    else ret (inr true)) (2 * DIRENT).

(** The label [bad] of [sys_unlink]. *)
Definition unlink_bad (dp : Z) : K Z := iunlockput dp ;; end_op ;; ret (u64 (-1)).

(** The removal of the entry at [off] of [dp], which names [ip]. *)
Definition unlink_entry (dp ip off : Z) : K Z :=
  n <- writei dp (Klocal (replicate (Z.to_nat DIRENT) 0)) off DIRENT ;;
  if negb (n =? DIRENT) then panic "unlink: writei" else
  x <- inode_of ip ;;
  (if i_type x =? T_DIR then
     modify (upd_inode dp (fun x => i_set_nlink (s16 (i_nlink x - 1)) x)) ;;
     iupdate dp
   else ret tt) ;;
  iunlockput dp ;;
  modify (upd_inode ip (fun x => i_set_nlink (s16 (i_nlink x - 1)) x)) ;;
  iupdate ip ;;
  iunlockput ip ;;
  end_op ;;
  ret 0.

Definition sys_unlink : K Z :=
  path <- argstr 0 MAXPATH ;;
  if fst path <? 0 then ret (u64 (-1)) else
  begin_op ;;
  r <- nameiparent (snd path) ;;
  match r with
  | (None, _) => end_op ;; ret (u64 (-1))
  | (Some dp, name) =>
      ilock dp ;;
      if (namecmp name dot =? 0) || (namecmp name dotdot =? 0) then unlink_bad dp else
      r <- dirlookup dp name ;;
      match r with
      | None => unlink_bad dp
      | Some (ip, off) =>
          ilock ip ;;
          x <- inode_of ip ;;
          if i_nlink x <? 1 then panic "unlink: nlink < 1" else
          full <- (if i_type x =? T_DIR then e <- isdirempty ip ;; ret (negb e) else ret false) ;;
          if (full : bool) then iunlockput ip ;; unlink_bad dp else
          unlink_entry dp ip off
      end
  end.

(** The label [fail] of [create]. *)
Definition create_fail (dp ip : Z) : K (option Z) :=
  modify (upd_inode ip (i_set_nlink 0)) ;;
  iupdate ip ;;
  iunlockput ip ;;
  iunlockput dp ;;
  ret None.

(** The new inode [ip], locked, gets its links; [fail] undoes them. *)
Definition create_links (dp ip : Z) (name : list Z) (type : Z) : K (option Z) :=
  x <- inode_of ip ;;
  d <- inode_of dp ;;
  ok <- (if type =? T_DIR then
           l <- dirlink ip dot (i_inum x) ;;
           if l <? 0 then ret false else
           l <- dirlink ip dotdot (i_inum d) ;;
           ret (negb (l <? 0))
         else ret true) ;;
  if negb ok then create_fail dp ip else
  l <- dirlink dp name (i_inum x) ;;
  if l <? 0 then create_fail dp ip else
  (if type =? T_DIR then
     modify (upd_inode dp (fun x => i_set_nlink (s16 (i_nlink x + 1)) x)) ;;
     iupdate dp
   else ret tt) ;;
  iunlockput dp ;;
  ret (Some ip).

Definition create (path : list Z) (type major minor : Z) : K (option Z) :=
  r <- nameiparent path ;;
  match r with
  | (None, _) => ret None
  | (Some dp, name) =>
      ilock dp ;;
      r <- dirlookup dp name ;;
      match r with
      | Some (ip, _) =>
          iunlockput dp ;;
          ilock ip ;;
          x <- inode_of ip ;;
          if (type =? T_FILE) && ((i_type x =? T_FILE) || (i_type x =? T_DEVICE)) then ret (Some ip)
          else iunlockput ip ;; ret None
      | None =>
          d <- inode_of dp ;;
          r <- ialloc (i_dev d) type ;;
          match r with
          | None => iunlockput dp ;; ret None
          | Some ip =>
              ilock ip ;;
              modify (upd_inode ip (i_set_major (s16 major))) ;;
              modify (upd_inode ip (i_set_minor (s16 minor))) ;;
              modify (upd_inode ip (i_set_nlink 1)) ;;
              iupdate ip ;;
              create_links dp ip name type
          end
      end
  end.

(** The first part of [sys_open]: the inode, locked. *)
Definition open_inode (path : list Z) (omode : Z) : K (option Z) :=
  if has omode O_CREATE then create path T_FILE 0 0 else
  r <- namei path ;;
  match r with
  | None => ret None
  | Some ip =>
      ilock ip ;;
      x <- inode_of ip ;;
      if (i_type x =? T_DIR) && negb (omode =? O_RDONLY) then iunlockput ip ;; ret None
      else ret (Some ip)
  end.

(** A file structure and a descriptor for it. *)
Definition open_fd : K (option (Z * Z)) :=
  r <- filealloc ;;
  match r with
  | None => ret None
  | Some f =>
      fd <- fdalloc f ;;
      if fd <? 0 then fileclose f ;; ret None else ret (Some (f, fd))
  end.

(** The fields of the file structure. *)
Definition open_file (x : inode) (ip omode : Z) (g : file) : file :=
  let g := if i_type x =? T_DEVICE then f_set_major (i_major x) (f_set_type FD_DEVICE g)
           else f_set_off 0 (f_set_type FD_INODE g) in
  f_set_writable (has omode O_WRONLY || has omode O_RDWR)
    (f_set_readable (negb (has omode O_WRONLY)) (f_set_ip (Some ip) g)).

Definition sys_open : K Z :=
  omode <- argint 1 ;;
  path <- argstr 0 MAXPATH ;;
  if fst path <? 0 then ret (u64 (-1)) else
  begin_op ;;
  r <- open_inode (snd path) omode ;;
  match r with
  | None => end_op ;; ret (u64 (-1))
  | Some ip =>
      x <- inode_of ip ;;
      if (i_type x =? T_DEVICE) && ((i_major x <? 0) || (i_major x >=? NDEV)) then
        iunlockput ip ;; end_op ;; ret (u64 (-1))
      else
      r <- open_fd ;;
      match r with
      | None => iunlockput ip ;; end_op ;; ret (u64 (-1))
      | Some (f, fd) =>
          modify (upd_file f (open_file x ip omode)) ;;
          (if has omode O_TRUNC && (i_type x =? T_FILE) then itrunc ip else ret tt) ;;
          iunlock ip ;;
          end_op ;;
          ret fd
      end
  end.

Definition sys_mkdir : K Z :=
  begin_op ;;
  path <- argstr 0 MAXPATH ;;
  r <- (if fst path <? 0 then ret None else create (snd path) T_DIR 0 0) ;;
  match r with
  | None => end_op ;; ret (u64 (-1))
  | Some ip => iunlockput ip ;; end_op ;; ret 0
  end.

Definition sys_mknod : K Z :=
  begin_op ;;
  major <- argint 1 ;;
  minor <- argint 2 ;;
  path <- argstr 0 MAXPATH ;;
  r <- (if fst path <? 0 then ret None else create (snd path) T_DEVICE (s16 major) (s16 minor)) ;;
  match r with
  | None => end_op ;; ret (u64 (-1))
  | Some ip => iunlockput ip ;; end_op ;; ret 0
  end.

Definition sys_chdir : K Z :=
  i <- curproc ;;
  begin_op ;;
  path <- argstr 0 MAXPATH ;;
  r <- (if fst path <? 0 then ret None else namei (snd path)) ;;
  match r with
  | None => end_op ;; ret (u64 (-1))
  | Some ip =>
      ilock ip ;;
      x <- inode_of ip ;;
      if negb (i_type x =? T_DIR) then iunlockput ip ;; end_op ;; ret (u64 (-1)) else
      iunlock ip ;;
      p <- pget i ;;
      match p_cwd p with
      | Some d => iput d
      | None => undef "iput of a null pointer"
      end ;;
      end_op ;;
      pset i (p_set_cwd (Some ip)) ;;
      ret 0
  end.

(** The argument vector of [sys_exec]: pages with the strings in them, and
    whether the loop ended with a null pointer. *)
Fixpoint fetch_argv (fuel : nat) (uargv i : Z) (argv : list (Z * list Z)) : K (bool * list (Z * list Z)) :=
  match fuel with
  | O => ret (false, argv)
  | S fuel =>
      r <- fetchaddr (u64 (uargv + 8 * i)) ;;
      match r with
      | None => ret (false, argv)
      | Some uarg =>
          if uarg =? 0 then ret (true, argv) else
          pg <- kalloc ;;
          if pg =? 0 then ret (false, argv) else
          c <- fetchstr uarg PGSIZE ;;
          kwrite pg (snd c) ;;
          if fst c <? 0 then ret (false, argv ++ [(pg, snd c)]) else
          fetch_argv fuel uargv (i + 1) (argv ++ [(pg, snd c)])
      end
  end.

Definition sys_exec : K Z :=
  uargv <- argaddr 1 ;;
  path <- argstr 0 MAXPATH ;;
  if fst path <? 0 then ret (u64 (-1)) else
  r <- fetch_argv (Z.to_nat MAXARG) uargv 0 [] ;;
  let '(ok, argv) := r in
  if (ok : bool) then
    v <- kexec (snd path) (map snd argv) ;;
    for_each argv (fun a => kfree (fst a)) ;;
    ret (u64 v)
  else
    for_each argv (fun a => kfree (fst a)) ;;
    ret (u64 (-1)).

Definition sys_pipe : K Z :=
  i <- curproc ;;
  fdarray <- argaddr 0 ;;
  r <- pipealloc ;;
  match r with
  | None => ret (u64 (-1))
  | Some (rf, wf) =>
      fd0 <- fdalloc rf ;;
      fd1 <- (if fd0 <? 0 then ret (-1) else fdalloc wf) ;;
      if fd1 <? 0 then
        (if fd0 >=? 0 then set_ofile i fd0 None else ret tt) ;;
        fileclose rf ;;
        fileclose wf ;;
        ret (u64 (-1))
      else
      p <- pget i ;;
      c0 <- copyout (p_pagetable p) fdarray (le_bytes 4 fd0) ;;
      c1 <- (if c0 <? 0 then ret (-1) else copyout (p_pagetable p) (u64 (fdarray + 4)) (le_bytes 4 fd1)) ;;
      if c1 <? 0 then
        set_ofile i fd0 None ;;
        set_ofile i fd1 None ;;
        fileclose rf ;;
        fileclose wf ;;
        ret (u64 (-1))
      else ret 0
  end.

(** ** The table *)

Definition syscalls (num : Z) : option (K Z) :=
  match num with
  | 1 => Some sys_fork | 2 => Some sys_exit | 3 => Some sys_wait | 4 => Some sys_pipe
  | 5 => Some sys_read | 6 => Some sys_kill | 7 => Some sys_exec | 8 => Some sys_fstat
  | 9 => Some sys_chdir | 10 => Some sys_dup | 11 => Some sys_getpid | 12 => Some sys_sbrk
  | 13 => Some sys_pause | 14 => Some sys_uptime | 15 => Some sys_open | 16 => Some sys_write
  | 17 => Some sys_mknod | 18 => Some sys_unlink | 19 => Some sys_link | 20 => Some sys_mkdir
  | 21 => Some sys_close | 22 => Some sys_memstats
  | _ => None
  end.

Definition syscall : K unit :=
  i <- curproc ;;
  a7 <- tf_get i TF_a7 ;;
  let num := s32 a7 in
  match syscalls num with
  | Some f => v <- f ;; tf_set i TF_a0 v
  | None =>
      p <- pget i ;;
      printf "%d %s: unknown sys call %d" (p_pid p :: num :: p_name p) ;;
      tf_set i TF_a0 (-1)
  end.

End Syscall.
