(* ===== verification/Trap.v ===== *)
(** * Traps and interrupts: kernel/trap.c and kernel/plic.c, and forkret of
    kernel/proc.c

    Control registers are fields of the state; [intr_on] and [intr_off] set
    and clear the interrupt-enable bit of sstatus. *)

From S2P Require Import Prelude Riscv Mem KState Memstats Sched Virtio Bio Log PhysMem Vm.
From S2P Require Import Vm Fs Console Pipe File Proc Exec Syscall.

(** ** riscv.h and memlayout.h *)

Definition SSTATUS_SPP : Z := Z.shiftl 1 8.
Definition SSTATUS_SPIE : Z := Z.shiftl 1 5.
Definition SSTATUS_SIE : Z := Z.shiftl 1 1.
Definition SATP_SV39 : Z := Z.shiftl 8 60.
Definition MAKE_SATP (pagetable : Z) : Z := Z.lor SATP_SV39 (Z.shiftr pagetable 12).
Definition UART0_IRQ : Z := 10.
Definition VIRTIO0_IRQ : Z := 1.
Definition PLIC_SENABLE (hart : Z) : Z := PLIC + 0x2080 + hart * 0x100.
Definition PLIC_SPRIORITY (hart : Z) : Z := PLIC + 0x201000 + hart * 0x2000.
Definition PLIC_SCLAIM (hart : Z) : Z := PLIC + 0x201004 + hart * 0x2000.

Definition on_csr (f : csrs -> csrs) (s : kstate) : kstate := k_set_csr (f (k_csr s)) s.
Definition csr {A} (f : csrs -> A) : K A := gets (fun s => f (k_csr s)).
Definition wcsr (f : csrs -> csrs) : K unit := modify (on_csr f).

Definition intr_on : K unit :=
  wcsr (fun c => cs_set_sstatus (Z.lor (cs_sstatus c) SSTATUS_SIE) c).
Definition intr_off : K unit :=
  wcsr (fun c => cs_set_sstatus (Z.land (cs_sstatus c) (Z.lnot SSTATUS_SIE)) c).
Definition intr_get : K bool := csr (fun c => has (cs_sstatus c) SSTATUS_SIE).

Section Trap.
Context {LAY : Layout} {ENV : Env} {SYM : Symbols}.

(** ** plic.c *)

Definition plicinit : K unit :=
  modify (mmio_write (PLIC + UART0_IRQ * 4) 1) ;;
  modify (mmio_write (PLIC + VIRTIO0_IRQ * 4) 1).

Definition plicinithart : K unit :=
  hart <- cpuid ;;
  modify (mmio_write (PLIC_SENABLE hart) (Z.lor (Z.shiftl 1 UART0_IRQ) (Z.shiftl 1 VIRTIO0_IRQ))) ;;
  modify (mmio_write (PLIC_SPRIORITY hart) 0).

Definition plic_claim : K Z :=
  hart <- cpuid ;;
  fun s => let '(v, s) := mmio_read (PLIC_SCLAIM hart) s in Ok (s32 v) s.

Definition plic_complete (irq : Z) : K unit :=
  hart <- cpuid ;;
  modify (mmio_write (PLIC_SCLAIM hart) (u32 irq)).

(** ** trap.c *)

Definition trapinit : K unit := initlock L_ticks.

Definition trapinithart : K unit := wcsr (cs_set_stvec a_kernelvec).

Definition prepare_return : K unit :=
  i <- curproc ;;
  intr_off ;;
  wcsr (cs_set_stvec (u64 (TRAMPOLINE + (a_uservec - trampoline)))) ;;
  satp <- csr cs_satp ;;
  tf_set i TF_kernel_satp satp ;;
  p <- pget i ;;
  tf_set i TF_kernel_sp (p_kstack p + PGSIZE) ;;
  tf_set i TF_kernel_trap a_usertrap ;;
  tp <- csr cs_tp ;;
  tf_set i TF_kernel_hartid tp ;;
  x <- csr cs_sstatus ;;
  wcsr (cs_set_sstatus (Z.lor (Z.land x (Z.lnot SSTATUS_SPP)) SSTATUS_SPIE)) ;;
  epc <- tf_get i TF_epc ;;
  wcsr (cs_set_sepc epc).

Definition clockintr : K unit :=
  id <- cpuid ;;
  (if id =? 0 then
     acquire L_ticks ;;
     modify (fun s => k_set_ticks (u32 (k_ticks s + 1)) s) ;;
     wakeup ChTicks ;;
     release L_ticks
   else ret tt) ;;
  wcsr (fun c => cs_set_stimecmp (u64 (cs_time c + 1000000)) c).

Definition devintr : K Z :=
  scause <- csr cs_scause ;;
  if scause =? 0x8000000000000009 then
    irq <- plic_claim ;;
    (if irq =? UART0_IRQ then uartintr
     else if irq =? VIRTIO0_IRQ then virtio_disk_intr
     else if negb (irq =? 0) then printf "unexpected interrupt irq=%d" [irq]
     else ret tt) ;;
    (if negb (irq =? 0) then plic_complete irq else ret tt) ;;
    ret 1
  else if scause =? 0x8000000000000005 then
    clockintr ;;
    ret 2
  else ret 0.

(** The entry [walk] finds for [va], or 0 without one: [pte] and [*pte]. *)
Definition fault_pte (pagetable va : Z) : K (Z * Z) :=
  pte <- walk pagetable va false ;;
  e <- (if pte =? 0 then ret 0 else ld64 pte) ;;
  ret (pte, e).

(** A store page fault of process [i]. *)
Definition store_fault (i : Z) : K unit :=
  va <- csr cs_stval ;;
  p <- pget i ;;
  f <- fault_pte (p_pagetable p) va ;;
  let '(pte, e) := f in
  (if negb (pte =? 0) && has e PTE_SWAPPED then
     memstats_inc_swap_in ;;
     r <- swapin (p_pagetable p) va ;;
     if r =? 0 then setkilled i else ret tt
   else if negb (pte =? 0) && has e PTE_V && has e PTE_COW then
     memstats_inc_cow_fault ;;
     r <- cowfault (p_pagetable p) va ;;
     if negb (r =? 0) then setkilled i else ret tt
   else
     r <- vmfault (p_pagetable p) va ;;
     if negb (r =? 0) then
       memstats_inc_lazy_alloc ;;
       setkilled i
     else memstats_inc_lazy_alloc) ;;
  memstats_inc_page_fault false.

(** A load page fault. *)
Definition load_fault (i : Z) : K unit :=
  va <- csr cs_stval ;;
  p <- pget i ;;
  f <- fault_pte (p_pagetable p) va ;;
  let '(pte, e) := f in
  (if negb (pte =? 0) && has e PTE_SWAPPED then
     memstats_inc_swap_in ;;
     r <- swapin (p_pagetable p) va ;;
     if r =? 0 then setkilled i else ret tt
   else
     r <- vmfault (p_pagetable p) va ;;
     if negb (r =? 0) then
       memstats_inc_lazy_alloc ;;
       setkilled i
     else memstats_inc_lazy_alloc) ;;
  memstats_inc_page_fault true.

(** The dispatch on the cause of the trap: [which_dev]. *)
Definition dispatch (i : Z) : K Z :=
  scause <- csr cs_scause ;;
  if scause =? 8 then
    k <- killed i ;;
    (if negb (k =? 0) then kexit (-1) else ret tt) ;;
    epc <- tf_get i TF_epc ;;
    tf_set i TF_epc (epc + 4) ;;
    intr_on ;;
    syscall ;;
    ret 0
  else
  which_dev <- devintr ;;
  if negb (which_dev =? 0) then ret which_dev else
  scause <- csr cs_scause ;;
  if scause =? 15 then store_fault i ;; ret 0
  else if scause =? 13 then load_fault i ;; ret 0
  else
    p <- pget i ;;
    sepc <- csr cs_sepc ;;
    stval <- csr cs_stval ;;
    printf "usertrap(): unexpected scause 0x%lx pid=%d" [scause; p_pid p] ;;
    printf "            sepc=0x%lx stval=0x%lx" [sepc; stval] ;;
    setkilled i ;;
    ret 0.

(** The user satp value for trampoline.S. *)
Definition usertrap : K Z :=
  x <- csr cs_sstatus ;;
  if has x SSTATUS_SPP then panic "usertrap: not from user mode" else
  wcsr (cs_set_stvec a_kernelvec) ;;
  i <- curproc ;;
  sepc <- csr cs_sepc ;;
  tf_set i TF_epc sepc ;;
  which_dev <- dispatch i ;;
  k <- killed i ;;
  (if negb (k =? 0) then kexit (-1) else ret tt) ;;
  (if which_dev =? 2 then yield else ret tt) ;;
  prepare_return ;;
  p <- pget i ;;
  ret (MAKE_SATP (p_pagetable p)).

Definition kerneltrap : K unit :=
  sepc <- csr cs_sepc ;;
  sstatus <- csr cs_sstatus ;;
  scause <- csr cs_scause ;;
  if negb (has sstatus SSTATUS_SPP) then panic "kerneltrap: not from supervisor mode" else
  on <- intr_get ;;
  if (on : bool) then panic "kerneltrap: interrupts enabled" else
  which_dev <- devintr ;;
  if which_dev =? 0 then
    e <- csr cs_sepc ;;
    v <- csr cs_stval ;;
    printf "scause=0x%lx sepc=0x%lx stval=0x%lx" [scause; e; v] ;;
    panic "kerneltrap"
  else
  me <- myproc ;;
  (match me with
   | Some _ => if which_dev =? 2 then yield else ret tt
   | None => ret tt
   end) ;;
  wcsr (cs_set_sepc sepc) ;;
  wcsr (cs_set_sstatus sstatus).

(** The path and only argument of the first program, "/init". *)
Definition init_path : list Z := [47; 105; 110; 105; 116].

(** [forkret] returns to user space through the trampoline; the model returns
    the address it jumps to and the satp value in a0. *)
Definition forkret : K (Z * Z) :=
  i <- curproc ;;
  release (L_proc i) ;;
  first <- gets k_first ;;
  (if (first : bool) then
     fsinit ROOTDEV ;;
     swapinit ;;
     modify (k_set_first false) ;;
     r <- kexec init_path [init_path] ;;
     tf_set i TF_a0 r ;;
     a0 <- tf_get i TF_a0 ;;
     if a0 =? u64 (-1) then panic "exec" else ret tt
   else ret tt) ;;
  prepare_return ;;
  p <- pget i ;;
  ret (u64 (TRAMPOLINE + (a_userret - trampoline)), MAKE_SATP (p_pagetable p)).

End Trap.
