(* ===== verification/TrapSpec.v ===== *)
(** * Traps from user space (kernel/trap.c)

    [usertrap] composed with the page-fault handlers: what a store to a
    copy-on-write page, an access to memory not yet allocated and a wild
    access lead to, from the trap to the return to user space.  A process in
    user space is described by [uproc]; the steps of the trap path that only
    touch its trap frame, the trap registers and the statistics are [quiet]. *)

From S2P Require Import Prelude Riscv Mem KState Sample Memstats Sched DiskSpec Virtio Bio Log PhysMem Kalloc Vm.
From S2P Require Import PageTable Walk VmMap VmAlloc VmCow VmCopy VmSample VmSpec.
From S2P Require Import Vm Fs Console Pipe File Proc Exec Syscall Trap.

Section TrapSpec.
Context {LAY : Layout} {ENV : Env} {SYM : Symbols}.

(** ** A process and its trap frame *)

(** Process [i] runs on its page table; its trap frame is a page of its own. *)
Record uproc (s : kstate) (i tf : Z) (fl : list Z) (root : Z) (t1 t0 : list Z) : Prop := {
  up_space : uspace s fl root t1 t0;
  up_cur : k_cur s = Some i;
  up_held : k_held s = [];
  up_pt : p_pagetable (k_procs s i) = root;
  up_tf : p_trapframe (k_procs s i) = tf;
  up_page : heap_page tf;
  up_apart : tf ∉ fl ++ tables root t1 t0;
  up_private : forall w, 0 <= w < NVPN -> user_leaf (ent (k_mem s) root w) = true -> PTE2PA (ent (k_mem s) root w) <> tf
}.

(** Only the words of the trap frame before the saved registers changed, of
    what a process sees. *)
Record quiet (tf : Z) (s s' : kstate) : Prop := {
  q_mem : forall x, ~ tf <= x < tf + 40 -> k_mem s' x = k_mem s x;
  q_fl : k_freelist s' = k_freelist s;
  q_cnt : k_refcount s' = k_refcount s;
  q_procs : k_procs s' = k_procs s;
  q_cur : k_cur s' = k_cur s;
  q_held : k_held s' = k_held s
}.

Lemma trap_quiet_refl tf s : quiet tf s s.
Proof. by split. Qed.

Lemma trap_quiet_trans tf s s1 s2 : quiet tf s s1 -> quiet tf s1 s2 -> quiet tf s s2.
Proof. intros [A1 A2 A3 A4 A5 A6] [B1 B2 B3 B4 B5 B6]. split; [intros x Hx; by rewrite B1, A1|congruence..]. Qed.

Lemma quiet_csr tf f s : quiet tf s (on_csr f s).
Proof. by split. Qed.

Lemma quiet_stats tf g s : quiet tf s (on_stats g s).
Proof. by split. Qed.

(** All entries and all bytes of the process are the same. *)
Definition same_user (root : Z) (s s' : kstate) : Prop :=
  (forall w, ent (k_mem s') root w = ent (k_mem s) root w) /\
  (forall a, 0 <= a < MAXVA -> uvalid (k_mem s) root a = true -> ubyte (k_mem s') root a = ubyte (k_mem s) root a).

(** Whatever is written to the trap frame. *)
Lemma tf_uproc s s' i tf fl root t1 t0 : uproc s i tf fl root t1 t0 -> (forall x, ~ in_page tf x -> k_mem s' x = k_mem s x) ->
  k_freelist s' = k_freelist s -> k_refcount s' = k_refcount s -> k_procs s' = k_procs s -> k_cur s' = k_cur s -> k_held s' = k_held s ->
  uproc s' i tf fl root t1 t0 /\ same_user root s s'.
Proof.
  intros P Q1 Q2 Q3 Q4 Q5 Q6. pose proof (up_space _ _ _ _ _ _ _ P) as U. pose proof (us_vm _ _ _ _ _ U) as HV.
  destruct (up_page _ _ _ _ _ _ _ P) as [Hp Hk]. pose proof (up_apart _ _ _ _ _ _ _ P) as [Hnf Hnt]%not_elem_of_app.
  set (s1 := k_set_mem (k_mem s') s).
  assert (frame [tf] s s1) as HF.
  { split; [apply only_vm_mem| |done]. intros x Hx. apply Q1, Hx. ielem. }
  assert (forall q, q ∈ [tf] -> is_page q) as HW by (by intros q ->%list_elem_of_singleton).
  destruct (frame_vmem [tf] s s1 fl fl root t1 t0 HV HF HW) as (HV1 & _ & HE).
  - by intros q ->%list_elem_of_singleton.
  - eapply alloc_ok_frame; [apply HV|done| |done]. intros q Hq. apply (frame_page _ _ _ _ HF HW).
    + eapply free_is_heap; [apply HV|done].
    + by intros ->%list_elem_of_singleton.
  - assert (uspace s1 fl root t1 t0) as U1.
    { split; [done| |].
      - intros w Hw. rewrite HE. apply (us_leaf _ _ _ _ _ U w Hw).
      - intros w w' Hw Hw'. rewrite !HE. by apply U. }
    split; [split|split; [exact HE|]].
    + apply (uspace_same s1); [done|done|exact Q2|exact Q3|]. unfold alloc_locks_free. rewrite Q6. exact (vm_locks _ _ _ _ _ HV).
    + rewrite Q5. apply P.
    + rewrite Q6. apply P.
    + rewrite Q4. exact (up_pt _ _ _ _ _ _ _ P).
    + rewrite Q4. exact (up_tf _ _ _ _ _ _ _ P).
    + exact (up_page _ _ _ _ _ _ _ P).
    + exact (up_apart _ _ _ _ _ _ _ P).
    + intros w Hw. change (k_mem s') with (k_mem s1). rewrite HE. apply P, Hw.
    + intros a Ha Hu. change (k_mem s') with (k_mem s1). unfold ubyte, upa. rewrite HE. unfold load8. f_equal.
      pose proof (va_page_range a Ha) as Hw. destruct (us_leaf _ _ _ _ _ U _ Hw Hu) as ([Hq _] & _).
      apply Q1. eapply (pages_disjoint (PTE2PA (ent (k_mem s) root (a / PGSIZE))) tf); [done|done| |].
      * by apply (up_private _ _ _ _ _ _ _ P).
      * unfold in_page. pose proof (Z.mod_pos_bound a PGSIZE ltac:(done)). lia.
Qed.

Lemma quiet_uproc s s' i tf fl root t1 t0 : uproc s i tf fl root t1 t0 -> quiet tf s s' ->
  uproc s' i tf fl root t1 t0 /\ same_user root s s'.
Proof.
  intros P [Q1 Q2 Q3 Q4 Q5 Q6]. apply tf_uproc; try done. intros x Hx. apply Q1. unfold in_page, PGSIZE in Hx. lia.
Qed.

Lemma same_user_trans root s s1 s2 : same_user root s s1 -> same_user root s1 s2 -> same_user root s s2.
Proof.
  intros [A1 A2] [B1 B2]. split; [intros w; by rewrite B1, A1|]. intros a Ha Hu. rewrite B2, A2; try done.
  unfold uvalid in *. by rewrite A1.
Qed.

(** ** The trap frame *)

Section frame.
Context (s : kstate) (i tf : Z) (fl : list Z) (root : Z) (t1 t0 : list Z) (P : uproc s i tf fl root t1 t0).

Lemma tf_set_run r v : 0 <= r -> r + 8 <= 40 ->
  exists s', tf_set i r v s = Ok tt s' /\ quiet tf s s' /\ s' = k_set_mem (store64 (k_mem s) (tf + r) (u64 v)) s.
Proof.
  intros H1 H2. eexists. split; [|split; [|reflexivity]].
  - unfold tf_set. erewrite bind_ok by reflexivity. rewrite (up_tf _ _ _ _ _ _ _ P). unfold st64.
    rewrite (in_ram_page tf) by (apply (up_page _ _ _ _ _ _ _ P) || unfold PGSIZE; lia). done.
  - split; try done. intros x Hx. apply store64_outside. lia.
Qed.

Lemma tf_get_run r : 0 <= r -> r + 8 <= PGSIZE -> tf_get i r s = Ok (load64 (k_mem s) (tf + r)) s.
Proof.
  intros H1 H2. unfold tf_get. erewrite bind_ok by reflexivity. rewrite (up_tf _ _ _ _ _ _ _ P). unfold ld64.
  by rewrite (in_ram_page tf) by (apply (up_page _ _ _ _ _ _ _ P) || lia).
Qed.

(** A store to the trap frame beside the saved program counter. *)
Lemma tf_set_other r v : 0 <= r -> r + 8 <= 40 -> r + 8 <= TF_epc \/ TF_epc + 8 <= r ->
  exists s', tf_set i r v s = Ok tt s' /\ quiet tf s s' /\ uproc s' i tf fl root t1 t0 /\ k_csr s' = k_csr s /\
    load64 (k_mem s') (tf + TF_epc) = load64 (k_mem s) (tf + TF_epc).
Proof.
  intros H1 H2 H3. destruct (tf_set_run r v H1 H2) as (s' & E & Q & ->). eexists. split; [exact E|]. split; [done|].
  split; [by eapply quiet_uproc|]. split; [done|]. cbn [k_mem k_set_mem]. apply load64_store64_ne. lia.
Qed.

End frame.

(** Back to user space: the trap registers are set for a return to user mode
    at the saved program counter. *)
Lemma prepare_return_run s i tf fl root t1 t0 : uproc s i tf fl root t1 t0 ->
  exists s', prepare_return s = Ok tt s' /\ quiet tf s s' /\
    cs_sepc (k_csr s') = load64 (k_mem s) (tf + TF_epc) /\ has (cs_sstatus (k_csr s')) SSTATUS_SPP = false.
Proof.
  intros P. unfold prepare_return. rewrite (bind_ok _ _ _ _ _ (curproc_run i s (up_cur _ _ _ _ _ _ _ P))).
  do 2 (erewrite bind_ok by reflexivity). set (s1 := on_csr _ (on_csr _ s)).
  assert (quiet tf s s1) as Q1 by done. destruct (quiet_uproc _ _ _ _ _ _ _ _ P Q1) as [P1 _].
  erewrite bind_ok by reflexivity. destruct (tf_set_other s1 i tf fl root t1 t0 P1 TF_kernel_satp (cs_satp (k_csr s1))) as (s2 & E2 & Q2 & P2 & C2 & L2); [done|done|by left|].
  rewrite (bind_ok _ _ _ _ _ E2). erewrite bind_ok by reflexivity.
  destruct (tf_set_other s2 i tf fl root t1 t0 P2 TF_kernel_sp (p_kstack (k_procs s2 i) + PGSIZE)) as (s3 & E3 & Q3 & P3 & C3 & L3); [done|done|by left|].
  rewrite (bind_ok _ _ _ _ _ E3). destruct (tf_set_other s3 i tf fl root t1 t0 P3 TF_kernel_trap a_usertrap) as (s4 & E4 & Q4 & P4 & C4 & L4); [done|done|by left|].
  rewrite (bind_ok _ _ _ _ _ E4). erewrite bind_ok by reflexivity.
  destruct (tf_set_other s4 i tf fl root t1 t0 P4 TF_kernel_hartid (cs_tp (k_csr s4))) as (s5 & E5 & Q5 & P5 & C5 & L5); [done|done|by right|].
  rewrite (bind_ok _ _ _ _ _ E5). do 2 (erewrite bind_ok by reflexivity). set (s6 := on_csr _ s5).
  assert (quiet tf s5 s6) as Q6 by done. destruct (quiet_uproc _ _ _ _ _ _ _ _ P5 Q6) as [P6 _].
  rewrite (bind_ok _ _ _ _ _ (tf_get_run s6 i tf fl root t1 t0 P6 TF_epc ltac:(done) ltac:(done))). eexists. split; [reflexivity|]. split; [|split].
  - eapply trap_quiet_trans; [|apply quiet_csr]. eauto 8 using trap_quiet_trans.
  - transitivity (load64 (k_mem s5) (tf + TF_epc)); [reflexivity|]. by rewrite L5, L4, L3, L2.
  - change (has (Z.lor (Z.land (cs_sstatus (k_csr s5)) (Z.lnot SSTATUS_SPP)) SSTATUS_SPIE) SSTATUS_SPP = false).
    unfold has, SSTATUS_SPP, SSTATUS_SPIE. rewrite Z.land_lor_distr_l, <- Z.land_assoc. change (Z.land (Z.lnot _) _) with 0. by rewrite Z.land_0_r.
Qed.

(** ** Page faults *)

(** Interrupts and system calls are not page faults. *)
Lemma fault_not_device s : cs_scause (k_csr s) = 13 \/ cs_scause (k_csr s) = 15 -> devintr s = Ok 0 s.
Proof. intros H. unfold devintr. erewrite bind_ok by reflexivity. by destruct H as [-> | ->]. Qed.

Lemma fault_pte_run s i tf fl root t1 t0 va : uproc s i tf fl root t1 t0 -> 0 <= va < MAXVA ->
  fault_pte root va s = Ok (default 0 (pte_addr (k_mem s) root (va / PGSIZE)), ent (k_mem s) root (va / PGSIZE)) s.
Proof.
  intros P Hva. pose proof (us_vm _ _ _ _ _ (up_space _ _ _ _ _ _ _ P)) as HV. unfold fault_pte.
  unfold bind at 1. rewrite (walk_ok s fl root t1 t0 HV) by done.
  destruct (pte_addr (k_mem s) root (va / PGSIZE)) as [a|] eqn:Ea; cbn [default].
  - destruct (entry_read s fl root t1 t0 _ a HV Ea) as [Hr Hn].
    unfold default, id. rewrite (proj2 (Z.eqb_neq a 0)) by done. by run Hr.
  - unfold ent. by rewrite Ea.
Qed.

(** [usertrap] after the dispatch. *)
Definition leave (i which_dev : Z) : K Z :=
  k <- killed i ;;
  (if negb (k =? 0) then kexit (-1) else ret tt) ;;
  (if which_dev =? 2 then yield else ret tt) ;;
  prepare_return ;;
  p <- pget i ;;
  ret (MAKE_SATP (p_pagetable p)).

Definition fault (load : bool) (i : Z) : K unit := if load then load_fault i else store_fault i.

(** A page fault of a process in user mode. *)
Definition faulted (load : bool) (va : Z) (s : kstate) : Prop :=
  has (cs_sstatus (k_csr s)) SSTATUS_SPP = false /\ cs_scause (k_csr s) = (if load then 13 else 15) /\ cs_stval (k_csr s) = va.

Lemma leave_run s i tf fl root t1 t0 : uproc s i tf fl root t1 t0 -> p_killed (k_procs s i) = 0 ->
  exists s', leave i 0 s = Ok (MAKE_SATP root) s' /\ quiet tf s s' /\
    cs_sepc (k_csr s') = load64 (k_mem s) (tf + TF_epc) /\ has (cs_sstatus (k_csr s')) SSTATUS_SPP = false.
Proof.
  intros P Hk. destruct (prepare_return_run s i tf fl root t1 t0 P) as (s' & E & Q & H). exists s'. split; [|done].
  unfold leave. rewrite (bind_ok _ _ _ _ _ (killed_run i 0 s ltac:(rewrite (up_held _ _ _ _ _ _ _ P); apply not_elem_of_nil) Hk)).
  do 2 (erewrite bind_ok by reflexivity). rewrite (bind_ok _ _ _ _ _ E). erewrite bind_ok by reflexivity.
  by rewrite (q_procs _ _ _ Q), (up_pt _ _ _ _ _ _ _ P).
Qed.

(** [kexit] does not return, so neither does a trap of a killed process. *)
Lemma kexit_never {A} status s (a : A) s' : kexit status s <> Ok a s'.
Proof. unfold kexit, bind, panic. destruct (kexit_body status s) as [? s1|?|?|]; try done. by destruct (sched s1). Qed.

(** The way in: the program counter is saved and the fault handler runs. *)
Lemma usertrap_fault load va s i tf fl root t1 t0 : uproc s i tf fl root t1 t0 -> faulted load va s ->
  exists s1, usertrap s = (fault load i ;; leave i 0) s1 /\ quiet tf s s1 /\ uproc s1 i tf fl root t1 t0 /\
    same_user root s s1 /\ cs_stval (k_csr s1) = va /\ load64 (k_mem s1) (tf + TF_epc) = u64 (cs_sepc (k_csr s)).
Proof.
  intros P (Hs & Hc & Hv). set (s0 := on_csr (cs_set_stvec a_kernelvec) s).
  destruct (quiet_uproc s s0 i tf fl root t1 t0 P) as [P0 U0]; [done|].
  destruct (tf_set_run s0 i tf fl root t1 t0 P0 TF_epc (cs_sepc (k_csr s0)) ltac:(done) ltac:(done)) as (s1 & E1 & Q1 & E).
  assert (quiet tf s s1) as Q by (by apply (trap_quiet_trans _ _ s0)). destruct (quiet_uproc _ _ _ _ _ _ _ _ P Q) as [P1 U1].
  exists s1. assert (k_csr s1 = k_csr s0) as Hcsr by by rewrite E.
  assert (cs_scause (k_csr s1) = if load then 13 else 15) as Hc1 by by rewrite Hcsr.
  split; [|split; [done|split; [done|split; [done|split; [by rewrite Hcsr|]]]]].
  2:{ rewrite E. cbn [k_mem k_set_mem]. rewrite load64_store64. unfold u64. by rewrite Z.mod_mod. }
  unfold usertrap. erewrite bind_ok by reflexivity. rewrite Hs. cbv iota. erewrite bind_ok by reflexivity. fold s0.
  rewrite (bind_ok _ _ _ _ _ (curproc_run i s0 (up_cur _ _ _ _ _ _ _ P0))). erewrite bind_ok by reflexivity.
  rewrite (bind_ok _ _ _ _ _ E1).
  assert (dispatch i s1 = (fault load i ;; ret 0) s1) as Hd.
  { unfold dispatch. erewrite bind_ok by reflexivity. rewrite Hc1.
    replace ((if load then 13 else 15) =? 8) with false by (by destruct load). cbv iota.
    rewrite (bind_ok _ _ _ _ _ (fault_not_device s1 ltac:(rewrite Hc1; destruct load; auto))).
    change (negb (0 =? 0)) with false. cbv iota. unfold bind at 1. unfold csr, gets. rewrite Hc1. by destruct load. }
  change ((w <- dispatch i ;; leave i w) s1 = (fault load i ;; leave i 0) s1).
  unfold bind at 1. rewrite Hd. unfold bind, ret. by destruct (fault load i s1).
Qed.

(** The two handlers after their lookup. *)
Lemma fault_lookup load va s i tf fl root t1 t0 : uproc s i tf fl root t1 t0 -> cs_stval (k_csr s) = va -> 0 <= va < MAXVA ->
  has (ent (k_mem s) root (va / PGSIZE)) PTE_SWAPPED = false ->
  fault load i s =
    ((if negb load && (has (ent (k_mem s) root (va / PGSIZE)) PTE_V && has (ent (k_mem s) root (va / PGSIZE)) PTE_COW) then
        memstats_inc_cow_fault ;;
        r <- cowfault root va ;;
        if negb (r =? 0) then setkilled i else ret tt
      else
        r <- vmfault root va ;;
        if negb (r =? 0) then memstats_inc_lazy_alloc ;; setkilled i else memstats_inc_lazy_alloc) ;;
     memstats_inc_page_fault load) s.
Proof.
  intros P Hv Hva Hs. pose proof (fault_pte_run s i tf fl root t1 t0 va P Hva) as E. pose proof (up_pt _ _ _ _ _ _ _ P) as Hpt.
  assert (default 0 (pte_addr (k_mem s) root (va / PGSIZE)) = 0 -> has (ent (k_mem s) root (va / PGSIZE)) PTE_V = false) as H0.
  { unfold ent. destruct (pte_addr (k_mem s) root (va / PGSIZE)) as [a|] eqn:Ea; [|done]. intros Ez. cbn in Ez. subst a.
    by destruct (proj2 (entry_read s fl root t1 t0 _ 0 (us_vm _ _ _ _ _ (up_space _ _ _ _ _ _ _ P)) Ea)). }
  unfold fault. destruct load; [unfold load_fault|unfold store_fault]; do 2 (erewrite bind_ok by reflexivity);
    rewrite Hv, Hpt, (bind_ok _ _ _ _ _ E); cbv beta iota; rewrite Hs, andb_false_r; [done|].
  cbn [negb andb]. destruct (Z.eqb_spec (default 0 (pte_addr (k_mem s) root (va / PGSIZE))) 0) as [Ez|Ez]; [|done].
  by rewrite (H0 Ez).
Qed.

(** A fault at an address above the address space brings the whole kernel
    down: [usertrap] hands the faulting address to [walk] unchecked, which
    panics. *)
Theorem wild_address_panics load va s i tf fl root t1 t0 :
  uproc s i tf fl root t1 t0 -> faulted load va s -> MAXVA <= va -> usertrap s = Panic "walk".
Proof.
  intros P F Hva. destruct (usertrap_fault load va s i tf fl root t1 t0 P F) as (s1 & -> & _ & P1 & _ & Hv & _).
  assert (forall p (k : Z * Z -> K unit), (f <- fault_pte p va ;; k f) s1 = Panic "walk") as H.
  { intros p k. unfold fault_pte, walk, walk_with. rewrite Z.geb_leb, (proj2 (Z.leb_le _ _)) by done. done. }
  unfold bind at 1. unfold fault, load_fault, store_fault.
  destruct load; do 2 (erewrite bind_ok by reflexivity); rewrite Hv; by rewrite H.
Qed.

(** An access outside the process, or one the entry does not permit,
    is not an error for [usertrap]: [vmfault] returns 0 and the process goes
    back to user space, not killed, with the same entries and bytes and the
    program counter of the same instruction, which faults again. *)
Theorem bad_access_resumes load va s i tf fl root t1 t0 (e := ent (k_mem s) root (va / PGSIZE)) :
  uproc s i tf fl root t1 t0 -> faulted load va s -> 0 <= va < MAXVA -> p_killed (k_procs s i) = 0 ->
  p_sz (k_procs s i) <= va \/ has e PTE_V = true -> has e PTE_SWAPPED = false ->
  (load = false -> has e PTE_V && has e PTE_COW = false) ->
  exists s', usertrap s = Ok (MAKE_SATP root) s' /\ uproc s' i tf fl root t1 t0 /\ same_user root s s' /\
    k_procs s' = k_procs s /\ cs_sepc (k_csr s') = u64 (cs_sepc (k_csr s)).
Proof.
  intros P F Hva Hk Hbad Hsw Hcow. destruct (usertrap_fault load va s i tf fl root t1 t0 P F) as (s1 & -> & Q1 & P1 & [U1 U1'] & Hv & Hepc).
  assert (ent (k_mem s1) root (va / PGSIZE) = e) as Ee by apply U1. pose proof (up_held _ _ _ _ _ _ _ P1) as Hh.
  assert (forall g, L_memstats ∉ k_held (on_stats g s1)) as Hl by (intros g; cbn; rewrite Hh; apply not_elem_of_nil).
  set (s2 := on_stats (op_effect (OpPageFault load)) (on_stats (op_effect OpLazyAlloc) s1)).
  assert (fault load i s1 = Ok tt s2) as Ef.
  { rewrite (fault_lookup load va s1 i tf fl root t1 t0 P1 Hv Hva) by (by rewrite Ee). rewrite Ee.
    replace (negb load && (has e PTE_V && has e PTE_COW)) with false by (by destruct load; [|rewrite Hcow]). cbv iota.
    assert (vmfault root va s1 = Ok 0 s1) as Ev.
    { apply (vmfault_refuses s1 fl root t1 t0 (up_space _ _ _ _ _ _ _ P1) i va (up_cur _ _ _ _ _ _ _ P1) Hva).
      by rewrite Ee, (q_procs _ _ _ Q1). }
    rewrite bind_assoc, (bind_ok _ _ _ _ _ Ev). cbv iota.
    rewrite (bind_ok _ _ _ _ _ (run_op_ok OpLazyAlloc s1 (Hl id))). apply (run_op_ok (OpPageFault load)), Hl. }
  rewrite (bind_ok _ _ _ _ _ Ef). assert (quiet tf s s2) as Q2 by (apply (trap_quiet_trans _ _ s1); done).
  destruct (quiet_uproc _ _ _ _ _ _ _ _ P Q2) as [P2 _].
  destruct (leave_run s2 i tf fl root t1 t0 P2) as (s3 & E3 & Q3 & Hs3 & _); [by rewrite (q_procs _ _ _ Q2)|].
  pose proof (trap_quiet_trans _ _ _ _ Q2 Q3) as Q. destruct (quiet_uproc _ _ _ _ _ _ _ _ P Q) as [P3 U3].
  exists s3. split; [done|]. split; [done|]. split; [done|]. split; [apply Q|]. rewrite Hs3. exact Hepc.
Qed.

(** [kexit] as the last thing a trap does. *)
Lemma leave_kexit s i w : L_proc i ∉ k_held s -> p_killed (k_procs s i) <> 0 -> leave i w s = kexit (-1) s.
Proof.
  intros Hn Hk. unfold leave. rewrite (bind_ok _ _ _ _ _ (killed_run i _ s Hn eq_refl)).
  rewrite (proj2 (Z.eqb_neq _ 0)) by done. cbn [negb]. unfold kexit, bind, panic.
  destruct (kexit_body (-1) s) as [? s1|?|?|]; try done. by destruct (sched s1).
Qed.

(** An access to memory of the process that is not allocated yet kills
    the process: [vmfault] maps a zeroed page there and returns its address,
    [usertrap] takes a value other than 0 for a failure, and instead of
    returning to user space it ends in [kexit(-1)]. *)
Theorem lazy_access_kills load va s i tf fl root t1 t0 (e := ent (k_mem s) root (va / PGSIZE)) :
  uproc s i tf fl root t1 t0 -> faulted load va s -> 0 <= va < p_sz (k_procs s i) -> p_sz (k_procs s i) <= MAXVA ->
  has e PTE_V = false -> has e PTE_SWAPPED = false -> (3 <= length fl)%nat ->
  exists pg s', usertrap s = kexit (-1) s' /\ p_killed (k_procs s' i) = 1 /\
    ent (k_mem s') root (va / PGSIZE) = leaf_pte pg lazy_perm /\ zero_page (k_mem s') pg /\ (forall r s2, usertrap s <> Ok r s2).
Proof.
  intros P F Hva Hsz Hnv Hsw Hlen. destruct (usertrap_fault load va s i tf fl root t1 t0 P F) as (s1 & Eu & Q1 & P1 & [U1 U1'] & Hv & _).
  assert (ent (k_mem s1) root (va / PGSIZE) = e) as Ee by apply U1.
  pose proof (vmfault_spec s1 fl root t1 t0 (up_space _ _ _ _ _ _ _ P1) i va (up_cur _ _ _ _ _ _ _ P1) ltac:(lia) true (up_pt _ _ _ _ _ _ _ P1)) as H.
  destruct (wpx_total _ _ _ (H ltac:(rewrite (q_procs _ _ _ Q1); lia) ltac:(by rewrite Ee) (fun _ => Hlen)))
    as (pg & s2 & Ev & fl2 & u1 & u0 & _ & Ho & _ & _ & [(Hr & _ & HE & Hz & _)|[? _]]); [|done].
  assert (k_held s2 = []) as Hh by (unfold only_vm in Ho; rewrite <- (up_held _ _ _ _ _ _ _ P1), <- Ho; done).
  set (s3 := on_stats (op_effect (OpPageFault load)) (upd_proc i (p_set_killed 1) (on_stats (op_effect OpLazyAlloc) s2))).
  assert (fault load i s1 = Ok tt s3) as Ef.
  { rewrite (fault_lookup load va s1 i tf fl root t1 t0 P1 Hv) by (rewrite ?Ee; done || lia). rewrite Ee, Hnv, andb_false_r. cbv iota.
    rewrite bind_assoc, (bind_ok _ _ _ _ _ Ev). rewrite (proj2 (Z.eqb_neq pg 0)) by done. cbn [negb]. rewrite bind_assoc.
    rewrite (bind_ok _ _ _ _ _ (run_op_ok OpLazyAlloc s2 ltac:(rewrite Hh; apply not_elem_of_nil))).
    rewrite (bind_ok _ _ _ _ _ (setkilled_run i (on_stats (op_effect OpLazyAlloc) s2) ltac:(cbn; rewrite Hh; apply not_elem_of_nil))).
    apply (run_op_ok (OpPageFault load)). cbn. rewrite Hh. apply not_elem_of_nil. }
  assert (p_killed (k_procs s3 i) = 1) as Hk by (cbn; by rewrite fupd_eq).
  assert (usertrap s = kexit (-1) s3) as Ek.
  { rewrite Eu, (bind_ok _ _ _ _ _ Ef). apply leave_kexit; [cbn; rewrite Hh; apply not_elem_of_nil|by rewrite Hk]. }
  exists pg, s3. split; [done|]. split; [done|]. split; [done|]. split; [done|]. intros r s'. rewrite Ek. apply kexit_never.
Qed.

(** [cowfault] for a process in its trap: the frame stays as it is. *)
Lemma cowfault_uproc s i tf pg fl root t1 t0 va (e := ent (k_mem s) root (va / PGSIZE)) :
  uproc s i tf (pg :: fl) root t1 t0 -> 0 <= va < MAXVA ->
  has e PTE_V = true -> has e PTE_U = true -> has e PTE_COW = true ->
  exists s', cowfault root va s = Ok 0 s' /\ uproc s' i tf fl root t1 t0 /\ only_vm s s' /\
    (forall x, in_page tf x -> k_mem s' x = k_mem s x) /\
    (forall w, 0 <= w < NVPN -> ent (k_mem s') root w = if decide (w = va / PGSIZE) then own_pte pg e else ent (k_mem s) root w) /\
    (forall a, 0 <= a < MAXVA -> uvalid (k_mem s) root a = true ->
       uvalid (k_mem s') root a = true /\ ubyte (k_mem s') root a = ubyte (k_mem s) root a).
Proof.
  intros P Hva HeV HeU HeC. pose proof (up_space _ _ _ _ _ _ _ P) as U. pose proof (us_vm _ _ _ _ _ U) as HV. pose proof (va_page_range va Hva) as Hv.
  assert (user_leaf e = true) as Hu by (unfold user_leaf; by rewrite HeV, HeU).
  destruct (us_leaf _ _ _ _ _ U _ Hv Hu) as (Hp & Hpt & Hcnt). fold e in Hp, Hpt, Hcnt.
  destruct (cowfault_copies s root t1 t0 va Hva pg fl HV HeV HeC Hp Hpt Hcnt) as (s1 & E1 & HV1 & Ho & HE & _ & Hmem & _).
  destruct (cowfault_uspace s pg fl root t1 t0 (va / PGSIZE) U Hv HeV HeU HeC) as (s1' & E1' & (U1 & _ & _ & _ & _ & _ & HB & _) & Hev).
  assert (s1' = s1) as ->.
  { assert (cowfault root (va / PGSIZE * PGSIZE) = cowfault root va) as Ec.
    { unfold cowfault. rewrite !PGROUNDDOWN_eq. change PGSIZE with 4096. by rewrite Z.div_mul by done. }
    rewrite Ec, E1 in E1'. by inversion E1'. }
  destruct (up_page _ _ _ _ _ _ _ P) as [Htp Htk]. pose proof (up_apart _ _ _ _ _ _ _ P) as [Hnf Hnt]%not_elem_of_app.
  apply not_elem_of_cons in Hnf as [Hng Hnf].
  assert (k_cur s1 = k_cur s /\ k_held s1 = k_held s /\ k_procs s1 = k_procs s) as (Hc & Hh & Hpr) by (unfold only_vm in Ho; by rewrite <- Ho).
  exists s1. split; [done|]. split; [|split; [done|split; [|split; [done|done]]]].
  - split; [done|rewrite Hc; apply P|rewrite Hh; apply P|rewrite Hpr; exact (up_pt _ _ _ _ _ _ _ P)|rewrite Hpr; exact (up_tf _ _ _ _ _ _ _ P)|done| |].
    + by apply not_elem_of_app.
    + intros w Hw. rewrite HE by done. case_decide as D; [|by apply (up_private _ _ _ _ _ _ _ P)].
      intros _. fold e. rewrite own_pte_PA by (eapply (pg_heap _ _ _ _ _ _ HV)). congruence.
  - intros x Hx. apply Hmem. intros q Hq. eapply (pages_disjoint tf q); [done| | |].
    + apply elem_of_cons in Hq as [->|Hq]; [apply (pg_heap _ _ _ _ _ _ HV)|by eapply (vmem_table_page _ _ _ _ _ q HV)].
    + intros <-. by apply elem_of_cons in Hq as [?|?].
    + done.
Qed.

(** A store to a copy-on-write page. *)
Lemma cow_store_rule va s i tf pg fl root t1 t0 (e := ent (k_mem s) root (va / PGSIZE)) :
  uproc s i tf (pg :: fl) root t1 t0 -> faulted false va s -> 0 <= va < MAXVA -> p_killed (k_procs s i) = 0 ->
  has e PTE_V = true -> has e PTE_U = true -> has e PTE_COW = true -> has e PTE_SWAPPED = false ->
  exists s', usertrap s = Ok (MAKE_SATP root) s' /\ uproc s' i tf fl root t1 t0 /\
    (forall w, 0 <= w < NVPN -> ent (k_mem s') root w = if decide (w = va / PGSIZE) then own_pte pg e else ent (k_mem s) root w) /\
    (forall x, tf + 40 <= x < tf + PGSIZE -> k_mem s' x = k_mem s x) /\
    (forall a, 0 <= a < MAXVA -> uvalid (k_mem s) root a = true ->
       uvalid (k_mem s') root a = true /\ ubyte (k_mem s') root a = ubyte (k_mem s) root a) /\
    k_procs s' = k_procs s /\ cs_sepc (k_csr s') = u64 (cs_sepc (k_csr s)) /\
    has (cs_sstatus (k_csr s')) SSTATUS_SPP = false.
Proof.
  intros P F Hva Hk HeV HeU HeC Hsw. destruct (usertrap_fault false va s i tf _ root t1 t0 P F) as (s1 & -> & Q1 & P1 & [U1 U1'] & Hv & Hepc).
  assert (ent (k_mem s1) root (va / PGSIZE) = e) as Ee by apply U1. pose proof (up_held _ _ _ _ _ _ _ P1) as Hh.
  set (s2 := on_stats (op_effect OpCowFault) s1). destruct (quiet_uproc s1 s2 i tf _ root t1 t0 P1) as [P2 _]; [done|].
  destruct (cowfault_uproc s2 i tf pg fl root t1 t0 va P2 Hva) as (s3 & E3 & P3 & Ho & Hl3 & Hev & HB); [by change (k_mem s2) with (k_mem s1); rewrite Ee..|].
  assert (k_procs s3 = k_procs s) as Hp3.
  { transitivity (k_procs s2); [unfold only_vm in Ho; by rewrite <- Ho|exact (q_procs _ _ _ Q1)]. }
  set (s4 := on_stats (op_effect (OpPageFault false)) s3).
  assert (fault false i s1 = Ok tt s4) as Ef.
  { rewrite (fault_lookup false va s1 i tf (pg :: fl) root t1 t0 P1 Hv Hva) by (by rewrite Ee). rewrite Ee, HeV, HeC. cbn [negb andb].
    rewrite bind_assoc, (bind_ok _ _ _ _ _ (run_op_ok OpCowFault s1 ltac:(rewrite Hh; apply not_elem_of_nil))). fold s2.
    rewrite bind_assoc, (bind_ok _ _ _ _ _ E3). change (negb (0 =? 0)) with false. cbv iota. erewrite bind_ok by reflexivity.
    apply (run_op_ok (OpPageFault false)). rewrite (up_held _ _ _ _ _ _ _ P3). apply not_elem_of_nil. }
  rewrite (bind_ok _ _ _ _ _ Ef). destruct (quiet_uproc s3 s4 i tf fl root t1 t0 P3) as [P4 _]; [done|].
  destruct (leave_run s4 i tf fl root t1 t0 P4) as (s5 & E5 & Q5 & Hs5 & Hspp); [change (k_procs s4) with (k_procs s3); by rewrite Hp3|].
  destruct (quiet_uproc _ _ _ _ _ _ _ _ P4 Q5) as [P5 [U5 U5']].
  exists s5. split; [done|]. split; [done|]. split; [|split; [|split; [|split; [|split; [|done]]]]].
  - intros w Hw. rewrite U5. change (k_mem s4) with (k_mem s3). rewrite Hev by done. change (k_mem s2) with (k_mem s1). by rewrite Ee, U1.
  - intros x Hx. rewrite (q_mem _ _ _ Q5) by lia. change (k_mem s4) with (k_mem s3). rewrite Hl3 by (unfold in_page; lia). exact (q_mem _ _ _ Q1 x ltac:(lia)).
  - intros a Ha Hua. assert (uvalid (k_mem s2) root a = true) as Hu2 by (unfold uvalid in *; change (k_mem s2) with (k_mem s1); by rewrite U1).
    destruct (HB a Ha Hu2) as [H1 H2]. split; [unfold uvalid in *; by rewrite U5|].
    rewrite U5' by done. change (k_mem s4) with (k_mem s3). rewrite H2. apply (U1' a Ha Hua).
  - rewrite (q_procs _ _ _ Q5). exact Hp3.
  - rewrite Hs5. change (k_mem s4) with (k_mem s3). rewrite <- Hepc. apply (loadn_ext 8). intros x Hx. apply Hl3. unfold in_page, TF_epc, PGSIZE in *. change (Z.of_nat 8) with 8 in Hx. lia.
Qed.

(** A store to a copy-on-write page, from the trap to the return: with a
    free page, [usertrap] returns to user space with the process alive and on
    the same instruction, the page writable and private, and every byte the
    process could read unchanged; the trap frame and the memory the process
    uses stay apart from the tables and the free list. *)
Theorem cow_store_resumes va s i tf pg fl root t1 t0 (e := ent (k_mem s) root (va / PGSIZE)) :
  uproc s i tf (pg :: fl) root t1 t0 -> faulted false va s -> 0 <= va < MAXVA -> p_killed (k_procs s i) = 0 ->
  has e PTE_V = true -> has e PTE_U = true -> has e PTE_COW = true -> has e PTE_SWAPPED = false ->
  exists s', usertrap s = Ok (MAKE_SATP root) s' /\ uproc s' i tf fl root t1 t0 /\
    ent (k_mem s') root (va / PGSIZE) = own_pte pg e /\
    (forall a, 0 <= a < MAXVA -> uvalid (k_mem s) root a = true ->
       uvalid (k_mem s') root a = true /\ ubyte (k_mem s') root a = ubyte (k_mem s) root a) /\
    k_procs s' = k_procs s /\ cs_sepc (k_csr s') = u64 (cs_sepc (k_csr s)) /\
    has (cs_sstatus (k_csr s')) SSTATUS_SPP = false.
Proof.
  intros P F Hva Hk HeV HeU HeC Hsw. destruct (cow_store_rule va s i tf pg fl root t1 t0 P F Hva Hk HeV HeU HeC Hsw) as (s' & E & P' & He & _ & H & Hr).
  exists s'. split; [done|]. split; [done|]. split; [rewrite He, decide_True by (done || by apply va_page_range); done|]. by split.
Qed.

End TrapSpec.

(** ** A concrete trap *)

#[export] Instance sample_symbols : Symbols :=
  {| a_forkret := 0x80001000; a_kernelvec := 0x80005000; a_usertrap := 0x80002000; a_uservec := 0x80007000; a_userret := 0x80007100 |}.

Definition utf : Z := 0x80115000.

(** Process 0 of the sample address space, in a trap at program counter 0x40. *)
Definition trapped (cause va : Z) (s : kstate) : kstate :=
  k_set_csr (mkCsrs 0 0x40 cause va 0 0 0 0 0) (upd_proc 0 (p_set_trapframe utf) s).

Lemma utf_apart : utf ∉ free8 ++ tables uroot [utab1] [utab0].
Proof. apply (bool_decide_unpack _). by vm_compute. Qed.

Lemma utf_page : heap_page utf.
Proof. apply (bool_decide_unpack _). by vm_compute. Qed.

Lemma trapped_uproc cause va s : uspace s free8 uroot [utab1] [utab0] -> k_cur s = Some 0 -> k_held s = [] ->
  p_pagetable (k_procs s 0) = uroot ->
  (forall w, 0 <= w < NVPN -> user_leaf (ent (k_mem s) uroot w) = true -> PTE2PA (ent (k_mem s) uroot w) = udata) ->
  uproc (trapped cause va s) 0 utf free8 uroot [utab1] [utab0].
Proof.
  intros U Hc Hh Hp Hd. split; [|done|done| | |apply utf_page|apply utf_apart|].
  - apply (uspace_same s); [done..|]. unfold alloc_locks_free. cbn. exact (vm_locks _ _ _ _ _ (us_vm _ _ _ _ _ U)).
  - exact Hp.
  - done.
  - intros w Hw Hu. change (k_mem (trapped cause va s)) with (k_mem s) in *. by rewrite Hd.
Qed.

Lemma user_trapped cause va : uproc (trapped cause va user_state) 0 utf free8 uroot [utab1] [utab0].
Proof.
  apply trapped_uproc; [apply user_uspace|done|done|done|]. intros w Hw. change (k_mem user_state) with sample_mem.
  rewrite user_ent by done. by case_decide.
Qed.

Lemma wild_address_panics_witness : usertrap (trapped 13 MAXVA user_state) = Panic "walk".
Proof. apply (wild_address_panics true MAXVA _ 0 utf free8 uroot [utab1] [utab0] (user_trapped 13 MAXVA)); [by split|done]. Defined.

Lemma bad_access_resumes_witness :
  exists s', usertrap (trapped 15 0x5000 user_state) = Ok (MAKE_SATP uroot) s' /\ p_killed (k_procs s' 0) = 0 /\ cs_sepc (k_csr s') = 0x40.
Proof.
  destruct (bad_access_resumes false 0x5000 (trapped 15 0x5000 user_state) 0 utf free8 uroot [utab1] [utab0] (user_trapped _ _))
    as (s' & E & _ & _ & Hp & Hs); [by split|done|by vm_compute|by left|by vm_compute|by vm_compute|].
  exists s'. split; [exact E|]. split; [|exact Hs]. rewrite Hp. by vm_compute.
Defined.

Lemma lazy_access_kills_witness : exists s', usertrap (trapped 15 0x1234 user_state) = kexit (-1) s' /\ p_killed (k_procs s' 0) = 1.
Proof.
  destruct (lazy_access_kills false 0x1234 (trapped 15 0x1234 user_state) 0 utf free8 uroot [utab1] [utab0] (user_trapped _ _))
    as (pg & s' & E & Hk & _); [by split|by vm_compute|by vm_compute|by vm_compute|by vm_compute|rewrite length_free8; lia|].
  exists s'. exact (conj E Hk).
Defined.

(** The page of a forked process, copy-on-write. *)
Lemma cow_ent w : 0 <= w < NVPN -> ent (k_mem cow_state) uroot w = if decide (w = 0) then leaf_pte udata cowu else 0.
Proof.
  intros Hw. change (k_mem cow_state) with (store64 sample_mem utab0 (leaf_pte udata cowu)).
  rewrite (leaf_store_ent sample_mem uroot [utab1] [utab0] (vm_pt _ _ _ _ _ user_vmem) 0 utab0) by (done || by vm_compute).
  case_decide; [done|]. rewrite user_ent by done. by rewrite decide_False.
Qed.

Lemma cow_uspace : uspace cow_state free8 uroot [utab1] [utab0].
Proof.
  split; [apply cow_vmem| |].
  - intros w Hw. rewrite cow_ent by done. case_decide; [|done]. intros _. cbv zeta. rewrite cowu_page.
    split; [apply (bool_decide_unpack _); by vm_compute|]. split; [apply udata_not_table|by vm_compute].
  - intros w w' Hw Hw'. rewrite !cow_ent by done. by repeat case_decide; subst.
Qed.

Lemma cow_store_resumes_witness :
  exists s', usertrap (trapped 15 0x123 cow_state) = Ok (MAKE_SATP uroot) s' /\
    ent (k_mem s') uroot 0 = own_pte 0x80100000 (leaf_pte udata cowu) /\ cs_sepc (k_csr s') = 0x40.
Proof.
  destruct (cow_store_resumes 0x123 (trapped 15 0x123 cow_state) 0 utf 0x80100000 free7 uroot [utab1] [utab0])
    as (s' & E & _ & He & _ & _ & Hs & _); [|by split|done|by vm_compute|by vm_compute|by vm_compute|by vm_compute|by vm_compute|].
  - apply (trapped_uproc 15 0x123 cow_state); [apply cow_uspace|done|done|done|]. intros w Hw. rewrite cow_ent by done. by case_decide.
  - exists s'. split; [exact E|]. split; [|exact Hs]. rewrite <- cow_entry. exact He.
Defined.
