(* ===== verification/ProcSpec.v ===== *)
(** * Creating and reaping processes (kernel/proc.c, [allocproc], [kfork],
    [freeproc] and [kwait])

    A fork with a free entry of the process table and enough free pages: the
    child has the memory, the registers, the open files and the directory of
    its parent.  A wait for a child that has exited: its entry and all it had
    to itself are free again. *)

From S2P Require Import Prelude Riscv Mem KState Sample Memstats Sched DiskSpec Bio Log PhysMem Kalloc Swap Vm PageTable Walk VmMap VmAlloc VmFree VmCow VmCopy VmSample VmSpec.
From S2P Require Import Fs Console Pipe File Proc.

(** ** States that differ outside the memory *)

Lemma same_two {LAY : Layout} s s' fl p p1 p0 c c1 c0 : vm_same s s' -> alloc_locks_free s' -> two s fl p p1 p0 c c1 c0 -> two s' fl p p1 p0 c c1 c0.
Proof. intros E Hl [A B C]. split; [by apply (same_vmem s)|by apply (same_vmem s)|done]. Qed.

(** What the virtual memory code leaves alone. *)
Lemma only_vm_procs s s' : only_vm s s' -> k_procs s' = k_procs s.
Proof. unfold only_vm. by intros <-. Qed.
Lemma only_vm_ftable s s' : only_vm s s' -> k_ftable s' = k_ftable s.
Proof. unfold only_vm. by intros <-. Qed.
Lemma only_vm_itable s s' : only_vm s s' -> k_itable s' = k_itable s.
Proof. unfold only_vm. by intros <-. Qed.
Lemma only_vm_held s s' : only_vm s s' -> k_held s' = k_held s.
Proof. unfold only_vm. by intros <-. Qed.

(** ** A free entry *)

Section Proc.
Context {LAY : Layout} {ENV : Env} {SYM : Symbols}.

Lemma find_unused_ok s np : k_held s = [] -> 0 <= np < NPROC -> p_state (k_procs s np) = UNUSED ->
  (forall j, 0 <= j < np -> p_state (k_procs s j) <> UNUSED) ->
  find_unused s = Ok (Some np) (k_set_held [L_proc np] s).
Proof.
  intros Hh Hnp Hst Hbefore. unfold find_unused. assert (seqZ 0 NPROC = seqZ 0 np ++ np :: seqZ (np + 1) (NPROC - np - 1)) as ->.
  { replace NPROC with (np + (NPROC - np)) at 1 by lia. rewrite seqZ_app by lia. f_equal. rewrite seqZ_cons by lia. do 2 f_equal; lia. }
  rewrite for_find_app.
  - cbn [for_find]. unfold bind. rewrite (acquire_ok (L_proc np) s) by (rewrite Hh; set_solver). rewrite Hh. unfold pget, gets. cbn [k_procs k_set_held].
    by rewrite decide_True.
  - intros j Hj. apply elem_of_seqZ in Hj. unfold bind. rewrite (acquire_ok (L_proc j) s) by (rewrite Hh; set_solver). unfold pget, gets. cbn [k_procs k_set_held].
    rewrite decide_False by (apply Hbefore; lia). rewrite (release_head (L_proc j) (k_held s)) by done. unfold ret. by destruct s.
Qed.

Lemma find_unused_none s : k_held s = [] -> (forall j, 0 <= j < NPROC -> p_state (k_procs s j) <> UNUSED) -> find_unused s = Ok None s.
Proof.
  intros Hh Hall. unfold find_unused. rewrite <- (app_nil_r (seqZ 0 NPROC)). rewrite for_find_app; [done|].
  intros j Hj. apply elem_of_seqZ in Hj. unfold bind. rewrite (acquire_ok (L_proc j) s) by (rewrite Hh; apply not_elem_of_nil). unfold pget, gets. cbn [k_procs k_set_held].
  rewrite decide_False by (apply Hall; lia). rewrite (release_head (L_proc j) (k_held s)) by done. unfold ret. by destruct s.
Qed.

Lemma allocpid_ok s : L_pid ∉ k_held s -> k_nextpid s < INT_MAX -> allocpid s = Ok (k_nextpid s) (k_set_nextpid (k_nextpid s + 1) s).
Proof.
  intros Hl Hn%Z.ltb_lt. unfold allocpid. run (acquire_ok L_pid s Hl). unfold bind, gets. cbn [k_nextpid k_set_held]. rewrite Hn. unfold modify. rewrite (release_head L_pid (k_held s)) by done. by destruct s.
Qed.

(** ** A page table for a process *)

Lemma fresh_two s pg fl p p1 p0 : vmem s (pg :: fl) p p1 p0 ->
  two (fresh pg s) fl p p1 p0 pg [] [] /\ (forall w, ent (k_mem (fresh pg s)) pg w = 0) /\
  (forall w, ent (k_mem (fresh pg s)) p w = ent (k_mem s) p w).
Proof.
  intros HV. destruct (fresh_vmem s pg fl p p1 p0 HV) as (HV' & _ & He). pose proof (pg_heap _ _ _ _ _ _ HV) as Hpg.
  assert (forall j, 0 <= j < 512 -> child (k_mem (fresh pg s)) pg j = None) as Hc.
  { intros j Hj. unfold child. pose proof (slot_in_page pg j Hj). unfold fresh. cbn [k_mem k_set_mem]. by rewrite load64_fill0 by lia. }
  split; [|split; [|done]].
  - split; [done| |].
    + split; [apply HV'| |intros t ->%list_elem_of_singleton; apply fresh_count|apply HV']. split.
      * apply NoDup_singleton.
      * by apply Forall_singleton.
      * split; [intros q j c ->%list_elem_of_singleton Hj E; by rewrite Hc in E|intros q r j k c ->%list_elem_of_singleton _ Hj _ E; by rewrite Hc in E|set_solver].
      * split; set_solver.
      * intros j Hj. apply Hc. lia.
    + intros t Ht ->%list_elem_of_singleton. by apply (pg_not_table _ _ _ _ _ _ HV).
  - intros w. unfold ent, pte_addr. by rewrite Hc by apply idx_range.
Qed.

(** The user part of the table is empty. *)
Definition empty_space (m : mem) (c tf : Z) : Prop := forall w, 0 <= w < NVPN ->
  ent m c w = if decide (w = TRAPFRAME / PGSIZE) then leaf_pte tf (Z.lor PTE_R PTE_W)
              else if decide (w = TRAMPOLINE / PGSIZE) then leaf_pte trampoline (Z.lor PTE_R PTE_X) else 0.

Lemma proc_pagetable_ok s np tf pg fl p p1 p0 : vmem s (pg :: fl) p p1 p0 -> (4 <= length fl)%nat -> is_page trampoline ->
  p_trapframe (k_procs s np) = tf -> is_page tf ->
  exists s' fl' c1 c0, proc_pagetable np s = Ok pg s' /\ two s' fl' p p1 p0 pg c1 c0 /\ frame (pg :: fl) s s' /\
    (exists ns, fl = ns ++ fl') /\ (length fl <= length fl' + 4)%nat /\ (forall t, t ∈ tables pg c1 c0 -> t ∈ pg :: fl) /\
    (forall w, ent (k_mem s') p w = ent (k_mem s) p w) /\ empty_space (k_mem s') pg tf.
Proof.
  intros HV Hlen Htr Htf Hpf. unfold proc_pagetable, uvmcreate. pose proof (pg_heap _ _ _ _ _ _ HV) as Hpg.
  destruct (fresh_two _ _ _ _ _ _ HV) as (TW & He0 & Hp0).
  rewrite (bind_ok _ _ s pg (fresh pg s)) by (rewrite (fresh_run s pg fl p p1 p0 HV (ret 0) (fun mem => ret mem)); done).
  assert ((pg =? 0) = false) as E0 by (pose proof (heap_page_range pg Hpg); lia). rewrite E0.
  destruct (wpx_total _ _ _ (map_one true (fresh pg s) fl pg [] [] (TRAMPOLINE / PGSIZE) trampoline (Z.lor PTE_R PTE_X) (tw_c _ _ _ _ _ _ _ _ TW)
    ltac:(done) Htr ltac:(done) ltac:(by rewrite He0) ltac:(intros _; lia))) as (r & s1 & R1 & fl1 & c1 & c0 & V1 & F1 & L1 & [[-> E1]|(_ & -> & ? & _)]); [|cbn in *; lia].
  destruct (two_child _ _ _ _ _ _ _ _ TW _ _ _ _ V1 F1) as (TW1 & Hp1).
  assert (frame (pg :: fl) s s1) as G1.
  { eapply frame_trans; [eapply frame_mono; [|apply fresh_frame, Hpg]; intros q ->%list_elem_of_singleton; left|].
    eapply frame_mono; [|by eapply vframe_frame]. intros q [Hq| ->%list_elem_of_singleton]%elem_of_app; [by right|left]. }
  change (mappages pg TRAMPOLINE PGSIZE) with (mappages pg (TRAMPOLINE / PGSIZE * PGSIZE) PGSIZE). run R1. change (0 <? 0) with false. cbv iota.
  unfold pget. rewrite (bind_ok _ _ s1 (k_procs s1 np) s1) by done. rewrite (only_vm_procs s s1) by apply G1. rewrite Htf.
  assert (ent (k_mem s1) pg (TRAPFRAME / PGSIZE) = 0) as Hz by (rewrite E1 by done; rewrite decide_False by done; apply He0).
  destruct (wpx_total _ _ _ (map_one true s1 fl1 pg c1 c0 (TRAPFRAME / PGSIZE) tf (Z.lor PTE_R PTE_W) V1
    ltac:(done) Hpf ltac:(done) ltac:(by rewrite Hz) ltac:(intros _; lia))) as (r & s2 & R2 & fl2 & d1 & d0 & V2 & F2 & L2 & [[-> E2]|(_ & -> & ? & _)]); [|cbn in *; lia].
  destruct (two_child _ _ _ _ _ _ _ _ TW1 _ _ _ _ V2 F2) as (TW2 & Hp2).
  exists s2, fl2, d1, d0. change (mappages pg TRAPFRAME PGSIZE) with (mappages pg (TRAPFRAME / PGSIZE * PGSIZE) PGSIZE). run R2.
  destruct (vf_used _ _ _ _ _ _ F1) as [n1 En1]. destruct (vf_used _ _ _ _ _ _ F2) as [n2 En2].
  assert (forall t, t ∈ tables pg c1 c0 -> t ∈ pg :: fl) as Ht1 
    by (intros t Ht; destruct (vf_tables _ _ _ _ _ _ F1 t Ht) as [->%list_elem_of_singleton|]; [left|by right]).
  split; [done|]. split; [done|]. split; [|split; [|split; [|split; [|split]]]].
  - eapply frame_trans; [exact G1|]. eapply frame_mono; [|by eapply vframe_frame]. intros q [Hq|Hq]%elem_of_app; [right; rewrite En1; apply elem_of_app; by right|by apply Ht1].
  - exists (n1 ++ n2). rewrite En1, En2. apply app_assoc.
  - lia.
  - intros t Ht. destruct (vf_tables _ _ _ _ _ _ F2 t Ht) as [Hq|Hq]; [by apply Ht1|right; rewrite En1; apply elem_of_app; by right].
  - intros w. by rewrite Hp2, Hp1, Hp0.
  - intros w Hw. rewrite E2, E1 by done. case_decide; [done|]. case_decide; [done|]. apply He0.
Qed.

(** ** A process *)

Lemma frame_upd_proc W j f s s' : frame W s s' -> frame W (upd_proc j f s) (upd_proc j f s').
Proof. intros [A B C]. split; [|done|done]. unfold only_vm in *. rewrite <- A. by destruct s'. Qed.

Lemma allocated_vmem s pg fl root t1 t0 : vmem s (pg :: fl) root t1 t0 ->
  vmem (allocated pg s) fl root t1 t0 /\ (forall w, ent (k_mem (allocated pg s)) root w = ent (k_mem s) root w).
Proof.
  intros HV. pose proof (pg_heap _ _ _ _ _ _ HV) as [Hp _].
  destruct (frame_vmem [pg] s (allocated pg s) (pg :: fl) fl root t1 t0 HV (allocated_frame pg s Hp)) as (H1 & _ & H2).
  - by intros q ->%list_elem_of_singleton.
  - intros q ->%list_elem_of_singleton. by apply (pg_not_table _ _ _ _ _ _ HV).
  - apply allocated_ok, HV.
  - done.
Qed.

(** The entry [np] as [allocproc] leaves it. *)
Definition with_proc (np tf pg : Z) (s : kstate) : kstate :=
  upd_proc np (p_set_context (mkContext a_forkret (p_kstack (k_procs s np) + PGSIZE) (fun _ => 0)))
    (upd_proc np (p_set_pagetable pg) (upd_proc np (p_set_trapframe tf) (upd_proc np (p_set_state USED) (upd_proc np (p_set_pid (k_nextpid s))
      (k_set_nextpid (k_nextpid s + 1) (k_set_held [L_proc np] s)))))).

Lemma allocproc_ok s np tf pg fl p p1 p0 : k_held s = [] -> 0 <= np < NPROC -> p_state (k_procs s np) = UNUSED ->
  (forall j, 0 <= j < np -> p_state (k_procs s j) <> UNUSED) -> k_nextpid s < INT_MAX ->
  vmem s (tf :: pg :: fl) p p1 p0 -> (4 <= length fl)%nat -> is_page trampoline ->
  exists s' fl' c1 c0, allocproc s = Ok (Some np) s' /\ two s' fl' p p1 p0 pg c1 c0 /\ frame (tf :: pg :: fl) (with_proc np tf pg s) s' /\
    (exists ns, fl = ns ++ fl') /\ (length fl <= length fl' + 4)%nat /\ (forall t, t ∈ tables pg c1 c0 -> t ∈ pg :: fl) /\
    (forall w, ent (k_mem s') p w = ent (k_mem s) p w) /\ empty_space (k_mem s') pg tf.
Proof.
  intros Hh Hnp Hst Hbefore Hpid HV Hlen Htr. unfold allocproc. run (find_unused_ok s np Hh Hnp Hst Hbefore).
  run (allocpid_ok (k_set_held [L_proc np] s) ltac:(cbn; set_solver) Hpid). set (pid := k_nextpid (k_set_held [L_proc np] s)).
  set (s2 := k_set_nextpid _ _). unfold pset. run (eq_refl (modify (upd_proc np (p_set_pid pid)) s2)).
  set (s3 := upd_proc np _ s2). run (eq_refl (modify (upd_proc np (p_set_state USED)) s3)). set (s4 := upd_proc np _ s3).
  assert (vm_same s s4) as Vs by done. assert (alloc_locks_free s4) as Hl by (repeat split; cbn; set_solver).
  pose proof (same_vmem _ _ _ _ _ _ Vs Hl HV) as HV4. run (kalloc_vmem _ _ _ _ _ _ HV4).
  destruct (allocated_vmem _ _ _ _ _ _ HV4) as (HV5 & He5). pose proof (pg_heap _ _ _ _ _ _ HV4) as Htf.
  set (s5 := upd_proc np (p_set_trapframe tf) (allocated tf s4)). run (eq_refl (modify (upd_proc np (p_set_trapframe tf)) (allocated tf s4))). fold s5.
  assert ((tf =? 0) = false) as -> by (pose proof (heap_page_range tf Htf); lia).
  assert (vmem s5 (pg :: fl) p p1 p0) as HV6 by (eapply (same_vmem (allocated tf s4)); [done|exact Hl|exact HV5]).
  destruct (proc_pagetable_ok s5 np tf pg fl p p1 p0 HV6 Hlen Htr) as (s6 & fl' & c1 & c0 & R & TW & F & Hns & Hl6 & Ht & Hp & He).
  { cbn. by rewrite fupd_eq. }
  { apply Htf. }
  run R. set (s7 := upd_proc np (p_set_pagetable pg) s6). run (eq_refl (modify (upd_proc np (p_set_pagetable pg)) s6)). fold s7.
  assert ((pg =? 0) = false) as -> by (pose proof (heap_page_range pg (pg_heap _ _ _ _ _ _ HV6)); lia).
  run (eq_refl (pget np s7)).
  exists (upd_proc np (p_set_context (mkContext a_forkret (p_kstack (k_procs s7 np) + PGSIZE) (fun _ => 0))) s7), fl', c1, c0. split; [done|].
  assert (k_procs s6 np = p_set_trapframe tf (p_set_state USED (p_set_pid pid (k_procs s np)))) as Enp.
  { rewrite (only_vm_procs s5 s6) by apply F. cbn. by rewrite !fupd_eq. }
  split; [eapply (same_two s6); [done|exact (vm_locks _ _ _ _ _ (tw_p _ _ _ _ _ _ _ _ TW))|exact TW]|].
  assert (p_kstack (k_procs s7 np) = p_kstack (k_procs s np)) as Ek by (cbn; by rewrite fupd_eq, Enp).
  split; [|split; [done|]; split; [done|]; split; [done|]; split; [intros w; cbn; by rewrite Hp, <- He5|done]].
  rewrite Ek. unfold with_proc.
  do 2 apply frame_upd_proc. eapply frame_trans; [|eapply frame_mono; [|exact F]; by right].
  eapply frame_mono; [|apply frame_upd_proc, allocated_frame, Htf]. intros q ->%list_elem_of_singleton. left.
Qed.

(** ** Open files *)

Lemma filedup_ok f s : L_ftable ∉ k_held s -> 1 <= f_ref (k_ftable s f) ->
  filedup f s = Ok f (upd_file f (fun x => f_set_ref (f_ref x + 1) x) s).
Proof.
  intros Hl Hr. unfold filedup. run (acquire_ok L_ftable s Hl). unfold bind, file_of, gets. cbn [k_ftable k_set_held].
  destruct (Z.ltb_spec (f_ref (k_ftable s f)) 1); [lia|]. unfold modify. rewrite (release_head L_ftable (k_held s)) by done. by destruct s.
Qed.

Lemma idup_ok d s : L_itable ∉ k_held s -> idup d s = Ok d (upd_inode d (fun x => i_set_ref (i_ref x + 1) x) s).
Proof.
  intros Hl. unfold idup. run (acquire_ok L_itable s Hl). unfold bind, modify. rewrite (release_head L_itable (k_held s)) by done. by destruct s.
Qed.

Lemma f_set_ref_twice a b x : f_set_ref a (f_set_ref b x) = f_set_ref a x.
Proof. done. Qed.

Lemma f_set_ref_id x : f_set_ref (f_ref x + 0) x = x.
Proof. rewrite Z.add_0_r. by destruct x. Qed.

(** How many of the first [k] descriptors are the file [f]. *)
Definition uses (P : proc) (k f : Z) : Z := Z.of_nat (length (filter (fun fd => p_ofile P fd = Some f) (seqZ 0 k))).

Lemma uses_next P k f : 0 <= k -> uses P (k + 1) f = uses P k f + if decide (p_ofile P k = Some f) then 1 else 0.
Proof.
  intros Hk. unfold uses. rewrite seqZ_app by lia. rewrite filter_app, length_app. change (seqZ (0 + k) 1) with [0 + k]. rewrite Z.add_0_l.
  case_decide; [rewrite filter_cons_True by done|rewrite filter_cons_False by done]; cbn; lia.
Qed.

Lemma uses_nonneg P k f : 0 <= uses P k f.
Proof. unfold uses. lia. Qed.

(** Only processes, files and inodes changed. *)
Definition only_files (s s' : kstate) : Prop := k_set_procs (k_procs s) (k_set_ftable (k_ftable s) (k_set_itable (k_itable s) s')) = s.

Section files.
Context (s : kstate) (i np d : Z).
Let P := k_procs s i.
Let Q := k_procs s np.

(** After [k] descriptors. *)
Record duplicated (k : Z) (s' : kstate) : Prop := {
  du_only : only_files s s';
  du_ftable : forall f, k_ftable s' f = f_set_ref (f_ref (k_ftable s f) + uses P k f) (k_ftable s f);
  du_itable : k_itable s' = k_itable s;
  du_procs : forall j, j <> np -> k_procs s' j = k_procs s j;
  du_child : exists g, k_procs s' np = p_set_ofile g Q /\
    forall fd, 0 <= fd -> g fd = match p_ofile P fd with Some f => if decide (fd < k) then Some f else p_ofile Q fd | None => p_ofile Q fd end
}.

Context (Hne : i <> np) (Hh : k_held s = [L_proc np]).
Context (Hrefs : forall fd f, 0 <= fd < NOFILE -> p_ofile P fd = Some f -> 1 <= f_ref (k_ftable s f)).
Lemma fork_one k s1 : 0 <= k < NOFILE -> duplicated k s1 ->
  exists s2, (p <- pget i ;; match p_ofile p k with Some f => f' <- filedup f ;; set_ofile np k (Some f') | None => ret tt end) s1 = Ok tt s2 /\
    duplicated (k + 1) s2.
Proof using Hne Hh Hrefs.
  intros Hk [Ho Hf Hi Hp (g & Hc & Hg)]. run (eq_refl (pget i s1)). rewrite Hp by done. fold P.
  assert (k_held s1 = [L_proc np]) as Hh1 by (rewrite <- Hh; unfold only_files in Ho; by rewrite <- Ho).
  destruct (p_ofile P k) as [f|] eqn:Ef.
  - assert (1 <= f_ref (k_ftable s1 f)) as Hr by (rewrite Hf; cbn; pose proof (Hrefs k f Hk Ef); pose proof (uses_nonneg P k f); lia).
    run (filedup_ok f s1 ltac:(rewrite Hh1; set_solver) Hr). eexists. split; [reflexivity|]. split.
    + unfold only_files in *. rewrite <- Ho. by destruct s1.
    + intros f'. cbn. rewrite fupd_cases, uses_next, Ef by lia. case_decide as D.
      * subst f'. rewrite Hf, decide_True, f_set_ref_twice by done. f_equal. rewrite Z.add_assoc. done.
      * rewrite Hf, decide_False by congruence. f_equal. lia.
    + done.
    + intros j Hj. cbn. by rewrite fupd_ne, Hp.
    + exists (fupd g k (Some f)). split; [cbn; by rewrite fupd_eq, Hc|]. intros fd Hfd. rewrite fupd_cases. case_decide as D; [subst fd|].
      * by rewrite Ef, decide_True by lia.
      * rewrite Hg by done. destruct (p_ofile P fd); [|done]. by destruct (decide (fd < k)), (decide (fd < k + 1)); try lia.
  - exists s1. split; [done|]. split; [done| |done|done|].
    + intros f. rewrite Hf, uses_next, Ef, decide_False by (done || lia). f_equal. lia.
    + exists g. split; [done|]. intros fd Hfd. rewrite Hg by done. destruct (decide (fd = k)) as [->|]; [by rewrite Ef|].
      destruct (p_ofile P fd); [|done]. by destruct (decide (fd < k)), (decide (fd < k + 1)); try lia.
Qed.

Context (Hcwd : p_cwd P = Some d).

Lemma fork_files_ok : exists s', fork_files i np s = Ok tt s' /\ only_files s s' /\
  (forall f, k_ftable s' f = f_set_ref (f_ref (k_ftable s f) + uses P NOFILE f) (k_ftable s f)) /\
  k_itable s' = fupd (k_itable s) d (i_set_ref (i_ref (k_itable s d) + 1) (k_itable s d)) /\
  (forall j, j <> np -> k_procs s' j = k_procs s j) /\
  exists g, k_procs s' np = p_set_cwd (Some d) (p_set_ofile g Q) /\
    forall fd, 0 <= fd < NOFILE -> g fd = match p_ofile P fd with Some f => Some f | None => p_ofile Q fd end.
Proof using Hne Hh Hrefs Hcwd.
  unfold fork_files. destruct (for_each_seqZ duplicated (fun fd => p <- pget i ;; match p_ofile p fd with Some f => f' <- filedup f ;; set_ofile np fd (Some f') | None => ret tt end)
    NOFILE ltac:(done) (fun k s1 Hk HD => fork_one k s1 Hk HD) s) as (s1 & R & [Ho Hf Hi Hp (g & Hc & Hg)]).
  { split; [by destruct s| |done|done|].
    - intros f. change (uses P 0 f) with 0. by rewrite f_set_ref_id.
    - exists (p_ofile Q). split; [unfold Q; by destruct (k_procs s np)|]. intros fd Hfd. destruct (p_ofile P fd); [|done]. by rewrite decide_False by lia. }
  run R. run (eq_refl (pget i s1)). rewrite Hp by done. fold P. rewrite Hcwd.
  assert (k_held s1 = [L_proc np]) as Hh1 by (rewrite <- Hh; unfold only_files in Ho; by rewrite <- Ho).
  run (idup_ok d s1 ltac:(rewrite Hh1; set_solver)). eexists. split; [reflexivity|]. split; [unfold only_files in *; rewrite <- Ho; by destruct s1|].
  split; [done|]. split; [cbn; by rewrite Hi|]. split; [intros j Hj; cbn; by rewrite fupd_ne, Hp|].
  exists g. split; [cbn; by rewrite fupd_eq, Hc|]. intros fd Hfd. rewrite Hg by lia. destruct (p_ofile P fd); [|done]. by rewrite decide_True by lia.
Qed.
End files.

(** ** Fork *)

(** The end of [kfork]: the child gets the open files, the name and the parent,
    and may run. *)
Definition ended (s : kstate) (i np d : Z) (p : proc) (s' : kstate) (Q := k_procs s np) : Prop :=
  k_set_held (k_held s) (k_set_procs (k_procs s) (k_set_ftable (k_ftable s) (k_set_itable (k_itable s) s'))) = s /\ k_held s' = [] /\
  (forall f, k_ftable s' f = f_set_ref (f_ref (k_ftable s f) + uses p NOFILE f) (k_ftable s f)) /\
  k_itable s' = fupd (k_itable s) d (i_set_ref (i_ref (k_itable s d) + 1) (k_itable s d)) /\
  (forall j, j <> np -> k_procs s' j = k_procs s j) /\
  exists g, k_procs s' np = p_set_state RUNNABLE (p_set_parent (Some i) (p_set_name (safestrcpy_l 16 (p_name Q) (p_name p)) (p_set_cwd (Some d) (p_set_ofile g Q)))) /\
  (forall fd, 0 <= fd < NOFILE -> g fd = match p_ofile p fd with Some f => Some f | None => p_ofile Q fd end).

Lemma fork_tail s i np d p : i <> np -> k_held s = [L_proc np] -> p_ofile p = p_ofile (k_procs s i) -> p_cwd (k_procs s i) = Some d ->
  (forall fd f, 0 <= fd < NOFILE -> p_ofile p fd = Some f -> 1 <= f_ref (k_ftable s f)) ->
  exists s',
    (fork_files i np ;;
     pset np (fun q => p_set_name (safestrcpy_l 16 (p_name q) (p_name p)) q) ;;
     q <- pget np ;;
     let pid := p_pid q in
     release (L_proc np) ;;
     acquire L_wait ;;
     pset np (p_set_parent (Some i)) ;;
     release L_wait ;;
     acquire (L_proc np) ;;
     pset np (p_set_state RUNNABLE) ;;
     release (L_proc np) ;;
     ret pid) s = Ok (p_pid (k_procs s np)) s' /\ ended s i np d p s'.
Proof.
  unfold ended. intros Hne Hh Hof Hcwd Hrefs. rewrite Hof in *.
  destruct (fork_files_ok s i np d Hne Hh Hrefs Hcwd) as (s1 & R & Ho & Hf & Hi & Hp & g & Hc & Hg). run R.
  assert (k_held s1 = [L_proc np]) as Hh1 by (rewrite <- Hh; unfold only_files in Ho; by rewrite <- Ho).
  unfold pset. run (eq_refl (modify (upd_proc np (fun q => p_set_name (safestrcpy_l 16 (p_name q) (p_name p)) q)) s1)). set (s2 := upd_proc np _ s1).
  run (eq_refl (pget np s2)). cbv zeta. run (release_head (L_proc np) [] s2 Hh1).
  run (acquire_ok L_wait (k_set_held [] s2) (not_elem_of_nil _)). set (s3 := k_set_held _ _). run (eq_refl (modify (upd_proc np (p_set_parent (Some i))) s3)).
  set (s4 := upd_proc np _ s3). run (release_head L_wait [] s4 eq_refl). run (acquire_ok (L_proc np) (k_set_held [] s4) (not_elem_of_nil _)).
  set (s5 := k_set_held _ _). run (eq_refl (modify (upd_proc np (p_set_state RUNNABLE)) s5)). set (s6 := upd_proc np _ s5).
  run (release_head (L_proc np) [] s6 eq_refl). exists (k_set_held [] s6).
  split; [unfold ret; f_equal; cbn; by rewrite fupd_eq, Hc|]. split; [rewrite <- Ho; by destruct s1|]. split; [done|].
  split; [intros f; transitivity (k_ftable s1 f); [done|]; rewrite Hf; unfold uses; by rewrite Hof|].
  split; [done|]. split; [intros j Hj; cbn; by rewrite !fupd_ne, Hp|]. exists g. split; [cbn; by rewrite !fupd_eq, Hc|done].
Qed.

(** Process [i] can fork: its address space is well formed, its pages are in
    memory, its files are open, [np] is the first free entry of the process
    table, and there are pages for the trap frame and the tables of the child. *)
Record can_fork (s : kstate) (i np : Z) (fl p1 p0 : list Z) (P := k_procs s i) (n := PGROUNDUP (p_sz P) / PGSIZE) : Prop := {
  cf_held : k_held s = [];
  cf_cur : k_cur s = Some i;
  cf_used : p_state P <> UNUSED;
  cf_slot : 0 <= np < NPROC /\ p_state (k_procs s np) = UNUSED /\ (forall fd, p_ofile (k_procs s np) fd = None);
  cf_first : forall j, 0 <= j < np -> p_state (k_procs s j) <> UNUSED;
  cf_pid : k_nextpid s < INT_MAX;
  cf_space : vmem s fl (p_pagetable P) p1 p0;
  cf_pages : 6 + 2 * n <= Z.of_nat (length fl);
  cf_sz : 0 <= p_sz P <= TRAPFRAME;
  cf_canonical : forall w, 0 <= w < n -> canonical (ent (k_mem s) (p_pagetable P) w);
  cf_leaf : forall w, 0 <= w < n -> user_leaf (ent (k_mem s) (p_pagetable P) w) = true ->
    let q := PTE2PA (ent (k_mem s) (p_pagetable P) w) in
    heap_page q /\ (q ∉ tables (p_pagetable P) p1 p0) /\ 1 <= count_of s q <= 0x40000000 /\ has (ent (k_mem s) (p_pagetable P) w) PTE_SWAPPED = false;
  cf_tf : is_page (p_trapframe P) /\ (p_trapframe P ∉ tables (p_pagetable P) p1 p0) /\ 1 <= count_of s (p_trapframe P);
  cf_files : forall fd f, 0 <= fd < NOFILE -> p_ofile P fd = Some f -> 1 <= f_ref (k_ftable s f);
  cf_cwd : exists d, p_cwd P = Some d;
  cf_tramp : is_page trampoline
}.

(** ... and has forked: the child [np], with the page table [c] and the trap
    frame [tf]. *)
Record forked_process (s : kstate) (i np : Z) (p1 p0 : list Z) (c tf : Z) (s' : kstate)
    (P := k_procs s i) (p := p_pagetable P) (C := k_procs s' np) : Prop := {
  fp_spaces : exists fl' c1 c0, two s' fl' p p1 p0 c c1 c0;
  fp_shared : forall w, 0 <= w < PGROUNDUP (p_sz P) / PGSIZE -> user_leaf (ent (k_mem s) p w) = true ->
    ent (k_mem s') p w = share (ent (k_mem s) p w) /\ ent (k_mem s') c w = share (ent (k_mem s) p w) /\
    agree_on (PTE2PA (ent (k_mem s) p w)) PGSIZE (k_mem s) (k_mem s');
  fp_tf : ent (k_mem s') c (TRAPFRAME / PGSIZE) = leaf_pte tf (Z.lor PTE_R PTE_W);
  fp_regs : forall o, 0 <= o < TF_SIZE ->
    load8 (k_mem s') (tf + o) = if decide (TF_a0 <= o < TF_a0 + 8) then 0 else load8 (k_mem s) (p_trapframe P + o);
  fp_child : (p_state C, p_pid C, p_parent C, p_sz C) = (RUNNABLE, k_nextpid s, Some i, p_sz P);
  fp_kernel : (p_pagetable C, p_trapframe C, p_context C) = (c, tf, mkContext a_forkret (p_kstack (k_procs s np) + PGSIZE) (fun _ => 0));
  fp_files : p_cwd C = p_cwd P /\ forall fd, 0 <= fd < NOFILE -> p_ofile C fd = p_ofile P fd;
  fp_refs : forall f, k_ftable s' f = f_set_ref (f_ref (k_ftable s f) + uses P NOFILE f) (k_ftable s f);
  fp_cwd : forall d, p_cwd P = Some d -> k_itable s' = fupd (k_itable s) d (i_set_ref (i_ref (k_itable s d) + 1) (k_itable s d));
  fp_name : p_name C = safestrcpy_l 16 (p_name (k_procs s np)) (p_name P);
  fp_others : forall j, j <> np -> k_procs s' j = k_procs s j;
  fp_held : k_held s' = [];
  fp_nextpid : k_nextpid s' = k_nextpid s + 1
}.

(** The registers of the child. *)
Definition fork_mem (m : mem) (tf tfp : Z) : mem := store64 (mem_copy m tf tfp TF_SIZE) (tf + TF_a0) 0.

Lemma kmemmove_page d a k s : is_page d -> is_page a -> 0 <= k <= PGSIZE -> kmemmove d a k s = Ok tt (k_set_mem (mem_copy (k_mem s) d a k) s).
Proof. intros Hd Ha Hk. unfold kmemmove. by rewrite (in_ram_page d), (in_ram_page a) by (done || lia). Qed.

Lemma tf_set_page np tf r v s : p_trapframe (k_procs s np) = tf -> is_page tf -> 0 <= r /\ r + 8 <= PGSIZE ->
  tf_set np r v s = Ok tt (k_set_mem (store64 (k_mem s) (tf + r) (u64 v)) s).
Proof. intros <- Ht Hr. unfold tf_set, bind, gets, st64. by rewrite (in_ram_page (p_trapframe (k_procs s np))) by (done || lia). Qed.

Lemma fork_mem_outside m tf tfp : same_outside tf PGSIZE m (fork_mem m tf tfp).
Proof.
  intros x Hx. unfold fork_mem. rewrite store64_outside by (unfold TF_a0, PGSIZE in *; lia). apply mem_copy_outside. unfold TF_SIZE, PGSIZE in *. lia.
Qed.

Lemma fork_mem_regs m tf tfp o : 0 <= o < TF_SIZE ->
  load8 (fork_mem m tf tfp) (tf + o) = if decide (TF_a0 <= o < TF_a0 + 8) then 0 else load8 m (tfp + o).
Proof.
  intros Ho. unfold fork_mem, store64, storen, load8. change (Z.of_nat 8) with 8. case_decide.
  - rewrite in_range_true by lia. by rewrite Z.div_0_l by (apply Z.pow_nonzero; lia).
  - rewrite in_range_false by lia. unfold mem_copy. rewrite in_range_true by lia. do 2 f_equal. lia.
Qed.

Section fork.
Context (s : kstate) (i np : Z) (fl p1 p0 : list Z) (CF : can_fork s i np fl p1 p0).
Let P := k_procs s i.
Let p := p_pagetable P.
Let n := PGROUNDUP (p_sz P) / PGSIZE.

Lemma fork_sz : 0 <= n <= TRAPFRAME / PGSIZE.
Proof using CF.
  pose proof (cf_sz _ _ _ _ _ _ CF) as H. fold P in H. unfold n. change TRAPFRAME with 0x3fffffe000 in *. rewrite PGROUNDUP_eq by lia. unfold PGSIZE. zlia.
Qed.

Lemma fork_ne : i <> np.
Proof using CF. intros ->. destruct (cf_slot _ _ _ _ _ _ CF) as (_ & H & _). by apply (cf_used _ _ _ _ _ _ CF). Qed.

(** The pages that the fork takes are not those in use. *)
Lemma counted_not_free q : 1 <= count_of s q -> q ∉ fl.
Proof using CF. intros H. eapply free_not_counted; [apply (cf_space _ _ _ _ _ _ CF)|lia]. Qed.

Lemma fork_alloc : exists tf pg fl2 s1 fl1 c1 c0, fl = tf :: pg :: fl2 /\ allocproc s = Ok (Some np) s1 /\
  frame fl (with_proc np tf pg s) s1 /\ fork_ready s1 fl1 p p1 p0 pg c1 c0 n /\ 2 * n <= Z.of_nat (length fl1) /\
  (forall w, ent (k_mem s1) p w = ent (k_mem s) p w) /\ empty_space (k_mem s1) pg tf /\
  (forall t, t ∈ tables pg c1 c0 -> t ∈ pg :: fl2) /\ (exists ns, fl2 = ns ++ fl1).
Proof using CF.
  pose proof fork_sz as Hn. destruct CF as [Hh Hc Hu (Hnp & Hst & Hof) Hfirst Hpid HV Hpg Hsz Hcan Hleaf Htf Hfiles Hcwd Htr]. fold P in Hpg, HV, Hsz, Hcan, Hleaf. fold p in HV, Hcan, Hleaf. fold n in Hpg, Hcan, Hleaf.
  clear CF. destruct fl as [|tf [|pg fl2]]; [cbn in Hpg; lia..|]. cbn [length] in Hpg.
  destruct (allocproc_ok s np tf pg fl2 p p1 p0 Hh Hnp Hst Hfirst Hpid HV ltac:(lia) Htr) as (s1 & fl1 & c1 & c0 & R & TW & F & Hns & Hl & Ht & Hp & He).
  exists tf, pg, fl2, s1, fl1, c1, c0. split; [done|]. split; [exact R|]. split; [exact F|].
  split; [|split; [lia|done]].
  split; [done| | | |].
  - intros w Hw. rewrite Hp. by apply Hcan.
  - intros w Hw Hl1. rewrite Hp in *. destruct (Hleaf w Hw Hl1) as (H1 & H2 & H3 & _). split; [done|]. split; [done|].
    assert (PTE2PA (ent (k_mem s) p w) ∉ tf :: pg :: fl2) as Hq by (eapply free_not_counted; [apply HV|lia]).
    split; [intros Hin%Ht; apply Hq; by right|]. rewrite (fr_cnt _ _ _ F) by (done || apply H1). exact H3.
  - intros w Hw. rewrite He by (change NVPN with 0x4000000; change (TRAPFRAME / PGSIZE) with 0x3fffffe in Hn; lia).
    rewrite decide_False by lia. rewrite decide_False; [done|]. change (TRAMPOLINE / PGSIZE) with 0x3ffffff. change (TRAPFRAME / PGSIZE) with 0x3fffffe in Hn. lia.
  - intros w Hw Hl1. rewrite Hp in *. by apply Hleaf.
Qed.

(** A page in use, other than the tables, keeps its bytes. *)
Lemma fork_keeps_page tf pg fl2 s1 fl1 c1 c0 s2 fl' c1' c0' q : fl = tf :: pg :: fl2 -> frame fl (with_proc np tf pg s) s1 ->
  fork_ready s1 fl1 p p1 p0 pg c1 c0 n -> forked s1 fl1 p p1 p0 pg c1 c0 n n s2 fl' c1' c0' -> (forall t, t ∈ tables pg c1 c0 -> t ∈ pg :: fl2) ->
  (exists ns, fl2 = ns ++ fl1) -> is_page q -> q ∉ tables p p1 p0 -> 1 <= count_of s q ->
  agree_on q PGSIZE (k_mem s) (k_mem s2).
Proof using CF.
  intros Efl F1 R F2 Ht [ns Ens] Hq Hnp Hc. pose proof (counted_not_free q Hc) as Hnf. rewrite Efl in Hnf.
  assert (forall r, r ∈ fl -> is_page r) as Hfl by (intros r Hr; eapply free_is_heap; [apply (cf_space _ _ _ _ _ _ CF)|done]).
  assert (q ∉ fl1 ++ tables p p1 p0 ++ tables pg c1 c0) as Hn2.
  { rewrite !not_elem_of_app. split; [intros H; apply Hnf; do 2 right; rewrite Ens; apply elem_of_app; by right|]. split; [done|]. intros H%Ht. apply Hnf. by right. }
  intros x Hx. rewrite (mframe_agree _ s1 s2 q (fk_mem _ _ _ _ _ _ _ _ _ _ _ _ _ _ F2)); [|
    intros r [Hr|[Hr|Hr]%elem_of_app]%elem_of_app|done|done|done].
  - apply (frame_page fl (with_proc np tf pg s) s1 q F1); [done|done|by rewrite Efl|done].
  - apply Hfl. rewrite Efl, Ens. do 2 right. apply elem_of_app. by right.
  - exact (proj1 (vmem_table_page _ _ _ _ _ r (cf_space _ _ _ _ _ _ CF) Hr)).
  - apply Hfl. rewrite Efl. apply Ht in Hr. by right.
Qed.

(** The trap frame of the child is a page of its own. *)
Lemma fork_two tf pg fl2 s1 fl1 c1 c0 s2 fl' c1' c0' tfp : fl = tf :: pg :: fl2 ->
  forked s1 fl1 p p1 p0 pg c1 c0 n n s2 fl' c1' c0' -> (forall t, t ∈ tables pg c1 c0 -> t ∈ pg :: fl2) -> (exists ns, fl2 = ns ++ fl1) ->
  let s3 := k_set_mem (fork_mem (k_mem s2) tf tfp) s2 in
  two s3 fl' p p1 p0 pg c1' c0' /\ (forall w, ent (k_mem s3) p w = ent (k_mem s2) p w) /\ (forall w, ent (k_mem s3) pg w = ent (k_mem s2) pg w).
Proof using CF.
  intros Efl F2 Ht [ns Ens] s3. pose proof (cf_space _ _ _ _ _ _ CF) as HV. rewrite Efl in HV. destruct (fk_used _ _ _ _ _ _ _ _ _ _ _ _ _ _ F2) as [ns' Ens'].
  pose proof (ao_nodup _ _ (vm_alloc _ _ _ _ _ HV)) as [Hnd _]%NoDup_cons.
  assert (is_page tf) as Hpf by (eapply free_is_heap; [apply HV|left]).
  assert (forall q, q ∈ fl1 -> q ∈ pg :: fl2) as Hsub by (intros q Hq; right; rewrite Ens; apply elem_of_app; by right).
  assert (forall q, q ∈ fl' -> q ∈ pg :: fl2) as Hsub' by (intros q Hq; apply Hsub; rewrite Ens'; apply elem_of_app; by right).
  pose proof (fk_two _ _ _ _ _ _ _ _ _ _ _ _ _ _ F2) as TW.
  assert (forall q, is_page q -> q <> tf -> agree_on q PGSIZE (k_mem s2) (k_mem s3)) as Ha.
  { intros q Hq Hne x Hx. apply fork_mem_outside. by apply (pages_disjoint q tf). }
  eapply (two_frame s2 fl' p p1 p0 pg c1' c0' TW [tf]).
  - split; [apply only_vm_mem| |done]. intros x Hx. apply fork_mem_outside. apply (Hx tf). left.
  - by intros q ->%list_elem_of_singleton.
  - intros q ->%list_elem_of_singleton. split; [apply (pg_not_table _ _ _ _ _ _ HV)|].
    intros H. destruct (fk_tables _ _ _ _ _ _ _ _ _ _ _ _ _ _ F2 tf H) as [H'|H']; apply Hnd; [by apply Ht|by apply Hsub].
  - eapply alloc_ok_frame; [apply (tw_p _ _ _ _ _ _ _ _ TW)|done| |done]. intros q Hq. apply Ha; [eapply free_is_heap; [apply (tw_p _ _ _ _ _ _ _ _ TW)|done]|].
    intros ->. by apply Hnd, Hsub'.
Qed.

Lemma curproc_ok : curproc s = Ok i s.
Proof using CF. unfold curproc, myproc, bind, gets. by rewrite (cf_cur _ _ _ _ _ _ CF). Qed.

(** The states that [kfork] goes through: after [allocproc], after [uvmcopy]
    and at the end. *)
Lemma fork_states : exists tf pg fl2 s1 fl1 c1 c0 s2 fl' c1' c0' s' d, fl = tf :: pg :: fl2 /\ kfork s = Ok (k_nextpid s) s' /\
  frame fl (with_proc np tf pg s) s1 /\ fork_ready s1 fl1 p p1 p0 pg c1 c0 n /\ empty_space (k_mem s1) pg tf /\ (forall w, ent (k_mem s1) p w = ent (k_mem s) p w) /\
  (forall t, t ∈ tables pg c1 c0 -> t ∈ pg :: fl2) /\ (exists ns, fl2 = ns ++ fl1) /\ forked s1 fl1 p p1 p0 pg c1 c0 n n s2 fl' c1' c0' /\
  p_cwd P = Some d /\ ended (upd_proc np (p_set_sz (p_sz P)) (k_set_mem (fork_mem (k_mem s2) tf (p_trapframe P)) s2)) i np d P s'.
Proof using CF.
  destruct fork_alloc as (tf & pg & fl2 & s1 & fl1 & c1 & c0 & Efl & R1 & F1 & Rd & Hl1 & Hp1 & He1 & Ht1 & Hns). destruct (cf_cwd _ _ _ _ _ _ CF) as [d Hd].
  unfold kfork. run curproc_ok. run R1. pose proof fork_ne as Hne. pose proof (fr_only _ _ _ F1) as O1.
  assert (k_procs s1 i = P) as Ei by (rewrite (only_vm_procs _ _ O1); cbn; by rewrite !fupd_ne).
  assert (p_pid (k_procs s1 np) = k_nextpid s /\ p_pagetable (k_procs s1 np) = pg /\ p_trapframe (k_procs s1 np) = tf) as (Epid & Epg & Etf)
    by (rewrite (only_vm_procs _ _ O1); cbn; by rewrite !fupd_eq).
  run (eq_refl (pget i s1)). run (eq_refl (pget np s1)). rewrite Ei, Epg, Etf. fold p.
  pose proof (cf_sz _ _ _ _ _ _ CF) as Hsz. fold P in Hsz.
  destruct (wpx_total _ _ _ (fork_wpx true s1 fl1 p p1 p0 pg c1 c0 (p_sz P) Rd ltac:(change TRAPFRAME with 0x3fffffe000 in Hsz; change MAXVA with 0x4000000000; lia) (fun _ => Hl1)))
    as (r & s2 & R2 & [[-> (fl' & c1' & c0' & F2)]|[? _]]); [|done].
  run R2. change (0 <? 0) with false. cbv iota. pose proof (proj1 (fk_mem _ _ _ _ _ _ _ _ _ _ _ _ _ _ F2)) as O2.
  unfold pset at 1. run (eq_refl (modify (upd_proc np (p_set_sz (p_sz P))) s2)).
  assert (is_page tf) as Hpf by (eapply free_is_heap; [apply (cf_space _ _ _ _ _ _ CF)|rewrite Efl; left]).
  run (kmemmove_page tf (p_trapframe P) TF_SIZE (upd_proc np (p_set_sz (p_sz P)) s2) Hpf (proj1 (cf_tf _ _ _ _ _ _ CF)) ltac:(done)).
  set (s3 := k_set_mem _ _). assert (p_trapframe (k_procs s3 np) = tf) as Etf3 by (cbn; by rewrite fupd_eq, (only_vm_procs _ _ O2)).
  run (tf_set_page np tf TF_a0 0 s3 Etf3 Hpf ltac:(done)). set (s4 := k_set_mem _ s3).
  assert (k_held s4 = [L_proc np]) as Hh by (transitivity (k_held s2); [done|]; by rewrite (only_vm_held _ _ O2), (only_vm_held _ _ O1)).
  assert (k_procs s4 i = P) as Ei4 by (cbn; by rewrite fupd_ne, (only_vm_procs _ _ O2)).
  assert (k_ftable s4 = k_ftable s) as Ef by (transitivity (k_ftable s2); [done|]; by rewrite (only_vm_ftable _ _ O2), (only_vm_ftable _ _ O1)).
  destruct (fork_tail s4 i np d P Hne Hh ltac:(by rewrite Ei4) ltac:(by rewrite Ei4)) as (s' & R & E); [rewrite Ef; apply (cf_files _ _ _ _ _ _ CF)|].
  exists tf, pg, fl2, s1, fl1, c1, c0, s2, fl', c1', c0', s', d. split; [done|]. split; [|done].
  etransitivity; [exact R|]. f_equal. cbn. by rewrite fupd_eq, (only_vm_procs _ _ O2).
Qed.


(** What the end of [kfork] leaves of the memory. *)
Lemma ended_same s0 s2 m f d s' : ended (upd_proc np f (k_set_mem m s2)) i np d P s' -> only_vm s0 s2 ->
  vm_same (k_set_mem m s2) s' /\ k_nextpid s' = k_nextpid s0 /\ k_held s' = [].
Proof using. intros (E & Hh & _) O. unfold only_vm in O. rewrite <- O. destruct s', s2. cbn in E |- *. by injection E as -> -> -> -> -> -> -> -> -> ->. Qed.

(** The memory that the fork leaves. *)
Lemma fork_memory tf pg fl2 s1 fl1 c1 c0 s2 fl' c1' c0' (m := fork_mem (k_mem s2) tf (p_trapframe P)) : fl = tf :: pg :: fl2 -> frame fl (with_proc np tf pg s) s1 ->
  fork_ready s1 fl1 p p1 p0 pg c1 c0 n -> empty_space (k_mem s1) pg tf -> (forall w, ent (k_mem s1) p w = ent (k_mem s) p w) ->
  (forall t, t ∈ tables pg c1 c0 -> t ∈ pg :: fl2) -> (exists ns, fl2 = ns ++ fl1) -> forked s1 fl1 p p1 p0 pg c1 c0 n n s2 fl' c1' c0' ->
  (forall w, 0 <= w < n -> user_leaf (ent (k_mem s) p w) = true ->
    ent m p w = share (ent (k_mem s) p w) /\ ent m pg w = share (ent (k_mem s) p w) /\ agree_on (PTE2PA (ent (k_mem s) p w)) PGSIZE (k_mem s) m) /\
  ent m pg (TRAPFRAME / PGSIZE) = leaf_pte tf (Z.lor PTE_R PTE_W) /\
  (forall o, 0 <= o < TF_SIZE -> load8 m (tf + o) = if decide (TF_a0 <= o < TF_a0 + 8) then 0 else load8 (k_mem s) (p_trapframe P + o)).
Proof using CF.
  intros Efl F1 Rd He Hp Ht Hns F2. pose proof fork_sz as Hn. change (TRAPFRAME / PGSIZE) with 0x3fffffe in *.
  destruct (fork_two tf pg fl2 s1 fl1 c1 c0 s2 fl' c1' c0' (p_trapframe P) Efl F2 Ht Hns) as (TW & Ep & Ec). cbn [k_mem k_set_mem] in Ep, Ec. fold m in Ep, Ec.
  pose proof (fun q => fork_keeps_page tf pg fl2 s1 fl1 c1 c0 s2 fl' c1' c0' q Efl F1 Rd F2 Ht Hns) as Hkeep.
  assert (is_page tf) as Hpf by (eapply free_is_heap; [apply (cf_space _ _ _ _ _ _ CF)|rewrite Efl; left]).
  split; [|split].
  - intros w Hw Hl. destruct (cf_leaf _ _ _ _ _ _ CF w Hw Hl) as ((Hq & _) & Hqt & Hqc & _).
    rewrite Ep, Ec, (fk_parent _ _ _ _ _ _ _ _ _ _ _ _ _ _ F2), (fk_child _ _ _ _ _ _ _ _ _ _ _ _ _ _ F2), !Hp by (change NVPN with 0x4000000; lia).
    rewrite !decide_True by (split; [lia|done]). split; [done|]. split; [done|]. intros x Hx.
    unfold m. rewrite fork_mem_outside; [apply (Hkeep _ Hq Hqt (proj1 Hqc) x Hx)|]. apply (pages_disjoint (PTE2PA (ent (k_mem s) p w)) tf); [done|done| |done].
    intros Eq. apply (counted_not_free _ (proj1 Hqc)). fold P p. rewrite Eq, Efl. left.
  - rewrite Ec, (fk_child _ _ _ _ _ _ _ _ _ _ _ _ _ _ F2), decide_False by (change NVPN with 0x4000000; lia).
    by rewrite (He 0x3fffffe) by (change NVPN with 0x4000000; lia).
  - intros o Ho. unfold m. rewrite fork_mem_regs by done. case_decide; [done|]. destruct (cf_tf _ _ _ _ _ _ CF) as (H1 & H2 & H3).
    unfold load8. f_equal. apply (Hkeep _ H1 H2 H3). fold P. unfold TF_SIZE, in_page, PGSIZE in *. lia.
Qed.

Lemma kfork_ok : exists s' c tf, kfork s = Ok (k_nextpid s) s' /\ forked_process s i np p1 p0 c tf s'.
Proof using CF.
  destruct fork_states as (tf & pg & fl2 & s1 & fl1 & c1 & c0 & s2 & fl' & c1' & c0' & s' & d & Efl & R & F1 & Rd & He & Hp & Ht & Hns & F2 & Hd & E).
  exists s', pg, tf. split; [done|]. destruct (fork_memory tf pg fl2 s1 fl1 c1 c0 s2 fl' c1' c0' Efl F1 Rd He Hp Ht Hns F2) as (Hsh & Htf & Hregs).
  destruct (fork_two tf pg fl2 s1 fl1 c1 c0 s2 fl' c1' c0' (p_trapframe P) Efl F2 Ht Hns) as (TW & _).
  pose proof (only_vm_trans _ _ _ (fr_only _ _ _ F1) (proj1 (fk_mem _ _ _ _ _ _ _ _ _ _ _ _ _ _ F2))) as O.
  destruct (ended_same _ _ _ _ _ _ E O) as (V & Hnp & Hh). pose proof (vs_mem _ _ V) as Em. cbn [k_mem k_set_mem] in Em. rewrite <- Em in Hsh, Htf, Hregs.
  pose proof (only_vm_procs _ _ O) as Eprocs. destruct E as (_ & _ & Hf & Hit & Hoth & g & Hc & Hg).
  split; [|done|done|done|..].
  - exists fl', c1', c0'. eapply same_two; [exact V| |exact TW]. repeat split; rewrite Hh; apply not_elem_of_nil.
  - rewrite Hc. cbn. rewrite fupd_eq, Eprocs. cbn. by rewrite !fupd_eq.
  - rewrite Hc. cbn. rewrite fupd_eq, Eprocs. cbn. by rewrite !fupd_eq.
  - rewrite Hc. split; [done|]. intros fd Hfd. cbn. rewrite Hg by done. cbn. rewrite fupd_eq, Eprocs. cbn. rewrite !fupd_eq. cbn.
    destruct (cf_slot _ _ _ _ _ _ CF) as (_ & _ & ->). by case_match.
  - intros f. rewrite Hf. cbn. by rewrite (only_vm_ftable _ _ O).
  - intros d' Hd'. rewrite Hit. cbn. rewrite (only_vm_itable _ _ O). cbn. fold P in Hd'. by simplify_eq.
  - rewrite Hc. cbn. rewrite fupd_eq, Eprocs. cbn. by rewrite !fupd_eq.
  - intros j Hj. rewrite Hoth by done. cbn. rewrite fupd_ne, Eprocs by done. cbn. by rewrite !fupd_ne.
  - done.
  - by rewrite Hnp.
Qed.

End fork.

Lemma kfork_full s i : k_held s = [] -> k_cur s = Some i -> (forall j, 0 <= j < NPROC -> p_state (k_procs s j) <> UNUSED) -> kfork s = Ok (-1) s.
Proof.
  intros Hh Hc Hall. unfold kfork. assert (curproc s = Ok i s) as E by (unfold curproc, myproc, bind, gets; by rewrite Hc). run E.
  assert (allocproc s = Ok None s) as E' by (unfold allocproc; by run (find_unused_none s Hh Hall)). by run E'.
Qed.

(** C7. [kfork] creates a copy of the calling process.  With a free entry of the
    process table, pages for the trap frame and the page tables and a next
    process number below INT_MAX it returns that number; the child is RUNNABLE and has it, the size, the
    name, the directory and the open files of its parent, the files with one more
    reference for each descriptor and the directory with one more; every user
    page of the parent is mapped in both address spaces by the same shared entry, copied on the first
    write, and keeps its bytes; the child's trap frame is mapped at TRAPFRAME and
    holds the parent's registers except a0, which is 0; no other process changes
    and no lock stays held.  With no free entry it returns -1 and changes
    nothing. *)
Theorem kfork_correct s i :
  (forall np fl p1 p0, can_fork s i np fl p1 p0 -> exists s' c tf, kfork s = Ok (k_nextpid s) s' /\ forked_process s i np p1 p0 c tf s') /\
  (k_held s = [] -> k_cur s = Some i -> (forall j, 0 <= j < NPROC -> p_state (k_procs s j) <> UNUSED) -> kfork s = Ok (-1) s).
Proof. split; [intros np fl p1 p0; apply kfork_ok|apply kfork_full]. Qed.

(** ** Freeing a process *)

Lemma unmap_one s fl c t1 t0 w : vmem s fl c t1 t0 -> 0 <= w < NVPN -> has (ent (k_mem s) c w) PTE_SWAPPED = false ->
  exists s' fl', uvmunmap c (w * PGSIZE) 1 false s = Ok tt s' /\ vmem s' fl' c t1 t0 /\ mframe (fl' ++ tables c t1 t0) s s' /\
    (forall v, 0 <= v < NVPN -> v <> w -> ent (k_mem s') c v = ent (k_mem s) c v) /\ has (ent (k_mem s') c w) PTE_V = false /\
    (forall q, is_page q -> count_of s' q = count_of s q) /\ (forall q, is_page q -> q ∈ fl' <-> q ∈ fl).
Proof.
  intros HV Hw Hsw. destruct (uvmunmap_ok s fl c t1 t0 HV w 1 false ltac:(lia) ltac:(lia) ltac:(lia)) as (s' & fl' & R & HV' & HM & HE & HC & Hfl).
  - intros v Hv. by replace v with w by lia.
  - done.
  - intros q _ H. unfold drops in H. lia.
  - exists s', fl'. split; [done|]. split; [done|]. split; [done|]. split; [|split; [|split]].
    + intros v Hv Hne. rewrite HE by done. unfold cleared. by rewrite decide_False by lia.
    + rewrite HE by done. apply cleared_invalid. lia.
    + intros q Hq. rewrite HC by done. unfold drops. lia.
    + intros q Hq. rewrite Hfl by done. unfold drops. split; [intros [?|[??]]; [done|lia]|auto].
Qed.

(** The address space of a process: user pages below its size, the trap frame
    and the trampoline. *)
Record process_space (s : kstate) (fl : list Z) (c : Z) (t1 t0 : list Z) (sz : Z) (f := ent (k_mem s) c) (n := PGROUNDUP sz / PGSIZE) : Prop := {
  ps_space : vmem s fl c t1 t0;
  ps_sz : 0 <= sz <= TRAPFRAME;
  ps_present : forall w, 0 <= w < NVPN -> has (f w) PTE_SWAPPED = false;
  ps_leaf : forall w, 0 <= w < n -> has (f w) PTE_V = true -> heap_page (PTE2PA (f w)) /\ (PTE2PA (f w) ∉ tables c t1 t0);
  ps_refs : forall q, heap_page q -> leaf_refs f (seqZ 0 n) q <= count_of s q;
  ps_above : forall w, n <= w < NVPN -> w <> TRAPFRAME / PGSIZE -> w <> TRAMPOLINE / PGSIZE -> has (f w) PTE_V = false
}.

Lemma proc_freepagetable_ok s fl c t1 t0 sz (L := leaf_refs (ent (k_mem s) c) (seqZ 0 (PGROUNDUP sz / PGSIZE))) : process_space s fl c t1 t0 sz ->
  exists s' fl', proc_freepagetable c sz s = Ok tt s' /\ mframe fl' s s' /\ alloc_ok s' fl' /\
    (forall q, is_page q -> q ∉ tables c t1 t0 -> count_of s' q = count_of s q - L q) /\
    (forall q, is_page q -> q ∈ fl' <-> q ∈ fl \/ q ∈ tables c t1 t0 \/ (0 < L q /\ L q = count_of s q)).
Proof.
  intros [HV Hsz Hsw Hleaf Hrefs Hno]. set (n := PGROUNDUP sz / PGSIZE) in *.
  assert (0 <= n <= 0x3fffffe) as Hn by (unfold n; change TRAPFRAME with 0x3fffffe000 in Hsz; rewrite PGROUNDUP_eq by lia; unfold PGSIZE; zlia).
  change (TRAPFRAME / PGSIZE) with 0x3fffffe in *. change (TRAMPOLINE / PGSIZE) with 0x3ffffff in *. change NVPN with 0x4000000 in *.
  unfold proc_freepagetable. change TRAMPOLINE with (0x3ffffff * PGSIZE). change TRAPFRAME with (0x3fffffe * PGSIZE).
  destruct (unmap_one s fl c t1 t0 0x3ffffff HV ltac:(done) (Hsw 0x3ffffff ltac:(done))) as (s1 & fl1 & R1 & HV1 & M1 & E1 & Z1 & C1 & F1). run R1.
  destruct (unmap_one s1 fl1 c t1 t0 0x3fffffe HV1 ltac:(done)) as (s2 & fl2 & R2 & HV2 & M2 & E2 & Z2 & C2 & F2); [by rewrite E1, Hsw|]. run R2.
  assert (forall w, 0 <= w < n -> ent (k_mem s2) c w = ent (k_mem s) c w) as HE by (intros w Hw; by rewrite E2, E1 by (change NVPN with 0x4000000; lia)).
  assert (forall q, drops s2 c 0 true n q = L q) as HL by (intros q; apply leaf_refs_ext; intros w Hw%elem_of_seqZ; apply HE; lia).
  destruct (uvmfree_ok s2 fl2 c t1 t0 sz HV2) as (s3 & fl3 & R3 & M3 & A3 & C3 & F3); fold n.
  - change TRAPFRAME with 0x3fffffe000 in Hsz. change MAXVA with 0x4000000000. lia.
  - intros w Hw. rewrite HE, Hsw; [done|lia|done].
  - intros w Hw. rewrite HE by done. by apply Hleaf.
  - intros q Hq _. rewrite HL, C2, C1 by apply Hq. by apply Hrefs.
  - intros w Hw. destruct (decide (w = 0x3fffffe)) as [->|]; [done|]. change NVPN with 0x4000000 in *. rewrite E2 by lia.
    destruct (decide (w = 0x3ffffff)) as [->|]; [done|]. rewrite E1 by lia. by apply Hno.
  - fold n in C3, F3. exists s3, fl3. assert (forall q, is_page q -> q ∈ fl3 <-> q ∈ fl \/ q ∈ tables c t1 t0 \/ (0 < L q /\ L q = count_of s q)) as F
      by (intros q Hq; by rewrite F3, HL, F2, F1, C2, C1).
    split; [done|]. split; [|split; [done|split; [|done]]].
    + assert (forall s' fl', vmem s' fl' c t1 t0 -> (forall q, is_page q -> q ∈ fl' <-> q ∈ fl) -> forall q, q ∈ fl' ++ tables c t1 t0 -> q ∈ fl3) as Hin.
      { intros s' fl' HV' HF q [Hq|Hq]%elem_of_app; [|apply F; [by apply (vmem_table_page _ _ _ _ _ q HV)|auto]].
        assert (is_page q) as Hp by (by eapply free_is_heap; [apply HV'|]). apply F; [done|]. left. by apply HF. }
      eapply mframe_trans; [eapply mframe_mono; [|exact M1]|eapply mframe_trans; [eapply mframe_mono; [|exact M2]|exact M3]].
      * by apply (Hin s1).
      * apply (Hin s2); [done|]. intros q Hq. by rewrite F2, F1.
    + intros q Hq Hnt. by rewrite C3, HL, C2, C1.
Qed.

(** What a process gives back: its entry of the process table, its trap frame,
    its page tables and the pages that nobody else maps. *)
Definition free_entry (p : proc) : proc :=
  p_set_state UNUSED (p_set_xstate 0 (p_set_killed 0 (p_set_chan NoChan (p_set_name (0 :: tail (p_name p))
    (p_set_parent None (p_set_pid 0 (p_set_sz 0 (p_set_pagetable 0 (p_set_trapframe 0 p))))))))).

Record reaped (s : kstate) (j : Z) (fl t1 t0 : list Z) (s' : kstate) (fl' : list Z) (P := k_procs s j)
    (L := leaf_refs (ent (k_mem s) (p_pagetable P)) (seqZ 0 (PGROUNDUP (p_sz P) / PGSIZE))) : Prop := {
  re_entry : k_procs s' j = free_entry P;
  re_others : forall k, k <> j -> k_procs s' k = k_procs s k;
  re_rest : mframe fl' s (k_set_procs (k_procs s) s');
  re_alloc : alloc_ok s' fl';
  re_free : forall q, is_page q -> q ∈ fl' <-> q ∈ fl \/ q = p_trapframe P \/ q ∈ tables (p_pagetable P) t1 t0 \/ (0 < L q /\ L q = count_of s q);
  re_count : forall q, is_page q -> q <> p_trapframe P -> q ∉ tables (p_pagetable P) t1 t0 -> count_of s' q = count_of s q - L q
}.

(** A process whose memory is its own to free: the trap frame is one of its
    pages, which it does not map as user memory. *)
Record can_reap (s : kstate) (j : Z) (fl t1 t0 : list Z) (P := k_procs s j) : Prop := {
  cr_space : process_space s fl (p_pagetable P) t1 t0 (p_sz P);
  cr_tf : heap_page (p_trapframe P) /\ (p_trapframe P ∉ tables (p_pagetable P) t1 t0) /\ count_of s (p_trapframe P) = 1;
  cr_kernel : leaf_refs (ent (k_mem s) (p_pagetable P)) (seqZ 0 (PGROUNDUP (p_sz P) / PGSIZE)) (p_trapframe P) = 0
}.

Lemma freed_tf s fl c t1 t0 sz tf : process_space s fl c t1 t0 sz -> heap_page tf -> tf ∉ tables c t1 t0 -> count_of s tf = 1 ->
  leaf_refs (ent (k_mem s) c) (seqZ 0 (PGROUNDUP sz / PGSIZE)) tf = 0 ->
  exists s1, kfree tf s = Ok tt s1 /\ frame [tf] s s1 /\ process_space s1 (tf :: fl) c t1 t0 sz /\ (forall w, ent (k_mem s1) c w = ent (k_mem s) c w).
Proof.
  intros [HV Hsz Hsw Hleaf Hrefs Hno] Hp Ht Hc HL.
  destruct (kfree_spec s fl tf (vm_alloc _ _ _ _ _ HV) (vm_locks _ _ _ _ _ HV) Hp ltac:(lia)) as (s1 & R & F & Hc1 & HA & _). rewrite decide_True in HA by done.
  destruct (frame_vmem [tf] s s1 fl (tf :: fl) c t1 t0 HV F) as (HV1 & _ & HE); [by intros q ->%list_elem_of_singleton; apply Hp|by intros q ->%list_elem_of_singleton|done|].
  exists s1. split; [done|]. split; [done|]. split; [|done].
  assert (forall q ws, leaf_refs (ent (k_mem s1) c) ws q = leaf_refs (ent (k_mem s) c) ws q) as HLe by (intros q ws; apply leaf_refs_ext; auto).
  split; [done|done| | | |].
  - intros w Hw. rewrite HE. by apply Hsw.
  - intros w Hw. rewrite HE. by apply Hleaf.
  - intros q Hq. rewrite HLe. destruct (decide (q = tf)) as [->|Hne]; [rewrite HL; lia|].
    rewrite (fr_cnt _ _ _ F); [by apply Hrefs|apply Hq|by rewrite list_elem_of_singleton].
  - intros w Hw H1 H2. rewrite HE. by apply Hno.
Qed.

Lemma same_space s s' fl c t1 t0 sz : vm_same s s' -> alloc_locks_free s' -> process_space s fl c t1 t0 sz -> process_space s' fl c t1 t0 sz.
Proof.
  intros V Hl [HV Hsz Hsw Hleaf Hrefs Hno]. split; [by apply (same_vmem s)|done|..]; rewrite ?(vs_mem _ _ V); [done|done| |done].
  intros q Hq. rewrite (vm_same_count _ _ _ V). by apply Hrefs.
Qed.

Lemma only_vm_entry s s1 s3 j f : only_vm s s1 -> only_vm (upd_proc j f s1) s3 -> only_vm s (k_set_procs (k_procs s) s3).
Proof. unfold only_vm. intros H1 H3. destruct s3, s1, s. injection H3. injection H1. intros. by subst. Qed.

Lemma freeproc_ok s j fl t1 t0 : can_reap s j fl t1 t0 -> exists s' fl', freeproc j s = Ok tt s' /\ reaped s j fl t1 t0 s' fl'.
Proof.
  intros [PS (Hp & Ht & Hc) HL]. set (P := k_procs s j) in *. set (tf := p_trapframe P) in *.
  destruct (freed_tf _ _ _ _ _ _ _ PS Hp Ht Hc HL) as (s1 & R1 & F1 & PS1 & HE1). pose proof (only_vm_procs _ _ (fr_only _ _ _ F1)) as Ep.
  unfold freeproc, pset. run (eq_refl (pget j s)). fold P.
  fold tf. assert ((tf =? 0) = false) as -> by (destruct Hp as ((_ & H & _) & _); apply Z.eqb_neq; unfold KERNBASE in H; lia). run R1.
  set (s2 := upd_proc j (p_set_trapframe 0) s1). run (eq_refl (modify (upd_proc j (p_set_trapframe 0)) s1)). run (eq_refl (pget j s2)).
  assert (k_procs s2 j = p_set_trapframe 0 P) as Ep2 by (cbn; by rewrite fupd_eq, Ep). rewrite Ep2. cbn [p_pagetable p_sz p_set_trapframe].
  assert ((p_pagetable P =? 0) = false) as ->.
  { pose proof (vmem_table_page _ _ _ _ _ (p_pagetable P) (ps_space _ _ _ _ _ _ PS) ltac:(left)) as [(_ & H & _) _]. apply Z.eqb_neq. unfold KERNBASE in H. lia. }
  destruct (proc_freepagetable_ok s2 (tf :: fl) (p_pagetable P) t1 t0 (p_sz P)) as (s3 & fl3 & R3 & M3 & A3 & C3 & F3); [apply (same_space s1 s2); [done|apply (ps_space _ _ _ _ _ _ PS1)|done]|].
  run R3. pose proof (only_vm_procs _ _ (proj1 M3)) as Ep3.
  assert (forall q ws, leaf_refs (ent (k_mem s2) (p_pagetable P)) ws q = leaf_refs (ent (k_mem s) (p_pagetable P)) ws q) as HLe by (intros q ws; apply leaf_refs_ext; intros w _; apply HE1).
  assert (forall q, is_page q -> q <> tf -> count_of s2 q = count_of s q) as Hcnt by (intros q Hq Hne; apply (fr_cnt _ _ _ F1); [done|by rewrite list_elem_of_singleton]).
  eexists _, fl3. split; [reflexivity|]. split.
  - cbn. rewrite !fupd_eq, Ep3. fold s2. rewrite Ep2. done.
  - intros k Hk. cbn. rewrite !fupd_ne, Ep3 by done. cbn. by rewrite fupd_ne, Ep.
  - split; [apply (only_vm_entry s s1 s3 j (p_set_trapframe 0)); [apply F1|apply M3]|]. intros x Hx. transitivity (k_mem s2 x); [by apply M3|].
    apply (fr_mem _ _ _ F1). intros q ->%list_elem_of_singleton. apply Hx, F3; [apply Hp|]. left. left.
  - by apply (same_alloc s3).
  - fold P. fold tf. intros q Hq. rewrite F3, HLe, elem_of_cons by done. destruct (decide (q = tf)) as [->|Hne]; [tauto|]. rewrite Hcnt by done. tauto.
  - fold P. fold tf. intros q Hq Hne Hnt. rewrite <- HLe, <- Hcnt by done. by apply C3.
Qed.

(** ** Waiting for a child *)

Definition is_child (s : kstate) (i j : Z) : bool := bool_decide (p_parent (k_procs s j) = Some i).

(** The scan passes over the entries that are not zombie children. *)
Lemma wait_skip s i addr l r hk : (forall j, L_proc j ∉ k_held s) -> (forall j, j ∈ l -> p_parent (k_procs s j) = Some i -> p_state (k_procs s j) <> ZOMBIE) ->
  wait_scan i addr (l ++ r) hk s = wait_scan i addr r (hk || existsb (is_child s i) l) s.
Proof.
  intros Hh. revert hk. induction l as [|j l IH]; intros hk Hz; [by rewrite orb_false_r|].
  cbn [app wait_scan existsb]. unfold is_child at 1. run (eq_refl (pget j s)). case_decide as E.
  - rewrite bool_decide_true, orb_true_r by done. unfold wait_one. assert (p_state (k_procs s j) <> ZOMBIE) as Hs by (apply Hz; [left|done]).
    unfold bind. rewrite (acquire_ok (L_proc j) s (Hh j)). unfold pget, gets. cbn [k_procs k_set_held]. rewrite decide_False by done.
    rewrite (release_head (L_proc j) (k_held s)) by done. unfold ret. replace (k_set_held _ _) with s by (by destruct s).
    rewrite IH; [done|]. intros k Hk. apply Hz. by right.
  - rewrite bool_decide_false by done. cbn [orb]. apply IH. intros k Hk. apply Hz. by right.
Qed.

Lemma only_vm_set_held s h X : only_vm (k_set_held h s) X -> only_vm s (k_set_held (k_held s) X).
Proof. unfold only_vm. intros H. destruct X, s. injection H. intros. by subst. Qed.

Lemma wait_one_ok s i j fl t1 t0 : k_held s = [] -> p_state (k_procs s j) = ZOMBIE -> can_reap s j fl t1 t0 ->
  exists s' fl', wait_one i 0 j (k_set_held [L_wait] s) = Ok (Some (p_pid (k_procs s j))) s' /\ reaped s j fl t1 t0 s' fl'.
Proof.
  intros Hh Hz [PS Ht HL]. unfold wait_one. run (acquire_ok (L_proc j) (k_set_held [L_wait] s) ltac:(apply (bool_decide_unpack _); done)).
  set (s1 := k_set_held _ _). run (eq_refl (pget j s1)). assert (k_procs s1 = k_procs s) as Ep by done. rewrite Ep, decide_True by done.
  run (eq_refl (pget i s1)). change (0 =? 0) with true. cbv iota. run (eq_refl (ret 0 s1)). change (0 <? 0) with false. cbv iota.
  destruct (freeproc_ok s1 j fl t1 t0) as (s2 & fl2 & R & [A1 A2 A3 A4 A5 A6]).
  { split; [|done|done]. apply (same_space s); [done| |done]. repeat split; apply (bool_decide_unpack _); done. }
  run R. assert (k_held s2 = [L_proc j; L_wait]) as Hh2 by (transitivity (k_held (k_set_procs (k_procs s1) s2)); [done|by rewrite (only_vm_held _ _ (proj1 A3))]).
  run (release_head (L_proc j) [L_wait] s2 Hh2). run (release_head L_wait [] (k_set_held [L_wait] s2) eq_refl).
  eexists _, fl2. split; [done|]. split; [done|done| |by apply (same_alloc s2)|done|done].
  split; [|apply A3]. rewrite <- Hh. apply (only_vm_set_held s _ _ (proj1 A3)).
Qed.

Section wait.
Context (s : kstate) (i : Z) (Hh : k_held s = []) (Hc : k_cur s = Some i).
Let s1 := k_set_held [L_wait] s.

Lemma kwait_scan addr r s' : wait_scan i addr (seqZ 0 NPROC) false s1 = Ok (inl r) s' -> kwait addr s = Ok r s'.
Proof using Hh Hc.
  intros R. unfold kwait. assert (curproc s = Ok i s) as E by (unfold curproc, myproc, bind, gets; by rewrite Hc). run E.
  run (acquire_ok L_wait s ltac:(rewrite Hh; apply not_elem_of_nil)). rewrite Hh. fold s1. cbn [iter]. unfold bind. by rewrite R.
Qed.

Lemma kwait_zombie j fl t1 t0 : 0 <= j < NPROC -> p_parent (k_procs s j) = Some i -> p_state (k_procs s j) = ZOMBIE ->
  (forall k, 0 <= k < j -> p_parent (k_procs s k) = Some i -> p_state (k_procs s k) <> ZOMBIE) -> can_reap s j fl t1 t0 ->
  exists s' fl', kwait 0 s = Ok (p_pid (k_procs s j)) s' /\ reaped s j fl t1 t0 s' fl'.
Proof using Hh Hc.
  intros Hj Hp Hz Hfirst CR. destruct (wait_one_ok s i j fl t1 t0 Hh Hz CR) as (s' & fl' & R & Re). exists s', fl'. split; [|done].
  apply kwait_scan. assert (seqZ 0 NPROC = seqZ 0 j ++ j :: seqZ (j + 1) (NPROC - j - 1)) as ->.
  { replace NPROC with (j + (NPROC - j)) at 1 by lia. rewrite seqZ_app by lia. f_equal. rewrite seqZ_cons by lia. do 2 f_equal; lia. }
  rewrite wait_skip; [|intros k; by apply (bool_decide_unpack _)|intros k Hk%elem_of_seqZ; apply Hfirst; lia].
  cbn [wait_scan]. run (eq_refl (pget j s1)). rewrite decide_True by done. by run R.
Qed.

(** Without a child, or when killed without an exited child, it gives up. *)
Lemma kwait_none addr : (forall k, 0 <= k < NPROC -> p_parent (k_procs s k) = Some i -> p_state (k_procs s k) <> ZOMBIE) ->
  (forall k, 0 <= k < NPROC -> p_parent (k_procs s k) <> Some i) \/ p_killed (k_procs s i) <> 0 -> kwait addr s = Ok (-1) s.
Proof using Hh Hc.
  intros Hz Hgive. unfold kwait. assert (curproc s = Ok i s) as E by (unfold curproc, myproc, bind, gets; by rewrite Hc). run E.
  run (acquire_ok L_wait s ltac:(rewrite Hh; apply not_elem_of_nil)). rewrite Hh. fold s1. cbn [iter].
  assert (forall k, L_proc k ∉ k_held s1) as Hl by (intros k; by apply (bool_decide_unpack _)).
  pose proof (wait_skip s1 i addr (seqZ 0 NPROC) [] false Hl ltac:(intros k Hk%elem_of_seqZ; apply Hz; lia)) as R. rewrite app_nil_r in R.
  unfold bind at 1 2. rewrite R. cbn [wait_scan orb]. unfold ret at 1.
  set (hk := existsb (is_child s1 i) (seqZ 0 NPROC)).
  assert ((if hk then k <- killed i ;; ret (negb (k =? 0)) else ret true) s1 = Ok true s1) as Rs.
  { destruct hk eqn:Ehk; [|done]. destruct Hgive as [Hno|Hk].
    - apply existsb_exists in Ehk as (k & Hk%list_elem_of_In%elem_of_seqZ & Hc1%bool_decide_eq_true). exfalso. apply (Hno k); [lia|done].
    - run (killed_run i _ s1 (Hl i) eq_refl). assert ((p_killed (k_procs s1 i) =? 0) = false) as -> by (by apply Z.eqb_neq). done. }
  run Rs. run (release_head L_wait [] s1 eq_refl). unfold ret. rewrite <- Hh. by destruct s.
Qed.
End wait.

(** C13. [kwait] reaps a child.  If a child of the caller has exited, [kwait(0)]
    returns the process number of the first one in the process table and frees
    it, if no page of it is swapped out: its entry is reset and UNUSED, exactly its trap frame, its page-table
    pages and the pages that only it mapped join the free list, every other page
    it mapped loses one reference per mapping, and nothing is written outside free
    pages: the other processes and the rest of the kernel are as before.  Without
    children, or in a killed process none of whose children has exited, it
    returns -1 for every address and changes nothing. *)
Theorem kwait_correct s i : k_held s = [] -> k_cur s = Some i ->
  (forall j fl t1 t0, 0 <= j < NPROC -> p_parent (k_procs s j) = Some i -> p_state (k_procs s j) = ZOMBIE ->
    (forall k, 0 <= k < j -> p_parent (k_procs s k) = Some i -> p_state (k_procs s k) <> ZOMBIE) -> can_reap s j fl t1 t0 ->
    exists s' fl', kwait 0 s = Ok (p_pid (k_procs s j)) s' /\ reaped s j fl t1 t0 s' fl') /\
  (forall addr, (forall k, 0 <= k < NPROC -> p_parent (k_procs s k) = Some i -> p_state (k_procs s k) <> ZOMBIE) ->
    (forall k, 0 <= k < NPROC -> p_parent (k_procs s k) <> Some i) \/ p_killed (k_procs s i) <> 0 -> kwait addr s = Ok (-1) s).
Proof. intros Hh Hc. split; [by apply kwait_zombie|by apply kwait_none]. Qed.

End Proc.

(** ** A process with one page forks *)

#[local] Instance fork_symbols : Symbols := {| a_forkret := 0x80002000; a_kernelvec := 0; a_usertrap := 0; a_uservec := 0; a_userret := 0 |}.

Definition fork_state : kstate :=
  k_set_procs (fun i => if i =? 0 then p_set_cwd (Some 0) (p_set_ofile (fun fd => if fd =? 1 then Some 3 else None)
      (p_set_trapframe croot (p_set_state RUNNING (p_set_sz 0x1000 (p_set_pagetable uroot no_proc))))) else no_proc)
    (k_set_ftable (fun _ => mkFile FD_DEVICE 1 true true 0 None 0 1) user_state).

Lemma fork_state_ready : can_fork fork_state 0 1 free8 [utab1] [utab0].
Proof.
  assert (forall w, 0 <= w < 1 -> ent (k_mem fork_state) uroot w = leaf_pte udata rwu) as HE.
  { intros w Hw. etransitivity; [apply user_ent; change NVPN with 0x4000000; lia|]. by rewrite decide_True by lia. }
  split; try done.
  - intros j Hj. by replace j with 0 by lia.
  - apply (same_vmem user_state fork_state); [done|apply user_locks|apply user_vmem].
  - intros w Hw. change (p_pagetable (k_procs fork_state 0)) with uroot. by rewrite HE.
  - intros w Hw _. change (p_pagetable (k_procs fork_state 0)) with uroot. rewrite HE by done.
    cbv zeta. change (PTE2PA (leaf_pte udata rwu)) with udata. repeat split; apply (bool_decide_unpack _); by vm_compute.
  - repeat split; apply (bool_decide_unpack _); by vm_compute.
  - by exists 0.
Qed.

Lemma kfork_correct_witness : exists s' c tf, kfork fork_state = Ok 1 s' /\ forked_process fork_state 0 1 [utab1] [utab0] c tf s'.
Proof. exact (proj1 (kfork_correct fork_state 0) 1 free8 [utab1] [utab0] fork_state_ready). Defined.

(** ** The same process has exited and its parent waits *)

Definition zombie_state : kstate :=
  k_set_procs (fun i => if i =? 0 then p_set_state RUNNING no_proc else
      if i =? 1 then p_set_parent (Some 0) (p_set_pid 7 (p_set_trapframe croot (p_set_state ZOMBIE (p_set_sz 0x1000 (p_set_pagetable uroot no_proc))))) else no_proc)
    user_state.

Lemma zombie_refs q : leaf_refs (ent (k_mem zombie_state) uroot) (seqZ 0 1) q = if udata =? q then 1 else 0.
Proof.
  unfold leaf_refs. change (seqZ 0 1) with [0]. cbn [sumZ]. assert (ent (k_mem zombie_state) uroot 0 = leaf_pte udata rwu) as -> by (etransitivity; [by apply user_ent|done]).
  change (has (leaf_pte udata rwu) PTE_V) with true. change (PTE2PA (leaf_pte udata rwu)) with udata. cbn [andb]. by destruct (udata =? q).
Qed.

Lemma zombie_ready : can_reap zombie_state 1 free8 [utab1] [utab0].
Proof.
  assert (forall w, 0 <= w < NVPN -> ent (k_mem zombie_state) uroot w = if decide (w = 0) then leaf_pte udata rwu else 0) as HE by apply user_ent.
  split; [|repeat split; apply (bool_decide_unpack _); by vm_compute|exact (zombie_refs croot)].
  split; [apply (same_vmem user_state zombie_state); [done|apply user_locks|apply user_vmem]|done|..]; change (p_pagetable (k_procs zombie_state 1)) with uroot; change (PGROUNDUP (p_sz (k_procs zombie_state 1)) / PGSIZE) with 1.
  - intros w Hw. rewrite HE by done. by case_decide.
  - intros w Hw _. rewrite HE by (change NVPN with 0x4000000; lia). rewrite decide_True by lia. change (PTE2PA (leaf_pte udata rwu)) with udata.
    split; apply (bool_decide_unpack _); by vm_compute.
  - intros q Hq. rewrite zombie_refs. destruct (Z.eqb_spec udata q) as [<-|_]; [by vm_compute|]. unfold count_of. cbn. by case_match.
  - intros w Hw _ _. rewrite HE, decide_False by lia. done.
Qed.

Lemma kwait_correct_witness : (exists s' fl', kwait 0 zombie_state = Ok 7 s' /\ reaped zombie_state 1 free8 [utab1] [utab0] s' fl') /\
  kwait 0 fork_state = Ok (-1) fork_state.
Proof.
  split.
  - apply (proj1 (kwait_correct zombie_state 0 eq_refl eq_refl) 1 free8 [utab1] [utab0] ltac:(done) eq_refl eq_refl); [|exact zombie_ready].
    intros k Hk. by replace k with 0 by lia.
  - apply (proj2 (kwait_correct fork_state 0 eq_refl eq_refl) 0).
    + intros k _ H. unfold fork_state in H. cbn in H. by case_match.
    + left. intros k _ H. unfold fork_state in H. cbn in H. by case_match.
Defined.
