(* ===== verification/Discipline.v ===== *)
(** * The discipline of the kernel: locks, process table, counters

    A judgement that follows the locks through every function of the kernel:
    [keeps h m Q] says that [m], started with the locks [h] held, returns only
    with the locks [Q a] held, in the process that called it, and preserves the
    invariant [kernel_ok].  There is one lemma per function, found by the hint
    database [kp]; the tactic [kp] takes a function apart. *)

From S2P Require Import Prelude Riscv Mem KState Sample Memstats Sched Virtio Bio Log PhysMem Swap Vm.
From S2P Require Import Fs Console Pipe File Proc Exec Syscall Trap.

(** ** The invariant *)

(** The pids in the table are below the next one, and no two processes have
    the same; an entry with pid 0 is nobody's. *)
Definition pids_ok (procs : Z -> proc) (nextpid : Z) : Prop :=
  0 < nextpid <= INT_MAX /\
  forall i, 0 <= i < NPROC -> 0 <= p_pid (procs i) < nextpid /\
    forall j, 0 <= j < NPROC -> p_pid (procs i) <> 0 -> p_pid (procs j) = p_pid (procs i) -> j = i.

(** Every process has its own kernel stack; the counters of the statistics are
    64-bit numbers that add up; the swap bitmap has as many clear bits as the
    count of free blocks says. *)
Record fields_ok (procs : Z -> proc) (nextpid : Z) (t : stats) (w : swapst) : Prop := {
  ko_pids : pids_ok procs nextpid;
  ko_stacks : forall i, 0 <= i < NPROC -> p_kstack (procs i) = KSTACK i;
  ko_stats : stats_ok t;
  ko_swap : swap_ok w
}.

Definition kernel_ok (s : kstate) : Prop := fields_ok (k_procs s) (k_nextpid s) (k_stats s) (k_swap s).

(** From [s] to [s']: same locks, same process, the invariant kept. *)
Definition steady (s s' : kstate) : Prop := k_held s' = k_held s /\ k_cur s' = k_cur s /\ (kernel_ok s -> kernel_ok s').

Definition keeps {A} (h : list lockid) (m : K A) (Q : A -> list lockid) : Prop :=
  forall s a s', m s = Ok a s' -> k_held s = h -> kernel_ok s ->
    k_held s' = Q a /\ k_cur s' = k_cur s /\ kernel_ok s'.

(** What runs outside this process respects the discipline: it comes back with
    the locks as they were, in the same process, with the invariant intact; the
    devices touch none of this. *)
Class Rely {ENV : Env} : Prop := {
  rely_others i s : steady s (others i s);
  rely_read r s : steady s (snd (mmio_read r s));
  rely_write r v s : steady s (mmio_write r v s)
}.

(** ** Rules *)

Section Rules.
Context {A B : Type}.

Lemma keeps_ret h (a : A) Q : Q a = h -> keeps h (ret a) Q.
Proof. intros E s a' s' [= <- <-] Hh H. by rewrite E. Qed.

Lemma keeps_bind h (m : K A) (f : A -> K B) Q1 Q : keeps h m Q1 -> (forall a, keeps (Q1 a) (f a) Q) -> keeps h (bind m f) Q.
Proof.
  intros Hm Hf s b s' H Hh HI. apply bind_inv in H as (a & s1 & H1 & H2).
  destruct (Hm _ _ _ H1 Hh HI) as (E1 & E2 & E3). destruct (Hf a _ _ _ H2 E1 E3) as (F1 & F2 & F3). split; [done|]. split; [congruence|done].
Qed.

Lemma keeps_weaken h (m : K A) Q Q' : keeps h m Q' -> (forall a, Q a = Q' a) -> keeps h m Q.
Proof. intros H E s a s' Hm Hh HI. rewrite E. eauto. Qed.

Lemma keeps_gets h (f : kstate -> A) Q : (forall a, Q a = h) -> keeps h (gets f) Q.
Proof. intros E s a s' [= <- <-] Hh H. by rewrite E. Qed.

Lemma keeps_panic h w (Q : A -> list lockid) : keeps h (panic w) Q.
Proof. done. Qed.

Lemma keeps_undef h w (Q : A -> list lockid) : keeps h (undef w) Q.
Proof. done. Qed.

Lemma keeps_hang h (Q : A -> list lockid) : keeps h hang Q.
Proof. done. Qed.

End Rules.

Section Loops.
Context {A B : Type}.

Lemma keeps_iter n (f : A -> K (A + B)) h Q : (forall a, keeps h (f a) (fun r => match r with inl _ => h | inr b => Q b end)) ->
  forall a, keeps h (iter n f a) Q.
Proof.
  intros Hf. induction n as [|n IH]; intros a; [done|]. cbn [iter]. eapply keeps_bind; [apply Hf|]. intros [a'|b]; [apply IH|by apply keeps_ret].
Qed.

Lemma keeps_for_each (l : list A) f h : (forall a, keeps h (f a) (fun _ => h)) -> keeps h (for_each l f) (fun _ => h).
Proof. intros Hf. induction l as [|a l IH]; [by apply keeps_ret|]. cbn [for_each]. eapply keeps_bind; [apply Hf|]. intros []. apply IH. Qed.

Lemma keeps_for_find (l : list A) (f : A -> K (option B)) h Q : Q None = h -> (forall a, keeps h (f a) Q) -> keeps h (for_find l f) Q.
Proof.
  intros Hn Hf. induction l as [|a l IH]; [by apply keeps_ret|]. cbn [for_find]. eapply keeps_bind; [apply Hf|].
  intros [b|]; [by apply keeps_ret|]. by rewrite Hn.
Qed.

End Loops.

Lemma keeps_get h Q : (forall a, Q a = h) -> keeps h get Q.
Proof. intros E s a s' [= <- <-] Hh H. by rewrite E. Qed.

Lemma keeps_modify h f Q : (forall s, steady s (f s)) -> Q tt = h -> keeps h (modify f) Q.
Proof. intros Hf E s a s' [= <- <-] Hh H. destruct (Hf s) as (H1 & H2 & H3). rewrite E, H1. auto. Qed.

Lemma keeps_acquire {B} h lk (k : K B) Q : (lk ∉ h -> keeps (lk :: h) k Q) -> keeps h (acquire lk ;; k) Q.
Proof.
  intros Hk s b s' H Hh HI. apply bind_inv in H as ([] & s1 & H1 & H2). unfold acquire in H1. destruct (holds lk s) eqn:E; [done|].
  injection H1 as <-. apply bool_decide_eq_false in E. rewrite Hh in E. apply (Hk E _ _ _ H2); [cbn; by rewrite Hh|done].
Qed.

Lemma keeps_acquired h lk Q : Q tt = lk :: h -> keeps h (acquire lk) Q.
Proof. intros E s [] s' H Hh HI. unfold acquire in H. destruct (holds lk s); [done|]. injection H as <-. cbn. by rewrite E, Hh. Qed.

Lemma keeps_release h lk Q : Q tt = drop_lock lk h -> keeps h (release lk) Q.
Proof. intros E s [] s' H Hh HI. unfold release in H. destruct (holds lk s); [|done]. injection H as <-. cbn. rewrite E, Hh. done. Qed.

Lemma keeps_release_bind {B} h lk (k : K B) Q : (lk ∈ h -> keeps (drop_lock lk h) k Q) -> keeps h (release lk ;; k) Q.
Proof.
  intros Hk s b s' H Hh HI. apply bind_inv in H as ([] & s1 & H1 & H2). unfold release in H1. destruct (holds lk s) eqn:E; [|done].
  injection H1 as <-. apply bool_decide_eq_true in E. rewrite Hh in E. apply (Hk E _ _ _ H2); [cbn; by rewrite Hh|done].
Qed.

Lemma drop_lock_ne lk l h : lk <> l -> drop_lock lk (l :: h) = l :: drop_lock lk h.
Proof. intros H. cbn. by rewrite decide_False. Qed.

Lemma pids_upd procs n i f : (forall p, p_pid (f p) = p_pid p) -> pids_ok procs n -> pids_ok (fupd procs i (f (procs i))) n.
Proof.
  intros Hf (Hk & H). split; [done|].
  assert (forall j, p_pid (fupd procs i (f (procs i)) j) = p_pid (procs j)) as Hp.
  { intros j. unfold fupd. destruct (Z.eqb_spec j i) as [->|]; [apply Hf|done]. }
  intros j Hj. rewrite Hp. destruct (H j Hj) as [H1 H2]. split; [done|]. intros j'. rewrite Hp. apply H2.
Qed.

(** Updating a process other than its pid and its kernel stack. *)
Lemma steady_upd_proc i f s : (forall p, p_pid (f p) = p_pid p /\ p_kstack (f p) = p_kstack p) -> steady s (upd_proc i f s).
Proof.
  intros Hf. split; [done|]. split; [done|]. intros [H1 H2 H3 H4]. split; try done.
  - apply pids_upd; [apply Hf|done].
  - intros j Hj. unfold upd_proc. cbn. unfold fupd. destruct (Z.eqb_spec j i) as [->|]; [rewrite (proj2 (Hf _)); auto|auto].
Qed.

(** ** The tactic *)

Create HintDb kp discriminated.
#[export] Hint Constants Opaque : kp.

Lemma same_fields s s' : k_held s' = k_held s -> k_cur s' = k_cur s -> k_procs s' = k_procs s -> k_nextpid s' = k_nextpid s ->
  k_stats s' = k_stats s -> k_swap s' = k_swap s -> steady s s'.
Proof. intros E1 E2 E3 E4 E5 E6. split; [done|]. split; [done|]. unfold kernel_ok. by rewrite E3, E4, E5, E6. Qed.

Ltac kp_steady := first
  [ solve [auto with kp nocore]
  | solve [apply same_fields; reflexivity]
  | apply steady_upd_proc; intros; split; reflexivity ].

Ltac kp_locks := repeat first [rewrite drop_lock_head | rewrite drop_lock_ne by (discriminate || congruence || assumption)].

Ltac kp_leaf := match goal with
  | |- keeps _ (ret _) _ => apply keeps_ret; reflexivity
  | |- keeps _ (panic _) _ => apply keeps_panic
  | |- keeps _ (undef _) _ => apply keeps_undef
  | |- keeps _ hang _ => apply keeps_hang
  | |- keeps _ (gets _) _ => apply keeps_gets; intros; reflexivity
  | |- keeps _ get _ => apply keeps_get; intros; reflexivity
  | |- keeps _ (modify _) _ => apply keeps_modify; [intros; kp_steady | reflexivity]
  | |- keeps _ (acquire _) _ => apply keeps_acquired; reflexivity
  | |- keeps _ (release _) _ => apply keeps_release; kp_locks; reflexivity
  | |- keeps _ _ _ => first
      [ solve [auto with kp nocore]
      | eapply keeps_weaken; [solve [auto with kp nocore] | solve [intros; reflexivity | intros [?|?]; reflexivity]] ]
  end.

Ltac kp := intros; lazy zeta; repeat (lazy zeta;
  match goal with
  | |- keeps _ (bind (acquire _) _) _ => apply keeps_acquire; intros ?
  | |- keeps _ (bind (release _) _) _ => apply keeps_release_bind; intros _; kp_locks
  | |- keeps ?h (bind _ _) _ => apply (keeps_bind h _ _ (fun _ => h)); [|intros ?; cbv beta]
  | |- keeps _ (for_each _ _) _ => apply keeps_for_each; intros ?
  | |- keeps _ (for_find _ _) _ => apply keeps_for_find; [reflexivity | intros ?]
  | |- keeps _ (iter _ _ _) _ => apply keeps_iter; intros ?
  | |- keeps _ (if ?b then _ else _) _ => destruct b
  | |- keeps _ (match ?x with _ => _ end) _ => destruct x
  | |- keeps _ _ _ => kp_leaf
  end).

(** One command that keeps the locks. *)
Ltac kp_skip := match goal with |- keeps ?h (bind _ _) _ => apply (keeps_bind h _ _ (fun _ => h)); [kp | let x := fresh "a" in intros x; cbv beta] end.

Abbreviation bal m := (forall h, keeps h m (fun _ => h)).

Create HintDb kpu.
#[local] Hint Unfold myproc : kpu.
Tactic Notation "by_kp" reference(f) := unfold f; autounfold with kpu; kp.

(** ** Memory and devices *)

Lemma kp_ld64 a : bal (ld64 a).
Proof. intros h s v s' H Hh HI. unfold ld64 in H. destruct (in_ram a 8); by simplify_eq. Qed.
Lemma kp_st64 a v : bal (st64 a v).
Proof. intros h s u s' H Hh HI. unfold st64 in H. destruct (in_ram a 8); by simplify_eq. Qed.
Lemma kp_kmemset a c n : bal (kmemset a c n).
Proof. intros h s u s' H Hh HI. unfold kmemset in H. destruct (in_ram a n); by simplify_eq. Qed.
Lemma kp_kmemmove d a n : bal (kmemmove d a n).
Proof. intros h s u s' H Hh HI. unfold kmemmove in H. destruct (in_ram d n && in_ram a n); by simplify_eq. Qed.
Lemma kp_printf fmt args : bal (printf fmt args).
Proof. intros h s u s' [= <- <-] Hh HI. done. Qed.
Lemma kp_kwrite a bs : bal (kwrite a bs).
Proof. intros h s u s' H Hh HI. unfold kwrite in H. case_match; by simplify_eq. Qed.
Lemma kp_kread a n : bal (kread a n).
Proof. intros h s u s' H Hh HI. unfold kread in H. case_match; by simplify_eq. Qed.
#[local] Hint Resolve kp_ld64 kp_st64 kp_kmemset kp_kmemmove kp_printf kp_kwrite kp_kread : kp.

Section Kernel.
Context {LAY : Layout} {ENV : Env} {SYM : Symbols} {RELY : Rely}.

Lemma keeps_read {A} r (f : Z -> A) : bal (fun s => let '(v, s) := mmio_read r s in Ok (f v) s).
Proof using RELY.
  intros h s a s' H Hh HI. destruct (rely_read r s) as (H1 & H2 & H3). destruct (mmio_read r s) as [v s1]. cbn in *. simplify_eq. auto.
Qed.
#[local] Hint Resolve keeps_read rely_write rely_others : kp.

(** ** Sleeping and waking *)

Lemma kp_curproc_id s i s' : curproc s = Ok i s' -> s' = s.
Proof. unfold curproc, myproc, bind, gets. destruct (k_cur s); [by intros [= _ <-]|done]. Qed.

Lemma kp_curproc : bal curproc.
Proof. by_kp curproc. Qed.
#[local] Hint Resolve kp_curproc : kp.
Lemma kp_sched : bal sched.
Proof using RELY. by_kp sched. Qed.
#[local] Hint Resolve kp_sched : kp.

(** [sched] panics unless exactly one lock is held. *)
Lemma keeps_sched {B} h (k : K B) Q : (length h = 1%nat -> keeps h k Q) -> keeps h (sched ;; k) Q.
Proof using RELY.
  intros Hk s b s' H Hh HI. apply bind_inv in H as ([] & s1 & H1 & H2). destruct (kp_sched h _ _ _ H1 Hh HI) as (E1 & E2 & E3).
  assert (length h = 1%nat) as Hl.
  { apply bind_inv in H1 as (i & s2 & H0 & H1). apply kp_curproc_id in H0 as ->. apply bind_inv in H1 as (? & ? & [= -> ->] & H1).
    destruct (negb (holds _ _)); [done|]. destruct (negb _) eqn:E in H1; [done|]. rewrite Hh in E. apply negb_false_iff, Z.eqb_eq in E. lia. }
  destruct (Hk Hl _ _ _ H2 E1 E3) as (F1 & F2 & F3). split; [done|]. split; [congruence|done].
Qed.

Lemma drop_lock_all lk h : lk ∈ h -> drop_lock lk h = [] -> h = [lk].
Proof. destruct h as [|l h]; [by intros ?%not_elem_of_nil|]. cbn. case_decide; [by subst; intros _ ->|done]. Qed.

(** [sleep] gives its lock away and takes it again; it can only be called with
    that lock alone. *)
Lemma kp_sleep ch lk : bal (sleep ch lk).
Proof using RELY.
  intros h. unfold sleep. kp_skip. rename a into i. apply keeps_acquire. intros Hi.
  apply keeps_release_bind. intros Hlk. destruct (decide (lk = L_proc i)) as [->|Hne].
  - rewrite drop_lock_head. kp_skip. kp_skip. kp_skip.
    kp_skip. by apply keeps_release_bind.
  - rewrite drop_lock_ne by done. kp_skip. kp_skip. apply keeps_sched. intros Hl.
    kp_skip. apply keeps_release_bind. intros _. rewrite drop_lock_head.
    assert (drop_lock lk h = []) as E by (cbn in Hl; destruct (drop_lock lk h); [done|cbn in Hl; lia]). rewrite E.
    apply elem_of_cons in Hlk as [?|Hlk]; [done|]. rewrite (drop_lock_all lk h Hlk E).
    kp.
Qed.
#[local] Hint Resolve kp_sleep : kp.
Lemma kp_yield : bal yield.
Proof. by_kp yield. Qed.
#[local] Hint Resolve kp_yield : kp.
Lemma kp_wake_proc ch i : bal (wake_proc ch i).
Proof. by_kp wake_proc. Qed.
#[local] Hint Resolve kp_wake_proc : kp.
Lemma kp_wakeup ch : bal (wakeup ch).
Proof. by_kp wakeup. Qed.
#[local] Hint Resolve kp_wakeup : kp.
Lemma kp_setkilled i : bal (setkilled i).
Proof. by_kp setkilled. Qed.
#[local] Hint Resolve kp_setkilled : kp.
Lemma kp_killed i : bal (killed i).
Proof. by_kp killed. Qed.
#[local] Hint Resolve kp_killed : kp.
Lemma kp_kkill pid : bal (kkill pid).
Proof. by_kp kkill. Qed.
#[local] Hint Resolve kp_kkill : kp.
Lemma kp_acquiresleep l : bal (acquiresleep l).
Proof. by_kp acquiresleep. Qed.
#[local] Hint Resolve kp_acquiresleep : kp.
Lemma kp_releasesleep l : bal (releasesleep l).
Proof. by_kp releasesleep. Qed.
#[local] Hint Resolve kp_releasesleep : kp.
Lemma kp_holdingsleep l : bal (holdingsleep l).
Proof. by_kp holdingsleep. Qed.
#[local] Hint Resolve kp_holdingsleep : kp.


(** ** Disk, buffers, log *)

#[local] Hint Unfold set_desc set_free set_info_b vget rread rwrite alloc3_desc : kpu.

Lemma kp_alloc_desc : bal alloc_desc.
Proof. by_kp alloc_desc. Qed.
#[local] Hint Resolve kp_alloc_desc : kp.
Lemma kp_free_desc i : bal (free_desc i).
Proof. by_kp free_desc. Qed.
#[local] Hint Resolve kp_free_desc : kp.
Lemma kp_free_next i : bal (free_next i).
Proof. by_kp free_next. Qed.
#[local] Hint Resolve kp_free_next : kp.
Lemma kp_free_chain i : bal (free_chain i).
Proof. by_kp free_chain. Qed.
#[local] Hint Resolve kp_free_chain : kp.
Lemma kp_alloc_descs n : forall got, bal (alloc_descs n got).
Proof. induction n as [|n IH]; intros got h; cbn [alloc_descs]; kp. Qed.
#[local] Hint Resolve kp_alloc_descs : kp.
Lemma kp_format_request d0 d1 d2 b sector write : bal (format_request d0 d1 d2 b sector write).
Proof. by_kp format_request. Qed.
#[local] Hint Resolve kp_format_request : kp.
Lemma kp_submit_request d0 b : bal (submit_request d0 b).
Proof. by_kp submit_request. Qed.
#[local] Hint Resolve kp_submit_request : kp.
Lemma kp_alloc_wait u : bal (alloc_wait u).
Proof. by_kp alloc_wait. Qed.
#[local] Hint Resolve kp_alloc_wait : kp.
Lemma kp_done_wait b u : bal (done_wait b u).
Proof. by_kp done_wait. Qed.
#[local] Hint Resolve kp_done_wait : kp.
Lemma kp_virtio_disk_rw b write : bal (virtio_disk_rw b write).
Proof. by_kp virtio_disk_rw. Qed.
#[local] Hint Resolve kp_virtio_disk_rw : kp.
Lemma kp_intr_one u : bal (intr_one u).
Proof. by_kp intr_one. Qed.
#[local] Hint Resolve kp_intr_one : kp.
Lemma kp_virtio_disk_intr : bal virtio_disk_intr.
Proof. by_kp virtio_disk_intr. Qed.
#[local] Hint Resolve kp_virtio_disk_intr : kp.


#[local] Hint Unfold set_next set_prev buf_of : kpu.

Lemma kp_binsert b : bal (binsert b).
Proof. by_kp binsert. Qed.
#[local] Hint Resolve kp_binsert : kp.
Lemma kp_bremove b : bal (bremove b).
Proof. by_kp bremove. Qed.
#[local] Hint Resolve kp_bremove : kp.
Lemma kp_cached_next dev blockno b : bal (cached_next dev blockno b).
Proof. by_kp cached_next. Qed.
#[local] Hint Resolve kp_cached_next : kp.
Lemma kp_bget_cached dev blockno : bal (bget_cached dev blockno).
Proof. by_kp bget_cached. Qed.
#[local] Hint Resolve kp_bget_cached : kp.
Lemma kp_unused_next b : bal (unused_next b).
Proof. by_kp unused_next. Qed.
#[local] Hint Resolve kp_unused_next : kp.
Lemma kp_bget_unused : bal bget_unused.
Proof. by_kp bget_unused. Qed.
#[local] Hint Resolve kp_bget_unused : kp.
Lemma kp_bget dev blockno : bal (bget dev blockno).
Proof. by_kp bget. Qed.
#[local] Hint Resolve kp_bget : kp.
Lemma kp_bread dev blockno : bal (bread dev blockno).
Proof. by_kp bread. Qed.
#[local] Hint Resolve kp_bread : kp.
Lemma kp_bwrite b : bal (bwrite b).
Proof. by_kp bwrite. Qed.
#[local] Hint Resolve kp_bwrite : kp.
Lemma kp_brelse b : bal (brelse b).
Proof. by_kp brelse. Qed.
#[local] Hint Resolve kp_brelse : kp.
Lemma kp_bpin b : bal (bpin b).
Proof. by_kp bpin. Qed.
#[local] Hint Resolve kp_bpin : kp.
Lemma kp_bunpin b : bal (bunpin b).
Proof. by_kp bunpin. Qed.
#[local] Hint Resolve kp_bunpin : kp.
Lemma kp_data_from_mem b pa n : bal (data_from_mem b pa n).
Proof. by_kp data_from_mem. Qed.
#[local] Hint Resolve kp_data_from_mem : kp.
Lemma kp_data_to_mem pa b n : bal (data_to_mem pa b n).
Proof. by_kp data_to_mem. Qed.
#[local] Hint Resolve kp_data_to_mem : kp.


#[local] Hint Unfold bget32 bput32 lget get_block set_block : kpu.

Lemma kp_copy_data d a : bal (copy_data d a).
Proof. by_kp copy_data. Qed.
#[local] Hint Resolve kp_copy_data : kp.
Lemma kp_install_one recovering tail : bal (install_one recovering tail).
Proof. by_kp install_one. Qed.
#[local] Hint Resolve kp_install_one : kp.
Lemma kp_install_trans recovering : bal (install_trans recovering).
Proof. by_kp install_trans. Qed.
#[local] Hint Resolve kp_install_trans : kp.
Lemma kp_read_head : bal read_head.
Proof. by_kp read_head. Qed.
#[local] Hint Resolve kp_read_head : kp.
Lemma kp_write_head : bal write_head.
Proof. by_kp write_head. Qed.
#[local] Hint Resolve kp_write_head : kp.
Lemma kp_recover_from_log : bal recover_from_log.
Proof. by_kp recover_from_log. Qed.
#[local] Hint Resolve kp_recover_from_log : kp.
Lemma kp_begin_op : bal begin_op.
Proof. by_kp begin_op. Qed.
#[local] Hint Resolve kp_begin_op : kp.
Lemma kp_write_log_one tail : bal (write_log_one tail).
Proof. by_kp write_log_one. Qed.
#[local] Hint Resolve kp_write_log_one : kp.
Lemma kp_write_log : bal write_log.
Proof. by_kp write_log. Qed.
#[local] Hint Resolve kp_write_log : kp.
Lemma kp_commit : bal commit.
Proof. by_kp commit. Qed.
#[local] Hint Resolve kp_commit : kp.
Lemma kp_end_op : bal end_op.
Proof. by_kp end_op. Qed.
#[local] Hint Resolve kp_end_op : kp.
Lemma kp_log_write b : bal (log_write b).
Proof. by_kp log_write. Qed.
#[local] Hint Resolve kp_log_write : kp.

(** ** Pages *)

Lemma kp_run_op o : bal (run_op o).
Proof.
  intros h s [] s' H Hh [H1 H2 H3 H4]. apply run_op_inv in H as [_ ->]. split; [done|]. split; [done|].
  split; try done. by apply op_effect_ok.
Qed.
Definition kp_memstats_inc_cow_fault : bal memstats_inc_cow_fault := kp_run_op OpCowFault.
Definition kp_memstats_inc_cow_shared : bal memstats_inc_cow_shared := kp_run_op OpCowShared.
Definition kp_memstats_inc_swap_out : bal memstats_inc_swap_out := kp_run_op OpSwapOut.
Definition kp_memstats_inc_swap_in : bal memstats_inc_swap_in := kp_run_op OpSwapIn.
Definition kp_memstats_inc_lazy_alloc : bal memstats_inc_lazy_alloc := kp_run_op OpLazyAlloc.
Definition kp_memstats_inc_pages_allocated : bal memstats_inc_pages_allocated := kp_run_op OpAllocated.
Definition kp_memstats_inc_pages_freed : bal memstats_inc_pages_freed := kp_run_op OpFreed.
Definition kp_memstats_inc_page_fault b : bal (memstats_inc_page_fault b) := kp_run_op (OpPageFault b).
Lemma kp_memstats_get : bal memstats_get.
Proof. by_kp memstats_get. Qed.
#[local] Hint Resolve kp_memstats_inc_cow_fault kp_memstats_inc_cow_shared kp_memstats_inc_swap_out kp_memstats_inc_swap_in : kp.
#[local] Hint Resolve kp_memstats_inc_lazy_alloc kp_memstats_inc_pages_allocated kp_memstats_inc_pages_freed kp_memstats_inc_page_fault kp_memstats_get : kp.

#[local] Hint Unfold get_count set_count : kpu.

Lemma kp_pageindex pa : bal (pageindex pa).
Proof. by_kp pageindex. Qed.
#[local] Hint Resolve kp_pageindex : kp.
Lemma kp_krefinc pa : bal (krefinc pa).
Proof. by_kp krefinc. Qed.
#[local] Hint Resolve kp_krefinc : kp.
Lemma kp_krefdec pa : bal (krefdec pa).
Proof. by_kp krefdec. Qed.
#[local] Hint Resolve kp_krefdec : kp.
Lemma kp_krefget pa : bal (krefget pa).
Proof. by_kp krefget. Qed.
#[local] Hint Resolve kp_krefget : kp.
Lemma kp_kfree pa : bal (kfree pa).
Proof. by_kp kfree. Qed.
#[local] Hint Resolve kp_kfree : kp.
Lemma kp_walk_levels ka n : bal ka -> forall pt va alloc, bal (walk_levels ka n pt va alloc).
Proof. intros Hka. induction n as [|n IH]; intros pt va alloc h; cbn [walk_levels]; kp. Qed.
Lemma kp_walk0 pt va : bal (walk0 pt va).
Proof. intros h. unfold walk0, walk_with. kp. apply kp_walk_levels. kp. Qed.

(** The bitmap and its count change together. *)
Lemma acquire_free {A} lk (m : K A) s a s' : (acquire lk ;; m) s = Ok a s' -> lk ∉ k_held s.
Proof. intros H Hl. by rewrite crit_panic in H. Qed.

Lemma steady_swap f s : (swap_ok (k_swap s) -> swap_ok (f (k_swap s))) -> steady s (on_swap f s).
Proof. intros Hf. split; [done|]. split; [done|]. intros [H1 H2 H3 H4]. split; try done. by apply Hf. Qed.

Lemma kp_swapalloc : bal swapalloc.
Proof.
  intros h s r s' H Hh HI. pose proof (acquire_free _ _ _ _ _ H) as Hl. pose proof (ko_swap _ _ _ _ HI) as Hw. unfold swap_ok in Hw.
  destruct (decide (sw_nfree (k_swap s) = 0)) as [E|E]; [rewrite swapalloc_full in H by done; by injection H as <- <-|].
  destruct (first_free_exists (k_swap s)) as [i Hi]; [pose proof (swap_used_bounds (k_swap s)); lia|].
  rewrite (swapalloc_first s i) in H by done. injection H as <- <-. destruct Hi as (H1 & H2 & _).
  destruct (steady_swap (take_block i) s) as (F1 & F2 & F3); [intros; by apply take_block_ok|]. rewrite F1, F2. auto.
Qed.

Lemma kp_swapfree b : bal (swapfree b).
Proof.
  intros h s r s' H Hh HI. assert (0 <= b < SWAP_MAX_BLOCKS) as Hb.
  { unfold swapfree in H. destruct ((b <? 0) || (b >=? SWAP_MAX_BLOCKS)) eqn:E; [done|]. lia. }
  assert (L_swap ∉ k_held s) as Hl.
  { unfold swapfree in H. destruct ((b <? 0) || (b >=? SWAP_MAX_BLOCKS)); [done|]. by apply acquire_free in H. }
  destruct (swap_bit (k_swap s) b) eqn:E; [|by rewrite swapfree_double in H].
  rewrite swapfree_ok in H by done. injection H as <- <-.
  destruct (steady_swap (give_block b) s) as (F1 & F2 & F3); [intros; by apply give_block_ok|]. rewrite F1, F2. auto.
Qed.
#[local] Hint Resolve kp_walk0 kp_swapalloc kp_swapfree : kp.
Lemma kp_swapout pagetable va : bal (swapout pagetable va).
Proof. by_kp swapout. Qed.
#[local] Hint Resolve kp_swapout : kp.
Lemma kp_candidate pagetable va : bal (candidate pagetable va).
Proof. by_kp candidate. Qed.
#[local] Hint Resolve kp_candidate : kp.
(** A victim found: the lock of its process is released in the scan. *)
Lemma kp_scan_pages h i : keeps (L_proc i :: h) (scan_pages i) (fun r => match r with Some _ => h | None => L_proc i :: h end).
Proof using RELY. by_kp scan_pages. Qed.

Lemma kp_select_victim_page : bal select_victim_page.
Proof using RELY.
  intros h. unfold select_victim_page. apply (keeps_bind h _ _ (fun _ => h)); [|kp]. apply keeps_for_find; [done|]. intros i.
  apply keeps_acquire. intros Hi. kp_skip.
  eapply (keeps_bind _ _ _ (fun r => match r with Some _ => h | None => L_proc i :: h end)); [case_decide; [apply kp_scan_pages|kp]|].
  intros [v|]; kp.
Qed.
#[local] Hint Resolve kp_select_victim_page : kp.
Lemma kp_pop_freelist : bal pop_freelist.
Proof. by_kp pop_freelist. Qed.
#[local] Hint Resolve kp_pop_freelist : kp.
Lemma kp_kalloc : bal kalloc.
Proof. by_kp kalloc. Qed.
#[local] Hint Resolve kp_kalloc : kp.
Lemma kp_walk pt va alloc : bal (walk pt va alloc).
Proof using RELY. intros h. unfold walk, walk_with. kp. apply kp_walk_levels, kp_kalloc. Qed.
#[local] Hint Resolve kp_walk : kp.
Lemma kp_swapin pagetable va : bal (swapin pagetable va).
Proof. by_kp swapin. Qed.
#[local] Hint Resolve kp_swapin : kp.

(** ** Virtual memory *)

Lemma kp_walkaddr pagetable va : bal (walkaddr pagetable va).
Proof. by_kp walkaddr. Qed.
#[local] Hint Resolve kp_walkaddr : kp.
Lemma kp_mappages pagetable va size pa perm : bal (mappages pagetable va size pa perm).
Proof. by_kp mappages. Qed.
#[local] Hint Resolve kp_mappages : kp.
Lemma kp_uvmcreate : bal uvmcreate.
Proof. by_kp uvmcreate. Qed.
#[local] Hint Resolve kp_uvmcreate : kp.
Lemma kp_unmap_page pagetable a do_free : bal (unmap_page pagetable a do_free).
Proof. by_kp unmap_page. Qed.
#[local] Hint Resolve kp_unmap_page : kp.
Lemma kp_uvmunmap pagetable va npages do_free : bal (uvmunmap pagetable va npages do_free).
Proof. by_kp uvmunmap. Qed.
#[local] Hint Resolve kp_uvmunmap : kp.
Lemma kp_uvmdealloc pagetable oldsz newsz : bal (uvmdealloc pagetable oldsz newsz).
Proof. by_kp uvmdealloc. Qed.
#[local] Hint Resolve kp_uvmdealloc : kp.
Lemma kp_uvmalloc pagetable oldsz newsz xperm : bal (uvmalloc pagetable oldsz newsz xperm).
Proof. by_kp uvmalloc. Qed.
#[local] Hint Resolve kp_uvmalloc : kp.
Lemma kp_freewalk_levels n : forall pt, bal (freewalk_levels n pt).
Proof using RELY. induction n as [|n IH]; intros pt h; cbn [freewalk_levels]; kp. Qed.
Lemma kp_freewalk pt : bal (freewalk pt).
Proof using RELY. intros h. apply kp_freewalk_levels. Qed.
#[local] Hint Resolve kp_freewalk : kp.
Lemma kp_uvmfree pagetable sz : bal (uvmfree pagetable sz).
Proof. by_kp uvmfree. Qed.
#[local] Hint Resolve kp_uvmfree : kp.
Lemma kp_copy_page old new i : bal (copy_page old new i).
Proof. by_kp copy_page. Qed.
#[local] Hint Resolve kp_copy_page : kp.
Lemma kp_uvmcopy old new sz : bal (uvmcopy old new sz).
Proof. by_kp uvmcopy. Qed.
#[local] Hint Resolve kp_uvmcopy : kp.
Lemma kp_cowfault pagetable va : bal (cowfault pagetable va).
Proof. by_kp cowfault. Qed.
#[local] Hint Resolve kp_cowfault : kp.
Lemma kp_uvmclear pagetable va : bal (uvmclear pagetable va).
Proof. by_kp uvmclear. Qed.
#[local] Hint Resolve kp_uvmclear : kp.
Lemma kp_ismapped pagetable va : bal (ismapped pagetable va).
Proof. by_kp ismapped. Qed.
#[local] Hint Resolve kp_ismapped : kp.
Lemma kp_vmfault pagetable va : bal (vmfault pagetable va).
Proof. by_kp vmfault. Qed.
#[local] Hint Resolve kp_vmfault : kp.
Lemma kp_copyout_page pagetable va0 : bal (copyout_page pagetable va0).
Proof. by_kp copyout_page. Qed.
#[local] Hint Resolve kp_copyout_page : kp.
Lemma kp_copyout pagetable dstva src : bal (copyout pagetable dstva src).
Proof. by_kp copyout. Qed.
#[local] Hint Resolve kp_copyout : kp.
Lemma kp_copyin pagetable srcva len : bal (copyin pagetable srcva len).
Proof. by_kp copyin. Qed.
#[local] Hint Resolve kp_copyin : kp.
Lemma kp_copyinstr pagetable srcva max : bal (copyinstr pagetable srcva max).
Proof. by_kp copyinstr. Qed.
#[local] Hint Resolve kp_copyinstr : kp.
Lemma kp_either_copyout dst src : bal (either_copyout dst src).
Proof. by_kp either_copyout. Qed.
#[local] Hint Resolve kp_either_copyout : kp.
Lemma kp_either_copyin src len : bal (either_copyin src len).
Proof. by_kp either_copyin. Qed.
#[local] Hint Resolve kp_either_copyin : kp.

(** ** File system *)

#[local] Hint Unfold bget8 bput8 bget16 bput16 bytes_of bwrite_bytes bzero_bytes inode_of : kpu.

Lemma kp_bzero dev bno : bal (bzero dev bno).
Proof. by_kp bzero. Qed.
#[local] Hint Resolve kp_bzero : kp.
Lemma kp_balloc_bits bp b size : bal (balloc_bits bp b size).
Proof. by_kp balloc_bits. Qed.
#[local] Hint Resolve kp_balloc_bits : kp.
Lemma kp_balloc_block dev b : bal (balloc_block dev b).
Proof. by_kp balloc_block. Qed.
#[local] Hint Resolve kp_balloc_block : kp.
Lemma kp_balloc dev : bal (balloc dev).
Proof. by_kp balloc. Qed.
#[local] Hint Resolve kp_balloc : kp.
Lemma kp_bfree dev b : bal (bfree dev b).
Proof. by_kp bfree. Qed.
#[local] Hint Resolve kp_bfree : kp.
Lemma kp_iget_scan dev inum : bal (iget_scan dev inum).
Proof. by_kp iget_scan. Qed.
#[local] Hint Resolve kp_iget_scan : kp.
Lemma kp_iget dev inum : bal (iget dev inum).
Proof. by_kp iget. Qed.
#[local] Hint Resolve kp_iget : kp.
Lemma kp_ialloc dev type : bal (ialloc dev type).
Proof. by_kp ialloc. Qed.
#[local] Hint Resolve kp_ialloc : kp.
Lemma kp_iupdate ip : bal (iupdate ip).
Proof. by_kp iupdate. Qed.
#[local] Hint Resolve kp_iupdate : kp.
Lemma kp_idup ip : bal (idup ip).
Proof. by_kp idup. Qed.
#[local] Hint Resolve kp_idup : kp.
Lemma kp_ilock ip : bal (ilock ip).
Proof. by_kp ilock. Qed.
#[local] Hint Resolve kp_ilock : kp.
Lemma kp_iunlock ip : bal (iunlock ip).
Proof. by_kp iunlock. Qed.
#[local] Hint Resolve kp_iunlock : kp.
Lemma kp_set_addr ip j a : bal (set_addr ip j a).
Proof. by_kp set_addr. Qed.
#[local] Hint Resolve kp_set_addr : kp.
Lemma kp_bmap_entry dev ind bn : bal (bmap_entry dev ind bn).
Proof. by_kp bmap_entry. Qed.
#[local] Hint Resolve kp_bmap_entry : kp.
Lemma kp_bmap ip bn : bal (bmap ip bn).
Proof. by_kp bmap. Qed.
#[local] Hint Resolve kp_bmap : kp.
Lemma kp_itrunc_direct ip i : bal (itrunc_direct ip i).
Proof. by_kp itrunc_direct. Qed.
#[local] Hint Resolve kp_itrunc_direct : kp.
Lemma kp_itrunc_indirect ip : bal (itrunc_indirect ip).
Proof. by_kp itrunc_indirect. Qed.
#[local] Hint Resolve kp_itrunc_indirect : kp.
Lemma kp_itrunc ip : bal (itrunc ip).
Proof. by_kp itrunc. Qed.
#[local] Hint Resolve kp_itrunc : kp.
Lemma kp_iput ip : bal (iput ip).
Proof. by_kp iput. Qed.
#[local] Hint Resolve kp_iput : kp.
Lemma kp_iunlockput ip : bal (iunlockput ip).
Proof. by_kp iunlockput. Qed.
#[local] Hint Resolve kp_iunlockput : kp.
Lemma kp_stati ip : bal (stati ip).
Proof. by_kp stati. Qed.
#[local] Hint Resolve kp_stati : kp.
Lemma kp_readi ip dst off n : bal (readi ip dst off n).
Proof. by_kp readi. Qed.
#[local] Hint Resolve kp_readi : kp.
Lemma kp_writei ip src off n : bal (writei ip src off n).
Proof. by_kp writei. Qed.
#[local] Hint Resolve kp_writei : kp.
Lemma kp_read_dirent dp off who : bal (read_dirent dp off who).
Proof. by_kp read_dirent. Qed.
#[local] Hint Resolve kp_read_dirent : kp.
Lemma kp_dirlookup dp name : bal (dirlookup dp name).
Proof. by_kp dirlookup. Qed.
#[local] Hint Resolve kp_dirlookup : kp.
Lemma kp_dirlink dp name inum : bal (dirlink dp name inum).
Proof. by_kp dirlink. Qed.
#[local] Hint Resolve kp_dirlink : kp.
Lemma kp_namex path nameiparent name : bal (namex path nameiparent name).
Proof. by_kp namex. Qed.
#[local] Hint Resolve kp_namex : kp.
Lemma kp_namei path : bal (namei path).
Proof. by_kp namei. Qed.
#[local] Hint Resolve kp_namei : kp.
Lemma kp_nameiparent path : bal (nameiparent path).
Proof. by_kp nameiparent. Qed.
#[local] Hint Resolve kp_nameiparent : kp.


(** ** Console, pipes, files *)

#[local] Hint Unfold ReadReg WriteReg cget : kpu.

Lemma kp_uartwrite buf : bal (uartwrite buf).
Proof. by_kp uartwrite. Qed.
#[local] Hint Resolve kp_uartwrite : kp.
Lemma kp_uartputc_sync c : bal (uartputc_sync c).
Proof. by_kp uartputc_sync. Qed.
#[local] Hint Resolve kp_uartputc_sync : kp.
Lemma kp_uartgetc : bal uartgetc.
Proof. by_kp uartgetc. Qed.
#[local] Hint Resolve kp_uartgetc : kp.
Lemma kp_consputc c : bal (consputc c).
Proof. by_kp consputc. Qed.
#[local] Hint Resolve kp_consputc : kp.
Lemma kp_procdump : bal procdump.
Proof. by_kp procdump. Qed.
#[local] Hint Resolve kp_procdump : kp.
Lemma kp_kill_line : bal kill_line.
Proof. by_kp kill_line. Qed.
#[local] Hint Resolve kp_kill_line : kp.
Lemma kp_consoleintr c : bal (consoleintr c).
Proof. by_kp consoleintr. Qed.
#[local] Hint Resolve kp_consoleintr : kp.
Lemma kp_uartintr : bal uartintr.
Proof. by_kp uartintr. Qed.
#[local] Hint Resolve kp_uartintr : kp.
Lemma kp_consolewrite src n : bal (consolewrite src n).
Proof. by_kp consolewrite. Qed.
#[local] Hint Resolve kp_consolewrite : kp.
Lemma kp_wait_input : bal wait_input.
Proof. by_kp wait_input. Qed.
#[local] Hint Resolve kp_wait_input : kp.
Lemma kp_consoleread dst n : bal (consoleread dst n).
Proof. by_kp consoleread. Qed.
#[local] Hint Resolve kp_consoleread : kp.


#[local] Hint Unfold pipe_of : kpu.

Lemma kp_pipeclose pi writable : bal (pipeclose pi writable).
Proof. by_kp pipeclose. Qed.
#[local] Hint Resolve kp_pipeclose : kp.
Lemma kp_pipewrite_one pr pi addr i : bal (pipewrite_one pr pi addr i).
Proof. by_kp pipewrite_one. Qed.
#[local] Hint Resolve kp_pipewrite_one : kp.
Lemma kp_pipewrite pi addr n : bal (pipewrite pi addr n).
Proof. by_kp pipewrite. Qed.
#[local] Hint Resolve kp_pipewrite : kp.
Lemma kp_pipe_wait pr pi : bal (pipe_wait pr pi).
Proof. by_kp pipe_wait. Qed.
#[local] Hint Resolve kp_pipe_wait : kp.
Lemma kp_pipe_copy pr pi addr n : bal (pipe_copy pr pi addr n).
Proof. by_kp pipe_copy. Qed.
#[local] Hint Resolve kp_pipe_copy : kp.
Lemma kp_piperead pi addr n : bal (piperead pi addr n).
Proof. by_kp piperead. Qed.
#[local] Hint Resolve kp_piperead : kp.


#[local] Hint Unfold file_of ip_of : kpu.

Lemma kp_filealloc : bal filealloc.
Proof.
  intros h. unfold filealloc. apply keeps_acquire. intros Hl.
  apply (keeps_bind _ _ _ (fun r => match r with Some _ => h | None => L_ftable :: h end)); [by_kp file_of|]. intros [f|]; kp.
Qed.
#[local] Hint Resolve kp_filealloc : kp.
Lemma kp_filedup f : bal (filedup f).
Proof. by_kp filedup. Qed.
#[local] Hint Resolve kp_filedup : kp.
Lemma kp_fileclose f : bal (fileclose f).
Proof. by_kp fileclose. Qed.
#[local] Hint Resolve kp_fileclose : kp.
Lemma kp_filestat f addr : bal (filestat f addr).
Proof. by_kp filestat. Qed.
#[local] Hint Resolve kp_filestat : kp.
Lemma kp_dev_ok x : bal (dev_ok x).
Proof. by_kp dev_ok. Qed.
#[local] Hint Resolve kp_dev_ok : kp.
Lemma kp_fileread f addr n : bal (fileread f addr n).
Proof. by_kp fileread. Qed.
#[local] Hint Resolve kp_fileread : kp.
Lemma kp_filewrite_chunk f ip addr i n1 : bal (filewrite_chunk f ip addr i n1).
Proof. by_kp filewrite_chunk. Qed.
#[local] Hint Resolve kp_filewrite_chunk : kp.
Lemma kp_filewrite f addr n : bal (filewrite f addr n).
Proof. by_kp filewrite. Qed.
#[local] Hint Resolve kp_filewrite : kp.
Lemma kp_initlock lk : keeps [] (initlock lk) (fun _ => []).
Proof. intros s a s' [= <- <-] Hh HI. cbn. by rewrite Hh. Qed.
#[local] Hint Resolve kp_initlock : kp.

(** The lock of a new pipe is not one that is held. *)
Lemma kp_pipealloc : keeps [] pipealloc (fun _ => []).
Proof. by_kp pipealloc. Qed.
#[local] Hint Resolve kp_pipealloc : kp.

(** ** Processes *)

Lemma kp_pset i f : (forall p, p_pid (f p) = p_pid p /\ p_kstack (f p) = p_kstack p) -> bal (pset i f).
Proof. intros Hf h. apply keeps_modify; [intros; by apply steady_upd_proc|done]. Qed.
#[local] Hint Extern 1 (keeps _ (pset _ _) _) => apply kp_pset; intros; split; reflexivity : kp.

#[local] Hint Unfold pget cpuid set_ofile : kpu.

Lemma kp_tf_get i r : bal (tf_get i r).
Proof. by_kp tf_get. Qed.
#[local] Hint Resolve kp_tf_get : kp.
Lemma kp_tf_set i r v : bal (tf_set i r v).
Proof. by_kp tf_set. Qed.
#[local] Hint Resolve kp_tf_set : kp.
Lemma kp_proc_pagetable i : bal (proc_pagetable i).
Proof. by_kp proc_pagetable. Qed.
#[local] Hint Resolve kp_proc_pagetable : kp.
Lemma kp_proc_freepagetable pagetable sz : bal (proc_freepagetable pagetable sz).
Proof. by_kp proc_freepagetable. Qed.
#[local] Hint Resolve kp_proc_freepagetable : kp.
Lemma kp_growproc n : bal (growproc n).
Proof. by_kp growproc. Qed.
#[local] Hint Resolve kp_growproc : kp.
Lemma kp_fork_files i np : bal (fork_files i np).
Proof. by_kp fork_files. Qed.
#[local] Hint Resolve kp_fork_files : kp.
Lemma kp_wakeup_proc p : bal (wakeup_proc p).
Proof. by_kp wakeup_proc. Qed.
#[local] Hint Resolve kp_wakeup_proc : kp.
Lemma kp_reparent i : bal (reparent i).
Proof. by_kp reparent. Qed.
#[local] Hint Resolve kp_reparent : kp.

(** A freed entry has no pid. *)
Lemma steady_no_pid i s : steady s (upd_proc i (p_set_pid 0) s).
Proof.
  split; [done|]. split; [done|]. intros [(Hn & Hp) H2 H3 H4]. split; try done.
  - split; [done|]. intros j Hj. unfold upd_proc. cbn. unfold fupd.
    destruct (Z.eqb_spec j i) as [->|Hne]; [cbn; split; [lia|done]|]. destruct (Hp j Hj) as [Hp1 Hp2]. split; [done|].
    intros j' Hj' H0. destruct (Z.eqb_spec j' i); [cbn; congruence|by apply Hp2].
  - intros j Hj. unfold upd_proc. cbn. unfold fupd. destruct (Z.eqb_spec j i) as [->|]; cbn; auto.
Qed.

Lemma kp_no_pid i : bal (pset i (p_set_pid 0)).
Proof. intros h. apply keeps_modify; [intros; apply steady_no_pid|done]. Qed.
#[local] Hint Resolve kp_no_pid : kp.

Lemma kp_freeproc i : bal (freeproc i).
Proof. by_kp freeproc. Qed.
#[local] Hint Resolve kp_freeproc : kp.

Lemma allocpid_inv s pid s' : allocpid s = Ok pid s' -> pid = k_nextpid s /\ k_nextpid s < INT_MAX /\ s' = k_set_nextpid (k_nextpid s + 1) s.
Proof.
  intros H. pose proof (acquire_free _ _ _ _ _ H) as Hl. unfold allocpid in H. rewrite (bind_ok _ _ _ _ _ (acquire_ok L_pid s Hl)) in H.
  erewrite bind_ok in H by reflexivity. cbn [k_nextpid k_set_held] in H. destruct (Z.ltb_spec (k_nextpid s) INT_MAX) as [Hn|]; [|done].
  erewrite bind_ok in H by reflexivity. erewrite bind_ok in H by (by apply (release_head L_pid (k_held s))). injection H as <- <-.
  split; [done|]. split; [done|by destruct s].
Qed.

(** A new process gets a pid that no other one has. *)
Lemma keeps_allocpid {B} h i (k : K B) Q : keeps h k Q -> keeps h (pid <- allocpid ;; pset i (p_set_pid pid) ;; k) Q.
Proof.
  intros Hk s b s' H Hh HI. apply bind_inv in H as (pid & s1 & H1 & H). apply allocpid_inv in H1 as (-> & Hlt & ->).
  apply bind_inv in H as ([] & s2 & [= <-] & H). apply (Hk _ _ _ H Hh). destruct HI as [(Hn & Hp) H2 H3 H4]. split; try done.
  - split; [cbn; lia|]. cbn. intros j Hj. unfold fupd.
    destruct (Z.eqb_spec j i) as [->|Hne]; cbn.
    + split; [lia|]. intros j' Hj' _. destruct (Z.eqb_spec j' i); [done|]. destruct (Hp j' Hj') as [? _]. lia.
    + destruct (Hp j Hj) as [Hp1 Hp2]. split; [lia|]. intros j' Hj' H0. destruct (Z.eqb_spec j' i); cbn; [lia|by apply Hp2].
  - intros j Hj. unfold upd_proc. cbn. unfold fupd. destruct (Z.eqb_spec j i) as [->|]; cbn; auto.
Qed.

(** The entry that is found comes back locked. *)
Lemma kp_find_unused h : keeps h find_unused (fun r => match r with Some i => L_proc i :: h | None => h end).
Proof. by_kp find_unused. Qed.

Lemma kp_allocproc h : keeps h allocproc (fun r => match r with Some i => L_proc i :: h | None => h end).
Proof.
  unfold allocproc. eapply keeps_bind; [apply kp_find_unused|]. intros [i|]; [|kp]. apply keeps_allocpid. autounfold with kpu. kp.
Qed.

Lemma kp_kfork : bal kfork.
Proof.
  intros h. unfold kfork. kp_skip. eapply keeps_bind; [apply kp_allocproc|]. intros [np|]; [|kp]. autounfold with kpu. kp.
Qed.

(** [kexit] does not return. *)
Lemma kp_kexit {A} st h Q : keeps h (kexit (A := A) st) Q.
Proof. intros s a s' H. apply bind_inv in H as (? & ? & _ & H). by apply bind_inv in H as (? & ? & _ & H). Qed.
#[local] Hint Resolve kp_kfork kp_kexit : kp.

(** The scan of [kwait] returns a value without [wait_lock], or goes on with it. *)
Lemma kp_wait_one h i addr j : keeps (L_wait :: h) (wait_one i addr j) (fun r => match r with Some _ => h | None => L_wait :: h end).
Proof. by_kp wait_one. Qed.

Lemma kp_wait_scan h i addr l : forall kids, keeps (L_wait :: h) (wait_scan i addr l kids) (fun r => match r with inl _ => h | inr _ => L_wait :: h end).
Proof.
  induction l as [|j l IH]; intros kids; cbn [wait_scan]; [kp|]. autounfold with kpu. kp_skip. case_decide; [|apply IH].
  eapply keeps_bind; [apply kp_wait_one|]. intros [v|]; [kp|apply IH].
Qed.

Lemma kp_kwait addr : bal (kwait addr).
Proof.
  intros h. unfold kwait. kp_skip. apply keeps_acquire. intros Hw. apply keeps_iter. intros _.
  eapply keeps_bind; [apply kp_wait_scan|]. intros [v|kids]; kp.
Qed.
#[local] Hint Resolve kp_kwait : kp.

(** ** Programs and system calls *)

Lemma kp_loadseg pagetable va ip offset sz : bal (loadseg pagetable va ip offset sz).
Proof. by_kp loadseg. Qed.
#[local] Hint Resolve kp_loadseg : kp.
Lemma kp_load_ph pagetable ip off sz : bal (load_ph pagetable ip off sz).
Proof. by_kp load_ph. Qed.
#[local] Hint Resolve kp_load_ph : kp.
Lemma kp_load_segments pagetable ip elf : bal (load_segments pagetable ip elf).
Proof. by_kp load_segments. Qed.
#[local] Hint Resolve kp_load_segments : kp.
Lemma kp_exec_bad pagetable sz ip : bal (exec_bad pagetable sz ip).
Proof. by_kp exec_bad. Qed.
#[local] Hint Resolve kp_exec_bad : kp.
Lemma kp_push_args pt base argv : forall sp ustack, bal (push_args pt base argv sp ustack).
Proof. induction argv as [|a argv IH]; intros sp ustack h; cbn [push_args]; kp. Qed.
#[local] Hint Resolve kp_push_args : kp.
Lemma kp_exec_stack pagetable sz argv : bal (exec_stack pagetable sz argv).
Proof. by_kp exec_stack. Qed.
#[local] Hint Resolve kp_exec_stack : kp.
Lemma kp_exec_commit i path elf pagetable sz sp oldsz : bal (exec_commit i path elf pagetable sz sp oldsz).
Proof. by_kp exec_commit. Qed.
#[local] Hint Resolve kp_exec_commit : kp.
Lemma kp_exec_finish i path argv elf pagetable sz : bal (exec_finish i path argv elf pagetable sz).
Proof. by_kp exec_finish. Qed.
#[local] Hint Resolve kp_exec_finish : kp.
Lemma kp_kexec path argv : bal (kexec path argv).
Proof. by_kp kexec. Qed.
#[local] Hint Resolve kp_kexec : kp.

Lemma kp_fetchaddr addr : bal (fetchaddr addr).
Proof. by_kp fetchaddr. Qed.
#[local] Hint Resolve kp_fetchaddr : kp.
Lemma kp_fetchstr addr max : bal (fetchstr addr max).
Proof. by_kp fetchstr. Qed.
#[local] Hint Resolve kp_fetchstr : kp.
Lemma kp_argraw n : bal (argraw n).
Proof. by_kp argraw. Qed.
#[local] Hint Resolve kp_argraw : kp.
Lemma kp_argint n : bal (argint n).
Proof. by_kp argint. Qed.
#[local] Hint Resolve kp_argint : kp.
Lemma kp_argaddr n : bal (argaddr n).
Proof. by_kp argaddr. Qed.
#[local] Hint Resolve kp_argaddr : kp.
Lemma kp_argstr n max : bal (argstr n max).
Proof. by_kp argstr. Qed.
#[local] Hint Resolve kp_argstr : kp.
Lemma kp_sys_exit : bal sys_exit.
Proof. by_kp sys_exit. Qed.
#[local] Hint Resolve kp_sys_exit : kp.
Lemma kp_sys_getpid : bal sys_getpid.
Proof. by_kp sys_getpid. Qed.
#[local] Hint Resolve kp_sys_getpid : kp.
Lemma kp_sys_fork : bal sys_fork.
Proof. by_kp sys_fork. Qed.
#[local] Hint Resolve kp_sys_fork : kp.
Lemma kp_sys_wait : bal sys_wait.
Proof. by_kp sys_wait. Qed.
#[local] Hint Resolve kp_sys_wait : kp.
Lemma kp_sys_sbrk : bal sys_sbrk.
Proof. by_kp sys_sbrk. Qed.
#[local] Hint Resolve kp_sys_sbrk : kp.
Lemma kp_sys_pause : bal sys_pause.
Proof. by_kp sys_pause. Qed.
#[local] Hint Resolve kp_sys_pause : kp.
Lemma kp_sys_kill : bal sys_kill.
Proof. by_kp sys_kill. Qed.
#[local] Hint Resolve kp_sys_kill : kp.
Lemma kp_sys_uptime : bal sys_uptime.
Proof. by_kp sys_uptime. Qed.
#[local] Hint Resolve kp_sys_uptime : kp.
Lemma kp_sys_memstats : bal sys_memstats.
Proof. by_kp sys_memstats. Qed.
#[local] Hint Resolve kp_sys_memstats : kp.
Lemma kp_argfd n : bal (argfd n).
Proof. by_kp argfd. Qed.
#[local] Hint Resolve kp_argfd : kp.
Lemma kp_fdalloc f : bal (fdalloc f).
Proof. by_kp fdalloc. Qed.
#[local] Hint Resolve kp_fdalloc : kp.
Lemma kp_sys_dup : bal sys_dup.
Proof. by_kp sys_dup. Qed.
#[local] Hint Resolve kp_sys_dup : kp.
Lemma kp_sys_read : bal sys_read.
Proof. by_kp sys_read. Qed.
#[local] Hint Resolve kp_sys_read : kp.
Lemma kp_sys_write : bal sys_write.
Proof. by_kp sys_write. Qed.
#[local] Hint Resolve kp_sys_write : kp.
Lemma kp_sys_close : bal sys_close.
Proof. by_kp sys_close. Qed.
#[local] Hint Resolve kp_sys_close : kp.
Lemma kp_sys_fstat : bal sys_fstat.
Proof. by_kp sys_fstat. Qed.
#[local] Hint Resolve kp_sys_fstat : kp.
Lemma kp_link_bad ip : bal (link_bad ip).
Proof. by_kp link_bad. Qed.
#[local] Hint Resolve kp_link_bad : kp.
Lemma kp_sys_link : bal sys_link.
Proof. by_kp sys_link. Qed.
#[local] Hint Resolve kp_sys_link : kp.
Lemma kp_isdirempty dp : bal (isdirempty dp).
Proof. by_kp isdirempty. Qed.
#[local] Hint Resolve kp_isdirempty : kp.
Lemma kp_unlink_bad dp : bal (unlink_bad dp).
Proof. by_kp unlink_bad. Qed.
#[local] Hint Resolve kp_unlink_bad : kp.
Lemma kp_unlink_entry dp ip off : bal (unlink_entry dp ip off).
Proof. by_kp unlink_entry. Qed.
#[local] Hint Resolve kp_unlink_entry : kp.
Lemma kp_sys_unlink : bal sys_unlink.
Proof. by_kp sys_unlink. Qed.
#[local] Hint Resolve kp_sys_unlink : kp.
Lemma kp_create_fail dp ip : bal (create_fail dp ip).
Proof. by_kp create_fail. Qed.
#[local] Hint Resolve kp_create_fail : kp.
Lemma kp_create_links dp ip name type : bal (create_links dp ip name type).
Proof. by_kp create_links. Qed.
#[local] Hint Resolve kp_create_links : kp.
Lemma kp_create path type major minor : bal (create path type major minor).
Proof. by_kp create. Qed.
#[local] Hint Resolve kp_create : kp.
Lemma kp_open_inode path omode : bal (open_inode path omode).
Proof. by_kp open_inode. Qed.
#[local] Hint Resolve kp_open_inode : kp.
Lemma kp_open_fd : bal open_fd.
Proof. by_kp open_fd. Qed.
#[local] Hint Resolve kp_open_fd : kp.
Lemma kp_sys_open : bal sys_open.
Proof. by_kp sys_open. Qed.
#[local] Hint Resolve kp_sys_open : kp.
Lemma kp_sys_mkdir : bal sys_mkdir.
Proof. by_kp sys_mkdir. Qed.
#[local] Hint Resolve kp_sys_mkdir : kp.
Lemma kp_sys_mknod : bal sys_mknod.
Proof. by_kp sys_mknod. Qed.
#[local] Hint Resolve kp_sys_mknod : kp.
Lemma kp_sys_chdir : bal sys_chdir.
Proof. by_kp sys_chdir. Qed.
#[local] Hint Resolve kp_sys_chdir : kp.
Lemma kp_fetch_argv n : forall uargv i argv, bal (fetch_argv n uargv i argv).
Proof. induction n as [|n IH]; intros uargv i argv h; cbn [fetch_argv]; kp. Qed.
#[local] Hint Resolve kp_fetch_argv : kp.
Lemma kp_sys_exec : bal sys_exec.
Proof. by_kp sys_exec. Qed.
#[local] Hint Resolve kp_sys_exec : kp.

Lemma kp_sys_pipe : keeps [] sys_pipe (fun _ => []).
Proof. by_kp sys_pipe. Qed.
#[local] Hint Resolve kp_sys_pipe : kp.

Lemma kp_syscalls num f : syscalls num = Some f -> keeps [] f (fun _ => []).
Proof. unfold syscalls. intros H. repeat case_match; simplify_eq; kp_leaf. Qed.

Lemma kp_syscall : keeps [] syscall (fun _ => []).
Proof.
  unfold syscall. kp_skip. kp_skip. lazy zeta. destruct (syscalls (s32 a0)) as [f|] eqn:E; [|autounfold with kpu; kp].
  apply (keeps_bind _ _ _ (fun _ => [])); [by apply (kp_syscalls _ _ E)|]. intros v. kp.
Qed.
#[local] Hint Resolve kp_syscall : kp.

(** ** Traps *)

#[local] Hint Unfold intr_on intr_off intr_get csr wcsr : kpu.

Lemma kp_plic_claim : bal plic_claim.
Proof. by_kp plic_claim. Qed.
#[local] Hint Resolve kp_plic_claim : kp.
Lemma kp_plic_complete irq : bal (plic_complete irq).
Proof. by_kp plic_complete. Qed.
#[local] Hint Resolve kp_plic_complete : kp.
Lemma kp_prepare_return : bal prepare_return.
Proof. by_kp prepare_return. Qed.
#[local] Hint Resolve kp_prepare_return : kp.
Lemma kp_clockintr : bal clockintr.
Proof. by_kp clockintr. Qed.
#[local] Hint Resolve kp_clockintr : kp.
Lemma kp_devintr : bal devintr.
Proof. by_kp devintr. Qed.
#[local] Hint Resolve kp_devintr : kp.
Lemma kp_fault_pte pagetable va : bal (fault_pte pagetable va).
Proof. by_kp fault_pte. Qed.
#[local] Hint Resolve kp_fault_pte : kp.
Lemma kp_store_fault i : bal (store_fault i).
Proof. by_kp store_fault. Qed.
#[local] Hint Resolve kp_store_fault : kp.
Lemma kp_load_fault i : bal (load_fault i).
Proof. by_kp load_fault. Qed.
#[local] Hint Resolve kp_load_fault : kp.
Lemma kp_kerneltrap : bal kerneltrap.
Proof. by_kp kerneltrap. Qed.
#[local] Hint Resolve kp_kerneltrap : kp.


Lemma kp_dispatch i : keeps [] (dispatch i) (fun _ => []).
Proof. by_kp dispatch. Qed.
#[local] Hint Resolve kp_dispatch : kp.

Lemma kp_usertrap : keeps [] usertrap (fun _ => []).
Proof. by_kp usertrap. Qed.

End Kernel.

(** ** The invariant after boot *)

Lemma swap_empty : swap_ok (mkSwap (fun _ => 0) SWAP_MAX_BLOCKS).
Proof. by vm_compute. Qed.

(** The table while [procinit] is at entry [k]. *)
Definition fresh_table (k : Z) (s : kstate) : Prop :=
  k_nextpid s = 1 /\ stats_ok (k_stats s) /\ (forall i, p_pid (k_procs s i) = 0) /\ (forall i, 0 <= i < k -> p_kstack (k_procs s i) = KSTACK i).

Lemma procinit_fresh s : fresh_table 0 s -> exists s', procinit s = Ok tt s' /\ fresh_table NPROC s'.
Proof.
  intros HI. unfold procinit. erewrite bind_ok by reflexivity. erewrite bind_ok by reflexivity.
  apply (for_each_seqZ fresh_table); [done| |exact HI]. intros k s1 Hk (H1 & H2 & H3 & H4). eexists. split; [reflexivity|].
  split; [done|]. split; [done|]. cbn. split; intros i; unfold fupd; cbn.
  - repeat (case_match; cbn); auto.
  - intros Hi. destruct (Z.eqb_spec i k) as [->|]; cbn; [done|]. apply H4. lia.
Qed.

(** The initial values of the C variables, and what [main] and [forkret] run
    before a program does, establish the invariant. *)
Lemma boot_ok s : k_nextpid s = 1 -> (forall i, p_pid (k_procs s i) = 0) ->
  exists s', (memstats_init ;; procinit ;; swapinit) s = Ok tt s' /\ kernel_ok s'.
Proof.
  intros Hn Hp. erewrite bind_ok by reflexivity. set (s1 := on_stats _ _).
  assert (stats_ok zero_stats) as Hz by (split; [by apply (bool_decide_unpack _)|done]).
  destruct (procinit_fresh s1) as (s2 & E & H1 & H2 & H3 & H4); [split; [done|]; split; [done|]; split; [done|lia]|].
  rewrite (bind_ok _ _ _ _ _ E). eexists. split; [reflexivity|]. split; [|exact H4|exact H2|exact swap_empty].
  cbn. rewrite H1. split; [done|]. intros i Hi. rewrite H3. split; [lia|done].
Qed.

(** ** Theorem *)

(** C6. The discipline of the kernel.  Whatever a process does to enter the
    kernel (a system call of any kind, a page fault, an interrupt), if the trap
    returns, every spin lock taken on the way has been released, the same
    process is running, every pid is below the next one and no two processes have
    the same, every process has its own kernel stack, the statistics add up and
    the swap bitmap agrees with its count; other processes and the devices are
    only assumed to respect the same discipline while this one sleeps. *)
Theorem usertrap_discipline {LAY : Layout} {ENV : Env} {SYM : Symbols} (s : kstate) (r : Z) (s' : kstate) :
  Rely -> kernel_ok s -> k_held s = [] -> usertrap s = Ok r s' ->
  k_held s' = [] /\ k_cur s' = k_cur s /\ kernel_ok s'.
Proof. intros RELY HI Hh H. exact (kp_usertrap s r s' H Hh HI). Qed.

#[local] Instance sample_rely : Rely.
Proof. by split. Qed.

#[local] Instance sample_symbols : Symbols := {| a_forkret := 0; a_kernelvec := 0; a_usertrap := 0; a_uservec := 0; a_userret := 0 |}.

(** Process 0 calls [getpid]. *)
Definition trapping : kstate :=
  k_set_procs (fun i => mkProc (if i =? 0 then RUNNING else UNUSED) NoChan 0 0 (if i =? 0 then 1 else 0) None (KSTACK i) 0 pgB pgA
                          (mkContext 0 0 (fun _ => 0)) (fun _ => None) None [])
    (k_set_cur (Some 0) (k_set_nextpid 2 (k_set_csr (mkCsrs 0 0 8 0 0 0 0 0 0) (k_set_mem (store64 (fun _ => 0) (pgA + TF_a7) 11) zero_state)))).

Lemma trapping_ok : kernel_ok trapping.
Proof.
  split; [|done|split; [by apply (bool_decide_unpack _)|done]|exact swap_empty]. split; [done|]. intros i Hi. cbn.
  destruct (Z.eqb_spec i 0) as [->|]; cbn; split; try lia. intros j Hj _. destruct (Z.eqb_spec j 0); [done|lia].
Qed.

Lemma trapping_returns : exists r s', usertrap trapping = Ok r s'.
Proof.
  assert (match usertrap trapping with Ok _ _ => true | _ => false end = true) as H by (by vm_compute).
  destruct (usertrap trapping) as [r s'| | |]; [by exists r, s'|done..].
Qed.

Lemma usertrap_discipline_witness : exists r s', usertrap trapping = Ok r s' /\ k_held s' = [] /\ kernel_ok s'.
Proof.
  destruct trapping_returns as (r & s' & E). exists r, s'.
  destruct (usertrap_discipline trapping r s' sample_rely trapping_ok eq_refl E) as (H1 & _ & H3). exact (conj E (conj H1 H3)).
Defined.
