(* ===== verification/Boot.v ===== *)
(** * Booting (kernel/start.c, main.c, and the set-up of vm.c and virtio_disk.c)

    [start] runs in machine mode on the registers of [mcsrs] and leaves for
    [main], which initialises the components and releases the other harts. *)

From S2P Require Import Prelude Riscv Mem KState Memstats Sched Virtio Bio Log PhysMem Vm.
From S2P Require Import Vm Fs Console Pipe File Proc Exec Syscall Trap.

(** ** start.c *)

Definition MSTATUS_MPP_MASK : Z := Z.shiftl 3 11.
Definition MSTATUS_MPP_S : Z := Z.shiftl 1 11.
Definition SIE_SEIE : Z := Z.shiftl 1 9.
Definition SIE_STIE : Z := Z.shiftl 1 5.
Definition MIE_STIE : Z := Z.shiftl 1 5.

(** The machine-mode registers, with [sie] and [mhartid]. *)
Record mcsrs : Type := mkMcsrs {
  m_mstatus : Z; m_mepc : Z; m_medeleg : Z; m_mideleg : Z; m_sie : Z; m_pmpaddr0 : Z; m_pmpcfg0 : Z;
  m_mie : Z; m_menvcfg : Z; m_mcounteren : Z; m_mhartid : Z
}.

Definition timerinit (m : mcsrs) (c : csrs) : mcsrs * csrs :=
  (mkMcsrs (m_mstatus m) (m_mepc m) (m_medeleg m) (m_mideleg m) (m_sie m) (m_pmpaddr0 m) (m_pmpcfg0 m)
     (Z.lor (m_mie m) MIE_STIE) (Z.lor (m_menvcfg m) (Z.shiftl 1 63)) (Z.lor (m_mcounteren m) 2) (m_mhartid m),
   cs_set_stimecmp (u64 (cs_time c + 1000000)) c).

(** Up to the [mret]; [a_main] is the address of [main]. *)
Definition start (a_main : Z) (m : mcsrs) (c : csrs) : mcsrs * csrs :=
  let x := Z.lor (Z.land (m_mstatus m) (Z.lnot MSTATUS_MPP_MASK)) MSTATUS_MPP_S in
  let m := mkMcsrs x a_main 0xffff 0xffff (Z.lor (Z.lor (m_sie m) SIE_SEIE) SIE_STIE) 0x3fffffffffffff 0xf
             (m_mie m) (m_menvcfg m) (m_mcounteren m) (m_mhartid m) in
  let '(m, c) := timerinit m (cs_set_satp 0 c) in
  (m, cs_set_tp (u64 (s32 (m_mhartid m))) c).

(** [mret] continues at [mepc] in the mode of the field MPP. *)
Definition mret (m : mcsrs) : Z * Z := (Z.shiftr (m_mstatus m) 11 mod 4, m_mepc m).

(** ** virtio_disk.c: initialisation *)

Definition VIRTIO_MMIO_MAGIC_VALUE : Z := 0x000.
Definition VIRTIO_MMIO_VERSION : Z := 0x004.
Definition VIRTIO_MMIO_DEVICE_ID : Z := 0x008.
Definition VIRTIO_MMIO_VENDOR_ID : Z := 0x00c.
Definition VIRTIO_MMIO_DEVICE_FEATURES : Z := 0x010.
Definition VIRTIO_MMIO_DRIVER_FEATURES : Z := 0x020.
Definition VIRTIO_MMIO_QUEUE_SEL : Z := 0x030.
Definition VIRTIO_MMIO_QUEUE_NUM_MAX : Z := 0x034.
Definition VIRTIO_MMIO_QUEUE_NUM : Z := 0x038.
Definition VIRTIO_MMIO_QUEUE_READY : Z := 0x044.
Definition VIRTIO_MMIO_STATUS : Z := 0x070.
Definition VIRTIO_MMIO_QUEUE_DESC_LOW : Z := 0x080.
Definition VIRTIO_MMIO_QUEUE_DESC_HIGH : Z := 0x084.
Definition VIRTIO_MMIO_DRIVER_DESC_LOW : Z := 0x090.
Definition VIRTIO_MMIO_DRIVER_DESC_HIGH : Z := 0x094.
Definition VIRTIO_MMIO_DEVICE_DESC_LOW : Z := 0x0a0.
Definition VIRTIO_MMIO_DEVICE_DESC_HIGH : Z := 0x0a4.

Definition VIRTIO_CONFIG_S_ACKNOWLEDGE : Z := 1.
Definition VIRTIO_CONFIG_S_DRIVER : Z := 2.
Definition VIRTIO_CONFIG_S_DRIVER_OK : Z := 4.
Definition VIRTIO_CONFIG_S_FEATURES_OK : Z := 8.

(** The feature bits that the driver turns off. *)
Definition unwanted : list Z := [5; 7; 11; 12; 27; 29; 28].
Definition wanted (features : Z) : Z := foldl (fun f b => Z.land f (Z.lnot (Z.shiftl 1 b))) features unwanted.

(** The three pages shared with the device are the fields [vd_desc], [vd_avail]
    and [vd_used] of the driver's state; clearing the pages clears them. *)
Definition clear_rings (x : vdisk) : vdisk :=
  vd_set_desc (fun _ => mkDesc A_null 0 0 0) (vd_set_avail_idx 0 (vd_set_avail (fun _ => 0) (vd_set_uidx 0 (vd_set_used (fun _ => 0) x)))).

Section Boot.
Context {LAY : Layout} {ENV : Env} {SYM : Symbols}.

(** The device is there and speaks version 2: the tests in their order, each
    made only if the one before failed to settle it. *)
Definition no_disk : K bool :=
  r <- rread VIRTIO_MMIO_MAGIC_VALUE ;;
  if negb (r =? 0x74726976) then ret true else
  r <- rread VIRTIO_MMIO_VERSION ;;
  if negb (r =? 2) then ret true else
  r <- rread VIRTIO_MMIO_DEVICE_ID ;;
  if negb (r =? 2) then ret true else
  r <- rread VIRTIO_MMIO_VENDOR_ID ;;
  ret (negb (r =? 0x554d4551)).

(** Reset, the handshake of status bits and the choice of features; the status. *)
Definition negotiate : K Z :=
  rwrite VIRTIO_MMIO_STATUS 0 ;;
  let status := VIRTIO_CONFIG_S_ACKNOWLEDGE in
  rwrite VIRTIO_MMIO_STATUS status ;;
  let status := Z.lor status VIRTIO_CONFIG_S_DRIVER in
  rwrite VIRTIO_MMIO_STATUS status ;;
  features <- rread VIRTIO_MMIO_DEVICE_FEATURES ;;
  rwrite VIRTIO_MMIO_DRIVER_FEATURES (wanted features) ;;
  rwrite VIRTIO_MMIO_STATUS (Z.lor status VIRTIO_CONFIG_S_FEATURES_OK) ;;
  status <- rread VIRTIO_MMIO_STATUS ;;
  if negb (has status VIRTIO_CONFIG_S_FEATURES_OK) then panic "virtio disk FEATURES_OK unset" else
  ret status.

(** Memory for the rings, and their addresses in the device's registers. *)
Definition setup_queue : K unit :=
  rwrite VIRTIO_MMIO_QUEUE_SEL 0 ;;
  ready <- rread VIRTIO_MMIO_QUEUE_READY ;;
  if negb (ready =? 0) then panic "virtio disk should not be ready" else
  max <- rread VIRTIO_MMIO_QUEUE_NUM_MAX ;;
  if max =? 0 then panic "virtio disk has no queue 0" else
  if max <? NUM then panic "virtio disk max queue too short" else
  desc <- kalloc ;;
  avail <- kalloc ;;
  used <- kalloc ;;
  if (desc =? 0) || (avail =? 0) || (used =? 0) then panic "virtio disk kalloc" else
  kmemset desc 0 PGSIZE ;;
  kmemset avail 0 PGSIZE ;;
  kmemset used 0 PGSIZE ;;
  modify (on_vdisk clear_rings) ;;
  rwrite VIRTIO_MMIO_QUEUE_NUM NUM ;;
  rwrite VIRTIO_MMIO_QUEUE_DESC_LOW desc ;;
  rwrite VIRTIO_MMIO_QUEUE_DESC_HIGH (Z.shiftr desc 32) ;;
  rwrite VIRTIO_MMIO_DRIVER_DESC_LOW avail ;;
  rwrite VIRTIO_MMIO_DRIVER_DESC_HIGH (Z.shiftr avail 32) ;;
  rwrite VIRTIO_MMIO_DEVICE_DESC_LOW used ;;
  rwrite VIRTIO_MMIO_DEVICE_DESC_HIGH (Z.shiftr used 32) ;;
  rwrite VIRTIO_MMIO_QUEUE_READY 1.

Definition virtio_disk_init : K unit :=
  initlock L_vdisk ;;
  bad <- no_disk ;;
  if bad : bool then panic "could not find virtio disk" else
  status <- negotiate ;;
  setup_queue ;;
  for_each (seqZ 0 NUM) (fun i => set_free i true) ;;
  rwrite VIRTIO_MMIO_STATUS (Z.lor status VIRTIO_CONFIG_S_DRIVER_OK).

(** ** vm.c and printf.c: initialisation *)

Definition kvminit : K unit :=
  kpgtbl <- kvmmake ;;
  modify (k_set_kpgtbl kpgtbl).

Definition kvminithart : K unit :=
  kpgtbl <- gets k_kpgtbl ;;
  wcsr (cs_set_satp (MAKE_SATP kpgtbl)).

Definition printfinit : K unit := initlock L_pr.

(** ** main.c *)

(** What hart 0 does. *)
Definition main_first : K unit :=
  consoleinit ;;
  printfinit ;;
  printf "\n" [] ;;
  printf "xv6 kernel is booting\n" [] ;;
  printf "\n" [] ;;
  kinit ;;
  kvminit ;;
  kvminithart ;;
  procinit ;;
  trapinit ;;
  trapinithart ;;
  plicinit ;;
  plicinithart ;;
  binit ;;
  iinit ;;
  fileinit ;;
  virtio_disk_init ;;
  memstats_init ;;
  userinit ;;
  modify (k_set_started true).

(** What the other harts do once [started] is set; before, they spin. *)
Definition main_other : K unit :=
  started <- gets k_started ;;
  if negb started then hang else
  id <- cpuid ;;
  printf "hart %d starting\n" [id] ;;
  kvminithart ;;
  trapinithart ;;
  plicinithart.

(** Up to the call of [scheduler]. *)
Definition main : K unit :=
  id <- cpuid ;;
  if id =? 0 then main_first else main_other.

End Boot.
