(* ===== verification/BootSpec.v ===== *)
(** * What booting does

    [start] hands over to [main] in supervisor mode, [virtio_disk_init] makes
    the disk driver idle, and [main] never gets past [kinit]. *)

From S2P Require Import Prelude Riscv Mem KState Sample Memstats Sched Virtio DiskSpec Bio Log PhysMem Kalloc AllocSpec Vm PageTable Walk VmMap VmAlloc VmCow VmCopy VmSample.
From S2P Require Import Vm Fs Console Pipe File Proc Exec Syscall Trap TrapSpec Boot.

(** ** start *)

Lemma mpp_bits x k : 0 <= k -> Z.testbit (Z.lor (Z.land x (Z.lnot MSTATUS_MPP_MASK)) MSTATUS_MPP_S) k =
  if decide (k = 11) then true else if decide (k = 12) then false else Z.testbit x k.
Proof.
  intros Hk. unfold MSTATUS_MPP_MASK, MSTATUS_MPP_S. rewrite Z.lor_spec, Z.land_spec, Z.lnot_spec, !Z.shiftl_spec by done.
  case_decide as D1; [subst; by rewrite orb_true_r|]. case_decide as D2; [subst; by rewrite andb_false_r|].
  assert (Z.testbit 3 (k - 11) = false /\ Z.testbit 1 (k - 11) = false) as [-> ->]; [|by rewrite andb_true_r, orb_false_r].
  destruct (Z.lt_ge_cases k 11); [by rewrite !Z.testbit_neg_r by lia|]. split; (apply Z.bits_above_log2; [done|]);
    [change (Z.log2 3) with 1|change (Z.log2 1) with 0]; lia.
Qed.

(** [start] leaves machine mode for [main] in supervisor mode, without paging,
    with every trap delegated and the hart's number in [tp]; the other bits of
    [mstatus] are as before. *)
Lemma start_mret a_main m c m' c' : start a_main m c = (m', c') -> 0 <= m_mhartid m < 0x80000000 ->
  mret m' = (1, a_main) /\ cs_satp c' = 0 /\ cs_tp c' = m_mhartid m /\ (m_medeleg m' = 0xffff /\ m_mideleg m' = 0xffff) /\
  (forall k, 0 <= k -> k <> 11 -> k <> 12 -> Z.testbit (m_mstatus m') k = Z.testbit (m_mstatus m) k).
Proof.
  intros [= <- <-] Hid. split; [|split; [done|split; [|split; [done|]]]].
  - unfold mret. cbn [m_mstatus m_mepc]. f_equal. change 4 with (2 ^ 2). rewrite <- Z.land_ones by done. apply Z.bits_inj'. intros k Hk.
    rewrite Z.land_spec, Z.shiftr_spec, mpp_bits by lia. destruct (decide (k < 2)) as [H2|H2].
    + rewrite Z.ones_spec_low, andb_true_r by lia. assert (k = 0 \/ k = 1) as [-> | ->] by lia; done.
    + rewrite Z.ones_spec_high, andb_false_r by lia. symmetry. apply Z.bits_above_log2; [done|]. change (Z.log2 1) with 0. lia.
  - cbn. rewrite s32_small, u64_small by lia. done.
  - intros k Hk H11 H12. cbn [m_mstatus]. rewrite mpp_bits by done. by rewrite !decide_False.
Qed.

Section BootSpec.
Context {LAY : Layout} {ENV : Env} {SYM : Symbols}.

(** ** The disk driver *)

(** The device registers read as [regs], and writing them does not concern the
    kernel's memory. *)
Record device_regs (regs : Z -> Z) : Prop := {
  dv_read : forall r s, mmio_read (VIRTIO0 + r) s = (regs r, s);
  dv_write : forall r v s, mmio_write (VIRTIO0 + r) v s = s
}.

(** What a usable disk answers. *)
Record usable (regs : Z -> Z) : Prop := {
  us_magic : regs VIRTIO_MMIO_MAGIC_VALUE = 0x74726976;
  us_version : regs VIRTIO_MMIO_VERSION = 2;
  us_device : regs VIRTIO_MMIO_DEVICE_ID = 2;
  us_vendor : regs VIRTIO_MMIO_VENDOR_ID = 0x554d4551;
  us_features : has (u32 (regs VIRTIO_MMIO_STATUS)) VIRTIO_CONFIG_S_FEATURES_OK = true;
  us_ready : regs VIRTIO_MMIO_QUEUE_READY = 0;
  us_max : NUM <= regs VIRTIO_MMIO_QUEUE_NUM_MAX < 0x100000000
}.

Section driver.
Context (regs : Z -> Z) (D : device_regs regs).

Lemma reg_read r s : rread r s = Ok (u32 (regs r)) s.
Proof using D. unfold rread. by rewrite (dv_read _ D). Qed.

Lemma reg_write r v s : rwrite r v s = Ok tt s.
Proof using D. unfold rwrite, modify. by rewrite (dv_write _ D). Qed.

Lemma negotiate_run s : usable regs -> negotiate s = Ok (u32 (regs VIRTIO_MMIO_STATUS)) s.
Proof using D.
  intros U. unfold negotiate. do 3 rewrite (bind_ok _ _ _ _ _ (reg_write _ _ s)). rewrite (bind_ok _ _ _ _ _ (reg_read _ s)).
  do 2 rewrite (bind_ok _ _ _ _ _ (reg_write _ _ s)). rewrite (bind_ok _ _ _ _ _ (reg_read _ s)). by rewrite (us_features _ U).
Qed.

Lemma no_disk_run s : no_disk s = Ok (negb ((u32 (regs VIRTIO_MMIO_MAGIC_VALUE) =? 0x74726976) && (u32 (regs VIRTIO_MMIO_VERSION) =? 2) &&
  (u32 (regs VIRTIO_MMIO_DEVICE_ID) =? 2) && (u32 (regs VIRTIO_MMIO_VENDOR_ID) =? 0x554d4551))) s.
Proof using D.
  unfold no_disk. rewrite (bind_ok _ _ _ _ _ (reg_read _ s)). destruct (_ =? _); [|done]. cbn [negb andb].
  rewrite (bind_ok _ _ _ _ _ (reg_read _ s)). destruct (_ =? _); [|done]. cbn [negb andb].
  rewrite (bind_ok _ _ _ _ _ (reg_read _ s)). destruct (_ =? _); [|done]. cbn [negb andb].
  by rewrite (bind_ok _ _ _ _ _ (reg_read _ s)).
Qed.

(** Taking a page off the free list keeps the disk driver. *)
Lemma take_page s pa fl : alloc_ok s (pa :: fl) -> k_held s = [] ->
  kalloc s = Ok pa (allocated pa s) /\ alloc_ok (allocated pa s) fl /\ k_held (allocated pa s) = [] /\ heap_page pa /\ pa <> 0.
Proof using.
  intros A Hh. assert (heap_page pa) as Hp by (eapply free_is_heap; [done|ielem]).
  split; [|split; [by apply allocated_ok|split; [done|split; [done|]]]].
  - apply kalloc_head; [apply Hp| |apply (ao_chain _ _ A)]. unfold alloc_locks_free. rewrite Hh. repeat split; apply not_elem_of_nil.
  - destruct Hp as ((_ & H & _) & _). change KERNBASE with 0x80000000 in H. lia.
Qed.

Lemma clear_page s pa fl : alloc_ok s fl -> heap_page pa -> pa ∉ fl ->
  kmemset pa 0 PGSIZE s = Ok tt (k_set_mem (mem_fill (k_mem s) pa 0 PGSIZE) s) /\ alloc_ok (k_set_mem (mem_fill (k_mem s) pa 0 PGSIZE) s) fl.
Proof using.
  intros A Hp Hn. split; [unfold kmemset; by rewrite page_in_ram by apply Hp|]. eapply alloc_ok_frame; [done|done| |done].
  intros q Hq x Hx. cbn. apply mem_fill_outside. eapply (pages_disjoint q pa); [by eapply free_is_heap|apply Hp|by intros ->|exact Hx].
Qed.

Lemma alloc_ok_vdisk s f fl : alloc_ok s fl -> alloc_ok (on_vdisk f s) fl.
Proof using. intros []. by split. Qed.

(** The driver after [setup_queue]. *)
Record queue_ready (s : kstate) (d a u : Z) (fl : list Z) (s' : kstate) : Prop := {
  qr_alloc : alloc_ok s' fl;
  qr_held : k_held s' = [];
  qr_disk : k_vdisk s' = clear_rings (k_vdisk s);
  qr_zero : forall p x, p ∈ [d; a; u] -> in_page p x -> load8 (k_mem s') x = 0;
  qr_count : forall p, p ∈ [d; a; u] -> count_of s' p = 1
}.

Lemma setup_queue_run s d a u fl : usable regs -> alloc_ok s (d :: a :: u :: fl) -> k_held s = [] ->
  exists s', setup_queue s = Ok tt s' /\ queue_ready s d a u fl s'.
Proof using D.
  intros U A Hh. pose proof (ao_nodup _ _ A) as Hnd. destruct (take_page s d _ A Hh) as (E1 & A1 & H1 & P1 & Z1). set (s1 := allocated d s) in *.
  destruct (take_page s1 a _ A1 H1) as (E2 & A2 & H2 & P2 & Z2). set (s2 := allocated a s1) in *.
  destruct (take_page s2 u _ A2 H2) as (E3 & A3 & H3 & P3 & Z3). set (s3 := allocated u s2) in *.
  apply NoDup_cons in Hnd as [N1 Hnd]. apply NoDup_cons in Hnd as [N2 Hnd]. apply NoDup_cons in Hnd as [N3 Hnd].
  apply not_elem_of_cons in N1 as [Nda N1]. apply not_elem_of_cons in N1 as [Ndu N1]. apply not_elem_of_cons in N2 as [Nau N2].
  destruct P1 as [P1 P1'], P2 as [P2 P2'], P3 as [P3 P3'].
  destruct (clear_page s3 d fl A3 (conj P1 P1') N1) as [C1 B1]. set (s4 := k_set_mem _ s3) in C1, B1.
  destruct (clear_page s4 a fl B1 (conj P2 P2') N2) as [C2 B2]. set (s5 := k_set_mem _ s4) in C2, B2.
  destruct (clear_page s5 u fl B2 (conj P3 P3') N3) as [C3 B3]. set (s6 := k_set_mem _ s5) in C3, B3.
  exists (on_vdisk clear_rings s6). split; [|split; [|done|done| |]].
  - unfold setup_queue. rewrite (bind_ok _ _ _ _ _ (reg_write _ _ s)), (bind_ok _ _ _ _ _ (reg_read _ s)), (us_ready _ U). change (u32 0 =? 0) with true. cbn [negb].
    rewrite (bind_ok _ _ _ _ _ (reg_read _ s)). pose proof (us_max _ U) as Hm. unfold NUM in Hm. rewrite (u32_small (regs VIRTIO_MMIO_QUEUE_NUM_MAX)) by lia.
    rewrite (proj2 (Z.eqb_neq _ _)), (proj2 (Z.ltb_ge _ NUM)) by (unfold NUM; lia).
    rewrite (bind_ok _ _ _ _ _ E1), (bind_ok _ _ _ _ _ E2), (bind_ok _ _ _ _ _ E3), !(proj2 (Z.eqb_neq _ 0)) by done. cbn [orb].
    rewrite (bind_ok _ _ _ _ _ C1), (bind_ok _ _ _ _ _ C2), (bind_ok _ _ _ _ _ C3). erewrite bind_ok by reflexivity.
    do 7 rewrite (bind_ok _ _ _ _ _ (reg_write _ _ _)). apply reg_write.
  - by apply alloc_ok_vdisk.
  - intros p x Hp Hx. change (k_mem (on_vdisk clear_rings s6)) with (mem_fill (mem_fill (mem_fill (k_mem s3) d 0 PGSIZE) a 0 PGSIZE) u 0 PGSIZE). unfold load8, mem_fill.
    rewrite !elem_of_cons, elem_of_nil in Hp. destruct Hp as [->|[->|[->|[]]]].
    + destruct (in_range u PGSIZE x), (in_range a PGSIZE x); try done. by rewrite in_range_true.
    + destruct (in_range u PGSIZE x); [done|]. by rewrite in_range_true.
    + by rewrite in_range_true.
  - intros p Hp. change (count_of (on_vdisk clear_rings s6) p) with (count_of (with_count u 1 (with_count a 1 (with_count d 1 s))) p).
    rewrite !elem_of_cons, elem_of_nil in Hp. destruct Hp as [->|[->|[->|[]]]].
    + rewrite !count_with_count_ne by done. apply count_with_count.
    + rewrite count_with_count_ne by done. apply count_with_count.
    + apply count_with_count.
Qed.

Lemma free_all_run s : exists s', for_each (seqZ 0 NUM) (fun i => set_free i true) s = Ok tt s' /\
  s' = on_vdisk (vd_set_free (vd_free (k_vdisk s'))) s /\ forall i, 0 <= i < NUM -> vd_free (k_vdisk s') i = true.
Proof using.
  destruct (for_each_seqZ (fun k s' => s' = on_vdisk (vd_set_free (vd_free (k_vdisk s'))) s /\ forall i, 0 <= i < k -> vd_free (k_vdisk s') i = true)
    (fun i => set_free i true) NUM ltac:(done)) with (s := s) as (s' & E & H).
  - intros k t Hk [Ht Hf]. eexists. split; [done|]. split; [rewrite Ht at 1; by destruct s|]. intros i Hi. cbn. rewrite fupd_cases. case_decide; [done|]. apply Hf. lia.
  - split; [by destruct s as [? ? ? ? ? ? ? ? ? ? ? ? ? ? ? []]|lia].
  - by exists s'.
Qed.

(** C24. Initialising the disk makes the driver idle.  With a version-2 virtio
    disk that accepts the features and has a queue of at least NUM entries,
    and three free pages, [virtio_disk_init] returns: every descriptor is
    free, both rings are empty, no request is outstanding, which is the state
    the disk operations start from; the three pages are cleared and have one
    reference each, and the allocator has the other pages.  Without such a
    disk it panics. *)
Theorem virtio_disk_init_correct s d a u fl : alloc_ok s (d :: a :: u :: fl) -> k_held s = [] -> vd_used_idx (k_vdisk s) = 0 ->
  (usable regs -> exists s', virtio_disk_init s = Ok tt s' /\ vidle (k_vdisk s') /\ alloc_ok s' fl /\ k_held s' = [] /\
    (forall p x, p ∈ [d; a; u] -> in_page p x -> load8 (k_mem s') x = 0) /\ (forall p, p ∈ [d; a; u] -> count_of s' p = 1)) /\
  (u32 (regs VIRTIO_MMIO_MAGIC_VALUE) <> 0x74726976 \/ u32 (regs VIRTIO_MMIO_VERSION) <> 2 \/ u32 (regs VIRTIO_MMIO_DEVICE_ID) <> 2 \/
    u32 (regs VIRTIO_MMIO_VENDOR_ID) <> 0x554d4551 -> virtio_disk_init s = Panic "could not find virtio disk").
Proof using D.
  intros A Hh Hu. assert (initlock L_vdisk s = Ok tt s) as E0 by (unfold initlock, modify; f_equal; destruct s; cbn in *; by subst).
  unfold virtio_disk_init. rewrite (bind_ok _ _ _ _ _ E0), (bind_ok _ _ _ _ _ (no_disk_run s)). split.
  - intros U. rewrite (us_magic _ U), (us_version _ U), (us_device _ U), (us_vendor _ U). cbn [negb andb Z.eqb u32].
    change (negb _) with false. cbv iota. rewrite (bind_ok _ _ _ _ _ (negotiate_run s U)).
    destruct (setup_queue_run s d a u fl U A Hh) as (s1 & E1 & [Q1 Q2 Q3 Q4 Q5]). rewrite (bind_ok _ _ _ _ _ E1).
    destruct (free_all_run s1) as (s2 & E2 & H2 & Hf). rewrite (bind_ok _ _ _ _ _ E2), reg_write. exists s2. split; [done|].
    split; [|rewrite H2; split; [by apply alloc_ok_vdisk|done]].
    assert (vd_uidx (k_vdisk s2) = 0 /\ vd_used_idx (k_vdisk s2) = 0 /\ vd_avail_idx (k_vdisk s2) = 0) as (V1 & V2 & V3).
    { rewrite H2. cbn. by rewrite Q3. }
    split; [done|by rewrite V1|by rewrite V1, V2|by rewrite V1, V3].
  - intros Hbad. rewrite (proj2 (negb_true_iff _)); [done|]. rewrite !andb_false_iff, !Z.eqb_neq. tauto.
Qed.
End driver.

(** ** main *)

(** C40. The kernel does not boot.  On hart 0, entered with no lock held and
    with at least one whole page of RAM after the kernel image, [main] panics:
    [kinit] gives the first page to [kfree] with a reference count of 0, which
    [krefdec] refuses.  Nothing after [kinit] is ever reached. *)
Theorem main_panics s : layout_ok LAY -> PGROUNDUP kend + PGSIZE <= PHYSTOP -> (forall a v s, k_held (mmio_write a v s) = k_held s) ->
  k_held s = [] -> cs_tp (k_csr s) = 0 -> main s = Panic "krefdec: refcount <= 0".
Proof.
  intros HL Hroom Hw Hh Htp. unfold main. erewrite bind_ok by reflexivity. rewrite Htp. change (s32 0 =? 0) with true. cbv iota. unfold main_first.
  assert (exists s1, consoleinit s = Ok tt s1 /\ k_held s1 = []) as (s1 & E1 & H1).
  { unfold consoleinit, uartinit. erewrite bind_ok by reflexivity. do 8 (rewrite ?bind_assoc; erewrite bind_ok by reflexivity). eexists. split; [reflexivity|].
    cbn. rewrite !Hw. cbn. by rewrite Hh. }
  rewrite (bind_ok _ _ _ _ _ E1). do 4 erewrite bind_ok by reflexivity. apply bind_panic, kinit_panics; [done|done|]. cbn. by rewrite H1.
Qed.
End BootSpec.

(** ** A disk that answers *)

Definition probe_regs (r : Z) : Z :=
  if r =? VIRTIO_MMIO_MAGIC_VALUE then 0x74726976 else if r =? VIRTIO_MMIO_VERSION then 2 else if r =? VIRTIO_MMIO_DEVICE_ID then 2
  else if r =? VIRTIO_MMIO_VENDOR_ID then 0x554d4551 else if r =? VIRTIO_MMIO_STATUS then 11 else if r =? VIRTIO_MMIO_QUEUE_NUM_MAX then 1024 else 0.

Definition probe_env : Env :=
  {| others := fun _ s => s; mmio_read := fun a s => (probe_regs (a - VIRTIO0), s); mmio_write := fun _ _ s => s; patience := 1 |}.

Lemma probe_device : @device_regs probe_env probe_regs.
Proof. split; [|done]. intros r s. cbn [mmio_read probe_env]. do 2 f_equal. lia. Qed.

Lemma probe_usable : usable probe_regs.
Proof. by split; vm_compute. Qed.

Lemma virtio_disk_init_correct_witness : exists s', @virtio_disk_init sample_layout probe_env user_state = Ok tt s' /\ vidle (k_vdisk s').
Proof.
  destruct (proj1 (@virtio_disk_init_correct sample_layout probe_env probe_regs probe_device user_state 0x80100000 0x80101000 0x80102000 (drop 3 free8) user_alloc eq_refl eq_refl) probe_usable)
    as (s' & E & V & _). exact (ex_intro _ s' (conj E V)).
Defined.

Lemma main_panics_witness : @main sample_layout probe_env sample_symbols zero_state = Panic "krefdec: refcount <= 0".
Proof. apply (@main_panics sample_layout probe_env sample_symbols zero_state sample_layout_ok); [by vm_compute|done|done|done]. Defined.
