(* ===== verification/Asm.v ===== *)
(** * Assembly routines (kernel/swtch.S, trampoline.S, kernelvec.S, entry.S)

    A hart has its registers, the control registers the routines use and
    memory, which loads and stores reach through the page table in [satp].
    The routines are lists of instructions, each ending in a jump. *)

From S2P Require Import Prelude Riscv Mem KState PageTable Proc.

Inductive reg : Type :=
  | zero | ra | sp | gp | tp | t0 | t1 | t2 | s0 | s1 | a0 | a1 | a2 | a3 | a4 | a5 | a6 | a7
  | s2 | s3 | s4 | s5 | s6 | s7 | s8 | s9 | s10 | s11 | t3 | t4 | t5 | t6.

#[export] Instance reg_eq_dec : EqDecision reg.
Proof. solve_decision. Defined.

Inductive csr : Type := sscratch | satp | sepc | mhartid.

#[export] Instance csr_eq_dec : EqDecision csr.
Proof. solve_decision. Defined.

Inductive instr : Type :=
  | sd (rs : reg) (off : Z) (base : reg)
  | ld (rd : reg) (off : Z) (base : reg)
  | li (rd : reg) (v : Z)
  | addi (rd rs : reg) (imm : Z)
  | add (rd rs1 rs2 : reg)
  | mul (rd rs1 rs2 : reg)
  | csrr (rd : reg) (c : csr)
  | csrw (c : csr) (rs : reg)
  | sfence_vma.

(** [la] is a [li] of an address.  [jalr] and [call] carry the address of the
    instruction that follows. *)
Inductive jump : Type :=
  | ret
  | sret
  | jalr (rs : reg) (next : Z)
  | call (f next : Z).

Record hart : Type := mkHart { hw_reg : reg -> Z; hw_csr : csr -> Z; hw_mem : mem }.

(** ** Instructions *)

Definition rget (h : hart) (r : reg) : Z := if decide (r = zero) then 0 else hw_reg h r.
Definition rset (r : reg) (v : Z) (h : hart) : hart :=
  mkHart (fun q => if decide (q = r) then v else hw_reg h q) (hw_csr h) (hw_mem h).
Definition cset (c : csr) (v : Z) (h : hart) : hart :=
  mkHart (hw_reg h) (fun d => if decide (d = c) then v else hw_csr h d) (hw_mem h).
Definition mset (m : mem) (h : hart) : hart := mkHart (hw_reg h) (hw_csr h) m.

(** Translation of a supervisor access: none when the mode of [satp] is Bare,
    otherwise by the page table, which must permit it and hold no user page
    there.  [None] is a page fault.  The kernel makes no superpages and uses
    the addresses below [MAXVA]. *)
Definition mmu (write : bool) (m : mem) (satp va : Z) : option Z :=
  if satp / 2 ^ 60 =? 0 then Some va
  else if va <? MAXVA then
    let e := ent m (satp mod 2 ^ 44 * PGSIZE) (va / PGSIZE) in
    if has e PTE_V && has e (if write then PTE_W else PTE_R) && negb (has e PTE_U) then Some (PTE2PA e + va mod PGSIZE) else None
  else None.

(** The physical address of an aligned access. *)
Definition access (write : bool) (h : hart) (a : Z) : option Z :=
  let va := u64 a in if va mod 8 =? 0 then mmu write (hw_mem h) (hw_csr h satp) va else None.

Definition step (i : instr) (h : hart) : option hart :=
  match i with
  | sd rs off base => pa ← access true h (rget h base + off); Some (mset (store64 (hw_mem h) pa (rget h rs)) h)
  | ld rd off base => pa ← access false h (rget h base + off); Some (rset rd (load64 (hw_mem h) pa) h)
  | li rd v => Some (rset rd v h)
  | addi rd rs imm => Some (rset rd (u64 (rget h rs + imm)) h)
  | add rd rs1 rs2 => Some (rset rd (u64 (rget h rs1 + rget h rs2)) h)
  | mul rd rs1 rs2 => Some (rset rd (u64 (rget h rs1 * rget h rs2)) h)
  | csrr rd c => Some (rset rd (hw_csr h c) h)
  | csrw c rs => Some (cset c (rget h rs) h)
  | sfence_vma => Some h
  end.

Fixpoint exec (l : list instr) (h : hart) : option hart :=
  match l with
  | [] => Some h
  | i :: l => h ← step i h; exec l h
  end.

(** Where a jump goes, and the link it leaves. *)
Definition leap (j : jump) (h : hart) : Z * hart :=
  match j with
  | ret => (rget h ra, h)
  | sret => (hw_csr h sepc, h)
  | jalr rs next => (rget h rs, rset ra next h)
  | call f next => (f, rset ra next h)
  end.

(** ** The routines *)

(** swtch.S *)
Definition swtch : list instr :=
  [sd ra 0 a0; sd sp 8 a0; sd s0 16 a0; sd s1 24 a0; sd s2 32 a0; sd s3 40 a0; sd s4 48 a0; sd s5 56 a0;
   sd s6 64 a0; sd s7 72 a0; sd s8 80 a0; sd s9 88 a0; sd s10 96 a0; sd s11 104 a0;
   ld ra 0 a1; ld sp 8 a1; ld s0 16 a1; ld s1 24 a1; ld s2 32 a1; ld s3 40 a1; ld s4 48 a1; ld s5 56 a1;
   ld s6 64 a1; ld s7 72 a1; ld s8 80 a1; ld s9 88 a1; ld s10 96 a1; ld s11 104 a1].
Definition swtch_end : jump := ret.

Section trampoline.
Context {LAY : Layout} {SYM : Symbols}.

Definition uservec : list instr :=
  [csrw sscratch a0; li a0 TRAPFRAME;
   sd ra 40 a0; sd sp 48 a0; sd gp 56 a0; sd tp 64 a0; sd t0 72 a0; sd t1 80 a0; sd t2 88 a0; sd s0 96 a0; sd s1 104 a0;
   sd a1 120 a0; sd a2 128 a0; sd a3 136 a0; sd a4 144 a0; sd a5 152 a0; sd a6 160 a0; sd a7 168 a0;
   sd s2 176 a0; sd s3 184 a0; sd s4 192 a0; sd s5 200 a0; sd s6 208 a0; sd s7 216 a0; sd s8 224 a0; sd s9 232 a0;
   sd s10 240 a0; sd s11 248 a0; sd t3 256 a0; sd t4 264 a0; sd t5 272 a0; sd t6 280 a0;
   csrr t0 sscratch; sd t0 112 a0;
   ld sp 8 a0; ld tp 32 a0; ld t0 16 a0; ld t1 0 a0;
   sfence_vma; csrw satp t1; sfence_vma].

(** The code runs at its address in the trampoline page, so that is where
    [usertrap] returns to. *)
Definition uservec_end : jump := jalr t0 (u64 (TRAMPOLINE + (a_userret - trampoline))).

Definition userret : list instr :=
  [sfence_vma; csrw satp a0; sfence_vma; li a0 TRAPFRAME;
   ld ra 40 a0; ld sp 48 a0; ld gp 56 a0; ld tp 64 a0; ld t0 72 a0; ld t1 80 a0; ld t2 88 a0; ld s0 96 a0; ld s1 104 a0;
   ld a1 120 a0; ld a2 128 a0; ld a3 136 a0; ld a4 144 a0; ld a5 152 a0; ld a6 160 a0; ld a7 168 a0;
   ld s2 176 a0; ld s3 184 a0; ld s4 192 a0; ld s5 200 a0; ld s6 208 a0; ld s7 216 a0; ld s8 224 a0; ld s9 232 a0;
   ld s10 240 a0; ld s11 248 a0; ld t3 256 a0; ld t4 264 a0; ld t5 272 a0; ld t6 280 a0;
   ld a0 112 a0].
Definition userret_end : jump := sret.
End trampoline.

(** kernelvec.S, up to the call of [kerneltrap] and after it. *)
Definition kernelvec : list instr :=
  [addi sp sp (-256);
   sd ra 0 sp; sd gp 16 sp; sd tp 24 sp; sd t0 32 sp; sd t1 40 sp; sd t2 48 sp; sd a0 72 sp; sd a1 80 sp; sd a2 88 sp;
   sd a3 96 sp; sd a4 104 sp; sd a5 112 sp; sd a6 120 sp; sd a7 128 sp; sd t3 216 sp; sd t4 224 sp; sd t5 232 sp; sd t6 240 sp].
Definition kernelvec_back : list instr :=
  [ld ra 0 sp; ld gp 16 sp; ld t0 32 sp; ld t1 40 sp; ld t2 48 sp; ld a0 72 sp; ld a1 80 sp; ld a2 88 sp;
   ld a3 96 sp; ld a4 104 sp; ld a5 112 sp; ld a6 120 sp; ld a7 128 sp; ld t3 216 sp; ld t4 224 sp; ld t5 232 sp; ld t6 240 sp;
   addi sp sp 256].
Definition kernelvec_end : jump := sret.

(** entry.S; [stack0] is the array of start.c. *)
Definition entry (stack0 : Z) : list instr :=
  [li sp stack0; li a0 (1024 * 4); csrr a1 mhartid; addi a1 a1 1; mul a0 a0 a1; add sp sp a0].
