(* ===== verification/AsmSpec.v ===== *)
(** * What the assembly routines guarantee

    [swtch] exchanges two contexts, the trampoline brings every register of a
    process through a trap, [kernelvec] every register of the kernel through
    an interrupt.  With [usertrap] in the middle, a copy-on-write fault is
    invisible to the process. *)

From S2P Require Import Prelude Riscv Mem KState Sample Memstats Sched DiskSpec Virtio Bio Log PhysMem Kalloc Vm.
From S2P Require Import PageTable Walk VmMap VmAlloc VmCow VmCopy VmSample VmSpec.
From S2P Require Import Vm Fs Console Pipe File Proc Exec Syscall Trap TrapSpec Asm.

(** ** Saving and loading registers *)

(** Registers hold 64-bit values. *)
Definition wide (h : hart) : Prop := forall r, 0 <= hw_reg h r < 0x10000000000000000.

(** The [n] bytes at the virtual address [base] are the [n] bytes at [pa], now
    and after any writes within [F]. *)
Record window (F : Z -> Prop) (h : hart) (base pa n : Z) : Prop := {
  wn_align : base mod 8 = 0;
  wn_low : 0 <= base;
  wn_high : base + n <= 0x10000000000000000;
  wn_free : forall x, pa <= x < pa + n -> F x;
  wn_map : forall w m o, (forall x, ~ F x -> m x = hw_mem h x) -> 0 <= o -> o mod 8 = 0 -> o + 8 <= n ->
    mmu w m (hw_csr h satp) (base + o) = Some (pa + o)
}.

Lemma window_keep F h h' base pa n : window F h base pa n -> hw_csr h' satp = hw_csr h satp -> (forall x, ~ F x -> hw_mem h' x = hw_mem h x) ->
  window F h' base pa n.
Proof. intros [W1 W2 W3 W4 W5] Hs Hm. split; [done..|]. intros w m o H. rewrite Hs. apply W5. intros x Hx. by rewrite H, Hm. Qed.

Lemma window_access F h base pa n w o : window F h base pa n -> 0 <= o -> o mod 8 = 0 -> o + 8 <= n -> access w h (base + o) = Some (pa + o).
Proof.
  intros [W1 W2 W3 W4 W5] H1 H2 H3. unfold access. rewrite u64_small by lia. cbv zeta. rewrite (proj2 (Z.eqb_eq _ _)) by zlia. by apply W5.
Qed.

(** A list of registers and the offsets of their slots. *)
Definition fits (n : Z) (l : list (reg * Z)) : bool := forallb (fun p => (0 <=? snd p) && (snd p mod 8 =? 0) && (snd p + 8 <=? n)) l.
Definition saves (b : reg) (l : list (reg * Z)) : list instr := map (fun p => sd (fst p) (snd p) b) l.
Definition loads (b : reg) (l : list (reg * Z)) : list instr := map (fun p => ld (fst p) (snd p) b) l.

Lemma fits_cons n r o l : fits n ((r, o) :: l) = true -> (0 <= o /\ o mod 8 = 0 /\ o + 8 <= n) /\ fits n l = true.
Proof. unfold fits. cbn. intros [H1 H2]%andb_true_iff. split; [lia|done]. Qed.

Lemma exec_app l l' h : exec (l ++ l') h = (h' ← exec l h; exec l' h').
Proof. revert h. induction l as [|i l IH]; intros h; [done|]. cbn [app exec]. destruct (step i h); [apply IH|done]. Qed.

Lemma exec_then l l' h h' : exec l h = Some h' -> exec (l ++ l') h = exec l' h'.
Proof. intros E. by rewrite exec_app, E. Qed.

Lemma exec_cons i l h h' : step i h = Some h' -> exec (i :: l) h = exec l h'.
Proof. intros E. cbn [exec]. by rewrite E. Qed.

Section blocks.
Variables (F : Z -> Prop) (b : reg) (base pa n : Z).

Lemma saves_run l : forall h, window F h base pa n -> rget h b = base -> fits n l = true -> NoDup l.*2 ->
  exists m, exec (saves b l) h = Some (mset m h) /\ (forall x, ~ pa <= x < pa + n -> m x = hw_mem h x) /\
    (forall r o, (r, o) ∈ l -> load64 m (pa + o) = u64 (rget h r)) /\
    (forall o, o mod 8 = 0 -> o ∉ l.*2 -> load64 m (pa + o) = load64 (hw_mem h) (pa + o)).
Proof.
  induction l as [|[r o] l IH]; intros h W Hb Hf Hnd.
  - exists (hw_mem h). split; [by destruct h|]. split; [done|]. split; [|done]. by intros r o H%not_elem_of_nil.
  - apply fits_cons in Hf as [(H1 & H2 & H3) Hf]. apply NoDup_cons in Hnd as [Hno Hnd]. cbn [fst snd] in Hno.
    set (m1 := store64 (hw_mem h) (pa + o) (rget h r)). set (h1 := mset m1 h).
    assert (forall x, ~ pa <= x < pa + n -> m1 x = hw_mem h x) as Hm1 by (intros x Hx; apply store64_outside; lia).
    destruct (IH h1) as (m & E & Hm & Hl & Ho); [|done|done|done|].
    { apply (window_keep F h); [done|done|]. intros x Hx. apply Hm1. intros Hi. by apply Hx, (wn_free _ _ _ _ _ W). }
    exists m. split; [|split; [|split]].
    + unfold saves. cbn [map fst snd]. rewrite (exec_cons _ _ _ h1); [exact E|]. cbn [step]. by rewrite Hb, (window_access F h base pa n).
    + intros x Hx. by rewrite Hm, <- Hm1.
    + intros r' o' [[= -> ->]|H]%elem_of_cons; [|exact (Hl _ _ H)]. rewrite Ho by done. apply load64_store64.
    + intros o' H8 Hn. apply not_elem_of_cons in Hn as [Hne Hn]. cbn [snd] in Hne. rewrite Ho by done. apply load64_store64_ne. zlia.
Qed.

Lemma loads_run l : forall h, window F h base pa n -> rget h b = base -> fits n l = true -> NoDup l.*1 -> b ∉ l.*1 ->
  exists g, exec (loads b l) h = Some (mkHart g (hw_csr h) (hw_mem h)) /\
    (forall r o, (r, o) ∈ l -> g r = load64 (hw_mem h) (pa + o)) /\ (forall r, r ∉ l.*1 -> g r = hw_reg h r).
Proof.
  induction l as [|[r o] l IH]; intros h W Hb Hf Hnd Hbl.
  - exists (hw_reg h). split; [by destruct h|]. split; [|done]. by intros r o H%not_elem_of_nil.
  - apply fits_cons in Hf as [(H1 & H2 & H3) Hf]. apply NoDup_cons in Hnd as [Hno Hnd]. apply not_elem_of_cons in Hbl as [Hbr Hbl]. cbn [fst snd] in Hno, Hbr.
    set (h1 := rset r (load64 (hw_mem h) (pa + o)) h). destruct (IH h1) as (g & E & Hl & Ho); [by apply (window_keep F h)| |done|done|done|].
    { unfold rget, h1 in *. cbn. by rewrite (decide_False (P := b = r)). }
    exists g. split; [|split].
    + unfold loads. cbn [map fst snd]. rewrite (exec_cons _ _ _ h1); [exact E|]. cbn [step]. by rewrite Hb, (window_access F h base pa n).
    + intros r' o' [[= -> ->]|H]%elem_of_cons; [|exact (Hl _ _ H)]. rewrite Ho by done. cbn. by rewrite decide_True.
    + intros r' Hn. apply not_elem_of_cons in Hn as [Hne Hn]. rewrite Ho by done. cbn. by rewrite decide_False.
Qed.
End blocks.

Lemma rget_reg h r : r <> zero -> rget h r = hw_reg h r.
Proof. intros Hr. unfold rget. by rewrite decide_False. Qed.

Lemma rget_wide h r : wide h -> r <> zero -> u64 (rget h r) = hw_reg h r.
Proof. intros H Hr. rewrite rget_reg by done. apply u64_small, H. Qed.

(** ** Switching contexts *)

(** The slots of [struct context]. *)
Definition callee : list (reg * Z) :=
  [(ra, 0); (sp, 8); (s0, 16); (s1, 24); (s2, 32); (s3, 40); (s4, 48); (s5, 56); (s6, 64); (s7, 72); (s8, 80); (s9, 88); (s10, 96); (s11, 104)].

(** The registers of the list are distinct, none of them is [zero]. *)
Definition distinct (l : list (reg * Z)) : bool := bool_decide (NoDup l.*1) && bool_decide (NoDup l.*2) && bool_decide (zero ∉ l.*1).

Lemma distinct_inv l : distinct l = true -> NoDup l.*1 /\ NoDup l.*2 /\ forall r o, (r, o) ∈ l -> r <> zero.
Proof.
  unfold distinct. intros [[H1%bool_decide_eq_true H2%bool_decide_eq_true]%andb_true_iff H3%bool_decide_eq_true]%andb_true_iff.
  split; [done|]. split; [done|]. intros r o H ->. apply H3, list_elem_of_fmap. by exists (zero, o).
Qed.

Lemma callee_distinct : distinct callee = true.
Proof. by vm_compute. Qed.

Lemma swtch_run F h old new pold pnew : wide h -> rget h a0 = old -> rget h a1 = new -> window F h old pold 112 -> window F h new pnew 112 ->
  pold + 112 <= pnew \/ pnew + 112 <= pold ->
  exists h', exec swtch h = Some h' /\ hw_csr h' = hw_csr h /\
    (forall r o, (r, o) ∈ callee -> load64 (hw_mem h') (pold + o) = hw_reg h r /\ hw_reg h' r = load64 (hw_mem h) (pnew + o)) /\
    (forall r, r ∉ callee.*1 -> hw_reg h' r = hw_reg h r) /\ (forall x, ~ pold <= x < pold + 112 -> hw_mem h' x = hw_mem h x).
Proof.
  intros Hw Ha0 Ha1 Wo Wn Hd. destruct (distinct_inv _ callee_distinct) as (N1 & N2 & N3).
  destruct (saves_run F a0 old pold 112 callee h Wo Ha0 eq_refl N2) as (m & E1 & Hm & Hs & _).
  destruct (loads_run F a1 new pnew 112 callee (mset m h)) as (g & E2 & Hl & Ho); [|exact Ha1|done|done| |].
  { apply (window_keep F h); [done|done|]. intros x Hx. apply Hm. intros Hi. by apply Hx, (wn_free _ _ _ _ _ Wo). }
  { by apply (bool_decide_unpack _). }
  exists (mkHart g (hw_csr h) m). split; [|split; [done|split; [|done]]].
  - change swtch with (saves a0 callee ++ loads a1 callee). rewrite (exec_then _ _ _ _ E1). exact E2.
  - intros r o Hr. cbn [hw_mem hw_reg]. split; [rewrite (Hs r o Hr); apply rget_wide; [done|by apply (N3 r o)]|]. rewrite (Hl r o Hr). apply (loadn_ext 8). intros x Hx. apply Hm.
    assert (0 <= o /\ o + 8 <= 112) as Ho8; [|change (Z.of_nat 8) with 8 in Hx; lia].
    assert (Forall (fun p => 0 <= snd p /\ snd p + 8 <= 112) callee) as Hall by (repeat constructor; cbn; lia). exact (proj1 (Forall_forall _ _) Hall _ Hr).
Qed.

(** ** Traps from user space *)

(** The slots of [struct trapframe], but for [a0]. *)
Definition user_slots : list (reg * Z) :=
  [(ra, 40); (sp, 48); (gp, 56); (tp, 64); (t0, 72); (t1, 80); (t2, 88); (s0, 96); (s1, 104);
   (a1, 120); (a2, 128); (a3, 136); (a4, 144); (a5, 152); (a6, 160); (a7, 168);
   (s2, 176); (s3, 184); (s4, 192); (s5, 200); (s6, 208); (s7, 216); (s8, 224); (s9, 232); (s10, 240); (s11, 248);
   (t3, 256); (t4, 264); (t5, 272); (t6, 280)].

Lemma user_distinct : distinct ((a0, 112) :: user_slots) = true.
Proof. by vm_compute. Qed.

(** Every register has a slot. *)
Lemma slot_of r : r <> zero -> exists o, (r, o) ∈ (a0, 112) :: user_slots.
Proof.
  intros Hr. destruct (list_find (fun p => fst p = r) ((a0, 112) :: user_slots)) as [[k [q o]]|] eqn:E.
  - apply list_find_Some in E as (E & Hq & _). cbn in Hq. subst q. exists o. by eapply list_elem_of_lookup_2.
  - by destruct r.
Qed.

Lemma slot_range r o : (r, o) ∈ (a0, 112) :: user_slots -> 40 <= o /\ o + 8 <= 288 /\ o mod 8 = 0.
Proof.
  intros H. assert (Forall (fun p => 40 <= snd p /\ snd p + 8 <= 288 /\ snd p mod 8 = 0) ((a0, 112) :: user_slots)) as Hall by (repeat constructor; cbn; lia).
  exact (proj1 (Forall_forall _ _) Hall _ H).
Qed.

Section trampoline.
Context {LAY : Layout} {SYM : Symbols}.

Lemma uservec_run F h pa : wide h -> window F h TRAPFRAME pa 288 ->
  exists h', exec uservec h = Some h' /\ (forall x, ~ pa <= x < pa + 288 -> hw_mem h' x = hw_mem h x) /\
    (forall r o, (r, o) ∈ (a0, 112) :: user_slots -> load64 (hw_mem h') (pa + o) = hw_reg h r) /\
    (forall o, o ∈ [0; 8; 16; 24; 32] -> load64 (hw_mem h') (pa + o) = load64 (hw_mem h) (pa + o)) /\
    hw_reg h' sp = load64 (hw_mem h) (pa + TF_kernel_sp) /\ hw_reg h' tp = load64 (hw_mem h) (pa + TF_kernel_hartid) /\
    hw_reg h' t0 = load64 (hw_mem h) (pa + TF_kernel_trap) /\ hw_csr h' satp = load64 (hw_mem h) (pa + TF_kernel_satp) /\ hw_csr h' sepc = hw_csr h sepc.
Proof.
  intros Hw W. destruct (distinct_inv _ user_distinct) as (N1 & N2 & N3). apply NoDup_cons in N1 as [N1a N1]. apply NoDup_cons in N2 as [N2a N2].
  set (h0 := rset a0 TRAPFRAME (cset sscratch (rget h a0) h)). assert (window F h0 TRAPFRAME pa 288) as W0 by by apply (window_keep F h).
  destruct (saves_run F a0 TRAPFRAME pa 288 user_slots h0 W0 eq_refl eq_refl N2) as (m & E1 & Hm & Hs & Hk).
  assert (forall x, ~ F x -> m x = hw_mem h x) as HmF by (intros x Hx; apply Hm; intros Hi; by apply Hx, (wn_free _ _ _ _ _ W)).
  set (h1 := rset t0 (rget h a0) (mset m h0)). assert (window F h1 TRAPFRAME pa 288) as W1 by by apply (window_keep F h).
  destruct (saves_run F a0 TRAPFRAME pa 288 [(t0, 112)] h1 W1 eq_refl eq_refl (NoDup_singleton 112)) as (m' & E2 & Hm' & Hs' & Hk').
  assert (forall x, ~ F x -> m' x = hw_mem h x) as HmF' by (intros x Hx; rewrite <- HmF by done; apply Hm'; intros Hi; by apply Hx, (wn_free _ _ _ _ _ W)).
  set (kregs := [(sp, 8); (tp, 32); (t0, 16); (t1, 0)]). destruct (loads_run F a0 TRAPFRAME pa 288 kregs (mset m' h1)) as (g & E3 & Hl & _);
    [by apply (window_keep F h)|done|done|by apply (bool_decide_unpack _)|by apply (bool_decide_unpack _)|].
  assert (forall o, o ∈ [0; 8; 16; 24; 32] -> load64 m' (pa + o) = load64 (hw_mem h) (pa + o)) as Hker.
  { intros o Ho. assert (o mod 8 = 0 /\ (o ∉ [112]) /\ o ∉ user_slots.*2) as (H8 & H1 & H2); [|by rewrite Hk', <- Hk].
    assert (Forall (fun o => o mod 8 = 0 /\ (o ∉ [112]) /\ o ∉ user_slots.*2) [0; 8; 16; 24; 32]) as Hall by (apply (bool_decide_unpack _); by vm_compute).
    exact (proj1 (Forall_forall _ _) Hall _ Ho). }
  assert (forall r o, (r, o) ∈ kregs -> g r = load64 (hw_mem h) (pa + o)) as Hg.
  { intros r o Hr. rewrite (Hl r o Hr). cbn [hw_mem mset]. apply Hker. assert (Forall (fun p => snd p ∈ [0; 8; 16; 24; 32]) kregs) as Hall by (apply (bool_decide_unpack _); by vm_compute).
    exact (proj1 (Forall_forall _ _) Hall _ Hr). }
  exists (cset satp (g t1) (mkHart g (hw_csr h1) m')). split; [|split; [|split; [|split; [exact Hker|]]]].
  - change uservec with ([csrw sscratch a0; li a0 TRAPFRAME] ++ saves a0 user_slots ++ [csrr t0 sscratch] ++ saves a0 [(t0, 112)] ++ loads a0 kregs ++ [sfence_vma; csrw satp t1; sfence_vma]).
    rewrite (exec_then _ _ _ h0) by reflexivity. rewrite (exec_then _ _ _ _ E1). rewrite (exec_then _ _ _ h1) by reflexivity.
    rewrite (exec_then _ _ _ _ E2), (exec_then _ _ _ _ E3). reflexivity.
  - intros x Hx. transitivity (m x); [by apply Hm'|by apply Hm].
  - intros r o Hr. cbn [hw_mem cset]. apply elem_of_cons in Hr as [[= -> ->]|Hr].
    + rewrite (Hs' t0 112) by (by apply list_elem_of_singleton). change (u64 (rget h a0) = hw_reg h a0). by apply rget_wide.
    + assert (r <> zero /\ o <> 112 /\ r <> a0) as (Hz & H112 & Ha).
      { split; [apply (N3 r o); ielem|]. split; intros ->; [apply N2a|apply N1a]; apply list_elem_of_fmap; [by exists (r, 112)|by exists (a0, o)]. }
      destruct (slot_range r o ltac:(ielem)) as (_ & _ & H8). rewrite Hk' by (done || by intros ->%list_elem_of_singleton). cbn [hw_mem h1 rset mset].
      rewrite (Hs r o Hr). unfold h0, rget. rewrite decide_False by done. cbn. rewrite decide_False by done. apply u64_small, Hw.
  - cbn [hw_reg hw_csr cset]. rewrite (Hg sp 8), (Hg tp 32), (Hg t0 16) by (apply (bool_decide_unpack _); by vm_compute).
    do 3 (split; [done|]). split; [|done]. rewrite decide_True by done. apply Hg. apply (bool_decide_unpack _). by vm_compute.
Qed.

Lemma userret_run F h pa u : rget h a0 = u -> window F (cset satp u h) TRAPFRAME pa 288 ->
  exists h', exec userret h = Some h' /\ hw_mem h' = hw_mem h /\ hw_csr h' satp = u /\ hw_csr h' sepc = hw_csr h sepc /\
    forall r o, (r, o) ∈ (a0, 112) :: user_slots -> hw_reg h' r = load64 (hw_mem h) (pa + o).
Proof.
  intros Hu W. destruct (distinct_inv _ user_distinct) as (N1 & _ & _). apply NoDup_cons in N1 as [N1a N1].
  set (h0 := rset a0 TRAPFRAME (cset satp u h)). assert (window F h0 TRAPFRAME pa 288) as W0 by by apply (window_keep F (cset satp u h)).
  destruct (loads_run F a0 TRAPFRAME pa 288 user_slots h0 W0 eq_refl eq_refl N1 N1a) as (g & E & Hl & Ho).
  set (h1 := mkHart g (hw_csr h0) (hw_mem h0)). set (v := load64 (hw_mem h) (pa + 112)).
  exists (rset a0 v h1). split; [|split; [done|split; [by cbn; rewrite decide_True|split; [done|]]]].
  - change userret with ([sfence_vma; csrw satp a0; sfence_vma; li a0 TRAPFRAME] ++ loads a0 user_slots ++ [ld a0 112 a0]).
    rewrite (exec_then _ _ _ h0) by (unfold h0; rewrite <- Hu; reflexivity). rewrite (exec_then _ _ _ _ E). fold h1. cbn [exec step].
    assert (rget h1 a0 = TRAPFRAME) as ->. { unfold rget. rewrite decide_False by done. cbn [hw_reg h1]. by rewrite Ho. }
    rewrite (window_access F h1 TRAPFRAME pa 288) by (done || by apply (window_keep F (cset satp u h))). done.
  - intros r o [[= -> ->]|Hr]%elem_of_cons; [cbn; by rewrite decide_True|]. cbn [hw_reg rset]. rewrite decide_False; [exact (Hl r o Hr)|].
    intros ->. apply N1a, list_elem_of_fmap. by exists (a0, o).
Qed.
End trampoline.

(** ** Traps from the kernel *)

(** The registers that [kernelvec] restores. *)
Definition kernel_slots : list (reg * Z) :=
  [(ra, 0); (gp, 16); (t0, 32); (t1, 40); (t2, 48); (a0, 72); (a1, 80); (a2, 88); (a3, 96); (a4, 104); (a5, 112); (a6, 120); (a7, 128);
   (t3, 216); (t4, 224); (t5, 232); (t6, 240)].

(** All that [kernelvec] saves, in its order. *)
Definition kernel_saved : list (reg * Z) := (ra, 0) :: (gp, 16) :: (tp, 24) :: drop 2 kernel_slots.

Lemma kernel_distinct : distinct kernel_saved = true /\ distinct kernel_slots = true.
Proof. by vm_compute. Qed.

(** What a C function that was called leaves alone, by the calling convention:
    the stack pointer and the registers [s0] to [s11]. *)
Definition preserved : list reg := [sp; s0; s1; s2; s3; s4; s5; s6; s7; s8; s9; s10; s11].

Lemma kernelvec_cover r : r <> zero -> r <> tp -> r ∉ preserved -> exists o, (r, o) ∈ kernel_slots /\ (r, o) ∈ kernel_saved.
Proof.
  intros H1 H2 H3. destruct (list_find (fun p => fst p = r) kernel_slots) as [[k [q o]]|] eqn:E.
  - apply list_find_Some in E as (E & Hq & _). cbn in Hq. subst q. apply list_elem_of_lookup_2 in E. exists o. split; [done|].
    assert (Forall (fun p => p ∈ kernel_saved) kernel_slots) as Hall by (apply (bool_decide_unpack _); by vm_compute). exact (proj1 (Forall_forall _ _) Hall _ E).
  - exfalso. destruct r; try done; apply H3; apply (bool_decide_unpack _); by vm_compute.
Qed.

Lemma kernelvec_run F h pa b : wide h -> b = u64 (hw_reg h sp - 256) -> window F h b pa 256 ->
  exists h', exec kernelvec h = Some h' /\ hw_csr h' = hw_csr h /\ hw_reg h' sp = b /\ (forall r, r <> sp -> hw_reg h' r = hw_reg h r) /\
    (forall x, ~ pa <= x < pa + 256 -> hw_mem h' x = hw_mem h x) /\ (forall r o, (r, o) ∈ kernel_saved -> load64 (hw_mem h') (pa + o) = hw_reg h r).
Proof.
  intros Hw Hb W. destruct (distinct_inv _ (proj1 kernel_distinct)) as (_ & N2 & N3). set (h0 := rset sp b h). assert (window F h0 b pa 256) as W0 by by apply (window_keep F h).
  assert (rget h0 sp = b) as Hsp by by vm_compute. destruct (saves_run F sp b pa 256 kernel_saved h0 W0 Hsp eq_refl N2) as (m & E & Hm & Hs & _).
  exists (mset m h0). split; [|split; [done|split; [by cbn; rewrite decide_True|split; [|split; [exact Hm|]]]]].
  - change kernelvec with ([addi sp sp (-256)] ++ saves sp kernel_saved). rewrite (exec_then _ _ _ h0); [exact E|]. cbn [exec step]. unfold h0. rewrite Hb. done.
  - intros r Hr. cbn. by rewrite decide_False.
  - intros r o Hr. cbn [hw_mem mset]. rewrite (Hs r o Hr). unfold h0, rget. rewrite decide_False by by apply (N3 r o). cbn. rewrite decide_False; [apply u64_small, Hw|].
    intros ->. assert (sp ∉ (kernel_saved.*1)) as Hn by (apply (bool_decide_unpack _); by vm_compute). apply Hn, list_elem_of_fmap. by exists (sp, o).
Qed.

Lemma kernelvec_back_run F h pa b : rget h sp = b -> window F h b pa 256 ->
  exists h', exec kernelvec_back h = Some h' /\ hw_csr h' = hw_csr h /\ hw_mem h' = hw_mem h /\ hw_reg h' sp = u64 (b + 256) /\
    (forall r o, (r, o) ∈ kernel_slots -> hw_reg h' r = load64 (hw_mem h) (pa + o)) /\ (forall r, r <> sp -> r ∉ kernel_slots.*1 -> hw_reg h' r = hw_reg h r).
Proof.
  intros Hb W. destruct (distinct_inv _ (proj2 kernel_distinct)) as (N1 & _ & N3). assert (sp ∉ kernel_slots.*1) as Hn by (apply (bool_decide_unpack _); by vm_compute).
  destruct (loads_run F sp b pa 256 kernel_slots h W Hb eq_refl N1 Hn) as (g & E & Hl & Ho). set (h1 := mkHart g (hw_csr h) (hw_mem h)).
  assert (rget h1 sp = b) as Hsp by (rewrite rget_reg by done; cbn [hw_reg h1]; rewrite Ho by done; by rewrite <- (rget_reg h sp)).
  exists (rset sp (u64 (b + 256)) h1). split; [|split; [done|split; [done|split; [by cbn; rewrite decide_True|split]]]].
  - change kernelvec_back with (loads sp kernel_slots ++ [addi sp sp 256]). rewrite (exec_then _ _ _ _ E). fold h1. cbn [exec step]. by rewrite Hsp.
  - intros r o Hr. cbn [hw_reg rset]. rewrite decide_False; [exact (Hl r o Hr)|]. intros ->. apply Hn, list_elem_of_fmap. by exists (sp, o).
  - intros r H1 H2. cbn [hw_reg rset]. rewrite decide_False by done. by apply Ho.
Qed.

(** ** The trap frame of a process *)

Lemma satp_root root : is_page root -> MAKE_SATP root / 2 ^ 60 <> 0 /\ MAKE_SATP root mod 2 ^ 44 * PGSIZE = root.
Proof.
  intros (H1 & H2 & H3). change PHYSTOP with 0x88000000 in H3. change KERNBASE with 0x80000000 in H2. change PGSIZE with 4096 in *.
  assert (MAKE_SATP root = 8 * 2 ^ 60 + root / 4096) as ->.
  { unfold MAKE_SATP, SATP_SV39. rewrite Z.shiftr_div_pow2 by done. change (2 ^ 12) with 4096. rewrite <- Z.add_lor_land, Z.shiftl_mul_pow2 by done.
    assert (Z.land (8 * 2 ^ 60) (root / 4096) = 0) as ->; [|lia]. rewrite <- (Z.shiftl_mul_pow2 8 60) by done.
    apply Z.bits_inj'. intros k Hk. rewrite Z.land_spec, Z.bits_0. destruct (Z.lt_ge_cases k 60); [by rewrite Z.shiftl_spec_low|].
    rewrite (Z.bits_above_log2 (root / 4096) k), andb_false_r; [done|zlia|]. apply (Z.lt_le_trans _ 60); [|done]. apply Z.log2_lt_pow2; zlia. }
  zlia.
Qed.

Definition tf_perm : Z := Z.lor PTE_R PTE_W.

Section user.
Context {LAY : Layout} {ENV : Env} {SYM : Symbols}.

Lemma tf_window s i tf fl root T1 T0 h : uproc s i tf fl root T1 T0 -> ent (k_mem s) root (TRAPFRAME / PGSIZE) = leaf_pte tf tf_perm ->
  hw_mem h = k_mem s -> hw_csr h satp = MAKE_SATP root -> window (in_page tf) h TRAPFRAME tf 288.
Proof.
  intros P He Hm Hs. pose proof (up_page _ _ _ _ _ _ _ P) as [Hp _]. pose proof Hp as (Hp1 & Hp2 & Hp3).
  change PHYSTOP with 0x88000000 in Hp3. change KERNBASE with 0x80000000 in Hp2. split; [done|done|done| |].
  { intros x Hx. unfold in_page, PGSIZE. lia. }
  intros w m o Hf H0 H8 Hn. destruct (tf_uproc s (k_set_mem m s) i tf fl root T1 T0 P) as [_ [HE _]]; [|done..|].
  { intros x Hx. cbn. by rewrite Hf, Hm. }
  assert (is_page root) as Hr by (apply (vmem_table_page _ _ _ _ _ root (us_vm _ _ _ _ _ (up_space _ _ _ _ _ _ _ P))), list_elem_of_here).
  destruct (satp_root root Hr) as [S1 S2]. unfold mmu. rewrite Hs, (proj2 (Z.eqb_neq _ _) S1), S2.
  change TRAPFRAME with 0x3fffffe000. change MAXVA with 0x4000000000. rewrite (proj2 (Z.ltb_lt _ _)) by lia. cbv zeta.
  change PGSIZE with 4096 in *. assert ((0x3fffffe000 + o) / 4096 = TRAPFRAME / 4096 /\ (0x3fffffe000 + o) mod 4096 = o) as [-> ->] by (change TRAPFRAME with 0x3fffffe000; zlia).
  specialize (HE (TRAPFRAME / 4096)). cbn [k_mem k_set_mem] in HE. rewrite HE, He, leaf_pte_PA by (done || lia).
  assert (has (leaf_pte tf tf_perm) PTE_V && has (leaf_pte tf tf_perm) (if w then PTE_W else PTE_R) && negb (has (leaf_pte tf tf_perm) PTE_U) = true) as ->; [|done].
  rewrite leaf_pte_V, has_U. destruct w; rewrite ?has_W, ?has_R; by rewrite !leaf_pte_bit.
Qed.

(** The kernel's view when [usertrap] is entered. *)
Definition entered (h : hart) (s : kstate) : kstate :=
  on_csr (fun c => cs_set_tp (hw_reg h tp) (cs_set_satp (hw_csr h satp) c)) (k_set_mem (hw_mem h) s).

(** The hart when [usertrap] has returned [u]: memory and [sepc] as the kernel
    left them; the other registers can be anything. *)
Record returned (s : kstate) (u : Z) (h : hart) : Prop := {
  rt_mem : hw_mem h = k_mem s;
  rt_a0 : hw_reg h a0 = u;
  rt_sepc : hw_csr h sepc = cs_sepc (k_csr s)
}.

(** C8. A copy-on-write fault is invisible to the process.  From the trap on,
    [uservec], [usertrap] and [userret] run through: [uservec] jumps to the
    handler of the trap frame with the kernel's stack, hart id and page table,
    and when [userret] executes [sret], every one of the 31 registers holds
    what it held at the trap, the page table of the process is installed again
    and execution resumes at the instruction that faulted.  The page is now
    private and writable, every other entry and every readable byte of the
    process is as before. *)
Theorem cow_transparent va s i tf pg fl root T1 T0 h (e := ent (k_mem s) root (va / PGSIZE)) :
  uproc s i tf (pg :: fl) root T1 T0 -> faulted false va s -> 0 <= va < MAXVA -> p_killed (k_procs s i) = 0 ->
  has e PTE_V = true -> has e PTE_U = true -> has e PTE_COW = true -> has e PTE_SWAPPED = false ->
  ent (k_mem s) root (TRAPFRAME / PGSIZE) = leaf_pte tf tf_perm -> wide h -> hw_mem h = k_mem s -> hw_csr h satp = MAKE_SATP root ->
  exists h1 s2, exec uservec h = Some h1 /\ fst (leap uservec_end h1) = load64 (k_mem s) (tf + TF_kernel_trap) /\
    hw_reg h1 sp = load64 (k_mem s) (tf + TF_kernel_sp) /\ hw_reg h1 tp = load64 (k_mem s) (tf + TF_kernel_hartid) /\
    hw_csr h1 satp = load64 (k_mem s) (tf + TF_kernel_satp) /\
    usertrap (entered h1 s) = Ok (MAKE_SATP root) s2 /\
    (forall w, 0 <= w < NVPN -> ent (k_mem s2) root w = if decide (w = va / PGSIZE) then own_pte pg e else ent (k_mem s) root w) /\
    (forall a, 0 <= a < MAXVA -> uvalid (k_mem s) root a = true -> ubyte (k_mem s2) root a = ubyte (k_mem s) root a) /\
    forall h2, returned s2 (MAKE_SATP root) h2 -> exists h3, exec userret h2 = Some h3 /\ hw_mem h3 = k_mem s2 /\ hw_csr h3 satp = hw_csr h satp /\
      (forall r, r <> zero -> hw_reg h3 r = hw_reg h r) /\ fst (leap userret_end h3) = u64 (cs_sepc (k_csr s)).
Proof.
  intros P Ft Hva Hk HeV HeU HeC Hsw He Hw Hm Hs. pose proof (tf_window _ _ _ _ _ _ _ h P He Hm Hs) as W.
  destruct (uservec_run _ h tf Hw W) as (h1 & E1 & Hm1 & Hr1 & _ & R1 & R2 & R3 & R4 & _). rewrite Hm in R1, R2, R3, R4.
  assert (forall x, ~ in_page tf x -> hw_mem h1 x = k_mem s x) as Hout.
  { intros x Hx. rewrite <- Hm. apply Hm1. intros Hi. apply Hx. unfold in_page, PGSIZE. lia. }
  set (s1 := entered h1 s). destruct (tf_uproc s s1 i tf (pg :: fl) root T1 T0 P Hout) as [P1 [U1 U1']]; [done..|].
  destruct (cow_store_rule va s1 i tf pg fl root T1 T0 P1 Ft Hva Hk) as (s2 & E2 & P2 & He2 & Hk2 & Hb2 & _ & Hsepc & _); [by rewrite U1..|].
  exists h1, s2. split; [done|]. split; [exact R3|]. do 4 (split; [done|]). split; [|split].
  - intros w Hwr. rewrite He2 by done. by rewrite !U1.
  - intros a Ha Hua. rewrite <- (U1' a Ha Hua). apply Hb2; [done|]. unfold uvalid in *. by rewrite U1.
  - intros h2 [M2 A2 S2]. assert (ent (k_mem s2) root (TRAPFRAME / PGSIZE) = leaf_pte tf tf_perm) as He3.
    { rewrite He2, !U1 by done. case_decide as D; [|exact He]. exfalso. unfold e in HeU. rewrite <- D, He, has_U, leaf_pte_bit in HeU by done. discriminate HeU. }
    destruct (userret_run _ h2 tf (MAKE_SATP root) A2 (tf_window _ _ _ _ _ _ _ (cset satp (MAKE_SATP root) h2) P2 He3 M2 eq_refl)) as (h3 & E3 & M3 & C3 & S3 & R).
    exists h3. split; [done|]. split; [by rewrite M3|]. split; [by rewrite C3|]. split.
    + intros r Hr. destruct (slot_of r Hr) as [o Ho]. rewrite (R r o Ho), M2, <- (Hr1 r o Ho). destruct (slot_range r o Ho) as (O1 & O2 & _).
      apply (loadn_ext 8). intros x Hx. apply Hk2. change (Z.of_nat 8) with 8 in Hx. unfold PGSIZE. lia.
    + transitivity (hw_csr h2 sepc); [exact S3|]. rewrite S2. exact Hsepc.
Qed.
End user.

Section routines.
Context {LAY : Layout} {SYM : Symbols}.

(** C17. Switching away and back restores a context.  [swtch] stores [ra], [sp]
    and [s0] to [s11] in the old context, loads them from the new one and
    returns to where the new context was saved.  When any hart later switches
    to a context whose 112 bytes are still the same, these fourteen registers
    hold what they held and it returns to the caller of the first [swtch]. *)
Theorem swtch_roundtrip F h old new pold pnew : wide h -> rget h a0 = old -> rget h a1 = new -> window F h old pold 112 -> window F h new pnew 112 ->
  pold + 112 <= pnew \/ pnew + 112 <= pold ->
  exists h1, exec swtch h = Some h1 /\ fst (leap swtch_end h1) = load64 (hw_mem h) pnew /\ hw_reg h1 sp = load64 (hw_mem h) (pnew + 8) /\
    (forall x, ~ pold <= x < pold + 112 -> hw_mem h1 x = hw_mem h x) /\
    forall G h2 pnext, wide h2 -> window G h2 (rget h2 a0) pnext 112 -> window G h2 (rget h2 a1) pold 112 -> pold + 112 <= pnext \/ pnext + 112 <= pold ->
      (forall x, pold <= x < pold + 112 -> hw_mem h2 x = hw_mem h1 x) ->
      exists h3, exec swtch h2 = Some h3 /\ fst (leap swtch_end h3) = hw_reg h ra /\ (forall r, r ∈ callee.*1 -> hw_reg h3 r = hw_reg h r).
Proof.
  intros Hw A0 A1 Wo Wn Hd. destruct (swtch_run F h old new pold pnew Hw A0 A1 Wo Wn Hd) as (h1 & E1 & _ & H1 & _ & M1).
  assert ((ra, 0) ∈ callee /\ (sp, 8) ∈ callee) as [Hra Hsp] by (split; apply (bool_decide_unpack _); by vm_compute).
  exists h1. split; [done|]. split; [|split; [exact (proj2 (H1 sp 8 Hsp))|split; [done|]]].
  { change (rget h1 ra = load64 (hw_mem h) pnew). rewrite rget_reg, (proj2 (H1 ra 0 Hra)) by done. f_equal. lia. }
  intros G h2 pnext Hw2 Wo2 Wn2 Hd2 Hsame. destruct (swtch_run G h2 _ _ pnext pold Hw2 eq_refl eq_refl Wo2 Wn2 ltac:(lia)) as (h3 & E3 & _ & H3 & _ & _).
  assert (forall r o, (r, o) ∈ callee -> hw_reg h3 r = hw_reg h r) as Hback.
  { intros r o Hr. rewrite (proj2 (H3 r o Hr)), <- (proj1 (H1 r o Hr)). apply (loadn_ext 8). intros x Hx. apply Hsame. change (Z.of_nat 8) with 8 in Hx.
    assert (Forall (fun p => 0 <= snd p /\ snd p + 8 <= 112) callee) as Hall by (repeat constructor; cbn; lia). pose proof (proj1 (Forall_forall _ _) Hall _ Hr) as Hr8. cbn in Hr8. lia. }
  exists h3. split; [done|]. split; [change (rget h3 ra = hw_reg h ra); rewrite rget_reg by done; exact (Hback ra 0 Hra)|].
  intros r ([q o] & -> & Hr)%list_elem_of_fmap. exact (Hback q o Hr).
Qed.

(** C23. An interrupt in the kernel is invisible to the interrupted code.  When
    the 256 bytes below the stack pointer are mapped, [kernelvec] saves the
    registers there; if [kerneltrap] returns and keeps, as the calling
    convention demands of it, the stack pointer, [s0] to [s11] and the bytes of
    the frame, then at [sret] every register but [tp] holds what it held at the
    interrupt; [tp] is that of the hart it now runs on. *)
Theorem kernelvec_transparent F h pa (b := u64 (hw_reg h sp - 256)) : wide h -> window F h b pa 256 ->
  exists h1, exec kernelvec h = Some h1 /\ hw_csr h1 = hw_csr h /\ (forall x, ~ pa <= x < pa + 256 -> hw_mem h1 x = hw_mem h x) /\
    forall h2, (forall r, r ∈ preserved -> hw_reg h2 r = hw_reg h1 r) -> (forall x, pa <= x < pa + 256 -> hw_mem h2 x = hw_mem h1 x) -> window F h2 b pa 256 ->
      exists h3, exec kernelvec_back h2 = Some h3 /\ (forall r, r <> zero -> r <> tp -> hw_reg h3 r = hw_reg h r) /\ hw_reg h3 tp = hw_reg h2 tp /\
        hw_mem h3 = hw_mem h2 /\ fst (leap kernelvec_end h3) = hw_csr h2 sepc.
Proof.
  intros Hw W. destruct (kernelvec_run F h pa b Hw eq_refl W) as (h1 & E1 & C1 & Hsp & Hr1 & M1 & Hs). exists h1. do 3 (split; [done|]).
  intros h2 Hp Hm W2. assert (sp ∈ preserved) as Hip by apply list_elem_of_here. assert (rget h2 sp = b) as Hb by (rewrite rget_reg, Hp by done; exact Hsp).
  destruct (kernelvec_back_run F h2 pa b Hb W2) as (h3 & E3 & C3 & M3 & Hsp3 & Hl & Ho). exists h3. split; [done|]. split; [|split; [|split; [done|]]].
  - intros r Hz Ht. destruct (decide (r ∈ preserved)) as [Hin|Hin].
    + destruct (decide (r = sp)) as [->|Hne]. { rewrite Hsp3. unfold b, u64. pose proof (Hw sp). zlia. }
      assert (Forall (fun r => r ∉ kernel_slots.*1) preserved) as Hall by (apply (bool_decide_unpack _); by vm_compute).
      pose proof (proj1 (Forall_forall _ _) Hall _ Hin) as Hn. by rewrite Ho, Hp, Hr1.
    + destruct (kernelvec_cover r Hz Ht Hin) as (o & Ho1 & Ho2). rewrite (Hl r o Ho1), <- (Hs r o Ho2). apply (loadn_ext 8). intros x Hx. apply Hm. change (Z.of_nat 8) with 8 in Hx.
      assert (Forall (fun p => 0 <= snd p /\ snd p + 8 <= 256) kernel_slots) as Hall by (repeat constructor; cbn; lia). pose proof (proj1 (Forall_forall _ _) Hall _ Ho1) as H8. cbn in H8. lia.
  - apply Ho; [done|]. apply (bool_decide_unpack _). by vm_compute.
  - change (hw_csr h3 sepc = hw_csr h2 sepc). by rewrite C3.
Qed.
End routines.

(** ** Concrete harts *)

(** A hart without paging whose registers are numbered; [old] and [new] are
    the arguments. *)
Definition bare (old new : Z) : hart :=
  mkHart (fun r => if decide (r = a0) then old else if decide (r = a1) then new else if decide (r = sp) then 0x3000 else 7) (fun _ => 0) (fun _ => 0).

Lemma bare_wide old new : 0 <= old < 0x10000 -> 0 <= new < 0x10000 -> wide (bare old new).
Proof. intros H1 H2 r. cbn. repeat case_decide; lia. Qed.

Lemma bare_window h base n : hw_csr h satp = 0 -> base mod 8 = 0 -> 0 <= base -> base + n <= 0x10000000000000000 -> window (fun _ => True) h base base n.
Proof. intros Hs H1 H2 H3. split; try done. intros w m o _ _ _ _. unfold mmu. by rewrite Hs. Qed.

Lemma swtch_roundtrip_witness : exists h1 h3, exec swtch (bare 0x1000 0x2000) = Some h1 /\ exec swtch (mset (hw_mem h1) (bare 0x2000 0x1000)) = Some h3 /\
  hw_reg h3 sp = 0x3000.
Proof.
  destruct (swtch_roundtrip (fun _ => True) (bare 0x1000 0x2000) 0x1000 0x2000 0x1000 0x2000 (bare_wide 0x1000 0x2000 ltac:(lia) ltac:(lia)) eq_refl eq_refl
    (bare_window (bare 0x1000 0x2000) 0x1000 112 eq_refl eq_refl ltac:(lia) ltac:(lia)) (bare_window (bare 0x1000 0x2000) 0x2000 112 eq_refl eq_refl ltac:(lia) ltac:(lia)) ltac:(lia)) as (h1 & E1 & _ & _ & _ & H).
  destruct (H (fun _ => True) (mset (hw_mem h1) (bare 0x2000 0x1000)) 0x2000 (bare_wide 0x2000 0x1000 ltac:(lia) ltac:(lia))
    (bare_window (mset (hw_mem h1) (bare 0x2000 0x1000)) 0x2000 112 eq_refl eq_refl ltac:(lia) ltac:(lia))
    (bare_window (mset (hw_mem h1) (bare 0x2000 0x1000)) 0x1000 112 eq_refl eq_refl ltac:(lia) ltac:(lia)) ltac:(lia) (fun x _ => eq_refl)) as (h3 & E3 & _ & Hr).
  exact (ex_intro _ h1 (ex_intro _ h3 (conj E1 (conj E3 (Hr sp ltac:(right; left)))))).
Defined.

Lemma kernelvec_transparent_witness : exists h1 h3, exec kernelvec (bare 1 2) = Some h1 /\ exec kernelvec_back h1 = Some h3 /\ hw_reg h3 a0 = 1.
Proof.
  destruct (kernelvec_transparent (fun _ => True) (bare 1 2) 0x2f00 (bare_wide 1 2 ltac:(lia) ltac:(lia)) (bare_window (bare 1 2) 0x2f00 256 eq_refl eq_refl ltac:(lia) ltac:(lia)))
    as (h1 & E1 & C & _ & H). pose proof (f_equal (fun c => c satp) C) as Hs.
  destruct (H h1 (fun r _ => eq_refl) (fun x _ => eq_refl) (bare_window h1 0x2f00 256 Hs eq_refl ltac:(lia) ltac:(lia))) as (h3 & E3 & Hr & _).
  exact (ex_intro _ h1 (ex_intro _ h3 (conj E1 (conj E3 (Hr a0 ltac:(discriminate) ltac:(discriminate)))))).
Defined.

(** The sample process with a copy-on-write page and its trap frame mapped. *)
Lemma framed : exists s pg fl T1 T0, uspace s (pg :: fl) uroot T1 T0 /\ only_vm cow_state s /\ (utf ∉ pg :: fl ++ tables uroot T1 T0) /\
  forall w, 0 <= w < NVPN -> ent (k_mem s) uroot w = if decide (w = TRAPFRAME / PGSIZE) then leaf_pte utf tf_perm else if decide (w = 0) then leaf_pte udata cowu else 0.
Proof.
  destruct (wpx_total _ _ _ (mappages_spec cow_state free8 uroot [utab1] [utab0] cow_vmem TRAPFRAME 1 utf tf_perm eq_refl ltac:(done) ltac:(done) ltac:(done) ltac:(done) ltac:(done) ltac:(done)
    ltac:(intros w Hw; change (TRAPFRAME / PGSIZE) with 0x3fffffe in Hw; rewrite cow_ent by (change NVPN with 0x4000000; lia); by rewrite decide_False by lia) true ltac:(intros _; rewrite length_free8; lia)))
    as (r & s & _ & k & fl & T1 & T0 & HV & HF & HE & Hk & Hlen). rewrite length_free8 in *. destruct Hk as [[_ ->]|(_ & _ & _ & ?)]; [|lia].
  destruct fl as [|pg fl]; [cbn in Hlen; lia|]. pose proof (vf_used _ _ _ _ _ _ HF) as [ns Hns]. exists s, pg, fl, T1, T0.
  assert (forall q, q ∈ pg :: fl ++ tables uroot T1 T0 -> q ∈ free8 ++ tables uroot [utab1] [utab0]) as Hin.
  { intros q [->|[Hq|Hq]%elem_of_app]%elem_of_cons; apply elem_of_app.
    - left. rewrite Hns. apply elem_of_app. right. left.
    - left. rewrite Hns. apply elem_of_app. right. by right.
    - apply (vf_tables _ _ _ _ _ _ HF) in Hq as [?|?]; [by right|by left]. }
  assert (forall w, 0 <= w < NVPN -> ent (k_mem s) uroot w = if decide (w = TRAPFRAME / PGSIZE) then leaf_pte utf tf_perm else if decide (w = 0) then leaf_pte udata cowu else 0) as HE'.
  { intros w Hw. rewrite HE, <- cow_ent by done. unfold mapped. destruct (decide (w = TRAPFRAME / PGSIZE)) as [->|Hne]; [|by rewrite decide_False by lia].
    by rewrite decide_True by lia. }
  split; [|split; [apply HF|split; [|done]]].
  - assert (udata ∉ free8 ++ tables uroot [utab1] [utab0]) as Hud by (apply (bool_decide_unpack _); by vm_compute). split; [done| |].
    + intros w Hw. rewrite HE' by done. destruct (decide (w = TRAPFRAME / PGSIZE)); [intros H; by vm_compute in H|]. case_decide; [|done]. intros _. cbv zeta. rewrite cowu_page.
      split; [apply (bool_decide_unpack _); by vm_compute|]. split; [intros Hi; apply Hud, Hin; right; apply elem_of_app; by right|].
      rewrite (vf_cnt _ _ _ _ _ _ HF); [by vm_compute|apply (bool_decide_unpack _); by vm_compute|by intros Hi; apply Hud, elem_of_app; left].
    + intros w w' Hw Hw'. rewrite !HE' by done. destruct (decide (w = TRAPFRAME / PGSIZE)); [intros H; by vm_compute in H|].
      destruct (decide (w' = TRAPFRAME / PGSIZE)); [intros _ H; by vm_compute in H|]. repeat case_decide; subst; done.
  - intros Hi%Hin. by apply utf_apart.
Qed.

Lemma cow_transparent_witness : exists s h h1 s2 h3, exec uservec h = Some h1 /\ usertrap (entered h1 s) = Ok (MAKE_SATP uroot) s2 /\
  exec userret (mkHart (fun _ => MAKE_SATP uroot) (fun _ => cs_sepc (k_csr s2)) (k_mem s2)) = Some h3 /\ hw_reg h3 t3 = 7 /\ fst (leap userret_end h3) = 0x40.
Proof.
  destruct framed as (s & pg & fl & T1 & T0 & U & Ho & Hn & HE).
  assert (k_cur s = Some 0 /\ k_held s = [] /\ p_pagetable (k_procs s 0) = uroot /\ p_killed (k_procs s 0) = 0) as (Hc & Hh & Hp & Hk).
  { unfold only_vm in Ho. pose proof (f_equal k_cur Ho) as H1. pose proof (f_equal k_held Ho) as H2. pose proof (f_equal k_procs Ho) as H3. cbn in H1, H2, H3. by rewrite H1, H2, H3. }
  set (h := mkHart (hw_reg (bare 1 2)) (fun _ => MAKE_SATP uroot) (k_mem s)).
  assert (uproc (trapped 15 0x123 s) 0 utf (pg :: fl) uroot T1 T0) as P.
  { split; [|exact Hc|exact Hh|exact Hp|done|apply utf_page|exact Hn|].
    - apply (uspace_same s); [done..|]. unfold alloc_locks_free. exact (vm_locks _ _ _ _ _ (us_vm _ _ _ _ _ U)).
    - intros w Hw. change (k_mem (trapped 15 0x123 s)) with (k_mem s). rewrite HE by done.
      destruct (decide (w = TRAPFRAME / PGSIZE)); [intros H; by vm_compute in H|]. case_decide; by vm_compute. }
  assert (ent (k_mem s) uroot (0x123 / PGSIZE) = leaf_pte udata cowu) as He by (rewrite HE by (by vm_compute); by vm_compute).
  assert (ent (k_mem s) uroot (TRAPFRAME / PGSIZE) = leaf_pte utf tf_perm) as Hf by (rewrite HE by (by vm_compute); by rewrite decide_True).
  destruct (cow_transparent 0x123 (trapped 15 0x123 s) 0 utf pg fl uroot T1 T0 h P) as (h1 & s2 & E1 & _ & _ & _ & _ & E2 & _ & _ & H);
    [by split|done|exact Hk|change (k_mem (trapped 15 0x123 s)) with (k_mem s); rewrite He; by vm_compute..|exact Hf|exact (bare_wide 1 2 ltac:(lia) ltac:(lia))|done|done|].
  destruct (H (mkHart (fun _ => MAKE_SATP uroot) (fun _ => cs_sepc (k_csr s2)) (k_mem s2))) as (h3 & E3 & _ & _ & Hr & Hpc); [by split|].
  exists (trapped 15 0x123 s), h, h1, s2, h3. split; [exact E1|]. split; [exact E2|]. split; [exact E3|]. split; [exact (Hr t3 ltac:(discriminate))|exact Hpc].
Defined.
