(* ===== verification/Grep.v ===== *)
(** * grep (user/grep.c)

    A C string is the list of its bytes without the NUL; [rchr] reads its
    first byte, 0 at the end.  [matchhere] and [matchstar] call each other on
    a pattern that shrinks and a text that shrinks; here [matchstar] takes the
    matcher of the rest of the pattern as an argument.

    [grep] reads a descriptor into a buffer of 1024 bytes.  A read returns as
    many bytes as there are, at most the number asked for; how many are there
    at the [k]th call is an argument [avail] (a negative value is an error). *)

From S2P Require Import Prelude.

(** The byte a [char*] points to. *)
Definition rchr (l : list Z) : Z := hd 0 l.

(** [do { if(matchhere(re, text)) return 1; } while( *text != 0 && ( *text++ == c || c == '.'));] *)
Fixpoint matchstar (here : list Z -> bool) (c : Z) (text : list Z) : bool :=
  if here text then true else
  match text with
  | [] => false
  | t :: text' => if negb (t =? 0) && ((t =? c) || (c =? 46)) then matchstar here c text' else false
  end.

Fixpoint matchhere (re text : list Z) : bool :=
  match re with
  | [] => true
  | c :: re1 =>
      if c =? 0 then true else
      match re1 with
      | c1 :: re2 =>
          if c1 =? 42 then matchstar (matchhere re2) c text
          else if (c =? 36) && (c1 =? 0) then rchr text =? 0
          else if negb (rchr text =? 0) && ((c =? 46) || (c =? rchr text)) then matchhere re1 (tail text)
          else false
      | [] =>
          if c =? 36 then rchr text =? 0
          else if negb (rchr text =? 0) && ((c =? 46) || (c =? rchr text)) then matchhere re1 (tail text)
          else false
      end
  end.

(** [do { if(matchhere(re, text)) return 1; } while( *text++ != 0);] *)
Fixpoint match_from (re text : list Z) : bool :=
  if matchhere re text then true else
  match text with
  | [] => false
  | t :: text' => if negb (t =? 0) then match_from re text' else false
  end.

Definition grep_match (re text : list Z) : bool :=
  if rchr re =? 94 then matchhere (tail re) text else match_from re text.

(** ** The line loop *)

Definition BUFSZ : nat := 1024.

(** The C string that starts at offset [p] of a buffer. *)
Fixpoint until_nul (l : list Z) : list Z :=
  match l with
  | [] => []
  | c :: l' => if c =? 0 then [] else c :: until_nul l'
  end.
Definition str_at (buf : list Z) (p : nat) : list Z := until_nul (drop p buf).

(** [strchr(p, c)] as an offset. *)
Definition strchr_at (buf : list Z) (p : nat) (c : Z) : option nat :=
  match list_find (fun x => x = c) (str_at buf p) with
  | Some (k, _) => Some (p + k)%nat
  | None => None
  end.

(** [while((q = strchr(p, '\n')) != 0)]: the buffer, the offset [p] and what is
    written.  Each round moves [p] on, so the size of the buffer is fuel enough. *)
Fixpoint scan_lines (fuel : nat) (pattern buf : list Z) (p : nat) (out : list Z) : option (list Z * nat * list Z) :=
  match fuel with
  | O => None
  | S fuel =>
      match strchr_at buf p 10 with
      | None => Some (buf, p, out)
      | Some q =>
          let buf := <[q := 0]> buf in
          if grep_match pattern (str_at buf p) then
            let buf := <[q := 10]> buf in
            scan_lines fuel pattern buf (q + 1) (out ++ take (q + 1 - p) (drop p buf))
          else scan_lines fuel pattern buf (q + 1) out
      end
  end.

(** The bytes [bs] stored at offset [m]. *)
Definition put_at (buf : list Z) (m : nat) (bs : list Z) : list Z := take m buf ++ bs ++ drop (m + length bs) buf.

(** [read(fd, buf + m, max)]: the bytes, or an error. *)
Definition read_fd (avail : nat -> Z) (k : nat) (rest : list Z) (max : nat) : option (list Z) :=
  if avail k <? 0 then None else Some (take (max `min` Z.to_nat (avail k)) rest).

(** The loop of [grep]: what it writes.  Every round but the last reads at
    least one byte. *)
Fixpoint grep_loop (fuel : nat) (avail : nat -> Z) (k : nat) (pattern rest buf : list Z) (m : nat) (out : list Z) : option (list Z) :=
  match fuel with
  | O => None
  | S fuel =>
      match read_fd avail k rest (BUFSZ - m - 1) with
      | None | Some [] => Some out
      | Some bs =>
          let buf := put_at buf m bs in
          let m := (m + length bs)%nat in
          let buf := <[m := 0]> buf in
          match scan_lines (S BUFSZ) pattern buf 0 out with
          | None => None
          | Some (buf, p, out) =>
              let '(m, buf) := if (0 <? m)%nat then ((m - p)%nat, put_at buf 0 (take (m - p) (drop p buf))) else (m, buf) in
              grep_loop fuel avail (S k) pattern (drop (length bs) rest) buf m out
          end
      end
  end.

Definition grep (avail : nat -> Z) (pattern input : list Z) : option (list Z) :=
  grep_loop (S (length input)) avail 0 pattern input (replicate BUFSZ 0) 0 [].
