(* ===== verification/GrepSpec.v ===== *)
(** * What grep prints

    The patterns of grep denote languages: [parse] reads a pattern as a
    sequence of characters, dots and starred characters with an optional
    anchor at the end, and [denotes] says which texts the sequence stands for.
    [grep_match] finds a text exactly when some part of it, at the anchored
    places, is in the language.  [grep] prints the matching lines of its
    input, however the input arrives, as long as lines fit its buffer. *)

From S2P Require Import Prelude Grep.

(** ** Patterns *)

Inductive atom : Type := Any | Lit (c : Z).
Inductive item : Type := One (a : atom) | Many (a : atom).

Definition atom_of (c : Z) : atom := if c =? 46 then Any else Lit c.

Definition fits (a : atom) (x : Z) : Prop := match a with Any => True | Lit c => x = c end.

(** The items of a pattern, and whether it ends in an anchor. *)
Fixpoint parse (re : list Z) : list item * bool :=
  match re with
  | [] => ([], false)
  | c :: re1 =>
      match re1 with
      | [] => if c =? 36 then ([], true) else ([One (atom_of c)], false)
      | c1 :: re2 =>
          if c1 =? 42 then (Many (atom_of c) :: (parse re2).1, (parse re2).2)
          else (One (atom_of c) :: (parse re1).1, (parse re1).2)
      end
  end.

(** The texts a sequence of items stands for. *)
Inductive denotes : list item -> list Z -> Prop :=
| den_nil : denotes [] []
| den_one a x l xs : fits a x -> denotes l xs -> denotes (One a :: l) (x :: xs)
| den_many a xs l ys : Forall (fits a) xs -> denotes l ys -> denotes (Many a :: l) (xs ++ ys).

(** A pattern matches at the start of a text. *)
Definition here (re text : list Z) : Prop :=
  exists p b, text = p ++ b /\ denotes (parse re).1 p /\ ((parse re).2 = true -> b = []).

(** A pattern matches somewhere; a leading '^' anchors it at the start. *)
Definition found (re text : list Z) : Prop :=
  match re with
  | 94 :: re' => here re' text
  | _ => exists a t, text = a ++ t /\ here re t
  end.

Abbreviation no_nul := (Forall (fun c : Z => c <> 0)).

Lemma fits_test c x : fits (atom_of c) x <-> (x =? c) || (c =? 46) = true.
Proof. unfold fits, atom_of. destruct (Z.eqb_spec c 46) as [->|H]; [rewrite orb_true_r; done|]. rewrite orb_false_r. lia. Qed.

Lemma matchstar_correct (f : list Z -> bool) (P : list Z -> Prop) c text : no_nul text ->
  (forall t, no_nul t -> f t = true <-> P t) ->
  matchstar f c text = true <-> exists xs ys, text = xs ++ ys /\ Forall (fits (atom_of c)) xs /\ P ys.
Proof.
  intros Hn Hf. induction Hn as [|t text Ht Hn IH]; cbn [matchstar].
  - destruct (f []) eqn:E.
    + split; [|done]. intros _. exists [], []. split; [done|]. split; [constructor|]. by apply Hf.
    + split; [done|]. intros (xs & ys & [-> ->]%symmetry%app_nil & _ & Hy). apply Hf in Hy; [congruence|constructor].
  - destruct (f (t :: text)) eqn:E.
    + split; [|done]. intros _. exists [], (t :: text). split; [done|]. split; [constructor|]. apply Hf; [by constructor|done].
    + rewrite (proj2 (Z.eqb_neq t 0) Ht). cbn [negb andb]. destruct ((t =? c) || (c =? 46)) eqn:Ec.
      * rewrite IH. split; intros (xs & ys & E1 & Hx & Hy).
        -- exists (t :: xs), ys. split; [by rewrite E1|]. split; [|done]. constructor; [by apply fits_test|done].
        -- destruct xs as [|x xs].
           { cbn in E1. subst ys. apply Hf in Hy; [congruence|by constructor]. }
           injection E1 as -> E1. apply Forall_cons in Hx as [_ Hx]. by exists xs, ys.
      * split; [done|]. intros (xs & ys & E1 & Hx & Hy). destruct xs as [|x xs].
        -- cbn in E1. subst ys. apply Hf in Hy; [congruence|by constructor].
        -- injection E1 as -> E1. apply Forall_cons in Hx as [Hx%fits_test _]. congruence.
Qed.

Lemma here_one c re text : (re = [] -> c <> 36) -> hd 0 re <> 42 ->
  here (c :: re) text <-> exists t ts, text = t :: ts /\ fits (atom_of c) t /\ here re ts.
Proof.
  intros Hd Hs. assert (parse (c :: re) = (One (atom_of c) :: (parse re).1, (parse re).2)) as E.
  { cbn [parse]. destruct re as [|c1 re]; [rewrite (proj2 (Z.eqb_neq _ _)) by auto; done|].
    by rewrite (proj2 (Z.eqb_neq c1 42)). }
  unfold here. rewrite E. cbn [fst snd]. split.
  - intros (p & b & -> & Hden & Hb). inversion Hden; subst. eexists _, _. split; [reflexivity|]. split; [done|]. by eexists _, _.
  - intros (t & ts & -> & Hf & p & b & -> & Hden & Hb). exists (t :: p), b. split; [done|]. split; [by constructor|done].
Qed.

Lemma here_many c re text : here (c :: 42 :: re) text <->
  exists xs ys, text = xs ++ ys /\ Forall (fits (atom_of c)) xs /\ here re ys.
Proof.
  unfold here. change (parse (c :: 42 :: re)) with (Many (atom_of c) :: (parse re).1, (parse re).2). cbn [fst snd]. split.
  - intros (p & b & -> & Hden & Hb). inversion Hden; subst. eexists _, _. rewrite <- app_assoc. split; [reflexivity|].
    split; [done|]. by eexists _, _.
  - intros (xs & ys & -> & Hx & p & b & -> & Hden & Hb). exists (xs ++ p), b. rewrite app_assoc. split; [done|]. split; [by constructor|done].
Qed.

Lemma here_end text : here [36] text <-> text = [].
Proof.
  unfold here. cbn [parse fst snd]. change (36 =? 36) with true. cbn [fst snd]. split.
  - intros (p & b & -> & Hden & Hb). inversion Hden; subst. by rewrite Hb.
  - intros ->. exists [], []. split; [done|]. split; [constructor|done].
Qed.

Lemma here_nil text : here [] text.
Proof. exists [], text. split; [done|]. split; [constructor|done]. Qed.

(** One character of the pattern against the text. *)
Lemma match_char c re text (P : list Z -> Prop) : no_nul text ->
  (forall t, no_nul t -> matchhere re t = true <-> P t) ->
  (if negb (rchr text =? 0) && ((c =? 46) || (c =? rchr text)) then matchhere re (tail text) else false) = true <->
  exists t ts, text = t :: ts /\ fits (atom_of c) t /\ P ts.
Proof.
  intros Hn Hf. destruct Hn as [|t text Ht Hn]; cbn [rchr hd tail].
  - split; [done|]. by intros (? & ? & ? & _).
  - rewrite (proj2 (Z.eqb_neq t 0) Ht). cbn [negb andb].
    assert ((c =? 46) || (c =? t) = (t =? c) || (c =? 46)) as -> by (rewrite orb_comm, Z.eqb_sym; done).
    destruct ((t =? c) || (c =? 46)) eqn:E.
    + rewrite Hf by done. split; [intros H; exists t, text; split; [done|]; split; [by apply fits_test|done]|].
      by intros (? & ? & [= -> ->] & _ & ?).
    + split; [done|]. intros (? & ? & [= -> ->] & H%fits_test & _). congruence.
Qed.

Lemma matchhere_correct re text : no_nul re -> no_nul text -> matchhere re text = true <-> here re text.
Proof.
  revert text. induction re as [re IH] using (induction_ltof1 _ length). unfold ltof in IH. intros text Hr Hn.
  destruct re as [|c re]; [split; [intros _; apply here_nil|done]|].
  apply Forall_cons in Hr as [Hc Hr]. cbn [matchhere]. rewrite (proj2 (Z.eqb_neq c 0) Hc).
  destruct re as [|c1 re].
  - destruct (Z.eqb_spec c 36) as [->|Hd].
    + rewrite here_end. destruct Hn as [|t text Ht Hn]; cbn; [done|]. rewrite (proj2 (Z.eqb_neq t 0) Ht). done.
    + rewrite here_one by done. apply match_char; [done|]. intros t Ht. apply IH; [cbn; lia|done|done].
  - apply Forall_cons in Hr as [Hc1 Hr]. destruct (Z.eqb_spec c1 42) as [->|Hs].
    + rewrite here_many. apply matchstar_correct; [done|]. intros t Ht. apply IH; [cbn; lia|done|done].
    + rewrite (proj2 (Z.eqb_neq c1 0) Hc1), andb_false_r. rewrite here_one by done.
      apply match_char; [done|]. intros t Ht. apply IH; [cbn; lia|by constructor|done].
Qed.

Lemma match_from_correct re text : no_nul re -> no_nul text ->
  match_from re text = true <-> exists a t, text = a ++ t /\ here re t.
Proof.
  intros Hr Hn. assert (forall text, match_from re text = if matchhere re text then true else
    match text with [] => false | t :: text' => if negb (t =? 0) then match_from re text' else false end) as Hu by by intros [].
  induction Hn as [|t text Ht Hn IH]; rewrite Hu.
  - pose proof (matchhere_correct re [] Hr ltac:(constructor)) as H. destruct (matchhere re []) eqn:E.
    + split; [|done]. intros _. exists [], []. split; [done|]. by apply H.
    + split; [done|]. intros (a & t & [-> ->]%symmetry%app_nil & Hh). apply H in Hh. done.
  - pose proof (matchhere_correct re (t :: text) Hr ltac:(by constructor)) as H. destruct (matchhere re (t :: text)) eqn:E.
    + split; [|done]. intros _. exists [], (t :: text). split; [done|]. by apply H.
    + rewrite (proj2 (Z.eqb_neq t 0) Ht). cbn [negb]. rewrite IH. split.
      * intros (a & u & -> & Hh). by exists (t :: a), u.
      * intros (a & u & E1 & Hh). destruct a as [|x a]; [cbn in E1; subst u; by apply H in Hh|].
        injection E1 as -> E1. by exists a, u.
Qed.

(** The matcher of grep is exact: it finds a text if and only if the
    text, or the part of it the anchors allow, contains a word of the
    language of the pattern. *)
Theorem grep_match_correct re text : no_nul re -> no_nul text -> grep_match re text = true <-> found re text.
Proof.
  intros Hr Hn. unfold grep_match, rchr, found. destruct re as [|c re]; [by apply match_from_correct|]. cbn [hd tail].
  destruct (Z.eqb_spec c 94) as [->|Hc].
  - apply Forall_cons in Hr as [_ Hr]. by apply matchhere_correct.
  - rewrite match_from_correct by done. destruct c as [|c|c]; [done| |done]. by repeat (destruct c as [c|c|]; try done).
Qed.

(** "^a.*b$" finds "a--b". *)
Lemma grep_match_correct_witness : found [94; 97; 46; 42; 98; 36] [97; 45; 45; 98].
Proof. apply (grep_match_correct [94; 97; 46; 42; 98; 36] [97; 45; 45; 98]); [by repeat constructor|by repeat constructor|reflexivity]. Defined.

(** ** Lines *)

(** The complete lines of a text, and what comes after the last newline. *)
Fixpoint lines_go (cur l : list Z) : list (list Z) :=
  match l with
  | [] => []
  | c :: l' => if c =? 10 then cur :: lines_go [] l' else lines_go (cur ++ [c]) l'
  end.
Fixpoint last_go (cur l : list Z) : list Z :=
  match l with
  | [] => cur
  | c :: l' => if c =? 10 then last_go [] l' else last_go (cur ++ [c]) l'
  end.
Definition lines (l : list Z) : list (list Z) := lines_go [] l.
Definition unfinished (l : list Z) : list Z := last_go [] l.

(** The matching ones, each with its newline. *)
Definition printed (pattern : list Z) (ls : list (list Z)) : list Z :=
  concat (map (fun l => l ++ [10]) (filter (fun l => grep_match pattern l = true) ls)).

Abbreviation no_nl := (Forall (fun c : Z => c <> 10)).

Lemma lines_go_line cur l r : no_nl l -> lines_go cur (l ++ r) = lines_go (cur ++ l) r.
Proof.
  intros H. revert cur. induction H as [|c l Hc H IH]; intros cur; cbn [app lines_go]; [by rewrite app_nil_r|].
  rewrite (proj2 (Z.eqb_neq c 10) Hc), IH, <- app_assoc. done.
Qed.

Lemma last_go_line cur l r : no_nl l -> last_go cur (l ++ r) = last_go (cur ++ l) r.
Proof.
  intros H. revert cur. induction H as [|c l Hc H IH]; intros cur; cbn [app last_go]; [by rewrite app_nil_r|].
  rewrite (proj2 (Z.eqb_neq c 10) Hc), IH, <- app_assoc. done.
Qed.

Lemma lines_no_nl l : no_nl l -> lines l = [].
Proof. intros H. unfold lines. rewrite <- (app_nil_r l). by rewrite lines_go_line. Qed.

Lemma unfinished_no_nl l : no_nl l -> unfinished l = l.
Proof. intros H. unfold unfinished. rewrite <- (app_nil_r l) at 1. by rewrite last_go_line. Qed.

Lemma lines_cons l r : no_nl l -> lines (l ++ 10 :: r) = l :: lines r.
Proof. intros H. unfold lines. by rewrite lines_go_line. Qed.

Lemma unfinished_cons l r : no_nl l -> unfinished (l ++ 10 :: r) = unfinished r.
Proof. intros H. unfold unfinished. by rewrite last_go_line. Qed.

(** A text begins with its first line, if it has one. *)
Lemma first_line w : no_nl w \/ exists l r, w = l ++ 10 :: r /\ no_nl l.
Proof.
  induction w as [|c w IH]; [left; constructor|]. destruct (decide (c = 10)) as [->|Hc].
  - right. by exists [], w.
  - destruct IH as [H|(l & r & -> & H)]; [left; by constructor|]. right. exists (c :: l), r. split; [done|by constructor].
Qed.

Lemma lines_app a b : lines (a ++ b) = lines a ++ lines (unfinished a ++ b) /\ no_nl (unfinished a).
Proof.
  induction a as [a IH] using (induction_ltof1 _ length). unfold ltof in IH. destruct (first_line a) as [H|(l & r & -> & H)].
  - by rewrite (lines_no_nl a), (unfinished_no_nl a).
  - rewrite <- app_assoc. cbn [app]. rewrite !lines_cons, unfinished_cons by done.
    destruct (IH r) as [-> Hu]; [rewrite length_app; cbn; lia|]. done.
Qed.

Lemma printed_app pattern a b : printed pattern (a ++ b) = printed pattern a ++ printed pattern b.
Proof. unfold printed. by rewrite filter_app, map_app, concat_app. Qed.

(** ** The buffer *)

Lemma until_nul_stop w j : no_nul w -> until_nul (w ++ 0 :: j) = w.
Proof. induction 1 as [|c w Hc H IH]; cbn; [done|]. by rewrite (proj2 (Z.eqb_neq c 0) Hc), IH. Qed.

Lemma str_at_stop d w j : no_nul w -> str_at (d ++ w ++ 0 :: j) (length d) = w.
Proof. intros. unfold str_at. by rewrite drop_app_length, until_nul_stop. Qed.

Lemma strchr_none d w j : no_nul w -> no_nl w -> strchr_at (d ++ w ++ 0 :: j) (length d) 10 = None.
Proof.
  intros H1 H2. unfold strchr_at. rewrite str_at_stop by done. rewrite (proj2 (list_find_None _ w)); [done|].
  apply (Forall_impl _ _ _ H2). done.
Qed.

Lemma strchr_found d l r j : no_nul (l ++ 10 :: r) -> no_nl l ->
  strchr_at (d ++ (l ++ 10 :: r) ++ 0 :: j) (length d) 10 = Some (length d + length l)%nat.
Proof.
  intros H1 H2. unfold strchr_at. rewrite str_at_stop by done.
  rewrite list_find_app_r; [|apply list_find_None, (Forall_impl _ _ _ H2); done]. cbn [list_find].
  rewrite decide_True by done. cbn. f_equal; lia.
Qed.

Lemma scan_lines_run fuel pattern d w j out : no_nul w -> (length w < fuel)%nat ->
  exists d', scan_lines fuel pattern (d ++ w ++ 0 :: j) (length d) out =
      Some (d' ++ unfinished w ++ 0 :: j, length d', out ++ printed pattern (lines w)) /\
    length d' = (length d + length w - length (unfinished w))%nat.
Proof.
  revert d w out. induction fuel as [|fuel IH]; intros d w out Hn Hf; [lia|]. cbn [scan_lines].
  destruct (first_line w) as [H|(l & r & -> & H)].
  - rewrite strchr_none by done. exists d. rewrite unfinished_no_nl, lines_no_nl by done. cbn [printed map filter concat].
    rewrite app_nil_r. split; [done|]. lia.
  - rewrite strchr_found by done. set (b := d ++ (l ++ 10 :: r) ++ 0 :: j). set (q := (length d + length l)%nat).
    pose proof Hn as [Hnl Hnr]%Forall_app. apply Forall_cons in Hnr as [_ Hnr].
    assert (forall x, <[q := x]> b = d ++ (l ++ x :: r) ++ 0 :: j) as Hins.
    { intros x. unfold b, q. rewrite <- !app_assoc. cbn [app]. rewrite insert_app_r, insert_app_r_alt by lia.
      by rewrite Nat.sub_diag. }
    rewrite Hins. assert (str_at (d ++ (l ++ 0 :: r) ++ 0 :: j) (length d) = l) as ->.
    { rewrite <- app_assoc. cbn [app]. by apply str_at_stop. }
    assert (forall x out, scan_lines fuel pattern (d ++ (l ++ x :: r) ++ 0 :: j) (q + 1) out =
      scan_lines fuel pattern ((d ++ l ++ [x]) ++ r ++ 0 :: j) (length (d ++ l ++ [x])) out) as Hst.
    { intros x o. f_equal; [by rewrite <- !app_assoc|]. rewrite !length_app. cbn. lia. }
    rewrite lines_cons, unfinished_cons by done. rewrite length_app in Hf. cbn [length] in Hf.
    destruct (grep_match pattern l) eqn:Em.
    + assert (<[q := 10]> (d ++ (l ++ 0 :: r) ++ 0 :: j) = b) as ->.
      { rewrite <- (Hins 0), list_insert_insert_eq. apply Hins. }
      assert (take (q + 1 - length d) (drop (length d) b) = l ++ [10]) as Htk.
      { unfold b. rewrite drop_app_length, <- app_assoc. cbn [app]. rewrite (cons_middle 10), app_assoc. apply take_app_length'.
        rewrite length_app. cbn. lia. }
      rewrite (Hst 10). destruct (IH (d ++ l ++ [10]) r (out ++ take (q + 1 - length d) (drop (length d) b)) Hnr ltac:(lia)) as (d' & -> & Hd').
      exists d'. split.
      * unfold printed. rewrite filter_cons_True by done. cbn [map concat]. by rewrite Htk, <- !app_assoc.
      * rewrite Hd', !length_app. cbn. lia.
    + rewrite (Hst 0). destruct (IH (d ++ l ++ [0]) r out Hnr ltac:(lia)) as (d' & -> & Hd').
      exists d'. split.
      * unfold printed. rewrite filter_cons_False by congruence. done.
      * rewrite Hd', !length_app. cbn. lia.
Qed.

(** The buffer between two reads: an unfinished line at its start. *)
Record holds_line (buf : list Z) (m : nat) (w : list Z) : Prop := {
  hl_len : length buf = BUFSZ;
  hl_m : m = length w;
  hl_room : (m < BUFSZ)%nat;
  hl_take : take m buf = w;
  hl_nul : no_nul w;
  hl_nl : no_nl w
}.

Lemma fill_buffer buf m w bs : holds_line buf m w -> (length w + length bs < BUFSZ)%nat ->
  exists j, <[(m + length bs)%nat := 0]> (put_at buf m bs) = (w ++ bs) ++ 0 :: j /\ length j = (BUFSZ - 1 - length (w ++ bs))%nat.
Proof.
  intros [Hl -> _ Ht _ _] Hr. unfold put_at. rewrite Ht. set (t := drop (length w + length bs) buf).
  assert (length t = (BUFSZ - (length w + length bs))%nat) as Hlt by (unfold t; rewrite length_drop; lia).
  destruct t as [|x t]; [cbn [length] in Hlt; lia|]. exists t. split.
  - rewrite app_assoc, <- length_app, insert_app_r_alt, Nat.sub_diag by done. done.
  - rewrite length_app. cbn [length] in Hlt. lia.
Qed.

Lemma shift_buffer pattern w bs j out : no_nul (w ++ bs) -> length j = (BUFSZ - 1 - length (w ++ bs))%nat -> (length (w ++ bs) < BUFSZ)%nat ->
  exists buf p, scan_lines (S BUFSZ) pattern ((w ++ bs) ++ 0 :: j) 0 out = Some (buf, p, out ++ printed pattern (lines (w ++ bs))) /\
    holds_line (put_at buf 0 (take (length (w ++ bs) - p) (drop p buf))) (length (w ++ bs) - p) (unfinished (w ++ bs)).
Proof.
  intros Hn Hj Hr. destruct (scan_lines_run (S BUFSZ) pattern [] (w ++ bs) j out Hn ltac:(lia)) as (d & E & Hd).
  cbn [app length] in E, Hd. set (u := unfinished (w ++ bs)) in *.
  assert (length u <= length (w ++ bs))%nat as Hlu.
  { unfold u. clear. induction (w ++ bs) as [l IH] using (induction_ltof1 _ length). unfold ltof in IH.
    destruct (first_line l) as [H|(a & r & -> & H)]; [by rewrite unfinished_no_nl|]. rewrite unfinished_cons by done.
    rewrite length_app. cbn. specialize (IH r). rewrite length_app in IH. cbn in IH. lia. }
  exists (d ++ u ++ 0 :: j), (length d). split; [done|].
  assert (length (w ++ bs) - length d = length u)%nat as Hlen by lia. rewrite Hlen.
  rewrite drop_app_length, take_app_length. unfold put_at. rewrite take_0. cbn [app Nat.add]. split.
  - rewrite length_app, length_drop, !length_app. cbn [length]. lia.
  - done.
  - lia.
  - apply take_app_length.
  - unfold u. clear -Hn. induction (w ++ bs) as [l IH] using (induction_ltof1 _ length). unfold ltof in IH.
    destruct (first_line l) as [H|(a & r & -> & H)]; [by rewrite unfinished_no_nl|]. rewrite unfinished_cons by done.
    apply IH; [rewrite length_app; cbn; lia|]. apply Forall_app in Hn as [_ Hn]. by apply Forall_cons in Hn as [_ Hn].
  - apply (lines_app (w ++ bs) []).
Qed.

(** Lines that fit: the buffer never fills up with an unfinished line. *)
Abbreviation short := (Forall (fun l : list Z => (length l < BUFSZ - 1)%nat)).

Lemma full_line w rest : length w = (BUFSZ - 1)%nat -> no_nl w -> short (lines (w ++ rest)) -> lines (w ++ rest) = [].
Proof.
  intros Hw Hn Hs. unfold lines in *. rewrite lines_go_line in * by done. cbn [app] in *.
  destruct (first_line rest) as [H|(l & r & -> & H)].
  - rewrite <- (app_nil_r rest). by rewrite lines_go_line.
  - rewrite lines_go_line in Hs by done. cbn [lines_go] in Hs. change (10 =? 10) with true in Hs. cbv iota in Hs.
    apply Forall_cons in Hs as [Hs _]. rewrite length_app in Hs. lia.
Qed.

Lemma grep_loop_run avail pattern fuel : forall k rest buf m w out, (forall k, 1 <= avail k) ->
  holds_line buf m w -> no_nul rest -> short (lines (w ++ rest)) -> (length rest < fuel)%nat ->
  grep_loop fuel avail k pattern rest buf m out = Some (out ++ printed pattern (lines (w ++ rest))).
Proof.
  induction fuel as [|fuel IH]; intros k rest buf m w out Hav H Hn Hs Hf; [lia|]. cbn [grep_loop].
  unfold read_fd. rewrite (proj2 (Z.ltb_ge _ _)) by (specialize (Hav k); lia). pose proof H as [Hl Hm Hr Ht Hwn Hwl].
  set (n := ((BUFSZ - m - 1) `min` Z.to_nat (avail k))%nat). destruct (take n rest) as [|b bs] eqn:Eb.
  - assert (lines (w ++ rest) = []) as ->; [|cbn; by rewrite app_nil_r].
    assert (n = 0%nat \/ rest = []) as [En| ->] by (destruct n, rest; cbn in Eb; auto; discriminate).
    + apply full_line; [|done|done]. specialize (Hav k). unfold n in En. lia.
    + rewrite app_nil_r. by apply lines_no_nl.
  - set (bs' := b :: bs) in *. assert (rest = bs' ++ drop (length bs') rest) as Er.
    { rewrite <- Eb at 1. rewrite <- Eb, length_take. destruct (decide (n <= length rest)%nat).
      - rewrite Nat.min_l by done. by rewrite take_drop.
      - rewrite Nat.min_r by lia. rewrite take_ge, drop_ge by lia. by rewrite app_nil_r. }
    assert (length bs' <= n)%nat as Hbs by (rewrite <- Eb, length_take; lia).
    destruct (fill_buffer buf m w bs' H) as (j & -> & Hj); [unfold n in *; lia|].
    rewrite Er in Hn. apply Forall_app in Hn as [Hnb Hnr].
    destruct (shift_buffer pattern w bs' j out) as (buf' & p & -> & H'); [by apply Forall_app|done|rewrite length_app; unfold n in *; lia|].
    rewrite (proj2 (Nat.ltb_lt _ _)) by (cbn; lia). replace (m + length bs')%nat with (length (w ++ bs')) by (rewrite length_app; lia).
    destruct (lines_app (w ++ bs') (drop (length bs') rest)) as [El _]. rewrite <- app_assoc, <- Er in El.
    rewrite El in Hs |- *. apply Forall_app in Hs as [_ Hs].
    rewrite (IH _ _ _ _ (unfinished (w ++ bs'))); [by rewrite printed_app, app_assoc|done|done|done|done|].
    rewrite length_drop. cbn. assert (length rest <> 0%nat) by (rewrite Er; cbn; lia). lia.
Qed.

(** A line that does not fit ends the run: nothing of it or after it is read. *)
Lemma grep_loop_long avail pattern fuel : forall k rest buf m w long tail out, (forall k, 1 <= avail k) ->
  holds_line buf m w -> w ++ rest = long ++ tail -> length long = (BUFSZ - 1)%nat -> no_nul long -> no_nl long ->
  (length rest < fuel)%nat -> grep_loop fuel avail k pattern rest buf m out = Some out.
Proof.
  induction fuel as [|fuel IH]; intros k rest buf m w long tl out Hav H Hw Hlong Hn Hl Hf; [lia|]. cbn [grep_loop].
  unfold read_fd. rewrite (proj2 (Z.ltb_ge _ _)) by (specialize (Hav k); lia). pose proof H as [_ Hm Hr _ _ _].
  set (n := ((BUFSZ - m - 1) `min` Z.to_nat (avail k))%nat). destruct (take n rest) as [|b bs] eqn:Eb; [done|].
  set (bs' := b :: bs) in *. assert (length bs' <= n)%nat as Hbs by (rewrite <- Eb, length_take; lia).
  assert (w ++ bs' = take (length (w ++ bs')) long) as Ew.
  { rewrite <- (take_app_le long tl) by (rewrite length_app; unfold n in *; lia). rewrite <- Hw.
    rewrite length_app, take_app_add. f_equal. rewrite <- Eb. rewrite length_take. symmetry.
    destruct (decide (n <= length rest)%nat); [by rewrite Nat.min_l|]. rewrite Nat.min_r by lia. by rewrite !take_ge by lia. }
  assert (no_nul (w ++ bs') /\ no_nl (w ++ bs')) as [Hn1 Hl1] by (rewrite Ew; split; by apply Forall_take).
  destruct (fill_buffer buf m w bs' H) as (j & -> & Hj); [unfold n in *; lia|].
  destruct (shift_buffer pattern w bs' j out) as (buf' & p & -> & H'); [done|done|rewrite length_app; unfold n in *; lia|].
  rewrite (proj2 (Nat.ltb_lt _ _)) by (cbn; lia). replace (m + length bs')%nat with (length (w ++ bs')) by (rewrite length_app; lia).
  rewrite lines_no_nl by done. change (printed pattern []) with (@nil Z). rewrite app_nil_r.
  rewrite unfinished_no_nl in H' by done. apply (IH _ _ _ _ (w ++ bs') long tl); try done.
  - rewrite <- app_assoc, <- Hw. f_equal. rewrite <- Eb at 1. rewrite <- Eb, length_take.
    destruct (decide (n <= length rest)%nat); [by rewrite Nat.min_l, take_drop|].
    rewrite Nat.min_r by lia. by rewrite take_ge, drop_ge, app_nil_r by lia.
  - rewrite length_drop. assert (length rest <> 0%nat); [|cbn; lia]. intros E. apply nil_length_inv in E. subst rest. by rewrite take_nil in Eb.
Qed.

Lemma empty_buffer : holds_line (replicate BUFSZ 0) 0 [].
Proof. split; [apply length_replicate|done|unfold BUFSZ; lia|done|constructor|constructor]. Qed.

(** grep prints the matching lines: whatever sizes the reads come in,
    when no line of the input is longer than 1022 bytes, [grep] terminates and
    writes exactly the complete lines that match, in order, each with its
    newline. *)
Theorem grep_correct avail pattern input : (forall k, 1 <= avail k) -> no_nul input -> short (lines input) ->
  grep avail pattern input = Some (printed pattern (lines input)).
Proof. intros Hav Hn Hs. apply (grep_loop_run avail pattern _ 0 input _ 0 [] []); [done|apply empty_buffer|done|done|lia]. Qed.

(** A line that does not fit in the buffer, and everything after it, is lost
    without a message. *)
Theorem grep_long_line avail pattern long tail : (forall k, 1 <= avail k) ->
  length long = (BUFSZ - 1)%nat -> no_nul long -> no_nl long -> grep avail pattern (long ++ tail) = Some [].
Proof. intros Hav Hl Hn Hnl. apply (grep_loop_long avail pattern _ 0 _ _ 0 [] long tail []); [done|apply empty_buffer|done|done|done|done|lia]. Qed.

(** "ab", "cd", "b" through two-byte reads, searched for "b". *)
Lemma grep_correct_witness : grep (fun _ => 2) [98] [97; 98; 10; 99; 100; 10; 98; 10] = Some [97; 98; 10; 98; 10].
Proof.
  rewrite (grep_correct (fun _ => 2) [98] [97; 98; 10; 99; 100; 10; 98; 10]); [reflexivity|done|by repeat constructor|].
  repeat (apply Forall_cons_2; [unfold BUFSZ; cbn; lia|]). constructor.
Defined.
