(* ===== verification/Umalloc.v ===== *)
(** * malloc and free (user/umalloc.c)

    The K&R allocator: a circular list of free blocks sorted by address, each
    with a header of two words at its start.  Pointers are byte addresses,
    [p + n] of the C code is [p + 16 * n].  The headers are two functions of
    the address; a program that stays inside its blocks does not change them.

    The static header [base] is at an address below the heap.  Whether the
    kernel grants [sbrk(n)] is an argument [grants] of the break and [n]; when
    it does, the break moves by [n] and the old break is returned, as
    [sys_sbrk] does. *)

From S2P Require Import Prelude.

Definition HDR : Z := 16.

Record heap : Type := mkHeap { h_ptr : Z -> Z; h_size : Z -> Z; h_freep : Z; h_brk : Z }.

Definition set_ptr (p v : Z) (h : heap) : heap := mkHeap (fupd (h_ptr h) p v) (h_size h) (h_freep h) (h_brk h).
Definition set_size (p v : Z) (h : heap) : heap := mkHeap (h_ptr h) (fupd (h_size h) p v) (h_freep h) (h_brk h).
Definition set_freep (p : Z) (h : heap) : heap := mkHeap (h_ptr h) (h_size h) p (h_brk h).
Definition set_brk (b : Z) (h : heap) : heap := mkHeap (h_ptr h) (h_size h) (h_freep h) b.

Section Umalloc.
Context (base : Z) (grants : Z -> Z -> bool).

(** [sbrk(n)] with its [int] argument. *)
Definition sbrk (n : Z) (h : heap) : option (Z * heap) :=
  if grants (h_brk h) n then Some (h_brk h, set_brk (h_brk h + n) h) else None.

(** [for(p = freep; !(bp > p && bp < p->s.ptr); p = p->s.ptr)] with its break. *)
Fixpoint free_place (fuel : nat) (h : heap) (bp p : Z) : option Z :=
  match fuel with
  | O => None
  | S fuel =>
      if (p <? bp) && (bp <? h_ptr h p) then Some p
      else if (h_ptr h p <=? p) && ((p <? bp) || (bp <? h_ptr h p)) then Some p
      else free_place fuel h bp (h_ptr h p)
  end.

(** [bp] linked in after [p], joined with its neighbours where they touch. *)
Definition free_join (bp p : Z) (h : heap) : heap :=
  let q := h_ptr h p in
  let h := if bp + HDR * h_size h bp =? q
           then set_ptr bp (h_ptr h q) (set_size bp (u32 (h_size h bp + h_size h q)) h)
           else set_ptr bp q h in
  let h := if p + HDR * h_size h p =? bp
           then set_ptr p (h_ptr h bp) (set_size p (u32 (h_size h p + h_size h bp)) h)
           else set_ptr p bp h in
  set_freep p h.

Definition free (fuel : nat) (ap : Z) (h : heap) : option heap :=
  let bp := ap - HDR in
  match free_place fuel h bp (h_freep h) with
  | None => None
  | Some p => Some (free_join bp p h)
  end.

(** The outer option is the fuel, a result of 0 is failure. *)
Definition morecore (fuel : nat) (nu : Z) (h : heap) : option (Z * heap) :=
  let nu := if nu <? 4096 then 4096 else nu in
  match sbrk (s32 (nu * HDR)) h with
  | None => Some (0, h)
  | Some (hp, h) =>
      match free fuel (hp + HDR) (set_size hp nu h) with
      | None => None
      | Some h => Some (h_freep h, h)
      end
  end.

Definition nunits (nbytes : Z) : Z := u32 ((nbytes + HDR - 1) / HDR + 1).

(** Block [p], found after [prevp], gives [n] units: the pointer returned. *)
Definition carve (n prevp p : Z) (h : heap) : Z * heap :=
  if h_size h p =? n then (p + HDR, set_freep prevp (set_ptr prevp (h_ptr h p) h))
  else
    let h := set_size p (u32 (h_size h p - n)) h in
    let q := p + HDR * h_size h p in
    (q + HDR, set_freep prevp (set_size q n h)).

Fixpoint malloc_loop (fuel : nat) (n prevp p : Z) (h : heap) : option (Z * heap) :=
  match fuel with
  | O => None
  | S fuel =>
      if n <=? h_size h p then Some (carve n prevp p h)
      else if p =? h_freep h then
        match morecore fuel n h with
        | None => None
        | Some (p, h) => if p =? 0 then Some (0, h) else malloc_loop fuel n p (h_ptr h p) h
        end
      else malloc_loop fuel n p (h_ptr h p) h
  end.

Definition malloc (fuel : nat) (nbytes : Z) (h : heap) : option (Z * heap) :=
  let n := nunits nbytes in
  let h := if h_freep h =? 0 then set_size base 0 (set_freep base (set_ptr base base h)) else h in
  malloc_loop fuel n (h_freep h) (h_ptr h (h_freep h)) h.

End Umalloc.
