(* ===== verification/UmallocSpec.v ===== *)
(** * The allocator of user/umalloc.c is correct

    The free list as a list of blocks (address, units): [seg] follows the
    pointers, [apart] says the blocks are sorted and neither overlap nor
    touch.  [heap_ok] adds the blocks handed out, disjoint from the free ones
    and from each other.  [malloc] and [free] preserve it and move exactly the
    bytes of one block between the two. *)

From S2P Require Import Prelude Umalloc.

Abbreviation blocks := (list (Z * Z)).

Definition b_end (b : Z * Z) : Z := b.1 + HDR * b.2.
Definition in_blk (b : Z * Z) (x : Z) : Prop := b.1 <= x < b_end b.
Definition disj (b c : Z * Z) : Prop := b_end b <= c.1 \/ b_end c <= b.1.
Definition covered (l : blocks) (x : Z) : Prop := exists b, b ∈ l /\ in_blk b x.

(** Pointers lead from [a] through [l] to [b]. *)
Fixpoint seg (ptr : Z -> Z) (a : Z) (l : blocks) (b : Z) : Prop :=
  match l with
  | [] => ptr a = b
  | c :: l' => ptr a = c.1 /\ seg ptr c.1 l' b
  end.

(** Blocks in order above [e], with a gap before each. *)
Fixpoint apart (e : Z) (l : blocks) : Prop :=
  match l with
  | [] => True
  | c :: l' => e < c.1 /\ 1 <= c.2 /\ apart (b_end c) l'
  end.

Fixpoint pairwise (l : blocks) : Prop :=
  match l with
  | [] => True
  | c :: l' => Forall (disj c) l' /\ pairwise l'
  end.

(** The last block of [b :: l]. *)
Definition last_of (b : Z * Z) (l : blocks) : Z * Z := List.last l b.

Definition LIMIT : Z := 0x1000000000.

Record heap_ok (base : Z) (h : heap) (bl al : blocks) : Prop := {
  ho_seg : seg (h_ptr h) base bl base;
  ho_apart : apart base bl;
  ho_size : Forall (fun c => h_size h c.1 = c.2) bl;
  ho_base : h_size h base = 0;
  ho_freep : h_freep h = base \/ h_freep h ∈ bl.*1;
  ho_pos : 0 < base < h_brk h;
  ho_brk : h_brk h <= LIMIT;
  ho_end : Forall (fun c => b_end c <= h_brk h) bl;
  ho_live : Forall (fun c => h_size h c.1 = c.2 /\ 1 <= c.2 /\ base < c.1 /\ b_end c <= h_brk h) al;
  ho_pair : pairwise al;
  ho_disj : forall b c, b ∈ al -> c ∈ bl -> disj b c
}.

(** ** Lists of blocks *)

Lemma last_of_snoc b l c : last_of b (l ++ [c]) = c.
Proof. apply last_last. Qed.

Lemma last_of_in b l : last_of b l = b \/ last_of b l ∈ l.
Proof.
  destruct l as [|c l _] using rev_ind; [by left|]. right. rewrite last_of_snoc. apply elem_of_app. right. by apply list_elem_of_singleton.
Qed.

Lemma fseg_app ptr a l c r b : seg ptr a (l ++ c :: r) b <-> seg ptr a l c.1 /\ seg ptr c.1 r b.
Proof. revert a. induction l as [|d l IH]; intros a; cbn [app seg]; [done|]. rewrite IH. tauto. Qed.

(** The pointer out of a segment, and its change. *)
Lemma fseg_last ptr a l b n : seg ptr a l b -> ptr (last_of (a, n) l).1 = b.
Proof.
  destruct l as [|c l _] using rev_ind; [done|]. rewrite last_of_snoc. rewrite fseg_app. by intros [_ H].
Qed.

Lemma seg_ext ptr ptr' a l b : ptr' a = ptr a -> (forall c, c ∈ l -> ptr' c.1 = ptr c.1) -> seg ptr a l b -> seg ptr' a l b.
Proof.
  revert a. induction l as [|c l IH]; intros a Ha Hl; cbn [seg]; [congruence|]. intros [H1 H2]. split; [congruence|].
  apply IH; [apply Hl; ielem|intros d Hd; apply Hl; ielem|done].
Qed.

(** Another way in, with the same pointer. *)
Lemma seg_enter ptr ptr' a a' l b : ptr' a' = ptr a -> (forall c, c ∈ l -> ptr' c.1 = ptr c.1) -> seg ptr a l b -> seg ptr' a' l b.
Proof.
  intros Ha Hl. destruct l as [|c l]; cbn [seg]; [congruence|]. intros [H1 H2]. split; [congruence|].
  apply (seg_ext ptr); [apply Hl; ielem|intros d Hd; apply Hl; ielem|done].
Qed.

Lemma apart_app e l r : apart e (l ++ r) <-> apart e l /\ apart (b_end (last_of (e, 0) l)) r.
Proof.
  revert e. induction l as [|c l IH]; intros e; cbn [app apart].
  - assert (b_end (last_of (e, 0) []) = e) as -> by (unfold last_of, b_end, HDR; cbn; lia). tauto.
  - rewrite IH. assert (b_end (last_of (b_end c, 0) l) = b_end (last_of (e, 0) (c :: l))) as ->; [|tauto].
    destruct l as [|x l _] using rev_ind.
    + unfold last_of, b_end, HDR. cbn. lia.
    + rewrite last_of_snoc. change (c :: l ++ [x]) with ((c :: l) ++ [x]). by rewrite last_of_snoc.
Qed.

Lemma apart_above e l c : apart e l -> c ∈ l -> e < c.1 /\ 1 <= c.2.
Proof.
  revert e. induction l as [|d l IH]; intros e; [intros _ ?%elem_of_nil; done|]. cbn. intros (H1 & H2 & H3) [->|Hc]%elem_of_cons; [done|].
  destruct (IH _ H3 Hc). unfold b_end, HDR in *. lia.
Qed.

Lemma apart_weaken e e' l : e' <= e -> apart e l -> apart e' l.
Proof. destruct l as [|c l]; cbn; [done|]. intros H (H1 & H2 & H3). split; [lia|done]. Qed.

Lemma apart_from e u c v : apart e (u ++ c :: v) -> apart c.1 v /\ e < c.1 /\ 1 <= c.2.
Proof.
  intros H. destruct (apart_above _ _ c H) as [H1 H2]; [apply elem_of_app; right; ielem|]. split; [|done].
  apply apart_app in H as [_ (_ & _ & H)]. apply (apart_weaken (b_end c)); [unfold b_end, HDR; lia|done].
Qed.

(** Blocks on both sides of a place in the list. *)
Lemma apart_split e l c r d : apart e (l ++ c :: r) -> d ∈ l -> b_end d < c.1.
Proof.
  revert e. induction l as [|x l IH]; intros e; [intros _ ?%elem_of_nil; done|]. cbn [app apart].
  intros (H1 & H2 & H3) [->|Hd]%elem_of_cons; [|by apply (IH _ H3)].
  apply (apart_above _ _ c) in H3; [lia|]. ielem.
Qed.

(** The last pointer changed. *)
Lemma seg_relink ptr ptr' a l b b' : seg ptr a l b -> ptr' (last_of (a, 0) l).1 = b' ->
  (forall x, x <> (last_of (a, 0) l).1 -> x = a \/ x ∈ l.*1 -> ptr' x = ptr x) -> apart a l -> seg ptr' a l b'.
Proof.
  destruct l as [|c l _] using rev_ind; [done|]. rewrite last_of_snoc, !fseg_app. intros [H1 _] H2 H3 Ha. split; [|done].
  destruct (apart_from _ _ _ _ Ha) as (_ & Hac & _). apply (seg_ext ptr); [apply H3; [lia|by left]| |done].
  intros d Hd. pose proof (apart_split _ _ _ _ _ Ha Hd) as Hs. apply apart_app in Ha as [Ha _].
  destruct (apart_above _ _ _ Ha Hd). apply H3; [unfold b_end, HDR in Hs; lia|]. right. rewrite fmap_app. apply elem_of_app. left.
  by apply list_elem_of_fmap_2.
Qed.

Lemma last_of_cons b c l : last_of b (c :: l) = last_of c l.
Proof. destruct l as [|x l _] using rev_ind; [done|]. change (c :: l ++ [x]) with ((c :: l) ++ [x]). by rewrite !last_of_snoc. Qed.

Lemma last_of_app b l c r : last_of b (l ++ c :: r) = last_of c r.
Proof. induction l as [|d l IH] in b |- *; cbn [app]; rewrite last_of_cons; [done|apply IH]. Qed.

Lemma last_of_fst a n m l : (last_of (a, n) l).1 = (last_of (a, m) l).1.
Proof. destruct l as [|c l _] using rev_ind; [done|]. by rewrite !last_of_snoc. Qed.

(** ** The place of a block in the list *)

Lemma split_at bp l e : apart e l -> (forall c, c ∈ l -> c.1 <> bp) ->
  exists l1 l2, l = l1 ++ l2 /\ (forall c, c ∈ l1 -> c.1 < bp) /\ (forall c, c ∈ l2 -> bp < c.1).
Proof.
  revert e. induction l as [|c l IH]; intros e Ha Hn; [exists [], []; split; [done|]; split; intros ? ?%elem_of_nil; done|].
  pose proof Ha as (H1 & H2 & H3). destruct (decide (c.1 < bp)) as [Hc|Hc].
  - destruct (IH _ H3) as (l1 & l2 & -> & Hl1 & Hl2); [intros d Hd; apply Hn; ielem|].
    exists (c :: l1), l2. split; [done|]. split; [|done]. intros d [->|Hd]%elem_of_cons; auto.
  - assert (bp < c.1) as Hb by (specialize (Hn c ltac:(ielem)); lia). exists [], (c :: l). split; [done|].
    split; [intros ? ?%elem_of_nil; done|]. intros d [->|Hd]%elem_of_cons; [done|].
    pose proof (apart_above _ _ _ H3 Hd). unfold b_end, HDR in *. lia.
Qed.

Section place.
Context (base : Z) (h : heap) (bp : Z) (Hbp : base < bp).

Lemma free_place_fwd l2 : (forall c, c ∈ l2 -> bp < c.1) -> forall l1 a fuel, (forall c, c ∈ l1 -> c.1 < bp) ->
  seg (h_ptr h) a (l1 ++ l2) base -> apart a (l1 ++ l2) -> base <= a < bp -> (length l1 < fuel)%nat ->
  free_place fuel h bp a = Some (last_of (a, 0) l1).1.
Proof.
  intros H2. induction l1 as [|c l1 IH]; intros a fuel H1 Hs Ha Hab Hf; (destruct fuel as [|fuel]; [cbn in Hf; lia|]); cbn [free_place].
  - rewrite (proj2 (Z.ltb_lt a bp)) by lia. cbn [andb orb app] in *. destruct l2 as [|c l2]; cbn [seg] in Hs.
    + rewrite Hs, (proj2 (Z.ltb_ge bp base)), (proj2 (Z.leb_le base a)) by lia. done.
    + destruct Hs as [-> _]. rewrite (proj2 (Z.ltb_lt _ _)) by (apply H2; ielem). done.
  - cbn [app seg apart] in *. destruct Hs as [Hp Hs]. destruct Ha as (A1 & A2 & A3). rewrite Hp.
    assert (c.1 < bp) as Hc by (apply H1; ielem).
    rewrite (proj2 (Z.ltb_ge bp c.1)), (proj2 (Z.leb_gt c.1 a)), andb_false_r by lia. cbn [andb].
    rewrite (IH c.1 fuel); [|intros d Hd; apply H1; ielem|done|apply (apart_weaken (b_end c)); [unfold b_end, HDR; lia|done]|lia|cbn in Hf; lia].
    rewrite last_of_cons. f_equal. destruct c as [c n]. apply last_of_fst.
Qed.

Lemma free_place_wrap l : forall a fuel, seg (h_ptr h) a l base -> apart a l -> bp < a ->
  free_place (length l + 1 + fuel) h bp a = free_place fuel h bp base.
Proof.
  induction l as [|c l IH]; intros a fuel Hs Ha Hb; cbn [length Nat.add free_place];
    rewrite (proj2 (Z.ltb_ge a bp)) by lia; cbn [andb orb seg] in *.
  - rewrite Hs, (proj2 (Z.ltb_ge bp base)), andb_false_r by lia. done.
  - destruct Hs as [-> Hs]. destruct Ha as (A1 & A2 & A3). rewrite (proj2 (Z.leb_gt c.1 a)) by lia. cbn [andb].
    apply IH; [done|apply (apart_weaken (b_end c)); [unfold b_end, HDR; lia|done]|lia].
Qed.

Lemma free_place_ok bl al l r fuel : heap_ok base h bl al -> bl = l ++ r -> (forall c, c ∈ l -> c.1 < bp) -> (forall c, c ∈ r -> bp < c.1) ->
  (length bl + 2 <= fuel)%nat -> free_place fuel h bp (h_freep h) = Some (last_of (base, 0) l).1.
Proof.
  intros H -> Hl Hr Hf. pose proof (ho_seg _ _ _ _ H) as Hs. pose proof (ho_apart _ _ _ _ H) as Ha. rewrite length_app in Hf.
  destruct (ho_freep _ _ _ _ H) as [->|Hin].
  { apply (free_place_fwd r Hr); [done|done|done|lia|lia]. }
  apply list_elem_of_fmap in Hin as ([f n] & -> & Hin). cbn [fst].
  apply elem_of_app in Hin as [Hin|Hin]; pose proof Hin as (u & v & E)%list_elem_of_split; subst.
  - rewrite <- app_assoc in Hs, Ha. cbn [app] in Hs, Ha. apply fseg_app in Hs as [_ Hs]. destruct (apart_from _ _ _ _ Ha) as (A1 & A2 & _).
    assert (f < bp) as Hfb by (by apply (Hl (f, n))). rewrite (free_place_fwd r Hr v f); [|intros c Hc; apply Hl; ielem|done|done|cbn in A2; lia|].
    + rewrite last_of_app. f_equal. apply last_of_fst.
    + rewrite length_app in Hf. cbn in Hf. lia.
  - assert (bp < f) as Hfb by (by apply (Hr (f, n))). rewrite length_app in Hf. cbn in Hf.
    pose proof Hs as Hs'. pose proof Ha as Ha'. rewrite app_assoc in Hs', Ha'. apply fseg_app in Hs' as [_ Hs']. destruct (apart_from _ _ _ _ Ha') as (A1 & _ & _).
    replace fuel with (length v + 1 + (fuel - length v - 1))%nat by lia. rewrite (free_place_wrap v f _ Hs' A1 Hfb).
    apply (free_place_fwd (u ++ (f, n) :: v) Hr); [done|done|done|lia|lia].
Qed.

End place.

(** ** Bytes *)

Lemma covered_cons c l x : covered (c :: l) x <-> in_blk c x \/ covered l x.
Proof. unfold covered. setoid_rewrite elem_of_cons. split; [intros (b & [->|H] & Hx); eauto|]. intros [H|(b & H & Hx)]; eauto. Qed.

Lemma covered_app l r x : covered (l ++ r) x <-> covered l x \/ covered r x.
Proof. unfold covered. setoid_rewrite elem_of_app. split; [intros (b & [H|H] & Hx); eauto|]. intros [(b & H & Hx)|(b & H & Hx)]; eauto. Qed.

Lemma covered_nil x : covered [] x <-> False.
Proof. split; [|done]. by intros (b & ?%elem_of_nil & _). Qed.

Lemma disj_iff b c : 1 <= b.2 -> 1 <= c.2 -> disj b c <-> forall x, in_blk b x -> in_blk c x -> False.
Proof.
  intros Hb Hc. unfold disj, in_blk, b_end, HDR. split; [lia|]. intros H.
  destruct (decide (b.1 + 16 * b.2 <= c.1)); [by left|]. destruct (decide (c.1 + 16 * c.2 <= b.1)); [by right|].
  exfalso. apply (H (Z.max b.1 c.1)); lia.
Qed.

Lemma apart_pos e l c : apart e l -> c ∈ l -> 1 <= c.2.
Proof. intros H Hc. by destruct (apart_above _ _ _ H Hc). Qed.

(** A heap is well formed when its list is and free bytes are below the break
    and not handed out. *)
Lemma heap_ok_intro base h bl al : seg (h_ptr h) base bl base -> apart base bl ->
  Forall (fun c => h_size h c.1 = c.2) bl -> h_size h base = 0 -> h_freep h = base \/ h_freep h ∈ bl.*1 ->
  0 < base < h_brk h -> h_brk h <= LIMIT ->
  Forall (fun c => h_size h c.1 = c.2 /\ 1 <= c.2 /\ base < c.1 /\ b_end c <= h_brk h) al -> pairwise al ->
  (forall x, covered bl x -> x < h_brk h /\ ~ covered al x) -> heap_ok base h bl al.
Proof.
  intros H1 H2 H3 H4 H5 H6 H7 H8 H9 H10. split; try done.
  - apply Forall_forall. intros c Hc. pose proof (apart_pos _ _ _ H2 Hc). destruct (H10 (b_end c - 1)); [|lia].
    exists c. split; [done|]. unfold in_blk, b_end, HDR in *. lia.
  - intros b c Hb Hc. rewrite Forall_forall in H8. destruct (H8 b Hb) as (_ & Hb1 & _). pose proof (apart_pos _ _ _ H2 Hc) as Hc1.
    apply disj_iff; [done|done|]. intros x Hx Hx'. destruct (H10 x) as [_ Hn]; [by exists c|]. apply Hn. by exists b.
Qed.

Section heap_facts.
Context (base : Z) (h : heap) (bl al : blocks) (H : heap_ok base h bl al).

Lemma free_below x : covered bl x -> x < h_brk h.
Proof.
  intros (c & Hc & Hx). pose proof (ho_end _ _ _ _ H) as He. rewrite Forall_forall in He. specialize (He c Hc). unfold in_blk in Hx. lia.
Qed.

Lemma free_not_live x : covered bl x -> ~ covered al x.
Proof.
  intros (c & Hc & Hx) (b & Hb & Hx'). pose proof (ho_live _ _ _ _ H) as Hl. rewrite Forall_forall in Hl. destruct (Hl b Hb) as (_ & Hb1 & _).
  pose proof (apart_pos _ _ _ (ho_apart _ _ _ _ H) Hc) as Hc1. by apply (proj1 (disj_iff b c Hb1 Hc1) (ho_disj _ _ _ _ H b c Hb Hc) x).
Qed.

Lemma free_small c : c ∈ bl -> 1 <= c.2 < 0x100000000 /\ base < c.1.
Proof.
  intros Hc. destruct (apart_above _ _ _ (ho_apart _ _ _ _ H) Hc). pose proof (ho_end _ _ _ _ H) as He. rewrite Forall_forall in He. specialize (He c Hc).
  pose proof (ho_brk _ _ _ _ H). pose proof (ho_pos _ _ _ _ H). unfold b_end, HDR, LIMIT in *. lia.
Qed.

End heap_facts.

(** ** Linking a block in *)

(** Joined with the next block, or not. *)
Definition right_part (bp n : Z) (r : blocks) : Z * blocks :=
  match r with
  | q :: r' => if bp + HDR * n =? q.1 then (n + q.2, r') else (n, r)
  | [] => (n, r)
  end.

Definition after_right (base bp : Z) (l : blocks) (h : heap) : heap :=
  let q := h_ptr h (last_of (base, 0) l).1 in
  if bp + HDR * h_size h bp =? q
  then set_ptr bp (h_ptr h q) (set_size bp (u32 (h_size h bp + h_size h q)) h)
  else set_ptr bp q h.

Record right_done (base bp n : Z) (r : blocks) (h : heap) (m : Z) (r1 : blocks) (h1 : heap) : Prop := {
  rd_seg : seg (h_ptr h1) bp r1 base;
  rd_size : h_size h1 bp = m;
  rd_more : n <= m;
  rd_apart : apart (bp + HDR * m) r1;
  rd_ptr : forall x, x <> bp -> h_ptr h1 x = h_ptr h x;
  rd_sizes : forall x, x <> bp -> h_size h1 x = h_size h x;
  rd_bytes : forall x, in_blk (bp, m) x \/ covered r1 x <-> in_blk (bp, n) x \/ covered r x;
  rd_sub : forall c, c ∈ r1 -> c ∈ r;
  rd_len : (length r1 <= length r)%nat;
  rd_brk : h_brk h1 = h_brk h
}.

Section join.
Context (base : Z) (h : heap) (l r : blocks) (bp n : Z) (al : blocks).
Context (H : heap_ok base h (l ++ r) ((bp, n) :: al)).
Context (Hl : forall c, c ∈ l -> c.1 < bp) (Hr : forall c, c ∈ r -> bp < c.1).

Lemma bp_facts : h_size h bp = n /\ 1 <= n /\ base < bp /\ bp + HDR * n <= h_brk h.
Proof. pose proof (ho_live _ _ _ _ H) as Hv. by apply Forall_cons in Hv as [Hv _]. Qed.

Lemma bp_gap c : c ∈ l ++ r -> b_end c <= bp \/ bp + HDR * n <= c.1.
Proof. intros Hc. destruct (ho_disj _ _ _ _ H (bp, n) c) as [D|D]; [ielem|done| |]; unfold b_end in *; cbn in D; auto. Qed.

Lemma right_ok : right_done base bp n r h (right_part bp n r).1 (right_part bp n r).2 (after_right base bp l h).
Proof.
  destruct bp_facts as (B1 & B2 & B3 & B4). pose proof bp_gap as Hbg. pose proof (ho_seg _ _ _ _ H) as Hs. pose proof (ho_apart _ _ _ _ H) as Ha.
  unfold right_part, after_right. rewrite B1. destruct r as [|q r'].
  - rewrite app_nil_r in Hs. rewrite (fseg_last _ _ _ _ 0 Hs). rewrite (proj2 (Z.eqb_neq _ base)) by (unfold HDR; lia).
    split; cbn; [by rewrite fupd_eq|done|lia|done|intros x Hx; by rewrite fupd_ne|done|intros x; reflexivity|done|done|done].
  - apply fseg_app in Hs as [Hs1 Hs2]. rewrite (fseg_last _ _ _ _ 0 Hs1).
    assert (bp < q.1) as Hq by (apply Hr; ielem). pose proof (Hbg q ltac:(apply elem_of_app; right; ielem)) as Hgap.
    destruct (apart_from _ _ _ _ Ha) as (_ & _ & Hq1). pose proof Ha as [_ (_ & _ & Ha2)]%apart_app.
    assert (forall x, x <> bp -> forall v, fupd (h_ptr h) bp v x = h_ptr h x) as Hne by (intros; by rewrite fupd_ne).
    assert (forall c, c ∈ r' -> c.1 <> bp) as Hnr by (intros c Hc; specialize (Hr c ltac:(ielem)); lia).
    destruct (Z.eqb_spec (bp + HDR * n) q.1) as [E|E]; cbn [fst snd].
    + assert (h_size h q.1 = q.2) as Eq.
      { pose proof (ho_size _ _ _ _ H) as Hz. rewrite Forall_forall in Hz. apply Hz. apply elem_of_app. right. ielem. }
      assert (q ∈ l ++ q :: r') as Hin by (apply elem_of_app; right; ielem).
      assert (bp + HDR * (n + q.2) = b_end q) as Ee by (unfold b_end, HDR in *; lia).
      assert (u32 (n + q.2) = n + q.2) as Eu.
      { apply u32_small. pose proof (ho_end _ _ _ _ H) as He. rewrite Forall_forall in He. specialize (He q Hin). pose proof (ho_pos _ _ _ _ H).
        pose proof (ho_brk _ _ _ _ H). unfold b_end, HDR, LIMIT in *. lia. }
      split; cbn [h_ptr h_size h_brk set_ptr set_size]; rewrite ?Eq, ?Eu, ?fupd_eq; try done; try lia.
      * destruct r' as [|c r']; cbn [seg] in *; rewrite fupd_eq; [done|]. destruct Hs2 as [Hs2 Hs3]. split; [done|].
        eapply seg_ext; [| |exact Hs3]; [apply Hne, Hnr; ielem|]. intros d Hd. apply Hne, Hnr. ielem.
      * by rewrite Ee.
      * intros x Hx. by apply Hne.
      * intros x Hx. by rewrite fupd_ne.
      * intros x. rewrite covered_cons. unfold in_blk, b_end, HDR in *. cbn [fst snd] in *. split; [intros [?|?]; [|tauto]|intros [?|[?|?]]; [left; lia|left; lia|tauto]].
        destruct (decide (x < bp + 16 * n)); [left; lia|right; left; lia].
      * intros c Hc. ielem.
      * cbn. lia.
    + split; cbn [h_ptr h_size h_brk set_ptr]; try done; try lia; try (intros x; reflexivity).
      * cbn [seg]. rewrite fupd_eq. split; [done|]. eapply seg_ext; [| |exact Hs2]; [apply Hne; lia|]. intros d Hd. by apply Hne, Hnr.
      * cbn [apart]. split; [unfold b_end, HDR in *; lia|]. done.
      * intros x Hx. by apply Hne.
Qed.

(** Headers of blocks handed out are not those of free blocks or of [bp]. *)
Lemma live_other c b : c ∈ al -> b ∈ (bp, n) :: l ++ r -> c.1 <> b.1.
Proof.
  intros Hc Hb. pose proof (ho_live _ _ _ _ H) as Hv. rewrite Forall_forall in Hv. destruct (Hv c ltac:(ielem)) as (_ & Hc1 & _).
  destruct bp_facts as (_ & B2 & _). apply elem_of_cons in Hb as [->|Hb].
  - destruct (ho_pair _ _ _ _ H) as [Hp _]. rewrite Forall_forall in Hp. destruct (Hp c Hc); unfold b_end, HDR in *; cbn in *; lia.
  - pose proof (apart_pos _ _ _ (ho_apart _ _ _ _ H) Hb). destruct (ho_disj _ _ _ _ H c b ltac:(ielem) Hb); unfold b_end, HDR in *; lia.
Qed.

(** What is left to show of the new list. *)
Lemma join_done h' bl' : seg (h_ptr h') base bl' base -> apart base bl' -> Forall (fun c => h_size h' c.1 = c.2) bl' ->
  h_freep h' = base \/ h_freep h' ∈ bl'.*1 -> h_brk h' = h_brk h ->
  (forall x, (forall b, b ∈ (bp, n) :: l ++ r -> x <> b.1) -> h_size h' x = h_size h x) ->
  (forall x, covered bl' x <-> covered (l ++ r) x \/ in_blk (bp, n) x) -> heap_ok base h' bl' al.
Proof.
  intros H1 H2 H3 H4 H5 H6 H7. destruct bp_facts as (B1 & B2 & B3 & B4). pose proof (ho_live _ _ _ _ H) as [_ Hv]%Forall_cons.
  destruct (ho_pair _ _ _ _ H) as [Hp Hpw].
  apply heap_ok_intro; try done; rewrite ?H5; try apply H.
  - rewrite H6; [apply H|]. intros b [->|Hb]%elem_of_cons; [cbn; lia|]. pose proof (apart_above _ _ _ (ho_apart _ _ _ _ H) Hb). lia.
  - rewrite Forall_forall in Hv |- *. intros c Hc. destruct (Hv c Hc) as (V1 & V2). split; [|done].
    rewrite H6; [done|]. intros b Hb. by apply live_other.
  - intros x Hx%H7. split.
    + destruct Hx as [Hx|Hx]; [by apply (free_below _ _ _ _ H)|]. unfold in_blk, b_end in Hx. cbn in Hx. lia.
    + intros (c & Hc & Hcx). destruct Hx as [Hx|Hx].
      * apply (free_not_live _ _ _ _ H x Hx). exists c. split; [ielem|done].
      * rewrite Forall_forall in Hp, Hv. destruct (Hv c Hc) as (_ & V2 & _).
        apply (proj1 (disj_iff (bp, n) c B2 V2) (Hp c Hc) x Hx Hcx).
Qed.

Let m := (right_part bp n r).1.
Let r1 := (right_part bp n r).2.
Let h1 := after_right base bp l h.
Let P := last_of (base, 0) l.

Lemma right_above c : c ∈ r1 -> bp < c.1.
Proof. intros Hc. by apply Hr, (rd_sub _ _ _ _ _ _ _ _ right_ok). Qed.

Lemma old_sizes c : c ∈ l ++ r -> c.1 <> bp /\ h_size h1 c.1 = c.2 /\ h_ptr h1 c.1 = h_ptr h c.1.
Proof.
  intros Hc. pose proof (ho_size _ _ _ _ H) as Hz. rewrite Forall_forall in Hz.
  assert (c.1 <> bp) as Hne by (apply elem_of_app in Hc as [Hc|Hc]; [specialize (Hl c Hc)|specialize (Hr c Hc)]; lia).
  split; [done|]. rewrite (rd_sizes _ _ _ _ _ _ _ _ right_ok), (rd_ptr _ _ _ _ _ _ _ _ right_ok) by done. split; [by apply Hz|done].
Qed.

Lemma right_sizes : Forall (fun c => h_size h1 c.1 = c.2) r1.
Proof. apply Forall_forall. intros c Hc. apply old_sizes, elem_of_app. right. by apply (rd_sub _ _ _ _ _ _ _ _ right_ok). Qed.

Lemma left_sizes c : c ∈ l -> h_size h1 c.1 = c.2.
Proof. intros Hc. apply old_sizes, elem_of_app. by left. Qed.

Lemma left_seg : exists b, seg (h_ptr h) base l b.
Proof.
  pose proof (ho_seg _ _ _ _ H) as Hs. revert Hs. clear -l r. destruct r as [|q r']; [rewrite app_nil_r; by exists base|].
  intros [Hs _]%fseg_app. by exists q.1.
Qed.

Lemma left_end : b_end P <= bp /\ P.1 < bp /\ h_size h1 P.1 = P.2 /\ (P.1 = base \/ P.1 ∈ l.*1).
Proof.
  destruct bp_facts as (B1 & B2 & B3 & B4). unfold P. destruct (last_of_in (base, 0) l) as [->|Hin]; cbn [fst snd].
  - split; [unfold b_end, HDR; cbn; lia|]. split; [done|]. split; [|by left]. unfold h1.
    rewrite (rd_sizes _ _ _ _ _ _ _ _ right_ok) by lia. apply H.
  - specialize (Hl _ Hin) as Hlt. split; [|split; [done|split; [by apply left_sizes|right; by apply list_elem_of_fmap_2]]].
    destruct (bp_gap (last_of (base, 0) l)) as [?|?]; [apply elem_of_app; by left|done|]. unfold HDR in *. lia.
Qed.

(** A gap before [bp]: a block of its own. *)
Lemma join_after (h2 := set_freep P.1 (set_ptr P.1 bp h1)) : b_end P <> bp -> heap_ok base h2 (l ++ (bp, m) :: r1) al.
Proof.
  intros E. pose proof right_ok as R. destruct left_end as (L1 & L2 & L3 & L4). destruct left_seg as [b Hs].
  pose proof (ho_apart _ _ _ _ H) as [Hal _]%apart_app. destruct bp_facts as (_ & B2 & B3 & _).
  apply join_done; [| | | |apply (rd_brk _ _ _ _ _ _ _ _ R)| |].
  - apply fseg_app. cbn [fst h_ptr h2 set_freep set_ptr]. split.
    + eapply (seg_relink (h_ptr h)); [exact Hs|apply fupd_eq| |done]. fold P. intros x Hx Hxl. rewrite fupd_ne by done.
      apply (rd_ptr _ _ _ _ _ _ _ _ R). destruct Hxl as [->|Hxl]; [lia|]. apply list_elem_of_fmap in Hxl as (c & -> & Hc). specialize (Hl c Hc). lia.
    + eapply seg_ext; [| |apply (rd_seg _ _ _ _ _ _ _ _ R)]; [by rewrite fupd_ne by lia|]. intros c Hc%right_above. by rewrite fupd_ne by lia.
  - apply apart_app. split; [done|]. fold P. cbn [apart fst snd]. split; [lia|]. pose proof (rd_more _ _ _ _ _ _ _ _ R).
    split; [unfold m; lia|]. apply (rd_apart _ _ _ _ _ _ _ _ R).
  - apply Forall_app. split; [apply Forall_forall; apply left_sizes|]. constructor; [apply (rd_size _ _ _ _ _ _ _ _ R)|apply right_sizes].
  - cbn [h_freep h2 set_freep]. destruct L4 as [L4|L4]; [by left|]. right. rewrite fmap_app. apply elem_of_app. by left.
  - intros x Hx. apply (rd_sizes _ _ _ _ _ _ _ _ R). apply (Hx (bp, n)). ielem.
  - intros x. rewrite !covered_app, covered_cons. unfold m, r1. rewrite (rd_bytes _ _ _ _ _ _ _ _ R x). tauto.
Qed.

(** [bp] starts where the block before it ends: one block. *)
Lemma join_into l' p k (h2 := set_freep p (set_ptr p (h_ptr h1 bp) (set_size p (u32 (k + m)) h1))) : l = l' ++ [(p, k)] -> p + HDR * k = bp ->
  heap_ok base h2 (l' ++ (p, k + m) :: r1) al.
Proof.
  intros El E. pose proof right_ok as R. destruct left_seg as [b Hs]. destruct bp_facts as (_ & B2 & B3 & _).
  pose proof (ho_apart _ _ _ _ H) as [Hal _]%apart_app. pose proof (rd_more _ _ _ _ _ _ _ _ R) as Hm. fold m in Hm.
  assert (forall c, c ∈ l' -> c.1 < p) as Hlt.
  { intros c Hc. rewrite El in Hal. pose proof (apart_split _ _ _ _ _ Hal Hc) as Hsp. pose proof Hal as [Hal' _]%apart_app.
    pose proof (apart_pos _ _ _ Hal' Hc). unfold b_end, HDR in Hsp. cbn in Hsp. lia. }
  assert (base < p /\ 1 <= k /\ apart base l' /\ b_end (last_of (base, 0) l') < p) as (P1 & P2 & P3 & P4).
  { rewrite El in Hal. destruct (apart_from _ _ _ _ Hal) as (_ & Q1 & Q2). apply apart_app in Hal as [Q3 (Q4 & _)]. done. }
  assert (forall x, in_blk (p, k + m) x <-> in_blk (p, k) x \/ in_blk (bp, m) x) as Hblk.
  { intros x. unfold in_blk, b_end, HDR in *. cbn [fst snd]. lia. }
  assert (u32 (k + m) = k + m) as Eu.
  { apply u32_small. assert (bp + HDR * m <= h_brk h) as Hb.
    { pose proof (rd_bytes _ _ _ _ _ _ _ _ R (bp + HDR * m - 1)) as [Hx _]. fold m in Hx.
      destruct Hx as [Hx|Hx]; [left; unfold in_blk, b_end, HDR; cbn; lia| |].
      - unfold in_blk, b_end in Hx. cbn in Hx. destruct bp_facts as (_ & _ & _ & B4). lia.
      - assert (bp + HDR * m - 1 < h_brk h); [|lia]. apply (free_below _ _ _ _ H). apply covered_app. by right. }
    pose proof (ho_brk _ _ _ _ H). pose proof (ho_pos _ _ _ _ H). unfold HDR, LIMIT in *. lia. }
  apply join_done; [| | | |apply (rd_brk _ _ _ _ _ _ _ _ R)| |].
  - rewrite El in Hs. apply fseg_app in Hs as [Hs _]. apply fseg_app. cbn [fst h_ptr h2 set_freep set_ptr set_size]. split.
    + eapply seg_ext; [| |exact Hs]; [|intros c Hc; specialize (Hlt c Hc)]; (rewrite fupd_ne by lia; apply (rd_ptr _ _ _ _ _ _ _ _ R); unfold HDR in *; lia).
    + eapply seg_enter; [| |apply (rd_seg _ _ _ _ _ _ _ _ R)]; [by rewrite fupd_eq|]. intros c Hc%right_above. rewrite fupd_ne by (unfold HDR in *; lia). done.
  - apply apart_app. split; [done|]. cbn [apart fst snd]. split; [done|]. split; [lia|].
    replace (b_end (p, k + m)) with (bp + HDR * m) by (unfold b_end, HDR in *; cbn; lia). apply (rd_apart _ _ _ _ _ _ _ _ R).
  - cbn [h_size h2 set_freep set_ptr set_size]. rewrite Eu. apply Forall_app. split; [|constructor; [apply fupd_eq|]].
    + apply Forall_forall. intros c Hc. rewrite fupd_ne by (specialize (Hlt c Hc); lia). apply left_sizes. rewrite El. apply elem_of_app. by left.
    + pose proof right_sizes as Hrs. rewrite Forall_forall in Hrs |- *. intros c Hc. pose proof (right_above c Hc).
      rewrite fupd_ne by (unfold HDR in *; lia). by apply Hrs.
  - right. rewrite fmap_app. apply elem_of_app. right. cbn. ielem.
  - intros x Hx. cbn [h_size h2 set_freep set_ptr set_size]. assert (x <> p /\ x <> bp) as [X1 X2].
    { split; [apply (Hx (p, k))|apply (Hx (bp, n))]; [|ielem]. rewrite El, <- app_assoc. apply elem_of_cons. right. apply elem_of_app. right. cbn. ielem. }
    rewrite fupd_ne by done. by apply (rd_sizes _ _ _ _ _ _ _ _ R).
  - intros x. rewrite El, !covered_app, !covered_cons, covered_nil, Hblk. pose proof (rd_bytes _ _ _ _ _ _ _ _ R x). fold m r1 in H0. tauto.
Qed.

Lemma free_join_ok : exists bl', heap_ok base (free_join bp P.1 h) bl' al /\
  (forall x, covered bl' x <-> covered (l ++ r) x \/ in_blk (bp, n) x) /\
  h_brk (free_join bp P.1 h) = h_brk h /\ exists c, c ∈ bl' /\ n <= c.2 /\ (length bl' <= S (length (l ++ r)))%nat.
Proof.
  pose proof right_ok as R. pose proof (rd_len _ _ _ _ _ _ _ _ R) as Hlen. fold r1 in Hlen. destruct left_end as (L1 & L2 & L3 & L4). pose proof (rd_more _ _ _ _ _ _ _ _ R) as Hm. fold m in Hm.
  assert (free_join bp P.1 h = set_freep P.1 (if P.1 + HDR * h_size h1 P.1 =? bp
    then set_ptr P.1 (h_ptr h1 bp) (set_size P.1 (u32 (h_size h1 P.1 + h_size h1 bp)) h1) else set_ptr P.1 bp h1)) as -> by done.
  rewrite L3. fold (b_end P). destruct (Z.eqb_spec (b_end P) bp) as [E|E].
  - assert (exists l' k, l = l' ++ [(P.1, k)] /\ P.2 = k) as (l' & k & El & Ek).
    { unfold P in *. destruct bp_facts as (_ & _ & B3 & _). clear - E B3. destruct l as [|c l' _] using rev_ind.
      - unfold last_of, b_end, HDR in E. cbn in E. lia.
      - rewrite last_of_snoc. exists l', c.2. split; [by destruct c|done]. }
    unfold b_end in E. rewrite Ek in E. exists (l' ++ (P.1, k + m) :: r1). assert (h_size h1 bp = m) as -> by apply (rd_size _ _ _ _ _ _ _ _ R). rewrite Ek.
    split; [by apply join_into|]. split; [|split; [apply (rd_brk _ _ _ _ _ _ _ _ R)|]].
    + intros x. rewrite El, !covered_app, !covered_cons, covered_nil. pose proof (rd_bytes _ _ _ _ _ _ _ _ R x) as Hx. fold m r1 in Hx.
      assert (in_blk (P.1, k + m) x <-> in_blk (P.1, k) x \/ in_blk (bp, m) x); [|tauto]. unfold in_blk, b_end, HDR in *. cbn [fst snd].
      assert (1 <= k); [|destruct bp_facts as (_ & ? & _); lia]. pose proof (ho_apart _ _ _ _ H) as [Ha _]%apart_app. rewrite El in Ha.
      by destruct (apart_from _ _ _ _ Ha) as (_ & _ & ?).
    + exists (P.1, k + m). split; [apply elem_of_app; right; ielem|]. cbn. pose proof (ho_apart _ _ _ _ H) as [Ha _]%apart_app. rewrite El in Ha.
      destruct (apart_from _ _ _ _ Ha) as (_ & _ & Hk). cbn in Hk. split; [lia|]. rewrite El, !length_app. cbn. lia.
  - exists (l ++ (bp, m) :: r1). split; [by apply join_after|]. split; [|split; [apply (rd_brk _ _ _ _ _ _ _ _ R)|]].
    + intros x. rewrite !covered_app, covered_cons. unfold m, r1. rewrite (rd_bytes _ _ _ _ _ _ _ _ R x). tauto.
    + exists (bp, m). split; [apply elem_of_app; right; ielem|]. split; [done|]. rewrite !length_app. cbn. lia.
Qed.

End join.

(** ** [free] *)

Lemma free_ok base h bl al bp n fuel : heap_ok base h bl ((bp, n) :: al) -> (length bl + 2 <= fuel)%nat ->
  exists h' bl', free fuel (bp + HDR) h = Some h' /\ heap_ok base h' bl' al /\
    (forall x, covered bl' x <-> covered bl x \/ in_blk (bp, n) x) /\ h_brk h' = h_brk h /\ exists c, c ∈ bl' /\ n <= c.2 /\ (length bl' <= S (length bl))%nat.
Proof.
  intros H Hf. pose proof (ho_live _ _ _ _ H) as [(_ & B2 & B3 & _) _]%Forall_cons. cbn in B2, B3.
  destruct (split_at bp bl base (ho_apart _ _ _ _ H)) as (l & r & -> & Hl & Hr).
  { intros c Hc. pose proof (apart_pos _ _ _ (ho_apart _ _ _ _ H) Hc). destruct (ho_disj _ _ _ _ H (bp, n) c ltac:(ielem) Hc); unfold b_end, HDR in *; cbn in *; lia. }
  unfold free. replace (bp + HDR - HDR) with bp by lia. rewrite (free_place_ok base h bp B3 _ _ l r fuel H eq_refl Hl Hr Hf).
  destruct (free_join_ok base h l r bp n al H Hl Hr) as (bl' & H1 & H2 & H3 & H4). eexists _, bl'. split; [reflexivity|]. done.
Qed.

(** ** Taking units from a block *)

Section carve.
Context (base : Z) (h : heap) (l r : blocks) (p k n : Z) (al : blocks).
Context (H : heap_ok base h (l ++ (p, k) :: r) al) (Hn : 1 <= n <= k).
Let P := last_of (base, 0) l.

Lemma carve_in : (p, k) ∈ l ++ (p, k) :: r.
Proof. apply elem_of_app. right. ielem. Qed.

Lemma carve_order : (forall c, c ∈ l -> c.1 < p) /\ (forall c, c ∈ r -> p < c.1 /\ p + HDR * k < c.1) /\ base < p /\ h_size h p = k /\
  b_end P < p /\ apart base l /\ apart (p + HDR * k) r /\ k < 0x100000000.
Proof.
  pose proof (ho_apart _ _ _ _ H) as Ha. pose proof Ha as [Hal (H1 & H2 & H3)]%apart_app. cbn [fst snd] in *.
  destruct (free_small _ _ _ _ H _ carve_in) as [Hk Hb]. cbn [fst snd] in *.
  split; [|split; [|split; [done|split; [|split; [done|split; [done|split; [done|lia]]]]]]].
  - intros c Hc. pose proof (apart_split _ _ _ _ _ Ha Hc) as Hs. pose proof (apart_pos _ _ _ Hal Hc). unfold b_end, HDR in Hs. cbn in Hs. lia.
  - intros c Hc. destruct (apart_above _ _ _ H3 Hc) as [H4 _]. unfold b_end, HDR in *. cbn in H4. lia.
  - pose proof (ho_size _ _ _ _ H) as Hz. rewrite Forall_forall in Hz. apply (Hz _ carve_in).
Qed.

Lemma carve_done q h' bl' : p <= q -> q + HDR * n = p + HDR * k ->
  seg (h_ptr h') base bl' base -> apart base bl' -> Forall (fun c => h_size h' c.1 = c.2) bl' ->
  h_freep h' = P.1 -> (P.1 = base \/ P.1 ∈ bl'.*1) -> h_brk h' = h_brk h -> h_size h' q = n ->
  (forall x, x <> q -> x <> p -> h_size h' x = h_size h x) ->
  (forall x, covered (l ++ (p, k) :: r) x <-> covered bl' x \/ in_blk (q, n) x) ->
  (forall x, covered bl' x -> ~ in_blk (q, n) x) -> heap_ok base h' bl' ((q, n) :: al).
Proof.
  intros Hq Hqe H1 H2 H3 H4 H4' H5 H6 H7 H8 H9. destruct carve_order as (O1 & O2 & O3 & O4 & O5 & O6 & O7 & O8).
  assert (forall x, in_blk (q, n) x -> covered (l ++ (p, k) :: r) x) as Hsub by (intros x Hx; apply H8; by right).
  assert (forall c, c ∈ al -> forall x, in_blk c x -> ~ covered (l ++ (p, k) :: r) x) as Hal.
  { intros c Hc x Hx Hcv. apply (free_not_live _ _ _ _ H x Hcv). by exists c. }
  pose proof (ho_live _ _ _ _ H) as Hv. rewrite Forall_forall in Hv.
  assert (forall c, c ∈ al -> disj (q, n) c) as Hdj.
  { intros c Hc. destruct (Hv c Hc) as (_ & V & _). apply disj_iff; [cbn; lia|done|]. intros x Hx Hcx. apply (Hal c Hc x Hcx). by apply Hsub. }
  assert (q + HDR * n <= h_brk h) as Hend.
  { pose proof (ho_end _ _ _ _ H) as He. rewrite Forall_forall in He. specialize (He _ carve_in). unfold b_end in He. cbn in He. lia. }
  apply heap_ok_intro; try done.
  - rewrite H7; [apply H|lia|lia].
  - rewrite H4. done.
  - rewrite H5. apply H.
  - rewrite H5. apply H.
  - constructor.
    + cbn [fst snd]. rewrite H5. split; [done|]. unfold b_end. cbn. split; [lia|]. split; [lia|done].
    + apply Forall_forall. intros c Hc. destruct (Hv c Hc) as (V1 & V2 & V3 & V4). rewrite H5. split; [|done].
      assert (in_blk c c.1) as Hc1 by (unfold in_blk, b_end, HDR; lia). rewrite H7; [done| |]; intros E; apply (Hal c Hc c.1 Hc1).
      * apply Hsub. rewrite E. unfold in_blk, b_end, HDR. cbn. lia.
      * exists (p, k). split; [apply carve_in|]. rewrite E. unfold in_blk, b_end, HDR. cbn. lia.
  - cbn [pairwise]. split; [by apply Forall_forall|apply H].
  - intros x Hx. rewrite H5. split; [apply (free_below _ _ _ _ H), H8; by left|]. rewrite covered_cons. intros [Hb|(c & Hc & Hcx)]; [by apply (H9 x Hx)|].
    apply (Hal c Hc x Hcx), H8. by left.
Qed.

Lemma carve_all : k = n -> heap_ok base (set_freep P.1 (set_ptr P.1 (h_ptr h p) h)) (l ++ r) ((p, n) :: al) /\
  (forall x, covered (l ++ (p, k) :: r) x <-> covered (l ++ r) x \/ in_blk (p, n) x).
Proof.
  intros E. destruct carve_order as (O1 & O2 & O3 & O4 & O5 & O6 & O7 & O8). pose proof (ho_seg _ _ _ _ H) as [Hs1 Hs2]%fseg_app. cbn [fst] in *.
  pose proof (ho_size _ _ _ _ H) as [Hz1 Hz2]%Forall_app. apply Forall_cons in Hz2 as [_ Hz2].
  assert (P.1 < p) as HP.
  { unfold P. destruct (last_of_in (base, 0) l) as [->|Hin]; [done|]. by apply O1. }
  assert (forall x, covered (l ++ (p, k) :: r) x <-> covered (l ++ r) x \/ in_blk (p, n) x) as Hcov.
  { intros x. rewrite !covered_app, covered_cons, E. tauto. }
  split; [|done]. apply carve_done; [lia|by rewrite E| | |by apply Forall_app|done| |done|cbn; congruence|done|done|].
  - cbn [h_ptr set_freep set_ptr]. destruct r as [|c r'].
    + rewrite app_nil_r. eapply seg_relink; [exact Hs1| | |done]; [cbn in Hs2; fold P; rewrite fupd_eq; done|]. intros x Hx _. by rewrite fupd_ne.
    + cbn [seg] in Hs2. destruct Hs2 as [Hs2 Hs3]. apply fseg_app. split.
      * eapply seg_relink; [exact Hs1| | |done]; [by fold P; rewrite fupd_eq|]. intros x Hx _. by rewrite fupd_ne.
      * eapply seg_ext; [| |exact Hs3]; [rewrite fupd_ne; [done|]; specialize (O2 c ltac:(ielem)); lia|].
        intros d Hd. rewrite fupd_ne; [done|]. specialize (O2 d ltac:(ielem)). lia.
  - apply apart_app. split; [done|]. fold P. apply (apart_weaken (p + HDR * k)); [unfold HDR; lia|done].
  - unfold P. destruct (last_of_in (base, 0) l) as [->|Hin]; [by left|]. right. rewrite fmap_app. apply elem_of_app. left. by apply list_elem_of_fmap_2.
  - intros x [Hx|Hx]%covered_app Hb; destruct Hx as (c & Hc & Hcx).
    + pose proof (apart_split _ _ _ _ _ (ho_apart _ _ _ _ H) Hc). unfold in_blk, b_end in *. cbn in *. lia.
    + destruct (O2 c Hc). unfold in_blk, b_end in *. cbn in *. rewrite E in *. lia.
Qed.

Lemma carve_some (q := p + HDR * (k - n)) : n < k ->
  heap_ok base (set_freep P.1 (set_size q n (set_size p (k - n) h))) (l ++ (p, k - n) :: r) ((q, n) :: al) /\
  (forall x, covered (l ++ (p, k) :: r) x <-> covered (l ++ (p, k - n) :: r) x \/ in_blk (q, n) x).
Proof.
  intros E. destruct carve_order as (O1 & O2 & O3 & O4 & O5 & O6 & O7 & O8). pose proof (ho_seg _ _ _ _ H) as [Hs1 Hs2]%fseg_app. cbn [fst] in *.
  pose proof (ho_size _ _ _ _ H) as [Hz1 Hz2]%Forall_app. apply Forall_cons in Hz2 as [_ Hz2]. rewrite Forall_forall in Hz1, Hz2.
  assert (forall x, in_blk (p, k) x <-> in_blk (p, k - n) x \/ in_blk (q, n) x) as Hblk by (intros x; unfold in_blk, b_end, q, HDR; cbn [fst snd]; lia).
  split; [|intros x; rewrite !covered_app, !covered_cons, Hblk; tauto].
  apply carve_done; [unfold q, HDR; lia|unfold q, HDR; lia| | | |done| |done|cbn; by rewrite fupd_eq| | |].
  - apply fseg_app. done.
  - apply apart_app. split; [done|]. fold P. cbn [apart fst snd]. split; [done|]. split; [lia|]. apply (apart_weaken (p + HDR * k)); [unfold b_end, HDR; cbn; lia|done].
  - cbn [h_size set_freep set_size]. apply Forall_app. split; [|constructor].
    + apply Forall_forall. intros c Hc. specialize (O1 c Hc). rewrite !fupd_ne by (unfold q, HDR; lia). by apply Hz1.
    + cbn [fst snd]. rewrite fupd_ne by (unfold q, HDR; lia). apply fupd_eq.
    + apply Forall_forall. intros c Hc. specialize (O2 c Hc). rewrite !fupd_ne by (unfold q, HDR in *; lia). by apply Hz2.
  - unfold P. destruct (last_of_in (base, 0) l) as [->|Hin]; [by left|]. right. rewrite fmap_app. apply elem_of_app. left. by apply list_elem_of_fmap_2.
  - intros x X1 X2. cbn. by rewrite !fupd_ne.
  - intros x. rewrite !covered_app, !covered_cons, Hblk. tauto.
  - intros x. rewrite covered_app, covered_cons. intros [(c & Hc & Hcx)|[Hx|(c & Hc & Hcx)]] Hb.
    + specialize (O1 c Hc). pose proof (apart_split _ _ _ _ _ (ho_apart _ _ _ _ H) Hc). unfold in_blk, b_end, q, HDR in *. cbn in *. lia.
    + unfold in_blk, b_end, q, HDR in *. cbn in *. lia.
    + destruct (O2 c Hc). unfold in_blk, b_end, q, HDR in *. cbn in *. lia.
Qed.

(** [carve] hands out the last [n] units of the block. *)
Lemma carve_ok : exists h' bl', carve n P.1 p h = (p + HDR * (k - n) + HDR, h') /\ heap_ok base h' bl' ((p + HDR * (k - n), n) :: al) /\
  (forall x, covered (l ++ (p, k) :: r) x <-> covered bl' x \/ in_blk (p + HDR * (k - n), n) x) /\ h_brk h' = h_brk h.
Proof.
  destruct carve_order as (_ & _ & _ & O4 & _ & _ & _ & O8). unfold carve. rewrite O4. destruct (Z.eqb_spec k n) as [E|E].
  - destruct (carve_all E) as [H1 H2]. replace (p + HDR * (k - n)) with p by (unfold HDR; lia). by eexists _, _.
  - destruct (carve_some ltac:(lia)) as [H1 H2]. rewrite u32_small by lia. cbn [h_size set_size]. rewrite fupd_eq.
    by eexists _, _.
Qed.

End carve.

(** ** The search of [malloc] *)

Section search.
Context (grants : Z -> Z -> bool) (base : Z) (h : heap) (bl al : blocks) (n : Z).
Context (H : heap_ok base h bl al) (Hn : 1 <= n).

(** Blocks that are too small are passed over. *)
Lemma loop_skip s1 : forall a b fuel, seg (h_ptr h) a s1 b -> Forall (fun c => h_size h c.1 = c.2 /\ c.2 < n /\ c.1 <> h_freep h) s1 ->
  malloc_loop grants (length s1 + fuel) n a (h_ptr h a) h =
  malloc_loop grants fuel n (last_of (a, 0) s1).1 (h_ptr h (last_of (a, 0) s1).1) h.
Proof.
  induction s1 as [|c s1 IH]; intros a b fuel Hs Hf; [done|]. cbn [seg] in Hs. destruct Hs as [Ha Hs].
  apply Forall_cons in Hf as [(F1 & F2 & F3) Hf]. cbn [length Nat.add malloc_loop]. rewrite Ha, F1, (proj2 (Z.leb_gt _ _)) by lia.
  rewrite (proj2 (Z.eqb_neq _ _)) by done. rewrite (IH _ _ _ Hs Hf), last_of_cons. destruct c as [c k]. cbn [fst].
  by rewrite (last_of_fst c 0 k).
Qed.

(** The list from the block [freep] is at. *)
Lemma freep_split : exists u v, bl = u ++ v /\ h_freep h = (last_of (base, 0) u).1 /\ seg (h_ptr h) (h_freep h) v base /\
  (forall c, c ∈ v -> h_freep h < c.1) /\ (u = [] -> h_freep h = base) /\
  (forall u' c, u = u' ++ [c] -> h_freep h = c.1 /\ h_freep h <> base /\ forall d, d ∈ u' -> d.1 < h_freep h).
Proof.
  pose proof (ho_seg _ _ _ _ H) as Hs. pose proof (ho_apart _ _ _ _ H) as Ha. destruct (ho_freep _ _ _ _ H) as [->|Hin].
  - exists [], bl. split; [done|]. split; [done|]. split; [done|]. split; [intros c Hc; apply (apart_above _ _ _ Ha Hc)|].
    split; [done|]. intros u' c E%(f_equal length). rewrite length_app in E. cbn in E. lia.
  - apply list_elem_of_fmap in Hin as ([f k] & -> & Hin). apply list_elem_of_split in Hin as (u & v & E). rewrite E in Hs, Ha.
    exists (u ++ [(f, k)]), v. rewrite <- app_assoc. split; [done|]. rewrite last_of_snoc. split; [done|]. cbn [fst].
    apply fseg_app in Hs as [_ Hs]. destruct (apart_from _ _ _ _ Ha) as (A1 & A2 & _). cbn [fst] in *. split; [done|].
    split; [intros c Hc; apply (apart_above _ _ _ A1 Hc)|]. split; [intros E'%(f_equal length); rewrite length_app in E'; cbn in E'; lia|].
    intros u' c [-> [= <-]]%app_inj_tail. split; [done|]. split; [lia|]. intros d Hd.
    pose proof (apart_split _ _ _ _ _ Ha Hd). pose proof Ha as [Ha' _]%apart_app. pose proof (apart_pos _ _ _ Ha' Hd). unfold b_end, HDR in *. cbn in *. lia.
Qed.

Lemma first_fit (l : blocks) : Forall (fun c => c.2 < n) l \/ exists s1 c s2, l = s1 ++ c :: s2 /\ Forall (fun c => c.2 < n) s1 /\ n <= c.2.
Proof.
  induction l as [|c l IH]; [left; constructor|]. destruct (decide (c.2 < n)) as [Hc|Hc].
  - destruct IH as [IH|(s1 & d & s2 & -> & H1 & H2)]; [left; by constructor|]. right. exists (c :: s1), d, s2. split; [done|]. split; [by constructor|done].
  - right. exists [], c, l. split; [done|]. split; [constructor|lia].
Qed.

Lemma last_of_join a u v : (last_of (a, 0) (u ++ v)).1 = (last_of ((last_of (a, 0) u).1, 0) v).1.
Proof. destruct v as [|c v _] using rev_ind; [by rewrite app_nil_r|]. by rewrite app_assoc, !last_of_snoc. Qed.

(** A block large enough ends the search. *)
Lemma loop_fit s1 c a b fuel l : seg (h_ptr h) a (s1 ++ [c]) b -> h_size h c.1 = c.2 -> n <= c.2 ->
  Forall (fun c => h_size h c.1 = c.2 /\ c.2 < n /\ c.1 <> h_freep h) s1 -> (last_of (a, 0) s1).1 = (last_of (base, 0) l).1 ->
  malloc_loop grants (length s1 + S fuel) n a (h_ptr h a) h = Some (carve n (last_of (base, 0) l).1 c.1 h).
Proof.
  intros [Hs1 _]%fseg_app Hz Hc Hf Hl. rewrite (loop_skip s1 a _ _ Hs1 Hf), (fseg_last _ _ _ _ 0 Hs1), Hl. cbn [malloc_loop].
  by rewrite Hz, (proj2 (Z.leb_le _ _)).
Qed.

Lemma sized l : (forall c, c ∈ l -> c ∈ bl) -> Forall (fun c => c.2 < n) l -> (forall c, c ∈ l -> c.1 <> h_freep h) ->
  Forall (fun c => h_size h c.1 = c.2 /\ c.2 < n /\ c.1 <> h_freep h) l.
Proof.
  intros Hs Hf Hne. rewrite Forall_forall in Hf |- *. intros c Hc. pose proof (ho_size _ _ _ _ H) as Hz. rewrite Forall_forall in Hz. auto.
Qed.

Definition grown (fuel : nat) : option (Z * heap) :=
  match morecore grants fuel n h with
  | None => None
  | Some (p, h) => if p =? 0 then Some (0, h) else malloc_loop grants fuel n p (h_ptr h p) h
  end.

(** The part of the list up to [freep], which ends the round. *)
Lemma search_low u' c v fuel : bl = (u' ++ [c]) ++ v -> h_freep h = c.1 -> (forall d, d ∈ u' -> d.1 < h_freep h) -> Forall (fun c => c.2 < n) v ->
  (exists l p k r, bl = l ++ (p, k) :: r /\ n <= k /\
     malloc_loop grants (length u' + S fuel) n base (h_ptr h base) h = Some (carve n (last_of (base, 0) l).1 p h)) \/
  (Forall (fun c => c.2 < n) bl /\ malloc_loop grants (length u' + S fuel) n base (h_ptr h base) h = grown fuel).
Proof.
  intros E Efc Hlt Fv. pose proof (ho_size _ _ _ _ H) as Hz. rewrite Forall_forall in Hz. pose proof (ho_apart _ _ _ _ H) as Ha.
  assert (forall c', c' ∈ u' ++ [c] -> c' ∈ bl) as Ub by (intros d Hd; rewrite E; apply elem_of_app; by left).
  assert (seg (h_ptr h) base (u' ++ [c]) (h_ptr h c.1)) as Hsu.
  { pose proof (ho_seg _ _ _ _ H) as Hs. rewrite E in Hs. rewrite <- app_assoc in Hs. cbn [app] in Hs. apply fseg_app in Hs as [Hs _]. apply fseg_app. done. }
  destruct (first_fit (u' ++ [c])) as [Fu|(s1 & d & s2 & Eu & F1 & F2)].
  - right. split; [rewrite E; by apply Forall_app|]. apply Forall_app in Fu as [Fu' Fc]. apply Forall_cons in Fc as [Fc _]. pose proof Hsu as [Hsu' _]%fseg_app.
    rewrite (loop_skip u' _ c.1) by (done || (apply sized; [intros d Hd; apply Ub, elem_of_app; by left|done|intros d Hd; specialize (Hlt d Hd); lia])).
    rewrite (fseg_last _ _ _ _ 0 Hsu'). cbn [malloc_loop]. rewrite (Hz c) by (apply Ub, elem_of_app; right; ielem).
    rewrite (proj2 (Z.leb_gt _ _)), (proj2 (Z.eqb_eq c.1 _)) by (done || lia). done.
  - left. exists s1, d.1, d.2, (s2 ++ v). rewrite E, Eu, <- app_assoc. split; [by destruct d|]. split; [done|].
    assert (d.1 <= h_freep h) as Hdf.
    { assert (d ∈ u' ++ [c]) as [Hd|Hd%list_elem_of_singleton]%elem_of_app by (rewrite Eu; apply elem_of_app; right; ielem); [specialize (Hlt d Hd); lia|subst d; lia]. }
    assert (length u' + S fuel = length s1 + S (length u' + fuel - length s1))%nat as ->.
    { apply (f_equal length) in Eu. rewrite !length_app in Eu. cbn in Eu. lia. }
    rewrite Eu in Hsu, Ub. pose proof Hsu as [Hs1 _]%fseg_app.
    apply (loop_fit _ _ _ (h_ptr h d.1)); [apply fseg_app; done|apply Hz, Ub, elem_of_app; right; ielem|done| |done].
    apply sized; [intros x Hx; apply Ub, elem_of_app; by left|done|]. intros x Hx. rewrite E, Eu in Ha. rewrite <- app_assoc in Ha. cbn [app] in Ha.
    pose proof (apart_split _ _ _ _ _ Ha Hx). pose proof Ha as [Ha' _]%apart_app. pose proof (apart_pos _ _ _ Ha' Hx). unfold b_end, HDR in *. lia.
Qed.

(** Once round the list: the first block that fits, or more memory. *)
Lemma search fuel :
  (exists l p k r, bl = l ++ (p, k) :: r /\ n <= k /\
     malloc_loop grants (length bl + S fuel) n (h_freep h) (h_ptr h (h_freep h)) h = Some (carve n (last_of (base, 0) l).1 p h)) \/
  (Forall (fun c => c.2 < n) bl /\ malloc_loop grants (length bl + S fuel) n (h_freep h) (h_ptr h (h_freep h)) h = grown fuel).
Proof.
  destruct freep_split as (u & v & E & Ef & Hsv & Hv & Hu0 & Hu). pose proof (ho_size _ _ _ _ H) as Hz. rewrite Forall_forall in Hz.
  assert (forall c, c ∈ v -> c ∈ bl) as Vb by (intros c Hc; rewrite E; apply elem_of_app; by right).
  destruct (first_fit v) as [Fv|(s1 & c & s2 & -> & F1 & F2)].
  2:{ left. exists (u ++ s1), c.1, c.2, s2. split; [rewrite E, <- app_assoc; by destruct c|]. split; [done|].
      rewrite E, !length_app. cbn [length]. replace (length u + (length s1 + S (length s2)) + S fuel)%nat with (length s1 + S (length u + S (length s2 + fuel)))%nat by lia.
      pose proof Hsv as [Hs1 _]%fseg_app.
      apply (loop_fit _ _ _ (h_ptr h c.1)); [apply fseg_app; split; [exact Hs1|done]|apply Hz, Vb, elem_of_app; right; ielem|done| |by rewrite last_of_join, <- Ef].
      apply sized; [intros d Hd; apply Vb; apply elem_of_app; by left|done|]. intros d Hd. specialize (Hv d ltac:(apply elem_of_app; by left)). lia. }
  assert (forall f, malloc_loop grants (length v + f) n (h_freep h) (h_ptr h (h_freep h)) h =
    malloc_loop grants f n (last_of (h_freep h, 0) v).1 base h) as Hskip.
  { intros f. rewrite (loop_skip v _ base) by (done || (apply sized; [done|done|intros d Hd; specialize (Hv d Hd); lia])).
    by rewrite (fseg_last _ _ _ _ 0 Hsv). }
  destruct u as [|c u' _] using rev_ind.
  - right. cbn [app] in E. rewrite E. split; [done|]. rewrite Hskip. cbn [malloc_loop].
    rewrite (ho_base _ _ _ _ H), (proj2 (Z.leb_gt _ _)), (proj2 (Z.eqb_eq base _)) by (done || lia || (symmetry; auto)). done.
  - destruct (Hu u' c eq_refl) as (Efc & Hfb & Hlt).
    assert (length bl + S fuel = length v + S (length u' + S fuel))%nat as -> by (rewrite E, !length_app; cbn; lia).
    rewrite Hskip. cbn [malloc_loop]. rewrite (ho_base _ _ _ _ H), (proj2 (Z.leb_gt _ _)), (proj2 (Z.eqb_neq base _)) by (done || lia).
    by apply (search_low u' c v).
Qed.

End search.

(** ** [malloc] *)

Definition core_units (n : Z) : Z := if n <? 4096 then 4096 else n.

Section malloc.
Context (grants : Z -> Z -> bool) (base : Z) (Hgrants : forall b k, grants b k = true -> b + k <= LIMIT).

(** Memory from the kernel becomes a free block. *)
Lemma morecore_ok h bl al n fuel (k := core_units n) : heap_ok base h bl al -> 1 <= n <= 0x7ffffff -> (length bl + 2 <= fuel)%nat ->
  if grants (h_brk h) (HDR * k) then
    exists h' bl', morecore grants fuel n h = Some (h_freep h', h') /\ heap_ok base h' bl' al /\ h_brk h' = h_brk h + HDR * k /\
      (forall x, covered bl' x <-> covered bl x \/ h_brk h <= x < h_brk h') /\ (length bl' <= S (length bl))%nat /\ exists c, c ∈ bl' /\ n <= c.2
  else morecore grants fuel n h = Some (0, h).
Proof.
  intros H Hn Hf. assert (n <= k /\ 1 <= k <= 0x7ffffff) as [Hk1 Hk2] by (unfold k, core_units; destruct (Z.ltb_spec n 4096); lia).
  pose proof (ho_pos _ _ _ _ H) as Hp. unfold morecore, sbrk. fold (core_units n). fold k.
  assert (s32 (k * HDR) = HDR * k) as Es by (unfold s32, HDR; rewrite Z.mod_small by lia; lia). rewrite Es.
  destruct (grants (h_brk h) (HDR * k)) eqn:Eg; [|done]. cbn [h_brk set_brk]. set (hp := h_brk h). set (h1 := set_size hp k _).
  assert (h_brk h1 = hp + HDR * k) as Eb by done. specialize (Hgrants _ _ Eg). fold hp in Hgrants.
  assert (forall x, x < hp -> h_size h1 x = h_size h x) as Hsz by (intros x Hx; cbn; by rewrite fupd_ne by lia).
  pose proof (ho_end _ _ _ _ H) as He. rewrite Forall_forall in He. pose proof (ho_live _ _ _ _ H) as Hv. rewrite Forall_forall in Hv.
  assert (heap_ok base h1 bl ((hp, k) :: al)) as H1.
  { apply heap_ok_intro; [apply H|apply H| | |apply H| |by rewrite Eb| | |].
    - pose proof (ho_size _ _ _ _ H) as Hz. rewrite Forall_forall in Hz |- *. intros c Hc. rewrite Hsz; [by apply Hz|].
      specialize (He c Hc). destruct (free_small _ _ _ _ H c Hc). unfold b_end, HDR in *. fold hp in He. lia.
    - rewrite Hsz; [apply H|]. unfold hp. lia.
    - rewrite Eb. unfold HDR. fold hp in Hp. lia.
    - constructor; [rewrite Eb; cbn [fst snd]; split; [cbn; apply fupd_eq|]; unfold b_end, HDR; cbn; fold hp in Hp; lia|].
      apply Forall_forall. intros c Hc. destruct (Hv c Hc) as (V1 & V2 & V3 & V4). rewrite Eb. fold hp in V4. unfold b_end, HDR in *.
      split; [|lia]. rewrite Hsz; [done|lia].
    - cbn [pairwise]. split; [|apply H]. apply Forall_forall. intros c Hc. destruct (Hv c Hc) as (_ & _ & _ & V4). right. done.
    - intros x Hx. pose proof (free_below _ _ _ _ H x Hx) as Hxb. rewrite Eb. split; [unfold HDR; fold hp in Hxb; lia|].
      rewrite covered_cons. intros [Hb|Hb]; [unfold in_blk in Hb; cbn in Hb; fold hp in Hxb; lia|]. by apply (free_not_live _ _ _ _ H x Hx). }
  destruct (free_ok base h1 bl al hp k fuel H1 Hf) as (h' & bl' & -> & H2 & H3 & H4 & c & Hc & Hck & Hlen).
  exists h', bl'. split; [done|]. split; [done|]. rewrite H4, Eb. split; [done|]. split; [done|]. split; [done|]. exists c. split; [done|lia].
Qed.

Lemma malloc_loop_ok h bl al n fuel (k := core_units n) : heap_ok base h bl al -> 1 <= n <= 0x7ffffff -> (2 * length bl + 5 <= fuel)%nat ->
  (grants (h_brk h) (HDR * k) = false /\ malloc_loop grants fuel n (h_freep h) (h_ptr h (h_freep h)) h = Some (0, h)) \/
  exists q h' bl', malloc_loop grants fuel n (h_freep h) (h_ptr h (h_freep h)) h = Some (q + HDR, h') /\ heap_ok base h' bl' ((q, n) :: al) /\
    (forall x, covered bl x \/ h_brk h <= x < h_brk h' <-> covered bl' x \/ in_blk (q, n) x).
Proof.
  intros H Hn Hf. replace fuel with (length bl + S (fuel - length bl - 1))%nat by lia. set (f := (fuel - length bl - 1)%nat).
  destruct (search grants base h bl al n H ltac:(lia) f) as [(l & p & j & r & E & Hj & ->)|(Hsmall & ->)].
  - right. rewrite E in H |- *. destruct (carve_ok base h l r p j n al H ltac:(lia)) as (h' & bl' & -> & H1 & H2 & H3).
    eexists _, h', bl'. split; [reflexivity|]. split; [done|]. intros x. rewrite <- H2, H3. intuition lia.
  - unfold grown. pose proof (morecore_ok h bl al n f H Hn ltac:(lia)) as Hm. fold k in Hm. destruct (grants (h_brk h) (HDR * k)) eqn:Eg.
    2:{ left. split; [done|]. by rewrite Hm. }
    destruct Hm as (h1 & bl1 & -> & H1 & Hb & Hcov & Hlen & c & Hc & Hcn).
    assert ((h_freep h1 =? 0) = false) as ->.
    { apply Z.eqb_neq. pose proof (ho_pos _ _ _ _ H1). destruct (ho_freep _ _ _ _ H1) as [->|(d & -> & Hd)%list_elem_of_fmap]; [lia|].
      destruct (free_small _ _ _ _ H1 d Hd). lia. }
    replace f with (length bl1 + S (f - length bl1 - 1))%nat by lia.
    destruct (search grants base h1 bl1 al n H1 ltac:(lia) (f - length bl1 - 1)%nat) as [(l & p & j & r & E & Hj & ->)|(Hs & _)].
    + right. rewrite E in H1. destruct (carve_ok base h1 l r p j n al H1 ltac:(lia)) as (h' & bl' & -> & H2 & H3 & H4).
      eexists _, h', bl'. split; [reflexivity|]. split; [done|]. intros x. rewrite H4, <- H3, <- E, Hcov. done.
    + rewrite Forall_forall in Hs. specialize (Hs c Hc). lia.
Qed.

End malloc.

(** Before the first call of [malloc] there is no list. *)
Definition ready (base : Z) (h : heap) (bl al : blocks) : Prop :=
  if decide (h_freep h = 0) then bl = [] /\ al = [] /\ 0 < base < h_brk h /\ h_brk h <= LIMIT else heap_ok base h bl al.

Lemma heap_ok_ready base h bl al : heap_ok base h bl al -> ready base h bl al.
Proof.
  intros H. unfold ready. rewrite decide_False; [done|]. pose proof (ho_pos _ _ _ _ H).
  destruct (ho_freep _ _ _ _ H) as [->|(d & -> & Hd)%list_elem_of_fmap]; [lia|]. destruct (free_small _ _ _ _ H d Hd). lia.
Qed.

Lemma pairwise_perm l l' : l ≡ₚ l' -> pairwise l -> pairwise l'.
Proof.
  assert (forall b c, disj b c -> disj c b) as Hsym by (unfold disj; tauto).
  induction 1 as [|b l l' Hp IH|b c l|l l' l'' _ IH1 _ IH2]; cbn [pairwise]; [done| | |auto].
  - intros [H1 H2]. split; [by rewrite <- Hp|auto].
  - rewrite !Forall_cons. intros [[H1 H2] [H3 H4]]. split; [split; [by apply Hsym|done]|done].
Qed.

Lemma heap_ok_perm base h bl al al' : al ≡ₚ al' -> heap_ok base h bl al -> heap_ok base h bl al'.
Proof. intros Hp []. split; try done; [by rewrite <- Hp|by eapply pairwise_perm|]. intros b c Hb. apply ho_disj0. by rewrite Hp. Qed.

(** C33. [malloc] terminates and either fails, because the kernel refused more
    memory and with the heap as it was, or returns a block with room for
    [nbytes], which does not overlap any block handed out before; exactly its
    bytes leave the free memory, and memory the kernel granted is the only
    addition. *)
Theorem malloc_correct grants base h bl al nbytes fuel (n := nunits nbytes) :
  (forall b k, grants b k = true -> b + k <= LIMIT) -> ready base h bl al -> 0 <= nbytes <= 0x7fffffe0 -> (2 * length bl + 5 <= fuel)%nat ->
  exists p h', malloc base grants fuel nbytes h = Some (p, h') /\
    ((p = 0 /\ ready base h' bl al /\ grants (h_brk h) (HDR * core_units n) = false) \/
     exists bl', heap_ok base h' bl' ((p - HDR, n) :: al) /\ p + nbytes <= b_end (p - HDR, n) /\
       (forall x, covered bl x \/ h_brk h <= x < h_brk h' <-> covered bl' x \/ in_blk (p - HDR, n) x)).
Proof.
  intros Hg Hr Hb Hf. assert (n = (nbytes + 15) / 16 + 1) as En.
  { unfold n, nunits, HDR. replace (nbytes + 16 - 1) with (nbytes + 15) by lia. apply u32_small. zlia. }
  assert (1 <= n <= 0x7ffffff /\ nbytes <= 16 * (n - 1)) as [Hn Hroom] by zlia.
  set (h0 := if h_freep h =? 0 then set_size base 0 (set_freep base (set_ptr base base h)) else h).
  assert (heap_ok base h0 bl al /\ h_brk h0 = h_brk h) as [H0 Eb].
  { unfold ready in Hr. unfold h0. destruct (Z.eqb_spec (h_freep h) 0) as [E|E]; case_decide; try done.
    destruct Hr as (-> & -> & Hp & Hl). split; [|done].
    apply heap_ok_intro; cbn; rewrite ?fupd_eq; try done; [by left|]. by intros x ?%covered_nil. }
  unfold malloc. fold n. fold h0. destruct (malloc_loop_ok grants base Hg h0 bl al n fuel H0 Hn Hf) as [[Hno ->]|(q & h' & bl' & -> & H1 & H2)].
  - exists 0, h0. split; [done|]. left. split; [done|]. split; [by apply heap_ok_ready|]. by rewrite <- Eb.
  - exists (q + HDR), h'. split; [done|]. right. exists bl'. replace (q + HDR - HDR) with q by lia. split; [done|].
    split; [unfold b_end, HDR; cbn; lia|]. by rewrite <- Eb.
Qed.

(** C34. [free] of a block handed out by [malloc] terminates; the block's
    bytes, and no others, become free, the other blocks handed out stay, and
    the list stays sorted with touching blocks joined. *)
Theorem free_correct base h bl al b al' fuel : heap_ok base h bl al -> al ≡ₚ b :: al' -> (length bl + 2 <= fuel)%nat ->
  exists h' bl', free fuel (b.1 + HDR) h = Some h' /\ heap_ok base h' bl' al' /\
    (forall x, covered bl' x <-> covered bl x \/ in_blk b x) /\ h_brk h' = h_brk h.
Proof.
  intros H Hp Hf. destruct b as [bp n]. apply (heap_ok_perm _ _ _ _ _ Hp) in H.
  destruct (free_ok base h bl al' bp n fuel H Hf) as (h' & bl' & H1 & H2 & H3 & H4 & _). by exists h', bl'.
Qed.

(** A request whose size in bytes does not fit an [int] gets a block that is
    not there: [sbrk] is asked for 16 bytes and [malloc] returns the break. *)
Theorem malloc_wraps (h0 := mkHeap (fun _ => 0) (fun _ => 0) 0 0x4000) :
  exists p h', malloc 0x3000 (fun _ _ => true) 8 0xffffffff h0 = Some (p, h') /\ p = h_brk h' /\ h_brk h' = h_brk h0 + 16.
Proof. eexists _, _. split; [vm_compute; reflexivity|]. done. Qed.

(** ** A first allocation *)

Definition no_heap : heap := mkHeap (fun _ => 0) (fun _ => 0) 0 0x4000.

Lemma malloc_correct_witness : exists p h' bl', malloc 0x3000 (fun b k => b + k <=? LIMIT) 5 100 no_heap = Some (p, h') /\
  heap_ok 0x3000 h' bl' [(p - HDR, 8)].
Proof.
  destruct (malloc_correct (fun b k => b + k <=? LIMIT) 0x3000 no_heap [] [] 100 5) as (p & h' & E & [(_ & _ & Hg)|(bl' & H & _)]).
  - intros b k H. by apply Z.leb_le.
  - unfold ready. by rewrite decide_True.
  - lia.
  - cbn. lia.
  - done.
  - exists p, h', bl'. exact (conj E H).
Defined.

(** Two blocks handed out after a free one. *)
Definition two_out : heap :=
  mkHeap (fun a => if a =? 0x3000 then 0x4000 else 0x3000) (fun a => if a =? 0x4000 then 10 else if a =? 0x40a0 then 4 else if a =? 0x40e0 then 2 else 0) 0x3000 0x4100.

Lemma two_out_ok : heap_ok 0x3000 two_out [(0x4000, 10)] [(0x40a0, 4); (0x40e0, 2)].
Proof.
  apply heap_ok_intro; [done|done|by repeat constructor|done|by left|done|done| | |].
  - repeat (apply Forall_cons_2; [done|]). constructor.
  - cbn. split; [|done]. apply Forall_cons_2; [|constructor]. left. done.
  - intros x [Hx|?%covered_nil]%covered_cons; [|done]. rewrite !covered_cons, covered_nil. unfold in_blk, b_end, HDR in *. cbn in *. lia.
Qed.

Lemma free_correct_witness : exists h' bl', free 3 0x40b0 two_out = Some h' /\ heap_ok 0x3000 h' bl' [(0x40e0, 2)].
Proof.
  destruct (free_correct 0x3000 two_out [(0x4000, 10)] [(0x40a0, 4); (0x40e0, 2)] (0x40a0, 4) [(0x40e0, 2)] 3 two_out_ok) as (h' & bl' & E & H & _);
    [done|cbn; lia|]. exists h', bl'. exact (conj E H).
Defined.
