(* ===== verification/Ulib.v ===== *)
(** * System calls and library of user programs (user/user.h, user/printf.c,
    user/ulib.c)

    A user program is an interaction tree: a possibly infinite computation
    whose events are system calls.  What the kernel answers is left to the
    interpretation of the events.

    Of user/ulib.c, the string functions are over byte memory as those of the
    kernel are; [atoi] reads a C string; the calls that wrap system calls are
    programs.  [char] is unsigned on this machine.  The loops over a C string
    have no bound in the source: [fuel] is ours, and the lemmas say how much
    is enough. *)

From ITree Require Import ITree.
From S2P Require Import Prelude Riscv Mem CString KState Fs Printf Syscall.

(** [None] is the answer -1 of a call that otherwise returns data.  [Exit] has
    no answer; [Exec] has one only when it fails.  [Wait] answers the process
    and its status, which [wait(0)] ignores.  [Memstats] answers the counters.

    A program that computes addresses can also make an access of [n] bytes to
    its memory, and pass an address as the buffer or string of a call: the
    last events.  (A string is given as its bytes or as its address.) *)
Inductive sysE : Type -> Type :=
  | Fork : sysE Z
  | Exit (status : Z) : sysE void
  | Wait : sysE (Z * Z)
  | Pipe : sysE (option (Z * Z))
  | Write (fd : Z) (bs : list Z) : sysE Z
  | Read (fd n : Z) : sysE (option (list Z))
  | Close (fd : Z) : sysE Z
  | Kill (pid : Z) : sysE Z
  | Exec (path : list Z) (argv : list (list Z)) : sysE Z
  | Open (path : list Z) (mode : Z) : sysE Z
  | Mknod (path : list Z) (major minor : Z) : sysE Z
  | Unlink (path : list Z) : sysE Z
  | Fstat (fd : Z) : sysE (option stat)
  | Link (old new : list Z) : sysE Z
  | Mkdir (path : list Z) : sysE Z
  | Chdir (path : list Z) : sysE Z
  | Dup (fd : Z) : sysE Z
  | Getpid : sysE Z
  | Sbrk (n : Z) (how : Z) : sysE Z
  | Pause (n : Z) : sysE Z
  | Uptime : sysE Z
  | Memstats : sysE (option (list Z))
  | Load (n a : Z) : sysE Z
  | Store (n a v : Z) : sysE unit
  | WriteAt (fd a n : Z) : sysE Z
  | ReadAt (fd a n : Z) : sysE Z
  | OpenAt (path mode : Z) : sysE Z
  | UnlinkAt (path : Z) : sysE Z
  | LinkAt (old new : list Z + Z) : sysE Z
  | ExecAt (path : list Z + Z) (argv : list (list Z + Z)) : sysE Z
  | PipeAt (a : Z) : sysE Z.

Declare Scope prog_scope.
Delimit Scope prog_scope with prog.
Notation "x <- c ;; k" := (ITree.bind c (fun x => k)) (at level 100, c at next level, right associativity) : prog_scope.
Notation "c ;; k" := (ITree.bind c (fun _ => k)) (at level 100, right associativity) : prog_scope.
#[local] Open Scope prog_scope.

Definition prog : Type -> Type := itree sysE.

Definition sys {A} (e : sysE A) : prog A := ITree.trigger e.

Definition exit {A} (status : Z) : prog A := v <- sys (Exit status) ;; match v : void with end.

(** The bytes of a string literal. *)
Definition str (s : string) : list Z := map (fun a => Z.of_N (Strings.Ascii.N_of_ascii a)) (Strings.String.list_ascii_of_string s).

(** A literal that ends with a line feed. *)
Definition strn (s : string) : list Z := str s ++ [10].

(** ** user/printf.c: the output *)

(** [c] is a [char]. *)
Definition putc (fd c : Z) : prog unit := sys (Write fd [u8 c]) ;; Ret tt.

(** The characters of [vprintf], one [write] each. *)
Fixpoint put_all (fd : Z) (cs : list Z) : prog unit :=
  match cs with
  | [] => Ret tt
  | c :: cs => putc fd c ;; put_all fd cs
  end.

Definition fprintf (fd : Z) (fmt : list Z) (args : list arg) : prog unit := put_all fd (vprintf udigits fmt args).
Definition printf (fmt : list Z) (args : list arg) : prog unit := fprintf 1 fmt args.

(** ** Strings in memory *)

(** [while(( *s++ = *t++) != 0);] *)
Fixpoint strcpy (fuel : nat) (m : mem) (s t : Z) : option mem :=
  match fuel with
  | O => None
  | S fuel =>
      let c := load8 m t in
      let m := store8 m s c in
      if negb (c =? 0) then strcpy fuel m (s + 1) (t + 1) else Some m
  end.

(** [while( *p && *p == *q) p++, q++;] *)
Fixpoint strcmp (fuel : nat) (m : mem) (p q : Z) : option Z :=
  match fuel with
  | O => None
  | S fuel =>
      if negb (load8 m p =? 0) && (load8 m p =? load8 m q) then strcmp fuel m (p + 1) (q + 1)
      else Some (load8 m p - load8 m q)
  end.

(** [for(n = 0; s[n]; n++);] with [n] an [int], returned as a [uint]. *)
Fixpoint strlen_from (fuel : nat) (m : mem) (s n : Z) : option Z :=
  match fuel with
  | O => None
  | S fuel => if negb (load8 m (s + n) =? 0) then strlen_from fuel m s (s32 (n + 1)) else Some (u32 n)
  end.
Definition strlen (fuel : nat) (m : mem) (s : Z) : option Z := strlen_from fuel m s 0.

(** [for(i = 0; i < n; i++) cdst[i] = c;] with [i] an [int] and [n] a [uint]. *)
Definition memset (m : mem) (dst c n : Z) : option mem := memset_loop (S (Z.to_nat n)) m dst c 0 n.

(** [for(; *s; s++) if( *s == c) return s;]: the address, or 0. *)
Fixpoint strchr (fuel : nat) (m : mem) (s c : Z) : option Z :=
  match fuel with
  | O => None
  | S fuel =>
      if load8 m s =? 0 then Some 0
      else if load8 m s =? c then Some s
      else strchr fuel m (s + 1) c
  end.

(** [memmove]: the copying loops are those of kernel/string.c, but which one
    runs is decided by the order of the pointers alone. *)
Definition memmove (m : mem) (vdst vsrc n : Z) : option mem :=
  if vsrc >? vdst then memmove_up (S (Z.to_nat n)) m vdst vsrc n
  else memmove_down (S (Z.to_nat n)) m (vdst + n) (vsrc + n) n.

(** [memcmp], whose loop is that of kernel/string.c. *)
Definition memcmp (m : mem) (s1 s2 n : Z) : option Z := memcmp_loop (S (Z.to_nat n)) m s1 s2 n.

Definition memcpy (m : mem) (dst src n : Z) : option mem := memmove m dst src n.

(** [atoi] of a C string; [n] is an [int]. *)
Fixpoint atoi_from (n : Z) (s : list Z) : Z :=
  match s with
  | c :: s => if (48 <=? c) && (c <=? 57) then atoi_from (s32 (n * 10 + c - 48)) s else n
  | [] => n
  end.
Definition atoi (s : list Z) : Z := atoi_from 0 s.

(** ** Programs *)

#[local] Open Scope prog_scope.

(** [start]: the entry point of a program, given its [main]. *)
Definition start (main : prog Z) : prog void := r <- main ;; exit r.

(** [gets]: at most [max - 1] bytes, up to the end of the line. *)
Definition gets (max : Z) : prog (list Z) :=
  ITree.iter (fun buf : list Z =>
    if Z.of_nat (length buf) + 1 <? max then
      r <- sys (Read 0 1) ;;
      match r with
      | Some (c :: _) => if (c =? 10) || (c =? 13) then Ret (inr (buf ++ [c])) else Ret (inl (buf ++ [c]))
      | _ => Ret (inr buf)
      end
    else Ret (inr buf)) [].

Definition stat (n : list Z) : prog (option Fs.stat) :=
  fd <- sys (Open n O_RDONLY) ;;
  if fd <? 0 then Ret None else
  r <- sys (Fstat fd) ;;
  sys (Close fd) ;;
  Ret r.

Definition SBRK_LAZY : Z := 2.
Definition sbrk (n : Z) : prog Z := sys (Sbrk n SBRK_EAGER).
Definition sbrklazy (n : Z) : prog Z := sys (Sbrk n SBRK_LAZY).
Definition SBRK_ERROR : Z := 0xffffffffffffffff.

(** ** Loops of programs *)

(** [for(x = a; x < b; x += d)]: the values of [x]. *)
Definition range (a b d : Z) : list Z := map (fun k => a + d * Z.of_nat k) (seq 0 (Z.to_nat ((b - a + d - 1) / d))).

Fixpoint each {A} (l : list A) (body : A -> prog unit) : prog unit :=
  match l with
  | [] => Ret tt
  | x :: l => body x ;; each l body
  end.

(** The same with a state, and with a state and [break] ([inr]). *)
Fixpoint fold {A S} (l : list A) (body : A -> S -> prog S) (s : S) : prog S :=
  match l with
  | [] => Ret s
  | x :: l => s <- body x s ;; fold l body s
  end.

Fixpoint fold_break {A S} (l : list A) (body : A -> S -> prog (S + S)) (s : S) : prog S :=
  match l with
  | [] => Ret s
  | x :: l => r <- body x s ;; match r with inl s => fold_break l body s | inr s => Ret s end
  end.

Definition only (b : bool) (t : prog unit) : prog unit := if b then t else Ret tt.

Definition forever {A} (t : prog unit) : prog A := ITree.iter (fun _ : unit => t ;; Ret (inl tt)) tt.

(** ** The string functions compute the bulk operations *)

Section strings.
Context (m : mem).

(** The areas may overlap. *)
Lemma memmove_user dst src n : 0 <= n -> exists m', memmove m dst src n = Some m' /\ bytes_eq m' (mem_copy m dst src n).
Proof.
  intros Hn. unfold memmove. rewrite Z.gtb_ltb. destruct (Z.ltb_spec dst src).
  - apply memmove_up_correct; lia.
  - apply memmove_down_correct; lia.
Qed.

(** A string of length [k] at [s]. *)
Definition string_at (s k : Z) : Prop := load8 m (s + k) = 0 /\ forall i, 0 <= i < k -> load8 m (s + i) <> 0.

Lemma string_step s k : 0 <= k -> string_at s k ->
  (k = 0 /\ load8 m s = 0) \/ (0 < k /\ load8 m s <> 0 /\ string_at (s + 1) (k - 1)).
Proof.
  intros Hk [H0 Hne]. destruct (decide (k = 0)) as [->|]; [left; by rewrite Z.add_0_r in H0|right].
  repeat split; [lia| |by replace (s + 1 + (k - 1)) with (s + k) by lia|].
  - rewrite <- (Z.add_0_r s). apply Hne. lia.
  - intros i Hi. replace (s + 1 + i) with (s + (i + 1)) by lia. apply Hne. lia.
Qed.

Lemma strlen_from_run fuel s n k : 0 <= n <= k -> k < 0x80000000 -> string_at s k -> (Z.to_nat (k - n) < fuel)%nat -> strlen_from fuel m s n = Some k.
Proof.
  intros Hn Hk Hs. revert n Hn. induction fuel as [|fuel IH]; intros n Hn Hf; [lia|]. cbn [strlen_from].
  destruct Hs as [H0 Hne]. destruct (decide (n = k)) as [->|]; [rewrite H0; cbn; by rewrite u32_small by lia|].
  rewrite (proj2 (Z.eqb_neq _ _) (Hne n ltac:(lia))). cbn. rewrite s32_small by lia. apply IH; lia.
Qed.

Lemma strcmp_run fuel p q k l : 0 <= k -> 0 <= l -> string_at p k -> string_at q l -> (Z.to_nat k < fuel)%nat ->
  exists r, strcmp fuel m p q = Some r /\ (r = 0 <-> k = l /\ forall i, 0 <= i < k -> load8 m (p + i) = load8 m (q + i)).
Proof.
  revert p q k l. induction fuel as [|fuel IH]; intros p q k l Hk Hl Hp Hq Hf; [lia|]. cbn [strcmp].
  destruct (string_step p k Hk Hp) as [[-> E]|(H1 & E & Hp')].
  { rewrite E. cbn [Z.eqb negb andb]. eexists. split; [done|]. destruct (string_step q l Hl Hq) as [[-> E']|(H1 & E' & Hq')]; [rewrite E'|].
    - split; [|done]. intros _. split; [done|]. lia.
    - split; [lia|]. intros [? _]. lia. }
  rewrite (proj2 (Z.eqb_neq _ _) E). cbn. destruct (Z.eqb_spec (load8 m p) (load8 m q)) as [E2|E2].
  - destruct (string_step q l Hl Hq) as [[-> E']|(H2 & E' & Hq')]; [congruence|].
    destruct (IH (p + 1) (q + 1) (k - 1) (l - 1)) as (r & -> & Hr); [lia|lia|done|done|lia|]. exists r. split; [done|]. rewrite Hr. split.
    + intros [H3 H4]. split; [lia|]. intros i Hi. destruct (decide (i = 0)) as [->|]; [by rewrite !Z.add_0_r|].
      specialize (H4 (i - 1) ltac:(lia)). replace (p + i) with (p + 1 + (i - 1)) by lia. by replace (q + i) with (q + 1 + (i - 1)) by lia.
    + intros [-> H4]. split; [done|]. intros i Hi. specialize (H4 (i + 1) ltac:(lia)). replace (p + 1 + i) with (p + (i + 1)) by lia. by replace (q + 1 + i) with (q + (i + 1)) by lia.
  - eexists. split; [done|]. split; [lia|]. intros [-> H4]. specialize (H4 0 ltac:(lia)). rewrite !Z.add_0_r in H4. done.
Qed.

(** The first occurrence, or 0. *)
Lemma strchr_run fuel s c k : 0 <= k -> string_at s k -> (Z.to_nat k < fuel)%nat ->
  exists r, strchr fuel m s c = Some r /\
    ((r = 0 /\ forall i, 0 <= i < k -> load8 m (s + i) <> c) \/
     (s <= r < s + k /\ load8 m r = c /\ forall x, s <= x < r -> load8 m x <> c)).
Proof.
  revert s k. induction fuel as [|fuel IH]; intros s k Hk Hs Hf; [lia|]. cbn [strchr].
  destruct (string_step s k Hk Hs) as [[-> E]|(H1 & E & Hs')].
  { rewrite E. cbn. exists 0. split; [done|]. left. split; [done|]. lia. }
  rewrite (proj2 (Z.eqb_neq _ _) E). destruct (Z.eqb_spec (load8 m s) c) as [E2|E2].
  { exists s. split; [done|]. right. repeat split; [lia|lia|done|lia]. }
  destruct (IH (s + 1) (k - 1)) as (r & -> & [[-> Hr]|(Hr & Er & Hm)]); [lia|done|lia|..]; eexists; (split; [done|]).
  - left. split; [done|]. intros i Hi. destruct (decide (i = 0)) as [->|]; [by rewrite Z.add_0_r|].
    replace (s + i) with (s + 1 + (i - 1)) by lia. apply Hr. lia.
  - right. repeat split; [lia|lia|done|]. intros x Hx. destruct (decide (x = s)) as [->|]; [done|]. apply Hm. lia.
Qed.

End strings.

(** The string and its NUL, into an area that does not overlap it. *)
Lemma strcpy_run fuel m s t k : 0 <= k -> string_at m t k -> (s + k < t \/ t + k < s) -> (Z.to_nat k < fuel)%nat ->
  exists m', strcpy fuel m s t = Some m' /\ bytes_eq m' (mem_copy m s t (k + 1)).
Proof.
  revert m s t k. induction fuel as [|fuel IH]; intros m s t k Hk Ht Hd Hf; [lia|]. cbn [strcpy].
  destruct (string_step m t k Hk Ht) as [[-> E]|(H1 & E & [H0 Hne])].
  { rewrite E. cbn [Z.eqb negb]. eexists. split; [done|]. intros x. rewrite load8_copy. range_cases.
    - assert (x = s) as -> by lia. rewrite load8_store8, Z.sub_diag, Z.add_0_r, E. done.
    - by rewrite load8_store8_ne by lia. }
  rewrite (proj2 (Z.eqb_neq _ _) E). cbn [negb].
  destruct (IH (store8 m s (load8 m t)) (s + 1) (t + 1) (k - 1)) as (m' & -> & Hm'); [lia| |lia|lia|].
  { split; [by rewrite load8_store8_ne by lia|]. intros i Hi. rewrite load8_store8_ne by lia. by apply Hne. }
  exists m'. split; [done|]. intros x. rewrite Hm', !load8_copy. range_cases.
  - rewrite load8_store8_ne by lia. f_equal. lia.
  - assert (x = s) as -> by lia. rewrite load8_store8, u8_load8. f_equal. lia.
  - by rewrite load8_store8_ne by lia.
Qed.

(** ** [atoi] *)

Definition is_digit (c : Z) : Prop := 48 <= c <= 57.

Lemma print_digits_decimal fuel x : 0 <= x -> Forall is_digit (print_digits udigits fuel x 10).
Proof.
  revert x. induction fuel as [|fuel IH]; intros x Hx; [done|]. cbn [print_digits]. constructor.
  - pose proof (Z.mod_pos_bound x 10 ltac:(lia)). unfold is_digit, udigits. rewrite (proj2 (Z.ltb_lt _ _)) by lia. lia.
  - case_match; [done|]. apply IH, Z.div_pos; lia.
Qed.

Lemma digits_ge l n : Forall is_digit l -> 0 <= n -> n <= fold_left (fun n c => n * 10 + dval c) l n.
Proof.
  intros H. revert n. induction H as [|c l Hc H IH]; intros n Hn; [done|]. cbn [fold_left].
  assert (dval c = c - 48) as -> by (unfold dval, is_digit in *; rewrite (proj2 (Z.ltb_lt _ _)) by lia; done).
  unfold is_digit in Hc. etransitivity; [|apply IH; lia]. lia.
Qed.

Lemma atoi_from_val l n : Forall is_digit l -> 0 <= n -> fold_left (fun n c => n * 10 + dval c) l n < 0x80000000 ->
  atoi_from n l = fold_left (fun n c => n * 10 + dval c) l n.
Proof.
  intros H. revert n. induction H as [|c l Hc H IH]; intros n Hn Hb; [done|]. cbn [fold_left atoi_from] in *.
  assert (dval c = c - 48) as E by (unfold dval, is_digit in *; rewrite (proj2 (Z.ltb_lt _ _)) by lia; done). rewrite E in *.
  unfold is_digit in Hc. pose proof (digits_ge l (n * 10 + (c - 48)) H ltac:(lia)).
  rewrite (proj2 (Z.leb_le 48 c)), (proj2 (Z.leb_le c 57)) by lia. cbn [andb]. rewrite s32_small by lia.
  replace (n * 10 + c - 48) with (n * 10 + (c - 48)) by lia. apply IH; lia.
Qed.

Lemma printf_decimal n : 0 <= n < 0x80000000 -> vprintf udigits (str "%d") [Num n] = rev (print_digits udigits 64 n 10).
Proof.
  intros Hn. change (vprintf udigits (str "%d") [Num n]) with (printint udigits (s32 n) 10 true ++ []).
  rewrite app_nil_r, s32_small by lia. unfold printint. rewrite (proj2 (Z.ltb_ge n 0)) by lia. cbn [andb].
  by rewrite app_nil_r, u64_small by lia.
Qed.

(** What [printf] prints for a number that is not negative, [atoi] reads
    back: [kill] finds the process whose number another program printed. *)
Theorem atoi_printf (n : Z) : 0 <= n < 0x80000000 -> atoi (vprintf udigits (str "%d") [Num n]) = n.
Proof.
  intros Hn. rewrite printf_decimal by done.
  assert (digits_val 10 (rev (print_digits udigits 64 n 10)) = n) as E.
  { apply print_digits_val; [apply _|lia|]. assert (0x80000000 <= 10 ^ Z.of_nat 64) by (by vm_compute). lia. }
  unfold atoi. rewrite atoi_from_val; [exact E|apply Forall_rev, print_digits_decimal; lia|done|].
  unfold digits_val in E. lia.
Qed.
