(* ===== verification/Sh.v ===== *)
(** * The shell's command parser (user/sh.c)

    The command line is a list of bytes, a [char*] into it an offset; the NUL
    at its end is what [at_] reads there.  The parser threads the offset [*ps]
    through a state monad; [panic] ends it.  A parsed command holds the ends
    of its strings as pairs of offsets (q, eq), and [nulterminate] stores a
    NUL at each eq, after which every q is a C string.

    [cmd] is a type of trees over the type of strings: the structures malloc'd
    by [execcmd], [redircmd], [pipecmd], [listcmd] and [backcmd] (a [malloc]
    that fails is not modelled). *)

From S2P Require Import Prelude Grep Syscall.

Inductive cmd (W : Type) : Type :=
| EXEC (argv : list W)
| REDIR (c : cmd W) (file : W) (mode fd : Z)
| PIPE (left right : cmd W)
| LIST (left right : cmd W)
| BACK (c : cmd W).
Arguments EXEC {W}. Arguments REDIR {W}. Arguments PIPE {W}. Arguments LIST {W}. Arguments BACK {W}.

Definition MAXARGS : Z := 10.

(** [whitespace] and [symbols]; [strchr] finds no NUL in them. *)
Definition is_space (c : Z) : bool := bool_decide (c ∈ [32; 9; 13; 10; 11]).
Definition is_symbol (c : Z) : bool := bool_decide (c ∈ [60; 124; 62; 38; 59; 40; 41]).

(** The longest prefix of characters in a class. *)
Fixpoint span (f : Z -> bool) (l : list Z) : nat :=
  match l with
  | [] => 0
  | c :: l' => if f c then S (span f l') else 0
  end.

Abbreviation span_t := (nat * nat)%type.
Abbreviation P := (M nat).

Section Sh.
Context (b : list Z).

Definition at_ (s : nat) : Z := rchr (drop s b).

(** [while(s < es && strchr(whitespace, *s)) s++;] *)
Definition skip_space (s : nat) : nat := s + span is_space (drop s b).

(** The kind of the token, and its ends. *)
Definition gettoken : P (Z * span_t) := fun s =>
  let s := skip_space s in
  let q := s in
  let c := at_ s in
  let '(tok, s) :=
    if c =? 0 then (0, s)
    else if (c =? 124) || (c =? 40) || (c =? 41) || (c =? 59) || (c =? 38) || (c =? 60) then (c, S s)
    else if c =? 62 then (if at_ (S s) =? 62 then (43, S (S s)) else (c, S s))
    else (97, (s + span (fun c => negb (is_space c) && negb (is_symbol c)) (drop s b))%nat) in
  Ok (tok, (q, s)) (skip_space s).

Definition peek (toks : list Z) : P bool := fun s =>
  let s := skip_space s in
  Ok (negb (at_ s =? 0) && bool_decide (at_ s ∈ toks)) s.

Definition redir_of {W} (tok : Z) (c : cmd W) (w : W) : cmd W :=
  if tok =? 60 then REDIR c w O_RDONLY 0
  else if tok =? 62 then REDIR c w (Z.lor (Z.lor O_WRONLY O_CREATE) O_TRUNC) 1
  else if tok =? 43 then REDIR c w (Z.lor O_WRONLY O_CREATE) 1
  else c.

(** A round of [parseredirs]'s loop; every round reads two tokens. *)
Definition redir_round (c : cmd span_t) : P (cmd span_t + cmd span_t) :=
  more <- peek [60; 62] ;;
  if (more : bool) then
    t <- gettoken ;;
    w <- gettoken ;;
    if negb (fst w =? 97) then panic "missing file for redirection" else
    ret (inl (redir_of (fst t) c (snd w)))
  else ret (inr c).

Definition parseredirs (c : cmd span_t) : P (cmd span_t) := iter (S (length b)) redir_round c.

(** [cmd->argv[argc] = q; cmd->eargv[argc] = eq;] where [cmd] is the EXEC node
    at the bottom of the redirections read so far. *)
Fixpoint add_arg {W} (c : cmd W) (w : W) : cmd W :=
  match c with
  | EXEC argv => EXEC (argv ++ [w])
  | REDIR c f m d => REDIR (add_arg c w) f m d
  | _ => c
  end.

(** A round of [parseexec]'s loop, with [argc]; every round reads a word. *)
Definition arg_round (x : cmd span_t * Z) : P (cmd span_t * Z + cmd span_t) :=
  let '(c, argc) := x in
  stop <- peek [124; 41; 38; 59] ;;
  if (stop : bool) then ret (inr c) else
  t <- gettoken ;;
  if fst t =? 0 then ret (inr c) else
  if negb (fst t =? 97) then panic "syntax" else
  let c := add_arg c (snd t) in
  if argc + 1 >=? MAXARGS then panic "too many args" else
  c <- parseredirs c ;;
  ret (inl (c, argc + 1)).

Definition parseargs (c : cmd span_t) : P (cmd span_t) := iter (S (length b)) arg_round (c, 0).

(** [while(peek(ps, es, "&")) { gettoken(...); cmd = backcmd(cmd); }] *)
Definition back_round (c : cmd span_t) : P (cmd span_t + cmd span_t) :=
  more <- peek [38] ;;
  if (more : bool) then gettoken ;; ret (inl (BACK c)) else ret (inr c).

Definition parsebacks (c : cmd span_t) : P (cmd span_t) := iter (S (length b)) back_round c.

(** The fuel counts nested calls; a character is read between two calls of the
    same function, so the length of the line is enough. *)
Fixpoint parseline (fuel : nat) : P (cmd span_t) :=
  match fuel with
  | O => hang
  | S fuel =>
      c <- parsepipe fuel ;;
      c <- parsebacks c ;;
      more <- peek [59] ;;
      if (more : bool) then
        gettoken ;;
        r <- parseline fuel ;;
        ret (LIST c r)
      else ret c
  end
with parsepipe (fuel : nat) : P (cmd span_t) :=
  match fuel with
  | O => hang
  | S fuel =>
      c <- parseexec fuel ;;
      more <- peek [124] ;;
      if (more : bool) then
        gettoken ;;
        r <- parsepipe fuel ;;
        ret (PIPE c r)
      else ret c
  end
with parseexec (fuel : nat) : P (cmd span_t) :=
  match fuel with
  | O => hang
  | S fuel =>
      block <- peek [40] ;;
      if (block : bool) then parseblock fuel else
      c <- parseredirs (EXEC []) ;;
      parseargs c
  end
with parseblock (fuel : nat) : P (cmd span_t) :=
  match fuel with
  | O => hang
  | S fuel =>
      open <- peek [40] ;;
      if negb open then panic "parseblock" else
      gettoken ;;
      c <- parseline fuel ;;
      close <- peek [41] ;;
      if negb close then panic "syntax - missing )" else
      gettoken ;;
      parseredirs c
  end.

(** [*eargv[i] = 0] and [*efile = 0]: stores in the line. *)
Fixpoint nulterminate (c : cmd span_t) (buf : list Z) : list Z :=
  match c with
  | EXEC argv => foldl (fun buf w => <[snd w := 0]> buf) buf argv
  | REDIR c f _ _ => <[snd f := 0]> (nulterminate c buf)
  | PIPE l r | LIST l r => nulterminate r (nulterminate l buf)
  | BACK c => nulterminate c buf
  end.

(** The tree, and the line its strings point into; the message about the
    leftovers is not part of the state. *)
Definition parsecmd : P (cmd span_t * list Z) :=
  c <- parseline (4 * S (length b)) ;;
  peek [] ;;
  s <- get ;;
  if negb (s =? length b)%nat then panic "syntax" else
  ret (c, nulterminate c b).

End Sh.
