(* ===== verification/ShSpec.v ===== *)
(** * The shell's parser against its grammar

    A command line is spelled by a sequence of tokens with any white space
    around them; lines, pipelines and terms are the trees of the grammar, each
    with its tokens and the command it stands for.  [parsecmd] reads every
    spelling of every line as exactly that command, and after [nulterminate]
    the strings of the command are C strings in the line. *)

From S2P Require Import Prelude Grep Syscall Sh.

(** ** Tokens *)

Inductive token : Type := TSym (c : Z) | TApp | TWord (w : list Z).

Definition wordchar (c : Z) : bool := negb (c =? 0) && negb (is_space c) && negb (is_symbol c).

Definition text (t : token) : list Z := match t with TSym c => [c] | TApp => [62; 62] | TWord w => w end.
Definition code (t : token) : Z := match t with TSym c => c | TApp => 43 | TWord _ => 97 end.

Definition tok_ok (t : token) : Prop :=
  match t with TSym c => is_symbol c = true | TApp => True | TWord w => w <> [] /\ Forall (fun c => wordchar c = true) w end.

(** What may follow a token without being read as part of it. *)
Definition sep (t : token) (r : list Z) : Prop :=
  match t with TSym c => c = 62 -> rchr r <> 62 | TApp => True | TWord _ => wordchar (rchr r) = false end.

Inductive spelled : list token -> list Z -> Prop :=
| sp_nil ws : Forall (fun c => is_space c = true) ws -> spelled [] ws
| sp_tok ws t toks r : Forall (fun c => is_space c = true) ws -> tok_ok t -> sep t r -> spelled toks r ->
    spelled (t :: toks) (ws ++ text t ++ r).

Lemma span_stop f ws r : Forall (fun c => f c = true) ws -> (r = [] \/ f (rchr r) = false) -> span f (ws ++ r) = length ws.
Proof.
  induction 1 as [|c ws Hc H IH]; intros Hr; cbn.
  - destruct Hr as [->|Hr]; [done|]. destruct r as [|c r]; [done|]. cbn in *. by rewrite Hr.
  - by rewrite Hc, IH.
Qed.

Lemma tok_first t r : tok_ok t -> is_space (rchr (text t ++ r)) = false /\ rchr (text t ++ r) <> 0 /\ text t <> [].
Proof.
  destruct t as [c| |w]; cbn.
  - unfold is_symbol, is_space. rewrite bool_decide_eq_true, bool_decide_eq_false, !elem_of_cons, !elem_of_nil. intros H.
    split; [intros; lia|]. split; [lia|done].
  - done.
  - intros [Hw Hf]. destruct w as [|c w]; [done|]. apply Forall_cons in Hf as [Hc _]. cbn. unfold wordchar in Hc.
    apply andb_true_iff in Hc as [[H1%negb_true_iff H2%negb_true_iff]%andb_true_iff _]. split; [done|]. split; [by apply Z.eqb_neq|done].
Qed.

Lemma spelled_length toks l : spelled toks l -> (length toks <= length l)%nat.
Proof.
  induction 1 as [|ws t toks r _ Ht _ _ IH]; cbn; [lia|]. destruct (tok_first t r Ht) as (_ & _ & Hn).
  rewrite !length_app. destruct (text t); [done|]. cbn. lia.
Qed.

Lemma spelled_first toks c r : spelled toks (c :: r) -> c <> 0.
Proof.
  intros H. inversion H as [ws Hw E1 E2|ws t toks' r' Hw Ht _ _ E1 E2]; subst.
  - apply Forall_cons in Hw as [Hc _]. by intros ->.
  - destruct Hw as [|d ws Hd Hw]; cbn in E2.
    + destruct (tok_first t r' Ht) as (_ & Hn & _). rewrite E2 in Hn. done.
    + injection E2 as -> _. by intros ->.
Qed.

Section pos.
Context (b : list Z).

(** The parser is at offset [s] with the tokens [toks] to come. *)
Definition pos (toks : list token) (s : nat) : Prop := (s <= length b)%nat /\ spelled toks (drop s b).

Definition word_of (w : nat * nat) : list Z := take (w.2 - w.1) (drop w.1 b).

(** The ends of a word in the line. *)
Definition word_at (w : nat * nat) : Prop :=
  (w.1 <= w.2 <= length b)%nat /\ Forall (fun c => wordchar c = true) (word_of w) /\ wordchar (at_ b w.2) = false.

Lemma drop_at s l r : (s <= length b)%nat -> drop s b = l ++ r -> (s + length l <= length b)%nat /\ drop (s + length l) b = r.
Proof.
  intros Hs E. split.
  - apply (f_equal length) in E. rewrite length_drop, length_app in E. lia.
  - by rewrite <- drop_drop, E, drop_app_length.
Qed.

Lemma skip_pos toks s : pos toks s -> exists s', skip_space b s = s' /\ pos toks s' /\
  match toks with
  | [] => s' = length b
  | t :: toks' => exists r, drop s' b = text t ++ r /\ tok_ok t /\ sep t r /\ spelled toks' r
  end.
Proof.
  intros [Hs Hsp]. exists (skip_space b s). split; [done|]. unfold skip_space. inversion Hsp as [ws Hw E1 E2|ws t toks' r Hw Ht Hsep Hsp' E1 E2]; subst.
  - destruct (drop_at s (drop s b) [] Hs) as [H1 H2]; [by rewrite app_nil_r|].
    assert (span is_space (drop s b) = length (drop s b)) as -> by (rewrite <- (app_nil_r (drop s b)) at 1; by apply span_stop; [|left]).
    split; [split; [done|]|].
    + rewrite H2. constructor. constructor.
    + apply (f_equal length) in H2. rewrite length_drop in H2. cbn in H2. lia.
  - symmetry in E2. destruct (drop_at s ws _ Hs E2) as [H1 H2]. rewrite span_stop; [|done|right; by apply tok_first].
    rewrite H2. split; [|by exists r]. split; [done|]. rewrite H2. apply (sp_tok []); done.
Qed.

Lemma pos_end s : pos [] s -> s = length b -> at_ b s = 0.
Proof. intros _ ->. unfold at_. by rewrite drop_all. Qed.

(** [gettoken] reads the next token. *)
Lemma gettoken_run t toks s : pos (t :: toks) s ->
  exists w s', gettoken b s = Ok (code t, w) s' /\ pos toks s' /\ (forall u, t = TWord u -> word_of w = u /\ word_at w).
Proof.
  intros H. destruct (skip_pos _ _ H) as (s1 & E1 & [Hs1 _] & r & Er & Ht & Hsep & Hsp). unfold gettoken. rewrite E1.
  assert (forall n, n = length (text t) -> pos toks (skip_space b (s1 + n))) as Hafter.
  { intros n ->. destruct (drop_at s1 _ _ Hs1 Er) as [H1 H2]. destruct (skip_pos toks (s1 + length (text t))) as (s2 & <- & H3 & _); [|done].
    split; [done|]. by rewrite H2. }
  destruct (tok_first t r Ht) as (_ & Hnz & Hne). assert (at_ b s1 = rchr (text t ++ r)) as Ea by (unfold at_; by rewrite Er). rewrite Ea.
  rewrite (proj2 (Z.eqb_neq _ 0) Hnz). destruct t as [c| |w]; cbn [text app rchr hd code] in *.
  - assert (at_ b (S s1) = rchr r) as Ea1.
    { unfold at_. by rewrite <- Nat.add_1_r, <- drop_drop, Er. }
    unfold is_symbol in Ht. apply bool_decide_eq_true in Ht. eexists _, _. split; [|split; [|done]].
    + instantiate (1 := skip_space b (s1 + 1)). rewrite Nat.add_1_r. rewrite !elem_of_cons, elem_of_nil in Ht.
      destruct Ht as [->|[->|[->|[->|[->|[->|[->|[]]]]]]]]; try reflexivity. cbn. rewrite Ea1, (proj2 (Z.eqb_neq _ 62)) by (by apply Hsep). reflexivity.
    + by apply Hafter.
  - eexists _, _. split; [|split; [|done]].
    + cbn. assert (at_ b (S s1) = 62) as -> by (unfold at_; rewrite <- Nat.add_1_r, <- drop_drop, Er; done). reflexivity.
    + replace (S (S s1)) with (s1 + 2)%nat by lia. by apply Hafter.
  - destruct Ht as [Hw Hf]. assert (forall c, wordchar c = true <-> (negb (is_space c) && negb (is_symbol c)) = true /\ c <> 0) as Hwc.
    { intros c. unfold wordchar. rewrite <- andb_assoc, andb_true_iff, negb_true_iff, Z.eqb_neq. tauto. }
    rewrite Er, span_stop; [|eapply Forall_impl; [exact Hf|]; intros c Hc; by apply Hwc|].
    2:{ destruct r as [|c r]; [by left|]. right. cbn in *. apply not_true_is_false. intros Hc.
        assert (wordchar c = true); [|congruence]. apply Hwc. split; [done|]. by eapply spelled_first. }
    destruct (drop_at s1 w r Hs1 Er) as [H1 H2]. assert (word_of (s1, s1 + length w)%nat = w) as Ew.
    { unfold word_of. cbn [fst snd]. rewrite Er. replace (s1 + length w - s1)%nat with (length w) by lia. apply take_app_length. }
    assert (is_symbol (rchr (w ++ r)) = false /\ code (TWord w) = 97) as [Hsym _].
    { split; [|done]. destruct w as [|c w]; [done|]. apply Forall_cons in Hf as [Hc _]. cbn. apply Hwc in Hc as [Hc _]. by apply andb_true_iff in Hc as [_ ?%negb_true_iff]. }
    unfold is_symbol in Hsym. apply bool_decide_eq_false in Hsym. rewrite !elem_of_cons, elem_of_nil in Hsym.
    rewrite !(proj2 (Z.eqb_neq (rchr (w ++ r)) _)) by (intros E; apply Hsym; rewrite E; tauto). cbn [orb].
    eexists _, _. split; [reflexivity|]. split; [by apply Hafter|]. intros u [= <-]. split; [done|]. split; [cbn; lia|]. rewrite Ew. split; [done|].
    cbn [snd]. unfold at_. by rewrite H2.
Qed.

Lemma gettoken_end s : pos [] s -> exists w s', gettoken b s = Ok (0, w) s' /\ pos [] s'.
Proof.
  intros H. destruct (skip_pos _ _ H) as (s1 & E1 & H1 & E). unfold gettoken. rewrite E1, (pos_end s1 H1 E). cbn.
  eexists _, _. split; [reflexivity|]. by destruct (skip_pos _ _ H1) as (s2 & -> & H2 & _).
Qed.

(** Is the next token one that starts with a character of [set]? *)
Definition peeks (set : list Z) (toks : list token) : bool :=
  match toks with [] => false | t :: _ => bool_decide (rchr (text t) ∈ set) end.

Lemma peek_run set toks s : pos toks s -> exists s', peek b set s = Ok (peeks set toks) s' /\ pos toks s'.
Proof.
  intros H. destruct (skip_pos _ _ H) as (s1 & E1 & H1 & Hm). unfold peek. rewrite E1. exists s1. split; [|done].
  destruct toks as [|t toks].
  - by rewrite (pos_end s1 H1 Hm).
  - destruct Hm as (r & Er & Ht & _). destruct (tok_first t r Ht) as (_ & Hn & Hne).
    assert (at_ b s1 = rchr (text t ++ r)) as -> by (unfold at_; by rewrite Er). rewrite (proj2 (Z.eqb_neq _ 0) Hn). cbn [negb andb].
    cbn [peeks]. by destruct (text t).
Qed.

Lemma pos_length toks s : pos toks s -> (length toks <= length b)%nat.
Proof. intros [_ H%spelled_length]. rewrite length_drop in H. lia. Qed.

End pos.

(** ** The grammar *)

(** A part of a simple command: an argument, or a redirection ('<', '>', or
    '+' for '>>') with its file. *)
Inductive part : Type := Arg (w : list Z) | Red (k : Z) (w : list Z).

(** A line: a pipeline, a number of '&', and after a ';' another line. *)
Inductive line : Type :=
| Line1 (p : pipeline) (n : nat)
| LineN (p : pipeline) (n : nat) (l : line)
with pipeline : Type :=
| Pipe1 (t : term)
| PipeN (t : term) (p : pipeline)
with term : Type :=
| Simple (ps : list part)
| Block (l : line) (rs : list (Z * list Z)).

Scheme line_mut := Induction for line Sort Prop
with pipeline_mut := Induction for pipeline Sort Prop
with term_mut := Induction for term Sort Prop.

Definition red_toks (r : Z * list Z) : list token := [if r.1 =? 43 then TApp else TSym r.1; TWord r.2].
Definition part_toks (p : part) : list token := match p with Arg w => [TWord w] | Red k w => red_toks (k, w) end.

Fixpoint ltoks (l : line) : list token :=
  match l with
  | Line1 p n => ptoks p ++ replicate n (TSym 38)
  | LineN p n l => ptoks p ++ replicate n (TSym 38) ++ TSym 59 :: ltoks l
  end
with ptoks (p : pipeline) : list token :=
  match p with
  | Pipe1 t => ttoks t
  | PipeN t p => ttoks t ++ TSym 124 :: ptoks p
  end
with ttoks (t : term) : list token :=
  match t with
  | Simple ps => mjoin (part_toks <$> ps)
  | Block l rs => TSym 40 :: ltoks l ++ TSym 41 :: mjoin (red_toks <$> rs)
  end.

(** What the trees stand for. *)
Definition redirect {W} (c : cmd W) (r : Z * W) : cmd W :=
  REDIR c r.2 (if r.1 =? 60 then O_RDONLY else if r.1 =? 62 then Z.lor (Z.lor O_WRONLY O_CREATE) O_TRUNC else Z.lor O_WRONLY O_CREATE)
    (if r.1 =? 60 then 0 else 1).

Definition args (ps : list part) : list (list Z) := omap (fun p => match p with Arg w => Some w | Red _ _ => None end) ps.
Definition redirs (ps : list part) : list (Z * list Z) := omap (fun p => match p with Arg _ => None | Red k w => Some (k, w) end) ps.

Fixpoint lcmd (l : line) : cmd (list Z) :=
  match l with
  | Line1 p n => Nat.iter n BACK (pcmd p)
  | LineN p n l => LIST (Nat.iter n BACK (pcmd p)) (lcmd l)
  end
with pcmd (p : pipeline) : cmd (list Z) :=
  match p with
  | Pipe1 t => tcmd t
  | PipeN t p => PIPE (tcmd t) (pcmd p)
  end
with tcmd (t : term) : cmd (list Z) :=
  match t with
  | Simple ps => foldl redirect (EXEC (args ps)) (redirs ps)
  | Block l rs => foldl redirect (lcmd l) rs
  end.

(** At most nine arguments, and redirections of the three kinds. *)
Definition red_ok (r : Z * list Z) : Prop := r.1 ∈ [60; 62; 43].

Fixpoint lok (l : line) : Prop :=
  match l with Line1 p _ => pok p | LineN p _ l => pok p /\ lok l end
with pok (p : pipeline) : Prop :=
  match p with Pipe1 t => tok t | PipeN t p => tok t /\ pok p end
with tok (t : term) : Prop :=
  match t with
  | Simple ps => Z.of_nat (length (args ps)) < MAXARGS /\ Forall red_ok (redirs ps)
  | Block l rs => lok l /\ Forall red_ok rs
  end.

(** ** Commands over offsets and over strings *)

Fixpoint cmd_map {A B} (f : A -> B) (c : cmd A) : cmd B :=
  match c with
  | EXEC argv => EXEC (f <$> argv)
  | REDIR c w m d => REDIR (cmd_map f c) (f w) m d
  | PIPE l r => PIPE (cmd_map f l) (cmd_map f r)
  | LIST l r => LIST (cmd_map f l) (cmd_map f r)
  | BACK c => BACK (cmd_map f c)
  end.

Fixpoint strings {W} (c : cmd W) : list W :=
  match c with
  | EXEC argv => argv
  | REDIR c w _ _ => strings c ++ [w]
  | PIPE l r | LIST l r => strings l ++ strings r
  | BACK c => strings c
  end.

Lemma cmd_map_ext {A B} (f g : A -> B) c : (forall w, w ∈ strings c -> f w = g w) -> cmd_map f c = cmd_map g c.
Proof.
  induction c as [argv|c IH w m d|l IHl r IHr|l IHl r IHr|c IH]; cbn [cmd_map strings]; intros H.
  - f_equal. apply list_fmap_ext. intros i x Hx. apply H. by eapply list_elem_of_lookup_2.
  - rewrite IH, H; [done|apply elem_of_app; right; ielem|]. intros x Hx. apply H, elem_of_app. by left.
  - rewrite IHl, IHr; [done| |]; intros x Hx; apply H, elem_of_app; auto.
  - rewrite IHl, IHr; [done| |]; intros x Hx; apply H, elem_of_app; auto.
  - by rewrite IH.
Qed.

Section parser.
Context (b : list Z).

Definition means (c : cmd (nat * nat)) (d : cmd (list Z)) : Prop := cmd_map (word_of b) c = d /\ Forall (word_at b) (strings c).

Lemma means_redir c d k w u : means c d -> word_of b w = u -> word_at b w -> red_ok (k, u) ->
  means (redir_of k c w) (redirect d (k, u)).
Proof.
  intros [H1 H2] H3 H4 H5. unfold red_ok in H5. rewrite !elem_of_cons, elem_of_nil in H5. cbn [fst] in H5.
  unfold redir_of, redirect. cbn [fst snd]. destruct H5 as [->|[->|[->|[]]]]; (split; [cbn; by rewrite H1, H3|cbn; apply Forall_app; split; [done|by constructor]]).
Qed.

Lemma redirs_loop rs : forall n c d rest s, pos b (mjoin (red_toks <$> rs) ++ rest) s -> peeks [60; 62] rest = false ->
  Forall red_ok rs -> means c d -> (length rs < n)%nat ->
  exists c' s', iter n (redir_round b) c s = Ok c' s' /\ pos b rest s' /\ means c' (foldl redirect d rs).
Proof.
  induction rs as [|[k u] rs IH]; intros n c d rest s Hp Hr Hok Hm Hn; (destruct n as [|n]; [cbn in Hn; lia|]).
  - cbn [fmap list_fmap mjoin list_join app] in Hp. destruct (peek_run b [60; 62] _ _ Hp) as (s1 & E1 & H1).
    exists c, s1. split; [|done]. apply iter_done. unfold redir_round. rewrite (bind_ok _ _ _ _ _ E1), Hr. done.
  - apply Forall_cons in Hok as [Hk Hok]. cbn [fmap list_fmap mjoin list_join] in Hp. rewrite <- app_assoc in Hp. cbn [red_toks fst snd app] in Hp.
    destruct (peek_run b [60; 62] _ _ Hp) as (s1 & E1 & H1). destruct (gettoken_run b _ _ _ H1) as (w1 & s2 & E2 & H2 & _).
    destruct (gettoken_run b _ _ _ H2) as (w2 & s3 & E3 & H3 & Hw). destruct (Hw u eq_refl) as [W1 W2].
    assert ((forall r, peeks [60; 62] ((if k =? 43 then TApp else TSym k) :: r) = true) /\
      code (if k =? 43 then TApp else TSym k) = k) as [Epk Ecode].
    { unfold red_ok in Hk. rewrite !elem_of_cons, elem_of_nil in Hk. cbn [fst] in Hk. by destruct Hk as [->|[->|[->|[]]]]. }
    rewrite Epk in E1. rewrite Ecode in E2. change (code (TWord u)) with 97 in E3.
    destruct (IH n (redir_of k c w2) (redirect d (k, u)) rest s3 H3 Hr Hok (means_redir _ _ _ _ _ Hm W1 W2 Hk) ltac:(cbn in Hn; lia)) as (c' & s' & E & H).
    exists c', s'. split; [|done]. rewrite (iter_next _ _ _ (redir_of k c w2) _ s3); [exact E|]. unfold redir_round.
    rewrite (bind_ok _ _ _ _ _ E1), (bind_ok _ _ _ _ _ E2), (bind_ok _ _ _ _ _ E3). done.
Qed.

Lemma red_toks_length rs : (length rs <= length (mjoin (red_toks <$> rs)))%nat.
Proof.
  induction rs as [|r rs IH]; [cbn; lia|]. change (mjoin (red_toks <$> r :: rs)) with (red_toks r ++ mjoin (red_toks <$> rs)).
  rewrite length_app. cbn [length red_toks]. lia.
Qed.

Lemma parseredirs_run rs c d rest s : pos b (mjoin (red_toks <$> rs) ++ rest) s -> peeks [60; 62] rest = false ->
  Forall red_ok rs -> means c d ->
  exists c' s', parseredirs b c s = Ok c' s' /\ pos b rest s' /\ means c' (foldl redirect d rs).
Proof.
  intros Hp Hr Hok Hm. apply (redirs_loop rs); try done. pose proof (pos_length _ _ _ Hp) as H. rewrite length_app in H. pose proof (red_toks_length rs). lia.
Qed.

(** ** Simple commands *)

Lemma add_arg_map c w : cmd_map (word_of b) (add_arg c w) = add_arg (cmd_map (word_of b) c) (word_of b w).
Proof. induction c as [argv|c IH f m d| | |]; cbn; [by rewrite fmap_app|by rewrite IH|done|done|done]. Qed.

Lemma add_arg_exec {W} (a : list W) rs w : add_arg (foldl redirect (EXEC a) rs) w = foldl redirect (EXEC (a ++ [w])) rs.
Proof. induction rs as [|r rs IH] using rev_ind; [done|]. rewrite !foldl_snoc. cbn. by rewrite IH. Qed.

Lemma add_arg_strings {W} (c : cmd W) w x : x ∈ strings (add_arg c w) -> x ∈ strings c \/ x = w.
Proof.
  induction c as [argv|c IH f m d| | |]; cbn; [|rewrite !elem_of_app; tauto|tauto..].
  rewrite elem_of_app, list_elem_of_singleton. tauto.
Qed.

Lemma means_arg c a rs w u : means c (foldl redirect (EXEC a) rs) -> word_of b w = u -> word_at b w ->
  means (add_arg c w) (foldl redirect (EXEC (a ++ [u])) rs).
Proof.
  intros [H1 H2] H3 H4. split; [by rewrite add_arg_map, H1, H3, add_arg_exec|]. rewrite Forall_forall in *.
  intros x [Hx| ->]%add_arg_strings; auto.
Qed.

(** Leading redirections of a command. *)
Lemma part_split ps : exists rs ps', ps = map (fun r => Red r.1 r.2) rs ++ ps' /\ (ps' = [] \/ exists w ps'', ps' = Arg w :: ps'').
Proof.
  induction ps as [|[w|k w] ps (rs & ps' & -> & H)].
  - exists [], []. split; [done|]. by left.
  - exists [], (Arg w :: map (fun r => Red r.1 r.2) rs ++ ps'). split; [done|]. right. eauto.
  - by exists ((k, w) :: rs), ps'.
Qed.

Lemma part_toks_reds rs ps : mjoin (part_toks <$> map (fun r => Red r.1 r.2) rs ++ ps) = mjoin (red_toks <$> rs) ++ mjoin (part_toks <$> ps).
Proof.
  induction rs as [|[k w] rs IH]; [done|]. cbn [map app fst snd].
  change (mjoin (part_toks <$> Red k w :: ?x)) with (red_toks (k, w) ++ mjoin (part_toks <$> x)).
  change (mjoin (red_toks <$> (k, w) :: rs)) with (red_toks (k, w) ++ mjoin (red_toks <$> rs)). by rewrite IH, app_assoc.
Qed.

Lemma args_reds rs ps : args (map (fun r => Red r.1 r.2) rs ++ ps) = args ps /\ redirs (map (fun r => Red r.1 r.2) rs ++ ps) = rs ++ redirs ps.
Proof.
  induction rs as [|[k w] rs [IH1 IH2]]; [done|]. split; [exact IH1|]. cbn [app]. rewrite <- IH2. done.
Qed.

(** What ends a simple command. *)
Definition ends (rest : list token) : Prop := rest = [] \/ peeks [124; 41; 38; 59] rest = true.

Lemma ends_no_redir rest : ends rest -> peeks [60; 62] rest = false.
Proof.
  intros [->|H]; [done|]. destruct rest as [|t rest]; [done|]. cbn in *. apply bool_decide_eq_true in H. apply bool_decide_eq_false.
  rewrite !elem_of_cons, elem_of_nil in *. lia.
Qed.

Lemma pos_toks toks s : pos b toks s -> Forall tok_ok toks.
Proof. intros [_ H]. induction H; by constructor. Qed.

(** A word is no symbol. *)
Lemma peeks_word w toks set : tok_ok (TWord w) -> forallb is_symbol set = true -> peeks set (TWord w :: toks) = false.
Proof.
  intros [Hw Hf] Hs. rewrite forallb_forall in Hs. cbn. apply bool_decide_eq_false. intros H%list_elem_of_In%Hs. destruct w as [|c w]; [done|].
  apply Forall_cons in Hf as [Hc _]. unfold wordchar in Hc. cbn in H. rewrite H in Hc. cbn in Hc. by rewrite andb_false_r in Hc.
Qed.

Lemma next_no_redir ps rest : (ps = [] \/ exists w ps', ps = Arg w :: ps') -> ends rest -> Forall tok_ok (mjoin (part_toks <$> ps) ++ rest) ->
  peeks [60; 62] (mjoin (part_toks <$> ps) ++ rest) = false.
Proof.
  intros [->|(w & ps' & ->)] He Hp; [by apply ends_no_redir|]. apply Forall_app in Hp as [Hp _].
  change (mjoin (part_toks <$> Arg w :: ps')) with (TWord w :: mjoin (part_toks <$> ps')) in *. apply Forall_cons in Hp as [Hp _]. by apply peeks_word.
Qed.

Lemma args_end n x rest s : pos b rest s -> ends rest ->
  exists s', iter (S n) (arg_round b) x s = Ok x.1 s' /\ pos b rest s'.
Proof.
  intros Hp He. destruct x as [c argc]. destruct (peek_run b [124; 41; 38; 59] _ _ Hp) as (s1 & E1 & H1). destruct He as [->|He].
  - destruct (gettoken_end b s1 H1) as (w & s2 & E2 & H2). exists s2. split; [|done].
    apply iter_done. unfold arg_round. rewrite (bind_ok _ _ _ _ _ E1). cbn [peeks]. by rewrite (bind_ok _ _ _ _ _ E2).
  - exists s1. split; [|done]. apply iter_done. unfold arg_round. by rewrite (bind_ok _ _ _ _ _ E1), He.
Qed.

Lemma args_loop n : forall ps c a rs rest s, pos b (mjoin (part_toks <$> ps) ++ rest) s -> ends rest ->
  (ps = [] \/ exists w ps', ps = Arg w :: ps') -> Forall red_ok (redirs ps) -> Z.of_nat (length a + length (args ps)) < MAXARGS ->
  means c (foldl redirect (EXEC a) rs) -> (length (mjoin (part_toks <$> ps)) < n)%nat ->
  exists c' s', iter n (arg_round b) (c, Z.of_nat (length a)) s = Ok c' s' /\ pos b rest s' /\
    means c' (foldl redirect (EXEC (a ++ args ps)) (rs ++ redirs ps)).
Proof.
  induction n as [|n IH]; intros ps c a rs rest s Hp He Hps Hok Hmax Hmn Hn; [lia|].
  destruct Hps as [->|(w & ps2 & ->)].
  { destruct (args_end n (c, Z.of_nat (length a)) rest s Hp He) as (s' & E & H). exists c, s'. cbn. by rewrite !app_nil_r. }
  destruct (part_split ps2) as (rs2 & ps' & -> & Hps'). set (ps2 := map _ rs2 ++ ps') in *.
  destruct (args_reds rs2 ps') as [Ea Er]. fold ps2 in Ea, Er. change (args (Arg w :: ps2)) with (w :: args ps2) in *. change (redirs (Arg w :: ps2)) with (redirs ps2) in *.
  rewrite Ea, Er in *. apply Forall_app in Hok as [Hok1 Hok2].
  change (mjoin (part_toks <$> Arg w :: ps2)) with (TWord w :: mjoin (part_toks <$> ps2)) in *. cbn [app] in Hp.
  assert (mjoin (part_toks <$> ps2) = mjoin (red_toks <$> rs2) ++ mjoin (part_toks <$> ps')) as Et by apply part_toks_reds.
  rewrite Et, <- app_assoc in Hp. rewrite Et in Hn. cbn [length] in Hn, Hmax. rewrite length_app in Hn.
  pose proof (pos_toks _ _ Hp) as [Hw0 [_ Ht]%Forall_app]%Forall_cons.
  destruct (peek_run b [124; 41; 38; 59] _ _ Hp) as (s1 & E1 & H1). rewrite (peeks_word _ _ _ Hw0) in E1 by done.
  destruct (gettoken_run b _ _ _ H1) as (sp & s2 & E2 & H2 & Hw). destruct (Hw w eq_refl) as [W1 W2].
  destruct (parseredirs_run rs2 (add_arg c sp) _ _ _ H2 (next_no_redir _ _ Hps' He Ht) Hok1 (means_arg _ _ _ _ _ Hmn W1 W2)) as (c3 & s3 & E3 & H3 & M3).
  rewrite <- foldl_app in M3.
  destruct (IH ps' c3 (a ++ [w]) (rs ++ rs2) rest s3 H3 He Hps' Hok2) as (c' & s' & E & H & M); [rewrite length_app; cbn; lia|done|lia|].
  exists c', s'. rewrite <- !app_assoc in M. split; [|done].
  rewrite (iter_next _ _ _ (c3, Z.of_nat (length (a ++ [w]))) _ s3); [exact E|]. unfold arg_round.
  rewrite (bind_ok _ _ _ _ _ E1), (bind_ok _ _ _ _ _ E2). cbn [fst snd code]. change (97 =? 0) with false. change (negb (97 =? 97)) with false. cbv iota.
  rewrite Z.geb_leb, (proj2 (Z.leb_gt _ _)) by lia. rewrite (bind_ok _ _ _ _ _ E3). rewrite length_app. cbn [length]. unfold ret. do 3 f_equal. lia.
Qed.

(** ** The whole grammar *)

Lemma peeks_sym c rest : peeks [c] (TSym c :: rest) = true.
Proof. cbn. by rewrite bool_decide_eq_true_2 by ielem. Qed.

Definition follows (set : list Z) (rest : list token) : Prop := rest = [] \/ peeks set rest = true.

Lemma follows_other set set' rest : follows set rest -> forallb (fun c => negb (bool_decide (c ∈ set'))) set = true -> peeks set' rest = false.
Proof.
  intros [->|H] Hd; [done|]. destruct rest as [|t rest]; [done|]. cbn in *. apply bool_decide_eq_true in H.
  rewrite forallb_forall in Hd. apply list_elem_of_In in H. specialize (Hd _ H). by apply negb_true_iff in Hd.
Qed.

Lemma follows_weaken set set' rest : follows set rest -> forallb (fun c => bool_decide (c ∈ set')) set = true -> follows set' rest.
Proof.
  intros [->|H] Hd; [by left|]. right. destruct rest as [|t rest]; [done|]. cbn in *. apply bool_decide_eq_true in H.
  rewrite forallb_forall in Hd. apply list_elem_of_In in H. by apply Hd.
Qed.

Lemma backs_loop k : forall n c d rest s, pos b (replicate k (TSym 38) ++ rest) s -> peeks [38] rest = false -> means c d -> (k < n)%nat ->
  exists c' s', iter n (back_round b) c s = Ok c' s' /\ pos b rest s' /\ means c' (Nat.iter k BACK d).
Proof.
  induction k as [|k IH]; intros n c d rest s Hp Hr Hm Hn; (destruct n as [|n]; [lia|]); cbn [replicate app] in Hp;
    destruct (peek_run b [38] _ _ Hp) as (s1 & E1 & H1).
  - exists c, s1. split; [|done]. apply iter_done. unfold back_round. by rewrite (bind_ok _ _ _ _ _ E1), Hr.
  - destruct (gettoken_run b _ _ _ H1) as (w & s2 & E2 & H2 & _).
    destruct (IH n (BACK c) (BACK d) rest s2 H2 Hr) as (c' & s' & E & H & M); [by destruct Hm; split; [cbn; congruence|]|lia|].
    exists c', s'. split; [|split; [done|]].
    + rewrite (iter_next _ _ _ (BACK c) _ s2); [exact E|]. unfold back_round. rewrite peeks_sym in E1. by rewrite (bind_ok _ _ _ _ _ E1), (bind_ok _ _ _ _ _ E2).
    + by rewrite Nat.iter_swap in M.
Qed.

Definition line_reads (l : line) : Prop := forall fuel s rest, (4 * length (ltoks l) + 4 <= fuel)%nat -> lok l -> follows [41] rest ->
  pos b (ltoks l ++ rest) s -> exists c s', parseline b fuel s = Ok c s' /\ pos b rest s' /\ means c (lcmd l).
Definition pipe_reads (p : pipeline) : Prop := forall fuel s rest, (4 * length (ptoks p) + 3 <= fuel)%nat -> pok p -> follows [41; 38; 59] rest ->
  pos b (ptoks p ++ rest) s -> exists c s', parsepipe b fuel s = Ok c s' /\ pos b rest s' /\ means c (pcmd p).
Definition term_reads (t : term) : Prop := forall fuel s rest, (4 * length (ttoks t) + 2 <= fuel)%nat -> tok t -> ends rest ->
  pos b (ttoks t ++ rest) s -> exists c s', parseexec b fuel s = Ok c s' /\ pos b rest s' /\ means c (tcmd t).

Lemma simple_reads ps : term_reads (Simple ps).
Proof.
  intros fuel s rest Hf [Hmax Hok] He Hp. destruct fuel as [|fuel]; [lia|]. cbn [ttoks tcmd] in *.
  destruct (part_split ps) as (rs & ps' & -> & Hps'). destruct (args_reds rs ps') as [Ea Er]. rewrite Ea, Er in *.
  apply Forall_app in Hok as [Hok1 Hok2]. rewrite part_toks_reds, <- app_assoc in Hp. pose proof (pos_toks _ _ Hp) as [_ Ht]%Forall_app.
  destruct (peek_run b [40] _ _ Hp) as (s1 & E1 & H1).
  assert (peeks [40] (mjoin (red_toks <$> rs) ++ mjoin (part_toks <$> ps') ++ rest) = false) as E40.
  { destruct rs as [|[k w] rs].
    - destruct Hps' as [->|(w & ps'' & ->)]; [by apply (follows_other [124; 41; 38; 59])|]. apply Forall_app in Ht as [Ht _].
      change (mjoin (part_toks <$> Arg w :: ps'')) with (TWord w :: mjoin (part_toks <$> ps'')) in *. apply Forall_cons in Ht as [Ht _].
      by apply (peeks_word w).
    - apply Forall_cons in Hok1 as [Hk _]. unfold red_ok in Hk. rewrite !elem_of_cons, elem_of_nil in Hk. cbn [fst] in Hk.
      by destruct Hk as [->|[->|[->|[]]]]. }
  rewrite E40 in E1. destruct (parseredirs_run rs (EXEC []) (EXEC []) _ _ H1 (next_no_redir _ _ Hps' He Ht) Hok1) as (c2 & s2 & E2 & H2 & M2); [done|].
  destruct (args_loop (S (length b)) ps' c2 [] rs rest s2 H2 He Hps' Hok2) as (c' & s' & E & H & M); [cbn; lia|done|pose proof (pos_length _ _ _ H2) as HL; rewrite length_app in HL; lia|].
  exists c', s'. split; [|done]. cbn [parseexec]. rewrite (bind_ok _ _ _ _ _ E1), (bind_ok _ _ _ _ _ E2). exact E.
Qed.

Lemma block_reads l rs : line_reads l -> term_reads (Block l rs).
Proof.
  intros IH fuel s rest Hf [Hl Hok] He Hp. destruct fuel as [|[|fuel]]; [lia|lia|]. cbn [ttoks tcmd length] in *. rewrite length_app in Hf. cbn [length] in Hf.
  cbn [app] in Hp. rewrite <- app_assoc in Hp. cbn [app] in Hp.
  destruct (peek_run b [40] _ _ Hp) as (s1 & E1 & H1). destruct (peek_run b [40] _ _ H1) as (s2 & E2 & H2). rewrite peeks_sym in E1, E2.
  destruct (gettoken_run b _ _ _ H2) as (w3 & s3 & E3 & H3 & _).
  destruct (IH fuel s3 (TSym 41 :: mjoin (red_toks <$> rs) ++ rest) ltac:(lia) Hl ltac:(by right) H3) as (c4 & s4 & E4 & H4 & M4).
  destruct (peek_run b [41] _ _ H4) as (s5 & E5 & H5). rewrite peeks_sym in E5. destruct (gettoken_run b _ _ _ H5) as (w6 & s6 & E6 & H6 & _).
  destruct (parseredirs_run rs c4 (lcmd l) _ _ H6 (ends_no_redir _ He) Hok M4) as (c' & s' & E & H & M).
  exists c', s'. split; [|done]. cbn [parseexec parseblock]. rewrite (bind_ok _ _ _ _ _ E1), (bind_ok _ _ _ _ _ E2). cbn [negb].
  rewrite (bind_ok _ _ _ _ _ E3), (bind_ok _ _ _ _ _ E4), (bind_ok _ _ _ _ _ E5). cbn [negb]. by rewrite (bind_ok _ _ _ _ _ E6).
Qed.

Lemma pipe1_reads t : term_reads t -> pipe_reads (Pipe1 t).
Proof.
  intros IH fuel s rest Hf Ht Hr Hp. destruct fuel as [|fuel]; [lia|]. cbn [ptoks pcmd] in *.
  destruct (IH fuel s rest ltac:(lia) Ht (follows_weaken _ [124; 41; 38; 59] _ Hr eq_refl) Hp) as (c & s1 & E1 & H1 & M).
  destruct (peek_run b [124] _ _ H1) as (s2 & E2 & H2). rewrite (follows_other _ [124] _ Hr eq_refl) in E2.
  exists c, s2. split; [|done]. cbn [parsepipe]. by rewrite (bind_ok _ _ _ _ _ E1), (bind_ok _ _ _ _ _ E2).
Qed.

Lemma pipeN_reads t p : term_reads t -> pipe_reads p -> pipe_reads (PipeN t p).
Proof.
  intros IHt IHp fuel s rest Hf [Ht Hpk] Hr Hp. destruct fuel as [|fuel]; [lia|]. cbn [ptoks pcmd] in *. rewrite length_app in Hf. cbn [length] in Hf.
  rewrite <- app_assoc in Hp. cbn [app] in Hp.
  destruct (IHt fuel s (TSym 124 :: ptoks p ++ rest) ltac:(lia) Ht ltac:(by right) Hp) as (c1 & s1 & E1 & H1 & M1).
  destruct (peek_run b [124] _ _ H1) as (s2 & E2 & H2). rewrite peeks_sym in E2. destruct (gettoken_run b _ _ _ H2) as (w & s3 & E3 & H3 & _).
  destruct (IHp fuel s3 rest ltac:(lia) Hpk Hr H3) as (c4 & s4 & E4 & H4 & M4).
  exists (PIPE c1 c4), s4. split; [|split; [done|]].
  - cbn [parsepipe]. rewrite (bind_ok _ _ _ _ _ E1), (bind_ok _ _ _ _ _ E2), (bind_ok _ _ _ _ _ E3). by rewrite (bind_ok _ _ _ _ _ E4).
  - destruct M1 as [A1 A2], M4 as [B1 B2]. split; [cbn; congruence|]. cbn. by apply Forall_app.
Qed.

(** A pipeline and the '&'s after it. *)
Lemma backs_read p k fuel s rest : pipe_reads p -> (4 * (length (ptoks p) + k) + 3 <= fuel)%nat -> pok p -> follows [41; 59] rest ->
  pos b (ptoks p ++ replicate k (TSym 38) ++ rest) s ->
  exists c s', (c <- parsepipe b fuel ;; parsebacks b c) s = Ok c s' /\ pos b rest s' /\ means c (Nat.iter k BACK (pcmd p)).
Proof.
  intros IH Hf Hok Hr Hp. destruct (IH fuel s (replicate k (TSym 38) ++ rest) ltac:(lia) Hok) as (c1 & s1 & E1 & H1 & M1); [|done|].
  - destruct k as [|k]; [cbn; by apply (follows_weaken [41; 59])|by right].
  - destruct (backs_loop k (S (length b)) c1 (pcmd p) rest s1 H1 (follows_other _ [38] _ Hr eq_refl) M1) as (c2 & s2 & E2 & H2 & M2).
    { pose proof (pos_length _ _ _ H1) as HL. rewrite length_app, length_replicate in HL. lia. }
    exists c2, s2. split; [|done]. by rewrite (bind_ok _ _ _ _ _ E1).
Qed.

Lemma line1_reads p k : pipe_reads p -> line_reads (Line1 p k).
Proof.
  intros IH fuel s rest Hf Hok Hr Hp. destruct fuel as [|fuel]; [lia|]. cbn [ltoks lcmd] in *. rewrite length_app, length_replicate in Hf.
  rewrite <- app_assoc in Hp. destruct (backs_read p k fuel s rest IH ltac:(lia) Hok (follows_weaken _ [41; 59] _ Hr eq_refl) Hp) as (c1 & s1 & E1 & H1 & M1).
  destruct (peek_run b [59] _ _ H1) as (s2 & E2 & H2). rewrite (follows_other _ [59] _ Hr eq_refl) in E2.
  exists c1, s2. split; [|done]. cbn [parseline]. rewrite <- bind_assoc, (bind_ok _ _ _ _ _ E1). by rewrite (bind_ok _ _ _ _ _ E2).
Qed.

Lemma lineN_reads p k l : pipe_reads p -> line_reads l -> line_reads (LineN p k l).
Proof.
  intros IH IHl fuel s rest Hf [Hok Hokl] Hr Hp. destruct fuel as [|fuel]; [lia|]. cbn [ltoks lcmd] in *.
  rewrite !length_app, length_replicate in Hf. cbn [length] in Hf. rewrite <- !app_assoc in Hp. cbn [app] in Hp.
  destruct (backs_read p k fuel s (TSym 59 :: ltoks l ++ rest) IH ltac:(lia) Hok ltac:(by right) Hp) as (c1 & s1 & E1 & H1 & M1).
  destruct (peek_run b [59] _ _ H1) as (s2 & E2 & H2). rewrite peeks_sym in E2. destruct (gettoken_run b _ _ _ H2) as (w & s3 & E3 & H3 & _).
  destruct (IHl fuel s3 rest ltac:(lia) Hokl Hr H3) as (c4 & s4 & E4 & H4 & M4).
  exists (LIST c1 c4), s4. split; [|split; [done|]].
  - cbn [parseline]. rewrite <- bind_assoc, (bind_ok _ _ _ _ _ E1), (bind_ok _ _ _ _ _ E2), (bind_ok _ _ _ _ _ E3). by rewrite (bind_ok _ _ _ _ _ E4).
  - destruct M1 as [A1 A2], M4 as [B1 B2]. split; [cbn; congruence|]. cbn. by apply Forall_app.
Qed.

Lemma parseline_reads l : line_reads l.
Proof.
  apply (line_mut line_reads pipe_reads term_reads); intros; [by apply line1_reads|by apply lineN_reads|by apply pipe1_reads|by apply pipeN_reads|
    apply simple_reads|by apply block_reads].
Qed.

(** ** The strings *)

(** NULs stored at the ends of words. *)
Definition zero_ends (buf : list Z) (ws : list (nat * nat)) : list Z := foldl (fun buf w => <[snd w := 0]> buf) buf ws.

Lemma nulterminate_zero c buf : nulterminate c buf = zero_ends buf (strings c).
Proof.
  revert buf. induction c as [argv|c IH f m d|l IHl r IHr|l IHl r IHr|c IH]; intros buf; cbn [nulterminate strings]; [done| | | |apply IH].
  - unfold zero_ends. by rewrite foldl_snoc, IH.
  - unfold zero_ends. by rewrite foldl_app, IHl, IHr.
  - unfold zero_ends. by rewrite foldl_app, IHl, IHr.
Qed.

Lemma zero_ends_lookup ws : forall buf i, zero_ends buf ws !! i =
  if decide (i ∈ ws.*2) then (if decide (i < length buf)%nat then Some 0 else None) else buf !! i.
Proof.
  induction ws as [|w ws IH] using rev_ind; intros buf i; [by rewrite decide_False by apply not_elem_of_nil|].
  assert (length (zero_ends buf ws) = length buf) as Hl.
  { clear. induction ws as [|w ws IH] using rev_ind; [done|]. unfold zero_ends in *. by rewrite foldl_snoc, length_insert. }
  unfold zero_ends. rewrite foldl_snoc. fold (zero_ends buf ws). rewrite fmap_app. cbn [fmap list_fmap].
  destruct (decide (i = w.2)) as [->|Hne].
  - rewrite (decide_True (P := _ ∈ _ ++ _)) by (apply elem_of_app; right; ielem). case_decide as Hi.
    + apply list_lookup_insert_eq. lia.
    + apply lookup_ge_None. rewrite length_insert. lia.
  - rewrite list_lookup_insert_ne by done. rewrite IH. destruct (decide (i ∈ ws.*2)) as [D1|D1].
    + by rewrite (decide_True (P := _ ∈ _ ++ _)) by (apply elem_of_app; by left).
    + rewrite (decide_False (P := _ ∈ _ ++ _)); [done|]. intros [D|D%list_elem_of_singleton]%elem_of_app; done.
Qed.

Lemma until_nul_word w : forall l, Forall (fun c => c <> 0) w -> (forall k, (k < length w)%nat -> l !! k = w !! k) -> rchr (drop (length w) l) = 0 -> until_nul l = w.
Proof.
  induction w as [|c w IH]; intros l Hn Hk Hz.
  - destruct l as [|x l]; [done|]. cbn in *. by subst x.
  - apply Forall_cons in Hn as [Hc Hn]. destruct l as [|x l]; [specialize (Hk 0%nat ltac:(cbn; lia)); done|].
    pose proof (Hk 0%nat ltac:(cbn; lia)) as [= ->]. cbn. rewrite (proj2 (Z.eqb_neq c 0) Hc). f_equal. apply IH; [done| |done].
    intros k Hk'. apply (Hk (S k)). cbn. lia.
Qed.

Lemma rchr_lookup (l : list Z) n : rchr (drop n l) = default 0 (l !! n).
Proof. rewrite <- (Nat.add_0_r n) at 2. rewrite <- lookup_drop. by destruct (drop n l). Qed.

(** Every string of the command is a C string in the line. *)
Lemma nulterminate_strings c d w : means c d -> w ∈ strings c -> str_at (nulterminate c b) w.1 = word_of b w.
Proof.
  intros [_ Hw] Hin. rewrite Forall_forall in Hw. destruct (Hw w Hin) as ((H1 & H2) & Hf & Hz). rewrite nulterminate_zero. unfold str_at.
  assert (length (word_of b w) = (w.2 - w.1)%nat) as Hl by (unfold word_of; rewrite length_take, length_drop; lia).
  assert (forall c, wordchar c = true -> c <> 0) as Hnz by (intros x Hx ->; done).
  apply until_nul_word.
  - eapply Forall_impl; [exact Hf|]. exact Hnz.
  - intros k Hk. rewrite lookup_drop, zero_ends_lookup. assert (word_of b w !! k = b !! (w.1 + k)%nat) as Ek.
    { unfold word_of. by rewrite lookup_take_lt, lookup_drop by lia. }
    rewrite decide_False; [done|]. intros (v & Ev & Hv)%list_elem_of_fmap. destruct (Hw v Hv) as (_ & _ & Hvz). unfold at_ in Hvz.
    rewrite <- Ev, rchr_lookup, <- Ek in Hvz. destruct (lookup_lt_is_Some_2 (word_of b w) k Hk) as [x Ex]. rewrite Ex in Hvz. cbn in Hvz.
    rewrite Forall_lookup in Hf. specialize (Hf k x Ex). cbv beta in Hf. congruence.
  - rewrite Hl, drop_drop, rchr_lookup, zero_ends_lookup. replace (w.1 + (w.2 - w.1))%nat with w.2 by lia.
    rewrite decide_True by (by apply list_elem_of_fmap_2). by case_decide.
Qed.

End parser.

Lemma parsecmd_reads (l : line) (b : list Z) : lok l -> spelled (ltoks l) b ->
  exists c buf s, parsecmd b 0%nat = Ok (c, buf) s /\ cmd_map (str_at buf ∘ fst) c = lcmd l.
Proof.
  intros Hok Hs. assert (pos b (ltoks l ++ []) 0%nat) as Hp by (rewrite app_nil_r; split; [lia|done]).
  pose proof (pos_length _ _ _ Hp) as HL. rewrite app_nil_r in HL.
  destruct (parseline_reads b l (4 * S (length b))%nat 0%nat [] ltac:(lia) Hok ltac:(by left) Hp) as (c & s1 & E1 & H1 & M).
  destruct (peek_run b [] _ _ H1) as (s2 & E2 & H2). destruct (skip_pos _ _ _ H1) as (s2' & E2' & _ & Hend).
  assert (s2 = length b) as ->.
  { unfold peek in E2. rewrite E2' in E2. injection E2 as _ <-. done. }
  exists c, (nulterminate c b), (length b). split.
  - unfold parsecmd. rewrite (bind_ok _ _ _ _ _ E1), (bind_ok _ _ _ _ _ E2). erewrite bind_ok by reflexivity. by rewrite Nat.eqb_refl.
  - destruct M as [M1 M2]. rewrite <- M1. pose proof (nulterminate_strings b c (lcmd l)) as Hst.
    apply cmd_map_ext. intros w Hw. by apply Hst.
Qed.

(** The shell's parser is exact: every spelling [b] of a line of the
    grammar, with any white space, is read as the command the line stands
    for, and in the line with its NULs stored, each string of the command is
    the word written there. *)
Theorem parsecmd_correct (l : line) (b : list Z) : lok l -> spelled (ltoks l) b ->
  exists c buf s, parsecmd b 0%nat = Ok (c, buf) s /\ cmd_map (str_at buf ∘ fst) c = lcmd l.
Proof. apply parsecmd_reads. Qed.

(** "ls>o;(a|b)&" *)
Definition sample_line : line :=
  LineN (Pipe1 (Simple [Arg [108; 115]; Red 62 [111]])) 0
    (Line1 (Pipe1 (Block (Line1 (PipeN (Simple [Arg [97]]) (Pipe1 (Simple [Arg [98]]))) 0) [])) 1).

Lemma sample_spelled : spelled (ltoks sample_line) [108; 115; 62; 111; 59; 40; 97; 32; 124; 98; 41; 38; 10].
Proof.
  apply (sp_tok [] (TWord [108; 115])); [done|by repeat constructor|done|].
  apply (sp_tok [] (TSym 62)); [done|done|done|]. apply (sp_tok [] (TWord [111])); [done|by repeat constructor|done|].
  apply (sp_tok [] (TSym 59)); [done|done|done|]. apply (sp_tok [] (TSym 40)); [done|done|done|].
  apply (sp_tok [] (TWord [97])); [done|by repeat constructor|done|]. apply (sp_tok [32] (TSym 124)); [by repeat constructor|done|done|].
  apply (sp_tok [] (TWord [98])); [done|by repeat constructor|done|]. apply (sp_tok [] (TSym 41)); [done|done|done|].
  apply (sp_tok [] (TSym 38)); [done|done|done|]. apply sp_nil. by repeat constructor.
Qed.

Lemma parsecmd_correct_witness :
  exists c buf s, parsecmd [108; 115; 62; 111; 59; 40; 97; 32; 124; 98; 41; 38; 10] 0%nat = Ok (c, buf) s /\ cmd_map (str_at buf ∘ fst) c = lcmd sample_line.
Proof.
  apply (parsecmd_correct sample_line); [repeat split; (done || by repeat constructor)|exact sample_spelled].
Defined.
