(* ===== verification/ShRun.v ===== *)
(** * The shell: running commands (user/sh.c, runcmd, getcmd, main)

    [runcmd], the reading of a line and the loop of the shell, as programs over
    system calls. *)

From ITree Require Import ITree.
From stdpp Require Import gmap.
From S2P Require Import Prelude KState Fs Printf Ulib Syscall Grep Sh.
#[local] Open Scope prog_scope.

(** ** The program *)

Definition panic {A} (s : string) : prog A := fprintf 2 (strn "%s") [Str (Some (str s))] ;; exit 1.

Definition fork1 : prog Z :=
  pid <- sys Fork ;;
  if pid =? -1 then panic "fork" else Ret pid.

(** A command is not null, and one of the five kinds. *)
Fixpoint runcmd (c : cmd (list Z)) : prog void :=
  match c with
  | EXEC [] => exit 1
  | EXEC ((path :: _) as argv) =>
      sys (Exec path argv) ;;
      fprintf 2 (strn "exec %s failed") [Str (Some path)] ;;
      exit 0
  | REDIR c file mode fd =>
      sys (Close fd) ;;
      r <- sys (Open file mode) ;;
      if r <? 0 then
        fprintf 2 (strn "open %s failed") [Str (Some file)] ;;
        exit 1
      else runcmd c
  | LIST l r =>
      pid <- fork1 ;;
      if pid =? 0 then runcmd l else
      sys Wait ;;
      runcmd r
  | PIPE l r =>
      p <- sys Pipe ;;
      match p with
      | None => panic "pipe"
      | Some (p0, p1) =>
          pid <- fork1 ;;
          if pid =? 0 then
            sys (Close 1) ;;
            sys (Dup p1) ;;
            sys (Close p0) ;;
            sys (Close p1) ;;
            runcmd l
          else
          pid <- fork1 ;;
          if pid =? 0 then
            sys (Close 0) ;;
            sys (Dup p0) ;;
            sys (Close p0) ;;
            sys (Close p1) ;;
            runcmd r
          else
          sys (Close p0) ;;
          sys (Close p1) ;;
          sys Wait ;;
          sys Wait ;;
          exit 0
      end
  | BACK c =>
      pid <- fork1 ;;
      if pid =? 0 then runcmd c else exit 0
  end.

(** The line, or [None] for -1: the buffer is cleared first, so that an empty
    line is what a read of nothing leaves. *)
Definition getcmd (nbuf : Z) : prog (option (list Z)) :=
  sys (Write 2 (str "$ ")) ;;
  buf <- gets nbuf ;;
  if hd 0 buf =? 0 then Ret None else Ret (Some buf).

(** [while ( *cmd == ' ' || *cmd == '\t') cmd++;] *)
Fixpoint skip_blanks (l : list Z) : list Z :=
  match l with
  | c :: l' => if (c =? 32) || (c =? 9) then skip_blanks l' else l
  | [] => []
  end.

(** The strings of a parsed command, read from the terminated line. *)
Fixpoint strings_of (b : list Z) (c : cmd span_t) : cmd (list Z) :=
  match c with
  | EXEC argv => EXEC (map (fun w => str_at b (fst w)) argv)
  | REDIR c file mode fd => REDIR (strings_of b c) (str_at b (fst file)) mode fd
  | PIPE l r => PIPE (strings_of b l) (strings_of b r)
  | LIST l r => LIST (strings_of b l) (strings_of b r)
  | BACK c => BACK (strings_of b c)
  end.

(** One line: [cd] is for the shell itself, everything else for a child.  The
    parser returns or panics; the message with the text that is left over is
    not printed. *)
Definition run_line (l : list Z) : prog unit :=
  let cmd := skip_blanks l in
  if hd 0 cmd =? 10 then Ret tt
  else if (nth 0 cmd 0 =? 99) && (nth 1 cmd 0 =? 100) && (nth 2 cmd 0 =? 32) then
    let dir := drop 3 (take (length (until_nul cmd) - 1) cmd) in
    r <- sys (Chdir dir) ;;
    if r <? 0 then fprintf 2 (strn "cannot cd %s") [Str (Some dir)] else Ret tt
  else
    pid <- fork1 ;;
    if pid =? 0 then
      match parsecmd (until_nul cmd) 0%nat with
      | Ok (c, b) _ => v <- runcmd (strings_of b c) ;; match v : void with end
      | Panic s => panic s
      | _ => exit 1
      end
    else sys Wait ;; Ret tt.

(** [while((fd = open("console", O_RDWR)) >= 0)]: three descriptors are open. *)
Definition open_console : prog unit :=
  ITree.iter (fun _ : unit =>
    fd <- sys (Open (str "console") O_RDWR) ;;
    if fd >=? 0 then
      if fd >=? 3 then sys (Close fd) ;; Ret (inr tt) else Ret (inl tt)
    else Ret (inr tt)) tt.

Definition main : prog void :=
  open_console ;;
  ITree.iter (fun _ : unit =>
    r <- getcmd 100 ;;
    match r with
    | Some l => run_line l ;; Ret (inl tt)
    | None => exit 0
    end) tt.
