(* ===== verification/ShRunSpec.v ===== *)
(** * What the shell runs

    [plumbing] follows a program through every process it forks: the descriptor
    tables are finite maps, as the kernel keeps them ([Open], [Dup] and [Pipe]
    take the lowest free descriptor), a fork is explored on both sides, and
    files can be opened and executed.  It records the programs that are
    executed, each with its table, and the waits. *)

From ITree Require Import ITree.
From stdpp Require Import gmap.
From S2P Require Import Prelude Riscv KState Fs Printf Ulib Syscall Grep Sh ShSpec ShRun.

(** What a descriptor refers to; pipes are numbered. *)
Inductive obj : Type := Given (n : Z) | Opened (path : list Z) (mode : Z) | PipeR (id : nat) | PipeW (id : nat).
Abbreviation fdt := (gmap Z obj).

Inductive act : Type := Runs (argv : list (list Z)) (f : fdt) | Waits (f : fdt).

(** The lowest descriptor that is not open. *)
Definition lowest {A} (f : gmap Z A) : option Z := find (fun i => bool_decide (f !! i = None)) (seqZ 0 NOFILE).

(** The answer to a system call of the process with table [f]; [go] runs the
    rest of it. *)
Definition answer {X} (go : prog void -> fdt -> nat -> option (list act * nat)) (e : sysE X) (f : fdt) (id : nat) :
    (X -> prog void) -> option (list act * nat) :=
  match e in sysE X return (X -> prog void) -> option (list act * nat) with
  | Fork => fun k => a ← go (k 0) f id; b ← go (k 1) f (snd a); Some (fst a ++ fst b, snd b)
  | Exit _ => fun _ => Some ([], id)
  | Wait => fun k => a ← go (k (1, 0)) f id; Some (Waits f :: fst a, snd a)
  | Exec _ argv => fun _ => Some ([Runs argv f], id)
  | Pipe => fun k =>
      match lowest f with
      | Some p0 =>
          match lowest (<[p0 := PipeR id]> f) with
          | Some p1 => go (k (Some (p0, p1))) (<[p1 := PipeW id]> (<[p0 := PipeR id]> f)) (S id)
          | None => go (k None) f id
          end
      | None => go (k None) f id
      end
  | Close fd => fun k => match f !! fd with Some _ => go (k 0) (delete fd f) id | None => go (k (-1)) f id end
  | Open path mode => fun k => match lowest f with Some d => go (k d) (<[d := Opened path mode]> f) id | None => go (k (-1)) f id end
  | Dup fd => fun k => match f !! fd, lowest f with Some o, Some d => go (k d) (<[d := o]> f) id | _, _ => go (k (-1)) f id end
  | Write _ bs => fun k => go (k (Z.of_nat (length bs))) f id
  | Read _ _ => fun k => go (k None) f id
  | Fstat _ => fun k => go (k None) f id
  | Memstats => fun k => go (k None) f id
  | Store _ _ _ => fun k => go (k tt) f id
  | Kill _ | Mknod _ _ _ | Unlink _ | Link _ _ | Mkdir _ | Chdir _ | Getpid | Sbrk _ _ | Pause _ | Uptime
  | Load _ _ | WriteAt _ _ _ | ReadAt _ _ _ | OpenAt _ _ | UnlinkAt _ | LinkAt _ _ | ExecAt _ _ | PipeAt _ => fun k => go (k (-1)) f id
  end.

Fixpoint plumbing (fuel : nat) (t : prog void) (f : fdt) (id : nat) : option (list act * nat) :=
  match fuel with
  | O => None
  | S fuel =>
      match observe t with
      | RetF v => match v : void with end
      | TauF t => plumbing fuel t f id
      | VisF e k => answer (plumbing fuel) e f id k
      end
  end.

(** ** What must happen *)

(** Every program of the command runs with the table of the shell but for its
    redirections, and with one end of a pipe as input or output; nothing else
    of a pipe stays open.  The shell waits for the left side of a list, and
    for both sides of a pipe, with both ends closed. *)
Fixpoint plumb (c : cmd (list Z)) (f : fdt) (id : nat) : list act * nat :=
  match c with
  | EXEC [] => ([], id)
  | EXEC argv => ([Runs argv f], id)
  | REDIR c file mode fd => plumb c (<[fd := Opened file mode]> f) id
  | LIST l r => let '(a, id) := plumb l f id in let '(b, id) := plumb r f id in (a ++ Waits f :: b, id)
  | PIPE l r =>
      let '(a, id') := plumb l (<[1 := PipeW id]> f) (S id) in
      let '(b, id') := plumb r (<[0 := PipeR id]> f) id' in
      (a ++ b ++ [Waits f; Waits f], id')
  | BACK c => plumb c f id
  end.

(** The parser redirects descriptors 0 and 1 only. *)
Fixpoint stdio (c : cmd (list Z)) : bool :=
  match c with
  | EXEC _ => true
  | REDIR c _ _ fd => ((fd =? 0) || (fd =? 1)) && stdio c
  | LIST l r | PIPE l r => stdio l && stdio r
  | BACK c => stdio c
  end.

(** Input and output are open, and two descriptors are free. *)
Record ready (f : fdt) : Prop := {
  rd_in : is_Some (f !! 0);
  rd_out : is_Some (f !! 1);
  rd_free : exists p q, p <> q /\ 0 <= p < NOFILE /\ 0 <= q < NOFILE /\ f !! p = None /\ f !! q = None
}.

(** ** Descriptors *)

Lemma find_seqZ (P : Z -> bool) n a p :
  a <= p < a + Z.of_nat n -> P p = true ->
  exists d, find P (seqZ a (Z.of_nat n)) = Some d /\ a <= d < a + Z.of_nat n /\ P d = true.
Proof.
  revert a. induction n as [|n IH]; intros a Hp HP; [lia|].
  rewrite seqZ_cons by lia. simpl. destruct (P a) eqn:E; [exists a; repeat split; done || lia|].
  replace (Z.pred (Z.of_nat (S n))) with (Z.of_nat n) by lia.
  assert (p <> a) by congruence.
  destruct (IH (Z.succ a)) as (d & -> & Hd & Ed); [lia|done|]. exists d. repeat split; done || lia.
Qed.

Lemma lowest_some {A} (f : gmap Z A) p : 0 <= p < NOFILE -> f !! p = None -> exists d, lowest f = Some d /\ 0 <= d < NOFILE /\ f !! d = None.
Proof.
  intros Hp Hf. destruct (find_seqZ (fun i => bool_decide (f !! i = None)) 16 0 p) as (d & E & Hd & Ed); [exact Hp|by apply bool_decide_eq_true|].
  exists d. repeat split; [exact E|apply Hd|apply Hd|by apply bool_decide_eq_true in Ed].
Qed.

Lemma lowest_0 {A} (f : gmap Z A) : f !! 0 = None -> lowest f = Some 0.
Proof. intros E. unfold lowest. change (seqZ 0 NOFILE) with (0 :: seqZ 1 15). cbn [find]. by rewrite (bool_decide_true _ E). Qed.

Lemma lowest_1 {A} (f : gmap Z A) : is_Some (f !! 0) -> f !! 1 = None -> lowest f = Some 1.
Proof. intros [x E0] E. unfold lowest. change (seqZ 0 NOFILE) with (0 :: 1 :: seqZ 2 14). cbn [find]. rewrite E0. by rewrite (bool_decide_true _ E). Qed.

Lemma ready_insert f d x : d = 0 \/ d = 1 -> ready f -> ready (<[d := x]> f).
Proof.
  intros Hd [H0 H1 (p & q & Hpq & Hp & Hq & Ep & Eq)].
  assert (p <> d /\ q <> d) as [] by (destruct H0, H1, Hd; subst; split; congruence).
  constructor; [destruct (decide (d = 0)) as [->|]; by simplify_map_eq | destruct (decide (d = 1)) as [->|]; by simplify_map_eq |].
  exists p, q. rewrite !lookup_insert_ne by done. done.
Qed.

(** The two descriptors a pipe takes. *)
Lemma ready_pipe f x : ready f -> exists p0 p1, lowest f = Some p0 /\ lowest (<[p0 := x]> f) = Some p1 /\
  f !! p0 = None /\ f !! p1 = None /\ p0 <> p1 /\ 1 < p0 /\ 1 < p1.
Proof.
  intros [[x0 Ex0] [x1 Ex1] (p & q & Hpq & Hp & Hq & Ep & Eq)].
  destruct (lowest_some f p) as (p0 & E0 & H0 & F0); [done..|].
  destruct (lowest_some (<[p0 := x]> f) (if decide (p0 = p) then q else p)) as (p1 & E1 & H1 & F1).
  { case_decide; lia. }
  { case_decide; subst; by rewrite lookup_insert_ne. }
  assert (p0 <> p1) by (intros ->; by simplify_map_eq). rewrite lookup_insert_ne in F1 by done.
  assert (forall d, 0 <= d -> f !! d = None -> 1 < d) as Hlow.
  { intros d Hd Ed. assert (d <> 0 /\ d <> 1) by (split; congruence). lia. }
  exists p0, p1. repeat split; try done; apply Hlow; lia || done.
Qed.

(** ** Following a program *)

Lemma plumbing_obs t t' n f id : observe t = observe t' -> plumbing n t f id = plumbing n t' f id.
Proof. destruct n as [|n]; [done|]. simpl. by intros ->. Qed.

Lemma plumbing_vis {X} t (e : sysE X) k n f id : observe t = VisF e k -> plumbing (S n) t f id = answer (plumbing n) e f id k.
Proof. simpl. by intros ->. Qed.

(** With enough fuel, [t] does [r]. *)
Definition does (t : prog void) (f : fdt) (id : nat) (r : list act * nat) : Prop :=
  exists n, forall m, (n <= m)%nat -> plumbing m t f id = Some r.

Lemma does_obs t t' f id r : observe t = observe t' -> does t' f id r -> does t f id r.
Proof. intros E [n H]. exists n. intros m Hm. rewrite (plumbing_obs _ _ _ _ _ E). auto. Qed.

Section Steps.
Context (f : fdt) (id : nat) (t : prog void).

Lemma does_exit st k : observe t = VisF (Exit st) k -> does t f id ([], id).
Proof. intros E. exists 1%nat. intros [|m] Hm; [lia|]. by rewrite (plumbing_vis _ _ _ _ _ _ E). Qed.

Lemma does_exec path argv k : observe t = VisF (Exec path argv) k -> does t f id ([Runs argv f], id).
Proof. intros E. exists 1%nat. intros [|m] Hm; [lia|]. by rewrite (plumbing_vis _ _ _ _ _ _ E). Qed.

Lemma does_fork k a i b j : observe t = VisF Fork k -> does (k 0) f id (a, i) -> does (k 1) f i (b, j) -> does t f id (a ++ b, j).
Proof.
  intros E [n Hn] [n' Hn']. exists (S (n + n')). intros [|m] Hm; [lia|].
  rewrite (plumbing_vis _ _ _ _ _ _ E). simpl. rewrite Hn by lia. simpl. by rewrite Hn' by lia.
Qed.

Lemma does_wait k l i : observe t = VisF Wait k -> does (k (1, 0)) f id (l, i) -> does t f id (Waits f :: l, i).
Proof. intros E [n Hn]. exists (S n). intros [|m] Hm; [lia|]. rewrite (plumbing_vis _ _ _ _ _ _ E). simpl. by rewrite Hn by lia. Qed.

Lemma does_close fd k r : observe t = VisF (Close fd) k -> is_Some (f !! fd) -> does (k 0) (delete fd f) id r -> does t f id r.
Proof. intros E [o Ho] [n Hn]. exists (S n). intros [|m] Hm; [lia|]. rewrite (plumbing_vis _ _ _ _ _ _ E). simpl. rewrite Ho. apply Hn. lia. Qed.

Lemma does_open path mode d k r : observe t = VisF (Open path mode) k -> lowest f = Some d ->
  does (k d) (<[d := Opened path mode]> f) id r -> does t f id r.
Proof. intros E Ed [n Hn]. exists (S n). intros [|m] Hm; [lia|]. rewrite (plumbing_vis _ _ _ _ _ _ E). simpl. rewrite Ed. apply Hn. lia. Qed.

Lemma does_dup fd o d k r : observe t = VisF (Dup fd) k -> f !! fd = Some o -> lowest f = Some d ->
  does (k d) (<[d := o]> f) id r -> does t f id r.
Proof. intros E Eo Ed [n Hn]. exists (S n). intros [|m] Hm; [lia|]. rewrite (plumbing_vis _ _ _ _ _ _ E). simpl. rewrite Eo, Ed. apply Hn. lia. Qed.

Lemma does_pipe p0 p1 k r : observe t = VisF Pipe k -> lowest f = Some p0 -> lowest (<[p0 := PipeR id]> f) = Some p1 ->
  does (k (Some (p0, p1))) (<[p1 := PipeW id]> (<[p0 := PipeR id]> f)) (S id) r -> does t f id r.
Proof. intros E E0 E1 [n Hn]. exists (S n). intros [|m] Hm; [lia|]. rewrite (plumbing_vis _ _ _ _ _ _ E). simpl. rewrite E0, E1. apply Hn. lia. Qed.

End Steps.

(** ** The theorem *)

Ltac inext := match goal with |- observe ?t = _ => let v := eval hnf in (observe t) in exact (eq_refl v) end.
Ltac istep l := eapply l; [inext | ..].
Ltac icont IH := eapply does_obs; [|apply IH]; [reflexivity|..].

(** The table of a side of a pipe: descriptor [d] is closed, the end [o]
    duplicated onto it, and both ends closed. *)
Lemma side_table (f : fdt) d p0 p1 x y o : p0 <> d -> p1 <> d -> f !! p0 = None -> f !! p1 = None ->
  delete p1 (delete p0 (<[d := o]> (delete d (<[p1 := y]> (<[p0 := x]> f))))) = <[d := o]> f.
Proof.
  intros. apply map_eq. intros i.
  destruct (decide (i = p1)) as [->|]; [by simplify_map_eq|]. destruct (decide (i = p0)) as [->|]; [by simplify_map_eq|].
  destruct (decide (i = d)) as [->|]; by simplify_map_eq.
Qed.

(** The table of the shell, when it has closed both ends. *)
Lemma closed_table (f : fdt) p0 p1 x y : f !! p0 = None -> f !! p1 = None -> delete p1 (delete p0 (<[p1 := y]> (<[p0 := x]> f))) = f.
Proof.
  intros. apply map_eq. intros i.
  destruct (decide (i = p1)) as [->|]; [by simplify_map_eq|]. destruct (decide (i = p0)) as [->|]; by simplify_map_eq.
Qed.

(** A side of a pipe. *)
Section Side.
Context (f : fdt) (id id' : nat) (p0 p1 d : Z) (p : Z) (t : prog void) (c : cmd (list Z)).
Context (R : ready f) (Hd : d = 0 \/ d = 1) (H0 : 1 < p0) (H1 : 1 < p1) (H01 : p0 <> p1) (F0 : f !! p0 = None) (F1 : f !! p1 = None).
Context (IH : forall f id, ready f -> does (runcmd c) f id (plumb c f id)).
Let f' : fdt := <[p1 := PipeW id]> (<[p0 := PipeR id]> f).

Lemma apart : p0 <> 0 /\ p0 <> 1 /\ p1 <> 0 /\ p1 <> 1 /\ p0 <> d /\ p1 <> d.
Proof using H0 H1 Hd H01. lia. Qed.

Lemma lowest_closed : lowest (delete d f') = Some d.
Proof using All.
  unfold f'. destruct R as [R0 R1 _]. destruct apart as (? & ? & ? & ? & ? & ?).
  destruct Hd as [E|E]; rewrite E; [apply lowest_0 | apply lowest_1]; simplify_map_eq; done.
Qed.

Lemma does_side o : f' !! p = Some o -> p <> d -> observe t = observe (sys (Close d) ;; sys (Dup p) ;; sys (Close p0) ;; sys (Close p1) ;; runcmd c)%prog ->
  does t f' id' (plumb c (<[d := o]> f) id').
Proof using All.
  intros Ho Hp E. eapply does_obs; [exact E|]. destruct R as [R0 R1 _]. destruct apart as (? & ? & ? & ? & ? & ?).
  istep does_close. { unfold f'. destruct Hd as [->| ->]; simplify_map_eq; done. }
  istep (fun f id t fd => does_dup f id t fd o d).
  { by rewrite lookup_delete_ne. }
  { apply lowest_closed. }
  istep does_close. { unfold f'. simplify_map_eq. done. }
  istep does_close. { unfold f'. simplify_map_eq. done. }
  unfold f'. rewrite side_table by (done || lia). icont IH. by apply ready_insert.
Qed.

End Side.

Lemma runcmd_does c : forall f id, ready f -> stdio c = true -> does (runcmd c) f id (plumb c f id).
Proof.
  induction c as [argv|c IH file mode fd|l IHl r IHr|l IHl r IHr|c IH]; intros f id R Hs; cbn in Hs; repeat apply andb_true_iff in Hs as [? Hs].
  - destruct argv as [|path argv]; [istep does_exit | istep does_exec].
  - assert (fd = 0 \/ fd = 1) as Hfd by lia.
    istep does_close.
    { destruct Hfd; subst; apply R. }
    istep (fun f id t path mode => does_open f id t path mode fd).
    { destruct Hfd; subst; [apply lowest_0 | apply lowest_1]; simplify_map_eq; try done. apply R. }
    rewrite insert_delete_eq. destruct Hfd; subst; icont IH; auto using ready_insert.
  - destruct (ready_pipe f (PipeR id) R) as (p0 & p1 & E0 & E1 & F0 & F1 & H01 & H0 & H1).
    cbn [plumb]. destruct (plumb l _ _) as [la i] eqn:El, (plumb r _ _) as [lb j] eqn:Er.
    eapply does_pipe; [inext|exact E0|exact E1|].
    istep does_fork. { rewrite <- El. eapply (does_side f id _ p0 p1 1 p1); eauto; [by simplify_map_eq|lia]. }
    istep does_fork. { rewrite <- Er. eapply (does_side f id _ p0 p1 0 p0); eauto; [by simplify_map_eq|lia]. }
    istep does_close. { by simplify_map_eq. }
    istep does_close. { by simplify_map_eq. }
    rewrite closed_table by done. istep does_wait. istep does_wait. istep does_exit.
  - cbn [plumb]. destruct (plumb l _ _) as [la i] eqn:El, (plumb r _ _) as [lb j] eqn:Er.
    istep does_fork. { rewrite <- El. by icont IHl. }
    istep does_wait. rewrite <- Er. by icont IHr.
  - cbn [plumb]. destruct (plumb c f id) as [l i] eqn:E. rewrite <- (app_nil_r l).
    istep does_fork. { rewrite <- E. by icont IH. }
    istep does_exit.
Qed.

(** ** A line of input *)

Lemma strings_of_map b c : strings_of b c = cmd_map (str_at b ∘ fst) c.
Proof. by induction c; simpl; f_equal. Qed.

Lemma stdio_redirect c rs : stdio (foldl redirect c rs) = stdio c.
Proof. revert c. induction rs as [|r rs IH]; intros c; [done|]. simpl. rewrite IH. simpl. by destruct (r.1 =? 60). Qed.

Lemma stdio_back n c : stdio (Nat.iter n BACK c) = stdio c.
Proof. by induction n. Qed.

(** The parser redirects descriptors 0 and 1 only. *)
Lemma stdio_line l : stdio (lcmd l) = true.
Proof.
  apply (line_mut (fun l => stdio (lcmd l) = true) (fun p => stdio (pcmd p) = true) (fun t => stdio (tcmd t) = true)); simpl;
    intros; rewrite ?stdio_redirect, ?stdio_back; simpl; rewrite ?stdio_back; auto using andb_true_intro.
Qed.

Lemma spelled_space toks c b : is_space c = true -> spelled toks (c :: b) -> spelled toks b.
Proof.
  intros Hc H. inversion H as [ws Hw|ws t toks' r Hw Ht Hs Hr E1 E2]; subst.
  - apply Forall_cons in Hw as [_ Hw]. by constructor.
  - destruct ws as [|d ws]; simpl in E2.
    + destruct (tok_first t r Ht) as (Hn & _ & _). rewrite E2 in Hn. simpl in Hn. congruence.
    + injection E2 as -> <-. apply Forall_cons in Hw as [_ Hw]. by constructor.
Qed.

Lemma spelled_blanks toks b : spelled toks b -> spelled toks (skip_blanks b).
Proof.
  induction b as [|c b IH]; intros H; simpl; [done|]. destruct ((c =? 32) || (c =? 9)) eqn:E; [|done].
  apply IH, (spelled_space _ c); [|done]. apply orb_true_iff in E as [E|E]; apply Z.eqb_eq in E as ->; done.
Qed.

Lemma until_nul_id b : Forall (fun c => c <> 0) b -> until_nul b = b.
Proof. induction 1 as [|c b Hc H IH]; [done|]. simpl. apply Z.eqb_neq in Hc as ->. by rewrite IH. Qed.

Lemma spelled_no_nul toks b : spelled toks b -> Forall (fun c => c <> 0) b.
Proof.
  assert (forall ws, Forall (fun c => is_space c = true) ws -> Forall (fun c => c <> 0) ws) as Hws.
  { intros ws Hw. eapply Forall_impl; [exact Hw|]. intros c Hc ->. discriminate. }
  induction 1 as [ws Hw|ws t toks r Hw Ht _ _ IH]; [auto|]. rewrite !Forall_app. repeat split; auto.
  destruct t as [c| |w]; simpl in *.
  - constructor; [|done]. intros ->. discriminate.
  - by repeat constructor.
  - eapply Forall_impl; [apply Ht|]. intros c Hc ->. discriminate.
Qed.

Lemma observe_bind_eq {A B} (t : prog A) (k : A -> prog B) : observe (ITree.bind t k) =
  match observe t with RetF x => observe (k x) | TauF t => TauF (ITree.bind t k) | VisF e h => VisF e (fun x => ITree.bind (h x) k) end.
Proof.
  change (observe (ITree.bind t k)) with
    (observe (match observe t with RetF x => k x | TauF t => Tau (ITree.bind t k) | VisF e h => Vis e (fun x => ITree.bind (h x) k) end)).
  by destruct (observe t).
Qed.

(** A program that does not return can be followed by anything. *)
Lemma plumbing_void {A} n : forall (t : prog void) (g : void -> prog A) k f id,
  plumbing n (ITree.bind (ITree.bind t g) k) f id = plumbing n t f id.
Proof.
  induction n as [|n IH]; intros t g k f id; [done|]. cbn [plumbing].
  rewrite !observe_bind_eq. destruct (observe t) as [[]|t'|X e h]; [apply IH|].
  destruct e; simpl; repeat match goal with |- context [lowest ?f] => destruct (lowest f) | |- context [_ !! ?d] => destruct (_ !! d) end;
    rewrite ?IH; try done.
  destruct (plumbing n (h 0) f id) as [[a i]|]; [|done]. simpl. by rewrite IH.
Qed.

Lemma does_void {A} (t : prog void) (g : void -> prog A) k f id r : does t f id r -> does (ITree.bind (ITree.bind t g) k) f id r.
Proof. intros [n H]. exists n. intros m Hm. rewrite plumbing_void. auto. Qed.

(** One line of input: not blank, and not a change of directory. *)
Definition for_child (b : list Z) : bool :=
  let cmd := skip_blanks b in
  negb (hd 0 cmd =? 10) && negb ((nth 0 cmd 0 =? 99) && (nth 1 cmd 0 =? 100) && (nth 2 cmd 0 =? 32)).

Lemma run_line_does l b f id : ready f -> lok l -> spelled (ltoks l) b -> for_child b = true ->
  does (run_line b ;; exit 0)%prog f id (fst (plumb (lcmd l) f id) ++ [Waits f], snd (plumb (lcmd l) f id)).
Proof.
  intros R Hl Hb Hc. apply andb_true_iff in Hc as [H1%negb_true_iff H2%negb_true_iff].
  apply spelled_blanks in Hb. destruct (parsecmd_reads _ _ Hl Hb) as (c & buf & s & E & Ec).
  unfold run_line. rewrite H1, H2, (until_nul_id _ (spelled_no_nul _ _ Hb)), E.
  destruct (plumb (lcmd l) f id) as [a i] eqn:Ep. simpl.
  istep does_fork.
  - rewrite <- Ep, <- Ec, <- strings_of_map. apply (does_obs _ (ITree.bind (ITree.bind (runcmd (strings_of buf c)) (fun v : void => match v return prog unit with end)) (fun _ => exit 0))).
    { reflexivity. }
    apply does_void, runcmd_does; [done|]. rewrite strings_of_map, Ec. apply stdio_line.
  - istep does_wait. istep does_exit.
Qed.

(** C18. What the shell does with a line: for every spelling [b] of a line of
    the grammar, the child of the shell executes exactly the programs of the
    line, in all the processes it forks, each with the descriptors of the
    shell but for its redirections and with one end of its pipes as standard
    input or output; no other end of a pipe is open in any program, the
    shells that wait for a pipe have closed both ends (so that readers see
    the end of the input), and the shell itself waits for the child with its
    own descriptors unchanged. *)
Theorem shell_line_correct (l : line) (b : list Z) (f : fdt) (id : nat) :
  ready f -> lok l -> spelled (ltoks l) b -> for_child b = true ->
  exists n, forall m, (n <= m)%nat ->
    plumbing m (run_line b ;; exit 0)%prog f id = Some (fst (plumb (lcmd l) f id) ++ [Waits f], snd (plumb (lcmd l) f id)).
Proof. apply run_line_does. Qed.

(** "ls>o;(a|b)&" in a shell that the first process started. *)
Definition sample_table : fdt := <[0 := Given 0]> (<[1 := Given 1]> (<[2 := Given 2]> ∅)).

Lemma shell_line_correct_witness :
  exists n, forall m, (n <= m)%nat ->
    plumbing m (run_line [108; 115; 62; 111; 59; 40; 97; 32; 124; 98; 41; 38; 10] ;; exit 0)%prog sample_table 0%nat =
      Some ([Runs [[108; 115]] (<[1 := Opened [111] 1537]> sample_table); Waits sample_table;
             Runs [[97]] (<[1 := PipeW 0]> sample_table); Runs [[98]] (<[0 := PipeR 0]> sample_table);
             Waits sample_table; Waits sample_table; Waits sample_table], 1%nat).
Proof.
  apply (shell_line_correct sample_line).
  - constructor; [by eexists..|]. exists 3, 4. done.
  - repeat split; (done || by repeat constructor).
  - exact sample_spelled.
  - done.
Defined.
