(* ===== verification/UserProg.v ===== *)
(** * User programs (user/cat.c, wc.c, grep.c, ls.c, echo.c, kill.c, ln.c, rm.c,
    mkdir.c, zombie.c, init.c)

    Each program is its [main], given the arguments after the name of the
    program; the loop over the arguments is structural, the loop over a file
    and the loops without end are [ITree.iter]. *)

From ITree Require Import ITree.
From S2P Require Import Prelude KState Fs Printf Console Ulib Syscall Grep.
#[local] Open Scope prog_scope.

(** ** cat *)

Definition cat (fd : Z) : prog unit :=
  ITree.iter (fun _ : unit =>
    r <- sys (Read fd 512) ;;
    match r with
    | None => fprintf 2 (strn "cat: read error") [] ;; exit 1
    | Some [] => Ret (inr tt)
    | Some buf =>
        n <- sys (Write 1 buf) ;;
        if negb (n =? Z.of_nat (length buf)) then fprintf 2 (strn "cat: write error") [] ;; exit 1
        else Ret (inl tt)
    end) tt.

Fixpoint cat_files (argv : list (list Z)) : prog unit :=
  match argv with
  | [] => Ret tt
  | a :: argv =>
      fd <- sys (Open a O_RDONLY) ;;
      if fd <? 0 then fprintf 2 (strn "cat: cannot open %s") [Str (Some a)] ;; exit 1 else
      cat fd ;;
      sys (Close fd) ;;
      cat_files argv
  end.

Definition cat_main (argv : list (list Z)) : prog void :=
  match argv with
  | [] => cat 0 ;; exit 0
  | _ => cat_files argv ;; exit 0
  end.

(** ** wc *)

(** Lines, words and bytes so far, and [inword]. *)
Record counts : Type := mkCounts { c_l : Z; c_w : Z; c_c : Z; c_inword : bool }.

(** One byte: [strchr] finds it among the white space, or not. *)
Definition count (s : counts) (b : Z) : counts :=
  let l := if b =? 10 then s32 (c_l s + 1) else c_l s in
  let c := s32 (c_c s + 1) in
  if bool_decide (b ∈ [32; 13; 9; 10; 11]) then mkCounts l (c_w s) c false
  else if c_inword s then mkCounts l (c_w s) c true
  else mkCounts l (s32 (c_w s + 1)) c true.

(** One round of the reading loop. *)
Definition wc_round (fd : Z) (s : counts) : prog (counts + counts) :=
  r <- sys (Read fd 512) ;;
  match r with
  | None => printf (strn "wc: read error") [] ;; exit 1
  | Some [] => Ret (inr s)
  | Some buf => Ret (inl (fold_left count buf s))
  end.

Definition wc (fd : Z) (name : list Z) : prog unit :=
  s <- ITree.iter (wc_round fd) (mkCounts 0 0 0 false) ;;
  printf (strn "%d %d %d %s") [Num (c_l s); Num (c_w s); Num (c_c s); Str (Some name)].

Fixpoint wc_files (argv : list (list Z)) : prog unit :=
  match argv with
  | [] => Ret tt
  | a :: argv =>
      fd <- sys (Open a O_RDONLY) ;;
      if fd <? 0 then printf (strn "wc: cannot open %s") [Str (Some a)] ;; exit 1 else
      wc fd a ;;
      sys (Close fd) ;;
      wc_files argv
  end.

Definition wc_main (argv : list (list Z)) : prog void :=
  match argv with
  | [] => wc 0 [] ;; exit 0
  | _ => wc_files argv ;; exit 0
  end.

(** ** grep *)

(** One round of [while((q = strchr(p, '\n')) != 0)]: the buffer and [p]. *)
Definition grep_line (pattern : list Z) (st : list Z * nat) : prog (list Z * nat + list Z * nat) :=
  let '(buf, p) := st in
  match strchr_at buf p 10 with
  | None => Ret (inr (buf, p))
  | Some q =>
      let buf := <[q := 0]> buf in
      if grep_match pattern (str_at buf p) then
        let buf := <[q := 10]> buf in
        sys (Write 1 (take (q + 1 - p) (drop p buf))) ;;
        Ret (inl (buf, (q + 1)%nat))
      else Ret (inl (buf, (q + 1)%nat))
  end.

(** One round of the reading loop: the buffer and [m]. *)
Definition grep_round (pattern : list Z) (fd : Z) (st : list Z * nat) : prog (list Z * nat + list Z) :=
  let '(buf, m) := st in
  r <- sys (Read fd (Z.of_nat (BUFSZ - m - 1))) ;;
  match r with
  | None | Some [] => Ret (inr buf)
  | Some bs =>
      let buf := put_at buf m bs in
      let m := (m + length bs)%nat in
      st <- ITree.iter (grep_line pattern) (<[m := 0]> buf, 0%nat) ;;
      let '(buf, p) := st in
      if (0 <? m)%nat then Ret (inl (put_at buf 0 (take (m - p) (drop p buf)), (m - p)%nat))
      else Ret (inl (buf, m))
  end.

(** The buffer is static: the next file finds what the last one left there. *)
Definition grep_fd (pattern : list Z) (buf : list Z) (fd : Z) : prog (list Z) := ITree.iter (grep_round pattern fd) (buf, 0%nat).

Fixpoint grep_files (pattern buf : list Z) (argv : list (list Z)) : prog unit :=
  match argv with
  | [] => Ret tt
  | a :: argv =>
      fd <- sys (Open a O_RDONLY) ;;
      if fd <? 0 then printf (strn "grep: cannot open %s") [Str (Some a)] ;; exit 1 else
      buf <- grep_fd pattern buf fd ;;
      sys (Close fd) ;;
      grep_files pattern buf argv
  end.

Definition grep_main (argv : list (list Z)) : prog void :=
  match argv with
  | [] => fprintf 2 (strn "usage: grep pattern [file ...]") [] ;; exit 1
  | [pattern] => grep_fd pattern (replicate BUFSZ 0) 0 ;; exit 0
  | pattern :: argv => grep_files pattern (replicate BUFSZ 0) argv ;; exit 0
  end.

(** ** ls *)

(** What follows the last slash. *)
Fixpoint after_slash (path : list Z) : list Z :=
  match path with
  | [] => []
  | c :: path' => if existsb (Z.eqb 47) path' then after_slash path' else if c =? 47 then path' else path
  end.

Definition fmtname (path : list Z) : list Z :=
  let p := after_slash path in
  if Z.of_nat (length p) >=? DIRSIZ then p
  else p ++ replicate (Z.to_nat DIRSIZ - length p) 32.

Definition ls_print (path : list Z) (st : Fs.stat) : prog unit :=
  printf (strn "%s %d %d %d") [Str (Some (fmtname path)); Num (st_type st); Num (st_ino st); Num (st_size st)].

(** The entries of the directory open as [fd]. *)
Definition ls_dir (fd : Z) (path : list Z) : prog unit :=
  ITree.iter (fun _ : unit =>
    r <- sys (Read fd DIRENT) ;;
    match r with
    | Some de =>
        if Z.of_nat (length de) =? DIRENT then
          if de_inum de =? 0 then Ret (inl tt) else
          let buf := path ++ [47] ++ until_nul (drop 2 de) in
          st <- stat buf ;;
          match st with
          | None => printf (strn "ls: cannot stat %s") [Str (Some buf)] ;; Ret (inl tt)
          | Some st => ls_print buf st ;; Ret (inl tt)
          end
        else Ret (inr tt)
    | None => Ret (inr tt)
    end) tt.

Definition ls (path : list Z) : prog unit :=
  fd <- sys (Open path O_RDONLY) ;;
  if fd <? 0 then fprintf 2 (strn "ls: cannot open %s") [Str (Some path)] else
  r <- sys (Fstat fd) ;;
  match r with
  | None => fprintf 2 (strn "ls: cannot stat %s") [Str (Some path)] ;; sys (Close fd) ;; Ret tt
  | Some st =>
      (if (st_type st =? T_DEVICE) || (st_type st =? T_FILE) then ls_print path st
       else if st_type st =? T_DIR then
         if Z.of_nat (length path) + 1 + DIRSIZ + 1 >? 512 then printf (strn "ls: path too long") []
         else ls_dir fd path
       else Ret tt) ;;
      sys (Close fd) ;; Ret tt
  end.

Fixpoint ls_all (argv : list (list Z)) : prog unit :=
  match argv with
  | [] => Ret tt
  | a :: argv => ls a ;; ls_all argv
  end.

Definition ls_main (argv : list (list Z)) : prog void :=
  match argv with
  | [] => ls (str ".") ;; exit 0
  | _ => ls_all argv ;; exit 0
  end.

(** ** echo, kill, ln, rm, mkdir, zombie *)

Fixpoint echo_args (argv : list (list Z)) : prog unit :=
  match argv with
  | [] => Ret tt
  | a :: argv =>
      sys (Write 1 a) ;;
      sys (Write 1 (match argv with [] => [10] | _ => [32] end)) ;;
      echo_args argv
  end.

Definition echo_main (argv : list (list Z)) : prog void := echo_args argv ;; exit 0.

Fixpoint kill_all (argv : list (list Z)) : prog unit :=
  match argv with
  | [] => Ret tt
  | a :: argv => sys (Kill (atoi a)) ;; kill_all argv
  end.

Definition kill_main (argv : list (list Z)) : prog void :=
  match argv with
  | [] => fprintf 2 (strn "usage: kill pid...") [] ;; exit 1
  | _ => kill_all argv ;; exit 0
  end.

Definition ln_main (argv : list (list Z)) : prog void :=
  match argv with
  | [old; new] =>
      r <- sys (Link old new) ;;
      (if r <? 0 then fprintf 2 (strn "link %s %s: failed") [Str (Some old); Str (Some new)] else Ret tt) ;;
      exit 0
  | _ => fprintf 2 (strn "Usage: ln old new") [] ;; exit 1
  end.

Fixpoint rm_all (argv : list (list Z)) : prog unit :=
  match argv with
  | [] => Ret tt
  | a :: argv =>
      r <- sys (Unlink a) ;;
      if r <? 0 then fprintf 2 (strn "rm: %s failed to delete") [Str (Some a)]
      else rm_all argv
  end.

Definition rm_main (argv : list (list Z)) : prog void :=
  match argv with
  | [] => fprintf 2 (strn "Usage: rm files...") [] ;; exit 1
  | _ => rm_all argv ;; exit 0
  end.

Fixpoint mkdir_all (argv : list (list Z)) : prog unit :=
  match argv with
  | [] => Ret tt
  | a :: argv =>
      r <- sys (Mkdir a) ;;
      if r <? 0 then fprintf 2 (strn "mkdir: %s failed to create") [Str (Some a)]
      else mkdir_all argv
  end.

Definition mkdir_main (argv : list (list Z)) : prog void :=
  match argv with
  | [] => fprintf 2 (strn "Usage: mkdir files...") [] ;; exit 1
  | _ => mkdir_all argv ;; exit 0
  end.

Definition zombie_main : prog void :=
  pid <- sys Fork ;;
  (if pid >? 0 then sys (Pause 5) ;; Ret tt else Ret tt) ;;
  exit 0.

(** ** init *)

(** The inner loop: wait until the shell [pid] exits. *)
Definition reap (pid : Z) : prog unit :=
  ITree.iter (fun _ : unit =>
    r <- sys Wait ;;
    let wpid := fst r in
    if wpid =? pid then Ret (inr tt)
    else if wpid <? 0 then printf (strn "init: wait returned an error") [] ;; exit 1
    else Ret (inl tt)) tt.

Definition init_main : prog void :=
  fd <- sys (Open (str "console") O_RDWR) ;;
  (if fd <? 0 then
     sys (Mknod (str "console") CONSOLE 0) ;;
     sys (Open (str "console") O_RDWR) ;;
     Ret tt
   else Ret tt) ;;
  sys (Dup 0) ;;
  sys (Dup 0) ;;
  ITree.iter (fun _ : unit =>
    printf (strn "init: starting sh") [] ;;
    pid <- sys Fork ;;
    if pid <? 0 then printf (strn "init: fork failed") [] ;; exit 1
    else if pid =? 0 then
      sys (Exec (str "sh") [str "sh"]) ;;
      printf (strn "init: exec sh failed") [] ;;
      exit 1
    else
      reap pid ;;
      Ret (inl tt)) tt.
