(* ===== verification/UserWorld.v ===== *)
(** * Running a user program that does not fork

    [run] follows a program to its end: [handle] answers its system calls or
    ends it.  In a [world] of files, [handle] knows the contents of the files,
    what is left to read from each open descriptor, and what was written to the
    standard output and error.  A read returns as many bytes as there are, at
    most the number asked for; how many are there at the [k]th read is a
    parameter [avail], so that a theorem for all [avail] holds of files, pipes
    and the console alike. *)

From ITree Require Import ITree.
From stdpp Require Import gmap.
From S2P Require Import Prelude Riscv KState Fs Printf Ulib Syscall ShRun ShRunSpec.

(** ** Programs and answers *)

Section Run.
Context {W : Type} (handle : forall X, sysE X -> W -> (X + Z) * W).
Context (handle_exit : forall st w, handle _ (Exit st) w = (inr st, w)).
#[local] Arguments handle {X}.

Fixpoint run {A} (fuel : nat) (t : prog A) (w : W) : option ((A + Z) * W) :=
  match fuel with
  | O => None
  | S fuel =>
      match observe t with
      | RetF a => Some (inl a, w)
      | TauF t => run fuel t w
      | VisF e k =>
          match handle e w with
          | (inl x, w) => run fuel (k x) w
          | (inr status, w) => Some (inr status, w)
          end
      end
  end.

(** With enough fuel, [t] ends with [r]. *)
Definition runs {A} (t : prog A) (w : W) (r : (A + Z) * W) : Prop :=
  exists n, forall m, (n <= m)%nat -> run m t w = Some r.

(** ** Rules *)

Lemma runs_obs {A} (t t' : prog A) w r : observe t = observe t' -> runs t' w r -> runs t w r.
Proof. intros E [n H]. exists n. intros m Hm. specialize (H m Hm). destruct m as [|m]; [done|]. simpl in *. by rewrite E. Qed.

Lemma runs_ret {A} (a : A) w : runs (Ret a) w (inl a, w).
Proof. exists 1%nat. intros [|m] Hm; [lia|done]. Qed.

Lemma runs_tau {A} (t t' : prog A) w r : observe t = TauF t' -> runs t' w r -> runs t w r.
Proof. intros E [n H]. exists (S n). intros [|m] Hm; [lia|]. simpl. rewrite E. apply H. lia. Qed.

Lemma runs_vis {A X} (t : prog A) (e : sysE X) k w x w' r : observe t = VisF e k -> handle e w = (inl x, w') -> runs (k x) w' r -> runs t w r.
Proof. intros E Eh [n H]. exists (S n). intros [|m] Hm; [lia|]. simpl. rewrite E, Eh. apply H. lia. Qed.

Lemma runs_bind_run {A B} n : forall (t : prog A) (k : A -> prog B) w a w' r,
  run n t w = Some (inl a, w') -> runs (k a) w' r -> runs (ITree.bind t k) w r.
Proof.
  induction n as [|n IH]; intros t k w a w' r H Hk; [done|]. simpl in H. pose proof (observe_bind_eq t k) as Eb.
  destruct (observe t) as [x|t'|X e h]; [injection H as -> ->; by eapply runs_obs|by eapply runs_tau; [exact Eb|eapply IH]|].
  destruct (handle e w) as [[x|st] w1] eqn:Eh; [|done]. eapply runs_vis; [exact Eb|exact Eh|]. by eapply IH.
Qed.

Lemma runs_bind {A B} (t : prog A) (k : A -> prog B) w a w' r : runs t w (inl a, w') -> runs (k a) w' r -> runs (ITree.bind t k) w r.
Proof. intros [n H]. apply (runs_bind_run n). by apply H. Qed.

Lemma runs_stop_run {A B} n : forall (t : prog A) (k : A -> prog B) w st w',
  run n t w = Some (inr st, w') -> runs (ITree.bind t k) w (inr st, w').
Proof.
  induction n as [|n IH]; intros t k w st w' H; [done|]. simpl in H. pose proof (observe_bind_eq t k) as Eb.
  destruct (observe t) as [x|t'|X e h]; [done|by eapply runs_tau; [exact Eb|eapply IH]|].
  destruct (handle e w) as [[x|st1] w1] eqn:Eh; [eapply runs_vis; [exact Eb|exact Eh|by eapply IH]|].
  injection H as -> ->. exists 1%nat. intros [|m] Hm; [lia|]. cbn [run]. by rewrite Eb, Eh.
Qed.

(** A program that exits stops. *)
Lemma runs_stop {A B} (t : prog A) (k : A -> prog B) w st w' : runs t w (inr st, w') -> runs (ITree.bind t k) w (inr st, w').
Proof. intros [n H]. apply (runs_stop_run n). by apply H. Qed.

Lemma runs_sys {A X} (e : sysE X) (k : X -> prog A) w x w' r : handle e w = (inl x, w') -> runs (k x) w' r -> runs (ITree.bind (sys e) k) w r.
Proof. intros E H. eapply runs_bind; [|exact H]. exists 2%nat. intros [|[|m]] Hm; [lia..|]. simpl. by rewrite E. Qed.

Lemma runs_exit {A} st w : runs (exit (A := A) st) w (inr st, w).
Proof using handle_exit. exists 1%nat. intros [|m] Hm; [lia|]. simpl. by rewrite handle_exit. Qed.

Lemma runs_iter {I R} (f : I -> prog (I + R)) i j w w' r : runs (f i) w (inl (inl j), w') -> runs (ITree.iter f j) w' r -> runs (ITree.iter f i) w r.
Proof.
  intros H Hj. apply (runs_obs _ (ITree.bind (f i) (fun lr => match lr with inl l => Tau (ITree.iter f l) | inr x => Ret x end))); [reflexivity|].
  eapply runs_bind; [exact H|]. by eapply runs_tau.
Qed.

Lemma runs_iter_done {I R} (f : I -> prog (I + R)) i x w w' : runs (f i) w (inl (inr x), w') -> runs (ITree.iter f i) w (inl x, w').
Proof.
  intros H. apply (runs_obs _ (ITree.bind (f i) (fun lr => match lr with inl l => Tau (ITree.iter f l) | inr x => Ret x end))); [reflexivity|].
  eapply runs_bind; [exact H|]. apply runs_ret.
Qed.

(** A descriptor to which every write succeeds: [put] appends to what was
    written there. *)
Lemma runs_fprintf_to fd (put : list Z -> W -> W) :
  (forall bs w, handle (Write fd bs) w = (inl (Z.of_nat (length bs)), put bs w)) ->
  (forall w, put [] w = w) -> (forall a b w, put b (put a w) = put (a ++ b) w) ->
  forall fmt args w, runs (fprintf fd fmt args) w (inl tt, put (map u8 (vprintf udigits fmt args)) w).
Proof.
  intros Hw Hnil Happ fmt args w. unfold fprintf. generalize (vprintf udigits fmt args) as cs. intros cs. revert w.
  induction cs as [|c cs IH]; intros w; cbn [put_all map]; [rewrite Hnil; apply runs_ret|].
  eapply (runs_bind _ _ _ tt (put [u8 c] w)).
  - eapply runs_sys; [apply Hw|apply runs_ret].
  - replace (put (u8 c :: map u8 cs) w) with (put (map u8 cs) (put [u8 c] w)) by apply Happ. apply IH.
Qed.

End Run.

(** ** Files and output *)

Record world : Type := mkWorld {
  w_files : gmap (list Z) (list Z);
  w_fds : gmap Z (list Z);
  w_reads : nat;
  w_out : list Z;
  w_err : list Z
}.

Definition set_fds (g : gmap Z (list Z)) (w : world) : world := mkWorld (w_files w) g (w_reads w) (w_out w) (w_err w).
Definition set_files (g : gmap (list Z) (list Z)) (w : world) : world := mkWorld g (w_fds w) (w_reads w) (w_out w) (w_err w).
Definition after_read (fd : Z) (rest : list Z) (w : world) : world := mkWorld (w_files w) (<[fd := rest]> (w_fds w)) (S (w_reads w)) (w_out w) (w_err w).
Definition emit (fd : Z) (bs : list Z) (w : world) : world :=
  mkWorld (w_files w) (w_fds w) (w_reads w) (if fd =? 1 then w_out w ++ bs else w_out w) (if fd =? 2 then w_err w ++ bs else w_err w).

Section Files.
Context (avail : nat -> Z).


(** An answer, or the status of a program that exits. *)
Definition handle {X} (e : sysE X) (w : world) : (X + Z) * world :=
  match e in sysE X return (X + Z) * world with
  | Exit status => (inr status, w)
  | Read fd n =>
      match w_fds w !! fd with
      | Some rest =>
          let bs := take (Z.to_nat n `min` Z.to_nat (avail (w_reads w))) rest in
          (inl (Some bs), after_read fd (drop (length bs) rest) w)
      | None => (inl None, w)
      end
  | Write fd bs =>
      if (fd =? 1) || (fd =? 2) then (inl (Z.of_nat (length bs)), emit fd bs w) else (inl (-1), w)
  | Open path _ =>
      match w_files w !! path, lowest (w_fds w) with
      | Some c, Some fd => (inl fd, set_fds (<[fd := c]> (w_fds w)) w)
      | _, _ => (inl (-1), w)
      end
  | Close fd =>
      match w_fds w !! fd with
      | Some _ => (inl 0, set_fds (delete fd (w_fds w)) w)
      | None => (inl (-1), w)
      end
  | Unlink path =>
      match w_files w !! path with
      | Some _ => (inl 0, set_files (delete path (w_files w)) w)
      | None => (inl (-1), w)
      end
  | Pipe => (inl None, w)
  | Fstat _ => (inl None, w)
  | Memstats => (inl None, w)
  | Store _ _ _ => (inl tt, w)
  | Wait => (inl (-1, 0), w)
  | Fork | Kill _ | Exec _ _ | Mknod _ _ _ | Link _ _ | Mkdir _ | Chdir _ | Dup _ | Getpid | Sbrk _ _ | Pause _ | Uptime
  | Load _ _ | WriteAt _ _ _ | ReadAt _ _ _ | OpenAt _ _ | UnlinkAt _ | LinkAt _ _ | ExecAt _ _ | PipeAt _ => (inl (-1), w)
  end.

(** ** Output *)

#[local] Abbreviation runs := (runs (@handle)).

Lemma emit_nil fd w : emit fd [] w = w.
Proof. unfold emit. rewrite !app_nil_r. destruct w. cbn. by destruct (fd =? 1), (fd =? 2). Qed.

Lemma emit_emit fd a b w : emit fd b (emit fd a w) = emit fd (a ++ b) w.
Proof. unfold emit. cbn. destruct (fd =? 1), (fd =? 2); by rewrite <- ?app_assoc. Qed.

Lemma runs_fprintf fd fmt args w : fd = 1 \/ fd = 2 -> runs (fprintf fd fmt args) w (inl tt, emit fd (map u8 (vprintf udigits fmt args)) w).
Proof.
  intros Hfd. apply (runs_fprintf_to _ fd (emit fd)); [|intros; apply emit_nil|intros; apply emit_emit]. intros bs w'. by destruct Hfd as [->| ->].
Qed.

Lemma runs_exit_msg {A} fd fmt args st w : fd = 1 \/ fd = 2 ->
  runs (fprintf fd fmt args ;; exit (A := A) st)%prog w (inr st, emit fd (map u8 (vprintf udigits fmt args)) w).
Proof. intros H. eapply runs_bind; [by apply runs_fprintf|]. by apply runs_exit. Qed.

End Files.
