(* ===== verification/UserProgSpec.v ===== *)
(** * What the user programs do

    [cat], [wc] and [grep], run to their end in a [world]: what they write, for
    every way in which the reads cut their input, and what they leave open. *)

From ITree Require Import ITree.
From stdpp Require Import gmap.
From S2P Require Import Prelude Riscv KState Fs Printf Ulib Syscall Grep GrepSpec.
From S2P Require Import ShRun ShRunSpec UserProg UserWorld.

(** From [w] to [w']: what was written, and the descriptors after. *)
Record wrote (w : world) (fds : gmap Z (list Z)) (out err : list Z) (w' : world) : Prop := {
  wr_files : w_files w' = w_files w;
  wr_fds : w_fds w' = fds;
  wr_out : w_out w' = w_out w ++ out;
  wr_err : w_err w' = w_err w ++ err
}.

Lemma wrote_trans w g a e w1 h b f w2 : wrote w g a e w1 -> wrote w1 h b f w2 -> wrote w h (a ++ b) (e ++ f) w2.
Proof. intros [A1 A2 A3 A4] [B1 B2 B3 B4]. split; [congruence|done|by rewrite B3, A3, app_assoc|by rewrite B4, A4, app_assoc]. Qed.

Lemma wrote_out bs w : wrote w (w_fds w) bs [] (emit 1 bs w).
Proof. split; try done; cbn; by rewrite ?app_nil_r. Qed.

Lemma wrote_err bs w : wrote w (w_fds w) [] bs (emit 2 bs w).
Proof. split; try done; cbn; by rewrite ?app_nil_r. Qed.

Lemma wrote_read fd rest w : wrote w (<[fd := rest]> (w_fds w)) [] [] (after_read fd rest w).
Proof. split; try done; cbn; by rewrite ?app_nil_r. Qed.

Lemma wrote_fds g w : wrote w g [] [] (set_fds g w).
Proof. split; try done; cbn; by rewrite ?app_nil_r. Qed.

Lemma wrote_self w : wrote w (w_fds w) [] [] w.
Proof. split; try done; cbn; by rewrite ?app_nil_r. Qed.

(** ** Counting *)

Definition blank (b : Z) : bool := bool_decide (b ∈ [32; 13; 9; 10; 11]).

(** The text cut at every white space, and the words: what is not empty. *)
Fixpoint fields (l : list Z) : list (list Z) :=
  match l with
  | [] => [[]]
  | b :: l => if blank b then [] :: fields l else (b :: hd [] (fields l)) :: tail (fields l)
  end.
Definition words (l : list Z) : list (list Z) := filter (fun f => f <> []) (fields l).

Definition newlines (l : list Z) : Z := Z.of_nat (length (filter (fun b => b = 10) l)).

(** The words of [l] that are still to count, inside a word or not. *)
Definition words_from (inword : bool) (l : list Z) : Z :=
  Z.of_nat (length (filter (fun f => f <> []) (if inword then tail (fields l) else fields l))).

Lemma words_from_cons i b l : words_from i (b :: l) = if blank b then words_from false l else (if i then 0 else 1) + words_from true l.
Proof.
  unfold words_from. cbn [fields]. destruct (blank b); cbn [tail].
  - destruct i; [done|]. by rewrite filter_cons_False by (intros H; by apply H).
  - destruct i; [done|]. rewrite filter_cons_True by done. cbn [length]. lia.
Qed.

Lemma words_from_bound i l : 0 <= words_from i l <= Z.of_nat (length l).
Proof.
  revert i. induction l as [|b l IH]; intros i; [by destruct i|]. rewrite words_from_cons. cbn [length].
  pose proof (IH false). pose proof (IH true). destruct (blank b), i; lia.
Qed.

Lemma newlines_cons b l : newlines (b :: l) = (if b =? 10 then 1 else 0) + newlines l.
Proof. unfold newlines. destruct (Z.eqb_spec b 10); [rewrite filter_cons_True by done; cbn [length]; lia|by rewrite filter_cons_False]. Qed.

Lemma newlines_bound l : 0 <= newlines l <= Z.of_nat (length l).
Proof. induction l as [|b l IH]; [done|]. rewrite newlines_cons. cbn [length]. destruct (b =? 10); lia. Qed.

Lemma count_all l : forall s, 0 <= c_l s <= c_c s -> 0 <= c_w s <= c_c s -> c_c s + Z.of_nat (length l) < 0x80000000 ->
  exists i, fold_left count l s = mkCounts (c_l s + newlines l) (c_w s + words_from (c_inword s) l) (c_c s + Z.of_nat (length l)) i.
Proof.
  induction l as [|b l IH]; intros [cl cw cc i] Hl Hw Hc; cbn [c_l c_w c_c c_inword length fold_left] in *.
  { exists i. assert (words_from i [] = 0) as -> by (by destruct i). change (newlines []) with 0. f_equal; lia. }
  rewrite words_from_cons, newlines_cons. unfold count at 2. fold (blank b). cbn [c_l c_w c_c c_inword].
  rewrite (s32_small (cc + 1)), (s32_small (cl + 1)), (s32_small (cw + 1)) by lia.
  destruct (blank b); [|destruct i]; destruct (b =? 10); 
    match goal with |- context [fold_left count l ?s] => destruct (IH s) as [j ->] end; cbn [c_l c_w c_c c_inword]; try lia; exists j; f_equal; lia.
Qed.

Section Programs.
Context (avail : nat -> Z) (Hav : forall k, 1 <= avail k).
#[local] Abbreviation runs := (runs (@handle avail)).

(** A read cuts the rest in two; it returns nothing only at the end. *)
Lemma read_cut fd n w rest : 0 < n -> w_fds w !! fd = Some rest -> exists bs rest',
  handle avail (Read fd n) w = (inl (Some bs), after_read fd rest' w) /\ rest = bs ++ rest' /\ (bs = [] -> rest = []).
Proof using Hav.
  intros Hn E. cbn [handle]. rewrite E. set (k := (Z.to_nat n `min` _)%nat). eexists _, _. split; [done|].
  assert (0 < k)%nat by (pose proof (Hav (w_reads w)); lia). split.
  - rewrite length_take. destruct (decide (k <= length rest)%nat).
    + rewrite Nat.min_l by done. by rewrite take_drop.
    + rewrite Nat.min_r by lia. by rewrite take_ge, drop_ge, app_nil_r by lia.
  - destruct k, rest; done || lia.
Qed.

(** ** One descriptor *)

Lemma cat_runs fd : forall n w rest, (length rest <= n)%nat -> w_fds w !! fd = Some rest ->
  exists w', runs (cat fd) w (inl tt, w') /\ wrote w (<[fd := []]> (w_fds w)) rest [] w'.
Proof using Hav.
  induction n as [|n IH]; intros w rest Hl E; destruct (read_cut fd 512 w rest ltac:(lia) E) as (bs & rest' & Eh & -> & Hn).
  all: destruct bs as [|b bs]; [destruct rest' as [|]; [|specialize (Hn eq_refl); done] |].
  all: try (cbn [length app] in Hl; lia).
  1, 2: eexists; split; [apply runs_iter_done; eapply runs_sys; [exact Eh|apply runs_ret]|apply wrote_read].
  destruct (IH (emit 1 (b :: bs) (after_read fd rest' w)) rest') as (w' & R & W).
  { rewrite length_app in Hl. cbn in Hl. lia. }
  { cbn. by rewrite lookup_insert_eq. }
  exists w'. split.
  - eapply runs_iter; [|exact R]. eapply runs_sys; [exact Eh|]. eapply runs_sys; [done|]. rewrite Z.eqb_refl. apply runs_ret.
  - pose proof (wrote_trans _ _ _ _ _ _ _ _ _ (wrote_trans _ _ _ _ _ _ _ _ _ (wrote_read fd rest' w) (wrote_out (b :: bs) _)) W) as W'.
    cbn in W'. by rewrite insert_insert_eq in W'.
Qed.

Lemma wc_runs fd : forall n w rest s, (length rest <= n)%nat -> w_fds w !! fd = Some rest ->
  exists w', runs (ITree.iter (wc_round fd) s) w (inl (fold_left count rest s), w') /\ wrote w (<[fd := []]> (w_fds w)) [] [] w'.
Proof using Hav.
  induction n as [|n IH]; intros w rest s Hl E; destruct (read_cut fd 512 w rest ltac:(lia) E) as (bs & rest' & Eh & -> & Hn).
  all: destruct bs as [|b bs]; [destruct rest' as [|]; [|specialize (Hn eq_refl); done] |].
  all: try (cbn [length app] in Hl; lia).
  1, 2: eexists; split; [apply runs_iter_done; eapply runs_sys; [exact Eh|apply runs_ret]|apply wrote_read].
  destruct (IH (after_read fd rest' w) rest' (fold_left count (b :: bs) s)) as (w' & R & W).
  { rewrite length_app in Hl. cbn in Hl. lia. }
  { cbn. by rewrite lookup_insert_eq. }
  exists w'. split.
  - rewrite fold_left_app. eapply runs_iter; [|exact R]. eapply runs_sys; [exact Eh|]. apply runs_ret.
  - pose proof (wrote_trans _ _ _ _ _ _ _ _ _ (wrote_read fd rest' w) W) as W'. cbn in W'. by rewrite insert_insert_eq in W'.
Qed.

(** The loops of [grep] do what their model over a buffer does. *)
Lemma grep_lines_runs pattern fuel : forall buf p out buf' p' out' w, scan_lines fuel pattern buf p out = Some (buf', p', out') ->
  exists o, out' = out ++ o /\ length buf' = length buf /\ runs (ITree.iter (grep_line pattern) (buf, p)) w (inl (buf', p'), emit 1 o w).
Proof.
  induction fuel as [|fuel IH]; intros buf p out buf' p' out' w H; [done|]. cbn [scan_lines] in H.
  destruct (strchr_at buf p 10) as [q|] eqn:Eq.
  - destruct (grep_match pattern (str_at (<[q := 0]> buf) p)) eqn:Em.
    + set (bs := take (q + 1 - p) (drop p (<[q := 10]> (<[q := 0]> buf)))) in *.
      destruct (IH _ _ _ _ _ _ (emit 1 bs w) H) as (o & -> & Hl & R). exists (bs ++ o). split; [by rewrite app_assoc|].
      split; [by rewrite Hl, !length_insert|]. rewrite <- emit_emit. eapply runs_iter; [|exact R].
      unfold grep_line. rewrite Eq, Em. eapply runs_sys; [done|]. apply runs_ret.
    + destruct (IH _ _ _ _ _ _ w H) as (o & -> & Hl & R). exists o. split; [done|]. split; [by rewrite Hl, length_insert|].
      eapply runs_iter; [|exact R]. unfold grep_line. rewrite Eq, Em. apply runs_ret.
  - injection H as <- <- <-. exists []. rewrite app_nil_r, emit_nil. split; [done|]. split; [done|].
    apply runs_iter_done. unfold grep_line. rewrite Eq. apply runs_ret.
Qed.

Lemma put_at_length buf m bs : (m + length bs <= length buf)%nat -> length (put_at buf m bs) = length buf.
Proof. intros H. unfold put_at. rewrite !length_app, length_take, length_drop. lia. Qed.

Lemma grep_fd_runs pattern fd fuel : forall rest buf m out out' w, grep_loop fuel avail (w_reads w) pattern rest buf m out = Some out' ->
  length buf = BUFSZ -> w_fds w !! fd = Some rest ->
  exists o buf' rest' w', out' = out ++ o /\ runs (ITree.iter (grep_round pattern fd) (buf, m)) w (inl buf', w') /\
    length buf' = BUFSZ /\ wrote w (<[fd := rest']> (w_fds w)) o [] w'.
Proof using Hav.
  induction fuel as [|fuel IH]; intros rest buf m out out' w H Hb E; [done|]. cbn [grep_loop] in H.
  unfold read_fd in H. rewrite (proj2 (Z.ltb_ge _ _)) in H by (specialize (Hav (w_reads w)); lia).
  set (bs := take _ rest) in H.
  assert (handle avail (Read fd (Z.of_nat (BUFSZ - m - 1))) w = (inl (Some bs), after_read fd (drop (length bs) rest) w)) as Eh.
  { cbn [handle]. by rewrite E, Nat2Z.id. }
  assert (length bs <= BUFSZ - m - 1)%nat as Hbs by (unfold bs; rewrite length_take; lia).
  destruct bs as [|b bs'] eqn:Ebs.
  { injection H as <-. exists [], buf, rest, (after_read fd rest w). rewrite app_nil_r. repeat split; try done; [|by rewrite ?app_nil_r..].
    apply runs_iter_done. unfold grep_round. eapply runs_sys; [exact Eh|]. apply runs_ret. }
  rewrite <- Ebs in *. destruct (scan_lines _ _ _ _ _) as [[[buf1 p] out1]|] eqn:Es; [|done].
  destruct (grep_lines_runs _ _ _ _ _ _ _ _ (after_read fd (drop (length bs) rest) w) Es) as (o1 & -> & Hl1 & R1).
  set (w1 := emit 1 o1 (after_read fd (drop (length bs) rest) w)) in *.
  assert (0 < length bs)%nat as Hpos by (rewrite Ebs; cbn; lia).
  rewrite (proj2 (Nat.ltb_lt 0 (m + length bs))) in H by lia.
  rewrite length_insert, put_at_length in Hl1 by lia.
  set (buf2 := put_at buf1 0 _) in H.
  assert (length buf2 = BUFSZ) as Hl2.
  { unfold buf2. rewrite put_at_length; [congruence|]. rewrite length_take, length_drop. lia. }
  destruct (IH _ _ _ _ _ w1 H Hl2) as (o & buf' & rest' & w' & -> & R & Hl' & W); [cbn; by rewrite lookup_insert_eq|].
  exists (o1 ++ o), buf', rest', w'. split; [by rewrite app_assoc|]. split; [|split; [done|]].
  - eapply runs_iter; [|exact R]. unfold grep_round. eapply runs_sys; [exact Eh|]. rewrite Ebs. cbv iota. rewrite <- Ebs.
    eapply runs_bind; [exact R1|]. rewrite (proj2 (Nat.ltb_lt 0 (m + length bs))) by lia. apply runs_ret.
  - pose proof (wrote_trans _ _ _ _ _ _ _ _ _ (wrote_trans _ _ _ _ _ _ _ _ _ (wrote_read fd (drop (length bs) rest) w) (wrote_out o1 _)) W) as W'.
    cbn in W'. by rewrite insert_insert_eq in W'.
Qed.

(** ** The files of the command line *)

(** A descriptor is free. *)
Definition room (w : world) : Prop := exists p, 0 <= p < NOFILE /\ w_fds w !! p = None.

Lemma room_wrote w o e w' : room w -> wrote w (w_fds w) o e w' -> room w'.
Proof. intros (p & Hp & Ep) [_ E _ _]. exists p. by rewrite E. Qed.

(** A file that is there is opened, read and closed. *)
Lemma file_runs {A B} (body : Z -> prog A) (bad : prog B) (next : A -> prog B) (P : A -> Prop) o a c w :
  w_files w !! a = Some c -> room w ->
  (forall fd w, w_fds w !! fd = Some c -> exists x rest w', runs (body fd) w (inl x, w') /\ P x /\ wrote w (<[fd := rest]> (w_fds w)) o [] w') ->
  exists x w', P x /\ wrote w (w_fds w) o [] w' /\ forall r, runs (next x) w' r ->
    runs (fd <- sys (Open a O_RDONLY) ;; if fd <? 0 then bad else x <- body fd ;; sys (Close fd) ;; next x)%prog w r.
Proof.
  intros Ea (p & Hp & Ep) Hbody. destruct (lowest_some _ _ Hp Ep) as (fd & El & Hfd & Ef).
  destruct (Hbody fd (set_fds (<[fd := c]> (w_fds w)) w)) as (x & rest & w1 & R & Hx & W); [cbn; by rewrite lookup_insert_eq|].
  cbn in W. rewrite insert_insert_eq in W. pose proof (wr_fds _ _ _ _ _ W) as Hf.
  exists x, (set_fds (w_fds w) w1). split; [done|]. split.
  - destruct W as [W1 W2 W3 W4]. split; done.
  - intros r Hr. eapply runs_sys; [cbn [handle]; by rewrite Ea, El|]. rewrite (proj2 (Z.ltb_ge fd 0)) by lia.
    eapply runs_bind; [exact R|]. eapply runs_sys; [|exact Hr]. cbn [handle]. rewrite Hf, lookup_insert_eq. by rewrite delete_insert_id.
Qed.

Lemma file_missing {A} (bad : prog A) (good : Z -> prog A) a w r : w_files w !! a = None -> runs bad w r ->
  runs (fd <- sys (Open a O_RDONLY) ;; if fd <? 0 then bad else good fd)%prog w r.
Proof. intros Ea Hr. eapply runs_sys; [cbn [handle]; by rewrite Ea|]. done. Qed.

(** The files up to the first that is not there: what is written for them, and
    the missing name. *)
Fixpoint each_file (f : list Z -> list Z -> list Z) (files : gmap (list Z) (list Z)) (argv : list (list Z)) : list Z * option (list Z) :=
  match argv with
  | [] => ([], None)
  | a :: argv =>
      match files !! a with
      | None => ([], Some a)
      | Some c => let '(o, e) := each_file f files argv in (f a c ++ o, e)
      end
  end.

(** The message about a missing file, and the status. *)
Definition missing (fmt : list Z) (e : option (list Z)) : list Z :=
  match e with None => [] | Some a => map u8 (vprintf udigits fmt [Str (Some a)]) end.
Definition status (e : option (list Z)) : Z := match e with None => 0 | Some _ => 1 end.
Definition ended (e : option (list Z)) : unit + Z := match e with None => inl tt | Some _ => inr 1 end.

Lemma runs_ended (t : prog unit) w e w' : runs t w (ended e, w') -> runs (t ;; exit (A := void) 0)%prog w (inr (status e), w').
Proof. destruct e; intros H; [by apply runs_stop|]. eapply runs_bind; [exact H|]. by apply runs_exit. Qed.

Lemma cat_files_runs argv : forall w, room w -> exists w', runs (cat_files argv) w (ended (snd (each_file (fun _ c => c) (w_files w) argv)), w') /\
  wrote w (w_fds w) (fst (each_file (fun _ c => c) (w_files w) argv)) (missing (strn "cat: cannot open %s") (snd (each_file (fun _ c => c) (w_files w) argv))) w'.
Proof using Hav.
  induction argv as [|a argv IH]; intros w Hr; cbn [cat_files each_file].
  { exists w. split; [apply runs_ret|apply wrote_self]. }
  destruct (w_files w !! a) as [c|] eqn:Ea.
  - destruct (file_runs cat (fprintf 2 (strn "cat: cannot open %s") [Str (Some a)] ;; exit 1)%prog (fun _ => cat_files argv) (fun _ => True) c a c w Ea Hr)
      as (x & w1 & _ & W1 & K).
    { intros fd w0 E0. destruct (cat_runs fd _ w0 c (le_n _) E0) as (w' & R & W). exists tt, [], w'. done. }
    destruct (IH w1 (room_wrote _ _ _ _ Hr W1)) as (w' & R & W). rewrite (wr_files _ _ _ _ _ W1), (wr_fds _ _ _ _ _ W1) in *.
    destruct (each_file _ (w_files w) argv) as [o e]. exists w'. split; [by apply K|]. exact (wrote_trans _ _ _ _ _ _ _ _ _ W1 W).
  - eexists. split; [apply file_missing; [done|]; apply runs_exit_msg; by right|]. apply wrote_err.
Qed.

(** The line of [wc] for a file. *)
Definition wc_line (name c : list Z) : list Z :=
  map u8 (vprintf udigits (strn "%d %d %d %s") [Num (newlines c); Num (Z.of_nat (length (words c))); Num (Z.of_nat (length c)); Str (Some name)]).

Lemma wc_fd_runs fd name c w : Z.of_nat (length c) < 0x80000000 -> w_fds w !! fd = Some c ->
  exists w', runs (wc fd name) w (inl tt, w') /\ wrote w (<[fd := []]> (w_fds w)) (wc_line name c) [] w'.
Proof using Hav.
  intros Hl E. destruct (wc_runs fd _ w c (mkCounts 0 0 0 false) (le_n _) E) as (w1 & R & W).
  destruct (count_all c (mkCounts 0 0 0 false)) as [i Ec]; cbn; [lia..|].
  change (fold_left count c (mkCounts 0 0 0 false) = mkCounts (newlines c) (Z.of_nat (length (words c))) (Z.of_nat (length c)) i) in Ec. rewrite Ec in R.
  exists (emit 1 (wc_line name c) w1). split.
  - eapply runs_bind; [exact R|]. apply runs_fprintf. by left.
  - rewrite <- (wr_fds _ _ _ _ _ W). exact (wrote_trans _ _ _ _ _ _ _ _ _ W (wrote_out (wc_line name c) w1)).
Qed.

Lemma wc_files_runs argv : forall w, room w -> (forall a c, w_files w !! a = Some c -> Z.of_nat (length c) < 0x80000000) ->
  exists w', runs (wc_files argv) w (ended (snd (each_file wc_line (w_files w) argv)), w') /\
    wrote w (w_fds w) (fst (each_file wc_line (w_files w) argv) ++ missing (strn "wc: cannot open %s") (snd (each_file wc_line (w_files w) argv))) [] w'.
Proof using Hav.
  induction argv as [|a argv IH]; intros w Hr Hs; cbn [wc_files each_file].
  { exists w. split; [apply runs_ret|apply wrote_self]. }
  destruct (w_files w !! a) as [c|] eqn:Ea.
  - destruct (file_runs (fun fd => wc fd a) (printf (strn "wc: cannot open %s") [Str (Some a)] ;; exit 1)%prog (fun _ => wc_files argv) (fun _ => True) (wc_line a c) a c w Ea Hr)
      as (x & w1 & _ & W1 & K).
    { intros fd w0 E0. destruct (wc_fd_runs fd a c w0 (Hs _ _ Ea) E0) as (w' & R & W). exists tt, [], w'. done. }
    pose proof (wr_files _ _ _ _ _ W1) as Ef.
    destruct (IH w1 (room_wrote _ _ _ _ Hr W1)) as (w' & R & W); [by rewrite Ef|]. rewrite Ef, (wr_fds _ _ _ _ _ W1) in *.
    destruct (each_file _ (w_files w) argv) as [o e]. exists w'. split; [by apply K|]. cbn [fst snd] in *.
    rewrite <- app_assoc. exact (wrote_trans _ _ _ _ _ _ _ _ _ W1 W).
  - eexists. split; [apply file_missing; [done|]; apply runs_exit_msg; by left|]. apply wrote_out.
Qed.

(** What [grep] prints for a text. *)
Definition grep_text (pattern : list Z) (name c : list Z) : list Z := printed pattern (lines c).

Lemma grep_one pattern buf fd c w : length buf = BUFSZ -> no_nul c -> short (lines c) -> w_fds w !! fd = Some c ->
  exists buf' rest w', runs (grep_fd pattern buf fd) w (inl buf', w') /\ length buf' = BUFSZ /\ wrote w (<[fd := rest]> (w_fds w)) (printed pattern (lines c)) [] w'.
Proof using Hav.
  intros Hb Hn Hs E.
  assert (holds_line buf 0 []) as Hh by (split; try done; unfold BUFSZ; lia || constructor).
  pose proof (grep_loop_run avail pattern (S (length c)) (w_reads w) c buf 0 [] [] Hav Hh Hn Hs ltac:(lia)) as H.
  destruct (grep_fd_runs pattern fd _ _ _ _ _ _ w H Hb E) as (o & buf' & rest & w' & Eo & R & Hl & W).
  cbn in Eo. subst o. by exists buf', rest, w'.
Qed.

Lemma grep_files_runs pattern argv : forall buf w, length buf = BUFSZ -> room w ->
  (forall a c, w_files w !! a = Some c -> no_nul c /\ short (lines c)) ->
  exists w', runs (grep_files pattern buf argv) w (ended (snd (each_file (grep_text pattern) (w_files w) argv)), w') /\
    wrote w (w_fds w) (fst (each_file (grep_text pattern) (w_files w) argv) ++
      missing (strn "grep: cannot open %s") (snd (each_file (grep_text pattern) (w_files w) argv))) [] w'.
Proof using Hav.
  induction argv as [|a argv IH]; intros buf w Hb Hr Hs; cbn [grep_files each_file].
  { exists w. split; [apply runs_ret|apply wrote_self]. }
  destruct (w_files w !! a) as [c|] eqn:Ea.
  - destruct (Hs _ _ Ea) as [Hn Hsh].
    destruct (file_runs (grep_fd pattern buf) (printf (strn "grep: cannot open %s") [Str (Some a)] ;; exit 1)%prog (fun buf => grep_files pattern buf argv)
      (fun b => length b = BUFSZ) (printed pattern (lines c)) a c w Ea Hr) as (buf1 & w1 & Hb1 & W1 & K).
    { intros fd w0 E0. by apply grep_one. }
    pose proof (wr_files _ _ _ _ _ W1) as Ef.
    destruct (IH buf1 w1 Hb1 (room_wrote _ _ _ _ Hr W1)) as (w' & R & W); [by rewrite Ef|]. rewrite Ef, (wr_fds _ _ _ _ _ W1) in *.
    destruct (each_file _ (w_files w) argv) as [o e]. exists w'. split; [by apply K|]. cbn [fst snd] in *.
    rewrite <- app_assoc. exact (wrote_trans _ _ _ _ _ _ _ _ _ W1 W).
  - eexists. split; [apply file_missing; [done|]; apply runs_exit_msg; by left|]. apply wrote_out.
Qed.

End Programs.

(** ** Theorems *)

(** [cat file...] copies its files: whatever sizes the reads come in, it
    terminates, having written the contents of the files in order up to the
    first that cannot be opened, which it reports on the standard error and in
    its exit status; every descriptor it opened is closed again. *)
Theorem cat_correct (avail : nat -> Z) (argv : list (list Z)) (w : world) :
  (forall k, 1 <= avail k) -> room w -> argv <> [] ->
  let r := each_file (fun _ c => c) (w_files w) argv in
  exists w', runs (@handle avail) (cat_main argv) w (inr (status (snd r)), w') /\
    wrote w (w_fds w) (fst r) (missing (strn "cat: cannot open %s") (snd r)) w'.
Proof.
  intros Hav Hr Hn r. destruct (cat_files_runs avail Hav argv w Hr) as (w' & R & W). exists w'. split; [|exact W].
  destruct argv as [|a argv]; [done|]. by apply runs_ended.
Qed.

(** C30. [wc file...] counts: whatever sizes the reads come in, even when they
    cut words, it terminates and prints for every file the numbers of its
    newlines, of its words (the maximal pieces without white space) and of its
    bytes, and its name, up to the first file that cannot be opened, which it
    reports. *)
Theorem wc_correct (avail : nat -> Z) (argv : list (list Z)) (w : world) :
  (forall k, 1 <= avail k) -> room w -> argv <> [] ->
  (forall a c, w_files w !! a = Some c -> Z.of_nat (length c) < 0x80000000) ->
  let r := each_file wc_line (w_files w) argv in
  exists w', runs (@handle avail) (wc_main argv) w (inr (status (snd r)), w') /\
    wrote w (w_fds w) (fst r ++ missing (strn "wc: cannot open %s") (snd r)) [] w'.
Proof.
  intros Hav Hr Hn Hs r. destruct (wc_files_runs avail Hav argv w Hr Hs) as (w' & R & W). exists w'. split; [|exact W].
  destruct argv as [|a argv]; [done|]. by apply runs_ended.
Qed.

(** The lines of a file that [sel] selects. *)
Definition selected (sel : list Z -> bool) (name c : list Z) : list Z := concat (map (fun l => l ++ [10]) (List.filter sel (lines c))).

Lemma lines_go_no_nul c : forall cur, no_nul cur -> no_nul c -> Forall no_nul (lines_go cur c).
Proof.
  induction c as [|x c IH]; intros cur Hcur Hc; cbn; [constructor|]. apply Forall_cons in Hc as [Hx Hc].
  destruct (x =? 10); [constructor; [done|by apply IH]|]. apply IH; [|done]. apply Forall_app. split; [done|by constructor].
Qed.

Lemma grep_text_selected pattern sel name c : no_nul pattern -> no_nul c -> (forall l, no_nul l -> sel l = true <-> found pattern l) ->
  grep_text pattern name c = selected sel name c.
Proof.
  intros Hp Hc Hsel. unfold grep_text, printed, selected. do 2 f_equal. pose proof (lines_go_no_nul c [] ltac:(constructor) Hc) as Hl. fold (lines c) in Hl.
  induction (lines c) as [|l ls IH]; [done|]. apply Forall_cons in Hl as [Hl Hls]. cbn [List.filter].
  pose proof (grep_match_correct pattern l Hp Hl) as Hm. destruct (sel l) eqn:E.
  - rewrite filter_cons_True by (apply Hm, Hsel; done). by rewrite IH.
  - rewrite filter_cons_False; [by apply IH|]. intros H%Hm%Hsel; [congruence|done].
Qed.

Lemma each_file_ext f g files argv : (forall a c, files !! a = Some c -> f a c = g a c) -> each_file f files argv = each_file g files argv.
Proof. intros H. induction argv as [|a argv IH]; cbn; [done|]. destruct (files !! a) as [c|] eqn:E; [|done]. by rewrite IH, (H _ _ E). Qed.

(** C31. [grep pattern file...] prints the matching lines: whatever sizes the
    reads come in, and whatever the file before left in the buffer, it
    terminates and prints for every file exactly its complete lines in which a
    word of the language of the pattern is found, in order, up to the first
    file that cannot be opened, which it reports; no line may be longer than
    1022 bytes.  ([sel] is any decision of the language.) *)
Theorem grep_main_correct (avail : nat -> Z) (pattern : list Z) (sel : list Z -> bool) (argv : list (list Z)) (w : world) :
  (forall k, 1 <= avail k) -> room w -> argv <> [] ->
  no_nul pattern -> (forall l, no_nul l -> sel l = true <-> found pattern l) ->
  (forall a c, w_files w !! a = Some c -> no_nul c /\ short (lines c)) ->
  let r := each_file (selected sel) (w_files w) argv in
  exists w', runs (@handle avail) (grep_main (pattern :: argv)) w (inr (status (snd r)), w') /\
    wrote w (w_fds w) (fst r ++ missing (strn "grep: cannot open %s") (snd r)) [] w'.
Proof.
  intros Hav Hr Hn Hp Hsel Hs r. destruct (grep_files_runs avail Hav pattern argv (replicate BUFSZ 0) w (length_replicate _ _) Hr Hs) as (w' & R & W).
  unfold r. rewrite <- (each_file_ext (grep_text pattern)) by (intros a c E; apply grep_text_selected; [done|by eapply Hs|done]).
  exists w'. split; [|exact W]. destruct argv as [|a argv]; [done|]. by apply runs_ended.
Qed.

(** Two files, "ab c\n" and "b", the second read after the first. *)
Definition two_files : world :=
  mkWorld {[ [120] := [97; 98; 32; 99; 10]; [121] := [98; 10] ]} {[ 0 := []; 1 := []; 2 := [] ]} 0 [] [].

Lemma two_files_room : room two_files.
Proof. exists 3. done. Qed.

Lemma two_files_all (P : list Z -> Prop) : P [97; 98; 32; 99; 10] -> P [98; 10] -> forall a c, w_files two_files !! a = Some c -> P c.
Proof. intros H1 H2 a c. cbn. intros [[_ <-]|[_ H]]%lookup_insert_Some; [done|]. by apply lookup_singleton_Some in H as [_ <-]. Qed.

Lemma cat_correct_witness : exists w', runs (@handle (fun _ => 2)) (cat_main [[120]; [122]; [121]]) two_files (inr 1, w') /\ w_out w' = [97; 98; 32; 99; 10].
Proof.
  destruct (cat_correct (fun _ => 2) [[120]; [122]; [121]] two_files ltac:(done) two_files_room ltac:(done)) as (w' & R & W).
  exists w'. split; [exact R|]. exact (wr_out _ _ _ _ _ W).
Defined.

Lemma wc_correct_witness : exists w', runs (@handle (fun _ => 1)) (wc_main [[120]; [121]]) two_files (inr 0, w') /\
  w_out w' = str "1 2 5 x" ++ [10] ++ str "1 1 2 y" ++ [10].
Proof.
  destruct (wc_correct (fun _ => 1) [[120]; [121]] two_files ltac:(done) two_files_room ltac:(done)) as (w' & R & W).
  { by apply two_files_all. }
  exists w'. split; [exact R|]. rewrite (wr_out _ _ _ _ _ W). by vm_compute.
Defined.

Lemma grep_main_correct_witness : exists w', runs (@handle (fun _ => 3)) (grep_main [[94; 98]; [120]; [121]]) two_files (inr 0, w') /\ w_out w' = [98; 10].
Proof.
  assert (no_nul [94; 98]) as Hp by (repeat constructor; done).
  destruct (grep_main_correct (fun _ => 3) [94; 98] (grep_match [94; 98]) [[120]; [121]] two_files ltac:(done) two_files_room ltac:(done) Hp
    (fun l Hl => grep_match_correct [94; 98] l Hp Hl)) as (w' & R & W).
  { apply two_files_all; (split; [by repeat constructor|]); repeat (apply Forall_cons_2; [unfold BUFSZ; cbn; lia|]); constructor. }
  exists w'. split; [exact R|]. rewrite (wr_out _ _ _ _ _ W). by vm_compute.
Defined.
