(* ===== verification/Stress.v ===== *)
(** * Stress programs (user/forktest.c, stressfs.c, logstress.c, forphan.c,
    dorphan.c, grind.c, benchmark.c)

    The programs that exercise the kernel, as programs over system calls, the
    random numbers of grind and the counters of benchmark. *)

From ITree Require Import ITree.
From S2P Require Import Prelude KState Fs Printf Ulib Syscall Grep Memstats UserWorld.
#[local] Open Scope prog_scope.

(** ** forktest *)

Definition N : Z := 1000.

Definition print (s : list Z) : prog unit := sys (Write 1 s) ;; Ret tt.

(** [for(n=0; n<N; n++)]: the number of forks that succeeded. *)
Definition forks : prog Z :=
  ITree.iter (fun n : Z =>
    if n <? N then
      pid <- sys Fork ;;
      if pid <? 0 then Ret (inr n)
      else if pid =? 0 then exit 0
      else Ret (inl (n + 1))
    else Ret (inr n)) 0.

(** [for(; n > 0; n--)] *)
Definition reaps (n : Z) : prog unit :=
  ITree.iter (fun n : Z =>
    if n >? 0 then
      r <- sys Wait ;;
      if fst r <? 0 then print (strn "wait stopped early") ;; exit 1
      else Ret (inl (n - 1))
    else Ret (inr tt)) n.

Definition forktest : prog unit :=
  print (strn "fork test") ;;
  n <- forks ;;
  if n =? N then print (strn "fork claimed to work N times!") ;; exit 1 else
  reaps n ;;
  r <- sys Wait ;;
  if negb (fst r =? -1) then print (strn "wait got too many") ;; exit 1 else
  print (strn "fork test OK").

Definition forktest_main : prog void := forktest ;; exit 0.

(** ** stressfs *)

(** [for(i = 0; i < 4; i++) if(fork() > 0) break;]: the value of [i]. *)
Fixpoint spread (n : nat) (i : Z) : prog Z :=
  match n with
  | O => Ret i
  | S n =>
      pid <- sys Fork ;;
      if pid >? 0 then Ret i else spread n (i + 1)
  end.

(** [n] times the call [e]. *)
Fixpoint times {A} (n : nat) (e : sysE A) : prog unit :=
  match n with
  | O => Ret tt
  | S n => sys e ;; times n e
  end.

Definition stressfs_main : prog void :=
  printf (strn "stressfs starting") [] ;;
  let data := replicate 512 97 in
  i <- spread 4 0 ;;
  printf (strn "write %d") [Num i] ;;
  let path := str "stressfs" ++ [48 + i] in
  fd <- sys (Open path (Z.lor O_CREATE O_RDWR)) ;;
  times 20 (Write fd data) ;;
  sys (Close fd) ;;
  printf (strn "read") [] ;;
  fd <- sys (Open path O_RDONLY) ;;
  times 20 (Read fd 512) ;;
  sys (Close fd) ;;
  sys Wait ;;
  exit 0.

(** ** logstress *)

Definition SZ : nat := 2000.

(** [for(i = 0; i < N; i++)] with [N] = 250: the writes of a child. *)
Fixpoint write_all (n : nat) (fd : Z) (buf : list Z) : prog unit :=
  match n with
  | O => Ret tt
  | S n =>
      r <- sys (Write fd buf) ;;
      if negb (r =? Z.of_nat SZ) then printf (strn "write failed %d") [Num r] ;; exit 1
      else write_all n fd buf
  end.

(** The child for argument number [i].  [memset] and [write] use [SZ] bytes from
    the start of [buf], which has 500: the bytes after it are overwritten. *)
Definition stress_child (argv0 a : list Z) (i : Z) : prog unit :=
  fd <- sys (Open a (Z.lor O_CREATE O_RDWR)) ;;
  if fd <? 0 then printf (strn "%s: create %s failed") [Str (Some argv0); Str (Some a)] ;; exit 1 else
  write_all 250 fd (replicate SZ (u8 (48 + i))) ;;
  exit 0.

Fixpoint stress_all (argv0 : list Z) (argv : list (list Z)) (i : Z) : prog unit :=
  match argv with
  | [] => Ret tt
  | a :: argv =>
      pid1 <- sys Fork ;;
      if pid1 <? 0 then printf (strn "%s: fork failed") [Str (Some argv0)] ;; exit 1
      else if pid1 =? 0 then stress_child argv0 a i
      else stress_all argv0 argv (i + 1)
  end.

Fixpoint collect_all (argv : list (list Z)) : prog unit :=
  match argv with
  | [] => Ret tt
  | _ :: argv =>
      r <- sys Wait ;;
      if negb (snd r =? 0) then exit (snd r) else collect_all argv
  end.

Definition logstress_main (argv0 : list Z) (argv : list (list Z)) : prog Z :=
  stress_all argv0 argv 1 ;;
  collect_all argv ;;
  Ret 0.

(** ** forphan, dorphan *)

(** [for(;;) pause(1000);] *)
Definition sit : prog void := ITree.iter (fun _ : unit => sys (Pause 1000) ;; Ret (inl tt)) tt.

Definition forphan_main (s : list Z) : prog void :=
  let ff := str "file0" in
  fd <- sys (Open ff (Z.lor O_CREATE O_WRONLY)) ;;
  if fd <? 0 then printf (strn "%s: open failed") [Str (Some s)] ;; exit 1 else
  st <- sys (Fstat fd) ;;
  match st with
  | None => fprintf 2 (strn "%s: cannot stat %s") [Str (Some s); Str (Some (str "ff"))] ;; exit 1
  | Some st =>
      r <- sys (Unlink ff) ;;
      if r <? 0 then printf (strn "%s: unlink failed") [Str (Some s)] ;; exit 1 else
      r <- sys (Open ff O_RDONLY) ;;
      if negb (r =? -1) then printf (strn "%s: open successed") [Str (Some s)] ;; exit 1 else
      printf (strn "wait for kill and reclaim %d") [Num (st_ino st)] ;;
      sit
  end.

Definition dorphan_main (s : list Z) : prog void :=
  r <- sys (Mkdir (str "dd")) ;;
  if negb (r =? 0) then printf (strn "%s: mkdir dd failed") [Str (Some s)] ;; exit 1 else
  r <- sys (Chdir (str "dd")) ;;
  if negb (r =? 0) then printf (strn "%s: chdir dd failed") [Str (Some s)] ;; exit 1 else
  r <- sys (Unlink (str "../dd")) ;;
  if r <? 0 then printf (strn "%s: unlink failed") [Str (Some s)] ;; exit 1 else
  printf (strn "wait for kill and reclaim") [] ;;
  sit.

(** ** grind: random numbers *)

(** The result and the new [*ctx]; [x] is positive, so that C's quotient and
    remainder are those of [Z]. *)
Definition do_rand (ctx : Z) : Z * Z :=
  let x := ctx mod 0x7ffffffe + 1 in
  let hi := x / 127773 in
  let lo := x mod 127773 in
  let x := 16807 * lo - 2836 * hi in
  let x := if x <? 0 then x + 0x7fffffff else x in
  let x := x - 1 in
  (s32 x, u64 x).

(** [rand]: the number and the new [rand_next]. *)
Definition rand (rand_next : Z) : Z * Z := do_rand rand_next.

(** ** grind: system calls *)

Definition O_CRDWR : Z := Z.lor O_CREATE O_RDWR.

Definition grind_fail {A} (s : string) : prog A := printf (strn s) [] ;; exit 1.

(** [int pid = fork();] with a child that runs [child] and a check for errors. *)
Definition grind_fork (child : prog unit) : prog Z :=
  pid <- sys Fork ;;
  if pid =? 0 then child ;; exit 0
  else if pid <? 0 then grind_fail "grind: fork failed"
  else Ret pid.

Definition open_close (path : string) : prog unit :=
  fd <- sys (Open (str path) O_CRDWR) ;; sys (Close fd) ;; Ret tt.

Definition unlink_ (path : string) : prog unit := sys (Unlink (str path)) ;; Ret tt.

(** [what == 15] and [16]: the address space grows and shrinks. *)
Definition shrink (break0 : Z) : prog unit :=
  b <- sbrk 0 ;;
  if b >? break0 then b <- sbrk 0 ;; sbrk (s32 (- (b - break0))) ;; Ret tt else Ret tt.

(** [what == 19]: a byte through a pipe, by up to four processes. *)
Definition pipe_pair : prog unit :=
  p <- sys Pipe ;;
  match p with
  | None => grind_fail "grind: pipe failed"
  | Some (p0, p1) =>
      grind_fork (sys Fork ;; sys Fork ;;
        n <- sys (Write p1 (str "x")) ;;
        (if negb (n =? 1) then printf (strn "grind: pipe write failed") [] else Ret tt) ;;
        r <- sys (Read p0 1) ;;
        (if negb (match r with Some bs => Z.of_nat (length bs) =? 1 | None => false end)
         then printf (strn "grind: pipe read failed") [] else Ret tt)) ;;
      sys (Close p0) ;;
      sys (Close p1) ;;
      sys Wait ;; Ret tt
  end.

(** [what == 21]: a file can always be created. *)
Definition always_room : prog unit :=
  unlink_ "c" ;;
  fd1 <- sys (Open (str "c") O_CRDWR) ;;
  if fd1 <? 0 then grind_fail "grind: create c failed" else
  n <- sys (Write fd1 (str "x")) ;;
  if negb (n =? 1) then grind_fail "grind: write c failed" else
  r <- sys (Fstat fd1) ;;
  match r with
  | None => grind_fail "grind: fstat failed"
  | Some st =>
      if negb (st_size st =? 1) then printf (strn "grind: fstat reports wrong size %d") [Num (st_size st)] ;; exit 1
      else if st_ino st >? 200 then printf (strn "grind: fstat reports crazy i-number %d") [Num (st_ino st)] ;; exit 1
      else
        sys (Close fd1) ;;
        unlink_ "c"
  end.

(** [what == 22]: echo hi | cat.  The children, and one byte of the answer. *)
Definition echo_child (aa bb : Z * Z) : prog unit :=
  sys (Close (fst bb)) ;;
  sys (Close (snd bb)) ;;
  sys (Close (fst aa)) ;;
  sys (Close 1) ;;
  d <- sys (Dup (snd aa)) ;;
  if negb (d =? 1) then fprintf 2 (strn "grind: dup failed") [] ;; exit 1 else
  sys (Close (snd aa)) ;;
  sys (Exec (str "grindir/../echo") [str "echo"; str "hi"]) ;;
  fprintf 2 (strn "grind: echo: not found") [] ;;
  exit 2.

Definition cat_child (aa bb : Z * Z) : prog unit :=
  sys (Close (snd aa)) ;;
  sys (Close (fst bb)) ;;
  sys (Close 0) ;;
  d <- sys (Dup (fst aa)) ;;
  if negb (d =? 0) then fprintf 2 (strn "grind: dup failed") [] ;; exit 4 else
  sys (Close (fst aa)) ;;
  sys (Close 1) ;;
  d <- sys (Dup (snd bb)) ;;
  if negb (d =? 1) then fprintf 2 (strn "grind: dup failed") [] ;; exit 5 else
  sys (Close (snd bb)) ;;
  sys (Exec (str "/cat") [str "cat"]) ;;
  fprintf 2 (strn "grind: cat: not found") [] ;;
  exit 6.

(** [buf[i]], which stays 0 when nothing is read. *)
Definition read_byte (fd : Z) : prog Z :=
  r <- sys (Read fd 1) ;; Ret (match r with Some (c :: _) => c | _ => 0 end).

Definition two_pipes : prog ((Z * Z) * (Z * Z)) :=
  aa <- sys Pipe ;;
  match aa with
  | None => fprintf 2 (strn "grind: pipe failed") [] ;; exit 1
  | Some aa =>
      bb <- sys Pipe ;;
      match bb with
      | None => fprintf 2 (strn "grind: pipe failed") [] ;; exit 1
      | Some bb => Ret (aa, bb)
      end
  end.

Definition grind_pipeline : prog unit :=
  pp <- two_pipes ;;
  let '(aa, bb) := pp in
  pid1 <- sys Fork ;;
  if pid1 =? 0 then echo_child aa bb
  else if pid1 <? 0 then fprintf 2 (strn "grind: fork failed") [] ;; exit 3 else
  pid2 <- sys Fork ;;
  if pid2 =? 0 then cat_child aa bb
  else if pid2 <? 0 then fprintf 2 (strn "grind: fork failed") [] ;; exit 7 else
  sys (Close (fst aa)) ;;
  sys (Close (snd aa)) ;;
  sys (Close (snd bb)) ;;
  c0 <- read_byte (fst bb) ;;
  c1 <- read_byte (fst bb) ;;
  c2 <- read_byte (fst bb) ;;
  sys (Close (fst bb)) ;;
  st1 <- sys Wait ;;
  st2 <- sys Wait ;;
  let buf := until_nul [c0; c1; c2] in
  if negb (snd st1 =? 0) || negb (snd st2 =? 0) || negb (bool_decide (buf = strn "hi"))
  then printf (str "grind: exec pipeline failed %d %d " ++ [34] ++ str "%s" ++ [34; 10]) [Num (snd st1); Num (snd st2); Str (Some buf)] ;; exit 1
  else Ret tt.

(** One operation, on the file [fd] and the buffer left by the ones before: the
    new [fd] and buffer. *)
Definition grind_op (what fd : Z) (buf : list Z) (break0 : Z) : prog (Z * list Z) :=
  let same (t : prog unit) : prog (Z * list Z) := t ;; Ret (fd, buf) in
  if what =? 1 then same (open_close "grindir/../a")
  else if what =? 2 then same (open_close "grindir/../grindir/../b")
  else if what =? 3 then same (unlink_ "grindir/../a")
  else if what =? 4 then
    r <- sys (Chdir (str "grindir")) ;;
    if negb (r =? 0) then grind_fail "grind: chdir grindir failed" else
    same (unlink_ "../b" ;; sys (Chdir (str "/")) ;; Ret tt)
  else if what =? 5 then sys (Close fd) ;; fd <- sys (Open (str "/grindir/../a") O_CRDWR) ;; Ret (fd, buf)
  else if what =? 6 then sys (Close fd) ;; fd <- sys (Open (str "/./grindir/./../b") O_CRDWR) ;; Ret (fd, buf)
  else if what =? 7 then same (sys (Write fd buf) ;; Ret tt)
  else if what =? 8 then r <- sys (Read fd 999) ;; Ret (fd, match r with Some bs => put_at buf 0 bs | None => buf end)
  else if what =? 9 then same (sys (Mkdir (str "grindir/../a")) ;; open_close "a/../a/./a" ;; unlink_ "a/a")
  else if what =? 10 then same (sys (Mkdir (str "/../b")) ;; open_close "grindir/../b/b" ;; unlink_ "b/b")
  else if what =? 11 then same (unlink_ "b" ;; sys (Link (str "../grindir/./../a") (str "../b")) ;; Ret tt)
  else if what =? 12 then same (unlink_ "../grindir/../a" ;; sys (Link (str ".././b") (str "/grindir/../a")) ;; Ret tt)
  else if what =? 13 then same (grind_fork (Ret tt) ;; sys Wait ;; Ret tt)
  else if what =? 14 then same (grind_fork (sys Fork ;; sys Fork ;; Ret tt) ;; sys Wait ;; Ret tt)
  else if what =? 15 then same (sbrk 6011 ;; Ret tt)
  else if what =? 16 then same (shrink break0)
  else if what =? 17 then
    pid <- grind_fork (open_close "a") ;;
    r <- sys (Chdir (str "../grindir/..")) ;;
    if negb (r =? 0) then grind_fail "grind: chdir failed" else
    same (sys (Kill pid) ;; sys Wait ;; Ret tt)
  else if what =? 18 then same (grind_fork (me <- sys Getpid ;; sys (Kill me) ;; Ret tt) ;; sys Wait ;; Ret tt)
  else if what =? 19 then same pipe_pair
  else if what =? 20 then
    same (grind_fork (unlink_ "a" ;; sys (Mkdir (str "a")) ;; sys (Chdir (str "a")) ;; unlink_ "../a" ;;
                      sys (Open (str "x") O_CRDWR) ;; unlink_ "x") ;; sys Wait ;; Ret tt)
  else if what =? 21 then same always_room
  else if what =? 22 then same grind_pipeline
  else Ret (fd, buf).

(** The loop of [go], with [fd], [buf], [iters] and [rand_next]. *)
Definition grind_round (which_child : bool) (break0 : Z) (st : Z * list Z * Z * Z) : prog ((Z * list Z * Z * Z) + void) :=
  let '(fd, buf, iters, next) := st in
  let iters := u64 (iters + 1) in
  (if iters mod 500 =? 0 then sys (Write 1 (str (if which_child then "B" else "A"))) ;; Ret tt else Ret tt) ;;
  let '(r, next) := rand next in
  x <- grind_op (r mod 23) fd buf break0 ;;
  Ret (inl (fst x, snd x, iters, next)).

Definition go (which_child : bool) (rand_next : Z) : prog void :=
  break0 <- sbrk 0 ;;
  sys (Mkdir (str "grindir")) ;;
  r <- sys (Chdir (str "grindir")) ;;
  if negb (r =? 0) then grind_fail "grind: chdir grindir failed" else
  sys (Chdir (str "/")) ;;
  ITree.iter (grind_round which_child break0) (-1, replicate 999 0, 0, rand_next).

Definition grind_iter (rand_next : Z) : prog void :=
  unlink_ "a" ;;
  unlink_ "b" ;;
  pid1 <- sys Fork ;;
  if pid1 <? 0 then grind_fail "grind: fork failed"
  else if pid1 =? 0 then go false (Z.lxor rand_next 31) else
  pid2 <- sys Fork ;;
  if pid2 <? 0 then grind_fail "grind: fork failed"
  else if pid2 =? 0 then go true (Z.lxor rand_next 7177) else
  r1 <- sys Wait ;;
  (if negb ((if fst r1 <? 0 then -1 else snd r1) =? 0) then sys (Kill pid1) ;; sys (Kill pid2) ;; Ret tt else Ret tt) ;;
  sys Wait ;;
  exit 0.

Definition grind_main : prog void :=
  ITree.iter (fun next : Z =>
    pid <- sys Fork ;;
    if pid =? 0 then v <- grind_iter next ;; match v : void with end else
    (if pid >? 0 then sys Wait ;; Ret tt else Ret tt) ;;
    sys (Pause 20) ;;
    Ret (inl (u64 (next + 1)))) 1.

(** ** benchmark: the counters *)

(** [raw_stats], field by field. *)
Definition stats_of (raw : list Z) : stats :=
  let at_ k := nth k raw 0 in
  mkStats (at_ 0%nat) (at_ 1%nat) (at_ 2%nat) (at_ 3%nat) (at_ 4%nat) (at_ 5%nat)
    (at_ 6%nat) (at_ 7%nat) (at_ 8%nat) (at_ 9%nat) (at_ 10%nat) (at_ 11%nat).

Definition get_stats : prog stats :=
  r <- sys Memstats ;;
  match r with
  | None => printf (strn "Error getting statistics") [] ;; exit 1
  | Some raw => Ret (stats_of raw)
  end.

(** [diff]: differences of [uint64]s, but for the two that are levels. *)
Definition stats_diff (before after : stats) : stats :=
  let d (f : stats -> Z) := u64 (f after - f before) in
  mkStats (d ms_cow_faults) (d ms_cow_pages_shared) (d ms_swap_outs) (d ms_swap_ins) (ms_swap_blocks_used after)
    (d ms_page_faults) (d ms_load_faults) (d ms_store_faults) (d ms_lazy_alloc_faults)
    (d ms_pages_allocated) (d ms_pages_freed) (ms_current_pages after).

Definition print_stats (before after : stats) (test_name : list Z) : prog unit :=
  let diff := stats_diff before after in
  printf ([10] ++ strn "=== %s ===") [Str (Some test_name)] ;;
  printf (strn "COW Statistics:") [] ;;
  printf (strn "  COW page faults:     %d") [Num (ms_cow_faults diff)] ;;
  printf (strn "  Pages shared (COW):  %d") [Num (ms_cow_pages_shared diff)] ;;
  printf ([10] ++ strn "Swap Statistics:") [] ;;
  printf (strn "  Pages swapped out:   %d") [Num (ms_swap_outs diff)] ;;
  printf (strn "  Pages swapped in:    %d") [Num (ms_swap_ins diff)] ;;
  printf (strn "  Swap blocks in use:  %d") [Num (ms_swap_blocks_used diff)] ;;
  printf ([10] ++ strn "Page Fault Statistics:") [] ;;
  printf (strn "  Total page faults:   %d") [Num (ms_page_faults diff)] ;;
  printf (strn "  Load faults:         %d") [Num (ms_load_faults diff)] ;;
  printf (strn "  Store faults:        %d") [Num (ms_store_faults diff)] ;;
  printf (strn "  Lazy alloc faults:   %d") [Num (ms_lazy_alloc_faults diff)] ;;
  printf ([10] ++ strn "Memory Statistics:") [] ;;
  printf (strn "  Pages allocated:     %d") [Num (ms_pages_allocated diff)] ;;
  printf (strn "  Pages freed:         %d") [Num (ms_pages_freed diff)] ;;
  printf (strn "  Current pages:       %d") [Num (ms_current_pages diff)] ;;
  printf (strn "========================" ++ [10]) [].

(** [for(i = 0; i < n; i++) mem[i] = ...] and the like: byte stores. *)
Definition fill (l : list Z) (addr val : Z -> Z) : prog unit := each l (fun i => sys (Store 1 (u64 (addr i)) (u8 (val i)))).

Definition test_cow_fork (num_forks pages_per_process : Z) : prog unit :=
  printf (strn "Test 1: COW Fork Performance") [] ;;
  printf (strn "Creating %d processes, each with %d pages") [Num num_forks; Num pages_per_process] ;;
  before <- get_stats ;;
  start_time <- sys Uptime ;;
  mem <- sbrk (pages_per_process * 4096) ;;
  if mem =? SBRK_ERROR then printf (strn "sbrk failed") [] ;; exit 1 else
  fill (range 0 (pages_per_process * 4096) 1) (fun i => mem + i) (fun i => i mod 256) ;;
  each (range 0 num_forks 1) (fun i =>
    pid <- sys Fork ;;
    if pid <? 0 then printf (strn "fork failed") [] ;; exit 1 else
    only (pid =? 0)
      (only (i mod 2 =? 0)
         (sys (Store 1 mem 0xFF) ;;
          sys (Store 1 (u64 (mem + 4096)) 0xAA)) ;;
       exit 0)) ;;
  each (range 0 num_forks 1) (fun _ => sys Wait ;; Ret tt) ;;
  end_time <- sys Uptime ;;
  after <- get_stats ;;
  printf (strn "Time elapsed: %d ticks") [Num (end_time - start_time)] ;;
  print_stats before after (str "COW Fork Test").

Definition test_swapping (target_pages : Z) : prog unit :=
  printf (strn "Test 2: Swapping Under Memory Pressure") [] ;;
  printf (strn "Allocating %d pages to trigger swapping") [Num target_pages] ;;
  before <- get_stats ;;
  start_time <- sys Uptime ;;
  mem <- sbrk (target_pages * 4096) ;;
  (if mem =? SBRK_ERROR then printf (strn "sbrk failed (memory exhausted)") [] else
   fill (range 0 (target_pages * 4096) 4096) (fun i => mem + i) (fun i => i / 4096) ;;
   each (range 0 (target_pages * 4096) 4096) (fun i => sys (Load 1 (u64 (mem + i))) ;; Ret tt)) ;;
  end_time <- sys Uptime ;;
  after <- get_stats ;;
  printf (strn "Time elapsed: %d ticks") [Num (end_time - start_time)] ;;
  print_stats before after (str "Swapping Test").

Definition test_cow_writes (num_writes : Z) : prog unit :=
  printf (strn "Test 3: COW Write Performance") [] ;;
  printf (strn "Forking and performing %d COW writes") [Num num_writes] ;;
  mem <- sbrk (10 * 4096) ;;
  if mem =? SBRK_ERROR then printf (strn "sbrk failed") [] ;; exit 1 else
  fill (range 0 (10 * 4096) 1) (fun i => mem + i) (fun _ => 0) ;;
  before <- get_stats ;;
  start_time <- sys Uptime ;;
  pid <- sys Fork ;;
  if pid <? 0 then printf (strn "fork failed") [] ;; exit 1 else
  (if pid =? 0 then
     fill (range 0 num_writes 1) (fun i => mem + i mod 10 * 4096) (fun i => i) ;;
     exit 0
   else
     fill (range 0 num_writes 1) (fun i => mem + (i + 5) mod 10 * 4096) (fun i => i + 100) ;;
     sys Wait ;; Ret tt) ;;
  end_time <- sys Uptime ;;
  after <- get_stats ;;
  printf (strn "Time elapsed: %d ticks") [Num (end_time - start_time)] ;;
  print_stats before after (str "COW Write Test").

Definition test_overall_stats : prog unit :=
  printf (strn "Test 4: Overall System Statistics") [] ;;
  st <- get_stats ;;
  printf ([10] ++ strn "=== Overall System Statistics ===") [] ;;
  printf (strn "COW Statistics:") [] ;;
  printf (strn "  Total COW faults:        %d") [Num (ms_cow_faults st)] ;;
  printf (strn "  Total pages shared:      %d") [Num (ms_cow_pages_shared st)] ;;
  printf ([10] ++ strn "Swap Statistics:") [] ;;
  printf (strn "  Total swap outs:         %d") [Num (ms_swap_outs st)] ;;
  printf (strn "  Total swap ins:          %d") [Num (ms_swap_ins st)] ;;
  printf (strn "  Current swap blocks:     %d") [Num (ms_swap_blocks_used st)] ;;
  printf ([10] ++ strn "Page Fault Statistics:") [] ;;
  printf (strn "  Total page faults:       %d") [Num (ms_page_faults st)] ;;
  printf (strn "  Load faults:             %d") [Num (ms_load_faults st)] ;;
  printf (strn "  Store faults:            %d") [Num (ms_store_faults st)] ;;
  printf (strn "  Lazy alloc faults:       %d") [Num (ms_lazy_alloc_faults st)] ;;
  printf ([10] ++ strn "Memory Statistics:") [] ;;
  printf (strn "  Total pages allocated:   %d") [Num (ms_pages_allocated st)] ;;
  printf (strn "  Total pages freed:       %d") [Num (ms_pages_freed st)] ;;
  printf (strn "  Current pages in use:    %d") [Num (ms_current_pages st)] ;;
  printf (strn "================================" ++ [10]) [].

Definition benchmark_main : prog void :=
  let line := strn "========================================" in
  printf [10] [] ;;
  printf line [] ;;
  printf (strn "xv6 Memory Management Benchmark Suite") [] ;;
  printf line [] ;;
  printf (strn "Testing COW Fork and Swapping") [] ;;
  printf (line ++ [10]) [] ;;
  test_cow_fork 10 5 ;;
  sys (Pause 10) ;;
  test_swapping 100 ;;
  sys (Pause 10) ;;
  test_cow_writes 20 ;;
  sys (Pause 10) ;;
  test_overall_stats ;;
  printf (strn "Benchmark completed!") [] ;;
  exit 0.

(** The benchmark and the kernel agree on the order of the counters. *)
Lemma stats_of_list t : stats_of (stats_list t) = t.
Proof. by destruct t. Qed.

(** ** The random numbers *)

Section Rand.
Let p : Z := 0x7fffffff.

(** The multiplier has an inverse: the next number determines the last. *)
Lemma multiplier_inverse x : 0 <= x < p -> (1407677000 * (16807 * x)) mod p = x.
Proof.
  intros Hx. replace (1407677000 * (16807 * x)) with (x + (11017 * x) * p) by (unfold p; lia).
  rewrite Z.mod_add by (unfold p; lia). by apply Z.mod_small.
Qed.

Lemma schrage x : 1 <= x < p ->
  let y := 16807 * (x mod 127773) - 2836 * (x / 127773) in
  -0x7fffffff < y < 0x7fffffff /\ (if y <? 0 then y + p else y) = (16807 * x) mod p /\ 1 <= (16807 * x) mod p < p.
Proof.
  intros Hx y. pose proof (Z.div_mod x 127773 ltac:(lia)) as Hd. pose proof (Z.mod_pos_bound x 127773 ltac:(lia)) as Hm.
  set (hi := x / 127773) in *. set (lo := x mod 127773) in *. unfold p in *.
  assert (0 <= hi <= 16807) as Hh by lia. assert (16807 * x = y + hi * 0x7fffffff) as E by (unfold y; lia).
  assert (-0x7fffffff < y < 0x7fffffff) as Hy by (unfold y; lia).
  assert ((16807 * x) mod 0x7fffffff = if y <? 0 then y + 0x7fffffff else y) as Em.
  { rewrite E, Z.mod_add by lia. destruct (Z.ltb_spec y 0); [|apply Z.mod_small; lia].
    symmetry. rewrite <- (Z.mod_add y 1) by lia. rewrite Z.mod_small; lia. }
  assert ((16807 * x) mod 0x7fffffff <> 0) as Hn.
  { intros E0. pose proof (multiplier_inverse x ltac:(unfold p; lia)) as Hi. unfold p in Hi.
    rewrite Z.mul_mod, E0, Z.mul_0_r, Z.mod_0_l in Hi by lia. lia. }
  pose proof (Z.mod_pos_bound (16807 * x) 0x7fffffff ltac:(lia)). repeat split; lia || done.
Qed.

End Rand.

(** The generator of grind computes the Park and Miller sequence [x := 7^5 x
    mod 2^31-1], shifted to start at 0, as its comment says: no intermediate
    value leaves 31 bits, the result is in [0, 2^31-3], and different states
    have different successors, so the sequence never gets stuck. *)
Theorem do_rand_correct (ctx : Z) :
  0 <= ctx ->
  let x := ctx mod 0x7ffffffe + 1 in
  -0x7fffffff < 16807 * (x mod 127773) - 2836 * (x / 127773) < 0x7fffffff /\
  do_rand ctx = ((7 ^ 5 * x) mod 0x7fffffff - 1, (7 ^ 5 * x) mod 0x7fffffff - 1) /\
  0 <= fst (do_rand ctx) < 0x7ffffffe /\
  (ctx < 0x7ffffffe -> forall c, 0 <= c < 0x7ffffffe -> do_rand c = do_rand ctx -> c = ctx).
Proof.
  intros Hc x. assert (forall c, 0 <= c ->
    let x := c mod 0x7ffffffe + 1 in -0x7fffffff < 16807 * (x mod 127773) - 2836 * (x / 127773) < 0x7fffffff /\
    do_rand c = ((16807 * x) mod 0x7fffffff - 1, (16807 * x) mod 0x7fffffff - 1) /\ 1 <= (16807 * x) mod 0x7fffffff < 0x7fffffff) as Hr.
  { intros c H. cbv zeta. set (y := c mod 0x7ffffffe + 1).
    assert (1 <= y < 0x7fffffff) as Hy by (unfold y; pose proof (Z.mod_pos_bound c 0x7ffffffe ltac:(lia)); lia).
    destruct (schrage y Hy) as (H1 & H2 & H3). split; [done|]. split; [|done].
    unfold do_rand. fold y. cbv zeta. rewrite H2. f_equal; [apply s32_small; lia|apply u64_small; lia]. }
  destruct (Hr ctx Hc) as (H1 & H2 & H3). fold x in H1, H2, H3. change (7 ^ 5) with 16807. split; [done|]. split; [done|].
  rewrite H2. cbn [fst]. split; [lia|]. intros Hlt c Hcr E. destruct (Hr c ltac:(lia)) as (_ & E2 & _). rewrite E2 in E. injection E as E _.
  unfold x in E. rewrite (Z.mod_small c), (Z.mod_small ctx) in E by lia.
  pose proof (multiplier_inverse (c + 1) ltac:(lia)) as I1. pose proof (multiplier_inverse (ctx + 1) ltac:(lia)) as I2.
  rewrite Z.mul_mod in I1, I2 by lia. assert ((16807 * (c + 1)) mod 0x7fffffff = (16807 * (ctx + 1)) mod 0x7fffffff) as E3 by lia.
  rewrite E3, I2 in I1. lia.
Qed.

Lemma do_rand_correct_witness : do_rand 1 = (33613, 33613).
Proof. exact (proj1 (proj2 (do_rand_correct 1 ltac:(lia)))). Defined.

(** ** forktest and the process table *)

(** The free entries of the table, the children that were not waited for, and
    the output: what the parent sees of the kernel. *)
Record ptable : Type := mkPtable { pt_free : nat; pt_kids : nat; pt_out : list Z }.

Definition phandle {X} (e : sysE X) (t : ptable) : (X + Z) * ptable :=
  match e in sysE X return (X + Z) * ptable with
  | Exit st => (inr st, t)
  | Fork => match pt_free t with S n => (inl 1, mkPtable n (S (pt_kids t)) (pt_out t)) | O => (inl (-1), t) end
  | Wait => match pt_kids t with S n => (inl (1, 0), mkPtable (S (pt_free t)) n (pt_out t)) | O => (inl (-1, 0), t) end
  | Write _ bs => (inl (Z.of_nat (length bs)), mkPtable (pt_free t) (pt_kids t) (pt_out t ++ bs))
  | Read _ _ | Fstat _ | Pipe | Memstats => (inl None, t)
  | Kill _ | Exec _ _ | Open _ _ | Close _ | Mknod _ _ _ | Unlink _ | Link _ _ | Mkdir _ | Chdir _ | Dup _ | Getpid | Sbrk _ _ | Pause _ | Uptime
  | Load _ _ | WriteAt _ _ _ | ReadAt _ _ _ | OpenAt _ _ | UnlinkAt _ | LinkAt _ _ | ExecAt _ _ | PipeAt _ => (inl (-1), t)
  | Store _ _ _ => (inl tt, t)
  end.

#[local] Abbreviation pruns := (runs (@phandle)).

Lemma forks_runs free : forall kids out n, 0 <= n -> n + Z.of_nat free < N ->
  pruns (ITree.iter (fun n : Z =>
    if n <? N then
      pid <- sys Fork ;;
      if pid <? 0 then Ret (inr n) else if pid =? 0 then exit 0 else Ret (inl (n + 1))
    else Ret (inr n)) n) (mkPtable free kids out) (inl (n + Z.of_nat free), mkPtable 0 (free + kids) out).
Proof.
  induction free as [|free IH]; intros kids out n Hn HN.
  - rewrite Z.add_0_r. apply runs_iter_done. rewrite (proj2 (Z.ltb_lt n N)) by lia. eapply runs_sys; [done|]. apply runs_ret.
  - replace (n + Z.of_nat (S free)) with ((n + 1) + Z.of_nat free) by lia. replace (S free + kids)%nat with (free + S kids)%nat by lia.
    eapply runs_iter; [|apply IH; lia]. rewrite (proj2 (Z.ltb_lt n N)) by lia. eapply runs_sys; [done|]. apply runs_ret.
Qed.

Lemma reaps_runs kids : forall free out, pruns (reaps (Z.of_nat kids)) (mkPtable free kids out) (inl tt, mkPtable (free + kids) 0 out).
Proof.
  induction kids as [|kids IH]; intros free out.
  - apply runs_iter_done. rewrite Nat.add_0_r. apply runs_ret.
  - replace (free + S kids)%nat with (S free + kids)%nat by lia. eapply runs_iter; [|apply IH].
    rewrite (proj2 (Z.gtb_lt _ _)) by lia. eapply runs_sys; [done|]. cbn [fst]. rewrite (proj2 (Z.ltb_ge 1 0)) by lia.
    replace (Z.of_nat (S kids) - 1) with (Z.of_nat kids) by lia. apply runs_ret.
Qed.

Lemma print_runs s t : pruns (print s) t (inl tt, mkPtable (pt_free t) (pt_kids t) (pt_out t ++ s)).
Proof. eapply runs_sys; [done|]. apply runs_ret. Qed.

(** forktest passes: on a kernel whose process table has fewer than 1000
    free entries, whose [fork] fails only when it is full and whose [wait]
    returns each child once, it ends with status 0 after the message "fork test
    OK", with every child collected. *)
Theorem forktest_passes (free : nat) (out : list Z) :
  Z.of_nat free < N ->
  pruns forktest_main (mkPtable free 0 out) (inr 0, mkPtable free 0 (out ++ strn "fork test" ++ strn "fork test OK")).
Proof.
  intros HN. eapply runs_bind; [|by apply runs_exit]. eapply runs_bind; [apply print_runs|].
  eapply runs_bind; [apply (forks_runs free 0 _ 0); lia|]. rewrite Z.add_0_l, Nat.add_0_r. rewrite (proj2 (Z.eqb_neq _ _)) by lia.
  eapply runs_bind; [apply reaps_runs|]. eapply runs_sys; [done|]. cbn [fst Z.eqb negb]. rewrite app_assoc. apply print_runs.
Qed.

Lemma forktest_passes_witness :
  pruns forktest_main (mkPtable 61 0 []) (inr 0, mkPtable 61 0 (strn "fork test" ++ strn "fork test OK")).
Proof. apply (forktest_passes 61 []). by vm_compute. Defined.
