(* ===== verification/Usertests.v ===== *)
(** * The tests of the system calls (user/usertests.c)

    Every test as a program over system calls and accesses to memory, the two
    tables and the driver that runs each test in a process of its own.

    A test is a function of its name.  What the C code leaves undetermined is
    an argument of the section: uninitialised variables, the stack pointer and
    the address of a static array.  [mem] calls the allocator of umalloc.c,
    whose own model is [Umalloc]; here it is any program. *)

From ITree Require Import ITree.
From stdpp Require Import gmap.
From S2P Require Import Prelude Riscv KState Fs Printf Ulib Exec Syscall Grep ShRunSpec UserWorld.
#[local] Open Scope prog_scope.

(** ** Messages and calls *)

(** [printf(fmt, ...); exit(1);] *)
Definition fail {A} (fmt : list Z) (args : list arg) : prog A := printf fmt args ;; exit 1.

Definition S_ (s : list Z) : arg := Str (Some s).

(** What [read] returns. *)
Definition count_of (r : option (list Z)) : Z := match r with Some bs => Z.of_nat (length bs) | None => -1 end.

Definition the_pipe (err : prog (Z * Z)) : prog (Z * Z) :=
  p <- sys Ulib.Pipe ;;
  match p with
  | None => err
  | Some fds => Ret fds
  end.

(** [close(open(path, mode))] *)
Definition open_close (path : list Z) (mode : Z) : prog unit := fd <- sys (Open path mode) ;; sys (Close fd) ;; Ret tt.

Definition unlink_ (path : list Z) : prog unit := sys (Unlink path) ;; Ret tt.

(** [int st = 0; wait(&st);] *)
Definition wait_zero : prog Z := r <- sys Wait ;; Ret (if fst r <? 0 then 0 else snd r).

(** The string at an address, to be printed. *)
Definition load_str (a : Z) : prog (list Z) :=
  ITree.iter (fun acc => c <- sys (Load 1 (u64 (a + Z.of_nat (length acc)))) ;; Ret (if c =? 0 then inr acc else inl (acc ++ [c]))) [].

Definition BUFSZ : Z := (MAXOPBLOCKS + 2) * BSIZE.

(** [char buf[BUFSZ]] when the process starts. *)
Definition buf0 : list Z := replicate (Z.to_nat BUFSZ) 0.

Definition O_ (l : list Z) : Z := fold_right Z.lor 0 l.

(** [int] in memory. *)
Definition int_bytes (v : Z) : list Z := map (fun k => Z.shiftr (u32 v) (8 * Z.of_nat k) mod 256) (seq 0 4).
Definition int_of (bs : list Z) : Z := s32 (fold_right (fun b r => b + 256 * r) 0 (take 4 bs)).

Definition test : Type := list Z -> prog unit.

Section Tests.
Context (junk : Z) (junk_bytes : nat -> list Z) (sp uninit : Z).
Context (malloc : Z -> prog Z) (free : Z -> prog unit).

(** ** Bad addresses *)

Definition copyin : test := fun s =>
  each [0x80000000; 0x3fffffe000; 0x3ffffff000; 0x4000000000; 0xffffffffffffffff] (fun addr =>
    fd <- sys (Open (str "copyin1") (O_ [O_CREATE; O_WRONLY])) ;;
    if fd <? 0 then fail (strn "open(copyin1) failed") [] else
    n <- sys (WriteAt fd addr 8192) ;;
    if 0 <=? n then fail (strn "write(fd, %p, 8192) returned %d, not -1") [Num addr; Num n] else
    sys (Close fd) ;;
    unlink_ (str "copyin1") ;;
    n <- sys (WriteAt 1 addr 8192) ;;
    if 0 <? n then fail (strn "write(1, %p, 8192) returned %d, not -1 or 0") [Num addr; Num n] else
    p <- the_pipe (fail (strn "pipe() failed") []) ;;
    n <- sys (WriteAt (snd p) addr 8192) ;;
    if 0 <? n then fail (strn "write(pipe, %p, 8192) returned %d, not -1 or 0") [Num addr; Num n] else
    sys (Close (fst p)) ;;
    sys (Close (snd p)) ;; Ret tt).

Definition copyout : test := fun s =>
  each [0; 0x80000000; 0x3fffffe000; 0x3ffffff000; 0x4000000000; 0xffffffffffffffff] (fun addr =>
    fd <- sys (Open (str "README") 0) ;;
    if fd <? 0 then fail (strn "open(README) failed") [] else
    n <- sys (ReadAt fd addr 8192) ;;
    if 0 <? n then fail (strn "read(fd, %p, 8192) returned %d, not -1 or 0") [Num addr; Num n] else
    sys (Close fd) ;;
    p <- the_pipe (fail (strn "pipe() failed") []) ;;
    n <- sys (Write (snd p) (str "x")) ;;
    if negb (n =? 1) then fail (strn "pipe write failed") [] else
    n <- sys (ReadAt (fst p) addr 8192) ;;
    if 0 <? n then fail (strn "read(pipe, %p, 8192) returned %d, not -1 or 0") [Num addr; Num n] else
    sys (Close (fst p)) ;;
    sys (Close (snd p)) ;; Ret tt).

Definition copyinstr1 : test := fun s =>
  each [0x80000000; 0x3fffffe000; 0x3ffffff000; 0x4000000000; 0xffffffffffffffff] (fun addr =>
    fd <- sys (OpenAt addr (O_ [O_CREATE; O_WRONLY])) ;;
    only (0 <=? fd) (fail (strn "open(%p) returned %d, not -1") [Num addr; Num fd])).

Definition copyinstr2 : test := fun s =>
  let b := replicate (Z.to_nat MAXPATH) 120 in
  ret <- sys (Unlink b) ;;
  if negb (ret =? -1) then fail (strn "unlink(%s) returned %d, not -1") [S_ b; Num ret] else
  fd <- sys (Open b (O_ [O_CREATE; O_WRONLY])) ;;
  if negb (fd =? -1) then fail (strn "open(%s) returned %d, not -1") [S_ b; Num fd] else
  ret <- sys (Link b b) ;;
  if negb (ret =? -1) then fail (strn "link(%s, %s) returned %d, not -1") [S_ b; S_ b; Num ret] else
  ret <- sys (Exec b [str "xx"]) ;;
  if negb (ret =? -1) then fail (strn "exec(%s) returned %d, not -1") [S_ b; Num fd] else
  pid <- sys Fork ;;
  if pid <? 0 then fail (strn "fork failed") [] else
  only (pid =? 0)
    (let big := replicate (Z.to_nat PGSIZE) 120 in
     ret <- sys (Exec (str "echo") [big; big; big]) ;;
     if negb (ret =? -1) then fail (strn "exec(echo, BIG) returned %d, not -1") [Num fd] else
     exit 747) ;;
  st <- wait_zero ;;
  only (negb (st =? 747)) (fail (strn "exec(echo, BIG) succeeded, should have failed") []).

Definition copyinstr3 : test := fun s =>
  sbrk 8192 ;;
  top <- sbrk 0 ;;
  only (negb (top mod PGSIZE =? 0)) (sbrk (PGSIZE - top mod PGSIZE) ;; Ret tt) ;;
  top <- sbrk 0 ;;
  if negb (top mod PGSIZE =? 0) then fail (strn "oops") [] else
  let b := u64 (top - 1) in
  sys (Store 1 b 120) ;;
  ret <- sys (UnlinkAt b) ;;
  if negb (ret =? -1) then x <- load_str b ;; fail (strn "unlink(%s) returned %d, not -1") [S_ x; Num ret] else
  fd <- sys (OpenAt b (O_ [O_CREATE; O_WRONLY])) ;;
  if negb (fd =? -1) then x <- load_str b ;; fail (strn "open(%s) returned %d, not -1") [S_ x; Num fd] else
  ret <- sys (LinkAt (inr b) (inr b)) ;;
  if negb (ret =? -1) then x <- load_str b ;; fail (strn "link(%s, %s) returned %d, not -1") [S_ x; S_ x; Num ret] else
  ret <- sys (ExecAt (inr b) [inl (str "xx")]) ;;
  only (negb (ret =? -1)) (x <- load_str b ;; fail (strn "exec(%s) returned %d, not -1") [S_ x; Num fd]).

Definition rwsbrk : test := fun s =>
  a <- sbrk 8192 ;;
  if a =? SBRK_ERROR then fail (strn "sbrk(rwsbrk) failed") [] else
  r <- sbrk (-8192) ;;
  if r =? SBRK_ERROR then fail (strn "sbrk(rwsbrk) shrink failed") [] else
  fd <- sys (Open (str "rwsbrk") (O_ [O_CREATE; O_WRONLY])) ;;
  if fd <? 0 then fail (strn "open(rwsbrk) failed") [] else
  n <- sys (WriteAt fd (u64 (a + PGSIZE)) 1024) ;;
  if 0 <=? n then fail (strn "write(fd, %p, 1024) returned %d, not -1") [Num (a + PGSIZE); Num n] else
  sys (Close fd) ;;
  unlink_ (str "rwsbrk") ;;
  fd <- sys (Open (str "README") O_RDONLY) ;;
  if fd <? 0 then fail (strn "open(README) failed") [] else
  n <- sys (ReadAt fd (u64 (a + PGSIZE)) 10) ;;
  if 0 <=? n then fail (strn "read(fd, %p, 10) returned %d, not -1") [Num (a + PGSIZE); Num n] else
  sys (Close fd) ;;
  exit 0.

(** ** Truncation *)

Definition truncate1 : test := fun s =>
  unlink_ (str "truncfile") ;;
  fd1 <- sys (Open (str "truncfile") (O_ [O_CREATE; O_WRONLY; O_TRUNC])) ;;
  sys (Write fd1 (str "abcd")) ;;
  sys (Close fd1) ;;
  fd2 <- sys (Open (str "truncfile") O_RDONLY) ;;
  n <- sys (Read fd2 32) ;;
  if negb (count_of n =? 4) then fail (strn "%s: read %d bytes, wanted 4") [S_ s; Num (count_of n)] else
  fd1 <- sys (Open (str "truncfile") (O_ [O_WRONLY; O_TRUNC])) ;;
  fd3 <- sys (Open (str "truncfile") O_RDONLY) ;;
  n <- sys (Read fd3 32) ;;
  if negb (count_of n =? 0) then
    printf (strn "aaa fd3=%d") [Num fd3] ;; fail (strn "%s: read %d bytes, wanted 0") [S_ s; Num (count_of n)] else
  n <- sys (Read fd2 32) ;;
  if negb (count_of n =? 0) then
    printf (strn "bbb fd2=%d") [Num fd2] ;; fail (strn "%s: read %d bytes, wanted 0") [S_ s; Num (count_of n)] else
  sys (Write fd1 (str "abcdef")) ;;
  n <- sys (Read fd3 32) ;;
  if negb (count_of n =? 6) then fail (strn "%s: read %d bytes, wanted 6") [S_ s; Num (count_of n)] else
  n <- sys (Read fd2 32) ;;
  if negb (count_of n =? 2) then fail (strn "%s: read %d bytes, wanted 2") [S_ s; Num (count_of n)] else
  unlink_ (str "truncfile") ;;
  sys (Close fd1) ;;
  sys (Close fd2) ;;
  sys (Close fd3) ;; Ret tt.

Definition truncate2 : test := fun s =>
  unlink_ (str "truncfile") ;;
  fd1 <- sys (Open (str "truncfile") (O_ [O_CREATE; O_TRUNC; O_WRONLY])) ;;
  sys (Write fd1 (str "abcd")) ;;
  fd2 <- sys (Open (str "truncfile") (O_ [O_TRUNC; O_WRONLY])) ;;
  n <- sys (Write fd1 (str "x")) ;;
  if negb (n =? -1) then fail (strn "%s: write returned %d, expected -1") [S_ s; Num n] else
  unlink_ (str "truncfile") ;;
  sys (Close fd1) ;;
  sys (Close fd2) ;; Ret tt.

Definition truncate3 : test := fun s =>
  open_close (str "truncfile") (O_ [O_CREATE; O_TRUNC; O_WRONLY]) ;;
  pid <- sys Fork ;;
  if pid <? 0 then fail (strn "%s: fork failed") [S_ s] else
  only (pid =? 0)
    (each (range 0 100 1) (fun _ =>
       fd <- sys (Open (str "truncfile") O_WRONLY) ;;
       if fd <? 0 then fail (strn "%s: open failed") [S_ s] else
       n <- sys (Write fd (str "1234567890")) ;;
       if negb (n =? 10) then fail (strn "%s: write got %d, expected 10") [S_ s; Num n] else
       sys (Close fd) ;;
       fd <- sys (Open (str "truncfile") O_RDONLY) ;;
       sys (Read fd 32) ;;
       sys (Close fd) ;; Ret tt) ;;
     exit 0) ;;
  each (range 0 150 1) (fun _ =>
    fd <- sys (Open (str "truncfile") (O_ [O_CREATE; O_WRONLY; O_TRUNC])) ;;
    if fd <? 0 then fail (strn "%s: open failed") [S_ s] else
    n <- sys (Write fd (str "xxx")) ;;
    if negb (n =? 3) then fail (strn "%s: write got %d, expected 3") [S_ s; Num n] else
    sys (Close fd) ;; Ret tt) ;;
  r <- sys Wait ;;
  unlink_ (str "truncfile") ;;
  exit (snd r).

(** ** Directories in use *)

Definition iputtest : test := fun s =>
  r <- sys (Mkdir (str "iputdir")) ;;
  if r <? 0 then fail (strn "%s: mkdir failed") [S_ s] else
  r <- sys (Chdir (str "iputdir")) ;;
  if r <? 0 then fail (strn "%s: chdir iputdir failed") [S_ s] else
  r <- sys (Unlink (str "../iputdir")) ;;
  if r <? 0 then fail (strn "%s: unlink ../iputdir failed") [S_ s] else
  r <- sys (Chdir (str "/")) ;;
  only (r <? 0) (fail (strn "%s: chdir / failed") [S_ s]).

Definition exitiputtest : test := fun s =>
  pid <- sys Fork ;;
  if pid <? 0 then fail (strn "%s: fork failed") [S_ s] else
  only (pid =? 0)
    (r <- sys (Mkdir (str "iputdir")) ;;
     if r <? 0 then fail (strn "%s: mkdir failed") [S_ s] else
     r <- sys (Chdir (str "iputdir")) ;;
     if r <? 0 then fail (strn "%s: child chdir failed") [S_ s] else
     r <- sys (Unlink (str "../iputdir")) ;;
     if r <? 0 then fail (strn "%s: unlink ../iputdir failed") [S_ s] else
     exit 0) ;;
  r <- sys Wait ;;
  exit (snd r).

Definition openiputtest : test := fun s =>
  r <- sys (Mkdir (str "oidir")) ;;
  if r <? 0 then fail (strn "%s: mkdir oidir failed") [S_ s] else
  pid <- sys Fork ;;
  if pid <? 0 then fail (strn "%s: fork failed") [S_ s] else
  only (pid =? 0)
    (fd <- sys (Open (str "oidir") O_RDWR) ;;
     if 0 <=? fd then fail (strn "%s: open directory for write succeeded") [S_ s] else
     exit 0) ;;
  sys (Pause 1) ;;
  r <- sys (Unlink (str "oidir")) ;;
  if negb (r =? 0) then fail (strn "%s: unlink failed") [S_ s] else
  r <- sys Wait ;;
  exit (snd r).

(** ** Simple file system tests *)

Definition opentest : test := fun s =>
  fd <- sys (Open (str "echo") 0) ;;
  if fd <? 0 then fail (strn "%s: open echo failed!") [S_ s] else
  sys (Close fd) ;;
  fd <- sys (Open (str "doesnotexist") 0) ;;
  only (0 <=? fd) (fail (strn "%s: open doesnotexist succeeded!") [S_ s]).

Definition writetest : test := fun s =>
  let N := 100 in
  let SZ := 10 in
  fd <- sys (Open (str "small") (O_ [O_CREATE; O_RDWR])) ;;
  if fd <? 0 then fail (strn "%s: error: creat small failed!") [S_ s] else
  each (range 0 N 1) (fun i =>
    n <- sys (Write fd (str "aaaaaaaaaa")) ;;
    if negb (n =? SZ) then fail (strn "%s: error: write aa %d new file failed") [S_ s; Num i] else
    n <- sys (Write fd (str "bbbbbbbbbb")) ;;
    only (negb (n =? SZ)) (fail (strn "%s: error: write bb %d new file failed") [S_ s; Num i])) ;;
  sys (Close fd) ;;
  fd <- sys (Open (str "small") O_RDONLY) ;;
  if fd <? 0 then fail (strn "%s: error: open small failed!") [S_ s] else
  i <- sys (Read fd (N * SZ * 2)) ;;
  if negb (count_of i =? N * SZ * 2) then fail (strn "%s: read failed") [S_ s] else
  sys (Close fd) ;;
  r <- sys (Unlink (str "small")) ;;
  only (r <? 0) (fail (strn "%s: unlink small failed") [S_ s]).

(** The reading loop of [writebig], with [n]. *)
Definition writebig_read (s : list Z) (fd n : Z) : prog (Z + unit) :=
  r <- sys (Read fd BSIZE) ;;
  let i := count_of r in
  if i =? 0 then
    (if negb (n =? MAXFILE) then fail (str "%s: read only %d blocks from big") [S_ s; Num n] else Ret (inr tt))
  else if negb (i =? BSIZE) then fail (strn "%s: read failed %d") [S_ s; Num i]
  else
    let v := int_of (default [] r) in
    if negb (v =? n) then fail (strn "%s: read content of block %d is %d") [S_ s; Num n; Num v] else
    Ret (inl (n + 1)).

Definition writebig : test := fun s =>
  fd <- sys (Open (str "big") (O_ [O_CREATE; O_RDWR])) ;;
  if fd <? 0 then fail (strn "%s: error: creat big failed!") [S_ s] else
  each (range 0 MAXFILE 1) (fun i =>
    n <- sys (Write fd (take (Z.to_nat BSIZE) (put_at buf0 0 (int_bytes i)))) ;;
    only (negb (n =? BSIZE)) (fail (strn "%s: error: write big file failed i=%d") [S_ s; Num i])) ;;
  sys (Close fd) ;;
  fd <- sys (Open (str "big") O_RDONLY) ;;
  if fd <? 0 then fail (strn "%s: error: open big failed!") [S_ s] else
  ITree.iter (writebig_read s fd) 0 ;;
  sys (Close fd) ;;
  r <- sys (Unlink (str "big")) ;;
  only (r <? 0) (fail (strn "%s: unlink big failed") [S_ s]).

Definition createtest : test := fun s =>
  let N := 52 in
  let name i := [97; 48 + i] in
  each (range 0 N 1) (fun i => open_close (name i) (O_ [O_CREATE; O_RDWR])) ;;
  each (range 0 N 1) (fun i => unlink_ (name i)).

Definition dirtest : test := fun s =>
  r <- sys (Mkdir (str "dir0")) ;;
  if r <? 0 then fail (strn "%s: mkdir failed") [S_ s] else
  r <- sys (Chdir (str "dir0")) ;;
  if r <? 0 then fail (strn "%s: chdir dir0 failed") [S_ s] else
  r <- sys (Chdir (str "..")) ;;
  if r <? 0 then fail (strn "%s: chdir .. failed") [S_ s] else
  r <- sys (Unlink (str "dir0")) ;;
  only (r <? 0) (fail (strn "%s: unlink dir0 failed") [S_ s]).

Definition exectest : test := fun s =>
  unlink_ (str "echo-ok") ;;
  pid <- sys Fork ;;
  if pid <? 0 then fail (strn "%s: fork failed") [S_ s] else
  only (pid =? 0)
    (sys (Close 1) ;;
     fd <- sys (Open (str "echo-ok") (O_ [O_CREATE; O_WRONLY])) ;;
     if fd <? 0 then fail (strn "%s: create failed") [S_ s] else
     if negb (fd =? 1) then fail (strn "%s: wrong fd") [S_ s] else
     r <- sys (Exec (str "echo") [str "echo"; str "OK"]) ;;
     only (r <? 0) (fail (strn "%s: exec echo failed") [S_ s])) ;;
  w <- sys Wait ;;
  only (negb (fst w =? pid)) (printf (strn "%s: wait failed!") [S_ s]) ;;
  if negb (snd w =? 0) then exit (snd w) else
  fd <- sys (Open (str "echo-ok") O_RDONLY) ;;
  if fd <? 0 then fail (strn "%s: open failed") [S_ s] else
  r <- sys (Read fd 2) ;;
  if negb (count_of r =? 2) then fail (strn "%s: read failed") [S_ s] else
  unlink_ (str "echo-ok") ;;
  if bool_decide (default [] r = str "OK") then exit 0 else fail (strn "%s: wrong output") [S_ s].

(** ** Processes and pipes *)

(** [buf[i] = seq++], [n] times. *)
Definition counting (seq : Z) (n : nat) : list Z := map (fun i => u8 (seq + Z.of_nat i)) (List.seq 0 n).

(** The reading loop of [pipe1], with [seq], [total] and [cc]: [None] is the
    [return] in it. *)
Definition pipe1_read (s : list Z) (fd : Z) (st : Z * Z * Z) : prog ((Z * Z * Z) + option Z) :=
  let '(seq, total, cc) := st in
  r <- sys (Read fd cc) ;;
  match r with
  | None | Some [] => Ret (inr (Some total))
  | Some bs =>
      if bool_decide (bs = counting seq (length bs)) then
        let n := Z.of_nat (length bs) in
        Ret (inl (s32 (seq + n), s32 (total + n), Z.min (cc * 2) BUFSZ))
      else printf (strn "%s: pipe1 oops 2") [S_ s] ;; Ret (inr None)
  end.

Definition pipe1 : test := fun s =>
  let N := 5 in
  let SZ := 1033 in
  p <- the_pipe (fail (strn "%s: pipe() failed") [S_ s]) ;;
  pid <- sys Fork ;;
  if pid =? 0 then
    sys (Close (fst p)) ;;
    each (range 0 N 1) (fun n =>
      w <- sys (Write (snd p) (counting (n * SZ) (Z.to_nat SZ))) ;;
      only (negb (w =? SZ)) (fail (strn "%s: pipe1 oops 1") [S_ s])) ;;
    exit 0
  else if 0 <? pid then
    sys (Close (snd p)) ;;
    r <- ITree.iter (pipe1_read s (fst p)) (0, 0, 1) ;;
    match r with
    | None => Ret tt
    | Some total =>
        if negb (total =? N * SZ) then fail (strn "%s: pipe1 oops 3 total %d") [S_ s; Num total] else
        sys (Close (fst p)) ;;
        w <- sys Wait ;;
        exit (snd w)
    end
  else fail (strn "%s: fork() failed") [S_ s].

Definition killstatus : test := fun s =>
  each (range 0 100 1) (fun _ =>
    pid1 <- sys Fork ;;
    if pid1 <? 0 then fail (strn "%s: fork failed") [S_ s] else
    only (pid1 =? 0) (forever (sys Getpid ;; Ret tt)) ;;
    sys (Pause 1) ;;
    sys (Kill pid1) ;;
    w <- sys Wait ;;
    only (negb (snd w =? -1)) (fail (strn "%s: status should be -1") [S_ s])) ;;
  exit 0.

Definition preempt : test := fun s =>
  pid1 <- sys Fork ;;
  if pid1 <? 0 then fail (str "%s: fork failed") [S_ s] else
  only (pid1 =? 0) ITree.spin ;;
  pid2 <- sys Fork ;;
  if pid2 <? 0 then fail (strn "%s: fork failed") [S_ s] else
  only (pid2 =? 0) ITree.spin ;;
  p <- the_pipe (Ret (junk, junk)) ;;
  pid3 <- sys Fork ;;
  if pid3 <? 0 then fail (strn "%s: fork failed") [S_ s] else
  only (pid3 =? 0)
    (sys (Close (fst p)) ;;
     n <- sys (Write (snd p) (str "x")) ;;
     only (negb (n =? 1)) (printf (str "%s: preempt write error") [S_ s]) ;;
     sys (Close (snd p)) ;;
     ITree.spin) ;;
  sys (Close (snd p)) ;;
  r <- sys (Read (fst p) BUFSZ) ;;
  if negb (count_of r =? 1) then printf (str "%s: preempt read error") [S_ s] else
  sys (Close (fst p)) ;;
  printf (str "kill... ") [] ;;
  sys (Kill pid1) ;;
  sys (Kill pid2) ;;
  sys (Kill pid3) ;;
  printf (str "wait... ") [] ;;
  sys Wait ;;
  sys Wait ;;
  sys Wait ;; Ret tt.

Definition exitwait : test := fun s =>
  each (range 0 100 1) (fun i =>
    pid <- sys Fork ;;
    if pid <? 0 then fail (strn "%s: fork failed") [S_ s] else
    if negb (pid =? 0) then
      w <- sys Wait ;;
      if negb (fst w =? pid) then fail (strn "%s: wait wrong pid") [S_ s] else
      only (negb (i =? snd w)) (fail (strn "%s: wait wrong exit status") [S_ s])
    else exit i).

Definition reparent : test := fun s =>
  master_pid <- sys Getpid ;;
  each (range 0 200 1) (fun _ =>
    pid <- sys Fork ;;
    if pid <? 0 then fail (strn "%s: fork failed") [S_ s] else
    if negb (pid =? 0) then
      w <- sys Wait ;;
      only (negb (fst w =? pid)) (fail (strn "%s: wait wrong pid") [S_ s])
    else
      pid2 <- sys Fork ;;
      if pid2 <? 0 then sys (Kill master_pid) ;; exit 1 else exit 0) ;;
  exit 0.

Definition twochildren : test := fun s =>
  each (range 0 1000 1) (fun _ =>
    pid1 <- sys Fork ;;
    if pid1 <? 0 then fail (strn "%s: fork failed") [S_ s] else
    if pid1 =? 0 then exit 0 else
    pid2 <- sys Fork ;;
    if pid2 <? 0 then fail (strn "%s: fork failed") [S_ s] else
    if pid2 =? 0 then exit 0 else
    sys Wait ;;
    sys Wait ;; Ret tt).

Definition forkfork : test := fun s =>
  let N := 2 in
  each (range 0 N 1) (fun _ =>
    pid <- sys Fork ;;
    if pid <? 0 then fail (str "%s: fork failed") [S_ s] else
    only (pid =? 0)
      (each (range 0 200 1) (fun _ =>
         pid1 <- sys Fork ;;
         if pid1 <? 0 then exit 1 else
         if pid1 =? 0 then exit 0 else
         sys Wait ;; Ret tt) ;;
       exit 0)) ;;
  each (range 0 N 1) (fun _ =>
    w <- sys Wait ;;
    only (negb (snd w =? 0)) (fail (str "%s: fork in child failed") [S_ s])).

Definition forkforkfork : test := fun s =>
  unlink_ (str "stopforking") ;;
  pid <- sys Fork ;;
  if pid <? 0 then fail (str "%s: fork failed") [S_ s] else
  only (pid =? 0)
    (forever
       (fd <- sys (Open (str "stopforking") 0) ;;
        if 0 <=? fd then exit 0 else
        r <- sys Fork ;;
        only (r <? 0) (open_close (str "stopforking") (O_ [O_CREATE; O_RDWR])))) ;;
  sys (Pause 20) ;;
  open_close (str "stopforking") (O_ [O_CREATE; O_RDWR]) ;;
  sys Wait ;;
  sys (Pause 10) ;; Ret tt.

Definition reparent2 : test := fun s =>
  each (range 0 800 1) (fun _ =>
    pid1 <- sys Fork ;;
    if pid1 <? 0 then fail (strn "fork failed") [] else
    only (pid1 =? 0)
      (sys Fork ;;
       sys Fork ;;
       exit 0) ;;
    sys Wait ;; Ret tt) ;;
  exit 0.

(** All of memory as a list linked through its blocks; [m1] is its head. *)
Definition mem_take (m1 : Z) : prog (Z + Z) :=
  m2 <- malloc 10001 ;;
  if m2 =? 0 then Ret (inr m1) else
  sys (Store 8 m2 m1) ;;
  Ret (inl m2).

Definition mem_give (m1 : Z) : prog (Z + unit) :=
  if m1 =? 0 then Ret (inr tt) else
  m2 <- sys (Load 8 m1) ;;
  free m1 ;;
  Ret (inl m2).

Definition mem : test := fun s =>
  pid <- sys Fork ;;
  if pid =? 0 then
    m1 <- ITree.iter mem_take 0 ;;
    ITree.iter mem_give m1 ;;
    m1 <- malloc (1024 * 20) ;;
    if m1 =? 0 then fail (strn "%s: couldn't allocate mem?!!") [S_ s] else
    free m1 ;;
    exit 0
  else
    w <- sys Wait ;;
    if snd w =? -1 then exit 0 else exit (snd w).

(** ** More file system tests *)

(** The reading loop of [sharedfd], with [buf], [nc] and [np]. *)
Definition sharedfd_read (fd : Z) (st : list Z * Z * Z) : prog ((list Z * Z * Z) + (Z * Z)) :=
  let '(buf, nc, np) := st in
  r <- sys (Read fd 10) ;;
  if 0 <? count_of r then
    let buf := put_at buf 0 (default [] r) in
    Ret (inl (buf, s32 (nc + Z.of_nat (length (filter (fun c => c = 99) buf))), s32 (np + Z.of_nat (length (filter (fun c => c = 112) buf)))))
  else Ret (inr (nc, np)).

Definition sharedfd : test := fun s =>
  let N := 1000 in
  let SZ := 10 in
  unlink_ (str "sharedfd") ;;
  fd <- sys (Open (str "sharedfd") (O_ [O_CREATE; O_RDWR])) ;;
  if fd <? 0 then fail (str "%s: cannot open sharedfd for writing") [S_ s] else
  pid <- sys Fork ;;
  let buf := replicate (Z.to_nat SZ) (if pid =? 0 then 99 else 112) in
  each (range 0 N 1) (fun _ =>
    n <- sys (Write fd buf) ;;
    only (negb (n =? SZ)) (fail (strn "%s: write sharedfd failed") [S_ s])) ;;
  (if pid =? 0 then exit 0 else
   w <- sys Wait ;;
   only (negb (snd w =? 0)) (exit (snd w))) ;;
  sys (Close fd) ;;
  fd <- sys (Open (str "sharedfd") 0) ;;
  if fd <? 0 then fail (strn "%s: cannot open sharedfd for reading") [S_ s] else
  r <- ITree.iter (sharedfd_read fd) (buf, 0, 0) ;;
  sys (Close fd) ;;
  unlink_ (str "sharedfd") ;;
  if (fst r =? N * SZ) && (snd r =? N * SZ) then exit 0 else fail (strn "%s: nc/np test fails") [S_ s].

(** The child [pi] of [fourfiles], and what the parent reads back, with [total]. *)
Definition fourfiles_child (s fname : list Z) (pi : Z) : prog unit :=
  fd <- sys (Open fname (O_ [O_CREATE; O_RDWR])) ;;
  if fd <? 0 then fail (strn "%s: create failed") [S_ s] else
  each (range 0 12 1) (fun _ =>
    n <- sys (Write fd (replicate 500 (u8 (48 + pi)))) ;;
    only (negb (n =? 500)) (fail (strn "write failed %d") [Num n])) ;;
  exit 0.

Definition fourfiles_read (s : list Z) (fd i total : Z) : prog (Z + Z) :=
  r <- sys (Read fd BUFSZ) ;;
  if 0 <? count_of r then
    if forallb (fun c => c =? 48 + i) (default [] r) then Ret (inl (s32 (total + count_of r)))
    else fail (strn "%s: wrong char") [S_ s]
  else Ret (inr total).

Definition fourfiles : test := fun s =>
  let N := 12 in
  let SZ := 500 in
  let name pi := [102; 48 + pi] in
  each (range 0 4 1) (fun pi =>
    unlink_ (name pi) ;;
    pid <- sys Fork ;;
    if pid <? 0 then fail (strn "%s: fork failed") [S_ s] else
    only (pid =? 0) (fourfiles_child s (name pi) pi)) ;;
  each (range 0 4 1) (fun _ =>
    w <- sys Wait ;;
    only (negb (snd w =? 0)) (exit (snd w))) ;;
  each (range 0 4 1) (fun i =>
    fd <- sys (Open (name i) 0) ;;
    total <- ITree.iter (fourfiles_read s fd i) 0 ;;
    sys (Close fd) ;;
    if negb (total =? N * SZ) then fail (strn "wrong length %d") [Num total] else
    unlink_ (name i)).

Definition createdelete_child (s : list Z) (pi : Z) : prog unit :=
  each (range 0 20 1) (fun i =>
    fd <- sys (Open [112 + pi; 48 + i] (O_ [O_CREATE; O_RDWR])) ;;
    if fd <? 0 then fail (strn "%s: create failed") [S_ s] else
    sys (Close fd) ;;
    only ((0 <? i) && (i mod 2 =? 0))
      (r <- sys (Unlink [112 + pi; 48 + i / 2]) ;;
       only (r <? 0) (fail (strn "%s: unlink failed") [S_ s]))) ;;
  exit 0.

Definition createdelete : test := fun s =>
  let N := 20 in
  let NCHILD := 4 in
  each (range 0 NCHILD 1) (fun pi =>
    pid <- sys Fork ;;
    if pid <? 0 then fail (strn "%s: fork failed") [S_ s] else
    only (pid =? 0) (createdelete_child s pi)) ;;
  each (range 0 NCHILD 1) (fun _ =>
    w <- sys Wait ;;
    only (negb (snd w =? 0)) (exit 1)) ;;
  each (range 0 N 1) (fun i =>
    each (range 0 NCHILD 1) (fun pi =>
      let name := [112 + pi; 48 + i] in
      fd <- sys (Open name 0) ;;
      if ((i =? 0) || (N / 2 <=? i)) && (fd <? 0) then fail (strn "%s: oops createdelete %s didn't exist") [S_ s; S_ name]
      else if ((1 <=? i) && (i <? N / 2)) && (0 <=? fd) then fail (strn "%s: oops createdelete %s did exist") [S_ s; S_ name]
      else only (0 <=? fd) (sys (Close fd) ;; Ret tt))) ;;
  each (range 0 N 1) (fun i => each (range 0 NCHILD 1) (fun pi => unlink_ [112 + pi; 48 + i])).

Definition unlinkread : test := fun s =>
  let SZ := 5 in
  fd <- sys (Open (str "unlinkread") (O_ [O_CREATE; O_RDWR])) ;;
  if fd <? 0 then fail (strn "%s: create unlinkread failed") [S_ s] else
  sys (Write fd (str "hello")) ;;
  sys (Close fd) ;;
  fd <- sys (Open (str "unlinkread") O_RDWR) ;;
  if fd <? 0 then fail (strn "%s: open unlinkread failed") [S_ s] else
  r <- sys (Unlink (str "unlinkread")) ;;
  if negb (r =? 0) then fail (strn "%s: unlink unlinkread failed") [S_ s] else
  fd1 <- sys (Open (str "unlinkread") (O_ [O_CREATE; O_RDWR])) ;;
  sys (Write fd1 (str "yyy")) ;;
  sys (Close fd1) ;;
  r <- sys (Read fd BUFSZ) ;;
  if negb (count_of r =? SZ) then fail (str "%s: unlinkread read failed") [S_ s] else
  let buf := put_at buf0 0 (default [] r) in
  if negb (hd 0 buf =? 104) then fail (strn "%s: unlinkread wrong data") [S_ s] else
  n <- sys (Write fd (take 10 buf)) ;;
  if negb (n =? 10) then fail (strn "%s: unlinkread write failed") [S_ s] else
  sys (Close fd) ;;
  unlink_ (str "unlinkread").

Definition linktest : test := fun s =>
  let SZ := 5 in
  unlink_ (str "lf1") ;;
  unlink_ (str "lf2") ;;
  fd <- sys (Open (str "lf1") (O_ [O_CREATE; O_RDWR])) ;;
  if fd <? 0 then fail (strn "%s: create lf1 failed") [S_ s] else
  n <- sys (Write fd (str "hello")) ;;
  if negb (n =? SZ) then fail (strn "%s: write lf1 failed") [S_ s] else
  sys (Close fd) ;;
  r <- sys (Link (str "lf1") (str "lf2")) ;;
  if r <? 0 then fail (strn "%s: link lf1 lf2 failed") [S_ s] else
  unlink_ (str "lf1") ;;
  r <- sys (Open (str "lf1") 0) ;;
  if 0 <=? r then fail (strn "%s: unlinked lf1 but it is still there!") [S_ s] else
  fd <- sys (Open (str "lf2") 0) ;;
  if fd <? 0 then fail (strn "%s: open lf2 failed") [S_ s] else
  r <- sys (Read fd BUFSZ) ;;
  if negb (count_of r =? SZ) then fail (strn "%s: read lf2 failed") [S_ s] else
  sys (Close fd) ;;
  r <- sys (Link (str "lf2") (str "lf2")) ;;
  if 0 <=? r then fail (strn "%s: link lf2 lf2 succeeded! oops") [S_ s] else
  unlink_ (str "lf2") ;;
  r <- sys (Link (str "lf2") (str "lf1")) ;;
  if 0 <=? r then fail (strn "%s: link non-existent succeeded! oops") [S_ s] else
  r <- sys (Link (str ".") (str "lf1")) ;;
  only (0 <=? r) (fail (strn "%s: link . lf1 succeeded! oops") [S_ s]).

(** One file of [concreate], created or linked by parent and child. *)
Definition concreate_one (i : Z) : prog unit :=
  let file := [67; 48 + i] in
  unlink_ file ;;
  pid <- sys Fork ;;
  (if negb (pid =? 0) && (i mod 3 =? 1) then sys (Link (str "C0") file) ;; Ret tt
   else if (pid =? 0) && (i mod 5 =? 1) then sys (Link (str "C0") file) ;; Ret tt
   else
     fd <- sys (Open file (O_ [O_CREATE; O_RDWR])) ;;
     if fd <? 0 then fail (strn "concreate create %s failed") [S_ file] else
     sys (Close fd) ;; Ret tt) ;;
  if pid =? 0 then exit 0 else
  w <- sys Wait ;;
  only (negb (snd w =? 0)) (exit 1).

(** One entry of the directory, with the bytes of [de], [fa] and [n]. *)
Definition concreate_entry (s : list Z) (fd : Z) (st : list Z * list bool * Z) : prog ((list Z * list bool * Z) + Z) :=
  let '(de, fa, n) := st in
  r <- sys (Read fd DIRENT) ;;
  if 0 <? count_of r then
    let de := put_at de 0 (default [] r) in
    let at_ k := nth k de 0 in
    if at_ 0%nat + 256 * at_ 1%nat =? 0 then Ret (inl (de, fa, n)) else
    if (at_ 2%nat =? 67) && (at_ 4%nat =? 0) then
      let i := at_ 3%nat - 48 in
      if (i <? 0) || (40 <=? i) then fail (strn "%s: concreate weird file %s") [S_ s; S_ (until_nul (drop 2 de))] else
      if nth (Z.to_nat i) fa false then fail (strn "%s: concreate duplicate file %s") [S_ s; S_ (until_nul (drop 2 de))] else
      Ret (inl (de, <[Z.to_nat i := true]> fa, n + 1))
    else Ret (inl (de, fa, n))
  else Ret (inr n).

Definition six (t : prog unit) : prog unit := each (range 0 6 1) (fun _ => t).

Definition concreate : test := fun s =>
  let N := 40 in
  each (range 0 N 1) concreate_one ;;
  fd <- sys (Open (str ".") 0) ;;
  n <- ITree.iter (concreate_entry s fd) (junk_bytes 16, replicate 40 false, 0) ;;
  sys (Close fd) ;;
  if negb (n =? N) then fail (strn "%s: concreate not enough files in directory listing") [S_ s] else
  each (range 0 N 1) (fun i =>
    let file := [67; 48 + i] in
    pid <- sys Fork ;;
    if pid <? 0 then fail (strn "%s: fork failed") [S_ s] else
    (if ((i mod 3 =? 0) && (pid =? 0)) || ((i mod 3 =? 1) && negb (pid =? 0)) then six (open_close file 0)
     else six (unlink_ file)) ;;
    if pid =? 0 then exit 0 else sys Wait ;; Ret tt).

Definition linkunlink : test := fun s =>
  unlink_ (str "x") ;;
  pid <- sys Fork ;;
  if pid <? 0 then fail (strn "%s: fork failed") [S_ s] else
  fold (range 0 100 1) (fun _ x =>
    let x := u32 (x * 1103515245 + 12345) in
    (if x mod 3 =? 0 then open_close (str "x") (O_ [O_RDWR; O_CREATE])
     else if x mod 3 =? 1 then sys (Link (str "cat") (str "x")) ;; Ret tt
     else unlink_ (str "x")) ;;
    Ret x) (if negb (pid =? 0) then 1 else 97) ;;
  if negb (pid =? 0) then sys Wait ;; Ret tt else exit 0.

Definition subdir : test := fun s =>
  unlink_ (str "ff") ;;
  r <- sys (Mkdir (str "dd")) ;;
  if negb (r =? 0) then fail (strn "%s: mkdir dd failed") [S_ s] else
  fd <- sys (Open (str "dd/ff") (O_ [O_CREATE; O_RDWR])) ;;
  if fd <? 0 then fail (strn "%s: create dd/ff failed") [S_ s] else
  sys (Write fd (str "ff")) ;;
  sys (Close fd) ;;
  r <- sys (Unlink (str "dd")) ;;
  if 0 <=? r then fail (strn "%s: unlink dd (non-empty dir) succeeded!") [S_ s] else
  r <- sys (Mkdir (str "/dd/dd")) ;;
  if negb (r =? 0) then fail (strn "%s: subdir mkdir dd/dd failed") [S_ s] else
  fd <- sys (Open (str "dd/dd/ff") (O_ [O_CREATE; O_RDWR])) ;;
  if fd <? 0 then fail (strn "%s: create dd/dd/ff failed") [S_ s] else
  sys (Write fd (str "FF")) ;;
  sys (Close fd) ;;
  fd <- sys (Open (str "dd/dd/../ff") 0) ;;
  if fd <? 0 then fail (strn "%s: open dd/dd/../ff failed") [S_ s] else
  r <- sys (Read fd BUFSZ) ;;
  if negb (count_of r =? 2) || negb (hd 0 (default [] r) =? 102) then fail (strn "%s: dd/dd/../ff wrong content") [S_ s] else
  sys (Close fd) ;;
  r <- sys (Link (str "dd/dd/ff") (str "dd/dd/ffff")) ;;
  if negb (r =? 0) then fail (strn "%s: link dd/dd/ff dd/dd/ffff failed") [S_ s] else
  r <- sys (Unlink (str "dd/dd/ff")) ;;
  if negb (r =? 0) then fail (strn "%s: unlink dd/dd/ff failed") [S_ s] else
  r <- sys (Open (str "dd/dd/ff") O_RDONLY) ;;
  if 0 <=? r then fail (strn "%s: open (unlinked) dd/dd/ff succeeded") [S_ s] else
  r <- sys (Chdir (str "dd")) ;;
  if negb (r =? 0) then fail (strn "%s: chdir dd failed") [S_ s] else
  r <- sys (Chdir (str "dd/../../dd")) ;;
  if negb (r =? 0) then fail (strn "%s: chdir dd/../../dd failed") [S_ s] else
  r <- sys (Chdir (str "dd/../../../dd")) ;;
  if negb (r =? 0) then fail (strn "%s: chdir dd/../../../dd failed") [S_ s] else
  r <- sys (Chdir (str "./..")) ;;
  if negb (r =? 0) then fail (strn "%s: chdir ./.. failed") [S_ s] else
  fd <- sys (Open (str "dd/dd/ffff") 0) ;;
  if fd <? 0 then fail (strn "%s: open dd/dd/ffff failed") [S_ s] else
  r <- sys (Read fd BUFSZ) ;;
  if negb (count_of r =? 2) then fail (strn "%s: read dd/dd/ffff wrong len") [S_ s] else
  sys (Close fd) ;;
  r <- sys (Open (str "dd/dd/ff") O_RDONLY) ;;
  if 0 <=? r then fail (strn "%s: open (unlinked) dd/dd/ff succeeded!") [S_ s] else
  r <- sys (Open (str "dd/ff/ff") (O_ [O_CREATE; O_RDWR])) ;;
  if 0 <=? r then fail (strn "%s: create dd/ff/ff succeeded!") [S_ s] else
  r <- sys (Open (str "dd/xx/ff") (O_ [O_CREATE; O_RDWR])) ;;
  if 0 <=? r then fail (strn "%s: create dd/xx/ff succeeded!") [S_ s] else
  r <- sys (Open (str "dd") O_CREATE) ;;
  if 0 <=? r then fail (strn "%s: create dd succeeded!") [S_ s] else
  r <- sys (Open (str "dd") O_RDWR) ;;
  if 0 <=? r then fail (strn "%s: open dd rdwr succeeded!") [S_ s] else
  r <- sys (Open (str "dd") O_WRONLY) ;;
  if 0 <=? r then fail (strn "%s: open dd wronly succeeded!") [S_ s] else
  r <- sys (Link (str "dd/ff/ff") (str "dd/dd/xx")) ;;
  if r =? 0 then fail (strn "%s: link dd/ff/ff dd/dd/xx succeeded!") [S_ s] else
  r <- sys (Link (str "dd/xx/ff") (str "dd/dd/xx")) ;;
  if r =? 0 then fail (strn "%s: link dd/xx/ff dd/dd/xx succeeded!") [S_ s] else
  r <- sys (Link (str "dd/ff") (str "dd/dd/ffff")) ;;
  if r =? 0 then fail (strn "%s: link dd/ff dd/dd/ffff succeeded!") [S_ s] else
  r <- sys (Mkdir (str "dd/ff/ff")) ;;
  if r =? 0 then fail (strn "%s: mkdir dd/ff/ff succeeded!") [S_ s] else
  r <- sys (Mkdir (str "dd/xx/ff")) ;;
  if r =? 0 then fail (strn "%s: mkdir dd/xx/ff succeeded!") [S_ s] else
  r <- sys (Mkdir (str "dd/dd/ffff")) ;;
  if r =? 0 then fail (strn "%s: mkdir dd/dd/ffff succeeded!") [S_ s] else
  r <- sys (Unlink (str "dd/xx/ff")) ;;
  if r =? 0 then fail (strn "%s: unlink dd/xx/ff succeeded!") [S_ s] else
  r <- sys (Unlink (str "dd/ff/ff")) ;;
  if r =? 0 then fail (strn "%s: unlink dd/ff/ff succeeded!") [S_ s] else
  r <- sys (Chdir (str "dd/ff")) ;;
  if r =? 0 then fail (strn "%s: chdir dd/ff succeeded!") [S_ s] else
  r <- sys (Chdir (str "dd/xx")) ;;
  if r =? 0 then fail (strn "%s: chdir dd/xx succeeded!") [S_ s] else
  r <- sys (Unlink (str "dd/dd/ffff")) ;;
  if negb (r =? 0) then fail (strn "%s: unlink dd/dd/ff failed") [S_ s] else
  r <- sys (Unlink (str "dd/ff")) ;;
  if negb (r =? 0) then fail (strn "%s: unlink dd/ff failed") [S_ s] else
  r <- sys (Unlink (str "dd")) ;;
  if r =? 0 then fail (strn "%s: unlink non-empty dd succeeded!") [S_ s] else
  r <- sys (Unlink (str "dd/dd")) ;;
  if r <? 0 then fail (strn "%s: unlink dd/dd failed") [S_ s] else
  r <- sys (Unlink (str "dd")) ;;
  only (r <? 0) (fail (strn "%s: unlink dd failed") [S_ s]).

Definition bigwrite : test := fun s =>
  unlink_ (str "bigwrite") ;;
  each (range 499 ((MAXOPBLOCKS + 2) * BSIZE) 471) (fun sz =>
    fd <- sys (Open (str "bigwrite") (O_ [O_CREATE; O_RDWR])) ;;
    if fd <? 0 then fail (strn "%s: cannot create bigwrite") [S_ s] else
    each (range 0 2 1) (fun _ =>
      cc <- sys (Write fd (take (Z.to_nat sz) buf0)) ;;
      only (negb (cc =? sz)) (fail (strn "%s: write(%d) ret %d") [S_ s; Num sz; Num cc])) ;;
    sys (Close fd) ;;
    unlink_ (str "bigwrite")).

(** The reading loop of [bigfile], with [i] and [total]. *)
Definition bigfile_read (s : list Z) (fd : Z) (st : Z * Z) : prog ((Z * Z) + Z) :=
  let '(i, total) := st in
  r <- sys (Read fd 300) ;;
  let cc := count_of r in
  if cc <? 0 then fail (strn "%s: read bigfile failed") [S_ s] else
  if cc =? 0 then Ret (inr total) else
  if negb (cc =? 300) then fail (strn "%s: short read bigfile") [S_ s] else
  if negb (nth 0 (default [] r) 0 =? i / 2) || negb (nth 299 (default [] r) 0 =? i / 2)
  then fail (strn "%s: read bigfile wrong data") [S_ s] else
  Ret (inl (s32 (i + 1), s32 (total + cc))).

Definition bigfile : test := fun s =>
  let N := 20 in
  let SZ := 600 in
  unlink_ (str "bigfile.dat") ;;
  fd <- sys (Open (str "bigfile.dat") (O_ [O_CREATE; O_RDWR])) ;;
  if fd <? 0 then fail (str "%s: cannot create bigfile") [S_ s] else
  each (range 0 N 1) (fun i =>
    n <- sys (Write fd (replicate (Z.to_nat SZ) (u8 i))) ;;
    only (negb (n =? SZ)) (fail (strn "%s: write bigfile failed") [S_ s])) ;;
  sys (Close fd) ;;
  fd <- sys (Open (str "bigfile.dat") 0) ;;
  if fd <? 0 then fail (strn "%s: cannot open bigfile") [S_ s] else
  total <- ITree.iter (bigfile_read s fd) (0, 0) ;;
  sys (Close fd) ;;
  if negb (total =? N * SZ) then fail (strn "%s: read bigfile wrong total") [S_ s] else
  unlink_ (str "bigfile.dat").

Definition fourteen : test := fun s =>
  r <- sys (Mkdir (str "12345678901234")) ;;
  if negb (r =? 0) then fail (strn "%s: mkdir 12345678901234 failed") [S_ s] else
  r <- sys (Mkdir (str "12345678901234/123456789012345")) ;;
  if negb (r =? 0) then fail (strn "%s: mkdir 12345678901234/123456789012345 failed") [S_ s] else
  fd <- sys (Open (str "123456789012345/123456789012345/123456789012345") O_CREATE) ;;
  if fd <? 0 then fail (strn "%s: create 123456789012345/123456789012345/123456789012345 failed") [S_ s] else
  sys (Close fd) ;;
  fd <- sys (Open (str "12345678901234/12345678901234/12345678901234") 0) ;;
  if fd <? 0 then fail (strn "%s: open 12345678901234/12345678901234/12345678901234 failed") [S_ s] else
  sys (Close fd) ;;
  r <- sys (Mkdir (str "12345678901234/12345678901234")) ;;
  if r =? 0 then fail (strn "%s: mkdir 12345678901234/12345678901234 succeeded!") [S_ s] else
  r <- sys (Mkdir (str "123456789012345/12345678901234")) ;;
  if r =? 0 then fail (strn "%s: mkdir 12345678901234/123456789012345 succeeded!") [S_ s] else
  unlink_ (str "123456789012345/12345678901234") ;;
  unlink_ (str "12345678901234/12345678901234") ;;
  unlink_ (str "12345678901234/12345678901234/12345678901234") ;;
  unlink_ (str "123456789012345/123456789012345/123456789012345") ;;
  unlink_ (str "12345678901234/123456789012345") ;;
  unlink_ (str "12345678901234").

Definition rmdot : test := fun s =>
  r <- sys (Mkdir (str "dots")) ;;
  if negb (r =? 0) then fail (strn "%s: mkdir dots failed") [S_ s] else
  r <- sys (Chdir (str "dots")) ;;
  if negb (r =? 0) then fail (strn "%s: chdir dots failed") [S_ s] else
  r <- sys (Unlink (str ".")) ;;
  if r =? 0 then fail (strn "%s: rm . worked!") [S_ s] else
  r <- sys (Unlink (str "..")) ;;
  if r =? 0 then fail (strn "%s: rm .. worked!") [S_ s] else
  r <- sys (Chdir (str "/")) ;;
  if negb (r =? 0) then fail (strn "%s: chdir / failed") [S_ s] else
  r <- sys (Unlink (str "dots/.")) ;;
  if r =? 0 then fail (strn "%s: unlink dots/. worked!") [S_ s] else
  r <- sys (Unlink (str "dots/..")) ;;
  if r =? 0 then fail (strn "%s: unlink dots/.. worked!") [S_ s] else
  r <- sys (Unlink (str "dots")) ;;
  only (negb (r =? 0)) (fail (strn "%s: unlink dots failed!") [S_ s]).

Definition dirfile : test := fun s =>
  fd <- sys (Open (str "dirfile") O_CREATE) ;;
  if fd <? 0 then fail (strn "%s: create dirfile failed") [S_ s] else
  sys (Close fd) ;;
  r <- sys (Chdir (str "dirfile")) ;;
  if r =? 0 then fail (strn "%s: chdir dirfile succeeded!") [S_ s] else
  fd <- sys (Open (str "dirfile/xx") 0) ;;
  if 0 <=? fd then fail (strn "%s: create dirfile/xx succeeded!") [S_ s] else
  fd <- sys (Open (str "dirfile/xx") O_CREATE) ;;
  if 0 <=? fd then fail (strn "%s: create dirfile/xx succeeded!") [S_ s] else
  r <- sys (Mkdir (str "dirfile/xx")) ;;
  if r =? 0 then fail (strn "%s: mkdir dirfile/xx succeeded!") [S_ s] else
  r <- sys (Unlink (str "dirfile/xx")) ;;
  if r =? 0 then fail (strn "%s: unlink dirfile/xx succeeded!") [S_ s] else
  r <- sys (Link (str "README") (str "dirfile/xx")) ;;
  if r =? 0 then fail (strn "%s: link to dirfile/xx succeeded!") [S_ s] else
  r <- sys (Unlink (str "dirfile")) ;;
  if negb (r =? 0) then fail (strn "%s: unlink dirfile failed!") [S_ s] else
  fd <- sys (Open (str ".") O_RDWR) ;;
  if 0 <=? fd then fail (strn "%s: open . for writing succeeded!") [S_ s] else
  fd <- sys (Open (str ".") 0) ;;
  r <- sys (Write fd (str "x")) ;;
  if 0 <? r then fail (strn "%s: write . succeeded!") [S_ s] else
  sys (Close fd) ;;
  Ret tt.

Definition iref : test := fun s =>
  let close_ok fd := only (0 <=? fd) (sys (Close fd) ;; Ret tt) in
  each (range 0 (NINODE + 1) 1) (fun _ =>
    r <- sys (Mkdir (str "irefd")) ;;
    if negb (r =? 0) then fail (strn "%s: mkdir irefd failed") [S_ s] else
    r <- sys (Chdir (str "irefd")) ;;
    if negb (r =? 0) then fail (strn "%s: chdir irefd failed") [S_ s] else
    sys (Mkdir []) ;;
    sys (Link (str "README") []) ;;
    fd <- sys (Open [] O_CREATE) ;;
    close_ok fd ;;
    fd <- sys (Open (str "xx") O_CREATE) ;;
    close_ok fd ;;
    unlink_ (str "xx")) ;;
  each (range 0 (NINODE + 1) 1) (fun _ =>
    sys (Chdir (str "..")) ;;
    unlink_ (str "irefd")) ;;
  sys (Chdir (str "/")) ;; Ret tt.

(** ** fork and memory *)

Definition forktest : test := fun s =>
  let N := 1000 in
  n <- fold_break (range 0 N 1) (fun _ n =>
    pid <- sys Fork ;;
    if pid <? 0 then Ret (inr n) else
    if pid =? 0 then exit 0 else Ret (inl (n + 1))) 0 ;;
  if n =? 0 then fail (strn "%s: no fork at all!") [S_ s] else
  if n =? N then fail (strn "%s: fork claimed to work 1000 times!") [S_ s] else
  each (range 0 n 1) (fun _ =>
    w <- sys Wait ;;
    only (fst w <? 0) (fail (strn "%s: wait stopped early") [S_ s])) ;;
  w <- sys Wait ;;
  only (negb (fst w =? -1)) (fail (strn "%s: wait got too many") [S_ s]).

Definition sbrkbasic : test := fun s =>
  let TOOMUCH := 1024 * 1024 * 1024 in
  pid <- sys Fork ;;
  if pid <? 0 then fail (strn "fork failed in sbrkbasic") [] else
  only (pid =? 0)
    (a <- sbrk TOOMUCH ;;
     if a =? SBRK_ERROR then exit 0 else
     each (range a (a + TOOMUCH) PGSIZE) (fun b => sys (Store 1 b 99)) ;;
     exit 1) ;;
  w <- sys Wait ;;
  if snd w =? 1 then fail (strn "%s: too much memory allocated!") [S_ s] else
  a <- sbrk 0 ;;
  a <- fold (range 0 5000 1) (fun i a =>
    b <- sbrk 1 ;;
    if negb (b =? a) then fail (strn "%s: sbrk test failed %d %p %p") [S_ s; Num i; Num a; Num b] else
    sys (Store 1 b 1) ;;
    Ret (u64 (b + 1))) a ;;
  pid <- sys Fork ;;
  if pid <? 0 then fail (strn "%s: sbrk test fork failed") [S_ s] else
  sbrk 1 ;;
  c <- sbrk 1 ;;
  if negb (c =? u64 (a + 1)) then fail (strn "%s: sbrk test failed post-fork") [S_ s] else
  only (pid =? 0) (exit 0) ;;
  w <- sys Wait ;;
  exit (snd w).

Definition sbrkmuch : test := fun s =>
  let BIG := 100 * 1024 * 1024 in
  oldbrk <- sbrk 0 ;;
  a <- sbrk 0 ;;
  p <- sbrk (s32 (BIG - a)) ;;
  if negb (p =? a) then fail (strn "%s: sbrk test failed to grow big address space; enough phys mem?") [S_ s] else
  let lastaddr := BIG - 1 in
  sys (Store 1 lastaddr 99) ;;
  a <- sbrk 0 ;;
  c <- sbrk (- PGSIZE) ;;
  if c =? SBRK_ERROR then fail (strn "%s: sbrk could not deallocate") [S_ s] else
  c <- sbrk 0 ;;
  if negb (c =? u64 (a - PGSIZE)) then fail (strn "%s: sbrk deallocation produced wrong address, a %p c %p") [S_ s; Num a; Num c] else
  a <- sbrk 0 ;;
  c <- sbrk PGSIZE ;;
  bad <- (if negb (c =? a) then Ret true else b <- sbrk 0 ;; Ret (negb (b =? u64 (a + PGSIZE)))) ;;
  if (bad : bool) then fail (strn "%s: sbrk re-allocation failed, a %p c %p") [S_ s; Num a; Num c] else
  v <- sys (Load 1 lastaddr) ;;
  if v =? 99 then fail (strn "%s: sbrk de-allocation didn't really deallocate") [S_ s] else
  a <- sbrk 0 ;;
  b <- sbrk 0 ;;
  c <- sbrk (s32 (- (b - oldbrk))) ;;
  only (negb (c =? a)) (fail (strn "%s: sbrk downsize failed, a %p c %p") [S_ s; Num a; Num c]).

Definition kernmem : test := fun s =>
  each (range KERNBASE (KERNBASE + 2000000) 50000) (fun a =>
    pid <- sys Fork ;;
    if pid <? 0 then fail (strn "%s: fork failed") [S_ s] else
    only (pid =? 0) (v <- sys (Load 1 a) ;; fail (strn "%s: oops could read %p = %x") [S_ s; Num a; Num v]) ;;
    w <- sys Wait ;;
    only (negb (snd w =? -1)) (exit 1)).

Definition MAXVAplus : test := fun s =>
  ITree.iter (fun a =>
    if a =? 0 then Ret (inr tt) else
    pid <- sys Fork ;;
    if pid <? 0 then fail (strn "%s: fork failed") [S_ s] else
    only (pid =? 0) (sys (Store 1 a 99) ;; fail (strn "%s: oops wrote %p") [S_ s; Num a]) ;;
    w <- sys Wait ;;
    only (negb (snd w =? -1)) (exit 1) ;;
    Ret (inl (u64 (Z.shiftl a 1)))) MAXVA.

(** One child of [sbrkfail], with [pids], [scratch] and [failed]. *)
Definition sbrkfail_one (p : Z * Z) (BIG : Z) (st : list Z * Z * bool) : prog (list Z * Z * bool) :=
  let '(pids, scratch, failed) := st in
  pid <- sys Fork ;;
  only (pid =? 0)
    (b <- sbrk 0 ;;
     r <- sbrk (s32 (BIG - b)) ;;
     sys (Write (snd p) (if r =? SBRK_ERROR then str "0" else str "1")) ;;
     forever (sys (Pause 1000) ;; Ret tt)) ;;
  if negb (pid =? -1) then
    r <- sys (Read (fst p) 1) ;;
    let scratch := match r with Some (c :: _) => c | _ => scratch end in
    Ret (pids ++ [pid], scratch, failed || (scratch =? 48))
  else Ret (pids ++ [pid], scratch, failed).

Definition sbrkfail : test := fun s =>
  let BIG := 100 * 1024 * 1024 in
  p <- the_pipe (fail (strn "%s: pipe() failed") [S_ s]) ;;
  st <- fold (range 0 10 1) (fun _ => sbrkfail_one p BIG) ([], u8 junk, false) ;;
  let '(pids, _, failed) := st in
  only (negb failed) (printf (strn "%s: no allocation failed; allocate more?") [S_ s]) ;;
  c <- sbrk PGSIZE ;;
  each pids (fun pid => only (negb (pid =? -1)) (sys (Kill pid) ;; sys Wait ;; Ret tt)) ;;
  if c =? SBRK_ERROR then fail (strn "%s: failed sbrk leaked memory") [S_ s] else
  pid <- sys Fork ;;
  if pid <? 0 then fail (strn "%s: fork failed") [S_ s] else
  only (pid =? 0)
    (a <- sbrk (10 * BIG) ;;
     if a =? SBRK_ERROR then exit 0 else
     fail (strn "%s: allocate a lot of memory succeeded %d") [S_ s; Num (10 * BIG)]) ;;
  w <- sys Wait ;;
  only (negb (snd w =? 0)) (exit 1).

Definition sbrkarg : test := fun s =>
  a <- sbrk PGSIZE ;;
  fd <- sys (Open (str "sbrk") (O_ [O_CREATE; O_WRONLY])) ;;
  unlink_ (str "sbrk") ;;
  if fd <? 0 then fail (strn "%s: open sbrk failed") [S_ s] else
  n <- sys (WriteAt fd a PGSIZE) ;;
  if n <? 0 then fail (strn "%s: write sbrk failed") [S_ s] else
  sys (Close fd) ;;
  a <- sbrk PGSIZE ;;
  r <- sys (PipeAt a) ;;
  only (negb (r =? 0)) (fail (strn "%s: pipe() failed") [S_ s]).

Definition validatetest : test := fun s =>
  let hi := 1100 * 1024 in
  each (range 0 (hi + 1) PGSIZE) (fun p =>
    r <- sys (LinkAt (inl (str "nosuchfile")) (inr p)) ;;
    only (negb (r =? -1)) (fail (strn "%s: link should not succeed") [S_ s])).

Definition bsstest : test := fun s =>
  each (range 0 10000 1) (fun i =>
    c <- sys (Load 1 (uninit + i)) ;;
    only (negb (c =? 0)) (fail (strn "%s: bss test failed") [S_ s])).

Definition bigargtest : test := fun s =>
  unlink_ (str "bigarg-ok") ;;
  pid <- sys Fork ;;
  if pid =? 0 then
    sys (Exec (str "echo") (replicate (Z.to_nat (MAXARG - 1)) (replicate 399 32))) ;;
    open_close (str "bigarg-ok") O_CREATE ;;
    exit 0
  else if pid <? 0 then fail (strn "%s: bigargtest: fork failed") [S_ s] else
  w <- sys Wait ;;
  if negb (snd w =? 0) then exit (snd w) else
  fd <- sys (Open (str "bigarg-ok") 0) ;;
  if fd <? 0 then fail (strn "%s: bigarg test failed!") [S_ s] else
  sys (Close fd) ;; Ret tt.

(** The name of file [n] of [fsfull], and the file filled, with [total]. *)
Definition fsfull_name (n : Z) : list Z :=
  until_nul [102; u8 (48 + n / 1000); u8 (48 + n mod 1000 / 100); u8 (48 + n mod 100 / 10); u8 (48 + n mod 10)].

Definition fsfull_write (fd total : Z) : prog (Z + Z) :=
  cc <- sys (Write fd (take (Z.to_nat BSIZE) buf0)) ;;
  if cc <? BSIZE then Ret (inr total) else Ret (inl (s32 (total + cc))).

Definition fsfull : prog unit :=
  printf (strn "fsfull test") [] ;;
  nfiles <- ITree.iter (fun nfiles =>
    let name := fsfull_name nfiles in
    printf (strn "writing %s") [S_ name] ;;
    fd <- sys (Open name (O_ [O_CREATE; O_RDWR])) ;;
    if fd <? 0 then printf (strn "open %s failed") [S_ name] ;; Ret (inr nfiles) else
    total <- ITree.iter (fsfull_write fd) 0 ;;
    printf (strn "wrote %d bytes") [Num total] ;;
    sys (Close fd) ;;
    if total =? 0 then Ret (inr nfiles) else Ret (inl (s32 (nfiles + 1)))) 0 ;;
  each (range 0 (nfiles + 1) 1) (fun k => unlink_ (fsfull_name (nfiles - k))) ;;
  printf (strn "fsfull test finished") [].

Definition argptest : test := fun s =>
  fd <- sys (Open (str "init") O_RDONLY) ;;
  if fd <? 0 then fail (strn "%s: open failed") [S_ s] else
  b <- sbrk 0 ;;
  sys (ReadAt fd (u64 (b - 1)) (-1)) ;;
  sys (Close fd) ;; Ret tt.

(** [sp] is what [r_sp()] returns here. *)
Definition stacktest : test := fun s =>
  pid <- sys Fork ;;
  if pid =? 0 then
    v <- sys (Load 1 (u64 (sp - USERSTACK * PGSIZE))) ;;
    fail (strn "%s: stacktest: read below stack %d") [S_ s; Num v]
  else if pid <? 0 then fail (strn "%s: fork failed") [S_ s] else
  w <- sys Wait ;;
  if snd w =? -1 then exit 0 else exit (snd w).

Definition nowrite : test := fun s =>
  each [0; 0x80000000; 0x3fffffe000; 0x3ffffff000; 0x4000000000; 0xffffffffffffffff] (fun addr =>
    pid <- sys Fork ;;
    if pid =? 0 then
      sys (Store 4 addr 10) ;;
      printf (strn "%s: write to %p did not fail!") [S_ s; Num addr] ;;
      exit 0
    else if pid <? 0 then fail (strn "%s: fork failed") [S_ s] else
    w <- sys Wait ;;
    only (snd w =? 0) (exit 1)) ;;
  exit 0.

Definition big : Z := 0xeaeb0b5b00002f5e.

Definition pgbug : test := fun s =>
  sys (ExecAt (inr big) []) ;;
  sys (PipeAt big) ;;
  exit 0.

Definition sbrkbugs : test := fun s =>
  let child (t : prog unit) : prog unit :=
    pid <- sys Fork ;;
    if pid <? 0 then fail (strn "fork failed") [] else
    only (pid =? 0) (t ;; exit 0) ;;
    sys Wait ;; Ret tt in
  child (b <- sbrk 0 ;; sbrk (s32 (- s32 b)) ;; Ret tt) ;;
  child (b <- sbrk 0 ;; sbrk (s32 (- (s32 b - 3500))) ;; Ret tt) ;;
  child (b <- sbrk 0 ;; sbrk (s32 (10 * PGSIZE + 2048 - b)) ;; sbrk (-10) ;; Ret tt) ;;
  exit 0.

Definition sbrklast : test := fun s =>
  top <- sbrk 0 ;;
  only (negb (top mod PGSIZE =? 0)) (sbrk (PGSIZE - top mod PGSIZE) ;; Ret tt) ;;
  sbrk PGSIZE ;;
  sbrk 10 ;;
  sbrk (-20) ;;
  top <- sbrk 0 ;;
  let p := u64 (top - 64) in
  sys (Store 1 p 120) ;;
  sys (Store 1 (u64 (p + 1)) 0) ;;
  fd <- sys (OpenAt p (O_ [O_RDWR; O_CREATE])) ;;
  sys (WriteAt fd p 1) ;;
  sys (Close fd) ;;
  fd <- sys (OpenAt p O_RDWR) ;;
  sys (Store 1 p 0) ;;
  sys (ReadAt fd p 1) ;;
  c <- sys (Load 1 p) ;;
  only (negb (c =? 120)) (exit 1).

Definition sbrk8000 : test := fun s =>
  sbrk (s32 0x80000004) ;;
  top <- sbrk 0 ;;
  c <- sys (Load 1 (u64 (top - 1))) ;;
  sys (Store 1 (u64 (top - 1)) (u8 (c + 1))).

Definition badarg : test := fun s =>
  each (range 0 50000 1) (fun _ => sys (ExecAt (inl (str "echo")) [inr 0xffffffff]) ;; Ret tt) ;;
  exit 0.

(** ** Lazy allocation *)

Definition REGION_SZ : Z := 1024 * 1024 * 1024.

Definition lazy_alloc : test := fun s =>
  prev_end <- sbrklazy REGION_SZ ;;
  if prev_end =? SBRK_ERROR then fail (strn "sbrklazy() failed") [] else
  let new_end := prev_end + REGION_SZ in
  each (range (prev_end + PGSIZE) new_end (64 * PGSIZE)) (fun i => sys (Store 8 i i)) ;;
  each (range (prev_end + PGSIZE) new_end (64 * PGSIZE)) (fun i =>
    v <- sys (Load 8 i) ;;
    only (negb (v =? i)) (fail (strn "failed to read value from memory") [])) ;;
  exit 0.

Definition lazy_unmap : test := fun s =>
  prev_end <- sbrklazy REGION_SZ ;;
  if prev_end =? SBRK_ERROR then fail (strn "sbrklazy() failed") [] else
  let new_end := prev_end + REGION_SZ in
  each (range (prev_end + PGSIZE) new_end (PGSIZE * PGSIZE)) (fun i => sys (Store 8 i i)) ;;
  each (range (prev_end + PGSIZE) new_end (PGSIZE * PGSIZE)) (fun i =>
    pid <- sys Fork ;;
    if pid <? 0 then fail (strn "error forking") [] else
    if pid =? 0 then
      sbrklazy (- REGION_SZ) ;;
      sys (Store 8 i i) ;;
      exit 0
    else
      w <- sys Wait ;;
      only (snd w =? 0) (fail (strn "memory not unmapped") [])) ;;
  exit 0.

Definition lazy_copy : test := fun s =>
  p <- sbrk 0 ;;
  sbrklazy (4 * PGSIZE) ;;
  sys (OpenAt (u64 (p + 8192)) 0) ;;
  xx <- sbrk 0 ;;
  ret <- sbrk (s32 (- (xx + 1))) ;;
  if negb (ret =? xx) then fail (strn "sbrk(sbrk(0)+1) returned %p, not old sz") [Num ret] else
  each [0x3fffffc000; 0x3fffffd000; 0x3fffffe000; 0x3ffffff000; 0x4000000000; 0x8000000000] (fun bad =>
    fd <- sys (Open (str "README") 0) ;;
    if fd <? 0 then fail (strn "cannot open README") [] else
    n <- sys (ReadAt fd bad 512) ;;
    if 0 <=? n then fail (strn "read succeeded") [] else
    sys (Close fd) ;;
    fd <- sys (Open (str "junk") (O_ [O_CREATE; O_RDWR; O_TRUNC])) ;;
    if fd <? 0 then fail (strn "cannot open junk") [] else
    n <- sys (WriteAt fd bad 512) ;;
    if 0 <=? n then fail (strn "write succeeded") [] else
    sys (Close fd) ;; Ret tt) ;;
  exit 0.

(** The tests [p < 0] of pointers in [lazy_sbrk] are never true. *)
Definition lazy_sbrk : test := fun s =>
  p <- sbrk 0 ;;
  p <- ITree.iter (fun p =>
    if p <? MAXVA - Z.shiftl 1 30 then
      sbrklazy (Z.shiftl 1 30) ;;
      p <- sbrklazy 0 ;;
      Ret (inl p)
    else Ret (inr p)) p ;;
  let n := s32 (TRAPFRAME - PGSIZE - p) in
  p1 <- sbrklazy n ;;
  if negb (p1 =? p) then fail (strn "sbrklazy(%d) returned %p, not expected %p") [Num n; Num p1; Num p] else
  p <- sbrk PGSIZE ;;
  if negb (p =? TRAPFRAME - PGSIZE) then fail (strn "sbrk(%d) returned %p, not expected TRAPFRAME-PGSIZE") [Num PGSIZE; Num p] else
  sys (Store 1 p 1) ;;
  c <- sys (Load 1 (u64 (p + 1))) ;;
  if negb (c =? 0) then fail (strn "sbrk() returned non-zero-filled memory") [] else
  p <- sbrk 1 ;;
  if negb (p =? SBRK_ERROR) then fail (strn "sbrk(1) returned %p, expected error") [Num p] else
  p <- sbrklazy 1 ;;
  if negb (p =? SBRK_ERROR) then fail (strn "sbrklazy(1) returned %p, expected error") [Num p] else
  exit 0.

(** The two tables, without the entry that ends them. *)
Definition quicktests : list (test * list Z) :=
  [(copyin, str "copyin"); (copyout, str "copyout"); (copyinstr1, str "copyinstr1"); (copyinstr2, str "copyinstr2");
   (copyinstr3, str "copyinstr3"); (rwsbrk, str "rwsbrk"); (truncate1, str "truncate1"); (truncate2, str "truncate2");
   (truncate3, str "truncate3"); (openiputtest, str "openiput"); (exitiputtest, str "exitiput"); (iputtest, str "iput");
   (opentest, str "opentest"); (writetest, str "writetest"); (writebig, str "writebig"); (createtest, str "createtest");
   (dirtest, str "dirtest"); (exectest, str "exectest"); (pipe1, str "pipe1"); (killstatus, str "killstatus");
   (preempt, str "preempt"); (exitwait, str "exitwait"); (reparent, str "reparent"); (twochildren, str "twochildren");
   (forkfork, str "forkfork"); (forkforkfork, str "forkforkfork"); (reparent2, str "reparent2"); (mem, str "mem");
   (sharedfd, str "sharedfd"); (fourfiles, str "fourfiles"); (createdelete, str "createdelete"); (unlinkread, str "unlinkread");
   (linktest, str "linktest"); (concreate, str "concreate"); (linkunlink, str "linkunlink"); (subdir, str "subdir");
   (bigwrite, str "bigwrite"); (bigfile, str "bigfile"); (fourteen, str "fourteen"); (rmdot, str "rmdot");
   (dirfile, str "dirfile"); (iref, str "iref"); (forktest, str "forktest"); (sbrkbasic, str "sbrkbasic");
   (sbrkmuch, str "sbrkmuch"); (kernmem, str "kernmem"); (MAXVAplus, str "MAXVAplus"); (sbrkfail, str "sbrkfail");
   (sbrkarg, str "sbrkarg"); (validatetest, str "validatetest"); (bsstest, str "bsstest"); (bigargtest, str "bigargtest");
   (argptest, str "argptest"); (stacktest, str "stacktest"); (nowrite, str "nowrite"); (pgbug, str "pgbug");
   (sbrkbugs, str "sbrkbugs"); (sbrklast, str "sbrklast"); (sbrk8000, str "sbrk8000"); (badarg, str "badarg");
   (lazy_alloc, str "lazy_alloc"); (lazy_unmap, str "lazy_unmap"); (lazy_copy, str "lazy_copy"); (lazy_sbrk, str "lazy_sbrk")].

(** ** Tests that take long *)

Definition bigdir : test := fun s =>
  let N := 500 in
  let name i := [120; 48 + i / 64; 48 + i mod 64] in
  unlink_ (str "bd") ;;
  fd <- sys (Open (str "bd") O_CREATE) ;;
  if fd <? 0 then fail (strn "%s: bigdir create failed") [S_ s] else
  sys (Close fd) ;;
  each (range 0 N 1) (fun i =>
    r <- sys (Link (str "bd") (name i)) ;;
    only (negb (r =? 0)) (fail (strn "%s: bigdir i=%d link(bd, %s) failed") [S_ s; Num i; S_ (name i)])) ;;
  unlink_ (str "bd") ;;
  each (range 0 N 1) (fun i =>
    r <- sys (Unlink (name i)) ;;
    only (negb (r =? 0)) (fail (str "%s: bigdir unlink failed") [S_ s])).

Definition manywrites_child (s : list Z) (ci : Z) : prog unit :=
  let name := [98; 97 + ci] in
  unlink_ name ;;
  each (range 0 30 1) (fun _ =>
    each (range 0 (ci + 1) 1) (fun _ =>
      fd <- sys (Open name (O_ [O_CREATE; O_RDWR])) ;;
      if fd <? 0 then fail (strn "%s: cannot create %s") [S_ s; S_ name] else
      cc <- sys (Write fd buf0) ;;
      if negb (cc =? BUFSZ) then fail (strn "%s: write(%d) ret %d") [S_ s; Num BUFSZ; Num cc] else
      sys (Close fd) ;; Ret tt) ;;
    unlink_ name) ;;
  unlink_ name ;;
  exit 0.

Definition manywrites : test := fun s =>
  each (range 0 4 1) (fun ci =>
    pid <- sys Fork ;;
    if pid <? 0 then fail (strn "fork failed") [] else
    only (pid =? 0) (manywrites_child s ci)) ;;
  each (range 0 4 1) (fun _ =>
    st <- wait_zero ;;
    only (negb (st =? 0)) (exit st)) ;;
  exit 0.

Definition badwrite : test := fun s =>
  unlink_ (str "junk") ;;
  each (range 0 600 1) (fun _ =>
    fd <- sys (Open (str "junk") (O_ [O_CREATE; O_WRONLY])) ;;
    if fd <? 0 then fail (strn "open junk failed") [] else
    sys (WriteAt fd 0xffffffffff 1) ;;
    sys (Close fd) ;;
    unlink_ (str "junk")) ;;
  fd <- sys (Open (str "junk") (O_ [O_CREATE; O_WRONLY])) ;;
  if fd <? 0 then fail (strn "open junk failed") [] else
  n <- sys (Write fd (str "x")) ;;
  if negb (n =? 1) then fail (strn "write failed") [] else
  sys (Close fd) ;;
  unlink_ (str "junk") ;;
  exit 0.

(** All of memory, page by page. *)
Definition sbrk_all (touch : bool) (n : Z) : prog (Z + Z) :=
  a <- sbrk PGSIZE ;;
  if a =? SBRK_ERROR then Ret (inr n) else
  only touch (sys (Store 1 (u64 (a + PGSIZE - 1)) 1)) ;;
  Ret (inl (s32 (n + 1))).

Definition execout : test := fun s =>
  each (range 0 15 1) (fun avail =>
    pid <- sys Fork ;;
    if pid <? 0 then fail (strn "fork failed") [] else
    if pid =? 0 then
      ITree.iter (sbrk_all true) 0 ;;
      each (range 0 avail 1) (fun _ => sbrk (- PGSIZE) ;; Ret tt) ;;
      sys (Close 1) ;;
      sys (Exec (str "echo") [str "echo"; str "x"]) ;;
      exit 0
    else sys Wait ;; Ret tt) ;;
  exit 0.

Definition zz_name (i : Z) : list Z := [122; 122; 48 + i / 32; 48 + i mod 32].

(** The file [fi] of [diskfull]: [inr] ends the loop. *)
Definition diskfull_file (s : list Z) (fi : Z) (_ : unit) : prog (unit + unit) :=
  let name := [98; 105; 103; 48 + fi] in
  unlink_ name ;;
  fd <- sys (Open name (O_ [O_CREATE; O_RDWR; O_TRUNC])) ;;
  if fd <? 0 then printf (strn "%s: could not create file %s") [S_ s; S_ name] ;; Ret (inr tt) else
  full <- fold_break (range 0 MAXFILE 1) (fun _ _ =>
    n <- sys (Write fd (junk_bytes (Z.to_nat BSIZE))) ;;
    if negb (n =? BSIZE) then sys (Close fd) ;; Ret (inr true) else Ret (inl false)) false ;;
  sys (Close fd) ;;
  Ret (if full : bool then inr tt else inl tt).

(** Small files until one cannot be created. *)
Definition zz_files (nzz : Z) : prog unit :=
  fold_break (range 0 nzz 1) (fun i _ =>
    unlink_ (zz_name i) ;;
    fd <- sys (Open (zz_name i) (O_ [O_CREATE; O_RDWR; O_TRUNC])) ;;
    if fd <? 0 then Ret (inr tt) else
    sys (Close fd) ;; Ret (inl tt)) tt.

Definition diskfull : test := fun s =>
  unlink_ (str "diskfulldir") ;;
  fold_break (range 0 (127 - 48) 1) (diskfull_file s) tt ;;
  let nzz := 128 in
  zz_files nzz ;;
  r <- sys (Mkdir (str "diskfulldir")) ;;
  only (r =? 0) (printf (strn "%s: mkdir(diskfulldir) unexpectedly succeeded!") [S_ s]) ;;
  unlink_ (str "diskfulldir") ;;
  each (range 0 nzz 1) (fun i => unlink_ (zz_name i)) ;;
  each (range 0 (127 - 48) 1) (fun i => unlink_ [98; 105; 103; 48 + i]).

Definition outofinodes : test := fun s =>
  let nzz := 32 * 32 in
  zz_files nzz ;;
  each (range 0 nzz 1) (fun i => unlink_ (zz_name i)).

Definition slowtests : list (test * list Z) :=
  [(bigdir, str "bigdir"); (manywrites, str "manywrites"); (badwrite, str "badwrite"); (execout, str "execout");
   (diskfull, str "diskfull"); (outofinodes, str "outofinodes")].

End Tests.

(** ** The driver *)

Definition run (f : test) (s : list Z) : prog bool :=
  printf (str "test %s: ") [S_ s] ;;
  pid <- sys Fork ;;
  if pid <? 0 then fail (strn "runtest: fork error") [] else
  if pid =? 0 then f s ;; exit 0 else
  w <- sys Wait ;;
  (if negb (snd w =? 0) then printf (strn "FAILED") [] else printf (strn "OK") []) ;;
  Ret (snd w =? 0).

(** [justone] is [None] for 0. *)
Definition chosen (justone : option (list Z)) (s : list Z) : bool :=
  match justone with
  | None => true
  | Some j => bool_decide (s = j)
  end.

(** The loop of [runtests], with [ntests]. *)
Fixpoint runtests_from (tests : list (test * list Z)) (justone : option (list Z)) (continuous ntests : Z) : prog Z :=
  match tests with
  | [] => Ret ntests
  | (f, s) :: tests =>
      if chosen justone s then
        ok <- run f s ;;
        if negb ok && negb (continuous =? 2) then printf (strn "SOME TESTS FAILED") [] ;; Ret (-1)
        else runtests_from tests justone continuous (ntests + 1)
      else runtests_from tests justone continuous ntests
  end.

Definition runtests (tests : list (test * list Z)) (justone : option (list Z)) (continuous : Z) : prog Z :=
  runtests_from tests justone continuous 0.

(** Pages until there are none, and back to where it began. *)
Definition countfree : prog Z :=
  sz0 <- sbrk 0 ;;
  n <- ITree.iter (sbrk_all false) 0 ;;
  b <- sbrk 0 ;;
  sbrk (s32 (- (b - sz0))) ;;
  Ret n.

(** [if(!quick)] of [drivetests]; nothing run counts as 0 tests. *)
Definition slow_part (slowtests : list (test * list Z)) (quick : bool) (continuous : Z) (justone : option (list Z)) : prog Z :=
  if quick then Ret 0 else
  only (bool_decide (justone = None)) (printf (strn "usertests slow tests starting") []) ;;
  runtests slowtests justone continuous.

(** One round of the loop of [drivetests]: [inr] is the value it returns. *)
Definition drive_round (quicktests slowtests : list (test * list Z)) (quick : bool) (continuous : Z) (justone : option (list Z)) : prog (unit + Z) :=
  printf (strn "usertests starting") [] ;;
  free0 <- countfree ;;
  n <- runtests quicktests justone continuous ;;
  if (n <? 0) && negb (continuous =? 2) then Ret (inr 1) else
  let ntests := if n <? 0 then 0 else n in
  n <- slow_part slowtests quick continuous justone ;;
  if (n <? 0) && negb (continuous =? 2) then Ret (inr 1) else
  let ntests := if n <? 0 then ntests else ntests + n in
  free1 <- countfree ;;
  only (free1 <? free0) (printf (strn "FAILED -- lost some free pages %d (out of %d)") [Num free1; Num free0]) ;;
  if (free1 <? free0) && negb (continuous =? 2) then Ret (inr 1) else
  if negb (bool_decide (justone = None)) && (ntests =? 0) then printf (strn "NO TESTS EXECUTED") [] ;; Ret (inr 1) else
  Ret (if negb (continuous =? 0) then inl tt else inr 0).

Definition drivetests (quicktests slowtests : list (test * list Z)) (quick : bool) (continuous : Z) (justone : option (list Z)) : prog Z :=
  ITree.iter (fun _ : unit => drive_round quicktests slowtests quick continuous justone) tt.

(** The arguments after the name of the program: [quick], [continuous] and
    [justone], or [None] for the usage message. *)
Definition options (argv : list (list Z)) : option (bool * Z * option (list Z)) :=
  match argv with
  | [] => Some (false, 0, None)
  | [a] =>
      if bool_decide (a = str "-q") then Some (true, 0, None)
      else if bool_decide (a = str "-c") then Some (false, 1, None)
      else if bool_decide (a = str "-C") then Some (false, 2, None)
      else if negb (hd 0 a =? 45) then Some (false, 0, Some a)
      else None
  | _ => None
  end.

Definition main (quicktests slowtests : list (test * list Z)) (argv : list (list Z)) : prog void :=
  match options argv with
  | None => fail (strn "Usage: usertests [-c] [-C] [-q] [testname]") []
  | Some (quick, continuous, justone) =>
      r <- drivetests quicktests slowtests quick continuous justone ;;
      if negb (r =? 0) then exit 1 else
      printf (strn "ALL TESTS PASSED") [] ;;
      exit 0
  end.

(** ** Running the driver

    The driver runs on a machine [W] whose kernel answers the system calls of
    the tests as [kernel] says, a fork inside a test like any other call;
    [pages] are its free pages.  Both are arguments: any kernel will do.  At a
    fork of the driver, which succeeds, the child runs first, on the machine,
    until it exits; if it never does, neither does the driver.  The driver itself
    forks, waits, prints and asks for memory. *)
Section Driver.
Context {W : Type} (kernel : forall X, sysE X -> W -> (X + Z) * W) (pages : W -> nat).

(** The machine, the statuses of the children that have exited, the pages that
    the driver has taken, its break and what it has printed. *)
Record lab : Type := mkLab { l_machine : W; l_status : list Z; l_taken : nat; l_brk : Z; l_out : list Z }.

Definition l_emit (bs : list Z) (w : lab) : lab := mkLab (l_machine w) (l_status w) (l_taken w) (l_brk w) (l_out w ++ bs).
Definition l_exited (st : Z) (m : W) (w : lab) : lab := mkLab m (l_status w ++ [st]) (l_taken w) (l_brk w) (l_out w).
Definition l_free (w : lab) : nat := (pages (l_machine w) - l_taken w)%nat.

(** [sbrk] of whole pages, as far as there are free ones. *)
Definition l_sbrk (n : Z) (w : lab) : (Z + Z) * lab :=
  let '(mkLab m vs k b o) := w in
  if n <? 0 then (inl b, mkLab m vs (k - Z.to_nat (- n / PGSIZE)) (b + n) o)
  else if n / PGSIZE <=? Z.of_nat (l_free w) then (inl b, mkLab m vs (k + Z.to_nat (n / PGSIZE)) (b + n) o)
  else (inl SBRK_ERROR, w).

(** The other calls of the driver; a fork is not answered here. *)
Definition lhandle {X} (e : sysE X) (w : lab) : (X + Z) * lab :=
  match e in sysE X return (X + Z) * lab with
  | Exit st => (inr st, w)
  | Fork => (inr (-1), w)
  | Wait =>
      match l_status w with
      | st :: vs => (inl (1, st), mkLab (l_machine w) vs (l_taken w) (l_brk w) (l_out w))
      | [] => (inl (-1, 0), w)
      end
  | Write _ bs => (inl (Z.of_nat (length bs)), l_emit bs w)
  | Sbrk n _ => l_sbrk n w
  | Read _ _ | Fstat _ | Ulib.Pipe | Ulib.Memstats => (inl None, w)
  | Store _ _ _ => (inl tt, w)
  | Close _ | Kill _ | Exec _ _ | Open _ _ | Mknod _ _ _ | Unlink _ | Link _ _ | Mkdir _ | Chdir _ | Dup _ | Getpid | Pause _ | Uptime
  | Load _ _ | WriteAt _ _ _ | ReadAt _ _ _ | OpenAt _ _ | UnlinkAt _ | LinkAt _ _ | ExecAt _ _ | PipeAt _ => (inl (-1), w)
  end.

Fixpoint drive {A} (fuel : nat) (t : prog A) (w : lab) : option ((A + Z) * lab) :=
  match fuel with
  | O => None
  | S fuel =>
      match observe t with
      | RetF a => Some (inl a, w)
      | TauF t => drive fuel t w
      | VisF e k =>
          match e in sysE X return (X -> prog A) -> option ((A + Z) * lab) with
          | Fork => fun k =>
              match UserWorld.run kernel fuel (k 0) (l_machine w) with
              | Some (inr st, m) => drive fuel (k 1) (l_exited st m w)
              | _ => None
              end
          | e => fun k =>
              match lhandle e w with
              | (inl x, w) => drive fuel (k x) w
              | (inr status, w) => Some (inr status, w)
              end
          end k
      end
  end.

(** With enough fuel, [t] ends with [r]. *)
Definition drives {A} (t : prog A) (w : lab) (r : (A + Z) * lab) : Prop := exists n, forall m, (n <= m)%nat -> drive m t w = Some r.

Abbreviation lruns := (runs (@lhandle)).
Abbreviation truns := (runs kernel).

(** *** Rules *)

Lemma drives_fork {A} (t : prog A) k w st m r : observe t = VisF Fork k -> truns (k 0) (l_machine w) (inr st, m) ->
  drives (k 1) (l_exited st m w) r -> drives t w r.
Proof.
  intros E [n1 H1] [n2 H2]. exists (S (n1 + n2)). intros [|n] Hn; [lia|]. cbn [drive]. rewrite E, H1 by lia. apply H2. lia.
Qed.

(** A program that returns without forking runs as in [UserWorld]. *)
Lemma drive_plain {A} n : forall (t : prog A) w a w', UserWorld.run (@lhandle) n t w = Some (inl a, w') -> drive n t w = Some (inl a, w').
Proof.
  induction n as [|n IH]; intros t w a w' H; [done|]. cbn [UserWorld.run drive] in *. destruct (observe t) as [x|t'|X e k]; [done|by apply IH|].
  destruct e; try done; cbn [lhandle] in *; repeat case_match; simplify_eq; by apply IH.
Qed.

Lemma drives_plain {A} (t : prog A) w a w' : lruns t w (inl a, w') -> drives t w (inl a, w').
Proof. intros [n H]. exists n. intros m Hm. by apply drive_plain, H. Qed.

Lemma drives_obs {A} (t t' : prog A) w r : observe t = observe t' -> drives t' w r -> drives t w r.
Proof. intros E [n H]. exists n. intros m Hm. specialize (H m Hm). destruct m as [|m]; [done|]. cbn [drive] in *. by rewrite E. Qed.

Lemma drives_tau {A} (t t' : prog A) w r : observe t = TauF t' -> drives t' w r -> drives t w r.
Proof. intros E [n H]. exists (S n). intros [|m] Hm; [lia|]. cbn [drive]. rewrite E. apply H. lia. Qed.

Lemma drives_bind_run {A B} n : forall (t : prog A) (k : A -> prog B) w a w' r,
  drive n t w = Some (inl a, w') -> drives (k a) w' r -> drives (ITree.bind t k) w r.
Proof.
  induction n as [|n IH]; intros t k w a w' r H Hk; [done|]. cbn [drive] in H. pose proof (observe_bind_eq t k) as Eb.
  destruct (observe t) as [x|t'|X e h]; [injection H as -> ->; by eapply drives_obs|by eapply drives_tau; [exact Eb|eapply IH]|].
  destruct e.
  all: try match type of H with match UserWorld.run _ _ _ _ with _ => _ end = _ =>
    destruct (UserWorld.run kernel n (h 0) (l_machine w)) as [[[c|st] m]|] eqn:Er; [done| |done];
    eapply drives_fork; [exact Eb|exact (runs_stop_run kernel n _ _ _ _ _ Er)|by eapply IH] end.
  all: match type of H with match ?a with _ => _ end = _ => destruct a as [[x|st] w1] eqn:Eh; [|done] end.
  all: destruct (IH _ k _ _ _ r H Hk) as [n1 H1]; exists (S n1); intros [|m] Hm; [lia|]; cbn [drive]; rewrite Eb, Eh; apply H1; lia.
Qed.

Lemma drives_bind {A B} (t : prog A) (k : A -> prog B) w a w' r : drives t w (inl a, w') -> drives (k a) w' r -> drives (ITree.bind t k) w r.
Proof. intros [n H]. apply (drives_bind_run n). by apply H. Qed.

Lemma drives_ret {A} (a : A) w : drives (Ret a) w (inl a, w).
Proof. apply drives_plain, runs_ret. Qed.

Lemma drives_exit {A} st w : drives (exit (A := A) st) w (inr st, w).
Proof. exists 1%nat. intros [|m] Hm; [lia|done]. Qed.

Lemma drives_iter_done {I R} (f : I -> prog (I + R)) i x w w' : drives (f i) w (inl (inr x), w') -> drives (ITree.iter f i) w (inl x, w').
Proof.
  intros H. apply (drives_obs _ (ITree.bind (f i) (fun lr => match lr with inl l => Tau (ITree.iter f l) | inr x => Ret x end))); [reflexivity|].
  eapply drives_bind; [exact H|]. apply drives_ret.
Qed.

(** What [printf] writes. *)
Definition text (fmt : list Z) (args : list arg) : list Z := map u8 (vprintf udigits fmt args).

Lemma l_emit_emit a b w : l_emit b (l_emit a w) = l_emit (a ++ b) w.
Proof. unfold l_emit. cbn. by rewrite app_assoc. Qed.

Lemma l_printf fmt args w : drives (printf fmt args) w (inl tt, l_emit (text fmt args) w).
Proof.
  apply drives_plain, (runs_fprintf_to (@lhandle) 1 l_emit); [done| |intros; apply l_emit_emit].
  intros [? ? ? ? o]. unfold l_emit. cbn. by rewrite app_nil_r.
Qed.

Lemma l_printf_then {A} fmt args (k : prog A) w r : drives k (l_emit (text fmt args) w) r -> drives (printf fmt args ;; k) w r.
Proof. intros H. eapply drives_bind; [apply l_printf|exact H]. Qed.

(** *** The free pages *)

(** The pages can be counted in an [int], the addresses are those of a process. *)
Definition fits (m : W) (b : Z) : Prop := 0 <= b < 0x4000000000 /\ PGSIZE * Z.of_nat (pages m) < 0x80000000.

Lemma l_sbrk_page m vs k b o : l_sbrk PGSIZE (mkLab m vs k b o) =
  match (pages m - k)%nat with
  | O => (inl SBRK_ERROR, mkLab m vs k b o)
  | S _ => (inl b, mkLab m vs (S k) (b + PGSIZE) o)
  end.
Proof.
  unfold l_sbrk, l_free. change (PGSIZE <? 0) with false. change (PGSIZE / PGSIZE) with 1. cbn [l_machine l_taken]. cbv iota.
  destruct (pages m - k)%nat as [|n]; [done|]. destruct (Z.leb_spec 1 (Z.of_nat (S n))); [|lia]. change (Z.to_nat 1) with 1%nat.
  by replace (k + 1)%nat with (S k) by lia.
Qed.

Lemma sbrk_all_runs k : forall n m vs a b o, (pages m - a = k)%nat -> 0 <= n -> n + Z.of_nat k < 0x80000000 -> 0 <= b -> b + PGSIZE * Z.of_nat k < SBRK_ERROR ->
  lruns (ITree.iter (sbrk_all false) n) (mkLab m vs a b o) (inl (n + Z.of_nat k), mkLab m vs (a + k) (b + PGSIZE * Z.of_nat k) o).
Proof.
  induction k as [|k IH]; intros n m vs a b o Ha Hn Hk Hb Hbk.
  - apply runs_iter_done. unfold sbrk_all, sbrk. eapply runs_sys; [cbn [lhandle]; rewrite l_sbrk_page, Ha; reflexivity|]. cbn.
    rewrite !Z.add_0_r, Nat.add_0_r. apply runs_ret.
  - eapply runs_iter.
    + unfold sbrk_all, sbrk. eapply runs_sys; [cbn [lhandle]; rewrite l_sbrk_page, Ha; reflexivity|].
      assert ((b =? SBRK_ERROR) = false) as -> by (unfold PGSIZE in *; lia). eapply runs_bind; apply runs_ret.
    + assert (s32 (n + 1) = n + 1) as -> by (unfold s32; rewrite Z.mod_small; lia).
      replace (n + Z.of_nat (S k)) with (n + 1 + Z.of_nat k) by lia. replace (b + PGSIZE * Z.of_nat (S k)) with (b + PGSIZE + PGSIZE * Z.of_nat k) by lia.
      replace (a + S k)%nat with (S a + k)%nat by lia. apply IH; unfold PGSIZE, SBRK_ERROR in *; lia.
Qed.

Lemma l_sbrk_0 w : l_sbrk 0 w = (inl (l_brk w), w).
Proof.
  unfold l_sbrk, l_free. destruct w as [m vs k b o]. change (0 / PGSIZE) with 0. change (0 <? 0) with false. cbn [l_machine l_taken l_brk]. cbv iota.
  destruct (Z.leb_spec 0 (Z.of_nat (pages m - k))); [|lia]. by rewrite Z.add_0_r, Nat.add_0_r.
Qed.

Lemma l_sbrk_back k m vs b o : l_sbrk (- (PGSIZE * Z.of_nat k)) (mkLab m vs k (b + PGSIZE * Z.of_nat k) o) = (inl (b + PGSIZE * Z.of_nat k), mkLab m vs 0 b o).
Proof.
  destruct k as [|k]; [rewrite l_sbrk_0; cbn; by rewrite Z.add_0_r|]. unfold l_sbrk.
  destruct (Z.ltb_spec (- (PGSIZE * Z.of_nat (S k))) 0); [|unfold PGSIZE in *; lia]. rewrite Z.opp_involutive, Z.mul_comm, Z.div_mul by done.
  rewrite Nat2Z.id, Nat.sub_diag. do 2 f_equal. lia.
Qed.

(** [countfree] counts the free pages and gives them back. *)
Lemma countfree_drives m vs b o : fits m b -> drives countfree (mkLab m vs 0 b o) (inl (Z.of_nat (pages m)), mkLab m vs 0 b o).
Proof.
  intros [Hb Hk]. apply drives_plain. unfold countfree, sbrk.
  eapply runs_sys; [exact (l_sbrk_0 _)|]. cbn [l_brk].
  eapply runs_bind; [apply (sbrk_all_runs (pages m)); unfold PGSIZE, SBRK_ERROR in *; lia|].
  eapply runs_sys; [exact (l_sbrk_0 _)|]. cbn [l_brk].
  replace (s32 (- (b + PGSIZE * Z.of_nat (pages m) - b))) with (- (PGSIZE * Z.of_nat (pages m))) by (unfold s32, PGSIZE in *; rewrite Z.mod_small; lia).
  eapply runs_sys; [exact (l_sbrk_back _ _ _ _ _)|]. rewrite Z.add_0_l. apply runs_ret.
Qed.

(** *** The tests *)

(** The tests [T] are run one after the other, each in a process of its own,
    until one of them exits with a status other than 0; every process that is
    started exits.  The machine goes from [m] to [m']; [ok] says whether all
    passed. *)
Inductive trial : list (test * list Z) -> W -> bool -> W -> Prop :=
| trial_done m : trial [] m true m
| trial_pass f s T m m1 ok m' : truns (f s ;; exit (A := bool) 0) m (inr 0, m1) -> trial T m1 ok m' -> trial ((f, s) :: T) m ok m'
| trial_fail f s T m st m' : truns (f s ;; exit (A := bool) 0) m (inr st, m') -> st <> 0 -> trial ((f, s) :: T) m false m'.

Lemma trial_app T1 T2 m ok m' : trial (T1 ++ T2) m ok m' ->
  (ok = false /\ trial T1 m false m') \/ (exists m1, trial T1 m true m1 /\ trial T2 m1 ok m').
Proof.
  revert m. induction T1 as [|[f s] T1 IH]; intros m H; [right; exists m; split; [constructor|done]|].
  inversion H; subst.
  - destruct (IH _ ltac:(eassumption)) as [[-> ?]|(m2 & ? & ?)]; [left; split; [done|by econstructor]|right; exists m2; split; [by econstructor|done]].
  - left. split; [done|]. by econstructor.
Qed.

Lemma run_drives f s m st m1 b o : truns (f s ;; exit (A := bool) 0) m (inr st, m1) ->
  drives (run f s) (mkLab m [] 0 b o)
    (inl (st =? 0), mkLab m1 [] 0 b (o ++ text (str "test %s: ") [S_ s] ++ text (strn (if st =? 0 then "OK" else "FAILED")) [])).
Proof.
  intros R. unfold run. apply l_printf_then. eapply drives_fork; [rewrite observe_bind_eq; reflexivity| |].
  - eapply runs_obs; [rewrite observe_bind_eq; reflexivity|exact R].
  - eapply drives_obs; [rewrite observe_bind_eq; reflexivity|]. cbn [Z.ltb Z.eqb Z.compare].
    eapply drives_bind; [apply drives_plain; exists 2%nat; intros [|[|n]] Hn; [lia..|reflexivity]|]. cbn [fst snd].
    eapply drives_bind; [|apply drives_ret]. destruct (st =? 0); cbn [negb]; rewrite app_assoc; exact (l_printf _ _ _).
Qed.

(** The tests that are run, and what is printed when they pass. *)
Definition picked (justone : option (list Z)) (tests : list (test * list Z)) : list (test * list Z) := List.filter (fun t => chosen justone (snd t)) tests.
Definition ok_lines (T : list (test * list Z)) : list Z := concat (map (fun t => text (str "test %s: ") [S_ (snd t)] ++ text (strn "OK") []) T).

Lemma ok_lines_cons f s T : ok_lines ((f, s) :: T) = (text (str "test %s: ") [S_ s] ++ text (strn "OK") []) ++ ok_lines T.
Proof. done. Qed.

Lemma runtests_drives j tests : forall n m ok m' b o, trial (picked j tests) m ok m' ->
  exists o', drives (runtests_from tests j 0 n) (mkLab m [] 0 b o)
      (inl (if ok then n + Z.of_nat (length (picked j tests)) else -1), mkLab m' [] 0 b (o ++ o')) /\ (ok = true -> o' = ok_lines (picked j tests)).
Proof.
  induction tests as [|[f s] tests IH]; intros n m ok m' b o HT.
  - inversion HT; subst. exists []. cbn. rewrite Z.add_0_r, app_nil_r. split; [apply drives_ret|done].
  - cbn [runtests_from]. unfold picked in *. cbn [List.filter snd] in *. destruct (chosen j s); [|by apply IH].
    inversion HT as [|? ? ? ? m1 ? ? R HT'|? ? ? ? st ? R Hst]; subst.
    + edestruct (IH (n + 1) m1 ok m' b) as (o' & D & Ho); [exact HT'|].
      exists ((text (str "test %s: ") [S_ s] ++ text (strn "OK") []) ++ o'). split.
      * eapply drives_bind; [exact (run_drives _ _ _ _ _ b o R)|]. cbn [negb andb Z.eqb]. cbn [length].
        replace (n + Z.of_nat (S (length (List.filter (fun t => chosen j t.2) tests)))) with (n + 1 + Z.of_nat (length (List.filter (fun t => chosen j t.2) tests))) by lia.
        rewrite !app_assoc. exact D.
      * intros E. by rewrite ok_lines_cons, Ho.
    + eexists. split; [|discriminate]. eapply drives_bind; [exact (run_drives _ _ _ _ _ b o R)|].
      assert ((st =? 0) = false) as -> by lia. cbn [negb andb Z.eqb]. apply l_printf_then. unfold l_emit. cbn [l_machine l_status l_taken l_brk l_out].
      rewrite <- (app_assoc o). apply drives_ret.
Qed.

Definition slow_line (q : bool) (justone : option (list Z)) : list Z :=
  if q then [] else if bool_decide (justone = None) then text (strn "usertests slow tests starting") [] else [].

Lemma slow_drives q j slow m ok m' b o : trial (picked j (if q : bool then [] else slow)) m ok m' ->
  exists o', drives (slow_part slow q 0 j) (mkLab m [] 0 b o)
      (inl (if ok then Z.of_nat (length (picked j (if q then [] else slow))) else -1), mkLab m' [] 0 b (o ++ o')) /\
    (ok = true -> o' = slow_line q j ++ ok_lines (picked j (if q then [] else slow))).
Proof.
  intros HT. unfold slow_line, slow_part. destruct q.
  - inversion HT; subst. exists []. cbn. rewrite app_nil_r. split; [apply drives_ret|done].
  - destruct (bool_decide (j = None)).
    + edestruct (runtests_drives j slow 0 m ok m' b) as (o' & D & Ho); [exact HT|].
      exists (text (strn "usertests slow tests starting") [] ++ o'). split.
      * eapply drives_bind; [apply l_printf|]. rewrite !app_assoc. exact D.
      * intros E. by rewrite Ho.
    + edestruct (runtests_drives j slow 0 m ok m' b o) as (o' & D & Ho); [exact HT|]. exists o'. split; [|done]. eapply drives_bind; [apply drives_ret|exact D].
Qed.

(** *** A round *)

(** The end of a round in which every test passed. *)
Lemma round_end (j : option (list Z)) n free0 m b o : fits m b ->
  let bad := (Z.of_nat (pages m) <? free0) || (negb (bool_decide (j = None)) && (n =? 0)) in
  exists o', drives (
    free1 <- countfree ;;
    only (free1 <? free0) (printf (strn "FAILED -- lost some free pages %d (out of %d)") [Num free1; Num free0]) ;;
    if (free1 <? free0) && negb (0 =? 2) then Ret (inr 1) else
    if negb (bool_decide (j = None)) && (n =? 0) then printf (strn "NO TESTS EXECUTED") [] ;; Ret (inr 1) else
    Ret (if negb (0 =? 0) then inl tt else inr 0)) (mkLab m [] 0 b o) (inl (inr (if bad then 1 else 0)), mkLab m [] 0 b o') /\ (bad = false -> o' = o).
Proof.
  intros Hf bad. subst bad. generalize (negb (bool_decide (j = None)) && (n =? 0)) as c. intros c.
  assert (forall A (f : Z -> prog A) r, drives (f (Z.of_nat (pages m))) (mkLab m [] 0 b o) r -> drives (ITree.bind countfree f) (mkLab m [] 0 b o) r) as Hc
    by (intros A f r; exact (drives_bind _ _ _ _ _ _ (countfree_drives m [] b o Hf))).
  destruct (Z.of_nat (pages m) <? free0) eqn:E; cbn [orb]; [|destruct c]; (eexists; split; [apply Hc; rewrite E; cbn [only negb andb Z.eqb]|]).
  - eapply drives_bind; [apply l_printf|]. apply drives_ret.
  - done.
  - eapply drives_bind; [apply drives_ret|]. eapply drives_bind; [apply l_printf|]. apply drives_ret.
  - done.
  - eapply drives_bind; [apply drives_ret|]. apply drives_ret.
  - done.
Qed.

(** All passed, no page is lost, and a name that was given is that of a test. *)
Definition passes (justone : option (list Z)) (T : list (test * list Z)) (m m' : W) (ok : bool) : bool :=
  ok && (pages m <=? pages m')%nat && (bool_decide (justone = None) || negb (length T =? 0)%nat).

Lemma picked_app j l l' : picked j (l ++ l') = picked j l ++ picked j l'.
Proof. apply List.filter_app. Qed.

(** What a round prints when every test passes. *)
Definition round_text (quick slow : list (test * list Z)) (q : bool) (j : option (list Z)) : list Z :=
  text (strn "usertests starting") [] ++ ok_lines (picked j quick) ++ slow_line q j ++ ok_lines (picked j (if q then [] else slow)).

Lemma passes_bad j T m m' : (Z.of_nat (pages m') <? Z.of_nat (pages m)) || negb (bool_decide (j = None)) && (Z.of_nat (length T) =? 0) =
  negb (passes j T m m' true).
Proof.
  unfold passes. rewrite andb_true_l, negb_andb, negb_orb, negb_involutive. f_equal; [|f_equal]; apply eq_true_iff_eq.
  - rewrite negb_true_iff, Z.ltb_lt, Nat.leb_gt. lia.
  - rewrite Z.eqb_eq, Nat.eqb_eq. lia.
Qed.

Lemma round_drives quick slow q j m ok m' b o :
  let T := picked j (quick ++ if q : bool then [] else slow) in
  trial T m ok m' -> fits m b -> fits m' b ->
  exists o', drives (drive_round quick slow q 0 j) (mkLab m [] 0 b o) (inl (inr (if passes j T m m' ok then 0 else 1)), mkLab m' [] 0 b o') /\
    (passes j T m m' ok = true -> o' = o ++ round_text quick slow q j).
Proof.
  intros T HT Hf Hf'. subst T. rewrite picked_app in *. unfold drive_round.
  assert (forall A (f : Z -> prog A) r, drives (f (Z.of_nat (pages m))) (mkLab m [] 0 b (o ++ text (strn "usertests starting") [])) r ->
    drives (printf (strn "usertests starting") [] ;; ITree.bind countfree f) (mkLab m [] 0 b o) r) as Hc.
  { intros A f r H. apply l_printf_then. eapply drives_bind; [|exact H]. by apply countfree_drives. }
  apply trial_app in HT as [[-> HT]|(m1 & HTq & HTs)].
  { edestruct (runtests_drives j quick 0 m false m' b) as (o' & R & _); [exact HT|]. eexists. split; [|discriminate].
    apply Hc. eapply drives_bind; [exact R|]. apply drives_ret. }
  destruct (runtests_drives j quick 0 m true m1 b (o ++ text (strn "usertests starting") [])) as (o1 & Rq & Ho1); [exact HTq|]. rewrite Ho1 in Rq by done.
  assert ((0 + Z.of_nat (length (picked j quick)) <? 0) = false) as E1 by (apply Z.ltb_ge; apply Z.add_nonneg_nonneg; [done|apply Nat2Z.is_nonneg]).
  destruct (slow_drives q j slow m1 ok m' b ((o ++ text (strn "usertests starting") []) ++ ok_lines (picked j quick))) as (o2 & Rs & Ho2); [exact HTs|].
  destruct ok; cycle 1.
  { eexists. split; [|discriminate]. apply Hc. eapply drives_bind; [exact Rq|]. rewrite E1. cbn [andb]. eapply drives_bind; [exact Rs|]. apply drives_ret. }
  rewrite Ho2 in Rs by done. assert ((Z.of_nat (length (picked j (if q then [] else slow))) <? 0) = false) as E2 by (apply Z.ltb_ge, Nat2Z.is_nonneg).
  destruct (round_end j (0 + Z.of_nat (length (picked j quick)) + Z.of_nat (length (picked j (if q then [] else slow)))) (Z.of_nat (pages m)) m' b
    (((o ++ text (strn "usertests starting") []) ++ ok_lines (picked j quick)) ++ slow_line q j ++ ok_lines (picked j (if q then [] else slow)))) as (o3 & R & Ho3);
    [exact Hf'|].
  rewrite Z.add_0_l, <- Nat2Z.inj_add, <- length_app, passes_bad in R, Ho3.
  exists o3. destruct (passes j (picked j quick ++ picked j (if q then [] else slow)) m m' true); cbn [negb] in R, Ho3.
  all: split; [|try discriminate].
  1, 3: apply Hc; eapply drives_bind; [exact Rq|]; rewrite E1; cbn [andb]; eapply drives_bind; [exact Rs|]; rewrite E2; cbn [andb];
    rewrite Z.add_0_l, <- Nat2Z.inj_add, <- length_app; exact R.
  intros _. rewrite Ho3 by reflexivity. unfold round_text. rewrite <- !app_assoc. reflexivity.
Qed.


End Driver.

(** A run that ends with some fuel ends so with more. *)
Lemma runs_of_run {W A} (kernel : forall X, sysE X -> W -> (X + Z) * W) n : forall (t : prog A) w r, UserWorld.run kernel n t w = Some r -> runs kernel t w r.
Proof.
  induction n as [|n IH]; intros t w r H; [done|]. cbn [UserWorld.run] in H. destruct (observe t) as [a|t'|X e k] eqn:E.
  - exists 1%nat. intros [|m] Hm; [lia|]. cbn [UserWorld.run]. by rewrite E.
  - eapply runs_tau; [exact E|by apply IH].
  - destruct (kernel X e w) as [[x|st] w1] eqn:Eh; [eapply runs_vis; [exact E|exact Eh|by apply IH]|].
    exists 1%nat. intros [|m] Hm; [lia|]. cbn [UserWorld.run]. by rewrite E, Eh.
Qed.

(** The real tables, asked for opentest: it passes on a disk with the file echo
    and fails on one without it.  An open file takes a page of this machine. *)
Definition disk (files : list (list Z)) : world := mkWorld (list_to_map (map (fun f => (f, [])) files)) ∅ 0 [] [].
Definition disk_kernel {X} (e : sysE X) (w : world) : (X + Z) * world := UserWorld.handle (fun _ => 1) e w.
Definition disk_pages (w : world) : nat := (5 - size (w_fds w))%nat.
Definition quick_table : list (test * list Z) := quicktests 0 (fun _ => []) 0 0 (fun _ => Ret 0) (fun _ => Ret tt).
Definition slow_table : list (test * list Z) := slowtests (fun _ => []).

Lemma opentest_picked : picked (Some (str "opentest")) (quick_table ++ slow_table) = [(opentest, str "opentest")].
Proof. vm_compute. reflexivity. Qed.

Lemma opentest_passes : UserWorld.run (@disk_kernel) 100 (opentest (str "opentest") ;; exit (A := bool) 0) (disk [str "echo"]) = Some (inr 0, disk [str "echo"]).
Proof. vm_compute. reflexivity. Qed.

Lemma opentest_fails : exists m', UserWorld.run (@disk_kernel) 1000 (opentest (str "opentest") ;; exit (A := bool) 0) (disk []) = Some (inr 1, m') /\ w_fds m' = ∅.
Proof. eexists. split; [vm_compute; reflexivity|]. reflexivity. Qed.

