(* ===== verification/Mkfs.v ===== *)
(** * The file-system image builder (mkfs/mkfs.c)

    A program of the host.  Its state is the image file, as blocks and their
    number, and its global variables.  A [struct dinode] is an [inode] of which
    only the fields on disk count.  [die] and a failed [assert] end the program:
    they are the outcome [Panic].  The host is little-endian; what mkfs prints
    is left out. *)

From S2P Require Import Prelude Riscv Mem CString KState Sched Virtio DiskSpec Bio BioSpec Blocks Log LogSpec Txn Vm PhysMem Fs FsSpec Inode InodeSpec Dinode Grep.

Definition NINODES : Z := 200.

Definition nbitmap : Z := FSSIZE / BPB + 1.
Definition ninodeblocks : Z := NINODES / IPB + 1.
Definition nlog : Z := LOGBLOCKS + 1.
Definition nmeta : Z := 2 + nlog + ninodeblocks + nbitmap.
Definition nblocks : Z := FSSIZE - nmeta.

(** The image file and the globals [sb], [freeinode] and [freeblock]. *)
Record host : Type := mkHost {
  h_img : contents;
  h_len : Z;
  h_sb : superblock;
  h_freeinode : Z;
  h_freeblock : Z
}.

Definition H := M host.

Definition assert (b : bool) : H unit := if b then ret tt else panic "assert".
Definition die {A} (s : string) : H A := panic s.

(** Bytes [a[0..1]] and [a[0..3]] of the result, in the order of the host. *)
Definition xshort (x : Z) : Z := u8 x + 256 * u8 (x / 256).
Definition xint (x : Z) : Z := u8 x + 256 * u8 (x / 256) + 65536 * u8 (x / 65536) + 16777216 * u8 (x / 16777216).

(** The block at [sec * BSIZE]; writing past the end extends the file. *)
Definition at_sec (sec : Z) : Z := u32 (sec * BSIZE) / BSIZE.

Definition wsect (sec : Z) (buf : mem) : H unit :=
  modify (fun s => mkHost (fupd (h_img s) (at_sec sec) buf) (Z.max (h_len s) (at_sec sec + 1)) (h_sb s) (h_freeinode s) (h_freeblock s)).

Definition rsect (sec : Z) : H mem :=
  s <- gets (fun s => s) ;;
  if at_sec sec <? h_len s then ret (h_img s (at_sec sec)) else die "read".

(** [ *dip = *ip ] in the block of the inode. *)
Definition winode (inum : Z) (ip : inode) : H unit :=
  sb <- gets h_sb ;;
  let bn := IBLOCK inum sb in
  buf <- rsect bn ;;
  wsect bn (put_fields (dinode_fields ip (inum mod IPB * DINODE)) buf).

Definition blank (inum : Z) : inode := mkInode ROOTDEV inum 0 false 0 0 0 0 0 (fun _ => 0).

Definition rinode (inum : Z) : H inode :=
  sb <- gets h_sb ;;
  buf <- rsect (IBLOCK inum sb) ;;
  ret (load_dinode buf (inum mod IPB * DINODE) (blank inum)).

Definition ialloc (type : Z) : H Z :=
  inum <- gets h_freeinode ;;
  modify (fun s => mkHost (h_img s) (h_len s) (h_sb s) (u32 (inum + 1)) (h_freeblock s)) ;;
  winode inum (i_set_size (xint 0) (i_set_nlink (xshort 1) (i_set_type (xshort type) (blank inum)))) ;;
  ret inum.

(** The bitmap with the first [used] blocks marked. *)
Definition marks (used : Z) : mem := foldl (fun buf i => set_bit i buf) zeroed (seqZ 0 used).

Definition balloc (used : Z) : H unit :=
  assert (used <? BPB) ;;
  sb <- gets h_sb ;;
  wsect (sb_bmapstart sb) (marks used).

(** [freeblock++] *)
Definition next_block : H Z :=
  b <- gets h_freeblock ;;
  modify (fun s => mkHost (h_img s) (h_len s) (h_sb s) (h_freeinode s) (u32 (b + 1))) ;;
  ret b.

Definition set_addr (j b : Z) (din : inode) : inode := i_set_addrs (fupd (i_addrs din) j b) din.

(** [if(xint(din.addrs[j]) == 0) din.addrs[j] = xint(freeblock++);] *)
Definition ensure_addr (j : Z) (din : inode) : H inode :=
  if xint (i_addrs din j) =? 0 then b <- next_block ;; ret (set_addr j (xint b) din) else ret din.

(** The entry of the indirect block [a], [x = xint(indirect[fbn-NDIRECT])]. *)
Definition entry_block (a fbn : Z) : H Z :=
  indirect <- rsect a ;;
  if load32 indirect (4 * (fbn - NDIRECT)) =? 0 then
    b <- next_block ;;
    let indirect := store32 indirect (4 * (fbn - NDIRECT)) (xint b) in
    wsect a indirect ;;
    ret (xint (load32 indirect (4 * (fbn - NDIRECT))))
  else ret (xint (load32 indirect (4 * (fbn - NDIRECT)))).

(** The block [x] of the file block [fbn]. *)
Definition file_block (fbn : Z) (din : inode) : H (inode * Z) :=
  if fbn <? NDIRECT then
    din <- ensure_addr fbn din ;;
    ret (din, xint (i_addrs din fbn))
  else
    din <- ensure_addr NDIRECT din ;;
    x <- entry_block (xint (i_addrs din NDIRECT)) fbn ;;
    ret (din, x).

Definition iappend (inum : Z) (p : list Z) : H unit :=
  din <- rinode inum ;;
  r <- iter (S (length p)) (fun '(din, off, p) =>
    if 0 <? Z.of_nat (length p) then
      let fbn := off / BSIZE in
      assert (fbn <? MAXFILE) ;;
      x <- file_block fbn din ;;
      let n1 := Z.min (Z.of_nat (length p)) ((fbn + 1) * BSIZE - off) in
      buf <- rsect (snd x) ;;
      wsect (snd x) (mem_write buf (off - fbn * BSIZE) (take (Z.to_nat n1) p)) ;;
      ret (inl (fst x, u32 (off + n1), drop (Z.to_nat n1) p))
    else ret (inr (din, off))) (din, xint (i_size din), p) ;;
  winode inum (i_set_size (xint (snd r)) (fst r)).

(** The struct of the super block, as its bytes. *)
Definition sb_fields (sb : superblock) : list field :=
  [(0, 4%nat, sb_magic sb); (4, 4%nat, sb_size sb); (8, 4%nat, sb_nblocks sb); (12, 4%nat, sb_ninodes sb);
   (16, 4%nat, sb_nlog sb); (20, 4%nat, sb_logstart sb); (24, 4%nat, sb_inodestart sb); (28, 4%nat, sb_bmapstart sb)].

Definition the_sb : superblock :=
  mkSuper FSMAGIC (xint FSSIZE) (xint nblocks) (xint NINODES) (xint nlog) (xint 2) (xint (2 + nlog)) (xint (2 + nlog + ninodeblocks)).

(** An argument after the image: its name, and what the calls of [read] on
    it return ([None] is -1), or [None] when it cannot be opened. *)
Definition input : Type := list Z * option (list (option (list Z))).

(** [while((cc = read(fd, buf, sizeof(buf))) > 0)]: the buffers up to the first
    read that returns nothing or fails. *)
Fixpoint read_chunks (reads : list (option (list Z))) : list (list Z) :=
  match reads with
  | Some (c :: buf) :: reads => (c :: buf) :: read_chunks reads
  | _ => []
  end.

Definition user_dir : list Z := [117; 115; 101; 114; 47].

(** [shortname], up to the test for '_'. *)
Definition strip_dir (arg : list Z) : list Z := if decide (take 5 arg = user_dir) then drop 5 arg else arg.
Definition strip_mark (name : list Z) : list Z := if rchr name =? 95 then drop 1 name else name.

Definition add_file (rootino : Z) (a : input) : H unit :=
  let shortname := strip_dir (fst a) in
  assert (bool_decide (47 ∉ shortname)) ;;
  match snd a with
  | None => die "open"
  | Some reads =>
      let shortname := strip_mark shortname in
      assert (Z.of_nat (length shortname) <=? DIRSIZ) ;;
      inum <- ialloc T_FILE ;;
      iappend rootino (mk_dirent (xshort inum) shortname) ;;
      for_each (read_chunks reads) (fun buf => iappend inum buf)
  end.

(** The size of the root directory, rounded up. *)
Definition fix_root (rootino : Z) : H unit :=
  din <- rinode rootino ;;
  let off := xint (i_size din) in
  winode rootino (i_set_size (xint (u32 ((off / BSIZE + 1) * BSIZE))) din).

(** [main] up to the loop over the arguments; the inode of the root. *)
Definition populate (args : list input) : H Z :=
  modify (fun s => mkHost (h_img s) (h_len s) the_sb (h_freeinode s) nmeta) ;;
  for_each (seqZ 0 FSSIZE) (fun i => wsect i zeroed) ;;
  wsect 1 (put_fields (sb_fields the_sb) zeroed) ;;
  rootino <- ialloc T_DIR ;;
  assert (rootino =? ROOTINO) ;;
  iappend rootino (mk_dirent (xshort rootino) [46]) ;;
  iappend rootino (mk_dirent (xshort rootino) [46; 46]) ;;
  for_each args (add_file rootino) ;;
  ret rootino.

Definition main (args : list input) : H unit :=
  rootino <- populate args ;;
  fix_root rootino ;;
  used <- gets h_freeblock ;;
  balloc used.

(** The empty image, before [main]. *)
Definition empty_image : host := mkHost (fun _ => zeroed) 0 (mkSuper 0 0 0 0 0 0 0 0) 1 0.
