(* ===== verification/MkfsSpec.v ===== *)
(** * What mkfs builds

    The image mkfs writes is a file system as the kernel expects it: the
    invariants of the file-system theorems hold on it, and each file has the
    contents of its input. *)

From S2P Require Import Prelude Riscv Mem CString KState Sched Virtio DiskSpec Bio BioSpec Blocks Log LogSpec Txn Vm PhysMem Fs FsSpec Inode InodeSpec Dinode FileIO FileWrite Grep Mkfs.

(** ** Numbers *)

Lemma xint_id x : 0 <= x < 0x100000000 -> xint x = x.
Proof. intros H. unfold xint, u8. zlia. Qed.

Lemma xshort_id x : 0 <= x < 0x10000 -> xshort x = x.
Proof. intros H. unfold xshort, u8. zlia. Qed.

Lemma at_sec_id m : 0 <= m < 2000 -> at_sec m = m.
Proof. intros H. unfold at_sec. rewrite u32_small by flia. by rewrite Z.div_mul. Qed.

Lemma the_BBLOCK b : 0 <= b < 2000 -> BBLOCK b the_sb = 46.
Proof. intros Hb. unfold BBLOCK. change (sb_bmapstart the_sb) with 46. by rewrite Z.div_small by (unfold BPB, BSIZE; lia). Qed.

Lemma the_IBLOCK k : 0 <= k < 200 -> 33 <= IBLOCK k the_sb <= 45.
Proof.
  intros Hk. assert (0 <= k / 16 <= 12) as H by zlia. unfold IBLOCK. change (sb_inodestart the_sb) with 33. change IPB with 16. rewrite u32_small by lia. lia.
Qed.

Lemma the_meta m : 47 <= m -> ~ meta 2 the_sb m.
Proof.
  intros Hm [->|[->|[H|[(c & Hc & H)|(k & Hk & H)]]]]; [lia..| | |].
  - unfold in_log, LOGBLOCKS, MAXOPBLOCKS in H. lia.
  - change (sb_size the_sb) with 2000 in Hc. rewrite the_BBLOCK in H by done. lia.
  - change (sb_ninodes the_sb) with 200 in Hk. pose proof (the_IBLOCK k Hk). lia.
Qed.

Lemma the_plain m : m <> 46 -> plain the_sb m.
Proof. intros Hm c Hc. change (sb_size the_sb) with 2000 in Hc. rewrite the_BBLOCK by done. congruence. Qed.

(** ** The bitmap *)

Lemma marks_step n : 0 <= n -> marks (n + 1) = set_bit n (marks n).
Proof. intros H. unfold marks. rewrite seqZ_app by lia. by rewrite foldl_app. Qed.

Lemma marks_bit n b : 0 <= n -> 0 <= b -> bit_of (marks n) b = (b <? n).
Proof.
  intros Hn Hb. revert n Hn. apply natlike_ind.
  - unfold marks. rewrite bit_of_testbit. change (load8 _ _) with 0. rewrite Z.testbit_0_l. symmetry. by apply Z.ltb_ge.
  - intros n Hn IH. rewrite <- Z.add_1_r, marks_step, bit_of_set, IH by done. case_decide as E.
    + subst. symmetry. apply Z.ltb_lt. lia.
    + destruct (Z.ltb_spec b n), (Z.ltb_spec b (n + 1)); lia.
Qed.

(** ** The image under construction *)

(** [W] is the image as it would be if the bitmap were written now. *)
Record at_work (s : host) (W : contents) (free : Z) : Prop := {
  aw_sb : h_sb s = the_sb;
  aw_len : h_len s = 2000;
  aw_free : h_freeblock s = free;
  aw_range : 47 <= free <= 2000;
  aw_view : forall m, W m = if decide (m = 46) then marks free else h_img s m;
  aw_fresh : forall m, free <= m < 2000 -> W m = zeroed;
  aw_log : forall m, 2 <= m <= 32 -> W m = zeroed;
  aw_super : W 1 = put_fields (sb_fields the_sb) zeroed
}.

Lemma work_used s W free b : at_work s W free -> 0 <= b < 2000 -> used W the_sb b = (b <? free).
Proof.
  intros A Hb. pose proof (aw_range _ _ _ A). unfold used. rewrite the_BBLOCK, (aw_view _ _ _ A), decide_True by done.
  rewrite Z.mod_small by (unfold BPB, BSIZE; lia). apply marks_bit; lia.
Qed.

Lemma work_bitmap s W free : at_work s W free -> fs_bitmap 2 the_sb W.
Proof.
  intros A. pose proof (aw_range _ _ _ A) as Hf. split; change (sb_size the_sb) with 2000; change (sb_ninodes the_sb) with 200; [lia|by split|by split|..].
  - intros b Hb. rewrite the_BBLOCK by done. unfold in_log, LOGBLOCKS, MAXOPBLOCKS. lia.
  - intros k Hk. pose proof (the_IBLOCK k Hk). split; [lia|]. split; [unfold in_log, LOGBLOCKS, MAXOPBLOCKS; lia|].
    intros c Hc. rewrite the_BBLOCK by done. lia.
  - intros b Hb Hu. rewrite (work_used _ _ _ _ A) in Hu by done. apply the_meta. apply Z.ltb_ge in Hu. lia.
Qed.

Lemma rsect_run s W free m : at_work s W free -> 0 <= m < 2000 -> m <> 46 -> rsect m s = Ok (W m) s.
Proof.
  intros A Hm Hne. unfold rsect. erewrite bind_ok by reflexivity. rewrite at_sec_id, (aw_len _ _ _ A), (proj2 (Z.ltb_lt m 2000)) by lia.
  by rewrite (aw_view _ _ _ A), decide_False.
Qed.

(** Writing a block that is in use and not part of the log. *)
Lemma wsect_run s W free m d : at_work s W free -> 33 <= m < free -> m <> 46 ->
  exists s', wsect m d s = Ok tt s' /\ at_work s' (fupd W m d) free /\ h_freeinode s' = h_freeinode s.
Proof.
  intros [A1 A2 A3 A4 A5 A6 A7 A8] Hm Hne. eexists. split; [done|]. rewrite at_sec_id by lia. split; [|done].
  split; cbn; try done; [lia| | | |].
  - intros k. rewrite !fupd_cases. case_decide as E; [subst; by rewrite decide_False|apply A5].
  - intros k Hk. rewrite fupd_ne by lia. by apply A6.
  - intros k Hk. rewrite fupd_ne by lia. by apply A7.
  - by rewrite fupd_ne by lia.
Qed.

Lemma next_block_run s W free : at_work s W free -> free < 2000 ->
  exists s', next_block s = Ok free s' /\ at_work s' (taken W the_sb free) (free + 1) /\ h_freeinode s' = h_freeinode s.
Proof.
  intros [A1 A2 A3 A4 A5 A6 A7 A8] Hf. eexists. split; [unfold next_block; cbn; by rewrite A3|]. split; [|done].
  assert (forall m, taken W the_sb free m = if decide (m = free) then zeroed else if decide (m = 46) then marks (free + 1) else W m) as Ht.
  { intros m. unfold taken. rewrite the_BBLOCK by lia. rewrite Z.mod_small by (unfold BPB, BSIZE; lia). rewrite !fupd_cases.
    assert (W 46 = marks free) as E46 by (by rewrite A5, decide_True). rewrite E46, <- marks_step by lia. by repeat case_decide; simplify_eq. }
  split; cbn; try done.
  - rewrite ?A3. apply u32_small. lia.
  - lia.
  - intros m. rewrite Ht. destruct (decide (m = free)) as [->|]; [|case_decide; [done|by rewrite A5, decide_False]].
    rewrite decide_False by lia. rewrite <- (A6 free) by lia. by rewrite A5, decide_False by lia.
  - intros m Hm. rewrite Ht. repeat case_decide; try done; [lia|]. apply A6. lia.
  - intros m Hm. rewrite Ht, !decide_False by lia. by apply A7.
  - rewrite Ht, !decide_False by lia. done.
Qed.

(** ** Blocks for a file *)

Lemma data_range m : 0 <= m -> ~ meta 2 the_sb m -> 47 <= m.
Proof.
  intros H0 H. apply Z.nlt_ge. intros Hm. apply H. unfold meta. change (sb_size the_sb) with 2000. change (sb_ninodes the_sb) with 200.
  destruct (Z.lt_ge_cases m 2); [lia|]. destruct (Z.lt_ge_cases m 33); [right; right; left; unfold in_log, LOGBLOCKS, MAXOPBLOCKS; lia|].
  right; right; right. destruct (decide (m = 46)) as [->|Hne]; [left; exists 0; by rewrite the_BBLOCK|right].
  exists ((m - 33) * 16). split; [lia|]. unfold IBLOCK. change (sb_inodestart the_sb) with 33. change IPB with 16.
  rewrite Z.div_mul by done. rewrite u32_small; lia.
Qed.

(** The file has the blocks of its first [o] bytes and no others, and is zero
    after them. *)
Record tight (W : contents) (x : inode) (o : Z) : Prop := {
  tg_block : forall bn, 0 <= bn < MAXFILE -> block_at W x bn <> 0 <-> bn * BSIZE < o;
  tg_ind : i_addrs x NDIRECT <> 0 <-> NDIRECT * BSIZE < o;
  tg_zero : forall k, o <= k < MAXFILE * BSIZE -> block_at W x (k / BSIZE) <> 0 -> byte_at W x k = 0
}.

(** How many blocks a file of [n] bytes takes. *)
Definition nblk (n : Z) : Z := (n + BSIZE - 1) / BSIZE + (if NDIRECT * BSIZE <? n then 1 else 0).

Section blocks.
Variables (W : contents) (x : inode) (free : Z) (s : host).
Hypotheses (A : at_work s W free) (I : inode_ok 2 the_sb W x).

Lemma owned_range m : owns W x m -> 47 <= m < free.
Proof using A I.
  intros H. destruct (in_data _ _ _ _ I m H) as (H1 & H2 & H3). change (sb_size the_sb) with 2000 in H1.
  rewrite (work_used _ _ _ _ A) in H2 by done. apply Z.ltb_lt in H2. split; [by apply data_range; [lia|]|done].
Qed.

Lemma addr_range j : 0 <= j <= NDIRECT -> i_addrs x j = 0 \/ 47 <= i_addrs x j < free.
Proof using A I.
  intros Hj. destruct (Z.eq_dec (i_addrs x j) 0) as [E|Hne]; [by left|right]. apply owned_range.
  destruct (Z.eq_dec j NDIRECT) as [->|]; [by apply owns_ind|]. rewrite <- (block_at_direct W) in * by lia. apply owns_block; [flia|done].
Qed.

Lemma addr_xint j : 0 <= j <= NDIRECT -> xint (i_addrs x j) = i_addrs x j.
Proof using A I. intros Hj. pose proof (aw_range _ _ _ A). apply xint_id. destruct (addr_range j Hj); lia. Qed.

Lemma entry_xint bn : 0 <= bn < MAXFILE -> xint (block_at W x bn) = block_at W x bn.
Proof using A I.
  intros Hb. pose proof (aw_range _ _ _ A). apply xint_id. destruct (Z.eq_dec (block_at W x bn) 0) as [->|Hne]; [lia|].
  pose proof (owned_range _ (owns_block W x bn Hb Hne)). lia.
Qed.

Lemma free_unused : free < 2000 -> 0 <= free < sb_size the_sb /\ used W the_sb free = false.
Proof using A.
  intros H. pose proof (aw_range _ _ _ A). change (sb_size the_sb) with 2000. split; [lia|]. rewrite (work_used _ _ _ _ A) by lia. apply Z.ltb_irrefl.
Qed.
End blocks.

Lemma entry_rule s W x free fbn (a := i_addrs x NDIRECT) : at_work s W free -> inode_ok 2 the_sb W x -> NDIRECT <= fbn < MAXFILE -> a <> 0 ->
  (block_at W x fbn = 0 -> free < 2000) ->
  exists r s' W', entry_block a fbn s = Ok r s' /\ at_work s' W' (if decide (block_at W x fbn = 0) then free + 1 else free) /\
    mapped 2 the_sb W x W' x fbn r /\ r <> 0 /\ (block_at W x fbn = 0 -> W' r = zeroed) /\ h_freeinode s' = h_freeinode s.
Proof.
  intros A I Hb Ha Hf. pose proof (aw_range _ _ _ A) as Hr. pose proof (owned_range W x free s A I a (owns_ind W x Ha)) as Hai.
  pose proof (work_bitmap _ _ _ A) as F. pose proof (block_at_indirect W x fbn (proj1 Hb) Ha) as Eb. fold a in Eb.
  unfold entry_block. rewrite (bind_ok _ _ _ _ _ (rsect_run s W free a A ltac:(lia) ltac:(lia))). rewrite <- Eb. case_decide as D.
  - specialize (Hf D). rewrite (proj2 (Z.eqb_eq _ _) D). destruct (next_block_run s W free A Hf) as (s1 & E1 & A1 & Hi1). rewrite (bind_ok _ _ _ _ _ E1).
    destruct (free_unused W free s A Hf) as [Hfr Hu]. rewrite (xint_id free) by lia.
    pose proof (taken_entry 2 the_sb W x free F I Hfr Hu fbn Hb Ha D) as M. cbv zeta in M. fold a in M.
    rewrite (taken_owned 2 the_sb W x free F I Hfr Hu a (owns_ind W x Ha)) in M.
    destruct (wsect_run s1 (taken W the_sb free) (free + 1) a (store32 (W a) (4 * (fbn - NDIRECT)) free) A1 ltac:(lia) ltac:(lia)) as (s2 & E2 & A2 & Hi2).
    rewrite (bind_ok _ _ _ _ _ E2), load32_store32, u32_small, xint_id by lia. eexists _, s2, _. split; [done|]. split; [exact A2|]. split; [exact M|].
    split; [lia|]. split; [|congruence]. intros _. rewrite fupd_ne by lia. by apply fupd_eq.
  - rewrite (proj2 (Z.eqb_neq _ _) D). rewrite (entry_xint W x free s A I fbn) by flia. exists (block_at W x fbn), s, W. split; [done|]. split; [done|].
    split; [by apply mapped_refl|]. done.
Qed.

(** The steps of [nblk]. *)
Lemma nblk_step o n1 (fbn := o / BSIZE) : 0 <= o -> 0 < n1 -> o + n1 <= (fbn + 1) * BSIZE ->
  nblk (o + n1) = nblk o + (if decide (fbn * BSIZE < o) then 0 else 1) + (if decide (fbn = NDIRECT /\ ~ fbn * BSIZE < o) then 1 else 0).
Proof.
  intros Ho Hn Hl. unfold nblk, fbn, NDIRECT, BSIZE in *. set (q := o / 1024) in *.
  assert (o = 1024 * q + o mod 1024 /\ 0 <= o mod 1024 < 1024) as [Hq Hm] by (unfold q; zlia).
  assert ((o + n1 + 1024 - 1) / 1024 = q + 1) as -> by (symmetry; apply (Z.div_unique _ _ _ (o + n1 - 1 - 1024 * q)); lia).
  destruct (decide (q * 1024 < o)).
  - assert ((o + 1024 - 1) / 1024 = q + 1) as -> by (symmetry; apply (Z.div_unique _ _ _ (o - 1 - 1024 * q)); lia).
    rewrite decide_False by tauto. destruct (Z.ltb_spec (12 * 1024) (o + n1)), (Z.ltb_spec (12 * 1024) o); lia.
  - assert ((o + 1024 - 1) / 1024 = q) as -> by (symmetry; apply (Z.div_unique _ _ _ 1023); lia).
    case_decide; destruct (Z.ltb_spec (12 * 1024) (o + n1)), (Z.ltb_spec (12 * 1024) o); lia.
Qed.

(** [file_block]: the block is there, or the next free ones are taken. *)
Lemma file_block_rule s W x free o n1 (fbn := o / BSIZE) : at_work s W free -> inode_ok 2 the_sb W x -> tight W x o -> 0 <= o -> 0 < n1 ->
  o + n1 <= (fbn + 1) * BSIZE -> fbn < MAXFILE -> free + nblk (o + n1) - nblk o <= 2000 ->
  exists x' r s' W', Mkfs.file_block fbn x s = Ok (x', r) s' /\ at_work s' W' (free + nblk (o + n1) - nblk o) /\ mapped 2 the_sb W x W' x' fbn r /\
    r <> 0 /\ (block_at W x fbn = 0 -> W' r = zeroed) /\ (i_addrs x' NDIRECT <> 0 <-> NDIRECT * BSIZE < o + n1) /\ h_freeinode s' = h_freeinode s.
Proof.
  intros A I T Ho Hn Hl Hb Hroom. pose proof (nblk_step o n1 Ho Hn Hl) as Hs. fold fbn in Hs. pose proof (aw_range _ _ _ A) as Hr.
  assert (0 <= fbn < MAXFILE) as Hbm by (split; [apply Z.div_pos; done|done]). pose proof (tg_block _ _ _ T fbn Hbm) as Tb. pose proof (tg_ind _ _ _ T) as Ti.
  assert (fbn * BSIZE <= o < (fbn + 1) * BSIZE) as Hfo by (unfold fbn, BSIZE; zlia). pose proof (work_bitmap _ _ _ A) as F.
  unfold Mkfs.file_block. destruct (Z.ltb_spec fbn NDIRECT) as [Hd|Hd].
  - rewrite (decide_False (P := fbn = NDIRECT /\ _)) in Hs by lia. assert (i_addrs x NDIRECT <> 0 <-> NDIRECT * BSIZE < o + n1) as Hi by (rewrite Ti; unfold BSIZE in *; lia).
    unfold ensure_addr. rewrite (addr_xint W x free s A I fbn) by lia.
    rewrite (block_at_direct W x fbn Hd) in Tb. destruct (Z.eqb_spec (i_addrs x fbn) 0) as [H0|H0].
    + rewrite decide_False in Hs by tauto. destruct (next_block_run s W free A ltac:(lia)) as (s1 & E1 & A1 & Hi1). destruct (free_unused W free s A ltac:(lia)) as [Hfr Hu].
      rewrite bind_assoc, (bind_ok _ _ _ _ _ E1). erewrite bind_ok by reflexivity. rewrite (xint_id free) by lia.
      assert (i_addrs (set_addr fbn free x) fbn = free) as Ef by apply fupd_eq. rewrite Ef, xint_id by lia. pose proof (taken_direct 2 the_sb W x free F I Hfr Hu fbn ltac:(lia) H0) as M.
      exists (set_addr fbn free x), free, s1, (taken W the_sb free). split; [done|]. split; [by replace (free + _ - _) with (free + 1) by lia|]. split; [exact M|].
      split; [lia|]. split; [intros _; apply fupd_eq|]. split; [|done]. unfold set_addr. cbn [i_addrs i_set_addrs]. rewrite fupd_ne by lia. done.
    + rewrite decide_True in Hs by tauto. erewrite bind_ok by reflexivity. rewrite (addr_xint W x free s A I fbn) by lia. rewrite <- (block_at_direct W x fbn Hd) in *.
      exists x, (block_at W x fbn), s, W. split; [done|]. split; [by replace (free + _ - _) with free by lia|]. split; [by apply mapped_refl|]. done.
  - unfold ensure_addr. rewrite (addr_xint W x free s A I NDIRECT) by done. destruct (Z.eqb_spec (i_addrs x NDIRECT) 0) as [H0|H0].
    + assert (fbn = NDIRECT /\ ~ fbn * BSIZE < o) as [E12 Hno] by (unfold NDIRECT, BSIZE in *; lia). rewrite decide_False, decide_True in Hs by tauto.
      destruct (next_block_run s W free A ltac:(lia)) as (s1 & E1 & A1 & Hi1). destruct (free_unused W free s A ltac:(lia)) as [Hfr Hu].
      destruct (taken_indirect 2 the_sb W x free F I Hfr Hu H0) as (I1 & Ev & Hat). fold (set_addr NDIRECT free x) in I1, Ev, Hat. set (x1 := set_addr NDIRECT free x) in *.
      assert (i_addrs x1 NDIRECT = free) as Hi by apply fupd_eq. assert (block_at W x fbn = 0) as Hb0 by (destruct (Z.eq_dec (block_at W x fbn) 0); tauto).
      assert (block_at (taken W the_sb free) x1 fbn = 0) as Hb1 by by rewrite Hat.
      destruct (entry_rule s1 (taken W the_sb free) x1 (free + 1) fbn A1 I1 ltac:(lia) ltac:(by rewrite Hi; lia) ltac:(lia)) as (r & s2 & W2 & E2 & A2 & M2 & Hr2 & Hz2 & Hi2).
      rewrite decide_True in A2 by done. rewrite bind_assoc, (bind_ok _ _ _ _ _ E1). erewrite bind_ok by reflexivity. rewrite (xint_id free) by lia. fold x1.
      rewrite Hi, xint_id by lia. rewrite Hi in E2. rewrite (bind_ok _ _ _ _ _ E2). exists x1, r, s2, W2. split; [done|].
      split; [by replace (free + _ - _) with (free + 1 + 1) by lia|]. split; [|split; [done|split; [by intros _; apply Hz2|split; [|congruence]]]].
      * apply (mapped_indirect 2 the_sb W x (taken W the_sb free) x1); try done. intros m Hm. by rewrite (taken_owned 2 the_sb W x free).
      * rewrite Hi. unfold NDIRECT, BSIZE in *. lia.
    + rewrite (decide_False (P := fbn = NDIRECT /\ _)) in Hs by (unfold NDIRECT, BSIZE in *; lia).
      destruct (entry_rule s W x free fbn A I ltac:(lia) H0) as (r & s2 & W2 & E2 & A2 & M2 & Hr2 & Hz2 & Hi2).
      { intros Hz. rewrite decide_False in Hs by tauto. lia. }
      erewrite bind_ok by reflexivity. rewrite (addr_xint W x free s A I NDIRECT) by done. rewrite (bind_ok _ _ _ _ _ E2). exists x, r, s2, W2. split; [done|]. split.
      { replace (free + _ - _) with (if decide (block_at W x fbn = 0) then free + 1 else free); [done|]. repeat case_decide; lia || tauto. }
      split; [done|]. split; [done|]. split; [done|]. split; [|done]. rewrite Ti. unfold NDIRECT, BSIZE in *. lia.
Qed.

(** ** Inodes that differ only in memory *)

Record alike (x y : inode) : Prop := {
  al_dev : i_dev x = i_dev y;
  al_inum : i_inum x = i_inum y;
  al_size : i_size x = i_size y;
  al_addrs : forall j, 0 <= j <= NDIRECT -> i_addrs x j = i_addrs y j
}.

Section alike.
Variables (W : contents) (x y : inode).
Hypothesis E : alike x y.

Lemma alike_block bn : 0 <= bn -> block_at W x bn = block_at W y bn.
Proof using E.
  intros Hb. pose proof (al_addrs _ _ E) as Ha. unfold block_at. rewrite (Ha NDIRECT) by done. destruct (Z.ltb_spec bn NDIRECT); [apply Ha; lia|done].
Qed.

Lemma alike_owns m : owns W x m <-> owns W y m.
Proof using E.
  pose proof (al_addrs _ _ E NDIRECT ltac:(done)) as Hi. unfold owns. rewrite Hi.
  split; intros (H0 & [?|(bn & Hb & ->)]); (split; [done|]); [by left| |by left|]; right; exists bn; by rewrite ?alike_block in * by lia.
Qed.

Lemma alike_ok st sb : inode_ok st sb W y -> inode_ok st sb W x.
Proof using E.
  intros I. pose proof I as [I1 I2 I3 I4 I5 I6 I7]. split; rewrite ?(al_dev _ _ E), ?(al_inum _ _ E), ?(al_size _ _ E), ?(al_addrs _ _ E NDIRECT) by done; try done.
  - intros bn H1 H2. rewrite alike_block by done. by apply I4.
  - intros m Hm%alike_owns. by apply I5.
  - intros a b Ha Hb. rewrite !alike_block by lia. by apply I6.
  - intros a Ha. rewrite alike_block by lia. by apply I7.
Qed.

Lemma alike_byte k : 0 <= k -> byte_at W x k = byte_at W y k.
Proof using E. intros Hk. unfold byte_at. rewrite alike_block; [done|]. by apply Z.div_pos. Qed.

Lemma alike_data : data W x = data W y.
Proof using E. unfold data. rewrite (al_size _ _ E). apply map_ext_in. intros k Hk%list_elem_of_In%elem_of_seqZ. apply alike_byte. lia. Qed.

Lemma alike_tight o : 0 <= o -> tight W y o -> tight W x o.
Proof using E.
  intros Ho [T1 T2 T3]. split.
  - intros bn Hb. rewrite alike_block by lia. by apply T1.
  - by rewrite (al_addrs _ _ E NDIRECT) by done.
  - intros k Hk. rewrite alike_block, alike_byte by (lia || (apply Z.div_pos; [lia|done])). by apply T3.
Qed.
End alike.

(** ** Inodes of the image *)

Definition inode_at (W : contents) (k : Z) : inode := load_dinode (W (IBLOCK k the_sb)) (k mod IPB * DINODE) (blank k).

Lemma inode_at_inum W k : i_inum (inode_at W k) = k.
Proof. done. Qed.

Lemma inode_at_saved W k : saved W the_sb (inode_at W k).
Proof.
  split; try done. intros j Hj. unfold inode_at, load_dinode. cbn [i_addrs i_set_addrs]. rewrite in_range_true by lia. done.
Qed.

Lemma inode_at_range W k : inode_range (inode_at W k).
Proof.
  assert (forall d o, -0x8000 <= s16 (loadn 2 d o) < 0x8000) as H16 by (intros d o; unfold s16; zlia).
  assert (forall d o, 0 <= load32 d o < 0x100000000) as H32 by (intros d o; apply (loadn_range 4)).
  split; try apply H16; try apply H32. intros j Hj. unfold inode_at, load_dinode. cbn [i_addrs i_set_addrs]. rewrite in_range_true by lia. apply H32.
Qed.

(** Fields that only the directory layer looks at. *)
Definition same_kind (x y : inode) : Prop := i_type x = i_type y /\ i_nlink x = i_nlink y.

Lemma same_kind_trans x y z : same_kind x y -> same_kind y z -> same_kind x z.
Proof. intros [A1 A2] [B1 B2]. split; congruence. Qed.

Lemma saved_inode_at W y k : i_inum y = k -> i_dev y = ROOTDEV -> saved W the_sb y -> alike (inode_at W k) y /\ same_kind (inode_at W k) y.
Proof.
  intros <- Hd [S1 S2 S3 S4 S5 S6]. split; [|by split]. split; try done. intros j Hj. unfold inode_at, load_dinode. cbn [i_addrs i_set_addrs].
  rewrite in_range_true by lia. by apply S6.
Qed.

(** ** The files of the image *)

(** Inode [k] is a file with the bytes [bs], and takes as few blocks as it can. *)
Record built (W : contents) (k : Z) (bs : list Z) : Prop := {
  bt_ok : inode_ok 2 the_sb W (inode_at W k);
  bt_tight : tight W (inode_at W k) (i_size (inode_at W k));
  bt_data : data W (inode_at W k) = bs
}.

Definition all_apart (W : contents) : Prop := forall k j m, 0 <= k < 200 -> 0 <= j < 200 -> k <> j ->
  owns W (inode_at W k) m -> ~ owns W (inode_at W j) m.

Record building (s : host) (W : contents) (free : Z) (Da : Z -> list Z) : Prop := {
  bd_work : at_work s W free;
  bd_file : forall k, 0 <= k < 200 -> built W k (Da k);
  bd_apart : all_apart W
}.

Lemma built_size W k bs : built W k bs -> i_size (inode_at W k) = Z.of_nat (length bs).
Proof. intros [I _ <-]. rewrite data_length. pose proof (in_size _ _ _ _ I). lia. Qed.

Lemma tight_same W W' y o : tight W y o -> 0 <= o -> (forall m, owns W y m -> beq (W' m) (W m)) -> tight W' y o.
Proof.
  intros [T1 T2 T3] Ho Hb. destruct (same_blocks W W' y Hb) as [Hat _]. split.
  - intros bn Hbn. rewrite Hat by done. by apply T1.
  - done.
  - intros k Hk Hne. pose proof (byte_block k ltac:(lia)) as [H1 H2]. rewrite Hat in Hne by done. rewrite <- (T3 k Hk Hne). unfold byte_at, load8.
    rewrite Hat by done. by rewrite (Hb _ (owns_block W y _ H1 Hne)).
Qed.

Lemma undisturbed_owned W x W' y : undisturbed 2 the_sb W x W' -> inode_ok 2 the_sb W x -> inode_ok 2 the_sb W y -> (forall m, owns W x m -> ~ owns W y m) ->
  forall m, owns W y m -> beq (W' m) (W m).
Proof.
  intros U Ix I Hd m Hm. destruct (in_data _ _ _ _ I m Hm) as (H1 & H2 & H3).
  apply (ud_block _ _ _ _ _ U); [done|done|by eapply meta_log|by intros c Hc; apply (meta_bitmap 2)| |apply not_eq_sym; apply (meta_inode 2); [done|apply Ix]].
  intros H. by apply (Hd m).
Qed.

(** An inode of another file, after a change. *)
Lemma undisturbed_built W k W' j bs : undisturbed 2 the_sb W (inode_at W k) W' -> inode_ok 2 the_sb W (inode_at W k) -> built W j bs -> 0 <= j < 200 -> j <> k ->
  (forall m, owns W (inode_at W k) m -> ~ owns W (inode_at W j) m) ->
  built W' j bs /\ alike (inode_at W' j) (inode_at W j) /\ same_kind (inode_at W' j) (inode_at W j) /\ forall m, owns W' (inode_at W' j) m <-> owns W (inode_at W j) m.
Proof.
  intros U Ix [I T E] Hj Hne Hd. pose proof (undisturbed_owned W _ W' _ U Ix I Hd) as Hb.
  destruct (saved_inode_at W' (inode_at W j) j eq_refl eq_refl) as [Al Sk]; [by apply (ud_inode _ _ _ _ _ U); [done|done|apply inode_at_saved]|].
  destruct (same_file 2 the_sb W W' (inode_at W j) I Hb (ud_used _ _ _ _ _ U)) as [I' E']. pose proof (in_size _ _ _ _ I) as Hs.
  split; [|split; [done|split; [done|]]].
  - split; [by eapply alike_ok| |by rewrite (alike_data _ _ _ Al), E'].
    rewrite (al_size _ _ Al). eapply alike_tight; [done|lia|]. apply (tight_same W); [done|lia|done].
  - intros m. rewrite (alike_owns _ _ _ Al). by apply same_blocks.
Qed.

(** Where the inode [k] goes. *)
Definition put_inode (W : contents) (k : Z) (y : inode) : contents :=
  fupd W (IBLOCK k the_sb) (put_fields (dinode_fields y (k mod IPB * DINODE)) (W (IBLOCK k the_sb))).

Lemma winode_run s W free k y : at_work s W free -> 0 <= k < 200 ->
  exists s', winode k y s = Ok tt s' /\ at_work s' (put_inode W k y) free /\ h_freeinode s' = h_freeinode s.
Proof.
  intros A Hk. pose proof (the_IBLOCK k Hk) as Hb. pose proof (aw_range _ _ _ A). unfold winode. erewrite bind_ok by reflexivity. rewrite (aw_sb _ _ _ A).
  rewrite (bind_ok _ _ _ _ _ (rsect_run s W free (IBLOCK k the_sb) A ltac:(lia) ltac:(lia))). apply wsect_run; [done|lia|lia].
Qed.

(** Saving an inode whose blocks are in order. *)
Lemma winode_built s W free Da s1 W1 free1 k x1 y bs : building s W free Da -> 0 <= k < 200 -> at_work s1 W1 free1 ->
  evolves the_sb W (inode_at W k) W1 x1 -> inode_ok 2 the_sb W1 y -> tight W1 y (i_size y) -> data W1 y = bs -> i_inum y = k -> inode_range y ->
  (forall m, owns W1 y m -> owns W1 x1 m) ->
  exists s' W', winode k y s1 = Ok tt s' /\ building s' W' free1 (fupd Da k bs) /\ h_freeinode s' = h_freeinode s1 /\
    same_kind (inode_at W' k) y /\ forall j, 0 <= j < 200 -> j <> k -> same_kind (inode_at W' j) (inode_at W j).
Proof.
  intros [A Hf Ha] Hk A1 Ev I1 T1 D1 Hy R Hadd. destruct (winode_run s1 W1 free1 k y A1 Hk) as (s' & E & A' & Hi). exists s', (put_inode W1 k y).
  pose proof (bt_ok _ _ _ (Hf k Hk)) as Ix. pose proof (work_bitmap _ _ _ A) as F. pose proof (work_bitmap _ _ _ A1) as F1.
  assert (put_inode W1 k y = fupd W1 (IBLOCK (i_inum y) the_sb) (put_fields (dinode_fields y (dip_of y)) (W1 (IBLOCK (i_inum y) the_sb)))) as EW by (unfold put_inode, dip_of; by rewrite Hy).
  pose proof (evolves_undisturbed 2 the_sb W (inode_at W k) W1 x1 y F F1 Ix Ev Hy) as U. rewrite inode_at_inum in U. rewrite Hy in EW. rewrite <- EW in U.
  destruct (saved_inode_at (put_inode W1 k y) y k Hy (in_dev _ _ _ _ I1)) as [Al Sk]; [rewrite EW, <- Hy; by apply dinode_saved|].
  pose proof (the_IBLOCK k Hk) as Hb. assert (forall m, owns W1 y m -> m <> IBLOCK k the_sb) as Hno.
  { intros m Hm ->. pose proof (owned_range W1 y free1 s1 A1 I1 _ Hm). lia. }
  assert (forall m, owns W1 y m -> beq (put_inode W1 k y m) (W1 m)) as Hsame by (intros m Hm; unfold put_inode; by rewrite fupd_ne by by apply Hno).
  destruct (same_blocks W1 _ y Hsame) as [_ Ho]. destruct (same_file 2 the_sb W1 _ y I1 Hsame) as [I' E'].
  { intros m Hm. change (sb_size the_sb) with 2000 in Hm. by rewrite (work_used _ _ _ m A1), (work_used _ _ _ m A'). }
  pose proof (in_size _ _ _ _ I1) as Hs.
  assert (forall m, owns (put_inode W1 k y) (inode_at (put_inode W1 k y) k) m -> owns W (inode_at W k) m \/ used W the_sb m = false) as Hnew.
  { intros m Hm. apply (ev_owns _ _ _ _ _ Ev), Hadd, Ho, (alike_owns _ _ _ Al), Hm. }
  assert (forall j, 0 <= j < 200 -> j <> k -> built (put_inode W1 k y) j (Da j) /\ same_kind (inode_at (put_inode W1 k y) j) (inode_at W j) /\
    forall m, owns (put_inode W1 k y) (inode_at (put_inode W1 k y) j) m <-> owns W (inode_at W j) m) as Hoth.
  { intros j Hj Hne. destruct (undisturbed_built W k _ j (Da j) U Ix (Hf j Hj) Hj Hne) as (B & _ & K & O); [intros m; by apply Ha|done]. }
  split; [done|]. split; [|split; [done|split; [done|by apply Hoth]]]. split; [done| |].
  - intros j Hj. rewrite fupd_cases. case_decide as Ej; [subst j|by apply Hoth]. split; [by eapply alike_ok| |by rewrite (alike_data _ _ _ Al), E'].
    rewrite (al_size _ _ Al). eapply alike_tight; [done|lia|]. apply (tight_same W1); [done|lia|done].
  - assert (forall j m, 0 <= j < 200 -> j <> k -> owns (put_inode W1 k y) (inode_at (put_inode W1 k y) k) m -> owns (put_inode W1 k y) (inode_at (put_inode W1 k y) j) m -> False) as Hkj.
    { intros j m Hj Hne H1 H2%(Hoth j Hj Hne). destruct (Hnew m H1) as [H3|H3]; [by apply (Ha k j m)|].
      by rewrite (proj1 (proj2 (in_data _ _ _ _ (bt_ok _ _ _ (Hf j Hj)) m H2))) in H3. }
    intros a b m Hra Hrb Hne H1 H2. destruct (decide (a = k)) as [->|Hak]; [by apply (Hkj b m)|]. destruct (decide (b = k)) as [->|Hbk]; [by apply (Hkj a m)|].
    apply (Hoth a Hra Hak) in H1. apply (Hoth b Hrb Hbk) in H2. by apply (Ha a b m).
Qed.

(** ** iappend *)

Lemma rinode_run s W free k : at_work s W free -> 0 <= k < 200 -> rinode k s = Ok (inode_at W k) s.
Proof.
  intros A Hk. pose proof (the_IBLOCK k Hk) as Hb. unfold rinode. erewrite bind_ok by reflexivity. rewrite (aw_sb _ _ _ A).
  by rewrite (bind_ok _ _ _ _ _ (rsect_run s W free (IBLOCK k the_sb) A ltac:(lia) ltac:(lia))).
Qed.

Lemma nblk_mono a b : a <= b -> nblk a <= nblk b.
Proof.
  intros H. unfold nblk. assert ((a + BSIZE - 1) / BSIZE <= (b + BSIZE - 1) / BSIZE) by (apply Z.div_le_mono; [done|lia]).
  destruct (Z.ltb_spec (NDIRECT * BSIZE) a), (Z.ltb_spec (NDIRECT * BSIZE) b); lia.
Qed.

(** The file after a piece is written to the block of its end. *)
Lemma tight_write W x W1 x1 o n1 r bs (fbn := o / BSIZE) : tight W x o -> mapped 2 the_sb W x W1 x1 fbn r -> 0 <= o -> 0 < n1 -> o + n1 <= (fbn + 1) * BSIZE ->
  0 <= fbn < MAXFILE -> r <> 0 -> (block_at W x fbn = 0 -> W1 r = zeroed) -> (i_addrs x1 NDIRECT <> 0 <-> NDIRECT * BSIZE < o + n1) ->
  (i_addrs x1 NDIRECT <> 0 -> r <> i_addrs x1 NDIRECT) -> Z.of_nat (length bs) = n1 ->
  tight (fupd W1 r (mem_write (W1 r) (o mod BSIZE) bs)) x1 (o + n1).
Proof.
  intros [T1 T2 T3] M Ho Hn Hl Hb Hr Hz Hi Hri Hbs. assert (fbn * BSIZE <= o < (fbn + 1) * BSIZE /\ o mod BSIZE = o - fbn * BSIZE) as [Hfo Hom] by (unfold fbn, BSIZE; zlia).
  pose proof (mp_at _ _ _ _ _ _ _ _ M) as Hat. split; [|done|].
  - intros bn Hbn. rewrite fw_block_at by done. destruct (Z.eq_dec bn fbn) as [->|Hne]; [rewrite Hat; unfold BSIZE in *; lia|].
    rewrite (mp_other _ _ _ _ _ _ _ _ M), T1 by done. unfold BSIZE in *. lia.
  - intros k Hk Hne. pose proof (byte_block k ltac:(lia)) as [H1 H2]. rewrite fw_block_at in Hne by done. rewrite fw_byte by (done || lia).
    assert (k = (k / BSIZE) * BSIZE + k mod BSIZE) as Hkd by (unfold BSIZE; zlia).
    assert (k / BSIZE = fbn) as Ek.
    { destruct (Z.eq_dec (k / BSIZE) fbn) as [|Hx]; [done|]. rewrite (mp_other _ _ _ _ _ _ _ _ M), T1 in Hne by done. unfold BSIZE in *. lia. }
    rewrite Ek, Hat, decide_True by done. unfold load8, mem_write. rewrite in_range_false by (rewrite Hbs; unfold BSIZE in *; lia).
    destruct (Z.eq_dec (block_at W x fbn) 0) as [E0|E0]; [by rewrite Hz|].
    pose proof (ev_keep _ _ _ _ _ (mp_evolves _ _ _ _ _ _ _ _ M) fbn Hb E0) as Er. rewrite Hat in Er.
    pose proof (mp_old _ _ _ _ _ _ _ _ M fbn Hb E0 (k mod BSIZE) H2) as Hold. rewrite <- Er in Hold. rewrite Hold.
    specialize (T3 k ltac:(lia)). unfold byte_at, load8 in T3. rewrite Ek, <- Er in T3. by apply T3.
Qed.

Section append.
Variables (W0 : contents) (x0 : inode) (free0 inodes : Z) (src : list Z).
Let sz := i_size x0.
Let len := Z.of_nat (length src).
Hypotheses (I0 : inode_ok 2 the_sb W0 x0) (Hmax : sz + len <= MAXFILE * BSIZE) (Hbytes : Forall byte src).
Hypothesis Hroom : free0 + nblk (sz + len) - nblk sz <= 2000.

(** [tot] bytes are appended, the size not yet. *)
Record appending (tot : Z) (W : contents) (x : inode) (s : host) : Prop := {
  ap_work : at_work s W (free0 + nblk (sz + tot) - nblk sz);
  ap_file : inode_ok 2 the_sb W x;
  ap_evolves : evolves the_sb W0 x0 W x;
  ap_bytes : spliced W0 x0 sz src tot W x;
  ap_tight : tight W x (sz + tot);
  ap_inodes : h_freeinode s = inodes
}.

Lemma append_step tot W x s (o := sz + tot) (fbn := o / BSIZE) (n1 := Z.min (len - tot) ((fbn + 1) * BSIZE - o)) : appending tot W x s -> 0 <= tot < len ->
  0 <= fbn < MAXFILE /\ 0 < n1 /\ exists x1 r s1 s2 W1 W2, Mkfs.file_block fbn x s = Ok (x1, r) s1 /\ rsect r s1 = Ok (W1 r) s1 /\
    wsect r (mem_write (W1 r) (o - fbn * BSIZE) (take (Z.to_nat n1) (drop (Z.to_nat tot) src))) s1 = Ok tt s2 /\ appending (tot + n1) W2 x1 s2.
Proof using I0 Hmax Hbytes Hroom.
  intros [A I E S T Hi] Ht. pose proof (in_size _ _ _ _ I0) as Hs. fold sz in Hs. assert (fbn * BSIZE <= o < (fbn + 1) * BSIZE /\ o mod BSIZE = o - fbn * BSIZE) as [Hfo Hom] by (unfold fbn, BSIZE; zlia).
  assert (0 <= fbn < MAXFILE) as Hb by (apply byte_block; unfold o; lia). assert (0 < n1 /\ n1 <= len - tot /\ o + n1 <= (fbn + 1) * BSIZE) as (Hn & Hnl & Hnb) by lia.
  split; [done|]. split; [done|]. set (free := free0 + nblk o - nblk sz) in *.
  pose proof (nblk_mono (o + n1) (sz + len) ltac:(unfold o; lia)) as Hmono.
  destruct (file_block_rule s W x free o n1 A I T ltac:(unfold o; lia) Hn Hnb ltac:(lia) ltac:(unfold free; lia))
    as (x1 & r & s1 & W1 & E1 & A1 & M & Hr & Hz & Hind & Hi1). fold fbn in E1, M, Hz.
  pose proof M as [I1 F1 Ev1 At1 _ _ _]. assert (owns W1 x1 r) as Hor by (rewrite <- At1; apply owns_block; [done|by rewrite At1]).
  pose proof (owned_range W1 x1 _ s1 A1 I1 r Hor) as Hrr. pose proof (aw_range _ _ _ A1) as Hfr.
  assert (i_addrs x1 NDIRECT <> 0 -> r <> i_addrs x1 NDIRECT) as Hri by (intros _; rewrite <- At1; apply (in_ind _ _ _ _ I1); [done|by rewrite At1]).
  set (bs := take (Z.to_nat n1) (drop (Z.to_nat tot) src)). assert (Z.of_nat (length bs) = n1) as Hbs by (unfold bs; rewrite length_take, length_drop; lia).
  destruct (wsect_run s1 W1 _ r (mem_write (W1 r) (o mod BSIZE) bs) A1 ltac:(lia) ltac:(lia)) as (s2 & E2 & A2 & Hi2).
  exists x1, r, s1, s2, W1, (fupd W1 r (mem_write (W1 r) (o mod BSIZE) bs)). split; [done|]. split; [apply (rsect_run s1 W1 _ r A1); lia|].
  split; [by rewrite <- Hom|]. pose proof (the_plain r ltac:(lia)) as Hp. split.
  - replace (free0 + nblk (sz + (tot + n1)) - nblk sz) with (free + nblk (o + n1) - nblk o); [done|]. unfold free, o. rewrite Z.add_assoc. lia.
  - by apply fw_ok.
  - apply (evolves_trans 2 the_sb W0 x0 W x); [done|done|by apply fw_ok|done|]. apply (evolves_trans 2 the_sb W x W1 x1); [done|done|by apply fw_ok|done|by apply fw_evolves].
  - pose proof (spliced_mapped 2 the_sb W0 x0 sz src tot W x W1 x1 fbn r S M) as S1. rewrite <- At1.
    apply (spliced_block 2 the_sb W0 x0 sz src ltac:(lia) Hmax Hbytes); fold o fbn; rewrite ?At1; try done; fold len; [lia|unfold BSIZE in *; lia|lia].
  - rewrite Z.add_assoc. fold o. apply (tight_write W x W1 x1 o n1 r bs T M); try done; unfold o; lia.
  - congruence.
Qed.
End append.

Lemma splice_end bs l : splice (Z.of_nat (length l)) bs l = l ++ bs.
Proof. unfold splice. rewrite Nat2Z.id, firstn_all, drop_ge by lia. by rewrite app_nil_r. Qed.

Lemma grown_is x o : i_size x <= o -> i_set_size o x = grown o x.
Proof. intros H. unfold grown. destruct (Z.gtb_spec o (i_size x)); [done|]. replace o with (i_size x) by lia. by destruct x. Qed.

(** [iappend] adds the bytes to the end of the file and takes the blocks they
    need. *)
Lemma iappend_rule s W free Da k p (n := Z.of_nat (length (Da k))) (n' := n + Z.of_nat (length p)) : building s W free Da -> 0 <= k < 200 ->
  n' <= MAXFILE * BSIZE -> Forall byte p -> free + nblk n' - nblk n <= 2000 ->
  exists s' W', iappend k p s = Ok tt s' /\ building s' W' (free + nblk n' - nblk n) (fupd Da k (Da k ++ p)) /\ h_freeinode s' = h_freeinode s /\
    forall j, 0 <= j < 200 -> same_kind (inode_at W' j) (inode_at W j).
Proof.
  intros B Hk Hmax Hb Hroom. pose proof B as [A Hf _]. destruct (Hf k Hk) as [I T D]. pose proof (built_size _ _ _ (Hf k Hk)) as Hsz. fold n in Hsz.
  set (x := inode_at W k) in *. pose proof (in_size _ _ _ _ I) as Hs. set (len := Z.of_nat (length p)) in *. rewrite <- Hsz in *.
  assert (n' = i_size x + len) as En by (unfold n', len; lia). clearbody n'. subst n'. set (n' := i_size x + len) in *.
  assert (0 <= n' <= MAXFILE * BSIZE) as Hn' by (unfold n', len in *; lia).
  destruct (wpx_total (iappend k p) (fun _ s' => exists W', building s' W' (free + nblk n' - nblk (i_size x)) (fupd Da k (Da k ++ p)) /\ h_freeinode s' = h_freeinode s /\
    forall j, 0 <= j < 200 -> same_kind (inode_at W' j) (inode_at W j)) s) as ([] & s' & E & W' & H); [|by exists s', W'].
  unfold iappend. eapply wpx_bind_ok; [exact (rinode_run s W free k A Hk)|]. fold x. rewrite xint_id by flia. apply wpx_bind.
  apply (wpx_iter true (fun '(din, off, q) s1 => exists tot W1, 0 <= tot <= len /\ off = i_size x + tot /\ q = drop (Z.to_nat tot) p /\
      appending W x free (h_freeinode s) p tot W1 din s1) (fun '(_, _, q) => length q)).
  - intros [[din off] q] s1 (tot & W1 & Ht & -> & -> & G). rewrite length_drop.
    destruct (Z.ltb_spec 0 (Z.of_nat (length p - Z.to_nat tot))) as [Hlt|Hge].
    + destruct (append_step W x free (h_freeinode s) p I Hmax Hb Hroom tot W1 din s1 G ltac:(lia))
        as (Hfb & Hn1 & x1 & r & s2 & s3 & W2 & W3 & E1 & E2 & E3 & G'). fold len in Hn1, E3, G'.
      replace (Z.of_nat (length p - Z.to_nat tot)) with (len - tot) by (unfold len; lia). set (fbn := (i_size x + tot) / BSIZE) in *.
      set (n1 := Z.min (len - tot) ((fbn + 1) * BSIZE - (i_size x + tot))) in *. rewrite (proj2 (Z.ltb_lt _ _) (proj2 Hfb)). eapply wpx_bind_ok; [reflexivity|].
      eapply wpx_bind_ok; [exact E1|]. eapply wpx_bind_ok; [exact E2|]. eapply wpx_bind_ok; [exact E3|]. apply wpx_ret. cbn [fst snd].
      rewrite drop_drop. replace (Z.to_nat tot + Z.to_nat n1)%nat with (Z.to_nat (tot + n1)) by lia. split.
      * exists (tot + n1), W3. split; [lia|]. split; [rewrite u32_small by flia; lia|done].
      * rewrite !length_drop. unfold len in *. lia.
    + apply wpx_ret. cbn [fst snd]. assert (tot = len) as -> by (unfold len in *; lia). destruct G as [A1 I1 Ev S T1 Hi]. fold n' in A1, T1.
      pose proof (spliced_size the_sb W x W1 din Ev) as Hsd. rewrite xint_id by flia. fold n'.
      rewrite (grown_is din n') by lia. set (y := grown n' din).
      pose proof (spliced_ok 2 the_sb W x (i_size x) p len W1 din I1 Ev S ltac:(lia) ltac:(lia) ltac:(lia)) as Iy. fold n' y in Iy.
      pose proof (spliced_data 2 the_sb W x (i_size x) p len W1 din I1 Ev S ltac:(lia) ltac:(lia) ltac:(lia)) as Dy. fold n' y in Dy.
      assert (data W1 y = Da k ++ p) as Dy'. { rewrite Dy. unfold len. rewrite Nat2Z.id, firstn_all, D, Hsz. apply splice_end. }
      assert (i_size y = n') as Hsy by (unfold y; rewrite grown_size; lia).
      assert (tight W1 y (i_size y)) as Ty.
      { rewrite Hsy. destruct T1 as [T1 T2 T3]. split; [intros bn Hbn; unfold y; rewrite grown_block; by apply T1|unfold y; by rewrite grown_ind|].
        intros j Hj. unfold y, byte_at. rewrite grown_block. by apply T3. }
      assert (i_inum y = k /\ i_type y = i_type x /\ i_nlink y = i_nlink x) as (Hky & Hty & Hly) by (unfold y, grown; rewrite (ev_inode _ _ _ _ _ Ev); by destruct (_ >? _)).
      destruct (winode_built s W free Da s1 W1 _ k din y (Da k ++ p) B Hk A1 Ev Iy Ty Dy' Hky) as (s2 & W2 & E2 & B2 & Hi2 & K2 & O2).
      * exact (grown_range 2 the_sb W x W1 din n' Iy (work_bitmap _ _ _ A1) Ev (inode_at_range W k)).
      * intros m. apply grown_owns.
      * apply (wpx_Ok _ _ _ _ tt s2); [exact E2|]. exists W2. split; [done|]. split; [congruence|]. intros j Hj. destruct (decide (j = k)) as [->|Hne]; [|by apply O2].
        destruct K2 as [K2 K3]. split; [by rewrite K2, Hty|by rewrite K3, Hly].
  - exists 0, W. split; [unfold len; lia|]. split; [lia|]. split; [done|]. split; rewrite ?Z.add_0_r; try done.
    + by replace (free + nblk (i_size x) - nblk (i_size x)) with free by lia.
    + apply evolves_refl.
    + by apply (spliced_start 2 the_sb).
  - lia.
Qed.

(** ** ialloc and the root directory *)

Lemma map_const_eq {A B} (f : A -> B) b l : (forall a, a ∈ l -> f a = b) -> map f l = replicate (length l) b.
Proof. induction l as [|a l IH]; intros H; [done|]. cbn. rewrite (H a), IH; [done| |]; [intros a' Ha'; apply H|]; set_solver. Qed.

Definition fresh (k type : Z) : inode := i_set_size 0 (i_set_nlink 1 (i_set_type type (blank k))).

Lemma no_blocks W x : (forall j, 0 <= j <= NDIRECT -> i_addrs x j = 0) -> forall bn, 0 <= bn -> block_at W x bn = 0.
Proof.
  intros H bn Hb. unfold block_at. rewrite (H NDIRECT) by done. destruct (Z.ltb_spec bn NDIRECT); [apply H; lia|done].
Qed.

(** A file without blocks. *)
Lemma empty_file W x k : (forall j, 0 <= j <= NDIRECT -> i_addrs x j = 0) -> i_size x = 0 -> i_dev x = ROOTDEV -> i_inum x = k -> 0 <= k < 200 ->
  inode_ok 2 the_sb W x /\ tight W x 0 /\ data W x = [] /\ forall m, ~ owns W x m.
Proof.
  intros Ha Hs Hd Hi Hk. pose proof (no_blocks W x Ha) as Hb. assert (forall m, ~ owns W x m) as Ho.
  { intros m (H0 & [->|(bn & Hbn & ->)]); [by apply H0, Ha|]. by rewrite Hb in H0 by lia. }
  split; [|split; [|split; [unfold data; by rewrite Hs|done]]].
  - split; rewrite ?Hs, ?Hi; try done.
    + intros bn H1 H2. unfold BSIZE in H2. lia.
    + intros m Hm. by apply Ho in Hm.
    + intros a b H1 H2. by rewrite Hb by lia.
    + intros a H1. by rewrite Hb by lia.
  - split.
    + intros bn Hbn. rewrite Hb by lia. unfold BSIZE. lia.
    + by rewrite Ha.
    + intros j Hj. rewrite Hb; [done|]. apply Z.div_pos; [lia|done].
Qed.

Lemma ialloc_rule s W free Da k type : building s W free Da -> h_freeinode s = k -> 0 <= k < 200 -> 0 <= type < 0x8000 ->
  exists s' W', Mkfs.ialloc type s = Ok k s' /\ building s' W' free (fupd Da k []) /\ h_freeinode s' = k + 1 /\ same_kind (inode_at W' k) (fresh k type) /\
    forall j, 0 <= j < 200 -> j <> k -> same_kind (inode_at W' j) (inode_at W j).
Proof.
  intros B Hf Hk Ht. pose proof B as [A _ _]. set (s1 := mkHost (h_img s) (h_len s) (h_sb s) (u32 (k + 1)) (h_freeblock s)).
  assert (at_work s1 W free) as A1 by by destruct A.
  destruct (empty_file W (fresh k type) k) as (I & T & D & O); [done..|].
  destruct (winode_built s W free Da s1 W free k (inode_at W k) (fresh k type) [] B Hk A1 (evolves_refl the_sb W _) I T D eq_refl) as (s2 & W2 & E2 & B2 & Hi2 & K2 & O2).
  { split; cbn; lia. }
  { intros m Hm. by apply O in Hm. }
  exists s2, W2. split; [|split; [done|split; [|done]]].
  - unfold Mkfs.ialloc. erewrite bind_ok by reflexivity. rewrite Hf, (bind_ok _ _ _ tt s1) by reflexivity.
    rewrite (xshort_id type) by lia. change (i_set_size (xint 0) (i_set_nlink (xshort 1) (i_set_type type (blank k)))) with (fresh k type).
    by rewrite (bind_ok _ _ _ _ _ E2).
  - rewrite Hi2. apply u32_small. lia.
Qed.

(** Rounding up the size of a directory that does not end on a block. *)
Lemma round_up n (n2 := (n / BSIZE + 1) * BSIZE) : n mod BSIZE <> 0 -> n < n2 /\ forall c, c * BSIZE < n <-> c * BSIZE < n2.
Proof. intros H. unfold n2, BSIZE in *. split; [zlia|]. intros c. zlia. Qed.

Lemma fix_root_rule s W free Da k (n := Z.of_nat (length (Da k))) (n2 := (n / BSIZE + 1) * BSIZE) : building s W free Da -> 0 <= k < 200 -> n mod BSIZE <> 0 ->
  exists s' W', fix_root k s = Ok tt s' /\ building s' W' free (fupd Da k (Da k ++ replicate (Z.to_nat (n2 - n)) 0)) /\ h_freeinode s' = h_freeinode s /\
    forall j, 0 <= j < 200 -> same_kind (inode_at W' j) (inode_at W j).
Proof.
  intros B Hk Hm. pose proof B as [A Hf _]. destruct (Hf k Hk) as [I T D]. pose proof (built_size _ _ _ (Hf k Hk)) as Hsz. fold n in Hsz.
  set (x := inode_at W k) in *. pose proof (in_size _ _ _ _ I) as Hs. destruct (round_up n Hm) as [Hlt Hcmp]. fold n2 in Hlt, Hcmp.
  assert (n2 <= MAXFILE * BSIZE) as Hn2 by (apply Z.nlt_ge; intros H; apply (Hcmp MAXFILE) in H; lia). rewrite Hsz in *.
  set (y := i_set_size n2 x). assert (forall bn, block_at W y bn = block_at W x bn) as Hby by done.
  assert (inode_ok 2 the_sb W y) as Iy.
  { destruct I as [I1 I2 I3 I4 I5 I6 I7]. split; try done; [cbn; lia|]. intros bn H1 H2. apply I4; [done|]. rewrite Hsz. by apply Hcmp. }
  assert (tight W y (i_size y)) as Ty.
  { change (i_size y) with n2. destruct T as [T1 T2 T3]. split.
    - intros bn Hbn. rewrite Hby, <- Hcmp. by apply T1.
    - change (i_addrs y) with (i_addrs x). rewrite T2. apply Hcmp.
    - intros j Hj. apply T3. lia. }
  assert (data W y = Da k ++ replicate (Z.to_nat (n2 - n)) 0) as Dy.
  { rewrite <- D. unfold data. change (i_size y) with n2. rewrite Hsz. replace n2 with (n + (n2 - n)) at 1 by lia. rewrite seqZ_app, map_app by lia. f_equal.
    replace (Z.to_nat (n2 - n)) with (length (seqZ (0 + n) (n2 - n))) by (by rewrite length_seqZ). apply map_const_eq.
    intros j Hj%elem_of_seqZ. apply (tg_zero _ _ _ T); [lia|]. apply (tg_block _ _ _ T); [apply byte_block; lia|]. apply Hcmp.
    unfold n2, BSIZE in *. zlia. }
  destruct (winode_built s W free Da s W free k x y _ B Hk A (evolves_refl the_sb W _) Iy Ty Dy eq_refl) as (s2 & W2 & E2 & B2 & Hi2 & K2 & O2).
  { destruct (inode_at_range W k). split; try done. cbn. flia. }
  { done. }
  exists s2, W2. split; [|split; [done|split; [done|]]].
  - unfold fix_root. rewrite (bind_ok _ _ _ _ _ (rinode_run s W free k A Hk)). fold x. rewrite Hsz, (xint_id n) by flia. fold n2. rewrite u32_small, xint_id by flia. exact E2.
  - intros j Hj. destruct (decide (j = k)) as [->|Hne]; [done|by apply O2].
Qed.

(** ** Directory entries *)

Definition short (a : input) : list Z := strip_mark (strip_dir (fst a)).
Definition contents_of (a : input) : list Z := match snd a with Some reads => concat (read_chunks reads) | None => [] end.

(** What mkfs requires of an argument. *)
Record good_input (a : input) : Prop := {
  gi_name : Forall byte (short a) /\ Z.of_nat (length (short a)) <= DIRSIZ;
  gi_slash : 47 ∉ strip_dir (fst a);
  gi_open : exists reads, snd a = Some reads /\ Forall (Forall byte) (read_chunks reads);
  gi_size : Z.of_nat (length (contents_of a)) <= MAXFILE * BSIZE
}.

(** The entries of the files from inode [k] on. *)
Fixpoint dirents (k : Z) (args : list input) : list Z :=
  match args with
  | [] => []
  | a :: args => mk_dirent k (short a) ++ dirents (k + 1) args
  end.

(** The blocks of the files. *)
Fixpoint space (args : list input) : Z :=
  match args with
  | [] => 0
  | a :: args => nblk (Z.of_nat (length (contents_of a))) + space args
  end.

Lemma nblk_0 : nblk 0 = 0.
Proof. done. Qed.

Lemma nblk_nonneg n : 0 <= n -> 0 <= nblk n.
Proof. intros H. rewrite <- nblk_0. by apply nblk_mono. Qed.

Lemma space_nonneg args : 0 <= space args.
Proof. induction args as [|a args IH]; cbn; [done|]. pose proof (nblk_nonneg (Z.of_nat (length (contents_of a))) ltac:(lia)). lia. Qed.

Lemma dirents_length k args : Forall good_input args -> Z.of_nat (length (dirents k args)) = 16 * Z.of_nat (length args).
Proof.
  intros H. revert k. induction H as [|a args Ha _ IH]; intros k; [done|]. cbn [dirents length]. rewrite length_app.
  pose proof (proj1 (mk_dirent_bytes k (short a) (proj1 (gi_name _ Ha)))). specialize (IH (k + 1)). lia.
Qed.

(** The loop that copies a file. *)
Lemma copy_rule k chunks : 0 <= k < 200 -> Forall (Forall byte) chunks -> forall s W free Da (n := Z.of_nat (length (Da k))) (n' := n + Z.of_nat (length (concat chunks))),
  building s W free Da -> n' <= MAXFILE * BSIZE -> free + nblk n' - nblk n <= 2000 ->
  exists s' W' Da', for_each chunks (fun buf => iappend k buf) s = Ok tt s' /\ building s' W' (free + nblk n' - nblk n) Da' /\ h_freeinode s' = h_freeinode s /\
    (forall j, Da' j = if decide (j = k) then Da k ++ concat chunks else Da j) /\ forall j, 0 <= j < 200 -> same_kind (inode_at W' j) (inode_at W j).
Proof.
  intros Hk. induction 1 as [|c chunks Hc _ IH]; intros s W free Da n n' B Hmax Hroom.
  - exists s, W, Da. assert (n' = n) as -> by (unfold n'; cbn; lia). replace (free + nblk n - nblk n) with free by lia. split; [done|]. split; [done|]. split; [done|].
    split; [|done]. intros j. cbn. rewrite app_nil_r. by case_decide; subst.
  - cbn [concat] in n'. pose proof (length_app c (concat chunks)) as Hla. set (n1 := n + Z.of_nat (length c)).
    assert (n1 <= n' /\ nblk n <= nblk n1 /\ nblk n1 <= nblk n') as (H1 & H2 & H3) by (repeat split; try apply nblk_mono; unfold n1, n', n; lia).
    destruct (iappend_rule s W free Da k c B Hk) as (s1 & W1 & E1 & B1 & Hi1 & K1); [fold n n1; lia|done|fold n n1; lia|]. fold n n1 in B1.
    assert (Z.of_nat (length (fupd Da k (Da k ++ c) k)) = n1) as Hn1 by (rewrite fupd_eq, length_app; unfold n1, n; lia).
    specialize (IH s1 W1 _ _ B1). cbv zeta in IH. rewrite Hn1 in IH. replace (n1 + Z.of_nat (length (concat chunks))) with n' in IH by (unfold n', n1; lia).
    destruct IH as (s' & W' & Da' & E & B' & Hi & Hd & K); [done|lia|]. exists s', W', Da'. cbn [for_each]. rewrite (bind_ok _ _ _ _ _ E1). split; [done|].
    split; [by replace (free + nblk n' - nblk n) with (free + nblk n1 - nblk n + nblk n' - nblk n1) by lia|]. split; [congruence|]. split.
    + intros j. rewrite Hd, fupd_eq, fupd_cases. cbn [concat]. by case_decide; rewrite ?app_assoc.
    + intros j Hj. apply (same_kind_trans _ (inode_at W1 j)); [by apply K|by apply K1].
Qed.

(** One argument. *)
Lemma add_file_rule a s W free Da k (n := Z.of_nat (length (Da 1))) (t := Z.of_nat (length (contents_of a))) : good_input a -> building s W free Da ->
  h_freeinode s = k -> 2 <= k < 200 -> n + 16 <= MAXFILE * BSIZE -> free + nblk (n + 16) - nblk n + nblk t <= 2000 ->
  exists s' W' Da', add_file 1 a s = Ok tt s' /\ building s' W' (free + nblk (n + 16) - nblk n + nblk t) Da' /\ h_freeinode s' = k + 1 /\
    (forall j, Da' j = if decide (j = k) then contents_of a else if decide (j = 1) then Da 1 ++ mk_dirent k (short a) else Da j) /\
    same_kind (inode_at W' k) (fresh k T_FILE) /\ forall j, 0 <= j < 200 -> j <> k -> same_kind (inode_at W' j) (inode_at W j).
Proof.
  intros [[G1 G2] G3 (reads & Hch & Hcb) G4] B Hf Hk Hmax Hroom. fold t in G4. assert (contents_of a = concat (read_chunks reads)) as Hco by (unfold contents_of; by rewrite Hch).
  pose proof (nblk_mono n (n + 16) ltac:(lia)) as Hm. pose proof (nblk_nonneg t ltac:(unfold t; lia)) as Ht.
  destruct (ialloc_rule s W free Da k T_FILE B Hf ltac:(lia) ltac:(done)) as (s1 & W1 & E1 & B1 & Hi1 & K1 & O1).
  destruct (mk_dirent_bytes k (short a) G1) as [L1 L2]. assert (fupd Da k [] 1 = Da 1) as H1 by (apply fupd_ne; lia).
  destruct (iappend_rule s1 W1 free (fupd Da k []) 1 (mk_dirent k (short a)) B1 ltac:(lia)) as (s2 & W2 & E2 & B2 & Hi2 & K2); rewrite ?H1, ?L1; fold n; [done|done|lia|].
  rewrite ?H1, ?L1 in B2. fold n in B2. set (Da2 := fupd (fupd Da k []) 1 (Da 1 ++ mk_dirent k (short a))) in *.
  assert (Da2 k = []) as H2 by (unfold Da2; rewrite fupd_ne by lia; apply fupd_eq).
  assert (Z.of_nat (length (Da2 k)) = 0) as En by by rewrite H2.
  destruct (copy_rule k (read_chunks reads) ltac:(lia) Hcb s2 W2 _ Da2 B2) as (s3 & W3 & Da3 & E3 & B3 & Hi3 & Hd3 & K3); rewrite ?En, ?Z.add_0_l, <- ?Hco, ?nblk_0; fold t; [done|lia|].
  rewrite En, Z.add_0_l, <- Hco, nblk_0 in B3. fold t in B3. exists s3, W3, Da3. split; [|split; [|split; [congruence|split; [|split]]]].
  - unfold add_file. rewrite (bool_decide_eq_true_2 _ G3). erewrite bind_ok by reflexivity. rewrite Hch. fold (short a). rewrite (proj2 (Z.leb_le _ _) G2).
    erewrite bind_ok by reflexivity. rewrite (bind_ok _ _ _ _ _ E1), (xshort_id k) by lia. by rewrite (bind_ok _ _ _ _ _ E2).
  - by replace (free + nblk (n + 16) - nblk n + nblk t) with (free + nblk (n + 16) - nblk n + nblk t - 0) by lia.
  - intros j. rewrite Hd3, H2, Hco. case_decide; [done|]. unfold Da2. rewrite fupd_cases. case_decide; [done|]. by rewrite fupd_ne.
  - apply (same_kind_trans _ (inode_at W2 k)); [apply K3; lia|]. apply (same_kind_trans _ (inode_at W1 k)); [apply K2; lia|done].
  - intros j Hj Hne. apply (same_kind_trans _ (inode_at W2 j)); [by apply K3|]. apply (same_kind_trans _ (inode_at W1 j)); [by apply K2|by apply O1].
Qed.
