(* ===== verification/MkfsProps.v ===== *)
(** * mkfs as a whole

    [main] of mkfs/mkfs.c builds a file system that the kernel's invariants
    accept, with one file for each argument. *)

From S2P Require Import Prelude Riscv Mem CString KState Sample Sched Virtio DiskSpec Bio BioSpec Blocks Log LogSpec Txn DiskSample Vm PhysMem Fs FsSpec Inode InodeSpec Dinode FileIO FileWrite InodeLock Pipe Console File FileSpec Grep Mkfs MkfsSpec.

(** ** The arguments *)

Lemma add_files_rule args : Forall good_input args -> forall s W free Da k (n := Z.of_nat (length (Da 1))) (n' := n + 16 * Z.of_nat (length args)),
  building s W free Da -> h_freeinode s = k -> 2 <= k -> k + Z.of_nat (length args) <= 200 -> n' <= MAXFILE * BSIZE ->
  free + nblk n' - nblk n + space args <= 2000 ->
  exists s' W' Da', for_each args (add_file 1) s = Ok tt s' /\ building s' W' (free + nblk n' - nblk n + space args) Da' /\
    Da' 1 = Da 1 ++ dirents k args /\
    (forall i a, args !! i = Some a -> Da' (k + Z.of_nat i) = contents_of a /\ same_kind (inode_at W' (k + Z.of_nat i)) (fresh (k + Z.of_nat i) T_FILE)) /\
    forall j, 0 <= j < 200 -> ~ k <= j < k + Z.of_nat (length args) -> (j <> 1 -> Da' j = Da j) /\ same_kind (inode_at W' j) (inode_at W j).
Proof.
  induction 1 as [|a args Ha _ IH]; intros s W free Da k n n' B Hf Hk Hlen Hmax Hroom; cbn [space length] in *.
  - exists s, W, Da. assert (n' = n) as -> by (unfold n'; cbn; lia). split; [done|]. split; [by replace (free + nblk n - nblk n + 0) with free by lia|].
    split; [by rewrite app_nil_r|]. done.
  - set (t := nblk (Z.of_nat (length (contents_of a)))) in *. pose proof (space_nonneg args) as Hsp.
    assert (nblk (n + 16) <= nblk n' /\ n + 16 <= n') as [Hm1 Hm2] by (split; [apply nblk_mono|]; unfold n'; lia).
    destruct (add_file_rule a s W free Da k Ha B Hf ltac:(lia)) as (s1 & W1 & Da1 & E1 & B1 & Hi1 & Hd1 & K1 & O1); fold n t; [lia|lia|]. fold n t in B1.
    pose proof (proj1 (mk_dirent_bytes k (short a) (proj1 (gi_name _ Ha)))) as L.
    assert (Da1 1 = Da 1 ++ mk_dirent k (short a)) as Hr by (rewrite Hd1, decide_False, decide_True by lia; done).
    assert (Z.of_nat (length (Da1 1)) = n + 16) as Hn by (rewrite Hr, length_app; unfold n; lia).
    specialize (IH s1 W1 _ Da1 (k + 1) B1 Hi1). cbv zeta in IH. rewrite Hn in IH. replace (n + 16 + 16 * Z.of_nat (length args)) with n' in IH by (unfold n'; lia).
    destruct IH as (s' & W' & Da' & E & B' & Hr' & Hfile & Hoth); [lia..|]. exists s', W', Da'. cbn [for_each dirents]. rewrite (bind_ok _ _ _ _ _ E1).
    split; [done|]. split; [replace (free + nblk n' - nblk n + (t + space args)) with (free + nblk (n + 16) - nblk n + t + nblk n' - nblk (n + 16) + space args) by lia; exact B'|].
    split; [by rewrite Hr', Hr, <- app_assoc|]. split.
    + intros [|i] b Hb; cbn in Hb.
      * injection Hb as <-. rewrite Z.add_0_r. destruct (Hoth k ltac:(lia) ltac:(lia)) as [H1 H2]. split; [rewrite H1, Hd1, decide_True by lia; done|].
        by apply (same_kind_trans _ (inode_at W1 k)).
      * replace (k + Z.of_nat (S i)) with (k + 1 + Z.of_nat i) by lia. by apply Hfile.
    + intros j Hj Hout. destruct (Hoth j Hj ltac:(lia)) as [H1 H2]. split.
      * intros Hne. rewrite H1, Hd1, !decide_False by lia. done.
      * apply (same_kind_trans _ (inode_at W1 j)); [done|]. apply O1; lia.
Qed.

(** ** The first image *)

Lemma zero_blocks_run s : h_len s = 0 -> exists s', for_each (seqZ 0 FSSIZE) (fun i => wsect i zeroed) s = Ok tt s' /\
  (forall m, 0 <= m < 2000 -> h_img s' m = zeroed) /\ h_len s' = 2000 /\ h_sb s' = h_sb s /\ h_freeinode s' = h_freeinode s /\ h_freeblock s' = h_freeblock s.
Proof.
  intros Hl. destruct (for_each_seqZ (fun k s' => (forall m, 0 <= m < k -> h_img s' m = zeroed) /\ h_len s' = k /\ h_sb s' = h_sb s /\
    h_freeinode s' = h_freeinode s /\ h_freeblock s' = h_freeblock s) (fun i => wsect i zeroed) FSSIZE) with (s := s) as (s' & E & H); [done| |by repeat split; try lia|by exists s'].
  intros k t Hk (H1 & H2 & H3 & H4 & H5). change FSSIZE with 2000 in Hk. eexists. split; [done|]. rewrite at_sec_id by done. cbn. split; [|split; [lia|done]].
  intros m Hm. rewrite fupd_cases. case_decide; [done|]. apply H1. lia.
Qed.

Lemma load_zeroed n o : loadn n zeroed o = 0.
Proof. revert o. induction n as [|n IH]; intros o; [done|]. cbn [loadn]. rewrite IH. done. Qed.

(** The image with the super block and no file. *)
Lemma first_image s : h_sb s = the_sb -> h_len s = 2000 -> h_freeblock s = nmeta -> (forall m, 0 <= m < 2000 -> h_img s m = zeroed) ->
  exists s' W, wsect 1 (put_fields (sb_fields the_sb) zeroed) s = Ok tt s' /\ building s' W 47 (fun _ => []) /\ h_freeinode s' = h_freeinode s /\
    forall k, 0 <= k < 200 -> i_type (inode_at W k) = 0.
Proof.
  intros H1 H2 H3 Hz. set (s' := mkHost (fupd (h_img s) 1 (put_fields (sb_fields the_sb) zeroed)) (Z.max (h_len s) 2) (h_sb s) (h_freeinode s) (h_freeblock s)).
  set (W := fun m => if decide (m = 46) then marks 47 else h_img s' m). exists s', W.
  assert (forall m, 0 <= m < 2000 -> m <> 1 -> m <> 46 -> W m = zeroed) as HW.
  { intros m Hm Hn1 Hn2. unfold W. rewrite decide_False by done. cbn. rewrite fupd_ne by done. by apply Hz. }
  assert (at_work s' W 47) as A.
  { split; try done; [cbn; lia|intros m Hm; apply HW; lia|intros m Hm; apply HW; lia]. }
  assert (forall k, 0 <= k < 200 -> W (IBLOCK k the_sb) = zeroed) as Hib by (intros k Hk; destruct (the_IBLOCK k Hk); apply HW; lia).
  assert (forall k, 0 <= k < 200 -> inode_ok 2 the_sb W (inode_at W k) /\ tight W (inode_at W k) 0 /\ data W (inode_at W k) = [] /\ forall m, ~ owns W (inode_at W k) m) as He.
  { intros k Hk. apply (empty_file W _ k); try done.
    - intros j Hj. unfold inode_at, load_dinode. cbn [i_addrs i_set_addrs]. rewrite in_range_true by lia. rewrite Hib by done. apply load_zeroed.
    - unfold inode_at, load_dinode. cbn [i_size i_set_addrs i_set_size]. rewrite Hib by done. apply load_zeroed. }
  split; [done|]. split; [|split; [done|]].
  - split; [done| |].
    + intros k Hk. destruct (He k Hk) as (I & T & D & _). split; [done| |done].
      pose proof (f_equal length D) as Hl. rewrite data_length in Hl. change (length []) with 0%nat in Hl. pose proof (in_size _ _ _ _ I) as Hs.
      assert (i_size (inode_at W k) = 0) as -> by lia. done.
    + intros k j m Hk Hj _ Hm. by destruct (He k Hk) as (_ & _ & _ & Ho), (Ho m).
  - intros k Hk. unfold inode_at, load_dinode. cbn [i_type i_set_addrs i_set_size i_set_nlink i_set_minor i_set_major i_set_type]. rewrite Hib by done. by rewrite load_zeroed.
Qed.

(** ** The last steps *)

Lemma balloc_run s W free : at_work s W free -> exists s', Mkfs.balloc free s = Ok tt s' /\ (forall m, h_img s' m = W m) /\ h_len s' = 2000.
Proof.
  intros [A1 A2 A3 A4 A5 A6 A7 A8]. unfold Mkfs.balloc. rewrite (proj2 (Z.ltb_lt free BPB)) by (unfold BPB, BSIZE; lia). erewrite bind_ok by reflexivity.
  erewrite bind_ok by reflexivity. rewrite A1. change (sb_bmapstart the_sb) with 46. eexists. split; [done|]. cbn. rewrite at_sec_id by lia. split; [|lia].
  intros m. rewrite fupd_cases, A5. by case_decide.
Qed.

(** Inodes of images that agree. *)
Lemma inode_at_same V W k : (forall m, V m = W m) -> inode_at V k = inode_at W k.
Proof. intros H. unfold inode_at. by rewrite H. Qed.

Lemma built_same V W k bs : (forall m, V m = W m) -> built W k bs -> built V k bs.
Proof.
  intros H [I T D]. assert (forall m, owns W (inode_at W k) m -> beq (V m) (W m)) as Hb by (intros m _; by rewrite H).
  destruct (same_file 2 the_sb W V (inode_at W k) I Hb) as [I' D']; [intros m _; unfold used; by rewrite H|].
  split; rewrite (inode_at_same V W k H); [done| |by rewrite D']. pose proof (in_size _ _ _ _ I). apply (tight_same W); [done|lia|done].
Qed.

Lemma apart_same V W : (forall m, V m = W m) -> all_apart W -> all_apart V.
Proof.
  intros H Ha k j m Hk Hj Hne. rewrite !(inode_at_same V W _ H). unfold owns, block_at. rewrite !H. by apply Ha.
Qed.

Definition root_dir (args : list input) : list Z := mk_dirent 1 [46] ++ mk_dirent 1 [46; 46] ++ dirents 2 args.
Definition padded (bs : list Z) : list Z := bs ++ replicate (Z.to_nat ((Z.of_nat (length bs) / BSIZE + 1) * BSIZE - Z.of_nat (length bs))) 0.

(** The blocks of the image in use. *)
Definition total (args : list input) : Z := nmeta + nblk (16 * (2 + Z.of_nat (length args))) + space args.

Lemma root_dir_length args : Forall good_input args -> Z.of_nat (length (root_dir args)) = 16 * (2 + Z.of_nat (length args)).
Proof.
  intros H. unfold root_dir. rewrite !length_app. pose proof (dirents_length 2 args H).
  destruct (mk_dirent_bytes 1 [46] ltac:(by repeat constructor)) as [H1 _]. destruct (mk_dirent_bytes 1 [46; 46] ltac:(by repeat constructor)) as [H2 _]. lia.
Qed.

Lemma populate_rule args s : h_len s = 0 -> h_freeinode s = 1 -> Forall good_input args -> Z.of_nat (length args) <= 198 -> total args <= FSSIZE ->
  exists s' W Da, populate args s = Ok 1 s' /\ building s' W (total args) Da /\ Da 1 = root_dir args /\ same_kind (inode_at W 1) (fresh 1 T_DIR) /\
    (forall i a, args !! i = Some a -> Da (2 + Z.of_nat i) = contents_of a /\ same_kind (inode_at W (2 + Z.of_nat i)) (fresh (2 + Z.of_nat i) T_FILE)) /\
    forall k, 2 + Z.of_nat (length args) <= k < 200 -> i_type (inode_at W k) = 0.
Proof.
  intros Hl Hi Hg Hlen Hroom. change FSSIZE with 2000 in Hroom. unfold total in *. change nmeta with 47 in *. pose proof (space_nonneg args) as Hsp.
  set (n := 16 * (2 + Z.of_nat (length args))) in *. assert (nblk 16 = 1 /\ nblk 32 = 1) as [N1 N2] by done. pose proof (nblk_mono 32 n ltac:(unfold n; lia)) as Hn.
  set (s0 := mkHost (h_img s) (h_len s) the_sb (h_freeinode s) 47).
  destruct (zero_blocks_run s0 Hl) as (s1 & E1 & Hz & Hl1 & Hs1 & Hi1 & Hf1).
  destruct (first_image s1 Hs1 Hl1 Hf1 Hz) as (s2 & W2 & E2 & B2 & Hi2 & Ht2).
  destruct (ialloc_rule s2 W2 47 _ 1 T_DIR B2 ltac:(rewrite Hi2, Hi1; done) ltac:(lia) ltac:(done)) as (s3 & W3 & E3 & B3 & Hi3 & K3 & O3).
  destruct (mk_dirent_bytes 1 [46] ltac:(by repeat constructor)) as [L1 Y1]. destruct (mk_dirent_bytes 1 [46; 46] ltac:(by repeat constructor)) as [L2 Y2].
  destruct (iappend_rule s3 W3 47 _ 1 (mk_dirent 1 [46]) B3 ltac:(lia)) as (s4 & W4 & E4 & B4 & Hi4 & K4); rewrite ?fupd_eq, ?L1; [done|done|done|].
  rewrite fupd_eq, L1 in B4. change (47 + nblk (Z.of_nat (length (@nil Z)) + 16) - nblk (Z.of_nat (length (@nil Z)))) with 48 in B4. cbn [app] in B4.
  destruct (iappend_rule s4 W4 48 _ 1 (mk_dirent 1 [46; 46]) B4 ltac:(lia)) as (s5 & W5 & E5 & B5 & Hi5 & K5); rewrite ?fupd_eq, ?L1, ?L2; [done|done|done|].
  rewrite fupd_eq, L1, L2 in B5. change (48 + nblk (16 + 16) - nblk 16) with 48 in B5. set (Da5 := fupd _ 1 (mk_dirent 1 [46] ++ mk_dirent 1 [46; 46])) in B5.
  assert (Z.of_nat (length (Da5 1)) = 32) as L5 by (unfold Da5; rewrite fupd_eq, length_app; lia).
  destruct (add_files_rule args Hg s5 W5 48 Da5 2 B5 ltac:(rewrite Hi5, Hi4, Hi3; done) ltac:(lia) ltac:(lia)) as (s6 & W6 & Da6 & E6 & B6 & Hr & Hfile & Hoth);
    rewrite ?L5, ?N2; replace (32 + 16 * Z.of_nat (length args)) with n by (unfold n; lia); [unfold n; flia|lia|].
  rewrite L5, N2 in B6. replace (32 + 16 * Z.of_nat (length args)) with n in B6 by (unfold n; lia). exists s6, W6, Da6. split; [|split; [|split; [|split; [|split; [done|]]]]].
  - unfold populate. rewrite (bind_ok _ _ _ tt s0) by reflexivity. rewrite (bind_ok _ _ _ _ _ E1), (bind_ok _ _ _ _ _ E2), (bind_ok _ _ _ _ _ E3).
    erewrite bind_ok by reflexivity. change (xshort 1) with 1. by rewrite (bind_ok _ _ _ _ _ E4), (bind_ok _ _ _ _ _ E5), (bind_ok _ _ _ _ _ E6).
  - by replace (47 + nblk n + space args) with (48 + nblk n - 1 + space args) by lia.
  - rewrite Hr. unfold Da5, root_dir. by rewrite fupd_eq, <- app_assoc.
  - apply (same_kind_trans _ (inode_at W5 1)); [apply Hoth; lia|]. apply (same_kind_trans _ (inode_at W4 1)); [apply K5; lia|].
    apply (same_kind_trans _ (inode_at W3 1)); [apply K4; lia|done].
  - intros k Hk. destruct (Hoth k ltac:(lia) ltac:(lia)) as [_ [H6 _]]. destruct (K5 k ltac:(lia)) as [H5 _]. destruct (K4 k ltac:(lia)) as [H4 _].
    destruct (O3 k ltac:(lia) ltac:(lia)) as [H3 _]. rewrite H6, H5, H4, H3. apply Ht2. lia.
Qed.

(** ** The theorems *)

(** Inode [k] of the disk is a file of the given type with one link and the
    bytes [bs]. *)
Record file_at (V : contents) (k type : Z) (bs : list Z) : Prop := {
  fa_ok : inode_ok 2 the_sb V (inode_at V k);
  fa_data : data V (inode_at V k) = bs;
  fa_type : i_type (inode_at V k) = type;
  fa_nlink : i_nlink (inode_at V k) = 1
}.

Lemma file_at_built V W k type bs : (forall m, V m = W m) -> built W k bs -> same_kind (inode_at W k) (fresh k type) -> file_at V k type bs.
Proof.
  intros H B [K1 K2]. destruct (built_same V W k bs H B) as [I _ D]. pose proof (inode_at_same V W k H) as E.
  split; [done|done|by rewrite E, K1|by rewrite E, K2].
Qed.

Lemma super_stored : sb_of (put_fields (sb_fields the_sb) zeroed) = the_sb.
Proof. by vm_compute. Qed.

Lemma empty_header : header zeroed [].
Proof. by split. Qed.

(** The image as the kernel finds it. *)
Record mkfs_image (args : list input) (V : contents) : Prop := {
  mi_super : sb_of (V 1) = the_sb;
  mi_log : header (V 2) [];
  mi_bitmap : fs_bitmap 2 the_sb V;
  mi_used : forall b, 0 <= b < FSSIZE -> used V the_sb b = (b <? total args);
  mi_root : file_at V ROOTINO T_DIR (padded (root_dir args));
  mi_files : forall i a, args !! i = Some a -> file_at V (2 + Z.of_nat i) T_FILE (contents_of a);
  mi_free : forall k, 2 + Z.of_nat (length args) <= k < NINODES -> i_type (inode_at V k) = 0;
  mi_apart : all_apart V
}.

Lemma main_rule args s : h_len s = 0 -> h_freeinode s = 1 -> Forall good_input args -> Z.of_nat (length args) <= 198 ->
  (2 + Z.of_nat (length args)) mod 64 <> 0 -> total args <= FSSIZE ->
  exists s', main args s = Ok tt s' /\ h_len s' = FSSIZE /\ mkfs_image args (h_img s').
Proof.
  intros Hl Hi Hg Hlen Hmod Hroom. destruct (populate_rule args s Hl Hi Hg Hlen Hroom) as (s1 & W1 & Da & E1 & B1 & Hr & K1 & Hfile & Hfree).
  pose proof (root_dir_length args Hg) as Lr.
  destruct (fix_root_rule s1 W1 (total args) Da 1 B1 ltac:(lia)) as (s2 & W2 & E2 & B2 & _ & K2); rewrite ?Hr, ?Lr; [unfold BSIZE; zlia|].
  rewrite Hr, Lr in B2. pose proof B2 as [A2 Hf2 Ha2]. destruct (balloc_run s2 W2 (total args) A2) as (s3 & E3 & Hv & Hl3).
  assert (main args s = Ok tt s3) as E.
  { unfold main. rewrite (bind_ok _ _ _ _ _ E1), (bind_ok _ _ _ _ _ E2). erewrite bind_ok by reflexivity. by rewrite (aw_free _ _ _ A2). }
  assert (matches 2 (h_img s3) W2) as M by (intros m _; by rewrite Hv). exists s3. split; [exact E|]. split; [exact Hl3|]. split.
  - rewrite Hv, (aw_super _ _ _ A2). apply super_stored.
  - rewrite Hv, (aw_log _ _ _ A2) by lia. apply empty_header.
  - exact (matches_bitmap 2 the_sb W2 _ (work_bitmap _ _ _ A2) M).
  - intros b Hb. rewrite (matches_used 2 the_sb W2 _ (work_bitmap _ _ _ A2) M) by done. by apply (work_used s2).
  - apply (file_at_built _ W2); [done| |].
    + unfold padded. rewrite Lr. specialize (Hf2 1 ltac:(lia)). rewrite fupd_eq in Hf2. exact Hf2.
    + apply (same_kind_trans _ (inode_at W1 1)); [apply K2; lia|exact K1].
  - intros i a Ha. destruct (Hfile i a Ha) as [Hd Hk]. apply lookup_lt_Some in Ha. apply (file_at_built _ W2); [done| |].
    + specialize (Hf2 (2 + Z.of_nat i) ltac:(lia)). rewrite fupd_ne, Hd in Hf2 by lia. exact Hf2.
    + apply (same_kind_trans _ (inode_at W1 (2 + Z.of_nat i))); [apply K2; lia|exact Hk].
  - intros k Hk. change NINODES with 200 in Hk. rewrite (inode_at_same _ W2 k Hv). destruct (K2 k ltac:(lia)) as [-> _]. by apply Hfree.
  - by apply (apart_same _ W2).
Qed.

(** C19. mkfs builds the file system it is asked for.  With readable arguments
    whose names fit and hold no slash, at most 198 of them, and enough room
    for their blocks, it returns, and the image of FSSIZE blocks holds the
    super block, an empty log, a bitmap that marks exactly the blocks in use,
    a root directory with the entries of all arguments, each argument's file
    with its exact contents, free inodes elsewhere, and no block in two files.
    The number of directory entries must not be a multiple of 64. *)
Theorem mkfs_correct args s : h_len s = 0 -> h_freeinode s = 1 -> Forall good_input args -> Z.of_nat (length args) <= 198 ->
  (2 + Z.of_nat (length args)) mod 64 <> 0 -> total args <= FSSIZE ->
  exists s', main args s = Ok tt s' /\ h_len s' = FSSIZE /\ mkfs_image args (h_img s').
Proof. apply main_rule. Qed.

(** mkfs leaves a hole at the end of a root directory that fills its last
    block: with a multiple of 64 entries its size is rounded up to one block
    more than it has, so that the inode of the root covers a block with no
    address, which the invariant of the kernel's files excludes. *)
Theorem mkfs_root_hole args s (bn := (2 + Z.of_nat (length args)) / 64) : h_len s = 0 -> h_freeinode s = 1 -> Forall good_input args -> Z.of_nat (length args) <= 198 ->
  (2 + Z.of_nat (length args)) mod 64 = 0 -> total args <= FSSIZE ->
  exists s', main args s = Ok tt s' /\ let x := inode_at (h_img s') ROOTINO in
    bn * BSIZE < i_size x /\ block_at (h_img s') x bn = 0 /\ ~ inode_ok 2 the_sb (h_img s') x.
Proof.
  intros Hl Hi Hg Hlen Hmod Hroom. destruct (populate_rule args s Hl Hi Hg Hlen Hroom) as (s1 & W1 & Da & E1 & [A1 Hf1 _] & Hr & _).
  destruct (Hf1 1 ltac:(lia)) as [I T D]. pose proof (built_size _ _ _ (Hf1 1 ltac:(lia))) as Hsz. rewrite Hr, (root_dir_length args Hg) in Hsz.
  set (n := 16 * (2 + Z.of_nat (length args))) in *. assert (n = bn * BSIZE /\ 0 <= bn <= 3) as [En Hbn] by (unfold n, bn, BSIZE; zlia).
  assert (n / BSIZE = bn) as Eq by (rewrite En; by apply Z.div_mul). set (x := inode_at W1 1) in *. set (y := i_set_size ((bn + 1) * BSIZE) x).
  destruct (winode_run s1 W1 (total args) 1 y A1 ltac:(lia)) as (s2 & E2 & A2 & _). destruct (balloc_run s2 _ (total args) A2) as (s3 & E3 & Hv & _).
  assert (i_addrs x bn = 0) as H0.
  { rewrite <- (block_at_direct W1 x bn) by (unfold NDIRECT; lia). destruct (Z.eq_dec (block_at W1 x bn) 0) as [|Hne]; [done|].
    apply (tg_block _ _ _ T) in Hne; [lia|flia]. }
  destruct (saved_inode_at (put_inode W1 1 y) y 1 eq_refl (in_dev _ _ _ _ I)) as [Al _].
  { apply (dinode_saved W1 the_sb y). destruct (inode_at_range W1 1) as [R1 R2 R3 R4 R5 R6]. split; [exact R1|exact R2|exact R3|exact R4|change (i_size y) with ((bn + 1) * BSIZE); flia|exact R6]. }
  exists s3. split; [|cbv zeta].
  - unfold main. rewrite (bind_ok _ _ _ _ _ E1). unfold fix_root at 1. rewrite bind_assoc, (bind_ok _ _ _ _ _ (rinode_run s1 W1 (total args) 1 A1 ltac:(lia))). fold x.
    rewrite Hsz, (xint_id n) by flia. rewrite Eq, u32_small, xint_id by flia. fold y. rewrite (bind_ok _ _ _ _ _ E2). erewrite bind_ok by reflexivity. by rewrite (aw_free _ _ _ A2).
  - change ROOTINO with 1. rewrite (inode_at_same _ _ 1 Hv). set (x' := inode_at (put_inode W1 1 y) 1) in *.
    assert (bn * BSIZE < i_size x') as H1 by (rewrite (al_size _ _ Al); cbn; flia).
    assert (block_at (h_img s3) x' bn = 0) as H2 by (rewrite block_at_direct by (unfold NDIRECT; lia); rewrite (al_addrs _ _ Al) by (unfold NDIRECT; lia); exact H0).
    split; [done|]. split; [done|]. intros I'. by apply (in_full _ _ _ _ I' bn ltac:(lia) H1).
Qed.

(** ** Mounting the image *)

Lemma s16_zero x : 0 <= x < 65536 -> s16 x = 0 -> x = 0.
Proof. intros H. unfold s16. zlia. Qed.

(** No inode of the image is orphaned. *)
Lemma image_orphans args V k : mkfs_image args V -> Z.of_nat (length args) <= 198 -> 1 <= k < 200 -> ~ orphan the_sb V k.
Proof.
  intros M Hlen Hk [O1 O2]. assert (i_type (inode_at V k) <> 0 /\ i_nlink (inode_at V k) = 0) as [H1 H2].
  { split.
    - intros H. apply O1, s16_zero; [apply (loadn_range 2)|exact H].
    - change (s16 (loadn 2 (V (IBLOCK k the_sb)) (k mod IPB * DINODE + 6)) = 0). by rewrite O2. }
  destruct (Z.lt_ge_cases k 2) as [|H].
  - assert (k = ROOTINO) as -> by (unfold ROOTINO; lia). by rewrite (fa_nlink _ _ _ _ (mi_root _ _ M)) in H2.
  - destruct (Z.lt_ge_cases k (2 + Z.of_nat (length args))) as [Hlt|Hge]; [|apply H1, (mi_free _ _ M); change NINODES with 200; lia].
    destruct (lookup_lt_is_Some_2 args (Z.to_nat (k - 2))) as [a Ha]; [lia|]. pose proof (mi_files _ _ M _ _ Ha) as Hf.
    replace (2 + Z.of_nat (Z.to_nat (k - 2))) with k in Hf by lia. by rewrite (fa_nlink _ _ _ _ Hf) in H2.
Qed.

Lemma orphan_matches sb V W k : fs_bitmap 2 sb V -> 0 <= k < sb_ninodes sb -> matches 2 W V -> orphan sb W k -> orphan sb V k.
Proof.
  intros F Hk M [O1 O2]. destruct (fb_inodes _ _ _ F k Hk) as (_ & Hl & _).
  assert (0 <= k mod IPB * DINODE /\ k mod IPB * DINODE + 64 <= BSIZE) as Hk2 by (unfold DINODE, BSIZE; change IPB with 16; zlia).
  assert (forall p, 0 <= p -> p + 2 <= BSIZE -> loadn 2 (V (IBLOCK k sb)) p = loadn 2 (W (IBLOCK k sb)) p) as HL by (intros p H1 H2; apply loadn_ext; intros q Hq; symmetry; apply (M _ Hl); lia).
  unfold orphan. by rewrite !HL by lia.
Qed.

Section kernel.
Context {LAY : Layout} {ENV : Env} {DSK : Disk}.

(** Reading a file that is not in memory yet. *)
Lemma load_and_read i V D P s W k jp type bs n (z := k_itable s jp) : txn i 2 0 [] [] V D P s -> k_sb s = the_sb -> matches 2 V W -> fs_bitmap 2 the_sb W ->
  file_at W k type bs -> type <> 0 -> i_inum z = k -> i_dev z = ROOTDEV -> i_valid z = false -> 1 <= i_ref z ->
  sl_locked (k_sleeplocks s (SL_inode jp)) = false -> Z.of_nat (length bs) <= n < 0x80000000 ->
  exists s1 s2, ilock jp s = Ok tt s1 /\ i_type (k_itable s1 jp) = type /\ readi jp (Klocal []) 0 n s1 = Ok (Z.of_nat (length bs), bs) s2.
Proof.
  intros T Hs M FW [I D' Ht Hn] Hty Hi Hd Hv Hr Hl Hlen. set (y := inode_at W k) in *. pose proof (matches_bitmap 2 the_sb W V FW M) as F.
  destruct (matches_file 2 the_sb W V FW M y I) as [I1 D1]. pose proof (in_inum _ _ _ _ I) as Hk.
  pose proof (matches_saved 2 the_sb W V FW M y Hk (inode_at_saved W k)) as S1. assert (i_inum y = k) as Hyk by done.
  destruct (ilock_load i 2 0 D P [] V jp s y the_sb T Hs F ltac:(done) Hr Hv Hd ltac:(fold z; rewrite Hi, <- Hyk; exact Hk) Hl ltac:(fold z; by rewrite Hi) S1 ltac:(by rewrite Ht))
    as (s1 & E1 & T1 & _ & _ & Hs1 & _ & _ & Ld). fold z in Ld. set (x := k_itable s1 jp) in *.
  assert (alike x y) as Al.
  { destruct Ld as [L1 L2 L3 L4 L5 L6 L7 L8 L9 L10]. split; [by rewrite L1, Hd|by rewrite L2, Hi|done|done]. }
  assert (data V x = bs) as Dx by (by rewrite (alike_data V x y Al), D1).
  destruct (readi_part i 2 the_sb jp n (to_local (k_mem s1)) 0 [] V D P x s1 (Klocal []) 0 n (Build_at_inode i 2 0 the_sb D P [] [] V jp x s1 T1 Hs1 eq_refl)
    ltac:(done) (alike_ok V x y Al 2 the_sb I1) F ltac:(split; [by exists []|done]) ltac:(lia) ltac:(lia) ltac:(lia)) as (p' & s2 & E2 & _).
  exists s1, s2. split; [done|]. split; [exact (eq_trans (ld_type _ _ _ Ld) Ht)|]. rewrite E2, Dx. change (drop (Z.to_nat 0) bs) with bs. by rewrite take_ge by lia.
Qed.

(** An image of mkfs is ready to be mounted. *)
Lemma image_mountable args W : mkfs_image args W -> Z.of_nat (length args) <= 198 ->
  matches 2 (recovered 2 W) W /\ recoverable 2 W /\ fs_bitmap 2 the_sb (recovered 2 W) /\ (forall k, 1 <= k < sb_ninodes the_sb -> ~ orphan the_sb (recovered 2 W) k).
Proof using.
  intros M Hlen. assert (matches 2 (recovered 2 W) W) as MR by (apply recovered_empty; [apply M|by intros m _]). split; [done|]. split; [|split].
  - exists []. split; [apply M|]. split; [done|constructor|done|]. intros m Hm. by apply not_elem_of_nil in Hm.
  - exact (matches_bitmap 2 the_sb W _ (mi_bitmap _ _ M) MR).
  - intros k Hk Hor. change (sb_ninodes the_sb) with 200 in Hk. apply (image_orphans args W k M Hlen Hk). apply (orphan_matches _ _ (recovered 2 W)); [apply M| |done|done].
    change (sb_ninodes the_sb) with 200. lia.
Qed.

(** C20. Mounting after a crash.  On a disk with a valid super block whose log
    may hold a committed transaction, and no inode without links, [fsinit]
    returns: the super block is in place, the log is empty with its header
    cleared, and the kernel sees the recovered disk.  A second crash at any
    write of [fsinit] itself loses nothing, since every disk it passes through
    recovers to the same contents. *)
Theorem fsinit_correct i V D P s sb st : blocks i [] [] V D P s -> sb_of (D 1) = sb -> sb_magic sb = FSMAGIC -> sb_logstart sb = st -> recoverable st D ->
  lg_outstanding (k_log s) = 0 -> lg_committing (k_log s) = false -> fs_bitmap st sb (recovered st D) ->
  (forall k, 1 <= k < sb_ninodes sb -> ~ orphan sb (recovered st D) k) ->
  exists s' V' D' news, fsinit ROOTDEV s = Ok tt s' /\ txn i st 0 [] [] V' D' (news ++ P) s' /\ k_sb s' = sb /\ mount_frame s s' /\
    matches st V' (recovered st D) /\ forall d, d ∈ D' :: news -> matches st (recovered st d) (recovered st D).
Proof.
  intros B H1 H2 H3 H4 H5 H6 H7 H8. destruct (fsinit_rule i V D P s sb st B H1 H2 H3 H4 H5 H6 H7 H8) as (s' & V' & D' & news & E & T & Hs & F & _ & M & Hd).
  by exists s', V', D', news.
Qed.

(** C9. The kernel mounts what mkfs built.  On a disk with an image of mkfs
    and an empty buffer cache, [fsinit] returns with the super block read and the
    log ready for a transaction; then [ilock] and [readi] on any file of
    the image yield exactly the contents of the argument it was built from. *)
Theorem mkfs_mounts i args V W P s : mkfs_image args W -> Z.of_nat (length args) <= 198 -> blocks i [] [] V W P s ->
  lg_outstanding (k_log s) = 0 -> lg_committing (k_log s) = false ->
  exists s1, fsinit ROOTDEV s = Ok tt s1 /\ k_sb s1 = the_sb /\ (exists V1 D1 P1, txn i 2 0 [] [] V1 D1 P1 s1) /\
    forall k a jp n (z := k_itable s jp), args !! k = Some a -> i_inum z = 2 + Z.of_nat k -> i_dev z = ROOTDEV -> i_valid z = false -> 1 <= i_ref z ->
      sl_locked (k_sleeplocks s (SL_inode jp)) = false -> Z.of_nat (length (contents_of a)) <= n < 0x80000000 ->
      exists s2 s3, ilock jp s1 = Ok tt s2 /\ i_type (k_itable s2 jp) = T_FILE /\
        readi jp (Klocal []) 0 n s2 = Ok (Z.of_nat (length (contents_of a)), contents_of a) s3.
Proof.
  intros M Hlen B Ho Hc. destruct (image_mountable args W M Hlen) as (MR & R & F & O). pose proof (mi_bitmap _ _ M) as FW.
  destruct (fsinit_rule i V W P s the_sb 2 B (mi_super _ _ M) eq_refl eq_refl R Ho Hc F O) as (s1 & V1 & D1 & news & E & T1 & Hs1 & Fr & _ & MV & _).
  exists s1. split; [done|]. split; [done|]. split; [by exists V1, D1, (news ++ P)|]. intros k a jp n z Ha Hi Hd Hv Hr Hl Hn. pose proof (mf_itable _ _ Fr) as It.
  apply (load_and_read i V1 D1 (news ++ P) s1 W (2 + Z.of_nat k)); rewrite ?It, ?(mf_ilocks _ _ Fr); try done.
  - by apply (matches_trans 2 _ (recovered 2 W)).
  - by apply (mi_files _ _ M).
Qed.
End kernel.

(** ** One program on a disk *)

(** user/_cat, read in two pieces. *)
Definition cat_input : input := ([117; 115; 101; 114; 47; 95; 99; 97; 116], Some [Some [1; 2; 3]; Some [4; 5]; Some []]).

Lemma cat_good : good_input cat_input.
Proof.
  split.
  - split; [|done]. by repeat constructor.
  - apply (bool_decide_unpack _). by vm_compute.
  - eexists. split; [reflexivity|]. by repeat constructor.
  - by vm_compute.
Qed.

Lemma mkfs_correct_witness : exists s', main [cat_input] empty_image = Ok tt s' /\ data (h_img s') (inode_at (h_img s') 2) = [1; 2; 3; 4; 5].
Proof.
  destruct (mkfs_correct [cat_input] empty_image eq_refl eq_refl (proj2 (Forall_singleton _ _) cat_good) ltac:(by vm_compute) ltac:(by vm_compute) ltac:(by vm_compute))
    as (s' & E & _ & M). exact (ex_intro _ s' (conj E (fa_data _ _ _ _ (mi_files _ _ M 0%nat cat_input eq_refl)))).
Defined.

Lemma cats_good : Forall good_input (replicate 62 cat_input).
Proof. apply Forall_replicate, cat_good. Qed.

(** 62 programs fill the block of the root directory. *)
Lemma mkfs_root_hole_witness : exists s', main (replicate 62 cat_input) empty_image = Ok tt s' /\ block_at (h_img s') (inode_at (h_img s') ROOTINO) 1 = 0.
Proof.
  destruct (mkfs_root_hole (replicate 62 cat_input) empty_image eq_refl eq_refl cats_good ltac:(by vm_compute) ltac:(by vm_compute) ltac:(by vm_compute))
    as (s' & E & _ & H & _). exact (ex_intro _ s' (conj E H)).
Defined.

(** A kernel that has just started, with a cache entry for inode 2. *)
Definition with_entry (s : kstate) : kstate :=
  k_set_itable (fun _ => mkInode ROOTDEV 2 1 false 0 0 0 0 0 (fun _ => 0))
    (k_set_sleeplocks (fun l => match l with SL_inode _ => mkSleep false 0 | _ => k_sleeplocks s l end) s).

Lemma with_entry_blocks V D P s : blocks 0 [] [] V D P s -> blocks 0 [] [] V D P (with_entry s).
Proof.
  intros [(pin & l & [] & Hpin) [[] ? ?] ? ? ? ? ?]. split; try done. exists pin, l. split; [by split|done].
Qed.

Lemma with_entry_log s : k_log (with_entry s) = k_log s.
Proof. done. Qed.

Lemma with_entry_entry s : k_itable (with_entry s) 0 = mkInode ROOTDEV 2 1 false 0 0 0 0 0 (fun _ => 0) /\ sl_locked (k_sleeplocks (with_entry s) (SL_inode 0)) = false.
Proof. done. Qed.

Lemma cat_size : Z.of_nat (length (contents_of cat_input)) <= 100 < 0x80000000.
Proof. by vm_compute. Qed.

Lemma mkfs_mounts_witness : exists W s1 s2 s3, @fsinit disk_env ROOTDEV (with_entry (booted_on 0 W the_sb)) = Ok tt s1 /\
  @ilock disk_env 0 s1 = Ok tt s2 /\ @readi sample_layout disk_env 0 (Klocal []) 0 100 s2 = Ok (5, [1; 2; 3; 4; 5]) s3.
Proof.
  destruct (main_rule [cat_input] empty_image eq_refl eq_refl (proj2 (Forall_singleton _ _) cat_good) ltac:(by vm_compute) ltac:(by vm_compute) ltac:(by vm_compute))
    as (s' & _ & _ & M). set (W := h_img s') in M. clearbody W. destruct (booted_on_blocks 0 W the_sb) as (B & L & _). set (b := booted_on 0 W the_sb) in B, L.
  assert (lg_outstanding (k_log (with_entry b)) = 0 /\ lg_committing (k_log (with_entry b)) = false) as [Lo Lc] by (rewrite with_entry_log, L; split; reflexivity).
  destruct (@mkfs_mounts sample_layout disk_env sample_disk 0 [cat_input] W W [] (with_entry b) M ltac:(by vm_compute) (with_entry_blocks _ _ _ _ B) Lo Lc) as (s1 & E1 & _ & _ & H).
  destruct (with_entry_entry b) as [He Hl]. specialize (H 0%nat cat_input 0 100 eq_refl). cbv zeta in H. rewrite He in H.
  destruct (H eq_refl eq_refl eq_refl (Z.le_refl 1) Hl cat_size) as (s2 & s3 & E2 & _ & E3).
  exact (ex_intro _ W (ex_intro _ s1 (ex_intro _ s2 (ex_intro _ s3 (conj E1 (conj E2 E3)))))).
Defined.

Lemma fsinit_correct_witness : exists W s1, @fsinit disk_env ROOTDEV (booted_on 0 W the_sb) = Ok tt s1 /\ k_sb s1 = the_sb.
Proof.
  destruct (main_rule [cat_input] empty_image eq_refl eq_refl (proj2 (Forall_singleton _ _) cat_good) ltac:(by vm_compute) ltac:(by vm_compute) ltac:(by vm_compute))
    as (s' & _ & _ & M). set (W := h_img s') in M. clearbody W. destruct (booted_on_blocks 0 W the_sb) as (B & L & _). set (b := booted_on 0 W the_sb) in B, L.
  assert (lg_outstanding (k_log b) = 0 /\ lg_committing (k_log b) = false) as [Lo Lc] by (rewrite L; split; reflexivity).
  destruct (image_mountable [cat_input] W M ltac:(by vm_compute)) as (_ & R & F & O).
  destruct (@fsinit_correct disk_env sample_disk 0 W W [] b the_sb 2 B (mi_super _ _ M) eq_refl eq_refl R Lo Lc F O) as (s1 & V' & D' & news & E & _ & Hs & _).
  exact (ex_intro _ W (ex_intro _ s1 (conj E Hs))).
Defined.
